(* ===== verification/_CoqProject ===== *)
-Q . S2P
Prelude.v
Segments.v
Hoare.v
Float32.v
Float64.v
Abs.v
McsDefs.v
Mcs.v
McsFacts.v
McsProps.v
Queue.v
QueueFacts.v
QueueProps.v
Qos.v
QosFacts.v
Usb.v
UsbProps.v
Firmware.v
FirmwareFacts.v
FirmwareProps.v
FirmwareInv.v
Sampling.v
FirmwareDemo.v
Hdlc.v
Comms.v
Module.v
ModuleFacts.v
Routing.v
ModuleProps.v
Daemon.v
DaemonProps.v
System.v
SystemProps.v
Lifecycle.v
LifecycleProps.v
Locks.v
Client.v
ClientFacts.v
ClientProps.v
Network.v
NetworkFacts.v
NetworkProps.v
Joining.v
NetTrace.v
AbsTest.v
McsTest.v
SdbTest.v
Native.v
DaemonTest.v
Sched.v
SchedFacts.v
SchedProps.v
SchedLocal.v
SchedRand.v
Json.v
JsonPrint.v
JsonSpec.v
JsonFacts.v
JsonParse.v
JsonRender.v
JsonWrite.v
JsonTame.v
JsonSafe.v
JsonProps.v
JsonTree.v
JsonTreeProps.v
SatTracker.v
SchedMain.v
SchedMat.v
CommsTest.v
Charger.v
Mcsg.v
McsgProps.v
McsgFile.v
JUnzip.v
AppXml.v
AppXmlFacts.v
AppCtrl.v
AppProps.v
AppDemo.v
