(* ===== verification/Prelude.v ===== *)
(** * The ABS software: a verification development.

    The repository holds the software of a small satellite platform built on a phone and
    an Arduino board.  Programs on the phone talk to a daemon, the System Data Bus (SDB),
    with packets of the Module Communication System (MCS); the daemon routes them
    between programs and to the board.  Next to it are a generator for the command
    tables, with the JSON library it reads its declarations with, a task scheduler, a control
    of installed applications, a native interface for Java programs and a program that
    tracks a satellite in pictures.

    ** The parts and the files

    A file [XProps] or [XFacts] proves what [X] defines; [XDemo] holds concrete
    instances.  Every definition keeps the name it has in the source.

    - [Prelude] (this file): outcomes, the state monad, machine integers, bytes and
      C strings, automation.  [Segments]: linked lists in a heap.  [Hoare]: triples and
      invariants of stateful code, with the tactic [keeps].
    - [Abs]: [Libraries/ABS/abs.c] over a model of file descriptors in which every
      byte has an arrival time ([World]).
    - [McsDefs], [Mcs], [McsFacts], [McsProps]: the packet codec,
      [Libraries/MCS/mcs.c] and [Include/mcs.h], for any generated command tables
      ([MCSTables]).
    - [Queue], [QueueFacts], [QueueProps]: the priority queue of pending packets,
      [SDB/sdb_queue.c], on a heap of doubly linked cells, refined to a sorted list.
    - [Qos], [QosFacts]: the log of events, [SDB/sdb_qos.c], a hash table of lists.
    - [Usb], [UsbProps]: the formats of the link to the board, both ends
      ([SDB/sdb_usb.c], [Arduino/abs/assets.ino]).
    - [Firmware], [FirmwareFacts], [FirmwareProps], [FirmwareInv], [Sampling],
      [FirmwareDemo]: the program of the board, [Arduino/abs/assets.ino] and [abs.ino].
      [Hdlc]: the frames of its radio, [Arduino/comms/hdlc.cpp].  [Comms]: the driver of
      the transceiver, [Arduino/comms/comms.cpp], as events on its bus.
    - [Module], [ModuleFacts], [Routing], [ModuleProps]: the thread of a module,
      [SDB/sdb_module.c].  [Daemon], [DaemonProps]: the observer, the director and the
      threads of the USB link ([sdb_observer.c], [sdb_director.c], [sdb_usb.c]).
    - [System], [SystemProps]: all threads together as a transition system.  [Locks]:
      the same threads at the level of their lock operations.  [Lifecycle],
      [LifecycleProps]: the start and the end of the daemon, [SDB/sdb.c] and the parts of
      the threads outside their loops.
    - [Client], [ClientFacts], [ClientProps]: the client library, [Libraries/SDB/sdb.c].
      [Network], [NetworkFacts], [NetworkProps]: any number of clients and the daemon,
      joined by sockets, with the rounds of the threads of both sides as events.
      [Joining]: how clients enter that network.  [NetTrace]: the network between two
      events of a delivery.  [Native]: the native interface, [Android/PayloadSDK(native)/src/main/jni].
    - [Float32], [Sched], [SchedFacts], [SchedProps], [SchedLocal], [SchedMain], [SchedMat]:
      the scheduler, [Scheduler/shed.c], [shed_local.c], [shed_mat.c], in single precision.
      [SchedRand]: the generator of random numbers of the C standard, as an instance.
    - [Float64], [Json], [JsonPrint], [JsonTree]: the JSON library, [MCS/cJSON.c], in double
      precision: the parser, the printer, the operations on trees.  [JsonSpec]: the
      grammar of JSON and the tree of a value.  [JsonFacts], [JsonParse], [JsonRender],
      [JsonWrite], [JsonSafe]: lemmas on strings and numbers, on reading texts, on the
      printed text, on the printer, on arbitrary input.  [JsonTame]: the texts on which the
      arithmetic of the parser is defined.  [JsonProps], [JsonTreeProps]: the
      properties.
    - [Mcsg], [McsgProps], [McsgFile]: the generator of the tables, [MCS/mcsg.c], from the
      text of the declarations to the text of the header and of the Java file.
    - [JUnzip]: the archive reader, [Libraries/app_ctrl/JUnzip].  [AppXml], [AppXmlFacts],
      [AppCtrl], [AppProps], [AppDemo]: the application control, [Libraries/app_ctrl].
    - [SatTracker]: the tracker, [SatTracker/AlgorithmPC].
    - The test programs and demonstrations.  [AbsTest]: the test library, [Libraries/Test/abs_test.c].
      [McsTest]: the test of the codec, [MCS/Test/mcs.c].  [SdbTest]: the test of the
      client library, [Libraries/SDB/Test/sdb.c], as a client of the network of [Network].
      [DaemonTest]: the test of the daemon, [SDB/Test/sdb.c].  [CommsTest]: the timing of
      the transceiver test, [Arduino/comms_test].  [Charger]: [HWmods/TestBCD/bcd.c].

    ** How the code is modelled

    C code is a function in the monad [ST S]: it maps a state to a result and a new state,
    or to [UB] where the behaviour is undefined (a pointer that is NULL, was never set or
    has ceased to be valid, an index outside an array, signed overflow, an access to a
    freed cell).  A theorem that a function returns [Ok] therefore also says that it is
    memory safe there.  Integers are [Z] with their wrap-around written out; buffers
    are lists of bytes, a pointer to a buffer is an option; linked structures live in a
    heap from addresses to cells.  Time passes only while a read waits.  In the JSON library a
    pointer into a text is the rest of the text, a block has the size the code computed for it,
    any allocation may fail and the blocks in use are counted.  Floating-point numbers are those
    of the Standard Library ([SpecFloat]).

    The state of the daemon ([Sys]) is the world, the table of modules, the log and the
    descriptor of the observer.  A round of a thread is a function on it.  Where a
    round waits on a condition variable the other threads run: [wakeups] lists what they do,
    and [System] requires each to be an execution of the daemon itself.  A mutex that another
    thread holds for ever is the flag [mod_locked].

    Code outside the repository is a parameter: the generated tables ([MCSTables], with the
    repository's own as an instance), the libraries of the board ([Libraries], [SDCard]),
    the database ([Sqlite], [SqliteTable]), zlib ([Zlib], with its contract [Inflates]), the
    random numbers of the scheduler ([Rand]), mathematical functions ([Libm], [Math]), OpenCV
    ([Vision]), and what the operating system answers at the start and end of the daemon.
    The queue is used by the daemon through the class [QueueSpec], which [QueueFacts]
    discharges.  In the table of commands the arrays of groups are never NULL.

    ** What the theorems show

    - Packets: what is written is read back, the reader accepts only well-formed packets and
      stays within its buffers and deadlines, whatever arrives.
    - The daemon: a request reaches its destination and the answer its sender
      through four rounds; requests that are not allowed are refused and change nothing else;
      the queues refine sorted lists, the log a list of events; in every reachable
      state the table, the regions, the queues and the log are well formed, a
      packet in a region stays there until the thread of its module takes it.  The locks
      exclude, but two modules can wait for each other for ever.  The daemon starts in the
      initial state of that system, its director gives up after five failures in a row, and
      a signal ends every thread, with the descriptors that are closed named, unless a thread is
      cancelled while it holds the lock of the table.
    - The network: requests of any number of clients, made one at a time, are answered from end
      to end, through the library of the sender, the daemon and the callback of the destination, and
      everything is as before afterwards; clients connect one after the other, up to the 20 modules
      of the table, each registered with its name and group.
    - The client library: answers are matched to requests, callbacks to commands, and the
      handshake is the one the daemon expects.  The native interface exchanges one packet
      and accepts what it should not.
    - The JSON library: every text of the grammar is read (numbers with a fraction or an exponent
      included, whose digits are less than 2^52), trees of integers are printed and read back,
      arbitrary text is read within bounds and without leaks where the arithmetic is defined,
      printing integers stays within its blocks whatever allocations fail, objects refine lists of named
      values, copies are copies, and removing blanks removes exactly the blanks.
    - The board: a request that crosses the link is executed as asked and its answer comes
      back to the same request; the state stays well formed under any defined interleaving of
      messages and interrupts; periodic pin commands write one sample per period; an event keeps its
      request, but not the data of that request.  A transmission
      puts on the bus of the transceiver exactly the frame of its data.
    - The scheduler, from its arguments on, visits every combination once, ends with a best one
      and releases every block it allocates; the generator turns the text of the declarations into the
      tables that the codec expects, up to the fields it gets wrong and to sizes that are no [int]; the application control reads
      permissions from manifests, stored or deflated, and launches accordingly; the
      tracker keeps the detections that no other one contains.
    - The test programs pass against the models of what they test: the codec for every command
      of any tables, the client library, each thread of the test of the daemon when it
      gets the answers it expects.  The test of the codec ends in undefined behaviour.
    - Where the code does not do what it means to, the theorem says what it does: the
      behaviours are listed as findings in the manifest.

    ** Bounds and fuel

    The loops over a queue or a log take the size of the heap as fuel, and the theorems show that
    this is enough on every well-formed heap; a read takes its timeout; [rounds_left] and
    [fair] bound the random generation of the scheduler, where the theorem assumes a fair
    source, as the one of [SchedRand] is; [steps W n] allows waits nested [n] deep, of the threads in [W], and [reachable] any depth; the loop
    over the events of the board takes [MAX_EVENTS] turns ([event_loop_terminates]); the reader of
    manifests takes as many turns as the manifest has bytes, and running out of them is a result of its
    own, [Unfinished], which never occurs ([manifest_reader_terminates]);
    the events of [Network] are given as a list, and the theorems name the list that is
    enough; the receiver of the radio takes any fuel, since it does not return.  The parser of JSON
    takes the length of the text as fuel for its nesting and its loops, which [json_text_parsed]
    and [json_parse_total] show to be enough, the removal of blanks one turn more; the loop that
    decompresses takes the compressed size ([inflate_loop_ok]).

    ** Not modelled

    - [sqlite/sqlite3.c] and its headers: a third-party database, which is a parameter.
    - The main loop of [Arduino/comms_test], which writes to a packet after it has released it, so
      that no run of it is defined; its [assets.ino] is a copy of the firmware's.
      [Arduino/test/firmware.c], which writes four constant packets of an earlier
      format for ever.
    - How the test programs start and end the daemon.
    - Names that only choose a library function ([cJSON_InitHooks]), the clock of the
      scheduler and negative sizes given to it, the pictures of the tracker.
    - Console output, except where it reads memory, and the release of memory, except in the
      JSON library and the scheduler and where a block is used after it.

    Two things in [comms.cpp] keep it from compiling, and the model takes a position: its chip
    select pin, defined as an assignment, is the number 49, and the two calls with one argument
    of functions that are defined with two are parameters. *)

From stdpp Require Export base list list_numbers gmap strings sorting.
From Stdlib Require Export ZArith Lia.
#[global] Open Scope Z_scope.

(** ** Outcomes: a value, or undefined behaviour of the C program. *)

Inductive outcome (A : Type) : Type :=
| Ok (a : A)
| UB.
Arguments Ok {A} _.
Arguments UB {A}.

#[export] Instance outcome_ret : MRet outcome := fun A a => Ok a.
#[export] Instance outcome_bind : MBind outcome :=
  fun A B f m => match m with Ok a => f a | UB => UB end.

(** The state-and-undefined-behaviour monad in which stateful code is written. *)
Definition ST (S A : Type) : Type := S -> outcome (A * S).

Definition st_ret {S A} (a : A) : ST S A := fun s => Ok (a, s).
Definition st_bind {S A B} (m : ST S A) (k : A -> ST S B) : ST S B :=
  fun s => match m s with Ok (a, s') => k a s' | UB => UB end.
Definition st_get {S} : ST S S := fun s => Ok (s, s).
Definition st_put {S} (s' : S) : ST S unit := fun _ => Ok (tt, s').
Definition st_gets {S A} (f : S -> A) : ST S A := fun s => Ok (f s, s).
Definition st_modify {S} (f : S -> S) : ST S unit := fun s => Ok (tt, f s).
Definition st_ub {S A} : ST S A := fun _ => UB.
Definition st_lift {S A} (m : outcome A) : ST S A :=
  fun s => match m with Ok a => Ok (a, s) | UB => UB end.

(** Sequencing of steps that may fail: a step returns [None] to stop. *)
Definition st_obind {S A B} (m : ST S (option A)) (k : A -> ST S (option B)) :
    ST S (option B) :=
  st_bind m (fun o => match o with Some a => k a | None => st_ret None end).

(** Run a computation on a component [T] of a larger state [S]. *)
Definition st_zoom {S T A} (get : S -> T) (set : T -> S -> S) (m : ST T A) : ST S A :=
  fun s => match m (get s) with Ok (a, t) => Ok (a, set t s) | UB => UB end.

Declare Scope st_scope.
Delimit Scope st_scope with st.
Notation "'let!' x ':=' m 'in' k" := (st_bind m (fun x => k))
  (at level 10, x pattern, m at level 100, k at level 200) : st_scope.
Notation "'do!' m 'in' k" := (st_bind m (fun _ => k))
  (at level 10, m at level 100, k at level 200) : st_scope.
Notation "'let?' x ':=' m 'in' k" := (st_obind m (fun x => k))
  (at level 10, x pattern, m at level 100, k at level 200) : st_scope.
#[global] Open Scope st_scope.

(** ** Arrays and counting loops. *)

Definition arr_get {A} (l : list A) (i : nat) : outcome A :=
  match l !! i with Some x => Ok x | None => UB end.

Definition arr_set {A} (l : list A) (i : nat) (x : A) : outcome (list A) :=
  match l !! i with Some _ => Ok (<[i := x]> l) | None => UB end.

(** [for (k = i; k < i + n; k++) body]. *)
Fixpoint for_ {S} (i n : nat) (body : nat -> S -> outcome S) (s : S) : outcome S :=
  match n with
  | O => Ok s
  | S n' => match body i s with Ok s' => for_ (Datatypes.S i) n' body s' | UB => UB end
  end.

Lemma obind_ok {A B} (m : outcome A) (f : A -> outcome B) a : m = Ok a -> (m ≫= f) = f a.
Proof. by intros ->. Qed.

Lemma arr_get_ok {A} (l : list A) i x : l !! i = Some x -> arr_get l i = Ok x.
Proof. unfold arr_get. by intros ->. Qed.

Lemma arr_set_ok {A} (l : list A) i x : (i < length l)%nat -> arr_set l i x = Ok (<[i := x]> l).
Proof. intros Hi. unfold arr_set. by destruct (lookup_lt_is_Some_2 l i Hi) as [y ->]. Qed.

Lemma for_app {S} i n m body (s : S) :
  for_ i (n + m) body s = (for_ i n body s ≫= for_ (i + n) m body).
Proof.
  revert i s. induction n as [|n IH]; intros i s; cbn; [by rewrite Nat.add_0_r|].
  destruct (body i s) as [s'|]; [|done]. rewrite IH. by rewrite Nat.add_succ_r.
Qed.

(** A loop keeps its invariant. *)
Lemma for_inv {S} (P : nat -> S -> Prop) body i n (s : S) :
  P i s ->
  (forall k s, (i <= k < i + n)%nat -> P k s -> exists s', body k s = Ok s' /\ P (Datatypes.S k) s') ->
  exists s', for_ i n body s = Ok s' /\ P (i + n)%nat s'.
Proof.
  revert i s. induction n as [|n IH]; intros i s Hs Hstep.
  - exists s. by rewrite Nat.add_0_r.
  - destruct (Hstep i s) as (s1 & E & H1); [lia|done|]. cbn. rewrite E.
    destruct (IH (Datatypes.S i) s1 H1) as (s2 & E2 & H2); [intros; apply Hstep; [lia|done]|].
    exists s2. by rewrite Nat.add_succ_r.
Qed.

(** ** Machine integers. *)

Definition u8 (z : Z) : Z := z mod 2 ^ 8.
Definition u16 (z : Z) : Z := z mod 2 ^ 16.
Definition u32 (z : Z) : Z := z mod 2 ^ 32.
Definition s8 (z : Z) : Z := (z + 2 ^ 7) mod 2 ^ 8 - 2 ^ 7.
Definition s32 (z : Z) : Z := (z + 2 ^ 31) mod 2 ^ 32 - 2 ^ 31.

Definition byte_ok (b : Z) : Prop := 0 <= b < 256.
Abbreviation bytes_ok := (Forall byte_ok).

(** Little-endian representation, least significant byte first. *)
Fixpoint le_bytes (n : nat) (z : Z) : list Z :=
  match n with
  | O => []
  | S n' => u8 z :: le_bytes n' (z / 256)
  end.

Fixpoint of_le (bs : list Z) : Z :=
  match bs with
  | [] => 0
  | b :: bs' => b + 256 * of_le bs'
  end.

(** ** C strings and memory blocks. *)

(** The bytes of a buffer up to its first NUL. *)
Fixpoint cstr (bs : list Z) : list Z :=
  match bs with
  | [] => []
  | b :: bs' => if b =? 0 then [] else b :: cstr bs'
  end.

Definition zlen {A} (l : list A) : Z := Z.of_nat (length l).

Definition strlen (bs : list Z) : Z := zlen (cstr bs).

(** [strcmp(a, b) == 0]. *)
Definition streq (a b : list Z) : bool := bool_decide (cstr a = cstr b).

(** The bytes of a literal. *)
Fixpoint str (s : string) : list Z :=
  match s with
  | EmptyString => []
  | String a s' => Z.of_N (Ascii.N_of_ascii a) :: str s'
  end.

(** [n] bytes read by [memcpy] from a pointer that is NULL or points to a block. *)
Definition memcpy (src : option (list Z)) (n : Z) : outcome (list Z) :=
  if n =? 0 then Ok []
  else match src with
       | Some bs => if n <=? zlen bs then Ok (take (Z.to_nat n) bs) else UB
       | None => UB
       end.

(** ** Heaps.

    A heap of cells of one type is a map from addresses; NULL is address 0. *)

Definition NULL : Z := 0.

(** [malloc] returns an address that is neither NULL nor in use. *)
Definition malloc_addr {V} (h : gmap Z V) : Z :=
  foldr (fun k m => Z.max m (k + 1)) 1 (map_to_list h).*1.

(** ** Decimal representation, as printed by [%u] and [%d]. *)

Fixpoint dec_digits (fuel : nat) (n : Z) : list Z :=
  match fuel with
  | O => []
  | S fuel' => if n <? 10 then [48 + n] else dec_digits fuel' (n / 10) ++ [48 + n mod 10]
  end.

(** Numbers below 10 ^ 20 ([%llu]) have at most 20 digits. *)
Definition dec (n : Z) : list Z := dec_digits 20 n.

Definition undec (ds : list Z) : Z := foldl (fun n d => 10 * n + (d - 48)) 0 ds.

(** ** Automation. *)

(** Split the innermost [match] or [if] of the goal, keeping the equation. *)
Ltac case_goal :=
  match goal with
  | |- context [match ?x with _ => _ end] =>
      lazymatch x with
      | context [match _ with _ => _ end] => fail
      | _ => destruct x eqn:?
      end
  end.

(** The same for a hypothesis. *)
Ltac case_hyp H :=
  match type of H with
  | context [match ?x with _ => _ end] =>
      lazymatch x with
      | context [match _ with _ => _ end] => fail
      | _ => destruct x eqn:?
      end
  end.

(** Turn boolean comparisons into propositions. *)
Ltac bool_prop :=
  repeat match goal with
  | H : (_ && _) = true |- _ => apply andb_true_iff in H as [? ?]
  | H : (_ || _) = false |- _ => apply orb_false_iff in H as [? ?]
  | H : negb _ = true |- _ => apply negb_true_iff in H
  | H : negb _ = false |- _ => apply negb_false_iff in H
  | H : (_ =? _) = true |- _ => apply Z.eqb_eq in H
  | H : (_ =? _) = false |- _ => apply Z.eqb_neq in H
  | H : (_ <? _) = true |- _ => apply Z.ltb_lt in H
  | H : (_ <? _) = false |- _ => apply Z.ltb_ge in H
  | H : (_ <=? _) = true |- _ => apply Z.leb_le in H
  | H : (_ <=? _) = false |- _ => apply Z.leb_gt in H
  end.

(** Prove [bytes_ok] of a literal. *)
Ltac bytes_lit := cbn; repeat constructor; unfold byte_ok; cbn; lia.

Create HintDb bytes discriminated.
Create HintDb st discriminated.
Create Rewrite HintDb bytes.
Create Rewrite HintDb st.

(** ** Lemmas. *)

Lemma st_bind_ok {S A B} (m : ST S A) (k : A -> ST S B) s a s' :
  m s = Ok (a, s') -> st_bind m k s = k a s'.
Proof. unfold st_bind. by intros ->. Qed.

Lemma st_bind_assoc {S A B} (m : ST S unit) (k : ST S A) (f : A -> ST S B) s :
  (do! m in let! x := k in f x) s = (let! x := (do! m in k) in f x) s.
Proof. unfold st_bind. by destruct (m s) as [[[] s']|]. Qed.

Lemma st_obind_ok {S A B} (m : ST S (option A)) (k : A -> ST S (option B)) s a s' :
  m s = Ok (Some a, s') -> st_obind m k s = k a s'.
Proof. unfold st_obind, st_bind. by intros ->. Qed.

Lemma u8_range z : byte_ok (u8 z).
Proof. unfold byte_ok, u8. pose proof (Z.mod_pos_bound z (2 ^ 8)). lia. Qed.

Lemma u8_small z : 0 <= z < 256 -> u8 z = z.
Proof. intros. unfold u8. apply Z.mod_small. lia. Qed.

Lemma u16_small z : 0 <= z < 65536 -> u16 z = z.
Proof. intros. unfold u16. apply Z.mod_small. lia. Qed.

Lemma u16_range z : 0 <= u16 z < 65536.
Proof. unfold u16. pose proof (Z.mod_pos_bound z (2 ^ 16)). lia. Qed.

Lemma u32_small z : 0 <= z < 2 ^ 32 -> u32 z = z.
Proof. intros. unfold u32. apply Z.mod_small. lia. Qed.

Lemma s8_range z : -128 <= s8 z < 128.
Proof. unfold s8. pose proof (Z.mod_pos_bound (z + 2 ^ 7) (2 ^ 8)). lia. Qed.

Lemma s32_small z : - 2 ^ 31 <= z < 2 ^ 31 -> s32 z = z.
Proof. intros. unfold s32. rewrite Z.mod_small; lia. Qed.

Lemma s32_range z : - 2 ^ 31 <= s32 z < 2 ^ 31.
Proof. unfold s32. pose proof (Z.mod_pos_bound (z + 2 ^ 31) (2 ^ 32)). lia. Qed.

Lemma s32_u32 z : s32 (u32 z) = s32 z.
Proof.
  unfold s32, u32. f_equal. rewrite Zplus_mod_idemp_l. done.
Qed.

Lemma le_bytes_length n z : length (le_bytes n z) = n.
Proof. revert z. induction n; intros; cbn; auto. Qed.

Lemma le_bytes_zlen n z : zlen (le_bytes n z) = Z.of_nat n.
Proof. unfold zlen. by rewrite le_bytes_length. Qed.

Lemma le_bytes_ok n z : bytes_ok (le_bytes n z).
Proof. revert z. induction n; intros; cbn; constructor; auto using u8_range. Qed.

Lemma of_le_bytes n z : of_le (le_bytes n z) = z mod 256 ^ Z.of_nat n.
Proof.
  revert z. induction n as [|n IH]; intros z.
  - cbn. symmetry. apply Z.mod_1_r.
  - cbn [le_bytes of_le]. rewrite IH, Nat2Z.inj_succ, Z.pow_succ_r by lia.
    unfold u8. change (2 ^ 8) with 256.
    rewrite Z.rem_mul_r; [lia|lia|]. apply Z.pow_pos_nonneg; lia.
Qed.

Lemma of_le_range bs : bytes_ok bs -> 0 <= of_le bs < 256 ^ zlen bs.
Proof.
  unfold zlen. induction 1 as [|b bs Hb _ IH]; cbn [of_le length]; [lia|].
  rewrite Nat2Z.inj_succ, Z.pow_succ_r by lia. unfold byte_ok in Hb. lia.
Qed.

Lemma le_bytes_of_le bs : bytes_ok bs -> le_bytes (length bs) (of_le bs) = bs.
Proof.
  induction 1 as [|b bs Hb _ IH]; cbn [of_le length le_bytes]; [done|].
  unfold byte_ok in Hb. f_equal.
  - unfold u8. change (2 ^ 8) with 256.
    rewrite Z.mul_comm, Z.mod_add by lia. apply Z.mod_small. lia.
  - replace ((b + 256 * of_le bs) / 256) with (of_le bs); [done|].
    rewrite Z.mul_comm, Z.div_add by lia. rewrite Z.div_small by lia. lia.
Qed.

Lemma of_le_bytes_small n z :
  0 <= z < 256 ^ Z.of_nat n -> of_le (le_bytes n z) = z.
Proof. intros. rewrite of_le_bytes. by apply Z.mod_small. Qed.

Lemma zlen_nonneg {A} (l : list A) : 0 <= zlen l.
Proof. unfold zlen. lia. Qed.

Lemma zlen_app {A} (l k : list A) : zlen (l ++ k) = zlen l + zlen k.
Proof. unfold zlen. rewrite length_app. lia. Qed.

Lemma zlen_cons {A} (x : A) l : zlen (x :: l) = 1 + zlen l.
Proof. unfold zlen. cbn [length]. lia. Qed.

Lemma zlen_nil {A} : zlen (@nil A) = 0.
Proof. done. Qed.

Lemma zlen_0 {A} (l : list A) : zlen l = 0 -> l = [].
Proof. destruct l; [done|]. rewrite zlen_cons. pose proof (zlen_nonneg l). lia. Qed.

Lemma take_zlen {A} (l : list A) : take (Z.to_nat (zlen l)) l = l.
Proof. unfold zlen. rewrite Nat2Z.id. apply firstn_all. Qed.

Lemma memcpy_all bs : memcpy (Some bs) (zlen bs) = Ok bs.
Proof.
  unfold memcpy. destruct (zlen bs =? 0) eqn:E; bool_prop.
  - by rewrite (zlen_0 bs).
  - by rewrite Z.leb_refl, take_zlen.
Qed.

(** Reassembling the bytes of a word. *)
Lemma lor_bytes hi lo n : 0 <= n -> 0 <= lo < 2 ^ n -> Z.lor (Z.shiftl hi n) lo = hi * 2 ^ n + lo.
Proof.
  intros Hn Hlo. rewrite Z.shiftl_mul_pow2 by done. symmetry. apply Z.add_nocarry_lor.
  apply Z.bits_inj'. intros k Hk. rewrite Z.land_spec, Z.bits_0.
  destruct (Z.ltb_spec k n) as [Hkn|Hkn].
  - by rewrite Z.mul_pow2_bits_low.
  - assert (Hb : Z.testbit lo k = false).
    { destruct (Z.eq_dec lo 0) as [-> |Hne]; [apply Z.bits_0|]. apply Z.bits_above_log2; [lia|].
      apply Z.log2_lt_pow2; [lia|]. pose proof (Z.pow_le_mono_r 2 n k). lia. }
    by rewrite Hb, andb_false_r.
Qed.

Lemma cstr_no_nul bs : Forall (fun b => b <> 0) bs -> cstr bs = bs.
Proof.
  induction 1 as [|b bs Hb _ IH]; cbn; [done|].
  destruct (b =? 0) eqn:E; bool_prop; [done|]. by rewrite IH.
Qed.

Lemma cstr_nonzero bs : Forall (fun b => b <> 0) (cstr bs).
Proof.
  induction bs as [|b bs IH]; cbn; [constructor|].
  destruct (b =? 0) eqn:E; bool_prop; constructor; auto.
Qed.

Lemma cstr_idem bs : cstr (cstr bs) = cstr bs.
Proof. apply cstr_no_nul, cstr_nonzero. Qed.

Lemma cstr_bytes bs : bytes_ok bs -> bytes_ok (cstr bs).
Proof.
  induction 1 as [|b bs Hb _ IH]; cbn; [constructor|].
  destruct (b =? 0); constructor; auto.
Qed.

Lemma strlen_le bs : strlen bs <= zlen bs.
Proof.
  unfold strlen. induction bs as [|b bs IH]; cbn; [done|].
  destruct (b =? 0); rewrite ?zlen_cons, ?zlen_nil; [|lia].
  pose proof (zlen_nonneg bs). lia.
Qed.

Lemma streq_spec a b : streq a b = true <-> cstr a = cstr b.
Proof. unfold streq. apply bool_decide_eq_true. Qed.

(** Updating a key that is present is inserting the updated value. *)
Lemma alter_present `{Countable K} {V} (f : V -> V) (k : K) (v : V) (m : gmap K V) :
  m !! k = Some v -> alter f k m = <[k := f v]> m.
Proof.
  intros Hk. apply map_eq. intros j. rewrite lookup_alter, lookup_insert.
  case_decide; [|done]. subst. by rewrite Hk.
Qed.

Lemma malloc_addr_above {V} (h : gmap Z V) a : a ∈ (map_to_list h).*1 -> a < malloc_addr h.
Proof.
  unfold malloc_addr. induction ((map_to_list h).*1) as [|k l IH]; cbn.
  - intros Ha. by apply not_elem_of_nil in Ha.
  - intros [-> |Ha]%elem_of_cons; [lia|]. specialize (IH Ha). lia.
Qed.

Lemma malloc_addr_pos {V} (h : gmap Z V) : malloc_addr h <> NULL.
Proof.
  unfold malloc_addr, NULL. enough (1 <= foldr (fun k m => Z.max m (k + 1)) 1 (map_to_list h).*1)
    by lia. induction ((map_to_list h).*1); cbn; lia.
Qed.

Lemma malloc_addr_fresh {V} (h : gmap Z V) : h !! malloc_addr h = None.
Proof.
  destruct (h !! malloc_addr h) as [e|] eqn:E; [exfalso|done].
  apply elem_of_map_to_list in E.
  enough (malloc_addr h < malloc_addr h) by lia. apply malloc_addr_above.
  apply (list_elem_of_fmap_2' fst _ (malloc_addr h, e)); done.
Qed.

Lemma dec_digits_spec fuel n : 0 <= n < 10 ^ Z.of_nat fuel -> (0 < fuel)%nat ->
  undec (dec_digits fuel n) = n /\ Forall (fun d => 48 <= d <= 57) (dec_digits fuel n).
Proof.
  revert n. induction fuel as [|fuel IH]; intros n Hn Hf; [lia|]. cbn [dec_digits].
  destruct (n <? 10) eqn:E; bool_prop.
  - split; [cbn; lia|]. repeat constructor; lia.
  - rewrite Nat2Z.inj_succ, Z.pow_succ_r in Hn by lia.
    assert (Hd : 0 <= n / 10 < 10 ^ Z.of_nat fuel)
      by (split; [apply Z.div_pos; lia|apply Z.div_lt_upper_bound; lia]).
    assert (Hf' : (0 < fuel)%nat) by (destruct fuel; [cbn in Hd; pose proof (Z.div_le_mono 10 n 10); lia|lia]).
    destruct (IH (n / 10) Hd Hf') as [IHv IHd]. split.
    + unfold undec in *. rewrite foldl_app, IHv. cbn. pose proof (Z.div_mod n 10). lia.
    + apply Forall_app. split; [done|]. repeat constructor; pose proof (Z.mod_pos_bound n 10); lia.
Qed.

Lemma dec_digits_length fuel k n : 0 <= n < 10 ^ Z.of_nat k -> (0 < k)%nat ->
  (length (dec_digits fuel n) <= k)%nat.
Proof.
  revert k n. induction fuel as [|fuel IH]; intros k n Hn Hk; cbn; [lia|].
  destruct (n <? 10) eqn:E; bool_prop; [cbn; lia|].
  destruct k as [|[|k]]; [lia|cbn in Hn; lia|].
  rewrite length_app. cbn [length].
  enough (length (dec_digits fuel (n / 10)) <= S k)%nat by lia.
  apply IH; [|lia]. rewrite Nat2Z.inj_succ, Z.pow_succ_r in Hn by lia.
  split; [apply Z.div_pos; lia|apply Z.div_lt_upper_bound; lia].
Qed.

Lemma dec_spec n : 0 <= n < 10 ^ 20 ->
  undec (dec n) = n /\ Forall (fun d => 48 <= d <= 57) (dec n).
Proof. intros Hn. by apply dec_digits_spec; [|lia]. Qed.

Lemma dec_length k n : 0 <= n < 10 ^ Z.of_nat k -> (0 < k)%nat -> zlen (dec n) <= Z.of_nat k.
Proof. intros Hn Hk. unfold zlen. pose proof (dec_digits_length 20 k n Hn Hk). unfold dec. lia. Qed.

(** Distinct elements around one of them. *)
Lemma nodup_split {A} (z a : A) pre post :
  NoDup (z :: pre ++ a :: post) ->
  NoDup (z :: pre) /\ NoDup (z :: post) /\ NoDup (z :: pre ++ post) /\
  (a ∉ pre) /\ (a ∉ post) /\ a <> z /\ (forall y, y ∈ pre -> y ∈ post -> False).
Proof.
  intros [Hnull Hnd]%NoDup_cons.
  apply NoDup_app in Hnd as (Hpre & Hdis & Hr). apply NoDup_cons in Hr as [Ha Hpost].
  rewrite elem_of_app, !elem_of_cons in Hnull.
  assert (Hd : forall y, y ∈ pre -> y <> a /\ ~ (y ∈ post)).
  { intros y Hy. specialize (Hdis y Hy). rewrite !elem_of_cons in Hdis. tauto. }
  split_and!; try (apply NoDup_cons; split); try tauto.
  - rewrite elem_of_app. tauto.
  - apply NoDup_app. split_and!; [done| |done]. intros y Hy. by apply Hd.
  - intros Hy. by apply Hd in Hy as [? _].
  - intros He. destruct Hnull. right. left. done.
  - intros y Hy. apply Hd in Hy. tauto.
Qed.

(** Strings. *)
Lemma append_nil_r s : String.append s EmptyString = s.
Proof. induction s as [|a s IH]; [done|]. by apply (f_equal (String a)). Qed.

Lemma append_assoc s1 s2 s3 :
  String.append (String.append s1 s2) s3 = String.append s1 (String.append s2 s3).
Proof. induction s1 as [|a s1 IH]; [done|]. by apply (f_equal (String a)). Qed.

Lemma length_append s1 s2 :
  String.length (String.append s1 s2) = (String.length s1 + String.length s2)%nat.
Proof. induction s1 as [|a s1 IH]; [done|]. by apply (f_equal S). Qed.

Lemma nil_or_snoc {A} (l : list A) : l = [] \/ exists x r, l = r ++ [x].
Proof. induction l as [|x r _] using rev_ind; [by left|right; eauto]. Qed.

#[export] Hint Resolve u8_range le_bytes_ok cstr_bytes : bytes.
#[export] Hint Rewrite @zlen_app @zlen_cons @zlen_nil le_bytes_zlen : bytes.
