(* ===== verification/Segments.v ===== *)
(** * Segments: doubly linked lists in a heap.

    Two components keep their packets in doubly linked lists.  A cell holds some
    data and the addresses of its neighbours; [mk] builds it from the data, the
    previous and the next address.  [seg] is the part of the heap that holds a
    stretch of such a list, and the lemmas say how it changes when a link does. *)

From S2P Require Import Prelude.

Section Segments.
Context {D E : Type} {mk : D -> Z -> Z -> E}.

Abbreviation dcell := (Z * D)%type.

Definition hd_addr (xs : list dcell) (n : Z) : Z :=
  match xs with [] => n | x :: _ => x.1 end.
Fixpoint last_addr (p : Z) (xs : list dcell) : Z :=
  match xs with [] => p | x :: r => last_addr x.1 r end.

(** The cells of a segment that follows [p] and precedes [n], added to [m]. *)
Fixpoint seg (p : Z) (xs : list dcell) (n : Z) (m : gmap Z E) : gmap Z E :=
  match xs with
  | [] => m
  | x :: r => <[x.1 := mk x.2 p (hd_addr r n)]> (seg x.1 r n m)
  end.

Lemma hd_addr_app xs ys n : hd_addr (xs ++ ys) n = hd_addr xs (hd_addr ys n).
Proof. by destruct xs. Qed.

Lemma last_addr_app p xs ys : last_addr p (xs ++ ys) = last_addr (last_addr p xs) ys.
Proof. revert p. induction xs; cbn; auto. Qed.

Lemma seg_app p xs ys n m :
  seg p (xs ++ ys) n m = seg p xs (hd_addr ys n) (seg (last_addr p xs) ys n m).
Proof.
  revert p. induction xs as [|x xs IH]; intros p; cbn; [done|].
  by rewrite IH, hd_addr_app.
Qed.

Lemma seg_lookup_ne p xs n m a : a ∉ xs.*1 -> seg p xs n m !! a = m !! a.
Proof.
  revert p. induction xs as [|x xs IH]; intros p Ha; cbn; [done|].
  cbn in Ha. apply not_elem_of_cons in Ha as [Hx Ha].
  by rewrite lookup_insert_ne, IH by done.
Qed.

Lemma seg_insert p xs n m a e :
  a ∉ xs.*1 -> <[a := e]> (seg p xs n m) = seg p xs n (<[a := e]> m).
Proof.
  revert p. induction xs as [|x xs IH]; intros p Ha; cbn; [done|].
  cbn in Ha. apply not_elem_of_cons in Ha as [Hx Ha].
  by rewrite insert_insert_ne, IH by done.
Qed.

Lemma seg_delete p xs n m a :
  a ∉ xs.*1 -> delete a (seg p xs n m) = seg p xs n (delete a m).
Proof.
  revert p. induction xs as [|x xs IH]; intros p Ha; cbn; [done|].
  cbn in Ha. apply not_elem_of_cons in Ha as [Hx Ha].
  by rewrite delete_insert_ne, IH by done.
Qed.

Lemma seg_size p xs n : NoDup xs.*1 -> size (seg p xs n ∅) = length xs.
Proof.
  revert p. induction xs as [|x xs IH]; intros p Hn; cbn in *; [done|].
  apply NoDup_cons in Hn as [Hx Hn].
  by rewrite map_size_insert, seg_lookup_ne, lookup_empty, IH by done.
Qed.

(** The first and the last cell of a segment. *)
Lemma seg_head p x xs n m v :
  seg p (x :: xs) n m !! x.1 = Some (mk x.2 p (hd_addr xs n)) /\
  <[x.1 := mk x.2 v (hd_addr xs n)]> (seg p (x :: xs) n m) = seg v (x :: xs) n m.
Proof. cbn. by rewrite lookup_insert_eq, insert_insert_eq. Qed.

Lemma seg_last p xs x n m v : NoDup (xs ++ [x]).*1 ->
  seg p (xs ++ [x]) n m !! x.1 = Some (mk x.2 (last_addr p xs) n) /\
  <[x.1 := mk x.2 (last_addr p xs) v]> (seg p (xs ++ [x]) n m) = seg p (xs ++ [x]) v m.
Proof.
  rewrite fmap_app. intros Hn. apply NoDup_app in Hn as (_ & Hx & _).
  assert (Ha : x.1 ∉ xs.*1) by (intros Hi; apply (Hx _ Hi); cbn; constructor).
  rewrite !seg_app. cbn.
  rewrite seg_lookup_ne, lookup_insert_eq, seg_insert, insert_insert_eq by done. done.
Qed.

Lemma last_addr_nonnil p xs x : last_addr p (xs ++ [x]) = x.1.
Proof. by rewrite last_addr_app. Qed.

Lemma last_addr_elem p xs : last_addr p xs = p \/ last_addr p xs ∈ xs.*1.
Proof.
  revert p. induction xs as [|x xs IH]; intros p; cbn; [by left|].
  right. destruct (IH x.1) as [-> | ?]; [constructor|by constructor].
Qed.

Lemma last_addr_null xs : NULL ∉ xs.*1 -> last_addr NULL xs = NULL -> xs = [].
Proof.
  destruct (nil_or_snoc xs) as [-> |(x & r & ->)]; [done|].
  rewrite last_addr_nonnil, fmap_app, elem_of_app. intros Hn Hx.
  destruct Hn. right. rewrite <- Hx. constructor.
Qed.

Lemma hd_addr_null xs : NULL ∉ xs.*1 -> hd_addr xs NULL = NULL -> xs = [].
Proof. destruct xs; cbn; [done|]. intros Hn Hx. destruct Hn. rewrite <- Hx. constructor. Qed.

Lemma seg_lookup_elem p xs n m a : a ∈ xs.*1 -> exists e, seg p xs n m !! a = Some e.
Proof.
  revert p. induction xs as [|x xs IH]; intros p Ha; cbn in *; [by apply not_elem_of_nil in Ha|].
  destruct (decide (a = x.1)) as [-> |Hne]; [rewrite lookup_insert_eq; eauto|].
  apply elem_of_cons in Ha as [?|Ha]; [done|]. rewrite lookup_insert_ne by done. auto.
Qed.

(** The distinct addresses of a list with two cells in the middle. *)
Lemma nodup_middle (pre : list dcell) (b a : dcell) (post : list dcell) :
  NoDup (NULL :: (pre ++ b :: a :: post).*1) ->
  NoDup (NULL :: pre.*1) /\ NoDup (NULL :: post.*1) /\
  b.1 <> a.1 /\ (b.1 ∉ pre.*1) /\ (a.1 ∉ pre.*1) /\ (b.1 ∉ post.*1) /\ (a.1 ∉ post.*1) /\
  b.1 <> NULL /\ a.1 <> NULL /\ (forall y, y ∈ pre.*1 -> y ∈ post.*1 -> False).
Proof.
  rewrite fmap_app. cbn. intros [Hnull Hnd]%NoDup_cons.
  apply NoDup_app in Hnd as (Hpre & Hdis & Hr).
  apply NoDup_cons in Hr as [Hb Hr]. apply NoDup_cons in Hr as [Ha Hpost].
  rewrite elem_of_app, !elem_of_cons in Hnull. rewrite elem_of_cons in Hb.
  assert (Hd : forall y, y ∈ pre.*1 -> y <> b.1 /\ y <> a.1 /\ ~ (y ∈ post.*1)).
  { intros y Hy. specialize (Hdis y Hy). rewrite !elem_of_cons in Hdis. tauto. }
  split_and!; try (apply NoDup_cons; split); try tauto.
  - intros Hy. by apply Hd in Hy as [? _].
  - intros Hy. by apply Hd in Hy as (_ & ? & _).
  - intros He. destruct Hnull. right. left. done.
  - intros He. destruct Hnull. right. right. left. done.
  - intros y Hy. apply Hd in Hy. tauto.
Qed.

Lemma nodup_one (pre : list dcell) (a : dcell) (post : list dcell) :
  NoDup (NULL :: (pre ++ a :: post).*1) ->
  NoDup (NULL :: pre.*1) /\ NoDup (NULL :: post.*1) /\ NoDup (NULL :: (pre ++ post).*1) /\
  (a.1 ∉ pre.*1) /\ (a.1 ∉ post.*1) /\ a.1 <> NULL /\
  (forall y, y ∈ pre.*1 -> y ∈ post.*1 -> False).
Proof. rewrite !fmap_app. apply nodup_split. Qed.

End Segments.
