(* ===== verification/Hoare.v ===== *)
(** * Hoare: partial correctness of stateful code.

    A triple says what holds when a computation returns; where the computation is
    undefined it says nothing.  [keeps I m] is the triple of an invariant, and the
    tactic [keeps] takes a program apart along its binds, tests and matches. *)

From S2P Require Import Prelude.

Definition triple {S A} (P : S -> Prop) (m : ST S A) (Q : A -> S -> Prop) : Prop :=
  forall s a s', P s -> m s = Ok (a, s') -> Q a s'.

Abbreviation keeps I m := (triple I%function m (fun _ => I%function)).

Create HintDb keeps.

Section Rules.
Context {S : Type}.
Implicit Types (P I : S -> Prop).

Lemma triple_ret {A} (a : A) P (Q : A -> S -> Prop) : (forall s, P s -> Q a s) -> triple P (st_ret a) Q.
Proof. intros HQ s a' s' HP [= <- <-]. by apply HQ. Qed.

Lemma triple_bind {A B} (m : ST S A) (k : A -> ST S B) P (R : A -> S -> Prop) (Q : B -> S -> Prop) :
  triple P m R -> (forall a, triple (R a) (k a) Q) -> triple P (st_bind m k) Q.
Proof.
  intros Hm Hk s b s' HP E. unfold st_bind in E. destruct (m s) as [[a s1]|] eqn:Em; [|done].
  eapply Hk; [|exact E]. by eapply Hm.
Qed.

Lemma triple_obind {A B} (m : ST S (option A)) (k : A -> ST S (option B)) P
    (R : A -> S -> Prop) (Q : option B -> S -> Prop) :
  triple P m (fun o s => match o with Some a => R a s | None => Q None s end) ->
  (forall a, triple (R a) (k a) Q) -> triple P (st_obind m k) Q.
Proof.
  intros Hm Hk. eapply triple_bind; [exact Hm|]. intros [a|]; [apply Hk|]. by apply triple_ret.
Qed.

Lemma triple_weaken {A} (m : ST S A) P P' (Q Q' : A -> S -> Prop) :
  triple P m Q -> (forall s, P' s -> P s) -> (forall a s, Q a s -> Q' a s) -> triple P' m Q'.
Proof. intros Hm HP HQ s a s' H E. apply HQ. by eapply Hm; [apply HP|]. Qed.

(** A fact that does not depend on the state may be used. *)
Lemma triple_pure {A} (m : ST S A) P (F : Prop) (Q : A -> S -> Prop) :
  (F -> triple P m Q) -> triple (fun s => P s /\ F) m Q.
Proof. intros Hm s a s' [HP HF] E. by eapply Hm. Qed.

Lemma triple_false {A} (m : ST S A) P (Q : A -> S -> Prop) : (forall s, P s -> False) -> triple P m Q.
Proof. intros HP s a s' H. by destruct (HP s). Qed.

Lemma triple_ub {A} P (Q : A -> S -> Prop) : triple P st_ub Q.
Proof. by intros s a s' _ E. Qed.

Lemma triple_lift {A} (m : outcome A) P :
  triple P (st_lift m) (fun a s => P s /\ m = Ok a).
Proof. intros s a s' HP E. unfold st_lift in E. destruct m; [|done]. by injection E as -> ->. Qed.

Lemma triple_get P : triple P st_get (fun a s => P s /\ a = s).
Proof. by intros s a s' HP [= -> ->]. Qed.

Lemma triple_modify f P (Q : unit -> S -> Prop) : (forall s, P s -> Q tt (f s)) -> triple P (st_modify f) Q.
Proof. intros HQ s a s' HP [= <- <-]. by apply HQ. Qed.

Lemma keeps_ret {A} (a : A) I : keeps I (st_ret a).
Proof. by apply triple_ret. Qed.

Lemma keeps_ub {A} I : keeps I (st_ub (A := A)).
Proof. apply triple_ub. Qed.

Lemma keeps_lift {A} (m : outcome A) I : keeps I (st_lift m).
Proof. eapply triple_weaken; [apply triple_lift|done|]. by intros a s [? _]. Qed.

Lemma keeps_get I : keeps I st_get.
Proof. by intros s a s' HP [= <- <-]. Qed.

Lemma keeps_gets {A} (f : S -> A) I : keeps I (st_gets f).
Proof. by intros s a s' HP [= <- <-]. Qed.

Lemma keeps_bind {A B} (m : ST S A) (k : A -> ST S B) I :
  keeps I m -> (forall a, keeps I (k a)) -> keeps I (st_bind m k).
Proof. apply triple_bind. Qed.

Lemma keeps_obind {A B} (m : ST S (option A)) (k : A -> ST S (option B)) I :
  keeps I m -> (forall a, keeps I (k a)) -> keeps I (st_obind m k).
Proof.
  intros Hm. apply triple_obind. eapply triple_weaken; [exact Hm|done|]. by intros [a|] s HI.
Qed.

End Rules.

#[export] Hint Resolve keeps_ret keeps_ub keeps_lift keeps_get keeps_gets : keeps.

(** Take an invariance goal apart; what is left are the steps with no hint. *)
Ltac keeps :=
  repeat first
    [ progress intros
    | solve [auto with keeps]
    | match goal with |- triple _ (st_bind _ _) _ => apply keeps_bind end
    | match goal with |- triple _ (st_obind _ _) _ => apply keeps_obind end
    | match goal with |- triple _ (match ?x with _ => _ end) _ => destruct x eqn:? end
    | progress cbv zeta ].

(** ** Total correctness: [m] is defined in [s] and what it returns satisfies [Q]. *)

Definition runs {S A} (m : ST S A) (s : S) (Q : A -> S -> Prop) : Prop :=
  exists a s', m s = Ok (a, s') /\ Q a s'.

Section Total.
Context {S : Type}.

Lemma runs_ret {A} (a : A) (s : S) (Q : A -> S -> Prop) : Q a s -> runs (st_ret a) s Q.
Proof. intros HQ. by exists a, s. Qed.

Lemma runs_bind {A B} (m : ST S A) (k : A -> ST S B) s (R : A -> S -> Prop) (Q : B -> S -> Prop) :
  runs m s R -> (forall a s', R a s' -> runs (k a) s' Q) -> runs (st_bind m k) s Q.
Proof.
  intros (a & s' & E & HR) Hk. destruct (Hk a s' HR) as (b & s'' & E' & HQ). exists b, s''. split; [|done].
  by rewrite (st_bind_ok _ _ _ _ _ E).
Qed.

Lemma runs_step {A B} (m : outcome A) (k : A -> ST S B) a s (Q : B -> S -> Prop) :
  m = Ok a -> runs (k a) s Q -> runs (st_bind (st_lift m) k) s Q.
Proof. by intros ->. Qed.

Lemma runs_lift {A} (m : outcome A) a s (Q : A -> S -> Prop) : m = Ok a -> Q a s -> runs (st_lift m) s Q.
Proof. intros -> HQ. by exists a, s. Qed.

Lemma runs_weaken {A} (m : ST S A) s (Q Q' : A -> S -> Prop) :
  runs m s Q -> (forall a s', Q a s' -> Q' a s') -> runs m s Q'.
Proof. intros (a & s' & E & HQ) HQQ. exists a, s'. auto. Qed.

End Total.
