(* ===== verification/Float32.v ===== *)
(** * Float32: single-precision arithmetic.

    The C type [float] as the binary32 format of IEEE 754, with the executable
    operations of the standard library's [SpecFloat] at precision 24 and maximal
    exponent 128, rounding to nearest, and the order [<] of the language. *)

From S2P Require Import Prelude.
From Stdlib Require Import SpecFloat.

Definition float : Type := spec_float.

Definition f_zero : float := S754_zero false.
Definition f_add (x y : float) : float := SFadd 24 128 x y.
Definition f_mul (x y : float) : float := SFmul 24 128 x y.
Definition f_div (x y : float) : float := SFdiv 24 128 x y.

(** [(float)n]. *)
Definition f_of_int (n : Z) : float := binary_normalize 24 128 n 0 false.

Definition f_lt (x y : float) : bool := SFltb x y.
Definition f_eq (x y : float) : bool := SFeqb x y.

Definition is_nan (x : float) : bool := match x with S754_nan => true | _ => false end.

(** ** The order. *)

(** A number as class, exponent and mantissa, ordered lexicographically. *)
Definition key (x : float) : Z * Z * Z :=
  match x with
  | S754_zero _ => (0, 0, 0)
  | S754_infinity s => (if s then -2 else 2, 0, 0)
  | S754_nan => (0, 0, 0)
  | S754_finite s m e => if s then (-1, - e, - Z.pos m) else (1, e, Z.pos m)
  end.

Definition key_lt (a b : Z * Z * Z) : Prop :=
  a.1.1 < b.1.1 \/ a.1.1 = b.1.1 /\ (a.1.2 < b.1.2 \/ a.1.2 = b.1.2 /\ a.2 < b.2).

Ltac key_tac :=
  cbn; split;
  [ intros E; first [discriminate E | split_and!; [done|done|lia]]
  | intros (? & ? & ?); first [discriminate | done | exfalso; lia] ].

Lemma f_lt_key x y : f_lt x y = true <-> is_nan x = false /\ is_nan y = false /\ key_lt (key x) (key y).
Proof.
  unfold f_lt, SFltb, SFcompare, key_lt.
  destruct x as [sx|sx| |sx mx ex], y as [sy|sy| |sy my ey];
    try destruct sx; try destruct sy; try key_tac;
    change (Pos.compare_cont Eq mx my) with (Pos.compare mx my);
    destruct (Z.compare_spec ex ey); try key_tac; destruct (Pos.compare_spec mx my); key_tac.
Qed.

Lemma f_lt_trans x y z : f_lt x y = true -> f_lt y z = true -> f_lt x z = true.
Proof. rewrite !f_lt_key. unfold key_lt. intros (? & ? & ?) (? & ? & ?). split_and!; [done|done|lia]. Qed.

Lemma f_lt_irrefl x : f_lt x x = false.
Proof. apply not_true_iff_false. rewrite f_lt_key. unfold key_lt. intros (_ & _ & ?). lia. Qed.

(** On numbers "not less" is transitive. *)
Lemma f_ge_trans x y z : is_nan y = false -> f_lt x y = false -> f_lt y z = false -> f_lt x z = false.
Proof.
  intros Hy Hxy Hyz. apply not_true_iff_false. rewrite f_lt_key. intros (Hx & Hz & Hk).
  apply not_true_iff_false in Hxy. apply not_true_iff_false in Hyz. rewrite f_lt_key in Hxy, Hyz.
  unfold key_lt in *. apply Hxy. split_and!; [done|done|].
  destruct (decide (key_lt (key y) (key z))) as [Hd|Hd]; [by destruct Hyz|]. unfold key_lt in Hd. lia.
Qed.
