(* ===== verification/Float64.v ===== *)
(** * Float64: double-precision arithmetic.

    The C type [double] as the binary64 format of IEEE 754, rounding to nearest, with
    conversions from and to [int] and the decimal output of [printf].  The lemmas
    show that sums and products of integers of less than 53 bits are exact. *)

From S2P Require Import Prelude.
From stdpp Require Import pretty.
From Stdlib Require Import SpecFloat Ascii.
#[local] Open Scope Z_scope.

Definition double : Type := spec_float.

Definition d_zero : double := S754_zero false.
Definition d_add (x y : double) : double := SFadd 53 1024 x y.
Definition d_sub (x y : double) : double := SFsub 53 1024 x y.
Definition d_mul (x y : double) : double := SFmul 53 1024 x y.
Definition d_div (x y : double) : double := SFdiv 53 1024 x y.
Definition fabs (x : double) : double := SFabs x.
Definition d_lt (x y : double) : bool := SFltb x y.
Definition d_le (x y : double) : bool := SFleb x y.

(** [(double)n]. *)
Definition d_of_int (n : Z) : double := binary_normalize 53 1024 n 0 false.

(** The integer part of a finite number. *)
Definition d_trunc (x : double) : option Z :=
  match x with
  | S754_zero _ => Some 0
  | S754_finite s m e => Some (let a := Z.shiftl (Z.pos m) e in if s then - a else a)
  | _ => None
  end.

(** [(int)x], undefined unless the integer part is an [int]. *)
Definition int_of_double (x : double) : outcome Z :=
  match d_trunc x with
  | Some z => if (- 2 ^ 31 <=? z) && (z <? 2 ^ 31) then Ok z else UB
  | None => UB
  end.

(** [floor(x)]. *)
Definition d_floor (x : double) : double :=
  match x with
  | S754_finite s m e =>
      if 0 <=? e then x
      else binary_normalize 53 1024 (Z.shiftr (if s then Z.neg m else Z.pos m) (- e)) 0 s
  | _ => x
  end.

(** ** Decimal output.

    [printf] prints the exact value, rounded half to even. *)

Section Format.
#[local] Open Scope string_scope.
#[local] Open Scope Z_scope.

(** [a / b] rounded to an integer. *)
Definition round_half_even (a b : Z) : Z :=
  let q := a / b in
  match Z.compare (2 * (a mod b)) b with
  | Lt => q
  | Gt => q + 1
  | Eq => if Z.even q then q else q + 1
  end.

(** A magnitude as a fraction. *)
Definition d_ratio (m : positive) (e : Z) : Z * Z :=
  if 0 <=? e then (Z.pos m * 2 ^ e, 1) else (Z.pos m, 2 ^ (- e)).

(** Fill with zeros on the left up to a width. *)
Definition zero_pad (w : nat) (s : string) : string :=
  Nat.iter (w - String.length s) (String "0"%char) s.

(** The number [n / 10 ^ prec]. *)
Definition fixed (prec : nat) (n : Z) : string :=
  let p := 10 ^ Z.of_nat prec in
  String.append (pretty (n / p))
    (if (prec =? 0)%nat then "" else String "."%char (zero_pad prec (pretty (n mod p)))).

Definition sign_text (s : bool) : string := if s then "-" else "".

(** [%.<prec>f]. *)
Definition format_f (prec : nat) (x : double) : string :=
  match x with
  | S754_zero s => String.append (sign_text s) (fixed prec 0)
  | S754_infinity s => String.append (sign_text s) "inf"
  | S754_nan => "nan"
  | S754_finite s m e =>
      let '(a, b) := d_ratio m e in
      String.append (sign_text s) (fixed prec (round_half_even (a * 10 ^ Z.of_nat prec) b))
  end.

(** [a / b >= 10 ^ k]. *)
Definition ge_pow10 (a b k : Z) : bool :=
  if 0 <=? k then b * 10 ^ k <=? a else b <=? a * 10 ^ (- k).

(** The largest exponent [k] with [10 ^ k <= a / b], searched downwards; a double is
    below [10 ^ 309] and above [10 ^ -324]. *)
Fixpoint decimal_exponent (fuel : nat) (a b k : Z) : Z :=
  match fuel with
  | O => k
  | S fuel => if ge_pow10 a b k then k else decimal_exponent fuel a b (k - 1)
  end.

(** [%.<prec>e]. *)
Definition format_e (prec : nat) (x : double) : string :=
  let tail k := String "e"%char (String (if k <? 0 then "-"%char else "+"%char) (zero_pad 2 (pretty (Z.abs k)))) in
  match x with
  | S754_zero s => String.append (sign_text s) (String.append (fixed prec 0) (tail 0))
  | S754_finite s m e =>
      let '(a, b) := d_ratio m e in
      let k := decimal_exponent 640 a b 309 in
      let d := Z.of_nat prec - k in
      let n := if 0 <=? d then round_half_even (a * 10 ^ d) b else round_half_even a (b * 10 ^ (- d)) in
      let '(n, k) := if n <? 10 ^ (Z.of_nat prec + 1) then (n, k) else (n / 10, k + 1) in
      String.append (sign_text s) (String.append (fixed prec n) (tail k))
  | _ => format_f prec x
  end.

End Format.

(** ** Powers of two in front of a mantissa. *)

Lemma digits2_log2 p : Z.pos (digits2_pos p) = Z.log2 (Z.pos p) + 1.
Proof.
  induction p as [p IH|p IH|]; cbn [digits2_pos]; [| |done].
  - rewrite Pos2Z.inj_succ, IH, Pos2Z.inj_xI, Z.log2_succ_double by lia. lia.
  - rewrite Pos2Z.inj_succ, IH, Pos2Z.inj_xO, Z.log2_double by lia. lia.
Qed.

Lemma iter_pos_iter {A} (f : A -> A) n x : iter_pos f n x = Pos.iter f x n.
Proof.
  revert x. induction n as [n IH|n IH|]; intros x; cbn [iter_pos Pos.iter]; [| |done].
  - rewrite !IH. rewrite <- !Pos.iter_swap. done.
  - by rewrite !IH.
Qed.

Lemma iter_xO m d : Z.pos (Pos.iter xO m d) = Z.pos m * 2 ^ Z.pos d.
Proof.
  induction d as [|d IH] using Pos.peano_ind; [cbn; lia|].
  rewrite Pos.iter_succ, Pos2Z.inj_xO, IH, Pos2Z.inj_succ, Z.pow_succ_r by lia. lia.
Qed.

(** Shifting out zeros loses nothing. *)
Lemma iter_shr n k : Pos.iter shr_1 (Build_shr_record (Z.pos n * 2 ^ Z.pos k) false false) k
  = Build_shr_record (Z.pos n) false false.
Proof.
  induction k as [|k IH] using Pos.peano_ind.
  - rewrite Z.mul_comm. done.
  - rewrite Pos.iter_succ_r, <- IH. f_equal.
    rewrite Pos2Z.inj_succ, Z.pow_succ_r by lia.
    assert (exists q, Z.pos n * 2 ^ Z.pos k = Z.pos q) as [q Hq].
    { exists (n * 2 ^ k)%positive. by rewrite Pos2Z.inj_mul, Pos2Z.inj_pow. }
    replace (Z.pos n * (2 * 2 ^ Z.pos k)) with (2 * (Z.pos n * 2 ^ Z.pos k)) by lia.
    rewrite Hq. done.
Qed.

(** The number [n] of at most 53 bits as a double: 53 bits of mantissa. *)
Definition exact (s : bool) (n : positive) : double :=
  let k := 53 - Z.pos (digits2_pos n) in
  S754_finite s (Z.to_pos (Z.pos n * 2 ^ k)) (- k).

Lemma log2_mul_pow2 n k : 0 <= k -> Z.log2 (Z.pos n * 2 ^ k) = Z.log2 (Z.pos n) + k.
Proof. intros Hk. rewrite Z.log2_mul_pow2 by lia. lia. Qed.

Lemma small_digits n : Z.pos n < 2 ^ 53 -> Z.pos (digits2_pos n) <= 53.
Proof. intros Hn. rewrite digits2_log2. pose proof (Z.log2_lt_pow2 (Z.pos n) 53). lia. Qed.

Lemma pos_pow2 n k : 0 <= k -> exists m, Z.pos m = Z.pos n * 2 ^ k.
Proof.
  intros Hk. assert (0 < Z.pos n * 2 ^ k) by (apply Z.mul_pos_pos; lia).
  destruct (Z.pos n * 2 ^ k) as [|m|m]; [lia|by exists m|lia].
Qed.

Lemma shr_fexp_exact n k : 0 <= k <= 200 -> Z.pos n < 2 ^ 53 -> 53 <= Z.pos (digits2_pos n) + k ->
  shr_fexp 53 1024 (Z.pos n * 2 ^ k) (- k) loc_Exact =
  (Build_shr_record (Z.pos n * 2 ^ (53 - Z.pos (digits2_pos n))) false false,
   - (53 - Z.pos (digits2_pos n))).
Proof.
  intros Hk Hn Hd. pose proof (small_digits n Hn) as Hs. unfold shr_fexp, fexp, emin.
  destruct (pos_pow2 n k) as [m Hm]; [lia|].
  assert (Zdigits2 (Z.pos n * 2 ^ k) = Z.pos (digits2_pos n) + k) as ->.
  { rewrite <- Hm. cbn [Zdigits2]. rewrite !digits2_log2, Hm, log2_mul_pow2 by lia. lia. }
  set (d := Z.pos (digits2_pos n)) in *. cbn [shr_record_of_loc].
  replace (Z.max (d + k + - k - 53) (3 - 1024 - 53) - - k) with (d + k - 53) by lia.
  destruct (d + k - 53) as [|p|p] eqn:E; [| |lia]; cbn [shr].
  - f_equal; [|lia]. do 2 f_equal. f_equal. lia.
  - destruct (pos_pow2 n (53 - d)) as [q Hq]; [lia|]. f_equal; [|lia].
    rewrite iter_pos_iter.
    replace (Z.pos n * 2 ^ k) with (Z.pos q * 2 ^ Z.pos p).
    + rewrite iter_shr, Hq. done.
    + rewrite Hq, <- Z.mul_assoc, <- Z.pow_add_r by lia. do 2 f_equal. lia.
Qed.

Lemma round_aux_exact s n k : 0 <= k <= 200 -> Z.pos n < 2 ^ 53 -> 53 <= Z.pos (digits2_pos n) + k ->
  binary_round_aux 53 1024 s (Z.pos n * 2 ^ k) (- k) loc_Exact = exact s n.
Proof.
  intros Hk Hn Hd. pose proof (small_digits n Hn) as Hs. unfold binary_round_aux.
  rewrite shr_fexp_exact by done. cbn [shr_m loc_of_shr_record round_nearest_even].
  rewrite shr_fexp_exact by lia. cbn [shr_m]. unfold exact.
  destruct (pos_pow2 n (53 - Z.pos (digits2_pos n))) as [q Hq]; [lia|]. rewrite <- Hq.
  case_match eqn:E; bool_prop; [done|lia].
Qed.

Lemma round_exact s n k : 0 <= k <= 100 -> Z.pos n < 2 ^ 53 -> forall m, Z.pos m = Z.pos n * 2 ^ k ->
  binary_round 53 1024 s m (- k) = exact s n.
Proof.
  intros Hk Hn m Hm. pose proof (small_digits n Hn) as Hs. unfold binary_round.
  assert (Z.pos (digits2_pos m) = Z.pos (digits2_pos n) + k) as ->
    by (rewrite !digits2_log2, Hm, log2_mul_pow2 by lia; lia).
  unfold fexp, emin, shl_align. set (d := Z.pos (digits2_pos n)) in *.
  replace (Z.max (d + k + - k - 53) (3 - 1024 - 53)) with (d - 53) by lia.
  destruct (d - 53 - - k) as [|p|p] eqn:E.
  - rewrite Hm. apply round_aux_exact; lia.
  - rewrite Hm. apply round_aux_exact; lia.
  - rewrite iter_xO, Hm, <- Z.mul_assoc, <- Z.pow_add_r by lia.
    replace (k + Z.pos p) with (53 - d) by lia. replace (d - 53) with (- (53 - d)) by lia.
    apply round_aux_exact; lia.
Qed.

(** ** Integers of at most 53 bits. *)

Lemma d_of_int_pos n : Z.pos n < 2 ^ 53 -> d_of_int (Z.pos n) = exact false n.
Proof. intros Hn. apply (round_exact false n 0); [lia|done|lia]. Qed.

Lemma d_of_int_neg n : Z.pos n < 2 ^ 53 -> d_of_int (Z.neg n) = exact true n.
Proof. intros Hn. apply (round_exact true n 0); [lia|done|lia]. Qed.

(** A signed integer with a scaled mantissa. *)
Lemma normalize_exact z k : 0 <= k <= 100 -> Z.abs z < 2 ^ 53 ->
  binary_normalize 53 1024 (z * 2 ^ k) (- k) false = d_of_int z.
Proof.
  intros Hk Hz. destruct z as [|n|n]; [done| |].
  - destruct (pos_pow2 n k) as [m Hm]; [lia|]. rewrite d_of_int_pos, <- Hm by lia.
    apply (round_exact false n k); done.
  - destruct (pos_pow2 n k) as [m Hm]; [lia|]. rewrite d_of_int_neg by lia.
    replace (Z.neg n * 2 ^ k) with (Z.neg m) by lia. apply (round_exact true n k); done.
Qed.

Lemma d_of_int_exact z : z <> 0 -> Z.abs z < 2 ^ 53 -> d_of_int z = exact (z <? 0) (Z.to_pos (Z.abs z)).
Proof. intros Hz Hs. destruct z as [|p|p]; [done|by apply d_of_int_pos|by apply d_of_int_neg]. Qed.

(** The mantissa and exponent of an integer. *)
Lemma d_of_int_finite z : z <> 0 -> Z.abs z < 2 ^ 53 ->
  exists m k, 0 <= k <= 52 /\ d_of_int z = S754_finite (z <? 0) m (- k) /\ Z.pos m = Z.abs z * 2 ^ k /\
    2 ^ 52 <= Z.pos m.
Proof.
  intros Hz Hs. set (n := Z.to_pos (Z.abs z)). assert (Hn : Z.pos n = Z.abs z) by (subst n; lia).
  pose proof (small_digits n). pose proof (Pos2Z.is_pos (digits2_pos n)).
  destruct (pos_pow2 n (53 - Z.pos (digits2_pos n))) as [m Hm]; [lia|].
  exists m, (53 - Z.pos (digits2_pos n)). split; [lia|]. split; [|split; [by rewrite <- Hn|]].
  - rewrite d_of_int_exact by done. fold n. unfold exact. by rewrite <- Hm.
  - pose proof (Z.log2_spec (Z.pos n)). rewrite Hm, digits2_log2.
    replace (2 ^ 52) with (2 ^ Z.log2 (Z.pos n) * 2 ^ (53 - (Z.log2 (Z.pos n) + 1))).
    + apply Z.mul_le_mono_nonneg_r; lia.
    + rewrite digits2_log2 in *. pose proof (Z.log2_nonneg (Z.pos n)). rewrite <- Z.pow_add_r by lia. f_equal. lia.
Qed.

Lemma shl_align_exp m e d : 0 <= d -> Z.pos (shl_align m e (e - d)).1 = Z.pos m * 2 ^ d.
Proof.
  intros Hd. unfold shl_align. replace (e - d - e) with (- d) by lia.
  destruct d as [|p|p]; [by rewrite Z.mul_1_r|apply iter_xO|lia].
Qed.

Lemma cond_opp_sign z k : cond_Zopp (z <? 0) (Z.abs z * 2 ^ k) = z * 2 ^ k.
Proof.
  unfold cond_Zopp. case_match eqn:E; bool_prop; [rewrite Z.abs_neq by lia; lia|by rewrite Z.abs_eq by lia].
Qed.

(** Addition of integers is exact. *)
Lemma d_add_int a b : Z.abs a < 2 ^ 53 -> Z.abs b < 2 ^ 53 -> Z.abs (a + b) < 2 ^ 53 ->
  d_add (d_of_int a) (d_of_int b) = d_of_int (a + b).
Proof.
  intros Ha Hb Hab. unfold d_add.
  destruct (decide (a = 0)) as [-> |Ha0].
  { rewrite Z.add_0_l. destruct (decide (b = 0)) as [-> |Hb0]; [done|].
    by destruct (d_of_int_finite b) as (m & k & _ & -> & _); [|lia|]. }
  destruct (decide (b = 0)) as [-> |Hb0].
  { rewrite Z.add_0_r. by destruct (d_of_int_finite a) as (m & k & _ & -> & _); [|lia|]. }
  destruct (d_of_int_finite a) as (m & k & Hk & -> & Hm & _); [done|lia|].
  destruct (d_of_int_finite b) as (n & j & Hj & -> & Hn & _); [done|lia|].
  cbn [SFadd]. set (i := Z.max k j). replace (Z.min (- k) (- j)) with (- i) by lia.
  assert (forall p, Z.pos p = Z.abs a * 2 ^ k -> Z.pos (shl_align p (- k) (- i)).1 = Z.abs a * 2 ^ i) as Ea.
  { intros p Hp. replace (- i) with (- k - (i - k)) by lia. rewrite shl_align_exp, Hp by lia.
    rewrite <- Z.mul_assoc, <- Z.pow_add_r by lia. do 2 f_equal. lia. }
  assert (forall p, Z.pos p = Z.abs b * 2 ^ j -> Z.pos (shl_align p (- j) (- i)).1 = Z.abs b * 2 ^ i) as Eb.
  { intros p Hp. replace (- i) with (- j - (i - j)) by lia. rewrite shl_align_exp, Hp by lia.
    rewrite <- Z.mul_assoc, <- Z.pow_add_r by lia. do 2 f_equal. lia. }
  rewrite (Ea m Hm), (Eb n Hn), !cond_opp_sign.
  rewrite <- Z.mul_add_distr_r. apply normalize_exact; lia.
Qed.


(** So is multiplication, up to the sign of zero. *)
Lemma d_mul_int a b : Z.abs a < 2 ^ 53 -> Z.abs b < 2 ^ 53 -> Z.abs (a * b) < 2 ^ 53 ->
  a * b <> 0 \/ 0 <= a /\ 0 <= b -> d_mul (d_of_int a) (d_of_int b) = d_of_int (a * b).
Proof.
  intros Ha Hb Hab Hz. unfold d_mul.
  destruct (decide (a = 0)) as [-> |Ha0].
  { rewrite Z.mul_0_l. destruct (decide (b = 0)) as [-> |Hb0]; [done|].
    destruct (d_of_int_finite b) as (m & k & _ & -> & _); [done|lia|]. cbn.
    by replace (b <? 0) with false by lia. }
  destruct (decide (b = 0)) as [-> |Hb0].
  { rewrite Z.mul_0_r. destruct (d_of_int_finite a) as (m & k & _ & -> & _); [done|lia|]. cbn.
    by replace (a <? 0) with false by lia. }
  destruct (d_of_int_finite a) as (m & k & Hk & -> & Hm & Hm52); [done|lia|].
  destruct (d_of_int_finite b) as (n & j & Hj & -> & Hn & Hn52); [done|lia|].
  cbn [SFmul]. set (p := Z.to_pos (Z.abs (a * b))).
  assert (Hp : Z.pos p = Z.abs (a * b)) by (subst p; lia). clearbody p.
  assert (Z.pos (m * n) = Z.pos p * 2 ^ (k + j)) as Emn.
  { rewrite Pos2Z.inj_mul, Hm, Hn, Hp, Z.abs_mul, Z.pow_add_r by lia. ring. }
  assert (Hd : 104 <= Z.log2 (Z.pos (m * n))).
  { apply Z.log2_le_pow2; [lia|]. change (2 ^ 104) with (2 ^ 52 * 2 ^ 52). rewrite Pos2Z.inj_mul.
    apply Z.mul_le_mono_nonneg; lia. }
  rewrite Emn in Hd. rewrite log2_mul_pow2 in Hd by lia.
  rewrite Emn. replace (- k + - j) with (- (k + j)) by lia.
  rewrite round_aux_exact; [|lia|lia|rewrite digits2_log2; lia].
  destruct (a * b) as [|q|q] eqn:Eab; [lia| |]; cbn [Z.abs] in Hp; injection Hp as ->.
  - rewrite d_of_int_pos by lia. f_equal. destruct (a <? 0) eqn:?, (b <? 0) eqn:?; bool_prop; try done; nia.
  - rewrite d_of_int_neg by lia. f_equal. destruct (a <? 0) eqn:?, (b <? 0) eqn:?; bool_prop; try done; nia.
Qed.

(** The conversions between [int] and [double] are inverse. *)
Lemma d_trunc_int z : Z.abs z < 2 ^ 53 -> d_trunc (d_of_int z) = Some z.
Proof.
  intros Hz. destruct (decide (z = 0)) as [-> |Hz0]; [done|].
  destruct (d_of_int_finite z) as (m & k & Hk & -> & Hm & _); [done|lia|]. cbn [d_trunc]. f_equal.
  rewrite Z.shiftl_opp_r, Z.shiftr_div_pow2, Hm, Z.div_mul by lia.
  case_match eqn:E; bool_prop; lia.
Qed.

Lemma int_of_double_int z : - 2 ^ 31 <= z < 2 ^ 31 -> int_of_double (d_of_int z) = Ok z.
Proof.
  intros Hz. unfold int_of_double. rewrite d_trunc_int by lia.
  by replace ((- 2 ^ 31 <=? z) && (z <? 2 ^ 31)) with true by (symmetry; apply andb_true_iff; lia).
Qed.

(** The order of integers. *)
Lemma d_of_int_exponent z : z <> 0 -> Z.abs z < 2 ^ 53 -> exists m,
  d_of_int z = S754_finite (z <? 0) m (Z.log2 (Z.abs z) - 52) /\
  Z.pos m = Z.abs z * 2 ^ (52 - Z.log2 (Z.abs z)).
Proof.
  intros Hz Hs. rewrite d_of_int_exact by done. unfold exact. rewrite digits2_log2.
  rewrite Z2Pos.id by lia. pose proof (Z.log2_lt_pow2 (Z.abs z) 53). pose proof (Z.log2_nonneg (Z.abs z)).
  replace (53 - (Z.log2 (Z.abs z) + 1)) with (52 - Z.log2 (Z.abs z)) by lia.
  eexists. split; [f_equal; lia|]. rewrite Z2Pos.id; [done|]. apply Z.mul_pos_pos; lia.
Qed.

Lemma d_compare_int a b : Z.abs a < 2 ^ 53 -> Z.abs b < 2 ^ 53 ->
  SFcompare (d_of_int a) (d_of_int b) = Some (a ?= b).
Proof.
  intros Ha Hb. destruct (decide (a = 0)) as [-> |Ha0].
  { destruct (decide (b = 0)) as [-> |Hb0]; [done|].
    destruct (d_of_int_exponent b) as (m & -> & _); [done|done|]. cbn. destruct b; [done..]. }
  destruct (decide (b = 0)) as [-> |Hb0].
  { destruct (d_of_int_exponent a) as (m & -> & _); [done|done|]. by destruct a. }
  destruct (d_of_int_exponent a) as (m & -> & Hm); [done|done|].
  destruct (d_of_int_exponent b) as (n & -> & Hn); [done|done|]. cbn [SFcompare]. f_equal.
  assert (Hc : match Z.log2 (Z.abs a) - 52 ?= Z.log2 (Z.abs b) - 52 with
    | Lt => Lt | Gt => Gt | Eq => Pos.compare m n end = (Z.abs a ?= Z.abs b)).
  { destruct (Z.compare_spec (Z.log2 (Z.abs a) - 52) (Z.log2 (Z.abs b) - 52)) as [E|E|E].
    - change (Pos.compare m n) with (Z.compare (Z.pos m) (Z.pos n)). rewrite Hm, Hn.
      replace (Z.log2 (Z.abs b)) with (Z.log2 (Z.abs a)) by lia.
      symmetry. apply Zmult_compare_compat_r. pose proof (Z.log2_lt_pow2 (Z.abs a) 53). lia.
    - symmetry. apply Z.compare_lt_iff. apply Z.log2_lt_cancel. lia.
    - symmetry. apply Z.compare_gt_iff. apply Z.log2_lt_cancel. lia. }
  change (Pos.compare_cont Eq m n) with (Pos.compare m n).
  assert (Hop : match Z.log2 (Z.abs a) - 52 ?= Z.log2 (Z.abs b) - 52 with
    | Lt => Gt | Gt => Lt | Eq => CompOpp (Pos.compare m n) end = CompOpp (Z.abs a ?= Z.abs b)).
  { rewrite <- Hc. by destruct (_ ?= _). }
  destruct (a <? 0) eqn:Ea, (b <? 0) eqn:Eb; bool_prop.
  - rewrite Hop, !Z.abs_neq by lia. rewrite Z.compare_opp. symmetry. apply Z.compare_antisym.
  - symmetry. apply Z.compare_lt_iff. lia.
  - symmetry. apply Z.compare_gt_iff. lia.
  - by rewrite Hc, !Z.abs_eq by lia.
Qed.

Lemma d_le_int a b : Z.abs a < 2 ^ 53 -> Z.abs b < 2 ^ 53 -> a <= b -> d_le (d_of_int a) (d_of_int b) = true.
Proof.
  intros Ha Hb Hab. unfold d_le, SFleb. rewrite d_compare_int by done. by destruct (Z.compare_spec a b); [..|lia].
Qed.

(** Subtraction is the addition of the opposite. *)
Lemma d_of_int_opp z : z <> 0 -> Z.abs z < 2 ^ 53 -> d_of_int (- z) = SFopp (d_of_int z).
Proof.
  intros Hz Hs. rewrite !d_of_int_exact by lia. unfold exact. cbn [SFopp]. rewrite Z.abs_opp. f_equal.
  destruct (z <? 0) eqn:?, (- z <? 0) eqn:?; bool_prop; done || lia.
Qed.

Lemma d_sub_int a b : Z.abs a < 2 ^ 53 -> Z.abs b < 2 ^ 53 -> Z.abs (a - b) < 2 ^ 53 ->
  d_sub (d_of_int a) (d_of_int b) = d_of_int (a - b).
Proof.
  intros Ha Hb Hab. destruct (decide (b = 0)) as [-> |Hb0].
  { rewrite Z.sub_0_r. destruct (decide (a = 0)) as [-> |Ha0]; [done|].
    by destruct (d_of_int_finite a) as (m & k & _ & -> & _); [|lia|]. }
  rewrite <- Z.add_opp_r, <- d_add_int, d_of_int_opp by lia.
  destruct (d_of_int_finite b) as (n & j & _ & -> & _); [done|lia|].
  unfold d_sub, d_add. destruct (d_of_int a); cbn [SFsub SFadd SFopp]; try done.
  f_equal. unfold cond_Zopp. by destruct (b <? 0); cbn [negb]; lia.
Qed.

Lemma d_sub_int_diag a : Z.abs a < 2 ^ 53 -> d_sub (d_of_int a) (d_of_int a) = d_zero.
Proof.
  intros Ha. destruct (decide (a = 0)) as [-> |Ha0]; [done|].
  destruct (d_of_int_finite a) as (m & k & _ & -> & _); [done|lia|]. unfold d_sub. cbn [SFsub].
  by rewrite Z.sub_diag.
Qed.
