(* ===== verification/Abs.v ===== *)
(** * Abs: the common library, [src/src/Architecture/Libraries/ABS/abs.c].

    Error codes and unit constants of [abs.h], a model of the POSIX calls the
    library makes ([gettimeofday], [select], [read], [write]) on a world of
    file descriptors, and the two functions every protocol layer reads and
    writes through, [abs_write] and [abs_read].

    A descriptor holds the bytes that will arrive on it, each with its arrival
    time in microseconds, the bytes written to it, and the room left for
    writing.  The clock only advances while [select] blocks. *)

From S2P Require Import Prelude.

(** ** Constants of [abs.h]. *)

Definition US_TO_SEC : Z := 1000000.

Definition EUNDEF : Z := -1.
Definition ETIMEOUT : Z := -8.
Definition ECONNREFUSED : Z := -10.
Definition EPERM : Z := -13.
Definition EBADMODID : Z := -104.
Definition ECMDFAULT : Z := -108.
Definition EHWFAULT : Z := -110.
Definition EBADFORMAT : Z := -113.

(** ** The operating system. *)

Record timeval := mkTV { tv_sec : Z; tv_usec : Z }.

(** An arrival: its time, and the byte [read] will return ([None]: [read] will
    not return one byte, as at end of file). *)
Record Fd := mkFd {
  fd_in : list (Z * option Z);
  fd_out : list Z;
  fd_cap : option Z  (** room for writing; [None]: unlimited *)
}.

Record World := mkWorld { w_now : Z; w_fds : gmap Z Fd }.

Definition set_now (t : Z) (w : World) : World := mkWorld t (w_fds w).
Definition set_fd (fd : Z) (f : Fd) (w : World) : World :=
  mkWorld (w_now w) (<[fd := f]> (w_fds w)).

Definition tv_us (tv : timeval) : Z := tv_sec tv * US_TO_SEC + tv_usec tv.

Definition gettimeofday : ST World timeval :=
  st_gets (fun w => mkTV (w_now w / US_TO_SEC) (w_now w mod US_TO_SEC)).

(** [select] on one descriptor, for reading. *)
Definition os_select (fd : Z) (tmo : timeval) : ST World Z := fun w =>
  if (tv_sec tmo <? 0) || (tv_usec tmo <? 0) then Ok (-1, w)
  else match w_fds w !! fd with
       | None => Ok (-1, w)
       | Some f =>
           match fd_in f with
           | (t, _) :: _ =>
               if t <=? w_now w + tv_us tmo
               then Ok (1, set_now (Z.max t (w_now w)) w)
               else Ok (0, set_now (w_now w + tv_us tmo) w)
           | [] => Ok (0, set_now (w_now w + tv_us tmo) w)
           end
       end.

(** [read(fd, buffer, 1)]: the return value and the byte stored. *)
Definition os_read1 (fd : Z) : ST World (Z * Z) := fun w =>
  match w_fds w !! fd with
  | None => Ok ((-1, 0), w)
  | Some f =>
      match fd_in f with
      | (_, Some b) :: rest =>
          Ok ((1, b), set_fd fd (mkFd rest (fd_out f) (fd_cap f)) w)
      | _ => Ok ((0, 0), w)
      end
  end.

(** [write(fd, buffer, n)] on a stream or pipe that may be full. *)
Definition os_write (fd : Z) (bs : list Z) : ST World Z := fun w =>
  match w_fds w !! fd with
  | None => Ok (-1, w)
  | Some f =>
      match fd_cap f with
      | None => Ok (zlen bs, set_fd fd (mkFd (fd_in f) (fd_out f ++ bs) None) w)
      | Some c =>
          if c <=? 0 then Ok (-1, w)
          else
            let n := Z.min c (zlen bs) in
            Ok (n, set_fd fd (mkFd (fd_in f) (fd_out f ++ take (Z.to_nat n) bs)
                                   (Some (c - n))) w)
      end
  end.

Definition os_close (fd : Z) : ST World unit :=
  st_modify (fun w => mkWorld (w_now w) (delete fd (w_fds w))).

(** [select] on several descriptors. *)
Definition next_arrival (w : World) (fd : Z) : option Z :=
  match w_fds w !! fd with
  | Some f => match fd_in f with (t, _) :: _ => Some t | [] => None end
  | None => None
  end.

Definition readable_at (w : World) (now fd : Z) : bool :=
  match next_arrival w fd with Some t => t <=? now | None => false end.

Definition fd_closed (w : World) (fd : Z) : bool :=
  match w_fds w !! fd with Some _ => false | None => true end.

(** Blocks, without a timeout, until a descriptor is readable; -1 when one of
    them is not open; [None] when nothing ever arrives. *)
Definition os_select_set (fds : list Z) : ST World (option (Z * list Z)) := fun w =>
  if existsb (fd_closed w) fds then Ok (Some (-1, []), w)
  else match omap (next_arrival w) fds with
       | [] => Ok (None, w)
       | t :: ts =>
           let now := Z.max (w_now w) (foldr Z.min t ts) in
           let ready := filter (fun fd => readable_at w now fd = true) fds in
           Ok (Some (zlen ready, ready), set_now now w)
       end.

(** ** [abs.c]. *)

Definition abs_malloc0 (size : Z) : list Z := replicate (Z.to_nat size) 0.

Definition abs_malloccpy (src : option (list Z)) (size : Z) : outcome (list Z) :=
  memcpy src size.

Definition abs_write (fd : Z) (buffer : list Z) : ST World Z :=
  let! size := os_write fd buffer in
  if size <? 0 then st_ret EUNDEF else st_ret size.

(** The loop of [abs_read]: [n] bytes are still to be read, [buffer] holds the
    ones read so far. *)
Fixpoint abs_read_loop (fd : Z) (end_ : timeval) (n : nat) (buffer : list Z)
    (max_time : timeval) : ST World (Z * list Z) :=
  match n with
  | O => st_ret (zlen buffer, buffer)
  | S n' =>
      let! sel := os_select fd max_time in
      if sel <=? 0 then st_ret (ETIMEOUT, buffer)
      else
        let! (r_op, b) := os_read1 fd in
        if negb (r_op =? 1) then st_ret (EUNDEF, buffer)
        else
          let! now := gettimeofday in
          let diff_time := s32 (tv_us end_ - tv_us now) in
          abs_read_loop fd end_ n' (buffer ++ [b])
            (mkTV (diff_time ÷ US_TO_SEC) (Z.rem diff_time US_TO_SEC))
  end.

(** The deadline [abs_read] computes from the current time. *)
Definition abs_read_end (now : timeval) (timeout_us : Z) : timeval :=
  let sec := tv_sec now + timeout_us ÷ US_TO_SEC in
  let usec := tv_usec now + Z.rem timeout_us US_TO_SEC in
  if US_TO_SEC <? usec then mkTV (sec + 1) usec else mkTV sec usec.

(** Returns the value of the call and the bytes stored in the buffer. *)
Definition abs_read (fd buf_size timeout_us : Z) : ST World (Z * list Z) :=
  let! now := gettimeofday in
  abs_read_loop fd (abs_read_end now timeout_us) (Z.to_nat buf_size) []
    (mkTV (timeout_us ÷ US_TO_SEC) (Z.rem timeout_us US_TO_SEC)).

(** ** Vocabulary of the specifications. *)

(** The events of [evs] bring exactly the bytes [bs], all before [now]. *)
Definition arrived (now : Z) : list Z -> list (Z * option Z) -> Prop :=
  Forall2 (fun b ev => ev.1 <= now /\ ev.2 = Some b).

(** The bytes [bs] can be read from [fd] without waiting. *)
Definition avail (fd : Z) (bs : list Z) (w : World) : Prop :=
  exists f evs rest, w_fds w !! fd = Some f /\ fd_in f = evs ++ rest /\
    arrived (w_now w) bs evs.

(** The world after [n] bytes have been read from [fd]. *)
Definition consume (fd : Z) (n : nat) (w : World) : World :=
  mkWorld (w_now w)
    (alter (fun f => mkFd (drop n (fd_in f)) (fd_out f) (fd_cap f)) fd (w_fds w)).

(** The world after [bs] has been written to [fd]. *)
Definition emit (fd : Z) (bs : list Z) (w : World) : World :=
  mkWorld (w_now w)
    (alter (fun f => mkFd (fd_in f) (fd_out f ++ bs) (fd_cap f)) fd (w_fds w)).

(** [fd] is open and takes everything written to it. *)
Definition writable (fd : Z) (w : World) : Prop :=
  exists f, w_fds w !! fd = Some f /\ fd_cap f = None.

(** What is still to be read from [fd], without the arrival times. *)
Definition incoming (fd : Z) (w : World) : list (option Z) :=
  match w_fds w !! fd with Some f => snd <$> fd_in f | None => [] end.

(** What has been written to each descriptor, and its room. *)
Definition outputs (w : World) : gmap Z (list Z * option Z) :=
  (fun f => (fd_out f, fd_cap f)) <$> w_fds w.

(** Going from [w] to [w'], exactly the bytes [bs] were read from [fd]. *)
Definition reads (fd : Z) (bs : list Z) (w w' : World) : Prop :=
  incoming fd w = (Some <$> bs) ++ incoming fd w' /\ outputs w' = outputs w /\ w_now w <= w_now w'.

(** [abs_read_end] adds one second too many. *)
Definition carries (now timeout_us : Z) : bool :=
  US_TO_SEC <? now mod US_TO_SEC + Z.rem timeout_us US_TO_SEC.

Definition deadline (now timeout_us : Z) : Z :=
  now + timeout_us + (if carries now timeout_us then US_TO_SEC else 0).

(** ** Lemmas. *)

Lemma tv_us_split d : tv_us (mkTV (d ÷ US_TO_SEC) (Z.rem d US_TO_SEC)) = d.
Proof. unfold tv_us, US_TO_SEC. cbn. pose proof (Z.quot_rem' d 1000000). lia. Qed.

Lemma tv_nonneg_split d : 0 <= d ->
  (tv_sec (mkTV (d ÷ US_TO_SEC) (Z.rem d US_TO_SEC)) <? 0)
  || (tv_usec (mkTV (d ÷ US_TO_SEC) (Z.rem d US_TO_SEC)) <? 0) = false.
Proof.
  intros Hd. cbn. unfold US_TO_SEC.
  pose proof (Z.quot_pos d 1000000). pose proof (Z.rem_nonneg d 1000000).
  apply orb_false_iff; split; apply Z.ltb_ge; lia.
Qed.

Lemma tv_us_now w :
  tv_us (mkTV (w_now w / US_TO_SEC) (w_now w mod US_TO_SEC)) = w_now w.
Proof.
  unfold tv_us, US_TO_SEC; cbn. pose proof (Z.div_mod (w_now w) 1000000). lia.
Qed.

Lemma abs_read_end_us w timeout : 0 <= timeout ->
  tv_us (abs_read_end (mkTV (w_now w / US_TO_SEC) (w_now w mod US_TO_SEC)) timeout)
  = deadline (w_now w) timeout.
Proof.
  intros Ht. unfold abs_read_end, deadline, carries. cbn.
  pose proof (Z.quot_rem' timeout US_TO_SEC).
  pose proof (Z.div_mod (w_now w) US_TO_SEC ltac:(done)).
  destruct (_ <? _); unfold tv_us, US_TO_SEC in *; cbn; lia.
Qed.

(** One iteration of the loop, in terms of the time left before [end_]. *)
Lemma deadline_range now timeout : 0 <= timeout ->
  now + timeout <= deadline now timeout <= now + timeout + US_TO_SEC.
Proof. intros. unfold deadline, US_TO_SEC. destruct (carries _ _); lia. Qed.

Lemma consume_avail fd bs1 bs2 w :
  avail fd (bs1 ++ bs2) w -> avail fd bs2 (consume fd (length bs1) w).
Proof.
  intros (f & evs & rest & Hf & Hin & Ha).
  apply Forall2_app_inv_l in Ha as (e1 & e2 & H1 & H2 & ->).
  eexists _, e2, rest. unfold consume; cbn. rewrite lookup_alter_eq, Hf. cbn.
  split_and!; [done| |done].
  rewrite Hin, <- app_assoc.
  apply Forall2_length in H1. by rewrite H1, drop_app_length.
Qed.

Lemma avail_app_l fd bs1 bs2 w : avail fd (bs1 ++ bs2) w -> avail fd bs1 w.
Proof.
  intros (f & evs & rest & Hf & Hin & Ha).
  apply Forall2_app_inv_l in Ha as (e1 & e2 & H1 & H2 & ->).
  exists f, e1, (e2 ++ rest). by rewrite Hin, <- app_assoc.
Qed.

Lemma consume_consume fd m n w :
  consume fd n (consume fd m w) = consume fd (m + n) w.
Proof.
  unfold consume. cbn. f_equal. rewrite alter_alter_eq. apply alter_ext.
  intros f _. cbn. by rewrite drop_drop.
Qed.

Lemma consume_0 fd w : consume fd 0 w = w.
Proof.
  destruct w as [t m]. unfold consume; cbn. f_equal. apply map_eq. intros k.
  rewrite lookup_alter. case_decide; [|done]. subst.
  by destruct (m !! k) as [[i o c]|].
Qed.

Lemma avail_cons fd b bs w :
  avail fd (b :: bs) w ->
  exists f t rest, w_fds w !! fd = Some f /\ fd_in f = (t, Some b) :: rest /\ t <= w_now w.
Proof.
  intros (f & evs & rest & Hf & Hin & Ha). inv Ha. destruct y as [t o]; cbn in *.
  destruct H1 as [? ->]. by exists f, t, (l' ++ rest).
Qed.

Lemma foldr_min_le t ts x : x ∈ t :: ts -> foldr Z.min t ts <= x.
Proof.
  induction ts as [|y ts IH]; cbn.
  - intros [-> |?%elem_of_nil]%elem_of_cons; [lia|done].
  - intros [-> |[-> |Hx]%elem_of_cons]%elem_of_cons.
    + assert (foldr Z.min t ts <= t) by (apply IH; constructor). lia.
    + lia.
    + assert (foldr Z.min t ts <= x) by (apply IH; by constructor). lia.
Qed.

(** When something is readable already, [select] returns at once. *)
Lemma select_ready fds w fd : existsb (fd_closed w) fds = false -> fd ∈ fds ->
  readable_at w (w_now w) fd = true ->
  exists n ready, os_select_set fds w = Ok (Some (n, ready), w) /\ 0 <= n /\
    forall x, x ∈ ready <-> x ∈ fds /\ readable_at w (w_now w) x = true.
Proof.
  intros Hopen Hfd Hr. unfold os_select_set. rewrite Hopen.
  assert (Ht : exists t, next_arrival w fd = Some t /\ t <= w_now w).
  { unfold readable_at in Hr. destruct (next_arrival w fd) as [t|]; [|done]. exists t. by bool_prop. }
  destruct Ht as (t & Hn & Hle).
  assert (Hel : t ∈ omap (next_arrival w) fds) by (apply list_elem_of_omap; by exists fd).
  destruct (omap (next_arrival w) fds) as [|t0 ts] eqn:Eo; [by apply elem_of_nil in Hel|].
  pose proof (foldr_min_le t0 ts t Hel). rewrite Z.max_l by lia.
  eexists _, _. split; [by destruct w|]. split; [apply Nat2Z.is_nonneg|].
  intros x. rewrite list_elem_of_filter. tauto.
Qed.

(** [select] and [read] on a descriptor with a byte waiting. *)
Lemma os_select_avail fd b bs tmo w :
  avail fd (b :: bs) w -> 0 <= tmo ->
  os_select fd (mkTV (tmo ÷ US_TO_SEC) (Z.rem tmo US_TO_SEC)) w = Ok (1, w).
Proof.
  intros (f & t & rest & Hf & Hin & Ht)%avail_cons Htmo.
  unfold os_select. rewrite tv_nonneg_split, Hf, Hin, tv_us_split by done.
  replace (t <=? w_now w + tmo) with true by lia.
  replace (Z.max t (w_now w)) with (w_now w) by lia.
  by destruct w.
Qed.

Lemma os_read1_avail fd b bs w :
  avail fd (b :: bs) w -> os_read1 fd w = Ok ((1, b), consume fd 1 w).
Proof.
  intros (f & t & rest & Hf & Hin & Ht)%avail_cons.
  unfold os_read1, consume, set_fd. rewrite Hf, Hin, (alter_present _ _ _ _ Hf).
  by rewrite Hin.
Qed.

Lemma w_now_consume fd n w : w_now (consume fd n w) = w_now w.
Proof. done. Qed.

Lemma abs_read_loop_avail fd end_ bs w buffer tmo :
  avail fd bs w -> 0 <= tmo -> 0 <= tv_us end_ - w_now w < 2 ^ 31 ->
  abs_read_loop fd end_ (length bs) buffer
    (mkTV (tmo ÷ US_TO_SEC) (Z.rem tmo US_TO_SEC)) w
  = Ok ((zlen (buffer ++ bs), buffer ++ bs), consume fd (length bs) w).
Proof.
  revert w buffer tmo. induction bs as [|b bs IH]; intros w buffer tmo Ha Htmo Hend.
  - cbn. by rewrite consume_0, app_nil_r.
  - cbn [length abs_read_loop]. unfold st_bind at 1.
    rewrite (os_select_avail _ _ _ _ _ Ha Htmo). cbn [Z.leb Z.compare].
    unfold st_bind at 1. rewrite (os_read1_avail _ _ _ _ Ha). cbn [negb Z.eqb Pos.eqb].
    unfold st_bind at 1, gettimeofday, st_gets.
    rewrite tv_us_now, w_now_consume, s32_small by lia.
    rewrite (IH (consume fd 1 w)).
    + rewrite consume_consume, <- app_assoc. done.
    + apply (consume_avail fd [b] bs), Ha.
    + lia.
    + by rewrite w_now_consume.
Qed.

(** [abs_read] of bytes that have already arrived returns exactly them. *)
Lemma abs_read_avail fd bs1 bs2 timeout w :
  avail fd (bs1 ++ bs2) w -> 0 <= timeout < 2 ^ 30 ->
  abs_read fd (zlen bs1) timeout w
  = Ok ((zlen bs1, bs1), consume fd (length bs1) w).
Proof.
  intros Ha%avail_app_l Ht. unfold abs_read, st_bind at 1, gettimeofday, st_gets.
  unfold zlen at 1. rewrite Nat2Z.id, abs_read_loop_avail; [done|done|lia|].
  rewrite abs_read_end_us by lia. pose proof (deadline_range (w_now w) timeout).
  unfold US_TO_SEC in *. lia.
Qed.

Lemma reads_refl fd w : reads fd [] w w.
Proof. split_and!; [done|done|lia]. Qed.

Lemma reads_app fd bs1 bs2 w w1 w2 :
  reads fd bs1 w w1 -> reads fd bs2 w1 w2 -> reads fd (bs1 ++ bs2) w w2.
Proof.
  intros (H1 & O1 & T1) (H2 & O2 & T2). split_and!; [|congruence|lia].
  by rewrite H1, H2, fmap_app, app_assoc.
Qed.

Lemma reads_set_now fd t w : w_now w <= t -> reads fd [] w (set_now t w).
Proof. intros. split_and!; done. Qed.

(** [select] never touches the streams and returns by its timeout. *)
Lemma os_select_spec fd tmo w :
  0 <= tmo -> exists r w',
    os_select fd (mkTV (tmo ÷ US_TO_SEC) (Z.rem tmo US_TO_SEC)) w = Ok (r, w') /\
    reads fd [] w w' /\ w_now w' <= w_now w + tmo.
Proof.
  intros Htmo. unfold os_select. rewrite tv_nonneg_split, tv_us_split by done.
  destruct (w_fds w !! fd) as [[[|[t o] rest] out cap]|]; cbn;
    repeat case_goal; bool_prop; eexists _, _; (split; [done|]);
    (split; [first [apply reads_refl | apply reads_set_now]|]); cbn; lia.
Qed.

Lemma os_read1_spec fd w : exists r b w',
  os_read1 fd w = Ok ((r, b), w') /\ w_now w' = w_now w /\
    (r = 1 /\ reads fd [b] w w' \/ r <> 1 /\ reads fd [] w w').
Proof.
  unfold os_read1.
  destruct (w_fds w !! fd) as [[[|[t [b|]] rest] out cap]|] eqn:Hf; cbn;
    eexists _, _, _; (split; [done|]); (split; [done|]);
    try (right; split; [done|apply reads_refl]).
  left. split; [done|]. unfold reads, incoming, outputs. cbn.
  rewrite Hf, lookup_insert_eq. cbn. split_and!; [done| |lia].
  rewrite fmap_insert. apply insert_id. by rewrite lookup_fmap, Hf.
Qed.

(** The loop of [abs_read] always ends, before [end_], with all the bytes or
    with one of the two error codes. *)
Lemma abs_read_loop_spec fd end_ n buffer tmo w :
  0 <= tmo -> w_now w + tmo <= tv_us end_ < w_now w + 2 ^ 31 ->
  exists ret got w',
    abs_read_loop fd end_ n buffer (mkTV (tmo ÷ US_TO_SEC) (Z.rem tmo US_TO_SEC)) w
    = Ok ((ret, buffer ++ got), w') /\
    reads fd got w w' /\ w_now w' <= tv_us end_ /\
    (ret = zlen buffer + Z.of_nat n /\ length got = n \/
     (ret = ETIMEOUT \/ ret = EUNDEF) /\ (length got < n)%nat).
Proof.
  revert buffer tmo w. induction n as [|n IH]; intros buffer tmo w Htmo Hend.
  { exists (zlen buffer), [], w. rewrite app_nil_r.
    split_and!; [done|apply reads_refl|lia|left; split; [lia|done]]. }
  destruct (os_select_spec fd tmo w Htmo) as (sel & w1 & Hsel & R1 & T1).
  cbn [abs_read_loop]. unfold st_bind at 1. rewrite Hsel.
  destruct (sel <=? 0).
  { exists ETIMEOUT, [], w1. rewrite app_nil_r.
    split_and!; [done|done|lia|right; split; [by left|cbn; lia]]. }
  destruct (os_read1_spec fd w1) as (r & b & w2 & Hrd & T2 & R2).
  unfold st_bind at 1. rewrite Hrd.
  destruct R2 as [[-> R2]|[Hr R2]].
  2:{ replace (r =? 1) with false by lia. cbn [negb].
      exists EUNDEF, [], w2. rewrite app_nil_r.
      split_and!; [done|exact (reads_app _ [] [] _ _ _ R1 R2)|lia|
                   right; split; [by right|cbn; lia]]. }
  cbn [negb Z.eqb Pos.eqb]. unfold st_bind at 1, gettimeofday, st_gets.
  pose proof R1 as (_ & _ & T0).
  rewrite tv_us_now, s32_small by lia.
  destruct (IH (buffer ++ [b]) (tv_us end_ - w_now w2) w2)
    as (ret & got & w3 & Hl & R3 & T3 & Hret); [lia|lia|].
  exists ret, (b :: got), w3. rewrite Hl, <- app_assoc.
  split_and!; [done| |done|].
  - exact (reads_app _ _ _ _ _ _ (reads_app _ _ _ _ _ _ R1 R2) R3).
  - rewrite zlen_app, zlen_cons, zlen_nil in Hret. cbn [length].
    destruct Hret as [[-> ?]|[? ?]]; [left|right]; split; lia || done.
Qed.

(** [abs_read] always returns; what it returns tells exactly whether the buffer
    is full, and it returns before its deadline. *)
Lemma abs_read_total fd n timeout w :
  0 <= n -> 0 <= timeout < 2 ^ 30 ->
  exists ret bs w',
    abs_read fd n timeout w = Ok ((ret, bs), w') /\ reads fd bs w w' /\
    w_now w' <= deadline (w_now w) timeout /\
    (ret = n /\ zlen bs = n \/ (ret = ETIMEOUT \/ ret = EUNDEF) /\ zlen bs < n).
Proof.
  intros Hn Ht. unfold abs_read, st_bind at 1, gettimeofday, st_gets.
  pose proof (deadline_range (w_now w) timeout ltac:(lia)) as Hd.
  set (e := abs_read_end _ timeout).
  assert (He : tv_us e = deadline (w_now w) timeout) by (apply abs_read_end_us; lia).
  destruct (abs_read_loop_spec fd e (Z.to_nat n) [] timeout w)
    as (ret & got & w' & Hl & R & T & Hret); [lia|unfold US_TO_SEC in Hd; lia|].
  rewrite Hl. exists ret, got, w'. rewrite He in T.
  split_and!; [done|done|done|]. unfold zlen in *. cbn in Hret.
  destruct Hret as [[-> ?]|[? ?]]; [left|right]; split; lia || done.
Qed.

Lemma os_write_writable fd bs w :
  writable fd w -> os_write fd bs w = Ok (zlen bs, emit fd bs w).
Proof.
  intros (f & Hf & Hc). unfold os_write, emit, set_fd.
  by rewrite Hf, Hc, (alter_present _ _ _ _ Hf), Hc.
Qed.

Lemma abs_write_writable fd bs w :
  writable fd w -> abs_write fd bs w = Ok (zlen bs, emit fd bs w).
Proof.
  intros Hw. unfold abs_write, st_bind. rewrite os_write_writable by done.
  pose proof (zlen_nonneg bs). by replace (zlen bs <? 0) with false by lia.
Qed.

Lemma emit_writable fd k bs w : writable k w -> writable k (emit fd bs w).
Proof.
  intros (f & Hf & Hc). unfold writable, emit; cbn. rewrite lookup_alter.
  case_decide; [subst|]; rewrite Hf; eexists; done.
Qed.

Lemma consume_writable fd k n w : writable k w -> writable k (consume fd n w).
Proof.
  intros (f & Hf & Hc). unfold writable, consume; cbn. rewrite lookup_alter.
  case_decide; [subst|]; rewrite Hf; eexists; done.
Qed.

#[export] Hint Resolve emit_writable consume_writable : st.

(** ** Properties. *)

(** C36: [abs_read] always returns.  Its value is the number of
    bytes asked for exactly when the buffer was filled with the next bytes of
    the stream, and one of the two error codes otherwise; nothing is written,
    and, when the microseconds of the deadline do not carry into the seconds,
    it has returned when the timeout expires. *)
Theorem abs_read_contract fd n timeout w :
  0 <= n -> 0 <= timeout < 2 ^ 30 ->
  exists ret bs w',
    abs_read fd n timeout w = Ok ((ret, bs), w') /\ reads fd bs w w' /\
    (ret = n <-> zlen bs = n) /\
    (zlen bs <> n -> (ret = ETIMEOUT \/ ret = EUNDEF) /\ zlen bs < n) /\
    (carries (w_now w) timeout = false -> w_now w' <= w_now w + timeout).
Proof.
  intros Hn Ht.
  destruct (abs_read_total fd n timeout w Hn Ht) as (ret & bs & w' & E & R & T & H).
  exists ret, bs, w'. unfold deadline, ETIMEOUT, EUNDEF in *.
  split_and!; [done|done|lia|lia|]. intros Hc. rewrite Hc in T. lia.
Qed.

(** A world with one byte ready and one arriving 60 ms later. *)
Definition two_byte_world : World :=
  mkWorld 5000000 {[3 := mkFd [(5000000, Some 7); (5060000, Some 8)] [] None]}.

Lemma abs_read_contract_witness :
  exists ret bs w',
    abs_read 3 2 100000 two_byte_world = Ok ((ret, bs), w') /\ ret = 2 /\ bs = [7; 8] /\
    w_now w' <= 5100000.
Proof.
  destruct (abs_read_contract 3 2 100000 two_byte_world) as (ret & bs & w' & E & _ & H & _ & T);
    [done|done|].
  exists ret, bs, w'. vm_compute in E. injection E as <- <- <-.
  split_and!; [done|done|done|]. apply T. reflexivity.
Defined.

(** When the microseconds of the deadline carry, the
    deadline is one second late: a byte that arrives up to one second after the
    timeout has expired is still accepted, and [abs_read] returns only then. *)
Theorem abs_read_carry_overrun now timeout b1 b2 t :
  0 <= timeout < 2 ^ 30 -> carries now timeout = true ->
  now + timeout < t <= now + timeout + US_TO_SEC ->
  exists w',
    abs_read 3 2 timeout (mkWorld now {[3 := mkFd [(now, Some b1); (t, Some b2)] [] None]})
    = Ok ((2, [b1; b2]), w') /\ w_now w' = t.
Proof.
  intros Ht Hc Hlate. set (w := mkWorld _ _).
  assert (Ha : avail 3 [b1] w).
  { eexists _, [(now, Some b1)], [(t, Some b2)]. cbn.
    split_and!; [done|done|]. by repeat constructor. }
  unfold abs_read, st_bind at 1, gettimeofday, st_gets.
  set (e := abs_read_end _ timeout).
  assert (He : tv_us e = now + timeout + US_TO_SEC).
  { unfold e. rewrite abs_read_end_us by lia. unfold deadline. cbn [w_now w]. by rewrite Hc. }
  clearbody e. change (Z.to_nat 2) with 2%nat. cbn [abs_read_loop].
  unfold st_bind at 1. rewrite (os_select_avail 3 b1 [] timeout w Ha) by lia.
  cbn [Z.leb Z.compare]. unfold st_bind at 1. rewrite (os_read1_avail 3 b1 [] w Ha).
  cbn [negb Z.eqb Pos.eqb]. unfold st_bind at 1, gettimeofday, st_gets.
  rewrite tv_us_now, He, w_now_consume, s32_small by (cbn; unfold US_TO_SEC; lia).
  change (w_now w) with now.
  set (w1 := consume 3 1 w).
  assert (Hw1 : w_fds w1 !! 3 = Some (mkFd [(t, Some b2)] [] None)) by done.
  assert (Hn1 : w_now w1 = now) by done. clearbody w1. clear w Ha.
  unfold st_bind at 1, os_select. rewrite tv_nonneg_split, Hw1, tv_us_split, Hn1 by (cbn; lia).
  cbn [fd_in]. replace (t <=? now + _) with true by (cbn; lia).
  cbn [Z.leb Z.compare]. unfold st_bind at 1, os_read1. cbn. rewrite Hw1. cbn.
  eexists. split; [done|]. cbn. lia.
Qed.

Lemma abs_read_carry_overrun_witness :
  exists w',
    abs_read 3 2 100000
      (mkWorld 5950000 {[3 := mkFd [(5950000, Some 7); (6500000, Some 8)] [] None]})
    = Ok ((2, [7; 8]), w') /\ w_now w' = 6500000.
Proof. apply (abs_read_carry_overrun 5950000 100000 7 8 6500000); vm_compute; done. Defined.
