(* ===== verification/McsDefs.v ===== *)
(** * McsDefs: the data model of the Modular Command System.

    The types of [src/src/Architecture/Include/mcs.h] and [sdb_group.h]: module
    groups, packet types, the packet record and the command tables.  The tables
    themselves ([auto_mcs.h]) are generated by the build, so they are a class
    parameter, [MCSTables]; so are the build options the C code depends on,
    [Build] (whether [DEBUG] is defined, the size of a pointer). *)

From S2P Require Import Prelude Abs.

(** ** [sdb_group.h]. *)

Inductive SDBGroup : Type :=
| SDB_GROUP_SYSCORE
| SDB_GROUP_PROCMAN
| SDB_GROUP_SDB
| SDB_GROUP_HWMOD
| SDB_GROUP_APP
| SDB_GROUP_MAX
| SDB_GROUP_ANY.  (** special group, nobody can be in it *)

#[export] Instance SDBGroup_eq_dec : EqDecision SDBGroup.
Proof. solve_decision. Defined.

(** The value of the enumeration constant. *)
Definition group_val (g : SDBGroup) : Z :=
  match g with
  | SDB_GROUP_SYSCORE => 0 | SDB_GROUP_PROCMAN => 1 | SDB_GROUP_SDB => 2
  | SDB_GROUP_HWMOD => 3 | SDB_GROUP_APP => 4 | SDB_GROUP_MAX => 5
  | SDB_GROUP_ANY => 6
  end.

Definition sdb_group_priority : list Z := [0; 1; 1; 99; 100].

Definition sdb_group_conversion : list (SDBGroup * list Z) :=
  [(SDB_GROUP_SYSCORE, str "syscore"); (SDB_GROUP_PROCMAN, str "procman");
   (SDB_GROUP_SDB, str "sdb"); (SDB_GROUP_HWMOD, str "hwmod");
   (SDB_GROUP_APP, str "app")].

(** ** [mcs.h]. *)

Definition MCS_READ_TIMEOUT_US : Z := 100000.
Definition MCS_COMMAND_TYPES : Z := 3.

(** [enum MCSType]; a packet's type is read from the wire, so it is a number. *)
Definition MCS_TYPE_MESSAGE : Z := 0.
Definition MCS_TYPE_STATE : Z := 1.
Definition MCS_TYPE_PAYLOAD : Z := 2.
Definition MCS_TYPE_OK : Z := 253.
Definition MCS_TYPE_OK_DATA : Z := 254.
Definition MCS_TYPE_ERR : Z := 255.

(** A pointer is [None] (NULL) or the block it points to; [pkt_dest] is the
    block without the terminating NUL the reader appends. *)
Record MCSPacket := mkMCSPacket {
  pkt_id : Z;
  pkt_type : Z;
  pkt_cmd : Z;
  pkt_nargs : Z;
  pkt_args : option (list Z);
  pkt_dest : option (list Z);
  pkt_data_size : Z;
  pkt_data : option (list Z)
}.

Record MCSCommandOptionsCommon := mkCommon {
  cmd_name : list Z;
  cmd_nargs : Z;
  cmd_raw_data : bool;
  cmd_response_size : Z
}.

(** The group arrays have [SDB_GROUP_MAX] elements, the missing ones zero. *)
Record MCSCommandOptionsMessage := mkMessage {
  msg_cmd : MCSCommandOptionsCommon;
  msg_destination : option (list Z);
  msg_origin_groups : list SDBGroup;
  msg_destination_groups : list SDBGroup
}.

Record MCSCommandOptionsStatePerms := mkPerms {
  perm_group : SDBGroup;
  perm_max_expire : Z
}.

(** [request] is the generated update function: the block it returns, or NULL. *)
Record MCSCommandOptionsState := mkState {
  state_cmd : MCSCommandOptionsCommon;
  state_request : MCSPacket -> option (list Z);
  state_dimensions : Z;
  state_expire_group : list MCSCommandOptionsStatePerms
}.

Record MCSCommandOptionsPayload := mkPayload {
  payload_cmd : MCSCommandOptionsCommon;
  payload_command : Z;
  payload_parameters : Z;
  payload_arguments : option (list Z);
  payload_data : option (list Z)
}.

(** The generated tables. *)
Class MCSTables := {
  mcs_command_message_list : list MCSCommandOptionsMessage;
  mcs_command_state_list : list MCSCommandOptionsState;
  mcs_command_payload_list : list MCSCommandOptionsPayload
}.

Class Build := {
  debug : bool;       (** [DEBUG] is defined *)
  sizeof_ptr : Z      (** the size of a pointer, 4 or 8 *)
}.

Definition mcs_command_list_size `{MCSTables} (type : Z) : Z :=
  if type =? MCS_TYPE_MESSAGE then zlen mcs_command_message_list
  else if type =? MCS_TYPE_STATE then zlen mcs_command_state_list
  else zlen mcs_command_payload_list.

(** The common options of command [cmd] of type [type]: the three-way [if] of
    [read_check_config] and [check_packet]. *)
Definition command_common `{MCSTables} (type cmd : Z) : option MCSCommandOptionsCommon :=
  let i := Z.to_nat cmd in
  if type =? MCS_TYPE_MESSAGE then msg_cmd <$> mcs_command_message_list !! i
  else if type =? MCS_TYPE_STATE then state_cmd <$> mcs_command_state_list !! i
  else if type =? MCS_TYPE_PAYLOAD then payload_cmd <$> mcs_command_payload_list !! i
  else None.

(** The command is a message whose destination comes with the packet. *)
Definition dest_is_arg `{MCSTables} (type cmd : Z) : bool :=
  if type =? MCS_TYPE_MESSAGE then
    match mcs_command_message_list !! Z.to_nat cmd with
    | Some m => match msg_destination m with
                | Some d => bool_decide (head (cstr d) = Some 64)
                | None => false
                end
    | None => false
    end
  else false.

(** [mcs_command]: the command number rebuilt from a packet. *)
Definition mcs_command (pkt : MCSPacket) : Z :=
  Z.lor (u32 (Z.shiftl (pkt_type pkt) 2)) (pkt_cmd pkt).

(** ** The tables of the repository.

    What [auto_mcs.h] holds for [src/src/Architecture/MCS/mcsg.json]; used to
    instantiate the class in the witnesses. *)

Definition pad_groups (l : list SDBGroup) : list SDBGroup :=
  l ++ replicate (5 - length l) SDB_GROUP_SYSCORE.

Definition repo_message (name : string) (raw : bool) (resp : Z) (dest : option string)
    (orig dst : list SDBGroup) : MCSCommandOptionsMessage :=
  mkMessage (mkCommon (str name) 0 raw resp) (str <$> dest) (pad_groups orig) (pad_groups dst).

Definition repo_tables : MCSTables := {|
  mcs_command_message_list :=
    [repo_message "test" false 0 (Some "@arg0") [SDB_GROUP_ANY] [SDB_GROUP_ANY];
     repo_message "sdb_handshake" true 0 None [SDB_GROUP_ANY] [];
     repo_message "sdb_qos_start" false 0 None [SDB_GROUP_ANY] [];
     repo_message "sdb_qos_dump" false (-1) None [SDB_GROUP_ANY] [];
     repo_message "sdb_qos_stop" false (-1) None [SDB_GROUP_ANY] [];
     repo_message "procman_start" false 0 (Some "procman") [SDB_GROUP_SYSCORE] []]%string;
  mcs_command_state_list :=
    [mkState (mkCommon (str "temperature_arduino") 1 false 8) (fun _ => None) 1
       (mkPerms SDB_GROUP_APP 15 :: replicate 4 (mkPerms SDB_GROUP_SYSCORE 0))];
  mcs_command_payload_list :=
    [mkPayload (mkCommon (str "arduino_get_pin") 1 false 1) 0 0 (Some (str "@arg0")) None]
|}.

Definition release_build : Build := {| debug := false; sizeof_ptr := 4 |}.

Definition MCS_MESSAGE_SDB_HANDSHAKE : Z := 1.
Definition MCS_MESSAGE_SDB_QOS_START : Z := 2.
Definition MCS_MESSAGE_SDB_QOS_DUMP : Z := 3.
Definition MCS_MESSAGE_SDB_QOS_STOP : Z := 4.

(** ** Lemmas. *)

Lemma command_common_in_range `{MCSTables} type cmd :
  0 <= type < MCS_COMMAND_TYPES -> 0 <= cmd < mcs_command_list_size type ->
  exists c, command_common type cmd = Some c.
Proof.
  unfold MCS_COMMAND_TYPES, mcs_command_list_size, command_common. intros Ht Hc.
  assert (type = 0 \/ type = 1 \/ type = 2) as [-> | [-> | ->]] by lia;
    cbn -[lookup] in *; unfold zlen in Hc;
    match goal with |- context [?l !! _] =>
      destruct (lookup_lt_is_Some_2 l (Z.to_nat cmd)) as [x ->]; [lia|] end; eexists; done.
Qed.

Lemma command_common_Some `{MCSTables} type cmd c :
  0 <= cmd -> command_common type cmd = Some c ->
  0 <= type < MCS_COMMAND_TYPES /\ cmd < mcs_command_list_size type.
Proof.
  unfold MCS_COMMAND_TYPES, mcs_command_list_size, command_common,
    MCS_TYPE_MESSAGE, MCS_TYPE_STATE, MCS_TYPE_PAYLOAD.
  intros Hc Hs. unfold zlen.
  repeat case_hyp Hs; bool_prop; try done;
    (split; [lia|]); apply fmap_Some in Hs as (x & Hx & _); apply lookup_lt_Some in Hx; lia.
Qed.
