(* ===== verification/Mcs.v ===== *)
(** * Mcs: the packet codec, [src/src/Architecture/Libraries/MCS/mcs.c].

    Packets are checked, serialised to a descriptor and read back from one.
    The reader reports a malformed packet to its peer with an error packet. *)

From S2P Require Import Prelude Abs McsDefs.

Section Mcs.
Context `{MCSTables} `{Build}.

(** ** Packet constructors. *)

Definition mcs_ok_packet_data_id (id : Z) (data : option (list Z)) (size : Z) :
    outcome MCSPacket :=
  if size =? 0 then Ok (mkMCSPacket id MCS_TYPE_OK_DATA 0 0 None None (u16 size) None)
  else match abs_malloccpy data size with
       | Ok bs => Ok (mkMCSPacket id MCS_TYPE_OK_DATA 0 0 None None (u16 size) (Some bs))
       | UB => UB
       end.

Definition mcs_ok_packet_id (id : Z) : MCSPacket :=
  mkMCSPacket id MCS_TYPE_OK 0 0 None None 0 None.

Definition mcs_err_packet_id (id err_code : Z) : MCSPacket :=
  mkMCSPacket id MCS_TYPE_ERR 0 0 None None 4 (Some (le_bytes 4 err_code)).

Definition mcs_ok_packet_data (from : MCSPacket) (data : option (list Z)) (size : Z) :
    outcome MCSPacket := mcs_ok_packet_data_id (pkt_id from) data size.
Definition mcs_ok_packet (from : MCSPacket) : MCSPacket := mcs_ok_packet_id (pkt_id from).
Definition mcs_err_packet (from : MCSPacket) (err_code : Z) : MCSPacket :=
  mcs_err_packet_id (pkt_id from) err_code.

(** ** Checking. *)

Definition mcs_is_answer_packet (pkt : MCSPacket) : bool :=
  (pkt_type pkt =? MCS_TYPE_OK) || (pkt_type pkt =? MCS_TYPE_OK_DATA)
  || (pkt_type pkt =? MCS_TYPE_ERR).

Definition is_null {A} (p : option A) : bool :=
  match p with None => true | Some _ => false end.

(** The checks after the branch on the type. *)
Definition check_pointers (pkt : MCSPacket) : Z :=
  if negb (pkt_nargs pkt =? 0) && is_null (pkt_args pkt) then -1
  else if negb (pkt_data_size pkt =? 0) && is_null (pkt_data pkt) then -1
  else if debug && (pkt_nargs pkt =? 0) && negb (is_null (pkt_args pkt)) then -1
  else if debug && (pkt_data_size pkt =? 0) && negb (is_null (pkt_data pkt)) then -1
  else 0.

Definition check_packet (pkt : MCSPacket) : Z :=
  if (pkt_type pkt =? MCS_TYPE_ERR) || (pkt_type pkt =? MCS_TYPE_OK)
     || (pkt_type pkt =? MCS_TYPE_OK_DATA)
  then
    if negb (pkt_nargs pkt =? 0) then -1
    else if (pkt_type pkt =? MCS_TYPE_OK_DATA) && (pkt_data_size pkt =? 0) then -1
    else if (pkt_type pkt =? MCS_TYPE_OK) && negb (pkt_data_size pkt =? 0) then -1
    else check_pointers pkt
  else
    if MCS_COMMAND_TYPES <=? pkt_type pkt then -1
    else if mcs_command_list_size (pkt_type pkt) <=? pkt_cmd pkt then -1
    else match command_common (pkt_type pkt) (pkt_cmd pkt) with
         | None => -1
         | Some cmd =>
             if negb (cmd_nargs cmd =? pkt_nargs pkt) then -1
             else if (cmd_raw_data cmd && (pkt_data_size pkt =? 0))
                     || (negb (cmd_raw_data cmd) && negb (pkt_data_size pkt =? 0)) then -1
             else check_pointers pkt
         end.

(** [rnd] is the value [random] returns for [generate_id]. *)
Definition generate_id (rnd : Z) : Z := u32 rnd.

(** Copy of an array argument: the pointer stays NULL for size 0. *)
Definition copy_arg (size : Z) (src : option (list Z)) : outcome (option (list Z)) :=
  if size =? 0 then Ok None
  else match abs_malloccpy src size with Ok bs => Ok (Some bs) | UB => UB end.

Definition mcs_create (id type cmd : Z) (dest : option (list Z)) (nargs : Z)
    (args : option (list Z)) (data_size : Z) (data : option (list Z)) :
    outcome (option MCSPacket) :=
  match copy_arg nargs args, copy_arg data_size data with
  | Ok args', Ok data' =>
      let pkt := mkMCSPacket id type cmd nargs args' dest data_size data' in
      if 0 <=? check_packet pkt then Ok (Some pkt) else Ok None
  | _, _ => UB
  end.

Definition mcs_create_packet (rnd cmd nargs : Z) (args : option (list Z))
    (data_size : Z) (data : option (list Z)) : outcome (option MCSPacket) :=
  let type := Z.shiftr (Z.land cmd 0xF0000) 16 in
  let id := if type =? MCS_TYPE_PAYLOAD then Z.land (u8 (generate_id rnd)) 0x7F
            else generate_id rnd in
  mcs_create id type (Z.land cmd 0xFFFF) None nargs args data_size data.

Definition mcs_create_packet_with_dest (rnd cmd : Z) (dest : option (list Z)) (nargs : Z)
    (args : option (list Z)) (data_size : Z) (data : option (list Z)) :
    outcome (option MCSPacket) :=
  mcs_create (generate_id rnd) (Z.shiftr (Z.land cmd 0xF0000) 16) (Z.land cmd 0xFFFF)
    dest nargs args data_size data.

(** The [int] the data holds when its size is that of an [int], 0 otherwise. *)
Definition mcs_err_code_from_command (pkt : MCSPacket) : outcome Z :=
  if pkt_data_size pkt =? 4 then
    match memcpy (pkt_data pkt) 4 with Ok bs => Ok (s32 (of_le bs)) | UB => UB end
  else Ok 0.

Definition mcs_command_to_string (pkt : MCSPacket) : option (list Z) :=
  if pkt_type pkt =? MCS_TYPE_ERR then Some (str "error")
  else if pkt_type pkt =? MCS_TYPE_OK then Some (str "ok")
  else if pkt_type pkt =? MCS_TYPE_OK_DATA then Some (str "ok_data")
  else if (pkt_type pkt <? MCS_COMMAND_TYPES)
          && (pkt_cmd pkt <? mcs_command_list_size (pkt_type pkt))
  then cmd_name <$> command_common (pkt_type pkt) (pkt_cmd pkt)
  else None.

(** ** Freeing. *)

(** The blocks a packet owns. *)
Inductive Owned := OwnedArgs | OwnedDest | OwnedData | OwnedPacket.

#[global] Instance Owned_eq_dec : EqDecision Owned.
Proof. solve_decision. Defined.

(** [free] of a pointer of the packet: nothing happens for NULL. *)
Definition free_field {A} (o : Owned) (p : option A) : list Owned :=
  if is_null p then [] else [o].

(** The blocks [mcs_free] frees, in order. *)
Definition mcs_free (pkt : option MCSPacket) : list Owned :=
  match pkt with
  | None => []
  | Some p =>
      (if debug && (pkt_nargs p =? 0) && negb (is_null (pkt_args p))
       then free_field OwnedArgs (pkt_args p) else [])
      ++ (if debug && (pkt_data_size p =? 0) && negb (is_null (pkt_data p))
          then free_field OwnedData (pkt_data p) else [])
      ++ (let nargs := if debug && negb (pkt_nargs p =? 0) && is_null (pkt_args p)
                       then 0 else pkt_nargs p in
          if negb (nargs =? 0) then free_field OwnedArgs (pkt_args p) else [])
      ++ (let data_size := if debug && negb (pkt_data_size p =? 0) && is_null (pkt_data p)
                           then 0 else pkt_data_size p in
          if negb (data_size =? 0) then free_field OwnedData (pkt_data p) else [])
      ++ [OwnedPacket]
  end.

(** ** Writing. *)

(** [memcpy(raw, &pkt->id, sizeof(pkt->id) + sizeof(char))]: the four bytes of
    the id and, on a little-endian machine, the low byte of the type. *)
Definition common_bytes (pkt : MCSPacket) : list Z :=
  le_bytes 4 (pkt_id pkt) ++ [u8 (pkt_type pkt)].

Definition dest_size (pkt : MCSPacket) : Z :=
  match pkt_dest pkt with Some d => 1 + strlen d | None => 0 end.

(** The size [mcs_write_command] allocates for the raw packet. *)
Definition tot_size (pkt : MCSPacket) : Z :=
  let common_size := 5 in
  if pkt_type pkt =? MCS_TYPE_ERR then common_size + pkt_data_size pkt
  else if pkt_type pkt =? MCS_TYPE_OK_DATA then common_size + 2 + pkt_data_size pkt
  else if pkt_type pkt =? MCS_TYPE_OK then common_size
  else common_size + 2 + pkt_nargs pkt + dest_size pkt
       + (if pkt_data_size pkt =? 0 then 0 else 2 + pkt_data_size pkt).

Definition dest_bytes (pkt : MCSPacket) : list Z :=
  match pkt_dest pkt with Some d => u8 (strlen d) :: cstr d | None => [] end.

(** The bytes copied into the raw packet. *)
Definition raw_bytes (pkt : MCSPacket) : outcome (list Z) :=
  if pkt_type pkt =? MCS_TYPE_ERR then
    match memcpy (pkt_data pkt) (pkt_data_size pkt) with
    | Ok data => Ok (common_bytes pkt ++ data) | UB => UB end
  else if pkt_type pkt =? MCS_TYPE_OK_DATA then
    match memcpy (pkt_data pkt) (pkt_data_size pkt) with
    | Ok data => Ok (common_bytes pkt ++ le_bytes 2 (pkt_data_size pkt) ++ data)
    | UB => UB end
  else if pkt_type pkt =? MCS_TYPE_OK then Ok (common_bytes pkt)
  else
    match memcpy (pkt_args pkt) (pkt_nargs pkt),
          memcpy (pkt_data pkt) (pkt_data_size pkt) with
    | Ok args, Ok data =>
        Ok (common_bytes pkt ++ le_bytes 2 (pkt_cmd pkt) ++ args ++ dest_bytes pkt
            ++ (if pkt_data_size pkt =? 0 then []
                else le_bytes 2 (pkt_data_size pkt) ++ data))
    | _, _ => UB
    end.

(** [true]: the branch ends with the [DEBUG] comparison of the two sizes. *)
Definition size_checked (pkt : MCSPacket) : bool :=
  negb ((pkt_type pkt =? MCS_TYPE_ERR) || (pkt_type pkt =? MCS_TYPE_OK)).

Definition mcs_write_command (pkt : MCSPacket) (fd : Z) : ST World Z :=
  if check_packet pkt <? 0 then st_ret EUNDEF
  else
    let! raw := st_lift (raw_bytes pkt) in
    if debug && size_checked pkt && negb (zlen raw =? tot_size pkt) then st_ret EUNDEF
    else if negb (zlen raw =? tot_size pkt) then st_ub  (* block overrun or unset *)
    else
      let! written := abs_write fd raw in
      if written <? tot_size pkt then st_ret EUNDEF else st_ret 0.

Definition mcs_write_command_and_free (pkt : MCSPacket) (fd : Z) : ST World Z :=
  mcs_write_command pkt fd.

(** ** Reading. *)

Definition set_args (nargs : Z) (args : option (list Z)) (p : MCSPacket) : MCSPacket :=
  mkMCSPacket (pkt_id p) (pkt_type p) (pkt_cmd p) nargs args (pkt_dest p)
    (pkt_data_size p) (pkt_data p).
Definition set_dest (dest : option (list Z)) (p : MCSPacket) : MCSPacket :=
  mkMCSPacket (pkt_id p) (pkt_type p) (pkt_cmd p) (pkt_nargs p) (pkt_args p) dest
    (pkt_data_size p) (pkt_data p).
Definition set_data (size : Z) (data : option (list Z)) (p : MCSPacket) : MCSPacket :=
  mkMCSPacket (pkt_id p) (pkt_type p) (pkt_cmd p) (pkt_nargs p) (pkt_args p) (pkt_dest p)
    size data.
Definition set_cmd (cmd : Z) (p : MCSPacket) : MCSPacket :=
  mkMCSPacket (pkt_id p) (pkt_type p) cmd (pkt_nargs p) (pkt_args p) (pkt_dest p)
    (pkt_data_size p) (pkt_data p).

(** [if(abs_read(fd, buf, n, timeout) < n) fail]: the [n] bytes, or failure. *)
Definition read_n (fd n : Z) : ST World (option (list Z)) :=
  let! (ret, bs) := abs_read fd n MCS_READ_TIMEOUT_US in
  if ret <? n then st_ret None else st_ret (Some bs).

Definition SDB_MODULE_NAME_SIZE : Z := 10.

Definition read_args (fd : Z) (cmd : MCSCommandOptionsCommon) (pkt : MCSPacket) :
    ST World (option MCSPacket) :=
  if 0 <? cmd_nargs cmd then
    let? args := read_n fd (cmd_nargs cmd) in
    st_ret (Some (set_args (cmd_nargs cmd) (Some args) pkt))
  else st_ret (Some (set_args (cmd_nargs cmd) None pkt)).

Definition read_dest (fd : Z) (pkt : MCSPacket) : ST World (option MCSPacket) :=
  if dest_is_arg (pkt_type pkt) (pkt_cmd pkt) then
    let? size := read_n fd 1 in
    let dest_size := of_le size in
    if SDB_MODULE_NAME_SIZE <? dest_size then st_ret None
    else
      let? dest := read_n fd dest_size in
      st_ret (Some (set_dest (Some dest) pkt))
  else st_ret (Some pkt).

(** A 16-bit size and that many bytes. *)
Definition read_sized_data (fd : Z) (pkt : MCSPacket) : ST World (option MCSPacket) :=
  let? size := read_n fd 2 in
  let? data := read_n fd (of_le size) in
  st_ret (Some (set_data (of_le size) (Some data) pkt)).

Definition read_check_config (fd : Z) (pkt : MCSPacket) : ST World (option MCSPacket) :=
  if MCS_COMMAND_TYPES <=? pkt_type pkt then st_ret None
  else if mcs_command_list_size (pkt_type pkt) <=? pkt_cmd pkt then st_ret None
  else match command_common (pkt_type pkt) (pkt_cmd pkt) with
       | None => st_ub
       | Some cmd =>
           let? pkt := read_args fd cmd pkt in
           let? pkt := read_dest fd pkt in
           if cmd_raw_data cmd then read_sized_data fd pkt else st_ret (Some pkt)
       end.

(** The [switch] on the packet type: [None] for every [goto error]. *)
Definition read_body (rfd : Z) (pkt : MCSPacket) : ST World (option MCSPacket) :=
  if (pkt_type pkt =? MCS_TYPE_MESSAGE) || (pkt_type pkt =? MCS_TYPE_STATE)
     || (pkt_type pkt =? MCS_TYPE_PAYLOAD)
  then
    let? cmd := read_n rfd 2 in
    read_check_config rfd (set_cmd (of_le cmd) pkt)
  else if pkt_type pkt =? MCS_TYPE_ERR then
    let? data := read_n rfd 4 in st_ret (Some (set_data 4 (Some data) pkt))
  else if pkt_type pkt =? MCS_TYPE_OK_DATA then read_sized_data rfd pkt
  else if pkt_type pkt =? MCS_TYPE_OK then st_ret (Some pkt)
  else st_ret None.

Definition zero_packet (id type : Z) : MCSPacket :=
  mkMCSPacket id type 0 0 None None 0 None.

(** Everything after the id has been read; [None]: [goto error]. *)
Definition read_after_id (rfd id : Z) : ST World (option MCSPacket) :=
  let? type := read_n rfd 1 in
  read_body rfd (zero_packet id (of_le type)).

Definition mcs_read_command (rfd wfd : Z) : ST World (option MCSPacket) :=
  if rfd <? 0 then st_ret None
  else
    let? id := read_n rfd 4 in
    let! res := read_after_id rfd (of_le id) in
    match res with
    | Some pkt => st_ret (Some pkt)
    | None =>
        do! mcs_write_command_and_free (mcs_err_packet_id (of_le id) EBADFORMAT) wfd in
        st_ret None
    end.

End Mcs.
