(* ===== verification/McsFacts.v ===== *)
(** * McsFacts: correctness of the packet codec.

    The wire format is specified by [wire]: id, type, command, arguments,
    destination, raw data.  This is the layout of [mcs.c] and of [Include/mcs.h]; the document
    [doc/sdb_mcs/sdb_mcs.tex] gives the same fields from the type on, and has no id.  The
    writer is shown to emit [wire p], the reader to accept exactly the packets
    whose bytes are [wire p], to be total, and to answer anything else with one
    error packet. *)

From S2P Require Import Prelude Abs McsDefs Mcs.

(** ** Reading as parsing. *)

(** [m], run where [bs] has arrived on [fd], consumes exactly [bs]. *)
Definition parses {A} (fd : Z) (m : ST World A) (bs : list Z) (r : A) : Prop :=
  forall rest w, avail fd (bs ++ rest) w -> m w = Ok (r, consume fd (length bs) w).

(** The stream of [fd] holds bytes. *)
Definition stream_ok (fd : Z) (w : World) : Prop :=
  Forall (fun o => forall b, o = Some b -> byte_ok b) (incoming fd w).

(** [m] always returns, only reads from [fd], and when it succeeds its result
    and the bytes it read are related by [P]. *)
Definition reader {A} (fd : Z) (m : ST World (option A)) (P : A -> list Z -> Prop) : Prop :=
  forall w, stream_ok fd w ->
  exists r bs w', m w = Ok (r, w') /\ reads fd bs w w' /\ stream_ok fd w' /\
    (forall a, r = Some a -> P a bs).

Section Specs.
Context `{MCSTables} `{Build}.

(** NULL for no bytes, or a block of [n] bytes. *)
Definition buffer (n : Z) (p : option (list Z)) : Prop :=
  match p with Some l => zlen l = n /\ bytes_ok l | None => n = 0 end.

(** Fields within their C types, pointers good for the sizes beside them. *)
Record wf_packet (p : MCSPacket) : Prop := {
  wf_id : 0 <= pkt_id p < 2 ^ 32;
  wf_type : 0 <= pkt_type p < 256;
  wf_cmd : 0 <= pkt_cmd p < 65536;
  wf_nargs : 0 <= pkt_nargs p < 65536;
  wf_data_size : 0 <= pkt_data_size p < 65536;
  wf_args : buffer (pkt_nargs p) (pkt_args p);
  wf_data : buffer (pkt_data_size p) (pkt_data p)
}.

Definition block (p : option (list Z)) : list Z := default [] p.

(** The wire format. *)
Definition wire (p : MCSPacket) : list Z :=
  le_bytes 4 (pkt_id p) ++ [pkt_type p] ++
  (if pkt_type p =? MCS_TYPE_ERR then block (pkt_data p)
   else if pkt_type p =? MCS_TYPE_OK_DATA then le_bytes 2 (pkt_data_size p) ++ block (pkt_data p)
   else if pkt_type p =? MCS_TYPE_OK then []
   else le_bytes 2 (pkt_cmd p) ++ block (pkt_args p)
        ++ match pkt_dest p with Some d => zlen d :: d | None => [] end
        ++ match pkt_data p with
           | Some d => le_bytes 2 (pkt_data_size p) ++ d
           | None => []
           end).

(** The destination agrees with the command's table entry. *)
Definition dest_matches (p : MCSPacket) : Prop :=
  if dest_is_arg (pkt_type p) (pkt_cmd p)
  then exists d, pkt_dest p = Some d /\ bytes_ok d /\ zlen d <= SDB_MODULE_NAME_SIZE
  else pkt_dest p = None.

(** What the reader promises of a packet it returns. *)
Definition readable (p : MCSPacket) : Prop :=
  wf_packet p /\
  (mcs_is_answer_packet p = true /\ pkt_cmd p = 0 /\ pkt_nargs p = 0 /\ pkt_args p = None /\
   pkt_dest p = None /\
   (pkt_type p = MCS_TYPE_OK -> pkt_data_size p = 0 /\ pkt_data p = None) /\
   (pkt_type p = MCS_TYPE_ERR -> pkt_data_size p = 4) /\
   (pkt_type p <> MCS_TYPE_OK -> pkt_data p <> None)
   \/ exists c, command_common (pkt_type p) (pkt_cmd p) = Some c /\
      pkt_nargs p = cmd_nargs c /\ (pkt_nargs p = 0 -> pkt_args p = None) /\
      dest_matches p /\
      (if cmd_raw_data c then pkt_data p <> None
       else pkt_data_size p = 0 /\ pkt_data p = None)).

(** The number of arguments of a command is an [unsigned short]. *)
Definition tables_ok : Prop := forall type cmd c,
  command_common type cmd = Some c -> 0 <= cmd_nargs c < 65536.

End Specs.

(** ** Parsing lemmas. *)

Lemma parses_ret {A} fd (a : A) : parses fd (st_ret a) [] a.
Proof. intros rest w _. cbn. by rewrite consume_0. Qed.

Lemma parses_obind {A B} fd (m : ST World (option A)) (k : A -> ST World (option B))
    bs1 bs2 a r :
  parses fd m bs1 (Some a) -> parses fd (k a) bs2 r ->
  parses fd (st_obind m k) (bs1 ++ bs2) r.
Proof.
  intros Hm Hk rest w Ha. rewrite <- app_assoc in Ha.
  unfold st_obind, st_bind. rewrite (Hm _ _ Ha).
  rewrite (Hk rest); [|by apply consume_avail].
  by rewrite consume_consume, length_app.
Qed.

Lemma parses_obind_nil {A B} fd (m : ST World (option A)) (k : A -> ST World (option B))
    bs a r :
  parses fd m bs (Some a) -> parses fd (k a) [] r -> parses fd (st_obind m k) bs r.
Proof. intros Hm Hk. rewrite <- (app_nil_r bs). eapply parses_obind; eauto. Qed.

Lemma parses_read_n fd n bs : zlen bs = n -> parses fd (read_n fd n) bs (Some bs).
Proof.
  intros <- rest w Ha. unfold read_n, st_bind.
  rewrite (abs_read_avail fd bs rest) by done.
  by rewrite Z.ltb_irrefl.
Qed.

#[export] Hint Resolve parses_ret parses_read_n : st.

(** ** Reader lemmas. *)

Lemma reads_stream fd bs w w' :
  stream_ok fd w -> reads fd bs w w' -> bytes_ok bs /\ stream_ok fd w'.
Proof.
  unfold stream_ok. intros Hs (Hr & _ & _). rewrite Hr in Hs.
  apply Forall_app in Hs as [H1 H2]. split; [|done].
  apply Forall_fmap in H1. eapply Forall_impl; [exact H1|]. intros b Hb. by apply Hb.
Qed.

Lemma reader_ret {A} fd (a : A) P : P a [] -> reader fd (st_ret (Some a)) P.
Proof.
  intros HP w Hs. exists (Some a), [], w. split_and!; [done|apply reads_refl|done|].
  by intros ? [= <-].
Qed.

Lemma reader_fail {A} fd (P : A -> list Z -> Prop) : reader fd (st_ret None) P.
Proof. intros w Hs. exists None, [], w. split_and!; [done|apply reads_refl|done|done]. Qed.

Lemma reader_obind {A B} fd (m : ST World (option A)) (k : A -> ST World (option B)) P Q :
  reader fd m P ->
  (forall a bs, P a bs -> bytes_ok bs -> reader fd (k a) (fun b bs' => Q b (bs ++ bs'))) ->
  reader fd (st_obind m k) Q.
Proof.
  intros Hm Hk w Hs. destruct (Hm w Hs) as (r & bs & w1 & E & R & Hs1 & HP).
  unfold st_obind, st_bind. rewrite E. destruct r as [a|].
  - destruct (reads_stream _ _ _ _ Hs R) as [Hb _].
    destruct (Hk a bs (HP a eq_refl) Hb w1 Hs1) as (r & bs' & w2 & E' & R' & Hs2 & HQ).
    exists r, (bs ++ bs'), w2. split_and!; [done|by eapply reads_app|done|done].
  - exists None, bs, w1. split_and!; done.
Qed.

Lemma reader_read_n fd n : 0 <= n ->
  reader fd (read_n fd n) (fun a bs => a = bs /\ zlen bs = n).
Proof.
  intros Hn w Hs. unfold read_n, st_bind.
  destruct (abs_read_total fd n MCS_READ_TIMEOUT_US w Hn ltac:(done))
    as (ret & bs & w' & E & R & _ & Hret).
  rewrite E. destruct (reads_stream _ _ _ _ Hs R) as [Hb Hs'].
  unfold ETIMEOUT, EUNDEF in Hret. destruct (ret <? n) eqn:Hlt; bool_prop.
  - exists None, bs, w'. split_and!; done.
  - exists (Some bs), bs, w'. split_and!; [done|done|done|]. intros a [= <-].
    split; [done|lia].
Qed.

Lemma reader_weaken {A} fd (m : ST World (option A)) P Q :
  reader fd m P -> (forall a bs, P a bs -> Q a bs) -> reader fd m Q.
Proof.
  intros Hm HPQ w Hs. destruct (Hm w Hs) as (r & bs & w' & ? & ? & ? & HP).
  exists r, bs, w'. split_and!; eauto.
Qed.

Lemma memcpy_block n p :
  buffer n p -> memcpy p n = Ok (block p) /\ zlen (block p) = n /\ bytes_ok (block p).
Proof.
  destruct p as [l|]; cbn; [intros [<- Hb]|intros ->; split_and!; [done|done|constructor]].
  split_and!; [apply memcpy_all|done|done].
Qed.

(** ** The writer. *)

Section Writer.
Context `{MCSTables} `{Build}.

(** A readable packet the checks let through: data pointers are not empty, and
    the destination is a C string. *)
Definition sendable (p : MCSPacket) : Prop :=
  readable p /\ (pkt_data p <> None -> pkt_data_size p <> 0) /\
  (forall d, pkt_dest p = Some d -> Forall (fun b => b <> 0) d).

Lemma answer_types p : mcs_is_answer_packet p = true ->
  pkt_type p = MCS_TYPE_ERR \/ pkt_type p = MCS_TYPE_OK_DATA \/ pkt_type p = MCS_TYPE_OK.
Proof. unfold mcs_is_answer_packet. lia. Qed.

Lemma command_type_not_answer p c :
  0 <= pkt_cmd p -> command_common (pkt_type p) (pkt_cmd p) = Some c ->
  (pkt_type p =? MCS_TYPE_ERR) = false /\ (pkt_type p =? MCS_TYPE_OK_DATA) = false /\
  (pkt_type p =? MCS_TYPE_OK) = false.
Proof.
  intros Hp [Ht _]%command_common_Some; [|done].
  unfold MCS_COMMAND_TYPES, MCS_TYPE_ERR, MCS_TYPE_OK_DATA, MCS_TYPE_OK in *. lia.
Qed.

Lemma check_pointers_ok p :
  wf_packet p -> (pkt_nargs p = 0 -> pkt_args p = None) ->
  (pkt_data p <> None -> pkt_data_size p <> 0) -> check_pointers p = 0.
Proof.
  intros [_ _ _ _ _ Ha Hd] Hna Hnd. unfold check_pointers, buffer, is_null in *.
  destruct (pkt_nargs p =? 0) eqn:En; bool_prop.
  - rewrite (Hna En) in *. cbn. rewrite andb_false_r.
    destruct (pkt_data p); [|subst; cbn; by rewrite Hd, andb_false_r].
    destruct (pkt_data_size p =? 0) eqn:Es; bool_prop; [by destruct Hnd|].
    cbn. by rewrite !andb_false_r.
  - destruct (pkt_args p); [|lia]. cbn. rewrite !andb_false_r.
    destruct (pkt_data p); [|rewrite Hd; cbn; by rewrite andb_false_r].
    destruct (pkt_data_size p =? 0) eqn:Es; bool_prop; [by destruct Hnd|].
    cbn. by rewrite !andb_false_r.
Qed.

Lemma check_sendable p : sendable p -> check_packet p = 0.
Proof.
  intros [[Hwf Hr] [Hnd Hnul]]. unfold check_packet.
  destruct Hr as [(Ha & Hc & Hn & Hargs & _ & Hok & Herr & Hdat)|(c & Hcm & Hn & Hargs & _ & Hraw)].
  - apply answer_types in Ha.
    unfold MCS_TYPE_ERR, MCS_TYPE_OK_DATA, MCS_TYPE_OK in *.
    destruct Ha as [E|[E|E]]; rewrite E in *; cbn; rewrite Hn; cbn.
    + by apply check_pointers_ok.
    + destruct (pkt_data_size p =? 0) eqn:Es; bool_prop.
      * destruct Hnd; [by apply Hdat|done].
      * by apply check_pointers_ok.
    + destruct Hok as [Hs Hd]; [done|]. rewrite Hs; cbn.
      by apply check_pointers_ok.
  - pose proof (wf_cmd p Hwf) as Hcr.
    pose proof (command_type_not_answer p c (proj1 Hcr) Hcm) as (-> & -> & ->). cbn.
    destruct (command_common_Some _ _ _ (proj1 Hcr) Hcm) as [? ?].
    rewrite (proj2 (Z.leb_gt _ _)) by lia. rewrite (proj2 (Z.leb_gt _ _)) by lia.
    rewrite Hcm, Hn, Z.eqb_refl. cbn.
    destruct (cmd_raw_data c); cbn.
    + destruct (pkt_data_size p =? 0) eqn:Es; bool_prop; [by destruct Hnd|]. cbn.
      by apply check_pointers_ok.
    + destruct Hraw as [-> _]. cbn. by apply check_pointers_ok.
Qed.

Lemma wire_raw p : sendable p ->
  raw_bytes p = Ok (wire p) /\ tot_size p = zlen (wire p).
Proof.
  intros [[Hwf Hr] [Hnd Hnul]]. unfold raw_bytes, tot_size, wire, common_bytes.
  destruct (memcpy_block _ _ (wf_args p Hwf)) as (-> & Hla & _).
  destruct (memcpy_block _ _ (wf_data p Hwf)) as (-> & Hld & _).
  rewrite (u8_small (pkt_type p)) by apply Hwf.
  destruct (pkt_type p =? MCS_TYPE_ERR) eqn:E1;
    [|destruct (pkt_type p =? MCS_TYPE_OK_DATA) eqn:E2;
      [|destruct (pkt_type p =? MCS_TYPE_OK) eqn:E3]];
    rewrite <- ?app_assoc; autorewrite with bytes; try (split; [done|lia]).
  unfold dest_bytes, dest_size.
  assert (Hd : match pkt_dest p with Some d => u8 (strlen d) :: cstr d | None => [] end
             = match pkt_dest p with Some d => zlen d :: d | None => [] end /\
             match pkt_dest p with Some d => 1 + strlen d | None => 0 end
             = zlen (match pkt_dest p with Some d => zlen d :: d | None => [] end)).
  { destruct Hr as [(Ha & _)|(c & _ & _ & _ & Hm & _)].
    - apply answer_types in Ha. bool_prop. tauto.
    - unfold dest_matches in Hm. destruct (dest_is_arg _ _).
      + destruct Hm as (d & Ed & _ & Hl). rewrite Ed.
        unfold strlen. rewrite cstr_no_nul by auto.
        pose proof (zlen_nonneg d). unfold SDB_MODULE_NAME_SIZE in Hl.
        rewrite u8_small, zlen_cons by lia. done.
      + by rewrite Hm. }
  destruct Hd as [-> ->].
  destruct (pkt_data p) as [d|] eqn:Ed.
  - destruct (pkt_data_size p =? 0) eqn:Es; bool_prop; [by destruct Hnd|].
    cbn in *. split; [done|]. autorewrite with bytes. lia.
  - pose proof (wf_data p Hwf) as Hb. rewrite Ed in Hb. cbn in Hb. rewrite Hb. cbn.
    split; [done|]. autorewrite with bytes. lia.
Qed.

Lemma mcs_write_sendable p fd w : sendable p -> writable fd w ->
  mcs_write_command p fd w = Ok (0, emit fd (wire p) w).
Proof.
  intros Hs Hw. unfold mcs_write_command. rewrite check_sendable by done. cbn.
  destruct (wire_raw p Hs) as [Hraw Hlen]. unfold st_lift, st_bind. rewrite Hraw, <- Hlen.
  rewrite Z.eqb_refl. cbn [negb]. rewrite andb_false_r, abs_write_writable, <- Hlen by done.
  by rewrite Z.ltb_irrefl.
Qed.

Lemma err_packet_sendable id e : 0 <= id < 2 ^ 32 -> sendable (mcs_err_packet_id id e).
Proof.
  intros Hid. unfold sendable, readable. split_and!; [| |done|done].
  - split; cbn; unfold MCS_TYPE_ERR; try lia.
    split; [done|]. repeat (constructor; [apply u8_range|]). constructor.
  - left. cbn. unfold MCS_TYPE_ERR, MCS_TYPE_OK. split_and!; try done.
Qed.

Lemma ok_packet_sendable id : 0 <= id < 2 ^ 32 -> sendable (mcs_ok_packet_id id).
Proof.
  intros Hid. unfold sendable, readable. split_and!; [| |done|done].
  - split; cbn; unfold buffer, MCS_TYPE_OK; cbn; lia.
  - left. cbn. split_and!; done.
Qed.

End Writer.

#[export] Hint Resolve err_packet_sendable ok_packet_sendable : st.

(** ** The reader accepts the wire format. *)

Lemma parses_bind {A B} fd (m : ST World A) (k : A -> ST World B) bs1 bs2 a r :
  parses fd m bs1 a -> parses fd (k a) bs2 r -> parses fd (st_bind m k) (bs1 ++ bs2) r.
Proof.
  intros Hm Hk rest w Ha. rewrite <- app_assoc in Ha.
  unfold st_bind. rewrite (Hm _ _ Ha).
  rewrite (Hk rest); [|by apply consume_avail].
  by rewrite consume_consume, length_app.
Qed.

Lemma parses_bind_nil {A B} fd (m : ST World A) (k : A -> ST World B) bs a r :
  parses fd m bs a -> parses fd (k a) [] r -> parses fd (st_bind m k) bs r.
Proof. intros Hm Hk. rewrite <- (app_nil_r bs). eapply parses_bind; eauto. Qed.

Section Reader.
Context `{MCSTables} `{Build}.

Lemma of_le_2 z : 0 <= z < 65536 -> of_le (le_bytes 2 z) = z.
Proof. intros. by apply (of_le_bytes_small 2). Qed.

Lemma of_le_4 z : 0 <= z < 2 ^ 32 -> of_le (le_bytes 4 z) = z.
Proof. intros. by apply (of_le_bytes_small 4). Qed.

Lemma of_le_1 b : of_le [b] = b.
Proof. cbn. lia. Qed.

Lemma parses_read_args fd c args q :
  buffer (cmd_nargs c) args -> (cmd_nargs c = 0 -> args = None) ->
  parses fd (read_args fd c q) (block args) (Some (set_args (cmd_nargs c) args q)).
Proof.
  intros Hb Hz. unfold read_args. destruct (0 <? cmd_nargs c) eqn:E; bool_prop.
  - destruct args as [l|]; cbn in *; [|lia]. destruct Hb as [Hl _].
    eapply parses_obind_nil; [by apply parses_read_n|apply parses_ret].
  - pose proof (zlen_nonneg (block args)). destruct args as [l|]; cbn in *.
    + destruct Hb as [Hl _]. assert (Hn : cmd_nargs c = 0) by lia. by specialize (Hz Hn).
    + apply parses_ret.
Qed.

Lemma parses_read_dest fd p q :
  dest_matches p -> pkt_type q = pkt_type p -> pkt_cmd q = pkt_cmd p -> pkt_dest q = None ->
  parses fd (read_dest fd q)
    match pkt_dest p with Some d => zlen d :: d | None => [] end
    (Some (set_dest (pkt_dest p) q)).
Proof.
  intros Hm Ht Hc Hq. unfold read_dest, dest_matches in *. rewrite Ht, Hc.
  destruct (dest_is_arg _ _).
  - destruct Hm as (d & -> & Hb & Hl). pose proof (zlen_nonneg d).
    unfold SDB_MODULE_NAME_SIZE in *.
    change (zlen d :: d) with ([zlen d] ++ d).
    eapply parses_obind; [by apply parses_read_n|]. cbv zeta. rewrite of_le_1.
    rewrite (proj2 (Z.ltb_ge _ _)) by lia.
    eapply parses_obind_nil; [by apply parses_read_n|apply parses_ret].
  - rewrite Hm. destruct q; cbn in *; subst. apply parses_ret.
Qed.

Lemma parses_sized_data fd size d q :
  0 <= size < 65536 -> zlen d = size ->
  parses fd (read_sized_data fd q) (le_bytes 2 size ++ d) (Some (set_data size (Some d) q)).
Proof.
  intros Hs Hd. unfold read_sized_data.
  eapply parses_obind; [by apply parses_read_n|]. rewrite of_le_2 by done.
  eapply parses_obind_nil; [by apply parses_read_n|apply parses_ret].
Qed.

Lemma parses_read_body fd p : readable p ->
  parses fd (read_body fd (zero_packet (pkt_id p) (pkt_type p)))
    (drop 5 (wire p)) (Some p).
Proof.
  intros [Hwf Hr]. unfold wire, read_body. cbn [pkt_type zero_packet].
  change (drop 5 ?x) with (drop 1 (drop 4 x)).
  rewrite drop_app_ge; rewrite le_bytes_length; [|lia].
  cbn [Nat.sub drop app].
  destruct Hr as [(Ha & Hc & Hn & Hargs & Hdest & Hok & Herr & Hdat)
                 |(c & Hcm & Hn & Hargs & Hm & Hraw)].
  - apply answer_types in Ha. destruct p as [id type cmd nargs args dest size data].
    cbn in *. subst. pose proof (wf_data _ Hwf) as Hb. pose proof (wf_data_size _ Hwf) as Hsz.
    cbn in Hb, Hsz. unfold MCS_TYPE_ERR, MCS_TYPE_OK_DATA, MCS_TYPE_OK in *.
    destruct Ha as [-> | [-> | ->]]; cbn in *.
    + rewrite Herr in * by done. destruct data as [d|]; [|by destruct Hdat].
      eapply parses_obind_nil; [apply parses_read_n, Hb|apply parses_ret].
    + destruct data as [d|]; [|by destruct Hdat].
      exact (parses_sized_data fd size d _ Hsz (proj1 Hb)).
    + destruct Hok as [-> ->]; [done|]. apply parses_ret.
  - pose proof (wf_cmd p Hwf) as Hcr. pose proof (wf_data_size p Hwf) as Hsz.
    pose proof (command_type_not_answer p c (proj1 Hcr) Hcm) as (-> & -> & ->).
    destruct (command_common_Some _ _ _ (proj1 Hcr) Hcm) as [Ht Hlt].
    unfold MCS_COMMAND_TYPES, MCS_TYPE_MESSAGE, MCS_TYPE_STATE, MCS_TYPE_PAYLOAD in *.
    replace (_ || _) with true by lia.
    eapply parses_obind; [by apply parses_read_n|]. rewrite of_le_2 by done.
    unfold read_check_config, MCS_COMMAND_TYPES. cbn [pkt_type pkt_cmd set_cmd zero_packet].
    rewrite (proj2 (Z.leb_gt _ _)) by lia. rewrite (proj2 (Z.leb_gt _ _)) by lia.
    rewrite Hcm. pose proof (wf_args p Hwf) as Hb. rewrite Hn in Hb, Hargs.
    eapply parses_obind; [by apply (parses_read_args fd c (pkt_args p))|].
    eapply parses_obind; [by apply (parses_read_dest fd p)|].
    destruct (cmd_raw_data c).
    + destruct p as [id type cmd nargs args dest size [d|]]; [|done]. cbn in *. subst.
      exact (parses_sized_data fd size d _ Hsz (proj1 (wf_data _ Hwf))).
    + destruct Hraw as [Hs0 Hd0]. destruct p; cbn in *; subst. apply parses_ret.
Qed.

Lemma wire_split p : wire p = le_bytes 4 (pkt_id p) ++ [pkt_type p] ++ drop 5 (wire p).
Proof. done. Qed.

Lemma mcs_read_parses rfd wfd p : 0 <= rfd -> readable p ->
  parses rfd (mcs_read_command rfd wfd) (wire p) (Some p).
Proof.
  intros Hfd Hr. unfold mcs_read_command. rewrite (proj2 (Z.ltb_ge _ _)) by done.
  rewrite wire_split. eapply parses_obind; [by apply parses_read_n|].
  rewrite of_le_4 by apply Hr.
  eapply (parses_bind_nil _ _ _ _ (Some p)); [|apply parses_ret].
  eapply parses_obind; [by apply parses_read_n|]. rewrite of_le_1.
  by apply parses_read_body.
Qed.

End Reader.

(** ** The reader is total and accepts nothing else. *)

Section ReaderSound.
Context `{MCSTables} `{Build}.

Lemma le_bytes_2 bs : zlen bs = 2 -> bytes_ok bs ->
  bs = le_bytes 2 (of_le bs) /\ 0 <= of_le bs < 65536.
Proof.
  intros Hl Hb. pose proof (of_le_range bs Hb) as Hr. rewrite Hl in Hr.
  split; [|done]. rewrite <- (le_bytes_of_le bs Hb) at 1. f_equal. unfold zlen in Hl. lia.
Qed.

Lemma le_bytes_4 bs : zlen bs = 4 -> bytes_ok bs ->
  bs = le_bytes 4 (of_le bs) /\ 0 <= of_le bs < 2 ^ 32.
Proof.
  intros Hl Hb. pose proof (of_le_range bs Hb) as Hr. rewrite Hl in Hr.
  split; [|done]. rewrite <- (le_bytes_of_le bs Hb) at 1. f_equal. unfold zlen in Hl. lia.
Qed.

Lemma one_byte bs : zlen bs = 1 -> bytes_ok bs -> bs = [of_le bs] /\ 0 <= of_le bs < 256.
Proof.
  intros Hl Hb. destruct bs as [|b [|]]; unfold zlen in Hl; cbn [length] in Hl; try lia.
  rewrite of_le_1. split; [done|]. by inv Hb.
Qed.

Lemma reader_read_args fd c q : 0 <= cmd_nargs c ->
  reader fd (read_args fd c q) (fun q' bs => exists args,
    q' = set_args (cmd_nargs c) args q /\ bs = block args /\
    buffer (cmd_nargs c) args /\ (cmd_nargs c = 0 -> args = None)).
Proof.
  intros Hn. unfold read_args. destruct (0 <? cmd_nargs c) eqn:E; bool_prop.
  - eapply reader_obind; [apply reader_read_n; lia|]. intros a bs [-> Hl] Hb.
    apply reader_ret. exists (Some bs). rewrite app_nil_r.
    split_and!; [done|done|done|lia].
  - apply reader_ret. exists None. split_and!; [done|done|cbn; lia|done].
Qed.

Lemma reader_read_dest fd q : pkt_dest q = None ->
  reader fd (read_dest fd q) (fun q' bs => exists dest,
    q' = set_dest dest q /\
    bs = match dest with Some d => zlen d :: d | None => [] end /\ dest_matches q').
Proof.
  intros Hq. unfold read_dest. destruct (dest_is_arg _ _) eqn:Ed.
  - eapply reader_obind; [apply reader_read_n; lia|]. intros a bs [-> Hl] Hb.
    destruct (one_byte bs Hl Hb) as [Ebs Hr]. cbv zeta.
    destruct (SDB_MODULE_NAME_SIZE <? of_le bs) eqn:El; bool_prop; [apply reader_fail|].
    eapply reader_obind; [apply reader_read_n; lia|]. intros a d [-> Hd] Hdb.
    apply reader_ret. exists (Some d). split_and!; [done| |].
    + rewrite app_nil_r, Hd. rewrite Ebs at 1. done.
    + unfold dest_matches. cbn [pkt_type pkt_cmd set_dest pkt_dest]. rewrite Ed.
      exists d. split_and!; [done|done|lia].
  - apply reader_ret. exists None. destruct q; cbn in *; subst.
    split_and!; [done|done|]. unfold dest_matches. cbn. by rewrite Ed.
Qed.

Lemma reader_sized_data fd q :
  reader fd (read_sized_data fd q) (fun q' bs => exists size d,
    q' = set_data size (Some d) q /\ bs = le_bytes 2 size ++ d /\
    0 <= size < 65536 /\ zlen d = size /\ bytes_ok d).
Proof.
  unfold read_sized_data.
  eapply reader_obind; [apply reader_read_n; lia|]. intros a bs [-> Hl] Hb.
  destruct (le_bytes_2 bs Hl Hb) as [Ebs Hr].
  eapply reader_obind; [apply reader_read_n; lia|]. intros a d [-> Hd] Hdb.
  apply reader_ret. exists (of_le bs), d. rewrite app_nil_r, <- Ebs. done.
Qed.

(** What [read_body] establishes, relative to the header it was given. *)
Definition body_post (id type : Z) (p : MCSPacket) (bs : list Z) : Prop :=
  readable p /\ pkt_id p = id /\ pkt_type p = type /\ bs = drop 5 (wire p).

Lemma drop_wire_command p c :
  0 <= pkt_cmd p -> command_common (pkt_type p) (pkt_cmd p) = Some c ->
  drop 5 (wire p) = le_bytes 2 (pkt_cmd p) ++ block (pkt_args p)
    ++ match pkt_dest p with Some d => zlen d :: d | None => [] end
    ++ match pkt_data p with Some d => le_bytes 2 (pkt_data_size p) ++ d | None => [] end.
Proof.
  intros Hc Hcm. unfold wire.
  by destruct (command_type_not_answer p c Hc Hcm) as (-> & -> & ->).
Qed.

Lemma reader_check_config fd id type cmd bs0 : tables_ok ->
  0 <= id < 2 ^ 32 -> 0 <= type < MCS_COMMAND_TYPES -> 0 <= cmd < 65536 ->
  bs0 = le_bytes 2 cmd ->
  reader fd (read_check_config fd (set_cmd cmd (zero_packet id type)))
    (fun p bs => body_post id type p (bs0 ++ bs)).
Proof.
  intros Htab Hid Ht Hc ->. unfold read_check_config. cbn [pkt_type pkt_cmd set_cmd zero_packet].
  rewrite (proj2 (Z.leb_gt _ _)) by lia.
  destruct (_ <=? cmd) eqn:El; bool_prop; [apply reader_fail|].
  destruct (command_common_in_range type cmd) as [c Hcm]; [done|lia|]. rewrite Hcm.
  pose proof (Htab _ _ _ Hcm) as Hn.
  eapply reader_obind; [apply reader_read_args; lia|].
  intros ? ba (args & -> & -> & Hba & Hza) _.
  eapply reader_obind; [by apply reader_read_dest|].
  intros ? bd (dest & -> & -> & Hm) _.
  set (q := set_dest dest _) in *.
  assert (Hpost : forall size data,
    0 <= size < 65536 -> buffer size data ->
    (if cmd_raw_data c then data <> None else size = 0 /\ data = None) ->
    body_post id type (set_data size data q)
      (le_bytes 2 cmd ++ block args ++
       match dest with Some d => zlen d :: d | None => [] end ++
       match data with Some d => le_bytes 2 size ++ d | None => [] end)).
  { intros size data Hs Hd Hraw. unfold MCS_COMMAND_TYPES in Ht.
    split_and!; [|done|done|by erewrite drop_wire_command; [|cbn; lia|exact Hcm]].
    split; [split; cbn; try done; lia|].
    right. exists c. split_and!; try done. }
  destruct (cmd_raw_data c) eqn:Er.
  - eapply reader_weaken; [apply reader_sized_data|].
    intros ? bs (size & d & -> & -> & Hs & Hl & Hd).
    apply (Hpost size (Some d)); [done|done|done].
  - apply reader_ret.
    replace q with (set_data 0 None q) by done.
    specialize (Hpost 0 None ltac:(done) eq_refl ltac:(done)). by rewrite !app_nil_r in *.
Qed.

Lemma reader_read_body fd id type : tables_ok ->
  0 <= id < 2 ^ 32 -> 0 <= type < 256 ->
  reader fd (read_body fd (zero_packet id type)) (body_post id type).
Proof.
  intros Htab Hid Ht. unfold read_body. cbn [pkt_type zero_packet].
  unfold MCS_TYPE_MESSAGE, MCS_TYPE_STATE, MCS_TYPE_PAYLOAD.
  destruct ((type =? 0) || _ || _) eqn:E.
  { eapply reader_obind; [apply reader_read_n; lia|]. intros a bs [-> Hl] Hb.
    destruct (le_bytes_2 bs Hl Hb) as [Ebs Hr].
    apply reader_check_config; try done. unfold MCS_COMMAND_TYPES. lia. }
  destruct (type =? MCS_TYPE_ERR) eqn:E1; bool_prop; [|
    destruct (type =? MCS_TYPE_OK_DATA) eqn:E2; bool_prop; [|
      destruct (type =? MCS_TYPE_OK) eqn:E3; bool_prop; [|apply reader_fail]]].
  - eapply reader_obind; [apply reader_read_n; lia|]. intros a d [-> Hl] Hb.
    apply reader_ret. rewrite app_nil_r. subst type.
    split_and!; [|done|done|done]. split; [by split|].
    left. split_and!; done.
  - eapply reader_weaken; [apply reader_sized_data|].
    intros ? bs (size & d & -> & -> & Hs & Hl & Hd). subst type.
    split_and!; [|done|done|done]. split; [by split|].
    left. split_and!; done.
  - apply reader_ret. subst type. split_and!; [|done|done|done].
    split; [by split|]. left. split_and!; done.
Qed.

End ReaderSound.

Lemma read_n_total fd n w : 0 <= n -> exists r bs w',
  read_n fd n w = Ok (r, w') /\ reads fd bs w w' /\
  (r = Some bs /\ zlen bs = n \/ r = None /\ zlen bs < n).
Proof.
  intros Hn. unfold read_n, st_bind.
  destruct (abs_read_total fd n MCS_READ_TIMEOUT_US w Hn ltac:(done))
    as (ret & bs & w' & E & R & _ & Hret).
  rewrite E. unfold ETIMEOUT, EUNDEF in Hret.
  destruct (ret <? n) eqn:Hlt; bool_prop; eexists _, bs, w'; (split; [done|]); (split; [done|]).
  - right. split; [done|lia].
  - left. split; [done|lia].
Qed.

Lemma reads_writable fd bs k w w' : reads fd bs w w' -> writable k w -> writable k w'.
Proof.
  intros (_ & Ho & _) (f & Hf & Hc).
  assert (Hk : outputs w' !! k = Some (fd_out f, None)).
  { rewrite Ho. unfold outputs. by rewrite lookup_fmap, Hf, <- Hc. }
  unfold outputs in Hk. rewrite lookup_fmap in Hk.
  destruct (w_fds w' !! k) as [f'|] eqn:E; [|done]. cbn in Hk. injection Hk as _ Hc'.
  by exists f'.
Qed.

(** The complete behaviour of [mcs_read_command]. *)
Lemma mcs_read_spec `{MCSTables} `{Build} rfd wfd w :
  tables_ok -> 0 <= rfd -> stream_ok rfd w -> writable wfd w ->
  exists r bs w1 w',
    mcs_read_command rfd wfd w = Ok (r, w') /\ reads rfd bs w w1 /\
    match r with
    | Some p => w' = w1 /\ readable p /\ bs = wire p
    | None =>
        zlen bs < 4 /\ w' = w1 \/
        exists id rest, bs = le_bytes 4 id ++ rest /\ 0 <= id < 2 ^ 32 /\
          w' = emit wfd (wire (mcs_err_packet_id id EBADFORMAT)) w1
    end.
Proof.
  intros Htab Hfd Hs Hw. unfold mcs_read_command. rewrite (proj2 (Z.ltb_ge _ _)) by done.
  destruct (read_n_total rfd 4 w) as (r & bi & w1 & E & R & Hr); [lia|].
  unfold st_obind, st_bind at 1. rewrite E. destruct Hr as [[-> Hl]|[-> Hl]].
  2:{ exists None, bi, w1, w1. split_and!; [done|done|by left]. }
  destruct (reads_stream _ _ _ _ Hs R) as [Hb Hs1].
  destruct (le_bytes_4 bi Hl Hb) as [Ebi Hid]. set (id := of_le bi) in *.
  assert (Hrd : reader rfd (read_after_id rfd id)
    (fun p bs => readable p /\ le_bytes 4 id ++ bs = wire p)).
  { unfold read_after_id. eapply reader_obind; [apply reader_read_n; lia|].
    intros a bt [-> Hlt] Hbt. destruct (one_byte bt Hlt Hbt) as [Ebt Hty].
    eapply reader_weaken; [by apply reader_read_body|].
    intros p bs (Hp & Hi & Ht & ->). split; [done|].
    rewrite (wire_split p), Hi, Ht. by rewrite Ebt at 1. }
  destruct (Hrd w1 Hs1) as (r & bs & w2 & E2 & R2 & _ & HP).
  unfold st_bind at 1. rewrite E2.
  pose proof (reads_app _ _ _ _ _ _ R R2) as R12.
  destruct r as [p|].
  - destruct (HP p eq_refl) as [Hp Hwire]. exists (Some p), (bi ++ bs), w2, w2.
    rewrite Ebi at 1 2. rewrite Hwire. rewrite <- Hwire at 1. rewrite <- Ebi. done.
  - unfold mcs_write_command_and_free, st_bind.
    rewrite mcs_write_sendable; [|by apply err_packet_sendable|by eapply reads_writable].
    eexists None, (bi ++ bs), w2, _. split_and!; [done|done|].
    right. exists id, bs. split_and!; [by rewrite <- Ebi|lia|lia|done].
Qed.

(** A command's code holds its type and its number. *)
Lemma command_number t i : 0 <= t < 16 -> 0 <= i < 65536 ->
  Z.shiftr (Z.land (t * 65536 + i) 0xF0000) 16 = t /\ Z.land (t * 65536 + i) 0xFFFF = i.
Proof.
  intros Ht Hi. split.
  - rewrite Z.shiftr_land. change (Z.shiftr 0xF0000 16) with (Z.ones 4).
    rewrite Z.land_ones, Z.shiftr_div_pow2 by lia. change (2 ^ 16) with 65536.
    rewrite Z.add_comm, Z.div_add, Z.div_small, Z.mod_small; lia.
  - change 0xFFFF with (Z.ones 16). rewrite Z.land_ones by lia.
    rewrite Z.add_comm, Z.mod_add by lia. apply Z.mod_small. lia.
Qed.
