(* ===== verification/McsProps.v ===== *)
(** * McsProps: the properties of the packet codec.

    Round trips, totality and error behaviour of [mcs.c], stated against the
    wire format of [McsFacts], with a witness on the repository's tables for
    each property that has hypotheses. *)

From S2P Require Import Prelude Abs McsDefs Mcs McsFacts.

(** ** Lemmas on packet construction. *)

Section Create.
Context `{MCSTables} `{Build}.

Lemma copy_arg_buffer size src : buffer size src ->
  exists p, copy_arg size src = Ok p /\ buffer size p /\ (size = 0 -> p = None).
Proof.
  intros Hb. unfold copy_arg, abs_malloccpy.
  destruct (memcpy_block size src Hb) as (-> & Hl & Hok).
  destruct (size =? 0) eqn:E; bool_prop; eexists; (split; [done|]); split; done.
Qed.

Lemma check_pointers_data p :
  0 <= check_pointers p -> pkt_data_size p <> 0 -> pkt_data p <> None.
Proof.
  unfold check_pointers, is_null. intros Hc Hs Hd. rewrite Hd in Hc.
  rewrite (proj2 (Z.eqb_neq _ _) Hs) in Hc. cbn in Hc.
  destruct (negb (pkt_nargs p =? 0) && _); cbn in Hc; lia.
Qed.

(** What a successful check says of a command packet. *)
Lemma check_packet_command p :
  0 <= check_packet p -> mcs_is_answer_packet p = false ->
  exists c, command_common (pkt_type p) (pkt_cmd p) = Some c /\ pkt_nargs p = cmd_nargs c /\
    (cmd_raw_data c = true <-> pkt_data_size p <> 0) /\
    (pkt_data_size p <> 0 -> pkt_data p <> None).
Proof.
  unfold check_packet, mcs_is_answer_packet. intros Hc Ha.
  replace (_ || _) with false in Hc by lia.
  repeat (case_hyp Hc; try lia). bool_prop. exists m. subst.
  split_and!; [done|lia| |by apply check_pointers_data].
  destruct (cmd_raw_data m); cbn in *; lia.
Qed.

Lemma land_7F x : Z.land x 0x7F = x mod 2 ^ 7.
Proof. rewrite <- Z.land_ones by lia. done. Qed.

End Create.

(** Membership in a list of constructors. *)
Ltac elem_lit :=
  let Hin := fresh in intros Hin; rewrite ?elem_of_cons, ?elem_of_nil in Hin; clear -Hin; intuition congruence.

(** ** Properties. *)

Section Properties.
Context `{MCSTables} `{Build}.

(** C4: a packet that is written is read back unchanged.  Writing a sendable packet to a
    descriptor with room returns 0 and appends exactly its wire format; reading those bytes,
    once they have arrived, from any descriptor returns the same packet and consumes nothing
    else, whatever follows.  The format is that of the code, which puts the four bytes of
    the id in front; the document [doc/sdb_mcs] lists the fields from the type on and has no
    id. *)
Theorem mcs_roundtrip p wfd w :
  sendable p -> writable wfd w ->
  mcs_write_command p wfd w = Ok (0, emit wfd (wire p) w) /\
  forall rfd efd rest w', 0 <= rfd -> avail rfd (wire p ++ rest) w' ->
    mcs_read_command rfd efd w' = Ok (Some p, consume rfd (length (wire p)) w').
Proof.
  intros Hs Hw. split; [by apply mcs_write_sendable|].
  intros rfd efd rest w' Hfd Ha. apply (mcs_read_parses rfd efd p Hfd (proj1 Hs) rest w' Ha).
Qed.

(** C10: the reader is total and accepts only the wire format.  On any stream of
    bytes [mcs_read_command] returns; a packet it returns is well formed, names
    a command of the tables with that command's number of arguments, and the
    bytes consumed are its wire format, with nothing written; otherwise either
    not even an id was read and nothing is written, or exactly one [EBADFORMAT]
    error packet carrying the id that was read is written to [wfd]. *)
Theorem mcs_read_sound rfd wfd w :
  tables_ok -> 0 <= rfd -> stream_ok rfd w -> writable wfd w ->
  exists r bs w1 w',
    mcs_read_command rfd wfd w = Ok (r, w') /\ reads rfd bs w w1 /\
    match r with
    | Some p => w' = w1 /\ readable p /\ bs = wire p
    | None =>
        zlen bs < 4 /\ w' = w1 \/
        exists id rest, bs = le_bytes 4 id ++ rest /\
          w' = emit wfd (wire (mcs_err_packet_id id EBADFORMAT)) w1
    end.
Proof.
  intros Htab Hfd Hs Hw.
  destruct (mcs_read_spec rfd wfd w Htab Hfd Hs Hw) as (r & bs & w1 & w' & E & R & Hr).
  exists r, bs, w1, w'. split_and!; [done|done|]. destruct r; [done|].
  destruct Hr as [?|(id & rest & ? & _ & ?)]; [by left|right; by exists id, rest].
Qed.

(** C35: the writer never overruns its buffer.  For every packet whose pointers
    are good for the sizes beside them, whatever its type and destination,
    [mcs_write_command] either rejects it without writing, or writes exactly as
    many bytes as it allocated; in particular the consistency check compiled
    under [DEBUG] never fires. *)
Theorem mcs_write_exact p fd w :
  wf_packet p -> writable fd w ->
  check_packet p < 0 /\ mcs_write_command p fd w = Ok (EUNDEF, w) \/
  exists raw, raw_bytes p = Ok raw /\ zlen raw = tot_size p /\
    mcs_write_command p fd w = Ok (0, emit fd raw w).
Proof.
  intros Hwf Hw. unfold mcs_write_command.
  destruct (check_packet p <? 0) eqn:E; bool_prop; [by left|right].
  destruct (memcpy_block _ _ (wf_args p Hwf)) as (Ea & Hla & _).
  destruct (memcpy_block _ _ (wf_data p Hwf)) as (Ed & Hld & _).
  assert (Hraw : exists raw, raw_bytes p = Ok raw /\ zlen raw = tot_size p).
  { unfold raw_bytes, tot_size, common_bytes, dest_bytes, dest_size. rewrite Ea, Ed.
    repeat case_goal; bool_prop; (eexists; split; [done|]);
      autorewrite with bytes; unfold strlen; lia. }
  destruct Hraw as (raw & Hraw & Hlen). exists raw. split_and!; [done|done|].
  unfold st_lift, st_bind. rewrite Hraw, Hlen, Z.eqb_refl. cbn [negb].
  by rewrite andb_false_r, abs_write_writable, Hlen, Z.ltb_irrefl.
Qed.

(** Packets made by [mcs_create_packet] can be sent.  For command [i] of
    type [t] without an explicit destination, and arrays of the sizes given,
    the call either returns NULL or a sendable packet of that type and command
    with the arguments and data given; the id of a payload packet fits the
    7 bits of the USB protocol. *)
Theorem mcs_create_packet_sendable rnd t i nargs args data_size data p :
  0 <= t < 16 -> 0 <= i < 65536 -> dest_is_arg t i = false ->
  0 <= nargs < 65536 -> buffer nargs args ->
  0 <= data_size < 65536 -> buffer data_size data ->
  mcs_create_packet rnd (t * 65536 + i) nargs args data_size data = Ok (Some p) ->
  sendable p /\ pkt_type p = t /\ pkt_cmd p = i /\ pkt_dest p = None /\
  block (pkt_args p) = block args /\ block (pkt_data p) = block data /\
  (t = MCS_TYPE_PAYLOAD -> 0 <= pkt_id p <= 0x7F).
Proof.
  intros Ht Hi Hdest Hn Ha Hsz Hd. unfold mcs_create_packet, mcs_create.
  destruct (command_number t i Ht Hi) as [-> ->].
  destruct (copy_arg_buffer nargs args Ha) as (a' & Ea & Hba & Hza).
  destruct (copy_arg_buffer data_size data Hd) as (d' & Ed & Hbd & Hzd).
  rewrite Ea, Ed. set (id := if t =? MCS_TYPE_PAYLOAD then Z.land (u8 (generate_id rnd)) 0x7F else generate_id rnd). set (q := mkMCSPacket _ _ _ _ _ _ _ _).
  destruct (0 <=? check_packet q) eqn:Ec; bool_prop; [|done]. intros [= <-].
  assert (Hid : 0 <= id < 2 ^ 32 /\ (t = MCS_TYPE_PAYLOAD -> 0 <= id <= 0x7F)).
  { unfold id, generate_id, u32. destruct (t =? MCS_TYPE_PAYLOAD) eqn:E; bool_prop.
    - pose proof (u8_range (rnd mod 2 ^ 32)) as Hu. unfold byte_ok in Hu.
      rewrite land_7F. pose proof (Z.mod_pos_bound (u8 (rnd mod 2 ^ 32)) (2 ^ 7)). lia.
    - pose proof (Z.mod_pos_bound rnd (2 ^ 32)). split; [lia|done]. }
  assert (Hna : mcs_is_answer_packet q = false).
  { unfold mcs_is_answer_packet, MCS_TYPE_OK, MCS_TYPE_OK_DATA, MCS_TYPE_ERR. cbn. lia. }
  destruct (check_packet_command q Ec Hna) as (c & Hc & Hnc & Hraw & Hnn). cbn in *.
  assert (Hcopy : forall n src p', buffer n src -> copy_arg n src = Ok p' -> block p' = block src).
  { intros n src p' Hb. unfold copy_arg, abs_malloccpy.
    destruct (memcpy_block n src Hb) as (-> & Hl & _).
    destruct (n =? 0) eqn:E; bool_prop; intros [= <-]; [|done].
    symmetry. apply zlen_0. lia. }
  split_and!; [split_and!|done|done|done|eauto|eauto|tauto].
  - split; [split; cbn; try done; lia|]. right. exists c. cbn.
    split_and!; [done|done|done|unfold dest_matches; cbn; by rewrite Hdest|].
    destruct (cmd_raw_data c); cbn in *; [tauto|].
    destruct (Z.eq_dec data_size 0) as [->|Hne]; [auto|by apply Hraw in Hne].
  - cbn. intros Hd'. destruct (Z.eq_dec data_size 0) as [->|]; [|done]. by rewrite Hzd in Hd'.
  - done.
Qed.

(** An error code survives the trip: the code put in an error packet by
    [mcs_err_packet_id] is the one [mcs_err_code_from_command] extracts, for
    every [int]. *)
Theorem mcs_err_code_roundtrip id e :
  - 2 ^ 31 <= e < 2 ^ 31 -> mcs_err_code_from_command (mcs_err_packet_id id e) = Ok e.
Proof.
  intros He. unfold mcs_err_code_from_command. cbn [pkt_data_size pkt_data mcs_err_packet_id].
  cbn [Z.eqb Pos.eqb]. change 4 with (zlen (le_bytes 4 e)). rewrite memcpy_all.
  rewrite of_le_bytes. change (256 ^ Z.of_nat 4) with (2 ^ 32).
  fold (u32 e). by rewrite s32_u32, s32_small.
Qed.

(** The handshake test of the daemon is right: of the packets the reader
    returns, [mcs_command] equals the handshake number exactly for the message
    with that number. *)
Theorem mcs_command_handshake p :
  readable p ->
  (mcs_command p = MCS_MESSAGE_SDB_HANDSHAKE <->
   pkt_type p = MCS_TYPE_MESSAGE /\ pkt_cmd p = MCS_MESSAGE_SDB_HANDSHAKE).
Proof.
  intros [Hwf _]. pose proof (wf_type p Hwf) as Ht. pose proof (wf_cmd p Hwf) as Hc.
  unfold mcs_command, MCS_MESSAGE_SDB_HANDSHAKE, MCS_TYPE_MESSAGE.
  rewrite Z.shiftl_mul_pow2, u32_small by lia. split; [|by intros [-> ->]].
  intros Heq. assert (Hb : forall n, 0 < n -> Z.testbit (pkt_type p * 2 ^ 2) n = false /\
                                     Z.testbit (pkt_cmd p) n = false).
  { intros n Hn. assert (Hz : Z.testbit (Z.lor (pkt_type p * 2 ^ 2) (pkt_cmd p)) n = false).
    { rewrite Heq. destruct n; done. }
    rewrite Z.lor_spec in Hz. by apply orb_false_iff in Hz. }
  assert (Ht0 : pkt_type p * 2 ^ 2 = 0).
  { apply Z.bits_inj'. intros n Hn. rewrite Z.bits_0.
    destruct (Z.eq_dec n 0) as [->|]; [by rewrite Z.mul_pow2_bits_low|apply Hb; lia]. }
  rewrite Ht0, Z.lor_0_l in Heq. lia.
Qed.

(** A command with raw data may arrive with no data, but cannot be
    forwarded: such a packet is accepted by the reader and refused by the
    writer, which writes nothing. *)
Theorem mcs_empty_raw_data_dropped p c fd w :
  readable p -> mcs_is_answer_packet p = false ->
  command_common (pkt_type p) (pkt_cmd p) = Some c -> cmd_raw_data c = true ->
  pkt_data_size p = 0 ->
  mcs_write_command p fd w = Ok (EUNDEF, w).
Proof.
  intros [Hwf Hr] Ha Hc Hraw Hs. unfold mcs_write_command.
  assert (E : check_packet p = -1); [|by rewrite E].
  unfold check_packet, mcs_is_answer_packet in *.
  replace (_ || _) with false by lia.
  repeat case_goal; try done. exfalso.
  injection Hc as ->. rewrite Hraw, Hs in *. done.
Qed.

(** Freeing a packet never frees a block twice, in either build; for a
    packet that can be sent it releases the packet, and its arguments and data
    if it has them, but never its destination. *)
Theorem mcs_free_once p :
  NoDup (mcs_free (Some p)) /\ ~ (OwnedDest ∈ mcs_free (Some p)) /\
  (sendable p -> forall o, (o ∈ mcs_free (Some p)) <->
     o = OwnedPacket \/ o = OwnedArgs /\ pkt_args p <> None \/
     o = OwnedData /\ pkt_data p <> None).
Proof.
  assert (Hs : sendable p -> (pkt_args p <> None <-> pkt_nargs p <> 0) /\
                             (pkt_data p <> None <-> pkt_data_size p <> 0)).
  { intros [[Hwf Hr] [Hd _]]. pose proof (wf_args p Hwf) as Ha. pose proof (wf_data p Hwf) as Hb.
    assert (Hz : pkt_nargs p = 0 -> pkt_args p = None)
      by (destruct Hr as [(_ & _ & _ & ? & _)|(c & _ & _ & ? & _)]; auto).
    split; split; [naive_solver|intros Hn E; by rewrite E in Ha|done|
                   intros Hn E; by rewrite E in Hb]. }
  unfold mcs_free, free_field. cbv zeta.
  destruct (pkt_args p), (pkt_data p), debug,
    (pkt_nargs p =? 0) eqn:En, (pkt_data_size p =? 0) eqn:Ed; cbn;
    rewrite ?En, ?Ed; cbn; bool_prop; split_and!;
    lazymatch goal with
    | |- NoDup _ => repeat first [apply NoDup_nil_2|apply NoDup_cons_2; [elem_lit|]]
    | |- ~ _ => elem_lit
    | _ => intros [H1 H2]%Hs o; rewrite ?elem_of_cons, ?elem_of_nil; clear -H1 H2 En Ed;
           destruct o; intuition (congruence || lia)
    end.
Qed.

End Properties.

(** ** Witnesses, on the tables of the repository. *)

Section Witnesses.

#[local] Existing Instances repo_tables release_build.

Lemma repo_tables_ok : tables_ok.
Proof.
  intros type cmd c Hc. unfold command_common in Hc.
  assert (Hl : forall A (f : A -> MCSCommandOptionsCommon) (l : list A) i,
    Forall (fun c => 0 <= cmd_nargs c < 65536) (f <$> l) -> f <$> l !! i = Some c ->
    0 <= cmd_nargs c < 65536).
  { intros A f l i HF Hi. rewrite <- list_lookup_fmap in Hi.
    by apply (Forall_lookup_1 _ _ _ _ HF Hi). }
  repeat case_hyp Hc; try done; (eapply Hl; [|exact Hc]);
    repeat constructor; cbn; lia.
Qed.

(** A handshake of module [imu], and a descriptor pair to move it over. *)
Definition handshake_packet : MCSPacket :=
  mkMCSPacket 77 MCS_TYPE_MESSAGE MCS_MESSAGE_SDB_HANDSHAKE 0 None None 5
    (Some (str "imu" ++ [0; 3])).

Definition wire_events (bs : list Z) : list (Z * option Z) := (fun b => (0, Some b)) <$> bs.

Definition pipe_world (bs : list Z) : World :=
  mkWorld 0 {[3 := mkFd (wire_events bs) [] None; 4 := mkFd [] [] None]}.

Lemma arrived_events bs : arrived 0 bs (wire_events bs).
Proof. induction bs; constructor; [done|done]. Qed.

Lemma pipe_avail bs : avail 3 bs (pipe_world bs).
Proof. exists (mkFd (wire_events bs) [] None), (wire_events bs), [].
  split_and!; [done|by rewrite app_nil_r|apply arrived_events]. Qed.

Lemma pipe_writable bs : writable 4 (pipe_world bs).
Proof. eexists. done. Qed.

Lemma pipe_stream bs : bytes_ok bs -> stream_ok 3 (pipe_world bs).
Proof.
  intros Hb. unfold stream_ok. change (incoming _ _) with (snd <$> wire_events bs).
  unfold wire_events. induction Hb as [|b bs Hb _ IH]; constructor; [|done].
  by intros ? [= <-].
Qed.

Lemma handshake_sendable : sendable handshake_packet.
Proof.
  unfold sendable, readable. split_and!; [|right|done|done].
  - split; cbn; try done. split; [done|]. bytes_lit.
  - eexists. split_and!; done.
Qed.

Lemma mcs_roundtrip_witness :
  mcs_write_command handshake_packet 4 (pipe_world [])
    = Ok (0, emit 4 (wire handshake_packet) (pipe_world [])) /\
  mcs_read_command 3 4 (pipe_world (wire handshake_packet))
    = Ok (Some handshake_packet,
          consume 3 (length (wire handshake_packet)) (pipe_world (wire handshake_packet))).
Proof.
  destruct (mcs_roundtrip handshake_packet 4 (pipe_world []) handshake_sendable
              (pipe_writable [])) as [Hw Hr].
  split; [exact Hw|].
  apply (Hr 3 4 []); [done|]. rewrite app_nil_r. apply pipe_avail.
Defined.

(** Six bytes: an id, the type of a message, and half a command number. *)
Lemma mcs_read_sound_witness :
  exists bs w1 w', mcs_read_command 3 4 (pipe_world [1; 0; 0; 0; 0; 9]) = Ok (None, w') /\
    reads 3 bs (pipe_world [1; 0; 0; 0; 0; 9]) w1 /\
    w' = emit 4 (wire (mcs_err_packet_id 1 EBADFORMAT)) w1.
Proof.
  destruct (mcs_read_sound 3 4 (pipe_world [1; 0; 0; 0; 0; 9]) repo_tables_ok ltac:(done)
    (pipe_stream [1; 0; 0; 0; 0; 9] ltac:(bytes_lit)) (pipe_writable _))
    as (r & bs & w1 & w' & E & R & Hr).
  exists bs, w1, w'. pose proof E as E'. vm_compute in E'. injection E' as Er Ew.
  subst r. split_and!; [exact E|exact R|].
  destruct Hr as [[Hl Hw]|(id & rest & Hbs & Hw)].
  - exfalso. destruct R as (_ & Ho & _). rewrite <- Hw, <- Ew in Ho. vm_compute in Ho. done.
  - destruct R as (Hin & _ & _). rewrite Hbs in Hin. cbn [le_bytes app fmap list_fmap] in Hin.
    assert (Hid : u8 id = 1 /\ u8 (id / 256) = 0 /\ u8 (id / 256 / 256) = 0
      /\ u8 (id / 256 / 256 / 256) = 0).
    { change (incoming 3 (pipe_world [1; 0; 0; 0; 0; 9]))
        with [Some 1; Some 0; Some 0; Some 0; Some 0; Some 9] in Hin.
      by injection Hin as <- <- <- <- _. }
    rewrite Hw. unfold wire, mcs_err_packet_id. cbn [pkt_id le_bytes].
    by destruct Hid as (-> & -> & -> & ->).
Defined.

Lemma mcs_write_exact_witness :
  exists raw, raw_bytes handshake_packet = Ok raw /\ zlen raw = 14 /\
    mcs_write_command handshake_packet 4 (pipe_world []) = Ok (0, emit 4 raw (pipe_world [])).
Proof.
  destruct (mcs_write_exact handshake_packet 4 (pipe_world []) (proj1 (proj1 handshake_sendable))
              (pipe_writable [])) as [[Hc _]|(raw & Hr & Hl & Hw)].
  - vm_compute in Hc. done.
  - exists raw. split; [exact Hr|]. split; [exact Hl|exact Hw].
Defined.

Lemma mcs_create_packet_sendable_witness :
  exists p, mcs_create_packet 1000 (MCS_TYPE_PAYLOAD * 65536 + 0) 1 (Some [6]) 0 None
    = Ok (Some p) /\ sendable p /\ 0 <= pkt_id p <= 0x7F /\ block (pkt_args p) = [6].
Proof.
  eexists. split; [reflexivity|].
  destruct (mcs_create_packet_sendable 1000 MCS_TYPE_PAYLOAD 0 1 (Some [6]) 0 None
    (mkMCSPacket 104 2 0 1 (Some [6]) None 0 None)) as (Hs & _ & _ & _ & Ha & _ & Hid);
    try done.
  split; [done|]. bytes_lit.
Defined.

Lemma mcs_err_code_roundtrip_witness :
  mcs_err_code_from_command (mcs_err_packet_id 5 EBADMODID) = Ok EBADMODID.
Proof. apply mcs_err_code_roundtrip. unfold EBADMODID. lia. Defined.

Lemma mcs_command_handshake_witness :
  mcs_command handshake_packet = MCS_MESSAGE_SDB_HANDSHAKE <->
  pkt_type handshake_packet = MCS_TYPE_MESSAGE /\
  pkt_cmd handshake_packet = MCS_MESSAGE_SDB_HANDSHAKE.
Proof. apply mcs_command_handshake. apply handshake_sendable. Defined.

Definition empty_handshake : MCSPacket :=
  mkMCSPacket 77 MCS_TYPE_MESSAGE MCS_MESSAGE_SDB_HANDSHAKE 0 None None 0 (Some []).

Lemma mcs_empty_raw_data_dropped_witness :
  mcs_write_command empty_handshake 4 (pipe_world []) = Ok (EUNDEF, pipe_world []).
Proof.
  eapply mcs_empty_raw_data_dropped; [|reflexivity|reflexivity|reflexivity|reflexivity].
  split; [split; cbn; try done; lia|]. right. eexists. split_and!; done.
Defined.

Lemma mcs_free_once_witness :
  NoDup (mcs_free (Some handshake_packet)) /\
  ~ (OwnedArgs ∈ mcs_free (Some handshake_packet)) /\
  OwnedData ∈ mcs_free (Some handshake_packet).
Proof.
  destruct (mcs_free_once handshake_packet) as (Hn & _ & Hf).
  pose proof (Hf handshake_sendable) as Hiff. split; [exact Hn|]. rewrite !Hiff.
  split; [intros [?|[[_ Ha]|[? _]]]; [done|by apply Ha|done]|right; right; done].
Defined.

(** The number rebuilt by [mcs_command] does not identify a command: the reply
    to [sdb_qos_stop] and a request for state 0 share the number 4. *)
Lemma mcs_command_collision :
  let p := mkMCSPacket 1 MCS_TYPE_MESSAGE MCS_MESSAGE_SDB_QOS_STOP 0 None None 0 None in
  let q := mkMCSPacket 1 MCS_TYPE_STATE 0 1 (Some [6]) None 0 None in
  sendable p /\ sendable q /\ mcs_command p = mcs_command q.
Proof.
  cbv zeta. split_and!; [| |reflexivity].
  all: unfold sendable, readable; split_and!; [split; cbn; try done; try lia|right|done|done].
  - eexists. split_and!; done.
  - split; [done|]. bytes_lit.
  - eexists. split_and!; done.
Qed.

(** A message whose destination travels with it can be created without one, and
    is then written in a form the reader refuses. *)
Lemma mcs_missing_destination :
  exists p, mcs_create_packet 5 0 0 None 0 None = Ok (Some p) /\
    mcs_write_command p 4 (pipe_world []) = Ok (0, emit 4 (wire p) (pipe_world [])) /\
    match mcs_read_command 3 4 (pipe_world (wire p)) with Ok (r, _) => r = None | UB => False end.
Proof.
  exists (zero_packet 5 MCS_TYPE_MESSAGE).
  split_and!; vm_compute; reflexivity.
Qed.

End Witnesses.
