(* ===== verification/Queue.v ===== *)
(** * Queue: the packet queues of the daemon, [src/src/Architecture/SDB/sdb_queue.c].

    A queue is a doubly linked list of heap cells, ordered by priority.  The
    heap of a queue is a map from addresses to cells, NULL is address 0, and
    reading or writing a cell that is not allocated is undefined behaviour.
    [q_rep] relates a queue to the list of its packets; the operations are shown
    to implement list operations, without leaking a cell.  Clients use the queue
    through the class [QueueSpec]. *)

From S2P Require Import Prelude Segments Abs McsDefs Mcs.

(** ** Data, from [sdb_private.h]. *)

Record SDBPacket := mkSDBPacket {
  id_process : Z;
  priority : Z;
  sdb_pkt : MCSPacket
}.

Record SDBQueueElem := mkElem {
  qe_pkt : SDBPacket;
  qe_prev : Z;
  qe_next : Z
}.

Record SDBQueue := mkQueue {
  queue_first : Z;
  queue_last : Z;
  queue_heap : gmap Z SDBQueueElem
}.

(** The monad of queue operations; a mutex section is one operation. *)
Abbreviation QM := (ST SDBQueue).

(** ** Access to the heap. *)

Definition elem_new (e : SDBQueueElem) : QM Z := fun q =>
  let a := malloc_addr (queue_heap q) in
  Ok (a, mkQueue (queue_first q) (queue_last q) (<[a := e]> (queue_heap q))).

Definition elem_get (a : Z) : QM SDBQueueElem := fun q =>
  match queue_heap q !! a with Some e => Ok (e, q) | None => UB end.

Definition elem_put (a : Z) (e : SDBQueueElem) : QM unit := fun q =>
  match queue_heap q !! a with
  | Some _ => Ok (tt, mkQueue (queue_first q) (queue_last q) (<[a := e]> (queue_heap q)))
  | None => UB
  end.

Definition elem_free (a : Z) : QM unit := fun q =>
  match queue_heap q !! a with
  | Some _ => Ok (tt, mkQueue (queue_first q) (queue_last q) (delete a (queue_heap q)))
  | None => UB
  end.

Definition set_prev (a v : Z) : QM unit :=
  let! e := elem_get a in elem_put a (mkElem (qe_pkt e) v (qe_next e)).
Definition set_next (a v : Z) : QM unit :=
  let! e := elem_get a in elem_put a (mkElem (qe_pkt e) (qe_prev e) v).
Definition set_first (v : Z) : QM unit :=
  st_modify (fun q => mkQueue v (queue_last q) (queue_heap q)).
Definition set_last (v : Z) : QM unit :=
  st_modify (fun q => mkQueue (queue_first q) v (queue_heap q)).

(** ** Packets. *)

Definition SDB_PACKET_DEFAULT_PRIO : Z := 0.

Definition sdb_packet (pkt : MCSPacket) (id : Z) : SDBPacket :=
  mkSDBPacket id SDB_PACKET_DEFAULT_PRIO pkt.

(** [group] is the group of module [id]; out of the priority table is undefined. *)
Definition sdb_packet_prio (pkt : MCSPacket) (id : Z) (group : SDBGroup) : outcome SDBPacket :=
  match sdb_group_priority !! Z.to_nat (group_val group) with
  | Some prio => Ok (mkSDBPacket id prio pkt)
  | None => UB
  end.

(** ** Operations. *)

Definition sdb_queue_init : SDBQueue := mkQueue NULL NULL ∅.

Definition sdb_queue_delete (queue_elem : Z) : QM unit :=
  let! e := elem_get queue_elem in
  do! (if negb (qe_prev e =? NULL) then set_next (qe_prev e) (qe_next e)
       else set_first (qe_next e)) in
  do! (if qe_next e =? NULL then set_last (qe_prev e)
       else set_prev (qe_next e) (qe_prev e)) in
  elem_free queue_elem.

(** The body of the [while] of [sdb_queue_push_nolock]. *)
Definition push_swap (queue_elem : Z) : QM unit :=
  let! e := elem_get queue_elem in
  let queue_tmp := qe_prev e in
  let! t := elem_get queue_tmp in
  do! set_prev queue_elem (qe_prev t) in
  do! (if qe_prev t =? NULL then set_first queue_elem
       else set_next (qe_prev t) queue_elem) in
  let! e := elem_get queue_elem in
  do! set_next queue_tmp (qe_next e) in
  do! (if qe_next e =? NULL then set_last queue_tmp
       else set_prev (qe_next e) queue_tmp) in
  do! set_prev queue_tmp queue_elem in
  set_next queue_elem queue_tmp.

(** The condition of the [while]. *)
Definition push_cond (queue_elem : Z) : QM bool :=
  let! e := elem_get queue_elem in
  if qe_prev e =? NULL then st_ret false
  else
    let! t := elem_get (qe_prev e) in
    st_ret (priority (qe_pkt t) <? priority (qe_pkt e)).

Fixpoint push_loop (fuel : nat) (queue_elem : Z) : QM unit :=
  match fuel with
  | O => st_ub
  | S fuel' =>
      let! c := push_cond queue_elem in
      if (c : bool) then do! push_swap queue_elem in push_loop fuel' queue_elem
      else st_ret tt
  end.

Definition sdb_queue_push_nolock (pkt : SDBPacket) : QM unit :=
  let! queue_elem := elem_new (mkElem pkt NULL NULL) in
  let! q := st_get in
  do! (if queue_first q =? NULL then set_first queue_elem
       else
         do! set_prev queue_elem (queue_last q) in
         set_next (queue_last q) queue_elem) in
  do! set_last queue_elem in
  push_loop (size (queue_heap q)) queue_elem.

(** The locked operation: the broadcast only wakes threads up. *)
Definition sdb_queue_push (pkt : SDBPacket) : QM unit := sdb_queue_push_nolock pkt.

(** The [while] of [sdb_queue_get_nolock]: the address it stops at. *)
Fixpoint get_loop (fuel : nat) (queue_elem : Z) (answer : MCSPacket) : QM Z :=
  match fuel with
  | O => st_ub
  | S fuel' =>
      if queue_elem =? NULL then st_ret queue_elem
      else
        let! e := elem_get queue_elem in
        if negb (pkt_id (sdb_pkt (qe_pkt e)) =? pkt_id answer)
        then get_loop fuel' (qe_next e) answer
        else st_ret queue_elem
  end.

Definition sdb_queue_get_nolock (answer : MCSPacket) : QM (option SDBPacket) :=
  let! q := st_get in
  let! queue_elem := get_loop (S (size (queue_heap q))) (queue_first q) answer in
  if queue_elem =? NULL then st_ret None
  else
    let! e := elem_get queue_elem in
    do! sdb_queue_delete queue_elem in
    st_ret (Some (qe_pkt e)).

Definition sdb_queue_get (answer : MCSPacket) : QM (option SDBPacket) :=
  sdb_queue_get_nolock answer.

(** [env] is what other threads do to the queue while this one waits. *)
Definition sdb_queue_pop_block (env : SDBQueue -> SDBQueue) : QM SDBPacket :=
  let! q := st_get in
  let queue_elem := queue_first q in
  do! (if queue_elem =? NULL then st_modify env else st_ret tt) in
  let! e := elem_get queue_elem in
  do! sdb_queue_delete queue_elem in
  st_ret (qe_pkt e).

(** ** Specification. *)

(** A queue as the list of its packets: [insert_prio] passes the elements of
    lower priority at the end of the list. *)
Fixpoint insert_prio (p : SDBPacket) (l : list SDBPacket) : list SDBPacket :=
  match l with
  | [] => [p]
  | x :: r =>
      if forallb (fun y => priority y <? priority p) (x :: r) then p :: x :: r
      else x :: insert_prio p r
  end.

Definition answers (answer : MCSPacket) (p : SDBPacket) : bool :=
  pkt_id (sdb_pkt p) =? pkt_id answer.

(** The first packet with the id of the answer, and the list without it. *)
Fixpoint take_answer (answer : MCSPacket) (l : list SDBPacket) :
    option SDBPacket * list SDBPacket :=
  match l with
  | [] => (None, [])
  | x :: r => if answers answer x then (Some x, r)
              else let (o, r') := take_answer answer r in (o, x :: r')
  end.

Abbreviation cell := (Z * SDBPacket)%type.

(** The heap of a segment of the queue. *)
Abbreviation qseg := (seg (mk := mkElem)).

(** [q] holds the packets [l], and nothing else is allocated. *)
Definition q_rep (q : SDBQueue) (l : list SDBPacket) : Prop :=
  exists xs, xs.*2 = l /\ NoDup (NULL :: xs.*1) /\
    q = mkQueue (hd_addr xs NULL) (last_addr NULL xs) (qseg NULL xs NULL ∅).
