(* ===== verification/QueueFacts.v ===== *)
(** * QueueFacts: the queue operations implement list operations.

    The effect of each queue operation on
    the represented list, and the class [QueueSpec] by which the modules of the
    daemon use a queue, with the linked list as its instance. *)

From S2P Require Import Prelude Segments Abs McsDefs Mcs Queue.

(** ** Steps of the operations. *)

Lemma elem_get_ok a e q : queue_heap q !! a = Some e -> elem_get a q = Ok (e, q).
Proof. unfold elem_get. by intros ->. Qed.

Lemma set_prev_ok a e v f l h : h !! a = Some e ->
  set_prev a v (mkQueue f l h) = Ok (tt, mkQueue f l (<[a := mkElem (qe_pkt e) v (qe_next e)]> h)).
Proof.
  intros Ha. unfold set_prev, st_bind. rewrite (elem_get_ok a e) by done.
  unfold elem_put. cbn. by rewrite Ha.
Qed.

Lemma set_next_ok a e v f l h : h !! a = Some e ->
  set_next a v (mkQueue f l h) = Ok (tt, mkQueue f l (<[a := mkElem (qe_pkt e) (qe_prev e) v]> h)).
Proof.
  intros Ha. unfold set_next, st_bind. rewrite (elem_get_ok a e) by done.
  unfold elem_put. cbn. by rewrite Ha.
Qed.

(** The pointer to a segment from its left: [queue_first], or the [next] of the
    last cell of the part before it. *)
Lemma relink_next pre n n' m l v : NoDup (NULL :: pre.*1) ->
  (if last_addr NULL pre =? NULL then set_first v else set_next (last_addr NULL pre) v)
    (mkQueue (hd_addr pre n') l (qseg NULL pre n m))
  = Ok (tt, mkQueue (hd_addr pre v) l (qseg NULL pre v m)).
Proof.
  intros [Hnull Hnd]%NoDup_cons.
  destruct (last_addr NULL pre =? NULL) eqn:E; bool_prop.
  - by rewrite (last_addr_null pre Hnull E).
  - destruct (nil_or_snoc pre) as [-> |(x & r & ->)]; [done|].
    destruct (seg_last (mk := mkElem) NULL r x n m v Hnd) as [Hl Hi]. rewrite last_addr_nonnil.
    rewrite (set_next_ok _ _ _ _ _ _ Hl). cbn [qe_pkt qe_prev]. rewrite Hi.
    by rewrite !hd_addr_app.
Qed.

(** The pointer to a segment from its right: [queue_last], or the [prev] of the
    first cell of the part after it. *)
Lemma relink_prev a xs n p post m f l v : NoDup (NULL :: post.*1) ->
  (forall y, y ∈ xs.*1 -> y ∈ post.*1 -> False) ->
  (if hd_addr post NULL =? NULL then set_last v else set_prev (hd_addr post NULL) v)
    (mkQueue f (last_addr l post) (qseg a xs n (qseg p post NULL m)))
  = Ok (tt, mkQueue f (last_addr v post) (qseg a xs n (qseg v post NULL m))).
Proof.
  intros [Hnull Hnd]%NoDup_cons Hdis.
  destruct (hd_addr post NULL =? NULL) eqn:E; bool_prop.
  - by rewrite (hd_addr_null post Hnull E).
  - destruct post as [|y r]; [done|]. cbn [hd_addr] in *.
    destruct (seg_head (mk := mkElem) p y r NULL m v) as [Hh Hi].
    assert (Hy : y.1 ∉ xs.*1) by (intros ?; apply (Hdis y.1); [done|cbn; constructor]).
    erewrite set_prev_ok by (rewrite seg_lookup_ne; done).
    cbn [qe_pkt qe_next]. by rewrite seg_insert, Hi by done.
Qed.

Definition rep_of (xs : list cell) : SDBQueue :=
  mkQueue (hd_addr xs NULL) (last_addr NULL xs) (qseg NULL xs NULL ∅).

Lemma rep_of_middle pre b a post :
  rep_of (pre ++ b :: a :: post) =
  mkQueue (hd_addr pre b.1) (last_addr a.1 post)
    (qseg NULL pre b.1 (<[b.1 := mkElem b.2 (last_addr NULL pre) a.1]>
      (<[a.1 := mkElem a.2 b.1 (hd_addr post NULL)]> (qseg a.1 post NULL ∅)))).
Proof. unfold rep_of. by rewrite hd_addr_app, last_addr_app, seg_app. Qed.

(** One round of the loop exchanges the new cell and its predecessor. *)
Lemma push_swap_ok pre b a post :
  NoDup (NULL :: (pre ++ b :: a :: post).*1) ->
  push_swap a.1 (rep_of (pre ++ b :: a :: post)) = Ok (tt, rep_of (pre ++ a :: b :: post)).
Proof.
  intros (Hpre & Hpost & Hba & Hb & Ha & Hbp & Hap & Hbn & Han & Hdis)%nodup_middle.
  rewrite !rep_of_middle. set (lp := last_addr NULL pre). set (hp := hd_addr post NULL).
  unfold push_swap. unfold st_bind at 1.
  erewrite elem_get_ok by (cbn; rewrite seg_lookup_ne, lookup_insert_ne, lookup_insert_eq; done).
  cbn [qe_prev]. unfold st_bind at 1.
  erewrite elem_get_ok by (cbn; rewrite seg_lookup_ne, lookup_insert_eq; done).
  cbn [qe_prev]. unfold st_bind at 1.
  erewrite set_prev_ok by (rewrite seg_lookup_ne, lookup_insert_ne, lookup_insert_eq; done).
  cbn [qe_pkt qe_next]. rewrite seg_insert, insert_insert_ne, insert_insert_eq by done.
  unfold st_bind at 1. subst lp. rewrite relink_next by done.
  unfold st_bind at 1.
  erewrite elem_get_ok by (cbn; rewrite seg_lookup_ne, lookup_insert_ne, lookup_insert_eq; done).
  cbn [qe_next]. unfold st_bind at 1.
  erewrite set_next_ok by (rewrite seg_lookup_ne, lookup_insert_eq; done).
  cbn [qe_pkt qe_prev]. rewrite seg_insert, insert_insert_eq by done.
  unfold st_bind at 1. subst hp. rewrite !(seg_insert a.1 post) by done.
  rewrite relink_prev by done. rewrite <- !(seg_insert b.1 post) by done.
  unfold st_bind at 1.
  erewrite set_prev_ok by (rewrite seg_lookup_ne, lookup_insert_eq; done).
  cbn [qe_pkt qe_next]. rewrite seg_insert, insert_insert_eq by done.
  erewrite set_next_ok by (rewrite seg_lookup_ne, lookup_insert_ne, lookup_insert_eq; done).
  cbn [qe_pkt qe_prev]. rewrite seg_insert, insert_insert_ne, insert_insert_eq by done.
  by rewrite (insert_insert_ne _ a.1 b.1) by done.
Qed.

(** ** [sdb_queue_delete]. *)

Lemma rep_of_one pre a post :
  rep_of (pre ++ a :: post) =
  mkQueue (hd_addr pre a.1) (last_addr a.1 post)
    (qseg NULL pre a.1 (<[a.1 := mkElem a.2 (last_addr NULL pre) (hd_addr post NULL)]>
      (qseg a.1 post NULL ∅))).
Proof. unfold rep_of. by rewrite hd_addr_app, last_addr_app, seg_app. Qed.

Lemma sdb_queue_delete_ok pre a post :
  NoDup (NULL :: (pre ++ a :: post).*1) ->
  sdb_queue_delete a.1 (rep_of (pre ++ a :: post)) = Ok (tt, rep_of (pre ++ post)).
Proof.
  intros (Hpre & Hpost & _ & Ha & Hap & Han & Hdis)%nodup_one. rewrite rep_of_one.
  unfold sdb_queue_delete. unfold st_bind at 1.
  erewrite elem_get_ok by (cbn; rewrite seg_lookup_ne, lookup_insert_eq; done).
  cbn [qe_prev qe_next]. rewrite if_negb. unfold st_bind at 1. rewrite relink_next by done.
  unfold st_bind at 1. rewrite seg_insert by done. rewrite relink_prev by done.
  unfold elem_free. cbn [queue_heap queue_first queue_last].
  rewrite !seg_lookup_ne, lookup_insert_eq by done.
  rewrite !seg_delete, delete_insert_eq, delete_empty by done.
  unfold rep_of. by rewrite hd_addr_app, last_addr_app, seg_app.
Qed.

(** ** [sdb_queue_push]. *)

Lemma push_cond_nil a post : NoDup (NULL :: (a :: post).*1) ->
  push_cond a.1 (rep_of (a :: post)) = Ok (false, rep_of (a :: post)).
Proof.
  intros _. unfold push_cond, st_bind at 1.
  erewrite elem_get_ok by (cbn; rewrite lookup_insert_eq; done). done.
Qed.

Lemma push_cond_snoc pre b a post : NoDup (NULL :: (pre ++ b :: a :: post).*1) ->
  push_cond a.1 (rep_of (pre ++ b :: a :: post))
  = Ok (priority b.2 <? priority a.2, rep_of (pre ++ b :: a :: post)).
Proof.
  intros (Hpre & Hpost & Hba & Hb & Ha & Hbp & Hap & Hbn & Han & Hdis)%nodup_middle.
  rewrite rep_of_middle. unfold push_cond, st_bind at 1.
  erewrite elem_get_ok by (cbn; rewrite seg_lookup_ne, lookup_insert_ne, lookup_insert_eq; done).
  cbn [qe_prev qe_pkt]. rewrite (proj2 (Z.eqb_neq _ _) Hbn). unfold st_bind.
  erewrite elem_get_ok by (cbn; rewrite seg_lookup_ne, lookup_insert_eq; done). done.
Qed.

Lemma nodup_swap (pre : list cell) (b a : cell) (post : list cell) :
  NoDup (NULL :: (pre ++ b :: a :: post).*1) -> NoDup (NULL :: (pre ++ a :: b :: post).*1).
Proof.
  intros Hn. eapply NoDup_Permutation_proper; [|exact Hn].
  rewrite !fmap_app. cbn. by rewrite (Permutation_swap b.1 a.1).
Qed.

(** The loop moves the new cell before the cells of lower priority at the end. *)
Lemma push_loop_ok pre a post fuel :
  NoDup (NULL :: (pre ++ a :: post).*1) -> (length pre < fuel)%nat ->
  exists pre1 pre2, pre = pre1 ++ pre2 /\
    push_loop fuel a.1 (rep_of (pre ++ a :: post)) = Ok (tt, rep_of (pre1 ++ a :: pre2 ++ post)) /\
    Forall (fun c => priority c.2 < priority a.2) pre2 /\
    (forall c r, pre1 = r ++ [c] -> priority a.2 <= priority c.2).
Proof.
  revert post fuel. induction pre as [|b pre IH] using rev_ind; intros post fuel Hn Hf.
  - destruct fuel as [|fuel]; [lia|]. exists [], []. cbn [push_loop app] in *.
    unfold st_bind. rewrite push_cond_nil by done.
    split_and!; [done|done|constructor|]. intros c r Hr. by destruct r.
  - rewrite <- app_assoc in Hn |- *. cbn [app] in *.
    rewrite length_app in Hf. cbn [length] in Hf.
    destruct fuel as [|fuel]; [lia|]. cbn [push_loop]. unfold st_bind at 1.
    rewrite push_cond_snoc by done. destruct (priority b.2 <? priority a.2) eqn:E; bool_prop.
    + unfold st_bind. rewrite push_swap_ok by done.
      destruct (IH (b :: post) fuel) as (p1 & p2 & -> & HE & Hlow & Hhigh);
        [by apply nodup_swap|lia|].
      exists p1, (p2 ++ [b]). rewrite !app_assoc. split_and!; [done| | |done].
      * rewrite <- app_assoc. rewrite <- app_assoc in HE. rewrite HE. by rewrite <- app_assoc.
      * apply Forall_app; split; [done|]. by constructor.
    + exists (pre ++ [b]), []. rewrite app_nil_r, <- app_assoc. split_and!; [done|done|constructor|].
      intros c r [_ <-]%app_inj_tail. done.
Qed.

Lemma insert_prio_split p l1 l2 :
  Forall (fun y => priority y < priority p) l2 ->
  (forall c r, l1 = r ++ [c] -> priority p <= priority c) ->
  insert_prio p (l1 ++ l2) = l1 ++ p :: l2.
Proof.
  intros Hlow. induction l1 as [|x l1 IH]; intros Hhigh.
  - cbn [app]. destruct l2 as [|y r]; cbn; [done|].
    replace (_ && _) with true; [done|]. symmetry. apply (forallb_forall (fun z => priority z <? priority p) (y :: r)).
    intros z Hz. rewrite Forall_forall in Hlow. apply Z.ltb_lt, Hlow. by apply list_elem_of_In.
  - cbn [app insert_prio].
    destruct (forallb _ (x :: l1 ++ l2)) eqn:E.
    + exfalso. rewrite forallb_forall in E.
      destruct (nil_or_snoc (x :: l1)) as [?|(c & r & Hr)]; [done|].
      specialize (Hhigh c r Hr). specialize (E c). rewrite Z.ltb_lt in E.
      enough (In c (x :: l1 ++ l2)) as Hin by (specialize (E Hin); lia).
      change (x :: l1 ++ l2) with ((x :: l1) ++ l2). rewrite Hr, !in_app_iff. cbn. auto.
    + f_equal. apply IH. intros c r ->. by apply (Hhigh c (x :: r)).
Qed.

(** The link of a new cell at the end of the list. *)
Lemma push_link_ok xs (a : cell) : NoDup (NULL :: (xs ++ [a]).*1) ->
  (do! (if hd_addr xs NULL =? NULL then set_first a.1
        else do! set_prev a.1 (last_addr NULL xs) in set_next (last_addr NULL xs) a.1) in
   set_last a.1)
    (mkQueue (hd_addr xs NULL) (last_addr NULL xs)
       (<[a.1 := mkElem a.2 NULL NULL]> (qseg NULL xs NULL ∅)))
  = Ok (tt, rep_of (xs ++ [a])).
Proof.
  intros (Hxs & _ & _ & Ha & _ & Han & _)%nodup_one. rewrite rep_of_one.
  pose proof Hxs as [Hnull _]%NoDup_cons.
  destruct (hd_addr xs NULL =? NULL) eqn:E; bool_prop.
  - by rewrite (hd_addr_null xs Hnull E).
  - rewrite seg_insert by done. unfold st_bind.
    erewrite set_prev_ok by (rewrite seg_lookup_ne, lookup_insert_eq; done).
    cbn [qe_pkt qe_next]. rewrite seg_insert, insert_insert_eq by done.
    pose proof (relink_next xs NULL NULL (<[a.1 := mkElem a.2 (last_addr NULL xs) NULL]> ∅)
                  (last_addr NULL xs) a.1 Hxs) as Hr.
    destruct (last_addr NULL xs =? NULL) eqn:El; bool_prop.
    { by rewrite (last_addr_null xs Hnull El) in E. }
    by rewrite Hr.
Qed.

Lemma sdb_queue_push_ok q l p : q_rep q l ->
  exists q', sdb_queue_push_nolock p q = Ok (tt, q') /\ q_rep q' (insert_prio p l).
Proof.
  intros (xs & <- & Hn & ->). unfold sdb_queue_push_nolock, elem_new.
  cbn [queue_heap queue_first queue_last].
  set (h := qseg NULL xs NULL ∅). set (a := (malloc_addr h, p)).
  assert (Ha : a.1 ∉ xs.*1).
  { intros Hi. destruct (seg_lookup_elem (mk := mkElem) NULL xs NULL ∅ _ Hi) as [e He].
    fold h in He. cbn in He. by rewrite malloc_addr_fresh in He. }
  assert (Hn' : NoDup (NULL :: (xs ++ [a]).*1)).
  { apply NoDup_cons in Hn as [Hnull Hnd]. rewrite fmap_app. apply NoDup_cons. split.
    - rewrite elem_of_app. intros [?|Hin]; [done|]. apply elem_of_cons in Hin as [Hin|Hin];
        [by apply (malloc_addr_pos h)|by apply not_elem_of_nil in Hin].
    - apply NoDup_app. split_and!; [done| |apply NoDup_singleton].
      intros y Hy ->%list_elem_of_singleton. done. }
  pose proof (push_link_ok xs a Hn') as Hlink.
  unfold st_bind at 1. unfold st_bind at 1, st_get. cbn [queue_first queue_last queue_heap].
  unfold st_bind in Hlink |- *. cbn [fst snd a] in Hlink. fold h in Hlink.
  destruct (_ (mkQueue _ _ _)) as [[[] q1]|]; [|done]. rewrite Hlink.
  rewrite map_size_insert. fold h. rewrite malloc_addr_fresh. unfold h at 1.
  rewrite seg_size by (apply NoDup_cons in Hn; tauto). change (malloc_addr h) with a.1.
  destruct (push_loop_ok xs a [] (S (length xs)) Hn') as (p1 & p2 & -> & HE & Hlow & Hhigh); [lia|].
  rewrite HE. eexists. split; [done|]. exists (p1 ++ a :: p2).
  rewrite app_nil_r. split_and!; [| |done].
  - rewrite fmap_app, fmap_app. cbn. rewrite insert_prio_split; [done| |].
    + by apply Forall_fmap.
    + intros c r Hr. destruct (nil_or_snoc p1) as [-> |(c' & r' & ->)]; [by destruct r|].
      rewrite fmap_app in Hr. apply app_inj_tail in Hr as [_ <-]. by apply (Hhigh c' r').
  - eapply NoDup_Permutation_proper; [|exact Hn']. rewrite !fmap_app, <- app_assoc. cbn.
    by rewrite <- Permutation_cons_append.
Qed.

(** ** [sdb_queue_get] and [sdb_queue_pop_block]. *)

(** The search stops at the first cell with the id, or at NULL. *)
Lemma get_loop_ok answer pre post fuel :
  NoDup (NULL :: (pre ++ post).*1) -> (length post < fuel)%nat ->
  (exists mid x r, post = mid ++ x :: r /\ answers answer x.2 = true /\
     Forall (fun c => answers answer c.2 = false) mid /\
     get_loop fuel (hd_addr post NULL) answer (rep_of (pre ++ post))
     = Ok (x.1, rep_of (pre ++ post))) \/
  Forall (fun c => answers answer c.2 = false) post /\
  get_loop fuel (hd_addr post NULL) answer (rep_of (pre ++ post))
  = Ok (NULL, rep_of (pre ++ post)).
Proof.
  revert pre fuel. induction post as [|x post IH]; intros pre fuel Hn Hf;
    (destruct fuel as [|fuel]; [cbn in Hf; lia|]).
  { right. split; [constructor|done]. }
  cbn [length] in Hf. pose proof (nodup_one _ _ _ Hn) as (_ & _ & _ & Hx & _ & Hxn & _).
  cbn [hd_addr get_loop]. rewrite (proj2 (Z.eqb_neq _ _) Hxn).
  assert (Hg : elem_get x.1 (rep_of (pre ++ x :: post))
    = Ok (mkElem x.2 (last_addr NULL pre) (hd_addr post NULL), rep_of (pre ++ x :: post))).
  { apply elem_get_ok. rewrite rep_of_one. cbn. by rewrite seg_lookup_ne, lookup_insert_eq. }
  unfold st_bind. rewrite Hg. cbn [qe_pkt qe_next].
  fold (answers answer x.2). destruct (answers answer x.2) eqn:E; cbn [negb].
  - left. exists [], x, post. split_and!; [done|done|constructor|done].
  - replace (pre ++ x :: post) with ((pre ++ [x]) ++ post) in * by by rewrite <- app_assoc.
    destruct (IH (pre ++ [x]) fuel Hn) as [(mid & y & r & -> & Hy & Hm & HE)|[Hall HE]]; [lia| |].
    + left. exists (x :: mid), y, r. split_and!; [done|done|by constructor|done].
    + right. split; [by constructor|done].
Qed.

Lemma take_answer_found answer l1 x l2 :
  answers answer x = true -> Forall (fun p => answers answer p = false) l1 ->
  take_answer answer (l1 ++ x :: l2) = (Some x, l1 ++ l2).
Proof.
  intros Hx. induction 1 as [|y l1 Hy _ IH]; cbn; [by rewrite Hx|]. by rewrite Hy, IH.
Qed.

Lemma take_answer_none answer l :
  Forall (fun p => answers answer p = false) l -> take_answer answer l = (None, l).
Proof. induction 1 as [|y l Hy _ IH]; cbn; [done|]. by rewrite Hy, IH. Qed.

Lemma sdb_queue_get_ok q l answer : q_rep q l ->
  exists q', sdb_queue_get_nolock answer q = Ok ((take_answer answer l).1, q') /\
    q_rep q' (take_answer answer l).2.
Proof.
  intros (xs & <- & Hn & ->). fold (rep_of xs). unfold sdb_queue_get_nolock.
  unfold st_bind at 1, st_get. unfold rep_of at 1 2. cbn [queue_heap queue_first].
  rewrite seg_size by (apply NoDup_cons in Hn; tauto).
  destruct (get_loop_ok answer [] xs (S (length xs)) Hn) as
    [(mid & x & r & -> & Hx & Hm & HE)|[Hall HE]]; [lia| |];
    cbn [app] in HE; unfold st_bind at 1; rewrite HE.
  - pose proof (nodup_one _ _ _ Hn) as (_ & _ & Hn' & Hxm & _ & Hxn & _).
    rewrite (proj2 (Z.eqb_neq _ _) Hxn). unfold st_bind at 1.
    erewrite elem_get_ok by (rewrite rep_of_one; cbn; rewrite seg_lookup_ne, lookup_insert_eq; done).
    cbn [qe_pkt]. unfold st_bind. rewrite sdb_queue_delete_ok by done.
    rewrite fmap_app. cbn [fmap list_fmap].
    rewrite take_answer_found; [|done|by apply Forall_fmap].
    eexists. split; [done|]. exists (mid ++ r). by rewrite fmap_app.
  - rewrite take_answer_none by by apply Forall_fmap.
    eexists. split; [done|]. by exists xs.
Qed.

Lemma sdb_queue_pop_ok env q p l : q_rep q (p :: l) ->
  exists q', sdb_queue_pop_block env q = Ok (p, q') /\ q_rep q' l.
Proof.
  intros ([|x xs] & Hl & Hn & ->); [done|]. injection Hl as <- <-.
  pose proof (nodup_one [] x xs Hn) as (_ & _ & Hn' & _ & _ & Hxn & _).
  pose proof (sdb_queue_delete_ok [] x xs Hn) as Hd. cbn [app] in Hd.
  fold (rep_of (x :: xs)). set (q := rep_of (x :: xs)) in *.
  assert (Hg : elem_get x.1 q = Ok (mkElem x.2 NULL (hd_addr xs NULL), q)).
  { apply elem_get_ok. cbn. by rewrite lookup_insert_eq. }
  unfold sdb_queue_pop_block, st_bind, st_get. change (queue_first q) with x.1.
  rewrite (proj2 (Z.eqb_neq _ _) Hxn). cbn [st_ret]. rewrite Hg, Hd.
  eexists. split; [done|]. by exists xs.
Qed.

Lemma q_rep_init : q_rep sdb_queue_init [].
Proof. exists []. split_and!; [done|apply NoDup_singleton|done]. Qed.

(** ** The interface to the modules. *)

(** What the rest of the daemon may rely on: a queue holds a list of packets,
    push inserts by priority, get takes the first packet an answer belongs to. *)
Class QueueSpec (Q : Type) := {
  qs_rep : Q -> list SDBPacket -> Prop;
  qs_init : Q;
  qs_push : SDBPacket -> ST Q unit;
  qs_get : MCSPacket -> ST Q (option SDBPacket);
  qs_init_ok : qs_rep qs_init [];
  qs_push_ok q l p : qs_rep q l ->
    exists q', qs_push p q = Ok (tt, q') /\ qs_rep q' (insert_prio p l);
  qs_get_ok q l answer : qs_rep q l ->
    exists q', qs_get answer q = Ok ((take_answer answer l).1, q') /\
      qs_rep q' (take_answer answer l).2
}.

#[export] Instance linked_queue : QueueSpec SDBQueue := {|
  qs_rep := q_rep; qs_init := sdb_queue_init;
  qs_push := sdb_queue_push_nolock; qs_get := sdb_queue_get_nolock;
  qs_init_ok := q_rep_init; qs_push_ok := sdb_queue_push_ok; qs_get_ok := sdb_queue_get_ok
|}.

(** ** Priority order. *)

(** Higher numbers first. *)
Abbreviation prio_sorted := (StronglySorted (fun a b => priority b <= priority a)).

Lemma filter_nil_iff {A} (P : A -> Prop) `{forall x, Decision (P x)} l :
  filter P l = [] <-> Forall (fun x => ~ P x) l.
Proof.
  induction l as [|x l IH]; [split; constructor|]. rewrite filter_cons, Forall_cons.
  case_decide; [split; [done|tauto]|tauto].
Qed.

Lemma filter_id {A} (P : A -> Prop) `{forall x, Decision (P x)} l :
  Forall P l -> filter P l = l.
Proof. induction 1 as [|x l Hx _ IH]; [done|]. by rewrite filter_cons, decide_True, IH. Qed.

Lemma insert_prio_filter p l : prio_sorted l ->
  insert_prio p l = filter (fun y => priority p <= priority y) l ++
                    p :: filter (fun y => priority y < priority p) l.
Proof.
  induction 1 as [|x l Hs IH Hx]; [done|]. cbn [insert_prio].
  destruct (forallb _ (x :: l)) eqn:E.
  - assert (Hall : Forall (fun y => priority y < priority p) (x :: l)).
    { apply Forall_forall. intros y Hy. rewrite forallb_forall in E.
      apply Z.ltb_lt, E. by apply list_elem_of_In. }
    rewrite (filter_id (fun y => priority y < priority p)) by done.
    rewrite (proj2 (filter_nil_iff (fun y => priority p <= priority y) (x :: l))); [done|].
    eapply Forall_impl; [exact Hall|]. cbn. lia.
  - assert (Hge : priority p <= priority x).
    { destruct (decide (priority p <= priority x)) as [|Hlt]; [done|exfalso].
      enough (forallb (fun y => priority y <? priority p) (x :: l) = true) by congruence.
      apply forallb_forall. intros y [<-|Hy]; apply Z.ltb_lt; [lia|].
      rewrite Forall_forall in Hx. apply list_elem_of_In, Hx in Hy. lia. }
    rewrite IH. rewrite !filter_cons. rewrite decide_True by done.
    rewrite decide_False by lia. done.
Qed.

Lemma insert_prio_sorted p l : prio_sorted l -> prio_sorted (insert_prio p l).
Proof.
  intros Hs. rewrite insert_prio_filter by done.
  induction Hs as [|x l Hs IH Hx]; [cbn; repeat constructor|].
  rewrite !filter_cons. case_decide as H1; case_decide as H2; try lia.
  - cbn. constructor; [done|]. apply Forall_app. split; [|constructor; [done|]].
    all: apply Forall_forall; intros y [_ Hy]%list_elem_of_filter;
      rewrite Forall_forall in Hx; by apply Hx.
  - assert (Hnil : filter (fun y => priority p <= priority y) l = []).
    { apply filter_nil_iff. eapply Forall_impl; [exact Hx|]. cbn. intros. lia. }
    rewrite Hnil in *. cbn in *. inv IH. constructor.
    + constructor; [done|]. apply Forall_forall. intros y [_ Hy]%list_elem_of_filter.
      rewrite Forall_forall in Hx. by apply Hx.
    + constructor; [lia|]. done.
Qed.

(** What is left after an answer was taken was there before. *)
Lemma take_answer_subset answer l x : x ∈ (take_answer answer l).2 -> x ∈ l.
Proof.
  induction l as [|y l IH]; cbn; [done|].
  destruct (answers answer y); cbn; [by constructor|].
  destruct (take_answer answer l) as [o l'] eqn:E. cbn in *.
  intros [-> |Hx]%elem_of_cons; constructor. auto.
Qed.

(** The packet that is taken was there. *)
Lemma take_answer_elem answer l x : (take_answer answer l).1 = Some x -> x ∈ l.
Proof.
  induction l as [|y l IH]; cbn; [done|].
  destruct (answers answer y); cbn; [intros [= ->]; constructor|].
  destruct (take_answer answer l) as [o l'] eqn:E. cbn in *. intros Ho. constructor. auto.
Qed.

Lemma take_answer_sorted answer l : prio_sorted l -> prio_sorted (take_answer answer l).2.
Proof.
  pose proof (take_answer_subset answer) as Hsub.
  induction 1 as [|x l Hs IH Hx]; cbn; [constructor|]. specialize (Hsub l).
  destruct (answers answer x); [done|].
  destruct (take_answer answer l) as [o l'] eqn:E. cbn in *. constructor; [done|].
  rewrite Forall_forall in Hx |- *. intros y Hy. by apply Hx, Hsub.
Qed.

Lemma insert_prio_elem p l x : x ∈ insert_prio p l -> x = p \/ x ∈ l.
Proof.
  induction l as [|y l IH]; cbn [insert_prio].
  - rewrite list_elem_of_singleton. by left.
  - destruct (forallb _ _).
    + intros [-> |Hx]%elem_of_cons; [by left|by right].
    + intros [-> |Hx]%elem_of_cons; [right; constructor|].
      destruct (IH Hx); [by left|right; by constructor].
Qed.
