(* ===== verification/QueueProps.v ===== *)
(** * QueueProps: the properties of the packet queues. *)

From S2P Require Import Prelude Segments Abs McsDefs Mcs Queue QueueFacts.

(** ** Sequences of operations. *)

Inductive QOp := OpPush (p : SDBPacket) | OpGet (answer : MCSPacket) | OpPop.

(** The effect of an operation on the linked list; [env] is what other threads
    do while [sdb_queue_pop_block] waits. *)
Definition run_op (env : SDBQueue -> SDBQueue) (op : QOp) : QM (option SDBPacket) :=
  match op with
  | OpPush p => do! sdb_queue_push p in st_ret None
  | OpGet answer => sdb_queue_get answer
  | OpPop => let! p := sdb_queue_pop_block env in st_ret (Some p)
  end.

Fixpoint run_ops (env : SDBQueue -> SDBQueue) (ops : list QOp) :
    QM (list (option SDBPacket)) :=
  match ops with
  | [] => st_ret []
  | op :: ops' =>
      let! r := run_op env op in
      let! rs := run_ops env ops' in
      st_ret (r :: rs)
  end.

(** The same on lists; [None]: a pop from an empty queue. *)
Definition spec_op (op : QOp) (l : list SDBPacket) : option (option SDBPacket * list SDBPacket) :=
  match op with
  | OpPush p => Some (None, insert_prio p l)
  | OpGet answer => Some (take_answer answer l)
  | OpPop => match l with [] => None | p :: l' => Some (Some p, l') end
  end.

Fixpoint spec_ops (ops : list QOp) (l : list SDBPacket) :
    option (list (option SDBPacket) * list SDBPacket) :=
  match ops with
  | [] => Some ([], l)
  | op :: ops' =>
      match spec_op op l with
      | None => None
      | Some (r, l') =>
          match spec_ops ops' l' with
          | None => None
          | Some (rs, l'') => Some (r :: rs, l'')
          end
      end
  end.

(** ** Lemmas. *)

(** Other threads leave a queue behind, whatever they push or take. *)
Definition env_ok (env : SDBQueue -> SDBQueue) : Prop :=
  forall q l, q_rep q l -> exists l', q_rep (env q) l'.

Lemma q_rep_null q l : q_rep q l -> queue_heap q !! NULL = None.
Proof.
  intros (xs & _ & [Hn _]%NoDup_cons & ->). cbn. by rewrite seg_lookup_ne, lookup_empty.
Qed.

Lemma pop_empty_ub env q : env_ok env -> q_rep q [] -> sdb_queue_pop_block env q = UB.
Proof.
  intros Henv Hq. destruct (Henv q [] Hq) as [l' Hl'].
  assert (Hf : queue_first q = NULL) by by destruct Hq as ([|x xs] & ? & _ & ->).
  unfold sdb_queue_pop_block, st_bind, st_get. rewrite Hf. cbn [Z.eqb NULL].
  unfold st_modify, elem_get. by rewrite (q_rep_null _ _ Hl').
Qed.

Lemma spec_op_sorted op l r l' : prio_sorted l -> spec_op op l = Some (r, l') -> prio_sorted l'.
Proof.
  intros Hs. destruct op as [p|answer|]; cbn.
  - intros [= _ <-]. by apply insert_prio_sorted.
  - intros [= E]. pose proof (take_answer_sorted answer l Hs) as Ht. by rewrite E in Ht.
  - destruct Hs; [done|]. by intros [= _ <-].
Qed.

(** One operation of the linked list simulates one operation of the list. *)
Lemma run_op_simulates env op q l : env_ok env -> q_rep q l ->
  match spec_op op l with
  | Some (r, l') => exists q', run_op env op q = Ok (r, q') /\ q_rep q' l'
  | None => run_op env op q = UB
  end.
Proof.
  intros Henv Hq. destruct op as [p|answer|]; cbn [spec_op run_op].
  - destruct (sdb_queue_push_ok q l p Hq) as (q' & E & Hq'). exists q'.
    unfold st_bind, sdb_queue_push. by rewrite E.
  - destruct (sdb_queue_get_ok q l answer Hq) as (q' & E & Hq').
    destruct (take_answer answer l) as [r l']. by exists q'.
  - destruct l as [|p l].
    + unfold st_bind. by rewrite pop_empty_ub.
    + destruct (sdb_queue_pop_ok env q p l Hq) as (q' & E & Hq'). exists q'.
      unfold st_bind. by rewrite E.
Qed.

Lemma run_ops_simulates env ops q l : env_ok env -> q_rep q l -> prio_sorted l ->
  match spec_ops ops l with
  | Some (rs, l') => exists q', run_ops env ops q = Ok (rs, q') /\ q_rep q' l' /\ prio_sorted l'
  | None => run_ops env ops q = UB
  end.
Proof.
  intros Henv. revert q l. induction ops as [|op ops IH]; intros q l Hq Hs; cbn.
  { by exists q. }
  pose proof (run_op_simulates env op q l Henv Hq) as Hop. unfold st_bind.
  destruct (spec_op op l) as [[r l1]|] eqn:E; [|by rewrite Hop].
  destruct Hop as (q1 & -> & Hq1). pose proof (spec_op_sorted op l r l1 Hs E) as Hs1.
  specialize (IH q1 l1 Hq1 Hs1). destruct (spec_ops ops l1) as [[rs l2]|]; [|by rewrite IH].
  destruct IH as (q2 & -> & Hq2 & Hs2). by exists q2.
Qed.

(** ** Properties. *)

(** C9: the linked list implements a stable priority queue.  Any sequence of
    pushes, gets and pops on a new queue returns the packets that the same
    operations on a sorted list return, ends in a queue that represents the
    list with no other cell allocated, and has undefined behaviour exactly when
    it pops from an empty queue. *)
Theorem queue_refines_list env ops :
  env_ok env ->
  match spec_ops ops [] with
  | Some (rs, l) =>
      exists q, run_ops env ops sdb_queue_init = Ok (rs, q) /\ q_rep q l /\ prio_sorted l
  | None => run_ops env ops sdb_queue_init = UB
  end.
Proof. intros Henv. apply run_ops_simulates; [done|apply q_rep_init|constructor]. Qed.

(** A pushed packet goes after every packet of the same or a higher priority
    and before every packet of a lower one, and the rest of the order is kept. *)
Theorem queue_push_order q l p :
  q_rep q l -> prio_sorted l ->
  exists q', sdb_queue_push p q = Ok (tt, q') /\
    q_rep q' (filter (fun y => priority p <= priority y) l ++
              p :: filter (fun y => priority y < priority p) l).
Proof.
  intros Hq Hs. rewrite <- insert_prio_filter by done. by apply sdb_queue_push_ok.
Qed.

(** The packet taken for an answer is the first with the id of the answer;
    exactly that packet leaves the queue and its cell is freed.  When there is
    none the queue is not changed. *)
Theorem queue_get_matches q l answer :
  q_rep q l ->
  (exists l1 x l2 q', l = l1 ++ x :: l2 /\ pkt_id (sdb_pkt x) = pkt_id answer /\
     Forall (fun y => pkt_id (sdb_pkt y) <> pkt_id answer) l1 /\
     sdb_queue_get answer q = Ok (Some x, q') /\ q_rep q' (l1 ++ l2)) \/
  Forall (fun y => pkt_id (sdb_pkt y) <> pkt_id answer) l /\
  exists q', sdb_queue_get answer q = Ok (None, q') /\ q_rep q' l.
Proof.
  intros Hq. destruct (sdb_queue_get_ok q l answer Hq) as (q' & E & Hq').
  assert (Hl : (exists l1 x l2, l = l1 ++ x :: l2 /\ answers answer x = true /\
      Forall (fun y => answers answer y = false) l1) \/
    Forall (fun y => answers answer y = false) l).
  { clear. induction l as [|x l IH]; [by right|]. destruct (answers answer x) eqn:Ex.
    - left. by exists [], x, l.
    - destruct IH as [(l1 & y & l2 & -> & Hy & H1)|H1]; [left|right; by constructor].
      exists (x :: l1), y, l2. split_and!; [done|done|by constructor]. }
  assert (Hne : forall l, Forall (fun y => answers answer y = false) l ->
    Forall (fun y => pkt_id (sdb_pkt y) <> pkt_id answer) l).
  { intros l0 H0. eapply Forall_impl; [exact H0|]. unfold answers. cbn. intros y. lia. }
  destruct Hl as [(l1 & x & l2 & -> & Hx & H1)|H1].
  - rewrite take_answer_found in E, Hq' by done. left. exists l1, x, l2, q'.
    split_and!; [done|unfold answers in Hx; lia|by apply Hne|done|done].
  - rewrite take_answer_none in E, Hq' by done. right. split; [by apply Hne|by exists q'].
Qed.

(** Popping from a queue that is not empty returns a packet of the highest
    priority, the oldest of them, without waiting.  From an empty queue the
    call waits and then, whatever was pushed meanwhile, reads through the NULL
    pointer it had loaded before waiting. *)
Theorem queue_pop_behaviour env q l :
  env_ok env -> q_rep q l -> prio_sorted l ->
  match l with
  | [] => sdb_queue_pop_block env q = UB
  | p :: l' => Forall (fun y => priority y <= priority p) l' /\
      exists q', sdb_queue_pop_block env q = Ok (p, q') /\ q_rep q' l'
  end.
Proof.
  intros Henv Hq Hs. destruct l as [|p l']; [by apply pop_empty_ub|].
  inv Hs. split; [done|]. by apply sdb_queue_pop_ok.
Qed.

(** ** Witnesses. *)

Definition packet_of (id prio : Z) : SDBPacket :=
  mkSDBPacket 1 prio (mkMCSPacket id MCS_TYPE_PAYLOAD 0 1 (Some [6]) None 0 None).

Definition push_while_waiting (q : SDBQueue) : SDBQueue :=
  match sdb_queue_push (packet_of 9 1) q with Ok (_, q') => q' | UB => q end.

Lemma push_while_waiting_ok : env_ok push_while_waiting.
Proof.
  intros q l Hq. destruct (sdb_queue_push_ok q l (packet_of 9 1) Hq) as (q' & E & Hq').
  unfold push_while_waiting, sdb_queue_push. rewrite E. eauto.
Qed.

Definition three_pushes : list QOp :=
  [OpPush (packet_of 10 0); OpPush (packet_of 11 99); OpPush (packet_of 12 0)].

Lemma queue_refines_list_witness :
  exists q, run_ops push_while_waiting
      (three_pushes ++ [OpGet (mcs_ok_packet_id 10); OpPop; OpPop]) sdb_queue_init
    = Ok ([None; None; None; Some (packet_of 10 0); Some (packet_of 11 99);
           Some (packet_of 12 0)], q) /\ q_rep q [].
Proof.
  destruct (queue_refines_list push_while_waiting
    (three_pushes ++ [OpGet (mcs_ok_packet_id 10); OpPop; OpPop]) push_while_waiting_ok)
    as (q & E & Hq & _).
  exists q. split; [exact E|exact Hq].
Defined.

(** A queue with a packet of priority 99 and one of priority 0. *)
Definition two_packets : SDBQueue :=
  match run_ops id [OpPush (packet_of 10 0); OpPush (packet_of 11 99)] sdb_queue_init with
  | Ok (_, q) => q
  | UB => sdb_queue_init
  end.

Lemma two_packets_rep :
  q_rep two_packets [packet_of 11 99; packet_of 10 0] /\
  prio_sorted [packet_of 11 99; packet_of 10 0].
Proof.
  split.
  - exists [(2, packet_of 11 99); (1, packet_of 10 0)].
    split_and!; [reflexivity| |vm_compute; reflexivity].
    repeat first [apply NoDup_nil_2|apply NoDup_cons_2;
      [cbn; rewrite ?elem_of_cons, ?elem_of_nil; unfold NULL; lia|]].
  - repeat constructor; cbn; lia.
Qed.

Lemma queue_push_order_witness :
  exists q', sdb_queue_push (packet_of 12 99) two_packets = Ok (tt, q') /\
    q_rep q' [packet_of 11 99; packet_of 12 99; packet_of 10 0].
Proof.
  destruct (queue_push_order two_packets _ (packet_of 12 99) (proj1 two_packets_rep)
              (proj2 two_packets_rep)) as (q' & E & Hq').
  exists q'. split; [exact E|exact Hq'].
Defined.

Lemma queue_get_matches_witness :
  exists q', sdb_queue_get (mcs_ok_packet_id 10) two_packets = Ok (Some (packet_of 10 0), q').
Proof.
  destruct (queue_get_matches two_packets _ (mcs_ok_packet_id 10) (proj1 two_packets_rep))
    as [(l1 & x & l2 & q' & Hl & Hx & H1 & E & Hq')|[Hn _]].
  - exists q'. destruct l1 as [|a [|b [|c l1]]]; cbn in Hl; try (injection Hl as <- <-; discriminate Hx).
    + injection Hl as <- <- <-. exact E.
    + discriminate Hl.
    + discriminate Hl.
  - exfalso. apply Forall_cons in Hn as [_ Hn]. apply Forall_cons in Hn as [Hn _].
    apply Hn. reflexivity.
Defined.

Lemma queue_pop_behaviour_witness :
  (exists q', sdb_queue_pop_block push_while_waiting two_packets = Ok (packet_of 11 99, q')) /\
  sdb_queue_pop_block push_while_waiting sdb_queue_init = UB.
Proof.
  split.
  - destruct (queue_pop_behaviour push_while_waiting two_packets _ push_while_waiting_ok
                (proj1 two_packets_rep) (proj2 two_packets_rep)) as (_ & q' & E & _).
    exists q'. exact E.
  - exact (queue_pop_behaviour push_while_waiting sdb_queue_init [] push_while_waiting_ok
             q_rep_init ltac:(constructor)).
Defined.
