(* ===== verification/Qos.v ===== *)
(** * Qos: the quality-of-service log, [src/src/Architecture/SDB/sdb_qos.c].

    Every packet event of a module is appended to one of ten singly linked
    lists, chosen by the module's id; a dump prints the events of the calling
    module into a growing buffer and removes them from the list.  As for the
    queues, the cells of a list live in a heap of their own. *)

From S2P Require Import Prelude Abs McsDefs Mcs.

(** ** Data. *)

Inductive SDBQOSEvent :=
| SDB_QOS_PKT_IN
| SDB_QOS_PKT_OUT
| SDB_QOS_PKT_READY
| SDB_QOS_PKT_SCRAP.

Record SDBQOSMCS := mkQosMcs {
  mcs_id : Z;
  mcs_type : Z;
  mcs_cmd : Z;
  mcs_dest : option (list Z)
}.

(** The fields of [SDBQOSStoreEvent] before [se_next]. *)
Record SDBQOSEntry := mkEntry {
  se_event : SDBQOSEvent;
  se_data : option SDBQOSMCS;
  se_t : Z;
  se_agent : Z
}.

Record SDBQOSStoreEvent := mkStore { se_entry : SDBQOSEntry; se_next : Z }.

Record SDBQOSStoreEventIndex := mkIndex {
  ei_first : Z;
  ei_last : Z;
  ei_heap : gmap Z SDBQOSStoreEvent
}.

Definition SDB_QOS_TABLE_MAX : Z := 10.

(** [qos_table]. *)
Abbreviation QosTable := (list SDBQOSStoreEventIndex).

Abbreviation XM := (ST SDBQOSStoreEventIndex).

(** ** Access to the cells. *)

Definition store_get (a : Z) : XM SDBQOSStoreEvent := fun ix =>
  match ei_heap ix !! a with Some e => Ok (e, ix) | None => UB end.

Definition store_set_next (a v : Z) : XM unit := fun ix =>
  match ei_heap ix !! a with
  | Some e => Ok (tt, mkIndex (ei_first ix) (ei_last ix) (<[a := mkStore (se_entry e) v]> (ei_heap ix)))
  | None => UB
  end.

Definition store_new (e : SDBQOSEntry) : XM Z := fun ix =>
  let a := malloc_addr (ei_heap ix) in
  Ok (a, mkIndex (ei_first ix) (ei_last ix) (<[a := mkStore e NULL]> (ei_heap ix))).

Definition store_free (a : Z) : XM unit := fun ix =>
  match ei_heap ix !! a with
  | Some _ => Ok (tt, mkIndex (ei_first ix) (ei_last ix) (delete a (ei_heap ix)))
  | None => UB
  end.

Definition set_ei_first (v : Z) : XM unit :=
  st_modify (fun ix => mkIndex v (ei_last ix) (ei_heap ix)).
Definition set_ei_last (v : Z) : XM unit :=
  st_modify (fun ix => mkIndex (ei_first ix) v (ei_heap ix)).

(** ** Operations. *)

Definition table_hash (agent : Z) : Z := agent mod SDB_QOS_TABLE_MAX.

Definition mcs_packet_to_qos_mcs (pkt : option MCSPacket) : option SDBQOSMCS :=
  match pkt with
  | None => None
  | Some p => Some (mkQosMcs (pkt_id p) (pkt_type p) (pkt_cmd p) (cstr <$> pkt_dest p))
  end.

(** The critical section of [register_event]. *)
Definition index_append (e : SDBQOSEntry) : XM unit :=
  let! store_event := store_new e in
  let! ix := st_get in
  if negb (ei_last ix =? NULL) then
    do! store_set_next (ei_last ix) store_event in
    set_ei_last store_event
  else
    do! set_ei_first store_event in
    set_ei_last store_event.

(** Run an operation on bucket [hash]. *)
Definition on_bucket {A} (hash : Z) (m : XM A) : ST QosTable A := fun t =>
  match t !! Z.to_nat hash with
  | Some ix => match m ix with
               | Ok (a, ix') => Ok (a, <[Z.to_nat hash := ix']> t)
               | UB => UB
               end
  | None => UB
  end.

(** [enabled] and [id] are those of the calling module, [now] is the time. *)
Definition register_event (enabled : bool) (id now : Z) (event : SDBQOSEvent)
    (pkt : option MCSPacket) : ST QosTable unit :=
  if enabled then
    on_bucket (table_hash id)
      (index_append (mkEntry event (mcs_packet_to_qos_mcs pkt) now id))
  else st_ret tt.

Definition sdb_qos_init : QosTable :=
  replicate (Z.to_nat SDB_QOS_TABLE_MAX) (mkIndex NULL NULL ∅).

(** ** The dump. *)

Definition event_name (e : SDBQOSEvent) : list Z :=
  match e with
  | SDB_QOS_PKT_IN => str "in"
  | SDB_QOS_PKT_OUT => str "out"
  | SDB_QOS_PKT_SCRAP => str "scrap"
  | SDB_QOS_PKT_READY => str "ready"
  end.

Definition bar : list Z := str "|".

(** The four [sprintf] calls: name, id, type, command, destination, time. *)
Definition qos_line (e : SDBQOSEntry) (p : SDBQOSMCS) : list Z :=
  event_name (se_event e) ++ bar ++ dec (mcs_id p) ++ bar ++ dec (mcs_type p) ++ bar
  ++ dec (mcs_cmd p) ++ bar ++ default [] (mcs_dest p) ++ bar ++ dec (se_t e) ++ [10].

(** [sprintf(output + output_pos, ...)]: the line and a NUL must fit. *)
Definition sprintf_at (output : list Z) (output_size : Z) (line : list Z) : outcome (list Z) :=
  if zlen output + zlen line + 1 <=? output_size then Ok (output ++ line) else UB.

(** The reallocation after a line. *)
Definition grow (output_pos output_size : Z) : Z :=
  if output_size - 50 <? output_pos then output_size * 3 / 2 else output_size.

(** The [while] of [sdb_qos_dump_module]; returns the output and [old_event]. *)
Fixpoint dump_loop (fuel : nat) (id event old_event : Z) (output : list Z) (output_size : Z) :
    XM (list Z * Z) :=
  match fuel with
  | O => st_ub
  | S fuel' =>
      if event =? NULL then st_ret (output, old_event)
      else
        let! cur := store_get event in
        if se_agent (se_entry cur) =? id then
          match se_data (se_entry cur) with
          | None => st_ub
          | Some qos_pkt =>
              let! output := st_lift (sprintf_at output output_size
                                        (qos_line (se_entry cur) qos_pkt)) in
              let output_size := grow (zlen output) output_size in
              do! (if old_event =? NULL then set_ei_first (se_next cur)
                   else store_set_next old_event (se_next cur)) in
              do! store_free event in
              dump_loop fuel' id (se_next cur) old_event output output_size
          end
        else dump_loop fuel' id (se_next cur) event output output_size
  end.

Definition dump_index (id : Z) : XM (list Z) :=
  let! ix := st_get in
  let! (output, old_event) :=
    dump_loop (S (size (ei_heap ix))) id (ei_first ix) NULL [] 500 in
  do! set_ei_last old_event in
  st_ret output.

(** [garbage] is the byte found after the output when nothing was printed. *)
Definition sdb_qos_dump_module (enabled : bool) (id garbage : Z) (from : MCSPacket) :
    ST QosTable (Z * option MCSPacket) :=
  if negb enabled then st_ret (-1, None)
  else
    let! output := on_bucket (table_hash id) (dump_index id) in
    let nul := match output with [] => garbage | _ => 0 end in
    let! out := st_lift (mcs_ok_packet_data from (Some (output ++ [nul])) (zlen output + 1)) in
    st_ret (0, Some out).

(** ** Specification. *)

Abbreviation qcell := (Z * SDBQOSEntry)%type.

Definition shd (xs : list qcell) (n : Z) : Z := match xs with [] => n | x :: _ => x.1 end.
Fixpoint slast (p : Z) (xs : list qcell) : Z :=
  match xs with [] => p | x :: r => slast x.1 r end.

Fixpoint sseg (xs : list qcell) (n : Z) (m : gmap Z SDBQOSStoreEvent) : gmap Z SDBQOSStoreEvent :=
  match xs with
  | [] => m
  | x :: r => <[x.1 := mkStore x.2 (shd r n)]> (sseg r n m)
  end.

(** A bucket holds the entries [es], oldest first, and nothing else is allocated. *)
Definition index_rep (ix : SDBQOSStoreEventIndex) (es : list SDBQOSEntry) : Prop :=
  exists xs, xs.*2 = es /\ NoDup (NULL :: xs.*1) /\
    ix = mkIndex (shd xs NULL) (slast NULL xs) (sseg xs NULL ∅).

(** A table holds the log [log] of all modules, in order of registration. *)
Definition in_bucket (i : nat) (e : SDBQOSEntry) : Prop :=
  Z.to_nat (table_hash (se_agent e)) = i.

#[export] Instance in_bucket_dec i e : Decision (in_bucket i e).
Proof. unfold in_bucket. apply _. Defined.

Definition table_rep (t : QosTable) (log : list SDBQOSEntry) : Prop :=
  length t = Z.to_nat SDB_QOS_TABLE_MAX /\
  forall i ix, t !! i = Some ix -> index_rep ix (filter (in_bucket i) log).

(** The entries of module [id], and those of the others. *)
Abbreviation own id := (filter (fun e => se_agent e = id)).
Abbreviation foreign id := (filter (fun e => se_agent e <> id)).

(** Every line of [lines] fits the buffer when its turn comes. *)
Fixpoint lines_fit (lines : list (list Z)) (output_pos output_size : Z) : bool :=
  match lines with
  | [] => true
  | l :: ls =>
      (output_pos + zlen l + 1 <=? output_size) &&
      lines_fit ls (output_pos + zlen l) (grow (output_pos + zlen l) output_size)
  end.

(** The line of an entry; an entry always has a packet. *)
Definition has_data (e : SDBQOSEntry) : Prop := se_data e <> None.

Definition entry_line (e : SDBQOSEntry) : list Z :=
  match se_data e with Some p => qos_line e p | None => [] end.
