(* ===== verification/QosFacts.v ===== *)
(** * QosFacts: the quality-of-service log implements an ordered log.

    Lemmas on the linked lists of [Qos], the properties of registration and of
    the dump, and the bounds of the dump's buffer, with their witnesses. *)

From S2P Require Import Prelude Abs McsDefs Mcs Qos.

(** ** Segments. *)

Lemma shd_app xs ys n : shd (xs ++ ys) n = shd xs (shd ys n).
Proof. by destruct xs. Qed.

Lemma slast_app p xs ys : slast p (xs ++ ys) = slast (slast p xs) ys.
Proof. revert p. induction xs; cbn; auto. Qed.

Lemma sseg_app xs ys n m : sseg (xs ++ ys) n m = sseg xs (shd ys n) (sseg ys n m).
Proof. induction xs as [|x xs IH]; cbn; [done|]. by rewrite IH, shd_app. Qed.

Lemma sseg_lookup_ne xs n m a : a ∉ xs.*1 -> sseg xs n m !! a = m !! a.
Proof.
  induction xs as [|x xs IH]; intros Ha; cbn; [done|].
  cbn in Ha. apply not_elem_of_cons in Ha as [Hx Ha]. by rewrite lookup_insert_ne, IH by done.
Qed.

Lemma sseg_lookup_elem xs n m a : a ∈ xs.*1 -> exists e, sseg xs n m !! a = Some e.
Proof.
  induction xs as [|x xs IH]; intros Ha; cbn in *; [by apply not_elem_of_nil in Ha|].
  destruct (decide (a = x.1)) as [-> |Hne]; [rewrite lookup_insert_eq; eauto|].
  apply elem_of_cons in Ha as [?|Ha]; [done|]. rewrite lookup_insert_ne by done. auto.
Qed.

Lemma sseg_insert xs n m a e :
  a ∉ xs.*1 -> <[a := e]> (sseg xs n m) = sseg xs n (<[a := e]> m).
Proof.
  induction xs as [|x xs IH]; intros Ha; cbn; [done|].
  cbn in Ha. apply not_elem_of_cons in Ha as [Hx Ha]. by rewrite insert_insert_ne, IH by done.
Qed.

Lemma sseg_delete xs n m a : a ∉ xs.*1 -> delete a (sseg xs n m) = sseg xs n (delete a m).
Proof.
  induction xs as [|x xs IH]; intros Ha; cbn; [done|].
  cbn in Ha. apply not_elem_of_cons in Ha as [Hx Ha]. by rewrite delete_insert_ne, IH by done.
Qed.

Lemma sseg_size xs n : NoDup xs.*1 -> size (sseg xs n ∅) = length xs.
Proof.
  induction xs as [|x xs IH]; intros Hn; cbn in *; [done|].
  apply NoDup_cons in Hn as [Hx Hn].
  by rewrite map_size_insert, sseg_lookup_ne, lookup_empty, IH by done.
Qed.

Lemma slast_snoc p xs x : slast p (xs ++ [x]) = x.1.
Proof. by rewrite slast_app. Qed.

Lemma slast_null xs : NULL ∉ xs.*1 -> slast NULL xs = NULL -> xs = [].
Proof.
  destruct (nil_or_snoc xs) as [-> |(x & r & ->)]; [done|].
  rewrite slast_snoc, fmap_app, elem_of_app. intros Hn Hx.
  destruct Hn. right. rewrite <- Hx. constructor.
Qed.

(** Redirecting what points to a segment: the [next] of the cell before it, or
    [ei_first]. *)
Lemma relink_index pre n n' m l v : NoDup (NULL :: pre.*1) ->
  (if slast NULL pre =? NULL then set_ei_first v else store_set_next (slast NULL pre) v)
    (mkIndex (shd pre n') l (sseg pre n m))
  = Ok (tt, mkIndex (shd pre v) l (sseg pre v m)).
Proof.
  intros [Hnull Hnd]%NoDup_cons.
  destruct (slast NULL pre =? NULL) eqn:E; bool_prop.
  - by rewrite (slast_null pre Hnull E).
  - destruct (nil_or_snoc pre) as [-> |(x & r & ->)]; [done|].
    rewrite fmap_app in Hnd. apply NoDup_app in Hnd as (_ & Hx & _).
    assert (Ha : x.1 ∉ r.*1) by (intros Hi; apply (Hx _ Hi); cbn; constructor).
    rewrite slast_snoc. unfold store_set_next. cbn [ei_heap ei_first ei_last].
    rewrite !sseg_app. cbn [sseg]. rewrite sseg_lookup_ne, lookup_insert_eq by done.
    cbn [se_entry]. by rewrite sseg_insert, insert_insert_eq, !shd_app by done.
Qed.

Definition ix_of (xs : list qcell) : SDBQOSStoreEventIndex :=
  mkIndex (shd xs NULL) (slast NULL xs) (sseg xs NULL ∅).

(** ** Registration. *)

Lemma index_append_ok ix es e : index_rep ix es ->
  exists ix', index_append e ix = Ok (tt, ix') /\ index_rep ix' (es ++ [e]).
Proof.
  intros (xs & <- & Hn & ->). unfold index_append, store_new. cbn [ei_heap ei_first ei_last].
  set (h := sseg xs NULL ∅). set (a := malloc_addr h).
  assert (Ha : a ∉ xs.*1).
  { intros Hi. destruct (sseg_lookup_elem xs NULL ∅ _ Hi) as [c Hc].
    fold h in Hc. pose proof (malloc_addr_fresh h) as Hf. fold a in Hf. congruence. }
  assert (Han : a <> NULL) by apply malloc_addr_pos.
  pose proof Hn as [Hnull Hnd]%NoDup_cons.
  exists (ix_of (xs ++ [(a, e)])). split.
  - unfold st_bind, st_get. cbv zeta. cbn [ei_last ei_first ei_heap].
    pose proof (relink_index xs NULL NULL (<[a := mkStore e NULL]> ∅) (slast NULL xs) a Hn) as Hr.
    change (malloc_addr h) with a. unfold h. rewrite sseg_insert by done. unfold ix_of.
    rewrite shd_app, slast_snoc, sseg_app. cbn [shd sseg fst snd].
    destruct (slast NULL xs =? NULL) eqn:E; cbn [negb]; by rewrite Hr.
  - exists (xs ++ [(a, e)]). rewrite !fmap_app.
    change ([(a, e)].*1) with [a]. change ([(a, e)].*2) with [e]. split_and!; [done| |done].
    apply NoDup_cons. rewrite elem_of_app, list_elem_of_singleton. split; [intuition congruence|].
    apply NoDup_app. split_and!; [done| |apply NoDup_singleton].
    intros y Hy ->%list_elem_of_singleton. done.
Qed.

(** ** The dump. *)

(** The loop keeps the cells of the other modules and prints its own; it writes
    past the buffer when a line does not fit. *)
Lemma dump_loop_ok id kept rest fuel output size l :
  NoDup (NULL :: (kept ++ rest).*1) -> Forall has_data rest.*2 -> (length rest < fuel)%nat ->
  exists kept',
    dump_loop fuel id (shd rest NULL) (slast NULL kept) output size
      (mkIndex (shd (kept ++ rest) NULL) l (sseg (kept ++ rest) NULL ∅))
    = (if lines_fit (entry_line <$> own id rest.*2) (zlen output) size
       then Ok ((output ++ concat (entry_line <$> own id rest.*2), slast NULL kept'),
                mkIndex (shd kept' NULL) l (sseg kept' NULL ∅))
       else UB) /\
    kept'.*2 = kept.*2 ++ foreign id rest.*2 /\ NoDup (NULL :: kept'.*1).
Proof.
  revert kept fuel output size. induction rest as [|x rest IH];
    intros kept fuel output size Hn Hd Hf; (destruct fuel as [|fuel]; [cbn in Hf; lia|]).
  { exists kept. cbn. rewrite !app_nil_r in *. done. }
  cbn [length] in Hf. cbn [fmap list_fmap] in *. apply Forall_cons in Hd as [Hx Hd].
  assert (Hnod : NoDup (NULL :: kept.*1) /\ x.1 <> NULL /\ (x.1 ∉ kept.*1) /\ (x.1 ∉ rest.*1) /\
                 NoDup (NULL :: (kept ++ rest).*1)).
  { rewrite fmap_app in Hn |- *. cbn in Hn. apply nodup_split in Hn. tauto. }
  destruct Hnod as (Hk & Hxn & Hxk & Hxr & Hn').
  cbn [dump_loop shd]. rewrite (proj2 (Z.eqb_neq _ _) Hxn).
  unfold st_bind at 1, store_get. cbn [ei_heap].
  assert (Hlk : sseg (kept ++ x :: rest) NULL ∅ !! x.1 = Some (mkStore x.2 (shd rest NULL)))
    by (rewrite sseg_app, sseg_lookup_ne by done; apply lookup_insert_eq).
  rewrite Hlk. cbn [se_entry se_next].
  rewrite !filter_cons. destruct (se_agent x.2 =? id) eqn:E; bool_prop.
  - rewrite decide_True by done. rewrite decide_False by tauto.
    cbn [fmap list_fmap lines_fit concat].
    assert (Hline : exists p, se_data x.2 = Some p /\ qos_line x.2 p = entry_line x.2).
    { unfold has_data, entry_line in *. destruct (se_data x.2) as [p|]; [by exists p|done]. }
    destruct Hline as (p & -> & ->).
    destruct (IH kept fuel (output ++ entry_line x.2)
                (grow (zlen (output ++ entry_line x.2)) size)) as (kept' & HE & Hk2 & Hn2);
      [done|done|lia|].
    exists kept'. split; [|done]. unfold st_bind at 1, st_lift, sprintf_at.
    destruct (_ <=? size); cbn [andb]; [|done].
    unfold st_bind at 1. rewrite shd_app, sseg_app. cbn [shd sseg].
    rewrite relink_index by done. unfold st_bind, store_free. cbn [ei_heap ei_first ei_last].
    rewrite sseg_lookup_ne, lookup_insert_eq, sseg_delete, delete_insert_eq by done.
    rewrite sseg_delete, delete_empty by done.
    rewrite <- shd_app, <- sseg_app, HE, zlen_app, <- app_assoc. done.
  - rewrite decide_False by done. rewrite decide_True by done.
    replace (kept ++ x :: rest) with ((kept ++ [x]) ++ rest) in * by by rewrite <- app_assoc.
    destruct (IH (kept ++ [x]) fuel output size) as (kept' & HE & Hk2 & Hn2); [done|done|lia|].
    rewrite slast_snoc in HE. exists kept'. split_and!; [done| |done].
    by rewrite Hk2, fmap_app, <- app_assoc.
Qed.

Lemma dump_index_ok id ix es : index_rep ix es -> Forall has_data es ->
  exists ix', index_rep ix' (foreign id es) /\
    dump_index id ix = if lines_fit (entry_line <$> own id es) 0 500
                       then Ok (concat (entry_line <$> own id es), ix') else UB.
Proof.
  intros (xs & <- & Hn & ->) Hd. unfold dump_index, st_bind, st_get.
  cbn [ei_heap ei_first]. rewrite sseg_size by (apply NoDup_cons in Hn; tauto).
  destruct (dump_loop_ok id [] xs (S (length xs)) [] 500 (slast NULL xs) Hn Hd)
    as (kept & HE & Hk & Hn'); [lia|].
  cbn [app slast] in HE. rewrite HE. change (zlen []) with 0.
  exists (ix_of kept). split; [by exists kept|]. by destruct (lines_fit _ _ _).
Qed.

(** ** The table. *)

Lemma table_hash_range id : (Z.to_nat (table_hash id) < 10)%nat.
Proof. unfold table_hash, SDB_QOS_TABLE_MAX. pose proof (Z.mod_pos_bound id 10). lia. Qed.

Lemma table_bucket t log id : table_rep t log ->
  exists ix, t !! Z.to_nat (table_hash id) = Some ix /\
    index_rep ix (filter (in_bucket (Z.to_nat (table_hash id))) log).
Proof.
  intros [Hl Hb]. pose proof (table_hash_range id) as Hr.
  destruct (lookup_lt_is_Some_2 t (Z.to_nat (table_hash id))) as [ix Hix].
  { rewrite Hl. exact Hr. }
  exists ix. split; [done|]. by apply Hb.
Qed.

Lemma table_rep_init : table_rep sdb_qos_init [].
Proof.
  split; [done|]. intros i ix Hi. apply lookup_replicate in Hi as [-> _].
  exists []. split_and!; [done|apply NoDup_singleton|done].
Qed.

(** Replacing a bucket. *)
Lemma table_update t log log' id ix' : table_rep t log ->
  index_rep ix' (filter (in_bucket (Z.to_nat (table_hash id))) log') ->
  (forall i, i <> Z.to_nat (table_hash id) ->
     filter (in_bucket i) log' = filter (in_bucket i) log) ->
  table_rep (<[Z.to_nat (table_hash id) := ix']> t) log'.
Proof.
  intros [Hl Hb] Hix Hother. split; [by rewrite length_insert|].
  intros i ix Hi. apply list_lookup_insert_Some in Hi as [(<- & <- & _)|[Hne Hi]]; [done|].
  rewrite Hother by done. by apply Hb.
Qed.

Lemma register_event_ok enabled id now ev pkt t log : table_rep t log ->
  exists t', register_event enabled id now ev pkt t = Ok (tt, t') /\
    table_rep t' (if enabled
                  then log ++ [mkEntry ev (mcs_packet_to_qos_mcs pkt) now id] else log).
Proof.
  intros Ht. unfold register_event. destruct enabled; [|by exists t].
  destruct (table_bucket t log id Ht) as (ix & Hix & Hrep). unfold on_bucket. rewrite Hix.
  set (e := mkEntry _ _ _ _).
  destruct (index_append_ok ix _ e Hrep) as (ix' & -> & Hrep').
  eexists. split; [done|]. eapply table_update; [done| |].
  - by rewrite filter_app, filter_cons, filter_nil, decide_True.
  - intros i Hi. rewrite filter_app, filter_cons, filter_nil, decide_False, app_nil_r; [done|].
    unfold in_bucket. cbn. congruence.
Qed.

(** The own entries of a module are those of its bucket. *)
Lemma own_bucket id (log : list SDBQOSEntry) : own id (filter (in_bucket (Z.to_nat (table_hash id))) log) = own id log.
Proof.
  induction log as [|e log IH]; [done|]. rewrite !filter_cons.
  destruct (decide (se_agent e = id)) as [<-|Hne].
  - rewrite decide_True by done. by rewrite filter_cons, decide_True, IH by done.
  - case_decide; [|done]. by rewrite filter_cons, decide_False, IH by done.
Qed.

Lemma foreign_bucket id i (log : list SDBQOSEntry) :
  filter (in_bucket i) (foreign id log) = foreign id (filter (in_bucket i) log).
Proof. rewrite !list_filter_filter. apply list_filter_iff. tauto. Qed.

Lemma foreign_other_bucket id i (log : list SDBQOSEntry) : i <> Z.to_nat (table_hash id) ->
  filter (in_bucket i) (foreign id log) = filter (in_bucket i) log.
Proof.
  intros Hi. rewrite list_filter_filter. apply list_filter_iff. intros e.
  split; [tauto|]. intros He. split; [done|]. intros <-. by apply Hi.
Qed.

Lemma dump_bucket_ok id t log : table_rep t log -> Forall has_data log ->
  exists t', table_rep t' (foreign id log) /\
    on_bucket (table_hash id) (dump_index id) t
    = if lines_fit (entry_line <$> own id log) 0 500
      then Ok (concat (entry_line <$> own id log), t') else UB.
Proof.
  intros Ht Hd. destruct (table_bucket t log id Ht) as (ix & Hix & Hrep).
  destruct (dump_index_ok id ix _ Hrep) as (ix' & Hrep' & HE).
  { apply Forall_forall. intros e [_ He]%list_elem_of_filter.
    rewrite Forall_forall in Hd. by apply Hd. }
  rewrite own_bucket in HE. unfold on_bucket. rewrite Hix, HE.
  eexists. split; [|by destruct (lines_fit _ _ _)].
  eapply table_update; [done|by rewrite foreign_bucket|].
  intros i Hi. by apply foreign_other_bucket.
Qed.

(** ** The buffer. *)

(** With room for 50 characters before every line, lines of at most 49 fit. *)
Lemma short_lines_fit lines pos size :
  Forall (fun l => zlen l <= 49) lines -> 0 <= pos <= size - 50 -> 100 <= size ->
  lines_fit lines pos size = true.
Proof.
  intros Hs. revert pos size. induction Hs as [|l lines Hl _ IH]; intros pos size Hp Hz; [done|].
  cbn. pose proof (zlen_nonneg l). rewrite (proj2 (Z.leb_le _ _)) by lia. cbn [andb].
  unfold grow. destruct (size - 50 <? pos + zlen l) eqn:E; bool_prop; [|apply IH; lia].
  pose proof (Z.div_le_lower_bound (size * 3) 2 (size + 50)). apply IH; lia.
Qed.

Lemma event_name_length e : zlen (event_name e) <= 5.
Proof. by destruct e. Qed.

(** The numbers of a line whose width depends on the command and its destination. *)
Definition variable_width (p : SDBQOSMCS) : Z :=
  zlen (dec (mcs_type p)) + zlen (dec (mcs_cmd p)) + zlen (default [] (mcs_dest p)).

(** A log entry: an id of 32 bits, a clock before the year 2286, and at most [n]
    characters for type, command and destination. *)
Definition entry_ok (n : Z) (e : SDBQOSEntry) : Prop :=
  exists p, se_data e = Some p /\ 0 <= mcs_id p < 2 ^ 32 /\ 0 <= se_t e < 10 ^ 16 /\
    variable_width p <= n.

Lemma entry_ok_line n e : entry_ok n e -> has_data e /\ zlen (entry_line e) <= 37 + n.
Proof.
  intros (p & Hp & Hi & Hs & Hn). unfold has_data, entry_line, variable_width in *. rewrite Hp.
  split; [done|]. unfold qos_line, bar. cbn [str]. autorewrite with bytes.
  pose proof (event_name_length (se_event e)).
  pose proof (dec_length 10 (mcs_id p) ltac:(cbn; lia) ltac:(lia)).
  pose proof (dec_length 16 (se_t e) ltac:(cbn; lia) ltac:(lia)). lia.
Qed.

Lemma own_forall (P : SDBQOSEntry -> Prop) id log : Forall P log -> Forall P (own id log).
Proof.
  intros HP. apply Forall_forall. intros e [_ He]%list_elem_of_filter.
  rewrite Forall_forall in HP. by apply HP.
Qed.



(** ** Properties. *)

(** An event is appended at the end of the log of all modules, and only if
    the module has its log enabled; the record keeps the id, type, command and
    destination of the packet. *)
Theorem qos_register_appends enabled id now ev pkt t log :
  table_rep t log ->
  exists t', register_event enabled id now ev (Some pkt) t = Ok (tt, t') /\
    table_rep t' (if enabled
      then log ++ [mkEntry ev (Some (mkQosMcs (pkt_id pkt) (pkt_type pkt) (pkt_cmd pkt)
                                       (cstr <$> pkt_dest pkt))) now id]
      else log).
Proof. intros Ht. by apply register_event_ok. Qed.


(** The dump never writes past its buffer when the type, the command and the
    destination of every logged packet take at most 12 characters together, as
    they do for command numbers below 10. *)
Theorem qos_dump_in_bounds id garbage from t log :
  table_rep t log -> Forall (entry_ok 12) log ->
  exists r t', sdb_qos_dump_module true id garbage from t = Ok (r, t').
Proof.
  intros Ht Hok.
  assert (Hd : Forall has_data log) by (eapply Forall_impl; [exact Hok|]; apply entry_ok_line).
  destruct (dump_bucket_ok id t log Ht Hd) as (t' & _ & HE).
  rewrite short_lines_fit in HE; [|apply Forall_fmap|lia|lia].
  - unfold sdb_qos_dump_module, st_bind. cbn [negb]. rewrite HE. cbv zeta.
    unfold mcs_ok_packet_data, mcs_ok_packet_data_id, abs_malloccpy.
    set (nul := match concat _ with [] => _ | _ => _ end). set (text := concat _).
    replace (zlen text + 1) with (zlen (text ++ [nul])) by by rewrite zlen_app.
    rewrite memcpy_all. destruct (_ =? 0); eauto.
  - apply own_forall. eapply Forall_impl; [exact Hok|]. intros e He.
    apply (entry_ok_line 12) in He as [_ He]. cbn. lia.
Qed.

(** One more character is too much: ten events with lines of 50 characters
    make the dump write the NUL of the last one past the end of its buffer. *)
Theorem qos_dump_overflow id garbage from t e :
  table_rep t (replicate 10 e) -> has_data e -> se_agent e = id ->
  zlen (entry_line e) = 50 ->
  sdb_qos_dump_module true id garbage from t = UB.
Proof.
  intros Ht Hd Ha Hl.
  destruct (dump_bucket_ok id t _ Ht) as (t' & _ & HE); [by repeat constructor|].
  assert (Hown : own id (replicate 10 e) = replicate 10 e).
  { cbn [replicate]. rewrite !filter_cons, filter_nil, !decide_True by done. done. }
  rewrite Hown in HE. unfold sdb_qos_dump_module, st_bind. cbn [negb]. rewrite HE.
  cbn [replicate fmap list_fmap lines_fit]. by rewrite Hl.
Qed.

(** ** Witnesses. *)

(** A message to module [housekeep1] with a ten-digit id, logged by module 3. *)
Definition logged_packet (cmd : Z) : MCSPacket :=
  mkMCSPacket 4000000000 MCS_TYPE_MESSAGE cmd 0 None (Some (str "housekeep1")) 0 None.

Definition logged_entry (cmd : Z) : SDBQOSEntry :=
  mkEntry SDB_QOS_PKT_READY (mcs_packet_to_qos_mcs (Some (logged_packet cmd))) 1400000000000000 3.

Lemma logged_table cmd n : exists t, table_rep t (replicate n (logged_entry cmd)).
Proof.
  induction n as [|n [t Ht]]; [exists sdb_qos_init; apply table_rep_init|].
  destruct (register_event_ok true 3 1400000000000000 SDB_QOS_PKT_READY
              (Some (logged_packet cmd)) t _ Ht) as (t' & _ & Ht').
  exists t'. rewrite replicate_S_end. exact Ht'.
Qed.

Lemma qos_register_appends_witness :
  exists t', register_event true 3 1400000000000000 SDB_QOS_PKT_READY (Some (logged_packet 0))
               sdb_qos_init = Ok (tt, t') /\ table_rep t' [logged_entry 0].
Proof.
  destruct (qos_register_appends true 3 1400000000000000 SDB_QOS_PKT_READY (logged_packet 0)
              sdb_qos_init [] table_rep_init) as (t' & E & Ht').
  exists t'. split; [exact E|exact Ht'].
Defined.


Lemma qos_dump_in_bounds_witness :
  exists t r t', table_rep t (replicate 10 (logged_entry 0)) /\
    sdb_qos_dump_module true 3 7 (mcs_ok_packet_id 1) t = Ok (r, t').
Proof.
  destruct (logged_table 0 10) as [t Ht].
  destruct (qos_dump_in_bounds 3 7 (mcs_ok_packet_id 1) t _ Ht) as (r & t' & E).
  - apply Forall_replicate. eexists. split; [reflexivity|]. vm_compute. done.
  - exists t, r, t'. split; [exact Ht|exact E].
Defined.

(** The same with command number 10. *)
Lemma qos_dump_overflow_witness :
  exists t, table_rep t (replicate 10 (logged_entry 10)) /\
    sdb_qos_dump_module true 3 7 (mcs_ok_packet_id 1) t = UB.
Proof.
  destruct (logged_table 10 10) as [t Ht]. exists t. split; [exact Ht|].
  apply (qos_dump_overflow 3 7 (mcs_ok_packet_id 1) t (logged_entry 10)); [exact Ht|done|done|reflexivity].
Defined.
