(* ===== verification/Usb.v ===== *)
(** * Usb: the packet formats of the USB link.

    The translation between MCS packets and the raw packets exchanged with the
    board, [mcs_to_usb] and [usb_to_mcs] of [src/src/Architecture/SDB/sdb_usb.c],
    and the two functions of the board's firmware on the other side of the link,
    [process_packet] and [to_raw] of [src/src/Arduino/abs/assets.ino]. *)

From S2P Require Import Prelude Abs McsDefs Mcs.

(** ** The daemon's side. *)

Definition SDB_USB_DATA_SIZE : Z := 256.

(** [SDBUSBResponse]. *)
Definition SDB_USB_OK : Z := 0.
Definition SDB_USB_OK_DATA : Z := 1.
Definition SDB_USB_ERROR : Z := 2.

(** Reading an element of an array: outside it is undefined. *)
Definition array_get (p : option (list Z)) (i : nat) : outcome Z :=
  match p with
  | Some l => match l !! i with Some b => Ok b | None => UB end
  | None => UB
  end.

Section Host.
Context `{MCSTables}.

(** The first byte of a raw packet: command, parameters and the marker bit. *)
Definition usb_header (command parameters : Z) : Z :=
  u8 (Z.land (Z.shiftl command 5) 0xE0 + Z.land (Z.shiftl parameters 1) 0x1E + Z.land 1 1).

(** The bytes of the two arguments. *)
Definition usb_args (packet : MCSPacket) : outcome (Z * Z) :=
  if pkt_nargs packet =? 0 then Ok (1, 1)
  else if pkt_nargs packet =? 1 then
    match array_get (pkt_args packet) 0 with
    | Ok a => Ok (u8 (Z.shiftl a 1 + 1), 1)
    | UB => UB
    end
  else
    match array_get (pkt_args packet) 0, array_get (pkt_args packet) 1 with
    | Ok a, Ok b => Ok (u8 (Z.shiftl a 1 + 1), u8 (Z.shiftl b 1 + 1))
    | _, _ => UB
    end.

(** The raw packet, or [None] where the function goes to [error] and answers
    the packet with [EBADFORMAT]. *)
Definition mcs_to_usb (packet : MCSPacket) : outcome (option (list Z)) :=
  let usb_packet_size := pkt_data_size packet + 6 in
  if negb (pkt_type packet =? MCS_TYPE_PAYLOAD)
     || (mcs_command_list_size MCS_TYPE_PAYLOAD <=? pkt_cmd packet) then Ok None
  else if SDB_USB_DATA_SIZE <? usb_packet_size then Ok None
  else if 0x7F <? pkt_id packet then Ok None
  else if 2 <? pkt_nargs packet then Ok None
  else
    match mcs_command_payload_list !! Z.to_nat (pkt_cmd packet) with
    | None => UB
    | Some cmd =>
        match usb_args packet, memcpy (pkt_data packet) (pkt_data_size packet) with
        | Ok (a1, a2), Ok data =>
            Ok (Some ([usb_header (payload_command cmd) (payload_parameters cmd); a1; a2;
                       u8 (Z.land (Z.shiftr (pkt_data_size packet) 6) 0xFE) + 1;
                       u8 (Z.shiftl (pkt_data_size packet) 1) + 1]
                      ++ data ++ [u8 (Z.shiftl (pkt_id packet) 1)]))
        | _, _ => UB
        end
    end.

(** [usb_packet] is the buffer the packet was read into, [usb_packet_size] the
    number of bytes read. *)
Definition usb_to_mcs (usb_packet : list Z) (usb_packet_size : Z) : outcome (option MCSPacket) :=
  if usb_packet_size <? 6 then Ok None
  else
    match usb_packet !! 0%nat, usb_packet !! 3%nat, usb_packet !! 4%nat with
    | Some b0, Some b3, Some b4 =>
        let response_type := Z.shiftr b0 1 in
        let data_size := Z.lor (Z.shiftl (Z.land b3 (Z.lnot 1)) 7) (Z.shiftr b4 1) in
        if (0 <? data_size) && negb (usb_packet_size =? data_size + 6) then Ok None
        else
          match usb_packet !! Z.to_nat (5 + data_size) with
          | None => UB
          | Some bid =>
              let pkt_id := Z.shiftr bid 1 in
              if response_type =? SDB_USB_OK then Ok (Some (mcs_ok_packet_id pkt_id))
              else if response_type =? SDB_USB_OK_DATA then
                match mcs_ok_packet_data_id pkt_id
                        (if 0 <? data_size then Some (drop 5 usb_packet) else None) data_size with
                | Ok r => Ok (Some r)
                | UB => UB
                end
              else Ok (Some (mcs_err_packet_id pkt_id EHWFAULT))
          end
    | _, _, _ => UB
    end.

End Host.

(** ** The board's side. *)

Record USBPacket := mkUSBPacket {
  usb_command : Z;
  usb_parameters : Z;
  usb_cmd_arg1 : Z;
  usb_cmd_arg2 : Z;
  usb_data_size : Z;
  usb_data : option (list Z);
  usb_packet_id : Z
}.

Definition CONTROL : Z := 0.

(** [ParametersControl]. *)
Definition USB_OK : Z := 0.
Definition USB_OK_DATA : Z := 1.
Definition USB_ERRORS : Z := 2.
Definition USB_ABORT : Z := 3.

(** Where a constructor leaves the argument fields unset they hold [g1], [g2]. *)
Definition usb_ok_packet (id : Z) : USBPacket := mkUSBPacket CONTROL USB_OK 0 0 0 None id.
Definition usb_abort_packet (id : Z) : USBPacket := mkUSBPacket CONTROL USB_ABORT 0 0 0 None id.
Definition usb_ok_data_packet (g1 g2 id : Z) (result : list Z) (dsize : Z) : USBPacket :=
  mkUSBPacket CONTROL USB_OK_DATA g1 g2 dsize (Some result) id.
Definition usb_error_packet (g2 id error : Z) : USBPacket :=
  mkUSBPacket CONTROL USB_ERRORS error g2 0 None id.

(** A size below 0 makes the buffer of six bytes and the data too small; with -1 the
    id just takes the place of the last size byte. *)
Definition to_raw (packet : USBPacket) : outcome (list Z) :=
  let msg0 := u8 (Z.land (Z.shiftl (usb_command packet) 5) 0xE0
                  + Z.land (Z.shiftl (usb_parameters packet) 1) 0x1E + 1) in
  let msg1 := u8 (Z.shiftl (usb_cmd_arg1 packet) 1 + 1) in
  let msg2 := u8 (Z.shiftl (usb_cmd_arg2 packet) 1 + 1) in
  let msg3 := u8 (Z.shiftr (usb_data_size packet) 7 + 1) in
  let msg4 := u8 (Z.shiftl (usb_data_size packet) 1 + 1) in
  let last := u8 (Z.shiftl (usb_packet_id packet) 1) in
  if usb_data_size packet <? 0 then
    if usb_data_size packet =? -1 then Ok [msg0; msg1; msg2; msg3; last] else UB
  else
    match memcpy (usb_data packet) (usb_data_size packet) with
    | Ok data => Ok ([msg0; msg1; msg2; msg3; msg4] ++ data ++ [last])
    | UB => UB
    end.

Definition process_packet (msg : list Z) : outcome USBPacket :=
  match msg with
  | b0 :: b1 :: b2 :: b3 :: b4 :: rest =>
      let data_size := Z.shiftr b4 1 + Z.shiftl (Z.land b3 0xFE) 6 in
      match rest !! Z.to_nat data_size with
      | None => UB
      | Some bid =>
          Ok (mkUSBPacket (Z.land (Z.shiftr b0 5) 0x07) (Z.land (Z.shiftr b0 1) 0x0F)
                (Z.shiftr b1 1) (Z.shiftr b2 1) data_size
                (if 0 <? data_size then Some rest else None) (Z.shiftr bid 1))
      end
  | _ => UB
  end.
