(* ===== verification/UsbProps.v ===== *)
(** * UsbProps: the two ends of the USB link agree, up to a size. *)

From S2P Require Import Prelude Abs McsDefs Mcs McsFacts Usb.

(** ** Bit fields, by enumeration of the byte values. *)

Lemma forallb_range (f : Z -> bool) n : forallb f (seqZ 0 n) = true ->
  forall i, 0 <= i < n -> f i = true.
Proof.
  rewrite forallb_forall. intros Hf i Hi. apply Hf, list_elem_of_In, elem_of_seqZ. lia.
Qed.

(** Close [forall i, 0 <= i < n -> f i = g i] by computation. *)
Ltac by_range n :=
  let i := fresh "i" in let Hi := fresh "Hi" in
  intros i Hi; apply Z.eqb_eq; revert i Hi;
  apply (forallb_range _ n); vm_compute; reflexivity.

Lemma header_fields c p : 0 <= c < 8 -> 0 <= p < 16 ->
  Z.land (Z.shiftr (usb_header c p) 5) 0x07 = c /\
  Z.land (Z.shiftr (usb_header c p) 1) 0x0F = p.
Proof.
  intros Hc Hp.
  assert (Hall : forallb (fun i => let c := i / 16 in let p := i mod 16 in
    (Z.land (Z.shiftr (usb_header c p) 5) 0x07 =? c)
    && (Z.land (Z.shiftr (usb_header c p) 1) 0x0F =? p)) (seqZ 0 128) = true)
    by (vm_compute; reflexivity).
  pose proof (forallb_range _ _ Hall (c * 16 + p) ltac:(lia)) as H. cbv beta zeta in H.
  rewrite Z.div_add_l, Z.div_small, Z.add_0_r in H by lia.
  rewrite Z.add_comm, Z.mod_add, Z.mod_small in H by lia. bool_prop. done.
Qed.

Lemma arg_field : forall a, 0 <= a < 256 -> Z.shiftr (u8 (Z.shiftl a 1 + 1)) 1 = a mod 128.
Proof. by_range 256. Qed.

Lemma id_field : forall i, 0 <= i < 128 -> Z.shiftr (u8 (Z.shiftl i 1)) 1 = i.
Proof. by_range 128. Qed.

Lemma size_field : forall n, 0 <= n < 251 ->
  Z.shiftr (u8 (Z.shiftl n 1) + 1) 1
  + Z.shiftl (Z.land (u8 (Z.land (Z.shiftr n 6) 0xFE) + 1) 0xFE) 6 = n.
Proof. by_range 251. Qed.

(** The size the daemon reads from an answer of the board. *)
Definition answer_size (b3 b4 : Z) : Z :=
  Z.lor (Z.shiftl (Z.land b3 (Z.lnot 1)) 7) (Z.shiftr b4 1).

Lemma answer_size_small : forall n, 0 <= n < 128 ->
  answer_size (u8 (Z.shiftr n 7 + 1)) (u8 (Z.shiftl n 1 + 1)) = n.
Proof. by_range 128. Qed.

Lemma answer_size_large n : 128 <= n < 256 ->
  answer_size (u8 (Z.shiftr n 7 + 1)) (u8 (Z.shiftl n 1 + 1)) = n + 128.
Proof.
  intros Hn. replace n with (n - 128 + 128) at 1 2 by lia.
  replace (n + 128) with (n - 128 + 256) by lia.
  assert (Hi : 0 <= n - 128 < 128) by lia. revert Hi. generalize (n - 128). by_range 128.
Qed.

Lemma answer_size_range b3 b4 : byte_ok b3 -> byte_ok b4 -> 0 <= answer_size b3 b4 < 65536.
Proof.
  unfold byte_ok, answer_size. intros H3 H4.
  assert (Hb3 : 0 <= Z.shiftl (Z.land b3 (Z.lnot 1)) 7) by (apply Z.shiftl_nonneg, Z.land_nonneg; lia).
  assert (Hb4 : 0 <= Z.shiftr b4 1) by (apply Z.shiftr_nonneg; lia).
  split; [apply Z.lor_nonneg; lia|].
  assert (Hf : forall b, 0 <= b < 256 ->
    (0 <=? Z.shiftl (Z.land b (Z.lnot 1)) 7) && (Z.shiftl (Z.land b (Z.lnot 1)) 7 <? 32768) = true)
    by (apply (forallb_range _ 256); vm_compute; reflexivity).
  specialize (Hf b3 H3). bool_prop.
  rewrite Z.shiftr_div_pow2 in * by lia. change (2 ^ 1) with 2 in *.
  pose proof (Z.div_lt_upper_bound b4 2 128).
  set (x := Z.shiftl _ _) in *. set (y := b4 / 2) in *.
  destruct (Z.eq_dec (Z.lor x y) 0) as [-> |Hne]; [lia|].
  pose proof (proj2 (Z.lor_nonneg x y) ltac:(lia)).
  change 65536 with (2 ^ 16). apply Z.log2_lt_pow2; [lia|]. rewrite Z.log2_lor by lia.
  assert (Hlog : forall z, 0 <= z < 65536 -> Z.log2 z < 16).
  { intros z Hz. destruct (Z.eq_dec z 0) as [-> |]; [done|]. apply Z.log2_lt_pow2; lia. }
  apply Z.max_lub_lt; apply Hlog; lia.
Qed.

(** ** Properties. *)

Section Properties.
Context `{MCSTables}.

(** The argument byte [i] of a packet, 0 when it has fewer arguments. *)
Definition arg_byte (p : MCSPacket) (i : nat) : Z := default 0 (block (pkt_args p) !! i).

Lemma usb_args_ok p : 0 <= pkt_nargs p <= 2 -> buffer (pkt_nargs p) (pkt_args p) ->
  exists a1 a2, usb_args p = Ok (a1, a2) /\
    Z.shiftr a1 1 = arg_byte p 0 mod 128 /\ Z.shiftr a2 1 = arg_byte p 1 mod 128.
Proof.
  intros Hn Hb. unfold usb_args, arg_byte, array_get.
  destruct (pkt_args p) as [l|]; cbn in Hb |- *; [destruct Hb as [Hl Hb]|rewrite Hb; by exists 1, 1].
  destruct l as [|a [|b [|c l]]]; rewrite ?zlen_cons, ?zlen_nil in Hl.
  - rewrite <- Hl. by exists 1, 1.
  - rewrite <- Hl. apply Forall_cons in Hb as [Ha _]. cbn.
    eexists _, _. split; [done|]. by rewrite arg_field.
  - rewrite <- Hl. apply Forall_cons in Hb as [Ha Hb]. apply Forall_cons in Hb as [Hb _]. cbn.
    eexists _, _. split; [done|]. by rewrite !arg_field.
  - pose proof (zlen_nonneg l). lia.
Qed.

(** The request the board finds in a raw packet followed by [junk]. *)
Definition request_of (p : MCSPacket) (c : MCSCommandOptionsPayload) (junk : list Z) : USBPacket :=
  mkUSBPacket (payload_command c) (payload_parameters c) (arg_byte p 0 mod 128) (arg_byte p 1 mod 128)
    (pkt_data_size p)
    (if 0 <? pkt_data_size p then Some (block (pkt_data p) ++ u8 (Z.shiftl (pkt_id p) 1) :: junk) else None)
    (pkt_id p).

(** A payload packet that fits the link. *)
Record fits_link (p : MCSPacket) (c : MCSCommandOptionsPayload) : Prop := {
  fl_wf : wf_packet p;
  fl_type : pkt_type p = MCS_TYPE_PAYLOAD;
  fl_cmd : mcs_command_payload_list !! Z.to_nat (pkt_cmd p) = Some c;
  fl_command : 0 <= payload_command c < 8;
  fl_parameters : 0 <= payload_parameters c < 16;
  fl_id : pkt_id p <= 0x7F;
  fl_nargs : pkt_nargs p <= 2;
  fl_data : pkt_data_size p <= 250
}.

Lemma request_decoded p c : fits_link p c ->
  exists raw, mcs_to_usb p = Ok (Some raw) /\ zlen raw = pkt_data_size p + 6 /\
    forall junk, process_packet (raw ++ junk) = Ok (request_of p c junk).
Proof.
  intros [Hwf Ht Hc Hcmd Hpar Hid Hn Hs].
  pose proof (wf_id p Hwf). pose proof (wf_nargs p Hwf). pose proof (wf_data_size p Hwf).
  pose proof (wf_cmd p Hwf).
  destruct (memcpy_block _ _ (wf_data p Hwf)) as (Ed & Hld & _).
  destruct (usb_args_ok p) as (a1 & a2 & Ea & Ha1 & Ha2); [lia|apply Hwf|].
  pose proof (lookup_lt_Some _ _ _ Hc) as Hlt.
  unfold mcs_to_usb, SDB_USB_DATA_SIZE. rewrite Ht, Hc, Ea, Ed.
  unfold mcs_command_list_size. cbn [MCS_TYPE_PAYLOAD MCS_TYPE_MESSAGE MCS_TYPE_STATE Z.eqb Pos.eqb negb orb].
  unfold zlen in Hlt |- * at 1. rewrite (proj2 (Z.leb_gt _ _)) by (unfold zlen; lia).
  rewrite !(proj2 (Z.ltb_ge _ _)) by lia.
  eexists. split; [done|]. split; [autorewrite with bytes; lia|]. intros junk.
  cbn [app process_packet]. rewrite size_field by lia. rewrite <- app_assoc. cbn [app].
  assert (Hlk : (block (pkt_data p) ++ u8 (Z.shiftl (pkt_id p) 1) :: junk)
                !! Z.to_nat (pkt_data_size p) = Some (u8 (Z.shiftl (pkt_id p) 1))).
  { rewrite <- Hld at 1. unfold zlen. rewrite Nat2Z.id.
    rewrite lookup_app_r by lia. by rewrite Nat.sub_diag. }
  rewrite Hlk. unfold request_of. destruct (header_fields _ _ Hcmd Hpar) as [-> ->].
  rewrite Ha1, Ha2. by rewrite id_field by lia.
Qed.

(** The data of the request. *)
Lemma request_data p c junk : fits_link p c ->
  memcpy (usb_data (request_of p c junk)) (usb_data_size (request_of p c junk)) = Ok (block (pkt_data p)).
Proof.
  intros [Hwf _ _ _ _ _ _ _]. pose proof (wf_data_size p Hwf).
  destruct (memcpy_block _ _ (wf_data p Hwf)) as (_ & Hld & _). cbn.
  destruct (0 <? pkt_data_size p) eqn:E; bool_prop.
  - unfold memcpy. rewrite (proj2 (Z.eqb_neq _ _)) by lia.
    rewrite (proj2 (Z.leb_le _ _)) by (rewrite zlen_app; pose proof (zlen_nonneg junk);
      unfold zlen in *; cbn [length]; lia).
    f_equal. rewrite <- Hld. unfold zlen. rewrite Nat2Z.id. apply take_app_length.
  - replace (pkt_data_size p) with 0 by lia. unfold memcpy. cbn. f_equal. symmetry.
    apply zlen_0. lia.
Qed.

(** The board understands the daemon.  A payload packet that fits the link
    (at most two arguments, at most 250 bytes of data, a 7-bit id) is converted
    to a raw packet of six bytes and its data; whatever follows it in the
    board's buffer, the firmware recovers the command and the parameters of the
    table, the low seven bits of the arguments, the data and the id. *)
Theorem usb_request_roundtrip p c junk :
  wf_packet p -> pkt_type p = MCS_TYPE_PAYLOAD ->
  mcs_command_payload_list !! Z.to_nat (pkt_cmd p) = Some c ->
  0 <= payload_command c < 8 -> 0 <= payload_parameters c < 16 ->
  pkt_id p <= 0x7F -> pkt_nargs p <= 2 -> pkt_data_size p <= 250 ->
  exists raw q, mcs_to_usb p = Ok (Some raw) /\ zlen raw = pkt_data_size p + 6 /\
    process_packet (raw ++ junk) = Ok q /\
    usb_command q = payload_command c /\ usb_parameters q = payload_parameters c /\
    usb_cmd_arg1 q = arg_byte p 0 mod 128 /\ usb_cmd_arg2 q = arg_byte p 1 mod 128 /\
    memcpy (usb_data q) (usb_data_size q) = Ok (block (pkt_data p)) /\
    usb_packet_id q = pkt_id p.
Proof.
  intros Hwf Ht Hc Hcmd Hpar Hid Hn Hs. assert (Hf : fits_link p c) by done.
  destruct (request_decoded p c Hf) as (raw & E & Hl & Hp). eexists _, _.
  split_and!; [exact E|exact Hl|apply Hp|done|done|done|done|by apply request_data|done].
Qed.

Lemma raw_id_lookup b0 b1 b2 b3 b4 (data : list Z) bid :
  (b0 :: b1 :: b2 :: b3 :: b4 :: data ++ [bid]) !! Z.to_nat (5 + zlen data) = Some bid.
Proof.
  replace (Z.to_nat (5 + zlen data)) with (5 + length data)%nat by (unfold zlen; lia).
  change (b0 :: _) with ([b0; b1; b2; b3; b4] ++ data ++ [bid]).
  rewrite lookup_app_r by (cbn; lia). rewrite lookup_app_r by (cbn; lia).
  cbn [length]. by replace (5 + length data - 5 - length data)%nat with 0%nat by lia.
Qed.

(** What the daemon makes of a raw answer with consistent sizes. *)
Lemma usb_answer_ok b0 b1 b2 b3 b4 data bid : answer_size b3 b4 = zlen data ->
  usb_to_mcs (b0 :: b1 :: b2 :: b3 :: b4 :: data ++ [bid]) (zlen data + 6) =
  let id := Z.shiftr bid 1 in
  Ok (Some (if Z.shiftr b0 1 =? SDB_USB_OK then mcs_ok_packet_id id
            else if Z.shiftr b0 1 =? SDB_USB_OK_DATA then
              mkMCSPacket id MCS_TYPE_OK_DATA 0 0 None None (u16 (zlen data))
                (if zlen data =? 0 then None else Some data)
            else mcs_err_packet_id id EHWFAULT)).
Proof.
  intros Hs. pose proof (zlen_nonneg data). unfold usb_to_mcs.
  rewrite (proj2 (Z.ltb_ge _ _)) by lia. cbn [lookup list_lookup].
  fold (answer_size b3 b4). rewrite Hs, Z.eqb_refl, andb_false_r.
  rewrite raw_id_lookup. cbv zeta. destruct (_ =? SDB_USB_OK); [done|]. destruct (_ =? SDB_USB_OK_DATA); [|done].
  unfold mcs_ok_packet_data_id, abs_malloccpy, memcpy.
  destruct (zlen data =? 0) eqn:E; [done|]. bool_prop.
  rewrite (proj2 (Z.ltb_lt _ _)) by lia. cbn [skipn]. rewrite drop_0.
  rewrite (proj2 (Z.leb_le _ _)) by (rewrite zlen_app, zlen_cons, zlen_nil; lia).
  assert (Ht : take (Z.to_nat (zlen data)) (data ++ [bid]) = data)
    by (unfold zlen; rewrite Nat2Z.id; apply take_app_length). by rewrite Ht.
Qed.

Lemma answer_type : forall p, 0 <= p < 16 ->
  Z.shiftr (u8 (Z.land (Z.shiftl CONTROL 5) 0xE0 + Z.land (Z.shiftl p 1) 0x1E + 1)) 1 = p.
Proof. by_range 16. Qed.

(** The MCS answer to a response of the board of kind [par]. *)
Definition answer_packet (par id : Z) (data : list Z) : MCSPacket :=
  if par =? SDB_USB_OK then mcs_ok_packet_id id
  else if par =? SDB_USB_OK_DATA then
    mkMCSPacket id MCS_TYPE_OK_DATA 0 0 None None (zlen data) (if zlen data =? 0 then None else Some data)
  else mcs_err_packet_id id EHWFAULT.

(** Every response of the firmware with less than 128 bytes of data is understood. *)
Lemma response_understood par a1 a2 ptr data id :
  0 <= par < 16 -> 0 <= id < 128 -> zlen data < 128 -> memcpy ptr (zlen data) = Ok data ->
  exists raw, to_raw (mkUSBPacket CONTROL par a1 a2 (zlen data) ptr id) = Ok raw /\
    usb_to_mcs raw (zlen raw) = Ok (Some (answer_packet par id data)).
Proof.
  intros Hp Hid Hl Em. pose proof (zlen_nonneg data). unfold to_raw.
  cbn [usb_data usb_data_size usb_command usb_parameters usb_cmd_arg1 usb_cmd_arg2 usb_packet_id].
  rewrite (proj2 (Z.ltb_ge _ _)) by lia. rewrite Em. eexists. split; [done|].
  assert (Hlen : forall b0 b1 b2 b3 b4 bid, zlen ([b0; b1; b2; b3; b4] ++ data ++ [bid]) = zlen data + 6)
    by (intros; autorewrite with bytes; lia).
  rewrite Hlen. cbn [app].
  rewrite usb_answer_ok by (apply answer_size_small; lia). cbv zeta.
  by rewrite answer_type, id_field, u16_small by lia.
Qed.

(** The daemon understands the board: the raw form of an acknowledgement, an
    error and an answer with 1 to 127 bytes of data, whatever the fields the
    firmware leaves unset, become the MCS answers with the same id and data. *)
Theorem usb_response_roundtrip id data g1 g2 err :
  0 <= id < 128 -> bytes_ok data -> 1 <= zlen data < 128 ->
  (exists raw, to_raw (usb_ok_packet id) = Ok raw /\
     usb_to_mcs raw (zlen raw) = Ok (Some (mcs_ok_packet_id id))) /\
  (exists raw, to_raw (usb_error_packet g2 id err) = Ok raw /\
     usb_to_mcs raw (zlen raw) = Ok (Some (mcs_err_packet_id id EHWFAULT))) /\
  (exists raw, to_raw (usb_ok_data_packet g1 g2 id data (zlen data)) = Ok raw /\
     usb_to_mcs raw (zlen raw)
     = Ok (Some (mkMCSPacket id MCS_TYPE_OK_DATA 0 0 None None (zlen data) (Some data)))).
Proof.
  intros Hid Hb Hl. split_and!.
  - by apply (response_understood USB_OK 0 0 None []).
  - by apply (response_understood USB_ERRORS err g2 None []).
  - destruct (response_understood USB_OK_DATA g1 g2 (Some data) data id) as (raw & E & E');
      [done|done|lia|apply memcpy_all|].
    exists raw. split; [done|]. rewrite E'. unfold answer_packet. cbn.
    by rewrite (proj2 (Z.eqb_neq (zlen data) 0)) by lia.
Qed.

(** An answer with more data is lost: for 128 bytes or more, up to the 250
    that fit the link, the daemon computes a size that is 128 too large and
    discards the packet. *)
Theorem usb_large_response_lost g1 g2 id data :
  128 <= zlen data <= 250 ->
  exists raw, to_raw (usb_ok_data_packet g1 g2 id data (zlen data)) = Ok raw /\
    usb_to_mcs raw (zlen raw) = Ok None.
Proof.
  intros Hl. unfold to_raw. cbn [usb_data usb_data_size usb_ok_data_packet usb_command
    usb_parameters usb_cmd_arg1 usb_cmd_arg2 usb_packet_id].
  rewrite (proj2 (Z.ltb_ge _ _)) by lia. rewrite memcpy_all. eexists. split; [done|]. unfold usb_to_mcs. cbn [app]. autorewrite with bytes.
  rewrite (proj2 (Z.ltb_ge _ _)) by lia. cbn [lookup list_lookup].
  fold (answer_size (u8 (Z.shiftr (zlen data) 7 + 1)) (u8 (Z.shiftl (zlen data) 1 + 1))).
  rewrite answer_size_large by lia.
  rewrite (proj2 (Z.ltb_lt 0 _)) by lia. by rewrite (proj2 (Z.eqb_neq _ _)) by lia.
Qed.

(** Nothing the board sends can make the daemon read outside its buffer:
    for any content of the 256-byte buffer and any number of bytes read into
    it, the conversion returns; a packet it returns is well formed and its id
    fits seven bits. *)
Theorem usb_to_mcs_total buf size :
  zlen buf = SDB_USB_DATA_SIZE -> bytes_ok buf -> size <= SDB_USB_DATA_SIZE ->
  exists r, usb_to_mcs buf size = Ok r /\
    forall p, r = Some p -> wf_packet p /\ pkt_id p <= 0x7F.
Proof.
  unfold SDB_USB_DATA_SIZE. intros Hl Hb Hsz.
  destruct buf as [|b0 [|b1 [|b2 [|b3 [|b4 rest]]]]]; try (cbn in Hl; done).
  rewrite !zlen_cons in Hl. do 5 (apply Forall_cons in Hb as [? Hb]).
  unfold usb_to_mcs. destruct (size <? 6) eqn:E6; bool_prop; [by exists None|].
  cbn [lookup list_lookup]. fold (answer_size b3 b4).
  pose proof (answer_size_range b3 b4) as Hr. set (n := answer_size b3 b4) in *.
  specialize (Hr ltac:(done) ltac:(done)).
  destruct ((0 <? n) && negb (size =? n + 6)) eqn:En; [by exists None|].
  assert (Hn : n <= 250) by lia.
  destruct (lookup_lt_is_Some_2 (b0 :: b1 :: b2 :: b3 :: b4 :: rest) (Z.to_nat (5 + n))) as [bid Hbid].
  { unfold zlen in Hl. cbn [length]. lia. }
  rewrite Hbid. cbv zeta.
  assert (Hok : byte_ok bid).
  { eapply (Forall_lookup_1 byte_ok); [|exact Hbid]. repeat (apply Forall_cons; split; [done|]); done. }
  assert (Hid : 0 <= Z.shiftr bid 1 < 128).
  { unfold byte_ok in Hok. rewrite Z.shiftr_div_pow2 by lia. change (2 ^ 1) with 2.
    pose proof (Z.div_lt_upper_bound bid 2 128). pose proof (Z.div_pos bid 2). lia. }
  destruct (_ =? SDB_USB_OK); [|destruct (_ =? SDB_USB_OK_DATA)].
  - eexists. split; [done|]. intros p [= <-]. split; [|cbn; lia].
    apply ok_packet_sendable. lia.
  - unfold mcs_ok_packet_data_id, abs_malloccpy, memcpy.
    destruct (n =? 0) eqn:E0; bool_prop.
    + eexists. split; [done|]. intros p [= <-]. rewrite E0. split; [|cbn; lia].
      split; cbn; unfold MCS_TYPE_OK_DATA; try done; lia.
    + rewrite (proj2 (Z.ltb_lt 0 n)) by lia. cbn [skipn]. rewrite drop_0.
      rewrite (proj2 (Z.leb_le n (zlen rest))) by lia.
      eexists. split; [done|]. intros p [= <-]. rewrite u16_small by lia. split; [|cbn; lia].
      split; cbn; unfold MCS_TYPE_OK_DATA; try done; try lia.
      split; [unfold zlen in *; rewrite length_take; lia|by apply Forall_take].
  - eexists. split; [done|]. intros p [= <-]. split; [|cbn; lia].
    apply err_packet_sendable. lia.
Qed.

End Properties.

(** ** Witnesses. *)

Section Witnesses.

#[local] Existing Instances repo_tables release_build.

(** A request for pin 6 with three bytes of data attached. *)
Definition pin_request : MCSPacket :=
  mkMCSPacket 100 MCS_TYPE_PAYLOAD 0 1 (Some [6]) None 3 (Some [1; 2; 3]).

Lemma usb_request_roundtrip_witness :
  exists raw q, mcs_to_usb pin_request = Ok (Some raw) /\ process_packet (raw ++ [0; 0]) = Ok q /\
    usb_cmd_arg1 q = 6 /\ usb_packet_id q = 100 /\
    memcpy (usb_data q) (usb_data_size q) = Ok [1; 2; 3].
Proof.
  edestruct (usb_request_roundtrip pin_request) with (junk := [0; 0])
    as (raw & q & E & _ & Eq & _ & _ & Ha & _ & Hd & Hi); try reflexivity; try done.
  - split; cbn; try done; (split; [done|bytes_lit]).
  - exists raw, q. split; [exact E|]. split; [exact Eq|]. split; [exact Ha|].
    split; [exact Hi|exact Hd].
Defined.

Lemma usb_response_roundtrip_witness :
  exists raw, to_raw (usb_ok_data_packet 9 9 100 [1; 2] 2) = Ok raw /\
    usb_to_mcs raw (zlen raw)
    = Ok (Some (mkMCSPacket 100 MCS_TYPE_OK_DATA 0 0 None None 2 (Some [1; 2]))).
Proof.
  destruct (usb_response_roundtrip 100 [1; 2] 9 9 1) as (_ & _ & Hd).
  - done.
  - bytes_lit.
  - done.
  - exact Hd.
Defined.

Lemma usb_large_response_lost_witness :
  exists raw, to_raw (usb_ok_data_packet 9 9 100 (replicate 128 7) 128) = Ok raw /\
    usb_to_mcs raw (zlen raw) = Ok None.
Proof. apply (usb_large_response_lost 9 9 100 (replicate 128 7)). done. Defined.

Lemma usb_to_mcs_total_witness :
  exists r, usb_to_mcs (replicate 256 255) 40 = Ok r.
Proof.
  destruct (usb_to_mcs_total (replicate 256 255) 40) as (r & E & _).
  - reflexivity.
  - apply Forall_replicate. done.
  - done.
  - exists r. exact E.
Defined.

End Witnesses.
