(* ===== verification/Firmware.v ===== *)
(** * Firmware: the program of the board.

    [execute_packet], [save_event_data] and [dumpData] of
    [src/src/Arduino/abs/assets.ino], and the main loop and the timer interrupt of
    [src/src/Arduino/abs/abs.ino].

    The libraries of the board are parameters ([Libraries]): what is read from a pin
    or a port is any function of the accesses done so far ([bd_io], to which every
    access is added), and the memory card and the radio are states of their own.
    The messages on the console are left out.

    A pointer to something that has ceased to exist is [None]: reading through it is
    undefined.  Two such pointers occur: [execute_packet] returns the address of its
    local variable [data], and an event keeps the address of the message it came in,
    which is a local variable of [loop]. *)

From S2P Require Import Prelude Abs McsDefs Mcs Usb.

(** ** The constants of [abs.h]. *)

Definition IS_PIN_DIGITAL (p : Z) : bool := (0 <=? p) && (p <=? 40).
Definition IS_PIN_ANALOG (p : Z) : bool := (0 <=? p) && (p <=? 15).

Definition MAX_SERVO : Z := 2.
Definition MAX_SERIAL : Z := 2.
Definition MAX_EVENTS : Z := 10.

Definition bitrate : list Z :=
  [300; 1200; 2400; 4800; 9600; 14400; 19200; 28800; 38400; 57600; 115200].

(** [Command]. *)
Definition BASIC_IO : Z := 1.
Definition COMMS : Z := 2.
Definition EVENT : Z := 3.
Definition SERVO : Z := 4.

(** [ParametersBasicIO]. *)
Definition ANALOG_WRITE : Z := 0.
Definition DIGITAL_WRITE : Z := 1.
Definition ANALOG_READ : Z := 2.
Definition DIGITAL_READ : Z := 3.
Definition TOOGLE_PIN : Z := 4.

(** [ParametersComms]. *)
Definition INIT_UART : Z := 0.
Definition READ_UART : Z := 1.
Definition WRITE_UART : Z := 2.
Definition INIT_SPI : Z := 3.
Definition READ_SPI : Z := 4.
Definition WRITE_SPI : Z := 5.
Definition CONFIGURE : Z := 9.
Definition TRANSMIT : Z := 10.
Definition RECEIVE : Z := 11.
Definition CHANGE_X : Z := 12.

(** [ParametersEvents], [ParametersServo] and [Errors]. *)
Definition CONF : Z := 0.
Definition DUMP : Z := 1.
Definition START : Z := 0.
Definition SET_DC : Z := 1.
Definition STOP : Z := 2.
Definition FCS_ERROR : Z := 0.

(** [LOW] and [HIGH] of the board's language. *)
Definition LOW : Z := 0.
Definition HIGH : Z := 1.

(** ** The state of the board. *)

Inductive PinDirection := INPUT | OUTPUT.

(** The accesses to the hardware. *)
Inductive Io :=
| PinMode (pin : Z) (d : PinDirection)
| AnalogWrite (pin value : Z)
| DigitalWrite (pin value : Z)
| AnalogRead (pin : Z)
| DigitalRead (pin : Z)
| SerialBegin (num rate : Z)
| SerialRead (num : Z)
| SerialWrite (num byte : Z)
| SpiBegin
| SpiTransfer (byte : Z)
| ServoAttach (num value : Z)
| ServoWrite (num value : Z)
| ServoDetach (num : Z).

Record Event := mkEvent {
  ev_bufferid : Z;
  ev_interval : Z;
  ev_execute : Z;
  ev_action : option USBPacket
}.

Record Board (SD Radio : Type) := mkBoard {
  bd_io : list Io;
  event_list : list Event;
  eventCount : Z;
  bd_time : Z;
  bd_sd : SD;
  bd_radio : Radio
}.
Arguments mkBoard {SD Radio}.
Arguments bd_io {SD Radio}.
Arguments event_list {SD Radio}.
Arguments eventCount {SD Radio}.
Arguments bd_time {SD Radio}.
Arguments bd_sd {SD Radio}.
Arguments bd_radio {SD Radio}.

(** The libraries.  A character that is read is the low byte of the number the
    library returns.  [sd_open_write] and [sd_open] open a file by name, or fail;
    [sd_open] gives the bytes that can be read.  [received] is what the pointer
    returned by [Comms::rx] points to.  [unset] is what a field that is never
    assigned holds. *)
Class Libraries (SD Radio : Type) := {
  analogRead : list Io -> Z -> Z;
  digitalRead : list Io -> Z -> Z;
  serial_read : list Io -> Z -> Z;
  spi_transfer : list Io -> Z -> Z;
  sd_open_write : list Z -> SD -> option SD;
  sd_write : list Z -> list Z -> SD -> SD;
  sd_open : list Z -> SD -> option (list Z);
  comms_configure : Radio -> Radio;
  comms_tx : list Z -> Radio -> Radio;
  comms_rx : Radio -> outcome (list Z * Radio);
  comms_change_x : Z -> Z -> Radio -> Radio;
  unset : list Io -> nat -> Z
}.

Section Firmware.
Context {SD Radio : Type} `{Libraries SD Radio}.
Abbreviation Bd := (Board SD Radio).

Definition set_io (io : list Io) (b : Bd) : Bd :=
  mkBoard io (event_list b) (eventCount b) (bd_time b) (bd_sd b) (bd_radio b).
Definition set_events (evs : list Event) (b : Bd) : Bd :=
  mkBoard (bd_io b) evs (eventCount b) (bd_time b) (bd_sd b) (bd_radio b).
Definition set_count (n : Z) (b : Bd) : Bd :=
  mkBoard (bd_io b) (event_list b) n (bd_time b) (bd_sd b) (bd_radio b).
Definition set_time (t : Z) (b : Bd) : Bd :=
  mkBoard (bd_io b) (event_list b) (eventCount b) t (bd_sd b) (bd_radio b).
Definition set_sd (sd : SD) (b : Bd) : Bd :=
  mkBoard (bd_io b) (event_list b) (eventCount b) (bd_time b) sd (bd_radio b).
Definition set_radio (r : Radio) (b : Bd) : Bd :=
  mkBoard (bd_io b) (event_list b) (eventCount b) (bd_time b) (bd_sd b) r.

(** An access. *)
Definition access (e : Io) : ST Bd unit := st_modify (fun b => set_io (bd_io b ++ [e]) b).

(** An access that returns a value. *)
Definition sense (e : Io) (f : list Io -> Z) : ST Bd Z :=
  let! v := st_gets (fun b => f (bd_io b)) in
  do! access e in
  st_ret v.

(** A method of element [num] of an array of [max] objects. *)
Definition at_port (num max : Z) (m : ST Bd unit) : ST Bd unit :=
  if num <? max then m else st_ub.

Fixpoint each (f : Z -> ST Bd unit) (l : list Z) : ST Bd unit :=
  match l with
  | [] => st_ret tt
  | x :: l' => do! f x in each f l'
  end.

(** The bytes [packet->data[0]] to [packet->data[data_size - 1]]. *)
Definition packet_data (packet : USBPacket) : ST Bd (list Z) :=
  st_lift (memcpy (usb_data packet) (usb_data_size packet)).

(** ** The answers. *)

Definition answer_ok (packet : USBPacket) : ST Bd (option USBPacket) :=
  st_ret (Some (usb_ok_packet (usb_packet_id packet))).

Definition answer_error (packet : USBPacket) (error : Z) : ST Bd (option USBPacket) :=
  let! g := st_gets (fun b => unset (bd_io b) 1) in
  st_ret (Some (usb_error_packet g (usb_packet_id packet) error)).

(** [data] is [None] for the address of the local variable of [execute_packet]. *)
Definition answer_data (packet : USBPacket) (data : option (list Z)) (dsize : Z) :
    ST Bd (option USBPacket) :=
  let! g0 := st_gets (fun b => unset (bd_io b) 0) in
  let! g1 := st_gets (fun b => unset (bd_io b) 1) in
  st_ret (Some (mkUSBPacket CONTROL USB_OK_DATA g0 g1 dsize data (usb_packet_id packet))).

(** The bytes of an [int] of the board. *)
Definition int_bytes (v : Z) : list Z := le_bytes 2 v.

(** ** Executing a packet.

    The result is [None] where [response] is returned without having been set. *)

Definition basic_io (packet : USBPacket) : ST Bd (option USBPacket) :=
  let pin := usb_cmd_arg1 packet in
  let parameters := usb_parameters packet in
  if parameters =? ANALOG_WRITE then
    if IS_PIN_ANALOG pin then
      do! access (PinMode pin OUTPUT) in
      do! access (AnalogWrite pin (usb_cmd_arg2 packet)) in
      answer_ok packet
    else answer_error packet 1
  else if parameters =? DIGITAL_WRITE then
    if IS_PIN_DIGITAL pin then
      do! access (PinMode pin OUTPUT) in
      do! access (DigitalWrite pin (usb_cmd_arg2 packet)) in
      answer_ok packet
    else answer_error packet 1
  else if parameters =? ANALOG_READ then
    if IS_PIN_ANALOG pin then
      let! v := sense (AnalogRead pin) (fun h => analogRead h pin) in
      answer_data packet (Some (int_bytes v)) 2
    else answer_error packet 1
  else if parameters =? DIGITAL_READ then
    if IS_PIN_DIGITAL pin then
      do! access (PinMode pin INPUT) in
      let! v := sense (DigitalRead pin) (fun h => digitalRead h pin) in
      answer_data packet (Some (int_bytes v)) 2
    else answer_error packet 1
  else if parameters =? TOOGLE_PIN then
    do! access (PinMode pin OUTPUT) in
    let! v := sense (DigitalRead pin) (fun h => digitalRead h pin) in
    do! access (DigitalWrite pin (if v =? 0 then 1 else 0)) in
    answer_ok packet
  else answer_error packet 1.

Definition spi_byte (b : Z) : ST Bd unit :=
  do! access (DigitalWrite 10 LOW) in
  do! sense (SpiTransfer b) (fun h => spi_transfer h b) in
  access (DigitalWrite 10 HIGH).

(** What [RECEIVE] makes of the bytes the radio delivers. *)
Definition received_answer (packet : USBPacket) (received : list Z) : ST Bd (option USBPacket) :=
  let! status := st_lift (arr_get received 0) in
  if s8 status =? 1 then
    let! dsize := st_lift (arr_get received 1) in
    answer_data packet (Some (drop 2 received)) (s8 dsize)
  else if s8 status =? 2 then st_ret (Some (usb_abort_packet (usb_packet_id packet)))
  else answer_error packet FCS_ERROR.

Definition comms (packet : USBPacket) : ST Bd (option USBPacket) :=
  let num := usb_cmd_arg1 packet in
  let parameters := usb_parameters packet in
  if num <=? MAX_SERIAL then
    if parameters =? INIT_UART then
      let! rate := st_lift (arr_get bitrate (Z.to_nat (usb_cmd_arg2 packet))) in
      do! at_port num MAX_SERIAL (access (SerialBegin num rate)) in
      answer_ok packet
    else if parameters =? READ_UART then
      do! at_port num MAX_SERIAL (do! sense (SerialRead num) (fun h => serial_read h num) in st_ret tt) in
      answer_data packet None 1
    else if parameters =? WRITE_UART then
      let! data := packet_data packet in
      do! each (fun b => at_port num MAX_SERIAL (access (SerialWrite num b))) data in
      answer_ok packet
    else if parameters =? INIT_SPI then
      do! access SpiBegin in
      do! access (PinMode 10 OUTPUT) in
      st_ret None
    else if parameters =? READ_SPI then
      do! spi_byte 0x00 in
      answer_data packet None 1
    else if parameters =? WRITE_SPI then
      let! data := packet_data packet in
      do! each spi_byte data in
      answer_ok packet
    else if parameters =? CONFIGURE then
      do! st_modify (fun b => set_radio (comms_configure (bd_radio b)) b) in
      answer_ok packet
    else if parameters =? TRANSMIT then
      let! data := packet_data packet in
      do! st_modify (fun b => set_radio (comms_tx data (bd_radio b)) b) in
      answer_ok packet
    else if parameters =? RECEIVE then
      let! received := st_zoom bd_radio set_radio comms_rx in
      received_answer packet received
    else if parameters =? CHANGE_X then
      do! st_modify (fun b =>
            set_radio (comms_change_x (usb_cmd_arg1 packet) (usb_cmd_arg2 packet) (bd_radio b)) b) in
      answer_ok packet
    else st_ret None
  else answer_error packet 1.

(** The name of the file of an event. *)
Definition buffer_name (buffer_id : Z) : list Z := str "buffer" ++ dec buffer_id ++ str ".txt".

(** The first byte of the file; [None] where the variable is returned unset. *)
Definition dumpData (buffer_id : Z) : ST Bd (option Z) :=
  st_gets (fun b =>
    match sd_open (buffer_name buffer_id) (bd_sd b) with
    | Some (x :: _) => Some (u8 x)
    | _ => None
    end).

Definition event_conf (packet : USBPacket) : ST Bd (option USBPacket) :=
  if 0 <? usb_data_size packet then
    let! b := st_get in
    let! action := st_lift (match usb_data packet with Some d => process_packet d | None => UB end) in
    let! evs := st_lift (arr_set (event_list b) (Z.to_nat (eventCount b))
                  (mkEvent (eventCount b) (usb_cmd_arg1 packet) 0 (Some action))) in
    do! st_put (set_count (eventCount b + 1) (set_events evs b)) in
    answer_ok packet
  else answer_error packet 1.

Definition event (packet : USBPacket) : ST Bd (option USBPacket) :=
  if usb_parameters packet =? CONF then event_conf packet
  else if usb_parameters packet =? DUMP then
    do! dumpData (usb_cmd_arg1 packet) in
    answer_data packet None 1
  else st_ret None.

Definition servo (packet : USBPacket) : ST Bd (option USBPacket) :=
  let num := usb_cmd_arg1 packet in
  let value := usb_cmd_arg2 packet in
  let parameters := usb_parameters packet in
  if num <=? MAX_SERIAL then
    if parameters =? START then
      do! at_port num MAX_SERVO (access (ServoAttach num value)) in answer_ok packet
    else if parameters =? SET_DC then
      do! at_port num MAX_SERVO (access (ServoWrite num value)) in answer_ok packet
    else if parameters =? STOP then
      do! at_port num MAX_SERVO (access (ServoDetach num)) in answer_ok packet
    else st_ret None
  else answer_error packet 1.

Definition execute_packet (packet : USBPacket) : ST Bd (option USBPacket) :=
  if usb_command packet =? BASIC_IO then basic_io packet
  else if usb_command packet =? COMMS then comms packet
  else if usb_command packet =? EVENT then event packet
  else if usb_command packet =? SERVO then servo packet
  else answer_error packet 1.

(** [execute_packet] where the caller reads the answer. *)
Definition executed (packet : USBPacket) : ST Bd USBPacket :=
  let! response := execute_packet packet in
  match response with Some r => st_ret r | None => st_ub end.

(** ** The main loop and the interrupt. *)

(** The first half of [loop]: [msg] is the whole buffer. *)
Definition serve (msg : list Z) : ST Bd (list Z) :=
  let! packet := st_lift (process_packet msg) in
  let! pkt_res := executed packet in
  st_lift (to_raw pkt_res).

(** The file is written where it can be opened; the result is 1 or 0. *)
Definition save_event_data (buffer_id : Z) (packet : USBPacket) : ST Bd Z :=
  let! b := st_get in
  match sd_open_write (buffer_name buffer_id) (bd_sd b) with
  | Some sd =>
      let! data := packet_data packet in
      do! st_put (set_sd (sd_write (buffer_name buffer_id) data sd) b) in
      st_ret 1
  | None => st_ret 0
  end.

Definition set_execute (x : Z) (e : Event) : Event :=
  mkEvent (ev_bufferid e) (ev_interval e) x (ev_action e).

(** One turn of the second half: event [i], if its time has come. *)
Definition run_event (i : nat) : ST Bd unit :=
  let! b := st_get in
  let! e := st_lift (arr_get (event_list b) i) in
  if ev_execute e =? 1 then
    match ev_action e with
    | None => st_ub
    | Some action =>
        let! pkt_res := executed action in
        do! save_event_data (Z.of_nat i) pkt_res in
        let! b' := st_get in
        let! e' := st_lift (arr_get (event_list b') i) in
        let! evs := st_lift (arr_set (event_list b') i (set_execute 0 e')) in
        st_put (set_events evs b')
    end
  else st_ret tt.

(** The second half, from event [i]: at most [fuel] turns. *)
Fixpoint run_events (fuel i : nat) : ST Bd unit :=
  let! n := st_gets eventCount in
  if Z.of_nat i <? n then
    match fuel with
    | O => st_ub
    | S fuel' => do! run_event i in run_events fuel' (S i)
    end
  else st_ret tt.

(** When [loop] returns its buffer ceases to exist. *)
Definition forget_data (p : USBPacket) : USBPacket :=
  mkUSBPacket (usb_command p) (usb_parameters p) (usb_cmd_arg1 p) (usb_cmd_arg2 p)
    (usb_data_size p) None (usb_packet_id p).

Definition leave_loop (b : Bd) : Bd :=
  set_events (map (fun e => mkEvent (ev_bufferid e) (ev_interval e) (ev_execute e)
    (forget_data <$> ev_action e)) (event_list b)) b.

(** [None]: the accessory is not ready.  Otherwise the buffer, if something was
    received; the result is what is sent. *)
Definition loop (received : option (option (list Z))) : ST Bd (option (list Z)) :=
  match received with
  | None => st_ret None
  | Some r =>
      let! sent := match r with
                   | Some msg => let! raw := serve msg in st_ret (Some raw)
                   | None => st_ret None
                   end in
      do! run_events (Z.to_nat MAX_EVENTS) 0 in
      do! st_modify leave_loop in
      st_ret sent
  end.

(** The interrupt: [time] is an [int]. *)
Definition INT_MAX : Z := 32767.

Definition due (t : Z) (e : Event) : outcome Event :=
  if ev_interval e =? 0 then UB
  else Ok (if Z.rem t (ev_interval e) =? 0 then set_execute 1 e else e).

Definition tick_event (t : Z) (i : nat) (evs : list Event) : outcome (list Event) :=
  e ← arr_get evs i; e' ← due t e; arr_set evs i e'.

Definition events_routine : ST Bd unit := fun b =>
  evs ← for_ 0 (Z.to_nat (eventCount b)) (tick_event (bd_time b)) (event_list b);
  if bd_time b =? INT_MAX then UB
  else Ok (tt, set_time (bd_time b + 1) (set_events evs b)).

(** After [setup]. *)
Definition started (io : list Io) (sd : SD) (radio : Radio) : Bd :=
  mkBoard io (replicate (Z.to_nat MAX_EVENTS) (mkEvent 0 0 0 None)) 0 0 sd radio.

End Firmware.
