(* ===== verification/FirmwareFacts.v ===== *)
(** * FirmwareFacts: what the board does with a packet.

    [reaction] tells, without running the firmware, whether it can answer a packet,
    the accesses it makes and the answer; [execute_reaction] proves it right. *)

From S2P Require Import Prelude Abs McsDefs Mcs Usb UsbProps Firmware.

(** What happens to a packet. *)
Inductive Reaction :=
| Undefined                                            (** undefined behaviour *)
| Garbled                                              (** an answer that is not a packet *)
| Replies (io : list Io) (par : Z) (data : list Z).    (** accesses, kind of answer, data *)

Section Facts.
Context {SD Radio : Type} `{Libraries SD Radio}.
Abbreviation Bd := (Board SD Radio).
Implicit Types (q r : USBPacket) (b : Bd).

Definition acked (io : list Io) : Reaction := Replies io USB_OK [].
Definition failed : Reaction := Replies [] USB_ERRORS [].

(** The data of a packet, where it can be read. *)
Definition data_bytes q : list Z :=
  match memcpy (usb_data q) (usb_data_size q) with Ok d => d | UB => [] end.

Definition has_bytes q : Prop :=
  0 <= usb_data_size q /\ memcpy (usb_data q) (usb_data_size q) = Ok (data_bytes q).

Definition spi_accesses (x : Z) : list Io :=
  [DigitalWrite 10 LOW; SpiTransfer x; DigitalWrite 10 HIGH].

Definition toggled (v : Z) : Z := if v =? 0 then 1 else 0.

Definition pin_reaction q b : Reaction :=
  let pin := usb_cmd_arg1 q in
  let value := usb_cmd_arg2 q in
  let h := bd_io b in
  match usb_parameters q with
  | 0 => if IS_PIN_ANALOG pin then acked [PinMode pin OUTPUT; AnalogWrite pin value] else failed
  | 1 => if IS_PIN_DIGITAL pin then acked [PinMode pin OUTPUT; DigitalWrite pin value] else failed
  | 2 => if IS_PIN_ANALOG pin
         then Replies [AnalogRead pin] USB_OK_DATA (int_bytes (analogRead h pin)) else failed
  | 3 => if IS_PIN_DIGITAL pin
         then Replies [PinMode pin INPUT; DigitalRead pin] USB_OK_DATA
                (int_bytes (digitalRead (h ++ [PinMode pin INPUT]) pin))
         else failed
  | 4 => acked [PinMode pin OUTPUT; DigitalRead pin;
                DigitalWrite pin (toggled (digitalRead (h ++ [PinMode pin OUTPUT]) pin))]
  | _ => failed
  end.

Definition received_reaction (received : list Z) : Reaction :=
  match received with
  | [] => Undefined
  | status :: rest =>
      if s8 status =? 1 then
        match rest with
        | [] => Undefined
        | size :: data =>
            if s8 size =? -1 then Garbled
            else if (0 <=? s8 size) && (s8 size <=? zlen data)
            then Replies [] USB_OK_DATA (take (Z.to_nat (s8 size)) data)
            else Undefined
        end
      else if s8 status =? 2 then Replies [] USB_ABORT [] else failed
  end.

Definition comms_reaction q b : Reaction :=
  let num := usb_cmd_arg1 q in
  let data := data_bytes q in
  if 2 <? num then failed
  else match usb_parameters q with
  | 0 => match bitrate !! Z.to_nat (usb_cmd_arg2 q) with
         | Some rate => if num <? 2 then acked [SerialBegin num rate] else Undefined
         | None => Undefined
         end
  | 2 => if (num <? 2) || (zlen data =? 0) then acked (SerialWrite num <$> data) else Undefined
  | 5 => acked (mjoin (spi_accesses <$> data))
  | 9 | 10 | 12 => acked []
  | 11 => match comms_rx (bd_radio b) with Ok (l, _) => received_reaction l | UB => Undefined end
  | _ => Undefined
  end.

Definition event_reaction q b : Reaction :=
  if negb (usb_parameters q =? CONF) then Undefined
  else if usb_data_size q =? 0 then failed
  else match event_list b !! Z.to_nat (eventCount b), (d ← usb_data q; Some (process_packet d)) with
       | Some _, Some (Ok _) => acked []
       | _, _ => Undefined
       end.

Definition servo_reaction q : Reaction :=
  let num := usb_cmd_arg1 q in
  let value := usb_cmd_arg2 q in
  if 2 <? num then failed
  else if 2 <=? num then Undefined
  else match usb_parameters q with
  | 0 => acked [ServoAttach num value]
  | 1 => acked [ServoWrite num value]
  | 2 => acked [ServoDetach num]
  | _ => Undefined
  end.

Definition reaction q b : Reaction :=
  match usb_command q with
  | 1 => pin_reaction q b
  | 2 => comms_reaction q b
  | 3 => event_reaction q b
  | 4 => servo_reaction q
  | _ => failed
  end.

(** [r] is an answer of kind [par] to [q] with the bytes [data]. *)
Definition answers q par (data : list Z) r : Prop :=
  exists a1 a2 ptr, r = mkUSBPacket CONTROL par a1 a2 (zlen data) ptr (usb_packet_id q) /\
    memcpy ptr (zlen data) = Ok data.

(** A run of the firmware on [q] from [b] is as [re] says. *)
Definition runs_as (m : ST Bd (option USBPacket)) q b (re : Reaction) : Prop :=
  match re with
  | Undefined => forall r b', m b = Ok (Some r, b') -> to_raw r = UB
  | Garbled => exists r b', m b = Ok (Some r, b') /\ usb_packet_id r = usb_packet_id q /\
      exists x0 x1 x2 x3 x4, to_raw r = Ok [x0; x1; x2; x3; x4]
  | Replies io par data => exists r b', m b = Ok (Some r, b') /\ bd_io b' = bd_io b ++ io /\
      0 <= par < 4 /\ answers q par data r
  end.

Lemma set_io_io l b : bd_io (set_io l b) = l.
Proof. done. Qed.

(** ** The answers. *)

Lemma runs_acked q b b' io : bd_io b' = bd_io b ++ io ->
  exists r b'', answer_ok q b' = Ok (Some r, b'') /\ bd_io b'' = bd_io b ++ io /\
    0 <= USB_OK < 4 /\ answers q USB_OK [] r.
Proof. intros Hio. eexists _, _. split_and!; [done|done|done|done|]. by exists 0, 0, None. Qed.

Lemma runs_failed q b err : runs_as (answer_error q err) q b failed.
Proof.
  eexists _, _. split_and!; [done|by rewrite app_nil_r|done|done|]. by eexists _, _, None.
Qed.

Lemma runs_data q b b' io ptr data n : bd_io b' = bd_io b ++ io -> n = zlen data ->
  memcpy ptr n = Ok data -> exists r b'', answer_data q ptr n b' = Ok (Some r, b'') /\ bd_io b'' = bd_io b ++ io /\
    0 <= USB_OK_DATA < 4 /\ answers q USB_OK_DATA data r.
Proof. intros Hio -> Em. eexists _, _. split_and!; [done|done|done|done|]. by eexists _, _, ptr. Qed.

(** An answer that points to the local variable of [execute_packet]. *)
Lemma dangling q b r b' : answer_data q None 1 b = Ok (Some r, b') -> to_raw r = UB.
Proof. by intros [= <- <-]. Qed.

(** ** Loops. *)

Lemma each_accesses f (g : Z -> list Io) l b :
  (forall x b0, x ∈ l -> f x b0 = Ok (tt, set_io (bd_io b0 ++ g x) b0)) ->
  each f l b = Ok (tt, set_io (bd_io b ++ mjoin (g <$> l)) b).
Proof.
  revert b. induction l as [|x l IH]; intros b Hf; cbn [each].
  - cbn. rewrite app_nil_r. by destruct b.
  - rewrite (st_bind_ok _ _ _ _ _ (Hf x b (list_elem_of_here x l))).
    rewrite IH by (intros; apply Hf; by apply list_elem_of_further). cbn. by rewrite app_assoc.
Qed.

Lemma each_stops f x l b : (forall x0 b0, f x0 b0 = UB) -> each f (x :: l) b = UB.
Proof. intros Hf. cbn. unfold st_bind. by rewrite Hf. Qed.

Lemma mjoin_singleton {A B} (f : A -> B) l : mjoin ((fun x => [f x]) <$> l) = f <$> l.
Proof. induction l as [|x l IH]; [done|]. cbn. by f_equal. Qed.

Lemma spi_byte_ok x b : spi_byte x b = Ok (tt, set_io (bd_io b ++ spi_accesses x) b).
Proof. unfold spi_byte, sense, access, st_bind, st_modify, st_gets, st_ret. cbn. by rewrite <- !app_assoc. Qed.

(** ** Every command. *)

Ltac par_cases q := 
  let E := fresh "Epar" in
  destruct (usb_parameters q) as [|x|x] eqn:E; [|do 4 try destruct x as [x|x|]|].

Lemma basic_io_reaction q b : runs_as (basic_io q) q b (pin_reaction q b).
Proof.
  unfold pin_reaction, basic_io. cbv zeta. par_cases q; cbn [Z.eqb Pos.eqb ANALOG_WRITE DIGITAL_WRITE
    ANALOG_READ DIGITAL_READ TOOGLE_PIN]; try apply runs_failed.
  - destruct (IS_PIN_ANALOG _); [|apply runs_failed]. apply runs_acked. cbn. by rewrite <- app_assoc.
  - destruct (IS_PIN_DIGITAL _); [|apply runs_failed]. apply (runs_data q b _ _ (Some _)); [|done|done].
    cbn. by rewrite <- app_assoc.
  - apply runs_acked. cbn. by rewrite <- !app_assoc.
  - destruct (IS_PIN_ANALOG _); [|apply runs_failed]. by apply (runs_data q b _ _ (Some _)).
  - destruct (IS_PIN_DIGITAL _); [|apply runs_failed]. apply runs_acked. cbn. by rewrite <- app_assoc.
Qed.

Lemma received_answers q b l : runs_as (received_answer q l) q b (received_reaction l).
Proof.
  unfold received_answer, received_reaction. destruct l as [|st rest]; [done|].
  cbn [arr_get lookup list_lookup st_lift st_bind]. unfold st_bind at 1, st_lift at 1. cbn.
  destruct (s8 st =? 1); [|destruct (s8 st =? 2); [|apply runs_failed]].
  - destruct rest as [|sz data]; [done|]. unfold st_bind at 1, st_lift. cbn.
    destruct (s8 sz =? -1) eqn:E1; bool_prop.
    + rewrite E1. eexists _, _. split_and!; [done|done|]. by eexists _, _, _, _, _.
    + destruct ((0 <=? s8 sz) && (s8 sz <=? zlen data)) eqn:E2; bool_prop.
      * rewrite drop_0. apply (runs_data q b); [by rewrite app_nil_r| |].
        -- unfold zlen in *. rewrite length_take. lia.
        -- unfold memcpy. destruct (s8 sz =? 0) eqn:E0; bool_prop; [by rewrite E0|].
           by rewrite (proj2 (Z.leb_le _ _)).
      * rewrite drop_0. intros r b' [= <- <-]. apply andb_false_iff in E2. unfold to_raw. cbn.
        destruct (s8 sz <? 0) eqn:Eneg; bool_prop; [by rewrite (proj2 (Z.eqb_neq _ _))|].
        destruct E2 as [E2|E2]; bool_prop; [lia|]. unfold memcpy.
        pose proof (zlen_nonneg data). rewrite (proj2 (Z.eqb_neq _ _)) by lia.
        by rewrite (proj2 (Z.leb_gt _ _)).
  - eexists _, _. split_and!; [done|by rewrite app_nil_r|done|done|]. by exists 0, 0, None.
Qed.

Lemma uart_reaction q b num : has_bytes q ->
  runs_as (let! data := packet_data q in
           do! each (fun x => at_port num MAX_SERIAL (access (SerialWrite num x))) data in answer_ok q) q b
    (if (num <? 2) || (zlen (data_bytes q) =? 0) then acked (SerialWrite num <$> data_bytes q) else Undefined).
Proof.
  intros [_ Em]. unfold packet_data, at_port, MAX_SERIAL. destruct (num <? 2) eqn:E; cbn [orb].
  - unfold runs_as, acked, st_bind at 1, st_lift. rewrite Em.
    rewrite (st_bind_ok _ _ _ _ _ (each_accesses _ (fun x => [SerialWrite num x]) _ b (fun _ _ _ => eq_refl))).
    apply runs_acked. rewrite set_io_io. by rewrite mjoin_singleton.
  - unfold st_bind at 1, st_lift. destruct (zlen (data_bytes q) =? 0) eqn:E0; bool_prop.
    + unfold runs_as, acked. rewrite Em. rewrite (zlen_0 _ E0). apply runs_acked. by rewrite app_nil_r.
    + intros r b'. rewrite Em. destruct (data_bytes q) as [|x l]; [done|].
      unfold st_bind. by rewrite each_stops.
Qed.

(** A step without accesses. *)
Lemma runs_after {A} (m : ST Bd A) k q b a b1 re : m b = Ok (a, b1) -> bd_io b1 = bd_io b ->
  runs_as (k a) q b1 re -> runs_as (st_bind m k) q b re.
Proof. intros E Hio. unfold runs_as. rewrite (st_bind_ok _ _ _ _ _ E). by rewrite Hio. Qed.

Lemma comms_reacts q b : 0 <= usb_cmd_arg1 q -> has_bytes q -> runs_as (comms q) q b (comms_reaction q b).
Proof.
  intros Hn Hd. pose proof Hd as [_ Em]. unfold comms_reaction, comms, MAX_SERIAL. cbv zeta.
  destruct (2 <? usb_cmd_arg1 q) eqn:E2; bool_prop;
    [rewrite (proj2 (Z.leb_gt _ _)) by lia; apply runs_failed|rewrite (proj2 (Z.leb_le _ _)) by lia].
  assert (Hdata : packet_data q b = Ok (data_bytes q, b)) by (unfold packet_data, st_lift; by rewrite Em).
  assert (Hack : forall b', bd_io b' = bd_io b -> runs_as (answer_ok q) q b' (acked [])).
  { intros b' _. apply runs_acked. by rewrite app_nil_r. }
  par_cases q; cbn [Z.eqb Pos.eqb INIT_UART READ_UART WRITE_UART INIT_SPI READ_SPI WRITE_SPI
    CONFIGURE TRANSMIT RECEIVE CHANGE_X]; try done.
  - unfold arr_get, at_port. destruct (bitrate !! _) as [rate|]; [|done].
    eapply runs_after; [done|done|]. destruct (_ <? 2); [|done]. by apply runs_acked.
  - unfold runs_as, st_bind, st_zoom. destruct (comms_rx (bd_radio b)) as [[l rad]|]; [|done].
    apply (received_answers q (set_radio rad b) l).
  - eapply runs_after; [done|done|]. by apply Hack.
  - eapply runs_after; [exact Hdata|done|]. unfold runs_as, acked.
    rewrite (st_bind_ok _ _ _ _ _ (each_accesses _ spi_accesses _ b (fun x b0 _ => spi_byte_ok x b0))).
    by apply runs_acked.
  - eapply runs_after; [exact Hdata|done|]. eapply runs_after; [done|done|]. by apply Hack.
  - eapply runs_after; [done|done|]. by apply Hack.
  - intros r b'. rewrite (st_bind_ok _ _ _ _ _ (spi_byte_ok 0 b)). apply dangling.
  - by apply uart_reaction.
  - intros r b'. unfold at_port. destruct (_ <? 2); [|done]. by intros [= <- <-].
Qed.

Lemma event_reacts q b : has_bytes q -> runs_as (event q) q b (event_reaction q b).
Proof.
  intros [Hs _]. unfold event_reaction, event. destruct (usb_parameters q =? CONF); cbn [negb].
  - unfold event_conf. destruct (usb_data_size q =? 0) eqn:E0; bool_prop.
    + rewrite E0. apply runs_failed.
    + rewrite (proj2 (Z.ltb_lt _ _)) by lia. eapply runs_after; [done|done|].
      unfold arr_set. destruct (usb_data q) as [d|]; [cbn|by destruct (event_list b !! _)].
      destruct (process_packet d) as [a|]; [|by destruct (event_list b !! _)].
      destruct (event_list b !! _); [|done]. by apply runs_acked; rewrite app_nil_r.
  - destruct (usb_parameters q =? DUMP); [|done]. intros r b'. apply dangling.
Qed.

Lemma servo_reacts q b : runs_as (servo q) q b (servo_reaction q).
Proof.
  unfold servo_reaction, servo, MAX_SERIAL, at_port, MAX_SERVO. cbv zeta.
  destruct (2 <? usb_cmd_arg1 q) eqn:E2; bool_prop;
    [rewrite (proj2 (Z.leb_gt _ _)) by lia; apply runs_failed|rewrite (proj2 (Z.leb_le _ _)) by lia].
  destruct (2 <=? usb_cmd_arg1 q) eqn:E; bool_prop.
  - rewrite (proj2 (Z.ltb_ge _ _)) by lia. by repeat case_goal.
  - rewrite (proj2 (Z.ltb_lt _ _)) by lia. par_cases q; try done; by apply runs_acked.
Qed.

(** The firmware runs as [reaction] says. *)
Lemma execute_reaction q b : 0 <= usb_cmd_arg1 q -> has_bytes q ->
  runs_as (execute_packet q) q b (reaction q b).
Proof.
  intros Hn Hd. unfold reaction, execute_packet, BASIC_IO, COMMS, EVENT, SERVO.
  destruct (usb_command q) as [|x|x]; [apply runs_failed| |apply runs_failed].
  do 3 try destruct x as [x|x|]; cbn [Z.eqb Pos.eqb]; try apply runs_failed;
    [by apply event_reacts|apply servo_reacts|by apply comms_reacts|apply basic_io_reaction].
Qed.

(** No event waits to be executed. *)
Definition none_due b : Prop :=
  forall i e, event_list b !! i = Some e -> Z.of_nat i < eventCount b -> ev_execute e = 0.

End Facts.
