(* ===== verification/FirmwareProps.v ===== *)
(** * FirmwareProps: the daemon and the board together, and the state of the board. *)

From S2P Require Import Prelude Hoare Abs McsDefs Mcs McsFacts Usb UsbProps Firmware FirmwareFacts.

Section Exchange.
Context `{MCSTables} {SD Radio : Type} `{Libraries SD Radio}.
Abbreviation Bd := (Board SD Radio).
Implicit Types (q r : USBPacket) (b : Bd).

(** The answers have at most 127 bytes. *)
Lemma reaction_short q b io par data : reaction q b = Replies io par data -> zlen data < 128.
Proof.
  assert (Hrec : forall l, received_reaction l = Replies io par data -> zlen data < 128).
  { intros l. unfold received_reaction, failed. intros E. repeat case_hyp E; try done; injection E as <- <- <-; try done.
    pose proof (s8_range z0). unfold zlen. rewrite length_take. lia. }
  unfold reaction, comms_reaction, event_reaction, servo_reaction, pin_reaction, failed, acked.
  intros E. repeat (case_hyp E; try done); try (injection E as <- <- <-; done); by eapply Hrec.
Qed.

(** Running a packet and sending the answer. *)
Definition exchanged (re : Reaction) (id : Z) b (res : outcome (list Z * Bd)) : Prop :=
  match re with
  | Undefined => res = UB
  | Garbled => exists raw b', res = Ok (raw, b') /\ usb_to_mcs raw (zlen raw) = Ok None
  | Replies io par data => exists raw b', res = Ok (raw, b') /\ bd_io b' = bd_io b ++ io /\
      usb_to_mcs raw (zlen raw) = Ok (Some (answer_packet par id data))
  end.

Lemma serve_exchanged msg q b : process_packet msg = Ok q -> 0 <= usb_cmd_arg1 q ->
  0 <= usb_packet_id q < 128 -> has_bytes q ->
  exchanged (reaction q b) (usb_packet_id q) b (serve msg b).
Proof.
  intros Eq Ha Hid Hd. pose proof (execute_reaction q b Ha Hd) as Hr.
  pose proof (reaction_short q b) as Hs. unfold serve, executed, exchanged.
  assert (El : st_lift (process_packet msg) b = Ok (q, b)) by (unfold st_lift; by rewrite Eq).
  rewrite (st_bind_ok _ _ _ _ _ El). unfold st_bind. destruct (reaction q b) as [| |io par data].
  - cbn in Hr. destruct (execute_packet q b) as [[[r|] b']|]; [|done|done].
    cbn. unfold st_lift. by rewrite (Hr r b' eq_refl).
  - destruct Hr as (r & b' & -> & _ & x0 & x1 & x2 & x3 & x4 & E). cbn. unfold st_lift. rewrite E.
    by eexists _, _.
  - destruct Hr as (r & b' & -> & Hio & Hpar & a1 & a2 & ptr & -> & Em). cbn [st_ret].
    destruct (response_understood par a1 a2 ptr data (usb_packet_id q)) as (raw & E & Eu);
      [lia|done|by eapply Hs|done|].
    exists raw, b'. unfold st_ret, st_lift. by rewrite E.
Qed.

Lemma request_exchanged p c junk b : fits_link p c -> exists raw, mcs_to_usb p = Ok (Some raw) /\
  exchanged (reaction (request_of p c junk) b) (pkt_id p) b (serve (raw ++ junk) b).
Proof.
  intros Hf. destruct (request_decoded p c Hf) as (raw & E & _ & Hp). exists raw. split; [done|].
  pose proof (wf_id p (fl_wf _ _ Hf)). pose proof (wf_data_size p (fl_wf _ _ Hf)). pose proof (fl_id _ _ Hf).
  apply (serve_exchanged _ (request_of p c junk)); [apply Hp|by apply Z.mod_pos_bound|cbn; lia|].
  split; [cbn; lia|]. unfold data_bytes. by rewrite (request_data p c junk Hf).
Qed.

(** C7: the daemon and the board together implement [reaction].  The daemon converts a
    payload packet that fits the link ([fits_link]: an id below 128, at most 2 arguments and
    250 bytes of data), the board decodes it, executes it and encodes the answer, the daemon
    converts the answer: the accesses made to the pins and buses of the board are those of
    the reaction to the request (a write to the pin that was asked for, ...), and the MCS
    answer is of the right kind, for the same id, with the data that was read.  Where the
    reaction is undefined so is the firmware.  What the board asks of its radio is not
    compared. *)
Theorem payload_exchange p c junk b : fits_link p c ->
  exists raw, mcs_to_usb p = Ok (Some raw) /\
    exchanged (reaction (request_of p c junk) b) (pkt_id p) b (serve (raw ++ junk) b).
Proof. apply request_exchanged. Qed.

(** ** The configuration of an event. *)

(** Configuring an event. *)
Lemma event_conf_runs q b d action : usb_command q = EVENT -> usb_parameters q = CONF ->
  0 < usb_data_size q -> usb_data q = Some d -> process_packet d = Ok action ->
  execute_packet q b =
  evs ← arr_set (event_list b) (Z.to_nat (eventCount b))
          (mkEvent (eventCount b) (usb_cmd_arg1 q) 0 (Some action));
  Ok (Some (usb_ok_packet (usb_packet_id q)), set_count (eventCount b + 1) (set_events evs b)).
Proof.
  intros Hc Hp Hs Hd Ea. unfold execute_packet, event, event_conf, st_bind, st_lift, st_get.
  rewrite Hc, Hp, (proj2 (Z.ltb_lt _ _) Hs), Hd, Ea. cbn [Z.eqb Pos.eqb BASIC_IO COMMS EVENT CONF].
  by destruct (arr_set _ _ _).
Qed.

Lemma run_events_none fuel i b : none_due b -> length (event_list b) = Z.to_nat MAX_EVENTS ->
  eventCount b <= MAX_EVENTS -> (Z.to_nat (eventCount b) <= fuel + i)%nat -> run_events fuel i b = Ok (tt, b).
Proof.
  intros Hd Hl Hc. revert i. induction fuel as [|fuel IH]; intros i Hf; cbn [run_events]; unfold st_bind at 1, st_gets.
  - by rewrite (proj2 (Z.ltb_ge _ _)) by lia.
  - destruct (Z.of_nat i <? eventCount b) eqn:E; bool_prop; [|done].
    destruct (lookup_lt_is_Some_2 (event_list b) i) as [e He]; [lia|].
    assert (Er : run_event i b = Ok (tt, b)).
    { unfold run_event, st_bind, st_get, st_lift. by rewrite (arr_get_ok _ _ _ He), (Hd i e He E). }
    rewrite (st_bind_ok _ _ _ _ _ Er). apply IH. lia.
Qed.

(** A request without data is not changed when the buffer ceases to exist. *)
Lemma forget_request p c junk : pkt_data_size p = 0 -> forget_data (request_of p c junk) = request_of p c [].
Proof. intros E. unfold forget_data, request_of. cbn. by rewrite E. Qed.

(** C33: what is kept of an event that is configured.  When the main loop gets a request to
    configure an event, whose data is the raw form of another request that fits the link,
    and no event is due, it acknowledges it and the board has one event more, with the
    next number and the interval of the request.  As its action it keeps that other
    request without its data, whose place was the buffer of the turn: a request
    without data is kept whole, one with data has lost it when its time comes.  With
    ten events the firmware writes outside its array. *)
Theorem event_configured p c p1 c1 raw1 junk b : fits_link p c -> fits_link p1 c1 ->
  payload_command c = EVENT -> payload_parameters c = CONF ->
  mcs_to_usb p1 = Ok (Some raw1) -> block (pkt_data p) = raw1 ->
  length (event_list b) = Z.to_nat MAX_EVENTS -> 0 <= eventCount b -> none_due b ->
  exists raw, mcs_to_usb p = Ok (Some raw) /\
    if eventCount b <? MAX_EVENTS then
      exists ans b' action, loop (Some (Some (raw ++ junk))) b = Ok (Some ans, b') /\
        usb_to_mcs ans (zlen ans) = Ok (Some (mcs_ok_packet_id (pkt_id p))) /\
        eventCount b' = eventCount b + 1 /\
        event_list b' !! Z.to_nat (eventCount b)
          = Some (mkEvent (eventCount b) (arg_byte p 0 mod 128) 0 (Some action)) /\
        action = forget_data (request_of p1 c1 []) /\
        (pkt_data_size p1 = 0 -> action = request_of p1 c1 [])
    else loop (Some (Some (raw ++ junk))) b = UB.
Proof.
  intros Hf Hf1 Hcmd Hpar E1 Hdata Hlen Hcnt Hdue.
  destruct (request_decoded p c Hf) as (raw & E & _ & Hp). exists raw. split; [done|].
  destruct (request_decoded p1 c1 Hf1) as (raw1' & E1' & Hl1 & Hp1).
  assert (raw1' = raw1) as -> by congruence.
  destruct (memcpy_block _ _ (wf_data p (fl_wf _ _ Hf))) as (_ & Hld & _).
  pose proof (wf_data_size p1 (fl_wf _ _ Hf1)). pose proof (wf_id p (fl_wf _ _ Hf)). pose proof (fl_id _ _ Hf).
  assert (Hpos : (0 <? pkt_data_size p) = true) by (rewrite Hdata in Hld; bool_prop; apply Z.ltb_lt; lia).
  assert (Hd : usb_data (request_of p c junk) = Some (raw1 ++ u8 (Z.shiftl (pkt_id p) 1) :: junk))
    by (cbn; by rewrite Hpos, Hdata).
  pose proof (event_conf_runs (request_of p c junk) b _ _ Hcmd Hpar (proj1 (Z.ltb_lt _ _) Hpos) Hd (Hp1 _)) as Hrun.
  unfold loop, serve, executed. rewrite Hp.
  destruct (eventCount b <? MAX_EVENTS) eqn:Ec; bool_prop.
  - destruct (response_understood USB_OK 0 0 None [] (pkt_id p)) as (ans & Er & Eu); [done|lia|done|done|].
    change (to_raw (usb_ok_packet (pkt_id p)) = Ok ans) in Er.
    rewrite arr_set_ok in Hrun by lia. cbn [mbind outcome_bind usb_packet_id request_of] in Hrun.
    unfold st_bind, st_ret, st_lift. rewrite Hrun, Er, run_events_none.
    + exists ans. eexists _, _. split; [reflexivity|]. split; [exact Eu|]. split; [done|]. split.
      { cbn. rewrite list_lookup_fmap, list_lookup_insert_eq by lia. reflexivity. }
      split; [done|]. intros E0. by apply forget_request.
    + intros i e Hi Hlt. cbn in Hi, Hlt. apply list_lookup_insert_Some in Hi as [(_ & <- & _)|[Hne Hi]]; [done|].
      apply (Hdue i); [done|]. lia.
    + cbn. by rewrite length_insert.
    + cbn. lia.
    + cbn. unfold MAX_EVENTS in *. lia.
  - assert (Hub : forall e, arr_set (event_list b) (Z.to_nat (eventCount b)) e = UB)
      by (intros e; unfold arr_set; by rewrite (proj2 (lookup_ge_None (event_list b) _)) by lia).
    unfold st_bind, st_lift. by rewrite Hrun, Hub.
Qed.

End Exchange.

(** No pin can be read with the commands of the repository.  Its only payload command,
    [arduino_get_pin], is generated with command and parameters 0, which the firmware
    does not know: whatever the pin, the board accesses nothing and the daemon gets
    a hardware fault. *)
Theorem arduino_get_pin_refused {SD Radio : Type} `{Libraries SD Radio} p c junk (b : Board SD Radio) :
  fits_link (H := repo_tables) p c ->
  exists raw ans b', mcs_to_usb (H := repo_tables) p = Ok (Some raw) /\ serve (raw ++ junk) b = Ok (ans, b') /\
    bd_io b' = bd_io b /\ usb_to_mcs ans (zlen ans) = Ok (Some (mcs_err_packet_id (pkt_id p) EHWFAULT)).
Proof.
  intros Hf. destruct (request_exchanged (H := repo_tables) p c junk b Hf) as (raw & E & Hx).
  assert (Hc : payload_command c = 0).
  { pose proof (fl_cmd _ _ Hf) as Hc. destruct (Z.to_nat (pkt_cmd p)) as [|n]; [by injection Hc as <-|done]. }
  unfold reaction in Hx. cbn [usb_command request_of] in Hx. rewrite Hc in Hx.
  destruct Hx as (ans & b' & Es & Hio & Ea). rewrite app_nil_r in Hio. by exists raw, ans, b'.
Qed.
