(* ===== verification/FirmwareInv.v ===== *)
(** * FirmwareInv: the state of the board over time.

    The main loop and the timer interrupt as a step relation: between two steps of the
    loop (a message, an event, the return) any number of interrupts may happen.
    [board_ok] holds in every state that can be reached. *)

From S2P Require Import Prelude Hoare Abs McsDefs Mcs McsFacts Usb UsbProps Firmware FirmwareFacts.

(** The fields of a packet that was decoded from bytes. *)
Record packet_ok (q : USBPacket) : Prop := {
  po_command : 0 <= usb_command q < 8;
  po_parameters : 0 <= usb_parameters q < 16;
  po_arg1 : 0 <= usb_cmd_arg1 q < 128;
  po_arg2 : 0 <= usb_cmd_arg2 q < 128;
  po_size : 0 <= usb_data_size q < 16384;
  po_id : 0 <= usb_packet_id q < 128;
  po_data d : usb_data q = Some d -> bytes_ok d /\ usb_data_size q < zlen d
}.

Lemma half_byte x : byte_ok x -> 0 <= Z.shiftr x 1 < 128.
Proof.
  intros Hx. rewrite Z.shiftr_div_pow2 by done. change (2 ^ 1) with 2. unfold byte_ok in Hx.
  split; [apply Z.div_pos; lia|apply Z.div_lt_upper_bound; lia].
Qed.

Lemma header_ranges : forall x, 0 <= x < 256 ->
  (0 <=? Z.land (Z.shiftr x 5) 0x07) && (Z.land (Z.shiftr x 5) 0x07 <? 8) &&
  (0 <=? Z.land (Z.shiftr x 1) 0x0F) && (Z.land (Z.shiftr x 1) 0x0F <? 16) &&
  (0 <=? Z.shiftl (Z.land x 0xFE) 6) && (Z.shiftl (Z.land x 0xFE) 6 <=? 16256) = true.
Proof. apply (forallb_range _ 256). vm_compute. reflexivity. Qed.

Lemma process_packet_ok msg q : bytes_ok msg -> process_packet msg = Ok q -> packet_ok q.
Proof.
  intros Hb. unfold process_packet. destruct msg as [|b0 [|b1 [|b2 [|b3 [|b4 rest]]]]]; try done.
  repeat (apply Forall_cons in Hb as [? Hb]).
  destruct (rest !! _) as [bid|] eqn:El; [|done]. intros [= <-].
  assert (Hbid : byte_ok bid) by (eapply Forall_lookup_1; done).
  pose proof (header_ranges b0 ltac:(assumption)). pose proof (header_ranges b3 ltac:(assumption)).
  pose proof (half_byte b4 ltac:(assumption)). bool_prop.
  split; cbn; try lia; try (by apply half_byte).
  intros d. case_goal; [|done]. intros [= <-]. split; [done|]. apply lookup_lt_Some in El. unfold zlen. lia.
Qed.

Lemma forget_ok q : packet_ok q -> packet_ok (forget_data q).
Proof. by intros []. Qed.

(** ** The invariant. *)

Definition event_ok (i : nat) (e : Event) : Prop :=
  ev_bufferid e = Z.of_nat i /\ 0 <= ev_interval e < 128 /\ (ev_execute e = 0 \/ ev_execute e = 1) /\
  exists a, ev_action e = Some a /\ packet_ok a.

Section Invariant.
Context {SD Radio : Type} `{Libraries SD Radio}.
Abbreviation Bd := (Board SD Radio).
Implicit Types (q : USBPacket) (b : Bd).

Record board_ok b : Prop := {
  bo_length : length (event_list b) = Z.to_nat MAX_EVENTS;
  bo_count : 0 <= eventCount b <= MAX_EVENTS;
  bo_time : 0 <= bd_time b <= INT_MAX;
  bo_event i e : event_list b !! i = Some e -> Z.of_nat i < eventCount b -> event_ok i e
}.

(** It is about the events and the time only. *)
Lemma board_ok_same b b' : event_list b' = event_list b -> eventCount b' = eventCount b ->
  bd_time b' = bd_time b -> board_ok b -> board_ok b'.
Proof. intros E1 E2 E3 []. split; rewrite ?E1, ?E2, ?E3; done. Qed.

Lemma keeps_access e : keeps board_ok (access e).
Proof. apply triple_modify. intros b. by apply board_ok_same. Qed.

Lemma keeps_radio f : keeps board_ok (st_modify (fun b => set_radio (f (bd_radio b)) b)).
Proof. apply triple_modify. intros b. by apply board_ok_same. Qed.

Lemma keeps_rx : keeps board_ok (st_zoom bd_radio set_radio comms_rx).
Proof.
  intros b a b' Hb E. unfold st_zoom in E. destruct (comms_rx _) as [[l r]|]; [|done].
  injection E as <- <-. by apply (board_ok_same b).
Qed.

#[local] Hint Resolve keeps_access keeps_radio keeps_rx : keeps.

Lemma keeps_sense e f : keeps board_ok (sense e f).
Proof. unfold sense. keeps. Qed.
#[local] Hint Resolve keeps_sense : keeps.

Lemma keeps_each f l : (forall x, keeps board_ok (f x)) -> keeps board_ok (each f l).
Proof. intros Hf. induction l as [|x l IH]; cbn [each]; keeps. Qed.

Lemma keeps_basic_io q : keeps board_ok (basic_io q).
Proof. unfold basic_io, answer_ok, answer_error, answer_data. keeps. Qed.

Lemma keeps_spi_byte x : keeps board_ok (spi_byte x).
Proof. unfold spi_byte. keeps. Qed.
#[local] Hint Resolve keeps_spi_byte : keeps.

Lemma keeps_comms q : keeps board_ok (comms q).
Proof.
  unfold comms, received_answer, answer_ok, answer_error, answer_data, packet_data, at_port.
  keeps; apply keeps_each; keeps.
Qed.

Lemma keeps_servo q : keeps board_ok (servo q).
Proof. unfold servo, at_port, answer_ok, answer_error. keeps. Qed.

(** A new event. *)
Lemma board_ok_conf b evs e : board_ok b -> event_ok (Z.to_nat (eventCount b)) e ->
  arr_set (event_list b) (Z.to_nat (eventCount b)) e = Ok evs ->
  board_ok (set_count (eventCount b + 1) (set_events evs b)).
Proof.
  intros Hb He. unfold arr_set. destruct (event_list b !! _) eqn:El; [|done]. intros [= <-].
  apply lookup_lt_Some in El. destruct Hb as [Hl Hc Ht Hev]. rewrite Hl in El. split; cbn.
  - by rewrite length_insert.
  - lia.
  - done.
  - intros i e' Hi Hlt. destruct (decide (i = Z.to_nat (eventCount b))) as [-> |Hne].
    + rewrite list_lookup_insert_eq in Hi by lia. by injection Hi as <-.
    + rewrite list_lookup_insert_ne in Hi by done. apply Hev; [done|lia].
Qed.

Lemma keeps_event_conf q : packet_ok q -> keeps board_ok (event_conf q).
Proof.
  intros Hq. unfold event_conf. destruct (0 <? _); [|unfold answer_error; keeps].
  apply (triple_bind _ _ _ _ _ (triple_get _)). intros b.
  apply (triple_bind _ _ _ _ _ (triple_lift _ _)). intros action.
  apply (triple_bind _ _ _ _ _ (triple_lift _ _)). intros evs.
  intros s a s' [[[Hb ->] Ha] Hs] E. injection E as <- <-.
  destruct (usb_data q) as [d|] eqn:Ed; [|done]. eapply board_ok_conf; [done| |exact Hs].
  pose proof (bo_count _ Hb). destruct Hq as [_ _ Ha1 _ _ _ Hd].
  split_and!; cbn; [lia|lia|lia|by left|]. exists action. split; [done|].
  eapply process_packet_ok; [|exact Ha]. by destruct (Hd d Ed).
Qed.

Lemma keeps_event q : packet_ok q -> keeps board_ok (event q).
Proof.
  intros Hq. pose proof (keeps_event_conf q Hq). unfold event, answer_data, dumpData. keeps.
Qed.

Lemma keeps_execute q : packet_ok q -> keeps board_ok (execute_packet q).
Proof.
  intros Hq. pose proof (keeps_event q Hq). pose proof (keeps_basic_io q). pose proof (keeps_comms q).
  pose proof (keeps_servo q). unfold execute_packet, answer_error. keeps.
Qed.

Lemma keeps_executed q : packet_ok q -> keeps board_ok (executed q).
Proof. intros Hq. pose proof (keeps_execute q Hq). unfold executed. keeps. Qed.

Lemma keeps_serve msg : bytes_ok msg -> keeps board_ok (serve msg).
Proof.
  intros Hm. unfold serve. apply (triple_bind _ _ _ _ _ (triple_lift _ _)). intros q.
  apply triple_pure. intros Eq. pose proof (keeps_executed q (process_packet_ok msg q Hm Eq)). keeps.
Qed.

Lemma keeps_save i q : keeps board_ok (save_event_data i q).
Proof.
  intros b a b' Hb E. unfold save_event_data, packet_data, st_bind, st_get, st_lift in E.
  destruct (sd_open_write _ _) as [sd|]; [|by injection E as _ <-].
  destruct (memcpy _ _); [|done]. injection E as _ <-. by apply (board_ok_same b).
Qed.

(** The flag of an event. *)
Lemma board_ok_flag b i e x : board_ok b -> event_list b !! i = Some e -> x = 0 \/ x = 1 ->
  board_ok (set_events (<[i := set_execute x e]> (event_list b)) b).
Proof.
  intros [Hl Hc Ht Hev] Hi Hx. split; cbn; [by rewrite length_insert|done|done|].
  intros j e' Hj Hlt. apply list_lookup_insert_Some in Hj as [(<- & <- & _)|[_ Hj]]; [|by apply Hev].
  destruct (Hev i e Hi Hlt) as (Hid & Hint & _ & Hact). by split; [|split; [|split]].
Qed.

Lemma run_event_ok i b b' : board_ok b -> Z.of_nat i < eventCount b ->
  run_event i b = Ok (tt, b') -> board_ok b'.
Proof.
  intros Hb Hi E. unfold run_event, st_bind at 1, st_get at 1 in E. unfold st_bind at 1, st_lift at 1, arr_get at 1 in E.
  destruct (event_list b !! i) as [e|] eqn:Ee; [|done]. cbn in E.
  destruct (ev_execute e =? 1); [|by injection E as <-].
  destruct (bo_event _ Hb i e Ee Hi) as (_ & _ & _ & a & Ea & Ha). rewrite Ea in E.
  revert E. assert (Ht : triple board_ok (let! pkt_res := executed a in
    do! save_event_data (Z.of_nat i) pkt_res in let! b' := st_get in
    let! e' := st_lift (arr_get (event_list b') i) in
    let! evs := st_lift (arr_set (event_list b') i (set_execute 0 e')) in st_put (set_events evs b'))
    (fun _ => board_ok)).
  { apply keeps_bind; [by apply keeps_executed|]. intros r. apply keeps_bind; [apply keeps_save|]. intros _.
    apply (triple_bind _ _ _ _ _ (triple_get _)). intros b1.
    apply (triple_bind _ _ _ _ _ (triple_lift _ _)). intros e'.
    apply (triple_bind _ _ _ _ _ (triple_lift _ _)). intros evs.
    intros s u s' [[[Hs ->] Ee'] Eset] [= <- <-]. unfold arr_get in Ee'.
    destruct (event_list s !! i) as [e''|] eqn:El; [|done]. injection Ee' as ->.
    rewrite arr_set_ok in Eset by (by eapply lookup_lt_Some). injection Eset as <-.
    apply board_ok_flag; [done|done|by left]. }
  by apply Ht.
Qed.

Lemma leave_ok b : board_ok b -> board_ok (leave_loop b).
Proof.
  intros [Hl Hc Ht Hev]. split; cbn; [by rewrite length_map|done|done|].
  intros i e Hi Hlt. rewrite list_lookup_fmap in Hi. destruct (event_list b !! i) as [e0|] eqn:El; [|done].
  injection Hi as <-. destruct (Hev i e0 El Hlt) as (? & ? & ? & a & Ea & ?).
  split; [done|]. split; [done|]. split; [done|]. cbn. exists (forget_data a). rewrite Ea. split; [done|by apply forget_ok].
Qed.

(** ** The interrupt. *)

Definition flagged (t : Z) (e : Event) : Event :=
  if Z.rem t (ev_interval e) =? 0 then set_execute 1 e else e.

Definition ticked (t : Z) (n : nat) (evs : list Event) : list Event :=
  imap (fun i e => if decide (i < n)%nat then flagged t e else e) evs.

Lemma ticked_0 t evs : ticked t 0 evs = evs.
Proof. apply list_eq. intros i. unfold ticked. rewrite list_lookup_imap. by destruct (evs !! i). Qed.

Lemma ticked_S t n evs e : evs !! n = Some e ->
  ticked t (S n) evs = <[n := flagged t e]> (ticked t n evs).
Proof.
  intros He. apply list_eq. intros i. unfold ticked. destruct (decide (i = n)) as [-> |Hne].
  - rewrite list_lookup_insert_eq by (rewrite length_imap; by eapply lookup_lt_Some).
    rewrite list_lookup_imap, He. cbn. by rewrite decide_True by lia.
  - rewrite list_lookup_insert_ne by done. rewrite !list_lookup_imap.
    destruct (evs !! i); [|done]. cbn. f_equal.
    destruct (decide (i < S n)%nat), (decide (i < n)%nat); [done|lia|lia|done].
Qed.

(** The loop is defined exactly when no interval is 0. *)
Lemma tick_events t n evs : (n <= length evs)%nat ->
  for_ 0 n (tick_event t) evs =
  if decide (Forall (fun e => ev_interval e <> 0) (take n evs)) then Ok (ticked t n evs) else UB.
Proof.
  induction n as [|n IH]; intros Hn; [by rewrite ticked_0|].
  rewrite <- Nat.add_1_r at 1. rewrite for_app, IH by lia.
  destruct (lookup_lt_is_Some_2 evs n) as [e He]; [lia|]. rewrite (take_S_r evs n e He).
  destruct (decide (Forall _ (take n evs))) as [Hall|Hnot].
  - assert (Het : ticked t n evs !! n = Some e).
    { unfold ticked. rewrite list_lookup_imap, He. cbn. by rewrite decide_False by lia. }
    cbn [mbind outcome_bind]. rewrite Nat.add_0_l. cbn [for_]. unfold tick_event.
    rewrite (obind_ok _ _ _ (arr_get_ok _ _ _ Het)). unfold due.
    destruct (ev_interval e =? 0) eqn:E0; bool_prop; cbn [mbind outcome_bind].
    + rewrite decide_False; [done|]. rewrite Forall_app. intros [_ Hf]. by apply Forall_cons in Hf as [? _].
    + rewrite arr_set_ok by (by eapply lookup_lt_Some).
      rewrite decide_True by (apply Forall_app; split; [done|by repeat constructor]).
      by rewrite (ticked_S t n evs e He).
  - cbn. rewrite decide_False; [done|]. by rewrite Forall_app; intros [? _].
Qed.

(** The events that exist. *)
Definition active b : list Event := take (Z.to_nat (eventCount b)) (event_list b).

Lemma events_routine_spec b : board_ok b ->
  events_routine b =
  if decide (Forall (fun e => ev_interval e <> 0) (active b) /\ bd_time b < INT_MAX)
  then Ok (tt, set_time (bd_time b + 1)
                 (set_events (ticked (bd_time b) (Z.to_nat (eventCount b)) (event_list b)) b))
  else UB.
Proof.
  intros [Hl Hc Ht _]. unfold events_routine. rewrite tick_events by lia. fold (active b).
  destruct (decide (Forall _ (active b))) as [Hall|Hnot]; cbn.
  - destruct (bd_time b =? INT_MAX) eqn:E; bool_prop.
    + rewrite decide_False by (intros [_ ?]; lia). done.
    + rewrite decide_True by (split; [done|lia]). done.
  - rewrite decide_False by (intros [? _]; done). done.
Qed.

Lemma tick_ok b b' : board_ok b -> events_routine b = Ok (tt, b') -> board_ok b'.
Proof.
  intros Hb. rewrite events_routine_spec by done. case_decide as Hd; [|done]. intros [= <-].
  destruct Hd as [_ Hlt]. destruct Hb as [Hl Hc Ht Hev]. split; cbn.
  - unfold ticked. by rewrite length_imap.
  - done.
  - lia.
  - intros i e Hi Hlt'. unfold ticked in Hi. rewrite list_lookup_imap in Hi.
    destruct (event_list b !! i) as [e0|] eqn:El; [|done]. injection Hi as <-.
    destruct (Hev i e0 El Hlt') as (Hid & Hint & Hx & Hact). unfold flagged. repeat case_goal; try done.
    split; [done|]. split; [done|]. split; [by right|done].
Qed.

(** ** Steps. *)

Inductive fw_step : Bd -> Bd -> Prop :=
| fw_serve msg raw b b' : bytes_ok msg -> serve msg b = Ok (raw, b') -> fw_step b b'
| fw_event i b b' : Z.of_nat i < eventCount b -> run_event i b = Ok (tt, b') -> fw_step b b'
| fw_leave b : fw_step b (leave_loop b)
| fw_tick b b' : events_routine b = Ok (tt, b') -> fw_step b b'.

Lemma fw_step_ok b b' : fw_step b b' -> board_ok b -> board_ok b'.
Proof.
  intros Hst Hb. destruct Hst as [msg raw b b' Hm E|i b b' Hi E|b|b b' E].
  - by eapply keeps_serve.
  - by eapply run_event_ok.
  - by apply leave_ok.
  - by eapply tick_ok.
Qed.

Lemma fw_steps_ok b b' : rtc fw_step b b' -> board_ok b -> board_ok b'.
Proof. induction 1 as [|b b1 b2 Hst _ IH]; [done|]. intros Hb. by eapply IH, fw_step_ok. Qed.

Lemma started_ok io sd radio : board_ok (started io sd radio).
Proof. split; [done|done|done|]. cbn. lia. Qed.

(** ** The main loop. *)

Lemma run_events_steps fuel i b b' : run_events fuel i b = Ok (tt, b') -> rtc fw_step b b'.
Proof.
  revert i b. induction fuel as [|fuel IH]; intros i b; cbn [run_events].
  - unfold st_bind, st_gets. case_goal; [done|]. intros [= <-]. apply rtc_refl.
  - unfold st_bind at 1, st_gets. destruct (Z.of_nat i <? eventCount b) eqn:E; bool_prop.
    + unfold st_bind. destruct (run_event i b) as [[[] b1]|] eqn:E1; [|done]. intros E2.
      eapply rtc_l; [by eapply fw_event|]. by eapply IH.
    + intros [= <-]. apply rtc_refl.
Qed.

Lemma loop_steps r b sent b' : (forall msg, r = Some (Some msg) -> bytes_ok msg) ->
  loop r b = Ok (sent, b') -> rtc fw_step b b'.
Proof.
  intros Hm. unfold loop. destruct r as [r|]; [|intros [= <- <-]; apply rtc_refl].
  unfold st_bind at 1. intros E.
  assert (Hfirst : exists sent' b1, match r with
      | Some msg => st_bind (serve msg) (fun raw => st_ret (Some raw))
      | None => st_ret None end b = Ok (sent', b1) /\ rtc fw_step b b1).
  { destruct r as [msg|]; [|eexists _, _; split; [done|apply rtc_refl]].
    unfold st_bind in E |- *. destruct (serve msg b) as [[raw b1]|] eqn:Es; [|done].
    eexists _, _. split; [done|]. eapply rtc_once, fw_serve; [by apply Hm|done]. }
  destruct Hfirst as (sent' & b1 & E1 & Hst). rewrite E1 in E. etransitivity; [exact Hst|].
  unfold st_bind in E. destruct (run_events _ 0 b1) as [[[] b2]|] eqn:E2; [|done].
  injection E as _ <-. eapply rtc_r; [by eapply run_events_steps|apply fw_leave].
Qed.

Lemma run_events_fuel fuel k i b : board_ok b -> (Z.to_nat MAX_EVENTS <= fuel + i)%nat ->
  run_events (fuel + k) i b = run_events fuel i b.
Proof.
  revert i b. induction fuel as [|fuel IH]; intros i b Hb Hle.
  - pose proof (bo_count _ Hb). assert (E : (Z.of_nat i <? eventCount b) = false) by (apply Z.ltb_ge; lia).
    rewrite Nat.add_0_l. destruct k; cbn [run_events]; unfold st_bind, st_gets; by rewrite E.
  - cbn [run_events Nat.add]. unfold st_bind at 1 3, st_gets.
    destruct (Z.of_nat i <? eventCount b) eqn:E; [|done]. bool_prop. unfold st_bind.
    destruct (run_event i b) as [[[] b1]|] eqn:E1; [|done]. apply IH; [by eapply run_event_ok|lia].
Qed.

(** C23: the state of the board stays well formed as long as its behaviour is defined.
    However the interrupts fall between the steps of the main loop, and whatever messages
    arrive, as long as no step is undefined (a request for an eleventh event is: nothing in
    the code bounds their number, see FirmwareProps.v), in every state the board can reach
    event number [i] saves to buffer [i], its flag is 0 or 1, its interval is less than 128,
    its action is a packet with every field within its bit field, there are at most ten
    events, and the time is an [int]; every defined run of the main loop is such a sequence
    of steps. *)
Theorem board_invariant io sd radio b : rtc fw_step (started io sd radio) b ->
  board_ok b /\
  forall r sent b', (forall msg, r = Some (Some msg) -> bytes_ok msg) ->
    loop r b = Ok (sent, b') -> rtc fw_step (started io sd radio) b'.
Proof.
  intros Hst. split; [by eapply fw_steps_ok; [|apply started_ok]|].
  intros r sent b' Hm E. etransitivity; [exact Hst|]. by eapply loop_steps.
Qed.

(** The second half of the main loop ends.  Although an event may add events while
    the loop runs, ten turns are always enough: with more the result is the same. *)
Theorem event_loop_terminates b k : board_ok b ->
  run_events (Z.to_nat MAX_EVENTS + k) 0 b = run_events (Z.to_nat MAX_EVENTS) 0 b.
Proof. intros Hb. by apply run_events_fuel. Qed.

(** The interrupt.  It is defined exactly while no event has interval 0 and the clock
    has not reached the largest [int]; then it raises the flags of the events whose
    interval divides the time, changes no other event and advances the clock. *)
Theorem timer_interrupt b : board_ok b ->
  match events_routine b with
  | Ok (_, b') => (forall e, e ∈ active b -> ev_interval e <> 0) /\ bd_time b < INT_MAX /\
      bd_time b' = bd_time b + 1 /\ eventCount b' = eventCount b /\
      forall i e, event_list b !! i = Some e ->
        event_list b' !! i = Some (if (Z.of_nat i <? eventCount b) && (Z.rem (bd_time b) (ev_interval e) =? 0)
                                   then set_execute 1 e else e)
  | UB => (exists e, e ∈ active b /\ ev_interval e = 0) \/ bd_time b = INT_MAX
  end.
Proof.
  intros Hb. rewrite events_routine_spec by done. case_decide as Hd.
  - destruct Hd as [Hall Hlt]. split_and!; [|done|done|done|].
    + intros e He. by eapply Forall_forall in Hall.
    + intros i e Hi. cbn. unfold ticked. rewrite list_lookup_imap, Hi. cbn. unfold flagged.
      destruct (Z.of_nat i <? eventCount b) eqn:E; bool_prop; cbn [andb].
      * by rewrite decide_True by lia.
      * by rewrite decide_False by lia.
  - destruct (decide (Forall (fun e => ev_interval e <> 0) (active b))) as [Hall|Hnot].
    + right. pose proof (bo_time _ Hb). destruct (Z.eq_dec (bd_time b) INT_MAX); [done|].
      exfalso. apply Hd. split; [done|lia].
    + left. apply not_Forall_Exists in Hnot; [|apply _]. apply Exists_exists in Hnot as (e & He & Hz).
      exists e. split; [done|]. destruct (decide (ev_interval e = 0)); [done|]. by destruct Hz.
Qed.

End Invariant.
