(* ===== verification/Sampling.v ===== *)
(** * Sampling: periodic events on the board.

    An event whose action is a pin command, executed by the main loop each time the
    interrupt has raised its flag, appends the data of the answer to its file.  The
    memory card is any card with the interface [SDCard]. *)

From S2P Require Import Prelude Hoare Abs McsDefs Mcs Usb UsbProps Firmware FirmwareFacts FirmwareInv.

(** A memory card that works: files can be opened, and writing appends. *)
Class SDCard (SD Radio : Type) `{Libraries SD Radio} := {
  sd_file : list Z -> SD -> list Z;
  sd_ready : SD -> Prop;
  sd_opens name sd : sd_ready sd -> exists sd', sd_open_write name sd = Some sd' /\ sd_ready sd' /\
    forall n, sd_file n sd' = sd_file n sd;
  sd_appends name data sd : sd_ready sd ->
    sd_ready (sd_write name data sd) /\ sd_file name (sd_write name data sd) = sd_file name sd ++ data;
  sd_keeps name n data sd : sd_ready sd -> n <> name -> sd_file n (sd_write name data sd) = sd_file n sd
}.

Lemma buffer_name_inj i j : 0 <= i < 128 -> 0 <= j < 128 -> buffer_name i = buffer_name j -> i = j.
Proof.
  intros Hi Hj E. unfold buffer_name in E. apply app_inv_head, app_inv_tail in E.
  destruct (dec_spec i) as [Di _]; [lia|]. destruct (dec_spec j) as [Dj _]; [lia|]. congruence.
Qed.

Section Sampling.
Context {SD Radio : Type} `{SDCard SD Radio}.
Abbreviation Bd := (Board SD Radio).
Implicit Types (q : USBPacket) (b : Bd) (e : Event).

Definition file (i : nat) b : list Z := sd_file (buffer_name (Z.of_nat i)) (bd_sd b).

(** Between the accesses [h] and [h'] of the board, the pin command [q] was executed and
    [data] is the data of its answer: what the pins gave after the accesses up to then. *)
Definition sample_of (h h' : list Io) q (data : list Z) : Prop :=
  exists b io par, pin_reaction q b = Replies io par data /\
    h `prefix_of` bd_io b /\ (bd_io b ++ io) `prefix_of` h'.

(** One such answer after the other. *)
Inductive readings q : list Io -> list (list Z) -> list Io -> Prop :=
| readings_nil h h' : h `prefix_of` h' -> readings q h [] h'
| readings_cons h k h' data l : sample_of h k q data -> readings q k l h' -> readings q h (data :: l) h'.

Lemma sample_mono h k k' h' q data : sample_of k k' q data -> h `prefix_of` k -> k' `prefix_of` h' ->
  sample_of h h' q data.
Proof.
  intros (b & io & par & E & H1 & H2) Hk Hk'. exists b, io, par. split_and!; [done|by etrans|by etrans].
Qed.

Lemma readings_later h k q l h' : h `prefix_of` k -> readings q k l h' -> readings q h l h'.
Proof.
  intros Hk Hr. destruct Hr as [k h' Hp|k k' h' data l Hs Hr]; [apply readings_nil; by etrans|].
  eapply readings_cons; [|exact Hr]. by eapply sample_mono.
Qed.

(** An event that executes a pin command. *)
Definition samples e q : Prop := ev_action e = Some q /\ usb_command q = BASIC_IO.

Record sampler b : Prop := {
  sm_ok : board_ok b;
  sm_ready : sd_ready (bd_sd b);
  sm_event i e : event_list b !! i = Some e -> Z.of_nat i < eventCount b ->
    0 < ev_interval e /\ exists q, samples e q
}.

(** What an event with this flag adds to its file. *)
Definition adds (h h' : list Io) e q (data : list Z) : Prop :=
  if ev_execute e =? 1 then sample_of h h' q data else data = [].

(** A pin command changes nothing but the pins. *)
Definition only_io b0 b : Prop := exists l, b = set_io l b0.

Lemma keeps_io_access b0 x : keeps (only_io b0) (access x).
Proof. apply triple_modify. intros b [l ->]. by eexists. Qed.

Lemma keeps_io_sense b0 x f : keeps (only_io b0) (sense x f).
Proof. pose proof (keeps_io_access b0). unfold sense. keeps. Qed.

Lemma keeps_io_pins b0 q : keeps (only_io b0) (basic_io q).
Proof.
  pose proof (keeps_io_access b0). pose proof (keeps_io_sense b0).
  unfold basic_io, answer_ok, answer_error, answer_data. keeps.
Qed.

Lemma pin_executed q b : usb_command q = BASIC_IO -> exists r b' data,
  executed q b = Ok (r, b') /\ memcpy (usb_data r) (usb_data_size r) = Ok data /\
  sample_of (bd_io b) (bd_io b') q data /\ only_io b b'.
Proof.
  intros Hq. assert (Hre : exists io par data, pin_reaction q b = Replies io par data).
  { unfold pin_reaction, acked, failed. repeat case_goal; by eexists _, _, _. }
  destruct Hre as (io & par & data & Hre). pose proof (basic_io_reaction q b) as Hrun. rewrite Hre in Hrun.
  destruct Hrun as (r & b' & E & Hio & _ & a1 & a2 & ptr & -> & Em).
  assert (Ex : execute_packet q b = Ok (Some (mkUSBPacket CONTROL par a1 a2 (zlen data) ptr (usb_packet_id q)), b'))
    by (unfold execute_packet; rewrite Hq; exact E).
  exists (mkUSBPacket CONTROL par a1 a2 (zlen data) ptr (usb_packet_id q)), b', data. split_and!.
  - unfold executed. by rewrite (st_bind_ok _ _ _ _ _ Ex).
  - done.
  - exists b, io, par. by rewrite Hio.
  - eapply keeps_io_pins; [|exact E]. exists (bd_io b). by destruct b.
Qed.

(** One event. *)
Lemma run_event_samples b i e q : sampler b -> Z.of_nat i < eventCount b ->
  event_list b !! i = Some e -> samples e q -> exists b' data,
  run_event i b = Ok (tt, b') /\ adds (bd_io b) (bd_io b') e q data /\ bd_io b `prefix_of` bd_io b' /\
  event_list b' = <[i := set_execute 0 e]> (event_list b) /\ eventCount b' = eventCount b /\
  bd_time b' = bd_time b /\ sd_ready (bd_sd b') /\ file i b' = file i b ++ data /\
  forall j, (j < 128)%nat -> j <> i -> file j b' = file j b.
Proof.
  intros Hs Hi He [Ha Hq]. unfold run_event, adds. unfold st_bind at 1, st_get at 1.
  assert (Eg : st_lift (arr_get (event_list b) i) b = Ok (e, b)) by (unfold st_lift, arr_get; by rewrite He).
  rewrite (st_bind_ok _ _ _ _ _ Eg). pose proof (bo_event _ (sm_ok _ Hs) i e He Hi) as (_ & _ & Hx & _).
  destruct (ev_execute e =? 1) eqn:Ex; bool_prop.
  - rewrite Ha. destruct (pin_executed q b Hq) as (r & b1 & data & E & Em & Hd & l & ->).
    rewrite (st_bind_ok _ _ _ _ _ E).
    destruct (sd_opens (buffer_name (Z.of_nat i)) (bd_sd b) (sm_ready _ Hs)) as (sd & Eo & Hr & Hf).
    set (b2 := set_sd (sd_write (buffer_name (Z.of_nat i)) data sd) (set_io l b)).
    assert (Es : save_event_data (Z.of_nat i) r (set_io l b) = Ok (1, b2)).
    { unfold save_event_data, st_bind, st_get, packet_data, st_lift. cbn [bd_sd set_io]. by rewrite Eo, Em. }
    rewrite (st_bind_ok _ _ _ _ _ Es). unfold st_bind, st_get, st_lift.
    change (event_list b2) with (event_list b). rewrite (arr_get_ok _ _ _ He), arr_set_ok by (by eapply lookup_lt_Some).
    destruct (sd_appends (buffer_name (Z.of_nat i)) data sd Hr) as [Hr' Hfile].
    destruct Hd as (b0 & io & par & Epin & Hp1 & Hp2). eexists _, data.
    split_and!; [done|by exists b0, io, par|etrans; [exact Hp1|]; etrans; [|exact Hp2]; by apply prefix_app_r|done|done|done|done| |].
    + unfold file, b2. cbn [bd_sd set_events set_sd]. by rewrite Hfile, Hf.
    + intros j Hj Hne. unfold file, b2. cbn [bd_sd set_events set_sd]. rewrite sd_keeps; [apply Hf|done|].
      pose proof (bo_count _ (sm_ok _ Hs)). unfold MAX_EVENTS in *.
      intros Heq. apply buffer_name_inj in Heq; lia.
  - assert (ev_execute e = 0) as E0 by lia. exists b, []. split_and!; try done.
    + replace (set_execute 0 e) with e by (destruct e; cbn in *; by subst). by rewrite list_insert_id.
    + apply Hs.
    + by rewrite app_nil_r.
Qed.

(** Clearing a flag leaves a sampler. *)
Lemma sampler_flag b b' i e : sampler b -> board_ok b' -> sd_ready (bd_sd b') ->
  event_list b !! i = Some e -> event_list b' = <[i := set_execute 0 e]> (event_list b) ->
  eventCount b' = eventCount b -> sampler b'.
Proof.
  intros Hs Hb Hr He Hev Hc. split; [done|done|]. intros j e' Hj Hlt. rewrite Hev in Hj. rewrite Hc in Hlt.
  apply list_lookup_insert_Some in Hj as [(<- & <- & _)|[_ Hj]];
    [exact (sm_event _ Hs i e He Hlt)|by apply (sm_event _ Hs j)].
Qed.

(** The second half of the main loop, from event [i]. *)
Lemma run_events_samples fuel i b : sampler b -> (Z.to_nat (eventCount b) <= fuel + i)%nat ->
  exists b', run_events fuel i b = Ok (tt, b') /\ sampler b' /\ eventCount b' = eventCount b /\
    bd_time b' = bd_time b /\ bd_io b `prefix_of` bd_io b' /\
    forall j e q, event_list b !! j = Some e -> Z.of_nat j < eventCount b -> samples e q ->
      if decide (i <= j)%nat
      then event_list b' !! j = Some (set_execute 0 e) /\
        exists data, adds (bd_io b) (bd_io b') e q data /\ file j b' = file j b ++ data
      else event_list b' !! j = Some e /\ file j b' = file j b.
Proof.
  revert i b. induction fuel as [|fuel IH]; intros i b Hs Hf.
  - assert (E : (Z.of_nat i <? eventCount b) = false) by (apply Z.ltb_ge; lia). cbn [run_events].
    unfold st_bind, st_gets. rewrite E. exists b. split_and!; try done. intros j e q Hj Hlt _.
    by rewrite decide_False by lia.
  - cbn [run_events]. unfold st_bind at 1, st_gets. destruct (Z.of_nat i <? eventCount b) eqn:E; bool_prop.
    + pose proof (bo_length _ (sm_ok _ Hs)). pose proof (bo_count _ (sm_ok _ Hs)).
      destruct (lookup_lt_is_Some_2 (event_list b) i) as [e0 He0]; [lia|].
      destruct (sm_event _ Hs i e0 He0 E) as [_ [q0 Hq0]].
      destruct (run_event_samples b i e0 q0 Hs E He0 Hq0) as (b1 & data & E1 & Hadd & Hio1 & Hev & Hc & Ht & Hr & Hfi & Hfo).
      assert (Hs1 : sampler b1) by (by eapply sampler_flag; [| by eapply run_event_ok; [apply Hs| |]|..]).
      rewrite (st_bind_ok _ _ _ _ _ E1). destruct (IH (S i) b1 Hs1) as (b' & E' & Hs' & Hc' & Ht' & Hio' & Hall); [lia|].
      assert (Hmono : forall h h' e q d, adds h h' e q d -> bd_io b `prefix_of` h -> h' `prefix_of` bd_io b' ->
        adds (bd_io b) (bd_io b') e q d) by (intros h h' e q d; unfold adds; case_goal; [apply sample_mono|done]).
      exists b'. split_and!; [done|done|congruence|congruence|by etrans|]. intros j e q Hj Hlt Hq.
      destruct (decide (j = i)) as [-> |Hne].
      * assert (e0 = e) as -> by congruence.
        assert (q0 = q) as -> by (destruct Hq0, Hq; congruence).
        assert (Hj1 : event_list b1 !! i = Some (set_execute 0 e))
          by (rewrite Hev; apply list_lookup_insert_eq; by eapply lookup_lt_Some).
        specialize (Hall i _ q Hj1 ltac:(lia) Hq). rewrite decide_False in Hall by lia. rewrite decide_True by lia.
        destruct Hall as [Hl Hfl]. split; [done|]. exists data. split; [by eapply Hmono|]. by rewrite Hfl.
      * assert (Hj1 : event_list b1 !! j = Some e) by (rewrite Hev; by rewrite list_lookup_insert_ne).
        specialize (Hall j e q Hj1 ltac:(lia) Hq). unfold MAX_EVENTS in *. rewrite (Hfo j) in Hall by lia.
        destruct (decide (S i <= j)%nat), (decide (i <= j)%nat); try lia; [|done].
        destruct Hall as [Hl (d & Hd & Hfl)]. split; [done|]. exists d. split; [by eapply Hmono|done].
    + exists b. split_and!; try done. intros j e q Hj Hlt _. by rewrite decide_False by lia.
Qed.

(** ** Rounds: an interrupt, then a turn of the main loop without a message. *)

Fixpoint rounds (n : nat) : ST Bd unit :=
  match n with
  | O => st_ret tt
  | S n' => do! events_routine in do! loop (Some None) in rounds n'
  end.

Lemma sampler_ticked b : sampler b -> bd_time b < INT_MAX -> exists b',
  events_routine b = Ok (tt, b') /\ sampler b' /\ bd_time b' = bd_time b + 1 /\
  eventCount b' = eventCount b /\ bd_sd b' = bd_sd b /\ bd_io b' = bd_io b /\
  forall j e, event_list b !! j = Some e -> Z.of_nat j < eventCount b ->
    event_list b' !! j = Some (flagged (bd_time b) e).
Proof.
  intros Hs Ht. pose proof (events_routine_spec b (sm_ok _ Hs)) as E.
  rewrite decide_True in E; [|split; [|done]].
  2:{ apply Forall_forall. intros e He. apply list_elem_of_lookup in He as [i Hi]. unfold active in Hi.
      apply lookup_take_Some in Hi as [Hi Hlt]. destruct (sm_event _ Hs i e Hi); lia. }
  assert (Hlk : forall j e, event_list b !! j = Some e -> Z.of_nat j < eventCount b ->
    ticked (bd_time b) (Z.to_nat (eventCount b)) (event_list b) !! j = Some (flagged (bd_time b) e)).
  { intros j e Hj Hlt. unfold ticked. rewrite list_lookup_imap, Hj. cbn. by rewrite decide_True by lia. }
  eexists. split; [exact E|]. split_and!; [|done|done|done|done|done].
  split; [by eapply tick_ok; [apply Hs|]|apply Hs|]. cbn. intros j e Hj Hlt.
  unfold ticked in Hj. rewrite list_lookup_imap in Hj. destruct (event_list b !! j) as [e0|] eqn:E0; [|done].
  injection Hj as <-. destruct (sm_event _ Hs j e0 E0 Hlt) as [Hi [q [Ha Hq]]].
  unfold flagged. repeat case_goal; (split; [done|]); by exists q.
Qed.

(** Returning from [loop]. *)
Lemma sampler_leave b : sampler b -> sampler (leave_loop b).
Proof.
  intros Hs. split; [apply leave_ok, Hs|apply Hs|]. cbn. intros i e Hi Hlt. rewrite list_lookup_fmap in Hi.
  destruct (event_list b !! i) as [e0|] eqn:E0; [|done]. injection Hi as <-.
  destruct (sm_event _ Hs i e0 E0 Hlt) as [Hint [q [Ha Hq]]]. split; [done|]. exists (forget_data q).
  split; [cbn; by rewrite Ha|done].
Qed.

(** One round: [data] goes to the file of an event if its time has come. *)
Definition round_adds (h h' : list Io) (t : Z) e q (data : list Z) : Prop :=
  if Z.rem t (ev_interval e) =? 0 then sample_of h h' q data else data = [].

Lemma round_samples b n : sampler b -> none_due b -> bd_time b < INT_MAX -> exists b',
  rounds (S n) b = rounds n b' /\ sampler b' /\ none_due b' /\ bd_time b' = bd_time b + 1 /\
  eventCount b' = eventCount b /\ bd_io b `prefix_of` bd_io b' /\
  forall j e q, event_list b !! j = Some e -> Z.of_nat j < eventCount b -> samples e q ->
    (exists e', event_list b' !! j = Some e' /\ ev_interval e' = ev_interval e /\ samples e' (forget_data q)) /\
    exists data, round_adds (bd_io b) (bd_io b') (bd_time b) e q data /\ file j b' = file j b ++ data.
Proof.
  intros Hs Hset Ht. destruct (sampler_ticked b Hs Ht) as (b1 & E1 & Hs1 & Ht1 & Hc1 & Hsd & Hio1 & Hev1).
  pose proof (bo_count _ (sm_ok _ Hs)).
  destruct (run_events_samples (Z.to_nat MAX_EVENTS) 0 b1 Hs1) as (b2 & E2 & Hs2 & Hc2 & Ht2 & Hio2 & Hall); [lia|]. rewrite Hio1 in *.
  assert (Hflag : forall j e, event_list b !! j = Some e -> Z.of_nat j < eventCount b ->
    ev_execute (flagged (bd_time b) e) = if Z.rem (bd_time b) (ev_interval e) =? 0 then 1 else 0).
  { intros j e Hj Hlt. unfold flagged. case_goal; [done|by eapply Hset]. }
  assert (Hsame : forall t e, ev_interval (flagged t e) = ev_interval e /\ ev_action (flagged t e) = ev_action e)
    by (intros t e; unfold flagged; by case_goal).
  assert (Hj2 : forall j e q, event_list b !! j = Some e -> Z.of_nat j < eventCount b -> samples e q ->
    event_list b2 !! j = Some (set_execute 0 (flagged (bd_time b) e)) /\
    exists data, round_adds (bd_io b) (bd_io b2) (bd_time b) e q data /\ file j b2 = file j b ++ data).
  { intros j e q Hj Hlt [Ha Hq]. destruct (Hsame (bd_time b) e) as [Hi Hac].
    specialize (Hall j _ q (Hev1 j e Hj Hlt) ltac:(lia)). rewrite decide_True in Hall by lia.
    destruct Hall as [Hl (data & Hadd & Hfile)]; [split; [by rewrite Hac|done]|]. split; [done|].
    exists data. split; [|unfold file in *; by rewrite <- Hsd].
    unfold adds in Hadd. rewrite (Hflag j e Hj Hlt) in Hadd. unfold round_adds. by case_goal. }
  exists (leave_loop b2). split; [|split; [by apply sampler_leave|split; [|split; [cbn; congruence|split; [cbn; congruence|split; [exact Hio2|]]]]]].
  - cbn [rounds]. rewrite (st_bind_ok _ _ _ _ _ E1). unfold loop, st_bind, st_ret, st_modify. by rewrite E2.
  - intros i e Hi Hlt. cbn in Hi, Hlt. rewrite list_lookup_fmap in Hi.
    pose proof (bo_length _ (sm_ok _ Hs)). unfold MAX_EVENTS in *.
    destruct (lookup_lt_is_Some_2 (event_list b) i) as [e0 He0]; [lia|].
    destruct (sm_event _ Hs i e0 He0 ltac:(lia)) as [_ [q0 Hq0]].
    destruct (Hj2 i e0 q0 He0 ltac:(lia) Hq0) as [Hl _]. rewrite Hl in Hi. by injection Hi as <-.
  - intros j e q Hj Hlt Hq. destruct (Hj2 j e q Hj Hlt Hq) as [Hl Hd]. split; [|exact Hd].
    destruct (Hsame (bd_time b) e) as [Hi Hac]. eexists. split; [cbn; rewrite list_lookup_fmap, Hl; done|].
    cbn. split; [done|]. destruct Hq as [Ha Hq]. split; [cbn; by rewrite Hac, Ha|done].
Qed.

(** How many of the [n] times from [t] on are multiples of [k]. *)
Fixpoint multiples (k t : Z) (n : nat) : nat :=
  match n with
  | O => 0
  | S n' => (if Z.rem t k =? 0 then 1 else 0) + multiples k (t + 1) n'
  end.

(** C18: events are periodic, if they read pins.  On a board with a working memory card
    ([SDCard]) whose events all execute pin commands ([BASIC_IO]; not the transceiver, and
    no requests about events) with a positive interval, and none of them waiting, [n]
    interrupts, each followed by a turn of the main loop without a message, are defined as
    long as the clock does not overflow, and add to the file of every event exactly one
    answer to its command for each of the [n] times that is a multiple of its interval, in
    order and with nothing else: the answers the board gave to the command during these
    rounds, one after the other, each with what the pins gave at that point of the accesses
    the board made. *)
Theorem periodic_sampling b n : sampler b -> none_due b -> bd_time b + Z.of_nat n <= INT_MAX ->
  exists b', rounds n b = Ok (tt, b') /\ bd_time b' = bd_time b + Z.of_nat n /\
    forall j e q, event_list b !! j = Some e -> Z.of_nat j < eventCount b -> samples e q ->
      exists answers, file j b' = file j b ++ mjoin answers /\ readings q (bd_io b) answers (bd_io b') /\
        length answers = multiples (ev_interval e) (bd_time b) n.
Proof.
  intros Hs Hset Ht. enough (exists b', rounds n b = Ok (tt, b') /\ bd_time b' = bd_time b + Z.of_nat n /\
    bd_io b `prefix_of` bd_io b' /\
    forall j e q, event_list b !! j = Some e -> Z.of_nat j < eventCount b -> samples e q ->
      exists answers, file j b' = file j b ++ mjoin answers /\ readings q (bd_io b) answers (bd_io b') /\
        length answers = multiples (ev_interval e) (bd_time b) n) as (b' & E & Et & _ & Hall) by (by exists b').
  revert b Hs Hset Ht. induction n as [|n IH]; intros b Hs Hset Ht.
  - exists b. split_and!; [done|lia|done|]. intros j e q _ _ _. exists []. rewrite app_nil_r.
    split_and!; [done|by apply readings_nil|done].
  - destruct (round_samples b n Hs Hset) as (b1 & -> & Hs1 & Hset1 & Ht1 & Hc1 & Hio1 & Hall); [lia|].
    destruct (IH b1 Hs1 Hset1) as (b' & -> & Ht' & Hio' & Hrest); [lia|]. exists b'. split_and!; [done|lia|by etrans|].
    intros j e q Hj Hlt Hq. destruct (Hall j e q Hj Hlt Hq) as [(e' & He' & Hi & Hq') (data & Hadd & Hf)].
    destruct (Hrest j e' _ He' ltac:(lia) Hq') as (answers & Hf' & Hans & Hlen).
    assert (Hans' : readings q (bd_io b1) answers (bd_io b')) by (clear -Hans; by induction Hans; econstructor).
    rewrite Hi, Ht1 in Hlen. unfold round_adds in Hadd. cbn [multiples].
    destruct (Z.rem _ _ =? 0).
    + exists (data :: answers). rewrite Hf', Hf. cbn. rewrite <- app_assoc. split_and!; [done| |by rewrite Hlen].
      by eapply readings_cons.
    + subst data. exists answers. rewrite Hf', Hf, app_nil_r. split_and!; [done|by eapply readings_later|done].
Qed.

End Sampling.
