(* ===== verification/FirmwareDemo.v ===== *)
(** * FirmwareDemo: a board to try the theorems on.

    The memory card is a map from names to contents, the radio does nothing, and a pin
    reads the number of accesses so far. *)

From S2P Require Import Prelude Hoare Abs McsDefs Mcs McsFacts Usb UsbProps.
From S2P Require Import Firmware FirmwareFacts FirmwareProps FirmwareInv Sampling.

Section Demo.

Abbreviation Card := (gmap (list Z) (list Z)).

#[local] Instance demo_libraries : Libraries Card unit := {
  analogRead h _ := zlen h mod 1024;
  digitalRead h _ := zlen h mod 2;
  serial_read _ _ := -1;
  spi_transfer _ _ := 0;
  sd_open_write name sd := Some (<[name := default [] (sd !! name)]> sd);
  sd_write name data sd := <[name := default [] (sd !! name) ++ data]> sd;
  sd_open name sd := sd !! name;
  comms_configure r := r;
  comms_tx _ r := r;
  comms_rx r := Ok ([2], r);
  comms_change_x _ _ r := r;
  unset _ _ := 77
}.

#[local] Instance demo_card : SDCard Card unit.
Proof.
  refine {| sd_file name sd := default [] (sd !! name); sd_ready _ := True |}.
  - intros name sd _. eexists. split_and!; [done|done|]. intros n.
    destruct (decide (n = name)) as [-> |]; [by rewrite lookup_insert_eq|by rewrite lookup_insert_ne].
  - intros name data sd _. cbn. by rewrite lookup_insert_eq.
  - intros name n data sd _ Hne. cbn. by rewrite lookup_insert_ne.
Defined.

(** Tables with three commands: write a pin, configure an event, read a pin. *)
Definition demo_payload (command parameters : Z) : MCSCommandOptionsPayload :=
  mkPayload (mkCommon (str "demo") 2 false 0) command parameters None None.

#[local] Instance demo_tables : MCSTables := {
  mcs_command_message_list := [];
  mcs_command_state_list := [];
  mcs_command_payload_list :=
    [demo_payload BASIC_IO DIGITAL_WRITE; demo_payload EVENT CONF; demo_payload BASIC_IO ANALOG_READ]
}.

Definition demo_packet (id cmd arg0 arg1 : Z) (data : list Z) : MCSPacket :=
  mkMCSPacket id MCS_TYPE_PAYLOAD cmd 2 (Some [arg0; arg1]) None (zlen data)
    (if zlen data =? 0 then None else Some data).

Ltac demo_fits := split; [split| | | | | | |]; first [reflexivity | done | split; [reflexivity|bytes_lit]].

Definition write_pin : MCSPacket := demo_packet 5 0 13 1 [].
Definition read_pin : MCSPacket := demo_packet 6 2 3 0 [].

Lemma write_pin_fits : fits_link write_pin (demo_payload BASIC_IO DIGITAL_WRITE).
Proof. demo_fits. Qed.

Lemma read_pin_fits : fits_link read_pin (demo_payload BASIC_IO ANALOG_READ).
Proof. demo_fits. Qed.

Definition raw_read_pin : list Z := [37; 7; 1; 1; 1; 12].

(** Read analog pin 3 every 2 ticks. *)
Definition configure_event : MCSPacket := demo_packet 7 1 2 0 raw_read_pin.

Lemma configure_event_fits : fits_link configure_event (demo_payload EVENT CONF).
Proof. demo_fits. Qed.

Definition new_board : Board Card unit := started [] ∅ tt.

(** The pin is written and the daemon gets the acknowledgement. *)
Lemma payload_exchange_witness : exists raw ans b',
  mcs_to_usb write_pin = Ok (Some raw) /\ serve (raw ++ [9; 9]) new_board = Ok (ans, b') /\
  bd_io b' = [PinMode 13 OUTPUT; DigitalWrite 13 1] /\
  usb_to_mcs ans (zlen ans) = Ok (Some (mcs_ok_packet_id 5)).
Proof.
  destruct (payload_exchange write_pin _ [9; 9] new_board write_pin_fits) as (raw & E & Hx).
  destruct Hx as (ans & b' & Es & Hio & Ea). by exists raw, ans, b'.
Defined.

Lemma event_configured_witness : exists raw ans b',
  mcs_to_usb configure_event = Ok (Some raw) /\ loop (Some (Some (raw ++ [9]))) new_board = Ok (Some ans, b') /\
  eventCount b' = 1 /\
  event_list b' !! 0%nat = Some (mkEvent 0 2 0
    (Some (request_of read_pin (demo_payload BASIC_IO ANALOG_READ) []))).
Proof.
  destruct (event_configured configure_event _ read_pin _ raw_read_pin [9] new_board
    configure_event_fits read_pin_fits) as (raw & E & Hx); [done..| |].
  { intros i e _ Hlt. cbn in Hlt. lia. }
  destruct Hx as (ans & b' & action & Es & _ & Hc & Hev & _ & Ha). exists raw, ans, b'.
  split_and!; [done|done|done|]. rewrite <- (Ha eq_refl). exact Hev.
Defined.

(** A request for pin 6 with the commands of the repository. *)
Definition get_pin : MCSPacket := mkMCSPacket 8 MCS_TYPE_PAYLOAD 0 1 (Some [6]) None 0 None.

Lemma get_pin_fits : exists c, fits_link (H := repo_tables) get_pin c.
Proof. eexists. demo_fits. Qed.

Lemma arduino_get_pin_refused_witness : exists raw ans b',
  mcs_to_usb (H := repo_tables) get_pin = Ok (Some raw) /\ serve (raw ++ []) new_board = Ok (ans, b') /\
  bd_io b' = [] /\ usb_to_mcs ans (zlen ans) = Ok (Some (mcs_err_packet_id 8 EHWFAULT)).
Proof. destruct get_pin_fits as [c Hc]. exact (arduino_get_pin_refused get_pin c [] new_board Hc). Defined.

(** ** A board that samples. *)

Definition sampling_packet : USBPacket := mkUSBPacket BASIC_IO ANALOG_READ 3 0 0 None 6.

Definition sampling_board : Board Card unit :=
  mkBoard [] (mkEvent 0 2 0 (Some sampling_packet) :: replicate 9 (mkEvent 0 0 0 None)) 1 0 ∅ tt.

Lemma sampling_board_events i e : event_list sampling_board !! i = Some e ->
  Z.of_nat i < eventCount sampling_board -> i = 0%nat /\ e = mkEvent 0 2 0 (Some sampling_packet).
Proof. intros Hi Hlt. cbn in Hlt. assert (i = 0%nat) as -> by lia. by injection Hi as <-. Qed.

Lemma sampling_board_ok : board_ok sampling_board.
Proof.
  split; [done|done|done|]. intros i e Hi Hlt. destruct (sampling_board_events i e Hi Hlt) as [-> ->].
  split; [done|]. split; [done|]. split; [by left|]. exists sampling_packet. split; [done|]. by split.
Qed.

Lemma sampling_board_sampler : sampler sampling_board.
Proof.
  split; [apply sampling_board_ok|done|]. intros i e Hi Hlt.
  destruct (sampling_board_events i e Hi Hlt) as [-> ->]. split; [done|]. by exists sampling_packet.
Qed.

(** Five ticks: at times 0, 2 and 4 the pin is read. *)
Lemma periodic_sampling_witness : exists b' answers,
  rounds 5 sampling_board = Ok (tt, b') /\ file 0 b' = mjoin answers /\
  readings sampling_packet (bd_io sampling_board) answers (bd_io b') /\ length answers = 3%nat.
Proof.
  destruct (periodic_sampling sampling_board 5) as (b' & E & _ & Hall).
  - apply sampling_board_sampler.
  - intros i e Hi Hlt. by destruct (sampling_board_events i e Hi Hlt) as [_ ->].
  - done.
  - destruct (Hall 0%nat _ sampling_packet eq_refl eq_refl (conj eq_refl eq_refl)) as (answers & Hf & Hr & Hl).
    assert (H0 : file 0 sampling_board = []) by (vm_compute; reflexivity). rewrite H0 in Hf.
    exists b', answers. split; [exact E|]. split; [exact Hf|]. split; [exact Hr|exact Hl].
Defined.

Example sampling_run : exists b', rounds 5 sampling_board = Ok (tt, b') /\ file 0 b' = [0; 0; 1; 0; 2; 0].
Proof. eexists. split; vm_compute; reflexivity. Qed.

Lemma event_loop_terminates_witness :
  run_events 15 0 sampling_board = run_events 10 0 sampling_board.
Proof. apply (event_loop_terminates sampling_board 5), sampling_board_ok. Defined.

Lemma timer_interrupt_witness : exists b', events_routine sampling_board = Ok (tt, b') /\
  bd_time b' = 1 /\ event_list b' !! 0%nat = Some (mkEvent 0 2 1 (Some sampling_packet)).
Proof.
  pose proof (timer_interrupt sampling_board sampling_board_ok) as Ht.
  destruct (events_routine sampling_board) as [[[] b']|] eqn:E; [|by vm_compute in E].
  destruct Ht as (_ & _ & Ht & _ & Hev). exists b'. split_and!; [done|done|]. exact (Hev 0%nat _ eq_refl).
Defined.

Lemma board_invariant_witness : exists b', rtc fw_step new_board b' /\ eventCount b' = 1 /\ board_ok b'.
Proof.
  assert (Hs : exists ans b', serve [97; 5; 1; 1; 13; 37; 7; 1; 1; 1; 12; 14; 9] new_board = Ok (ans, b') /\
    eventCount b' = 1) by (eexists _, _; split; vm_compute; reflexivity).
  destruct Hs as (ans & b' & Es & Hc).
  assert (Hst : rtc fw_step new_board b') by (eapply rtc_once, fw_serve; [|exact Es]; bytes_lit).
  destruct (board_invariant [] ∅ tt b' Hst) as [Hok _]. by exists b'.
Defined.

End Demo.
