(* ===== verification/Hdlc.v ===== *)
(** * Hdlc: frames on the radio.

    [src/src/Arduino/comms/hdlc.cpp]: sending writes pairs of a control byte and a data
    byte to the two FIFO registers of the transceiver; receiving polls the same
    registers.  The conditions of [hdlc_rx] are as the compiler groups them: [==] and
    [!=] bind more tightly than [&]. *)

From S2P Require Import Prelude.

Definition FIFOCTRL : Z := 0x04.
Definition FIFODATA : Z := 0x05.

(** ** Sending: the registers written, in order. *)

Definition fifo (control data : Z) : list (Z * Z) := [(FIFOCTRL, control); (FIFODATA, data)].

Definition send_preamble : list (Z * Z) := mjoin (replicate 10 (fifo 0x03 0xAA)).

Definition send_packet (data : list Z) : list (Z * Z) :=
  fifo 0x03 0x7E ++ mjoin (fifo 0x00 <$> data) ++ fifo 0x01 0x00 ++ fifo 0x01 0x00 ++ fifo 0x03 0x7E.

Definition send_ABORT : list (Z * Z) := fifo 0x03 0xFF ++ fifo 0x03 0xFF.

Definition hdlc_tx (data : list Z) : list (Z * Z) := send_preamble ++ send_packet data ++ send_ABORT.

(** ** Receiving. *)

(** [a & b] as a condition. *)
Definition both (a b : Z) : bool := negb (Z.land a b =? 0).

Definition bit (n : Z) : Z := Z.shiftl 1 n.

Definition truth (b : bool) : Z := if b then 1 else 0.

(** Writing through [response], which is never set. *)
Definition store (response : option (gmap Z Z)) (i v : Z) : outcome (option (gmap Z Z)) :=
  match response with Some m => Ok (Some (<[i := v]> m)) | None => UB end.

Section Receive.
(** The successive results of [read_register]. *)
Context (reads : nat -> Z).

(** Search for the delimiter: how many registers have been read, or out of fuel. *)
Fixpoint rx_search (fuel : nat) (pos : nat) (control : Z) : option nat :=
  if both control (truth (negb (Z.lor (bit 1) (bit 0) =? 0x01))) then
    match fuel with
    | O => None
    | S fuel' => rx_search fuel' (pos + 2) (reads pos)
    end
  else Some pos.

Fixpoint rx_frames (fuel : nat) (pos : nat) (i : Z) (response : option (gmap Z Z)) :
    outcome (option (option (gmap Z Z))) :=
  match fuel with
  | O => Ok None
  | S fuel' =>
      let control := reads pos in
      let data := reads (pos + 1) in
      if both control (truth (bit 0 =? bit 0)) then
        r ← store response 0 2; Ok (Some r)
      else if both control (truth (bit 1 =? bit 1)) then
        if both data (truth (bit 3 =? bit 3)) then
          if both data (truth (Z.lor (Z.lor (bit 2) (bit 1)) (bit 0) =? 0x06)) then
            r ← store response 0 0; r' ← store r 1 (s8 (i - 2)); Ok (Some r')
          else rx_frames fuel' (pos + 2) 2 response
        else r ← store response 0 1; Ok (Some r)
      else r ← store response i (s8 data); rx_frames fuel' (pos + 2) (i + 1) r
  end.

(** [None]: it has not returned after [fuel] turns of its loops. *)
Definition hdlc_rx (fuel : nat) : outcome (option (option (gmap Z Z))) :=
  match rx_search fuel 2 (reads 0) with
  | None => Ok None
  | Some pos => rx_frames fuel pos 2 None
  end.

End Receive.

(** ** Properties. *)

(** What the transceiver gets: every write to the data register with the control byte
    before it. *)
Fixpoint fifo_entries (control : Z) (writes : list (Z * Z)) : list (Z * Z) :=
  match writes with
  | [] => []
  | (r, v) :: writes' =>
      if r =? FIFOCTRL then fifo_entries v writes'
      else if r =? FIFODATA then (control, v) :: fifo_entries control writes'
      else fifo_entries control writes'
  end.

(** The frame between the first delimiter and the next control character. *)
Fixpoint frame_data (entries : list (Z * Z)) : list Z :=
  match entries with
  | (0, v) :: entries' => v :: frame_data entries'
  | _ => []
  end.

Fixpoint first_frame (entries : list (Z * Z)) : option (list Z) :=
  match entries with
  | [] => None
  | (c, v) :: entries' => if (c =? 0x03) && (v =? 0x7E) then Some (frame_data entries') else first_frame entries'
  end.

Lemma fifo_entries_data control data rest :
  fifo_entries control (mjoin (fifo 0 <$> data) ++ rest) =
  map (fun x => (0, x)) data ++ fifo_entries (if decide (data = []) then control else 0) rest.
Proof.
  revert control. induction data as [|x data IH]; intros control; [done|].
  change (mjoin (fifo 0 <$> x :: data)) with (fifo 0 x ++ mjoin (fifo 0 <$> data)). cbn. rewrite IH.
  by destruct data.
Qed.

Lemma frame_data_map data rest : frame_data (map (fun x => (0, x)) data ++ (1, 0) :: rest) = data.
Proof. induction data as [|x data IH]; [done|]. cbn. by rewrite IH. Qed.

Lemma first_frame_preamble control rest :
  first_frame (fifo_entries control (send_preamble ++ fifo 0x03 0x7E ++ rest)) = Some (frame_data (fifo_entries 3 rest)).
Proof. reflexivity. Qed.

Lemma fifo_entries_crc control rest :
  fifo_entries control (fifo 0x01 0x00 ++ rest) = (1, 0) :: fifo_entries 1 rest.
Proof. reflexivity. Qed.

(** What is sent can be read back: in the writes of a transmission, and of whatever follows,
    the first frame after a delimiter is exactly the data, whatever bytes it contains. *)
Lemma hdlc_tx_framed data control rest : first_frame (fifo_entries control (hdlc_tx data ++ rest)) = Some data.
Proof.
  unfold hdlc_tx, send_packet. rewrite <- !app_assoc. rewrite first_frame_preamble, fifo_entries_data, fifo_entries_crc.
  by rewrite frame_data_map.
Qed.

(** The grouping of the conditions: the tests of the control byte all look at bit 0. *)
Lemma search_condition c : both c (truth (negb (Z.lor (bit 1) (bit 0) =? 0x01))) = both c 1.
Proof. reflexivity. Qed.

Lemma rx_frames_undefined reads fuel pos i : rx_frames reads (S fuel) pos i None = UB.
Proof.
  cbn [rx_frames]. change (truth (bit 0 =? bit 0)) with 1. change (truth (bit 1 =? bit 1)) with 1.
  by destruct (both (reads pos) 1).
Qed.

Lemma rx_search_finds reads k fuel pos control : (k < fuel)%nat -> both (reads (pos + 2 * k)%nat) 1 = false ->
  is_Some (rx_search reads fuel pos control).
Proof.
  revert k pos control. induction fuel as [|fuel IH]; intros k pos control Hk Hb; [lia|].
  cbn [rx_search]. rewrite search_condition. destruct (both control 1); [|by eexists].
  destruct k as [|k].
  - rewrite Nat.mul_0_r, Nat.add_0_r in Hb. destruct fuel; cbn [rx_search]; rewrite search_condition, Hb; by eexists.
  - apply (IH k); [lia|]. by replace (pos + 2 + 2 * k)%nat with (pos + 2 * S k)%nat by lia.
Qed.

(** Nothing can be received.  Whatever the transceiver delivers, [hdlc_rx] never returns: as soon
    as it reads a control byte with bit 0 clear, which ends the search for a delimiter,
    it writes through a pointer that was never set; without such a byte it polls for
    ever. *)
Theorem hdlc_rx_never_returns reads :
  (forall fuel r, hdlc_rx reads fuel <> Ok (Some r)) /\
  forall k, both (reads (2 * k)%nat) 1 = false -> forall fuel, (k < fuel)%nat -> hdlc_rx reads fuel = UB.
Proof.
  split.
  - intros [|fuel] r; unfold hdlc_rx; destruct (rx_search _ _ _ _); try done. by rewrite rx_frames_undefined.
  - intros k Hk fuel Hf. unfold hdlc_rx.
    assert (Hs : is_Some (rx_search reads fuel 2 (reads 0%nat))).
    { destruct k as [|k]; [|by apply (rx_search_finds reads k); [lia|]; replace (2 + 2 * k)%nat with (2 * S k)%nat by lia].
      cbn in Hk. destruct fuel; cbn [rx_search]; rewrite search_condition, Hk; by eexists. }
    destruct Hs as [p ->]. destruct fuel as [|fuel]; [lia|]. apply rx_frames_undefined.
Qed.

Lemma hdlc_rx_never_returns_witness : hdlc_rx (fun _ => 0) 1 = UB.
Proof. apply (hdlc_rx_never_returns (fun _ => 0)) with (k := 0%nat); [reflexivity|lia]. Defined.
