(* ===== verification/Comms.v ===== *)
(** * Comms: the driver of the transceiver, [src/src/Arduino/comms/comms.cpp].

    The driver talks to the AX5042 over the SPI bus.  What it does is the sequence of
    events on the bus and the pins; what the chip answers to the [n]-th byte is [spi n].
    An [int] of the board has 16 bits and a [double] is a single-precision number; an
    operation that overflows, a division by zero and a conversion of a number that
    does not fit are undefined.

    The file defines [CHIP_SELECT_PIN] as [= 49;]; here it is the number 49.  It calls
    [configure_AGCATTACK] and [configure_AGCDECAY] with one argument, as the class declares
    them, but defines them with two: what the calls with one argument do is a parameter. *)

From S2P Require Import Prelude Hoare Float32 Float64 Hdlc.
From Stdlib Require Import SpecFloat.

(** ** Registers and constants, [comms.h]. *)

Definition PWRMODE : Z := 0x02.
Definition IFMODE : Z := 0x08.
Definition PINCFG1 : Z := 0x0C.
Definition PINCFG2 : Z := 0x0D.
Definition MODULATION : Z := 0x10.
Definition FRAMING : Z := 0x12.
Definition FREQ3 : Z := 0x20.
Definition FREQ2 : Z := 0x21.
Definition FREQ1 : Z := 0x22.
Definition FREQ0 : Z := 0x23.
Definition FSKDEV2 : Z := 0x25.
Definition FSKDEV1 : Z := 0x26.
Definition FSKDEV0 : Z := 0x27.
Definition IFFREQHI : Z := 0x28.
Definition IFFREQLO : Z := 0x29.
Definition PLLLOOP : Z := 0x2C.
Definition PLLRANGING : Z := 0x2D.
Definition TXPWR : Z := 0x30.
Definition TXRATEHI : Z := 0x31.
Definition TXRATEMID : Z := 0x32.
Definition TXRATELO : Z := 0x33.
Definition AGCTARGET : Z := 0x39.
Definition AGCATTACK : Z := 0x3A.
Definition AGCDECAY : Z := 0x3B.
Definition CICDECHI : Z := 0x3E.
Definition CICDECLO : Z := 0x3F.
Definition DATARATEHI : Z := 0x40.
Definition DATARATELO : Z := 0x41.
Definition TMGGAINHI : Z := 0x42.
Definition TMGGAINLO : Z := 0x43.
Definition PHASEGAIN : Z := 0x44.
Definition FREQGAIN : Z := 0x45.
Definition FREQGAIN2 : Z := 0x46.
Definition AMPLGAIN : Z := 0x47.
Definition PLLRNG : Z := 0x74.
Definition RXMISC : Z := 0x7D.
Definition BITRATE_DEFAULT : Z := 100000.
Definition FCARRIER : Z := 433000000.
Definition FIF : Z := 1000000.
Definition FXTAL : Z := 16300000.
Definition TMGCORRFRAC_DEFAULT : Z := 32.
Definition MOD_DEFAULT : Z := 4.
Definition BANDSEL : Z := 1.

(** [VariablesChangeX] and [ModulationTypes]. *)
Definition FREQUENCY : Z := 0.
Definition BITRATE : Z := 1.
Definition MODULATION_TYPE : Z := 2.
Definition TMRECOV : Z := 3.
Definition ASK : Z := 0.
Definition PSK : Z := 1.
Definition OQPSK : Z := 2.
Definition MSK : Z := 3.
Definition FSK : Z := 4.
Definition GFSK : Z := 5.

Definition CHIP_SELECT_PIN : Z := 49.

(** ** Arithmetic. *)

Definition s16 (z : Z) : Z := (z + 2 ^ 15) mod 2 ^ 16 - 2 ^ 15.

(** The result of an operation on [int]s. *)
Definition int_ok (z : Z) : outcome Z := if (- 2 ^ 15 <=? z) && (z <? 2 ^ 15) then Ok z else UB.

(** Integer division, towards zero. *)
Definition int_div (a b : Z) : outcome Z := if b =? 0 then UB else Ok (Z.quot a b).

(** Conversion of a number to an integer type with values from [lo] to [hi]. *)
Definition f_to (lo hi : Z) (x : float) : outcome Z :=
  match d_trunc x with Some n => if (lo <=? n) && (n <=? hi) then Ok n else UB | None => UB end.
Definition f_to_u32 : float -> outcome Z := f_to 0 (2 ^ 32 - 1).
Definition f_to_u8 : float -> outcome Z := f_to 0 255.
Definition f_to_int : float -> outcome Z := f_to (- 2 ^ 15) (2 ^ 15 - 1).

(** [H], 1.2 and 1.5. *)
Definition f_half : float := f_div (f_of_int 1) (f_of_int 2).
Definition f_1_2 : float := f_div (f_of_int 12) (f_of_int 10).
Definition f_1_5 : float := f_div (f_of_int 3) (f_of_int 2).

(** The functions of the mathematical library, as far as the driver relies on them. *)
Class Math := {
  fpow : float -> float -> float;
  flog : float -> float;
  fpow_2_24 : fpow (f_of_int 2) (f_of_int 24) = f_of_int (2 ^ 24);
  fpow_2_17 : fpow (f_of_int 2) (f_of_int 17) = f_of_int (2 ^ 17);
  fpow_10_6 : fpow (f_of_int 10) (f_of_int 6) = f_of_int (10 ^ 6);
  flog_zero s : flog (S754_zero s) = S754_infinity true;
  flog_2_positive : exists m e, flog (f_of_int 2) = S754_finite false m e
}.

(** ** The driver. *)

Inductive BusEvent :=
| PinMode (pin : Z)
| SpiBegin
| Level (pin : Z) (high : bool)
| Transfer (b : Z)
| Println (b : Z)
| Delay (ms : Z).

Record Comms := mkComms {
  frequency : Z;
  bandsel : Z;
  bitrate : Z;
  modulationValue : Z;
  tmgcorrfrac : Z;
  cicdec : Z;
  fskmul : Z;
  datarate : Z;
  bus : list BusEvent;   (** so far, oldest first *)
  transfers : nat        (** bytes so far *)
}.

(** Static memory. *)
Definition comms_start : Comms :=
  mkComms 0 BANDSEL (s16 BITRATE_DEFAULT) 0xFF TMGCORRFRAC_DEFAULT 0 0 0 [] 0.

Definition set_frequency (v : Z) : ST Comms unit := st_modify (fun c =>
  mkComms v (bandsel c) (bitrate c) (modulationValue c) (tmgcorrfrac c) (cicdec c) (fskmul c) (datarate c) (bus c) (transfers c)).
Definition set_bandsel (v : Z) : ST Comms unit := st_modify (fun c =>
  mkComms (frequency c) v (bitrate c) (modulationValue c) (tmgcorrfrac c) (cicdec c) (fskmul c) (datarate c) (bus c) (transfers c)).
Definition set_bitrate (v : Z) : ST Comms unit := st_modify (fun c =>
  mkComms (frequency c) (bandsel c) v (modulationValue c) (tmgcorrfrac c) (cicdec c) (fskmul c) (datarate c) (bus c) (transfers c)).
Definition set_modulationValue (v : Z) : ST Comms unit := st_modify (fun c =>
  mkComms (frequency c) (bandsel c) (bitrate c) v (tmgcorrfrac c) (cicdec c) (fskmul c) (datarate c) (bus c) (transfers c)).
Definition set_tmgcorrfrac (v : Z) : ST Comms unit := st_modify (fun c =>
  mkComms (frequency c) (bandsel c) (bitrate c) (modulationValue c) v (cicdec c) (fskmul c) (datarate c) (bus c) (transfers c)).
Definition set_cicdec (v : Z) : ST Comms unit := st_modify (fun c =>
  mkComms (frequency c) (bandsel c) (bitrate c) (modulationValue c) (tmgcorrfrac c) v (fskmul c) (datarate c) (bus c) (transfers c)).
Definition set_fskmul (v : Z) : ST Comms unit := st_modify (fun c =>
  mkComms (frequency c) (bandsel c) (bitrate c) (modulationValue c) (tmgcorrfrac c) (cicdec c) v (datarate c) (bus c) (transfers c)).
Definition set_datarate (v : Z) : ST Comms unit := st_modify (fun c =>
  mkComms (frequency c) (bandsel c) (bitrate c) (modulationValue c) (tmgcorrfrac c) (cicdec c) (fskmul c) v (bus c) (transfers c)).

Definition event (e : BusEvent) : ST Comms unit := st_modify (fun c =>
  mkComms (frequency c) (bandsel c) (bitrate c) (modulationValue c) (tmgcorrfrac c) (cicdec c) (fskmul c) (datarate c)
    (bus c ++ [e]) (transfers c)).

Section Driver.
Context `{Math} (spi : nat -> Z).

(** [SPI.transfer]. *)
Definition transfer (b : Z) : ST Comms Z := fun c =>
  Ok (spi (transfers c),
      mkComms (frequency c) (bandsel c) (bitrate c) (modulationValue c) (tmgcorrfrac c) (cicdec c) (fskmul c) (datarate c)
        (bus c ++ [Transfer b]) (S (transfers c))).

Definition read_register (this_register : Z) : ST Comms Z :=
  let data_to_send := Z.land 0x7F this_register in
  do! event (Println this_register) in
  do! event (Level CHIP_SELECT_PIN false) in
  do! transfer data_to_send in
  let! result := transfer 0x00 in
  do! event (Level CHIP_SELECT_PIN true) in
  st_ret result.

Definition write_register (this_register this_value : Z) : ST Comms unit :=
  let data_to_send := Z.lor 0x80 this_register in
  do! event (Level CHIP_SELECT_PIN false) in
  do! transfer data_to_send in
  do! transfer this_value in
  event (Level CHIP_SELECT_PIN true).

Definition auto_ranging : ST Comms unit := write_register PLLRANGING 0x08.

(** A byte of a number. *)
Definition byte_at (n shift : Z) : Z := u8 (Z.shiftr n shift).

(** ** Configuration. *)

Definition configure_PLLLOOP (band : Z) : ST Comms unit :=
  let! band := st_lift (if band <? 0 then UB else int_ok (Z.shiftl band 5)) in
  write_register PLLLOOP (u8 (Z.lor band 0x0F)).

(** [x * pow(2, n) + 1 / 2] as a [uint32_t]. *)
Definition scaled (x n : Z) : outcome Z :=
  f_to_u32 (f_add (f_mul (f_of_int x) (fpow (f_of_int 2) (f_of_int n))) (f_of_int (Z.quot 1 2))).

Definition configure_FREQ (fcarrier : Z) : ST Comms unit :=
  let! q := st_lift (int_div fcarrier FXTAL) in
  let! freq := st_lift (scaled q 24) in
  do! write_register FREQ3 (byte_at freq 24) in
  do! write_register FREQ2 (byte_at freq 16) in
  do! write_register FREQ1 (byte_at freq 8) in
  write_register FREQ0 (byte_at freq 0).

Definition configure_TXPWR : ST Comms unit := write_register TXPWR 0x0F.

Definition configure_IFFREQ : ST Comms unit :=
  let! q := st_lift (int_div FIF FXTAL) in
  let! iffreq := st_lift (scaled q 17) in
  do! write_register IFFREQHI (byte_at iffreq 8) in
  write_register IFFREQLO (byte_at iffreq 0).

(** Three registers with the bytes of [x / FXTAL * pow(2, 24)]. *)
Definition three_registers (hi mid lo x : Z) : ST Comms unit :=
  let! q := st_lift (int_div x FXTAL) in
  let! v := st_lift (scaled q 24) in
  do! write_register hi (byte_at v 16) in
  do! write_register mid (byte_at v 8) in
  write_register lo (byte_at v 0).

Definition configure_FSKDEV (bitrate : Z) : ST Comms unit :=
  let! fdev := st_lift (f_to_int (f_mul (f_div f_half (f_of_int 2)) (f_of_int bitrate))) in
  three_registers FSKDEV2 FSKDEV1 FSKDEV0 fdev.

Definition configure_TXRATE (bitrate : Z) : ST Comms unit :=
  three_registers TXRATEHI TXRATEMID TXRATELO bitrate.

Definition configure_CICDEC (bitrate : Z) : ST Comms Z :=
  let! v := st_lift (f_to_u32 (f_div (f_mul f_1_5 (f_of_int FXTAL))
    (f_mul (f_mul (f_mul (f_of_int 8) f_1_2) (f_add (f_of_int 1) f_half)) (f_of_int bitrate)))) in
  do! write_register CICDECHI (byte_at v 8) in
  do! write_register CICDECLO (byte_at v 0) in
  st_ret v.

(** For other values the result is not set. *)
Definition getModulationReg (modulation : Z) : outcome Z :=
  if modulation =? ASK then Ok 0x00
  else if modulation =? PSK then Ok 0x04
  else if modulation =? OQPSK then Ok 0x06
  else if modulation =? MSK then Ok 0x07
  else if modulation =? FSK then Ok 0x0B
  else if modulation =? GFSK then Ok 0x0F
  else UB.

Definition configure_MODULATION (modulation : Z) : ST Comms unit :=
  let! modValue := st_lift (getModulationReg modulation) in
  write_register MODULATION modValue.

(** [4 * bitrate] is an [int], the rest is unsigned. *)
Definition compute_FSKMUL (bitrate tmgcorrfrac modValue cicdec : Z) : ST Comms Z :=
  let! reg := st_lift (getModulationReg modValue) in
  do! (if reg <? 8 then set_fskmul 1
       else
         let! four := st_lift (int_ok (4 * bitrate)) in
         let! comprovacion := st_lift (int_div FXTAL (u32 (u32 four * cicdec))) in
         if u16 comprovacion <=? tmgcorrfrac then
           let! inverse := st_lift (int_div 1 tmgcorrfrac) in
           let! v := st_lift (int_div 1 (u32 (u32 (u32 four * (cicdec / FXTAL)) + inverse))) in
           set_fskmul v
         else st_ret tt) in
  st_gets fskmul.

Definition configure_DATARATE (bitrate cicdec fskmul : Z) : ST Comms Z :=
  let! p := st_lift (int_ok (cicdec * fskmul)) in
  let! p := st_lift (int_ok (p * bitrate)) in
  let! q := st_lift (int_div FXTAL p) in
  let! v := st_lift (f_to_u32 (f_add (f_mul (fpow (f_of_int 2) (f_of_int 10)) (f_of_int q)) (f_of_int (Z.quot 1 2)))) in
  do! set_datarate v in
  do! write_register DATARATEHI (byte_at v 8) in
  do! write_register DATARATELO (byte_at v 0) in
  st_gets datarate.

Definition configure_TMGGAIN (fskmul datarate tmgcorrfrac : Z) : ST Comms unit :=
  let! q := st_lift (int_div datarate (u32 tmgcorrfrac)) in
  let tmggain := u32 (u32 (fskmul * q) + Z.quot 1 2) in
  do! write_register TMGGAINHI (byte_at tmggain 8) in
  write_register TMGGAINLO (byte_at tmggain 0).

(** [27 + log(bitrate / d) / log(2)] as a byte. *)
Definition log_register (bitrate d : Z) : outcome Z :=
  q ← int_div bitrate d;
  f_to_u8 (f_add (f_of_int 27) (f_div (flog (f_of_int q)) (flog (f_of_int 2)))).

Definition configure_AGCATTACK (bitrate modValue : Z) : ST Comms unit :=
  let! v := st_lift (log_register bitrate (if modValue =? 0 then 10 * FXTAL else FXTAL)) in
  write_register AGCATTACK v.

Definition configure_AGCDECAY (bitrate modValue : Z) : ST Comms unit :=
  let! v := st_lift (log_register bitrate (if modValue =? 0 then 100 * FXTAL else 10 * FXTAL)) in
  write_register AGCDECAY v.

Definition configure_PHASEGAIN (modValue : Z) : ST Comms unit :=
  write_register PHASEGAIN (if modValue =? 0 then 0x00 else 0x03).

Definition configure_FREQGAIN (modValue : Z) : ST Comms unit :=
  write_register FREQGAIN (if modValue <? 7 then 0x06 else 0x03).

Definition configure_FREQGAIN2 : ST Comms unit := write_register FREQGAIN2 0x06.
Definition configure_AMPLGAIN : ST Comms unit := write_register AMPLGAIN 0x06.

(** Setting up the transceiver. *)
Definition configure : ST Comms unit :=
  do! event (PinMode CHIP_SELECT_PIN) in
  do! event SpiBegin in
  do! write_register AGCTARGET 0x0E in
  let! r := read_register PLLRNG in
  do! write_register PLLRNG (u8 (Z.lor r 0x01)) in
  let! r := read_register RXMISC in
  do! write_register RXMISC (u8 (Z.land (Z.lor r 0x01) 0xFD)) in
  do! configure_PLLLOOP BANDSEL in
  do! configure_FREQ (s16 FCARRIER) in
  do! configure_TXPWR in
  do! configure_IFFREQ in
  do! configure_FSKDEV (s16 BITRATE_DEFAULT) in
  do! configure_TXRATE (s16 BITRATE_DEFAULT) in
  let! v := configure_CICDEC (s16 BITRATE_DEFAULT) in
  do! set_cicdec (u8 v) in
  do! configure_MODULATION MOD_DEFAULT in
  let! c := st_get in
  let! v := compute_FSKMUL (s16 BITRATE_DEFAULT) TMGCORRFRAC_DEFAULT MOD_DEFAULT (cicdec c) in
  do! set_fskmul v in
  let! v := configure_DATARATE (s16 BITRATE_DEFAULT) (cicdec c) (s16 v) in
  do! set_datarate v in
  let! c := st_get in
  do! configure_TMGGAIN (fskmul c) (datarate c) TMGCORRFRAC_DEFAULT in
  do! configure_AGCATTACK (s16 BITRATE_DEFAULT) MOD_DEFAULT in
  do! configure_AGCDECAY (s16 BITRATE_DEFAULT) MOD_DEFAULT in
  do! configure_PHASEGAIN MOD_DEFAULT in
  do! configure_FREQGAIN MOD_DEFAULT in
  do! configure_FREQGAIN2 in
  do! configure_AMPLGAIN in
  do! write_register FRAMING (Z.lor (Z.lor 0x10 0x04) 0) in
  do! write_register IFMODE 0x00 in
  let! r := read_register PINCFG1 in
  do! write_register PINCFG1 (Z.land (Z.land (u8 r) 0xBF) 0xDF) in
  write_register PINCFG2 0x76.

(** ** Sending and receiving. *)

Fixpoint write_registers (l : list (Z * Z)) : ST Comms unit :=
  match l with
  | [] => st_ret tt
  | (r, v) :: l => do! write_register r v in write_registers l
  end.

Definition tune : ST Comms unit :=
  let! c := st_get in
  if frequency c =? 0 then configure_FREQ (s16 FCARRIER) else configure_FREQ (frequency c).

(** [delay] takes a whole number of milliseconds: 0.05 is none. *)
Definition tx (data : list Z) : ST Comms unit :=
  do! write_register PWRMODE 0x60 in
  do! event (Delay 3) in
  do! tune in
  do! write_register PWRMODE 0x6C in
  do! event (Delay 0) in
  do! auto_ranging in
  do! write_register PWRMODE 0x6D in
  do! event (Delay 0) in
  do! write_registers (hdlc_tx data) in
  write_register PWRMODE 0x00.

(** [reads] are the contents of the registers that [hdlc_rx] polls; [None]: it has not
    returned after [fuel] turns of its loops. *)
Definition rx (reads : nat -> Z) (fuel : nat) : ST Comms (option (option (gmap Z Z))) :=
  do! write_register PWRMODE 0x60 in
  do! event (Delay 3) in
  do! tune in
  do! write_register PWRMODE 0x68 in
  do! event (Delay 0) in
  do! auto_ranging in
  do! write_register PWRMODE 0x69 in
  do! event (Delay 0) in
  let! data := st_lift (hdlc_rx reads fuel) in
  match data with
  | None => st_ret None
  | Some data => do! write_register PWRMODE 0x00 in st_ret (Some data)
  end.

(** ** Changing a parameter. *)

(** The functions with one argument that the class declares. *)
Context (configure_AGCATTACK1 configure_AGCDECAY1 : Z -> ST Comms unit).

(** [modulation] of the last two cases. *)
Definition modulation_of (c : Comms) : Z := if modulationValue c =? 0xFF then MOD_DEFAULT else modulationValue c.

(** The calls that follow a change; [tmgcorrfrac] is passed on as a [uint8_t] and as an
    [int]. *)
Definition update_rates (bitrate tmgcorrfrac modulation : Z) : ST Comms unit :=
  let! c := st_get in
  let! v := compute_FSKMUL bitrate (u8 tmgcorrfrac) modulation (cicdec c) in
  do! set_fskmul v in
  let! v := configure_DATARATE bitrate (cicdec c) (s16 v) in
  do! set_datarate v in
  let! c := st_get in
  configure_TMGGAIN (fskmul c) (datarate c) tmgcorrfrac.

Definition update_gains (bitrate modulation : Z) : ST Comms unit :=
  do! configure_AGCATTACK bitrate modulation in
  do! configure_AGCDECAY bitrate modulation in
  do! configure_PHASEGAIN modulation in
  configure_FREQGAIN modulation.

Definition change_x (parameter value : Z) : ST Comms unit :=
  if parameter =? FREQUENCY then
    if (value =? 0) || (value =? 1) then
      let! v := st_lift (f_to_int (f_mul (f_of_int ((1 - value) * 915 + value * 433)) (fpow (f_of_int 10) (f_of_int 6)))) in
      do! set_frequency v in
      do! configure_FREQ v in
      do! configure_PLLLOOP value in
      set_bandsel (u8 value)
    else st_ret tt
  else if parameter =? BITRATE then
    do! configure_FSKDEV value in
    do! configure_TXRATE value in
    let! v := configure_CICDEC value in
    do! set_cicdec (u8 v) in
    let! c := st_get in
    do! update_rates value (tmgcorrfrac c) (modulation_of c) in
    do! configure_AGCATTACK1 value in
    do! configure_AGCDECAY1 value in
    set_bitrate value
  else if parameter =? MODULATION_TYPE then
    do! configure_MODULATION value in
    let! c := st_get in
    do! update_rates (bitrate c) (tmgcorrfrac c) (u8 value) in
    do! update_gains (bitrate c) (u8 value) in
    set_modulationValue (u8 value)
  else if parameter =? TMRECOV then
    let! c := st_get in
    let modulation := modulation_of c in
    do! update_rates (bitrate c) value modulation in
    do! update_gains (bitrate c) modulation in
    set_tmgcorrfrac (u8 value)
  else st_ret tt.

End Driver.

(** ** What the chip receives. *)

(** A register access of the driver, as the chip sees it: while it is selected, two bytes, the
    first of which is the number of a register with the highest bit set. *)
Definition write_events (rv : Z * Z) : list BusEvent :=
  [Level CHIP_SELECT_PIN false; Transfer (Z.lor 0x80 rv.1); Transfer rv.2; Level CHIP_SELECT_PIN true].

(** The chip: [None] while it is not selected, otherwise the bytes it was sent; it
    collects the writes. *)
Fixpoint chip (sel : option (list Z)) (l : list BusEvent) : list (Z * Z) :=
  match l with
  | [] => []
  | Level pin high :: l =>
      if pin =? CHIP_SELECT_PIN then
        if high then
          match sel with
          | Some [a; v] => if Z.testbit a 7 then (Z.land a 0x7F, v) :: chip None l else chip None l
          | _ => chip None l
          end
        else chip (Some []) l
      else chip sel l
  | Transfer b :: l => chip (match sel with Some bs => Some (bs ++ [b]) | None => None end) l
  | _ :: l => chip sel l
  end.

Lemma chip_delay sel ms l : chip sel ([Delay ms] ++ l) = chip sel l.
Proof. done. Qed.

Definition register_ok (rv : Z * Z) : Prop := 0 <= rv.1 < 128.

Lemma chip_write rv l : register_ok rv -> chip None (write_events rv ++ l) = rv :: chip None l.
Proof.
  intros Hr. destruct rv as [r v]. unfold register_ok in Hr. cbn [fst] in Hr. cbn [write_events fst snd app chip].
  change (CHIP_SELECT_PIN =? CHIP_SELECT_PIN) with true. cbn iota. cbn [app].
  rewrite Z.lor_spec. change (Z.testbit 128 7) with true. cbn [orb]. do 2 f_equal.
  apply Z.bits_inj'. intros n Hn. rewrite Z.land_spec, Z.lor_spec. change 128 with (2 ^ 7). change 127 with (Z.ones 7).
  rewrite Z.pow2_bits_eqb, Z.testbit_ones_nonneg by lia. destruct (Z.eqb_spec 7 n) as [<- |Hne].
  - rewrite (proj2 (Z.ltb_ge 7 7)), andb_false_r by lia. symmetry. rewrite Z.bits_above_log2; [done|lia|].
    destruct (decide (r = 0)) as [-> |?]; [cbn; lia|]. apply Z.log2_lt_pow2; lia.
  - cbn [orb]. destruct (n <? 7) eqn:E; [by rewrite andb_true_r|]. rewrite andb_false_r. symmetry. apply Z.ltb_ge in E.
    rewrite Z.bits_above_log2; [done|lia|]. destruct (decide (r = 0)) as [-> |?]; [cbn; lia|]. apply Z.log2_lt_pow2; [lia|].
    eapply Z.lt_le_trans; [apply Hr|]. change 128 with (2 ^ 7). apply Z.pow_le_mono_r; lia.
Qed.

Lemma chip_writes ws l : Forall register_ok ws -> chip None (mjoin (write_events <$> ws) ++ l) = ws ++ chip None l.
Proof.
  induction 1 as [|w ws Hw _ IH]; [done|]. rewrite fmap_cons. change (mjoin (?a :: ?l)) with (a ++ mjoin l).
  rewrite <- app_assoc, chip_write by done. by rewrite IH.
Qed.

(** ** The driver on the bus. *)

Definition is_int16 (z : Z) : Prop := - 2 ^ 15 <= z < 2 ^ 15.

(** What a part of the driver does that always succeeds: it adds [l] to the bus. *)
Definition sends (m : ST Comms unit) (l : list BusEvent) : Prop := forall c, is_int16 (frequency c) -> exists n,
  m c = Ok (tt, mkComms (frequency c) (bandsel c) (bitrate c) (modulationValue c) (tmgcorrfrac c) (cicdec c) (fskmul c)
                 (datarate c) (bus c ++ l) n).

Lemma sends_bind m k l l' : sends m l -> sends k l' -> sends (do! m in k) (l ++ l').
Proof.
  intros Hm Hk c Hc. destruct (Hm c Hc) as (n & E). rewrite (st_bind_ok _ _ _ _ _ E).
  destruct (Hk (mkComms (frequency c) (bandsel c) (bitrate c) (modulationValue c) (tmgcorrfrac c) (cicdec c) (fskmul c)
    (datarate c) (bus c ++ l) n) Hc) as (n' & E'). exists n'. rewrite E'. cbn. by rewrite app_assoc.
Qed.

Lemma sends_event e : sends (event e) [e].
Proof. intros c _. by eexists. Qed.

Section Bus.
Context `{Math} (spi : nat -> Z).

Lemma sends_write r v : sends (write_register spi r v) (write_events (r, v)).
Proof.
  intros c _. eexists. unfold write_register, st_bind, event, transfer, st_modify. cbn. by rewrite <- !app_assoc.
Qed.

Lemma sends_writes ws : sends (write_registers spi ws) (mjoin (write_events <$> ws)).
Proof.
  induction ws as [|[r v] ws IH]; [intros c _; exists (transfers c); rewrite app_nil_r; by destruct c|].
  cbn [write_registers]. rewrite fmap_cons. apply sends_bind; [apply sends_write|exact IH].
Qed.

Lemma scaled_zero n : n = 24 \/ n = 17 -> scaled 0 n = Ok 0.
Proof. intros [-> | ->]; unfold scaled; [rewrite fpow_2_24|rewrite fpow_2_17]; vm_compute; reflexivity. Qed.

(** An [int] is smaller than the frequency of the crystal: the division gives zero. *)
Lemma int_div_small a b : is_int16 a -> 2 ^ 15 < b -> int_div a b = Ok 0.
Proof.
  intros Ha Hb. unfold int_div, is_int16 in *. rewrite (proj2 (Z.eqb_neq _ _)) by lia. f_equal.
  destruct (decide (0 <= a)); [by apply Z.quot_small; lia|].
  replace a with (- - a) by lia. rewrite Z.quot_opp_l by lia. rewrite Z.quot_small by lia. lia.
Qed.

Definition carrier : list (Z * Z) := [(FREQ3, 0); (FREQ2, 0); (FREQ1, 0); (FREQ0, 0)].

Lemma sends_eq m l l' : l = l' -> sends m l -> sends m l'.
Proof. by intros ->. Qed.

Lemma sends_lift {A} (o : outcome A) a (k : A -> ST Comms unit) l :
  o = Ok a -> sends (k a) l -> sends (st_bind (st_lift o) k) l.
Proof. intros -> Hk. exact Hk. Qed.

Lemma sends_freq f : is_int16 f -> sends (configure_FREQ spi f) (mjoin (write_events <$> carrier)).
Proof.
  intros Hf. unfold configure_FREQ. eapply sends_lift; [apply int_div_small; [done|by vm_compute]|].
  eapply sends_lift; [apply scaled_zero; by left|].
  eapply sends_eq; [|do 3 (eapply sends_bind; [apply sends_write|]); apply sends_write]. done.
Qed.

(** The default carrier, converted to an [int], is small too. *)
Lemma sends_tune : sends (tune spi) (mjoin (write_events <$> carrier)).
Proof.
  intros c Hc. unfold tune. unfold st_bind, st_get. destruct (frequency c =? 0).
  - apply (sends_freq (s16 FCARRIER)); [by vm_compute|done].
  - by apply sends_freq.
Qed.

Lemma sends_tx data : sends (tx spi data)
  (write_events (PWRMODE, 0x60) ++ [Delay 3] ++ mjoin (write_events <$> carrier) ++
   write_events (PWRMODE, 0x6C) ++ [Delay 0] ++ write_events (PLLRANGING, 0x08) ++ write_events (PWRMODE, 0x6D) ++
   [Delay 0] ++ mjoin (write_events <$> hdlc_tx data) ++ write_events (PWRMODE, 0x00)).
Proof.
  unfold tx, auto_ranging.
  apply sends_bind; [apply sends_write|]. apply sends_bind; [apply sends_event|].
  apply sends_bind; [apply sends_tune|]. apply sends_bind; [apply sends_write|].
  apply sends_bind; [apply sends_event|]. apply sends_bind; [apply sends_write|].
  apply sends_bind; [apply sends_write|]. apply sends_bind; [apply sends_event|].
  apply sends_bind; [apply sends_writes|]. apply sends_write.
Qed.

End Bus.

Lemma fifo_register control data : Forall register_ok (fifo control data).
Proof. by repeat constructor. Qed.

Lemma hdlc_registers data : Forall register_ok (hdlc_tx data).
Proof.
  assert (Hf : forall ls, Forall (Forall register_ok) ls -> Forall register_ok (mjoin ls)).
  { intros ls. induction 1 as [|l ls Hl _ IH]; [constructor|]. by apply Forall_app. }
  unfold hdlc_tx, send_preamble, send_packet, send_ABORT. rewrite !Forall_app. split_and!; try apply fifo_register; apply Hf.
  - apply Forall_replicate, fifo_register.
  - apply Forall_fmap, Forall_true. intros x. apply fifo_register.
Qed.

(** What the chip receives during a transmission of [data]. *)
Definition transmission (data : list Z) : list (Z * Z) :=
  (PWRMODE, 0x60) :: carrier ++ [(PWRMODE, 0x6C); (PLLRANGING, 0x08); (PWRMODE, 0x6D)] ++ hdlc_tx data ++ [(PWRMODE, 0x00)].

(** The other registers are not those of the FIFO. *)
Lemma power_up_fifo frame : fifo_entries 0 ((PWRMODE, 0x60) :: carrier ++ [(PWRMODE, 0x6C); (PLLRANGING, 0x08); (PWRMODE, 0x6D)] ++ frame)
  = fifo_entries 0 frame.
Proof. reflexivity. Qed.

Lemma transmission_fifo data : fifo_entries 0 (transmission data) = fifo_entries 0 (hdlc_tx data ++ [(PWRMODE, 0x00)]).
Proof. unfold transmission. apply power_up_fifo. Qed.

(** C27: a transmission.  [Comms::tx] never fails and changes nothing of the driver but the
    bus.  The chip, decoding the bytes on the bus, sees exactly the writes that power the
    transceiver up, set the carrier, send the frame of [hdlc_tx] and power it down again, and
    the first frame in them is the data.  The
    four registers of the carrier are zero whatever frequency was chosen: the quotient of an [int]
    and the frequency of the crystal is zero. *)
Theorem comms_tx `{Math} spi data c : is_int16 (frequency c) ->
  exists trace n, tx spi data c
    = Ok (tt, mkComms (frequency c) (bandsel c) (bitrate c) (modulationValue c) (tmgcorrfrac c) (cicdec c) (fskmul c)
               (datarate c) (bus c ++ trace) n) /\
    chip None trace = transmission data /\ first_frame (fifo_entries 0 (chip None trace)) = Some data.
Proof.
  enough (Hx : is_int16 (frequency c) -> exists trace n, tx spi data c
    = Ok (tt, mkComms (frequency c) (bandsel c) (bitrate c) (modulationValue c) (tmgcorrfrac c) (cicdec c) (fskmul c)
               (datarate c) (bus c ++ trace) n) /\ chip None trace = transmission data).
  { intros Hc. destruct (Hx Hc) as (trace & n & E & Ht). exists trace, n. split_and!; [done|done|]. rewrite Ht.
    rewrite transmission_fifo. apply hdlc_tx_framed. }
  intros Hc. destruct (sends_tx spi data c Hc) as (n & E). eexists _, n. split; [exact E|]. clear E. unfold transmission.
  pose proof (hdlc_registers data) as Hh. generalize dependent (hdlc_tx data). intros frame Hh.
  rewrite chip_write by done. rewrite chip_delay, chip_writes by (by repeat constructor).
  rewrite chip_write by done. rewrite chip_delay, !chip_write by done. rewrite chip_delay, chip_writes by done.
  rewrite <- (app_nil_r (write_events (PWRMODE, 0))), chip_write by done. reflexivity.
Qed.

(** ** Changing the configuration. *)

Section Undefined.
Context `{Math} (spi : nat -> Z).

(** [log(0)] is minus infinity, which is no byte. *)
Lemma log_register_undefined bitrate d : is_int16 bitrate -> 2 ^ 15 < d -> log_register bitrate d = UB.
Proof.
  intros Hb Hd. unfold log_register. rewrite int_div_small by done. cbn [mbind outcome_bind].
  change (f_of_int 0) with (S754_zero false). rewrite flog_zero. destruct flog_2_positive as (m & e & ->). done.
Qed.

Lemma AGCATTACK_undefined bitrate modValue c : is_int16 bitrate -> configure_AGCATTACK spi bitrate modValue c = UB.
Proof.
  intros Hb. unfold configure_AGCATTACK. unfold st_bind at 1, st_lift.
  rewrite log_register_undefined; [done|done|]. unfold FXTAL. case_match; lia.
Qed.

Lemma st_bind_ub {S A B} (m : ST S A) (k : A -> ST S B) s : (forall a s', k a s' = UB) -> st_bind m k s = UB.
Proof. intros Hk. unfold st_bind. destruct (m s) as [[a s']|]; [apply Hk|done]. Qed.

Lemma update_gains_undefined bitrate modulation c : is_int16 bitrate -> update_gains spi bitrate modulation c = UB.
Proof. intros Hb. unfold update_gains. unfold st_bind at 1. by rewrite AGCATTACK_undefined. Qed.

(** The default bit rate, converted to an [int], is negative: the decimation is no unsigned
    number. *)
Lemma CICDEC_undefined c : configure_CICDEC spi (s16 BITRATE_DEFAULT) c = UB.
Proof. unfold configure_CICDEC, st_bind, st_lift. assert (f_to_u32 _ = UB) as ->; [|done]. vm_compute. reflexivity. Qed.

(** The transceiver can be neither set up nor given another modulation, timing or
    frequency: [configure] and [change_x] with these parameters are undefined, and with other
    parameters than the bit rate nothing changes. *)
Lemma comms_configuration attack1 decay1 parameter value c : is_int16 (bitrate c) -> parameter <> BITRATE ->
  configure spi c = UB /\
  change_x spi attack1 decay1 parameter value c =
    if (parameter =? MODULATION_TYPE) || (parameter =? TMRECOV) ||
       (parameter =? FREQUENCY) && ((value =? 0) || (value =? 1)) then UB else Ok (tt, c).
Proof.
  intros Hb Hp. split.
  - unfold configure. do 13 (apply st_bind_ub; intros ? ?). unfold st_bind at 1. by rewrite CICDEC_undefined.
  - unfold change_x. rewrite (proj2 (Z.eqb_neq parameter BITRATE)) by done.
    destruct (parameter =? FREQUENCY) eqn:Ef.
    { apply Z.eqb_eq in Ef as ->. cbn [Z.eqb orb andb FREQUENCY MODULATION_TYPE TMRECOV].
      destruct (value =? 0) eqn:E0; [|destruct (value =? 1) eqn:E1]; cbn [orb]; [apply Z.eqb_eq in E0 as ->|apply Z.eqb_eq in E1 as ->|done];
        unfold st_bind at 1, st_lift; rewrite fpow_10_6; (assert (f_to_int _ = UB) as ->; [vm_compute; reflexivity|done]). }
    rewrite andb_false_l, orb_false_r. destruct (parameter =? MODULATION_TYPE) eqn:Em; cbn [orb].
    { unfold st_bind at 1, configure_MODULATION. unfold st_bind at 1, st_lift. destruct (getModulationReg value) as [r|]; [|done].
      unfold write_register at 1, st_bind at 1 2 3 4 5, event, transfer, st_modify, st_get. cbn [bitrate].
      apply st_bind_ub. intros ? ?. unfold st_bind at 1. by rewrite update_gains_undefined. }
    destruct (parameter =? TMRECOV); [|done]. unfold st_bind at 1, st_get. apply st_bind_ub. intros ? ?.
    unfold st_bind at 1. by rewrite update_gains_undefined.
Qed.

End Undefined.

(** ** A concrete instance. *)

(** Powers and logarithms where the driver needs them. *)
Definition demo_pow (x y : float) : float :=
  match d_trunc y with Some (Z.pos n) => Pos.iter (f_mul x) (f_of_int 1) n | _ => f_of_int 1 end.
Definition demo_log (x : float) : float :=
  match x with S754_zero _ => S754_infinity true | _ => f_div (f_of_int 693147) (f_of_int 1000000) end.

Lemma demo_log_2 : exists m e, demo_log (f_of_int 2) = S754_finite false m e.
Proof. eexists _, _. vm_compute. reflexivity. Qed.

Definition demo_math : Math :=
  Build_Math demo_pow demo_log ltac:(vm_compute; reflexivity) ltac:(vm_compute; reflexivity) ltac:(vm_compute; reflexivity)
    (fun _ => eq_refl) demo_log_2.

Lemma comms_tx_witness : exists trace n, @tx demo_math (fun _ => 0) [0x41; 0x42] comms_start
    = Ok (tt, mkComms 0 BANDSEL (s16 BITRATE_DEFAULT) 0xFF TMGCORRFRAC_DEFAULT 0 0 0 trace n) /\
  chip None trace = transmission [0x41; 0x42] /\ first_frame (fifo_entries 0 (chip None trace)) = Some [0x41; 0x42].
Proof. refine (@comms_tx demo_math (fun _ => 0) [0x41; 0x42] comms_start _). by vm_compute. Defined.
