(* ===== verification/Module.v ===== *)
(** * Module: the module threads of the daemon, [src/src/Architecture/SDB/sdb_module.c].

    Each connected client is served by a thread that reads packets from its
    socket and packets other threads leave in its memory region, and routes
    messages, answers requests for states and keeps the pending packets in a
    queue.  The whole daemon is one state, [Sys]; a handler runs as the thread
    of module [me] with that module's lock held, and returns [None] where it
    waits for ever, on a condition nobody signals or on a lock nobody releases.

    The model uses any queue that satisfies [QueueSpec]. *)

From S2P Require Import Prelude Abs McsDefs Mcs Queue QueueFacts Qos.

(** ** Data. *)

Definition SDB_MODULE_DATA_SIZE : Z := 1024.
Definition SDB_MODULE_MAX : Z := 20.

(** The region a module reads packets from: not yet allocated, allocated but
    never written, or holding the id of the sender and a packet. *)
Inductive Region :=
| NoRegion
| RegionFresh
| RegionFull (sender : Z) (pkt : MCSPacket).

Section Daemon.
Context `{MCSTables} `{Build} `{QueueSpec Q}.

Record SDBModule := mkModule {
  mod_id : Z;
  mod_rfd : Z;
  mod_wfd : Z;
  mod_name : option (list Z);
  mod_group : SDBGroup;
  mod_locked : bool;  (** the lock is held by a thread that does not release it *)
  mod_data : Region;
  mod_data_valid : bool;
  mod_data_socket : bool;
  mod_queue : Q;
  mod_qos_enabled : bool
}.

Record Sys := mkSys {
  sys_world : World;
  sys_modules : list SDBModule;
  sys_last : Z;          (** [sdb_module_last] *)
  sys_qos : QosTable;
  sys_observer_fd : Z
}.

(** What the environment decides: the byte found in fresh memory, and what the
    other threads do each time a thread is woken up from a condition. *)
Class Environment := {
  garbage : Z;
  wakeups : list (Sys -> Sys)
}.

(** ** Access to the state. *)

Definition in_world {A} (m : ST World A) : ST Sys A :=
  st_zoom sys_world (fun w s => mkSys w (sys_modules s) (sys_last s) (sys_qos s)
                                      (sys_observer_fd s)) m.

Definition in_qos {A} (m : ST QosTable A) : ST Sys A :=
  st_zoom sys_qos (fun t s => mkSys (sys_world s) (sys_modules s) (sys_last s) t
                                    (sys_observer_fd s)) m.

(** [&sdb_module[i]]: outside the array is undefined. *)
Definition get_mod (i : Z) : ST Sys SDBModule := fun s =>
  if i <? 0 then UB
  else match sys_modules s !! Z.to_nat i with Some m => Ok (m, s) | None => UB end.

Definition put_mod (i : Z) (m : SDBModule) : ST Sys unit :=
  st_modify (fun s => mkSys (sys_world s) (<[Z.to_nat i := m]> (sys_modules s)) (sys_last s)
                            (sys_qos s) (sys_observer_fd s)).

Definition with_data (d : Region) (valid : bool) (m : SDBModule) : SDBModule :=
  mkModule (mod_id m) (mod_rfd m) (mod_wfd m) (mod_name m) (mod_group m) (mod_locked m)
    d valid (mod_data_socket m) (mod_queue m) (mod_qos_enabled m).
Definition with_socket (b : bool) (m : SDBModule) : SDBModule :=
  mkModule (mod_id m) (mod_rfd m) (mod_wfd m) (mod_name m) (mod_group m) (mod_locked m)
    (mod_data m) (mod_data_valid m) b (mod_queue m) (mod_qos_enabled m).
Definition with_queue (q : Q) (m : SDBModule) : SDBModule :=
  mkModule (mod_id m) (mod_rfd m) (mod_wfd m) (mod_name m) (mod_group m) (mod_locked m)
    (mod_data m) (mod_data_valid m) (mod_data_socket m) q (mod_qos_enabled m).
Definition with_qos (b : bool) (m : SDBModule) : SDBModule :=
  mkModule (mod_id m) (mod_rfd m) (mod_wfd m) (mod_name m) (mod_group m) (mod_locked m)
    (mod_data m) (mod_data_valid m) (mod_data_socket m) (mod_queue m) b.
Definition with_name (n : option (list Z)) (m : SDBModule) : SDBModule :=
  mkModule (mod_id m) (mod_rfd m) (mod_wfd m) n (mod_group m) (mod_locked m)
    (mod_data m) (mod_data_valid m) (mod_data_socket m) (mod_queue m) (mod_qos_enabled m).
Definition with_group (g : SDBGroup) (m : SDBModule) : SDBModule :=
  mkModule (mod_id m) (mod_rfd m) (mod_wfd m) (mod_name m) g (mod_locked m)
    (mod_data m) (mod_data_valid m) (mod_data_socket m) (mod_queue m) (mod_qos_enabled m).
Definition with_lock (b : bool) (m : SDBModule) : SDBModule :=
  mkModule (mod_id m) (mod_rfd m) (mod_wfd m) (mod_name m) (mod_group m) b
    (mod_data m) (mod_data_valid m) (mod_data_socket m) (mod_queue m) (mod_qos_enabled m).

Definition update_mod (i : Z) (f : SDBModule -> SDBModule) : ST Sys unit :=
  let! m := get_mod i in put_mod i (f m).

(** ** Common steps of the handlers. *)

(** [mcs_write_command_and_free(pkt, mod->wfd)]. *)
Definition reply (me : Z) (pkt : MCSPacket) : ST Sys Z :=
  let! m := get_mod me in in_world (mcs_write_command_and_free pkt (mod_wfd m)).

(** [sdb_qos_register_packet_...(pkt)]. *)
Definition qos_event (me : Z) (ev : SDBQOSEvent) (pkt : MCSPacket) : ST Sys unit :=
  let! m := get_mod me in
  let! now := st_gets (fun s => w_now (sys_world s)) in
  in_qos (register_event (mod_qos_enabled m) (mod_id m) now ev (Some pkt)).

Definition sdb_qos_register_packet_in (me : Z) := qos_event me SDB_QOS_PKT_IN.
Definition sdb_qos_register_packet_out (me : Z) := qos_event me SDB_QOS_PKT_OUT.
Definition sdb_qos_register_packet_ready (me : Z) := qos_event me SDB_QOS_PKT_READY.
Definition sdb_qos_register_packet_scrap (me : Z) := qos_event me SDB_QOS_PKT_SCRAP.

Definition sdb_qos_start (me : Z) : ST Sys unit := update_mod me (with_qos true).
Definition sdb_qos_stop (me : Z) : ST Sys unit := update_mod me (with_qos false).

(** An error answer and the [scrap] event, the end of most failing paths. *)
Definition refuse (me : Z) (pkt : MCSPacket) (err : Z) : ST Sys unit :=
  do! reply me (mcs_err_packet pkt err) in
  sdb_qos_register_packet_scrap me pkt.

Definition queue_push (me : Z) (p : SDBPacket) : ST Sys unit :=
  let! m := get_mod me in
  let! r := st_lift (qs_push p (mod_queue m)) in
  put_mod me (with_queue r.2 m).

Definition queue_get (me : Z) (answer : MCSPacket) : ST Sys (option SDBPacket) :=
  let! m := get_mod me in
  let! r := st_lift (qs_get answer (mod_queue m)) in
  do! put_mod me (with_queue r.2 m) in
  st_ret r.1.

(** ** The memory regions. *)

(** [get_info_id]. *)
Definition get_info_id (id : Z) : ST Sys (option Z) :=
  let! last := st_gets sys_last in
  if last <=? id then st_ret None else st_ret (Some id).

Definition sizeof_MCSPacket : Z := if sizeof_ptr =? 8 then 48 else 28.

(** The bytes a packet takes in a region: the sender, the structure, and the
    destination, arguments and data behind it. *)
Definition region_size (pkt : MCSPacket) : Z :=
  4 + sizeof_MCSPacket
  + match pkt_dest pkt with Some d => strlen d + 1 | None => 0 end
  + pkt_nargs pkt + pkt_data_size pkt.

(** The packet in the region: the pointers lead to copies inside it. *)
Definition region_copy (pkt : MCSPacket) : outcome MCSPacket :=
  match copy_arg (pkt_nargs pkt) (pkt_args pkt), copy_arg (pkt_data_size pkt) (pkt_data pkt) with
  | Ok args, Ok data =>
      Ok (mkMCSPacket (pkt_id pkt) (pkt_type pkt) (pkt_cmd pkt) (pkt_nargs pkt)
            (if pkt_nargs pkt =? 0 then pkt_args pkt else args)
            (cstr <$> pkt_dest pkt) (pkt_data_size pkt)
            (if pkt_data_size pkt =? 0 then pkt_data pkt else data))
  | _, _ => UB
  end.

(** The [while] that waits for the region of [to] to be free.  [Some false]: a
    module would wait for itself; it then returns without releasing the lock. *)
Fixpoint wait_region (me : option Z) (to : Z) (wakes : list (Sys -> Sys)) :
    ST Sys (option bool) :=
  let! m := get_mod to in
  if mod_data_valid m then
    match me with
    | None => st_ub
    | Some i =>
        let! mi := get_mod i in
        if mod_id mi =? mod_id m then st_ret (Some false)
        else match wakes with
             | [] => st_ret None
             | w :: wakes' => do! st_modify w in wait_region me to wakes'
             end
    end
  else st_ret (Some true).

(** [sdb_module_write_mcs_packet]; [me] is [None] in a thread that is not the
    thread of a module, where [get_info] returns NULL. *)
Definition sdb_module_write_mcs_packet `{Environment} (me : option Z) (pkt : MCSPacket) (to : Z) :
    ST Sys (option Z) :=
  let! dest := get_info_id to in
  match dest with
  | None => st_ret (Some (-1))
  | Some to =>
      if SDB_MODULE_DATA_SIZE <? sizeof_MCSPacket + pkt_nargs pkt + pkt_data_size pkt
      then st_ret (Some (-1))
      else
        let! mod_to := get_mod to in
        if mod_locked mod_to && negb (bool_decide (me = Some to)) then st_ret None
        else
          let? ready := wait_region me to wakeups in
          if negb ready then do! update_mod to (with_lock true) in st_ret (Some (-1))
          else
            match me with
            | None => st_ub
            | Some i =>
                let! mi := get_mod i in
                let! mod_to := get_mod to in
                match mod_data mod_to with
                | NoRegion => st_ub
                | _ =>
                    if SDB_MODULE_DATA_SIZE <? region_size pkt then st_ub
                    else
                      let! copy := st_lift (region_copy pkt) in
                      do! put_mod to (with_data (RegionFull (mod_id mi) copy) true mod_to) in
                      do! sdb_qos_register_packet_out i pkt in
                      st_ret (Some 0)
                end
            end
  end.

Definition sdb_module_read_mcs_packet (me : Z) : ST Sys (option MCSPacket) :=
  let! m := get_mod me in
  let! last := st_gets sys_last in
  if last <=? mod_id m then st_ret None
  else if negb (mod_data_valid m) then st_ret None
  else
    match mod_data m with
    | RegionFull _ pkt =>
        let! copy := st_lift (region_copy pkt) in
        do! put_mod me (with_data (mod_data m) false m) in
        do! sdb_qos_register_packet_in me copy in
        st_ret (Some copy)
    | _ => st_ub
    end.

(** ** Messages. *)

(** [sizeof(groups) / sizeof(groups[0])], where [groups] is a pointer and an
    enumeration has four bytes. *)
Definition groups_list_num : nat := Z.to_nat (sizeof_ptr / 4).

(** The loops over [groups]: does a group of the first [list_num] equal [g]? *)
Definition group_listed (groups : list SDBGroup) (g : SDBGroup) : bool :=
  existsb (fun x => bool_decide (x = g)) (take groups_list_num groups).

(** [groups[0] != SDB_GROUP_ANY] and the loop that follows. *)
Definition group_denied (groups : list SDBGroup) (g : SDBGroup) : bool :=
  negb (bool_decide (head groups = Some SDB_GROUP_ANY)) && negb (group_listed groups g).

(** The search for the destination among the first [n] modules from [i]: a
    module that has no name yet makes [strcmp] read through NULL. *)
Fixpoint find_dest (dest_name : list Z) (mods : list SDBModule) (i n : nat) : outcome (option Z) :=
  match n with
  | O => Ok None
  | S n' =>
      match mods !! i with
      | None => UB
      | Some m =>
          match mod_name m with
          | None => UB
          | Some name =>
              if streq dest_name name then Ok (Some (Z.of_nat i))
              else find_dest dest_name mods (S i) n'
          end
      end
  end.

(** The destination is in the table, or comes with the packet. *)
Definition message_dest (opt : MCSCommandOptionsMessage) (pkt : MCSPacket) : option (list Z) :=
  match msg_destination opt with
  | None => None
  | Some d => if bool_decide (head (cstr d) = Some 64) then pkt_dest pkt else Some d
  end.

(** A packet for the daemon itself. *)
Definition process_pkt_daemon `{Environment} (me : Z) (pkt : MCSPacket) : ST Sys unit :=
  let dump :=
    let! m := get_mod me in
    in_qos (sdb_qos_dump_module (mod_qos_enabled m) (mod_id m) garbage pkt) in
  let answer_dump (r : Z * option MCSPacket) :=
    match r with
    | (0, Some pkt_res) => reply me pkt_res
    | _ => reply me (mcs_err_packet pkt EUNDEF)
    end in
  let bad := refuse me pkt EBADFORMAT in
  if pkt_cmd pkt =? MCS_MESSAGE_SDB_QOS_START then
    do! sdb_qos_start me in
    do! reply me (mcs_ok_packet pkt) in st_ret tt
  else if pkt_cmd pkt =? MCS_MESSAGE_SDB_QOS_DUMP then
    let! r := dump in
    do! answer_dump r in st_ret tt
  else if pkt_cmd pkt =? MCS_MESSAGE_SDB_QOS_STOP then
    let! r := dump in
    do! sdb_qos_stop me in
    do! answer_dump r in
    bad  (* no break: the default case follows *)
  else bad.

Definition process_pkt_message `{Environment} (me : Z) (pkt : MCSPacket) : ST Sys (option unit) :=
  let done := fun (m : ST Sys unit) => do! m in st_ret (Some tt) in
  if mcs_command_list_size MCS_TYPE_MESSAGE <=? pkt_cmd pkt
  then done (refuse me pkt ECMDFAULT)
  else match mcs_command_message_list !! Z.to_nat (pkt_cmd pkt) with
  | None => st_ub
  | Some opt =>
      let! m := get_mod me in
      if group_denied (msg_origin_groups opt) (mod_group m) then done (refuse me pkt EPERM)
      else if is_null (msg_destination opt) then done (process_pkt_daemon me pkt)
      else
        let! s := st_get in
        match message_dest opt pkt with
        | None => if 0 <? sys_last s then st_ub else done (refuse me pkt EBADMODID)
        | Some dest_name =>
            let! dest := st_lift (find_dest dest_name (sys_modules s) 0 (Z.to_nat (sys_last s))) in
            match dest with
            | None => done (refuse me pkt EBADMODID)
            | Some dest_index =>
                let! mod_to := get_mod dest_index in
                if group_denied (msg_destination_groups opt) (mod_group mod_to)
                then done (refuse me pkt EPERM)
                else
                  do! queue_push me (sdb_packet pkt (mod_id m)) in
                  let? _ := sdb_module_write_mcs_packet (Some me) pkt dest_index in
                  st_ret (Some tt)
            end
        end
  end.

(** ** States and payload. *)

(** [sizeof(perms) / sizeof(perms[0])], where [perms] is a pointer. *)
Definition perms_list_num : nat :=
  Z.to_nat (sizeof_ptr / (if sizeof_ptr =? 8 then 16 else 8)).

(** The loop that checks the expire time; [true]: not enough privileges. *)
Fixpoint expire_denied (perms : list MCSCommandOptionsStatePerms) (g : SDBGroup)
    (pkt : MCSPacket) : outcome bool :=
  match perms with
  | [] => Ok false
  | p :: perms' =>
      if bool_decide (perm_group p = g) then
        match pkt_args pkt with
        | Some (a :: _) => Ok (a <? perm_max_expire p)
        | _ => UB
        end
      else expire_denied perms' g pkt
  end.

Definition process_pkt_state (me : Z) (pkt : MCSPacket) : ST Sys unit :=
  if mcs_command_list_size MCS_TYPE_STATE <=? pkt_cmd pkt then refuse me pkt ECMDFAULT
  else match mcs_command_state_list !! Z.to_nat (pkt_cmd pkt) with
  | None => st_ub
  | Some opt =>
      let! m := get_mod me in
      let! denied := st_lift (expire_denied (take perms_list_num (state_expire_group opt))
                                (mod_group m) pkt) in
      if (denied : bool) then refuse me pkt EPERM
      else
        let data_size := cmd_response_size (state_cmd opt) in
        let data := state_request opt pkt in
        do! sdb_qos_register_packet_ready me pkt in
        let! response := st_lift
          (if data_size =? -1 then
             match data with
             | Some d => mcs_ok_packet_data pkt data (strlen d + 1)
             | None => UB
             end
           else if data_size <? 0 then UB
           else mcs_ok_packet_data pkt data data_size) in
        do! reply me response in st_ret tt
  end.

Definition process_pkt_payload (me : Z) (pkt : MCSPacket) : ST Sys unit :=
  if mcs_command_list_size MCS_TYPE_PAYLOAD <=? pkt_cmd pkt then refuse me pkt ECMDFAULT
  else
    let! m := get_mod me in
    queue_push me (sdb_packet pkt (mod_id m)).

(** ** The two sources of packets. *)

(** [process_pkt_sdb]: a packet from the region. *)
Definition process_pkt_sdb (me : Z) : ST Sys unit :=
  let! m := get_mod me in
  match mod_data m with
  | NoRegion => st_ub
  | region =>
      let id_origin := match region with RegionFull i _ => i | _ => 0 end in
      let! read := sdb_module_read_mcs_packet me in
      match read with
      | None => st_ret tt
      | Some pkt =>
          if mcs_is_answer_packet pkt then
            let! pkt_origin := queue_get me pkt in
            match pkt_origin with
            | None => sdb_qos_register_packet_scrap me pkt
            | Some o =>
                do! sdb_qos_register_packet_ready me pkt in
                do! in_world (mcs_write_command pkt (mod_wfd m)) in
                do! sdb_qos_register_packet_out me pkt in
                sdb_qos_register_packet_ready me (sdb_pkt o)
            end
          else
            do! queue_push me (sdb_packet pkt id_origin) in
            do! in_world (mcs_write_command pkt (mod_wfd m)) in
            sdb_qos_register_packet_out me pkt
      end
  end.

(** What [process_pkt_socket] does with the packet it has read. *)
Definition dispatch_packet `{Environment} (me : Z) (pkt : MCSPacket) : ST Sys (option unit) :=
  if mcs_is_answer_packet pkt then
    let! pkt_origin := queue_get me pkt in
    match pkt_origin with
    | None => do! sdb_qos_register_packet_scrap me pkt in st_ret (Some tt)
    | Some o =>
        let? _ := sdb_module_write_mcs_packet (Some me) pkt (id_process o) in
        do! sdb_qos_register_packet_ready me (sdb_pkt o) in st_ret (Some tt)
    end
  else if pkt_type pkt =? MCS_TYPE_MESSAGE then process_pkt_message me pkt
  else if pkt_type pkt =? MCS_TYPE_STATE then
    do! process_pkt_state me pkt in st_ret (Some tt)
  else if pkt_type pkt =? MCS_TYPE_PAYLOAD then
    do! process_pkt_payload me pkt in st_ret (Some tt)
  else do! refuse me pkt EUNDEF in st_ret (Some tt).

(** [process_pkt_socket]: a packet from the client. *)
Definition process_pkt_socket `{Environment} (me : Z) : ST Sys (option unit) :=
  let! m := get_mod me in
  let! read := in_world (mcs_read_command (mod_rfd m) (mod_wfd m)) in
  match read with
  | None => st_ret (Some tt)
  | Some pkt =>
      do! sdb_qos_register_packet_in me pkt in
      let? _ := dispatch_packet me pkt in
      do! update_mod me (with_socket false) in
      st_ret (Some tt)
  end.

(** One round of the loop of [sdb_module_thread]; [false]: it waits on its
    condition variable. *)
Definition module_round `{Environment} (me : Z) : ST Sys (option bool) :=
  let! m := get_mod me in
  if mod_data_valid m then do! process_pkt_sdb me in st_ret (Some true)
  else if mod_data_socket m then let? _ := process_pkt_socket me in st_ret (Some true)
  else st_ret (Some false).

(** ** Start and end of a module. *)

Definition sdb_module_clean (me : Z) : ST Sys unit :=
  let! m := get_mod me in
  do! in_world (os_close (mod_rfd m)) in
  if negb (mod_wfd m =? mod_rfd m) then in_world (os_close (mod_wfd m)) else st_ret tt.

Definition set_sys_last (n : Z) : ST Sys unit :=
  st_modify (fun s => mkSys (sys_world s) (sys_modules s) n (sys_qos s) (sys_observer_fd s)).

Definition with_fds (rfd wfd : Z) (m : SDBModule) : SDBModule :=
  mkModule (mod_id m) rfd wfd (mod_name m) (mod_group m) (mod_locked m)
    (mod_data m) (mod_data_valid m) (mod_data_socket m) (mod_queue m) (mod_qos_enabled m).

(** The id of the module whose thread is created, if any. *)
Definition sdb_module_init (rfd wfd : Z) : ST Sys (option Z) :=
  if (rfd <? 0) || (wfd <? 0) then
    do! in_world (os_close rfd) in
    do! in_world (os_close wfd) in
    st_ret None
  else
    let! id := st_gets sys_last in
    do! set_sys_last (u32 (id + 1)) in
    do! update_mod id (with_fds rfd wfd) in
    st_ret (Some id).

(** [strchr] in a block that may lack the terminating NUL. *)
Fixpoint strchr (bs : list Z) (c : Z) : outcome (option nat) :=
  match bs with
  | [] => UB
  | b :: bs' =>
      if b =? c then Ok (Some O)
      else if b =? 0 then Ok None
      else match strchr bs' c with
           | Ok (Some n) => Ok (Some (S n))
           | r => r
           end
  end.

(** [strcmp(bs, lit) == 0] in such a block. *)
Fixpoint strcmp_eq (bs lit : list Z) : outcome bool :=
  match bs with
  | [] => UB
  | b :: bs' =>
      match lit with
      | [] => Ok (b =? 0)
      | c :: lit' => if b =? c then strcmp_eq bs' lit' else Ok false
      end
  end.

(** The loop over [sdb_group_conversion]. *)
Fixpoint find_group (bs : list Z) (table : list (SDBGroup * list Z)) : outcome (option SDBGroup) :=
  match table with
  | [] => Ok None
  | (val, name) :: table' =>
      match strcmp_eq bs name with
      | UB => UB
      | Ok true => Ok (Some val)
      | Ok false => find_group bs table'
      end
  end.

(** [((char * )pkt->data - group - 1) >= SDB_MODULE_NAME_SIZE], where [group] points
    after the colon at position [colon]. *)
Definition name_too_long (colon : nat) : bool :=
  SDB_MODULE_NAME_SIZE <=? 0 - (Z.of_nat colon + 1) - 1.

(** The handshake: the name, and the group if there is a valid one. *)
Definition parse_handshake (data : option (list Z)) :
    outcome (option (list Z * option SDBGroup)) :=
  match data with
  | None => UB
  | Some bs =>
      match strchr bs 58 with
      | UB => UB
      | Ok None => Ok None
      | Ok (Some colon) =>
          if name_too_long colon then Ok None
          else match find_group (drop (S colon) bs) sdb_group_conversion with
               | UB => UB
               | Ok g => Ok (Some (take colon bs, g))
               end
      end
  end.

Definition sdb_observer_wake_up : ST Sys unit :=
  let! fd := st_gets sys_observer_fd in
  if negb (fd =? -1) then do! in_world (os_write fd (str "w")) in st_ret tt else st_ret tt.

(** The part of [sdb_module_thread] before the loop; [false]: the thread ends. *)
Definition module_start (me : Z) : ST Sys bool :=
  do! update_mod me (fun m =>
    mkModule me (mod_rfd m) (mod_wfd m) (mod_name m) (mod_group m) true
      (mod_data m) (mod_data_valid m) (mod_data_socket m) qs_init true) in
  let! m := get_mod me in
  let! read := in_world (mcs_read_command (mod_rfd m) (mod_wfd m)) in
  match read with
  | None => do! sdb_module_clean me in st_ret false
  | Some pkt =>
      do! sdb_qos_register_packet_in me pkt in
      let error_pkt :=
        do! reply me (mcs_err_packet pkt ECONNREFUSED) in
        do! sdb_qos_register_packet_scrap me pkt in
        do! sdb_module_clean me in
        st_ret false in
      if negb (mcs_command pkt =? MCS_MESSAGE_SDB_HANDSHAKE) then error_pkt
      else
        let! hs := st_lift (parse_handshake (pkt_data pkt)) in
        match hs with
        | None => error_pkt
        | Some (name, None) => do! update_mod me (with_name (Some name)) in error_pkt
        | Some (name, Some group) =>
            do! update_mod me (fun m => with_group group (with_name (Some name) m)) in
            do! reply me (mcs_ok_packet pkt) in
            do! sdb_qos_register_packet_ready me pkt in
            do! update_mod me (fun m => with_socket false (with_data RegionFresh false m)) in
            do! sdb_observer_wake_up in
            do! update_mod me (with_lock false) in
            st_ret true
        end
  end.

End Daemon.

Arguments SDBModule : clear implicits.
Arguments Sys : clear implicits.
Arguments Environment : clear implicits.
