(* ===== verification/ModuleFacts.v ===== *)
(** * ModuleFacts: the steps of the module threads.

    The effect of every common step and of the transfer of a packet from one
    module to another, on a daemon whose state is well formed.  The lemmas use
    the queues only through [QueueSpec] and the log only through [table_rep]. *)

From S2P Require Import Prelude Abs McsDefs Mcs McsFacts Queue QueueFacts Qos QosFacts Module.

Section Facts.
Context `{MCSTables} `{Build} `{QueueSpec Q}.
Implicit Types (s : Sys Q) (m : SDBModule Q) (w : World).

(** ** State updates. *)

Definition set_world w s : Sys Q :=
  mkSys w (sys_modules s) (sys_last s) (sys_qos s) (sys_observer_fd s).
Definition set_mod (i : Z) m s : Sys Q :=
  mkSys (sys_world s) (<[Z.to_nat i := m]> (sys_modules s)) (sys_last s) (sys_qos s)
    (sys_observer_fd s).
Definition set_qos (t : QosTable) s : Sys Q :=
  mkSys (sys_world s) (sys_modules s) (sys_last s) t (sys_observer_fd s).

(** Module [i] exists and is [m]. *)
Definition has_mod s (i : Z) m : Prop := 0 <= i /\ sys_modules s !! Z.to_nat i = Some m.

(** The log of the daemon. *)
Definition logs s (log : list SDBQOSEntry) : Prop := table_rep (sys_qos s) log.

(** The daemon has a log, whatever is in it. *)
Definition logged s : Prop := exists log, logs s log.

Lemma has_mod_world s i m w : has_mod (set_world w s) i m <-> has_mod s i m.
Proof. done. Qed.

Lemma has_mod_qos s i m t : has_mod (set_qos t s) i m <-> has_mod s i m.
Proof. done. Qed.

Lemma has_mod_set_eq s i m m0 : has_mod s i m0 -> has_mod (set_mod i m s) i m.
Proof.
  intros [Hi Hl]. split; [done|]. cbn. apply list_lookup_insert_eq.
  by apply lookup_lt_Some in Hl.
Qed.

Lemma has_mod_set_ne s i j m mj : i <> j -> has_mod s j mj -> 0 <= i ->
  has_mod (set_mod i m s) j mj.
Proof.
  intros Hij [Hj Hl] Hi. split; [done|]. cbn. rewrite list_lookup_insert_ne; [done|lia].
Qed.

Lemma has_mod_inj s i m m' : has_mod s i m -> has_mod s i m' -> m = m'.
Proof. intros [_ E1] [_ E2]. congruence. Qed.

Lemma get_mod_ok s i m : has_mod s i m -> get_mod i s = Ok (m, s).
Proof.
  intros [Hi Hl]. unfold get_mod. rewrite (proj2 (Z.ltb_ge _ _)) by done. by rewrite Hl.
Qed.

Lemma put_mod_eq i m s : put_mod i m s = Ok (tt, set_mod i m s).
Proof. done. Qed.

Lemma update_mod_ok f s i m : has_mod s i m -> update_mod i f s = Ok (tt, set_mod i (f m) s).
Proof. intros Hm. unfold update_mod, st_bind. by rewrite (get_mod_ok s i m Hm). Qed.

Lemma in_world_ok {A} (f : ST World A) s a w : f (sys_world s) = Ok (a, w) ->
  in_world f s = Ok (a, set_world w s).
Proof. intros Hf. unfold in_world, st_zoom. by rewrite Hf. Qed.

Lemma in_qos_ok {A} (f : ST QosTable A) s a t : f (sys_qos s) = Ok (a, t) ->
  in_qos f s = Ok (a, set_qos t s).
Proof. intros Hf. unfold in_qos, st_zoom. by rewrite Hf. Qed.

(** ** Common steps. *)

Lemma qos_event_ok s me m ev p log : has_mod s me m -> logs s log ->
  exists t, qos_event me ev p s = Ok (tt, set_qos t s) /\
    logs (set_qos t s) (if mod_qos_enabled m
      then log ++ [mkEntry ev (mcs_packet_to_qos_mcs (Some p)) (w_now (sys_world s)) (mod_id m)]
      else log).
Proof.
  intros Hm Hl. unfold qos_event, st_bind, st_gets. rewrite (get_mod_ok s me m Hm).
  destruct (register_event_ok (mod_qos_enabled m) (mod_id m) (w_now (sys_world s)) ev (Some p)
              _ _ Hl) as (t & E & Ht).
  exists t. by rewrite (in_qos_ok _ s tt t E).
Qed.

Lemma qos_event_logged s me m ev p : has_mod s me m -> logged s ->
  exists t, qos_event me ev p s = Ok (tt, set_qos t s) /\ logged (set_qos t s).
Proof.
  intros Hm [log Hl]. destruct (qos_event_ok s me m ev p log Hm Hl) as (t & E & Ht).
  exists t. split; [done|]. by eexists.
Qed.

Lemma reply_ok s me m p : has_mod s me m -> sendable p -> writable (mod_wfd m) (sys_world s) ->
  reply me p s = Ok (0, set_world (emit (mod_wfd m) (wire p) (sys_world s)) s).
Proof.
  intros Hm Hp Hw. unfold reply, st_bind. rewrite (get_mod_ok s me m Hm).
  apply in_world_ok. unfold mcs_write_command_and_free. by apply mcs_write_sendable.
Qed.

(** A refusal sends exactly one error packet and logs one event. *)
Lemma refuse_ok s me m p err : has_mod s me m -> logged s -> 0 <= pkt_id p < 2 ^ 32 ->
  writable (mod_wfd m) (sys_world s) ->
  exists t, refuse me p err s
    = Ok (tt, set_qos t (set_world (emit (mod_wfd m) (wire (mcs_err_packet p err)) (sys_world s)) s))
    /\ logged (set_qos t s).
Proof.
  intros Hm [log Hl] Hid Hw. unfold refuse, st_bind.
  rewrite (reply_ok s me m) by (try done; by apply err_packet_sendable).
  set (s1 := set_world _ s).
  destruct (qos_event_logged s1 me m SDB_QOS_PKT_SCRAP p) as (t & E & Ht); [done|by exists log|].
  exists t. done.
Qed.

Lemma queue_push_ok s me m l p : has_mod s me m -> qs_rep (mod_queue m) l ->
  exists q, queue_push me p s = Ok (tt, set_mod me (with_queue q m) s) /\
    qs_rep q (insert_prio p l).
Proof.
  intros Hm Hq. destruct (qs_push_ok _ l p Hq) as (q & E & Hq'). exists q.
  unfold queue_push, st_bind, st_lift. rewrite (get_mod_ok s me m Hm), E. done.
Qed.

Lemma queue_get_ok s me m l a : has_mod s me m -> qs_rep (mod_queue m) l ->
  exists q, queue_get me a s = Ok ((take_answer a l).1, set_mod me (with_queue q m) s) /\
    qs_rep q (take_answer a l).2.
Proof.
  intros Hm Hq. destruct (qs_get_ok _ l a Hq) as (q & E & Hq'). exists q.
  unfold queue_get, st_bind, st_lift. rewrite (get_mod_ok s me m Hm), E. done.
Qed.

(** ** The memory regions. *)

(** Copying a sendable packet to a region and back changes nothing. *)
Lemma region_copy_sendable p : sendable p -> region_copy p = Ok p.
Proof.
  intros [[Hwf Hr] [Hd Hnul]]. unfold region_copy, copy_arg, abs_malloccpy.
  destruct (memcpy_block _ _ (wf_args p Hwf)) as (-> & Hla & _).
  destruct (memcpy_block _ _ (wf_data p Hwf)) as (-> & Hld & _).
  pose proof (wf_args p Hwf) as Ha. pose proof (wf_data p Hwf) as Hb.
  assert (Hdest : cstr <$> pkt_dest p = pkt_dest p).
  { destruct (pkt_dest p) as [d|]; [|done]. cbn. f_equal. apply cstr_no_nul. by apply Hnul. }
  rewrite Hdest. destruct p as [id type cmd nargs args dest size data]. cbn in *.
  destruct (nargs =? 0) eqn:En; bool_prop; destruct (size =? 0) eqn:Es; bool_prop;
    destruct args, data; cbn in *; try done; try lia; try (destruct Ha; lia);
    try (destruct Hb; lia).
Qed.

(** A packet that the region holds: it passes the size check and, with the
    sender and the destination, does not exceed the region. *)
Definition fits_region (p : MCSPacket) : Prop := region_size p <= SDB_MODULE_DATA_SIZE.

Lemma fits_region_check p : wf_packet p -> fits_region p ->
  (SDB_MODULE_DATA_SIZE <? sizeof_MCSPacket + pkt_nargs p + pkt_data_size p) = false.
Proof.
  unfold fits_region, region_size. intros Hwf Hf. apply Z.ltb_ge.
  pose proof (wf_nargs p Hwf). pose proof (wf_data_size p Hwf).
  destruct (pkt_dest p) as [d|]; [|lia]. unfold strlen in Hf. pose proof (zlen_nonneg (cstr d)). lia.
Qed.

(** Module [to] can take a packet: its thread has completed the handshake and
    its region is free. *)
Definition can_receive m : Prop :=
  mod_locked m = false /\ mod_data m <> NoRegion /\ mod_data_valid m = false.

Lemma wait_region_free s me to mt wakes : has_mod s to mt -> mod_data_valid mt = false ->
  wait_region me to wakes s = Ok (Some true, s).
Proof.
  intros Hmt Hval. destruct wakes; cbn [wait_region];
    rewrite (st_bind_ok _ _ _ _ _ (get_mod_ok s to mt Hmt)), Hval; done.
Qed.

Lemma write_mcs_packet_ok `{Environment Q} s me m to mt p :
  has_mod s me m -> has_mod s to mt -> to < sys_last s -> can_receive mt ->
  sendable p -> fits_region p -> logged s ->
  exists t, logged (set_qos t s) /\
    sdb_module_write_mcs_packet (Some me) p to s
    = Ok (Some 0, set_qos t (set_mod to (with_data (RegionFull (mod_id m) p) true mt) s)).
Proof.
  intros Hm Hmt Hlast (Hlock & Hreg & Hval) Hp Hf Hlog.
  unfold sdb_module_write_mcs_packet, get_info_id, st_bind at 1, st_bind at 1, st_gets.
  rewrite (proj2 (Z.leb_gt _ _)) by done. cbn [st_ret].
  rewrite fits_region_check by (done || apply Hp).
  unfold st_bind at 1. rewrite (get_mod_ok s to mt Hmt), Hlock. cbn [andb].
  pose proof (wait_region_free s (Some me) to mt wakeups Hmt Hval) as Hwait.
  unfold st_obind, st_bind at 1. rewrite Hwait. cbn [negb].
  unfold st_bind at 1. rewrite (get_mod_ok s me m Hm). unfold st_bind at 1.
  rewrite (get_mod_ok s to mt Hmt).
  set (s1 := set_mod to (with_data (RegionFull (mod_id m) p) true mt) s).
  assert (Hm1 : exists m1, has_mod s1 me m1).
  { destruct (Z.eq_dec to me) as [-> |Hne]; [eexists; by eapply has_mod_set_eq|].
    exists m. apply has_mod_set_ne; [done|done|apply Hmt]. }
  destruct Hm1 as [m1 Hm1].
  destruct (qos_event_logged s1 me m1 SDB_QOS_PKT_OUT p Hm1) as (t & E & Ht).
  { destruct Hlog as [log Hl]. by exists log. }
  exists t. split; [done|].
  unfold fits_region in Hf. rewrite (proj2 (Z.ltb_ge _ _) Hf).
  destruct (mod_data mt); [done| |]; unfold st_bind, st_lift; rewrite region_copy_sendable by done;
    rewrite put_mod_eq; fold s1; unfold sdb_qos_register_packet_out; rewrite E; done.
Qed.

Lemma read_mcs_packet_ok s me m sender p :
  has_mod s me m -> mod_id m < sys_last s -> mod_data m = RegionFull sender p ->
  mod_data_valid m = true -> sendable p -> logged s ->
  exists t, logged (set_qos t s) /\
    sdb_module_read_mcs_packet me s
    = Ok (Some p, set_qos t (set_mod me (with_data (RegionFull sender p) false m) s)).
Proof.
  intros Hm Hlast Hd Hv Hp [log Hl]. unfold sdb_module_read_mcs_packet, st_bind at 1.
  rewrite (get_mod_ok s me m Hm). unfold st_bind at 1, st_gets.
  rewrite (proj2 (Z.leb_gt _ _)), Hv, Hd by done. cbn [negb].
  unfold st_bind at 1, st_lift. rewrite region_copy_sendable by done.
  unfold st_bind. rewrite put_mod_eq. set (s1 := set_mod me _ s).
  destruct (qos_event_logged s1 me (with_data (RegionFull sender p) false m) SDB_QOS_PKT_IN p)
    as (t & E & Ht); [by eapply has_mod_set_eq|by exists log|].
  exists t. split; [done|]. unfold sdb_qos_register_packet_in. by rewrite E.
Qed.

End Facts.
