(* ===== verification/Routing.v ===== *)
(** * Routing: how a packet travels between two modules.

    One lemma per round of a module thread that takes part in the delivery of a
    message and of its answer.  The state after a round is described by what it
    holds for the modules concerned ([has_mod]) and for the rest ([frame]). *)

From S2P Require Import Prelude Abs McsDefs Mcs McsFacts Queue QueueFacts Qos QosFacts Module ModuleFacts.

Lemma take_answer_insert a p l : answers a p = true ->
  Forall (fun y => answers a y = false) l -> take_answer a (insert_prio p l) = (Some p, l).
Proof.
  intros Hp. induction 1 as [|x l Hx _ IH]; cbn [insert_prio]; [cbn; by rewrite Hp|].
  destruct (forallb _ (x :: l)); cbn [take_answer]; [by rewrite Hp|]. by rewrite Hx, IH.
Qed.

Lemma insert_prio_in p l : p ∈ insert_prio p l.
Proof.
  induction l as [|x l IH]; cbn [insert_prio]; [constructor|].
  destruct (forallb _ (x :: l)); by constructor.
Qed.

(** A packet that is there twice: the answer takes one of the two. *)
Lemma take_answer_twice a p l : answers a p = true -> Forall (fun y => answers a y = false) l ->
  take_answer a (insert_prio p (insert_prio p l)) = (Some p, insert_prio p l).
Proof.
  intros Hp. assert (Hno : forall l', p ∈ l' -> forallb (fun y => priority y <? priority p) l' = false).
  { intros l' Hin. apply not_true_iff_false. rewrite forallb_forall. intros Hall.
    specialize (Hall p (proj1 (list_elem_of_In _ _) Hin)). cbn in Hall. lia. }
  induction 1 as [|x l Hx _ IH]; cbn [insert_prio].
  - rewrite Hno by constructor. cbn. by rewrite Hp.
  - destruct (forallb _ (x :: l)) eqn:E; cbn [insert_prio].
    + rewrite Hno by constructor. rewrite E. cbn [take_answer]. by rewrite Hp.
    + rewrite Hno by (constructor; apply insert_prio_in). cbn [take_answer]. by rewrite Hx, IH.
Qed.

(** A module that exists has an index that is not negative. *)
Ltac index_tac :=
  match goal with
  | Hm : has_mod _ ?i _ |- 0 <= ?i => exact (proj1 Hm)
  | Hm : has_mod _ ?i _ /\ _ |- 0 <= ?i => exact (proj1 (proj1 Hm))
  end.

Section Frames.
Context {Q : Type}.
Implicit Types (s : Sys Q) (m mt : SDBModule Q).

(** Module [i] is registered under its own id. *)
Definition registered s (i : Z) m : Prop := has_mod s i m /\ mod_id m = i /\ i < sys_last s.

(** Nothing but the modules [js], the world and the log differs. *)
Definition frame (js : list Z) s s' : Prop :=
  sys_last s' = sys_last s /\ sys_observer_fd s' = sys_observer_fd s /\
  forall j m, j ∉ js -> has_mod s j m -> has_mod s' j m.

Lemma logged_qos t s s' : logged (set_qos t s) -> logged (set_qos t s').
Proof. done. Qed.

Lemma frame_set js i m s s' : frame js s s' -> 0 <= i -> i ∈ js -> frame js s (set_mod i m s').
Proof.
  intros (Hl & Ho & Hf) Hi Hin. split_and!; [done|done|]. intros j mj Hj Hm.
  apply has_mod_set_ne; [congruence|by apply Hf|done].
Qed.

Lemma frame_refl js s : frame js s s.
Proof. by split_and!. Qed.

Lemma frame_trans js s1 s2 s3 : frame js s1 s2 -> frame js s2 s3 -> frame js s1 s3.
Proof.
  intros (E1 & O1 & F1) (E2 & O2 & F2). split_and!; [congruence|congruence|].
  intros j m Hj Hm. apply F2, F1; done.
Qed.

Lemma frame_sub js js' s1 s2 : js ⊆ js' -> frame js s1 s2 -> frame js' s1 s2.
Proof. intros Hs (E & O & F). split_and!; [done|done|]. intros j m Hj. apply F. set_solver. Qed.

(** The thread of [a] hands something to [b], whose thread runs. *)
Lemma frame_pair a b s s1 s2 : frame [a; b] s s1 -> frame [b] s1 s2 -> frame [a; b] s s2.
Proof.
  intros F1 F2. apply (frame_trans _ _ s1); [done|]. eapply frame_sub; [|exact F2]. set_solver.
Qed.

Lemma frame_qos js t s s' : frame js s s' -> frame js s (set_qos t s').
Proof. done. Qed.

Lemma frame_world js w s s' : frame js s s' -> frame js s (set_world w s').
Proof. done. Qed.

End Frames.

Ltac frame_tac :=
  repeat first
    [ apply frame_refl | apply frame_qos | apply frame_world
    | apply frame_set; [|index_tac|set_solver] ].

Section Routing.
Context `{MCSTables} `{Build} `{QueueSpec Q} `{!Environment Q}.
Implicit Types (s : Sys Q) (m mt : SDBModule Q).

(** ** Who may send to whom. *)

(** A list of groups of the table lets group [g] through.  Only the first
    [groups_list_num] entries count. *)
Definition permits (groups : list SDBGroup) (g : SDBGroup) : Prop :=
  head groups = Some SDB_GROUP_ANY \/ g ∈ take groups_list_num groups.

Lemma group_listed_spec groups g : group_listed groups g = true <-> g ∈ take groups_list_num groups.
Proof.
  unfold group_listed. rewrite existsb_exists. split.
  - intros (x & Hx & E). apply bool_decide_eq_true in E as ->. by apply list_elem_of_In.
  - intros Hg. exists g. split; [by apply list_elem_of_In|]. by apply bool_decide_eq_true.
Qed.

Lemma group_denied_spec groups g : group_denied groups g = false <-> permits groups g.
Proof.
  unfold group_denied, permits. rewrite andb_false_iff, !negb_false_iff, group_listed_spec.
  by rewrite bool_decide_eq_true.
Qed.

Lemma group_denied_true groups g : ~ permits groups g -> group_denied groups g = true.
Proof. intros Hn. apply not_false_iff_true. by rewrite group_denied_spec. Qed.

(** The table sends [p] to the module called [name]: the one the entry gives, or
    the one that comes with the packet if the entry starts with an at sign. *)
Definition addresses (opt : MCSCommandOptionsMessage) (p : MCSPacket) (name : list Z) : Prop :=
  exists d, msg_destination opt = Some d /\
    (if bool_decide (head (cstr d) = Some 64) then pkt_dest p = Some name else d = name).

Lemma addresses_dest opt p name : addresses opt p name ->
  is_null (msg_destination opt) = false /\ message_dest opt p = Some name.
Proof.
  intros (d & Hd & Hn). unfold message_dest. rewrite Hd. split; [done|].
  case_bool_decide; [done|]. by rewrite Hn.
Qed.

(** Every module below [n] has a name, and it is not [name]. *)
Definition unlike s (name : list Z) (n : Z) : Prop :=
  forall i m, i < n -> has_mod s i m -> exists nm, mod_name m = Some nm /\ cstr nm <> cstr name.

(** [to] is the first module called [name]. *)
Definition addressee s (name : list Z) (to : Z) mt : Prop :=
  has_mod s to mt /\ to < sys_last s /\ unlike s name to /\
  exists nm, mod_name mt = Some nm /\ cstr nm = cstr name.

(** The search passes over the modules with other names. *)
Lemma find_dest_skip s name j : 0 <= j <= sys_last s ->
  (Z.to_nat j <= length (sys_modules s))%nat -> unlike s name j ->
  find_dest name (sys_modules s) 0 (Z.to_nat (sys_last s))
  = find_dest name (sys_modules s) (Z.to_nat j) (Z.to_nat (sys_last s) - Z.to_nat j).
Proof.
  intros Hj Hlen Hun.
  assert (Hk : forall k, (k <= Z.to_nat j)%nat ->
    find_dest name (sys_modules s) 0 (Z.to_nat (sys_last s))
    = find_dest name (sys_modules s) k (Z.to_nat (sys_last s) - k)).
  { induction k as [|k IH]; intros Hk; [by rewrite Nat.sub_0_r|]. rewrite IH by lia.
    replace (Z.to_nat (sys_last s) - k)%nat with (S (Z.to_nat (sys_last s) - S k)) by lia.
    cbn [find_dest]. destruct (lookup_lt_is_Some_2 (sys_modules s) k) as [m Hm]; [lia|]. rewrite Hm.
    destruct (Hun (Z.of_nat k) m) as (nm & -> & Hne); [lia|split; [lia|by rewrite Nat2Z.id]|].
    replace (streq name nm) with false; [done|]. symmetry. apply not_true_iff_false.
    rewrite streq_spec. congruence. }
  by apply Hk.
Qed.

Lemma find_dest_found s name to mt : addressee s name to mt ->
  find_dest name (sys_modules s) 0 (Z.to_nat (sys_last s)) = Ok (Some to).
Proof.
  intros ([Hto Hm] & Hlt & Hun & nm & Hnm & Heq).
  rewrite (find_dest_skip s name to); [|lia|apply Nat.lt_le_incl; by eapply lookup_lt_Some|done].
  replace (Z.to_nat (sys_last s) - Z.to_nat to)%nat
    with (S (Z.to_nat (sys_last s) - S (Z.to_nat to))) by lia.
  cbn [find_dest]. rewrite Hm, Hnm, (proj2 (streq_spec name nm)) by done. by rewrite Z2Nat.id.
Qed.

Lemma find_dest_none s name : 0 <= sys_last s ->
  (Z.to_nat (sys_last s) <= length (sys_modules s))%nat -> unlike s name (sys_last s) ->
  find_dest name (sys_modules s) 0 (Z.to_nat (sys_last s)) = Ok None.
Proof.
  intros Hnn Hlen Hun. rewrite (find_dest_skip s name (sys_last s)) by (done || lia).
  by rewrite Nat.sub_diag.
Qed.

(** The message table lets module [me] send [p] to module [to]. *)
Definition routed s m (p : MCSPacket) (to : Z) mt : Prop :=
  pkt_type p = MCS_TYPE_MESSAGE /\
  exists opt name, mcs_command_message_list !! Z.to_nat (pkt_cmd p) = Some opt /\
    permits (msg_origin_groups opt) (mod_group m) /\ addresses opt p name /\
    addressee s name to mt /\ permits (msg_destination_groups opt) (mod_group mt).

Lemma routed_not_answer s m p to mt : routed s m p to mt -> mcs_is_answer_packet p = false.
Proof. intros [Ht _]. unfold mcs_is_answer_packet. by rewrite Ht. Qed.

(** ** Handling a message. *)

(** The first checks of the handler. *)
Lemma process_message_origin s me m p opt : has_mod s me m -> 0 <= pkt_cmd p ->
  mcs_command_message_list !! Z.to_nat (pkt_cmd p) = Some opt ->
  ~ permits (msg_origin_groups opt) (mod_group m) ->
  process_pkt_message me p s = (do! refuse me p EPERM in st_ret (Some tt)) s.
Proof.
  intros Hm Hcmd Hopt Hden. pose proof (lookup_lt_Some _ _ _ Hopt) as Hlt.
  unfold process_pkt_message, mcs_command_list_size, MCS_TYPE_MESSAGE. cbn [Z.eqb].
  rewrite (proj2 (Z.leb_gt _ _)) by (unfold zlen; lia). rewrite Hopt.
  rewrite (st_bind_ok _ _ _ _ _ (get_mod_ok s me m Hm)). by rewrite group_denied_true.
Qed.

(** What is left of the handler when the sender may send the message. *)
Lemma process_message_search s me m p opt name : has_mod s me m -> 0 <= pkt_cmd p ->
  mcs_command_message_list !! Z.to_nat (pkt_cmd p) = Some opt ->
  permits (msg_origin_groups opt) (mod_group m) -> addresses opt p name ->
  process_pkt_message me p s =
  (let! dest := st_lift (find_dest name (sys_modules s) 0 (Z.to_nat (sys_last s))) in
   match dest with
   | None => do! refuse me p EBADMODID in st_ret (Some tt)
   | Some dest_index =>
       let! mod_to := get_mod dest_index in
       if group_denied (msg_destination_groups opt) (mod_group mod_to)
       then do! refuse me p EPERM in st_ret (Some tt)
       else
         do! queue_push me (sdb_packet p (mod_id m)) in
         let? _ := sdb_module_write_mcs_packet (Some me) p dest_index in
         st_ret (Some tt)
   end) s.
Proof.
  intros Hm Hcmd Hopt Horig Hadd. pose proof (lookup_lt_Some _ _ _ Hopt) as Hlt.
  apply addresses_dest in Hadd as [Hnull Hdest]. apply group_denied_spec in Horig.
  unfold process_pkt_message, mcs_command_list_size, MCS_TYPE_MESSAGE. cbn [Z.eqb].
  rewrite (proj2 (Z.leb_gt _ _)) by (unfold zlen; lia). rewrite Hopt.
  rewrite (st_bind_ok _ _ _ _ _ (get_mod_ok s me m Hm)), Horig, Hnull.
  unfold st_bind at 1, st_get. by rewrite Hdest.
Qed.

(** Module [to], which may be [me], when the queue of [me] has become [q]. *)
Definition beside (me : Z) (q : Q) m (to : Z) mt : SDBModule Q :=
  if decide (me = to) then with_queue q m else mt.

Lemma has_beside s me m q to mt : has_mod s me m -> has_mod s to mt -> can_receive mt ->
  has_mod (set_mod me (with_queue q m) s) to (beside me q m to mt) /\
  can_receive (beside me q m to mt).
Proof.
  intros Hm Hmt Hc. unfold beside. destruct (decide (me = to)) as [<- |Hne].
  - rewrite (has_mod_inj s me mt m) in Hc by done. split; [by eapply has_mod_set_eq|done].
  - split; [|done]. apply has_mod_set_ne; [done|done|apply Hm].
Qed.

Lemma beside_ne me q m to mt : me <> to -> beside me q m to mt = mt.
Proof. intros Hne. unfold beside. by rewrite decide_False. Qed.

Lemma beside_eq me q m mt : beside me q m me mt = with_queue q m.
Proof. unfold beside. by rewrite decide_True. Qed.

(** The state after something was taken from the socket of [me] and put into the
    region of [to]. *)
Definition handed_over (me : Z) (q : Q) m (to : Z) mt (p : MCSPacket) (t : QosTable) s : Sys Q :=
  set_qos t (set_mod to (with_data (RegionFull me p) true (beside me q m to mt))
               (set_mod me (with_queue q m) s)).

Lemma process_message_ok s me m l to mt p :
  registered s me m -> registered s to mt -> qs_rep (mod_queue m) l ->
  can_receive mt -> sendable p -> fits_region p -> logged s -> routed s m p to mt ->
  exists q t, qs_rep q (insert_prio (sdb_packet p me) l) /\ logged (set_qos t s) /\
    process_pkt_message me p s = Ok (Some tt, handed_over me q m to mt p t s).
Proof.
  intros (Hm & Hid & Hlast) (Hmt & _ & Hlastt) Hq Hcan Hp Hf Hlog
    (Ht & opt & name & Hopt & Horig & Hadd & Haddr & Hdest%group_denied_spec).
  pose proof (wf_cmd p (proj1 (proj1 Hp))) as Hcmd.
  rewrite (process_message_search s me m p opt name) by (done || lia).
  unfold st_bind at 1, st_lift. rewrite (find_dest_found s name to mt Haddr).
  unfold st_bind at 1. rewrite (get_mod_ok s to mt Hmt), Hdest.
  destruct (queue_push_ok s me m l (sdb_packet p (mod_id m)) Hm Hq) as (q & E & Hq').
  unfold st_bind at 1. rewrite E. rewrite Hid in Hq'.
  set (s1 := set_mod me (with_queue q m) s).
  assert (Hm1 : has_mod s1 me (with_queue q m)) by by eapply has_mod_set_eq.
  destruct (has_beside s me m q to mt Hm Hmt Hcan) as [Hmt1 Hcan1].
  destruct (write_mcs_packet_ok s1 me (with_queue q m) to _ p Hm1 Hmt1 Hlastt Hcan1 Hp Hf)
    as (t & Hl1 & E1); [destruct Hlog as [log Hl]; by exists log|].
  exists q, t. split_and!; [done|done|]. unfold st_obind, st_bind. rewrite E1.
  cbn [mod_id with_queue]. by rewrite Hid.
Qed.

(** The thread that handed something over is back in its loop. *)
Lemma handed_over_frame me q m to mt p t s : 0 <= me -> 0 <= to ->
  frame [me; to] s (handed_over me q m to mt p t s).
Proof. intros Hme Hto. unfold handed_over. apply frame_qos, frame_set; [|done|set_solver].
  apply frame_set; [apply frame_refl|done|set_solver]. Qed.

Lemma handed_over_mods me q m to mt p t s m' : has_mod s me m -> has_mod s to mt ->
  let s' := handed_over me q m to mt p t s in
  (me <> to -> has_mod s' me (with_queue q m) /\
     has_mod (set_mod me m' s') to (with_data (RegionFull me p) true mt)) /\
  (me = to -> has_mod s' me (with_data (RegionFull me p) true (with_queue q m))).
Proof.
  intros Hm Hmt s'. assert (Hm1 : has_mod (set_mod me (with_queue q m) s) me (with_queue q m))
    by by eapply has_mod_set_eq. split.
  - intros Hne. unfold s', handed_over. rewrite beside_ne by done. split.
    + apply has_mod_qos, has_mod_set_ne; [done|done|apply Hmt].
    + apply has_mod_set_ne; [done| |apply Hm]. apply has_mod_qos. eapply has_mod_set_eq.
      apply has_mod_set_ne; [done|exact Hmt|apply Hm].
  - intros <-. unfold s', handed_over. rewrite beside_eq. apply has_mod_qos. by eapply has_mod_set_eq.
Qed.

(** ** Reading from the socket. *)

(** The start of [process_pkt_socket]: the packet is read and logged. *)
Lemma socket_read_ok s me m p rest : has_mod s me m -> logged s -> readable p ->
  0 <= mod_rfd m -> avail (mod_rfd m) (wire p ++ rest) (sys_world s) ->
  exists t, logged (set_qos t s) /\
    in_world (mcs_read_command (mod_rfd m) (mod_wfd m)) s
    = Ok (Some p, set_world (consume (mod_rfd m) (length (wire p)) (sys_world s)) s) /\
    sdb_qos_register_packet_in me p
      (set_world (consume (mod_rfd m) (length (wire p)) (sys_world s)) s)
    = Ok (tt, set_qos t (set_world (consume (mod_rfd m) (length (wire p)) (sys_world s)) s)).
Proof.
  intros Hm [log Hl] Hp Hfd Hav. set (s1 := set_world _ s).
  destruct (qos_event_logged s1 me m SDB_QOS_PKT_IN p) as (t & E & Ht); [done|by exists log|].
  exists t. split_and!; [done| |done].
  apply in_world_ok. exact (mcs_read_parses _ _ _ Hfd Hp rest _ Hav).
Qed.

(** The state in which the packet on the socket is handled. *)
Definition after_read m (p : MCSPacket) (t : QosTable) s : Sys Q :=
  set_qos t (set_world (consume (mod_rfd m) (length (wire p)) (sys_world s)) s).

(** A round of a module with a packet on its socket: the packet is dispatched. *)
Lemma round_dispatch s me m p rest : has_mod s me m -> logged s -> readable p ->
  mod_data_valid m = false -> mod_data_socket m = true ->
  0 <= mod_rfd m -> avail (mod_rfd m) (wire p ++ rest) (sys_world s) ->
  exists t, logged (after_read m p t s) /\
    forall s2 m2, dispatch_packet me p (after_read m p t s) = Ok (Some tt, s2) ->
      has_mod s2 me m2 ->
      module_round me s = Ok (Some true, set_mod me (with_socket false m2) s2).
Proof.
  intros Hm Hlog Hp Hval Hsock Hfd Hav.
  destruct (socket_read_ok s me m p rest Hm Hlog Hp Hfd Hav) as (t & Hl & E1 & E2).
  exists t. split; [done|]. intros s2 m2 E3 Hm2. fold (after_read m p t s) in E2.
  unfold module_round. rewrite (st_bind_ok _ _ _ _ _ (get_mod_ok s me m Hm)), Hval, Hsock.
  unfold process_pkt_socket. erewrite st_obind_ok; [done|].
  rewrite (st_bind_ok _ _ _ _ _ (get_mod_ok s me m Hm)).
  rewrite (st_bind_ok _ _ _ _ _ E1), (st_bind_ok _ _ _ _ _ E2), (st_obind_ok _ _ _ _ _ E3).
  by rewrite (st_bind_ok _ _ _ _ _ (update_mod_ok _ s2 me _ Hm2)).
Qed.

Lemma dispatch_message me p : pkt_type p = MCS_TYPE_MESSAGE ->
  dispatch_packet me p = process_pkt_message me p.
Proof. intros Ht. unfold dispatch_packet, mcs_is_answer_packet. by rewrite Ht. Qed.

(** The end of a round that handed something over. *)
Lemma round_hands_over s me m q to mt p t s2 : me <> to -> has_mod s2 me m -> has_mod s2 to mt ->
  let s' := set_mod me (with_socket false (with_queue q m)) (handed_over me q m to mt p t s2) in
  frame [me; to] s s2 ->
  has_mod (handed_over me q m to mt p t s2) me (with_queue q m) /\ frame [me; to] s s' /\
  has_mod s' me (with_socket false (with_queue q m)) /\
  has_mod s' to (with_data (RegionFull me p) true mt).
Proof.
  intros Hne Hm Hmt s' Hf.
  destruct (handed_over_mods me q m to mt p t s2 (with_socket false (with_queue q m)) Hm Hmt) as [H1' _].
  destruct (H1' Hne) as [Hm2 Hmt2]. split_and!; [done| |by eapply has_mod_set_eq|done].
  unfold s'. apply frame_set; [|apply Hm|set_solver]. apply (frame_trans _ _ s2); [done|].
  apply handed_over_frame; [apply Hm|apply Hmt].
Qed.

(** The same when a module sends to itself. *)
Lemma round_hands_self s me m q p t s2 : has_mod s2 me m -> frame [me] s s2 ->
  let m' := with_data (RegionFull me p) true (with_queue q m) in
  let s' := set_mod me (with_socket false m') (handed_over me q m me m p t s2) in
  has_mod (handed_over me q m me m p t s2) me m' /\ frame [me] s s' /\
  has_mod s' me (with_socket false m').
Proof.
  intros Hm Hf m' s'.
  destruct (handed_over_mods me q m me m p t s2 m Hm Hm) as [_ Hself]. specialize (Hself eq_refl).
  split_and!; [done| |by eapply has_mod_set_eq].
  unfold s'. apply frame_set; [|apply Hm|set_solver]. apply (frame_trans _ _ s2); [done|].
  apply (frame_sub [me; me]); [set_solver|]. apply handed_over_frame; apply Hm.
Qed.

(** A round that takes a message from the client and hands it to its destination. *)
Lemma round_send_message s me m l to mt p rest :
  registered s me m -> registered s to mt -> me <> to -> qs_rep (mod_queue m) l ->
  mod_data_valid m = false -> mod_data_socket m = true -> can_receive mt ->
  sendable p -> fits_region p -> logged s -> routed s m p to mt ->
  0 <= mod_rfd m -> avail (mod_rfd m) (wire p ++ rest) (sys_world s) ->
  exists q s', module_round me s = Ok (Some true, s') /\
    qs_rep q (insert_prio (sdb_packet p me) l) /\ logged s' /\ frame [me; to] s s' /\
    has_mod s' me (with_socket false (with_queue q m)) /\
    has_mod s' to (with_data (RegionFull me p) true mt) /\
    sys_world s' = consume (mod_rfd m) (length (wire p)) (sys_world s).
Proof.
  intros Hme Hto Hne Hq Hval Hsock Hcan Hp Hf Hlog Hr Hfd Hav.
  destruct (round_dispatch s me m p rest) as (t1 & Hl1 & Hround); try done; [apply Hme|apply Hp|].
  set (s1 := after_read m p t1 s) in *.
  destruct (process_message_ok s1 me m l to mt p) as (q & t2 & Hq' & Hl2 & E3); try done.
  rewrite <- dispatch_message in E3 by apply Hr.
  destruct (round_hands_over s me m q to mt p t2 s1) as (Hm2 & Hf2 & Hme2 & Hto2);
    [done|apply Hme|apply Hto|unfold s1, after_read; frame_tac|].
  exists q. eexists. split; [exact (Hround _ _ E3 Hm2)|]. by split_and!.
Qed.

(** The same for a message to itself. *)
Lemma round_send_self s me m l p rest :
  registered s me m -> qs_rep (mod_queue m) l -> can_receive m -> mod_data_socket m = true ->
  sendable p -> fits_region p -> logged s -> routed s m p me m ->
  0 <= mod_rfd m -> avail (mod_rfd m) (wire p ++ rest) (sys_world s) ->
  exists q s', module_round me s = Ok (Some true, s') /\
    qs_rep q (insert_prio (sdb_packet p me) l) /\ logged s' /\ frame [me] s s' /\
    has_mod s' me (with_socket false (with_data (RegionFull me p) true (with_queue q m))) /\
    sys_world s' = consume (mod_rfd m) (length (wire p)) (sys_world s).
Proof.
  intros Hme Hq Hcan Hsock Hp Hf Hlog Hr Hfd Hav.
  destruct (round_dispatch s me m p rest) as (t1 & Hl1 & Hround); try done;
    [apply Hme|apply Hp|apply Hcan|].
  set (s1 := after_read m p t1 s) in *.
  destruct (process_message_ok s1 me m l me m p) as (q & t2 & Hq' & Hl2 & E3); try done.
  rewrite <- dispatch_message in E3 by apply Hr.
  destruct (round_hands_self s me m q p t2 s1) as (Hm2 & Hf2 & Hme2);
    [apply Hme|unfold s1, after_read; frame_tac|].
  exists q. eexists. split; [exact (Hround _ _ E3 Hm2)|]. by split_and!.
Qed.

(** ** Reading from the region. *)

(** A round that takes a message from the region and hands it to the client. *)
Lemma round_deliver_message s me m l sender p :
  registered s me m -> qs_rep (mod_queue m) l ->
  mod_data m = RegionFull sender p -> mod_data_valid m = true ->
  sendable p -> mcs_is_answer_packet p = false -> logged s ->
  writable (mod_wfd m) (sys_world s) ->
  exists q s', module_round me s = Ok (Some true, s') /\
    qs_rep q (insert_prio (sdb_packet p sender) l) /\ logged s' /\ frame [me] s s' /\
    has_mod s' me (with_queue q (with_data (RegionFull sender p) false m)) /\
    sys_world s' = emit (mod_wfd m) (wire p) (sys_world s).
Proof.
  intros (Hm & Hid & Hlast) Hq Hd Hv Hp Ha Hlog Hw.
  destruct (read_mcs_packet_ok s me m sender p Hm ltac:(lia) Hd Hv Hp Hlog) as (t1 & Hl1 & E1).
  set (m1 := with_data (RegionFull sender p) false m) in *.
  set (s1 := set_qos t1 (set_mod me m1 s)) in *.
  assert (Hm1 : has_mod s1 me m1) by by eapply has_mod_set_eq.
  destruct (queue_push_ok s1 me m1 l (sdb_packet p sender) Hm1 Hq) as (q & E2 & Hq').
  set (s2 := set_mod me (with_queue q m1) s1) in *.
  assert (Hm2 : has_mod s2 me (with_queue q m1)) by by eapply has_mod_set_eq.
  assert (E3 : in_world (mcs_write_command p (mod_wfd m)) s2
    = Ok (0, set_world (emit (mod_wfd m) (wire p) (sys_world s)) s2))
    by (apply in_world_ok; by apply mcs_write_sendable).
  set (s3 := set_world _ s2) in *.
  destruct (qos_event_logged s3 me (with_queue q m1) SDB_QOS_PKT_OUT p Hm2) as (t4 & E4 & Hl4).
  { exact Hl1. }
  unfold module_round, st_bind at 1. rewrite (get_mod_ok s me m Hm), Hv.
  unfold process_pkt_sdb, st_bind at 1. unfold st_bind at 1. rewrite (get_mod_ok s me m Hm), Hd.
  unfold st_bind at 1. rewrite E1, Ha. unfold st_bind at 1. rewrite E2.
  unfold st_bind at 1. rewrite E3. unfold sdb_qos_register_packet_out. rewrite E4.
  exists q. eexists. split; [done|]. split_and!; [done|done| |done|done]. frame_tac.
Qed.

(** A round that takes an answer from the region, for a packet the client sent. *)
Lemma round_deliver_answer s me m l o l' sender r :
  registered s me m -> qs_rep (mod_queue m) l -> take_answer r l = (Some o, l') ->
  mod_data m = RegionFull sender r -> mod_data_valid m = true ->
  sendable r -> mcs_is_answer_packet r = true -> logged s ->
  writable (mod_wfd m) (sys_world s) ->
  exists q s', module_round me s = Ok (Some true, s') /\
    qs_rep q l' /\ logged s' /\ frame [me] s s' /\
    has_mod s' me (with_queue q (with_data (RegionFull sender r) false m)) /\
    sys_world s' = emit (mod_wfd m) (wire r) (sys_world s).
Proof.
  intros (Hm & Hid & Hlast) Hq Htake Hd Hv Hp Ha Hlog Hw.
  destruct (read_mcs_packet_ok s me m sender r Hm ltac:(lia) Hd Hv Hp Hlog) as (t1 & Hl1 & E1).
  set (m1 := with_data (RegionFull sender r) false m) in *.
  set (s1 := set_qos t1 (set_mod me m1 s)) in *.
  assert (Hm1 : has_mod s1 me m1) by by eapply has_mod_set_eq.
  destruct (queue_get_ok s1 me m1 l r Hm1 Hq) as (q & E2 & Hq').
  rewrite Htake in E2, Hq'. cbn [fst snd] in E2, Hq'.
  set (s2 := set_mod me (with_queue q m1) s1) in *.
  assert (Hm2 : has_mod s2 me (with_queue q m1)) by by eapply has_mod_set_eq.
  destruct (qos_event_logged s2 me (with_queue q m1) SDB_QOS_PKT_READY r Hm2) as (t3 & E3 & Hl3).
  { exact Hl1. }
  set (s3 := set_qos t3 s2) in *.
  assert (E4 : in_world (mcs_write_command r (mod_wfd m)) s3
    = Ok (0, set_world (emit (mod_wfd m) (wire r) (sys_world s)) s3))
    by (apply in_world_ok; by apply mcs_write_sendable).
  set (s4 := set_world _ s3) in *.
  destruct (qos_event_logged s4 me (with_queue q m1) SDB_QOS_PKT_OUT r Hm2) as (t5 & E5 & Hl5).
  { exact Hl3. }
  destruct (qos_event_logged (set_qos t5 s4) me (with_queue q m1) SDB_QOS_PKT_READY (sdb_pkt o)
              Hm2 Hl5) as (t6 & E6 & Hl6).
  unfold module_round, st_bind at 1. rewrite (get_mod_ok s me m Hm), Hv.
  unfold process_pkt_sdb, st_bind at 1. unfold st_bind at 1. rewrite (get_mod_ok s me m Hm), Hd.
  unfold st_bind at 1. rewrite E1, Ha. unfold st_bind at 1. rewrite E2.
  unfold st_bind at 1, sdb_qos_register_packet_ready. rewrite E3.
  unfold st_bind at 1. rewrite E4. unfold st_bind at 1, sdb_qos_register_packet_out. rewrite E5, E6.
  exists q. eexists. split; [done|]. split_and!; [done|done| |done|done]. frame_tac.
Qed.

(** An answer is handed to the module that sent the packet it answers. *)
Lemma dispatch_answer_packet s me m l o l' mt r :
  registered s me m -> registered s (id_process o) mt ->
  qs_rep (mod_queue m) l -> take_answer r l = (Some o, l') -> can_receive mt ->
  sendable r -> mcs_is_answer_packet r = true -> fits_region r -> logged s ->
  exists q t, qs_rep q l' /\ logged (set_qos t s) /\
    dispatch_packet me r s = Ok (Some tt, handed_over me q m (id_process o) mt r t s).
Proof.
  intros (Hm & Hid & Hlast) (Hmt & _ & Hlastt) Hq Htake Hcan Hp Ha Hf Hlog.
  destruct (queue_get_ok s me m l r) as (q & E3 & Hq'); [done|done|].
  rewrite Htake in E3, Hq'. cbn [fst snd] in E3, Hq'.
  set (s2 := set_mod me (with_queue q m) s) in *.
  assert (Hm2 : has_mod s2 me (with_queue q m)) by by eapply has_mod_set_eq.
  destruct (has_beside s me m q (id_process o) mt Hm Hmt Hcan) as [Hmt2 Hcan2].
  destruct (write_mcs_packet_ok s2 me (with_queue q m) (id_process o) _ r Hm2 Hmt2 Hlastt Hcan2 Hp Hf)
    as (t4 & Hl4 & E4); [exact Hlog|].
  cbn [mod_id with_queue] in E4. rewrite Hid in E4.
  set (s4 := set_qos t4 (set_mod (id_process o) _ s2)) in *.
  assert (Hm4 : exists m4, has_mod s4 me m4).
  { destruct (handed_over_mods me q m (id_process o) mt r t4 s m Hm Hmt) as [Hne Heq].
    destruct (decide (me = id_process o)); [eexists; by apply Heq|eexists; by apply Hne]. }
  destruct Hm4 as [m4 Hm4].
  destruct (qos_event_logged s4 me m4 SDB_QOS_PKT_READY (sdb_pkt o) Hm4 Hl4) as (t5 & E5 & Hl5).
  exists q, t5. split_and!; [done|exact Hl5|]. unfold dispatch_packet. rewrite Ha.
  by rewrite (st_bind_ok _ _ _ _ _ E3), (st_obind_ok _ _ _ _ _ E4), (st_bind_ok _ _ _ _ _ E5).
Qed.

(** A round that takes an answer from the client and hands it to the module that
    sent the packet it answers. *)
Lemma round_send_answer s me m l o l' mt r rest :
  registered s me m -> registered s (id_process o) mt -> me <> id_process o ->
  qs_rep (mod_queue m) l -> take_answer r l = (Some o, l') ->
  mod_data_valid m = false -> mod_data_socket m = true -> can_receive mt ->
  sendable r -> mcs_is_answer_packet r = true -> fits_region r -> logged s ->
  0 <= mod_rfd m -> avail (mod_rfd m) (wire r ++ rest) (sys_world s) ->
  exists q s', module_round me s = Ok (Some true, s') /\
    qs_rep q l' /\ logged s' /\ frame [me; id_process o] s s' /\
    has_mod s' me (with_socket false (with_queue q m)) /\
    has_mod s' (id_process o) (with_data (RegionFull me r) true mt) /\
    sys_world s' = consume (mod_rfd m) (length (wire r)) (sys_world s).
Proof.
  intros Hme Hto Hne Hq Htake Hval Hsock Hcan Hp Ha Hf Hlog Hfd Hav.
  destruct (round_dispatch s me m r rest) as (t1 & Hl1 & Hround); try done; [apply Hme|apply Hp|].
  set (s1 := after_read m r t1 s) in *.
  destruct (dispatch_answer_packet s1 me m l o l' mt r) as (q & t2 & Hq' & Hl2 & E3); try done.
  destruct (round_hands_over s me m q (id_process o) mt r t2 s1) as (Hm2 & Hf2 & Hme2 & Hto2);
    [done|apply Hme|apply Hto|unfold s1, after_read; frame_tac|].
  exists q. eexists. split; [exact (Hround _ _ E3 Hm2)|]. by split_and!.
Qed.

(** The same for an answer to itself. *)
Lemma round_answer_self s me m l o l' r rest :
  registered s me m -> id_process o = me -> qs_rep (mod_queue m) l -> take_answer r l = (Some o, l') ->
  can_receive m -> mod_data_socket m = true ->
  sendable r -> mcs_is_answer_packet r = true -> fits_region r -> logged s ->
  0 <= mod_rfd m -> avail (mod_rfd m) (wire r ++ rest) (sys_world s) ->
  exists q s', module_round me s = Ok (Some true, s') /\ qs_rep q l' /\ logged s' /\ frame [me] s s' /\
    has_mod s' me (with_socket false (with_data (RegionFull me r) true (with_queue q m))) /\
    sys_world s' = consume (mod_rfd m) (length (wire r)) (sys_world s).
Proof.
  intros Hme Ho Hq Htake Hcan Hsock Hp Ha Hf Hlog Hfd Hav.
  destruct (round_dispatch s me m r rest) as (t1 & Hl1 & Hround); try done;
    [apply Hme|apply Hp|apply Hcan|].
  set (s1 := after_read m r t1 s) in *.
  destruct (dispatch_answer_packet s1 me m l o l' m r) as (q & t2 & Hq' & Hl2 & E3); try done;
    [by rewrite Ho|].
  rewrite Ho in E3. destruct (round_hands_self s me m q r t2 s1) as (Hm2 & Hf2 & Hme2);
    [apply Hme|unfold s1, after_read; frame_tac|].
  exists q. eexists. split; [exact (Hround _ _ E3 Hm2)|]. by split_and!.
Qed.

End Routing.
