(* ===== verification/ModuleProps.v ===== *)
(** * ModuleProps: the properties of the module threads.

    Delivery of messages and answers from end to end, refusals, requests to the
    daemon, the memory regions and the handshake. *)

From S2P Require Import Prelude Abs McsDefs Mcs McsFacts McsProps Queue QueueFacts QueueProps.
From S2P Require Import Qos QosFacts Module ModuleFacts Routing.

Section Properties.
Context `{MCSTables} `{Build} `{QueueSpec Q} `{!Environment Q}.
Implicit Types (s : Sys Q) (m ma mb mt : SDBModule Q).

(** No pending packet of [l] has the id of [p]. *)
Definition fresh_id (p : MCSPacket) (l : list SDBPacket) : Prop :=
  Forall (fun y => pkt_id (sdb_pkt y) <> pkt_id p) l.

Lemma fresh_take p r i l : fresh_id p l -> pkt_id r = pkt_id p ->
  take_answer r (insert_prio (sdb_packet p i) l) = (Some (sdb_packet p i), l).
Proof.
  intros Hf Hid. apply take_answer_insert; [unfold answers; cbn; lia|].
  eapply Forall_impl; [exact Hf|]. unfold answers. cbn. intros y. lia.
Qed.

Lemma fresh_take_twice p r i l : fresh_id p l -> pkt_id r = pkt_id p ->
  take_answer r (insert_prio (sdb_packet p i) (insert_prio (sdb_packet p i) l))
  = (Some (sdb_packet p i), insert_prio (sdb_packet p i) l).
Proof.
  intros Hf Hid. apply take_answer_twice; [unfold answers; cbn; lia|].
  eapply Forall_impl; [exact Hf|]. unfold answers. cbn. intros y. lia.
Qed.

(** C2: a message reaches its destination and the answer its sender.  Module [a]
    has a message for module [b] on its socket.  One round of [a] and one of [b]
    write exactly that message to the socket of [b]; when the client of [b] has
    answered, with any answer of the same id, one round of [b] and one of [a]
    write exactly that answer to the socket of [a].  Both queues of pending
    packets are then as before, and no other module has changed. *)
Theorem message_round_trip s a ma la b mb lb p rest :
  registered s a ma -> registered s b mb -> a <> b -> logged s ->
  qs_rep (mod_queue ma) la -> qs_rep (mod_queue mb) lb -> fresh_id p la -> fresh_id p lb ->
  can_receive ma -> can_receive mb -> mod_data_socket ma = true ->
  sendable p -> fits_region p -> routed s ma p b mb ->
  0 <= mod_rfd ma -> 0 <= mod_rfd mb ->
  avail (mod_rfd ma) (wire p ++ rest) (sys_world s) -> writable (mod_wfd mb) (sys_world s) ->
  exists s1 s2 mb2,
    module_round a s = Ok (Some true, s1) /\ module_round b s1 = Ok (Some true, s2) /\
    sys_world s2 = emit (mod_wfd mb) (wire p)
                     (consume (mod_rfd ma) (length (wire p)) (sys_world s)) /\
    has_mod s2 b mb2 /\
    forall r w3 rest', sendable r -> mcs_is_answer_packet r = true -> pkt_id r = pkt_id p ->
      fits_region r -> avail (mod_rfd mb) (wire r ++ rest') w3 -> writable (mod_wfd ma) w3 ->
      exists s4 s5 ma5 mb5,
        module_round b (set_mod b (with_socket true mb2) (set_world w3 s2)) = Ok (Some true, s4) /\
        module_round a s4 = Ok (Some true, s5) /\
        sys_world s5 = emit (mod_wfd ma) (wire r) (consume (mod_rfd mb) (length (wire r)) w3) /\
        has_mod s5 a ma5 /\ has_mod s5 b mb5 /\
        qs_rep (mod_queue ma5) la /\ qs_rep (mod_queue mb5) lb /\ frame [a; b] s s5.
Proof.
  intros Ha Hb Hab Hlog Hqa Hqb Hfa Hfb Hca Hcb Hsa Hp Hfit Hroute Hrfa Hrfb Hav Hwb.
  destruct (round_send_message s a ma la b mb p rest)
    as (qa1 & s1 & E1 & Hqa1 & Hlog1 & Hfr1 & Ha1 & Hb1 & Hw1); try done; [apply Hca|].
  assert (Hreg1 : registered s1 b (with_data (RegionFull a p) true mb)).
  { split_and!; [done|apply Hb|]. rewrite (proj1 Hfr1). apply Hb. }
  destruct (round_deliver_message s1 b _ lb a p Hreg1) as
    (qb2 & s2 & E2 & Hqb2 & Hlog2 & Hfr2 & Hb2 & Hw2); try done.
  { by eapply routed_not_answer. }
  { rewrite Hw1. by apply consume_writable. }
  cbn [mod_wfd with_data] in Hw2. rewrite Hw1 in Hw2.
  exists s1, s2. eexists. split_and!; [done|done|done|exact Hb2|].
  intros r w3 rest' Hr Hra Hid Hfr Hav3 Hwa3.
  set (s3 := set_mod b _ (set_world w3 s2)).
  assert (Hb3 : has_mod s3 b (with_socket true (with_queue qb2 (with_data (RegionFull a p) false
    (with_data (RegionFull a p) true mb))))) by by eapply has_mod_set_eq.
  assert (Ha2 : has_mod s2 a (with_socket false (with_queue qa1 ma))).
  { apply Hfr2; [set_solver|done]. }
  assert (Ha3 : has_mod s3 a (with_socket false (with_queue qa1 ma))).
  { apply has_mod_set_ne; [done|done|apply Hb]. }
  assert (Hlast : sys_last s3 = sys_last s).
  { cbn. by rewrite (proj1 Hfr2), (proj1 Hfr1). }
  assert (Hrb3 : registered s3 b _)
    by (split_and!; [exact Hb3|apply Hb|rewrite Hlast; apply Hb]).
  assert (Hra3 : registered s3 (id_process (sdb_packet p a)) _)
    by (split_and!; [exact Ha3|apply Ha|rewrite Hlast; apply Ha]).
  destruct (round_send_answer s3 b _ _ _ _ _ r rest' Hrb3 Hra3 (not_eq_sym Hab) Hqb2
              (fresh_take p r a lb Hfb Hid) eq_refl eq_refl Hca Hr Hra Hfr Hlog2 Hrfb Hav3)
    as (qb4 & s4 & E4 & Hqb4 & Hlog4 & Hfr4 & Hb4 & Ha4 & Hw4).
  cbn [id_process sdb_packet] in *.
  assert (Hra4 : registered s4 a _)
    by (split_and!; [exact Ha4|apply Ha|rewrite (proj1 Hfr4), Hlast; apply Ha]).
  destruct (round_deliver_answer s4 a _ _ _ la b r Hra4 Hqa1 (fresh_take p r a la Hfa Hid)
              eq_refl eq_refl Hr Hra Hlog4) as (qa5 & s5 & E5 & Hqa5 & Hlog5 & Hfr5 & Ha5 & Hw5).
  { rewrite Hw4. by apply consume_writable. }
  assert (Hb5 : has_mod s5 b _) by (apply Hfr5; [set_solver|exact Hb4]).
  eexists s4, s5, _, _.
  split_and!; [exact E4|exact E5| |exact Ha5|exact Hb5|exact Hqa5|exact Hqb4|].
  - by rewrite Hw5, Hw4.
  - apply (frame_trans _ _ s2); [by apply (frame_pair _ _ _ s1)|].
    apply (frame_sub [b; a]); [set_solver|]. apply (frame_pair _ _ _ s4); [|done].
    apply (frame_trans _ _ s3); [unfold s3; frame_tac|done].
Qed.

(** C19: an answer nobody waits for is dropped.  It is read and logged, but
    nothing is written to any socket, no other module changes and no pending
    packet is lost, so an error can never provoke another one. *)
Theorem unexpected_answer_dropped s me m l r rest :
  registered s me m -> qs_rep (mod_queue m) l -> fresh_id r l -> logged s ->
  mod_data_valid m = false -> mod_data_socket m = true ->
  readable r -> mcs_is_answer_packet r = true ->
  0 <= mod_rfd m -> avail (mod_rfd m) (wire r ++ rest) (sys_world s) ->
  exists q s', module_round me s = Ok (Some true, s') /\ qs_rep q l /\
    sys_world s' = consume (mod_rfd m) (length (wire r)) (sys_world s) /\
    has_mod s' me (with_socket false (with_queue q m)) /\ frame [me] s s'.
Proof.
  intros (Hm & Hid & Hlast) Hq Hf Hlog Hval Hsock Hr Ha Hfd Hav.
  destruct (round_dispatch s me m r rest) as (t1 & Hl1 & Hround); try done.
  set (s1 := after_read m r t1 s) in *.
  destruct (queue_get_ok s1 me m l r) as (q & E & Hq'); [done|done|].
  assert (Hnone : Forall (fun y => answers r y = false) l)
    by (eapply Forall_impl; [exact Hf|]; unfold answers; cbn; intros y; lia).
  rewrite (take_answer_none r l Hnone) in E, Hq'.
  set (s2 := set_mod me (with_queue q m) s1) in *.
  assert (Hm2 : has_mod s2 me (with_queue q m)) by by eapply has_mod_set_eq.
  destruct (qos_event_logged s2 me _ SDB_QOS_PKT_SCRAP r Hm2 Hl1) as (t3 & E3 & _).
  exists q. eexists. split_and!; [apply (Hround (set_qos t3 s2)); [|exact Hm2]|done|done| |].
  - unfold dispatch_packet. rewrite Ha, (st_bind_ok _ _ _ _ _ E). cbn [fst].
    unfold sdb_qos_register_packet_scrap. by rewrite (st_bind_ok _ _ _ _ _ E3).
  - by eapply has_mod_set_eq.
  - unfold s2, s1, after_read. frame_tac.
Qed.

(** Why a message is refused, and with which error code. *)
Inductive Refused s m (p : MCSPacket) : Z -> Prop :=
| RefusedOrigin opt :
    mcs_command_message_list !! Z.to_nat (pkt_cmd p) = Some opt ->
    ~ permits (msg_origin_groups opt) (mod_group m) ->
    Refused s m p EPERM
| RefusedUnknown opt name :
    mcs_command_message_list !! Z.to_nat (pkt_cmd p) = Some opt ->
    permits (msg_origin_groups opt) (mod_group m) -> addresses opt p name ->
    (Z.to_nat (sys_last s) <= length (sys_modules s))%nat -> unlike s name (sys_last s) ->
    Refused s m p EBADMODID
| RefusedDestination opt name to mt :
    mcs_command_message_list !! Z.to_nat (pkt_cmd p) = Some opt ->
    permits (msg_origin_groups opt) (mod_group m) -> addresses opt p name ->
    addressee s name to mt -> ~ permits (msg_destination_groups opt) (mod_group mt) ->
    Refused s m p EPERM.

(** What the handler does with a refused message. *)
Lemma process_message_refused s me m p err :
  registered s me m -> 0 <= pkt_cmd p -> Refused s m p err ->
  process_pkt_message me p s = (do! refuse me p err in st_ret (Some tt)) s.
Proof.
  intros (Hm & _ & Hlast) Hcmd Href. pose proof (proj1 Hm).
  destruct Href as [opt Ho Hden|opt name Ho Hok Hadd Hlen Hun|opt name to mt Ho Hok Hadd Haddr Hden].
  - by eapply process_message_origin.
  - rewrite (process_message_search s me m p opt name) by done.
    unfold st_bind at 1, st_lift. by rewrite find_dest_none by (done || lia).
  - rewrite (process_message_search s me m p opt name) by done.
    unfold st_bind at 1, st_lift. rewrite (find_dest_found s name to mt Haddr).
    rewrite (st_bind_ok _ _ _ _ _ (get_mod_ok s to mt (proj1 Haddr))). by rewrite group_denied_true.
Qed.

(** A round that refuses a message. *)
Lemma round_refuse_message s me m p err rest :
  registered s me m -> logged s -> readable p -> pkt_type p = MCS_TYPE_MESSAGE ->
  Refused s m p err -> mod_data_valid m = false -> mod_data_socket m = true ->
  0 <= mod_rfd m -> avail (mod_rfd m) (wire p ++ rest) (sys_world s) ->
  writable (mod_wfd m) (sys_world s) ->
  exists s', module_round me s = Ok (Some true, s') /\ logged s' /\
    sys_world s' = emit (mod_wfd m) (wire (mcs_err_packet p err))
                     (consume (mod_rfd m) (length (wire p)) (sys_world s)) /\
    has_mod s' me (with_socket false m) /\ frame [me] s s'.
Proof.
  intros (Hm & Hid & Hlast) Hlog Hp Ht Href Hval Hsock Hfd Hav Hw.
  destruct (round_dispatch s me m p rest) as (t1 & Hl1 & Hround); try done.
  set (s1 := after_read m p t1 s) in *.
  destruct (refuse_ok s1 me m p err) as (t2 & E & Hl2);
    [done|done|apply Hp|by apply consume_writable|].
  assert (Href1 : Refused s1 m p err) by (destruct Href; econstructor; eauto).
  eexists. split; [eapply (Hround _ m)|].
  - rewrite dispatch_message by done.
    rewrite (process_message_refused s1 me m p err); [|done|apply Hp|done].
    rewrite (st_bind_ok _ _ _ _ _ E). done.
  - done.
  - split_and!; [exact Hl2|done|by eapply has_mod_set_eq|]. unfold s1, after_read. frame_tac.
Qed.

(** C12: a message that may not be sent has no effect but one error answer to its
    sender: [EPERM] when the group of the sender or of the destination is not
    allowed, [EBADMODID] when no module has the name of the destination.  No
    other module changes and nothing is left pending. *)
Theorem message_refused s me m p err rest :
  registered s me m -> logged s -> readable p -> pkt_type p = MCS_TYPE_MESSAGE ->
  Refused s m p err -> mod_data_valid m = false -> mod_data_socket m = true ->
  0 <= mod_rfd m -> avail (mod_rfd m) (wire p ++ rest) (sys_world s) ->
  writable (mod_wfd m) (sys_world s) ->
  exists s', module_round me s = Ok (Some true, s') /\
    sys_world s' = emit (mod_wfd m) (wire (mcs_err_packet p err))
                     (consume (mod_rfd m) (length (wire p)) (sys_world s)) /\
    has_mod s' me (with_socket false m) /\ frame [me] s s'.
Proof.
  intros Hm Hlog Hp Ht Href Hval Hsock Hfd Hav Hw.
  destruct (round_refuse_message s me m p err rest) as (s' & E & _ & Hr); try done. by exists s'.
Qed.

(** [sdb_qos_stop] is answered twice.  For a module whose log is disabled the
    client receives an [EUNDEF] error, as intended, and then an [EBADFORMAT]
    error with the same id, because the case falls through to the default. *)
Theorem qos_stop_answered_twice s me m p opt rest :
  registered s me m -> logged s -> readable p -> pkt_type p = MCS_TYPE_MESSAGE ->
  pkt_cmd p = MCS_MESSAGE_SDB_QOS_STOP ->
  mcs_command_message_list !! Z.to_nat MCS_MESSAGE_SDB_QOS_STOP = Some opt ->
  group_denied (msg_origin_groups opt) (mod_group m) = false -> msg_destination opt = None ->
  mod_qos_enabled m = false -> mod_data_valid m = false -> mod_data_socket m = true ->
  0 <= mod_rfd m -> avail (mod_rfd m) (wire p ++ rest) (sys_world s) ->
  writable (mod_wfd m) (sys_world s) ->
  exists s', module_round me s = Ok (Some true, s') /\
    sys_world s' = emit (mod_wfd m) (wire (mcs_err_packet p EBADFORMAT))
                     (emit (mod_wfd m) (wire (mcs_err_packet p EUNDEF))
                       (consume (mod_rfd m) (length (wire p)) (sys_world s))).
Proof.
  intros (Hm & Hid & Hlast) Hlog Hp Ht Hc Hopt Hok Hdest Hqos Hval Hsock Hfd Hav Hw.
  destruct (round_dispatch s me m p rest) as (t1 & Hl1 & Hround); try done.
  set (s1 := after_read m p t1 s) in *.
  assert (Hpid : 0 <= pkt_id p < 2 ^ 32) by apply Hp.
  assert (Hm1 : has_mod s1 me m) by done.
  set (s2 := set_mod me (with_qos false m) s1).
  assert (Hm2 : has_mod s2 me (with_qos false m)) by by eapply has_mod_set_eq.
  assert (Hw2 : writable (mod_wfd m) (sys_world s2)) by by apply consume_writable.
  pose proof (reply_ok s2 me _ (mcs_err_packet p EUNDEF) Hm2 (err_packet_sendable _ _ Hpid) Hw2) as E3.
  cbn [mod_wfd with_qos] in E3. set (s3 := set_world _ s2) in E3.
  destruct (refuse_ok s3 me (with_qos false m) p EBADFORMAT) as (t4 & E4 & _);
    [done|done|done|by apply emit_writable|].
  eexists. split; [eapply Hround|].
  - rewrite dispatch_message by done.
    unfold process_pkt_message. rewrite Hc. pose proof (lookup_lt_Some _ _ _ Hopt) as Hlt.
    unfold mcs_command_list_size, MCS_TYPE_MESSAGE, MCS_MESSAGE_SDB_QOS_STOP in *. cbn [Z.eqb].
    rewrite (proj2 (Z.leb_gt _ _)) by (unfold zlen; lia). rewrite Hopt.
    rewrite (st_bind_ok _ _ _ _ _ (get_mod_ok s1 me m Hm1)), Hok, Hdest. cbn [is_null].
    unfold process_pkt_daemon. rewrite Hc. unfold MCS_MESSAGE_SDB_QOS_START,
      MCS_MESSAGE_SDB_QOS_DUMP, MCS_MESSAGE_SDB_QOS_STOP. cbn [Z.eqb Pos.eqb].
    erewrite st_bind_ok; [done|].
    erewrite st_bind_ok.
    2:{ rewrite (st_bind_ok _ _ _ _ _ (get_mod_ok s1 me m Hm1)), Hqos.
        apply in_qos_ok. reflexivity. }
    erewrite st_bind_ok by (apply update_mod_ok; done).
    erewrite st_bind_ok by exact E3. exact E4.
  - exact Hm2.
  - done.
Qed.

(** The size of the answer to a state request: that of the table, or that of a
    string with its NUL when the table says -1. *)
Definition state_answer_size (opt : MCSCommandOptionsState) (d : list Z) : Z :=
  if cmd_response_size (state_cmd opt) =? -1 then strlen d + 1
  else cmd_response_size (state_cmd opt).

Lemma perms_never_checked : sizeof_ptr = 4 \/ sizeof_ptr = 8 -> perms_list_num = 0%nat.
Proof. intros [E|E]; unfold perms_list_num; rewrite E; reflexivity. Qed.

(** The handler of a state request after its checks, which never fail. *)
Lemma process_state_ok s me m p opt : has_mod s me m -> 0 <= pkt_cmd p ->
  sizeof_ptr = 4 \/ sizeof_ptr = 8 ->
  mcs_command_state_list !! Z.to_nat (pkt_cmd p) = Some opt ->
  process_pkt_state me p s =
  (do! sdb_qos_register_packet_ready me p in
   let! response := st_lift
     (if cmd_response_size (state_cmd opt) =? -1 then
        match state_request opt p with
        | Some d => mcs_ok_packet_data p (state_request opt p) (strlen d + 1)
        | None => UB
        end
      else if cmd_response_size (state_cmd opt) <? 0 then UB
      else mcs_ok_packet_data p (state_request opt p) (cmd_response_size (state_cmd opt))) in
   do! reply me response in st_ret tt) s.
Proof.
  intros Hm Hc Hptr Hopt. pose proof (lookup_lt_Some _ _ _ Hopt) as Hlt.
  unfold process_pkt_state, mcs_command_list_size, MCS_TYPE_STATE, MCS_TYPE_MESSAGE.
  cbn [Z.eqb Pos.eqb]. rewrite (proj2 (Z.leb_gt _ _)) by (unfold zlen; lia). rewrite Hopt.
  rewrite (st_bind_ok _ _ _ _ _ (get_mod_ok s me m Hm)), perms_never_checked by done.
  unfold take. reflexivity.
Qed.

Lemma dispatch_state me p : pkt_type p = MCS_TYPE_STATE ->
  dispatch_packet me p = (do! process_pkt_state me p in st_ret (Some tt)).
Proof. intros Ht. unfold dispatch_packet, mcs_is_answer_packet. by rewrite Ht. Qed.

(** A request for a state is answered with the value its update function
    returns, whatever the group of the module and the expiration it asks for:
    the limits of the table are never looked at, on machines with pointers of
    four and of eight bytes. *)
Theorem state_request_answered s me m p opt d rest :
  registered s me m -> logged s -> readable p -> pkt_type p = MCS_TYPE_STATE ->
  sizeof_ptr = 4 \/ sizeof_ptr = 8 ->
  mcs_command_state_list !! Z.to_nat (pkt_cmd p) = Some opt ->
  state_request opt p = Some d -> bytes_ok d ->
  0 < state_answer_size opt d <= zlen d -> state_answer_size opt d < 65536 ->
  mod_data_valid m = false -> mod_data_socket m = true ->
  0 <= mod_rfd m -> avail (mod_rfd m) (wire p ++ rest) (sys_world s) ->
  writable (mod_wfd m) (sys_world s) ->
  exists s' answer, module_round me s = Ok (Some true, s') /\
    answer = mkMCSPacket (pkt_id p) MCS_TYPE_OK_DATA 0 0 None None (state_answer_size opt d)
               (Some (take (Z.to_nat (state_answer_size opt d)) d)) /\
    sys_world s' = emit (mod_wfd m) (wire answer)
                     (consume (mod_rfd m) (length (wire p)) (sys_world s)) /\ frame [me] s s'.
Proof.
  intros (Hm & Hid & Hlast) Hlog Hp Ht Hptr Hopt Hreq Hd Hn Hn16 Hval Hsock Hfd Hav Hw.
  destruct (round_dispatch s me m p rest) as (t1 & Hl1 & Hround); try done.
  set (s1 := after_read m p t1 s) in *. set (n := state_answer_size opt d) in *.
  set (answer := mkMCSPacket _ _ _ _ _ _ _ _).
  destruct (qos_event_logged s1 me m SDB_QOS_PKT_READY p) as (t2 & E2 & _); [done|done|].
  set (s2 := set_qos t2 s1) in *.
  assert (Hans : mcs_ok_packet_data p (Some d) n = Ok answer).
  { unfold mcs_ok_packet_data, mcs_ok_packet_data_id, abs_malloccpy, memcpy.
    rewrite (proj2 (Z.eqb_neq _ _)), (proj2 (Z.leb_le _ _)) by lia.
    rewrite u16_small by lia. done. }
  assert (Hsend : sendable answer).
  { unfold sendable, readable. split_and!; [|left|cbn; lia|done].
    - split; cbn; try done; try apply Hp; try lia.
      split; [unfold zlen in *; rewrite length_take; lia|by apply Forall_take].
    - cbn. split_and!; done. }
  pose proof (reply_ok s2 me m answer Hm Hsend ltac:(by apply consume_writable)) as E3.
  eexists _, answer. split; [eapply (Hround _ m)|].
  - rewrite dispatch_state by done. erewrite st_bind_ok; [done|].
    rewrite (process_state_ok s1 me m p opt); [|done|apply Hp|done|done].
    unfold sdb_qos_register_packet_ready. rewrite (st_bind_ok _ _ _ _ _ E2), Hreq.
    assert (Hlift : (if cmd_response_size (state_cmd opt) =? -1
       then mcs_ok_packet_data p (Some d) (strlen d + 1)
       else if cmd_response_size (state_cmd opt) <? 0 then UB
            else mcs_ok_packet_data p (Some d) (cmd_response_size (state_cmd opt))) = Ok answer).
    { unfold n, state_answer_size in Hans, Hn. destruct (_ =? -1); [done|].
      by rewrite (proj2 (Z.ltb_ge _ _)) by lia. }
    rewrite Hlift. unfold st_bind at 1, st_lift. rewrite (st_bind_ok _ _ _ _ _ E3). done.
  - done.
  - split_and!; [done|done|]. unfold s2, s1, after_read. frame_tac.
Qed.

(** A state whose update function returns NULL, as the one of the repository
    does, makes the daemon read through a NULL pointer. *)
Theorem state_request_null_crashes s me m p opt rest :
  registered s me m -> logged s -> readable p -> pkt_type p = MCS_TYPE_STATE ->
  sizeof_ptr = 4 \/ sizeof_ptr = 8 ->
  mcs_command_state_list !! Z.to_nat (pkt_cmd p) = Some opt ->
  state_request opt p = None -> cmd_response_size (state_cmd opt) <> 0 ->
  mod_data_valid m = false -> mod_data_socket m = true ->
  0 <= mod_rfd m -> avail (mod_rfd m) (wire p ++ rest) (sys_world s) ->
  module_round me s = UB.
Proof.
  intros (Hm & Hid & Hlast) Hlog Hp Ht Hptr Hopt Hreq Hn Hval Hsock Hfd Hav.
  destruct (socket_read_ok s me m p rest Hm Hlog Hp Hfd Hav) as (t & Hl & E1 & E2).
  destruct (qos_event_logged (after_read m p t s) me m SDB_QOS_PKT_READY p) as (t2 & E3 & _);
    [done|done|].
  unfold module_round. rewrite (st_bind_ok _ _ _ _ _ (get_mod_ok s me m Hm)), Hval, Hsock.
  unfold process_pkt_socket, st_obind at 1, st_bind at 1.
  rewrite (st_bind_ok _ _ _ _ _ (get_mod_ok s me m Hm)).
  rewrite (st_bind_ok _ _ _ _ _ E1), (st_bind_ok _ _ _ _ _ E2).
  rewrite dispatch_state by done. unfold st_obind, st_bind at 1. unfold st_bind at 1.
  rewrite (process_state_ok _ me m p opt); [|done|apply Hp|done|done].
  unfold sdb_qos_register_packet_ready. fold (after_read m p t s).
  rewrite (st_bind_ok _ _ _ _ _ E3), Hreq.
  unfold st_bind at 1, st_lift, mcs_ok_packet_data, mcs_ok_packet_data_id, abs_malloccpy, memcpy.
  destruct (_ =? -1); [done|]. destruct (_ <? 0); [done|].
  by rewrite (proj2 (Z.eqb_neq _ _) Hn).
Qed.

(** C37: the size check before a packet is copied to another module forgets the
    sender's id and the destination.  A packet that fits is delivered, one that
    fails the check is refused with nothing changed, and one in between, up to
    4 bytes and the length of the destination over the limit, is written past
    the end of the region. *)
Theorem region_write_bounds s me m to mt p :
  has_mod s me m -> has_mod s to mt -> to < sys_last s -> can_receive mt ->
  sendable p -> logged s ->
  (region_size p <= SDB_MODULE_DATA_SIZE ->
   exists t, sdb_module_write_mcs_packet (Some me) p to s
     = Ok (Some 0, set_qos t (set_mod to (with_data (RegionFull (mod_id m) p) true mt) s))) /\
  (SDB_MODULE_DATA_SIZE < sizeof_MCSPacket + pkt_nargs p + pkt_data_size p ->
   sdb_module_write_mcs_packet (Some me) p to s = Ok (Some (-1), s)) /\
  (sizeof_MCSPacket + pkt_nargs p + pkt_data_size p <= SDB_MODULE_DATA_SIZE < region_size p ->
   sdb_module_write_mcs_packet (Some me) p to s = UB).
Proof.
  intros Hm Hmt Hlast Hcan Hp Hlog. split_and!.
  - intros Hf. destruct (write_mcs_packet_ok s me m to mt p Hm Hmt Hlast Hcan Hp Hf Hlog)
      as (t & _ & E). by exists t.
  - intros Hbig. unfold sdb_module_write_mcs_packet, get_info_id, st_bind, st_gets.
    rewrite (proj2 (Z.leb_gt _ _)) by done. cbn [st_ret].
    by rewrite (proj2 (Z.ltb_lt _ _)) by done.
  - intros [Hs Hbig]. destruct Hcan as (Hlock & Hreg & Hval).
    unfold sdb_module_write_mcs_packet, get_info_id.
    unfold st_bind at 1. unfold st_bind at 1, st_gets.
    rewrite (proj2 (Z.leb_gt _ _)) by done. cbn [st_ret].
    rewrite (proj2 (Z.ltb_ge _ _) Hs).
    rewrite (st_bind_ok _ _ _ _ _ (get_mod_ok s to mt Hmt)), Hlock. cbn [andb].
    rewrite (st_obind_ok _ _ _ _ _ (wait_region_free s (Some me) to mt wakeups Hmt Hval)). cbn [negb].
    rewrite (st_bind_ok _ _ _ _ _ (get_mod_ok s me m Hm)).
    rewrite (st_bind_ok _ _ _ _ _ (get_mod_ok s to mt Hmt)).
    rewrite (proj2 (Z.ltb_lt _ _) Hbig). by destruct (mod_data mt).
Qed.

End Properties.

(** ** Witnesses: two modules, [a] and [b], connected by sockets 5 and 6. *)

Section Witnesses.

#[local] Existing Instances repo_tables release_build.

#[local] Instance quiet_environment : Environment SDBQueue := {| garbage := 0; wakeups := [] |}.

Definition blank_module : SDBModule SDBQueue :=
  mkModule 0 0 0 None SDB_GROUP_SYSCORE false NoRegion false false sdb_queue_init false.

(** Module [i] on socket [fd], with a packet waiting on it if [sock]. *)
Definition ready_module (i fd : Z) (name : string) (sock qos : bool) : SDBModule SDBQueue :=
  mkModule i fd fd (Some (str name)) SDB_GROUP_APP false RegionFresh false sock sdb_queue_init qos.

Definition mod_a (qos : bool) : SDBModule SDBQueue := ready_module 0 5 "a" true qos.
Definition mod_b : SDBModule SDBQueue := ready_module 1 6 "b" false true.

Definition sockets (bs : list Z) : World :=
  mkWorld 0 {[5 := mkFd (wire_events bs) [] None; 6 := mkFd [] [] None]}.

Definition two_modules (qos : bool) (bs : list Z) : Sys SDBQueue :=
  mkSys (sockets bs)
    (mod_a qos :: mod_b :: replicate 18 blank_module)
    2 sdb_qos_init (-1).

Lemma sockets_avail bs : avail 5 (bs ++ []) (sockets bs).
Proof.
  rewrite app_nil_r. exists (mkFd (wire_events bs) [] None), (wire_events bs), [].
  split_and!; [done|by rewrite app_nil_r|apply arrived_events].
Qed.

Lemma sockets_writable bs : writable 5 (sockets bs) /\ writable 6 (sockets bs).
Proof. split; eexists; done. Qed.

Lemma two_modules_a qos bs : registered (two_modules qos bs) 0 (mod_a qos).
Proof. done. Qed.

Lemma two_modules_b qos bs : registered (two_modules qos bs) 1 mod_b.
Proof. done. Qed.

Lemma two_modules_logged qos bs : logged (two_modules qos bs).
Proof. exists []. apply table_rep_init. Qed.

(** A [test] message for module [name]. *)
Definition test_message (name : string) : MCSPacket :=
  mkMCSPacket 77 MCS_TYPE_MESSAGE 0 0 None (Some (str name)) 0 None.

Lemma test_message_sendable name : bytes_ok (str name) -> zlen (str name) <= 10 ->
  Forall (fun b => b <> 0) (str name) -> sendable (test_message name).
Proof.
  intros Hb Hl Hz. unfold sendable, readable. split_and!; [split; cbn; try done; lia|right|done|].
  - eexists. split_and!; try done. exists (str name). done.
  - by intros d [= <-].
Qed.

Lemma test_b_sendable : sendable (test_message "b").
Proof. apply test_message_sendable; [bytes_lit|done|]. by repeat constructor. Qed.

Lemma test_b_fits : fits_region (test_message "b").
Proof. done. Qed.

Lemma test_a_not_b : 0 <> 1.
Proof. done. Qed.

Lemma mod_a_queue qos : qs_rep (mod_queue (mod_a qos)) [].
Proof. apply q_rep_init. Qed.

Lemma mod_b_queue : qs_rep (mod_queue mod_b) [].
Proof. apply q_rep_init. Qed.

Lemma mod_a_receives : can_receive (mod_a true).
Proof. done. Qed.

Lemma mod_b_receives : can_receive mod_b.
Proof. done. Qed.

(** The modules that come before [b], and all of them, are not called [c]. *)
Lemma two_modules_unlike bs name n : n <= 2 -> cstr (str name) <> str "a" ->
  (n <= 1 \/ cstr (str name) <> str "b") -> unlike (two_modules true bs) (str name) n.
Proof.
  intros Hn Ha Hb i m Hi [Hi0 Hm].
  assert (i = 0 \/ i = 1) as [-> | ->] by lia; cbn in Hm; injection Hm as <-; cbn.
  - exists (str "a"). split; [done|]. change (cstr (str "a")) with (str "a"). congruence.
  - exists (str "b"). split; [done|]. change (cstr (str "b")) with (str "b").
    destruct Hb as [?|Hb]; [lia|congruence].
Qed.

Lemma test_addresses name : addresses
  (repo_message "test" false 0 (Some "@arg0"%string) [SDB_GROUP_ANY] [SDB_GROUP_ANY])
  (test_message name) (str name).
Proof. exists (str "@arg0"). done. Qed.

Lemma test_b_routed :
  routed (two_modules true (wire (test_message "b"))) (mod_a true) (test_message "b") 1 mod_b.
Proof.
  split; [done|]. eexists _, (str "b"). split; [reflexivity|]. split; [by left|].
  split; [apply test_addresses|]. split; [|by left]. split; [done|]. split; [done|].
  split; [apply two_modules_unlike; [done|done|by left]|]. by exists (str "b").
Qed.

Lemma test_c_refused :
  Refused (two_modules true (wire (test_message "c"))) (mod_a true) (test_message "c") EBADMODID.
Proof.
  eapply RefusedUnknown; [reflexivity|by left|apply test_addresses| |].
  - apply Nat.leb_le. reflexivity.
  - apply two_modules_unlike; [done|done|by right].
Qed.

Lemma test_c_readable : readable (test_message "c").
Proof. apply test_message_sendable; [bytes_lit|done|]. by repeat constructor. Qed.

Lemma message_round_trip_witness :
  exists s1 s2, module_round 0 (two_modules true (wire (test_message "b"))) = Ok (Some true, s1) /\
    module_round 1 s1 = Ok (Some true, s2) /\
    sys_world s2 = emit 6 (wire (test_message "b"))
      (consume 5 (length (wire (test_message "b"))) (sockets (wire (test_message "b")))).
Proof.
  destruct (message_round_trip (two_modules true (wire (test_message "b"))) 0 (mod_a true) []
    1 mod_b [] (test_message "b") [] (two_modules_a true _) (two_modules_b true _) test_a_not_b
    (two_modules_logged true _) (mod_a_queue true) mod_b_queue (Forall_nil_2 _) (Forall_nil_2 _)
    mod_a_receives mod_b_receives eq_refl test_b_sendable test_b_fits test_b_routed
    ltac:(discriminate) ltac:(discriminate) (sockets_avail _) (proj2 (sockets_writable _)))
    as (s1 & s2 & mb2 & E1 & E2 & Hw & _).
  exists s1, s2. split; [exact E1|]. split; [exact E2|exact Hw].
Defined.

Lemma unexpected_answer_dropped_witness :
  exists s', module_round 0 (two_modules true (wire (mcs_ok_packet_id 9))) = Ok (Some true, s') /\
    sys_world s' = consume 5 5 (sockets (wire (mcs_ok_packet_id 9))).
Proof.
  destruct (unexpected_answer_dropped (two_modules true (wire (mcs_ok_packet_id 9))) 0 (mod_a true)
    [] (mcs_ok_packet_id 9) [] (two_modules_a true _) (mod_a_queue true) (Forall_nil_2 _)
    (two_modules_logged true _) eq_refl eq_refl (proj1 (ok_packet_sendable 9 ltac:(done))) eq_refl
    ltac:(discriminate) (sockets_avail _)) as (q & s' & E & _ & Hw & _).
  exists s'. split; [exact E|exact Hw].
Defined.

Lemma message_refused_witness :
  exists s', module_round 0 (two_modules true (wire (test_message "c"))) = Ok (Some true, s') /\
    sys_world s' = emit 5 (wire (mcs_err_packet (test_message "c") EBADMODID))
      (consume 5 (length (wire (test_message "c"))) (sockets (wire (test_message "c")))).
Proof.
  destruct (message_refused (two_modules true (wire (test_message "c"))) 0 (mod_a true)
    (test_message "c") EBADMODID [] (two_modules_a true _) (two_modules_logged true _)
    test_c_readable eq_refl test_c_refused eq_refl eq_refl ltac:(discriminate) (sockets_avail _)
    (proj1 (sockets_writable _))) as (s' & E & Hw & _).
  exists s'. split; [exact E|exact Hw].
Defined.

Definition qos_stop_message : MCSPacket :=
  mkMCSPacket 8 MCS_TYPE_MESSAGE MCS_MESSAGE_SDB_QOS_STOP 0 None None 0 None.

Lemma qos_stop_readable : readable qos_stop_message.
Proof. split; [split; cbn; try done; lia|]. right. eexists. split_and!; done. Qed.

Lemma qos_stop_answered_twice_witness :
  exists s', module_round 0 (two_modules false (wire qos_stop_message)) = Ok (Some true, s') /\
    sys_world s' = emit 5 (wire (mcs_err_packet qos_stop_message EBADFORMAT))
      (emit 5 (wire (mcs_err_packet qos_stop_message EUNDEF))
        (consume 5 7 (sockets (wire qos_stop_message)))).
Proof.
  destruct (qos_stop_answered_twice (two_modules false (wire qos_stop_message)) 0 (mod_a false)
    qos_stop_message (repo_message "sdb_qos_stop" false (-1) None [SDB_GROUP_ANY] []) []
    (two_modules_a false _) (two_modules_logged false _) qos_stop_readable eq_refl eq_refl eq_refl
    eq_refl eq_refl eq_refl eq_refl eq_refl ltac:(discriminate) (sockets_avail _)
    (proj1 (sockets_writable _))) as (s' & E & Hw).
  exists s'. split; [exact E|exact Hw].
Defined.

Definition state_request_packet : MCSPacket :=
  mkMCSPacket 8 MCS_TYPE_STATE 0 1 (Some [0]) None 0 None.

Lemma state_request_readable : readable state_request_packet.
Proof.
  split; [split; cbn; try done; try lia; split; [done|bytes_lit]|].
  right. eexists. split_and!; done.
Qed.

Lemma ptr_size : sizeof_ptr = 4 \/ sizeof_ptr = 8.
Proof. by left. Qed.

Lemma state_request_null_crashes_witness :
  module_round 0 (two_modules true (wire state_request_packet)) = UB.
Proof.
  apply (state_request_null_crashes _ 0 (mod_a true) state_request_packet
    (mkState (mkCommon (str "temperature_arduino") 1 false 8) (fun _ => None) 1
       (mkPerms SDB_GROUP_APP 15 :: replicate 4 (mkPerms SDB_GROUP_SYSCORE 0))) []
    (two_modules_a true _) (two_modules_logged true _) state_request_readable eq_refl
    ptr_size eq_refl eq_refl ltac:(discriminate) eq_refl eq_refl ltac:(discriminate)
    (sockets_avail _)).
Defined.

Definition value_state : MCSCommandOptionsState :=
  mkState (mkCommon (str "temperature_arduino") 1 false 8)
    (fun _ => Some [1; 2; 3; 4; 5; 6; 7; 8]) 1
    (mkPerms SDB_GROUP_APP 15 :: replicate 4 (mkPerms SDB_GROUP_SYSCORE 0)).

(** The tables with an update function that returns a value of eight bytes. *)
Definition tables_with_value : MCSTables := {|
  mcs_command_message_list := mcs_command_message_list;
  mcs_command_state_list :=
    [value_state];
  mcs_command_payload_list := mcs_command_payload_list
|}.

Lemma value_bytes : bytes_ok [1; 2; 3; 4; 5; 6; 7; 8].
Proof. bytes_lit. Qed.

Lemma value_size : 0 < state_answer_size value_state [1; 2; 3; 4; 5; 6; 7; 8] <= 8.
Proof. done. Qed.

(** A module of group [app] may not ask for values older than 15, yet 0 works. *)
Lemma state_request_answered_witness :
  exists s' answer,
    @module_round tables_with_value _ _ _ _ 0 (two_modules true (wire state_request_packet))
    = Ok (Some true, s') /\ pkt_data answer = Some [1; 2; 3; 4; 5; 6; 7; 8] /\
    sys_world s' = emit 5 (wire answer)
      (consume 5 (length (wire state_request_packet)) (sockets (wire state_request_packet))).
Proof.
  destruct (@state_request_answered tables_with_value _ _ _ _
    (two_modules true (wire state_request_packet)) 0 (mod_a true)
    state_request_packet value_state [1; 2; 3; 4; 5; 6; 7; 8] []
    (two_modules_a true _) (two_modules_logged true _) state_request_readable eq_refl
    ptr_size eq_refl eq_refl value_bytes value_size eq_refl eq_refl eq_refl
    ltac:(discriminate) (sockets_avail _) (proj1 (sockets_writable _)))
    as (s' & answer & E & Ha & Hw & _).
  exists s', answer. split; [exact E|]. split; [rewrite Ha; reflexivity|exact Hw].
Defined.

(** Handshake data of 995 bytes passes the check and needs 1027 bytes. *)
Definition large_packet (n : nat) : MCSPacket :=
  mkMCSPacket 8 MCS_TYPE_MESSAGE MCS_MESSAGE_SDB_HANDSHAKE 0 None None (Z.of_nat n)
    (Some (replicate n 65)).

Lemma large_packet_sendable : sendable (large_packet 995).
Proof.
  unfold sendable, readable. split_and!; [|right; eexists; split_and!; done|done|done].
  split; try done. split; [reflexivity|]. apply Forall_replicate. done.
Qed.

Lemma region_write_bounds_witness :
  sdb_module_write_mcs_packet (Some 0) (large_packet 995) 1 (two_modules true []) = UB.
Proof.
  apply (region_write_bounds (two_modules true []) 0 (mod_a true) 1 mod_b (large_packet 995)).
  - apply two_modules_a.
  - apply two_modules_b.
  - done.
  - done.
  - apply large_packet_sendable.
  - apply two_modules_logged.
  - done.
Defined.

End Witnesses.
