(* ===== verification/Daemon.v ===== *)
(** * Daemon: the other threads of the daemon.

    The observer ([sdb_observer.c]) that watches the sockets and flags the
    modules with something to read, the director ([sdb_director.c]) that accepts
    connections, and the two threads of the USB link ([sdb_usb.c]). *)

From S2P Require Import Prelude Abs McsDefs Mcs Queue QueueFacts Qos Usb Module.

Section Threads.
Context `{MCSTables} `{Build} `{QueueSpec Q} `{!Environment Q}.

(** ** The observer. *)

(** The descriptors of the first [n] modules, from [i]. *)
Fixpoint module_fds (mods : list (SDBModule Q)) (i n : nat) : outcome (list Z) :=
  match n with
  | O => Ok []
  | S n' =>
      match mods !! i with
      | None => UB
      | Some m => match module_fds mods (S i) n' with
                  | Ok l => Ok (mod_rfd m :: l)
                  | UB => UB
                  end
      end
  end.

(** The second loop of the observer: a module whose lock is free is flagged. *)
Fixpoint flag_modules (ready : list Z) (i n : nat) : ST (Sys Q) unit :=
  match n with
  | O => st_ret tt
  | S n' =>
      let! m := get_mod (Z.of_nat i) in
      do! (if bool_decide (mod_rfd m ∈ ready) && negb (mod_locked m)
           then put_mod (Z.of_nat i) (with_socket true m) else st_ret tt) in
      flag_modules ready (S i) n'
  end.

(** One round of the [while] of [sdb_observer_thread]; [pipe] is [pipefd[0]]. *)
Definition observer_round (pipe : Z) : ST (Sys Q) (option unit) :=
  let! s := st_get in
  let last := Z.to_nat (sys_last s) in
  let! fds := st_lift (module_fds (sys_modules s) 0 last) in
  let? (ret, ready) := in_world (os_select_set (pipe :: fds)) in
  if ret <? 0 then st_ret (Some tt)
  else if bool_decide (pipe ∈ ready) then do! in_world (os_read1 pipe) in st_ret (Some tt)
  else do! flag_modules ready 0 last in st_ret (Some tt).

(** ** The director. *)

(** One round of the [while] of [sdb_director_thread], after [accept] returned
    [con_fd]: the number of retries left, or [None] when the thread ends. *)
Definition director_round (retry con_fd : Z) : ST (Sys Q) (option Z) :=
  if con_fd <? 0 then
    let retry := retry - 1 in
    if negb (retry =? 0) then st_ret (Some retry) else st_ret None
  else
    do! sdb_module_init con_fd con_fd in
    st_ret (Some 5).

(** ** The USB threads. *)

(** The daemon with the two queues of the link and what was written to it. *)
Record UsbSys := mkUsbSys {
  usb_sys : Sys Q;
  sdb_usb_queue_send : SDBQueue;
  sdb_usb_queue_receive : SDBQueue;
  usb_written : list (list Z)
}.

Definition in_sys {A} (m : ST (Sys Q) A) : ST UsbSys A :=
  st_zoom usb_sys (fun s u => mkUsbSys s (sdb_usb_queue_send u) (sdb_usb_queue_receive u)
                                (usb_written u)) m.
Definition in_send {A} (m : QM A) : ST UsbSys A :=
  st_zoom sdb_usb_queue_send (fun q u => mkUsbSys (usb_sys u) q (sdb_usb_queue_receive u)
                                           (usb_written u)) m.
Definition in_receive {A} (m : QM A) : ST UsbSys A :=
  st_zoom sdb_usb_queue_receive (fun q u => mkUsbSys (usb_sys u) (sdb_usb_queue_send u) q
                                              (usb_written u)) m.

(** One round of [sdb_usb_thread_read], where [read] has put [size] bytes in the
    buffer [buf]. *)
Definition usb_read_round (buf : list Z) (size : Z) : ST UsbSys (option unit) :=
  let! response := st_lift (usb_to_mcs buf size) in
  match response with
  | None => st_ret (Some tt)
  | Some r =>
      let! pkt_origin := in_receive (sdb_queue_get r) in
      match pkt_origin with
      | None => st_ret (Some tt)
      | Some o =>
          let? _ := in_sys (sdb_module_write_mcs_packet None r (id_process o)) in
          st_ret (Some tt)
      end
  end.

(** One round of [sdb_usb_thread_write]; [env] is what other threads do while it
    waits for a packet. *)
Definition usb_write_round (env : SDBQueue -> SDBQueue) : ST UsbSys (option unit) :=
  let! p := in_send (sdb_queue_pop_block env) in
  let! raw := st_lift (mcs_to_usb (sdb_pkt p)) in
  match raw with
  | Some usb_packet =>
      do! in_receive (sdb_queue_push p) in
      do! st_modify (fun u => mkUsbSys (usb_sys u) (sdb_usb_queue_send u)
                                (sdb_usb_queue_receive u) (usb_written u ++ [usb_packet])) in
      st_ret (Some tt)
  | None =>
      let? _ := in_sys (sdb_module_write_mcs_packet None
                          (mcs_err_packet (sdb_pkt p) EBADFORMAT) (id_process p)) in
      st_ret (Some tt)
  end.

End Threads.

Arguments UsbSys : clear implicits.
