(* ===== verification/DaemonProps.v ===== *)
(** * DaemonProps: connection, disconnection, observation and the USB link.

    The handshake that makes a client a module, what happens when it fails, what
    the observer does, and what the threads of the USB link do. *)

From S2P Require Import Prelude Abs McsDefs Mcs McsFacts McsProps Queue QueueFacts QueueProps.
From S2P Require Import Qos QosFacts Usb Module ModuleFacts Routing ModuleProps Daemon.

(** ** Strings in the handshake. *)

Lemma strchr_found name c rest : Forall (fun b => b <> 0 /\ b <> c) name ->
  strchr (name ++ c :: rest) c = Ok (Some (length name)).
Proof.
  induction 1 as [|b name [Hb Hc] _ IH]; cbn; [by rewrite Z.eqb_refl|].
  rewrite (proj2 (Z.eqb_neq b c) Hc), (proj2 (Z.eqb_neq b 0) Hb). by rewrite IH.
Qed.

Lemma strcmp_eq_spec l lit junk :
  Forall (fun b => b <> 0) l -> Forall (fun b => b <> 0) lit ->
  strcmp_eq (l ++ 0 :: junk) lit = Ok (bool_decide (l = lit)).
Proof.
  intros Hl. revert lit. induction Hl as [|b l Hb _ IH]; intros lit Hlit.
  - destruct Hlit as [|c lit Hc _]; [done|]. cbn [strcmp_eq app].
    rewrite (proj2 (Z.eqb_neq 0 c)) by congruence. by rewrite bool_decide_eq_false_2.
  - destruct Hlit as [|c lit Hc Hlit]; cbn [strcmp_eq app].
    + rewrite (proj2 (Z.eqb_neq b 0) Hb). by rewrite bool_decide_eq_false_2.
    + destruct (b =? c) eqn:E; bool_prop.
      * subst c. rewrite IH by done. f_equal. apply bool_decide_ext. split; congruence.
      * by rewrite bool_decide_eq_false_2 by congruence.
Qed.

Lemma conversion_nonzero : Forall (fun gn => Forall (fun b => b <> 0) gn.2) sdb_group_conversion.
Proof. repeat constructor; done. Qed.

(** The group with a given name. *)
Fixpoint group_of (name : list Z) (table : list (SDBGroup * list Z)) : option SDBGroup :=
  match table with
  | [] => None
  | (g, n) :: table' => if bool_decide (name = n) then Some g else group_of name table'
  end.

Lemma find_group_spec name junk table :
  Forall (fun gn => Forall (fun b => b <> 0) gn.2) table -> Forall (fun b => b <> 0) name ->
  find_group (name ++ 0 :: junk) table = Ok (group_of name table).
Proof.
  intros Ht Hn. induction Ht as [|[g n] table Hg _ IH]; cbn; [done|].
  rewrite strcmp_eq_spec by done. by case_bool_decide.
Qed.

(** A handshake: a name and the name of a group, with a NUL. *)
Definition handshake_data (name group junk : list Z) : list Z :=
  name ++ 58 :: group ++ 0 :: junk.

Lemma parse_handshake_spec name group junk :
  Forall (fun b => b <> 0 /\ b <> 58) name -> Forall (fun b => b <> 0) group ->
  parse_handshake (Some (handshake_data name group junk))
  = Ok (Some (name, group_of group sdb_group_conversion)).
Proof.
  intros Hn Hg. unfold parse_handshake, handshake_data. rewrite strchr_found by done.
  unfold name_too_long, SDB_MODULE_NAME_SIZE. rewrite (proj2 (Z.leb_gt _ _)) by lia.
  replace (drop (S (length name)) (name ++ 58 :: group ++ 0 :: junk)) with (group ++ 0 :: junk).
  - rewrite find_group_spec by (done || apply conversion_nonzero). by rewrite take_app_length.
  - change (58 :: group ++ 0 :: junk) with ([58] ++ group ++ 0 :: junk).
    rewrite app_assoc. symmetry. apply drop_app_length'. rewrite length_app. cbn. lia.
Qed.

Section Properties.
Context `{MCSTables} `{Build} `{QueueSpec Q} `{!Environment Q}.
Implicit Types (s : Sys Q) (m mt : SDBModule Q).

(** The state in which the thread of a new module reads its first packet. *)
Definition starting_module (me : Z) m : SDBModule Q :=
  mkModule me (mod_rfd m) (mod_wfd m) (mod_name m) (mod_group m) true
    (mod_data m) (mod_data_valid m) (mod_data_socket m) qs_init true.

(** The observer's pipe is not open yet, or takes what is written to it. *)
Definition observer_ok s : Prop :=
  sys_observer_fd s = -1 \/ writable (sys_observer_fd s) (sys_world s).

(** The world when the observer has been woken up. *)
Definition woken s (w : World) : World :=
  if sys_observer_fd s =? -1 then w else emit (sys_observer_fd s) (str "w") w.

Lemma wake_up_ok s : observer_ok s ->
  sdb_observer_wake_up s = Ok (tt, set_world (woken s (sys_world s)) s).
Proof.
  intros Ho. unfold sdb_observer_wake_up, woken, st_bind at 1, st_gets.
  destruct (sys_observer_fd s =? -1) eqn:E; bool_prop; cbn [negb]; [by destruct s|].
  destruct Ho as [?|Hw]; [done|]. erewrite st_bind_ok; [reflexivity|].
  apply in_world_ok. by apply os_write_writable.
Qed.

(** The first packet is read and logged. *)
Lemma start_read s me m p rest : has_mod s me m -> logged s -> readable p ->
  0 <= mod_rfd m -> avail (mod_rfd m) (wire p ++ rest) (sys_world s) ->
  exists t, logged (set_qos t s) /\ forall k,
    (let! m := get_mod me in
     let! read := in_world (mcs_read_command (mod_rfd m) (mod_wfd m)) in
     match read with
     | None => do! sdb_module_clean me in st_ret false
     | Some pkt => do! sdb_qos_register_packet_in me pkt in k pkt
     end) s
    = k p (after_read m p t s).
Proof.
  intros Hm Hlog Hp Hfd Hav.
  destruct (socket_read_ok s me m p rest Hm Hlog Hp Hfd Hav) as (t & Hl & E1 & E2).
  exists t. split; [done|]. intros k. rewrite (st_bind_ok _ _ _ _ _ (get_mod_ok s me m Hm)).
  by rewrite (st_bind_ok _ _ _ _ _ E1), (st_bind_ok _ _ _ _ _ E2).
Qed.

(** A handshake packet. *)
Definition handshake_packet_of (p : MCSPacket) (name group junk : list Z) : Prop :=
  readable p /\ mcs_command p = MCS_MESSAGE_SDB_HANDSHAKE /\
  pkt_data p = Some (handshake_data name group junk) /\
  Forall (fun b => b <> 0 /\ b <> 58) name /\ Forall (fun b => b <> 0) group.

(** The start of a module whose client sends a valid handshake. *)
Lemma start_accepted s me m p name group junk g rest :
  has_mod s me m -> logged s -> 0 <= mod_rfd m -> handshake_packet_of p name group junk ->
  group_of group sdb_group_conversion = Some g ->
  avail (mod_rfd m) (wire p ++ rest) (sys_world s) -> writable (mod_wfd m) (sys_world s) ->
  observer_ok s ->
  exists s', module_start me s = Ok (true, s') /\ logged s' /\ frame [me] s s' /\
    has_mod s' me (mkModule me (mod_rfd m) (mod_wfd m) (Some name) g false RegionFresh
                     false false qs_init true) /\
    sys_world s' = woken s (emit (mod_wfd m) (wire (mcs_ok_packet p))
                     (consume (mod_rfd m) (length (wire p)) (sys_world s))).
Proof.
  intros Hm Hlog Hfd (Hp & Hc & Hd & Hn & Hg) Hgrp Hav Hw Ho.
  set (m0 := starting_module me m). set (s0 := set_mod me m0 s).
  assert (Hm0 : has_mod s0 me m0) by by eapply has_mod_set_eq.
  destruct (start_read s0 me m0 p rest Hm0) as (t1 & Hl1 & Hread); try done.
  set (m2 := with_group g (with_name (Some name) m0)).
  set (s2 := set_mod me m2 (after_read m0 p t1 s0)).
  assert (Hm2 : has_mod s2 me m2) by (eapply has_mod_set_eq; exact Hm0).
  pose proof (reply_ok s2 me m2 (mcs_ok_packet p) Hm2
    (ok_packet_sendable _ (wf_id p (proj1 Hp)))
    ltac:(by apply consume_writable)) as E3.
  set (w := emit _ _ _) in E3. set (s3 := set_world w s2) in E3.
  destruct (qos_event_logged s3 me m2 SDB_QOS_PKT_READY p Hm2) as (t4 & E4 & Hl4); [exact Hl1|].
  set (m5 := with_socket false (with_data RegionFresh false m2)).
  set (s5 := set_mod me m5 (set_qos t4 s3)).
  assert (Hm5 : has_mod s5 me m5) by (eapply has_mod_set_eq; exact Hm2).
  assert (Ho5 : observer_ok s5).
  { destruct Ho as [?|Ho]; [by left|right]. by apply emit_writable, consume_writable. }
  pose proof (wake_up_ok s5 Ho5) as E6. set (w6 := woken s5 _) in E6.
  exists (set_mod me (with_lock false m5) (set_world w6 s5)).
  split_and!; [|exact Hl4| |by eapply has_mod_set_eq|done].
  - unfold module_start. rewrite (st_bind_ok _ _ _ _ _ (update_mod_ok _ s me m Hm)).
    fold (starting_module me m) m0 s0. rewrite Hread, Hc, Z.eqb_refl. cbn [negb].
    unfold st_bind at 1, st_lift. rewrite Hd, parse_handshake_spec, Hgrp by done.
    rewrite (st_bind_ok _ _ _ _ _ (update_mod_ok _ (after_read m0 p t1 s0) me m0 Hm0)).
    fold m2 s2. rewrite (st_bind_ok _ _ _ _ _ E3).
    unfold sdb_qos_register_packet_ready. rewrite (st_bind_ok _ _ _ _ _ E4).
    rewrite (st_bind_ok _ _ _ _ _ (update_mod_ok _ (set_qos t4 s3) me m2 Hm2)).
    fold m5 s5. rewrite (st_bind_ok _ _ _ _ _ E6).
    by rewrite (st_bind_ok _ _ _ _ _ (update_mod_ok _ (set_world w6 s5) me m5 Hm5)).
  - unfold s5, s3, s2, after_read, s0. frame_tac.
Qed.

(** C20: a handshake with a known group makes the client a module: it is given
    the name and the group it asked for, an empty queue and an empty region, it
    is answered with an acknowledgement, and from then on it can receive
    packets.  The name may have any length. *)
Theorem handshake_accepted s me m p name group junk g rest :
  has_mod s me m -> logged s -> 0 <= mod_rfd m -> handshake_packet_of p name group junk ->
  group_of group sdb_group_conversion = Some g ->
  avail (mod_rfd m) (wire p ++ rest) (sys_world s) -> writable (mod_wfd m) (sys_world s) ->
  observer_ok s ->
  exists s' w q, module_start me s = Ok (true, s') /\ qs_rep q [] /\
    has_mod s' me (mkModule me (mod_rfd m) (mod_wfd m) (Some name) g false RegionFresh
                     false false q true) /\
    w = emit (mod_wfd m) (wire (mcs_ok_packet p))
          (consume (mod_rfd m) (length (wire p)) (sys_world s)) /\
    (forall fd, fd <> sys_observer_fd s -> w_fds (sys_world s') !! fd = w_fds w !! fd).
Proof.
  intros Hm Hlog Hfd Hp Hgrp Hav Hw Ho.
  destruct (start_accepted s me m p name group junk g rest) as (s' & E & _ & _ & Hm' & Hw'); try done.
  exists s'. eexists _, qs_init. split_and!; [done|apply qs_init_ok|apply Hm'..|done|].
  intros fd Hfd'. rewrite Hw'. unfold woken. case_goal; [done|]. cbn. by rewrite lookup_alter_ne.
Qed.

(** ** A client that is refused. *)

Lemma clean_ok s me m : has_mod s me m -> exists w,
  sdb_module_clean me s = Ok (tt, set_world w s) /\ w_fds w !! mod_rfd m = None.
Proof.
  intros Hm. unfold sdb_module_clean. rewrite (st_bind_ok _ _ _ _ _ (get_mod_ok s me m Hm)).
  erewrite st_bind_ok by by apply in_world_ok.
  destruct (mod_wfd m =? mod_rfd m) eqn:E; bool_prop; cbn [negb].
  - eexists. split; [done|]. cbn. apply lookup_delete_eq.
  - exists (mkWorld (w_now (sys_world s)) (delete (mod_wfd m) (delete (mod_rfd m) (w_fds (sys_world s))))).
    split; [reflexivity|]. cbn. rewrite lookup_delete_ne by done. apply lookup_delete_eq.
Qed.

(** A module whose thread has ended while it held its lock, and whose socket is
    closed, but which is still in the table. *)
Definition dead_module s (me : Z) m : Prop :=
  has_mod s me m /\ mod_locked m = true /\ w_fds (sys_world s) !! mod_rfd m = None.

Lemma module_fds_elem (mods : list (SDBModule Q)) i n k m fds :
  module_fds mods i n = Ok fds -> mods !! k = Some m -> (i <= k < i + n)%nat -> mod_rfd m ∈ fds.
Proof.
  revert i fds. induction n as [|n IH]; intros i fds Hf Hk Hr; [lia|]. cbn in Hf.
  destruct (mods !! i) as [mi|] eqn:Ei; [|done].
  destruct (module_fds mods (S i) n) as [l|] eqn:El; [|done]. injection Hf as <-.
  destruct (decide (i = k)) as [-> |Hne].
  - rewrite Ei in Hk. injection Hk as ->. constructor.
  - constructor. apply (IH (S i)); [done|done|lia].
Qed.

(** The observer does nothing while the table holds a closed descriptor. *)
Lemma observer_stuck s me m pipe fds : dead_module s me m -> me < sys_last s ->
  module_fds (sys_modules s) 0 (Z.to_nat (sys_last s)) = Ok fds ->
  observer_round pipe s = Ok (Some tt, s).
Proof.
  intros ([Hi Hm] & _ & Hclosed) Hlast Hfds. unfold observer_round, st_bind at 1, st_get.
  unfold st_bind at 1, st_lift. rewrite Hfds.
  assert (Hsel : in_world (os_select_set (pipe :: fds)) s = Ok (Some (-1, []), s)).
  { unfold in_world, st_zoom, os_select_set.
    replace (existsb (fd_closed (sys_world s)) (pipe :: fds)) with true; [by destruct s|].
    symmetry. apply existsb_exists. exists (mod_rfd m). split.
    - right. apply list_elem_of_In. eapply module_fds_elem; [done|exact Hm|lia].
    - unfold fd_closed. by rewrite Hclosed. }
  by rewrite (st_obind_ok _ _ _ _ _ Hsel).
Qed.

(** A client refused for an unknown group blocks the daemon.  It is answered
    [ECONNREFUSED] and its socket is closed, but it stays in the table under the
    name it asked for, with its lock held by a thread that has ended.  From then
    on every round of the observer fails without flagging any module, and a
    module that sends a packet to it waits for ever. *)
Theorem refused_client_blocks_daemon s me m p name group junk rest :
  has_mod s me m -> me < sys_last s -> logged s -> 0 <= mod_rfd m ->
  handshake_packet_of p name group junk -> group_of group sdb_group_conversion = None ->
  avail (mod_rfd m) (wire p ++ rest) (sys_world s) -> writable (mod_wfd m) (sys_world s) ->
  exists s' m', module_start me s = Ok (false, s') /\ dead_module s' me m' /\
    mod_name m' = Some name /\
    (forall pipe fds, module_fds (sys_modules s') 0 (Z.to_nat (sys_last s')) = Ok fds ->
       observer_round pipe s' = Ok (Some tt, s')) /\
    (forall other r, me <> other -> wf_packet r -> fits_region r ->
       sdb_module_write_mcs_packet (Some other) r me s' = Ok (None, s')).
Proof.
  intros Hm Hlast Hlog Hfd (Hp & Hc & Hd & Hn & Hg) Hgrp Hav Hw.
  set (m0 := starting_module me m). set (s0 := set_mod me m0 s).
  assert (Hm0 : has_mod s0 me m0) by by eapply has_mod_set_eq.
  destruct (start_read s0 me m0 p rest Hm0) as (t1 & Hl1 & Hread); try done.
  set (m2 := with_name (Some name) m0).
  set (s2 := set_mod me m2 (after_read m0 p t1 s0)).
  assert (Hm2 : has_mod s2 me m2) by (eapply has_mod_set_eq; exact Hm0).
  pose proof (reply_ok s2 me m2 (mcs_err_packet p ECONNREFUSED) Hm2
    (err_packet_sendable _ _ (wf_id p (proj1 Hp))) ltac:(by apply consume_writable)) as E3.
  set (s3 := set_world _ s2) in E3.
  destruct (qos_event_logged s3 me m2 SDB_QOS_PKT_SCRAP p Hm2) as (t4 & E4 & _); [exact Hl1|].
  destruct (clean_ok (set_qos t4 s3) me m2 Hm2) as (w5 & E5 & Hclosed).
  set (s5 := set_world w5 (set_qos t4 s3)) in *.
  assert (Hdead : dead_module s5 me m2) by done.
  exists s5, m2. split_and!; [|done|done| |].
  - unfold module_start. rewrite (st_bind_ok _ _ _ _ _ (update_mod_ok _ s me m Hm)).
    fold (starting_module me m) m0 s0. rewrite Hread, Hc, Z.eqb_refl. cbn [negb].
    unfold st_bind at 1, st_lift. rewrite Hd, parse_handshake_spec, Hgrp by done.
    rewrite (st_bind_ok _ _ _ _ _ (update_mod_ok _ (after_read m0 p t1 s0) me m0 Hm0)).
    fold m2 s2. rewrite (st_bind_ok _ _ _ _ _ E3).
    unfold sdb_qos_register_packet_scrap. rewrite (st_bind_ok _ _ _ _ _ E4).
    by rewrite (st_bind_ok _ _ _ _ _ E5).
  - intros pipe fds Hfds. by eapply observer_stuck.
  - intros other r Hne Hr Hf. unfold sdb_module_write_mcs_packet, get_info_id.
    unfold st_bind at 1. unfold st_bind at 1, st_gets.
    rewrite (proj2 (Z.leb_gt _ _)) by done. cbn [st_ret]. rewrite fits_region_check by done.
    rewrite (st_bind_ok _ _ _ _ _ (get_mod_ok s5 me m2 Hm2)).
    rewrite bool_decide_eq_false_2 by congruence. done.
Qed.

(** ** A client that leaves. *)

(** The end of the stream, already there. *)
Lemma read_command_eof rfd wfd w f t evs : 0 <= rfd ->
  w_fds w !! rfd = Some f -> fd_in f = (t, None) :: evs -> t <= w_now w ->
  mcs_read_command rfd wfd w = Ok (None, w).
Proof.
  intros Hfd Hf Hin Ht. unfold mcs_read_command. rewrite (proj2 (Z.ltb_ge _ _) Hfd).
  assert (Hsel : os_select rfd (mkTV (MCS_READ_TIMEOUT_US ÷ US_TO_SEC)
                                  (Z.rem MCS_READ_TIMEOUT_US US_TO_SEC)) w = Ok (1, w)).
  { unfold os_select. rewrite tv_nonneg_split, Hf, Hin, tv_us_split by done.
    unfold MCS_READ_TIMEOUT_US. rewrite (proj2 (Z.leb_le t _)), Z.max_r by lia. by destruct w. }
  assert (Hrd : os_read1 rfd w = Ok ((0, 0), w)) by (unfold os_read1; by rewrite Hf, Hin).
  assert (Hn : read_n rfd 4 w = Ok (None, w)).
  { unfold read_n, abs_read, st_bind, gettimeofday, st_gets.
    change (Z.to_nat 4) with 4%nat. cbn [abs_read_loop]. unfold st_bind.
    rewrite Hsel. cbn [Z.leb Z.compare]. by rewrite Hrd. }
  unfold st_obind, st_bind. by rewrite Hn.
Qed.

(** When the client of a module closes its socket, its thread spins: every
    round reads the end of the stream, leaves the state of the daemon as it was
    and starts again at once, with the module's lock held. *)
Theorem closed_client_spins s me m f t evs n :
  has_mod s me m -> mod_data_valid m = false -> mod_data_socket m = true -> 0 <= mod_rfd m ->
  w_fds (sys_world s) !! mod_rfd m = Some f -> fd_in f = (t, None) :: evs ->
  t <= w_now (sys_world s) ->
  Nat.iter n (fun r => match r with Ok (Some true, s') => module_round me s' | _ => r end)
    (Ok (Some true, s)) = Ok (Some true, s).
Proof.
  intros Hm Hval Hsock Hfd Hf Hin Ht.
  assert (Hround : module_round me s = Ok (Some true, s)).
  { unfold module_round. rewrite (st_bind_ok _ _ _ _ _ (get_mod_ok s me m Hm)), Hval, Hsock.
    pose proof (read_command_eof _ (mod_wfd m) _ _ _ _ Hfd Hf Hin Ht) as Hread.
    erewrite st_obind_ok; [done|]. unfold process_pkt_socket.
    rewrite (st_bind_ok _ _ _ _ _ (get_mod_ok s me m Hm)).
    rewrite (st_bind_ok _ _ _ _ _ (in_world_ok _ s _ _ Hread)). by destruct s. }
  induction n as [|n IH]; [done|]. by rewrite Nat.iter_succ, IH.
Qed.

(** ** Connections. *)

(** A connection beyond the size of the module table is written outside it;
    below, the new module gets the next free index and its descriptors. *)
Theorem module_table_bound s rfd wfd :
  length (sys_modules s) = Z.to_nat SDB_MODULE_MAX -> 0 <= rfd -> 0 <= wfd ->
  0 <= sys_last s <= SDB_MODULE_MAX ->
  (sys_last s = SDB_MODULE_MAX -> sdb_module_init rfd wfd s = UB) /\
  (sys_last s < SDB_MODULE_MAX -> exists m s', sdb_module_init rfd wfd s = Ok (Some (sys_last s), s') /\
     has_mod s (sys_last s) m /\ has_mod s' (sys_last s) (with_fds rfd wfd m) /\
     sys_last s' = sys_last s + 1).
Proof.
  unfold SDB_MODULE_MAX. intros Hlen Hr Hw Hlast.
  set (s1 := mkSys (sys_world s) (sys_modules s) (u32 (sys_last s + 1)) (sys_qos s)
               (sys_observer_fd s)).
  assert (Hinit : sdb_module_init rfd wfd s =
    (do! update_mod (sys_last s) (with_fds rfd wfd) in st_ret (Some (sys_last s))) s1).
  { unfold sdb_module_init. by rewrite (proj2 (Z.ltb_ge _ _) Hr), (proj2 (Z.ltb_ge _ _) Hw). }
  rewrite Hinit. split; intros Hl.
  - unfold update_mod, st_bind, get_mod. rewrite (proj2 (Z.ltb_ge _ _)) by lia.
    cbn [sys_modules s1]. by rewrite lookup_ge_None_2 by lia.
  - destruct (lookup_lt_is_Some_2 (sys_modules s) (Z.to_nat (sys_last s))) as [m Hm]; [lia|].
    assert (Hm1 : has_mod s1 (sys_last s) m) by (split; [lia|done]).
    eexists m, _. split; [by rewrite (st_bind_ok _ _ _ _ _ (update_mod_ok _ s1 _ m Hm1))|].
    split; [exact Hm1|]. split.
    + eapply has_mod_set_eq. exact Hm1.
    + cbn. apply u32_small. lia.
Qed.

(** While a client is connecting the daemon can crash.  A module is in the
    table before it has a name, and a message that is routed past it compares
    its destination with that missing name. *)
Theorem connecting_client_crash s me m p opt name j mj rest :
  registered s me m -> logged s -> readable p -> pkt_type p = MCS_TYPE_MESSAGE ->
  mcs_command_message_list !! Z.to_nat (pkt_cmd p) = Some opt ->
  permits (msg_origin_groups opt) (mod_group m) -> addresses opt p name ->
  has_mod s j mj -> j < sys_last s -> mod_name mj = None -> unlike s name j ->
  mod_data_valid m = false -> mod_data_socket m = true ->
  0 <= mod_rfd m -> avail (mod_rfd m) (wire p ++ rest) (sys_world s) ->
  module_round me s = UB.
Proof.
  intros (Hm & Hid & Hlast) Hlog Hp Ht Hopt Hok Hadd [Hj0 Hj] Hjl Hjn Hun Hval Hsock Hfd Hav.
  destruct (socket_read_ok s me m p rest Hm Hlog Hp Hfd Hav) as (t & Hl & E1 & E2).
  set (s1 := after_read m p t s).
  unfold module_round. rewrite (st_bind_ok _ _ _ _ _ (get_mod_ok s me m Hm)), Hval, Hsock.
  unfold process_pkt_socket, st_obind at 1, st_bind at 1.
  rewrite (st_bind_ok _ _ _ _ _ (get_mod_ok s me m Hm)).
  rewrite (st_bind_ok _ _ _ _ _ E1), (st_bind_ok _ _ _ _ _ E2). fold (after_read m p t s) s1.
  rewrite dispatch_message by done. unfold st_obind, st_bind at 1.
  rewrite (process_message_search s1 me m p opt name); [|done|apply (wf_cmd p (proj1 Hp))|done|done|done].
  unfold st_bind at 1, st_lift.
  rewrite (find_dest_skip s1 name j); [|cbn; lia|apply Nat.lt_le_incl; by eapply lookup_lt_Some|done].
  cbn [s1 after_read sys_modules sys_last set_qos set_world].
  replace (Z.to_nat (sys_last s) - Z.to_nat j)%nat
    with (S (Z.to_nat (sys_last s) - S (Z.to_nat j))) by lia.
  cbn [find_dest]. by rewrite Hj, Hjn.
Qed.

(** ** The observer. *)

(** What a round of the observer makes of a module. *)
Definition flagged (w : World) m : SDBModule Q :=
  if readable_at w (w_now w) (mod_rfd m) && negb (mod_locked m) then with_socket true m else m.

Lemma flag_modules_ok (ready : list Z) n : forall s i,
  (i + n <= length (sys_modules s))%nat ->
  exists mods, flag_modules ready i n s = Ok (tt, mkSys (sys_world s) mods (sys_last s) (sys_qos s)
                                                  (sys_observer_fd s)) /\
    forall k m, sys_modules s !! k = Some m -> mods !! k = Some
      (if bool_decide (i <= k < i + n)%nat && bool_decide (mod_rfd m ∈ ready)
          && negb (mod_locked m) then with_socket true m else m).
Proof.
  induction n as [|n IH]; intros s i Hi.
  - exists (sys_modules s). split; [by destruct s|]. intros k m Hk.
    by rewrite bool_decide_eq_false_2 by lia.
  - destruct (lookup_lt_is_Some_2 (sys_modules s) i) as [mi Hmi]; [lia|].
    assert (Hm : has_mod s (Z.of_nat i) mi) by (split; [lia|by rewrite Nat2Z.id]).
    set (mi' := if bool_decide (mod_rfd mi ∈ ready) && negb (mod_locked mi)
                then with_socket true mi else mi).
    set (s1 := mkSys (sys_world s) (<[i := mi']> (sys_modules s)) (sys_last s) (sys_qos s)
                 (sys_observer_fd s)).
    assert (Hset : (if bool_decide (mod_rfd mi ∈ ready) && negb (mod_locked mi)
                    then put_mod (Z.of_nat i) (with_socket true mi) else st_ret tt) s = Ok (tt, s1)).
    { subst s1 mi'. destruct (bool_decide _ && negb _).
      - unfold put_mod, st_modify. by rewrite Nat2Z.id.
      - rewrite list_insert_id by done. by destruct s. }
    destruct (IH s1 (S i)) as (mods & E & Hspec); [cbn; rewrite length_insert; lia|].
    exists mods. split.
    + cbn [flag_modules]. rewrite (st_bind_ok _ _ _ _ _ (get_mod_ok s _ mi Hm)).
      by rewrite (st_bind_ok _ _ _ _ _ Hset), E.
    + intros k m Hk. destruct (decide (k = i)) as [-> |Hne].
      * rewrite Hk in Hmi. injection Hmi as <-.
        rewrite (Hspec i mi') by (apply list_lookup_insert_eq; by eapply lookup_lt_Some).
        rewrite (bool_decide_eq_false_2 (S i <= i < S i + n)%nat) by lia.
        by rewrite (bool_decide_eq_true_2 (i <= i < i + S n)%nat) by lia.
      * rewrite (Hspec k m) by (cbn; by rewrite list_lookup_insert_ne).
        by rewrite (bool_decide_ext _ (i <= k < i + S n)%nat) by lia.
Qed.

Lemma module_fds_ok (mods : list (SDBModule Q)) n : forall i, (i + n <= length mods)%nat ->
  exists fds, module_fds mods i n = Ok fds /\
    forall fd, fd ∈ fds -> exists k m, mods !! k = Some m /\ mod_rfd m = fd /\ (k < i + n)%nat.
Proof.
  induction n as [|n IH]; intros i Hi.
  - exists []. split; [done|]. by intros fd ?%elem_of_nil.
  - destruct (lookup_lt_is_Some_2 mods i) as [m Hm]; [lia|].
    destruct (IH (S i)) as (fds & E & Hel); [lia|]. cbn. rewrite Hm, E.
    eexists. split; [done|]. intros fd [-> |Hfd]%elem_of_cons.
    + exists i, m. split_and!; [done|done|lia].
    + destruct (Hel fd Hfd) as (k & mk & ? & ? & ?). exists k, mk. split_and!; [done|done|lia].
Qed.

(** When a client has sent something, one round of the observer flags exactly
    the modules whose sockets can be read and whose locks are free, without
    waiting, and changes nothing else; the others are left for the next round. *)
Theorem observer_flags s pipe j mj fp :
  (Z.to_nat (sys_last s) <= length (sys_modules s))%nat ->
  w_fds (sys_world s) !! pipe = Some fp -> readable_at (sys_world s) (w_now (sys_world s)) pipe = false ->
  (forall i m, i < sys_last s -> has_mod s i m -> fd_closed (sys_world s) (mod_rfd m) = false) ->
  has_mod s j mj -> j < sys_last s ->
  readable_at (sys_world s) (w_now (sys_world s)) (mod_rfd mj) = true ->
  exists mods,
    observer_round pipe s = Ok (Some tt, mkSys (sys_world s) mods (sys_last s) (sys_qos s)
                                           (sys_observer_fd s)) /\
    forall i m, has_mod s i m ->
      mods !! Z.to_nat i = Some (if i <? sys_last s then flagged (sys_world s) m else m).
Proof.
  intros Hlen Hpipe Hquiet Hopen [Hj0 Hj] Hjl Hr. set (last := Z.to_nat (sys_last s)) in *.
  destruct (module_fds_ok (sys_modules s) last 0 Hlen) as (fds & Efds & Hel).
  destruct (select_ready (pipe :: fds) (sys_world s) (mod_rfd mj)) as (n & ready & Esel & Hn & Hrd).
  - apply not_true_iff_false. intros (fd & Hin & Hc)%existsb_exists.
    apply list_elem_of_In, elem_of_cons in Hin as [-> |Hin].
    + unfold fd_closed in Hc. by rewrite Hpipe in Hc.
    + destruct (Hel fd Hin) as (k & m & Hk & <- & Hlt).
      rewrite (Hopen (Z.of_nat k) m) in Hc; [done|lia|]. split; [lia|by rewrite Nat2Z.id].
  - constructor. eapply module_fds_elem; [done|exact Hj|lia].
  - done.
  - destruct (flag_modules_ok ready last s 0 Hlen) as (mods & Ef & Hspec).
    exists mods. split.
    + unfold observer_round, st_bind at 1, st_get. unfold st_bind at 1, st_lift. fold last.
      rewrite Efds. rewrite (st_obind_ok _ _ _ _ _ (in_world_ok _ s _ _ Esel)).
      rewrite (proj2 (Z.ltb_ge _ _) Hn). rewrite bool_decide_eq_false_2 by (intros [_ Hbad]%Hrd; congruence).
      replace (set_world (sys_world s) s) with s by by destruct s. by rewrite (st_bind_ok _ _ _ _ _ Ef).
    + intros i m [Hi0 Hm]. rewrite (Hspec _ m Hm). unfold flagged.
      destruct (i <? sys_last s) eqn:El; bool_prop.
      * rewrite bool_decide_eq_true_2 by lia. cbn [andb].
        replace (bool_decide (mod_rfd m ∈ ready))
          with (readable_at (sys_world s) (w_now (sys_world s)) (mod_rfd m)); [done|].
        apply eq_true_iff_eq. rewrite bool_decide_eq_true, Hrd. split; [|tauto]. intros Hx.
        split; [|done]. constructor. eapply module_fds_elem; [done|exact Hm|lia].
      * by rewrite bool_decide_eq_false_2 by lia.
Qed.

(** ** The USB link. *)

(** A thread that is not the thread of a module never writes to one. *)
Lemma write_from_outside p to s r s' :
  sdb_module_write_mcs_packet None p to s = Ok (r, s') -> s' = s /\ r <> Some 0.
Proof.
  unfold sdb_module_write_mcs_packet, get_info_id, st_obind, st_bind, st_gets, st_ret, st_ub.
  destruct (sys_last s <=? to); [by intros [= <- <-]|].
  case_goal; [by intros [= <- <-]|].
  destruct (get_mod to s) as [[m s1]|] eqn:Eg; [|done].
  assert (Hs : s1 = s).
  { revert Eg. unfold get_mod. destruct (to <? 0); [done|]. by destruct (_ !! _) as [?|]; intros [= _ <-]. }
  subst s1. case_goal; [by intros [= <- <-]|].
  destruct wakeups; cbn [wait_region]; unfold st_bind; rewrite Eg; by destruct (mod_data_valid m).
Qed.

(** An answer that comes from the payload never reaches a module: the reading
    thread of the USB link leaves the modules as they are, and when the packet
    answers a pending request of a module that could receive it, it reads the
    id of the sender through NULL. *)
Theorem usb_answer_never_delivered (u : UsbSys Q) buf size :
  (forall res u', usb_read_round buf size u = Ok (res, u') -> usb_sys u' = usb_sys u) /\
  (forall r o q' m, usb_to_mcs buf size = Ok (Some r) ->
     sdb_queue_get r (sdb_usb_queue_receive u) = Ok (Some o, q') ->
     has_mod (usb_sys u) (id_process o) m -> id_process o < sys_last (usb_sys u) ->
     mod_locked m = false -> wf_packet r -> fits_region r ->
     usb_read_round buf size u = UB).
Proof.
  unfold usb_read_round. split.
  - intros res u'. unfold st_bind at 1, st_lift. destruct (usb_to_mcs buf size) as [[r|]|];
      [|by intros [= _ <-]|done].
    unfold st_bind at 1, in_receive, st_zoom. destruct (sdb_queue_get _ _) as [[[o|] q]|];
      [|by intros [= _ <-]|done].
    unfold st_obind, st_bind at 1, in_sys, st_zoom. cbn [usb_sys].
    destruct (sdb_module_write_mcs_packet _ _ _ _) as [[[c|] s']|] eqn:E; [| |done];
      apply write_from_outside in E as [-> _]; by intros [= _ <-].
  - intros r o q' m Eu Eq Hm Hlt Hun Hr Hf. unfold st_bind at 1, st_lift. rewrite Eu.
    unfold st_bind at 1, in_receive, st_zoom. rewrite Eq.
    unfold st_obind, st_bind at 1, in_sys, st_zoom. cbn [usb_sys].
    replace (sdb_module_write_mcs_packet None r (id_process o) (usb_sys u)) with (@UB (option Z * Sys Q));
      [done|]. symmetry.
    unfold sdb_module_write_mcs_packet, get_info_id. unfold st_bind at 1. unfold st_bind at 1, st_gets.
    rewrite (proj2 (Z.leb_gt _ _)) by done. cbn [st_ret]. rewrite fits_region_check by done.
    rewrite (st_bind_ok _ _ _ _ _ (get_mod_ok _ _ m Hm)), Hun. cbn [andb].
    unfold st_obind, st_bind at 1.
    destruct wakeups; cbn [wait_region];
      rewrite (st_bind_ok _ _ _ _ _ (get_mod_ok _ _ m Hm)); by destruct (mod_data_valid m).
Qed.

End Properties.

(** ** Witnesses. *)

Section Witnesses.

#[local] Existing Instances repo_tables release_build.

#[local] Instance still_environment : Environment SDBQueue := {| garbage := 0; wakeups := [] |}.

(** A handshake of module [a] in group [g]. *)
Definition handshake_of (g : string) : MCSPacket :=
  mkMCSPacket 3 MCS_TYPE_MESSAGE MCS_MESSAGE_SDB_HANDSHAKE 0 None None
    (zlen (str g) + 3) (Some (handshake_data (str "a") (str g) [])).

Lemma handshake_of_ok g : bytes_ok (str g) -> Forall (fun b => b <> 0) (str g) ->
  zlen (str g) <= 100 -> handshake_packet_of (handshake_of g) (str "a") (str g) [].
Proof.
  intros Hb Hz Hl. assert (0 <= zlen (str g)) by apply Nat2Z.is_nonneg.
  split_and!; try done.
  - split.
    + split; cbn; try done; try lia. split.
      * unfold zlen in *. cbn. rewrite length_app. cbn. lia.
      * repeat constructor; try done. apply Forall_app. split; [done|by repeat constructor].
    + right. eexists. split_and!; done.
  - by repeat constructor.
Qed.

Lemma handshake_app : handshake_packet_of (handshake_of "app") (str "a") (str "app") [].
Proof. apply handshake_of_ok; [bytes_lit|by repeat constructor|done]. Qed.

Lemma handshake_usr : handshake_packet_of (handshake_of "usr") (str "a") (str "usr") [].
Proof. apply handshake_of_ok; [bytes_lit|by repeat constructor|done]. Qed.

(** The first client has just connected, on socket 5. *)
Definition connecting (bs : list Z) : Sys SDBQueue :=
  mkSys (sockets bs) (with_fds 5 5 blank_module :: replicate 19 blank_module) 1 sdb_qos_init (-1).

Lemma connecting_mod bs : has_mod (connecting bs) 0 (with_fds 5 5 blank_module).
Proof. done. Qed.

Lemma connecting_logged bs : logged (connecting bs).
Proof. exists []. apply table_rep_init. Qed.

Lemma connecting_observer bs : observer_ok (connecting bs).
Proof. by left. Qed.

Lemma handshake_accepted_witness :
  exists s' q, module_start 0 (connecting (wire (handshake_of "app"))) = Ok (true, s') /\
    has_mod s' 0 (mkModule 0 5 5 (Some (str "a")) SDB_GROUP_APP false RegionFresh
                    false false q true).
Proof.
  destruct (handshake_accepted (connecting (wire (handshake_of "app"))) 0
    (with_fds 5 5 blank_module) (handshake_of "app") (str "a") (str "app") [] SDB_GROUP_APP []
    (connecting_mod _) (connecting_logged _) ltac:(discriminate) handshake_app eq_refl
    (sockets_avail _) (proj1 (sockets_writable _)) (connecting_observer _))
    as (s' & w & q & E & _ & Hm & _).
  exists s', q. split; [exact E|exact Hm].
Defined.

Lemma refused_client_blocks_daemon_witness :
  exists s' m', module_start 0 (connecting (wire (handshake_of "usr"))) = Ok (false, s') /\
    dead_module s' 0 m'.
Proof.
  destruct (refused_client_blocks_daemon (connecting (wire (handshake_of "usr"))) 0
    (with_fds 5 5 blank_module) (handshake_of "usr") (str "a") (str "usr") [] []
    (connecting_mod _) eq_refl (connecting_logged _) ltac:(discriminate) handshake_usr eq_refl
    (sockets_avail _) (proj1 (sockets_writable _)))
    as (s' & m' & E & Hd & _).
  exists s', m'. split; [exact E|exact Hd].
Defined.

(** Module [a] with its client gone. *)
Definition client_gone : Sys SDBQueue :=
  mkSys (mkWorld 0 {[5 := mkFd [(0, None)] [] None]})
    (mod_a true :: replicate 19 blank_module) 1 sdb_qos_init (-1).

Lemma client_gone_mod : has_mod client_gone 0 (mod_a true).
Proof. done. Qed.

Lemma closed_client_spins_witness :
  Nat.iter 1000 (fun r => match r with Ok (Some true, s') => module_round 0 s' | _ => r end)
    (Ok (Some true, client_gone)) = Ok (Some true, client_gone).
Proof.
  exact (closed_client_spins client_gone 0 (mod_a true) (mkFd [(0, None)] [] None) 0 [] 1000
    client_gone_mod eq_refl eq_refl ltac:(discriminate) eq_refl eq_refl ltac:(discriminate)).
Defined.

(** The table after [n] connections. *)
Definition connections (n : Z) : Sys SDBQueue :=
  mkSys (sockets []) (replicate 20 blank_module) n sdb_qos_init (-1).

Lemma connections_bound n : 0 <= n <= 20 -> 0 <= sys_last (connections n) <= SDB_MODULE_MAX.
Proof. done. Qed.

Lemma module_table_bound_witness :
  sdb_module_init 7 7 (connections 20) = UB /\
  exists s', sdb_module_init 7 7 (connections 19) = Ok (Some 19, s') /\ sys_last s' = 20.
Proof.
  split.
  - destruct (module_table_bound (connections 20) 7 7 eq_refl ltac:(discriminate)
      ltac:(discriminate) (connections_bound 20 ltac:(done))) as [Hfull _].
    exact (Hfull eq_refl).
  - destruct (module_table_bound (connections 19) 7 7 eq_refl ltac:(discriminate)
      ltac:(discriminate) (connections_bound 19 ltac:(done))) as [_ Hfree].
    destruct (Hfree eq_refl) as (m & s' & E & _ & _ & Hl). exists s'. split; [exact E|exact Hl].
Defined.

(** Module [a] sends a message for [c] while another client is connecting. *)
Definition half_connected : Sys SDBQueue :=
  mkSys (sockets (wire (test_message "c"))) (mod_a true :: replicate 19 blank_module) 2
    sdb_qos_init (-1).

Lemma half_connected_a : registered half_connected 0 (mod_a true).
Proof. done. Qed.

Lemma half_connected_b : has_mod half_connected 1 blank_module.
Proof. done. Qed.

Lemma half_connected_logged : logged half_connected.
Proof. exists []. apply table_rep_init. Qed.

Lemma half_connected_unlike : unlike half_connected (str "c") 1.
Proof.
  intros i mi Hi [Hi0 Hm]. assert (i = 0) as -> by lia. cbn in Hm. injection Hm as <-.
  by exists (str "a").
Qed.

Lemma test_open_to_all : permits
  (msg_origin_groups (repo_message "test" false 0 (Some "@arg0"%string) [SDB_GROUP_ANY] [SDB_GROUP_ANY]))
  (mod_group (mod_a true)).
Proof. by left. Qed.

Lemma connecting_client_crash_witness : module_round 0 half_connected = UB.
Proof.
  exact (connecting_client_crash half_connected 0 (mod_a true) (test_message "c")
    _ (str "c") 1 blank_module [] half_connected_a half_connected_logged test_c_readable
    eq_refl eq_refl test_open_to_all (test_addresses "c") half_connected_b eq_refl eq_refl
    half_connected_unlike eq_refl eq_refl ltac:(discriminate) (sockets_avail _)).
Defined.

(** Both modules are connected; [a] has sent two bytes; 9 is the observer's pipe. *)
Definition watched : Sys SDBQueue :=
  mkSys (mkWorld 0 {[5 := mkFd [(0, Some 1); (0, Some 2)] [] None; 6 := mkFd [] [] None;
                     9 := mkFd [] [] None]})
    (with_socket false (mod_a true) :: mod_b :: replicate 18 blank_module) 2 sdb_qos_init (-1).

Lemma watched_a : has_mod watched 0 (with_socket false (mod_a true)).
Proof. done. Qed.

Lemma watched_open i m : i < 2 -> has_mod watched i m ->
  fd_closed (sys_world watched) (mod_rfd m) = false.
Proof.
  intros Hi [Hi0 Hm]. assert (i = 0 \/ i = 1) as [-> | ->] by lia; cbn in Hm;
    injection Hm as <-; done.
Qed.

Lemma observer_flags_witness :
  exists mods,
    observer_round 9 watched = Ok (Some tt, mkSys (sys_world watched) mods 2 sdb_qos_init (-1)) /\
    mods !! 0%nat = Some (mod_a true).
Proof.
  destruct (observer_flags watched 9 0 (with_socket false (mod_a true)) (mkFd [] [] None)
    ltac:(apply Nat.leb_le; reflexivity) eq_refl eq_refl watched_open watched_a eq_refl eq_refl)
    as (mods & E & Hspec).
  exists mods. split; [exact E|]. exact (Hspec 0 _ watched_a).
Defined.

(** The answer to request 100 of module [a], which is pending. *)
Definition pending_request : SDBPacket :=
  sdb_packet (mkMCSPacket 100 MCS_TYPE_PAYLOAD 0 1 (Some [6]) None 0 None) 0.

Definition usb_pending : UsbSys SDBQueue :=
  mkUsbSys (two_modules true []) sdb_queue_init
    (match sdb_queue_push pending_request sdb_queue_init with
     | Ok (_, q) => q | UB => sdb_queue_init end) [].

(** The answer the board sends for it. *)
Definition usb_answer : list Z := [1; 1; 1; 1; 1; 200].

Lemma usb_answer_wf : wf_packet (mcs_ok_packet_id 100).
Proof. exact (proj1 (proj1 (ok_packet_sendable 100 ltac:(done)))). Qed.

Lemma usb_answer_fits : fits_region (mcs_ok_packet_id 100).
Proof. done. Qed.

Lemma usb_answer_never_delivered_witness : usb_read_round usb_answer 6 usb_pending = UB.
Proof.
  destruct (usb_answer_never_delivered usb_pending usb_answer 6) as [_ Hub].
  refine (Hub (mcs_ok_packet_id 100) pending_request _ (mod_a true) eq_refl _
    (proj1 (two_modules_a true [])) eq_refl eq_refl usb_answer_wf usb_answer_fits).
  vm_compute. reflexivity.
Defined.

End Witnesses.
