(* ===== verification/System.v ===== *)
(** * System: the daemon as a system of threads, and its invariant.

    The steps of the daemon are the rounds of its threads: the director accepts a
    connection, the thread of a new module does the handshake, the thread of a
    module serves one packet, the observer looks at the sockets; between them the
    clients do anything to the world.  A round is atomic, except where it waits for
    the region of another module: there other threads run, which is what
    [wakeups] stands for.  [steps W n] are the executions with waits nested at most
    [n] deep in which only the threads of the modules of [W] take part; [reachable] those of any depth from the state the program starts in.

    The invariant [sys_ok] is about the table of modules, their regions and queues
    and the log. *)

From S2P Require Import Prelude Hoare Abs McsDefs Mcs Queue QueueFacts Qos QosFacts.
From S2P Require Import Module ModuleFacts Daemon.

Section System.
Context `{MCSTables} `{Build} `{QueueSpec Q}.
Implicit Types (s : Sys Q) (m : SDBModule Q).

(** ** Steps. *)

(** Every wake-up is an execution of other threads. *)
Definition rely (R : Sys Q -> Sys Q -> Prop) (ws : list (Sys Q -> Sys Q)) : Prop :=
  Forall (fun w => forall s, R s (w s)) ws.

Definition serving m : Prop := mod_data m <> NoRegion.

(** [W] tells which module threads take part. *)
Inductive step (W : Z -> Prop) (R : Sys Q -> Sys Q -> Prop) : Sys Q -> Sys Q -> Prop :=
| step_accept retry con_fd r s s' :
    director_round retry con_fd s = Ok (r, s') -> step W R s s'
| step_start i m r s s' :
    has_mod s i m -> i < sys_last s -> ~ serving m -> mod_locked m = false ->
    module_start i s = Ok (r, s') -> step W R s s'
| step_round (env : Environment Q) i m r s s' :
    has_mod s i m -> serving m -> W i -> rely R wakeups ->
    module_round i s = Ok (r, s') -> step W R s s'
| step_observe pipe r s s' :
    observer_round pipe s = Ok (r, s') -> step W R s s'
| step_world w s : step W R s (set_world w s).

Fixpoint steps (W : Z -> Prop) (n : nat) : Sys Q -> Sys Q -> Prop :=
  match n with
  | O => rtc (step W eq)
  | S n' => rtc (step W (steps W n'))
  end.

Definition anyone (i : Z) : Prop := True.

(** The table is in static memory, all zero; the queues are initialised later. *)
Definition zero_module (q : Q) : SDBModule Q :=
  mkModule 0 0 0 None SDB_GROUP_SYSCORE false NoRegion false false q false.

Definition initial (w : World) (q : Q) (observer_fd : Z) : Sys Q :=
  mkSys w (replicate (Z.to_nat SDB_MODULE_MAX) (zero_module q)) 0 sdb_qos_init observer_fd.

Definition reachable s : Prop :=
  exists w q fd n, steps anyone n (initial w q fd) s.

(** ** The invariant. *)

(** The pending packets are sorted by priority and come from connected modules. *)
Definition pending_ok (last : Z) (q : Q) : Prop :=
  exists l, qs_rep q l /\ prio_sorted l /\ Forall (fun p => 0 <= id_process p < last) l.

(** A module that serves is in use, knows its index, has a name and is not locked
    between rounds; a region that is flagged as valid holds a packet, which can be
    copied as it is, from a connected module. *)
Record module_ok (last i : Z) m : Prop := {
  mo_serving : serving m -> i < last /\ mod_id m = i /\ mod_locked m = false /\
    is_Some (mod_name m) /\ pending_ok last (mod_queue m);
  mo_valid : mod_data_valid m = true -> exists sender p, mod_data m = RegionFull sender p;
  mo_region sender p : mod_data m = RegionFull sender p ->
    0 <= sender < last /\ region_copy p = Ok p
}.

(** The log holds entries with their packets. *)
Definition log_ok s : Prop := exists log, table_rep (sys_qos s) log /\ Forall has_data log.

Record sys_ok s : Prop := {
  so_length : zlen (sys_modules s) = SDB_MODULE_MAX;
  so_last : 0 <= sys_last s <= SDB_MODULE_MAX;
  so_module i m : has_mod s i m -> module_ok (sys_last s) i m;
  so_log : log_ok s
}.

(** A module that serves; or that was refused: its thread has ended with the
    lock held; or whose region holds a packet that has not been taken. *)
Inductive Status := Serves | Refused | Holds (sender : Z) (p : MCSPacket).

Definition has_status (st : Status) m : Prop :=
  match st with
  | Serves => serving m
  | Refused => ~ serving m /\ mod_locked m = true
  | Holds sender p => mod_data m = RegionFull sender p /\ mod_data_valid m = true
  end.

Definition status_at (st : Status) (i : Z) s : Prop := exists m, has_mod s i m /\ has_status st m.

Abbreviation serves_at := (status_at Serves).

(** [P] says nothing about the region of [me]. *)
Definition unheld (P : Z -> Status -> Prop) (me : Z) : Prop := forall sender p, ~ P me (Holds sender p).

(** The invariant while the thread of module [me] runs; the modules of [P] keep
    their status. *)
Definition running (P : Z -> Status -> Prop) (me : Z) s : Prop :=
  sys_ok s /\ serves_at me s /\ unheld P me /\ forall j st, P j st -> status_at st j s.

(** ** Updates. *)

Lemma module_ok_last last last' i m : last <= last' -> module_ok last i m -> module_ok last' i m.
Proof.
  intros Hle [Hs Hv Hr]. split.
  - intros Hm. destruct (Hs Hm) as (? & ? & ? & ? & l & ? & ? & Hl). split_and!; try done; [lia|].
    exists l. split_and!; [done|done|]. eapply Forall_impl; [exact Hl|]. cbn. lia.
  - done.
  - intros sender p Hd. destruct (Hr sender p Hd). split; [lia|done].
Qed.

Lemma has_mod_set s i j m m' : has_mod (set_mod i m s) j m' -> 0 <= i ->
  i = j /\ m' = m \/ i <> j /\ has_mod s j m'.
Proof.
  intros [Hj Hl] Hi. cbn in Hl. destruct (Z.eq_dec i j) as [-> |Hne].
  - left. apply list_lookup_insert_Some in Hl as [(_ & <- & _)|[? _]]; done.
  - right. rewrite list_lookup_insert_ne in Hl by lia. by repeat split.
Qed.

Lemma sys_ok_set_mod s i m : sys_ok s -> 0 <= i -> module_ok (sys_last s) i m -> sys_ok (set_mod i m s).
Proof.
  intros [Hlen Hlast Hmod Hlog] Hi Hm. split; [|done| |done].
  - unfold zlen in *. cbn. by rewrite length_insert.
  - intros j m' Hj. destruct (has_mod_set s i j m m' Hj Hi) as [[<- ->]|[_ Hj']]; [done|]. by apply Hmod.
Qed.

(** A change of module [i] that does not change its status. *)
Lemma status_set_mod s st j i m m' : status_at st j s -> has_mod s i m ->
  (has_status st m -> has_status st m') -> status_at st j (set_mod i m' s).
Proof.
  intros (m0 & Hm0 & Hs0) Hm Hst. destruct (Z.eq_dec i j) as [-> |Hne].
  - exists m'. split; [by eapply has_mod_set_eq|]. apply Hst. by rewrite (has_mod_inj s j m m0).
  - exists m0. split; [|done]. apply has_mod_set_ne; [done|done|apply Hm].
Qed.

(** A serving module changes and still serves. *)
Lemma serving_status (P : Z -> Status -> Prop) i m m' st : unheld P i -> serving m -> serving m' -> P i st ->
  has_status st m -> has_status st m'.
Proof.
  intros Hu Hs Hs' Hi. destruct st as [| |sender p]; [done| |].
  - by intros [? _].
  - by destruct (Hu sender p).
Qed.

Lemma put_mod_running P me i m m' :
  triple (fun s => running P me s /\ has_mod s i m /\ serving m /\ serving m' /\
      (forall st, P i st -> has_status st m -> has_status st m') /\ module_ok (sys_last s) i m')
    (put_mod i m') (fun _ => running P me).
Proof.
  intros s a s' ((Hok & Hme & Hu & HP) & Hm & Hs & Hs' & Hst & Hok') [= <- <-]. split_and!.
  - apply (sys_ok_set_mod s); [done|apply Hm|done].
  - by apply (status_set_mod s Serves me i m).
  - done.
  - intros j st Hj. destruct (Z.eq_dec i j) as [-> |Hne].
    + apply (status_set_mod s st j j m); [by apply HP|done|by apply Hst].
    + destruct (HP j st Hj) as (mj & Hmj & Hstj). exists mj. split; [|done].
      apply has_mod_set_ne; [done|done|apply Hm].
Qed.

(** What is known about a module that was looked up. *)
Lemma get_mod_triple (I : Sys Q -> Prop) i :
  triple I (get_mod i) (fun m s => I s /\ has_mod s i m).
Proof.
  intros s m s' HI E. unfold get_mod in E. destruct (i <? 0) eqn:Ei; [done|]. bool_prop.
  destruct (sys_modules s !! Z.to_nat i) eqn:El; [|done]. injection E as <- <-. by repeat split.
Qed.

Lemma keeps_get_mod (I : Sys Q -> Prop) i : keeps I (get_mod i).
Proof. eapply triple_weaken; [apply get_mod_triple|done|]. by intros m s [? _]. Qed.

Lemma running_mod P me s m : running P me s -> has_mod s me m -> serving m /\ module_ok (sys_last s) me m.
Proof.
  intros (Hok & (m' & Hm' & Hs) & _) Hm. rewrite (has_mod_inj s me m m') by done.
  split; [done|]. by apply Hok.
Qed.

(** ** World and log. *)

(** Facts that depend on neither the world nor the contents of the log. *)
Class Stable (I : Sys Q -> Prop) : Prop := {
  stable_world s w : I s -> I (set_world w s);
  stable_log s t : I s -> log_ok (set_qos t s) -> I (set_qos t s);
  stable_logged s : I s -> log_ok s
}.

#[global] Instance sys_ok_stable : Stable sys_ok.
Proof. split; [by intros s w []|by intros s t [] ?|by intros s []]. Qed.

#[global] Instance running_stable P me : Stable (running P me).
Proof.
  split.
  - intros s w [Hok Hs]. split; [by apply (stable_world s w)|done].
  - intros s t [Hok Hs] Hl. split; [by apply (stable_log s t)|done].
  - intros s [Hok _]. by apply stable_logged.
Qed.

#[global] Instance last_stable n : Stable (fun s => sys_ok s /\ n <= sys_last s).
Proof.
  split.
  - intros s w [Hok Hs]. split; [by apply (stable_world (I:=sys_ok) s w)|done].
  - intros s t [Hok Hs] Hl. split; [by apply (stable_log (I:=sys_ok) s t)|done].
  - intros s [Hok _]. by apply (stable_logged (I:=sys_ok)).
Qed.

Section StableFacts.
Context (I : Sys Q -> Prop) `{!Stable I}.

Lemma keeps_world {A} (f : ST World A) : keeps I (in_world f).
Proof.
  intros s a s' HI E. unfold in_world, st_zoom in E. destruct (f (sys_world s)) as [[a' w]|]; [|done].
  injection E as <- <-. by apply (stable_world s w).
Qed.

Lemma keeps_qos_event me ev p : keeps I (qos_event me ev p).
Proof.
  intros s [] s' HI E. destruct (stable_logged s HI) as (log & Ht & Hd).
  unfold qos_event in E. unfold st_bind at 1 in E. destruct (get_mod me s) as [[m s0]|] eqn:Em; [|done].
  destruct (get_mod_triple (eq s) me s m s0 eq_refl Em) as [<- Hm].
  destruct (qos_event_ok s me m ev p log Hm Ht) as (t & E' & Hl).
  assert (s' = set_qos t s) as ->.
  { enough (Ok (tt, set_qos t s) = Ok (tt, s')) by congruence. rewrite <- E'. rewrite <- E.
    unfold qos_event. by rewrite (st_bind_ok _ _ _ _ _ Em). }
  apply (stable_log s t HI). destruct (mod_qos_enabled m); [|by exists log].
  eexists. split; [exact Hl|]. apply Forall_app. split; [done|]. by repeat constructor.
Qed.

Lemma keeps_register_in me p : keeps I (sdb_qos_register_packet_in me p).
Proof. apply keeps_qos_event. Qed.
Lemma keeps_register_out me p : keeps I (sdb_qos_register_packet_out me p).
Proof. apply keeps_qos_event. Qed.
Lemma keeps_register_ready me p : keeps I (sdb_qos_register_packet_ready me p).
Proof. apply keeps_qos_event. Qed.
Lemma keeps_register_scrap me p : keeps I (sdb_qos_register_packet_scrap me p).
Proof. apply keeps_qos_event. Qed.

Lemma keeps_dump en id g p : keeps I (in_qos (sdb_qos_dump_module en id g p)).
Proof.
  intros s a s' HI E. destruct (stable_logged s HI) as (log & Ht & Hd).
  unfold in_qos, st_zoom, sdb_qos_dump_module in E. destruct en; cbn [negb] in E.
  - destruct (dump_bucket_ok id _ _ Ht Hd) as (t' & Ht' & Ed). unfold st_bind at 1 in E. rewrite Ed in E.
    destruct (lines_fit _ _ _); [|done]. unfold st_bind, st_lift in E.
    destruct (mcs_ok_packet_data _ _ _); [|done]. injection E as <- <-.
    apply (stable_log s t' HI). exists (foreign id log). split; [done|].
    apply Forall_forall. intros e [_ He]%list_elem_of_filter. by eapply Forall_forall in Hd.
  - injection E as <- <-. apply (stable_log s (sys_qos s) HI). by exists log.
Qed.

Lemma keeps_reply me p : keeps I (reply me p).
Proof. unfold reply. apply keeps_bind; [apply keeps_get_mod|]. intros m. apply keeps_world. Qed.

Lemma keeps_refuse me p err : keeps I (refuse me p err).
Proof.
  unfold refuse. apply keeps_bind; [apply keeps_reply|]. intros _. apply keeps_qos_event.
Qed.

End StableFacts.

End System.

#[export] Hint Resolve keeps_get_mod keeps_world keeps_dump keeps_reply keeps_refuse
  keeps_register_in keeps_register_out keeps_register_ready keeps_register_scrap : keeps.
#[export] Hint Extern 1 (Stable _) => typeclasses eauto : keeps.
