(* ===== verification/SystemProps.v ===== *)
(** * SystemProps: every thread keeps the invariant of the daemon.

    The handlers of the module threads, the handshake, the observer and the
    director are taken apart with the rules of [Hoare]; the theorems are about every
    state the daemon can reach. *)

From S2P Require Import Prelude Hoare Abs McsDefs Mcs Queue QueueFacts Qos QosFacts.
From S2P Require Import Module ModuleFacts Daemon System.

Section Handlers.
Context `{MCSTables} `{Build} `{QueueSpec Q} `{!Environment Q}.
Implicit Types (s : Sys Q) (m : SDBModule Q).

Context (P : Z -> Status -> Prop).

(** What other threads do while one waits keeps the invariant. *)
Definition wakeups_ok (ws : list (Sys Q -> Sys Q)) : Prop :=
  Forall (fun w => forall me s, running P me s -> running P me (w s)) ws.

Context (Hwake : wakeups_ok wakeups).

(** ** Queues. *)

Lemma pending_push last q p q' : pending_ok last q -> 0 <= id_process p < last ->
  qs_push p q = Ok (tt, q') -> pending_ok last q'.
Proof using.
  intros (l & Hl & Hs & Hf) Hp E. destruct (qs_push_ok q l p Hl) as (q'' & E' & Hq').
  assert (q'' = q') as -> by congruence. exists (insert_prio p l). split_and!; [done| |].
  - by apply insert_prio_sorted.
  - apply Forall_forall. intros x [-> |Hx]%insert_prio_elem; [done|]. by eapply Forall_forall in Hf.
Qed.

Lemma pending_get last q a o q' : pending_ok last q -> qs_get a q = Ok (o, q') ->
  pending_ok last q' /\ (forall p, o = Some p -> 0 <= id_process p < last).
Proof using.
  intros (l & Hl & Hs & Hf) E. destruct (qs_get_ok q l a Hl) as (q'' & E' & Hq').
  rewrite E in E'. injection E' as -> <-. split.
  - exists (take_answer a l).2. split_and!; [done|by apply take_answer_sorted|].
    apply Forall_forall. intros x Hx%take_answer_subset. by eapply Forall_forall in Hf.
  - intros p Hp%take_answer_elem. by eapply Forall_forall in Hf.
Qed.

Lemma with_queue_ok last i q m : serving m -> module_ok last i m -> pending_ok last q ->
  serving (with_queue q m) /\ module_ok last i (with_queue q m).
Proof using.
  intros Hs [Hm Hv Hr] Hq. split; [done|]. split; [|done|done].
  intros _. destruct (Hm Hs) as (? & ? & ? & ? & _). by split_and!.
Qed.

(** ** The running module. *)

(** The region of the running module is not valid: its thread, which holds its
    lock, serves the socket. *)
Definition idle (me : Z) s : Prop :=
  running P me s /\ exists m, has_mod s me m /\ mod_data_valid m = false.

#[local] Instance idle_stable me : Stable (idle me).
Proof using.
  split.
  - intros s w [Hr Hm]. split; [by apply (stable_world (I:=running P me) s w)|done].
  - intros s t [Hr Hm] Hl. split; [by apply (stable_log (I:=running P me) s t)|done].
  - intros s [Hr _]. by apply (stable_logged (I:=running P me)).
Qed.

(** A change of the own module that does not flag the region as valid. *)
Lemma put_mod_idle me m m' :
  triple (fun s => idle me s /\ has_mod s me m /\ serving m' /\ mod_data_valid m' = mod_data_valid m /\
      module_ok (sys_last s) me m')
    (put_mod me m') (fun _ => idle me).
Proof using.
  intros s a s' ((Hr & m0 & Hm0 & Hv) & Hm & Hs' & Hv' & Hok') E.
  rewrite (has_mod_inj s me m0 m) in Hv by done.
  assert (Hrun : running P me s').
  { eapply (put_mod_running P me me m m' s); [|exact E].
    destruct (running_mod P me s m Hr Hm) as [Hs _]. split_and!; try done.
    intros st. apply (serving_status P me); [apply Hr|done|done]. }
  split; [done|]. rewrite put_mod_eq in E. injection E as _ <-. exists m'.
  split; [by eapply has_mod_set_eq|]. by rewrite Hv'.
Qed.

(** What holds while the thread of a module runs, and stays true when it changes
    its module without flagging the region. *)
Class Own (I : Z -> Sys Q -> Prop) : Prop := {
  own_stable me : Stable (I me);
  own_running me s : I me s -> running P me s;
  own_put me m m' :
    triple (fun s => I me s /\ has_mod s me m /\ serving m' /\ mod_data_valid m' = mod_data_valid m /\
        module_ok (sys_last s) me m')
      (put_mod me m') (fun _ => I me)
}.

#[local] Existing Instance own_stable.

#[local] Instance running_own : Own (running P).
Proof using.
  split; [apply _|done|]. intros me m m'. eapply triple_weaken; [apply (put_mod_running P me me m)| |done].
  intros s (Hr & Hm & Hs' & _ & Hok). destruct (running_mod P me s m Hr Hm) as [Hs _]. split_and!; try done.
  intros st. apply (serving_status P me); [apply Hr|done|done].
Qed.

#[local] Instance idle_own : Own idle.
Proof using. split; [apply _|by intros me s [? _]|apply put_mod_idle]. Qed.

Lemma own_sender me m s : running P me s -> has_mod s me m -> 0 <= mod_id m < sys_last s.
Proof using.
  intros Hr Hm. destruct (running_mod P me s m Hr Hm) as [Hs Hok].
  destruct (mo_serving _ _ _ Hok Hs) as (Hlt & -> & _). split; [apply Hm|done].
Qed.

Section Steps.
Context (I : Z -> Sys Q -> Prop) `{!Own I}.

Lemma keeps_queue_push me p :
  triple (fun s => I me s /\ 0 <= id_process p < sys_last s) (queue_push me p) (fun _ => I me).
Proof.
  unfold queue_push. eapply triple_bind; [apply get_mod_triple|]. intros m.
  eapply triple_bind; [apply triple_lift|]. intros [[] q'].
  eapply triple_weaken; [apply (own_put me m)| |done].
  intros s [[[Hr Hp] Hm] E]. destruct (running_mod P me s m (own_running me s Hr) Hm) as [Hs Hok].
  destruct (mo_serving _ _ _ Hok Hs) as (_ & _ & _ & _ & Hq).
  destruct (with_queue_ok (sys_last s) me q' m Hs Hok); [by eapply pending_push|].
  by split_and!.
Qed.

(** A packet of the running module. *)
Lemma push_own me pkt m :
  triple (fun s => I me s /\ has_mod s me m) (queue_push me (sdb_packet pkt (mod_id m))) (fun _ => I me).
Proof.
  eapply triple_weaken; [apply (keeps_queue_push me)| |done].
  intros s [Hr Hm]. split; [done|]. apply (own_sender me m s); [by apply own_running|done].
Qed.

Lemma keeps_queue_get me a : keeps (I me) (queue_get me a).
Proof.
  unfold queue_get. eapply triple_bind; [apply get_mod_triple|]. intros m.
  eapply triple_bind; [apply triple_lift|]. intros [o q'].
  apply (triple_bind _ _ _ (fun _ => I me)); [|intros []; apply keeps_ret].
  eapply triple_weaken; [apply (own_put me m)| |done].
  intros s [[Hr Hm] E]. destruct (running_mod P me s m (own_running me s Hr) Hm) as [Hs Hok].
  destruct (mo_serving _ _ _ Hok Hs) as (_ & _ & _ & _ & Hq).
  destruct (with_queue_ok (sys_last s) me q' m Hs Hok); [by eapply pending_get|].
  by split_and!.
Qed.

(** A field of the module the invariant does not mention. *)
Lemma keeps_update me f :
  (forall last m, serving m -> module_ok last me m -> serving (f m) /\ module_ok last me (f m)) ->
  (forall m, mod_data_valid (f m) = mod_data_valid m) -> keeps (I me) (update_mod me f).
Proof.
  intros Hf Hv. unfold update_mod. eapply triple_bind; [apply get_mod_triple|]. intros m.
  eapply triple_weaken; [apply (own_put me m)| |done].
  intros s [Hr Hm]. destruct (running_mod P me s m (own_running me s Hr) Hm) as [Hs Hok].
  destruct (Hf (sys_last s) m Hs Hok). by split_and!.
Qed.

Lemma with_qos_ok me b : keeps (I me) (update_mod me (with_qos b)).
Proof. apply keeps_update; [|done]. intros last m Hs [Hm Hv Hr]. split; [done|]. by split. Qed.

Lemma with_socket_ok me b : keeps (I me) (update_mod me (with_socket b)).
Proof. apply keeps_update; [|done]. intros last m Hs [Hm Hv Hr]. split; [done|]. by split. Qed.

Hint Resolve keeps_queue_get with_qos_ok with_socket_ok : keeps.

Lemma keeps_daemon me pkt : keeps (I me) (process_pkt_daemon me pkt).
Proof. unfold process_pkt_daemon, sdb_qos_start, sdb_qos_stop. keeps. Qed.

Lemma keeps_state me pkt : keeps (I me) (process_pkt_state me pkt).
Proof. unfold process_pkt_state. keeps. Qed.

Lemma keeps_payload me pkt : keeps (I me) (process_pkt_payload me pkt).
Proof.
  unfold process_pkt_payload. destruct (_ <=? _); [keeps|].
  eapply triple_bind; [apply get_mod_triple|]. intros m. apply push_own.
Qed.

End Steps.

Hint Extern 1 (Own _) => typeclasses eauto : keeps.
Hint Resolve keeps_queue_get with_qos_ok with_socket_ok keeps_daemon keeps_state keeps_payload : keeps.

(** ** Regions. *)

Lemma copy_arg_idem n src c : copy_arg n src = Ok c -> copy_arg n c = Ok c.
Proof using.
  unfold copy_arg, abs_malloccpy, memcpy. destruct (n =? 0) eqn:En; [done|].
  destruct src as [bs|]; [|done]. destruct (n <=? zlen bs) eqn:Hle; [|done]. intros [= <-]. bool_prop.
  assert (Hl : length (take (Z.to_nat n) bs) = Nat.min (Z.to_nat n) (length bs)) by apply length_take.
  unfold zlen in *. rewrite Hl. destruct (decide (0 <= n)) as [Hn|Hn].
  - rewrite (proj2 (Z.leb_le _ _)) by lia. by rewrite take_take, Nat.min_id.
  - replace (Z.to_nat n) with 0%nat by lia. cbn. by rewrite (proj2 (Z.leb_le _ _)) by lia.
Qed.

(** A copy is copied as it is. *)
Lemma region_copy_idem p c : region_copy p = Ok c -> region_copy c = Ok c.
Proof using.
  unfold region_copy. destruct (copy_arg (pkt_nargs p) _) as [args|] eqn:Ea; [|done].
  destruct (copy_arg (pkt_data_size p) _) as [data|] eqn:Ed; [|done]. intros [= <-]. cbn.
  assert (Hfix : forall n src c, copy_arg n src = Ok c ->
    exists c', copy_arg n (if n =? 0 then src else c) = Ok c' /\
      (if n =? 0 then (if n =? 0 then src else c) else c') = (if n =? 0 then src else c)).
  { intros n src c Hc. destruct (n =? 0) eqn:En.
    - exists None. unfold copy_arg. by rewrite En.
    - exists c. split; [by apply copy_arg_idem in Hc|done]. }
  destruct (Hfix _ _ _ Ea) as (a' & -> & ->). destruct (Hfix _ _ _ Ed) as (d' & -> & ->).
  do 2 f_equal. destruct (pkt_dest p) as [d|]; [|done]. cbn. by rewrite cstr_idem.
Qed.

(** ** Waiting, writing and reading. *)

(** A module never waits for itself: its own region is not valid. *)
Lemma wait_region_never_self me to ws : wakeups_ok ws ->
  triple (fun s => running P me s /\ (to = me -> idle me s)) (wait_region (Some me) to ws)
    (fun r s => running P me s /\ r <> Some false /\
       (r = Some true -> exists m, has_mod s to m /\ mod_data_valid m = false)).
Proof using.
  induction ws as [|w ws IH]; intros Hws s r s' [Hr Hto] E; cbn [wait_region] in E;
    unfold st_bind at 1 in E; (destruct (get_mod to s) as [[m s1]|] eqn:Em; [|done]);
    destruct (get_mod_triple (eq s) to s m s1 eq_refl Em) as [<- Hm];
    (destruct (mod_data_valid m) eqn:Hv; [|injection E as <- <-; split_and!; [done..|by exists m]]);
    unfold st_bind at 1 in E; (destruct (get_mod me s) as [[mi s2]|] eqn:Emi; [|done]);
    destruct (get_mod_triple (eq s) me s mi s2 eq_refl Emi) as [<- Hmi].
  all: destruct (so_module _ (proj1 Hr) _ _ Hm) as [Ms Mv _].
  all: assert (Hs : serving m) by (destruct (Mv Hv) as (x & y & Hd); unfold serving; by rewrite Hd).
  all: destruct (Ms Hs) as (_ & Hid & _); destruct (running_mod P me s mi Hr Hmi) as [Hsi Hoki].
  all: destruct (mo_serving _ _ _ Hoki Hsi) as (_ & Hidi & _); rewrite Hid, Hidi in E.
  all: destruct (me =? to) eqn:Eme; bool_prop; [|try by injection E as <- <-].
  1, 2: destruct (Hto (eq_sym Eme)) as (_ & m' & Hm' & Hv'); rewrite Eme in Hm';
    rewrite (has_mod_inj s to m' m) in Hv' by done; congruence.
  apply Forall_cons in Hws as [Hw Hws]. unfold st_bind, st_modify in E. apply (IH Hws) in E; [done|].
  split; [by apply Hw|]. intros Heq. by destruct Eme.
Qed.

Lemma with_data_ok last i sender p v m : serving m -> module_ok last i m -> 0 <= sender < last ->
  region_copy p = Ok p -> serving (with_data (RegionFull sender p) v m) /\
  module_ok last i (with_data (RegionFull sender p) v m).
Proof using.
  intros Hs [Hm Hv Hr] Hsender Hp. split; [done|]. split.
  - intros _. by apply Hm.
  - intros _. by exists sender, p.
  - by intros ? ? [= <- <-].
Qed.

Lemma keeps_write me pkt to :
  triple (idle me) (sdb_module_write_mcs_packet (Some me) pkt to) (fun _ => running P me).
Proof.
  unfold sdb_module_write_mcs_packet, get_info_id.
  assert (Hret : forall r : option Z, triple (idle me) (st_ret r) (fun _ => running P me))
    by (intros r; apply triple_ret; by intros s [? _]).
  apply (triple_bind _ _ _ (fun _ => idle me)); [keeps|]. intros [i|]; [|apply Hret].
  destruct (_ <? _); [apply Hret|]. apply (triple_bind _ _ _ (fun _ => idle me)); [keeps|]. intros m.
  destruct (_ && _); [apply Hret|].
  set (free := fun s => running P me s /\ exists m, has_mod s i m /\ mod_data_valid m = false).
  eapply (triple_obind _ _ _ (fun ready s => free s /\ ready = true)).
  { eapply triple_weaken; [by apply (wait_region_never_self me i)|by intros s Hs; split; [apply Hs|]|].
    intros [[]|] s (Hr & Hne & Hf); [|done|done]. split; [|done]. split; [done|by apply Hf]. }
  intros ready. apply triple_pure. intros ->. cbn [negb].
  eapply triple_bind; [apply get_mod_triple|]. intros mi.
  eapply triple_bind; [apply get_mod_triple|]. intros mt.
  destruct (mod_data mt) eqn:Ed; [apply triple_ub| |]; (destruct (_ <? _); [apply triple_ub|]).
  all: eapply triple_bind; [apply triple_lift|]; intros c.
  all: apply (triple_bind _ _ _ (fun _ => running P me)); [|intros []; keeps].
  all: eapply triple_weaken; [apply (put_mod_running P me i mt)| |done].
  all: intros s [[[[Hr (m0 & Hm0 & Hv0)] Hmi] Hmt] Hc]; rewrite (has_mod_inj s i m0 mt) in Hv0 by done; destruct (running_mod P me s mi Hr Hmi) as [Hs Hok];
    destruct (mo_serving _ _ _ Hok Hs) as (Hlt & -> & _);
    assert (Hst : serving mt) by (unfold serving; by rewrite Ed);
    destruct (with_data_ok (sys_last s) i me c true mt Hst) as [? ?];
    [by apply Hr|split; [apply Hmi|done]|by eapply region_copy_idem|];
    split_and!; try done; intros [| |x y] _; [done|by intros [? _]|intros [_ ?]; congruence].
Qed.

(** A packet is returned only if the region was flagged as valid. *)
Lemma keeps_read me m : triple (fun s => running P me s /\ has_mod s me m) (sdb_module_read_mcs_packet me)
  (fun r s => running P me s /\ (r <> None -> exists sender p,
     mod_data m = RegionFull sender p /\ 0 <= sender < sys_last s)).
Proof using.
  intros s r s' [Hr Hm] E. destruct (running_mod P me s m Hr Hm) as [Hs Hok].
  unfold sdb_module_read_mcs_packet in E. unfold st_bind at 1 in E. rewrite (get_mod_ok s me m Hm) in E.
  unfold st_bind at 1, st_gets in E. destruct (_ <=? _); [by injection E as <- <-|].
  destruct (mod_data_valid m) eqn:Hv; cbn [negb] in E; [|by injection E as <- <-].
  destruct (mo_valid _ _ _ Hok Hv) as (sender & p & Hd). rewrite Hd in E.
  destruct (mo_region _ _ _ Hok _ _ Hd) as [Hsend Hc].
  unfold st_bind at 1, st_lift in E. rewrite Hc in E. unfold st_bind at 1 in E. rewrite put_mod_eq in E.
  destruct (with_data_ok (sys_last s) me sender p false m Hs Hok Hsend Hc) as [Hs' Hok'].
  set (s1 := set_mod me _ s) in E.
  assert (Hr1 : running P me s1).
  { eapply (put_mod_running P me me m _ s); [|apply put_mod_eq]. split_and!; try done.
    intros st. apply (serving_status P me); [apply Hr|done|done]. }
  unfold st_bind in E. destruct (sdb_qos_register_packet_in me p s1) as [[[] s2]|] eqn:E2; [|done].
  injection E as <- <-. split.
  - by eapply (keeps_qos_event (running P me)).
  - intros _. exists sender, p. split; [done|].
    apply (keeps_qos_event (fun t => sys_ok t /\ sys_last s <= sys_last t)) in E2 as [_ Hl]; [lia|].
    split; [apply Hr1|done].
Qed.

(** ** The handlers. *)

(** What ends with a packet written to another module starts with the own region
    not valid. *)
Abbreviation serves_packet me k := (triple (idle me) k (fun _ => running P me)).

Lemma idle_ends {A} me (k : ST (Sys Q) A) : keeps (idle me) k -> serves_packet me k.
Proof using. intros Hk. eapply triple_weaken; [exact Hk|done|]. by intros a s [? _]. Qed.

Lemma keeps_message me pkt : serves_packet me (process_pkt_message me pkt).
Proof.
  unfold process_pkt_message. destruct (_ <=? _); [apply idle_ends; keeps|].
  destruct (_ !! _) as [opt|]; [|apply triple_ub].
  eapply triple_bind; [apply get_mod_triple|]. intros m.
  set (I := fun s => idle me s /\ has_mod s me m).
  assert (Hk : forall A (k : ST (Sys Q) A), keeps (idle me) k -> triple I k (fun _ => running P me)).
  { intros A k Hk%idle_ends. eapply triple_weaken; [exact Hk| |done]. by intros s [? _]. }
  destruct (group_denied _ _); [apply Hk; keeps|]. destruct (is_null _); [apply Hk; keeps|].
  apply (triple_bind _ _ _ (fun _ => I)); [apply keeps_get|]. intros s0.
  destruct (message_dest opt pkt) as [dest|]; [|apply Hk; keeps].
  apply (triple_bind _ _ _ (fun _ => I)); [apply keeps_lift|]. intros [d|]; [|apply Hk; keeps].
  apply (triple_bind _ _ _ (fun _ => I)); [apply keeps_get_mod|]. intros mt.
  destruct (group_denied _ _); [apply Hk; keeps|].
  apply (triple_bind _ _ _ (fun _ => idle me)); [apply (push_own idle)|]. intros [].
  apply (triple_obind _ _ _ (fun _ => running P me)); [|intros _; apply keeps_ret].
  eapply triple_weaken; [apply keeps_write|done|]. by intros [] s.
Qed.

Lemma keeps_dispatch me pkt : serves_packet me (dispatch_packet me pkt).
Proof.
  unfold dispatch_packet. destruct (mcs_is_answer_packet pkt).
  - apply (triple_bind _ _ _ (fun _ => idle me)); [keeps|]. intros [o|]; [|apply idle_ends; keeps].
    apply (triple_obind _ _ _ (fun _ => running P me)); [|intros _; keeps].
    eapply triple_weaken; [apply keeps_write|done|]. by intros [] s.
  - destruct (_ =? _); [apply keeps_message|]. apply idle_ends. keeps.
Qed.

Lemma keeps_socket me : serves_packet me (process_pkt_socket me).
Proof.
  unfold process_pkt_socket. apply (triple_bind _ _ _ (fun _ => idle me)); [keeps|]. intros m.
  apply (triple_bind _ _ _ (fun _ => idle me)); [keeps|]. intros [pkt|]; [|apply idle_ends; keeps].
  apply (triple_bind _ _ _ (fun _ => idle me)); [keeps|]. intros [].
  apply (triple_obind _ _ _ (fun _ => running P me)); [|intros _; keeps].
  eapply triple_weaken; [apply keeps_dispatch|done|]. by intros [] s.
Qed.

Lemma keeps_sdb me : keeps (running P me) (process_pkt_sdb me).
Proof using.
  unfold process_pkt_sdb. eapply triple_bind; [apply get_mod_triple|]. intros m.
  destruct (mod_data m) as [| |sender p] eqn:Ed; [apply triple_ub| |].
  all: eapply triple_bind; [apply keeps_read|]; intros [pkt|]; [|apply triple_ret; by intros s [? _]].
  all: destruct (mcs_is_answer_packet pkt);
    [apply (triple_weaken _ (running P me) _ (fun _ => running P me)); [keeps|by intros s [? _]|done]|].
  - apply triple_false. intros s [_ Hx]. destruct Hx as (x & y & Hx & _); [done|congruence].
  - apply (triple_bind _ _ _ (fun _ => running P me)); [|intros []; keeps].
    eapply triple_weaken; [apply (keeps_queue_push (running P) me)| |done].
    intros s [Hr Hx]. split; [done|]. destruct Hx as (x & y & Hx & ?); [done|]. cbn. congruence.
Qed.

Hint Resolve keeps_sdb : keeps.

Lemma keeps_round me : keeps (running P me) (module_round me).
Proof.
  unfold module_round. eapply triple_bind; [apply get_mod_triple|]. intros m.
  destruct (mod_data_valid m) eqn:Hv; [|destruct (mod_data_socket m)].
  - apply (triple_weaken _ (running P me) _ (fun _ => running P me)); [keeps|by intros s [? _]|done].
  - apply (triple_obind _ _ _ (fun _ => running P me)); [|intros _; apply keeps_ret].
    eapply triple_weaken; [apply keeps_socket| |by intros [] s].
    intros s [Hr Hm]. split; [done|]. by exists m.
  - apply triple_ret. by intros s [? _].
Qed.

End Handlers.

(** ** The other threads. *)

Section Threads.
Context `{MCSTables} `{Build} `{QueueSpec Q}.
Implicit Types (s : Sys Q) (m : SDBModule Q).

(** The invariant, with the modules of [P] serving. *)
Definition kept (P : Z -> Status -> Prop) s : Prop :=
  sys_ok s /\ forall j st, P j st -> status_at st j s.

#[local] Instance kept_stable P : Stable (kept P).
Proof.
  split.
  - intros s w [Hok HP]. split; [by apply (stable_world (I:=sys_ok) s w)|done].
  - intros s t [Hok HP] Hl. split; [by apply (stable_log (I:=sys_ok) s t)|done].
  - intros s [Hok _]. by apply (stable_logged (I:=sys_ok)).
Qed.

Section Kept.
Context (P : Z -> Status -> Prop).

(** A change of a module that changes no status. *)
Lemma kept_set_mod s i m m' : kept P s -> has_mod s i m ->
  (forall st, P i st -> has_status st m -> has_status st m') -> module_ok (sys_last s) i m' ->
  kept P (set_mod i m' s).
Proof.
  intros [Hok HP] Hm Hs Hm'. split; [apply (sys_ok_set_mod s); [done|apply Hm|done]|].
  intros j st Hj. destruct (Z.eq_dec i j) as [-> |Hne].
  - apply (status_set_mod s st j j m); [by apply HP|done|by apply Hs].
  - destruct (HP j st Hj) as (mj & Hmj & Hst). exists mj. split; [|done].
    apply has_mod_set_ne; [done|done|apply Hm].
Qed.

Lemma keeps_flag ready i n : keeps (kept P) (flag_modules ready i n).
Proof.
  revert i. induction n as [|n IH]; intros i; cbn [flag_modules]; [keeps|].
  eapply triple_bind; [apply get_mod_triple|]. intros m.
  apply (triple_bind _ _ _ (fun _ => kept P)); [|intros; apply IH].
  destruct (_ && _); [|apply triple_ret; by intros s [? _]].
  intros s a s' [Hk Hm] [= <- <-]. apply (kept_set_mod s (Z.of_nat i) m); [done|done|by intros []|].
  destruct (so_module _ (proj1 Hk) _ _ Hm). by split.
Qed.

Lemma keeps_observer pipe : keeps (kept P) (observer_round pipe).
Proof. unfold observer_round. keeps. apply keeps_flag. Qed.

(** *** The director. *)

Lemma has_mod_range s i m : has_mod s i m -> i < zlen (sys_modules s).
Proof. intros [Hi Hl]. apply lookup_lt_Some in Hl. unfold zlen. lia. Qed.

Lemma keeps_module_init rfd wfd : keeps (kept P) (sdb_module_init rfd wfd).
Proof.
  unfold sdb_module_init. destruct (_ || _); [keeps|].
  intros s r s' [Hok HP] E. unfold st_bind at 1, st_gets in E. unfold st_bind at 1 in E.
  set (s1 := mkSys (sys_world s) (sys_modules s) (u32 (sys_last s + 1)) (sys_qos s) (sys_observer_fd s)) in E.
  unfold st_bind at 1 in E. cbn in E. fold s1 in E.
  destruct (update_mod (sys_last s) (with_fds rfd wfd) s1) as [[[] s2]|] eqn:Eu; [|done].
  injection E as <- <-. unfold update_mod, st_bind in Eu.
  destruct (get_mod (sys_last s) s1) as [[m s3]|] eqn:Em; [|done].
  destruct (get_mod_triple (eq s1) (sys_last s) s1 m s3 eq_refl Em) as [<- Hm].
  rewrite put_mod_eq in Eu. injection Eu as <-.
  pose proof (has_mod_range s1 _ _ Hm) as Hlt. change (sys_modules s1) with (sys_modules s) in Hlt.
  destruct Hok as [Hlen Hlast Hmod Hlog]. rewrite Hlen in Hlt.
  assert (Hu : u32 (sys_last s + 1) = sys_last s + 1)
    by (apply u32_small; unfold SDB_MODULE_MAX in *; lia).
  assert (Hk1 : kept P s1).
  { split; [|done]. split; [done|cbn; rewrite Hu; lia| |done].
    intros i mi Hi. eapply module_ok_last; [|by apply Hmod]. cbn. rewrite Hu. lia. }
  apply (kept_set_mod s1 (sys_last s) m); [done|done|by intros []|].
  destruct (so_module _ (proj1 Hk1) _ _ Hm). by split.
Qed.

Lemma keeps_director retry fd : keeps (kept P) (director_round retry fd).
Proof. unfold director_round. keeps. apply keeps_module_init. Qed.

(** *** The handshake. *)

(** The thread of module [i] has initialised it and not yet allocated its region. *)
Definition starting (F : SDBModule Q -> Prop) (i : Z) s : Prop :=
  kept P s /\ i < sys_last s /\ (forall st, ~ P i st) /\ exists m, has_mod s i m /\ ~ serving m /\ mod_id m = i /\
    pending_ok (sys_last s) (mod_queue m) /\ F m.

(** It has allocated it and holds its lock. *)
Definition finishing (i : Z) s : Prop :=
  exists m, has_mod s i m /\ kept P (set_mod i (with_lock false m) s).

#[local] Instance starting_stable F i : Stable (starting F i).
Proof.
  split.
  - intros s w (Hk & Hs). split; [by apply (stable_world (I:=kept P) s w)|done].
  - intros s t (Hk & Hs) Hl. split; [by apply (stable_log (I:=kept P) s t)|done].
  - intros s (Hk & _). by apply (stable_logged (I:=kept P)).
Qed.

#[local] Instance finishing_stable i : Stable (finishing i).
Proof.
  split.
  - intros s w (m & Hm & Hk). exists m. split; [done|]. by apply (stable_world (I:=kept P) _ w) in Hk.
  - intros s t (m & Hm & Hk) Hl. exists m. split; [done|]. by apply (stable_log (I:=kept P) _ t) in Hk.
  - intros s (m & _ & Hk). by apply (stable_logged (I:=kept P)) in Hk.
Qed.

(** The module may be changed as long as it does not serve. *)
Lemma starting_update (F F' : SDBModule Q -> Prop) i f :
  (forall m, F m -> F' (f m)) ->
  (forall m, mod_id (f m) = mod_id m /\ mod_data (f m) = mod_data m /\
     mod_data_valid (f m) = mod_data_valid m /\ mod_queue (f m) = mod_queue m) ->
  triple (starting F i) (update_mod i f) (fun _ => starting F' i).
Proof.
  intros HF Hf s [] s' (Hk & Hi & HPi & m & Hm & Hs & Hid & Hq & HFm) E.
  rewrite (update_mod_ok f s i m Hm) in E. injection E as <-.
  destruct (Hf m) as (Fid & Fd & Fv & Fq).
  assert (Hs' : ~ serving (f m)) by (unfold serving; by rewrite Fd).
  split_and!; [|done|done|].
  - apply (kept_set_mod s i m); [done|done|by intros st ?%HPi|].
    destruct (so_module _ (proj1 Hk) _ _ Hm) as [Ms Mv Mr]. split; [done| |].
    + rewrite Fv, Fd. apply Mv.
    + intros sender p. rewrite Fd. apply Mr.
  - exists (f m). split_and!; [by eapply has_mod_set_eq|done|by rewrite Fid|by rewrite Fq|by apply HF].
Qed.

Lemma start_region i :
  triple (starting (fun m => is_Some (mod_name m)) i)
    (update_mod i (fun m => with_socket false (with_data RegionFresh false m)))
    (fun _ => finishing i).
Proof.
  intros s [] s' (Hk & Hi & HPi & m & Hm & Hs & Hid & Hq & Hn) E.
  rewrite (update_mod_ok _ s i m Hm) in E. injection E as <-.
  set (m1 := with_socket false (with_data RegionFresh false m)).
  exists m1. split; [by eapply has_mod_set_eq|].
  assert (Hset : set_mod i (with_lock false m1) (set_mod i m1 s) = set_mod i (with_lock false m1) s)
    by (unfold set_mod; cbn; by rewrite list_insert_insert_eq).
  rewrite Hset. apply (kept_set_mod s i m); [done|done|by intros st ?%HPi|].
  split; [|done|done]. intros _. by split_and!.
Qed.

Lemma finish_lock i : triple (finishing i) (update_mod i (with_lock false)) (fun _ => kept P).
Proof.
  intros s [] s' (m & Hm & Hk) E. rewrite (update_mod_ok _ s i m Hm) in E. by injection E as <-.
Qed.

(** What follows when a handshake is refused. *)
Lemma keeps_clean (I : Sys Q -> Prop) i : Stable I -> keeps I (sdb_module_clean i).
Proof. intros. unfold sdb_module_clean. keeps. Qed.

Lemma keeps_wake_up (I : Sys Q -> Prop) : Stable I -> keeps I sdb_observer_wake_up.
Proof. intros. unfold sdb_observer_wake_up. keeps. Qed.

Lemma start_init i m : ~ serving m -> mod_locked m = false ->
  triple (fun s => kept P s /\ has_mod s i m /\ i < sys_last s)
    (update_mod i (fun m => mkModule i (mod_rfd m) (mod_wfd m) (mod_name m) (mod_group m) true
      (mod_data m) (mod_data_valid m) (mod_data_socket m) qs_init true))
    (fun _ => starting (fun _ => True) i).
Proof.
  intros Hs Hl s [] s' (Hk & Hm & Hi) E. rewrite (update_mod_ok _ s i m Hm) in E. injection E as <-.
  assert (HPi : forall st, ~ P i st).
  { intros st Hst. destruct (proj2 Hk i st Hst) as (m' & Hm' & Hst').
    rewrite (has_mod_inj s i m' m) in Hst' by done. destruct st as [| |sender p]; [done| |].
    - destruct Hst'. congruence.
    - destruct Hst' as [Hd _]. apply Hs. unfold serving. by rewrite Hd. }
  set (m1 := mkModule _ _ _ _ _ _ _ _ _ _ _). split_and!; [|done|done|].
  - apply (kept_set_mod s i m); [done|done|by intros st ?%HPi|].
    destruct (so_module _ (proj1 Hk) _ _ Hm) as [Ms Mv Mr]. by split.
  - exists m1. split_and!; [by eapply has_mod_set_eq|done|done| |done].
    exists []. split_and!; [apply qs_init_ok|constructor|constructor].
Qed.

Lemma keeps_start i m : ~ serving m -> mod_locked m = false ->
  triple (fun s => kept P s /\ has_mod s i m /\ i < sys_last s) (module_start i) (fun _ => kept P).
Proof.
  intros Hs Hlock. unfold module_start. eapply triple_bind; [by apply (start_init i m)|]. intros [].
  set (I := starting (fun _ => True) i).
  assert (HI : forall F A (k : ST (Sys Q) A), keeps (starting F i) k -> triple (starting F i) k (fun _ => kept P)).
  { intros F A k Hk s a s' Hst E. by destruct (Hk s a s' Hst E) as [? _]. }
  assert (Hbad : forall F pkt, triple (starting F i) (do! reply i (mcs_err_packet pkt ECONNREFUSED) in
      do! sdb_qos_register_packet_scrap i pkt in do! sdb_module_clean i in st_ret false) (fun _ => kept P)).
  { intros F pkt. apply HI. keeps. by apply keeps_clean, _. }
  apply (triple_bind _ _ _ (fun _ => I)); [keeps|]. intros m1.
  apply (triple_bind _ _ _ (fun _ => I)); [keeps|]. intros [pkt|]; [|apply HI; keeps; by apply keeps_clean, _].
  apply (triple_bind _ _ _ (fun _ => I)); [keeps|]. intros []. cbv zeta.
  destruct (negb _); [apply Hbad|].
  apply (triple_bind _ _ _ (fun _ => I)); [keeps|]. intros [[name [group|]]|]; [| |apply Hbad].
  - eapply triple_bind; [by apply (starting_update _ (fun m => is_Some (mod_name m)))|]. intros [].
    apply (triple_bind _ _ _ (fun _ => starting (fun m => is_Some (mod_name m)) i)); [keeps|]. intros ?.
    apply (triple_bind _ _ _ (fun _ => starting (fun m => is_Some (mod_name m)) i)); [keeps|]. intros [].
    eapply triple_bind; [apply start_region|]. intros [].
    apply (triple_bind _ _ _ (fun _ => finishing i)); [apply keeps_wake_up, _|]. intros [].
    eapply triple_bind; [apply finish_lock|]. intros []. apply keeps_ret.
  - eapply triple_bind; [by apply (starting_update _ (fun _ => True))|]. intros []. apply Hbad.
Qed.

End Kept.

(** ** Executions. *)

(** [R] keeps the invariant and the status of the modules; no module of [W] holds its packet. *)
Definition sound (W : Z -> Prop) (R : Sys Q -> Sys Q -> Prop) : Prop :=
  forall P s s', (forall i, W i -> unheld P i) -> R s s' -> kept P s -> kept P s'.

Lemma step_sound W R : sound W R -> sound W (step W R).
Proof.
  intros HR P s s' HW Hstep Hk. destruct Hstep as [retry fd r s s' E|i m r s s' Hm Hi Hs Hl E
    |env i m r s s' Hm Hs Hi Hw E|pipe r s s' E|w s].
  - by eapply keeps_director.
  - by eapply (keeps_start P i m).
  - assert (Hwake : wakeups_ok P wakeups).
    { eapply Forall_impl; [exact Hw|]. cbn. intros w Hw' me t (Hok & Hme & Hu & HP).
      destruct (HR (fun j st => j = me /\ st = Serves \/ P j st) t (w t)) as [Hok' HP'].
      { intros j Hj sender p [[_ ?]|Hp]; [done|]. by apply (HW j Hj sender p). }
      { apply Hw'. }
      { split; [done|]. intros j st [[-> ->]|Hj]; [done|by apply HP]. }
      split_and!; [done|by apply HP'; left|done|]. intros j st Hj. apply HP'. by right. }
    assert (Hrun : running P i s) by (split_and!; [apply Hk|by exists m|by apply HW|apply Hk]).
    eapply (keeps_round P Hwake) in E as (Hok & _ & _ & HP); [by split|done].
  - by eapply keeps_observer.
  - by apply (stable_world (I:=kept P)).
Qed.

Lemma rtc_sound W R : sound W R -> sound W (rtc R).
Proof.
  intros HR P s s' HW Hst. induction Hst as [|s s1 s2 Hst _ IH]; [done|].
  intros Hk. by eapply IH, (HR P s s1).
Qed.

Lemma steps_sound W n : sound W (steps W n).
Proof.
  induction n as [|n IH]; cbn [steps]; apply rtc_sound, step_sound; [|done]. by intros P s s' _ <-.
Qed.

Lemma initial_ok w q fd : sys_ok (initial w q fd).
Proof.
  split.
  - unfold zlen. cbn [sys_modules initial]. by rewrite length_replicate.
  - done.
  - intros i m [_ Hm]. cbn in Hm. apply lookup_replicate in Hm as [-> _]. by split.
  - exists []. split; [apply table_rep_init|constructor].
Qed.

Lemma reachable_ok s : reachable s -> sys_ok s.
Proof.
  intros (w & q & fd & n & Hst).
  destruct (steps_sound anyone n (fun _ _ => False) _ _ (fun i _ x p Hf => Hf) Hst) as [Hok _];
    [split; [apply initial_ok|done]|done].
Qed.

(** C3: the invariant of the daemon.  In every state the daemon can reach, whatever
    its clients send and however its threads interleave at the points where they
    wait, the table holds at most 20 modules; every module that serves has
    its own index as id, a name and an unlocked lock; its pending packets are sorted by
    priority and come from connected modules; a region that is flagged as valid
    holds a packet from a connected module; and the log is well formed. *)
Theorem daemon_invariant s : reachable s -> sys_ok s.
Proof. apply reachable_ok. Qed.

(** The thread of a module takes the packet of its region. *)
Lemma region_read s me m sender p : sys_ok s -> has_mod s me m ->
  mod_data m = RegionFull sender p -> mod_data_valid m = true ->
  exists t, sdb_module_read_mcs_packet me s
    = Ok (Some p, set_qos t (set_mod me (with_data (RegionFull sender p) false m) s)).
Proof.
  intros Hok Hm Hd Hv. destruct (so_module _ Hok _ _ Hm) as [Ms Mv Mr].
  destruct Ms as (Hlt & Hid & _); [unfold serving; by rewrite Hd|]. destruct (Mr _ _ Hd) as [Hsend Hc].
  unfold sdb_module_read_mcs_packet. rewrite (st_bind_ok _ _ _ _ _ (get_mod_ok s me m Hm)).
  rewrite (st_bind_ok _ _ s (sys_last s) s) by done. rewrite Hid.
  rewrite (proj2 (Z.leb_gt _ _) Hlt), Hv, Hd. cbn [negb].
  unfold st_bind at 1, st_lift. rewrite Hc. unfold st_bind. rewrite put_mod_eq. set (s1 := set_mod me _ s).
  destruct (so_log _ Hok) as (log & Hlog & _).
  destruct (qos_event_ok s1 me (with_data (RegionFull sender p) false m) SDB_QOS_PKT_IN p log)
    as (t & E & _); [by eapply has_mod_set_eq|exact Hlog|].
  exists t. unfold sdb_qos_register_packet_in. by rewrite E.
Qed.

(** C25: the regions hand packets over.  In every reachable state, if the region of a
    serving module is flagged as valid, it holds a packet from a connected module.
    That packet stays there, whatever the other threads do and however they interleave, as long as
    the thread of the module makes no round: nobody overwrites it.  When the thread
    reads the region, then or later, exactly that packet is returned and the
    region is free again.  If the region is not flagged, nothing is returned and nothing changes. *)
Theorem region_handover s me m : reachable s -> has_mod s me m -> serving m ->
  if mod_data_valid m
  then exists sender p, mod_data m = RegionFull sender p /\ 0 <= sender < sys_last s /\
    forall n s', steps (fun i => i <> me) n s s' ->
      exists m' t, has_mod s' me m' /\ mod_data m' = RegionFull sender p /\ mod_data_valid m' = true /\
        sdb_module_read_mcs_packet me s'
        = Ok (Some p, set_qos t (set_mod me (with_data (RegionFull sender p) false m') s'))
  else sdb_module_read_mcs_packet me s = Ok (None, s).
Proof.
  intros Hreach Hm Hs. pose proof (reachable_ok s Hreach) as Hok.
  destruct (so_module _ Hok _ _ Hm) as [Ms Mv Mr]. destruct (mod_data_valid m) eqn:Hv.
  - destruct (Mv eq_refl) as (sender & p & Hd). exists sender, p. split; [done|]. split; [by apply (Mr _ p)|].
    intros n s' Hst.
    destruct (steps_sound (fun i => i <> me) n (fun j st => j = me /\ st = Holds sender p) s s') as [Hok' HP']; [|exact Hst| |].
    + by intros i Hi x y [? _].
    + split; [done|]. intros j st [-> ->]. by exists m.
    + destruct (HP' me (Holds sender p)) as (m' & Hm' & Hd' & Hv'); [done|].
      destruct (region_read s' me m' sender p Hok' Hm' Hd' Hv') as (t & E). by exists m', t.
  - destruct (Ms Hs) as (Hlt & Hid & _).
    unfold sdb_module_read_mcs_packet. rewrite (st_bind_ok _ _ _ _ _ (get_mod_ok s me m Hm)).
    rewrite (st_bind_ok _ _ s (sys_last s) s) by done. rewrite Hid.
    by rewrite (proj2 (Z.leb_gt _ _) Hlt), Hv.
Qed.

(** No module ever leaves the table.  Whatever happens after a reachable
    state, a module that serves still serves, also when its client has gone,
    and a refused one is still there with its lock held. *)
Theorem module_status_forever s s' n st i :
  reachable s -> steps anyone n s s' -> (forall sender p, st <> Holds sender p) ->
  status_at st i s -> status_at st i s'.
Proof.
  intros Hreach Hst Hne Hi. pose proof (reachable_ok s Hreach) as Hok.
  apply (steps_sound anyone n (fun j t => j = i /\ t = st) s s'); [|done| |done].
  - intros j _ sender p [_ E]. by destruct (Hne sender p).
  - split; [done|]. by intros j t [-> ->].
Qed.

End Threads.

(** ** Witnesses: a client connects and its handshake is accepted, another is refused. *)

Section Witnesses.
#[local] Existing Instance repo_tables.
#[local] Existing Instance release_build.
#[local] Existing Instance linked_queue.

Definition greeting (group : string) : list Z :=
  [3; 0; 0; 0; 0; 1; 0; zlen (str group) + 3; 0; 97; 58] ++ str group ++ [0].

(** Two clients send their handshakes on sockets 5 and 6. *)
Definition two_clients : World :=
  mkWorld 0 (<[5 := mkFd ((fun b => (0, Some b)) <$> greeting "app") [] None]>
            (<[6 := mkFd ((fun b => (0, Some b)) <$> greeting "usr") [] None]> ∅)).

Definition after {A} (m : ST (Sys SDBQueue) A) (s : Sys SDBQueue) : Sys SDBQueue :=
  match m s with Ok (_, s') => s' | UB => s end.

Definition both_connected : Sys SDBQueue :=
  after (director_round 5 6) (after (director_round 5 5) (initial two_clients sdb_queue_init (-1))).

Definition first_serves : Sys SDBQueue := after (module_start 0) both_connected.
Definition second_refused : Sys SDBQueue := after (module_start 1) first_serves.

Lemma both_connected_steps : rtc (step anyone eq) (initial two_clients sdb_queue_init (-1)) both_connected.
Proof.
  eapply rtc_l; [eapply (step_accept anyone eq 5 5); vm_compute; reflexivity|].
  eapply rtc_l; [eapply (step_accept anyone eq 5 6); vm_compute; reflexivity|]. apply rtc_refl.
Qed.

Lemma first_serves_steps : rtc (step anyone eq) (initial two_clients sdb_queue_init (-1)) first_serves.
Proof.
  eapply rtc_r; [apply both_connected_steps|].
  eapply (step_start anyone eq 0 _ true); [split; [done|vm_compute; reflexivity]|done| |done|vm_compute; reflexivity].
  intros Hs. by apply Hs.
Qed.

Lemma second_refused_steps : rtc (step anyone eq) (initial two_clients sdb_queue_init (-1)) second_refused.
Proof.
  eapply rtc_r; [apply first_serves_steps|].
  eapply (step_start anyone eq 1 _ false); [split; [done|vm_compute; reflexivity]|done| |done|vm_compute; reflexivity].
  intros Hs. by apply Hs.
Qed.

Lemma second_refused_reachable : reachable second_refused.
Proof. exists two_clients, sdb_queue_init, (-1), 0%nat. apply second_refused_steps. Qed.

Lemma daemon_invariant_witness : sys_ok second_refused.
Proof. exact (daemon_invariant second_refused second_refused_reachable). Defined.

(** The refused client is still there after the first one's socket was looked at. *)
Lemma second_is_refused : status_at Refused 1 second_refused.
Proof.
  eexists. split; [split; [done|vm_compute; reflexivity]|]. split; [|done]. intros Hs. by apply Hs.
Qed.

Lemma module_status_forever_witness : status_at Refused 1 (set_world two_clients second_refused).
Proof.
  refine (module_status_forever second_refused _ 0 Refused 1 second_refused_reachable _ _ second_is_refused).
  - eapply rtc_once. apply step_world.
  - done.
Defined.

(** Two clients, [a] and [b], are accepted; then [a] sends a test message to [b]. *)
Definition friends : World :=
  mkWorld 0 (<[5 := mkFd ((fun b => (0, Some b)) <$> greeting "app" ++ [7; 0; 0; 0; 0; 0; 0; 1; 98]) [] None]>
            (<[6 := mkFd ((fun b => (0, Some b)) <$> <[9%nat := 98]> (greeting "app")) [] None]>
            (<[9 := mkFd [] [] None]> ∅))).

#[local] Instance quiet : Environment SDBQueue := {| garbage := 0; wakeups := [] |}.

Definition friends_served : Sys SDBQueue :=
  after (module_start 1) (after (module_start 0)
    (after (director_round 5 6) (after (director_round 5 5) (initial friends sdb_queue_init (-1))))).

Definition message_sent : Sys SDBQueue := after (module_round 0) (after (observer_round 9) friends_served).

Lemma message_sent_reachable : reachable message_sent.
Proof.
  exists friends, sdb_queue_init, (-1), 0%nat. cbn [steps].
  eapply rtc_l; [eapply (step_accept anyone eq 5 5); vm_compute; reflexivity|].
  eapply rtc_l; [eapply (step_accept anyone eq 5 6); vm_compute; reflexivity|].
  eapply rtc_l; [eapply (step_start anyone eq 0 _ true);
    [split; [done|vm_compute; reflexivity]|done|intros Hs; by apply Hs|done|vm_compute; reflexivity]|].
  eapply rtc_l; [eapply (step_start anyone eq 1 _ true);
    [split; [done|vm_compute; reflexivity]|done|intros Hs; by apply Hs|done|vm_compute; reflexivity]|].
  eapply rtc_l; [eapply (step_observe anyone eq 9); vm_compute; reflexivity|].
  eapply rtc_l; [eapply (step_round anyone eq quiet 0);
    [split; [done|vm_compute; reflexivity]|done|done|constructor|vm_compute; reflexivity]|].
  apply rtc_refl.
Qed.

(** [a] reads its socket again before [b] takes the message. *)
Definition message_waits : Sys SDBQueue := after (observer_round 9) message_sent.

Lemma message_waits_steps : steps (fun i => i <> 1) 0 message_sent message_waits.
Proof. eapply rtc_once. eapply (step_observe _ eq 9). vm_compute. reflexivity. Qed.

Lemma region_handover_witness : exists m sender p t, has_mod message_waits 1 m /\ sender = 0 /\ pkt_id p = 7 /\
  sdb_module_read_mcs_packet 1 message_waits
  = Ok (Some p, set_qos t (set_mod 1 (with_data (RegionFull sender p) false m) message_waits)).
Proof.
  destruct (sys_modules message_sent !! 1%nat) as [m|] eqn:E; [|vm_compute in E; discriminate E].
  assert (Hm : has_mod message_sent 1 m) by (split; [lia|exact E]).
  assert (Hd : exists p, mod_data m = RegionFull 0 p /\ pkt_id p = 7 /\ mod_data_valid m = true).
  { vm_compute in E. injection E as <-. eexists. split_and!; reflexivity. }
  destruct Hd as (p0 & Hd & Hid & Hv).
  assert (Hs : serving m) by (intros Hn; congruence).
  pose proof (region_handover message_sent 1 m message_sent_reachable Hm Hs) as Hr.
  rewrite Hv in Hr. destruct Hr as (sender & p & Hp & _ & Hread).
  destruct (Hread 0%nat message_waits message_waits_steps) as (m' & t & Hm' & _ & _ & E').
  exists m', sender, p, t. assert (sender = 0 /\ p = p0) as [Es Ep] by (split; congruence).
  split; [exact Hm'|]. split; [exact Es|]. split; [congruence|exact E'].
Defined.

End Witnesses.
