(* ===== verification/Lifecycle.v ===== *)
(** * Lifecycle: start and end of the daemon.

    [main] of [src/src/Architecture/SDB/sdb.c], the parts of the threads of
    [sdb_director.c] and [sdb_observer.c] before and after their loops, the
    cancellation of the module threads ([sdb_module.c]) and [sdb_usb_init]
    ([sdb_usb.c]).  What the operating system decides is an argument: the results of
    [socket], [bind], [listen], [pipe], [accept], [open] and of creating a thread.

    A thread is cancelled asynchronously: at any point, whereupon its clean-up handler
    runs if it has been installed. *)

From S2P Require Import Prelude Hoare Abs McsDefs Mcs Queue QueueFacts Qos QosFacts Usb.
From S2P Require Import Module ModuleFacts Daemon System.

(** How far a thread is: never created; before it installs its clean-up handler;
    with the handler, but before it has set its module pointer; with both; ended. *)
Inductive Thread := NotCreated | Created | Installed | Running | Ended.

(** [pthread_create] returns 0 or an error number, which is positive. *)
Definition EAGAIN : Z := 11.
Definition pthread_create (ok : bool) : Z := if ok then 0 else EAGAIN.
Definition thread_of (ok : bool) : Thread := if ok then Created else NotCreated.

Definition EOPEN : Z := -2.

(** A new descriptor: nothing to read yet. *)
Definition os_open (fd : Z) : ST World unit := st_modify (set_fd fd (mkFd [] [] None)).

(** A thread takes [sdb_module_lock] only for a few instructions in the middle of a round,
    but it can be cancelled there, and its clean-up handler does not release the lock. *)
Inductive Holder := HeldByDirector | HeldByObserver | HeldByModule.

Section Process.
Context `{MCSTables} `{Build} `{QueueSpec Q}.

Record Process := mkProcess {
  pr_sys : Sys Q;
  director : Thread;
  director_fd : Z;               (** [fd] of [sdb_director_thread] *)
  observer : Thread;
  pipefd : Z * Z;                (** [pipefd] of [sdb_observer_thread] *)
  module_threads : list Thread;  (** the threads of the table of modules *)
  module_lock : option Holder    (** who holds [sdb_module_lock], if any *)
}.

Definition pr_in_sys {A} : ST (Sys Q) A -> ST Process A :=
  st_zoom pr_sys (fun s p => mkProcess s (director p) (director_fd p) (observer p) (pipefd p) (module_threads p) (module_lock p)).
Definition pr_in_world {A} (m : ST World A) : ST Process A := pr_in_sys (in_world m).

Definition set_director (t : Thread) (fd : Z) : ST Process unit :=
  st_modify (fun p => mkProcess (pr_sys p) t fd (observer p) (pipefd p) (module_threads p) (module_lock p)).
Definition set_observer (t : Thread) (fds : Z * Z) : ST Process unit :=
  st_modify (fun p => mkProcess (pr_sys p) (director p) (director_fd p) t fds (module_threads p) (module_lock p)).
Definition set_thread (i : Z) (t : Thread) : ST Process unit :=
  st_modify (fun p => mkProcess (pr_sys p) (director p) (director_fd p) (observer p) (pipefd p)
                        (<[Z.to_nat i := t]> (module_threads p)) (module_lock p)).

(** ** [main]. *)

(** Up to the wait for a signal; [false]: it exits with 1. *)
Definition main_start (director_ok observer_ok : bool) : ST Process bool :=
  do! pr_in_sys (st_modify (set_qos sdb_qos_init)) in
  do! set_director (thread_of director_ok) (-1) in
  if pthread_create director_ok <? 0 then st_ret false
  else
    do! set_observer (thread_of observer_ok) (-1, -1) in
    if pthread_create observer_ok <? 0 then st_ret false
    else st_ret true.

(** ** The director. *)

Definition sdb_director_clean (fd : Z) : ST Process unit :=
  if negb (fd =? -1) then pr_in_world (os_close fd) else st_ret tt.

Definition director_end : ST Process unit :=
  let! fd := st_gets director_fd in
  do! sdb_director_clean fd in
  set_director Ended fd.

(** [sdb_director_thread] up to its loop: the retries that are left, or [None] when
    the thread ends. *)
Definition director_start (socket bind listen : Z) : ST Process (option Z) :=
  do! (if 0 <=? socket then pr_in_world (os_open socket) else st_ret tt) in
  do! set_director Running socket in
  if socket <? 0 then do! director_end in st_ret None
  else if bind <? 0 then do! director_end in st_ret None
  else if listen <? 0 then do! director_end in st_ret None
  else st_ret (Some 5).

(** A turn of its loop: [accept] returns [con_fd], [created] says whether the thread
    of the module is created. *)
Definition director_turn (retry con_fd : Z) (created : bool) : ST Process (option Z) :=
  do! (if 0 <=? con_fd then pr_in_world (os_open con_fd) else st_ret tt) in
  let! id := st_gets (fun p => sys_last (pr_sys p)) in
  let! r := pr_in_sys (director_round retry con_fd) in
  do! (if 0 <=? con_fd then set_thread id (thread_of created) else st_ret tt) in
  match r with
  | Some retry => st_ret (Some retry)
  | None => do! director_end in st_ret None
  end.

(** The loop over a sequence of connections; after the last one it waits. *)
Fixpoint director_loop (retry : Z) (accepts : list (Z * bool)) : ST Process (option Z) :=
  match accepts with
  | [] => st_ret (Some retry)
  | (con_fd, created) :: accepts =>
      let! r := director_turn retry con_fd created in
      match r with
      | Some retry => director_loop retry accepts
      | None => st_ret None
      end
  end.

Definition sdb_director_thread (socket bind listen : Z) (accepts : list (Z * bool)) : ST Process (option Z) :=
  let! r := director_start socket bind listen in
  match r with
  | Some retry => director_loop retry accepts
  | None => st_ret None
  end.

(** ** The observer. *)

Definition set_observer_fd (fd : Z) (s : Sys Q) : Sys Q :=
  mkSys (sys_world s) (sys_modules s) (sys_last s) (sys_qos s) fd.

(** [sdb_observer_thread] up to its first [read]; [pipe] fails without effect. *)
Definition observer_start (pipe : option (Z * Z)) : ST Process unit :=
  do! (match pipe with
       | Some (r, w) => do! pr_in_world (os_open r) in pr_in_world (os_open w)
       | None => st_ret tt
       end) in
  let fds := default (-1, -1) pipe in
  do! set_observer Running fds in
  pr_in_sys (st_modify (set_observer_fd fds.2)).

(** The handler is given the address of the function [pipe]: [code] are the first two
    integers found there. *)
Definition sdb_observer_clean (code : Z * Z) : ST Process unit :=
  do! (if negb (code.1 =? -1) then pr_in_world (os_close code.1) else st_ret tt) in
  if negb (code.2 =? -1) then pr_in_world (os_close code.2) else st_ret tt.

(** ** The end: [main] after a signal. *)

(** [pthread_cancel] and [pthread_join] of a thread whose identifier was never set
    are undefined; [handler] is its clean-up handler. *)
Definition cancel_join (t : Thread) (handler : ST Process unit) : ST Process unit :=
  match t with
  | NotCreated => st_ub
  | Created => st_ret tt
  | Installed | Running => handler
  | Ended => st_ret tt
  end.

Definition cancel_director : ST Process unit :=
  let! p := st_get in
  do! cancel_join (director p) (sdb_director_clean (director_fd p)) in
  set_director Ended (director_fd p).

Definition cancel_observer (code : Z * Z) : ST Process unit :=
  let! p := st_get in
  do! cancel_join (observer p) (sdb_observer_clean code) in
  set_observer Ended (pipefd p).

(** The handler of a module follows its module pointer, which is NULL until it is set. *)
Definition cancel_module (i : Z) : ST Process unit :=
  let! p := st_get in
  let! t := st_lift (match module_threads p !! Z.to_nat i with Some t => Ok t | None => UB end) in
  do! cancel_join t (match t with Running => pr_in_sys (sdb_module_clean i) | _ => st_ub end) in
  set_thread i Ended.

Fixpoint cancel_modules (i n : nat) : ST Process unit :=
  match n with
  | O => st_ret tt
  | S n => do! cancel_module (Z.of_nat i) in cancel_modules (S i) n
  end.

(** The thread that holds the lock has ended: locking waits for ever.  Any other holder
    releases it. *)
Definition lock_lost (p : Process) : bool :=
  match module_lock p with
  | Some HeldByDirector => match director p with Ended => true | _ => false end
  | Some HeldByObserver => match observer p with Ended => true | _ => false end
  | Some HeldByModule | None => false
  end.

(** [None]: it never returns. *)
Definition sdb_module_cancel_all : ST Process (option unit) :=
  let! p := st_get in
  if lock_lost p then st_ret None
  else
    do! st_put (mkProcess (pr_sys p) (director p) (director_fd p) (observer p) (pipefd p)
                  (module_threads p) None) in
    let! list_size := st_gets (fun p => sys_last (pr_sys p)) in
    do! cancel_modules 0 (Z.to_nat list_size) in
    st_ret (Some tt).

(** The loop of [main] over the results of [sigwait]: the exit code, or [None] while it
    waits, for a signal or for the lock. *)
Fixpoint main_wait (code : Z * Z) (rets : list Z) : ST Process (option Z) :=
  match rets with
  | [] => st_ret None
  | ret :: rets =>
      if ret =? 0 then
        do! cancel_director in
        do! cancel_observer code in
        let? _ := sdb_module_cancel_all in
        st_ret (Some 0)
      else main_wait code rets
  end.

(** ** The USB link, which [main] does not start. *)

(** The result, and whether the two threads run. *)
Definition sdb_usb_init (fd_usb : Z) (read_ok write_ok : bool) : ST (UsbSys Q) (Z * Thread * Thread) :=
  do! st_modify (fun u => mkUsbSys (usb_sys u) sdb_queue_init sdb_queue_init (usb_written u)) in
  if fd_usb <? 0 then st_ret (EOPEN, NotCreated, NotCreated)
  else if pthread_create read_ok <? 0 then st_ret (EUNDEF, thread_of read_ok, NotCreated)
  else if pthread_create write_ok <? 0 then st_ret (EUNDEF, thread_of read_ok, thread_of write_ok)
  else st_ret (0, thread_of read_ok, thread_of write_ok).

End Process.

Arguments Process : clear implicits.
