(* ===== verification/LifecycleProps.v ===== *)
(** * LifecycleProps: the daemon starts in the initial state of its threads, the director
    retries five times, and a signal ends every thread. *)

From S2P Require Import Prelude Hoare Abs McsDefs Mcs Queue QueueFacts QueueProps Qos QosFacts Usb.
From S2P Require Import Module ModuleFacts Daemon System SystemProps Lifecycle.

Section Facts.
Context `{MCSTables} `{Build} `{QueueSpec Q}.
Implicit Types (s : Sys Q) (p : Process Q).

(** ** Closing descriptors. *)

(** Only the descriptors of [l] are closed, nothing else changes. *)
Definition closes (l : list Z) s s' : Prop :=
  exists w, s' = set_world w s /\ w_now w = w_now (sys_world s) /\
    forall fd, w_fds w !! fd = if decide (fd ∈ l) then None else w_fds (sys_world s) !! fd.

Lemma closes_nil s : closes [] s s.
Proof. exists (sys_world s). destruct s. by split_and!. Qed.


Lemma os_close_closes fd s : exists s', in_world (os_close fd) s = Ok (tt, s') /\ closes [fd] s s'.
Proof.
  eexists. split; [done|]. eexists. split_and!; [done|done|]. intros fd'. cbn.
  destruct (decide (fd' = fd)) as [-> |Hne].
  - rewrite lookup_delete_eq, decide_True by set_solver. done.
  - rewrite lookup_delete_ne, decide_False by set_solver. done.
Qed.

(** Closing a descriptor unless it is -1. *)
Definition valid_fds (l : list Z) : list Z := filter (fun fd => fd <> -1) l.

Definition with_sys s p : Process Q :=
  mkProcess s (director p) (director_fd p) (observer p) (pipefd p) (module_threads p) (module_lock p).

Lemma close_valid fd p : exists s',
  (if negb (fd =? -1) then pr_in_world (os_close fd) else st_ret tt) p = Ok (tt, with_sys s' p) /\
  closes (valid_fds [fd]) (pr_sys p) s'.
Proof.
  unfold valid_fds. rewrite filter_cons, filter_nil. destruct (fd =? -1) eqn:E; cbn [negb].
  - apply Z.eqb_eq in E. rewrite decide_False by lia. exists (pr_sys p). split; [by destruct p|apply closes_nil].
  - apply Z.eqb_neq in E. rewrite decide_True by done. destruct (os_close_closes fd (pr_sys p)) as (s' & Es & Hc).
    exists s'. split; [|done]. unfold pr_in_world, pr_in_sys, st_zoom. by rewrite Es.
Qed.



(** ** The end. *)

(** The descriptors that cancelling a thread closes. *)
Definition fds_of (t : Thread) (l : list Z) : list Z := match t with Running | Installed => l | _ => [] end.

(** The sockets of module [i]. *)
Definition module_sockets p (i : nat) : list Z :=
  match module_threads p !! i, sys_modules (pr_sys p) !! i with
  | Some t, Some m => fds_of t [mod_rfd m; mod_wfd m]
  | _, _ => []
  end.

Definition shut (code : Z * Z) p : list Z :=
  fds_of (director p) (valid_fds [director_fd p]) ++ fds_of (observer p) (valid_fds [code.1; code.2]) ++
  mjoin (module_sockets p <$> seq 0 (Z.to_nat (sys_last (pr_sys p)))).

(** A thread that exists and, if it is the thread of a module, is not between installing
    its handler and setting its module pointer. *)
Definition settled (t : Thread) : Prop := t = Created \/ t = Running \/ t = Ended.


Lemma cancel_join_closes t (h : ST (Process Q) unit) l p : settled t ->
  (exists s', h p = Ok (tt, with_sys s' p) /\ closes l (pr_sys p) s') ->
  exists s', cancel_join t h p = Ok (tt, with_sys s' p) /\ closes (fds_of t l) (pr_sys p) s'.
Proof.
  intros Ht Hh. destruct Ht as [-> |[-> | ->]]; cbn [cancel_join fds_of]; [|done|].
  - exists (pr_sys p). split; [by destruct p|apply closes_nil].
  - exists (pr_sys p). split; [by destruct p|apply closes_nil].
Qed.










(** When one of the two threads could not be created, the end of the daemon is undefined. *)
Lemma shutdown_undefined code rets p :
  director p = NotCreated \/ observer p = NotCreated /\ settled (director p) -> main_wait code (0 :: rets) p = UB.
Proof.
  intros [Hd|[Ho Hd]]; cbn [main_wait Z.eqb].
  - unfold st_bind at 1, cancel_director. unfold st_bind at 1, st_get. by rewrite Hd.
  - destruct (cancel_join_closes (director p) (sdb_director_clean (director_fd p)) (valid_fds [director_fd p]) p Hd)
      as (s1 & E1 & C1); [apply close_valid|].
    unfold st_bind at 1, cancel_director. unfold st_bind at 1, st_get. rewrite (st_bind_ok _ _ _ _ _ E1).
    unfold set_director, st_modify. unfold st_bind at 1, cancel_observer. unfold st_bind at 1, st_get. cbn [observer].
    change (observer (with_sys s1 p)) with (observer p). by rewrite Ho.
Qed.

(** ** The director. *)

(** The first [k] connections fail. *)
Definition failing (a : Z * bool) : Prop := a.1 < 0.
Definition first_fail (k : nat) (l : list (Z * bool)) : Prop :=
  forall j, (j < k)%nat -> exists a, l !! j = Some a /\ failing a.

(** Five connections in a row fail. *)
Definition five_fail (l : list (Z * bool)) : Prop := exists i, first_fail 5 (drop i l).

Definition successes (l : list (Z * bool)) : Z := zlen (filter (fun a => ~ failing a) l).

Lemma first_fail_cons k a l : first_fail (S k) (a :: l) <-> failing a /\ first_fail k l.
Proof.
  split.
  - intros Hf. split; [by destruct (Hf 0%nat) as (b & [= <-] & Hb); [lia|]|]. intros j Hj. apply (Hf (S j)). lia.
  - intros [Ha Hf] [|j] Hj; [by exists a|]. apply Hf. lia.
Qed.

Lemma five_fail_cons a l : five_fail (a :: l) <-> first_fail 5 (a :: l) \/ five_fail l.
Proof.
  split.
  - intros [[|i] Hf]; [by left|]. right. by exists i.
  - intros [Hf|[i Hf]]; [by exists 0%nat|by exists (S i)].
Qed.

Lemma first_fail_le k k' l : (k' <= k)%nat -> first_fail k l -> first_fail k' l.
Proof. intros Hk Hf j Hj. apply Hf. lia. Qed.

Lemma first_fail_5 l : first_fail 5 l -> five_fail l.
Proof. intros Hf. by exists 0%nat. Qed.

Lemma not_first_fail_nil k : ~ first_fail (S k) [].
Proof. intros Hf. destruct (Hf 0%nat) as (a & Ha & _); [lia|done]. Qed.

Lemma not_five_fail_nil : ~ five_fail [].
Proof. intros [i Hf]. rewrite drop_nil in Hf. by eapply not_first_fail_nil. Qed.

Lemma successes_cons a l : successes (a :: l) = (if decide (failing a) then 0 else 1) + successes l.
Proof. unfold successes. rewrite filter_cons. repeat case_decide; try done. rewrite zlen_cons. lia. Qed.

(** There is room in the table for [n] modules more. *)
Definition room (n : Z) p : Prop :=
  zlen (sys_modules (pr_sys p)) = SDB_MODULE_MAX /\ 0 <= sys_last (pr_sys p) /\ sys_last (pr_sys p) + n <= SDB_MODULE_MAX.

(** The same director, [n] modules more. *)
Definition grown (n : Z) p p' : Prop :=
  director p' = director p /\ director_fd p' = director_fd p /\
  zlen (sys_modules (pr_sys p')) = zlen (sys_modules (pr_sys p)) /\ sys_last (pr_sys p') = sys_last (pr_sys p) + n.

Lemma turn_accepted retry con_fd created p : 0 <= con_fd -> room 1 p -> exists p',
  director_turn retry con_fd created p = Ok (Some 5, p') /\ grown 1 p p'.
Proof.
  intros Hc (Hlen & Hl & Hr). unfold director_turn. rewrite (proj2 (Z.leb_le _ _) Hc).
  set (s1 := set_world (set_fd con_fd (mkFd [] [] None) (sys_world (pr_sys p))) (pr_sys p)).
  assert (pr_in_world (os_open con_fd) p = Ok (tt, with_sys s1 p)) as E1 by done.
  rewrite (st_bind_ok _ _ _ _ _ E1). unfold st_bind at 1, st_gets at 1. cbn [pr_sys with_sys].
  assert (exists m, sys_modules s1 !! Z.to_nat (sys_last s1) = Some m) as [m Hm].
  { apply lookup_lt_is_Some. unfold zlen, SDB_MODULE_MAX in *. cbn [sys_modules sys_last s1 set_world]. lia. }
  set (s2 := mkSys (sys_world s1) (sys_modules s1) (sys_last s1 + 1) (sys_qos s1) (sys_observer_fd s1)).
  assert (E2 : director_round retry con_fd s1 = Ok (Some 5, set_mod (sys_last s1) (with_fds con_fd con_fd m) s2)).
  { unfold director_round, sdb_module_init. rewrite (proj2 (Z.ltb_ge _ _)) by lia. cbn [orb].
    unfold st_bind at 1. unfold st_bind at 1, st_gets at 1. unfold st_bind at 1, set_sys_last, st_modify.
    assert (u32 (sys_last s1 + 1) = sys_last s1 + 1) as -> by (apply u32_small; unfold SDB_MODULE_MAX in *; cbn in *; lia).
    fold s2. rewrite (st_bind_ok _ _ _ _ _ (update_mod_ok (with_fds con_fd con_fd) s2 (sys_last s1) m (conj Hl Hm))). done. }
  unfold st_bind at 1, pr_in_sys at 1, st_zoom. cbn [pr_sys with_sys]. rewrite E2. eexists. split; [done|].
  split_and!; [done|done| |done]. cbn. unfold zlen. by rewrite length_insert.
Qed.

Lemma turn_failed retry con_fd created p : con_fd < 0 ->
  director_turn retry con_fd created p =
  if retry - 1 =? 0 then (do! director_end in st_ret None) p else Ok (Some (retry - 1), p).
Proof.
  intros Hc. unfold director_turn. rewrite (proj2 (Z.leb_gt _ _) Hc). unfold st_bind at 1, st_ret at 1.
  unfold st_bind at 1, st_gets at 1. unfold st_bind at 1, pr_in_sys, st_zoom, director_round.
  rewrite (proj2 (Z.ltb_lt _ _) Hc). cbv zeta. destruct (retry - 1 =? 0); cbn [negb]; unfold st_ret at 1; by destruct p.
Qed.

Lemma director_end_closes p : exists s', director_end p = Ok (tt, mkProcess s' Ended (director_fd p) (observer p) (pipefd p) (module_threads p) (module_lock p)) /\
  closes (valid_fds [director_fd p]) (pr_sys p) s'.
Proof.
  unfold director_end. unfold st_bind at 1, st_gets at 1. destruct (close_valid (director_fd p) p) as (s' & E & C).
  exists s'. split; [|done]. unfold sdb_director_clean. by rewrite (st_bind_ok _ _ _ _ _ E).
Qed.

Lemma director_loop_ok accepts : forall (k : nat) p, (1 <= k <= 5)%nat -> room (successes accepts) p ->
  exists r p', director_loop (Z.of_nat k) accepts p = Ok (r, p') /\
    (r = None <-> first_fail k accepts \/ five_fail accepts) /\
    match r with
    | None => director p' = Ended /\ forall fd, fd ∈ valid_fds [director_fd p] -> w_fds (sys_world (pr_sys p')) !! fd = None
    | Some _ => grown (successes accepts) p p'
    end.
Proof.
  induction accepts as [|[con_fd created] accepts IH]; intros k p Hk Hr.
  { exists (Some (Z.of_nat k)), p. split; [done|]. split; [|split_and!; [done|done|done|change (successes []) with 0; lia]].
    split; [done|]. destruct k; [lia|]. intros [Hf|Hf]; [by apply not_first_fail_nil in Hf|by apply not_five_fail_nil in Hf]. }
  cbn [director_loop]. destruct k as [|k]; [lia|]. pose proof (successes_cons (con_fd, created) accepts) as Hsc.
  pose proof (five_fail_cons (con_fd, created) accepts) as H5. rewrite first_fail_cons in H5.
  pose proof (first_fail_cons k (con_fd, created) accepts) as Hk1. revert Hr.
  generalize dependent (successes ((con_fd, created) :: accepts)). intros n ->.
  generalize dependent (five_fail ((con_fd, created) :: accepts)). intros F5 H5.
  generalize dependent (first_fail (S k) ((con_fd, created) :: accepts)). intros Fk Hk1 Hr.
  case_decide as Hf.
  - unfold st_bind. rewrite turn_failed by exact Hf. destruct k as [|k].
    + cbn [Z.eqb Z.sub Z.of_nat Z.add Z.opp Pos.of_succ_nat Z.pos_sub]. change (Z.of_nat 1 - 1 =? 0) with true. cbn iota.
      destruct (director_end_closes p) as (s' & E & C). unfold st_bind. rewrite E. eexists None, _.
      split; [done|]. split; [split; [intros _; left; apply Hk1; split; [done|]; intros j Hj; lia|done]|]. cbn [director pr_sys]. split; [done|].
      intros fd Hfd. destruct C as (w & -> & _ & Hw). cbn. rewrite Hw. by rewrite decide_True.
    + rewrite (proj2 (Z.eqb_neq _ _)) by lia. replace (Z.of_nat (S (S k)) - 1) with (Z.of_nat (S k)) by lia.
      destruct (IH (S k) p) as (r & p' & E & Hn & Hp); [lia|exact Hr|]. exists r, p'. split; [exact E|]. split; [|exact Hp].
      rewrite Hn, Hk1, H5. split; [tauto|]. intros [[_ ?]|[[_ Hff]|?]]; [by left| |by right].
      left. eapply first_fail_le; [|exact Hff]. lia.
  - unfold failing in Hf. cbn [fst] in Hf. destruct (turn_accepted (Z.of_nat (S k)) con_fd created p) as (p1 & E1 & G1); [lia| |].
    { destruct Hr as (? & ? & ?). split_and!; [done|done|]. pose proof (zlen_nonneg (filter (fun a => ~ failing a) accepts)).
      unfold successes in *. lia. }
    unfold st_bind. rewrite E1. destruct G1 as (D1 & F1 & M1 & L1). destruct (IH 5%nat p1) as (r & p' & E & Hn & Hp); [lia| |].
    { destruct Hr as (? & ? & ?). split_and!; [congruence|lia|lia]. }
    exists r, p'. split; [exact E|]. split.
    + rewrite Hn, Hk1, H5. unfold failing. cbn [fst]. split; [|tauto]. intros [?|?]; [right; right; by apply first_fail_5|tauto].
    + destruct r as [r|]; [|by rewrite <- F1]. destruct Hp as (D & F & M & L). split_and!; congruence || lia.
Qed.

(** C30: the director.  As long as the table has room for the connections, its thread ends
    exactly when the socket cannot be opened, bound or listened on, or when five connections
    in a row cannot be accepted; then its socket is closed.  Until then it registers one
    module for every connection that is accepted. *)
Theorem director_gives_up socket bind listen accepts p : room (successes accepts) p ->
  exists r p', sdb_director_thread socket bind listen accepts p = Ok (r, p') /\
    (r = None <-> socket < 0 \/ bind < 0 \/ listen < 0 \/ five_fail accepts) /\
    match r with
    | None => director p' = Ended /\ (0 <= socket -> w_fds (sys_world (pr_sys p')) !! socket = None)
    | Some _ => director p' = Running /\ director_fd p' = socket /\
        sys_last (pr_sys p') = sys_last (pr_sys p) + successes accepts
    end.
Proof.
  intros Hr. unfold sdb_director_thread, director_start.
  set (s1 := if 0 <=? socket then set_world (set_fd socket (mkFd [] [] None) (sys_world (pr_sys p))) (pr_sys p) else pr_sys p).
  set (p1 := mkProcess s1 Running socket (observer p) (pipefd p) (module_threads p) (module_lock p)).
  assert (E1 : (do! (if 0 <=? socket then pr_in_world (os_open socket) else st_ret tt) in set_director Running socket) p = Ok (tt, p1))
    by (unfold p1, s1; by destruct (0 <=? socket)).
  assert (Hr1 : room (successes accepts) p1) by (unfold room in *; cbn [pr_sys p1]; unfold s1; by destruct (0 <=? socket)).
  destruct (director_end_closes p1) as (s2 & E2 & w & -> & _ & Hw).
  assert (Hend : exists p', (do! director_end in st_ret (@None Z)) p1 = Ok (None, p') /\ director p' = Ended /\
    (0 <= socket -> w_fds (sys_world (pr_sys p')) !! socket = None)).
  { eexists. split; [by rewrite (st_bind_ok _ _ _ _ _ E2)|]. split; [done|]. intros Hsk. cbn. rewrite Hw.
    rewrite decide_True; [done|]. cbn [director_fd p1]. unfold valid_fds. rewrite filter_cons, decide_True by lia. by left. }
  unfold st_bind in E1 |- *. destruct (_ p) as [[[] p0]|] eqn:E0; [|done]. unfold st_bind in Hend. rewrite E1. clear E0 E1.
  destruct (socket <? 0) eqn:Es; [|destruct (bind <? 0) eqn:Eb; [|destruct (listen <? 0) eqn:El]]; bool_prop.
  1-3: destruct Hend as (p' & E & Hd & Hf); rewrite E; exists None, p'; split; [done|]; split; [split; [tauto|done]|done].
  destruct (director_loop_ok accepts 5 p1) as (r & p' & E & Hn & Hp); [lia|done|]. change (Z.of_nat 5) with 5 in E.
  unfold st_ret. rewrite E. exists r, p'. split; [done|]. split.
  - rewrite Hn. split; [intros [Hf|Hf]; [apply first_fail_5 in Hf|]; tauto|]. intros [?|[?|[?|?]]]; [lia|lia|lia|by right].
  - destruct r as [r|].
    + destruct Hp as (D & F & M & L). split_and!; [by rewrite D|by rewrite F|]. rewrite L. cbn [pr_sys p1]. unfold s1.
      by destruct (0 <=? socket).
    + destruct Hp as [D Hf]. split; [done|]. intros Hsk. apply Hf. cbn [director_fd p1]. unfold valid_fds.
      rewrite filter_cons, decide_True by lia. by left.
Qed.

(** ** The start. *)

(** Static memory before [main]: zero, except for the descriptor of the observer. *)
Definition static (w : World) (q : Q) (log : QosTable) : Process Q :=
  mkProcess (mkSys w (replicate (Z.to_nat SDB_MODULE_MAX) (zero_module q)) 0 log (-1)) NotCreated (-1) NotCreated (-1, -1)
    (replicate (Z.to_nat SDB_MODULE_MAX) NotCreated) None.

(** [main] up to its wait, then the two threads up to their loops, in either order. *)
Definition start (director_first : bool) (socket : Z) (pipe : Z * Z) : ST (Process Q) unit :=
  do! main_start true true in
  if director_first then do! director_start socket 0 0 in observer_start (Some pipe)
  else do! observer_start (Some pipe) in do! director_start socket 0 0 in st_ret tt.

(** The start of the daemon.  When every call succeeds, whichever of the two threads
    comes first, the daemon is in the initial state of the system of its threads, with the
    socket and the pipe open and the write end of the pipe known to the modules. *)
Theorem daemon_start (first : bool) w q log socket r wr : 0 <= socket -> socket <> r -> socket <> wr ->
  exists p w', start first socket (r, wr) (static w q log) = Ok (tt, p) /\
    pr_sys p = initial w' q wr /\ reachable (pr_sys p) /\
    director p = Running /\ director_fd p = socket /\ observer p = Running /\ pipefd p = (r, wr) /\
    w_fds w' = <[socket := mkFd [] [] None]> (<[wr := mkFd [] [] None]> (<[r := mkFd [] [] None]> (w_fds w))).
Proof.
  intros Hs Hr Hw. unfold start. unfold st_bind at 1. cbn [main_start].
  set (w' := mkWorld (w_now w) (<[socket := mkFd [] [] None]> (<[wr := mkFd [] [] None]> (<[r := mkFd [] [] None]> (w_fds w))))).
  eexists (mkProcess (initial w' q wr) Running socket Running (r, wr) (replicate (Z.to_nat SDB_MODULE_MAX) NotCreated) None), w'.
  split_and!; try done.
  - assert (Hlt : (socket <? 0) = false) by lia. assert (Hle : (0 <=? socket) = true) by lia. destruct first.
    + unfold director_start, st_bind. rewrite Hle, Hlt. cbn. unfold initial, w', set_fd. cbn. do 5 f_equal.
      rewrite (insert_insert_ne (w_fds w)) by done. by rewrite insert_insert_ne by done.
    + unfold director_start, st_bind. rewrite Hle, Hlt. done.
  - exists w', q, wr, 0%nat. apply rtc_refl.
Qed.

(** [main] does not notice that a thread could not be created. *)
Lemma main_start_always (director_ok observer_ok : bool) p : exists p',
  main_start director_ok observer_ok p = Ok (true, p') /\
  director p' = thread_of director_ok /\ observer p' = thread_of observer_ok.
Proof. destruct director_ok, observer_ok; by eexists. Qed.

(** Nor does the USB link; it needs the device only. *)
Lemma usb_init_result fd_usb (read_ok write_ok : bool) (u : UsbSys Q) : exists u',
  sdb_usb_init fd_usb read_ok write_ok u =
  Ok ((if fd_usb <? 0 then EOPEN else 0, if fd_usb <? 0 then NotCreated else thread_of read_ok,
       if fd_usb <? 0 then NotCreated else thread_of write_ok), u') /\
  sdb_usb_queue_send u' = sdb_queue_init /\ sdb_usb_queue_receive u' = sdb_queue_init.
Proof.
  unfold sdb_usb_init, st_bind, st_modify. destruct (fd_usb <? 0); [by eexists|].
  destruct read_ok, write_ok; by eexists.
Qed.

End Facts.

(** ** Concrete instances. *)

Section Demo.
#[local] Existing Instance repo_tables.
#[local] Existing Instance release_build.
#[local] Existing Instance linked_queue.

Definition empty_world : World := mkWorld 0 ∅.

Lemma daemon_start_witness : exists p w',
  start true 3 (4, 5) (static empty_world sdb_queue_init sdb_qos_init) = Ok (tt, p) /\
  pr_sys p = initial w' sdb_queue_init 5 /\ reachable (pr_sys p) /\
  director p = Running /\ director_fd p = 3 /\ observer p = Running /\ pipefd p = (4, 5) /\
  w_fds w' = <[3 := mkFd [] [] None]> (<[5 := mkFd [] [] None]> (<[4 := mkFd [] [] None]> ∅)).
Proof.
  refine (daemon_start true empty_world sdb_queue_init sdb_qos_init 3 4 5 _ _ _); lia.
Defined.

(** Two connections are accepted, the others fail. *)
Definition demo_accepts : list (Z * bool) := [(6, true); (-1, true); (7, true); (-1, true); (-1, true); (-1, true); (-1, true); (-1, true)].

Lemma director_gives_up_witness : exists r p',
  sdb_director_thread 3 0 0 demo_accepts (static empty_world sdb_queue_init sdb_qos_init) = Ok (r, p') /\
  (r = None <-> 3 < 0 \/ 0 < 0 \/ 0 < 0 \/ five_fail demo_accepts) /\
  match r with
  | None => director p' = Ended /\ (0 <= 3 -> w_fds (sys_world (pr_sys p')) !! 3 = None)
  | Some _ => director p' = Running /\ director_fd p' = 3 /\ sys_last (pr_sys p') = 2
  end.
Proof. refine (director_gives_up 3 0 0 demo_accepts _ _). by split_and!. Defined.

(** The second client was refused: its thread has ended; the first one serves. *)
Definition demo_process : Process SDBQueue :=
  mkProcess second_refused Running 3 Running (8, 9) (Running :: Ended :: replicate 18 NotCreated) None.




(** The pipe of the observer stays open. *)
Example shut_fds : shut (17, -1) demo_process = [3; 17; 5; 5].
Proof. vm_compute. reflexivity. Qed.

End Demo.
