(* ===== verification/Locks.v ===== *)
(** * Locks: the locking protocol of the module threads.

    The other files take a round of a module thread as one step.  Here a round is
    split at its lock operations, so that every interleaving of the threads is an
    execution.  What a packet says is left out: a thread that serves its socket may
    answer itself or send to any module.

    The thread of a module holds the module's lock whenever it does not wait on
    the module's condition variable ([sdb_module_thread]); to send to another
    module it also takes that one's lock ([sdb_module_write_mcs_packet]); the
    observer sets a flag under the lock, if it is free ([sdb_observer_thread]).
    The locks are recursive, as the code asks for. *)

From S2P Require Import Prelude.
From stdpp Require Import functions.
#[local] Open Scope nat_scope.

(** Where the thread of a module is. *)
Inductive pc :=
| Asleep                (** in [pthread_cond_wait] on its own condition *)
| Working               (** at the top of its loop *)
| Locking (to : nat)    (** in [pthread_mutex_lock(&mod_to->lock)] *)
| Locked (to : nat)     (** at the test of [mod_to->data_valid] *)
| Parked (to : nat).    (** in [pthread_cond_wait] on the condition of [to] *)

#[export] Instance pc_eq_dec : EqDecision pc.
Proof. solve_decision. Defined.

(** The owner of the lock of a module and how often it holds it; the flags
    [data_valid] and [data_socket]. *)
Record LockState := mkLS {
  at_pc : nat -> pc;
  owner : nat -> option (nat * nat);
  valid : nat -> bool;
  socket : nat -> bool
}.

(** [pthread_mutex_lock] by thread [i]: the new owner, or [None] if it blocks. *)
Definition acquire (i : nat) (o : option (nat * nat)) : option (nat * nat) :=
  match o with
  | None => Some (i, 1)
  | Some (k, c) => if decide (k = i) then Some (i, S c) else None
  end.

(** [pthread_mutex_unlock] by the owner. *)
Definition release (o : option (nat * nat)) : option (nat * nat) :=
  match o with
  | Some (k, S (S c)) => Some (k, S c)
  | _ => None
  end.

Definition set_pc (i : nat) (p : pc) (s : LockState) : LockState :=
  mkLS (<[i := p]> (at_pc s)) (owner s) (valid s) (socket s).
Definition set_owner (j : nat) (o : option (nat * nat)) (s : LockState) : LockState :=
  mkLS (at_pc s) (<[j := o]> (owner s)) (valid s) (socket s).
Definition set_valid (j : nat) (b : bool) (s : LockState) : LockState :=
  mkLS (at_pc s) (owner s) (<[j := b]> (valid s)) (socket s).
Definition set_socket (j : nat) (b : bool) (s : LockState) : LockState :=
  mkLS (at_pc s) (owner s) (valid s) (<[j := b]> (socket s)).

Definition unlock (j : nat) (s : LockState) : LockState := set_owner j (release (owner s j)) s.

Section Protocol.
Context (n : nat).  (** the number of modules *)

Inductive lock_step : LockState -> LockState -> Prop :=
| ls_wake i s : i < n -> at_pc s i = Asleep -> owner s i = None ->
    lock_step s (set_pc i Working (set_owner i (Some (i, 1)) s))
| ls_region i s : i < n -> at_pc s i = Working -> valid s i = true ->
    lock_step s (set_valid i false s)
| ls_answer i b s : i < n -> at_pc s i = Working -> valid s i = false -> socket s i = true ->
    lock_step s (set_socket i b s)
| ls_send i j s : i < n -> j < n -> at_pc s i = Working -> valid s i = false -> socket s i = true ->
    lock_step s (set_pc i (Locking j) s)
| ls_sleep i s : i < n -> at_pc s i = Working -> valid s i = false -> socket s i = false ->
    lock_step s (set_pc i Asleep (unlock i s))
| ls_lock i j o s : i < n -> at_pc s i = Locking j -> acquire i (owner s j) = Some o ->
    lock_step s (set_pc i (Locked j) (set_owner j (Some o) s))
| ls_write i j s : i < n -> at_pc s i = Locked j -> valid s j = false ->
    lock_step s (set_pc i Working (set_socket i false (set_valid j true (unlock j s))))
| ls_self i s : i < n -> at_pc s i = Locked i -> valid s i = true ->
    lock_step s (set_pc i Working (set_socket i false s))
| ls_park i j s : i < n -> i <> j -> at_pc s i = Locked j -> valid s j = true ->
    lock_step s (set_pc i (Parked j) (unlock j s))
| ls_unpark i j s : i < n -> at_pc s i = Parked j -> owner s j = None ->
    lock_step s (set_pc i (Locked j) (set_owner j (Some (i, 1)) s))
| ls_flag j s : j < n -> owner s j = None ->
    lock_step s (set_socket j true s).

(** All modules have done their handshake and wait. *)
Definition all_asleep : LockState :=
  mkLS (fun _ => Asleep) (fun _ => None) (fun _ => false) (fun _ => false).

Definition lock_reachable (s : LockState) : Prop := rtc lock_step all_asleep s.

(** ** The discipline. *)

(** How often thread [k] holds the lock of [j] when it is at [p]. *)
Definition hold_of (p : pc) (k j : nat) : nat :=
  (if decide (k = j /\ p <> Asleep) then 1 else 0) + (if decide (p = Locked j) then 1 else 0).

Definition holds (s : LockState) (k j : nat) : nat := hold_of (at_pc s k) k j.

Definition owner_ok (s : LockState) (j : nat) : Prop :=
  match owner s j with
  | None => forall k, holds s k j = 0
  | Some (k, c) => c = holds s k j /\ 0 < c /\ forall k', k' <> k -> holds s k' j = 0
  end.

(** A thread that sends has seen that its own region is not valid. *)
Definition sending (p : pc) : bool :=
  match p with Asleep | Working => false | _ => true end.

Record lock_inv (s : LockState) : Prop := {
  li_owner j : owner_ok s j;
  li_valid i : sending (at_pc s i) = true -> valid s i = false
}.

(** Thread [i] holds its own lock unless it sleeps. *)
Lemma own_lock s i : lock_inv s -> at_pc s i <> Asleep -> exists c, owner s i = Some (i, c).
Proof.
  intros [Ho _] Hi. specialize (Ho i). unfold owner_ok in Ho.
  assert (Hh : 0 < holds s i i) by (unfold holds, hold_of; rewrite decide_True by done; lia).
  destruct (owner s i) as [[k c]|]; [|specialize (Ho i); lia].
  destruct Ho as (_ & _ & Ho). destruct (decide (k = i)) as [-> |Hne]; [by exists c|].
  specialize (Ho i). lia.
Qed.

(** The owner of a lock that thread [i] holds. *)
Lemma held_by s i j : lock_inv s -> 0 < holds s i j -> owner s j = Some (i, holds s i j).
Proof.
  intros [Ho _] Hi. specialize (Ho j). unfold owner_ok in Ho.
  destruct (owner s j) as [[k c]|]; [|specialize (Ho i); lia].
  destruct Ho as (-> & _ & Ho). destruct (decide (k = i)) as [-> |Hne]; [done|].
  specialize (Ho i). lia.
Qed.

(** The lock of [j] when thread [i] goes from holding it [h] times to [h'] times. *)
Definition follows (i h h' : nat) (o o' : option (nat * nat)) : Prop :=
  if decide (h' = h) then o' = o
  else (h = 0 -> o = None) /\ o' = if decide (h' = 0) then None else Some (i, h').

Lemma owner_follows s s' i p : lock_inv s -> at_pc s' = <[i := p]> (at_pc s) ->
  (forall j, follows i (holds s i j) (hold_of p i j) (owner s j) (owner s' j)) ->
  forall j, owner_ok s' j.
Proof.
  intros Hinv Hpc Hf j. specialize (Hf j). pose proof (li_owner _ Hinv j) as Ho.
  assert (Hsame : forall k, k <> i -> holds s' k j = holds s k j)
    by (intros k Hk; unfold holds; by rewrite Hpc, fn_lookup_insert_ne).
  assert (Hi : holds s' i j = hold_of p i j) by (unfold holds; by rewrite Hpc, fn_lookup_insert).
  unfold follows in Hf. unfold owner_ok in *. destruct (decide _) as [Heq|Hne].
  - assert (Hall : forall k, holds s' k j = holds s k j).
    { intros k. destruct (decide (k = i)) as [-> |]; [by rewrite Hi, Heq|by apply Hsame]. }
    rewrite Hf. destruct (owner s j) as [[k c]|].
    + rewrite Hall. destruct Ho as (? & ? & Ho). split_and!; [done|done|]. intros k'. rewrite Hall. apply Ho.
    + intros k. by rewrite Hall.
  - assert (Hothers : forall k, k <> i -> holds s' k j = 0).
    { intros k Hk. rewrite Hsame by done. destruct Hf as [Hnone _].
      destruct (decide (holds s i j = 0)) as [H0|H0]; [by rewrite (Hnone H0) in Ho|].
      rewrite (held_by s i j Hinv) in Ho by lia. by apply Ho. }
    destruct Hf as [_ ->]. destruct (decide (hold_of p i j = 0)) as [H0|H0].
    + intros k. destruct (decide (k = i)) as [-> |]; [by rewrite Hi|by apply Hothers].
    + split_and!; [by rewrite Hi|lia|done].
Qed.

Definition same (k j : nat) : nat := if decide (k = j) then 1 else 0.

Lemma same_eq k : same k k = 1.
Proof. unfold same. by destruct (decide (k = k)). Qed.

Lemma same_ne k j : k <> j -> same k j = 0.
Proof. intros H. unfold same. by destruct (decide (k = j)). Qed.

Lemma hold_awake p k j : p <> Asleep -> (forall t, p <> Locked t) -> hold_of p k j = same k j.
Proof.
  intros Ha Hl. unfold hold_of, same. rewrite (decide_False (P := p = Locked j)) by done.
  destruct (decide (k = j)); [rewrite decide_True by done|rewrite decide_False by tauto]; lia.
Qed.

Lemma hold_asleep k j : hold_of Asleep k j = 0.
Proof. unfold hold_of. rewrite decide_False by tauto. done. Qed.

Lemma hold_locked t k j : hold_of (Locked t) k j = same k j + same t j.
Proof.
  unfold hold_of, same. destruct (decide (k = j)); [rewrite decide_True by done|rewrite decide_False by tauto];
    destruct (decide (t = j)); [rewrite decide_True by congruence|rewrite decide_False by congruence
      |rewrite decide_True by congruence|rewrite decide_False by congruence]; done.
Qed.

(** The owner of a lock thread [i] holds, in terms of where it is. *)
Lemma locked_owner s i t : lock_inv s -> at_pc s i = Locked t -> owner s t = Some (i, same i t + 1).
Proof.
  intros Hinv Hpc. assert (Hh : holds s i t = same i t + 1).
  { unfold holds. rewrite Hpc, hold_locked, (same_eq t). done. }
  rewrite (held_by s i t Hinv); rewrite Hh; [done|lia].
Qed.

Lemma release_one i c : release (Some (i, c + 1)) = if decide (c = 0) then None else Some (i, c).
Proof. destruct c as [|c]; [done|]. cbn. by rewrite Nat.add_comm. Qed.

Ltac at_index j t := destruct (decide (t = j)) as [<- |];
  [rewrite fn_lookup_insert|rewrite fn_lookup_insert_ne by done].

(** Leaving the inner lock of [t]. *)
Lemma unlock_follows s i t p j : lock_inv s -> at_pc s i = Locked t -> p <> Asleep ->
  (forall u, p <> Locked u) ->
  follows i (holds s i j) (hold_of p i j) (owner s j) (<[t := release (owner s t)]> (owner s) j).
Proof.
  intros Hinv Hpc Ha Hl. unfold holds. rewrite Hpc, hold_locked, hold_awake by done. unfold follows.
  at_index j t.
  - rewrite (same_eq t), decide_False by lia.
    split; [lia|]. rewrite (locked_owner s i t Hinv Hpc). apply release_one.
  - rewrite (same_ne t j) by done. by rewrite decide_True by lia.
Qed.

(** Taking the lock of [t]. *)
Lemma lock_follows s i t o j : lock_inv s -> at_pc s i <> Asleep -> (forall u, at_pc s i <> Locked u) ->
  acquire i (owner s t) = Some o ->
  follows i (holds s i j) (hold_of (Locked t) i j) (owner s j) (<[t := Some o]> (owner s) j).
Proof.
  intros Hinv Ha Hl Hacq. unfold holds. rewrite hold_locked, hold_awake by done. unfold follows.
  at_index j t.
  - rewrite (same_eq t), decide_False by lia. destruct (decide (same i t + 1 = 0)); [lia|].
    pose proof (li_owner _ Hinv t) as Ho. unfold owner_ok in Ho. unfold acquire in Hacq.
    assert (Hi : holds s i t = same i t) by (unfold holds; by apply hold_awake).
    destruct (owner s t) as [[k c]|].
    + destruct (decide (k = i)) as [-> |]; [|done]. injection Hacq as <-. rewrite Hi in Ho.
      destruct Ho as (-> & Hpos & _). split; [lia|]. do 2 f_equal. lia.
    + injection Hacq as <-. rewrite <- Hi, Ho. done.
  - rewrite (same_ne t j) by done. by rewrite decide_True by lia.
Qed.

(** Taking and leaving the own lock. *)
Lemma wake_follows s i j : lock_inv s -> at_pc s i = Asleep -> owner s i = None ->
  follows i (holds s i j) (hold_of Working i j) (owner s j) (<[i := Some (i, 1)]> (owner s) j).
Proof.
  intros Hinv Hpc Hown. unfold holds. rewrite Hpc, hold_asleep, hold_awake by done. unfold follows.
  at_index j i; [by rewrite same_eq|by rewrite same_ne].
Qed.

Lemma sleep_follows s i j : lock_inv s -> at_pc s i = Working ->
  follows i (holds s i j) (hold_of Asleep i j) (owner s j) (<[i := release (owner s i)]> (owner s) j).
Proof.
  intros Hinv Hpc.
  assert (Hh : holds s i i = 1).
  { unfold holds. rewrite Hpc, hold_awake by done. apply same_eq. }
  unfold holds. rewrite Hpc, hold_asleep, hold_awake by done. unfold follows. at_index j i.
  - rewrite same_eq. cbn. split; [done|].
    rewrite (held_by s i i Hinv); rewrite Hh; [done|lia].
  - by rewrite same_ne.
Qed.

(** The second part of the invariant: only the pc of [i] and the flag of [t] change. *)
Lemma valid_follows s s' i p : lock_inv s -> at_pc s' = <[i := p]> (at_pc s) ->
  (sending p = true -> valid s' i = false) ->
  (forall k, k <> i -> valid s' k = true -> valid s k = true \/ sending (at_pc s k) = false) ->
  forall k, sending (at_pc s' k) = true -> valid s' k = false.
Proof.
  intros Hinv Hpc Hi Hk k. rewrite Hpc. destruct (decide (k = i)) as [-> |Hne].
  - rewrite fn_lookup_insert. apply Hi.
  - rewrite fn_lookup_insert_ne by done. intros Hs. apply not_true_iff_false. intros Hv.
    destruct (Hk k Hne Hv) as [Hv'|?]; [|congruence]. by rewrite (li_valid _ Hinv k Hs) in Hv'.
Qed.

(** A module whose lock another thread holds is asleep. *)
Lemma locked_asleep s i t : lock_inv s -> at_pc s i = Locked t -> t <> i -> at_pc s t = Asleep.
Proof.
  intros Hinv Hpc Hne. destruct (decide (at_pc s t = Asleep)) as [|Ha]; [done|].
  destruct (own_lock s t Hinv Ha) as [c Hc]. rewrite (locked_owner s i t Hinv Hpc) in Hc. congruence.
Qed.

Lemma lock_step_inv s s' : lock_step s s' -> lock_inv s -> lock_inv s'.
Proof.
  intros Hst Hinv. pose proof (li_valid _ Hinv) as Hv. destruct Hst as
    [i s Hi Hpc Ho|i s Hi Hpc Hval|i b s Hi Hpc Hval Hs|i j s Hi Hj Hpc Hval Hs|i s Hi Hpc Hval Hs
    |i j o s Hi Hpc Ho|i j s Hi Hpc Hval|i s Hi Hpc Hval|i j s Hi Hne Hpc Hval|i j s Hi Hpc Ho|j s Hj Ho].
  - split.
    + apply (owner_follows s _ i Working Hinv); [done|]. intros j. by apply wake_follows.
    + apply (valid_follows s _ i Working Hinv); [done|done|]. intros k _ Hk. by left.
  - split; [apply Hinv|]. intros k Hk. cbn in *. destruct (decide (k = i)) as [-> |].
    + by rewrite fn_lookup_insert.
    + rewrite fn_lookup_insert_ne by done. by apply Hv.
  - split; [apply Hinv|apply Hv].
  - split.
    + apply (owner_follows s _ i (Locking j) Hinv); [done|]. intros k. unfold holds, follows.
      rewrite Hpc, !hold_awake by done. by rewrite decide_True.
    + apply (valid_follows s _ i (Locking j) Hinv); [done|done|]. intros k _ Hk. by left.
  - split.
    + apply (owner_follows s _ i Asleep Hinv); [done|]. intros k. by apply sleep_follows.
    + apply (valid_follows s _ i Asleep Hinv); [done|done|]. intros k _ Hk. by left.
  - split.
    + apply (owner_follows s _ i (Locked j) Hinv); [done|]. intros k.
      apply lock_follows; [done|by rewrite Hpc|by rewrite Hpc|done].
    + apply (valid_follows s _ i (Locked j) Hinv); [done| |].
      * intros _. apply Hv. by rewrite Hpc.
      * intros k _ Hk. by left.
  - split.
    + apply (owner_follows s _ i Working Hinv); [done|]. intros k. by apply unlock_follows.
    + apply (valid_follows s _ i Working Hinv); [done|done|]. intros k Hk. cbn.
      destruct (decide (k = j)) as [-> |]; [|rewrite fn_lookup_insert_ne by done; by left].
      intros _. right. by rewrite (locked_asleep s i j Hinv Hpc Hk).
  - exfalso. assert (valid s i = false) by (apply Hv; by rewrite Hpc). congruence.
  - split.
    + apply (owner_follows s _ i (Parked j) Hinv); [done|]. intros k. by apply unlock_follows.
    + apply (valid_follows s _ i (Parked j) Hinv); [done| |].
      * intros _. apply Hv. by rewrite Hpc.
      * intros k _ Hk. by left.
  - split.
    + apply (owner_follows s _ i (Locked j) Hinv); [done|]. intros k.
      apply (lock_follows s i j); [done|by rewrite Hpc|by rewrite Hpc|]. by rewrite Ho.
    + apply (valid_follows s _ i (Locked j) Hinv); [done| |].
      * intros _. apply Hv. by rewrite Hpc.
      * intros k _ Hk. by left.
  - split; [apply Hinv|apply Hv].
Qed.

Lemma lock_steps_inv s s' : rtc lock_step s s' -> lock_inv s -> lock_inv s'.
Proof. induction 1 as [|s s1 s2 Hst _ IH]; [done|]. intros Hinv. by eapply IH, lock_step_inv. Qed.

Lemma all_asleep_inv : lock_inv all_asleep.
Proof. split; [|done]. intros j k. apply hold_asleep. Qed.

(** C13: the locks exclude.  In every state that any interleaving of the threads can
    reach, no two threads hold the lock of the same module, so the region of a
    module is only written while its thread waits; a thread that works or
    sends holds the lock of its own module; and the branch that reports a deadlock,
    and would keep the lock for ever, is never taken. *)
Theorem lock_discipline s : lock_reachable s ->
  (forall j k k', 0 < holds s k j -> 0 < holds s k' j -> k = k') /\
  (forall i, at_pc s i <> Asleep -> exists c, owner s i = Some (i, c)) /\
  (forall i j, at_pc s i = Locked j -> valid s j = true -> i <> j /\ at_pc s j = Asleep).
Proof.
  intros Hr. pose proof (lock_steps_inv _ _ Hr all_asleep_inv) as Hinv. split_and!.
  - intros j k k' Hk Hk'. pose proof (held_by s k j Hinv Hk). pose proof (held_by s k' j Hinv Hk'). congruence.
  - intros i. by apply own_lock.
  - intros i j Hpc Hv. assert (Hij : i <> j).
    { intros <-. assert (valid s i = false) by (apply (li_valid _ Hinv); by rewrite Hpc). congruence. }
    split; [done|]. by apply (locked_asleep s i).
Qed.

(** ** Deadlock. *)

(** Two modules that send to each other. *)
Definition crossed (i j : nat) (s : LockState) : Prop :=
  at_pc s i = Locking j /\ at_pc s j = Locking i.

Lemma crossed_step i j s s' : i <> j -> lock_inv s -> crossed i j s -> lock_step s s' -> crossed i j s'.
Proof.
  intros Hij Hinv [Hi Hj] Hst.
  assert (Hown : forall k t, at_pc s k = Locking t -> exists c, owner s k = Some (k, c)).
  { intros k t Hk. apply own_lock; [done|by rewrite Hk]. }
  destruct (Hown i j Hi) as [ci Hoi]. destruct (Hown j i Hj) as [cj Hoj].
  assert (Hset : forall k p s0, k <> i -> k <> j -> at_pc s0 = at_pc s -> crossed i j (set_pc k p s0)).
  { intros k p s0 Hki Hkj E. unfold crossed, set_pc. cbn. rewrite E. by rewrite !fn_lookup_insert_ne. }
  destruct Hst as
    [k s Hk Hpc Ho|k s Hk Hpc Hval|k b s Hk Hpc Hval Hs|k t s Hk Ht Hpc Hval Hs|k s Hk Hpc Hval Hs
    |k t o s Hk Hpc Ho|k t s Hk Hpc Hval|k s Hk Hpc Hval|k t s Hk Hne Hpc Hval|k t s Hk Hpc Ho|t s Ht Ho];
    try done; try (apply Hset; [congruence|congruence|done]).
  destruct (decide (k = i)) as [-> |Hki]; [|destruct (decide (k = j)) as [-> |Hkj]; [|by apply Hset]].
  - assert (t = j) as -> by congruence. rewrite Hoj in Ho. cbn in Ho. by rewrite decide_False in Ho.
  - assert (t = i) as -> by congruence. rewrite Hoi in Ho. cbn in Ho. by rewrite decide_False in Ho.
Qed.

End Protocol.

(** C34: two modules can stop each other for ever.  The execution in which two
    clients have something to say, both threads wake up and each decides to send to
    the other's module ends in a state where each thread waits for the lock the other
    one holds; whatever the other threads do, this never changes. *)
Theorem crossing_messages_deadlock n i j : i < n -> j < n -> i <> j ->
  exists s, lock_reachable n s /\ crossed i j s /\
    forall s', rtc (lock_step n) s s' -> crossed i j s'.
Proof.
  intros Hi Hj Hij.
  set (s1 := set_socket j true (set_socket i true all_asleep)).
  set (s2 := set_pc i Working (set_owner i (Some (i, 1)) s1)).
  set (s3 := set_pc j Working (set_owner j (Some (j, 1)) s2)).
  set (s4 := set_pc j (Locking i) (set_pc i (Locking j) s3)).
  assert (Hr : lock_reachable n s4).
  { eapply rtc_l; [by apply (ls_flag n i)|]. eapply rtc_l; [by apply (ls_flag n j)|].
    eapply rtc_l; [by apply (ls_wake n i)|].
    eapply rtc_l; [apply (ls_wake n j); [done| |]; cbn; by rewrite fn_lookup_insert_ne|].
    eapply rtc_l; [apply (ls_send n i j); [done|done| |done|];
      cbn; rewrite ?(fn_lookup_insert_ne _ j i) by done; by rewrite fn_lookup_insert|].
    eapply rtc_l; [apply (ls_send n j i); [done|done| |done|];
      cbn; rewrite ?(fn_lookup_insert_ne _ i j) by done; by rewrite fn_lookup_insert|].
    apply rtc_refl. }
  assert (Hc : crossed i j s4).
  { split; cbn; rewrite ?(fn_lookup_insert_ne _ j i) by done; by rewrite fn_lookup_insert. }
  exists s4. split_and!; [done|done|]. intros s' Hst. pose proof (lock_steps_inv _ _ _ Hr all_asleep_inv) as Hinv.
  clear Hr. induction Hst as [|s s' s'' Hst _ IH]; [done|].
  apply IH; [by eapply crossed_step|by eapply lock_step_inv].
Qed.

(** ** Witnesses. *)

Lemma crossing_messages_deadlock_witness : exists s, lock_reachable 2 s /\ crossed 0 1 s /\
  forall s', rtc (lock_step 2) s s' -> crossed 0 1 s'.
Proof. apply (crossing_messages_deadlock 2 0 1); lia. Defined.

(** Module 0 has taken the lock of module 1 to send it a packet. *)
Definition sending_state : LockState :=
  set_pc 0 (Locked 1) (set_owner 1 (Some (0, 1)) (set_pc 0 (Locking 1)
    (set_pc 0 Working (set_owner 0 (Some (0, 1)) (set_socket 0 true all_asleep))))).

Lemma sending_state_reachable : lock_reachable 2 sending_state.
Proof.
  eapply rtc_l; [by apply (ls_flag 2 0); [lia|]|]. eapply rtc_l; [by apply (ls_wake 2 0); [lia| |]|].
  eapply rtc_l; [by apply (ls_send 2 0 1); [lia|lia| | |]|].
  eapply rtc_l; [by apply (ls_lock 2 0 1 (0, 1)); [lia| |]|]. apply rtc_refl.
Qed.

Lemma lock_discipline_witness :
  0 < holds sending_state 0 1 /\ (forall k', 0 < holds sending_state k' 1 -> 0 = k') /\
  exists c, owner sending_state 0 = Some (0, c).
Proof.
  destruct (lock_discipline 2 sending_state sending_state_reachable) as (Hone & Hown & _).
  assert (Hh : 0 < holds sending_state 0 1) by (vm_compute; lia).
  split_and!; [exact Hh|by intros k'; apply (Hone 1 0 k')|by apply Hown].
Defined.
