(* ===== verification/Client.v ===== *)
(** * Client: the library of the clients, [src/src/Architecture/Libraries/SDB/sdb.c].

    A client connects to the daemon with a handshake, sends packets and waits
    for their answers, now or later, and registers callbacks for the packets it
    serves.  A reading thread takes packets from the socket and gives them to
    the request that waits for them or to a new thread that runs a callback.

    The state of the library is [Client].  An operation returns [None] where
    its thread waits for ever.  What [pthread_cond_wait] waits for is done by
    rounds of the reading thread. *)

From S2P Require Import Prelude Abs McsDefs Mcs.

(** ** Data. *)

Definition SDB_LIST_MIN : Z := 5.

(** A callback and the packet it leaves in [pkt_out]. *)
Definition SDBCallback : Type := MCSPacket -> outcome MCSPacket.

Record SDBCMDCallback := mkCmdCallback { cmdcb_cmd : Z; cmdcb_callback : SDBCallback }.

Record SDBPacketCallback := mkPktCallback {
  pktcb_pkt : MCSPacket;
  pktcb_callback : SDBCallback
}.

Record SDBPendingPacket := mkPending {
  pp_id : Z;
  pp_pkt : option MCSPacket;  (** [None] until it is set *)
  pp_valid : bool
}.

Record SDBPendingQueueElem := mkPendElem {
  queue_pkt : SDBPendingPacket;
  queue_next : Z;
  queue_prev : Z
}.

Record Client := mkClient {
  cl_world : World;
  callback_list : list (option SDBCMDCallback);  (** as long as the array; [None] is not set *)
  callback_list_pos : Z;
  callback_list_locked : bool;  (** [callback_list_lock] was never released *)
  pending_list_first : Z;
  pending_heap : gmap Z SDBPendingQueueElem;
  socket_fd : Z;
  cl_threads : list SDBPacketCallback  (** threads created that have not run yet *)
}.

Definition callback_list_size (c : Client) : Z := zlen (callback_list c).

(** ** Access to the state. *)

Definition CM (A : Type) : Type := ST Client A.

Definition in_net {A} (m : ST World A) : CM A :=
  st_zoom cl_world (fun w c => mkClient w (callback_list c) (callback_list_pos c)
    (callback_list_locked c) (pending_list_first c) (pending_heap c) (socket_fd c) (cl_threads c)) m.

Definition set_callbacks (l : list (option SDBCMDCallback)) (pos : Z) : CM unit :=
  st_modify (fun c => mkClient (cl_world c) l pos (callback_list_locked c)
    (pending_list_first c) (pending_heap c) (socket_fd c) (cl_threads c)).

Definition set_callback_lock (b : bool) : CM unit :=
  st_modify (fun c => mkClient (cl_world c) (callback_list c) (callback_list_pos c) b
    (pending_list_first c) (pending_heap c) (socket_fd c) (cl_threads c)).

Definition set_pending (first : Z) (heap : gmap Z SDBPendingQueueElem) : CM unit :=
  st_modify (fun c => mkClient (cl_world c) (callback_list c) (callback_list_pos c)
    (callback_list_locked c) first heap (socket_fd c) (cl_threads c)).

Definition set_socket (fd : Z) : CM unit :=
  st_modify (fun c => mkClient (cl_world c) (callback_list c) (callback_list_pos c)
    (callback_list_locked c) (pending_list_first c) (pending_heap c) fd (cl_threads c)).

Definition set_threads (l : list SDBPacketCallback) : CM unit :=
  st_modify (fun c => mkClient (cl_world c) (callback_list c) (callback_list_pos c)
    (callback_list_locked c) (pending_list_first c) (pending_heap c) (socket_fd c) l).

Definition pend_get (a : Z) : CM SDBPendingQueueElem := fun c =>
  match pending_heap c !! a with Some e => Ok (e, c) | None => UB end.

Definition pend_set (a : Z) (f : SDBPendingQueueElem -> SDBPendingQueueElem) : CM unit :=
  let! e := pend_get a in
  let! c := st_get in
  set_pending (pending_list_first c) (<[a := f e]> (pending_heap c)).

Definition with_next (n : Z) (e : SDBPendingQueueElem) : SDBPendingQueueElem :=
  mkPendElem (queue_pkt e) n (queue_prev e).
Definition with_prev (p : Z) (e : SDBPendingQueueElem) : SDBPendingQueueElem :=
  mkPendElem (queue_pkt e) (queue_next e) p.
Definition with_answer (pkt : MCSPacket) (e : SDBPendingQueueElem) : SDBPendingQueueElem :=
  mkPendElem (mkPending (pp_id (queue_pkt e)) (Some pkt) true) (queue_next e) (queue_prev e).

(** ** Callbacks. *)

(** The loop of [get_callback_index] over the [n] cells from index [i]. *)
Fixpoint index_loop (cells : list (option SDBCMDCallback)) (n : nat) (i cmd : Z) {struct n} :
    outcome Z :=
  match n with
  | O => Ok (-1)
  | S n' =>
      match cells with
      | Some c :: cells' => if cmdcb_cmd c =? cmd then Ok i else index_loop cells' n' (i + 1) cmd
      | _ => UB
      end
  end.

Definition get_callback_index (cmd : Z) : CM Z :=
  let! c := st_get in
  st_lift (index_loop (callback_list c) (Z.to_nat (callback_list_pos c)) 0 cmd).

Definition sdb_register_callback (cmd : Z) (callback : option SDBCallback) : CM (option Z) :=
  match callback with
  | None => st_ret (Some (-1))
  | Some f =>
      let! c := st_get in
      if callback_list_locked c then st_ret None
      else
        do! set_callback_lock true in
        let! index := get_callback_index cmd in
        if negb (index =? -1) then st_ret (Some (-1))  (* the lock is not released *)
        else
          let pos := callback_list_pos c in
          let size := callback_list_size c in
          let cells := if pos =? size
                       then callback_list c ++ replicate (Z.to_nat (size * 3 / 2 - size)) None
                       else callback_list c in
          if zlen cells <=? pos then st_ub
          else
            do! set_callbacks (<[Z.to_nat pos := Some (mkCmdCallback cmd f)]> cells) (pos + 1) in
            do! set_callback_lock false in
            st_ret (Some 0)
  end.

(** The loop that moves [n] cells from [i] on one position down. *)
Fixpoint shift_down (cells : list (option SDBCMDCallback)) (i n : nat) :
    outcome (list (option SDBCMDCallback)) :=
  match n with
  | O => Ok cells
  | S n' =>
      match cells !! i with
      | Some x => shift_down (<[(i - 1)%nat := x]> cells) (S i) n'
      | None => UB
      end
  end.

Definition sdb_unregister_callback (cmd : Z) : CM (option Z) :=
  let! c := st_get in
  if callback_list_locked c then st_ret None
  else
    let! index := get_callback_index cmd in
    if negb (index =? -1) then
      let! cells := st_lift (shift_down (callback_list c) (Z.to_nat (index + 1))
                               (Z.to_nat (callback_list_pos c - (index + 1)))) in
      do! set_callbacks cells (callback_list_pos c) in
      st_ret (Some 0)
    else st_ret (Some 0).

(** ** Pending packets. *)

(** The search both [get_pending_packet_id] and [delete_pending_id] make. *)
Fixpoint find_pending (fuel : nat) (queue_elem id : Z) : CM Z :=
  match fuel with
  | O => st_ub
  | S fuel' =>
      if queue_elem =? NULL then st_ret NULL
      else
        let! e := pend_get queue_elem in
        if pp_id (queue_pkt e) =? id then st_ret queue_elem
        else find_pending fuel' (queue_next e) id
  end.

Definition get_pending_packet_id (id : Z) : CM Z :=
  let! c := st_get in
  find_pending (S (size (pending_heap c))) (pending_list_first c) id.

Definition add_pending_id (id : Z) : CM Z :=
  let! c := st_get in
  let queue_elem := malloc_addr (pending_heap c) in
  let first := pending_list_first c in
  do! set_pending first
    (<[queue_elem := mkPendElem (mkPending id None false) NULL NULL]> (pending_heap c)) in
  do! (if negb (first =? NULL) then pend_set first (with_prev queue_elem) else st_ret tt) in
  do! pend_set queue_elem (with_next first) in
  do! pend_set queue_elem (with_prev NULL) in
  let! c := st_get in
  do! set_pending queue_elem (pending_heap c) in
  st_ret queue_elem.

Definition delete_pending_id (id : Z) : CM unit :=
  let! queue_elem := get_pending_packet_id id in
  if queue_elem =? NULL then st_ret tt
  else
    let! e := pend_get queue_elem in
    do! (if negb (queue_next e =? NULL) then pend_set (queue_next e) (with_prev (queue_prev e))
         else st_ret tt) in
    let! c := st_get in
    do! (if queue_elem =? pending_list_first c then set_pending (queue_next e) (pending_heap c)
         else pend_set (queue_prev e) (with_next (queue_next e))) in
    let! c := st_get in
    set_pending (pending_list_first c) (delete queue_elem (pending_heap c)).

Section Client.
Context `{MCSTables} `{Build}.

(** ** The threads. *)

(** [sdb_thread_run_callback]. *)
Definition sdb_thread_run_callback (t : SDBPacketCallback) : CM unit :=
  let! pkt_out := st_lift (pktcb_callback t (pktcb_pkt t)) in
  let! c := st_get in
  do! in_net (mcs_write_command_and_free pkt_out (socket_fd c)) in
  st_ret tt.

(** The oldest thread that has not run, if any, runs. *)
Definition callback_step : CM unit :=
  let! c := st_get in
  match cl_threads c with
  | [] => st_ret tt
  | t :: ts => do! set_threads ts in sdb_thread_run_callback t
  end.

(** The answer to a packet nobody waits for. *)
Definition unexpected_packet (pkt : MCSPacket) : CM (option unit) :=
  let! c := st_get in
  do! in_net (mcs_write_command_and_free (mcs_err_packet pkt ECMDFAULT) (socket_fd c)) in
  st_ret (Some tt).

(** What [sdb_thread_read] does with a packet. *)
Definition read_dispatch (pkt : MCSPacket) : CM (option unit) :=
  if mcs_is_answer_packet pkt then
    let! pkt_pending := get_pending_packet_id (pkt_id pkt) in
    if negb (pkt_pending =? NULL) then
      do! pend_set pkt_pending (with_answer pkt) in st_ret (Some tt)
    else unexpected_packet pkt
  else
    let! c := st_get in
    if callback_list_locked c then st_ret None
    else
      let! index := get_callback_index (pkt_cmd pkt) in
      if negb (index =? -1) then
        match callback_list c !! Z.to_nat index with
        | Some (Some cb) =>
            do! set_threads (cl_threads c ++ [mkPktCallback pkt (cmdcb_callback cb)]) in
            st_ret (Some tt)
        | _ => st_ub
        end
      else unexpected_packet pkt.

(** One round of the [while] of [sdb_thread_read]. *)
Definition read_round : CM (option unit) :=
  let! c := st_get in
  let? (ret, ready) := in_net (os_select_set [socket_fd c]) in
  if ret <? 0 then st_ret (Some tt)
  else if bool_decide (socket_fd c ∈ ready) then
    let! pkt := in_net (mcs_read_command (socket_fd c) (socket_fd c)) in
    match pkt with
    | None => st_ub  (* [mcs_is_answer_packet] reads through NULL *)
    | Some pkt => read_dispatch pkt
    end
  else st_ret (Some tt).

(** The reading thread runs until it signals the condition of [queue_elem]. *)
Fixpoint wait_pending (fuel : nat) (queue_elem : Z) : CM (option unit) :=
  match fuel with
  | O => st_ret None
  | S fuel' =>
      let? _ := read_round in
      let! e := pend_get queue_elem in
      if pp_valid (queue_pkt e) then st_ret (Some tt) else wait_pending fuel' queue_elem
  end.

(** Rounds that are enough: each takes something from the socket or blocks. *)
Definition rounds_left (c : Client) : nat :=
  match w_fds (cl_world c) !! socket_fd c with Some f => S (length (fd_in f)) | None => 1 end.

(** [pthread_cond_wait]; [spurious]: it returns although nobody signalled. *)
Definition cond_wait (spurious : bool) (queue_elem : Z) : CM (option unit) :=
  if spurious then st_ret (Some tt)
  else let! c := st_get in wait_pending (rounds_left c) queue_elem.

(** ** Sending. *)

(** The value of the call and the packet in [pkt_out]. *)
Definition sdb_send_sync (spurious : bool) (pkt_in : MCSPacket) :
    CM (option (Z * option MCSPacket)) :=
  let! queue_elem := add_pending_id (pkt_id pkt_in) in
  let! c := st_get in
  let! ret := in_net (mcs_write_command pkt_in (socket_fd c)) in
  if negb (ret =? -1) then
    let? _ := cond_wait spurious queue_elem in
    let! e := pend_get queue_elem in
    match pp_pkt (queue_pkt e) with
    | None => st_ub  (* the pointer was never set *)
    | Some pkt_out =>
        do! delete_pending_id (pkt_id pkt_in) in
        st_ret (Some (0, Some pkt_out))
    end
  else st_ret (Some (-1, None)).

Definition sdb_send_sync_and_free (spurious : bool) (pkt_in : option MCSPacket) :
    CM (option (Z * option MCSPacket)) :=
  match pkt_in with
  | None => st_ub
  | Some pkt => sdb_send_sync spurious pkt
  end.

(** The value of the call and the pending packet. *)
Definition sdb_send_async (pkt_in : MCSPacket) : CM (Z * Z) :=
  let! queue_elem := add_pending_id (pkt_id pkt_in) in
  let! c := st_get in
  let! ret := in_net (mcs_write_command pkt_in (socket_fd c)) in
  st_ret (ret, queue_elem).

Definition sdb_send_async_and_free (pkt_in : option MCSPacket) : CM (Z * Z) :=
  match pkt_in with
  | None => st_ub
  | Some pkt => sdb_send_async pkt
  end.

Definition sdb_wait_async (spurious : bool) (pkt : Z) : CM (option Z) :=
  let! e := pend_get pkt in
  let? _ := (if negb (pp_valid (queue_pkt e)) then cond_wait spurious pkt
             else st_ret (Some tt)) in
  st_ret (Some 0).

Definition sdb_check_async (pkt : Z) : CM Z :=
  let! e := pend_get pkt in
  st_ret (if pp_valid (queue_pkt e) then 1 else 0).

Definition sdb_pending_packet_free (pkt : Z) : CM unit :=
  let! e := pend_get pkt in delete_pending_id (pp_id (queue_pkt e)).

(** ** Connecting. *)

Definition sdb_init : CM unit :=
  do! set_callbacks (replicate (Z.to_nat SDB_LIST_MIN) None) 0 in
  do! set_callback_lock false in
  let! c := st_get in
  set_pending NULL (pending_heap c).

(** The array is freed, not the pending packets. *)
Definition sdb_uninit : CM unit :=
  let! c := st_get in set_callbacks [] (callback_list_pos c).

Definition sdb_disconnect : CM Z :=
  let! c := st_get in
  do! in_net (os_close (socket_fd c)) in
  st_ret 0.

(** The text of the handshake, if it fits [handshake_str]. *)
Definition handshake_text (name : list Z) (group : SDBGroup) : outcome (list Z) :=
  match sdb_group_conversion !! Z.to_nat (group_val group) with
  | None => UB
  | Some gn =>
      let text := cstr name ++ 58 :: gn.2 in
      if zlen text + 1 <=? SDB_MODULE_NAME_SIZE * 2 then Ok text else UB
  end.

(** The handshake, once the socket is connected and the reading thread runs. *)
Definition send_handshake (rnd : Z) (text : list Z) : CM (option Z) :=
  let error_close ret :=
    let! c := st_get in do! in_net (os_close (socket_fd c)) in st_ret (Some ret) in
  let! pkt_in := st_lift (mcs_create_packet rnd MCS_MESSAGE_SDB_HANDSHAKE 0 None
                            (zlen text + 1) (Some (text ++ [0]))) in
  let? (ret, pkt_out) := sdb_send_sync_and_free false pkt_in in
  if negb (ret =? 0) then error_close ret
  else match pkt_out with
       | None => st_ub
       | Some out => if pkt_type out =? MCS_TYPE_OK then st_ret (Some 0) else error_close (-1)
       end.

(** [sock] and [conn] are what [socket] and [connect] return. *)
Definition sdb_connect (sock conn rnd : Z) (name : option (list Z)) (group : SDBGroup) :
    CM (option Z) :=
  let! c := st_get in
  if negb (socket_fd c =? -1) then st_ret (Some 0)
  else match name with
  | None => st_ret (Some (-1))
  | Some n =>
      if SDB_MODULE_NAME_SIZE <? strlen n then st_ret (Some (-1))
      else if group_val SDB_GROUP_MAX <=? group_val group then st_ret (Some (-1))
      else
        let! text := st_lift (handshake_text n group) in
        do! set_socket sock in
        if sock <? 0 then st_ret (Some (-1))
        else if conn <? 0 then do! in_net (os_close sock) in st_ret (Some (-1))
        else send_handshake rnd text
  end.

End Client.
