(* ===== verification/ClientFacts.v ===== *)
(** * ClientFacts: the lists of the client library.

    The pending packets are a doubly linked list in the heap, the callbacks an
    array with room at its end; each operation on them as one on lists. *)

From S2P Require Import Prelude Segments Abs McsDefs Mcs McsFacts Client.

(** ** Pending packets. *)

Abbreviation pcell := (Z * SDBPendingPacket)%type.
Abbreviation pseg := (seg (mk := fun d p n => mkPendElem d n p)).

Definition upd_pending (first : Z) (heap : gmap Z SDBPendingQueueElem) (c : Client) : Client :=
  mkClient (cl_world c) (callback_list c) (callback_list_pos c) (callback_list_locked c)
    first heap (socket_fd c) (cl_threads c).

(** The client with the pending packets [xs]. *)
Definition with_pending (xs : list pcell) (c : Client) : Client :=
  upd_pending (hd_addr xs NULL) (pseg NULL xs NULL ∅) c.

(** The pending packets of [c] are [xs], the newest first. *)
Definition pending_rep (c : Client) (xs : list pcell) : Prop :=
  NoDup (NULL :: xs.*1) /\ c = with_pending xs c.

Definition waits_for (id : Z) (x : pcell) : Prop := pp_id x.2 = id.

Lemma with_pending_rep xs c : NoDup (NULL :: xs.*1) -> pending_rep (with_pending xs c) xs.
Proof. done. Qed.

Lemma pend_get_ok a e c : pending_heap c !! a = Some e -> pend_get a c = Ok (e, c).
Proof. unfold pend_get. by intros ->. Qed.

Lemma pend_set_ok a e f first heap c : heap !! a = Some e ->
  pend_set a f (upd_pending first heap c) = Ok (tt, upd_pending first (<[a := f e]> heap) c).
Proof. intros Ha. unfold pend_set, st_bind at 1. by rewrite (pend_get_ok a e). Qed.

(** The cell of a pending packet. *)
Lemma pending_cell pre x post : NoDup (NULL :: (pre ++ x :: post).*1) ->
  pseg NULL (pre ++ x :: post) NULL ∅ !! x.1
  = Some (mkPendElem x.2 (hd_addr post NULL) (last_addr NULL pre)).
Proof.
  intros (_ & _ & _ & Ha & _)%nodup_one. rewrite seg_app. cbn.
  by rewrite seg_lookup_ne, lookup_insert_eq.
Qed.

(** The new packet becomes the first. *)
Lemma add_pending_ok c xs id : pending_rep c xs ->
  exists a, NoDup (NULL :: a :: xs.*1) /\
    add_pending_id id c = Ok (a, with_pending ((a, mkPending id None false) :: xs) c).
Proof.
  intros [Hn Hc]. set (h := pseg NULL xs NULL ∅). set (a := malloc_addr h). exists a.
  assert (Ha : a ∉ xs.*1).
  { intros Hi. destruct (seg_lookup_elem (mk := fun d p n => mkPendElem d n p) NULL xs NULL ∅ a Hi)
      as [e He]. pose proof (malloc_addr_fresh h) as Hf. fold a in Hf. fold h in He. congruence. }
  assert (Hnull : a <> NULL) by apply malloc_addr_pos.
  split.
  { apply NoDup_cons in Hn as [Hx Hn]. apply NoDup_cons. split.
    - rewrite elem_of_cons. intros [?|?]; [congruence|done].
    - by apply NoDup_cons. }
  rewrite Hc. unfold add_pending_id. unfold st_bind at 1, st_get.
  cbn [pending_heap pending_list_first with_pending upd_pending]. fold h a.
  unfold st_bind at 1, set_pending, st_modify. cbn [pending_heap pending_list_first].
  fold (upd_pending (hd_addr xs NULL)
    (<[a := mkPendElem (mkPending id None false) NULL NULL]> h) c).
  erewrite st_bind_ok with (s' := upd_pending (hd_addr xs NULL)
    (<[a := mkPendElem (mkPending id None false) NULL NULL]> (pseg a xs NULL ∅)) c).
  - unfold st_bind at 1. erewrite pend_set_ok by apply lookup_insert_eq.
    unfold st_bind at 1. erewrite pend_set_ok by apply lookup_insert_eq.
    rewrite !insert_insert_eq. done.
  - destruct (hd_addr xs NULL =? NULL) eqn:E; bool_prop; cbn [negb].
    + apply NoDup_cons in Hn as [Hx _]. pose proof (hd_addr_null xs Hx E) as ->. done.
    + destruct xs as [|x r]; [done|]. cbn [hd_addr].
      assert (x.1 <> a) by (intros Hxa; apply Ha; rewrite <- Hxa; constructor).
      refine (eq_trans (pend_set_ok x.1 (mkPendElem x.2 (hd_addr r NULL) NULL) _ x.1
        (<[a := mkPendElem (mkPending id None false) NULL NULL]> h) c _) _).
      * rewrite lookup_insert_ne by done. apply lookup_insert_eq.
      * rewrite insert_insert_ne by done. subst h. cbn. by rewrite insert_insert_eq.
Qed.

Lemma find_pending_step fuel a e id c : a <> NULL -> pending_heap c !! a = Some e ->
  find_pending (S fuel) a id c
  = if pp_id (queue_pkt e) =? id then Ok (a, c) else find_pending fuel (queue_next e) id c.
Proof.
  intros Ha He. cbn [find_pending]. rewrite (proj2 (Z.eqb_neq a NULL) Ha).
  unfold st_bind. rewrite (pend_get_ok a e) by done. by case_goal.
Qed.

(** The search from a cell of the list on. *)
Lemma find_pending_skip pre mid post id c fuel :
  NoDup (NULL :: (pre ++ mid ++ post).*1) -> Forall (fun x => ~ waits_for id x) mid ->
  find_pending (length mid + fuel) (hd_addr (mid ++ post) NULL) id (with_pending (pre ++ mid ++ post) c)
  = find_pending fuel (hd_addr post NULL) id (with_pending (pre ++ mid ++ post) c).
Proof.
  intros Hn Hf. revert pre Hn. induction Hf as [|x mid Hx _ IH]; intros pre Hn; [done|].
  cbn [length Nat.add app hd_addr].
  assert (Hx0 : x.1 <> NULL) by (apply (nodup_one _ _ _ Hn)).
  erewrite find_pending_step; [|done|by apply (pending_cell pre x (mid ++ post))].
  cbn [queue_pkt queue_next]. rewrite (proj2 (Z.eqb_neq _ _)) by done.
  specialize (IH (pre ++ [x])). rewrite <- app_assoc in IH. by apply IH.
Qed.

Lemma get_pending_found c pre x post id : NoDup (NULL :: (pre ++ x :: post).*1) ->
  Forall (fun x => ~ waits_for id x) pre -> waits_for id x ->
  get_pending_packet_id id (with_pending (pre ++ x :: post) c)
  = Ok (x.1, with_pending (pre ++ x :: post) c).
Proof.
  intros Hn Hpre Hx. unfold get_pending_packet_id, st_bind, st_get.
  cbn [pending_heap pending_list_first with_pending upd_pending].
  rewrite seg_size by (by apply NoDup_cons in Hn as [_ ?]). rewrite length_app.
  replace (S (length pre + length (x :: post))) with (length pre + S (length (x :: post)))%nat by lia.
  pose proof (find_pending_skip [] pre (x :: post) id c (S (length (x :: post))) Hn Hpre) as E.
  cbn [app] in E. unfold with_pending in E at 1. etransitivity; [exact E|]. cbn [hd_addr].
  erewrite find_pending_step; [|apply (nodup_one _ _ _ Hn)|by apply pending_cell].
  cbn [queue_pkt]. unfold waits_for in Hx. by rewrite Hx, Z.eqb_refl.
Qed.

Lemma get_pending_none c xs id : NoDup (NULL :: xs.*1) ->
  Forall (fun x => ~ waits_for id x) xs ->
  get_pending_packet_id id (with_pending xs c) = Ok (NULL, with_pending xs c).
Proof.
  intros Hn Hxs. unfold get_pending_packet_id, st_bind, st_get.
  cbn [pending_heap pending_list_first with_pending upd_pending].
  rewrite seg_size by (by apply NoDup_cons in Hn as [_ ?]).
  pose proof (find_pending_skip [] xs [] id c 1 ltac:(by rewrite app_nil_r) Hxs) as E.
  cbn [app] in E. rewrite app_nil_r in E. replace (S (length xs)) with (length xs + 1)%nat by lia.
  etransitivity; [exact E|]. done.
Qed.

(** An answer changes one cell. *)
Lemma pend_answer_ok c pre x post r : NoDup (NULL :: (pre ++ x :: post).*1) ->
  pend_set x.1 (with_answer r) (with_pending (pre ++ x :: post) c)
  = Ok (tt, with_pending (pre ++ (x.1, mkPending (pp_id x.2) (Some r) true) :: post) c).
Proof.
  intros Hn. unfold with_pending at 1. rewrite (pend_set_ok _ _ _ _ _ _ (pending_cell pre x post Hn)).
  apply nodup_one in Hn as (_ & _ & _ & Ha & _).
  unfold with_pending. rewrite !seg_app. cbn. rewrite seg_insert, insert_insert_eq by done.
  by rewrite !hd_addr_app.
Qed.

(** Removing a packet joins what is before and after it. *)
Lemma delete_pending_ok c pre x post id : NoDup (NULL :: (pre ++ x :: post).*1) ->
  Forall (fun x => ~ waits_for id x) pre -> waits_for id x ->
  delete_pending_id id (with_pending (pre ++ x :: post) c) = Ok (tt, with_pending (pre ++ post) c).
Proof.
  intros Hn Hpre Hx. unfold delete_pending_id, st_bind at 1.
  rewrite (get_pending_found c pre x post id Hn Hpre Hx).
  pose proof (pending_cell pre x post Hn) as Hcell.
  pose proof (nodup_one _ _ _ Hn) as (Hnp & Hnq & _ & Hxp & Hxq & Hnull & Hdis).
  rewrite (proj2 (Z.eqb_neq _ _) Hnull). unfold st_bind at 1.
  rewrite (pend_get_ok _ _ (with_pending _ c) Hcell). cbn [queue_next queue_prev].
  set (first := hd_addr pre x.1). set (lp := last_addr NULL pre).
  set (h2 := pseg NULL pre x.1 (<[x.1 := mkPendElem x.2 (hd_addr post NULL) lp]>
               (pseg lp post NULL ∅))).
  erewrite st_bind_ok with (s' := upd_pending first h2 c).
  2:{ unfold with_pending. rewrite hd_addr_app, seg_app. cbn [hd_addr seg]. fold first lp.
      destruct (hd_addr post NULL =? NULL) eqn:E; bool_prop; cbn [negb].
      - apply NoDup_cons in Hnq as [Hq _]. subst h2. by rewrite (hd_addr_null post Hq E).
      - destruct post as [|y r]; [done|]. cbn [hd_addr].
        assert (y.1 ∉ pre.*1) by (intros Hy; apply (Hdis y.1 Hy); constructor).
        assert (x.1 <> y.1) by (intros Hy; apply Hxq; rewrite Hy; constructor).
        erewrite pend_set_ok by (rewrite seg_lookup_ne, lookup_insert_ne by done; apply lookup_insert_eq).
        subst h2. rewrite seg_insert, insert_insert_ne by done. cbn. by rewrite insert_insert_eq. }
  unfold st_bind at 1, st_get. cbn [pending_list_first upd_pending pending_heap].
  erewrite st_bind_ok with (s' := upd_pending (hd_addr pre (hd_addr post NULL))
    (pseg NULL pre (hd_addr post NULL) (<[x.1 := mkPendElem x.2 (hd_addr post NULL) lp]>
               (pseg lp post NULL ∅))) c).
  - unfold st_bind at 1, st_get, set_pending, st_modify.
    cbn [pending_list_first upd_pending pending_heap].
    rewrite seg_delete, delete_insert_eq by done. rewrite seg_delete, delete_empty by done.
    unfold with_pending. by rewrite hd_addr_app, seg_app.
  - destruct (nil_or_snoc pre) as [-> |(y & r & ->)].
    + subst first h2. cbn [hd_addr]. by rewrite Z.eqb_refl.
    + assert (Hfirst : (x.1 =? first) = false).
      { apply Z.eqb_neq. intros Hf. apply Hxp. rewrite Hf. subst first.
        destruct r; cbn; constructor. }
      rewrite Hfirst. apply NoDup_cons in Hnp as [_ Hnp].
      assert (Hy : lp = y.1) by apply last_addr_nonnil. subst h2. rewrite Hy at 1.
      destruct (seg_last (mk := fun d p n => mkPendElem d n p) NULL r y x.1
        (<[x.1 := mkPendElem x.2 (hd_addr post NULL) lp]> (pseg lp post NULL ∅))
        (hd_addr post NULL) Hnp) as [Hl Hi].
      rewrite (pend_set_ok _ _ _ _ _ _ Hl). unfold with_next. cbn [queue_pkt queue_prev].
      rewrite Hi. subst first. by rewrite !hd_addr_app.
Qed.

(** ** Callbacks. *)

Definition upd_callbacks (l : list (option SDBCMDCallback)) (pos : Z) (locked : bool)
    (c : Client) : Client :=
  mkClient (cl_world c) l pos locked (pending_list_first c) (pending_heap c) (socket_fd c)
    (cl_threads c).

(** The callbacks of [c] are [cbs], in an array that has room for five at least. *)
Definition callbacks_rep (c : Client) (cbs : list SDBCMDCallback) : Prop :=
  exists junk, c = upd_callbacks ((Some <$> cbs) ++ junk) (zlen cbs) false c /\
    SDB_LIST_MIN <= zlen cbs + zlen junk.

Definition serves (cmd : Z) (x : SDBCMDCallback) : Prop := cmdcb_cmd x = cmd.

Lemma index_loop_found pre x tl n i cmd : Forall (fun y => ~ serves cmd y) pre -> serves cmd x ->
  index_loop ((Some <$> pre) ++ Some x :: tl) (length pre + S n) i cmd = Ok (i + zlen pre).
Proof.
  intros Hf Hx. revert i. induction Hf as [|y pre Hy _ IH]; intros i; cbn.
  - unfold serves in Hx. rewrite Hx, Z.eqb_refl. f_equal. unfold zlen. cbn. lia.
  - rewrite (proj2 (Z.eqb_neq _ _) Hy), IH. f_equal. unfold zlen. cbn. lia.
Qed.

Lemma index_loop_none cbs junk i cmd : Forall (fun y => ~ serves cmd y) cbs ->
  index_loop ((Some <$> cbs) ++ junk) (length cbs) i cmd = Ok (-1).
Proof.
  intros Hf. revert i. induction Hf as [|y cbs Hy _ IH]; intros i; cbn; [done|].
  by rewrite (proj2 (Z.eqb_neq _ _) Hy), IH.
Qed.

Lemma get_index_found c pre x post junk cmd locked :
  Forall (fun y => ~ serves cmd y) pre -> serves cmd x ->
  let c1 := upd_callbacks ((Some <$> (pre ++ x :: post)) ++ junk) (zlen (pre ++ x :: post)) locked c in
  get_callback_index cmd c1 = Ok (zlen pre, c1).
Proof.
  intros Hf Hx c1. unfold get_callback_index, st_bind, st_get, st_lift.
  cbn [callback_list callback_list_pos upd_callbacks c1].
  unfold zlen at 1. rewrite Nat2Z.id, length_app, fmap_app, <- app_assoc. cbn [fmap list_fmap app length].
  by rewrite index_loop_found.
Qed.

Lemma get_index_none c cbs junk cmd locked : Forall (fun y => ~ serves cmd y) cbs ->
  let c1 := upd_callbacks ((Some <$> cbs) ++ junk) (zlen cbs) locked c in
  get_callback_index cmd c1 = Ok (-1, c1).
Proof.
  intros Hf c1. unfold get_callback_index, st_bind, st_get, st_lift.
  cbn [callback_list callback_list_pos upd_callbacks c1].
  unfold zlen at 1. by rewrite Nat2Z.id, index_loop_none.
Qed.

(** The loop moves [l] over [x] and leaves its last element twice. *)
Lemma shift_down_spec (pre : list (option SDBCMDCallback)) x l junk :
  shift_down (pre ++ x :: l ++ junk) (S (length pre)) (length l)
  = Ok (pre ++ l ++ default x (last l) :: junk).
Proof.
  revert pre x. induction l as [|y l IH]; intros pre x; [done|]. cbn [length shift_down app].
  rewrite lookup_app_r by lia. replace (S (length pre) - length pre)%nat with 1%nat by lia.
  cbn [lookup list_lookup]. replace (S (length pre) - 1)%nat with (length pre) by lia.
  rewrite insert_app_r_alt by lia. rewrite Nat.sub_diag. cbn.
  specialize (IH (pre ++ [y]) y). rewrite <- !app_assoc, length_app in IH. cbn in IH.
  rewrite Nat.add_1_r in IH. rewrite IH, last_cons. by destruct (last l).
Qed.

(** ** The socket. *)

Definition upd_net (w : World) (c : Client) : Client :=
  mkClient w (callback_list c) (callback_list_pos c) (callback_list_locked c)
    (pending_list_first c) (pending_heap c) (socket_fd c) (cl_threads c).

Lemma in_net_ok {A} (f : ST World A) c a w : f (cl_world c) = Ok (a, w) ->
  in_net f c = Ok (a, upd_net w c).
Proof. intros Hf. unfold in_net, st_zoom. by rewrite Hf. Qed.

(** The bytes [bs] reach [fd] at time [t], or have reached it. *)
Definition delivers (fd t : Z) (bs : list Z) (w : World) : Prop :=
  next_arrival w fd = Some t /\ avail fd bs (set_now (Z.max (w_now w) t) w).

(** The world when they have been read. *)
Definition received (fd t : Z) (n : nat) (w : World) : World :=
  consume fd n (set_now (Z.max (w_now w) t) w).

Lemma select_one fd t w : next_arrival w fd = Some t ->
  exists n, os_select_set [fd] w = Ok (Some (n, [fd]), set_now (Z.max (w_now w) t) w) /\ 0 <= n.
Proof.
  intros Hn. unfold os_select_set. exists 1. split; [|done].
  assert (Ho : existsb (fd_closed w) [fd] = false).
  { unfold next_arrival in Hn. cbn. unfold fd_closed. by destruct (w_fds w !! fd). }
  rewrite Ho. cbn [omap list_omap]. rewrite Hn. cbn [foldr].
  assert (Hr : readable_at w (Z.max (w_now w) t) fd = true) by (unfold readable_at; rewrite Hn; lia).
  unfold filter, list_filter. rewrite decide_True by done. done.
Qed.

Lemma emit_delivers fd k t bs out w : delivers fd t bs w -> delivers fd t bs (emit k out w).
Proof.
  intros [Hn (f & evs & rest & Hf & Hin & Ha)].
  assert (Hf' : exists f', w_fds (emit k out w) !! fd = Some f' /\ fd_in f' = fd_in f).
  { unfold emit. cbn in *. rewrite lookup_alter. case_decide; [subst|]; rewrite Hf; by eexists. }
  destruct Hf' as (f' & Hf' & Hin'). cbn in Hf. split.
  - revert Hn. unfold next_arrival. by rewrite Hf', Hf, Hin'.
  - exists f', evs, rest. by rewrite Hin'.
Qed.
