(* ===== verification/ClientProps.v ===== *)
(** * ClientProps: what the client library promises.

    Answers reach the requests they belong to, callbacks are run for the packets
    they serve, and the handshake is one the daemon accepts. *)

From S2P Require Import Prelude Segments Abs McsDefs Mcs McsFacts McsProps.
From S2P Require Import Module DaemonProps Client ClientFacts.

Section Properties.
Context `{MCSTables} `{Build}.

(** ** Reading. *)

(** A round that finds a packet on the socket. *)
Lemma read_round_packet c t p rest : 0 <= socket_fd c -> readable p ->
  delivers (socket_fd c) t (wire p ++ rest) (cl_world c) ->
  read_round c = read_dispatch p
    (upd_net (received (socket_fd c) t (length (wire p)) (cl_world c)) c).
Proof.
  intros Hfd Hp [Hn Hav]. destruct (select_one _ _ _ Hn) as (n & Esel & Hn0).
  unfold read_round, st_bind at 1, st_get.
  rewrite (st_obind_ok _ _ _ _ _ (in_net_ok _ _ _ _ Esel)).
  rewrite (proj2 (Z.ltb_ge _ _) Hn0), bool_decide_eq_true_2 by set_solver.
  by rewrite (st_bind_ok _ _ _ _ _ (in_net_ok _ (upd_net _ c) _ _
    (mcs_read_parses _ (socket_fd c) p Hfd Hp _ _ Hav))).
Qed.

Lemma check_async_ok xs y c : NoDup (NULL :: xs.*1) -> y ∈ xs ->
  sdb_check_async y.1 (with_pending xs c)
  = Ok (if pp_valid y.2 then 1 else 0, with_pending xs c).
Proof.
  intros Hn (pre & post & ->)%list_elem_of_split. unfold sdb_check_async, st_bind.
  by rewrite (pend_get_ok _ _ (with_pending _ c) (pending_cell pre y post Hn)).
Qed.

(** An answer goes to the newest request with its id. *)
Lemma dispatch_answer c pre x post r : NoDup (NULL :: (pre ++ x :: post).*1) ->
  Forall (fun y => ~ waits_for (pkt_id r) y) pre -> waits_for (pkt_id r) x ->
  mcs_is_answer_packet r = true ->
  read_dispatch r (with_pending (pre ++ x :: post) c)
  = Ok (Some tt, with_pending (pre ++ (x.1, mkPending (pp_id x.2) (Some r) true) :: post) c).
Proof.
  intros Hn Hpre Hx Ha. unfold read_dispatch. rewrite Ha.
  rewrite (st_bind_ok _ _ _ _ _ (get_pending_found c pre x post _ Hn Hpre Hx)).
  rewrite (proj2 (Z.eqb_neq _ _)) by (apply (nodup_one _ _ _ Hn)). cbn [negb].
  by rewrite (st_bind_ok _ _ _ _ _ (pend_answer_ok c pre x post r Hn)).
Qed.

Lemma with_pending_net w xs c : upd_net w (with_pending xs c) = with_pending xs (upd_net w c).
Proof. done. Qed.

(** An answer reaches the request it belongs to, and no other.  One round of
    the reading thread waits for it, reads exactly that packet and gives it to
    the newest pending request with its id, which [sdb_check_async] then reports
    as answered; what it reports of the other requests does not change. *)
Theorem client_answer_matched c pre x post t r rest :
  pending_rep c (pre ++ x :: post) -> Forall (fun y => ~ waits_for (pkt_id r) y) pre ->
  waits_for (pkt_id r) x -> 0 <= socket_fd c -> readable r -> mcs_is_answer_packet r = true ->
  delivers (socket_fd c) t (wire r ++ rest) (cl_world c) ->
  exists c', read_round c = Ok (Some tt, c') /\
    cl_world c' = received (socket_fd c) t (length (wire r)) (cl_world c) /\
    pending_rep c' (pre ++ (x.1, mkPending (pp_id x.2) (Some r) true) :: post) /\
    sdb_check_async x.1 c' = Ok (1, c') /\
    forall y, y ∈ pre ++ post -> sdb_check_async y.1 c' = Ok (if pp_valid y.2 then 1 else 0, c').
Proof.
  intros [Hn Hc] Hpre Hx Hfd Hr Ha Hdel. set (w := received _ _ _ _).
  set (x' := (x.1, mkPending (pp_id x.2) (Some r) true)).
  exists (with_pending (pre ++ x' :: post) (upd_net w c)).
  assert (Hn' : NoDup (NULL :: (pre ++ x' :: post).*1)) by by rewrite fmap_app in *.
  split; [|split; [done|split; [by apply with_pending_rep|split]]].
  - rewrite (read_round_packet c t r rest) by done. fold w.
    replace (upd_net w c) with (with_pending (pre ++ x :: post) (upd_net w c)) at 1
      by (rewrite <- with_pending_net; by rewrite <- Hc).
    by apply dispatch_answer.
  - apply (check_async_ok _ x'); [done|]. apply elem_of_app. right. constructor.
  - intros y [Hy|Hy]%elem_of_app; apply check_async_ok; try done; apply elem_of_app;
      [by left|right; by constructor].
Qed.

(** A request up to the wait: the pending packet is first in the list. *)
Lemma send_sync_write c xs p : pending_rep c xs -> sendable p ->
  writable (socket_fd c) (cl_world c) ->
  exists a, NoDup (NULL :: a :: xs.*1) /\ forall spurious,
    sdb_send_sync spurious p c =
    (let? _ := cond_wait spurious a in
     let! e := pend_get a in
     match pp_pkt (queue_pkt e) with
     | None => st_ub
     | Some pkt_out => do! delete_pending_id (pkt_id p) in st_ret (Some (0, Some pkt_out))
     end) (with_pending ((a, mkPending (pkt_id p) None false) :: xs)
             (upd_net (emit (socket_fd c) (wire p) (cl_world c)) c)).
Proof.
  intros Hc Hp Hw. destruct (add_pending_ok c xs (pkt_id p) Hc) as (a & Hn & Eadd).
  exists a. split; [done|]. intros spurious. unfold sdb_send_sync.
  rewrite (st_bind_ok _ _ _ _ _ Eadd). unfold st_bind at 1, st_get.
  by rewrite (st_bind_ok _ _ _ _ _ (in_net_ok _ (with_pending _ c) _ _ (mcs_write_sendable p _ _ Hp Hw))).
Qed.

Lemma send_sync_ok c xs p r t rest :
  pending_rep c xs -> 0 <= socket_fd c -> sendable p -> writable (socket_fd c) (cl_world c) ->
  readable r -> mcs_is_answer_packet r = true -> pkt_id r = pkt_id p ->
  delivers (socket_fd c) t (wire r ++ rest) (cl_world c) ->
  sdb_send_sync false p c = Ok (Some (0, Some r),
    upd_net (received (socket_fd c) t (length (wire r))
               (emit (socket_fd c) (wire p) (cl_world c))) c).
Proof.
  intros Hc Hfd Hp Hw Hr Ha Hid Hdel.
  destruct (send_sync_write c xs p Hc Hp Hw) as (a & Hn & ->).
  set (x := (a, mkPending (pkt_id p) None false)). set (fd := socket_fd c) in *.
  set (w1 := emit fd (wire p) (cl_world c)). set (c1 := with_pending (x :: xs) (upd_net w1 c)).
  set (w2 := received fd t (length (wire r)) w1).
  set (x' := (a, mkPending (pkt_id p) (Some r) true)).
  assert (Hread : read_round c1 = Ok (Some tt, with_pending (x' :: xs) (upd_net w2 c))).
  { rewrite (read_round_packet c1 t r rest); [|done|done|by apply emit_delivers].
    apply (dispatch_answer (upd_net w2 c) [] x xs r Hn (Forall_nil_2 _)); done. }
  rewrite (st_obind_ok _ _ _ tt (with_pending (x' :: xs) (upd_net w2 c))).
  - unfold st_bind at 1.
    rewrite (pend_get_ok a (mkPendElem x'.2 (hd_addr xs NULL) NULL)) by apply lookup_insert_eq.
    cbn [queue_pkt pp_pkt snd x'].
    erewrite st_bind_ok by (apply (delete_pending_ok (upd_net w2 c) [] x' xs); done).
    cbn [app]. unfold st_ret. do 3 f_equal. destruct Hc as [_ Hc].
    change (upd_net w2 (with_pending xs c) = upd_net w2 c). by rewrite <- Hc.
  - unfold cond_wait. unfold st_bind at 1, st_get.
    assert (Hr1 : exists n, rounds_left c1 = S n) by (unfold rounds_left; case_goal; by eexists).
    destruct Hr1 as [n ->]. cbn [wait_pending].
    rewrite (st_obind_ok _ _ _ _ _ Hread). unfold st_bind.
    by erewrite pend_get_ok by apply lookup_insert_eq.
Qed.

(** C26: a synchronous request returns its answer.  It writes exactly the packet, waits for
    the answer with its id, here the next packet on the socket, and returns it, and the list
    of pending packets is as before.  The wait has no predicate: if it ends without a
    signal, as POSIX allows, a pointer that was never set is returned. *)
Theorem send_sync_answered c xs p r t rest :
  pending_rep c xs -> 0 <= socket_fd c -> sendable p -> writable (socket_fd c) (cl_world c) ->
  readable r -> mcs_is_answer_packet r = true -> pkt_id r = pkt_id p ->
  delivers (socket_fd c) t (wire r ++ rest) (cl_world c) ->
  sdb_send_sync false p c = Ok (Some (0, Some r),
    upd_net (received (socket_fd c) t (length (wire r))
               (emit (socket_fd c) (wire p) (cl_world c))) c) /\
  sdb_send_sync true p c = UB.
Proof.
  intros Hc Hfd Hp Hw Hr Ha Hid Hdel. split; [by eapply send_sync_ok|].
  destruct (send_sync_write c xs p Hc Hp Hw) as (a & Hn & ->).
  unfold cond_wait, st_obind, st_bind, st_ret.
  by erewrite pend_get_ok by apply lookup_insert_eq.
Qed.

(** ** Callbacks. *)

Lemma dispatch_served c pre x post junk p :
  Forall (fun y => ~ serves (pkt_cmd p) y) pre -> serves (pkt_cmd p) x ->
  mcs_is_answer_packet p = false ->
  let c1 := upd_callbacks ((Some <$> (pre ++ x :: post)) ++ junk) (zlen (pre ++ x :: post)) false c in
  read_dispatch p c1
  = Ok (Some tt, mkClient (cl_world c) (callback_list c1) (callback_list_pos c1) false
      (pending_list_first c) (pending_heap c) (socket_fd c)
      (cl_threads c ++ [mkPktCallback p (cmdcb_callback x)])).
Proof.
  intros Hpre Hx Ha c1. unfold read_dispatch. rewrite Ha. unfold st_bind at 1, st_get.
  cbn [callback_list_locked upd_callbacks c1].
  rewrite (st_bind_ok _ _ _ _ _ (get_index_found c pre x post junk _ false Hpre Hx)). fold c1.
  pose proof (zlen_nonneg pre). rewrite (proj2 (Z.eqb_neq _ _)) by lia. cbn [negb].
  assert (Hl : callback_list c1 !! Z.to_nat (zlen pre) = Some (Some x)).
  { cbn [callback_list c1 upd_callbacks]. unfold zlen. rewrite Nat2Z.id, fmap_app, <- app_assoc.
    cbn [fmap list_fmap app]. rewrite lookup_app_r by (by rewrite length_fmap).
    by rewrite length_fmap, Nat.sub_diag. }
  by rewrite Hl.
Qed.

Lemma unexpected_ok c p : 0 <= pkt_id p < 2 ^ 32 -> writable (socket_fd c) (cl_world c) ->
  unexpected_packet p c
  = Ok (Some tt, upd_net (emit (socket_fd c) (wire (mcs_err_packet p ECMDFAULT)) (cl_world c)) c).
Proof.
  intros Hid Hw. unfold unexpected_packet, mcs_write_command_and_free, mcs_err_packet.
  unfold st_bind at 1, st_get.
  by rewrite (st_bind_ok _ _ _ _ _ (in_net_ok _ c _ _
    (mcs_write_sendable _ _ _ (err_packet_sendable _ _ Hid) Hw))).
Qed.

(** A packet that is not an answer is given to the callback registered for its
    command number: a round of the reading thread reads it and starts a thread,
    which runs the callback and writes its result.  If there is none, the packet
    is answered with [ECMDFAULT], and nothing else changes. *)
Theorem callback_dispatch c cbs t p rest :
  callbacks_rep c cbs -> cl_threads c = [] -> 0 <= socket_fd c -> readable p ->
  mcs_is_answer_packet p = false -> writable (socket_fd c) (cl_world c) ->
  delivers (socket_fd c) t (wire p ++ rest) (cl_world c) ->
  let w := received (socket_fd c) t (length (wire p)) (cl_world c) in
  (forall pre x post out, cbs = pre ++ x :: post ->
     Forall (fun y => ~ serves (pkt_cmd p) y) pre -> serves (pkt_cmd p) x ->
     cmdcb_callback x p = Ok out -> sendable out ->
     exists c1, read_round c = Ok (Some tt, c1) /\
       callback_step c1 = Ok (tt, upd_net (emit (socket_fd c) (wire out) w) c)) /\
  (Forall (fun y => ~ serves (pkt_cmd p) y) cbs ->
     read_round c = Ok (Some tt,
       upd_net (emit (socket_fd c) (wire (mcs_err_packet p ECMDFAULT)) w) c)).
Proof.
  intros (junk & Hc & Hsz) Hth Hfd Hp Ha Hw Hdel w.
  assert (Hww : writable (socket_fd c) w) by by apply consume_writable.
  assert (Hcw : upd_net w c = upd_callbacks ((Some <$> cbs) ++ junk) (zlen cbs) false (upd_net w c))
    by exact (f_equal (upd_net w) Hc).
  rewrite (read_round_packet c t p rest) by done. fold w. split.
  - intros pre x post out -> Hpre Hx Hout Hs. rewrite Hcw.
    rewrite (dispatch_served (upd_net w c) pre x post junk p) by done.
    eexists. split; [done|]. unfold callback_step, st_bind at 1, st_get. cbn [cl_threads upd_net].
    rewrite Hth. cbn [app]. erewrite st_bind_ok by done.
    unfold sdb_thread_run_callback, st_bind at 1, st_lift. cbn [pktcb_callback pktcb_pkt].
    rewrite Hout. unfold st_bind at 1, st_get. cbn [socket_fd].
    erewrite st_bind_ok by (apply in_net_ok, mcs_write_sendable; done).
    unfold st_ret. do 2 f_equal. rewrite Hc. unfold upd_callbacks, upd_net. cbn. by rewrite Hth.
  - intros Hf. unfold read_dispatch. rewrite Ha. unfold st_bind at 1, st_get.
    pose proof (get_index_none (upd_net w c) cbs junk _ false Hf) as E. rewrite <- Hcw in E. cbn zeta in E.
    replace (callback_list_locked (upd_net w c)) with false by by rewrite Hcw.
    rewrite (st_bind_ok _ _ _ _ _ E). cbn [negb Z.eqb].
    by apply (unexpected_ok (upd_net w c)); [apply (wf_id p (proj1 Hp))|].
Qed.

(** The array after the growth: there is a cell after the callbacks. *)
Lemma register_room (cbs : list SDBCMDCallback) junk : SDB_LIST_MIN <= zlen cbs + zlen junk ->
  let cells := (Some <$> cbs) ++ junk in
  exists j junk', SDB_LIST_MIN <= zlen cbs + zlen (j :: junk') /\
    (if zlen cbs =? zlen cells
     then cells ++ replicate (Z.to_nat (zlen cells * 3 / 2 - zlen cells)) None
     else cells) = (Some <$> cbs) ++ j :: junk'.
Proof.
  intros Hsz cells. unfold SDB_LIST_MIN in *. pose proof (zlen_nonneg junk).
  assert (Hlen : zlen cells = zlen cbs + zlen junk)
    by (unfold cells, zlen; rewrite length_app, length_fmap; lia).
  rewrite Hlen. destruct (zlen cbs =? zlen cbs + zlen junk) eqn:E; bool_prop.
  - assert (Hj : zlen junk = 0) by lia. rewrite Hj, Z.add_0_r in *.
    assert (zlen cbs + 1 <= zlen cbs * 3 / 2) by (apply Z.div_le_lower_bound; lia).
    destruct (Z.to_nat (zlen cbs * 3 / 2 - zlen cbs)) as [|k] eqn:Ek; [lia|].
    exists None, (replicate k None). split; [rewrite zlen_cons; pose proof (zlen_nonneg (replicate k (@None SDBCMDCallback))); lia|].
    unfold cells. by rewrite (zlen_0 _ Hj), app_nil_r.
  - destruct junk as [|j junk']; [change (zlen (@nil (option SDBCMDCallback))) with 0 in *; lia|].
    by exists j, junk'.
Qed.

Lemma register_new_ok c cbs cmd f : callbacks_rep c cbs -> Forall (fun y => ~ serves cmd y) cbs ->
  exists c', sdb_register_callback cmd (Some f) c = Ok (Some 0, c') /\
    callbacks_rep c' (cbs ++ [mkCmdCallback cmd f]) /\
    c' = upd_callbacks (callback_list c') (callback_list_pos c') false c.
Proof.
  intros (junk & Hc & Hsz) Hf. destruct (register_room cbs junk Hsz) as (j & junk' & Hsz' & Hroom).
  exists (upd_callbacks ((Some <$> (cbs ++ [mkCmdCallback cmd f])) ++ junk') (zlen cbs + 1) false c).
  split; [|split; [|done]].
  - rewrite Hc at 1. unfold sdb_register_callback, st_bind at 1, st_get.
    cbn [callback_list_locked upd_callbacks]. erewrite st_bind_ok by done.
    rewrite (st_bind_ok _ _ _ _ _ (get_index_none c cbs junk cmd true Hf)).
    change (negb (-1 =? -1)) with false. cbv iota.
    unfold callback_list_size. cbn [callback_list callback_list_pos upd_callbacks].
    rewrite Hroom. rewrite (proj2 (Z.leb_gt _ _)).
    2:{ unfold zlen. rewrite length_app, length_fmap. cbn. lia. }
    erewrite st_bind_ok by done. erewrite st_bind_ok by done. unfold st_ret. do 2 f_equal.
    unfold upd_callbacks. f_equal. unfold zlen. rewrite Nat2Z.id.
    rewrite insert_app_r_alt by (by rewrite length_fmap). rewrite length_fmap, Nat.sub_diag.
    by rewrite fmap_app, <- app_assoc.
  - exists junk'. split; [unfold upd_callbacks; cbn; do 2 f_equal|].
    + unfold zlen. rewrite length_app. cbn. lia.
    + rewrite zlen_cons in Hsz'. rewrite zlen_app, zlen_cons, zlen_nil. lia.
Qed.

(** A command that is served is served by a first callback. *)
Lemma first_server cmd cbs : ~ Forall (fun y => ~ serves cmd y) cbs ->
  exists pre x post, cbs = pre ++ x :: post /\ Forall (fun y => ~ serves cmd y) pre /\ serves cmd x.
Proof.
  induction cbs as [|y cbs IH]; intros Hf; [destruct Hf; constructor|].
  destruct (decide (cmdcb_cmd y = cmd)) as [Hy|Hy]; [by exists [], y, cbs|].
  destruct IH as (pre & x & post & -> & Hpre & Hx).
  { intros Hall. apply Hf. by constructor. }
  exists (y :: pre), x, post. split; [done|]. split; [by constructor|done].
Qed.

(** Registering a callback.  A new command is added at the end, growing the
    array when it is full.  Registering a command again fails and never releases
    the lock: later calls, and the reading thread when it receives a packet that
    is not an answer, wait for ever. *)
Theorem register_callback_spec c cbs cmd f : callbacks_rep c cbs ->
  (Forall (fun y => ~ serves cmd y) cbs ->
     exists c', sdb_register_callback cmd (Some f) c = Ok (Some 0, c') /\
       callbacks_rep c' (cbs ++ [mkCmdCallback cmd f]) /\
       c' = upd_callbacks (callback_list c') (callback_list_pos c') false c) /\
  (~ Forall (fun y => ~ serves cmd y) cbs ->
     exists c', sdb_register_callback cmd (Some f) c = Ok (Some (-1), c') /\
       (forall cmd' f', sdb_register_callback cmd' (Some f') c' = Ok (None, c')) /\
       (forall cmd', sdb_unregister_callback cmd' c' = Ok (None, c')) /\
       (forall p, mcs_is_answer_packet p = false -> read_dispatch p c' = Ok (None, c'))).
Proof.
  intros Hrep. split; [by apply register_new_ok|].
  intros (pre & x & post & -> & Hpre & Hx)%first_server. destruct Hrep as (junk & Hc & _).
  exists (upd_callbacks ((Some <$> (pre ++ x :: post)) ++ junk) (zlen (pre ++ x :: post)) true c).
  split_and!; [|done|done|intros p Ha; unfold read_dispatch; by rewrite Ha].
  rewrite Hc at 1. unfold sdb_register_callback, st_bind at 1, st_get.
  cbn [callback_list_locked upd_callbacks]. erewrite st_bind_ok by done.
  rewrite (st_bind_ok _ _ _ _ _ (get_index_found c pre x post junk cmd true Hpre Hx)).
  pose proof (zlen_nonneg pre). by rewrite (proj2 (Z.eqb_neq _ _)) by lia.
Qed.

(** Unregistering a callback does not shorten the list.  The callbacks after
    it move down one place and the last one is then there twice, so unregistering
    the last one has no effect: its command is still served. *)
Theorem unregister_callback_spec c pre x post cmd :
  callbacks_rep c (pre ++ x :: post) -> Forall (fun y => ~ serves cmd y) pre -> serves cmd x ->
  exists c', sdb_unregister_callback cmd c = Ok (Some 0, c') /\
    callbacks_rep c' (pre ++ post ++ [default x (last post)]) /\
    c' = upd_callbacks (callback_list c') (callback_list_pos c') false c /\
    (post = [] -> c' = c).
Proof.
  intros (junk & Hc & Hsz) Hpre Hx.
  set (cells := (Some <$> (pre ++ post ++ [default x (last post)])) ++ junk).
  assert (Hlen : zlen (pre ++ post ++ [default x (last post)]) = zlen (pre ++ x :: post))
    by (unfold zlen; rewrite !length_app; cbn; lia).
  exists (upd_callbacks cells (zlen (pre ++ x :: post)) false c). split; [|split_and!; [|done|]].
  - rewrite Hc at 1. unfold sdb_unregister_callback, st_bind at 1, st_get.
    cbn [callback_list_locked upd_callbacks].
    rewrite (st_bind_ok _ _ _ _ _ (get_index_found c pre x post junk cmd false Hpre Hx)).
    pose proof (zlen_nonneg pre). rewrite (proj2 (Z.eqb_neq _ _)) by lia. cbn [negb].
    cbn [callback_list callback_list_pos upd_callbacks].
    replace (shift_down _ _ _) with (Ok cells); [done|]. symmetry.
    replace (Z.to_nat (zlen pre + 1)) with (S (length (Some <$> pre)))
      by (unfold zlen; rewrite length_fmap; lia).
    replace (Z.to_nat (zlen (pre ++ x :: post) - (zlen pre + 1))) with (length (Some <$> post))
      by (unfold zlen; rewrite length_app, length_fmap; cbn; lia).
    rewrite fmap_app, <- app_assoc. cbn [fmap list_fmap app].
    rewrite shift_down_spec. f_equal. unfold cells. rewrite !fmap_app, <- !app_assoc.
    do 3 f_equal. rewrite fmap_last. by destruct (last post).
  - exists junk. rewrite Hlen. by split.
  - intros ->. unfold cells. cbn [last app]. symmetry. exact Hc.
Qed.

(** ** Connecting. *)

(** The entry of the message table for the handshake: raw data, no arguments, a
    destination that does not come with the packet. *)
Definition handshake_entry : Prop :=
  exists opt, mcs_command_message_list !! Z.to_nat MCS_MESSAGE_SDB_HANDSHAKE = Some opt /\
    cmd_nargs (msg_cmd opt) = 0 /\ cmd_raw_data (msg_cmd opt) = true /\
    dest_is_arg MCS_TYPE_MESSAGE MCS_MESSAGE_SDB_HANDSHAKE = false.

(** The packet of a handshake. *)
Definition handshake_of_text (rnd : Z) (text : list Z) : MCSPacket :=
  mkMCSPacket (u32 rnd) MCS_TYPE_MESSAGE MCS_MESSAGE_SDB_HANDSHAKE 0 None None
    (zlen text + 1) (Some (text ++ [0])).

Lemma handshake_sendable_text rnd text : handshake_entry -> bytes_ok text -> zlen text < 65535 ->
  sendable (handshake_of_text rnd text).
Proof.
  intros (opt & Hopt & Hna & Hraw & Hdest) Hb Hl. pose proof (zlen_nonneg text).
  unfold sendable, readable. split_and!; [| |intros _; cbn; lia|done].
  - split; cbn; try done; try lia; [apply Z.mod_pos_bound; done|].
    split; [by rewrite zlen_app|]. apply Forall_app. split; [done|by repeat constructor].
  - right. exists (msg_cmd opt). split_and!.
    + unfold command_common, handshake_of_text, MCS_TYPE_MESSAGE. cbn [pkt_type pkt_cmd Z.eqb].
      by rewrite Hopt.
    + by rewrite Hna.
    + done.
    + unfold dest_matches, handshake_of_text. cbn [pkt_type pkt_cmd]. by rewrite Hdest.
    + by rewrite Hraw.
Qed.

Lemma handshake_created rnd text : handshake_entry -> bytes_ok text -> zlen text < 65535 ->
  mcs_create_packet rnd MCS_MESSAGE_SDB_HANDSHAKE 0 None (zlen text + 1) (Some (text ++ [0]))
  = Ok (Some (handshake_of_text rnd text)).
Proof.
  intros He Hb Hl. pose proof (zlen_nonneg text). unfold mcs_create_packet.
  change (Z.shiftr (Z.land MCS_MESSAGE_SDB_HANDSHAKE 0xF0000) 16) with MCS_TYPE_MESSAGE.
  change (Z.land MCS_MESSAGE_SDB_HANDSHAKE 0xFFFF) with MCS_MESSAGE_SDB_HANDSHAKE.
  change (MCS_TYPE_MESSAGE =? MCS_TYPE_PAYLOAD) with false. cbv iota. unfold mcs_create.
  change (copy_arg 0 None) with (@Ok (option (list Z)) None). unfold copy_arg.
  rewrite (proj2 (Z.eqb_neq (zlen text + 1) 0)) by lia. unfold abs_malloccpy.
  replace (zlen text + 1) with (zlen (text ++ [0])) by by rewrite zlen_app.
  rewrite memcpy_all. unfold generate_id.
  replace (zlen (text ++ [0])) with (zlen text + 1) by by rewrite zlen_app.
  fold (handshake_of_text rnd text). rewrite check_sendable by by apply handshake_sendable_text.
  done.
Qed.

(** The text names the module and its group, and always fits its buffer. *)
Lemma handshake_text_ok name g : Forall (fun b => b <> 0) name ->
  zlen name <= SDB_MODULE_NAME_SIZE -> group_val g < group_val SDB_GROUP_MAX ->
  exists gname, handshake_text name g = Ok (name ++ 58 :: gname) /\
    group_of gname sdb_group_conversion = Some g /\ zlen gname <= 7 /\
    bytes_ok gname /\ Forall (fun b => b <> 0) gname.
Proof.
  intros Hn Hl Hg. pose proof (zlen_nonneg name).
  assert (Hgn : exists gname, sdb_group_conversion !! Z.to_nat (group_val g) = Some (g, gname) /\
    group_of gname sdb_group_conversion = Some g /\ zlen gname <= 7 /\
    bytes_ok gname /\ Forall (fun b => b <> 0) gname).
  { destruct g; cbn in Hg; try lia; eexists; (split; [reflexivity|]); (split; [reflexivity|]);
      (split; [discriminate|]); split; repeat constructor; discriminate. }
  destruct Hgn as (gname & Hlk & Hgrp & Hlen & Hb & Hz). exists gname. split; [|done].
  unfold handshake_text. rewrite Hlk, cstr_no_nul by done. cbn [snd].
  unfold SDB_MODULE_NAME_SIZE in *. rewrite zlen_app, zlen_cons.
  by rewrite (proj2 (Z.leb_le _ _)) by lia.
Qed.

Definition upd_socket (fd : Z) (c : Client) : Client :=
  mkClient (cl_world c) (callback_list c) (callback_list_pos c) (callback_list_locked c)
    (pending_list_first c) (pending_heap c) fd (cl_threads c).

(** Connecting to the daemon.  For a name of at most ten characters and a valid
    group the client sends a handshake that the daemon accepts for that name and
    group, in a buffer that is large enough, and succeeds exactly when it is
    answered with an acknowledgement.  After a refusal the socket is closed but
    still remembered: the next attempt reports success. *)
Theorem connect_handshake c xs name g rnd sock t r rest :
  handshake_entry -> pending_rep c xs -> socket_fd c = -1 -> 0 <= sock ->
  bytes_ok name -> Forall (fun b => b <> 0 /\ b <> 58) name ->
  zlen name <= SDB_MODULE_NAME_SIZE -> group_val g < group_val SDB_GROUP_MAX ->
  writable sock (cl_world c) -> readable r -> mcs_is_answer_packet r = true ->
  pkt_id r = u32 rnd -> delivers sock t (wire r ++ rest) (cl_world c) ->
  exists p gname, handshake_packet_of p name gname [] /\
    group_of gname sdb_group_conversion = Some g /\
    let w := received sock t (length (wire r)) (emit sock (wire p) (cl_world c)) in
    if pkt_type r =? MCS_TYPE_OK
    then sdb_connect sock 0 rnd (Some name) g c = Ok (Some 0, upd_socket sock (upd_net w c))
    else exists c', sdb_connect sock 0 rnd (Some name) g c = Ok (Some (-1), c') /\
      w_fds (cl_world c') !! sock = None /\
      (forall sock' conn' rnd' name' g', sdb_connect sock' conn' rnd' name' g' c' = Ok (Some 0, c')).
Proof.
  intros He Hc Hsock Hfd Hb Hn Hl Hg Hw Hr Ha Hid Hdel.
  assert (Hn0 : Forall (fun b => b <> 0) name) by (eapply Forall_impl; [exact Hn|]; by intros ? [? _]).
  destruct (handshake_text_ok name g Hn0 Hl Hg) as (gname & Etext & Hgrp & Hlg & Hbg & Hzg).
  set (text := name ++ 58 :: gname) in *.
  assert (Hlt : zlen text < 65535).
  { unfold text, SDB_MODULE_NAME_SIZE in *. rewrite zlen_app, zlen_cons. lia. }
  assert (Hbt : bytes_ok text) by (apply Forall_app; split; [done|by constructor]).
  pose proof (handshake_sendable_text rnd text He Hbt Hlt) as Hs.
  exists (handshake_of_text rnd text), gname. split.
  { split_and!; [apply Hs|done| |done|done]. unfold handshake_data, handshake_of_text, text.
    cbn [pkt_data]. by rewrite <- app_assoc. }
  split; [done|]. intros w. set (c1 := upd_socket sock c).
  assert (Hsend : sdb_send_sync false (handshake_of_text rnd text) c1 = Ok (Some (0, Some r), upd_net w c1)).
  { apply (send_sync_ok c1 xs _ r t rest); try done. destruct Hc as [Hnd Hc]. split; [done|].
    exact (f_equal (upd_socket sock) Hc). }
  assert (Hconn : sdb_connect sock 0 rnd (Some name) g c = send_handshake rnd text c1).
  { unfold sdb_connect, st_bind at 1, st_get. rewrite Hsock. cbn [negb Z.eqb Pos.eqb].
    replace (strlen name) with (zlen name) by (unfold strlen; by rewrite cstr_no_nul).
    rewrite (proj2 (Z.ltb_ge _ _) Hl), (proj2 (Z.leb_gt _ _) Hg).
    unfold st_bind at 1, st_lift. rewrite Etext. erewrite st_bind_ok by done.
    rewrite (proj2 (Z.ltb_ge _ _) Hfd). done. }
  rewrite Hconn. unfold send_handshake. cbv zeta. rewrite (handshake_created rnd text) by done.
  erewrite st_bind_ok by reflexivity. unfold sdb_send_sync_and_free.
  rewrite (st_obind_ok _ _ _ _ _ Hsend). cbn [negb Z.eqb].
  destruct (pkt_type r =? MCS_TYPE_OK); [done|].
  exists (upd_net (mkWorld (w_now w) (delete sock (w_fds w))) c1).
  split; [reflexivity|]. split; [apply lookup_delete_eq|].
  intros. unfold sdb_connect, st_bind at 1, st_get. cbn [socket_fd upd_net c1 upd_socket].
  rewrite (proj2 (Z.eqb_neq sock (-1))) by lia. done.
Qed.

(** ** Losing the connection. *)

(** When the daemon closes the connection the client crashes: the reading
    thread gets no packet and asks for its type through NULL. *)
Theorem client_eof_crash c f t evs : 0 <= socket_fd c ->
  w_fds (cl_world c) !! socket_fd c = Some f -> fd_in f = (t, None) :: evs ->
  read_round c = UB.
Proof.
  intros Hfd Hf Hin. unfold read_round, st_bind at 1, st_get.
  assert (Hn : next_arrival (cl_world c) (socket_fd c) = Some t)
    by (unfold next_arrival; by rewrite Hf, Hin).
  destruct (select_one _ _ _ Hn) as (n & Esel & Hn0).
  rewrite (st_obind_ok _ _ _ _ _ (in_net_ok _ _ _ _ Esel)).
  rewrite (proj2 (Z.ltb_ge _ _) Hn0), bool_decide_eq_true_2 by set_solver.
  assert (Hread : mcs_read_command (socket_fd c) (socket_fd c)
    (set_now (Z.max (w_now (cl_world c)) t) (cl_world c))
    = Ok (None, set_now (Z.max (w_now (cl_world c)) t) (cl_world c)))
    by (eapply read_command_eof; [done|exact Hf|exact Hin|cbn; lia]).
  by rewrite (st_bind_ok _ _ _ _ _ (in_net_ok _ (upd_net _ c) _ _ Hread)).
Qed.

End Properties.

(** ** Witnesses. *)

Section Witnesses.

#[local] Existing Instances repo_tables release_build.

(** The bytes [bs] arrive on socket 5 at time 1000. *)
Definition later_events (bs : list Z) : list (Z * option Z) := (fun b => (1000, Some b)) <$> bs.

Definition later (bs : list Z) : World := mkWorld 0 {[5 := mkFd (later_events bs) [] None]}.

Lemma later_delivers b bs : delivers 5 1000 ((b :: bs) ++ []) (later (b :: bs)).
Proof.
  rewrite app_nil_r. split; [done|].
  exists (mkFd (later_events (b :: bs)) [] None), (later_events (b :: bs)), [].
  split; [done|]. split; [by rewrite app_nil_r|]. unfold arrived, later_events.
  apply Forall2_fmap_r. apply Forall2_same_length_lookup. split; [done|].
  intros i x y Hx Hy. rewrite Hx in Hy. injection Hy as <-. done.
Qed.

Lemma later_writable bs : writable 5 (later bs).
Proof. by eexists. Qed.

(** A client without callbacks and pending packets, connected with [fd]. *)
Definition fresh_client (fd : Z) (w : World) : Client :=
  mkClient w (replicate 5 None) 0 false NULL ∅ fd [].

Lemma fresh_pending fd w : pending_rep (fresh_client fd w) [].
Proof. split; [|done]. apply NoDup_cons. split; [apply not_elem_of_nil|constructor]. Qed.

Lemma fresh_callbacks fd w : callbacks_rep (fresh_client fd w) [].
Proof. by exists (replicate 5 None). Qed.

Definition answer_77 : MCSPacket := mcs_ok_packet_id 77.

Lemma answer_77_readable : readable answer_77.
Proof. exact (proj1 (ok_packet_sendable 77 ltac:(done))). Qed.

(** Two requests are pending; the older one is answered. *)
Definition two_pending : list pcell := [(2, mkPending 78 None false); (1, mkPending 77 None false)].

Lemma two_pending_rep w : pending_rep (with_pending two_pending (fresh_client 5 w)) two_pending.
Proof. split; [|done]. apply (bool_decide_unpack (NoDup [NULL; 2; 1])). vm_compute. exact I. Qed.

Lemma not_78 : Forall (fun y : pcell => ~ waits_for (pkt_id answer_77) y) [(2, mkPending 78 None false)].
Proof. by repeat constructor. Qed.

Lemma client_answer_matched_witness :
  exists c', read_round (with_pending two_pending (fresh_client 5 (later (wire answer_77))))
      = Ok (Some tt, c') /\
    sdb_check_async 1 c' = Ok (1, c') /\ sdb_check_async 2 c' = Ok (0, c').
Proof.
  destruct (client_answer_matched (with_pending two_pending (fresh_client 5 (later (wire answer_77))))
    [(2, mkPending 78 None false)] (1, mkPending 77 None false) [] 1000 answer_77 []
    (two_pending_rep _) not_78 eq_refl ltac:(discriminate) answer_77_readable eq_refl
    (later_delivers _ _)) as (c' & E & _ & _ & H1 & H2).
  exists c'. split; [exact E|]. split; [exact H1|].
  exact (H2 (2, mkPending 78 None false) ltac:(constructor)).
Defined.

(** A message that needs no destination. *)
Definition start_qos : MCSPacket := mkMCSPacket 77 MCS_TYPE_MESSAGE 2 0 None None 0 None.

Lemma start_qos_sendable : sendable start_qos.
Proof.
  unfold sendable, readable. split_and!; [split; cbn; try done; lia| |done|done].
  right. eexists. split_and!; done.
Qed.

Lemma send_sync_answered_witness :
  (exists c', sdb_send_sync false start_qos (fresh_client 5 (later (wire answer_77)))
    = Ok (Some (0, Some answer_77), c')) /\
  sdb_send_sync true start_qos (fresh_client 5 (later (wire answer_77))) = UB.
Proof.
  destruct (send_sync_answered (fresh_client 5 (later (wire answer_77))) [] start_qos answer_77 1000 []
    (fresh_pending _ _) ltac:(discriminate) start_qos_sendable (later_writable _)
    answer_77_readable eq_refl eq_refl (later_delivers _ _)) as [E1 E2].
  split; [eexists; exact E1|exact E2].
Defined.

(** A callback that acknowledges its packet. *)
Definition acknowledge : SDBCallback := fun p => Ok (mcs_ok_packet p).

Definition serving (w : World) : Client :=
  upd_callbacks (Some (mkCmdCallback 2 acknowledge) :: replicate 4 None) 1 false (fresh_client 5 w).

Lemma serving_rep w : callbacks_rep (serving w) [mkCmdCallback 2 acknowledge].
Proof. by exists (replicate 4 None). Qed.

Lemma callback_dispatch_witness :
  (exists c1, read_round (serving (later (wire start_qos))) = Ok (Some tt, c1) /\
     exists c2, callback_step c1 = Ok (tt, c2)) /\
  (exists c1, read_round (fresh_client 5 (later (wire start_qos))) = Ok (Some tt, c1)).
Proof.
  split.
  - destruct (callback_dispatch (serving (later (wire start_qos))) [mkCmdCallback 2 acknowledge]
      1000 start_qos [] (serving_rep _) eq_refl ltac:(discriminate) (proj1 start_qos_sendable) eq_refl
      (later_writable _) (later_delivers _ _)) as [Hs _].
    destruct (Hs [] (mkCmdCallback 2 acknowledge) [] answer_77 eq_refl (Forall_nil_2 _) eq_refl
      eq_refl (ok_packet_sendable 77 ltac:(done))) as (c1 & E1 & E2).
    exists c1. split; [exact E1|]. eexists. exact E2.
  - destruct (callback_dispatch (fresh_client 5 (later (wire start_qos))) [] 1000 start_qos []
      (fresh_callbacks _ _) eq_refl ltac:(discriminate) (proj1 start_qos_sendable) eq_refl
      (later_writable _) (later_delivers _ _)) as [_ Hn].
    eexists. exact (Hn (Forall_nil_2 _)).
Defined.

Lemma register_callback_spec_witness :
  (exists c', sdb_register_callback 2 (Some acknowledge) (fresh_client 5 (later [])) = Ok (Some 0, c')) /\
  (exists c', sdb_register_callback 2 (Some acknowledge) (serving (later [])) = Ok (Some (-1), c') /\
     sdb_unregister_callback 2 c' = Ok (None, c')).
Proof.
  split.
  - destruct (register_callback_spec (fresh_client 5 (later [])) [] 2 acknowledge
      (fresh_callbacks _ _)) as [Hn _].
    destruct (Hn (Forall_nil_2 _)) as (c' & E & _). exists c'. exact E.
  - destruct (register_callback_spec (serving (later [])) [mkCmdCallback 2 acknowledge] 2 acknowledge
      (serving_rep _)) as [_ Hd].
    destruct Hd as (c' & E & _ & Hu & _).
    { intros Hf. inversion Hf as [|? ? Hx]. exact (Hx eq_refl). }
    exists c'. split; [exact E|exact (Hu 2)].
Defined.

(** The only callback is still registered after it was unregistered. *)
Lemma unregister_callback_spec_witness :
  sdb_unregister_callback 2 (serving (later [])) = Ok (Some 0, serving (later [])).
Proof.
  destruct (unregister_callback_spec (serving (later [])) [] (mkCmdCallback 2 acknowledge) [] 2
    (serving_rep _) (Forall_nil_2 _) eq_refl) as (c' & E & _ & _ & Hc).
  rewrite (Hc eq_refl) in E. exact E.
Defined.

Lemma repo_handshake_entry : handshake_entry.
Proof. eexists. split_and!; reflexivity. Qed.

Lemma name_ab_ok : bytes_ok (str "ab") /\ Forall (fun b => b <> 0 /\ b <> 58) (str "ab").
Proof. split; repeat constructor; done. Qed.

Definition refusal_77 : MCSPacket := mcs_err_packet_id 77 ECONNREFUSED.

Lemma refusal_77_readable : readable refusal_77.
Proof. exact (proj1 (err_packet_sendable 77 ECONNREFUSED ltac:(done))). Qed.

Lemma connect_handshake_witness :
  (exists c', sdb_connect 5 0 77 (Some (str "ab")) SDB_GROUP_APP
     (fresh_client (-1) (later (wire answer_77))) = Ok (Some 0, c')) /\
  (exists c', sdb_connect 5 0 77 (Some (str "ab")) SDB_GROUP_APP
     (fresh_client (-1) (later (wire refusal_77))) = Ok (Some (-1), c') /\
     sdb_connect 6 (-1) 0 None SDB_GROUP_APP c' = Ok (Some 0, c')).
Proof.
  split.
  - destruct (connect_handshake (fresh_client (-1) (later (wire answer_77))) [] (str "ab")
      SDB_GROUP_APP 77 5 1000 answer_77 [] repo_handshake_entry (fresh_pending _ _) eq_refl
      ltac:(discriminate) (proj1 name_ab_ok) (proj2 name_ab_ok) ltac:(discriminate) eq_refl
      (later_writable _) answer_77_readable eq_refl eq_refl (later_delivers _ _))
      as (p & gname & _ & _ & E).
    eexists. exact E.
  - destruct (connect_handshake (fresh_client (-1) (later (wire refusal_77))) [] (str "ab")
      SDB_GROUP_APP 77 5 1000 refusal_77 [] repo_handshake_entry (fresh_pending _ _) eq_refl
      ltac:(discriminate) (proj1 name_ab_ok) (proj2 name_ab_ok) ltac:(discriminate) eq_refl
      (later_writable _) refusal_77_readable eq_refl eq_refl (later_delivers _ _))
      as (p & gname & _ & _ & c' & E & _ & Hagain).
    exists c'. split; [exact E|exact (Hagain 6 (-1) 0 None SDB_GROUP_APP)].
Defined.

Lemma client_eof_crash_witness :
  read_round (fresh_client 5 (mkWorld 0 {[5 := mkFd [(1000, None)] [] None]})) = UB.
Proof.
  exact (client_eof_crash (fresh_client 5 (mkWorld 0 {[5 := mkFd [(1000, None)] [] None]})) (mkFd [(1000, None)] [] None) 1000 [] ltac:(discriminate) eq_refl eq_refl).
Defined.

End Witnesses.
