(* ===== verification/Network.v ===== *)
(** * Network: clients, sockets and the daemon together.

    The daemon and the libraries of its clients, joined by their sockets.  Client
    [i] is the one module [i] of the daemon serves.  A socket takes what one end
    wrote and gives it to the other, in order and without losses; nothing else
    is assumed of it.

    The events of the network are the steps the threads of both programs make:
    a client sends a packet, its reading thread reads one, its oldest callback
    thread runs; the thread of a module makes a round, so does the observer; a
    socket carries what was written.  A client joins the network when it connects,
    the director accepts it and the thread of its module starts.  [net_run] runs
    a list of events. *)

From S2P Require Import Prelude Segments Abs McsDefs Mcs McsFacts Queue QueueFacts Qos QosFacts.
From S2P Require Import Module ModuleFacts Daemon Client.

(** ** Sockets. *)

(** What was written to [fd] and not carried yet. *)
Definition sent (fd : Z) (w : World) : list Z :=
  match w_fds w !! fd with Some f => fd_out f | None => [] end.

(** It has been carried away. *)
Definition carried (fd : Z) (w : World) : World :=
  mkWorld (w_now w) (alter (fun f => mkFd (fd_in f) [] (fd_cap f)) fd (w_fds w)).

(** The bytes [bs] arrive on [fd] now. *)
Definition arrive (fd : Z) (bs : list Z) (w : World) : World :=
  mkWorld (w_now w)
    (alter (fun f => mkFd (fd_in f ++ ((fun b => (w_now w, Some b)) <$> bs)) (fd_out f) (fd_cap f))
       fd (w_fds w)).

(** ** Calls that wait.

    [sdb_send_sync] and [sdb_connect] wait for the daemon, so here each has two
    halves, before and after the wait: [send_sync_halves] and [connect_halves] in
    [Joining] show that they are the whole call. *)

Section Network.
Context `{MCSTables} `{Build} `{QueueSpec Q} `{!Environment Q}.

(** The value of the call if it does not come to the wait; otherwise the pending
    packet and the handshake. *)
Definition connect_begin (sock conn rnd : Z) (name : option (list Z)) (group : SDBGroup) :
    CM (Z + Z * MCSPacket) :=
  let! c := st_get in
  if negb (socket_fd c =? -1) then st_ret (inl 0)
  else match name with
  | None => st_ret (inl (-1))
  | Some n =>
      if SDB_MODULE_NAME_SIZE <? strlen n then st_ret (inl (-1))
      else if group_val SDB_GROUP_MAX <=? group_val group then st_ret (inl (-1))
      else
        let! text := st_lift (handshake_text n group) in
        do! set_socket sock in
        if sock <? 0 then st_ret (inl (-1))
        else if conn <? 0 then do! in_net (os_close sock) in st_ret (inl (-1))
        else
          let! pkt_in := st_lift (mcs_create_packet rnd MCS_MESSAGE_SDB_HANDSHAKE 0 None
                                    (zlen text + 1) (Some (text ++ [0]))) in
          match pkt_in with
          | None => st_ub
          | Some pkt =>
              let! (ret, queue_elem) := sdb_send_async pkt in
              if negb (ret =? -1) then st_ret (inr (queue_elem, pkt))
              else
                let! c := st_get in
                do! in_net (os_close (socket_fd c)) in st_ret (inl (-1))
          end
  end.

(** The end of [sdb_send_sync]: the packet in [pkt_out]. *)
Definition sync_end (queue_elem : Z) (pkt_in : MCSPacket) : CM MCSPacket :=
  let! e := pend_get queue_elem in
  match pp_pkt (queue_pkt e) with
  | None => st_ub
  | Some pkt_out => do! delete_pending_id (pkt_id pkt_in) in st_ret pkt_out
  end.

(** The end of [sdb_connect]. *)
Definition connect_end (queue_elem : Z) (pkt_in : MCSPacket) : CM Z :=
  let! out := sync_end queue_elem pkt_in in
  if pkt_type out =? MCS_TYPE_OK then st_ret 0
  else let! c := st_get in do! in_net (os_close (socket_fd c)) in st_ret (-1).

(** ** The network. *)

Record Net := mkNet { net_sys : Sys Q; net_clients : list Client }.

Definition at_daemon {A} (m : ST (Sys Q) A) : ST Net A :=
  st_zoom net_sys (fun s n => mkNet s (net_clients n)) m.

Definition get_client (i : Z) : ST Net Client := fun n =>
  if i <? 0 then UB
  else match net_clients n !! Z.to_nat i with Some c => Ok (c, n) | None => UB end.

Definition put_client (i : Z) (c : Client) : ST Net unit :=
  st_modify (fun n => mkNet (net_sys n) (<[Z.to_nat i := c]> (net_clients n))).

Definition at_client {A} (i : Z) (m : CM A) : ST Net A :=
  let! c := get_client i in
  let! r := st_lift (m c) in
  do! put_client i r.2 in
  st_ret r.1.

(** The socket of client [i] carries what the client wrote to the daemon. *)
Definition carry_up (i : Z) : ST Net unit :=
  let! c := get_client i in
  let! m := at_daemon (get_mod i) in
  let bs := sent (socket_fd c) (cl_world c) in
  do! at_client i (in_net (st_modify (carried (socket_fd c)))) in
  at_daemon (in_world (st_modify (arrive (mod_rfd m) bs))).

(** The socket of client [i] carries what the daemon wrote to the client. *)
Definition carry_down (i : Z) : ST Net unit :=
  let! c := get_client i in
  let! m := at_daemon (get_mod i) in
  let! s := st_gets net_sys in
  let bs := sent (mod_wfd m) (sys_world s) in
  do! at_daemon (in_world (st_modify (carried (mod_wfd m)))) in
  at_client i (in_net (st_modify (arrive (socket_fd c) bs))).

(** A new socket joins client [i] and the director: [sock] is the end of the client,
    [con_fd] that of the daemon. *)
Definition dial (i sock con_fd : Z) : ST Net unit :=
  do! at_client i (in_net (st_modify (set_fd sock (mkFd [] [] None)))) in
  at_daemon (in_world (st_modify (set_fd con_fd (mkFd [] [] None)))).

(** The pipe of the observer carries what the threads wrote to wake it up. *)
Definition carry_wake (pipe : Z) : ST Net unit :=
  let! s := st_gets net_sys in
  let bs := sent (sys_observer_fd s) (sys_world s) in
  do! at_daemon (in_world (st_modify (carried (sys_observer_fd s)))) in
  at_daemon (in_world (st_modify (arrive pipe bs))).

Inductive Event :=
| Send (i : Z) (p : MCSPacket)   (** client [i] calls [sdb_send_async] *)
| Read (i : Z)                   (** a round of its reading thread *)
| Callback (i : Z)               (** its oldest callback thread runs *)
| Observe                        (** a round of the observer *)
| Round (i : Z)                  (** a round of the thread of module [i] *)
| Up (i : Z)
| Down (i : Z)
| Dial (i sock con_fd : Z)
| Accept (con_fd : Z)            (** a round of the director *)
| Start (i : Z)                  (** the thread of module [i] starts *)
| Wake.

(** [None]: the thread waits for ever. *)
Definition net_event (pipe : Z) (e : Event) : ST Net (option unit) :=
  match e with
  | Send i p => do! at_client i (sdb_send_async p) in st_ret (Some tt)
  | Read i => at_client i read_round
  | Callback i => do! at_client i callback_step in st_ret (Some tt)
  | Observe => at_daemon (observer_round pipe)
  | Round i => let? _ := at_daemon (module_round i) in st_ret (Some tt)
  | Up i => do! carry_up i in st_ret (Some tt)
  | Down i => do! carry_down i in st_ret (Some tt)
  | Dial i sock con_fd => do! dial i sock con_fd in st_ret (Some tt)
  | Accept con_fd => do! at_daemon (director_round 5 con_fd) in st_ret (Some tt)
  | Start i => do! at_daemon (module_start i) in st_ret (Some tt)
  | Wake => do! carry_wake pipe in st_ret (Some tt)
  end.

Fixpoint net_run (pipe : Z) (es : list Event) : ST Net (option unit) :=
  match es with
  | [] => st_ret (Some tt)
  | e :: es' => let? _ := net_event pipe e in net_run pipe es'
  end.

(** *** Schedules. *)

(** A packet of client [a] is delivered to client [b], and its answer to [a]. *)
Definition delivery (a b : Z) : list Event :=
  [Up a; Observe; Round a; Round b; Down b;
   Read b; Callback b; Up b; Observe; Round b; Round a; Down a; Read a].

(** A packet of client [a] is refused by the daemon. *)
Definition refusal (a : Z) : list Event := [Up a; Observe; Round a; Down a; Read a].

(** The module of client [i] starts, and its handshake is answered. *)
Definition joining (i : Z) : list Event := [Up i; Start i; Wake; Observe; Down i; Read i].

(** *** Calls that wait, in the network. *)

(** [sdb_send_sync] of client [i], while the events [es] happen. *)
Definition net_send_sync (pipe i : Z) (es : list Event) (pkt_in : MCSPacket) :
    ST Net (option (Z * option MCSPacket)) :=
  let! (ret, queue_elem) := at_client i (sdb_send_async pkt_in) in
  if negb (ret =? -1) then
    let? _ := net_run pipe es in
    let! pkt_out := at_client i (sync_end queue_elem pkt_in) in
    st_ret (Some (0, Some pkt_out))
  else st_ret (Some (-1, None)).

(** [sdb_connect] of client [i], which the director accepts. *)
Definition net_connect (pipe i sock con_fd rnd : Z) (name : list Z) (group : SDBGroup) :
    ST Net (option Z) :=
  let? _ := net_run pipe [Dial i sock con_fd; Accept con_fd] in
  let! r := at_client i (connect_begin sock 0 rnd (Some name) group) in
  match r with
  | inl ret => st_ret (Some ret)
  | inr (queue_elem, pkt) =>
      let? _ := net_run pipe (joining i) in
      let! ret := at_client i (connect_end queue_elem pkt) in
      st_ret (Some ret)
  end.

Lemma net_run_app pipe es es' n n' : net_run pipe es n = Ok (Some tt, n') ->
  net_run pipe (es ++ es') n = net_run pipe es' n'.
Proof.
  revert n. induction es as [|e es IH]; intros n; cbn [net_run app]; [by intros [= ->]|].
  unfold st_obind, st_bind. destruct (net_event pipe e n) as [[[[]|] n1]|]; [|done|done]. apply IH.
Qed.

(** ** The effect of an event. *)

(** Client [i] of the network is [c]. *)
Definition has_client (n : Net) (i : Z) (c : Client) : Prop :=
  0 <= i /\ net_clients n !! Z.to_nat i = Some c.

Definition set_client (i : Z) (c : Client) (n : Net) : Net :=
  mkNet (net_sys n) (<[Z.to_nat i := c]> (net_clients n)).

Definition set_sys (s : Sys Q) (n : Net) : Net := mkNet s (net_clients n).

Lemma get_client_ok n i c : has_client n i c -> get_client i n = Ok (c, n).
Proof.
  intros [Hi Hc]. unfold get_client. rewrite (proj2 (Z.ltb_ge _ _)) by done. by rewrite Hc.
Qed.

Lemma has_client_set n i c c' : has_client n i c -> has_client (set_client i c' n) i c'.
Proof.
  intros [Hi Hc]. split; [done|]. cbn. apply list_lookup_insert_eq. by eapply lookup_lt_Some.
Qed.

Lemma has_client_ne n i j c c' : i <> j -> 0 <= i -> has_client n j c -> has_client (set_client i c' n) j c.
Proof. intros Hij Hi [Hj Hc]. split; [done|]. cbn. rewrite list_lookup_insert_ne; [done|lia]. Qed.

Lemma set_client_twice n i c c' : set_client i c (set_client i c' n) = set_client i c n.
Proof. unfold set_client. cbn. by rewrite list_insert_insert_eq. Qed.

Lemma set_client_same n i c : has_client n i c -> set_client i c n = n.
Proof. intros [_ Hc]. unfold set_client. rewrite list_insert_id by done. by destruct n. Qed.

Lemma at_client_ok {A} (f : CM A) n i c a c' : has_client n i c -> f c = Ok (a, c') ->
  at_client i f n = Ok (a, set_client i c' n).
Proof.
  intros Hc Hf. unfold at_client. rewrite (st_bind_ok _ _ _ _ _ (get_client_ok n i c Hc)).
  unfold st_bind, st_lift. by rewrite Hf.
Qed.

Lemma at_daemon_ok {A} (f : ST (Sys Q) A) n a s' : f (net_sys n) = Ok (a, s') ->
  at_daemon f n = Ok (a, set_sys s' n).
Proof. intros Hf. unfold at_daemon, st_zoom. by rewrite Hf. Qed.

Lemma run_send pipe es n i p c r c' : has_client n i c -> sdb_send_async p c = Ok (r, c') ->
  net_run pipe (Send i p :: es) n = net_run pipe es (set_client i c' n).
Proof.
  intros Hc Hf. cbn [net_run net_event]. erewrite st_obind_ok; [done|].
  by rewrite (st_bind_ok _ _ _ _ _ (at_client_ok _ _ _ _ _ _ Hc Hf)).
Qed.

Lemma run_read pipe es n i c c' : has_client n i c -> read_round c = Ok (Some tt, c') ->
  net_run pipe (Read i :: es) n = net_run pipe es (set_client i c' n).
Proof.
  intros Hc Hf. cbn [net_run net_event].
  by rewrite (st_obind_ok _ _ _ _ _ (at_client_ok _ _ _ _ _ _ Hc Hf)).
Qed.

Lemma run_callback pipe es n i c c' : has_client n i c -> callback_step c = Ok (tt, c') ->
  net_run pipe (Callback i :: es) n = net_run pipe es (set_client i c' n).
Proof.
  intros Hc Hf. cbn [net_run net_event]. erewrite st_obind_ok; [done|].
  by rewrite (st_bind_ok _ _ _ _ _ (at_client_ok _ _ _ _ _ _ Hc Hf)).
Qed.

Lemma run_observe pipe es n s' : observer_round pipe (net_sys n) = Ok (Some tt, s') ->
  net_run pipe (Observe :: es) n = net_run pipe es (set_sys s' n).
Proof.
  intros Hf. cbn [net_run net_event]. by rewrite (st_obind_ok _ _ _ _ _ (at_daemon_ok _ _ _ _ Hf)).
Qed.

Lemma run_round pipe es n i r s' : module_round i (net_sys n) = Ok (Some r, s') ->
  net_run pipe (Round i :: es) n = net_run pipe es (set_sys s' n).
Proof.
  intros Hf. cbn [net_run net_event]. erewrite st_obind_ok; [done|].
  by rewrite (st_obind_ok _ _ _ _ _ (at_daemon_ok _ _ _ _ Hf)).
Qed.

Lemma run_accept pipe es n con_fd r s' : director_round 5 con_fd (net_sys n) = Ok (r, s') ->
  net_run pipe (Accept con_fd :: es) n = net_run pipe es (set_sys s' n).
Proof.
  intros Hf. cbn [net_run net_event]. erewrite st_obind_ok; [done|].
  by rewrite (st_bind_ok _ _ _ _ _ (at_daemon_ok _ _ _ _ Hf)).
Qed.

Lemma run_start pipe es n i r s' : module_start i (net_sys n) = Ok (r, s') ->
  net_run pipe (Start i :: es) n = net_run pipe es (set_sys s' n).
Proof.
  intros Hf. cbn [net_run net_event]. erewrite st_obind_ok; [done|].
  by rewrite (st_bind_ok _ _ _ _ _ (at_daemon_ok _ _ _ _ Hf)).
Qed.

End Network.

Arguments Net : clear implicits.
