(* ===== verification/NetworkFacts.v ===== *)
(** * NetworkFacts: what each part of an exchange does.

    The sockets carry exactly what was written; a client that is idle sends,
    serves and is answered; a daemon that is idle forwards a message, returns an
    answer or refuses a message, and is idle again. *)

From stdpp Require Import functions.
From S2P Require Import Prelude Segments Abs McsDefs Mcs McsFacts McsProps Queue QueueFacts QueueProps.
From S2P Require Import Qos QosFacts Module ModuleFacts Routing ModuleProps Daemon DaemonProps.
From S2P Require Import Client ClientFacts ClientProps Network.

(** ** Sockets. *)

(** [fd] is open, and nothing is on its way in either direction. *)
Definition quiet (fd : Z) (w : World) : Prop := w_fds w !! fd = Some (mkFd [] [] None).

Lemma alter_quiet (g : Fd -> Fd) fd (fds : gmap Z Fd) f :
  fds !! fd = Some f -> g f = f -> alter g fd fds = fds.
Proof. intros Hf Hg. apply alter_id. intros f' Hf'. congruence. Qed.

Lemma quiet_sent fd bs w : quiet fd w -> sent fd (emit fd bs w) = bs.
Proof. intros Hq. unfold sent, emit. cbn. by rewrite lookup_alter_eq, Hq. Qed.

Lemma quiet_carried fd bs w : quiet fd w -> carried fd (emit fd bs w) = w.
Proof.
  intros Hq. destruct w as [now fds]. unfold carried, emit. cbn [w_now w_fds]. f_equal.
  rewrite alter_alter_eq. by eapply alter_quiet.
Qed.

Lemma quiet_consume fd bs w : quiet fd w -> consume fd (length bs) (arrive fd bs w) = w.
Proof.
  intros Hq. destruct w as [now fds]. unfold consume, arrive. cbn [w_now w_fds]. f_equal.
  rewrite alter_alter_eq. eapply alter_quiet; [exact Hq|]. unfold compose. cbn.
  rewrite drop_ge by (by rewrite length_fmap). done.
Qed.

Lemma quiet_writable fd w : quiet fd w -> writable fd w.
Proof. intros Hq. by eexists. Qed.

Lemma arrive_writable fd k bs w : writable k w -> writable k (arrive fd bs w).
Proof.
  intros (f & Hf & Hc). unfold writable, arrive. cbn. rewrite lookup_alter.
  case_decide; [subst|by exists f]. rewrite Hf. by eexists.
Qed.

Lemma arrive_lookup fd bs w : quiet fd w -> w_fds (arrive fd bs w) !! fd
  = Some (mkFd ((fun b => (w_now w, Some b)) <$> bs) [] None).
Proof. intros Hq. unfold arrive. cbn. by rewrite lookup_alter_eq, Hq. Qed.

Lemma arrive_avail fd bs w : quiet fd w -> avail fd (bs ++ []) (arrive fd bs w).
Proof.
  intros Hq. rewrite app_nil_r. eexists _, _, []. split; [by apply arrive_lookup|].
  split; [cbn; by rewrite app_nil_r|]. unfold arrived. apply Forall2_fmap_r.
  apply Forall_Forall2_diag, Forall_forall. done.
Qed.

Lemma arrive_delivers fd b bs w : quiet fd w ->
  delivers fd (w_now w) ((b :: bs) ++ []) (arrive fd (b :: bs) w).
Proof.
  intros Hq. split; [unfold next_arrival; by rewrite arrive_lookup|].
  replace (set_now _ _) with (arrive fd (b :: bs) w) by (unfold set_now; cbn; by rewrite Z.max_id).
  by apply arrive_avail.
Qed.

Lemma arrive_received fd bs w : quiet fd w ->
  received fd (w_now w) (length bs) (arrive fd bs w) = w.
Proof.
  intros Hq. unfold received.
  replace (set_now _ _) with (arrive fd bs w) by (unfold set_now; cbn; by rewrite Z.max_id).
  by apply quiet_consume.
Qed.

Lemma arrive_readable fd b bs w : quiet fd w ->
  readable_at (arrive fd (b :: bs) w) (w_now w) fd = true.
Proof.
  intros Hq. unfold readable_at, next_arrival. rewrite arrive_lookup by done. cbn. lia.
Qed.

Lemma arrive_unreadable fd bs k w : k <> fd -> quiet k w ->
  readable_at (arrive fd bs w) (w_now w) k = false.
Proof.
  intros Hk Hq. unfold readable_at, next_arrival, arrive. cbn. by rewrite lookup_alter_ne, Hq.
Qed.

Lemma wire_cons p : exists b bs, wire p = b :: bs.
Proof. by eexists _, _. Qed.

(** ** Clients. *)

Section Clients.
Context `{MCSTables} `{Build}.

(** A client with the pending packets [xs] and the callbacks [cbs], of which no
    thread runs and whose socket is quiet. *)
Record client_idle (c : Client) (xs : list pcell) (cbs : list SDBCMDCallback) : Prop := {
  ci_pending : pending_rep c xs;
  ci_callbacks : callbacks_rep c cbs;
  ci_threads : cl_threads c = [];
  ci_fd : 0 <= socket_fd c;
  ci_quiet : quiet (socket_fd c) (cl_world c)
}.

(** The client when [bs] has arrived, or has been written. *)
Definition client_in (bs : list Z) (c : Client) : Client :=
  upd_net (arrive (socket_fd c) bs (cl_world c)) c.
Definition client_out (bs : list Z) (c : Client) : Client :=
  upd_net (emit (socket_fd c) bs (cl_world c)) c.

Lemma client_carried bs c xs cbs : client_idle c xs cbs ->
  sent (socket_fd (client_out bs c)) (cl_world (client_out bs c)) = bs /\
  upd_net (carried (socket_fd (client_out bs c)) (cl_world (client_out bs c))) (client_out bs c) = c.
Proof.
  intros Hc. pose proof (ci_quiet _ _ _ Hc) as Hq. split; [by apply quiet_sent|].
  unfold client_out. cbn. unfold upd_net. cbn. rewrite quiet_carried by done. by destruct c.
Qed.

(** Sending: the packet is pending and on the socket. *)
Lemma client_sends c xs cbs p : client_idle c xs cbs -> sendable p ->
  exists a, NoDup (NULL :: a :: xs.*1) /\
    let x := (a, mkPending (pkt_id p) None false) in
    client_idle (with_pending (x :: xs) c) (x :: xs) cbs /\
    sdb_send_async p c = Ok ((0, a), client_out (wire p) (with_pending (x :: xs) c)).
Proof.
  intros Hc Hp. destruct (add_pending_ok c xs (pkt_id p) (ci_pending _ _ _ Hc)) as (a & Hn & E).
  exists a. split; [done|]. cbv zeta. set (x := (a, mkPending _ _ _)) in *. split.
  - destruct Hc as [_ (junk & Hcb & Hsz) Ht Hfd Hq]. split; try done.
    exists junk. split; [|done]. exact (f_equal (with_pending (x :: xs)) Hcb).
  - unfold sdb_send_async. rewrite (st_bind_ok _ _ _ _ _ E). unfold st_bind at 1, st_get.
    by rewrite (st_bind_ok _ _ _ _ _ (in_net_ok _ (with_pending _ c) _ _
      (mcs_write_sendable p _ _ Hp (quiet_writable _ _ (ci_quiet _ _ _ Hc))))).
Qed.

(** The answer goes to the newest pending packet. *)
Lemma client_answered c xs cbs a p r : NoDup (NULL :: a :: xs.*1) ->
  let x := (a, mkPending (pkt_id p) None false) in
  let x' := (a, mkPending (pkt_id p) (Some r) true) in
  client_idle (with_pending (x :: xs) c) (x :: xs) cbs ->
  readable r -> mcs_is_answer_packet r = true -> pkt_id r = pkt_id p ->
  read_round (client_in (wire r) (with_pending (x :: xs) c)) = Ok (Some tt, with_pending (x' :: xs) c) /\
  client_idle (with_pending (x' :: xs) c) (x' :: xs) cbs /\
  sdb_check_async a (with_pending (x' :: xs) c) = Ok (1, with_pending (x' :: xs) c).
Proof.
  intros Hn x x' Hc Hr Ha Hid. destruct Hc as [Hpd (junk & Hcb & Hsz) Ht Hfd Hq].
  destruct (wire_cons r) as (b & bs & Hw). split_and!.
  - rewrite (read_round_packet _ (w_now (cl_world c)) r []); [|done|done|].
    + unfold client_in. cbn [cl_world upd_net socket_fd].
      rewrite arrive_received by done.
      change (upd_net _ (upd_net _ (with_pending (x :: xs) c)))
        with (with_pending ([] ++ x :: xs) (upd_net (cl_world c) c)).
      rewrite dispatch_answer; [by destruct c|done|done|by symmetry|done].
    + rewrite Hw. by apply (arrive_delivers _ _ _ (cl_world c)).
  - split; try done. exists junk. split; [|done].
    exact (f_equal (with_pending (x' :: xs)) Hcb).
  - apply (check_async_ok (x' :: xs) x'); [done|constructor].
Qed.

(** How a client answers the packet [p]: with what the callback for its command
    leaves, or with [ECMDFAULT] if there is none. *)
Inductive Answers (cbs : list SDBCMDCallback) (p : MCSPacket) : MCSPacket -> Prop :=
| AnswersServed pre x post out :
    cbs = pre ++ x :: post -> Forall (fun y => ~ serves (pkt_cmd p) y) pre -> serves (pkt_cmd p) x ->
    cmdcb_callback x p = Ok out -> Answers cbs p out
| AnswersUnserved :
    Forall (fun y => ~ serves (pkt_cmd p) y) cbs -> Answers cbs p (mcs_err_packet p ECMDFAULT).

(** A round of the reading thread and one of the callback thread answer it. *)
Lemma client_serves c xs cbs p out : client_idle c xs cbs -> readable p ->
  mcs_is_answer_packet p = false -> Answers cbs p out -> sendable out ->
  exists c1, read_round (client_in (wire p) c) = Ok (Some tt, c1) /\
    callback_step c1 = Ok (tt, client_out (wire out) c).
Proof.
  intros [_ (junk & Hcb & Hsz) Ht Hfd Hq] Hp Ha Hans Hs.
  destruct (wire_cons p) as (b & bs & Hw).
  destruct (callback_dispatch (client_in (wire p) c) cbs (w_now (cl_world c)) p []) as [Hserved Hnone];
    try done.
  { exists junk. split; [|done]. exact (f_equal (client_in (wire p)) Hcb). }
  { apply arrive_writable. by apply quiet_writable. }
  { rewrite Hw. by apply arrive_delivers. }
  unfold client_in in Hserved, Hnone. cbn [socket_fd cl_world upd_net] in Hserved, Hnone.
  rewrite arrive_received in Hserved, Hnone by done. destruct Hans as [pre x post out Hx Hpre Hsx Hf|Hf].
  - exact (Hserved pre x post out Hx Hpre Hsx Hf Hs).
  - eexists. split; [exact (Hnone Hf)|]. unfold callback_step, st_bind, st_get.
    cbn [cl_threads upd_net]. by rewrite Ht.
Qed.

End Clients.

(** ** The daemon. *)

Section Daemon.
Context `{MCSTables} `{Build} `{QueueSpec Q} `{!Environment Q}.
Implicit Types (s : Sys Q) (m ma mb : SDBModule Q) (L : Z -> list SDBPacket).

(** What the rounds of the threads never change of a module. *)
Definition ident m := (mod_id m, mod_rfd m, mod_wfd m, mod_name m, mod_group m, mod_locked m).

(** The modules of [s'] are those of [s]. *)
Record kin s s' : Prop := {
  kin_last : sys_last s' = sys_last s;
  kin_wake : sys_observer_fd s' = sys_observer_fd s;
  kin_mod i m : i < sys_last s -> has_mod s i m ->
    exists m', has_mod s' i m' /\ ident m' = ident m
}.

(** Each module has its own socket; all of them, and both ends of the pipe of the
    observer, are open and quiet. *)
Record wired (pipe : Z) s : Prop := {
  wd_table : (Z.to_nat (sys_last s) <= length (sys_modules s))%nat;
  wd_pipe : quiet pipe (sys_world s);
  wd_wake : quiet (sys_observer_fd s) (sys_world s) /\ sys_observer_fd s <> pipe /\
    0 <= sys_observer_fd s;
  wd_module i m : i < sys_last s -> has_mod s i m ->
    mod_id m = i /\ mod_locked m = false /\ mod_wfd m = mod_rfd m /\ 0 <= mod_rfd m /\
    mod_rfd m <> pipe /\ mod_rfd m <> sys_observer_fd s /\ quiet (mod_rfd m) (sys_world s);
  wd_distinct i j mi mj : i < sys_last s -> j < sys_last s -> i <> j ->
    has_mod s i mi -> has_mod s j mj -> mod_rfd mi <> mod_rfd mj
}.

(** A module with the pending packets [l], its region free, nothing to read. *)
Definition resting (l : list SDBPacket) m : Prop :=
  qs_rep (mod_queue m) l /\ can_receive m /\ mod_data_socket m = false.

Record daemon_idle (pipe : Z) L s : Prop := {
  di_wired : wired pipe s;
  di_logged : logged s;
  di_resting i m : i < sys_last s -> has_mod s i m -> resting (L i) m
}.

Lemma module_exists s i : (Z.to_nat (sys_last s) <= length (sys_modules s))%nat ->
  0 <= i < sys_last s -> exists m, has_mod s i m.
Proof.
  intros Hlen Hi. destruct (lookup_lt_is_Some_2 (sys_modules s) (Z.to_nat i)) as [m Hm]; [lia|].
  exists m. split; [lia|done].
Qed.

Lemma kin_refl s : kin s s.
Proof. split; [done|done|]. intros i m _ Hm. by exists m. Qed.

Lemma kin_trans s1 s2 s3 : kin s1 s2 -> kin s2 s3 -> kin s1 s3.
Proof.
  intros [E1 O1 K1] [E2 O2 K2]. split; [congruence|congruence|]. intros i m Hi Hm.
  destruct (K1 i m Hi Hm) as (m2 & Hm2 & I2). destruct (K2 i m2) as (m3 & Hm3 & I3); [congruence|done|].
  exists m3. split; [done|congruence].
Qed.

Lemma kin_back s s' i m' : kin s s' -> (Z.to_nat (sys_last s) <= length (sys_modules s))%nat ->
  i < sys_last s -> has_mod s' i m' -> exists m, has_mod s i m /\ ident m' = ident m.
Proof.
  intros [_ _ K] Hlen Hi Hm'. destruct (module_exists s i Hlen) as [m Hm]; [split; [apply Hm'|done]|].
  exists m. split; [done|]. destruct (K i m Hi Hm) as (m2 & Hm2 & I2).
  by rewrite (has_mod_inj s' i m' m2).
Qed.

Lemma kin_table s s' : kin s s' -> (Z.to_nat (sys_last s) <= length (sys_modules s))%nat ->
  (Z.to_nat (sys_last s') <= length (sys_modules s'))%nat.
Proof.
  intros [E _ K] Hlen. rewrite E. destruct (Z.to_nat (sys_last s)) as [|k] eqn:Ek; [lia|].
  destruct (module_exists s (Z.of_nat k)) as [m Hm]; [lia|lia|].
  destruct (K (Z.of_nat k) m) as (m' & [_ Hm'] & _); [lia|done|].
  rewrite Nat2Z.id in Hm'. by apply lookup_lt_Some in Hm'.
Qed.

Lemma kin_wired pipe s s' : wired pipe s -> kin s s' -> sys_world s' = sys_world s -> wired pipe s'.
Proof.
  intros [Ht Hp Hwk Hm Hd] Hk Hw. pose proof Hk as [E O K]. split.
  - by eapply kin_table.
  - by rewrite Hw.
  - by rewrite Hw, O.
  - intros i m' Hi Hm'. rewrite E in Hi. destruct (kin_back s s' i m' Hk Ht Hi Hm') as (m & Hms & [= -> -> -> _ _ ->]).
    rewrite Hw, O. by apply Hm.
  - intros i j mi mj Hi Hj Hij Hmi Hmj. rewrite E in Hi, Hj.
    destruct (kin_back s s' i mi Hk Ht Hi Hmi) as (m1 & Hm1 & [= _ -> _ _ _ _]).
    destruct (kin_back s s' j mj Hk Ht Hj Hmj) as (m2 & Hm2 & [= _ -> _ _ _ _]).
    by apply (Hd i j).
Qed.

(** The route of a packet depends only on what never changes. *)
Lemma kin_unlike s s' name n : kin s s' -> (Z.to_nat (sys_last s) <= length (sys_modules s))%nat ->
  n <= sys_last s -> unlike s name n -> unlike s' name n.
Proof.
  intros Hk Ht Hn Hu i m' Hi Hm'. destruct (kin_back s s' i m' Hk Ht) as (m & Hm & [= _ _ _ -> _ _]);
    [lia|done|]. by apply (Hu i m).
Qed.

Lemma kin_addressee s s' name to mt mt' : kin s s' ->
  (Z.to_nat (sys_last s) <= length (sys_modules s))%nat -> has_mod s' to mt' ->
  addressee s name to mt -> addressee s' name to mt' /\ ident mt' = ident mt.
Proof.
  intros Hk Ht Hmt' (Hmt & Hlt & Hun & nm & Hnm & Heq). pose proof Hk as [E O K].
  destruct (K to mt Hlt Hmt) as (m2 & Hm2 & I2). rewrite (has_mod_inj s' to mt' m2) in * by done.
  split; [|done]. split_and!; [done|lia|eapply kin_unlike; eauto; lia|].
  exists nm. by injection I2 as _ _ _ -> _ _.
Qed.

Lemma kin_routed s s' ma ma' p b mb mb' : kin s s' ->
  (Z.to_nat (sys_last s) <= length (sys_modules s))%nat -> ident ma' = ident ma ->
  has_mod s' b mb' -> routed s ma p b mb -> routed s' ma' p b mb'.
Proof.
  intros Hk Ht Ia Hb (Htype & opt & name & Ho & Horig & Hadd & Haddr & Hdest). split; [done|].
  destruct (kin_addressee s s' name b mb mb' Hk Ht Hb Haddr) as [Haddr' Ib].
  exists opt, name. injection Ia as _ _ _ _ -> _. injection Ib as _ _ _ _ -> _. done.
Qed.

Lemma kin_refused s s' m m' p err : kin s s' ->
  (Z.to_nat (sys_last s) <= length (sys_modules s))%nat -> ident m' = ident m ->
  Refused s m p err -> Refused s' m' p err.
Proof.
  intros Hk Ht [= _ _ _ _ Hg _] Href. pose proof Hk as [E O K]. destruct Href.
  - eapply RefusedOrigin; [done|by rewrite Hg].
  - eapply RefusedUnknown; [done|by rewrite Hg|done|by eapply kin_table|].
    rewrite E. by eapply kin_unlike.
  - match goal with Ha : addressee s _ ?to ?mt |- _ =>
      destruct (K to mt) as (mt' & Hmt' & _); [apply Ha|apply Ha|];
      destruct (kin_addressee s s' _ to mt mt' Hk Ht Hmt' Ha) as [Haddr' [= _ _ _ _ Hgt _]] end.
    eapply RefusedDestination; [done|by rewrite Hg|done|done|by rewrite Hgt].
Qed.

(** *** Frames. *)

(** The observer sees [a], its thread hands something to [b], whose thread runs. *)
Lemma frame_chain a b s s1 s2 s3 : frame [a] s s1 -> frame [a; b] s1 s2 -> frame [b] s2 s3 ->
  frame [a; b] s s3.
Proof.
  intros F1 F2 F3. apply (frame_pair _ _ _ s2); [|done]. apply (frame_trans _ _ s1); [|done].
  eapply frame_sub; [|exact F1]. set_solver.
Qed.

(** A daemon in which only the modules [js] changed, and rest again, is idle. *)
Lemma idle_again pipe L L' js s s' : daemon_idle pipe L s -> frame js s s' -> logged s' ->
  sys_world s' = sys_world s ->
  (forall j, j ∈ js -> exists m m', has_mod s j m /\ has_mod s' j m' /\ ident m' = ident m /\
     resting (L' j) m') ->
  (forall j, j ∉ js -> L' j = L j) ->
  kin s s' /\ daemon_idle pipe L' s'.
Proof.
  intros [Hw _ Hr] (E & O & F) Hl Hworld Hjs HL.
  assert (Hk : kin s s').
  { split; [done|done|]. intros i m Hi Hm. destruct (decide (i ∈ js)) as [Hij|Hij].
    - destruct (Hjs i Hij) as (m0 & m' & Hm0 & Hm' & I & _). exists m'. split; [done|].
      by rewrite (has_mod_inj s i m m0).
    - exists m. split; [by apply F|done]. }
  split; [done|]. split; [by eapply kin_wired|done|].
  intros i m' Hi Hm'. rewrite E in Hi. destruct (decide (i ∈ js)) as [Hij|Hij].
  - destruct (Hjs i Hij) as (m0 & m2 & _ & Hm2 & _ & Hrest). by rewrite (has_mod_inj s' i m' m2).
  - destruct (kin_back s s' i m' Hk (wd_table _ _ Hw) Hi Hm') as (m & Hm & _).
    rewrite (has_mod_inj s' i m' m) by (done || by apply F). rewrite HL by done. by apply Hr.
Qed.

(** The same for two modules, in the world of before. *)
Lemma settle pipe L s a ma b mb s' ma' mb' la lb : daemon_idle pipe L s -> a <> b ->
  has_mod s a ma -> has_mod s b mb -> frame [a; b] s s' -> logged s' ->
  has_mod s' a ma' -> has_mod s' b mb' -> ident ma' = ident ma -> ident mb' = ident mb ->
  resting la ma' -> resting lb mb' ->
  kin s (set_world (sys_world s) s') /\
  daemon_idle pipe (<[a := la]> (<[b := lb]> L)) (set_world (sys_world s) s').
Proof.
  intros Hidle Hab Ha Hb Hf Hl Ha' Hb' Ia Ib Hra Hrb.
  apply (idle_again pipe L _ [a; b] s); try done.
  - intros j [-> |[-> |[]%elem_of_nil]%elem_of_cons]%elem_of_cons.
    + exists ma, ma'. by rewrite fn_lookup_insert.
    + exists mb, mb'. by rewrite fn_lookup_insert_ne, fn_lookup_insert.
  - intros j Hj. rewrite !fn_lookup_insert_ne; [done|set_solver..].
Qed.

(** A module of an idle daemon. *)
Lemma idle_module pipe L s i m : daemon_idle pipe L s -> has_mod s i m -> i < sys_last s ->
  registered s i m /\ qs_rep (mod_queue m) (L i) /\ can_receive m /\ mod_data_socket m = false /\
  mod_wfd m = mod_rfd m /\ 0 <= mod_rfd m /\ quiet (mod_rfd m) (sys_world s).
Proof.
  intros Hidle Hm Hi.
  destruct (wd_module _ _ (di_wired _ _ _ Hidle) i m Hi Hm) as (Hid & _ & Hw & Hfd & _ & _ & Hq).
  destruct (di_resting _ _ _ Hidle i m Hi Hm) as (Hrep & Hc & Hs). done.
Qed.

(** *** The observer. *)

(** The daemon when [bs] has arrived for module [m]. *)
Definition daemon_in m (bs : list Z) s : Sys Q :=
  set_world (arrive (mod_rfd m) bs (sys_world s)) s.

Lemma frame_kin1 s s' a m m' : frame [a] s s' -> has_mod s a m -> has_mod s' a m' ->
  ident m' = ident m -> kin s s'.
Proof.
  intros (E & O & F) Hm Hm' I. split; [done|done|]. intros i mi Hi Hmi. destruct (decide (i = a)) as [-> |Hne].
  - exists m'. split; [done|]. by rewrite (has_mod_inj s a mi m).
  - exists mi. split; [apply F; [set_solver|done]|done].
Qed.

(** A packet arrives: a round of the observer flags its module and no other. *)
Lemma observe_arrival pipe L s a ma p : daemon_idle pipe L s -> has_mod s a ma -> a < sys_last s ->
  exists s1, observer_round pipe (daemon_in ma (wire p) s) = Ok (Some tt, s1) /\
    sys_world s1 = arrive (mod_rfd ma) (wire p) (sys_world s) /\ logged s1 /\ frame [a] s s1 /\
    kin s s1 /\ registered s1 a (with_socket true ma).
Proof.
  intros [[Ht Hp Hwk Hm Hd] Hlog _] Ha Hlast. destruct (wire_cons p) as (b & bs & Hwire).
  destruct (Hm a ma Hlast Ha) as (Hid & Hlock & _ & _ & Hnp & _ & Hqa).
  pose proof (arrive_readable _ b bs _ Hqa) as Hrd. rewrite <- Hwire in Hrd.
  assert (Hpipe : readable_at (arrive (mod_rfd ma) (wire p) (sys_world s)) (w_now (sys_world s)) pipe = false)
    by by apply arrive_unreadable.
  destruct (observer_flags (daemon_in ma (wire p) s) pipe a ma (mkFd [] [] None)) as (mods & E & Hspec);
    try done.
  { cbn. by rewrite lookup_alter_ne. }
  { intros i m Hi Hmi. destruct (Hm i m Hi Hmi) as (_ & _ & _ & _ & _ & _ & Hq).
    unfold fd_closed. cbn. rewrite lookup_alter. case_decide as Hc; [rewrite Hc|]; by rewrite Hq. }
  cbn [sys_world set_world daemon_in sys_last] in Hspec. set (s1 := mkSys _ mods _ _ _) in E.
  assert (Hf1 : frame [a] s s1).
  { split_and!; [done|done|]. intros j m Hj Hmj. split; [apply Hmj|]. cbn. rewrite (Hspec j m Hmj).
    destruct (j <? sys_last s) eqn:El; bool_prop; [|done]. f_equal. unfold flagged. cbn [w_now arrive].
    rewrite arrive_unreadable; [done| |apply (Hm j m El Hmj)].
    apply (Hd j a); [done|done|set_solver|done|done]. }
  assert (Ha1 : registered s1 a (with_socket true ma)).
  { split_and!; [split; [apply Ha|]|exact Hid|done]. cbn. rewrite (Hspec a ma Ha).
    rewrite (proj2 (Z.ltb_lt _ _) Hlast). f_equal. unfold flagged. cbn [w_now arrive].
    by rewrite Hrd, Hlock. }
  exists s1. split_and!; [exact E|done|exact Hlog|done| |apply Ha1..].
  by apply (frame_kin1 s s1 a ma (with_socket true ma)); [|done|apply Ha1|].
Qed.

(** *** What the daemon does with a packet. *)

(** A message that arrives for [a] is written to the socket of [b], another module. *)
Lemma daemon_forwards_other pipe L s a ma b mb p : daemon_idle pipe L s ->
  has_mod s a ma -> a < sys_last s -> a <> b -> sendable p -> fits_region p ->
  routed s ma p b mb ->
  let pend i := insert_prio (sdb_packet p a) (L i) in
  exists s1 s2 s3, observer_round pipe (daemon_in ma (wire p) s) = Ok (Some tt, s1) /\
    module_round a s1 = Ok (Some true, s2) /\ module_round b s2 = Ok (Some true, s3) /\
    sys_world s3 = emit (mod_wfd mb) (wire p) (sys_world s) /\ kin s (set_world (sys_world s) s3) /\
    daemon_idle pipe (<[a := pend a]> (<[b := pend b]> L)) (set_world (sys_world s) s3).
Proof.
  intros Hidle Ha Hla Hab Hp Hf Hroute pend.
  pose proof Hroute as (_ & ? & ? & _ & _ & _ & (Hb & Hlb & _) & _).
  destruct (idle_module _ _ _ _ _ Hidle Ha Hla) as (_ & Hqa & Hca & _ & _ & Hfda & Hqua).
  destruct (idle_module _ _ _ _ _ Hidle Hb Hlb) as (Hrb & Hqb & Hcb & Hsb & Hwfb & _ & Hqub).
  destruct (observe_arrival pipe L s a ma p Hidle Ha Hla) as (s1 & E1 & Hw1 & Hl1 & Hf1 & Hk1 & Ha1).
  assert (Hb1 : registered s1 b mb).
  { split_and!; [apply Hf1; [set_solver|done]|apply Hrb|by rewrite (proj1 Hf1)]. }
  destruct (round_send_message s1 a (with_socket true ma) (L a) b mb p [])
    as (qa & s2 & E2 & Hqa2 & Hl2 & Hf2 & Ha2 & Hb2 & Hw2); try done.
  { apply Hca. }
  { eapply kin_routed; [exact Hk1|apply Hidle|reflexivity|apply Hb1|exact Hroute]. }
  { rewrite Hw1. by apply arrive_avail. }
  cbn [mod_rfd with_socket] in Hw2. rewrite Hw1, quiet_consume in Hw2 by done.
  assert (Hb2' : registered s2 b (with_data (RegionFull a p) true mb)).
  { split_and!; [done|apply Hrb|]. rewrite (proj1 Hf2), (proj1 Hf1). done. }
  destruct (round_deliver_message s2 b _ (L b) a p Hb2')
    as (qb & s3 & E3 & Hqb3 & Hl3 & Hf3 & Hb3 & Hw3); try done.
  { by eapply routed_not_answer. }
  { rewrite Hw2. cbn. rewrite Hwfb. by apply quiet_writable. }
  assert (Ha3 : has_mod s3 a (with_socket false (with_queue qa (with_socket true ma))))
    by (apply Hf3; [set_solver|done]).
  destruct (settle pipe L s a ma b mb s3 _ _ (pend a) (pend b) Hidle Hab Ha Hb
              (frame_chain a b s s1 s2 s3 Hf1 Hf2 Hf3) Hl3 Ha3 Hb3) as [Hk Hi]; try done.
  { split; [done|]. split; [|done]. by split_and!; [apply Hcb|..]. }
  exists s1, s2, s3. split_and!; try done; [by rewrite Hw3, Hw2].
Qed.

(** An answer that arrives for [b], which has the packet [o] it answers pending, is
    written to the socket of the module [a] that sent [o]. *)
Lemma daemon_returns_other pipe L s a ma b mb o r la lb : daemon_idle pipe L s ->
  has_mod s a ma -> a < sys_last s -> has_mod s b mb -> b < sys_last s -> a <> b ->
  sendable r -> mcs_is_answer_packet r = true -> fits_region r -> id_process o = a ->
  take_answer r (L b) = (Some o, lb) -> (exists o', take_answer r (L a) = (Some o', la)) ->
  exists s1 s2 s3, observer_round pipe (daemon_in mb (wire r) s) = Ok (Some tt, s1) /\
    module_round b s1 = Ok (Some true, s2) /\ module_round a s2 = Ok (Some true, s3) /\
    sys_world s3 = emit (mod_wfd ma) (wire r) (sys_world s) /\ kin s (set_world (sys_world s) s3) /\
    daemon_idle pipe (<[b := lb]> (<[a := la]> L)) (set_world (sys_world s) s3).
Proof.
  intros Hidle Ha Hla Hb Hlb Hab Hr Hra Hf <- Htb [o' Hta]. set (a := id_process o) in *.
  destruct (idle_module _ _ _ _ _ Hidle Ha Hla) as (Hga & Hqa & Hca & Hsa & Hwfa & _ & Hqua).
  destruct (idle_module _ _ _ _ _ Hidle Hb Hlb) as (_ & Hqb & Hcb & _ & _ & Hfdb & Hqub).
  destruct (observe_arrival pipe L s b mb r Hidle Hb Hlb) as (s1 & E1 & Hw1 & Hl1 & Hf1 & _ & Hb1).
  assert (Ha1 : registered s1 a ma).
  { split_and!; [apply Hf1; [set_solver|done]|apply Hga|by rewrite (proj1 Hf1)]. }
  destruct (round_send_answer s1 b (with_socket true mb) (L b) o lb ma r [])
    as (qb & s2 & E2 & Hqb2 & Hl2 & Hf2 & Hb2 & Ha2 & Hw2); try done.
  { apply Hcb. }
  { rewrite Hw1. by apply arrive_avail. }
  cbn [mod_rfd with_socket] in Hw2. rewrite Hw1, quiet_consume in Hw2 by done.
  assert (Ha2' : registered s2 a (with_data (RegionFull b r) true ma)).
  { split_and!; [done|apply Hga|]. rewrite (proj1 Hf2), (proj1 Hf1). done. }
  destruct (round_deliver_answer s2 a _ (L a) o' la b r Ha2')
    as (qa & s3 & E3 & Hqa3 & Hl3 & Hf3 & Ha3 & Hw3); try done.
  { rewrite Hw2. cbn. rewrite Hwfa. by apply quiet_writable. }
  assert (Hb3 : has_mod s3 b (with_socket false (with_queue qb (with_socket true mb))))
    by (apply Hf3; [set_solver|done]).
  destruct (settle pipe L s b mb a ma s3 _ _ lb la Hidle (not_eq_sym Hab) Hb Ha
              (frame_chain b a s s1 s2 s3 Hf1 Hf2 Hf3) Hl3 Hb3 Ha3) as [Hk Hi]; try done.
  { split; [done|]. split; [|done]. by split_and!; [apply Hca|..]. }
  exists s1, s2, s3. split_and!; try done; [by rewrite Hw3, Hw2].
Qed.

(** One module settles. *)
Lemma settle_one pipe L s a ma s' ma' la : daemon_idle pipe L s -> has_mod s a ma ->
  frame [a] s s' -> logged s' -> has_mod s' a ma' -> ident ma' = ident ma -> resting la ma' ->
  kin s (set_world (sys_world s) s') /\
  daemon_idle pipe (<[a := la]> L) (set_world (sys_world s) s').
Proof.
  intros Hidle Ha Hf Hl Ha' Ia Hra. apply (idle_again pipe L _ [a] s); try done.
  - intros j ->%list_elem_of_singleton. exists ma, ma'. by rewrite fn_lookup_insert.
  - intros j Hj. rewrite fn_lookup_insert_ne; [done|set_solver].
Qed.

(** A message a client sends to itself comes back to its own socket. *)
Lemma daemon_forwards_self pipe L s a ma p : daemon_idle pipe L s ->
  has_mod s a ma -> a < sys_last s -> sendable p -> fits_region p -> routed s ma p a ma ->
  exists s1 s2 s3, observer_round pipe (daemon_in ma (wire p) s) = Ok (Some tt, s1) /\
    module_round a s1 = Ok (Some true, s2) /\ module_round a s2 = Ok (Some true, s3) /\
    sys_world s3 = emit (mod_wfd ma) (wire p) (sys_world s) /\ kin s (set_world (sys_world s) s3) /\
    daemon_idle pipe (<[a := insert_prio (sdb_packet p a) (insert_prio (sdb_packet p a) (L a))]> L)
      (set_world (sys_world s) s3).
Proof.
  intros Hidle Ha Hla Hp Hf Hroute.
  destruct (idle_module _ _ _ _ _ Hidle Ha Hla) as (Hra & Hqa & Hca & _ & Hwfa & Hfda & Hqua).
  destruct (observe_arrival pipe L s a ma p Hidle Ha Hla) as (s1 & E1 & Hw1 & Hl1 & Hf1 & Hk1 & Ha1).
  destruct (round_send_self s1 a (with_socket true ma) (L a) p [])
    as (qa & s2 & E2 & Hqa2 & Hl2 & Hf2 & Ha2 & Hw2); try done.
  { apply (kin_routed s s1 ma _ p a ma); [exact Hk1|apply Hidle|reflexivity|apply Ha1|exact Hroute]. }
  { rewrite Hw1. by apply arrive_avail. }
  cbn [mod_rfd with_socket] in Hw2. rewrite Hw1, quiet_consume in Hw2 by done.
  assert (Ha2' : registered s2 a (with_socket false (with_data (RegionFull a p) true
    (with_queue qa (with_socket true ma))))).
  { split_and!; [done|apply Hra|]. rewrite (proj1 Hf2), (proj1 Hf1). done. }
  destruct (round_deliver_message s2 a _ (insert_prio (sdb_packet p a) (L a)) a p Ha2')
    as (qb & s3 & E3 & Hqb3 & Hl3 & Hf3 & Ha3 & Hw3); try done.
  { by eapply routed_not_answer. }
  { rewrite Hw2. cbn. rewrite Hwfa. by apply quiet_writable. }
  destruct (settle_one pipe L s a ma s3 _ (insert_prio (sdb_packet p a) (insert_prio (sdb_packet p a) (L a)))
    Hidle Ha (frame_trans _ _ _ _ (frame_trans _ _ _ _ Hf1 Hf2) Hf3) Hl3 Ha3) as [Hk Hi]; try done.
  { split; [done|]. split; [|done]. by split_and!; [apply Hca|..]. }
  exists s1, s2, s3. split_and!; try done. by rewrite Hw3, Hw2.
Qed.

(** And so does the answer it gives itself. *)
Lemma daemon_returns_self pipe L s a ma o r la lb : daemon_idle pipe L s ->
  has_mod s a ma -> a < sys_last s ->
  sendable r -> mcs_is_answer_packet r = true -> fits_region r -> id_process o = a ->
  take_answer r (L a) = (Some o, lb) -> (exists o', take_answer r lb = (Some o', la)) ->
  exists s1 s2 s3, observer_round pipe (daemon_in ma (wire r) s) = Ok (Some tt, s1) /\
    module_round a s1 = Ok (Some true, s2) /\ module_round a s2 = Ok (Some true, s3) /\
    sys_world s3 = emit (mod_wfd ma) (wire r) (sys_world s) /\ kin s (set_world (sys_world s) s3) /\
    daemon_idle pipe (<[a := la]> L) (set_world (sys_world s) s3).
Proof.
  intros Hidle Ha Hla Hr Hra Hf Ho Htb [o' Hta].
  destruct (idle_module _ _ _ _ _ Hidle Ha Hla) as (Hga & Hqa & Hca & Hsa & Hwfa & Hfda & Hqua).
  destruct (observe_arrival pipe L s a ma r Hidle Ha Hla) as (s1 & E1 & Hw1 & Hl1 & Hf1 & _ & Ha1).
  destruct (round_answer_self s1 a (with_socket true ma) (L a) o lb r [])
    as (qb & s2 & E2 & Hqb2 & Hl2 & Hf2 & Ha2 & Hw2); try done.
  { rewrite Hw1. by apply arrive_avail. }
  cbn [mod_rfd with_socket] in Hw2. rewrite Hw1, quiet_consume in Hw2 by done.
  assert (Ha2' : registered s2 a (with_socket false (with_data (RegionFull a r) true
    (with_queue qb (with_socket true ma))))).
  { split_and!; [done|apply Hga|]. rewrite (proj1 Hf2), (proj1 Hf1). done. }
  destruct (round_deliver_answer s2 a _ lb o' la a r Ha2')
    as (qa & s3 & E3 & Hqa3 & Hl3 & Hf3 & Ha3 & Hw3); try done.
  { rewrite Hw2. cbn. rewrite Hwfa. by apply quiet_writable. }
  destruct (settle_one pipe L s a ma s3 _ la
    Hidle Ha (frame_trans _ _ _ _ (frame_trans _ _ _ _ Hf1 Hf2) Hf3) Hl3 Ha3) as [Hk Hi]; try done.
  { split; [done|]. split; [|done]. by split_and!; [apply Hca|..]. }
  exists s1, s2, s3. split_and!; try done. by rewrite Hw3, Hw2.
Qed.

(** A message that may not be sent is answered with an error. *)
Lemma daemon_refuses pipe L s a ma p err : daemon_idle pipe L s ->
  has_mod s a ma -> a < sys_last s -> readable p -> pkt_type p = MCS_TYPE_MESSAGE ->
  Refused s ma p err ->
  exists s1 s2, observer_round pipe (daemon_in ma (wire p) s) = Ok (Some tt, s1) /\
    module_round a s1 = Ok (Some true, s2) /\
    sys_world s2 = emit (mod_wfd ma) (wire (mcs_err_packet p err)) (sys_world s) /\
    kin s (set_world (sys_world s) s2) /\ daemon_idle pipe L (set_world (sys_world s) s2).
Proof.
  intros Hidle Ha Hla Hp Ht Href.
  destruct (idle_module _ _ _ _ _ Hidle Ha Hla) as (_ & Hqa & Hca & Hsa & Hwfa & Hfda & Hqua).
  destruct (observe_arrival pipe L s a ma p Hidle Ha Hla) as (s1 & E1 & Hw1 & Hl1 & Hf1 & Hk1 & Ha1).
  destruct (round_refuse_message s1 a (with_socket true ma) p err [])
    as (s2 & E2 & Hl2 & Hw2 & Ha2 & Hf2); try done.
  { by apply (kin_refused s s1 ma); [|apply Hidle|..]. }
  { apply Hca. }
  { rewrite Hw1. by apply arrive_avail. }
  { cbn. rewrite Hw1, Hwfa. by apply arrive_writable, quiet_writable. }
  cbn [mod_rfd mod_wfd with_socket] in Hw2. rewrite Hw1, quiet_consume in Hw2 by done.
  destruct (idle_again pipe L L [a] s (set_world (sys_world s) s2)) as [Hk Hi]; try done.
  { exact (frame_trans [a] s s1 s2 Hf1 Hf2). }
  { intros j ->%list_elem_of_singleton. by exists ma, (with_socket false (with_socket true ma)). }
  by exists s1, s2.
Qed.

(** *** Both cases together. *)

Lemma daemon_idle_ext pipe L L' s : (forall i, L' i = L i) ->
  daemon_idle pipe L s -> daemon_idle pipe L' s.
Proof. intros HL [Hw Hl Hr]. split; [done|done|]. intros i m. rewrite HL. apply Hr. Qed.

(** The packet [o] is added to what module [i] has pending. *)
Definition pushed (o : SDBPacket) (i : Z) L : Z -> list SDBPacket := <[i := insert_prio o (L i)]> L.

Lemma daemon_forwards pipe L s a ma b mb p : daemon_idle pipe L s ->
  has_mod s a ma -> a < sys_last s -> sendable p -> fits_region p -> routed s ma p b mb ->
  exists s1 s2 s3, observer_round pipe (daemon_in ma (wire p) s) = Ok (Some tt, s1) /\
    module_round a s1 = Ok (Some true, s2) /\ module_round b s2 = Ok (Some true, s3) /\
    sys_world s3 = emit (mod_wfd mb) (wire p) (sys_world s) /\ kin s (set_world (sys_world s) s3) /\
    daemon_idle pipe (pushed (sdb_packet p a) b (pushed (sdb_packet p a) a L))
      (set_world (sys_world s) s3).
Proof.
  intros Hidle Ha Hla Hp Hf Hroute.
  pose proof Hroute as (_ & ? & ? & _ & _ & _ & (Hb & Hlb & _) & _).
  destruct (decide (a = b)) as [<- |Hab].
  - assert (mb = ma) as -> by by eapply has_mod_inj.
    destruct (daemon_forwards_self pipe L s a ma p) as (s1 & s2 & s3 & E1 & E2 & E3 & Hw & Hk & Hi); try done.
    exists s1, s2, s3. do 5 (split; [done|]). eapply daemon_idle_ext; [|exact Hi]. intros i. unfold pushed.
    rewrite fn_lookup_insert. destruct (decide (i = a)) as [-> |Hne]; [by rewrite !fn_lookup_insert|].
    by rewrite !fn_lookup_insert_ne.
  - destruct (daemon_forwards_other pipe L s a ma b mb p) as (s1 & s2 & s3 & E1 & E2 & E3 & Hw & Hk & Hi); try done.
    exists s1, s2, s3. do 5 (split; [done|]). eapply daemon_idle_ext; [|exact Hi]. intros i. unfold pushed.
    rewrite (fn_lookup_insert_ne _ a b) by done.
    destruct (decide (i = a)) as [-> |Hia]; [by rewrite fn_lookup_insert_ne, !fn_lookup_insert|].
    rewrite (fn_lookup_insert_ne _ a i) by done.
    destruct (decide (i = b)) as [-> |Hib]; [by rewrite !fn_lookup_insert|by rewrite !fn_lookup_insert_ne].
Qed.

(** The answer takes the packet from both queues again. *)
Lemma daemon_returns pipe L s a ma b mb p r : 
  daemon_idle pipe (pushed (sdb_packet p a) b (pushed (sdb_packet p a) a L)) s ->
  has_mod s a ma -> a < sys_last s -> has_mod s b mb -> b < sys_last s ->
  sendable r -> mcs_is_answer_packet r = true -> fits_region r -> pkt_id r = pkt_id p ->
  fresh_id p (L a) -> fresh_id p (L b) ->
  exists s1 s2 s3, observer_round pipe (daemon_in mb (wire r) s) = Ok (Some tt, s1) /\
    module_round b s1 = Ok (Some true, s2) /\ module_round a s2 = Ok (Some true, s3) /\
    sys_world s3 = emit (mod_wfd ma) (wire r) (sys_world s) /\ kin s (set_world (sys_world s) s3) /\
    daemon_idle pipe L (set_world (sys_world s) s3).
Proof.
  intros Hidle Ha Hla Hb Hlb Hr Hra Hf Hid Hfa Hfb. unfold pushed in Hidle.
  destruct (decide (a = b)) as [<- |Hab].
  - assert (mb = ma) as -> by by eapply has_mod_inj. rewrite fn_lookup_insert in Hidle.
    destruct (daemon_returns_self pipe _ s a ma (sdb_packet p a) r (L a) (insert_prio (sdb_packet p a) (L a)) Hidle)
      as (s1 & s2 & s3 & E1 & E2 & E3 & Hw & Hk & Hi); try done.
    { rewrite fn_lookup_insert. by apply fresh_take_twice. }
    { exists (sdb_packet p a). by apply fresh_take. }
    exists s1, s2, s3. do 5 (split; [done|]). eapply daemon_idle_ext; [|exact Hi]. intros i.
    destruct (decide (i = a)) as [-> |Hne]; [by rewrite !fn_lookup_insert|by rewrite !fn_lookup_insert_ne].
  - rewrite (fn_lookup_insert_ne _ a b) in Hidle by done.
    destruct (daemon_returns_other pipe _ s a ma b mb (sdb_packet p a) r (L a) (L b) Hidle)
      as (s1 & s2 & s3 & E1 & E2 & E3 & Hw & Hk & Hi); try done.
    { rewrite fn_lookup_insert. by apply fresh_take. }
    { exists (sdb_packet p a). rewrite fn_lookup_insert_ne, fn_lookup_insert by done. by apply fresh_take. }
    exists s1, s2, s3. do 5 (split; [done|]). eapply daemon_idle_ext; [|exact Hi]. intros i.
    destruct (decide (i = b)) as [-> |Hib]; [by rewrite fn_lookup_insert|].
    destruct (decide (i = a)) as [-> |Hia]; rewrite fn_lookup_insert_ne by done;
      [by rewrite fn_lookup_insert|by rewrite !fn_lookup_insert_ne].
Qed.

End Daemon.
