(* ===== verification/NetworkProps.v ===== *)
(** * NetworkProps: every request is answered, from end to end.

    Between requests the network is idle: the sockets are quiet and no thread has
    anything to do.  A request that is made then travels from the library of one
    client through the daemon to the callback of another one, and its answer all
    the way back, or is refused on the way; the network is then idle again. *)

From stdpp Require Import functions.
From S2P Require Import Prelude Segments Abs McsDefs Mcs McsFacts McsProps Queue QueueFacts QueueProps.
From S2P Require Import Qos QosFacts Module ModuleFacts Routing ModuleProps Daemon DaemonProps.
From S2P Require Import Client ClientFacts ClientProps Network NetworkFacts.

Section Properties.
Context `{MCSTables} `{Build} `{QueueSpec Q} `{!Environment Q}.
Implicit Types (s : Sys Q) (m ma mb : SDBModule Q) (n : Net Q) (L : Z -> list SDBPacket).
Implicit Types (X : Z -> list pcell) (C : Z -> list SDBCMDCallback).

(** ** Sockets. *)

Lemma run_up pipe es n i m bs c xs cbs : client_idle c xs cbs ->
  has_client n i (client_out bs c) -> has_mod (net_sys n) i m ->
  net_run pipe (Up i :: es) n
  = net_run pipe es (set_sys (daemon_in m bs (net_sys n)) (set_client i c n)).
Proof.
  intros Hc Hcl Hm. destruct (client_carried bs c xs cbs Hc) as [Hsent Hcar].
  cbn [net_run net_event]. erewrite st_obind_ok; [done|]. unfold carry_up.
  erewrite st_bind_ok; [done|]. rewrite (st_bind_ok _ _ _ _ _ (get_client_ok n i _ Hcl)).
  rewrite (st_bind_ok _ _ _ _ _ (at_daemon_ok _ n _ _ (get_mod_ok _ i m Hm))). rewrite Hsent.
  erewrite st_bind_ok by (eapply (at_client_ok _ (set_sys (net_sys n) n)); [exact Hcl|by apply in_net_ok]).
  rewrite Hcar. by erewrite at_daemon_ok by (by apply in_world_ok).
Qed.

Lemma run_down pipe es n i m bs c w : has_client n i c -> has_mod (net_sys n) i m ->
  quiet (mod_wfd m) w -> sys_world (net_sys n) = emit (mod_wfd m) bs w ->
  net_run pipe (Down i :: es) n
  = net_run pipe es (set_sys (set_world w (net_sys n)) (set_client i (client_in bs c) n)).
Proof.
  intros Hcl Hm Hq Hw. cbn [net_run net_event]. erewrite st_obind_ok; [done|]. unfold carry_down.
  erewrite st_bind_ok; [done|]. rewrite (st_bind_ok _ _ _ _ _ (get_client_ok n i _ Hcl)).
  rewrite (st_bind_ok _ _ _ _ _ (at_daemon_ok _ n _ _ (get_mod_ok _ i m Hm))).
  unfold st_bind at 1, st_gets. cbn [net_sys set_sys]. rewrite Hw, quiet_sent by done.
  erewrite st_bind_ok by (apply (at_daemon_ok _ (set_sys (net_sys n) n)); by apply in_world_ok).
  cbn [net_sys set_sys]. rewrite Hw, quiet_carried by done.
  erewrite at_client_ok; [done|exact Hcl|by apply in_net_ok].
Qed.

(** ** The network at rest. *)

(** The daemon and its clients are idle.  Module [i] has the packets [L i] pending,
    its client the packets [X i] and the callbacks [C i]. *)
Record net_idle (pipe : Z) L X C n : Prop := {
  ni_daemon : daemon_idle pipe L (net_sys n);
  ni_client i : 0 <= i < sys_last (net_sys n) ->
    exists c, has_client n i c /\ client_idle c (X i) (C i)
}.

(** The same network with another daemon and another client [a]. *)
Lemma net_idle_set pipe L L' X C n s a c xs : net_idle pipe L X C n -> daemon_idle pipe L' s ->
  sys_last s = sys_last (net_sys n) -> 0 <= a < sys_last s ->
  client_idle c xs (C a) -> net_idle pipe L' (<[a := xs]> X) C (set_sys s (set_client a c n)).
Proof.
  intros Hn Hs Hlast Ha Hc. split; [done|]. cbn. intros i Hi. rewrite Hlast in Hi, Ha.
  destruct (decide (i = a)) as [-> |Hne].
  - exists c. rewrite fn_lookup_insert. split; [|done].
    destruct (ni_client _ _ _ _ _ Hn a Ha) as (c0 & Hc0 & _). by eapply (has_client_set n).
  - destruct (ni_client _ _ _ _ _ Hn i Hi) as (c0 & Hc0 & Hi0). exists c0.
    rewrite fn_lookup_insert_ne by done. split; [|done].
    apply (has_client_ne n); [congruence|lia|done].
Qed.

(** ** One request. *)

(** What becomes of a request: the client that makes it, the packet, the answer and
    the events after the packet was sent. *)
Record Request := mkRequest {
  rq_from : Z;
  rq_pkt : MCSPacket;
  rq_answer : MCSPacket;
  rq_events : list Event
}.

Inductive Answered s L C : Request -> Prop :=
| AnsweredByClient a ma b mb p out :
    has_mod s a ma -> a < sys_last s -> routed s ma p b mb ->
    sendable p -> fits_region p -> fresh_id p (L a) -> fresh_id p (L b) ->
    Answers (C b) p out -> sendable out -> fits_region out ->
    mcs_is_answer_packet out = true -> pkt_id out = pkt_id p ->
    Answered s L C (mkRequest a p out (delivery a b))
| AnsweredByDaemon a ma p err :
    has_mod s a ma -> a < sys_last s -> pkt_type p = MCS_TYPE_MESSAGE -> sendable p ->
    Refused s ma p err ->
    Answered s L C (mkRequest a p (mcs_err_packet p err) (refusal a)).

Lemma answered_kin s s' L C r : kin s s' ->
  (Z.to_nat (sys_last s) <= length (sys_modules s))%nat -> Answered s L C r -> Answered s' L C r.
Proof.
  intros Hk Ht Hr. pose proof Hk as [E _ K].
  destruct Hr as [a ma b mb p out Ha Hla Hroute|a ma p err Ha Hla Htype Hp Href];
    destruct (K a ma Hla Ha) as (ma' & Ha' & Ia).
  - pose proof Hroute as (_ & ? & ? & _ & _ & _ & (Hb & Hlb & _) & _).
    destruct (K b mb Hlb Hb) as (mb' & Hb' & _).
    apply (AnsweredByClient s' L C a ma' b mb'); try done; [lia|].
    by apply (kin_routed s s' ma ma' p b mb mb').
  - apply (AnsweredByDaemon s' L C a ma'); try done; [lia|]. by apply (kin_refused s s' ma).
Qed.

(** The client that sends a request, and the daemon that receives it. *)
Lemma request_sent pipe L X C n a ma p : net_idle pipe L X C n ->
  has_mod (net_sys n) a ma -> a < sys_last (net_sys n) -> sendable p ->
  exists c addr, NoDup (NULL :: addr :: (X a).*1) /\
    let x := (addr, mkPending (pkt_id p) None false) in
    let c' := with_pending (x :: X a) c in
    client_idle c' (x :: X a) (C a) /\ has_client n a c /\
    sdb_send_async p c = Ok ((0, addr), client_out (wire p) c') /\
    forall es, net_run pipe (Up a :: es) (set_client a (client_out (wire p) c') n)
      = net_run pipe es (set_sys (daemon_in ma (wire p) (net_sys n)) (set_client a c' n)).
Proof.
  intros Hn Ha Hla Hp. destruct (ni_client _ _ _ _ _ Hn a) as (c & Hc & Hci); [split; [apply Ha|done]|].
  destruct (client_sends c (X a) (C a) p Hci Hp) as (addr & Hnd & Hci' & E).
  exists c, addr. cbv zeta in *. do 4 (split; [done|]). intros es.
  erewrite (run_up pipe es _ a ma (wire p)); [|exact Hci'|by eapply has_client_set|done].
  unfold set_client. cbn. by rewrite list_insert_insert_eq.
Qed.

(** The answer of the daemon reaches the client: the last two events. *)
Lemma answer_received pipe L X C n a ma c addr p r n0 :
  let x := (addr, mkPending (pkt_id p) None false) in
  let x' := (addr, mkPending (pkt_id p) (Some r) true) in
  let w := sys_world (net_sys n0) in
  net_idle pipe L X C n0 -> NoDup (NULL :: addr :: (X a).*1) ->
  client_idle (with_pending (x :: X a) c) (x :: X a) (C a) ->
  has_client n a (with_pending (x :: X a) c) -> net_clients n = net_clients (set_client a (with_pending (x :: X a) c) n0) ->
  has_mod (net_sys n) a ma -> a < sys_last (net_sys n0) ->
  quiet (mod_wfd ma) w -> sys_world (net_sys n) = emit (mod_wfd ma) (wire r) w ->
  kin (net_sys n0) (set_world w (net_sys n)) -> daemon_idle pipe L (set_world w (net_sys n)) ->
  readable r -> mcs_is_answer_packet r = true -> pkt_id r = pkt_id p ->
  exists n', net_run pipe [Down a; Read a] n = Ok (Some tt, n') /\
    kin (net_sys n0) (net_sys n') /\ net_idle pipe L (<[a := x' :: X a]> X) C n'.
Proof.
  intros x x' w Hn Hnd Hci Hcl Hcs Hm Hla Hq Hw Hk Hd Hr Hra Hid.
  destruct (client_answered c (X a) (C a) addr p r Hnd Hci Hr Hra Hid) as (E & Hci' & _).
  fold x in E. fold x' in E, Hci'.
  rewrite (run_down pipe [Read a] n a ma (wire r) _ w Hcl Hm Hq Hw).
  erewrite (run_read pipe []); [|by eapply (has_client_set n)|exact E].
  eexists. split; [reflexivity|]. split; [exact Hk|].
  assert (Hlast : sys_last (net_sys n) = sys_last (net_sys n0)) by exact (kin_last _ _ Hk).
  replace (set_client a _ _) with
    (set_sys (set_world w (net_sys n)) (set_client a (with_pending (x' :: X a) c) n0)).
  - eapply net_idle_set; [exact Hn|exact Hd|done|cbn; split; [apply Hm|lia]|exact Hci'].
  - unfold set_client, set_sys. cbn. rewrite Hcs. cbn. by rewrite !list_insert_insert_eq.
Qed.

(** Client [b] receives a packet and its answer is on the way. *)
Lemma packet_served pipe es n b mb w p out c xs cbs :
  has_client n b c -> client_idle c xs cbs -> has_mod (net_sys n) b mb ->
  quiet (mod_wfd mb) w -> sys_world (net_sys n) = emit (mod_wfd mb) (wire p) w ->
  readable p -> mcs_is_answer_packet p = false -> Answers cbs p out -> sendable out ->
  net_run pipe (Down b :: Read b :: Callback b :: Up b :: es) n
  = net_run pipe es (set_sys (daemon_in mb (wire out) (set_world w (net_sys n))) n).
Proof.
  intros Hc Hci Hm Hq Hw Hp Ha Hans Hs.
  destruct (client_serves c xs cbs p out Hci Hp Ha Hans Hs) as (c1 & E1 & E2).
  rewrite (run_down _ _ n b mb (wire p) c w) by done.
  erewrite run_read; [|by eapply (has_client_set n)|exact E1].
  erewrite run_callback; [|by do 2 eapply has_client_set|exact E2].
  erewrite run_up; [|exact Hci|by do 3 eapply has_client_set|exact Hm].
  f_equal. unfold set_sys, set_client. cbn. rewrite !list_insert_insert_eq.
  by rewrite list_insert_id by apply Hc.
Qed.

(** The request [p] of client [a] is answered with [r]: the call that sends it gives
    the pending packet [addr]; when the events [es] have happened, [n'] is idle and
    [addr] holds the answer. *)
Definition answered_net pipe L X C n a p r es n' : Prop :=
  exists c c1 addr, has_client n a c /\ sdb_send_async p c = Ok ((0, addr), c1) /\
    net_run pipe es (set_client a c1 n) = Ok (Some tt, n') /\ kin (net_sys n) (net_sys n') /\
    net_idle pipe L (<[a := (addr, mkPending (pkt_id p) (Some r) true) :: X a]> X) C n'.

Lemma request_refused pipe L X C n a ma p err : net_idle pipe L X C n ->
  has_mod (net_sys n) a ma -> a < sys_last (net_sys n) -> pkt_type p = MCS_TYPE_MESSAGE ->
  sendable p -> Refused (net_sys n) ma p err ->
  exists n', answered_net pipe L X C n a p (mcs_err_packet p err) (refusal a) n'.
Proof.
  intros Hn Ha Hla Htype Hp Href. pose proof (ni_daemon _ _ _ _ _ Hn) as Hd.
  destruct (request_sent pipe L X C n a ma p Hn Ha Hla Hp) as (c & addr & Hnd & Hci & Hc & Es & E).
  destruct (daemon_refuses pipe L (net_sys n) a ma p err Hd Ha Hla (proj1 Hp) Htype Href)
    as (s1 & s2 & E1 & E2 & Hw2 & Hk & Hd2).
  destruct (kin_mod _ _ Hk a ma Hla Ha) as (ma2 & Ha2 & I). injection I as _ _ Hwfd _ _ _.
  destruct (idle_module _ _ _ _ _ Hd Ha Hla) as (_ & _ & _ & _ & Hwf & _ & Hq).
  pose proof (err_packet_sendable (pkt_id p) err (wf_id p (proj1 (proj1 Hp)))) as Hs.
  rewrite <- Hwfd in Hw2. rewrite <- Hwf, <- Hwfd in Hq.
  destruct (answer_received pipe L X C (set_sys s2 (set_client a _ n)) a ma2 c addr p
    (mcs_err_packet p err) n Hn Hnd Hci (has_client_set n a c _ Hc) eq_refl Ha2 Hla Hq Hw2 Hk Hd2
    (proj1 Hs) eq_refl eq_refl) as (n' & En & Hkn & Hnn).
  exists n', c. eexists _, addr. do 2 (split; [done|]). split; [|done]. unfold refusal. rewrite E.
  by rewrite (run_observe _ _ (set_sys _ _) s1 E1), (run_round _ _ (set_sys s1 _) a true s2 E2).
Qed.

(** The client that will get the packet: [b], which may be the one that sends it. *)
Lemma receiver_idle pipe L X C n a c xs b : net_idle pipe L X C n -> 0 <= a ->
  0 <= b < sys_last (net_sys n) -> has_client (set_client a c n) a c -> client_idle c xs (C a) ->
  exists cb xb, has_client (set_client a c n) b cb /\ client_idle cb xb (C b).
Proof.
  intros Hn Ha Hb Hc Hci. destruct (decide (a = b)) as [<- |Hab]; [by exists c, xs|].
  destruct (ni_client _ _ _ _ _ Hn b Hb) as (cb & Hcb & Hcbi). exists cb, (X b).
  split; [|done]. by apply has_client_ne.
Qed.

(** The request reaches the callback of [b], and its answer the daemon. *)
Lemma request_delivered pipe L X C n a ma b mb p out : net_idle pipe L X C n ->
  has_mod (net_sys n) a ma -> a < sys_last (net_sys n) -> routed (net_sys n) ma p b mb ->
  sendable p -> fits_region p -> Answers (C b) p out -> sendable out ->
  exists c addr s mb', NoDup (NULL :: addr :: (X a).*1) /\
    let x := (addr, mkPending (pkt_id p) None false) in
    let c' := with_pending (x :: X a) c in
    let o := sdb_packet p a in
    client_idle c' (x :: X a) (C a) /\ has_client n a c /\ has_mod s b mb' /\
    kin (net_sys n) s /\ sys_world s = sys_world (net_sys n) /\
    daemon_idle pipe (pushed o b (pushed o a L)) s /\
    sdb_send_async p c = Ok ((0, addr), client_out (wire p) c') /\
    forall es, net_run pipe (Up a :: Observe :: Round a :: Round b :: Down b :: Read b :: Callback b ::
        Up b :: es) (set_client a (client_out (wire p) c') n)
      = net_run pipe es (set_sys (daemon_in mb' (wire out) s) (set_client a c' n)).
Proof.
  intros Hn Ha Hla Hroute Hp Hf Hans Ho. pose proof (ni_daemon _ _ _ _ _ Hn) as Hd.
  pose proof Hroute as (_ & ? & ? & _ & _ & _ & (Hb & Hlb & _) & _).
  destruct (idle_module _ _ _ _ _ Hd Hb Hlb) as (_ & _ & _ & _ & Hwfb & _ & Hqb).
  destruct (request_sent pipe L X C n a ma p Hn Ha Hla Hp) as (c & addr & Hnd & Hci & Hc & Es & E).
  destruct (daemon_forwards pipe L (net_sys n) a ma b mb p Hd Ha Hla Hp Hf Hroute)
    as (s1 & s2 & s3 & E1 & E2 & E3 & Hw3 & Hk3 & Hd3).
  destruct (kin_mod _ _ Hk3 b mb Hlb Hb) as (mb3 & Hb3 & I). injection I as _ _ Hwb3 _ _ _.
  exists c, addr, (set_world (sys_world (net_sys n)) s3), mb3. cbv zeta in *.
  do 8 (split; [done|]). intros es. rewrite E. set (n1 := set_client a _ n).
  destruct (receiver_idle pipe L X C n a _ _ b Hn (proj1 Ha) (conj (proj1 Hb) Hlb)
    (has_client_set n a c _ Hc) Hci) as (cb & xb & Hcb & Hcbi).
  rewrite (run_observe _ _ (set_sys _ n1) s1 E1), (run_round _ _ (set_sys s1 _) a true s2 E2),
    (run_round _ _ (set_sys s2 _) b true s3 E3).
  rewrite (packet_served pipe _ (set_sys s3 n1) b mb3 (sys_world (net_sys n)) p out cb xb (C b));
    [done|done|done|done|by rewrite Hwb3, Hwfb|
      by rewrite Hwb3|apply Hp|by eapply routed_not_answer|done|done].
Qed.

Lemma request_served pipe L X C n a ma b mb p out : net_idle pipe L X C n ->
  has_mod (net_sys n) a ma -> a < sys_last (net_sys n) -> routed (net_sys n) ma p b mb ->
  sendable p -> fits_region p -> fresh_id p (L a) -> fresh_id p (L b) ->
  Answers (C b) p out -> sendable out -> fits_region out ->
  mcs_is_answer_packet out = true -> pkt_id out = pkt_id p ->
  exists n', answered_net pipe L X C n a p out (delivery a b) n'.
Proof.
  intros Hn Ha Hla Hroute Hp Hf Hfa Hfb Hans Ho Hfo Hoa Hid.
  destruct (idle_module _ _ _ _ _ (ni_daemon _ _ _ _ _ Hn) Ha Hla) as (_ & _ & _ & _ & Hwfa & _ & Hqa).
  pose proof Hroute as (_ & ? & ? & _ & _ & _ & (_ & Hlb & _) & _).
  destruct (request_delivered pipe L X C n a ma b mb p out)
    as (c & addr & s3 & mb3 & Hnd & Hci & Hc & Hb3 & Hk3 & Hw3 & Hd3 & Es & E); try done.
  destruct (kin_mod _ _ Hk3 a ma Hla Ha) as (ma3 & Ha3 & Ia). injection Ia as _ _ Hwa3 _ _ _.
  destruct (daemon_returns pipe L s3 a ma3 b mb3 p out Hd3)
    as (s4 & s5 & s6 & E4 & E5 & E6 & Hw6 & Hk6 & Hd6); try done.
  { by rewrite (kin_last _ _ Hk3). }
  { by rewrite (kin_last _ _ Hk3). }
  destruct (kin_mod _ _ Hk6 a ma3) as (ma6 & Ha6 & I6); [by rewrite (kin_last _ _ Hk3)|done|].
  injection I6 as _ _ Hwa6 _ _ _. rewrite Hw3 in *.
  set (n1 := set_client a (with_pending _ c) n) in E.
  destruct (answer_received pipe L X C (set_sys s6 n1) a ma6 c addr p out n Hn Hnd Hci)
    as (n' & En & Hkn & Hnn); try done;
    [exact (has_client_set n a c _ Hc)|congruence|by rewrite Hwa6|by eapply kin_trans|apply Ho|].
  exists n', c. eexists _, addr. do 2 (split; [done|]). split; [|done]. unfold delivery. rewrite E.
  by rewrite (run_observe _ _ (set_sys _ n1) s4 E4), (run_round _ _ (set_sys s4 _) b true s5 E5),
    (run_round _ _ (set_sys s5 _) a true s6 E6).
Qed.

Lemma request_answered pipe L X C n r : net_idle pipe L X C n -> Answered (net_sys n) L C r ->
  exists n', answered_net pipe L X C n (rq_from r) (rq_pkt r) (rq_answer r) (rq_events r) n'.
Proof. intros Hn []; [by eapply request_served|by eapply request_refused]. Qed.

(** ** Any number of requests. *)

(** A request with all its events. *)
Definition request_events (r : Request) : list Event := Send (rq_from r) (rq_pkt r) :: rq_events r.

(** The pending packets of client [i] after the requests [rs], the newest first. *)
Definition answers_to (i : Z) (rs : list Request) : list SDBPendingPacket :=
  (fun r => mkPending (pkt_id (rq_pkt r)) (Some (rq_answer r)) true)
  <$> reverse (filter (fun r => rq_from r = i) rs).

Lemma answers_to_cons i r rs : answers_to i (r :: rs) = answers_to i rs ++
  (if decide (rq_from r = i) then [mkPending (pkt_id (rq_pkt r)) (Some (rq_answer r)) true] else []).
Proof.
  unfold answers_to. rewrite filter_cons. destruct (decide (rq_from r = i)).
  - by rewrite reverse_cons, fmap_app.
  - by rewrite app_nil_r.
Qed.

(** An answered packet can be taken without waiting. *)
Lemma answered_packet c xs cbs y spurious : client_idle c xs cbs -> y ∈ xs -> pp_valid y.2 = true ->
  sdb_check_async y.1 c = Ok (1, c) /\ sdb_wait_async spurious y.1 c = Ok (Some 0, c).
Proof.
  intros [[Hn Hc] _ _ _ _] (pre & post & ->)%list_elem_of_split Hv.
  pose proof (pending_cell pre y post Hn) as Hcell.
  assert (E : pend_get y.1 c = Ok (mkPendElem y.2 (hd_addr post NULL) (last_addr NULL pre), c)).
  { apply pend_get_ok. rewrite Hc. exact Hcell. }
  unfold sdb_check_async, sdb_wait_async. rewrite !(st_bind_ok _ _ _ _ _ E). cbn [queue_pkt].
  by rewrite Hv.
Qed.

(** C1: requests made one after the other are answered from end to end.  In an idle network
    of any number of clients a list of requests is run, one at a time: each is sent when the
    one before is over, and the threads take their turns in a fixed order
    ([request_events]).  Each request is sent by the library of a client, routed by the
    daemon to the client its table and its destination name, which may be the sender itself,
    given there to the callback registered for its command, and its answer travels back the
    same way; a request no callback serves is answered with [ECMDFAULT], one that may not be
    sent with the error of the daemon ([Answered]: the packets fit the regions and their ids
    are not pending).  When the sequence is over, each client finds the answers in the
    pending packets of its requests, in their order, and can take them without waiting; all
    the queues of the daemon hold what they held before, and all sockets are quiet.  Nothing
    is said of requests that are under way at the same time: two that cross can stop each
    other for ever (Locks.v). *)
Theorem session_answered pipe L X C n rs :
  net_idle pipe L X C n -> Forall (Answered (net_sys n) L C) rs ->
  exists n' X', net_run pipe (rs ≫= request_events) n = Ok (Some tt, n') /\
    net_idle pipe L X' C n' /\ kin (net_sys n) (net_sys n') /\
    (forall i, (X' i).*2 = answers_to i rs ++ (X i).*2) /\
    (forall i c y spurious, 0 <= i < sys_last (net_sys n) -> has_client n' i c -> y ∈ X' i ->
       pp_valid y.2 = true ->
       sdb_check_async y.1 c = Ok (1, c) /\ sdb_wait_async spurious y.1 c = Ok (Some 0, c)).
Proof.
  intros Hn Hrs. revert n X Hn Hrs. induction rs as [|r rs IH]; intros n X Hn Hrs.
  - exists n, X. split_and!; [done|apply Hn..|apply kin_refl|done|].
    intros i c y spurious Hi [_ Hc] Hy Hv.
    destruct (ni_client _ _ _ _ _ Hn i Hi) as (c0 & [_ Hc0] & Hci).
    rewrite Hc in Hc0. injection Hc0 as <-. by eapply answered_packet.
  - apply Forall_cons in Hrs as [Hr Hrs].
    destruct (request_answered pipe L X C n r Hn Hr) as (n1 & c & c1 & addr & Hc & Es & E1 & Hk1 & Hn1).
    destruct (IH n1 _ Hn1) as (n' & X' & E & Hn' & Hk' & HX & Hcheck).
    { eapply Forall_impl; [exact Hrs|]. intros r'. apply answered_kin; [done|apply Hn]. }
    exists n', X'. split_and!; [|apply Hn'..|by eapply kin_trans| |].
    + cbn [mbind list_bind request_events app]. rewrite (run_send _ _ _ _ _ _ _ _ Hc Es).
      by rewrite (net_run_app _ _ _ _ _ E1).
    + intros i. rewrite HX, answers_to_cons, <- app_assoc. f_equal.
      destruct (decide (rq_from r = i)) as [<- |Hne].
      * by rewrite fn_lookup_insert.
      * by rewrite fn_lookup_insert_ne.
    + by rewrite <- (kin_last _ _ Hk1).
Qed.

End Properties.

(** ** Witnesses: clients of modules [a] and [b]. *)

Section Witnesses.

#[local] Existing Instances repo_tables release_build quiet_environment.

Definition quiet_fd : Fd := mkFd [] [] None.

(** Both modules wait; 9 and 10 are the ends of the observer's pipe. *)
Definition waiting : Sys SDBQueue :=
  mkSys (mkWorld 0 {[5 := quiet_fd; 6 := quiet_fd; 9 := quiet_fd; 10 := quiet_fd]})
    (with_socket false (mod_a true) :: mod_b :: replicate 18 blank_module) 2 sdb_qos_init 10.

Definition client_world : World := mkWorld 0 {[5 := quiet_fd]}.

(** The client of [b] acknowledges [test] messages. *)
Definition test_callback : SDBCMDCallback := mkCmdCallback 0 acknowledge.
Definition client_a : Client := fresh_client 5 client_world.
Definition client_b : Client :=
  upd_callbacks (Some test_callback :: replicate 4 None) 1 false (fresh_client 5 client_world).

Definition two_clients : Net SDBQueue := mkNet waiting [client_a; client_b].

Definition callbacks_of (i : Z) : list SDBCMDCallback := if i =? 1 then [test_callback] else [].

(** [a] sends a test to [b], and one to [c], which does not exist. *)
Definition two_tests : list Request :=
  [mkRequest 0 (test_message "b") (mcs_ok_packet_id 77) (delivery 0 1);
   mkRequest 0 (test_message "c") (mcs_err_packet_id 77 EBADMODID) (refusal 0)].

Definition pendings (i : Z) (r : outcome (option unit * Net SDBQueue)) :
    option (list SDBPendingPacket) :=
  match r with
  | Ok (Some tt, n) =>
      c ← net_clients n !! Z.to_nat i;
      mapM (fun a => queue_pkt <$> pending_heap c !! a)
        (match pending_heap c !! pending_list_first c with
         | Some e => [pending_list_first c; queue_next e] | None => [] end)
  | _ => None
  end.

(** The computation itself: both answers are there. *)
Example two_tests_run : pendings 0 (net_run 9 (two_tests ≫= request_events) two_clients)
  = Some [mkPending 77 (Some (mcs_err_packet_id 77 EBADMODID)) true;
          mkPending 77 (Some (mcs_ok_packet_id 77)) true].
Proof. vm_compute. reflexivity. Qed.

Lemma waiting_cases i (m : SDBModule SDBQueue) : i < 2 -> has_mod waiting i m ->
  (i = 0 /\ m = with_socket false (mod_a true)) \/ (i = 1 /\ m = mod_b).
Proof.
  intros Hi [Hi0 Hm]. assert (i = 0 \/ i = 1) as [-> | ->] by lia; cbn in Hm; injection Hm as <-;
    [by left|by right].
Qed.

Lemma waiting_idle : daemon_idle 9 (fun _ => []) waiting.
Proof.
  split; [split| |].
  - apply Nat.leb_le. reflexivity.
  - done.
  - done.
  - intros i m Hi Hm. by destruct (waiting_cases i m Hi Hm) as [[-> ->]|[-> ->]].
  - intros i j mi mj Hi Hj Hij Hmi Hmj.
    destruct (waiting_cases i mi Hi Hmi) as [[-> ->]|[-> ->]];
      by destruct (waiting_cases j mj Hj Hmj) as [[-> ->]|[-> ->]].
  - exists []. apply table_rep_init.
  - intros i m Hi Hm. destruct (waiting_cases i m Hi Hm) as [[-> ->]|[-> ->]];
      (split; [apply q_rep_init|done]).
Qed.

Lemma two_clients_idle : net_idle 9 (fun _ => []) (fun _ => []) callbacks_of two_clients.
Proof.
  split; [apply waiting_idle|]. intros i Hi. assert (i = 0 \/ i = 1) as [-> | ->] by (cbn in Hi; lia).
  - exists client_a. split; [done|]. split; try done; [apply fresh_pending|apply fresh_callbacks].
  - exists client_b. split; [done|]. split; try done.
    + split; [apply (fresh_pending 5 client_world)|done].
    + by exists (replicate 4 None).
Qed.

Lemma waiting_unlike name n : n <= 2 -> cstr (str name) <> str "a" ->
  (n <= 1 \/ cstr (str name) <> str "b") -> unlike waiting (str name) n.
Proof.
  intros Hn Ha Hb i m Hi Hm. destruct (waiting_cases i m) as [[-> ->]|[-> ->]]; [lia|done| |].
  - exists (str "a"). split; [done|]. change (cstr (str "a")) with (str "a"). congruence.
  - exists (str "b"). split; [done|]. change (cstr (str "b")) with (str "b").
    destruct Hb as [?|Hb]; [lia|congruence].
Qed.

Lemma two_tests_answered : Forall (Answered waiting (fun _ => []) callbacks_of) two_tests.
Proof.
  repeat constructor.
  - apply (AnsweredByClient _ _ _ 0 (with_socket false (mod_a true)) 1 mod_b); try done.
    + split; [done|]. eexists _, (str "b"). split; [reflexivity|]. split; [by left|].
      split; [apply test_addresses|]. split; [|by left]. split; [done|]. split; [done|].
      split; [apply waiting_unlike; [done|done|by left]|]. by exists (str "b").
    + apply test_b_sendable.
    + constructor.
    + constructor.
    + by apply (AnswersServed _ _ [] test_callback []).
    + by apply ok_packet_sendable.
  - apply (AnsweredByDaemon _ _ _ 0 (with_socket false (mod_a true))); try done.
    + apply test_message_sendable; [bytes_lit|done|]. by repeat constructor.
    + eapply RefusedUnknown; [reflexivity|by left|apply test_addresses| |].
      * apply Nat.leb_le. reflexivity.
      * apply waiting_unlike; [done|done|by right].
Qed.

Lemma session_answered_witness :
  exists n' X', net_run 9 (two_tests ≫= request_events) two_clients = Ok (Some tt, n') /\
    net_idle 9 (fun _ => []) X' callbacks_of n' /\
    (X' 0).*2 = [mkPending 77 (Some (mcs_err_packet_id 77 EBADMODID)) true;
                 mkPending 77 (Some (mcs_ok_packet_id 77)) true].
Proof.
  destruct (session_answered 9 (fun _ => []) (fun _ => []) callbacks_of two_clients two_tests
    two_clients_idle two_tests_answered) as (n' & X' & E & Hn & _ & HX & _).
  exists n', X'. split; [exact E|]. split; [exact Hn|]. rewrite HX. reflexivity.
Defined.

End Witnesses.
