(* ===== verification/Joining.v ===== *)
(** * Joining: the calls that wait, and how a client joins the network.

    A synchronous request returns its answer.  A client joins: the library connects and sends its handshake, the director accepts the
    connection, the thread of the new module answers the handshake and wakes up
    the observer, and the library reads the answer. *)

From stdpp Require Import functions.
From S2P Require Import Prelude Segments Abs McsDefs Mcs McsFacts McsProps Queue QueueFacts QueueProps.
From S2P Require Import Qos QosFacts Module ModuleFacts Routing ModuleProps Daemon DaemonProps.
From S2P Require Import Client ClientFacts ClientProps Network NetworkFacts NetworkProps.

Section Client.
Context `{MCSTables} `{Build}.

(** The two halves are the whole call. *)
Lemma send_sync_halves spurious pkt_in c :
  sdb_send_sync spurious pkt_in c =
  (let! (ret, queue_elem) := sdb_send_async pkt_in in
   if negb (ret =? -1) then
     let? _ := cond_wait spurious queue_elem in
     let! pkt_out := sync_end queue_elem pkt_in in
     st_ret (Some (0, Some pkt_out))
   else st_ret (Some (-1, None))) c.
Proof.
  unfold sdb_send_sync, sdb_send_async, sync_end, st_obind, st_bind, st_get, st_ret, st_ub.
  destruct (add_pending_id (pkt_id pkt_in) c) as [[a c2]|]; [|done].
  destruct (in_net _ c2) as [[ret c3]|]; [|done]. destruct (negb (ret =? -1)); [|done].
  destruct (cond_wait spurious a c3) as [[[[]|] c4]|]; [|done|done].
  destruct (pend_get a c4) as [[e c5]|]; [|done]. destruct (pp_pkt (queue_pkt e)) as [out|]; [|done].
  by destruct (delete_pending_id (pkt_id pkt_in) c5) as [[[] c6]|].
Qed.

Lemma connect_halves sock conn rnd name group c :
  sdb_connect sock conn rnd name group c =
  (let! r := connect_begin sock conn rnd name group in
   match r with
   | inl ret => st_ret (Some ret)
   | inr (queue_elem, pkt) =>
       let? _ := cond_wait false queue_elem in
       let! ret := connect_end queue_elem pkt in
       st_ret (Some ret)
   end) c.
Proof.
  unfold sdb_connect, connect_begin, send_handshake, connect_end, sync_end, sdb_send_sync_and_free,
    sdb_send_sync, sdb_send_async, st_obind, st_bind, st_lift, st_get, st_ret, st_ub. cbv zeta.
  destruct (negb (socket_fd c =? -1)); [done|]. destruct name as [n|]; [|done].
  destruct (SDB_MODULE_NAME_SIZE <? strlen n); [done|].
  destruct (group_val SDB_GROUP_MAX <=? group_val group); [done|].
  destruct (handshake_text n group) as [text|]; [|done].
  destruct (set_socket sock c) as [[[] c1]|]; [|done]. destruct (sock <? 0); [done|].
  destruct (conn <? 0); [by destruct (in_net (os_close sock) c1) as [[[] ?]|]|].
  destruct (mcs_create_packet _ _ _ _ _ _) as [[pkt|]|]; [|done|done].
  destruct (add_pending_id (pkt_id pkt) c1) as [[a c2]|]; [|done].
  destruct (in_net _ c2) as [[ret c3]|]; [|done]. destruct (negb (ret =? -1)).
  - destruct (cond_wait false a c3) as [[[[]|] c4]|]; [|done|done].
    destruct (pend_get a c4) as [[e c5]|]; [|done]. destruct (pp_pkt (queue_pkt e)) as [out|]; [|done].
    destruct (delete_pending_id (pkt_id pkt) c5) as [[[] c6]|]; [|done]. cbn [negb Z.eqb].
    destruct (pkt_type out =? MCS_TYPE_OK); [done|].
    by destruct (in_net _ c6) as [[[] ?]|].
  - cbn [negb Z.eqb]. by destruct (in_net _ c3) as [[[] ?]|].
Qed.

(** A client that is not connected. *)
Record client_offline (c : Client) (xs : list pcell) (cbs : list SDBCMDCallback) : Prop := {
  co_pending : pending_rep c xs;
  co_callbacks : callbacks_rep c cbs;
  co_threads : cl_threads c = [];
  co_fd : socket_fd c = -1
}.

(** The client when its socket [sock] is open. *)
Definition client_dialled (sock : Z) (c : Client) : Client :=
  upd_net (set_fd sock (mkFd [] [] None) (cl_world c)) c.

Lemma dialled_idle sock c xs cbs : client_offline c xs cbs -> 0 <= sock ->
  client_idle (upd_socket sock (client_dialled sock c)) xs cbs.
Proof.
  intros [[Hn Hp] (junk & Hcb & Hsz) Ht _] Hs. split; try done.
  - split; [done|]. exact (f_equal (fun c => upd_socket sock (client_dialled sock c)) Hp).
  - exists junk. split; [|done].
    exact (f_equal (fun c => upd_socket sock (client_dialled sock c)) Hcb).
  - apply lookup_insert_eq.
Qed.

(** The names and groups the library takes. *)
Record joinable (name : list Z) (g : SDBGroup) : Prop := {
  jn_bytes : bytes_ok name;
  jn_chars : Forall (fun b => b <> 0 /\ b <> 58) name;
  jn_length : zlen name <= SDB_MODULE_NAME_SIZE;
  jn_group : group_val g < group_val SDB_GROUP_MAX
}.

(** The first half: a handshake the daemon accepts is on the socket. *)
Lemma connect_begins c xs cbs sock rnd name g : handshake_entry -> client_offline c xs cbs ->
  0 <= sock -> joinable name g ->
  exists p gname a, handshake_packet_of p name gname [] /\ group_of gname sdb_group_conversion = Some g /\
    NoDup (NULL :: a :: xs.*1) /\
    let x := (a, mkPending (pkt_id p) None false) in
    let c' := upd_socket sock (client_dialled sock c) in
    client_idle (with_pending (x :: xs) c') (x :: xs) cbs /\
    connect_begin sock 0 rnd (Some name) g (client_dialled sock c)
    = Ok (inr (a, p), client_out (wire p) (with_pending (x :: xs) c')).
Proof.
  intros He Hc Hs [Hb Hn Hl Hg].
  assert (Hn0 : Forall (fun b => b <> 0) name) by (eapply Forall_impl; [exact Hn|]; by intros ? [? _]).
  destruct (handshake_text_ok name g Hn0 Hl Hg) as (gname & Etext & Hgrp & Hlg & Hbg & Hzg).
  set (text := name ++ 58 :: gname) in *.
  assert (Hlt : zlen text < 65535).
  { unfold text, SDB_MODULE_NAME_SIZE in *. rewrite zlen_app, zlen_cons. lia. }
  assert (Hbt : bytes_ok text) by (apply Forall_app; split; [done|by constructor]).
  pose proof (handshake_sendable_text rnd text He Hbt Hlt) as Hsend.
  destruct (client_sends _ xs cbs _ (dialled_idle sock c xs cbs Hc Hs) Hsend) as (a & Hnd & Hci & E).
  exists (handshake_of_text rnd text), gname, a. split; [|split; [done|split; [done|split; [exact Hci|]]]].
  { split_and!; [apply Hsend|done| |done|done]. unfold handshake_data, handshake_of_text, text.
    cbn [pkt_data]. by rewrite <- app_assoc. }
  unfold connect_begin, st_bind at 1, st_get. cbn [socket_fd client_dialled upd_net].
  rewrite (co_fd _ _ _ Hc). cbn [negb Z.eqb Pos.eqb].
  replace (strlen name) with (zlen name) by (unfold strlen; by rewrite cstr_no_nul).
  rewrite (proj2 (Z.ltb_ge _ _) Hl), (proj2 (Z.leb_gt _ _) Hg).
  unfold st_bind at 1, st_lift. rewrite Etext. fold text.
  rewrite (st_bind_ok _ _ _ tt (upd_socket sock (client_dialled sock c))) by done.
  rewrite (proj2 (Z.ltb_ge _ _) Hs). change (0 <? 0) with false. cbv iota.
  rewrite (handshake_created rnd text) by done. erewrite st_bind_ok by reflexivity.
  cbv iota. by rewrite (st_bind_ok _ _ _ _ _ E).
Qed.

(** The second halves, when the newest pending packet was answered with [r]. *)
Lemma sync_ends c xs cbs a p r : NoDup (NULL :: a :: xs.*1) -> client_idle c xs cbs ->
  sync_end a p (with_pending ((a, mkPending (pkt_id p) (Some r) true) :: xs) c) = Ok (r, c).
Proof.
  intros Hnd Hc. set (x := (a, _)). unfold sync_end, st_bind at 1.
  rewrite (pend_get_ok a (mkPendElem x.2 (hd_addr xs NULL) NULL)) by apply lookup_insert_eq.
  cbn [queue_pkt pp_pkt snd x].
  erewrite st_bind_ok by (apply (delete_pending_ok c [] x xs); done).
  unfold st_ret. cbn [app]. destruct (ci_pending _ _ _ Hc) as [_ Hp]. by rewrite <- Hp.
Qed.

Lemma connect_ends c xs cbs a p r : NoDup (NULL :: a :: xs.*1) -> client_idle c xs cbs ->
  pkt_type r = MCS_TYPE_OK ->
  connect_end a p (with_pending ((a, mkPending (pkt_id p) (Some r) true) :: xs) c) = Ok (0, c).
Proof.
  intros Hnd Hc Ht. unfold connect_end. rewrite (st_bind_ok _ _ _ _ _ (sync_ends c xs cbs a p r Hnd Hc)).
  by rewrite Ht, Z.eqb_refl.
Qed.

(** A client that waits for the answer, or has it, is otherwise as it was. *)
Lemma answered_rest c x xs cbs : client_idle c (x :: xs) cbs ->
  c = with_pending (x :: xs) (with_pending xs c) /\ client_idle (with_pending xs c) xs cbs.
Proof.
  intros [[Hn Hp] (junk & Hcb & Hsz) Ht Hfd Hq]. split; [exact Hp|]. split; try done.
  - split; [|done]. by apply NoDup_cons in Hn as [H1 [_ H2]%NoDup_cons]; apply NoDup_cons; split; [set_solver|].
  - exists junk. split; [|done]. exact (f_equal (with_pending xs) Hcb).
Qed.

End Client.

Section Daemon.
Context `{MCSTables} `{Build} `{QueueSpec Q} `{!Environment Q}.
Implicit Types (s : Sys Q) (m : SDBModule Q) (L : Z -> list SDBPacket).

(** A round of the observer that finds it was woken up. *)
Lemma observe_wake pipe s w : (Z.to_nat (sys_last s) <= length (sys_modules s))%nat ->
  quiet pipe w ->
  (forall i m, i < sys_last s -> has_mod s i m -> fd_closed w (mod_rfd m) = false) ->
  observer_round pipe (set_world (arrive pipe (str "w") w) s) = Ok (Some tt, set_world w s).
Proof.
  intros Hlen Hq Hopen. set (w1 := arrive pipe (str "w") w).
  destruct (module_fds_ok (sys_modules s) (Z.to_nat (sys_last s)) 0 Hlen) as (fds & Efds & Hel).
  assert (Hclosed : forall fd, fd_closed w1 fd = fd_closed w fd).
  { intros fd. unfold fd_closed, w1, arrive. cbn. rewrite lookup_alter. case_decide as Hc; [|done].
    subst fd. by rewrite Hq. }
  destruct (select_ready (pipe :: fds) w1 pipe) as (n & ready & Esel & Hn & Hrd).
  - apply not_true_iff_false. intros (fd & Hin & Hc)%existsb_exists. rewrite Hclosed in Hc.
    apply list_elem_of_In, elem_of_cons in Hin as [-> |Hin].
    + unfold fd_closed in Hc. by rewrite Hq in Hc.
    + destruct (Hel fd Hin) as (k & m & Hk & <- & Hlt).
      rewrite (Hopen (Z.of_nat k) m) in Hc; [done|lia|]. split; [lia|by rewrite Nat2Z.id].
  - constructor.
  - exact (arrive_readable pipe _ [] w Hq).
  - assert (Hp : pipe ∈ ready).
    { apply Hrd. split; [constructor|exact (arrive_readable pipe _ [] w Hq)]. }
    assert (Er : os_read1 pipe w1 = Ok ((1, 119), w)).
    { unfold os_read1, w1. rewrite (arrive_lookup pipe _ w Hq). cbn. do 2 f_equal.
      destruct w as [now fds0]. unfold set_fd, arrive. cbn. f_equal. rewrite insert_alter_eq.
      by apply insert_id. }
    unfold observer_round, st_bind at 1, st_get. unfold st_bind at 1, st_lift.
    cbn [sys_modules sys_last set_world]. rewrite Efds.
    rewrite (st_obind_ok _ _ _ _ _ (in_world_ok _ (set_world w1 s) _ _ Esel)).
    rewrite (proj2 (Z.ltb_ge _ _) Hn), bool_decide_eq_true_2 by done.
    by rewrite (st_bind_ok _ _ _ _ _ (in_world_ok _ (set_world w1 (set_world w1 s)) _ _ Er)).
Qed.

(** The descriptor [con_fd] is new. *)
Definition dialled (con_fd : Z) s : Sys Q :=
  set_world (set_fd con_fd (mkFd [] [] None) (sys_world s)) s.

(** A new descriptor is none of those in use. *)
Lemma quiet_ne fd con_fd w : quiet fd w -> w_fds w !! con_fd = None -> fd <> con_fd.
Proof. unfold quiet. congruence. Qed.

Lemma quiet_dialled fd con_fd w : quiet fd w -> w_fds w !! con_fd = None ->
  quiet fd (set_fd con_fd (mkFd [] [] None) w).
Proof. intros Hq Hn. unfold quiet. cbn. rewrite lookup_insert_ne; [done|]. by apply not_eq_sym, (quiet_ne _ _ w). Qed.

Lemma quiet_emit fd k bs w : fd <> k -> quiet fd w -> quiet fd (emit k bs w).
Proof. intros Hne Hq. unfold quiet, emit. cbn. by rewrite lookup_alter_ne. Qed.

(** The director accepts a connection: there is one more module. *)
Lemma director_accepts s con_fd m : has_mod s (sys_last s) m -> sys_last s < SDB_MODULE_MAX ->
  0 <= con_fd ->
  director_round 5 con_fd s = Ok (Some 5,
    set_mod (sys_last s) (with_fds con_fd con_fd m)
      (mkSys (sys_world s) (sys_modules s) (sys_last s + 1) (sys_qos s) (sys_observer_fd s))).
Proof.
  intros Hm Hmax Hfd. unfold director_round. rewrite (proj2 (Z.ltb_ge _ _) Hfd).
  unfold sdb_module_init. rewrite (proj2 (Z.ltb_ge _ _) Hfd). cbn [orb].
  unfold SDB_MODULE_MAX in *. pose proof (proj1 Hm).
  erewrite st_bind_ok; [reflexivity|]. unfold st_bind at 1, st_gets.
  erewrite st_bind_ok by reflexivity.
  replace (u32 (sys_last s + 1)) with (sys_last s + 1) by (symmetry; apply Z.mod_small; lia).
  by erewrite st_bind_ok by (apply update_mod_ok; exact Hm).
Qed.

(** The daemon with one more module, [mk], is idle again. *)
Lemma idle_joined pipe L s s' con_fd mk : let k := sys_last s in
  daemon_idle pipe L s -> 0 <= k -> 0 <= con_fd -> w_fds (sys_world s) !! con_fd = None ->
  sys_last s' = k + 1 -> sys_observer_fd s' = sys_observer_fd s -> logged s' ->
  sys_world s' = set_fd con_fd (mkFd [] [] None) (sys_world s) ->
  (forall j m, j <> k -> has_mod s j m -> has_mod s' j m) -> has_mod s' k mk ->
  mod_id mk = k -> mod_locked mk = false -> mod_wfd mk = mod_rfd mk -> mod_rfd mk = con_fd ->
  resting [] mk -> daemon_idle pipe (<[k := []]> L) s'.
Proof.
  intros k [[Ht Hp (Hq & Hqp & Hq0) Hm Hd] _ Hr] Hk0 Hc0 Hnew Hlast Hobs Hlog Hw Hkeep Hk Hid Hlock Hwfd Hrfd Hrest.
  assert (Hold : forall i m, i < sys_last s' -> has_mod s' i m ->
    (i = k /\ m = mk) \/ (i < k /\ i <> k /\ has_mod s i m)).
  { intros i m Hi Hmi. destruct (decide (i = k)) as [-> |Hne]; [left; by rewrite (has_mod_inj s' k m mk)|].
    right. destruct (module_exists s i Ht) as [m0 Hm0]; [split; [apply Hmi|lia]|].
    rewrite (has_mod_inj s' i m m0); [|done|by apply Hkeep]. split; [lia|done]. }
  split; [split| done |].
  - rewrite Hlast. destruct Hk as [_ Hk]. apply lookup_lt_Some in Hk. lia.
  - rewrite Hw. by apply quiet_dialled.
  - rewrite Hw, Hobs. split_and!; [by apply quiet_dialled|done|done].
  - intros i m Hi Hmi. rewrite Hw, Hobs. destruct (Hold i m Hi Hmi) as [[-> ->]|(Hlt & _ & Hms)].
    + rewrite Hrfd. split_and!; try done; [by rewrite Hwfd|..|apply lookup_insert_eq];
        by apply not_eq_sym, (quiet_ne _ _ (sys_world s)).
    + destruct (Hm i m Hlt Hms) as (? & ? & ? & ? & ? & ? & ?). split_and!; try done.
      by apply quiet_dialled.
  - intros i j mi mj Hi Hj Hij Hmi Hmj.
    destruct (Hold i mi Hi Hmi) as [[-> ->]|(Hil & _ & Hmi')];
      destruct (Hold j mj Hj Hmj) as [[-> ->]|(Hjl & _ & Hmj')]; [done| | |by apply (Hd i j)];
      rewrite Hrfd; [apply not_eq_sym|]; eapply quiet_ne; try done; by eapply Hm.
  - intros i m Hi Hmi. destruct (Hold i m Hi Hmi) as [[-> ->]|(Hlt & Hne & Hms)].
    + by rewrite fn_lookup_insert.
    + rewrite fn_lookup_insert_ne by congruence. by apply Hr.
Qed.

(** What the daemon does for a client that connects with a valid handshake. *)
Lemma daemon_joins pipe L s con_fd p name gname g : let k := sys_last s in
  let w0 := sys_world (dialled con_fd s) in
  let w1 := emit con_fd (wire (mcs_ok_packet p)) w0 in
  daemon_idle pipe L s -> 0 <= k < SDB_MODULE_MAX -> (Z.to_nat k < length (sys_modules s))%nat ->
  0 <= con_fd -> w_fds (sys_world s) !! con_fd = None ->
  handshake_packet_of p name gname [] -> group_of gname sdb_group_conversion = Some g ->
  exists s1 m1 s2 mk, director_round 5 con_fd (dialled con_fd s) = Ok (Some 5, s1) /\
    has_mod s1 k m1 /\ module_start k (daemon_in m1 (wire p) s1) = Ok (true, s2) /\
    sys_observer_fd s2 = sys_observer_fd s /\
    sys_world s2 = emit (sys_observer_fd s) (str "w") w1 /\
    observer_round pipe (set_world (arrive pipe (str "w") w1) s2) = Ok (Some tt, set_world w1 s2) /\
    has_mod s2 k mk /\ mod_wfd mk = con_fd /\ mod_name mk = Some name /\ mod_group mk = g /\
    sys_last s2 = k + 1 /\ (forall j m, j <> k -> has_mod s j m -> has_mod s2 j m) /\
    daemon_idle pipe (<[k := []]> L) (set_world w0 s2).
Proof.
  intros k w0 w1 Hidle Hk Hlen Hc0 Hnew Hp Hg. pose proof (di_wired _ _ _ Hidle) as Hwired.
  pose proof (wd_wake _ _ Hwired) as (Hqo & Hop & Ho0).
  destruct (lookup_lt_is_Some_2 (sys_modules s) (Z.to_nat k) Hlen) as [m0 Hm0].
  assert (Hm : has_mod (dialled con_fd s) k m0) by (split; [lia|done]).
  pose proof (director_accepts (dialled con_fd s) con_fd m0 Hm (proj2 Hk) Hc0) as E1.
  set (m1 := with_fds con_fd con_fd m0) in E1. set (s1 := set_mod _ m1 _) in E1.
  assert (Hm1 : has_mod s1 k m1) by (by eapply (has_mod_set_eq (mkSys _ _ _ _ _))).
  assert (Hqc : quiet con_fd w0) by apply lookup_insert_eq.
  assert (Hqw : quiet (sys_observer_fd s) w0) by by apply quiet_dialled.
  assert (Hoc : sys_observer_fd s <> con_fd) by by apply (quiet_ne _ _ (sys_world s)).
  destruct (start_accepted (daemon_in m1 (wire p) s1) k m1 p name gname [] g [])
    as (s2 & E2 & Hl2 & Hf2 & Hm2 & Hw2); try done.
  { exact (di_logged _ _ _ Hidle). }
  { by apply arrive_avail. }
  { apply arrive_writable. by apply quiet_writable. }
  { right. apply arrive_writable. by apply quiet_writable. }
  cbn [sys_world set_world daemon_in s1 set_mod m1 mod_rfd mod_wfd with_fds] in Hw2.
  fold w0 in Hw2. rewrite quiet_consume in Hw2 by done. fold w1 in Hw2.
  unfold woken in Hw2. change (sys_observer_fd (daemon_in _ _ _)) with (sys_observer_fd s) in Hw2.
  assert (Hlast : sys_last s2 = k + 1) by apply Hf2.
  assert (Hobs : sys_observer_fd s2 = sys_observer_fd s) by apply Hf2.
  assert (Hkeep : forall j m, j <> k -> has_mod s j m -> has_mod s2 j m).
  { intros j m Hj Hmj. apply Hf2; [set_solver|]. change (has_mod s1 j m).
    apply has_mod_set_ne; [exact (not_eq_sym Hj)|done|apply Hk]. }
  assert (Hidle2 : daemon_idle pipe (<[k := []]> L) (set_world w0 s2)).
  { eapply (idle_joined pipe L s (set_world w0 s2) con_fd); try done; [lia|]. split; [apply qs_init_ok|done]. }
  exists s1, m1, s2. eexists. split_and!; try done.
  - rewrite Hw2. by rewrite (proj2 (Z.eqb_neq _ _)) by lia.
  - apply observe_wake; [apply Hidle2| |].
    + apply quiet_emit; [|apply (wd_pipe _ _ (di_wired _ _ _ Hidle2))].
      by apply (quiet_ne _ _ (sys_world s)); [apply Hwired|].
    + intros i m Hi Hmi. destruct (wd_module _ _ (di_wired _ _ _ Hidle2) i m Hi Hmi) as (_ & _ & _ & _ & _ & _ & Hq).
      unfold fd_closed, w1, emit. cbn [w_fds]. rewrite lookup_alter.
      case_decide as Hc; [rewrite Hc|]; by rewrite Hq.
Qed.

End Daemon.

Section Network.
Context `{MCSTables} `{Build} `{QueueSpec Q} `{!Environment Q}.
Implicit Types (s : Sys Q) (m : SDBModule Q) (n : Net Q) (L : Z -> list SDBPacket).
Implicit Types (X : Z -> list pcell) (C : Z -> list SDBCMDCallback).

Lemma run_dial pipe es n i sock con_fd c : has_client n i c ->
  net_run pipe (Dial i sock con_fd :: es) n
  = net_run pipe es (set_sys (dialled con_fd (net_sys n)) (set_client i (client_dialled sock c) n)).
Proof.
  intros Hc. cbn [net_run net_event]. erewrite st_obind_ok; [done|]. unfold dial.
  erewrite st_bind_ok; [done|].
  erewrite st_bind_ok by (eapply at_client_ok; [exact Hc|by apply in_net_ok]).
  by erewrite at_daemon_ok by (by apply in_world_ok).
Qed.

Lemma run_wake pipe es n bs w : sys_world (net_sys n) = emit (sys_observer_fd (net_sys n)) bs w ->
  quiet (sys_observer_fd (net_sys n)) w ->
  net_run pipe (Wake :: es) n
  = net_run pipe es (set_sys (set_world (arrive pipe bs w) (net_sys n)) n).
Proof.
  intros Hw Hq. cbn [net_run net_event]. erewrite st_obind_ok; [done|]. unfold carry_wake.
  erewrite st_bind_ok; [done|]. unfold st_bind at 1, st_gets. rewrite Hw, quiet_sent by done.
  erewrite st_bind_ok by (apply at_daemon_ok; by apply in_world_ok).
  erewrite at_daemon_ok by (by apply in_world_ok). cbn. by rewrite Hw, quiet_carried.
Qed.

(** *** Synchronous requests. *)

(** The network is idle again when the newest pending packet of client [a] was freed. *)
Lemma idle_freed pipe L X C n a c x : 0 <= a < sys_last (net_sys n) ->
  net_idle pipe L (<[a := x :: X a]> X) C n -> has_client n a c ->
  client_idle (with_pending (X a) c) (X a) (C a) ->
  net_idle pipe L X C (set_client a (with_pending (X a) c) n).
Proof.
  intros Ha Hn Hc Hci. split; [apply Hn|]. intros i Hi. cbn in Hi.
  destruct (decide (i = a)) as [-> |Hne].
  - exists (with_pending (X a) c). split; [by eapply has_client_set|done].
  - destruct (ni_client _ _ _ _ _ Hn i Hi) as (ci & Hci0 & Hcii).
    rewrite fn_lookup_insert_ne in Hcii by done. exists ci. split; [|done].
    apply has_client_ne; [done|apply Ha|done].
Qed.

(** A synchronous request returns the answer, and nothing is left pending. *)
Lemma sync_answered pipe L X C n r : net_idle pipe L X C n -> Answered (net_sys n) L C r ->
  exists n', net_send_sync pipe (rq_from r) (rq_events r) (rq_pkt r) n
      = Ok (Some (0, Some (rq_answer r)), n') /\
    net_idle pipe L X C n' /\ kin (net_sys n) (net_sys n').
Proof.
  intros Hn Hr. set (a := rq_from r).
  assert (Ha : 0 <= a < sys_last (net_sys n)).
  { destruct Hr as [a' ma ? ? ? ? Hm Hl|a' ma ? ? Hm Hl]; exact (conj (proj1 Hm) Hl). }
  destruct (request_answered pipe L X C n r Hn Hr) as (n1 & c & c1 & addr & Hc & Es & E1 & Hk & Hn1).
  fold a in Hc, E1, Hn1. set (x := (addr, _)) in Hn1.
  destruct (ni_client _ _ _ _ _ Hn1 a) as (c2 & Hc2 & Hci2); [by rewrite (kin_last _ _ Hk)|].
  rewrite fn_lookup_insert in Hci2. destruct (answered_rest c2 x (X a) (C a) Hci2) as [Hc2' Hci].
  pose proof (sync_ends (with_pending (X a) c2) (X a) (C a) addr (rq_pkt r) (rq_answer r)
    (proj1 (ci_pending _ _ _ Hci2)) Hci) as Eend.
  fold x in Eend. rewrite <- Hc2' in Eend.
  exists (set_client a (with_pending (X a) c2) n1). split_and!; [| |done].
  - unfold net_send_sync. fold a. rewrite (st_bind_ok _ _ _ _ _ (at_client_ok _ _ _ _ _ _ Hc Es)).
    change (negb (0 =? -1)) with true. cbv iota. rewrite (st_obind_ok _ _ _ _ _ E1).
    by rewrite (st_bind_ok _ _ _ _ _ (at_client_ok _ _ _ _ _ _ Hc2 Eend)).
  - eapply idle_freed; try done. by rewrite (kin_last _ _ Hk).
Qed.

(** *** One client joins. *)

(** The handshake is on the socket: the thread of the module starts, the observer is
    woken up, and the client reads the acknowledgement. *)
Lemma joining_run pipe n k m1 mk s2 c xs cbs a p w0 :
  let x := (a, mkPending (pkt_id p) None false) in
  let r := mcs_ok_packet p in
  let w1 := emit (mod_wfd mk) (wire r) w0 in
  NoDup (NULL :: a :: xs.*1) -> client_idle (with_pending (x :: xs) c) (x :: xs) cbs ->
  0 <= pkt_id p < 2 ^ 32 -> has_client n k (client_out (wire p) (with_pending (x :: xs) c)) ->
  has_mod (net_sys n) k m1 -> module_start k (daemon_in m1 (wire p) (net_sys n)) = Ok (true, s2) ->
  sys_world s2 = emit (sys_observer_fd s2) (str "w") w1 -> quiet (sys_observer_fd s2) w1 ->
  observer_round pipe (set_world (arrive pipe (str "w") w1) s2) = Ok (Some tt, set_world w1 s2) ->
  has_mod s2 k mk -> quiet (mod_wfd mk) w0 ->
  net_run pipe (joining k) n = Ok (Some tt, set_sys (set_world w0 s2)
    (set_client k (with_pending ((a, mkPending (pkt_id p) (Some r) true) :: xs) c) n)).
Proof.
  intros x r w1 Hnd Hci Hid Hcl Hm1 E3 Hw2 Hqw E4 Hmk Hq.
  pose proof (ok_packet_sendable (pkt_id p) Hid) as Hr.
  destruct (client_answered c xs cbs a p r Hnd Hci (proj1 Hr) eq_refl eq_refl) as (E5 & _ & _).
  fold x in E5. unfold joining. erewrite run_up; [|exact Hci|exact Hcl|exact Hm1].
  rewrite (run_start _ _ (set_sys _ _) _ _ _ E3).
  rewrite (run_wake _ _ (set_sys s2 _) (str "w") w1) by done.
  rewrite (run_observe _ _ (set_sys _ _) _ E4).
  erewrite (run_down _ _ (set_sys _ _) k mk (wire r) _ w0); [|by eapply (has_client_set n)|done..].
  erewrite run_read; [|by do 2 eapply has_client_set|exact E5].
  cbn [net_run]. unfold st_ret, set_sys, set_client. cbn. by rewrite !list_insert_insert_eq.
Qed.

(** The network is then idle with one more module. *)
Lemma client_joins pipe L X C n c sock con_fd rnd name g :
  let k := sys_last (net_sys n) in
  net_idle pipe L X C n -> handshake_entry -> 0 <= k < SDB_MODULE_MAX ->
  (Z.to_nat k < length (sys_modules (net_sys n)))%nat ->
  has_client n k c -> client_offline c (X k) (C k) -> joinable name g ->
  0 <= sock -> 0 <= con_fd -> w_fds (sys_world (net_sys n)) !! con_fd = None ->
  exists n' mk, net_connect pipe k sock con_fd rnd name g n = Ok (Some 0, n') /\
    net_idle pipe (<[k := []]> L) X C n' /\
    sys_last (net_sys n') = k + 1 /\ sys_world (net_sys n') = sys_world (dialled con_fd (net_sys n)) /\
    (forall j m, j <> k -> has_mod (net_sys n) j m -> has_mod (net_sys n') j m) /\
    (forall j cj, j <> k -> has_client n j cj -> has_client n' j cj) /\
    has_mod (net_sys n') k mk /\ mod_name mk = Some name /\ mod_group mk = g.
Proof.
  intros k Hn He Hk Hlen Hc Hoff Hj Hs Hcf Hnew. set (s := net_sys n).
  pose proof (ni_daemon _ _ _ _ _ Hn) as Hd.
  destruct (connect_begins c (X k) (C k) sock rnd name g He Hoff Hs Hj)
    as (p & gname & a & Hp & Hg & Hnd & Hci & E1).
  set (cc := upd_socket sock (client_dialled sock c)) in *. set (x := (a, _)) in *.
  pose proof (dialled_idle sock c _ _ Hoff Hs) as Hidle. fold cc in Hidle.
  destruct (daemon_joins pipe L s con_fd p name gname g Hd Hk Hlen Hcf Hnew Hp Hg)
    as (s1 & m1 & s2 & mk & E2 & Hm1 & E3 & Hobs & Hw2 & E4 & Hmk & Hwfd & Hname & Hgrp & Hlast & Hkeep & Hd2).
  fold k in Hm1, E3, Hmk, Hlast, Hkeep, Hd2.
  set (w0 := sys_world (dialled con_fd s)) in *. rewrite <- Hwfd in Hw2, E4.
  set (n1 := set_sys s1 (set_client k (client_dialled sock c) n)).
  assert (Hc1 : has_client n1 k (client_dialled sock c)) by by eapply (has_client_set n).
  set (n2 := set_client k (client_out (wire p) (with_pending (x :: X k) cc)) n1).
  assert (Hqw : quiet (sys_observer_fd s2) (emit (mod_wfd mk) (wire (mcs_ok_packet p)) w0)).
  { rewrite Hobs, Hwfd. destruct (wd_wake _ _ (di_wired _ _ _ Hd)) as (Hq & _ & _).
    apply quiet_emit; [by apply (quiet_ne _ _ (sys_world s))|by apply quiet_dialled]. }
  rewrite <- Hobs in Hw2.
  pose proof (joining_run pipe n2 k m1 mk s2 cc (X k) (C k) a p w0 Hnd Hci
    (wf_id p (proj1 (proj1 Hp))) (has_client_set n1 k _ _ Hc1) Hm1 E3 Hw2 Hqw E4 Hmk
    ltac:(rewrite Hwfd; apply lookup_insert_eq)) as Hrun.
  exists (set_sys (set_world w0 s2) (set_client k cc n)), mk. split.
  { unfold net_connect. erewrite st_obind_ok.
    2:{ rewrite (run_dial _ _ n k sock con_fd c Hc). by rewrite (run_accept _ _ (set_sys _ _) _ _ _ E2). }
    fold n1. rewrite (st_bind_ok _ _ _ _ _ (at_client_ok _ _ _ _ _ _ Hc1 E1)). fold n2.
    rewrite (st_obind_ok _ _ _ _ _ Hrun).
    erewrite st_bind_ok by (eapply at_client_ok; [eapply (has_client_set n2), has_client_set, Hc1|by eapply connect_ends]).
    unfold st_ret, set_sys, set_client. cbn. by rewrite !list_insert_insert_eq. }
  split; [|cbn; split_and!; try done].
  2:{ intros j cj Hjk [Hj0 Hcj]. split; [done|]. cbn. by rewrite list_lookup_insert_ne by (destruct Hc; lia). }
  split; [exact Hd2|]. cbn. rewrite Hlast. intros i Hi. change (0 <= i < k + 1) in Hi.
  destruct (decide (i = k)) as [-> |Hne].
  - exists cc. split; [by eapply (has_client_set n)|exact Hidle].
  - destruct (ni_client _ _ _ _ _ Hn i) as (c0 & [Hi0 Hc0] & Hi0'); [change (0 <= i < k); lia|].
    exists c0. split; [|done]. split; [done|]. cbn. by rewrite list_lookup_insert_ne by lia.
Qed.

(** ** Any number of clients. *)

Record Joiner := mkJoiner {
  jo_name : list Z;
  jo_group : SDBGroup;
  jo_sock : Z;    (** what [socket] returns to the client *)
  jo_con : Z;     (** what [accept] returns to the director *)
  jo_rnd : Z      (** what [rand] returns for the id of its handshake *)
}.

(** The clients [js] join one after the other: the values of their calls of
    [sdb_connect]. *)
Fixpoint connect_all (pipe : Z) (js : list Joiner) : ST (Net Q) (option (list Z)) :=
  match js with
  | [] => st_ret (Some [])
  | j :: js' =>
      let! s := st_gets net_sys in
      let? ret := net_connect pipe (sys_last s) (jo_sock j) (jo_con j) (jo_rnd j) (jo_name j)
                    (jo_group j) in
      let? rets := connect_all pipe js' in
      st_ret (Some (ret :: rets))
  end.

(** Names and groups the library takes, and descriptors that are not in use. *)
Definition joiner_ok (w : World) (j : Joiner) : Prop :=
  joinable (jo_name j) (jo_group j) /\ 0 <= jo_sock j /\ 0 <= jo_con j /\ w_fds w !! jo_con j = None.

(** The clients that will join are there, and not connected. *)
Definition offline_from n X C (k : Z) (js : list Joiner) : Prop :=
  forall i j, js !! i = Some j -> exists c, has_client n (k + Z.of_nat i) c /\
    client_offline c (X (k + Z.of_nat i)) (C (k + Z.of_nat i)).

(** The table of the daemon has its [SDB_MODULE_MAX] entries. *)
Definition full_table s : Prop := forall i, 0 <= i < SDB_MODULE_MAX -> exists m, has_mod s i m.

Lemma offline_rest n n1 X C k j js :
  (forall i ci, i <> k -> has_client n i ci -> has_client n1 i ci) -> 0 <= k ->
  offline_from n X C k (j :: js) -> offline_from n1 X C (k + 1) js.
Proof.
  intros Hcls Hk Hoff i j' Hj'. destruct (Hoff (S i) j' Hj') as (c & Hc & Hco).
  replace (k + Z.of_nat (S i)) with (k + 1 + Z.of_nat i) in * by lia.
  exists c. split; [|done]. apply Hcls; [lia|done].
Qed.

Lemma joiners_rest con_fd s js : Forall (joiner_ok (sys_world s)) js -> con_fd ∉ jo_con <$> js ->
  Forall (joiner_ok (sys_world (dialled con_fd s))) js.
Proof.
  intros Hok Hni. apply Forall_forall. intros j Hj. rewrite Forall_forall in Hok.
  destruct (Hok j Hj) as (Hjn & Hs & Hc & Hnew). split_and!; try done; [apply Hjn..|].
  cbn. rewrite lookup_insert_ne; [done|]. intros ->. apply Hni. by apply list_elem_of_fmap_2.
Qed.

(** C5: clients join the network, up to 20 modules in all.  Each library connects and sends
    a handshake with its name and group, the director accepts the connection, the thread of
    the new module takes the handshake and acknowledges it, the observer is woken up so that
    it watches the new socket too, and [sdb_connect] returns 0.  One client joins after the
    other.  As long as there is room in the table (with a 21st module the daemon writes
    outside it), the network is idle again with one more module for each client, in their
    order, which has the name and the group the client asked for and nothing pending; the
    modules that were there have not changed. *)
Theorem clients_join pipe L X C n js :
  let k := sys_last (net_sys n) in
  net_idle pipe L X C n -> handshake_entry -> full_table (net_sys n) ->
  0 <= k -> k + zlen js <= SDB_MODULE_MAX -> offline_from n X C k js ->
  Forall (joiner_ok (sys_world (net_sys n))) js -> NoDup (jo_con <$> js) ->
  exists n' L', connect_all pipe js n = Ok (Some (replicate (length js) 0), n') /\
    net_idle pipe L' X C n' /\
    sys_last (net_sys n') = k + zlen js /\
    (forall i, L' i = if bool_decide (k <= i < k + zlen js) then [] else L i) /\
    (forall i m, i < k -> has_mod (net_sys n) i m -> has_mod (net_sys n') i m) /\
    (forall i j, js !! i = Some j -> exists m, has_mod (net_sys n') (k + Z.of_nat i) m /\
       mod_name m = Some (jo_name j) /\ mod_group m = jo_group j).
Proof.
  intros k Hn He Htab. revert k Hn Htab. revert n L.
  induction js as [|j js IH]; intros n L k Hn Htab Hk Hmax Hoff Hok Hnd.
  - exists n, L. split; [done|]. split; [done|]. rewrite zlen_nil, Z.add_0_r. split; [done|].
    split; [|by split]. intros i. by rewrite bool_decide_eq_false_2 by lia.
  - rewrite zlen_cons in Hmax. pose proof (zlen_nonneg js).
    apply Forall_cons in Hok as [(Hjn & Hs & Hc & Hnew) Hok]. apply NoDup_cons in Hnd as [Hni Hnd].
    destruct (Hoff 0%nat j eq_refl) as (c & Hcl & Hco). rewrite Z.add_0_r in Hcl, Hco.
    destruct (Htab k ltac:(lia)) as [m0 [_ Hm0%lookup_lt_Some]].
    destruct (client_joins pipe L X C n c (jo_sock j) (jo_con j) (jo_rnd j) (jo_name j) (jo_group j)
      Hn He ltac:(split; [exact Hk|fold k; lia]) Hm0 Hcl Hco Hjn Hs Hc Hnew)
      as (n1 & mk & E & Hn1 & Hlast & Hw & Hmods & Hcls & Hmk & Hname & Hgrp).
    fold k in E, Hn1, Hlast, Hmods, Hcls, Hmk. cbv zeta in IH.
    destruct (IH n1 (<[k := []]> L)) as (n' & L' & Ej & Hn' & Hl' & HL' & Hold & Hnew');
      rewrite ?Hlast in *; try done; try lia.
    { intros i Hi. destruct (decide (i = k)) as [-> |Hne]; [by eexists|].
      destruct (Htab i Hi) as [m Hm]. exists m. by apply Hmods. }
    { by apply (offline_rest n n1 X C k j js). }
    { rewrite Hw. by apply joiners_rest. }
    exists n', L'. split.
    { cbn [connect_all length replicate]. unfold st_bind at 1, st_gets. fold k.
      by rewrite (st_obind_ok _ _ _ _ _ E), (st_obind_ok _ _ _ _ _ Ej). }
    split; [done|]. rewrite zlen_cons. split_and!.
    + lia.
    + intros i. rewrite HL'. destruct (decide (i = k)) as [-> |Hne].
      * rewrite fn_lookup_insert, (bool_decide_eq_true_2 (k <= k < _)) by lia. by case_bool_decide.
      * rewrite fn_lookup_insert_ne by done.
        by rewrite (bool_decide_ext _ (k <= i < k + (1 + zlen js))) by lia.
    + intros i m Hi Hm. apply Hold; [lia|]. apply Hmods; [lia|done].
    + intros [|i] j' Hj'.
      * injection Hj' as <-. exists mk. rewrite Z.add_0_r. split; [|done]. apply Hold; [lia|done].
      * replace (k + Z.of_nat (S i)) with (k + 1 + Z.of_nat i) by lia. by apply Hnew'.
Qed.

End Network.

(** ** Witnesses: two clients join an empty daemon. *)

Section Witnesses.

#[local] Existing Instances repo_tables release_build quiet_environment.

(** The daemon when it has started: no modules; 9 and 10 are the observer's pipe. *)
Definition started : Sys SDBQueue :=
  mkSys (mkWorld 0 {[9 := quiet_fd; 10 := quiet_fd]}) (replicate 20 blank_module) 0 sdb_qos_init 10.

Definition offline_world : World := mkWorld 0 ∅.

Definition offline_a : Client := fresh_client (-1) offline_world.
Definition offline_b : Client :=
  upd_callbacks (Some test_callback :: replicate 4 None) 1 false (fresh_client (-1) offline_world).

Definition empty_net : Net SDBQueue := mkNet started [offline_a; offline_b].

Definition two_joiners : list Joiner :=
  [mkJoiner (str "a") SDB_GROUP_APP 5 5 77; mkJoiner (str "b") SDB_GROUP_APP 5 6 78].

(** A whole life: both clients join, then [a] makes its two requests. *)
Example whole_life :
  match connect_all 9 two_joiners empty_net with
  | Ok (Some rets, n) => Some (rets, pendings 0 (net_run 9 (two_tests ≫= request_events) n))
  | _ => None
  end
  = Some ([0; 0], Some [mkPending 77 (Some (mcs_err_packet_id 77 EBADMODID)) true;
                        mkPending 77 (Some (mcs_ok_packet_id 77)) true]).
Proof. vm_compute. reflexivity. Qed.

Lemma started_idle : daemon_idle 9 (fun _ => []) started.
Proof.
  split; [split| |].
  - cbn. lia.
  - done.
  - done.
  - intros i m Hi [Hi0 _]. cbn in Hi. lia.
  - intros i j mi mj Hi _ _ [Hi0 _]. cbn in Hi. lia.
  - exists []. apply table_rep_init.
  - intros i m Hi [Hi0 _]. cbn in Hi. lia.
Qed.

Lemma empty_net_idle : net_idle 9 (fun _ => []) (fun _ => []) callbacks_of empty_net.
Proof. split; [apply started_idle|]. intros i Hi. cbn in Hi. lia. Qed.

Lemma started_table : full_table started.
Proof.
  intros i Hi. exists blank_module. split; [lia|]. cbn [started sys_modules].
  apply lookup_replicate_2. unfold SDB_MODULE_MAX in Hi. lia.
Qed.

Lemma two_offline : offline_from empty_net (fun _ => []) callbacks_of 0 two_joiners.
Proof.
  intros [|[|i]] j Hj; [| |done].
  - exists offline_a. split; [done|]. split; try done; [apply fresh_pending|apply fresh_callbacks].
  - exists offline_b. split; [done|]. split; try done.
    + split; [apply (fresh_pending (-1) offline_world)|done].
    + by exists (replicate 4 None).
Qed.

Lemma two_joiners_ok : Forall (joiner_ok (sys_world started)) two_joiners.
Proof. by repeat constructor. Qed.

Lemma two_joiners_nodup : NoDup (jo_con <$> two_joiners).
Proof. apply (bool_decide_unpack (NoDup [5; 6])). vm_compute. exact I. Qed.

Lemma clients_join_witness :
  exists n' m0 m1, connect_all 9 two_joiners empty_net = Ok (Some [0; 0], n') /\ sys_last (net_sys n') = 2 /\
    has_mod (net_sys n') 0 m0 /\ mod_name m0 = Some (str "a") /\
    has_mod (net_sys n') 1 m1 /\ mod_name m1 = Some (str "b").
Proof.
  destruct (clients_join 9 (fun _ => []) (fun _ => []) callbacks_of empty_net two_joiners
    empty_net_idle repo_handshake_entry started_table ltac:(discriminate) ltac:(discriminate)
    two_offline two_joiners_ok two_joiners_nodup)
    as (n' & L' & Hj & _ & Hl & _ & _ & Hm).
  destruct (Hm 0%nat _ eq_refl) as (m0 & Hm0 & Hn0 & _).
  destruct (Hm 1%nat _ eq_refl) as (m1 & Hm1 & Hn1 & _).
  exists n', m0, m1. split; [exact Hj|]. split; [exact Hl|]. split; [exact Hm0|].
  split; [exact Hn0|]. split; [exact Hm1|exact Hn1].
Defined.

End Witnesses.
