(* ===== verification/NetTrace.v ===== *)
(** * NetTrace: the network between two events.

    A run as the sequence of the networks it passes through, and what its events leave
    alone: only [Read] and [Send] change the pending packets of a client.  So a
    packet on its way stays unanswered until the round of the reading thread that
    gets the answer: [delivery_trace]. *)

From stdpp Require Import functions.
From S2P Require Import Prelude Segments Abs McsDefs Mcs McsFacts McsProps Queue QueueFacts QueueProps.
From S2P Require Import Qos QosFacts Module ModuleFacts Routing ModuleProps Daemon DaemonProps.
From S2P Require Import Client ClientFacts ClientProps Network NetworkFacts NetworkProps Joining.

Section Trace.
Context `{MCSTables} `{Build} `{QueueSpec Q} `{!Environment Q}.
Implicit Types (n : Net Q) (c : Client).

(** ** Runs as sequences. *)

(** [st k] is the network after [k] of the events [es]. *)
Definition trace (pipe : Z) (es : list Event) (st : nat -> Net Q) : Prop :=
  forall k e, es !! k = Some e -> net_event pipe e (st k) = Ok (Some tt, st (S k)).

Lemma run_trace pipe es n n' : net_run pipe es n = Ok (Some tt, n') ->
  exists st, st 0%nat = n /\ st (length es) = n' /\ trace pipe es st.
Proof.
  revert n. induction es as [|e es IH]; intros n E.
  - injection E as ->. exists (fun _ => n'). split_and!; [done|done|]. intros k e. by rewrite lookup_nil.
  - cbn [net_run] in E. unfold st_obind, st_bind in E.
    destruct (net_event pipe e n) as [[[[]|] n1]|] eqn:Ee; [|done|done].
    destruct (IH n1 E) as (st & Hst0 & Hl & Ht).
    exists (fun k => match k with O => n | S k => st k end). split_and!; [done|done|].
    intros [|k] e' He; [injection He as <-; by rewrite Hst0|]. by apply Ht.
Qed.

Lemma trace_run pipe es st k : trace pipe es st -> (k <= length es)%nat ->
  net_run pipe (take k es) (st 0%nat) = Ok (Some tt, st k).
Proof.
  intros Ht. induction k as [|k IH]; intros Hk; [by rewrite take_0|].
  destruct (lookup_lt_is_Some_2 es k) as [e He]; [lia|]. rewrite (take_S_r _ _ _ He).
  rewrite (net_run_app _ _ _ _ _ (IH ltac:(lia))). cbn [net_run].
  by rewrite (st_obind_ok _ _ _ _ _ (Ht k e He)).
Qed.

(** ** What stays. *)

(** Client [i] has the pending packets it had. *)
Definition keeps (i : Z) n n' : Prop := forall c, has_client n i c ->
  exists c', has_client n' i c' /\ pending_heap c' = pending_heap c.

Lemma keeps_refl i n n' : net_clients n' = net_clients n -> keeps i n n'.
Proof. intros E c [Hi Hc]. exists c. split; [|done]. split; [done|]. by rewrite E. Qed.

Lemma keeps_trans i n1 n2 n3 : keeps i n1 n2 -> keeps i n2 n3 -> keeps i n1 n3.
Proof.
  intros H12 H23 c Hc. destruct (H12 c Hc) as (c2 & Hc2 & E2). destruct (H23 c2 Hc2) as (c3 & Hc3 & E3).
  exists c3. split; [done|congruence].
Qed.

(** A part of a program that leaves the pending packets of a client alone. *)
Definition keeps_pending {A} (m : CM A) : Prop := forall c a c', m c = Ok (a, c') -> pending_heap c' = pending_heap c.

Definition keeps_clients {A} (i : Z) (m : ST (Net Q) A) : Prop := forall n a n', m n = Ok (a, n') -> keeps i n n'.

Lemma in_net_keeps {A} (m : ST World A) : keeps_pending (in_net m).
Proof. intros c a c'. unfold in_net, st_zoom. destruct (m (cl_world c)) as [[b w]|]; [|done]. by intros [= _ <-]. Qed.

Lemma at_client_keeps {A} i j (m : CM A) : keeps_pending m -> keeps_clients i (at_client j m).
Proof.
  intros Hm n a n'. unfold at_client, st_bind at 1, get_client. destruct (j <? 0) eqn:Ej; [done|].
  destruct (net_clients n !! Z.to_nat j) as [cj|] eqn:Ec; [|done]. unfold st_bind at 1, st_lift.
  destruct (m cj) as [[b cj']|] eqn:Em; [|done]. intros [= _ <-] c [Hi Hc]. cbn.
  apply Z.ltb_ge in Ej. destruct (decide (j = i)) as [-> |Hne].
  - exists cj'. split; [|rewrite (Hm _ _ _ Em); congruence]. by eapply (has_client_set n i cj).
  - exists c. split; [|done]. by apply (has_client_ne n j i c).
Qed.

Lemma at_daemon_keeps {A} i (m : ST (Sys Q) A) : keeps_clients i (at_daemon m).
Proof.
  intros n a n'. unfold at_daemon, st_zoom. destruct (m (net_sys n)) as [[b s]|]; [|done].
  intros [= _ <-]. by apply keeps_refl.
Qed.

Lemma bind_keeps {A B} i (m : ST (Net Q) A) (k : A -> ST (Net Q) B) :
  keeps_clients i m -> (forall a, keeps_clients i (k a)) -> keeps_clients i (st_bind m k).
Proof.
  intros Hm Hk n b n' E. unfold st_bind in E. destruct (m n) as [[a n1]|] eqn:Em; [|done].
  eapply keeps_trans; [by eapply Hm|by eapply Hk].
Qed.

Lemma obind_keeps {A B} i (m : ST (Net Q) (option A)) (k : A -> ST (Net Q) (option B)) :
  keeps_clients i m -> (forall a, keeps_clients i (k a)) -> keeps_clients i (st_obind m k).
Proof.
  intros Hm Hk. apply bind_keeps; [done|]. intros [a|]; [apply Hk|]. intros n b n' [= _ <-]. by apply keeps_refl.
Qed.

Lemma ret_keeps {A} i (a : A) : keeps_clients i (st_ret a).
Proof. intros n b n' [= _ <-]. by apply keeps_refl. Qed.

Lemma gets_keeps {A} i (f : Net Q -> A) : keeps_clients i (st_gets f).
Proof. intros n b n' [= _ <-]. by apply keeps_refl. Qed.

Lemma get_client_keeps i j : keeps_clients i (get_client j).
Proof.
  intros n b n'. unfold get_client. destruct (j <? 0); [done|]. destruct (net_clients n !! Z.to_nat j); [|done].
  intros [= _ <-]. by apply keeps_refl.
Qed.

Lemma callback_keeps : keeps_pending callback_step.
Proof.
  intros c a c'. unfold callback_step, st_bind at 1, st_get. destruct (cl_threads c) as [|t ts]; [by intros [= _ <-]|].
  unfold st_bind at 1, set_threads, st_modify. set (c1 := mkClient _ _ _ _ _ _ _ _).
  unfold sdb_thread_run_callback, st_bind at 1, st_lift. destruct (pktcb_callback t (pktcb_pkt t)) as [out|]; [|done].
  unfold st_bind at 1, st_get. unfold st_bind at 1. destruct (in_net _ c1) as [[b c2]|] eqn:E; [|done].
  intros [= _ <-]. by rewrite (in_net_keeps _ _ _ _ E).
Qed.

(** The steps that neither send nor read. *)
Definition passing (e : Event) : Prop :=
  match e with Callback _ | Observe | Round _ | Up _ | Down _ => True | _ => False end.

Lemma event_keeps pipe e i : passing e -> keeps_clients i (net_event pipe e).
Proof.
  intros He. destruct e; try done; cbn [net_event]; unfold carry_up, carry_down;
    repeat first [apply ret_keeps | apply gets_keeps | apply get_client_keeps | apply at_daemon_keeps
      | apply at_client_keeps; first [apply callback_keeps | apply in_net_keeps]
      | apply obind_keeps; [|intros ?] | apply bind_keeps; [|intros ?]].
Qed.

(** ** A packet to oneself. *)

(** The packet reaches its sender before the sixth event. *)
Lemma own_arrives pipe L X C n a ma p : net_idle pipe L X C n ->
  has_mod (net_sys n) a ma -> a < sys_last (net_sys n) -> routed (net_sys n) ma p a ma ->
  sendable p -> fits_region p ->
  exists c addr n', has_client n a c /\ NoDup (NULL :: addr :: (X a).*1) /\
    let x := (addr, mkPending (pkt_id p) None false) in
    let c' := with_pending (x :: X a) c in
    sdb_send_async p c = Ok ((0, addr), client_out (wire p) c') /\ client_idle c' (x :: X a) (C a) /\
    net_run pipe (take 5 (delivery a a)) (set_client a (client_out (wire p) c') n) = Ok (Some tt, n') /\
    has_client n' a (client_in (wire p) c').
Proof.
  intros Hn Ha Hla Hroute Hp Hf. pose proof (ni_daemon _ _ _ _ _ Hn) as Hd.
  destruct (idle_module _ _ _ _ _ Hd Ha Hla) as (_ & _ & _ & _ & Hwf & _ & Hq).
  destruct (request_sent pipe L X C n a ma p Hn Ha Hla Hp) as (c & addr & Hnd & Hci & Hc & Es & E).
  destruct (daemon_forwards pipe L (net_sys n) a ma a ma p Hd Ha Hla Hp Hf Hroute)
    as (s1 & s2 & s3 & E1 & E2 & E3 & Hw3 & Hk3 & Hd3).
  destruct (kin_mod _ _ Hk3 a ma Hla Ha) as (m3 & Hm3 & I). injection I as _ _ Hw _ _ _. cbv zeta in *.
  set (c' := with_pending _ c) in *. set (n1 := set_client a c' n) in *.
  exists c, addr. eexists. do 4 (split; [done|]). cbn [delivery take]. rewrite E.
  rewrite (run_observe _ _ (set_sys _ n1) s1 E1), (run_round _ _ (set_sys s1 _) a true s2 E2),
    (run_round _ _ (set_sys s2 _) a true s3 E3).
  rewrite (run_down pipe [] (set_sys s3 n1) a m3 (wire p) c' (sys_world (net_sys n)));
    [|by eapply (has_client_set n)|done|by rewrite Hw, Hwf|by rewrite Hw].
  split; [reflexivity|]. by eapply (has_client_set n1), (has_client_set n).
Qed.

(** The reading thread gives it to the thread of a callback. *)
Lemma own_read c xs pre x post p : client_idle c xs (pre ++ x :: post) -> readable p ->
  mcs_is_answer_packet p = false -> Forall (fun y => ~ serves (pkt_cmd p) y) pre -> serves (pkt_cmd p) x ->
  exists c1, read_round (client_in (wire p) c) = Ok (Some tt, c1) /\ pending_heap c1 = pending_heap c /\
    cl_threads c1 = [mkPktCallback p (cmdcb_callback x)].
Proof.
  intros [_ (junk & Hcb & Hsz) Ht Hfd Hq] Hp Ha Hpre Hx. destruct (wire_cons p) as (b & bs & Hw).
  rewrite (read_round_packet _ (w_now (cl_world c)) p []); [|done|done|].
  2: { rewrite Hw. by apply arrive_delivers. }
  unfold client_in. cbn [cl_world upd_net socket_fd]. rewrite arrive_received by done.
  set (c0 := upd_net _ (upd_net _ c)).
  assert (Hc0 : c0 = upd_callbacks ((Some <$> (pre ++ x :: post)) ++ junk) (zlen (pre ++ x :: post)) false c0).
  { exact (f_equal (fun c => upd_net (cl_world c) (upd_net (arrive (socket_fd c) (wire p) (cl_world c)) c)) Hcb). }
  rewrite Hc0, (dispatch_served c0 pre x post junk p) by done. eexists. split; [reflexivity|].
  split; [done|]. cbn [cl_threads]. subst c0. cbn. by rewrite Ht.
Qed.

(** The whole way of a message [p] of client [a] to itself, event by event: it has an
    answer after the last event and not before, and the thread that runs is that of the
    callback. *)
Lemma delivery_trace pipe L X C n a ma p out pre x post : net_idle pipe L X C n ->
  has_mod (net_sys n) a ma -> a < sys_last (net_sys n) -> routed (net_sys n) ma p a ma ->
  fits_region p -> mcs_is_answer_packet p = false ->
  C a = pre ++ x :: post -> Forall (fun y => ~ serves (pkt_cmd p) y) pre -> serves (pkt_cmd p) x ->
  sendable p -> Answered (net_sys n) L C (mkRequest a p out (delivery a a)) ->
  exists st c addr c1, has_client n a c /\ sdb_send_async p c = Ok ((0, addr), c1) /\
    st 0%nat = set_client a c1 n /\ trace pipe (delivery a a) st /\
    kin (net_sys n) (net_sys (st 13%nat)) /\
    net_idle pipe L (<[a := (addr, mkPending (pkt_id p) (Some out) true) :: X a]> X) C (st 13%nat) /\
    (forall k, (k < 13)%nat -> exists ck, has_client (st k) a ck /\ sdb_check_async addr ck = Ok (0, ck)) /\
    exists c6, has_client (st 6%nat) a c6 /\ cl_threads c6 = [mkPktCallback p (cmdcb_callback x)].
Proof.
  intros Hn Ha Hla Hroute Hf Hans HC Hpre Hx Hp Hr.
  destruct (own_arrives pipe L X C n a ma p) as (c & addr & n5 & Hc & Hnd & Es & Hci & E5 & Hc5); try done.
  cbv zeta in *. set (x0 := (addr, mkPending (pkt_id p) None false)) in *. set (c' := with_pending _ c) in *.
  destruct (request_answered pipe L X C n _ Hn Hr) as (n' & c0 & c1 & addr0 & Hc0 & Es0 & E0 & Hk & Hn').
  cbn [rq_from rq_pkt rq_answer rq_events] in *.
  assert (c0 = c) as -> by (destruct Hc as [_ Hc], Hc0 as [_ Hc0]; congruence).
  rewrite Es in Es0. injection Es0 as <- <-.
  destruct (run_trace pipe _ _ _ E0) as (st & Hst0 & Hst13 & Ht). change (length (delivery a a)) with 13%nat in Hst13.
  pose proof (trace_run pipe _ st 5 Ht ltac:(cbn; lia)) as E5'. rewrite Hst0, E5 in E5'. injection E5' as ->.
  destruct (own_read c' (x0 :: X a) pre x post p) as (c6 & E6 & Hh6 & Ht6); [by rewrite <- HC|apply Hp|done|done|done|].
  assert (Hst6 : st 6%nat = set_client a c6 (st 5%nat)).
  { pose proof (Ht 5%nat (Read a) eq_refl) as Er. cbn [net_event] in Er.
    rewrite (at_client_ok _ _ _ _ _ _ Hc5 E6) in Er. by injection Er as <-. }
  assert (Hc6 : has_client (st 6%nat) a c6) by (rewrite Hst6; by eapply has_client_set).
  assert (Hheap : forall k, (k < 13)%nat -> exists ck, has_client (st k) a ck /\ pending_heap ck = pending_heap c').
  { intros k. induction k as [|k IH]; intros Hk13.
    - exists (client_out (wire p) c'). split; [rewrite Hst0; by eapply has_client_set|done].
    - destruct (decide (k = 5%nat)) as [-> |Hk5]; [by exists c6|].
      destruct IH as (ck & Hck & Ehk); [lia|].
      assert (exists e, delivery a a !! k = Some e /\ passing e) as (e & He & Hpass).
      { clear -Hk13 Hk5. do 12 (destruct k as [|k]; [first [lia | by eexists]|]). lia. }
      destruct (event_keeps pipe e a Hpass _ _ _ (Ht k e He) ck Hck) as (ck' & Hck' & Eh). exists ck'. split; [done|congruence]. }
  exists st, c, addr, (client_out (wire p) c'). rewrite Hst13. do 6 (split; [done|]). split; [|by exists c6].
  intros k Hk13. destruct (Hheap k Hk13) as (ck & Hck & Eh). exists ck. split; [done|].
  unfold sdb_check_async. erewrite st_bind_ok; [|apply pend_get_ok; rewrite Eh; apply (pending_cell [] x0 (X a)); exact Hnd].
  done.
Qed.

End Trace.
