(* ===== verification/AbsTest.v ===== *)
(** * AbsTest: the test library, [src/src/Architecture/Libraries/Test/abs_test.c].

    A test program writes its results to a log; the comments between them are left
    out. *)

From S2P Require Import Prelude.

Inductive ABSTestResult := PASS | XFAIL | SKIP | FAIL.

Definition TestLog : Type := list (ABSTestResult * list Z).

(** A result without a name copies to a NULL pointer. *)
Definition abs_test_add_result (res : ABSTestResult) (name : option (list Z)) : ST TestLog unit :=
  match name with
  | None => st_ub
  | Some in_name => st_modify (fun log => log ++ [(res, in_name)])
  end.

(** The handler of [SIGSEGV]. *)
Definition signal_handler : ST TestLog unit := abs_test_add_result FAIL None.

(** Opens the log, whose name must fit 256 bytes; [None]: the program exits. *)
Definition abs_test_init (name : list Z) (opens : bool) : outcome (option TestLog) :=
  if 256 <? strlen name + zlen (str ".abs.test") + 1 then UB
  else Ok (if opens then Some [] else None).

(** The program then exits. *)
Definition abs_test_fail_and_exit (name : option (list Z)) : ST TestLog unit :=
  abs_test_add_result FAIL name.
