(* ===== verification/McsTest.v ===== *)
(** * McsTest: the test of the packet codec, [src/src/Architecture/MCS/Test/mcs.c].

    The test creates a packet of every command of the tables, writes it into a
    pipe, reads it back and compares the two.  Its results go to the log of the
    test library. *)

From S2P Require Import Prelude Abs AbsTest McsDefs Mcs McsFacts Network NetworkFacts.

Record TestState := mkTest { test_world : World; test_log : TestLog }.

(** ** [mcs.c]. *)

Section Test.
Context `{MCSTables} `{Build}.

(** [pipe_fd]: the end for reading and the end for writing. *)
Variables pipe_r pipe_w : Z.

Definition in_test {A} (m : ST World A) : ST TestState A :=
  st_zoom test_world (fun w t => mkTest w (test_log t)) m.

Definition in_log {A} (m : ST TestLog A) : ST TestState A :=
  st_zoom test_log (fun l t => mkTest (test_world t) l) m.

Definition start_test : ST World unit :=
  st_modify (fun w => set_fd pipe_w (mkFd [] [] None) (set_fd pipe_r (mkFd [] [] None) w)).

Definition end_test : ST World unit := do! os_close pipe_r in os_close pipe_w.

(** What was written to the pipe can be read from it. *)
Definition pipe_flow : ST World unit :=
  st_modify (fun w => arrive pipe_r (sent pipe_w w) (carried pipe_w w)).

(** The loop over the arguments, or the data: [n] elements are left. *)
Fixpoint cmp_loop (n : nat) (a b : list Z) : outcome bool :=
  match n with
  | O => Ok true
  | S n' =>
      match a, b with
      | x :: a', y :: b' => if x =? y then cmp_loop n' a' b' else Ok false
      | _, _ => UB
      end
  end.

Definition cmp_block (n : Z) (a b : option (list Z)) : outcome bool :=
  match Z.to_nat n, a, b with
  | O, _, _ => Ok true
  | k, Some a, Some b => cmp_loop k a b
  | _, _, _ => UB
  end.

Definition cmp_dest (a b : option (list Z)) : bool :=
  match a, b with
  | None, None => true
  | Some a, Some b => streq a b
  | _, _ => false
  end.

Definition mcs_cmp (pkt_a pkt_b : option MCSPacket) : outcome bool :=
  match pkt_a, pkt_b with
  | Some a, Some b =>
      if negb (pkt_id a =? pkt_id b) then Ok false
      else if negb (pkt_type a =? pkt_type b) then Ok false
      else if negb (pkt_cmd a =? pkt_cmd b) then Ok false
      else if negb (pkt_nargs a =? pkt_nargs b) then Ok false
      else match cmp_block (pkt_nargs a) (pkt_args a) (pkt_args b) with
           | UB => UB
           | Ok false => Ok false
           | Ok true =>
               if negb (cmp_dest (pkt_dest a) (pkt_dest b)) then Ok false
               else if negb (pkt_data_size a =? pkt_data_size b) then Ok false
               else cmp_block (pkt_data_size a) (pkt_data a) (pkt_data b)
           end
  | _, _ => Ok false
  end.

(** [args[j] = j] for every [j]. *)
Definition test_args (nargs : Z) : list Z := (fun j => u8 (Z.of_nat j)) <$> seq 0 (Z.to_nat nargs).

Definition test_data : list Z := str "Hello World!".

(** The packet of command [i], with [rnd] for its id. *)
Definition test_packet (rnd type i : Z) (cmd : MCSCommandOptionsCommon) :
    outcome (option MCSPacket) :=
  let number := Z.lor (Z.shiftl type 16) i in
  let args := if cmd_nargs cmd =? 0 then None else Some (test_args (cmd_nargs cmd)) in
  let size := if cmd_raw_data cmd then strlen test_data else 0 in
  let data := if cmd_raw_data cmd then Some test_data else None in
  if dest_is_arg type i
  then mcs_create_packet_with_dest rnd number (Some (str "test_dest")) (cmd_nargs cmd) args size data
  else mcs_create_packet rnd number (cmd_nargs cmd) args size data.

(** The packet travels through the pipe; the value is [error]. *)
Definition exchange_packet (pkt_wr : option MCSPacket) : ST World bool :=
  match pkt_wr with
  | None => st_ret true
  | Some pkt =>
      let! ret := mcs_write_command pkt pipe_w in
      do! pipe_flow in
      if ret <? 0 then st_ret true
      else
        let! pkt_rd := mcs_read_command pipe_r pipe_w in
        let! same := st_lift (mcs_cmp (Some pkt) pkt_rd) in
        st_ret (negb same)
  end.

(** The body of the loop of [run_test]. *)
Definition test_command (rnd type i : Z) : ST TestState unit :=
  match command_common type i with
  | None => st_ub
  | Some cmd =>
      do! in_test start_test in
      let! pkt_wr := st_lift (test_packet rnd type i cmd) in
      let! error := in_test (exchange_packet pkt_wr) in
      do! in_test end_test in
      in_log (abs_test_add_result (if error then FAIL else PASS) (Some (cmd_name cmd)))
  end.

(** [n] commands from [i] on; [rnd i] is what [random] returns for command [i]. *)
Fixpoint test_loop (rnd : Z -> Z) (type i : Z) (n : nat) : ST TestState unit :=
  match n with
  | O => st_ret tt
  | S n' => do! test_command (rnd i) type i in test_loop rnd type (i + 1) n'
  end.

Definition run_test (rnd : Z -> Z) (type : Z) : ST TestState unit :=
  test_loop rnd type 0 (Z.to_nat (mcs_command_list_size type)).

(** [run_test_err], [run_test_ok] and [run_test_ok_data], which differ in the
    packet [pkt_wr] and in the name of the result. *)
Definition run_test_answer (pkt_wr : MCSPacket) (name : list Z) : ST TestState unit :=
  do! in_test start_test in
  let! ret := in_test (mcs_write_command_and_free pkt_wr pipe_w) in
  do! in_test pipe_flow in
  if ret <? 0 then do! in_test end_test in in_log (abs_test_add_result FAIL (Some name))
  else
    do! in_test (mcs_read_command pipe_r pipe_w) in
    st_ub  (* [mcs_cmp] reads [pkt_wr], which has been freed *).

Definition run_test_err : ST TestState unit :=
  run_test_answer (mcs_err_packet_id 1 EUNDEF) (str "TYPE_ERR").

Definition run_test_ok : ST TestState unit :=
  run_test_answer (mcs_ok_packet_id 1) (str "TYPE_OK").

Definition run_test_ok_data : ST TestState unit :=
  let! pkt_wr := st_lift (mcs_ok_packet_data_id 1 (Some test_data) (strlen test_data)) in
  run_test_answer pkt_wr (str "TYPE_OK_DATA").

(** [rnd type i]: what [random] returns. *)
Definition mcs_test_main (rnd : Z -> Z -> Z) : ST TestState unit :=
  do! run_test (rnd MCS_TYPE_MESSAGE) MCS_TYPE_MESSAGE in
  do! run_test (rnd MCS_TYPE_STATE) MCS_TYPE_STATE in
  do! run_test (rnd MCS_TYPE_PAYLOAD) MCS_TYPE_PAYLOAD in
  do! run_test_err in
  do! run_test_ok in
  run_test_ok_data.

(** ** The test passes. *)

(** The names of the commands of a type. *)
Definition command_names (type : Z) : list (list Z) :=
  if type =? MCS_TYPE_MESSAGE then (fun m => cmd_name (msg_cmd m)) <$> mcs_command_message_list
  else if type =? MCS_TYPE_STATE then (fun m => cmd_name (state_cmd m)) <$> mcs_command_state_list
  else (fun m => cmd_name (payload_cmd m)) <$> mcs_command_payload_list.

(** Numbers of commands and of arguments are 16 bits wide. *)
Definition tables_small : Prop :=
  tables_ok /\ forall type, 0 <= type < MCS_COMMAND_TYPES -> mcs_command_list_size type <= 65536.

Lemma cmp_loop_refl n l : (n <= length l)%nat -> cmp_loop n l l = Ok true.
Proof.
  revert l. induction n as [|n IH]; intros [|x l] Hn; cbn in *; try done; [lia|].
  rewrite Z.eqb_refl. apply IH. lia.
Qed.

Lemma cmp_block_refl n p : buffer n p -> cmp_block n p p = Ok true.
Proof.
  intros Hb. unfold cmp_block. destruct (Z.to_nat n) as [|k] eqn:E; [done|].
  destruct p as [l|]; cbn in Hb; [|lia]. apply cmp_loop_refl. destruct Hb as [Hl _]. unfold zlen in Hl. lia.
Qed.

Lemma mcs_cmp_refl p : wf_packet p -> mcs_cmp (Some p) (Some p) = Ok true.
Proof.
  intros Hwf. unfold mcs_cmp. rewrite !Z.eqb_refl. cbn [negb].
  rewrite cmp_block_refl by apply Hwf.
  assert (Hd : cmp_dest (pkt_dest p) (pkt_dest p) = true)
    by (destruct (pkt_dest p); [by apply streq_spec|done]).
  rewrite Hd. cbn [negb]. by apply cmp_block_refl, Hwf.
Qed.

Lemma test_args_ok n : 0 <= n -> zlen (test_args n) = n /\ bytes_ok (test_args n).
Proof.
  intros Hn. unfold test_args. split; [unfold zlen; rewrite length_fmap, length_seq; lia|].
  apply Forall_fmap, Forall_forall. intros j _. apply u8_range.
Qed.

(** Creating a packet whose fields agree with the table. *)
Lemma create_ok id type i dest nargs args size data :
  let p := mkMCSPacket id type i nargs (if nargs =? 0 then None else args) dest size
             (if size =? 0 then None else data) in
  sendable p -> buffer nargs args -> buffer size data ->
  mcs_create id type i dest nargs args size data = Ok (Some p).
Proof.
  intros p Hp Ha Hd. unfold mcs_create, copy_arg, abs_malloccpy.
  destruct (memcpy_block nargs args Ha) as (-> & Hla & _).
  destruct (memcpy_block size data Hd) as (-> & Hld & _).
  assert (Hblock : forall n b, buffer n b -> zlen (block b) = n ->
    (if n =? 0 then Ok None else Ok (Some (block b))) = Ok (if n =? 0 then None else b)).
  { intros n b Hb Hl. destruct (n =? 0) eqn:E; bool_prop; [done|]. by destruct b; cbn in *; [|lia]. }
  rewrite (Hblock nargs args), (Hblock size data) by done. fold p.
  by rewrite (check_sendable p Hp).
Qed.

(** The packet of command [i] with these fields agrees with the table. *)
Lemma test_fields_sendable id type i cmd dest : tables_small -> 0 <= i ->
  command_common type i = Some cmd -> 0 <= id < 2 ^ 32 ->
  dest = (if dest_is_arg type i then Some (str "test_dest") else None) ->
  sendable (mkMCSPacket id type i (cmd_nargs cmd)
    (if cmd_nargs cmd =? 0 then None else Some (test_args (cmd_nargs cmd))) dest
    (if cmd_raw_data cmd then 12 else 0) (if cmd_raw_data cmd then Some test_data else None)).
Proof.
  intros [Htab Hsize] Hi Hcmd Hid ->. destruct (command_common_Some type i cmd Hi Hcmd) as [Ht Hlt].
  pose proof (Hsize type Ht) as Hs. pose proof (Htab type i cmd Hcmd) as Hn.
  destruct (test_args_ok (cmd_nargs cmd)) as [Hal Hab]; [lia|].
  assert (Hdata : bytes_ok test_data) by bytes_lit. unfold MCS_COMMAND_TYPES in Ht.
  unfold sendable, readable. split_and!; [| |by destruct (cmd_raw_data cmd)|].
  - split; cbn; try lia; [destruct (cmd_raw_data cmd); lia| |by destruct (cmd_raw_data cmd)].
    destruct (cmd_nargs cmd =? 0) eqn:E; bool_prop; done.
  - right. exists cmd. cbn. split_and!; [done|done| | |by destruct (cmd_raw_data cmd)].
    + intros ->. done.
    + unfold dest_matches. cbn. destruct (dest_is_arg type i); [|done].
      exists (str "test_dest"). split_and!; [done|bytes_lit|done].
  - cbn. intros d. destruct (dest_is_arg type i); [|done]. intros [= <-]. by repeat constructor.
Qed.

(** The packets of the test can be sent. *)
Lemma test_packet_ok rnd type i cmd : tables_small -> 0 <= i -> command_common type i = Some cmd ->
  exists p, test_packet rnd type i cmd = Ok (Some p) /\ sendable p.
Proof.
  intros Hsmall Hi Hcmd. pose proof Hsmall as [Htab Hsize].
  destruct (command_common_Some type i cmd Hi Hcmd) as [Ht Hlt].
  pose proof (Hsize type Ht) as Hs. pose proof (Htab type i cmd Hcmd) as Hn.
  destruct (test_args_ok (cmd_nargs cmd)) as [Hal Hab]; [lia|].
  assert (Hdata : bytes_ok test_data) by bytes_lit.
  unfold test_packet, mcs_create_packet, mcs_create_packet_with_dest.
  rewrite (lor_bytes type i 16) by lia. change (2 ^ 16) with 65536.
  destruct (command_number type i) as [-> ->]; [unfold MCS_COMMAND_TYPES in Ht; lia|lia|].
  set (args := if cmd_nargs cmd =? 0 then None else _).
  set (data := if cmd_raw_data cmd then Some test_data else None).
  change (strlen test_data) with 12. set (size := if cmd_raw_data cmd then 12 else 0).
  assert (Hargs : buffer (cmd_nargs cmd) args).
  { unfold args. destruct (cmd_nargs cmd =? 0) eqn:E; bool_prop; done. }
  assert (Hd : buffer size data) by by (unfold size, data; destruct (cmd_raw_data cmd)).
  set (id := if type =? MCS_TYPE_PAYLOAD then _ else _).
  assert (Hid : 0 <= id < 2 ^ 32 /\ 0 <= generate_id rnd < 2 ^ 32).
  { unfold id, generate_id, u32. pose proof (Z.mod_pos_bound rnd (2 ^ 32)). split; [|lia].
    destruct (type =? MCS_TYPE_PAYLOAD); [|lia]. change 0x7F with (Z.ones 7).
    rewrite Z.land_ones by lia. pose proof (Z.mod_pos_bound (u8 (rnd mod 2 ^ 32)) (2 ^ 7)). lia. }
  assert (Hpack : forall id dest, 0 <= id < 2 ^ 32 ->
    dest = (if dest_is_arg type i then Some (str "test_dest") else None) ->
    exists p, mcs_create id type i dest (cmd_nargs cmd) args size data = Ok (Some p) /\ sendable p).
  { intros id' dest Hid' Hdest. pose proof (test_fields_sendable id' type i cmd dest Hsmall Hi Hcmd Hid' Hdest) as Hp.
    eexists. split; [apply create_ok; [|done|done]|]; revert Hp; fold args size data;
      replace (if cmd_nargs cmd =? 0 then None else args) with args by (unfold args; by case_goal);
      replace (if size =? 0 then None else data) with data by (unfold size, data; by destruct (cmd_raw_data cmd)); done. }
  destruct (dest_is_arg type i) eqn:Ed; apply Hpack; try done; apply Hid.
Qed.

(** One packet goes through the pipe unchanged. *)
Lemma exchange_packet_ok p w : pipe_r <> pipe_w -> 0 <= pipe_r -> sendable p ->
  quiet pipe_r w -> quiet pipe_w w -> exchange_packet (Some p) w = Ok (false, w).
Proof.
  intros Hne Hr Hp Hqr Hqw. unfold exchange_packet.
  rewrite (st_bind_ok _ _ _ _ _ (mcs_write_sendable p pipe_w w Hp (quiet_writable _ _ Hqw))).
  rewrite (st_bind_ok _ _ _ tt (arrive pipe_r (wire p) w)).
  2:{ unfold pipe_flow, st_modify. by rewrite quiet_sent, quiet_carried. }
  change (0 <? 0) with false. cbv iota.
  rewrite (st_bind_ok _ _ _ _ _ (mcs_read_parses pipe_r pipe_w p Hr (proj1 Hp) _ _ (arrive_avail _ _ _ Hqr))).
  rewrite quiet_consume by done. unfold st_bind, st_lift. by rewrite mcs_cmp_refl by apply Hp.
Qed.

(** A pipe has two ends. *)
Hypothesis pipe_ends : pipe_r <> pipe_w /\ 0 <= pipe_r.

(** The world in which a test runs. *)
Definition piped (w : World) : World :=
  set_fd pipe_w (mkFd [] [] None) (set_fd pipe_r (mkFd [] [] None) w).

Lemma piped_quiet w : quiet pipe_r (piped w) /\ quiet pipe_w (piped w).
Proof.
  unfold quiet, piped. cbn. split; [|apply lookup_insert_eq].
  rewrite lookup_insert_ne by (intros E; by apply (proj1 pipe_ends)). apply lookup_insert_eq.
Qed.

Lemma test_command_ok rnd type i cmd t : tables_small -> 0 <= i -> command_common type i = Some cmd ->
  exists w, test_command rnd type i t
    = Ok (tt, mkTest w (test_log t ++ [(PASS, cmd_name cmd)])).
Proof.
  intros Hsmall Hi Hcmd. destruct t as [w log].
  destruct (test_packet_ok rnd type i cmd Hsmall Hi Hcmd) as (p & Ep & Hp).
  destruct (piped_quiet w) as [Hqr Hqw]. unfold test_command. rewrite Hcmd.
  rewrite (st_bind_ok _ _ _ tt (mkTest (piped w) log)) by done.
  rewrite (st_bind_ok _ _ _ (Some p) (mkTest (piped w) log)) by (unfold st_lift; by rewrite Ep).
  rewrite (st_bind_ok _ _ _ false (mkTest (piped w) log)).
  2:{ unfold in_test, st_zoom. cbn [test_world]. by rewrite exchange_packet_ok by apply pipe_ends || done. }
  eexists. by erewrite st_bind_ok by done.
Qed.

Lemma command_names_lookup type i : 0 <= type < MCS_COMMAND_TYPES ->
  command_names type !! i = cmd_name <$> command_common type (Z.of_nat i).
Proof.
  intros Ht. unfold command_names, command_common. rewrite Nat2Z.id.
  unfold MCS_COMMAND_TYPES, MCS_TYPE_MESSAGE, MCS_TYPE_STATE, MCS_TYPE_PAYLOAD in *.
  assert (type = 0 \/ type = 1 \/ type = 2) as [-> | [-> | ->]] by lia; cbn [Z.eqb Pos.eqb];
    rewrite list_lookup_fmap; by destruct (_ !! i).
Qed.

Lemma command_names_length type : length (command_names type) = Z.to_nat (mcs_command_list_size type).
Proof.
  unfold command_names, mcs_command_list_size, zlen.
  repeat case_goal; by rewrite length_fmap, Nat2Z.id.
Qed.

Lemma test_loop_ok rnd type n : forall i t, tables_small -> 0 <= type < MCS_COMMAND_TYPES ->
  length (command_names type) = (i + n)%nat ->
  exists w, test_loop rnd type (Z.of_nat i) n t
    = Ok (tt, mkTest w (test_log t ++ ((fun name => (PASS, name)) <$> drop i (command_names type)))).
Proof.
  induction n as [|n IH]; intros i t Hsmall Ht Hlen.
  - exists (test_world t). rewrite drop_ge by lia. cbn. rewrite app_nil_r. by destruct t.
  - destruct (lookup_lt_is_Some_2 (command_names type) i) as [name Hname]; [lia|].
    rewrite (drop_S _ _ _ Hname). rewrite command_names_lookup in Hname by done.
    apply fmap_Some in Hname as (cmd & Hcmd & ->).
    destruct (test_command_ok (rnd (Z.of_nat i)) type (Z.of_nat i) cmd t) as [w E]; [done|lia|done|].
    cbn [test_loop]. rewrite (st_bind_ok _ _ _ _ _ E).
    replace (Z.of_nat i + 1) with (Z.of_nat (S i)) by lia.
    destruct (IH (S i) (mkTest w (test_log t ++ [(PASS, cmd_name cmd)]))) as [w' E']; [done|done|lia|].
    exists w'. rewrite E'. cbn [test_log fmap list_fmap]. by rewrite <- app_assoc.
Qed.

Lemma run_test_ok_all rnd type t : tables_small -> 0 <= type < MCS_COMMAND_TYPES ->
  exists w, run_test rnd type t
    = Ok (tt, mkTest w (test_log t ++ ((fun name => (PASS, name)) <$> command_names type))).
Proof.
  intros Hsmall Ht. unfold run_test.
  apply (test_loop_ok rnd type (Z.to_nat (mcs_command_list_size type)) 0 t Hsmall Ht).
  apply command_names_length.
Qed.

(** The tests of answers compare a packet that has been released. *)
Lemma run_test_answer_ub p name t : sendable p -> run_test_answer p name t = UB.
Proof.
  intros Hp. destruct t as [w log]. destruct (piped_quiet w) as [Hqr Hqw]. unfold run_test_answer.
  rewrite (st_bind_ok _ _ _ tt (mkTest (piped w) log)) by done.
  rewrite (st_bind_ok _ _ _ 0 (mkTest (emit pipe_w (wire p) (piped w)) log)).
  2:{ unfold in_test, st_zoom, mcs_write_command_and_free. cbn [test_world].
      by rewrite (mcs_write_sendable p pipe_w (piped w) Hp (quiet_writable _ _ Hqw)). }
  erewrite st_bind_ok by done. change (0 <? 0) with false. cbv iota.
  unfold st_bind. by destruct (in_test _ _) as [[? ?]|].
Qed.

(** C29: the test of the codec.  Whatever the tables hold and whatever ids are drawn,
    it logs one [PASS] for every command of every type, in their order: each packet
    is created, fits the pipe, is read back and is found equal.  Then it tests the
    answers, where it compares the packet it read with the one it has just
    released, so that the program as a whole is undefined; its handler of
    segmentation faults copies to NULL and faults again. *)
Theorem mcs_test_results : tables_small ->
  (forall rnd type t, 0 <= type < MCS_COMMAND_TYPES -> exists w, run_test rnd type t
     = Ok (tt, mkTest w (test_log t ++ ((fun name => (PASS, name)) <$> command_names type)))) /\
  (forall rnd t, mcs_test_main rnd t = UB) /\ (forall l, signal_handler l = UB).
Proof.
  intros Hsmall. split; [intros; by apply run_test_ok_all|]. split; [|done]. intros rnd t.
  unfold mcs_test_main.
  do 3 (edestruct run_test_ok_all as [? E]; [exact Hsmall|..|rewrite (st_bind_ok _ _ _ _ _ E)]; [done|]; clear E).
  unfold st_bind at 1, run_test_err. by rewrite run_test_answer_ub by (by apply err_packet_sendable).
Qed.

End Test.

(** ** Witness: the tables of the repository. *)

Section Witness.

#[local] Existing Instances repo_tables release_build.

Lemma repo_tables_small : tables_small.
Proof.
  split.
  - intros type cmd c Hc. unfold command_common in Hc.
    repeat case_hyp Hc; try done; apply fmap_Some in Hc as (x & Hx%list_elem_of_lookup_2 & ->);
      repeat (apply elem_of_cons in Hx as [-> |Hx]; [done|]); by apply elem_of_nil in Hx.
  - intros type Ht. unfold MCS_COMMAND_TYPES in Ht.
    assert (type = 0 \/ type = 1 \/ type = 2) as [-> | [-> | ->]] by lia; done.
Qed.

Lemma mcs_test_results_witness :
  exists w, run_test 3 4 (fun _ => 77) MCS_TYPE_MESSAGE (mkTest (mkWorld 0 ∅) [])
    = Ok (tt, mkTest w ((fun name => (PASS, str name)) <$>
        ["test"; "sdb_handshake"; "sdb_qos_start"; "sdb_qos_dump"; "sdb_qos_stop"; "procman_start"]%string)).
Proof.
  destruct (mcs_test_results 3 4 ltac:(done) repo_tables_small) as [Hrun _].
  exact (Hrun (fun _ => 77) MCS_TYPE_MESSAGE (mkTest (mkWorld 0 ∅) []) ltac:(done)).
Defined.

End Witness.
