(* ===== verification/SdbTest.v ===== *)
(** * SdbTest: the test of the client library, [src/src/Architecture/Libraries/SDB/Test/sdb.c].

    A program that registers a callback, connects to the daemon and sends [test]
    messages to itself, with and without waiting.  Here it is the only client of a
    network; while it waits or sleeps the threads of the library and of the daemon
    deliver its packets.  The callback runs in a thread of its own and logs when it is
    called.  How far the delivery of the message nobody waits for has come when the
    main thread logs and after each [sleep(1)] is an argument. *)

From stdpp Require Import functions.
From S2P Require Import Prelude Segments Abs AbsTest McsDefs Mcs McsFacts McsProps Queue QueueFacts QueueProps.
From S2P Require Import Qos QosFacts Module ModuleFacts Routing ModuleProps Daemon DaemonProps.
From S2P Require Import Client ClientFacts ClientProps Network NetworkFacts NetworkProps Joining NetTrace.

Definition MCS_MESSAGE_TEST : Z := 0.

(** ** The program. *)

Section Test.
Context `{MCSTables} `{Build} `{QueueSpec Q} `{!Environment Q}.

Record SdbTest := mkSdbTest { test_net : Net Q; sdb_log : TestLog }.

Definition in_network {A} (m : ST (Net Q) A) : ST SdbTest A :=
  st_zoom test_net (fun n t => mkSdbTest n (sdb_log t)) m.

Definition add_result (res : ABSTestResult) (name : string) : ST SdbTest unit :=
  st_zoom sdb_log (fun l t => mkSdbTest (test_net t) l) (abs_test_add_result res (Some (str name))).

(** The test is client 0; [pipe] is the observer's pipe. *)
Variable pipe : Z.

Definition call {A} (m : CM A) : ST SdbTest A := in_network (at_client 0 m).

(** The answer of the callback; what it logs is in [log_callback]. *)
Definition callback_test : SDBCallback := fun pkt_in => Ok (mcs_ok_packet pkt_in).

(** When the oldest thread of client [i] is one of [callback_test], which serves the
    [test] messages of the program, it logs that it was called before its answer is written. *)
Definition log_callback (i : Z) : ST SdbTest unit :=
  let! c := in_network (get_client i) in
  match cl_threads c with
  | t :: _ =>
      if (i =? 0) && (pkt_cmd (pktcb_pkt t) =? MCS_MESSAGE_TEST)
      then add_result PASS "Call callback" else st_ret tt
  | [] => st_ret tt
  end.

(** The events of the network while the program runs. *)
Definition test_event (e : Event) : ST SdbTest (option unit) :=
  do! match e with Callback i => log_callback i | _ => st_ret tt end in
  in_network (net_event pipe e).

Fixpoint test_run (es : list Event) : ST SdbTest (option unit) :=
  match es with
  | [] => st_ret (Some tt)
  | e :: es' => let? _ := test_event e in test_run es'
  end.

(** The events [i] to [j - 1] of the delivery of a message to itself. *)
Definition part (i j : nat) : list Event := drop i (take j (delivery 0 0)).

Definition test_client_name : list Z := str "app".

(** A [test] message to itself. *)
Definition own_message (rnd : Z) : ST SdbTest MCSPacket :=
  let! pkt := st_lift (mcs_create_packet_with_dest rnd MCS_MESSAGE_TEST (Some test_client_name)
                         0 None 0 None) in
  match pkt with None => st_ub | Some pkt => st_ret pkt end.

(** The branches on the type of an answer. *)
Definition answer_result (fail_callback : bool) (pkt : MCSPacket) (name : string) : ST SdbTest unit :=
  if negb (pkt_type pkt =? MCS_TYPE_OK) then
    if pkt_type pkt =? MCS_TYPE_ERR then
      if fail_callback then add_result XFAIL name
      else do! st_lift (mcs_err_code_from_command pkt) in add_result FAIL name
    else add_result FAIL name
  else add_result PASS name.

(** The value of [fail_callback]. *)
Definition test_register : ST SdbTest (option bool) :=
  let? ret := call (sdb_register_callback MCS_MESSAGE_TEST (Some callback_test)) in
  let fail_callback := negb (ret =? 0) in
  do! add_result (if fail_callback then FAIL else PASS) "Register callback" in
  st_ret (Some fail_callback).

(** [sdb_send_sync]: the message is delivered and answered while it waits. *)
Definition test_send_sync (pkt_in : MCSPacket) : ST SdbTest (option (Z * option MCSPacket)) :=
  let! (ret, queue_elem) := call (sdb_send_async pkt_in) in
  if negb (ret =? -1) then
    let? _ := test_run (delivery 0 0) in
    let! pkt_out := call (sync_end queue_elem pkt_in) in
    st_ret (Some (0, Some pkt_out))
  else st_ret (Some (-1, None)).

Definition test_sync (rnd : Z) (fail_callback : bool) : ST SdbTest (option unit) :=
  let! pkt_in := own_message rnd in
  let? (ret, pkt) := test_send_sync pkt_in in
  match ret =? 0, pkt with
  | true, Some pkt => do! answer_result fail_callback pkt "Send sync" in st_ret (Some tt)
  | _, _ => do! add_result FAIL "Send sync" in st_ub  (* [mcs_free] of a pointer never set *)
  end.

(** What is left when [sdb_check_async] returned [ret]. *)
Definition test_wait (p_pkt : Z) (fail_callback : bool) : ST SdbTest (option unit) :=
  let? ret := call (sdb_wait_async false p_pkt) in
  if negb (ret =? 0) then do! add_result FAIL "Wait async" in st_ret (Some tt)
  else
    let! e := call (pend_get p_pkt) in
    match pp_pkt (queue_pkt e) with
    | None => st_ub
    | Some pkt => do! answer_result fail_callback pkt "Wait async" in st_ret (Some tt)
    end.

(** The delivery is at event [k] at the first check; during the second [sleep(1)] the
    rest of it happens. *)
Definition test_check (k : nat) (p_pkt : Z) (fail_callback : bool) : ST SdbTest (option unit) :=
  let! ret := call (sdb_check_async p_pkt) in
  let? ret :=
    (if ret =? 0 then
       let? _ := test_run (part k 13) in
       let! ret := call (sdb_check_async p_pkt) in
       do! (if negb (ret =? 1) then add_result FAIL "Check async" else st_ret tt) in st_ret (Some ret)
     else if ret <? 0 then do! add_result FAIL "Check async" in st_ret (Some ret)
     else st_ret (Some ret)) in
  if ret =? 1 then do! add_result PASS "Check async" in test_wait p_pkt fail_callback
  else st_ret (Some tt).

(** The delivery is at event [k0] when the result is logged, and at [k1] after the first
    [sleep(1)]. *)
Definition test_async (k0 k1 : nat) (rnd : Z) (fail_callback : bool) : ST SdbTest (option unit) :=
  let! pkt_in := own_message rnd in
  let! (ret, p_pkt) := call (sdb_send_async pkt_in) in
  if negb (ret =? 0) then do! add_result FAIL "Send async" in st_ret (Some tt)
  else
    let? _ := test_run (part 0 k0) in
    do! add_result PASS "Send async" in
    let? _ := test_run (part k0 k1) in
    let? _ := test_check k1 p_pkt fail_callback in
    do! call (sdb_pending_packet_free p_pkt) in
    st_ret (Some tt).

(** [sdb_test_init], once the daemon runs; [rnd0], [rnd1] and [rnd2] are what [random]
    returns for the handshake and the two messages. *)
Definition sdb_test_init (sock con_fd rnd0 rnd1 rnd2 : Z) (k0 k1 : nat) : ST SdbTest (option unit) :=
  let? fail_callback := test_register in
  let? ret := in_network (net_connect pipe 0 sock con_fd rnd0 test_client_name SDB_GROUP_APP) in
  if negb (ret =? 0) then do! add_result FAIL "Connect to SDB" in st_ret (Some tt)
  else
    do! add_result PASS "Connect to SDB" in
    let? _ := test_sync rnd1 fail_callback in
    let? _ := test_async k0 k1 rnd2 fail_callback in
    do! call sdb_disconnect in
    st_ret (Some tt).

End Test.

Arguments SdbTest : clear implicits.

(** ** Every check passes. *)

Section Passes.
#[local] Existing Instances repo_tables.
Context `{Build} `{QueueSpec Q} `{!Environment Q}.
Implicit Types (n : Net Q) (log : TestLog).

Definition own_packet (rnd : Z) : MCSPacket :=
  mkMCSPacket (u32 rnd) MCS_TYPE_MESSAGE 0 0 None (Some test_client_name) 0 None.

Lemma own_id rnd : 0 <= pkt_id (own_packet rnd) < 2 ^ 32.
Proof. apply Z.mod_pos_bound. lia. Qed.

Lemma own_sendable rnd : sendable (own_packet rnd).
Proof.
  pose proof (own_id rnd). unfold sendable, readable. split_and!; [|right|done|].
  - split; cbn; try done.
  - eexists. split_and!; try done. exists test_client_name. split_and!; [done|bytes_lit|done].
  - intros d [= <-]. by repeat constructor.
Qed.

Lemma own_fits p : pkt_dest p = None \/ pkt_dest p = Some test_client_name -> pkt_nargs p = 0 ->
  pkt_data_size p = 0 -> fits_region p.
Proof.
  intros Hd Hn Hs. unfold fits_region, region_size. rewrite Hn, Hs. unfold sizeof_MCSPacket.
  by destruct Hd as [-> | ->], (sizeof_ptr =? 8).
Qed.

Lemma own_message_ok rnd (t : SdbTest Q) : own_message rnd t = Ok (own_packet rnd, t).
Proof.
  assert (E : mcs_create_packet_with_dest rnd MCS_MESSAGE_TEST (Some test_client_name) 0 None 0 None
    = Ok (Some (own_packet rnd))).
  { unfold mcs_create_packet_with_dest, mcs_create, copy_arg, generate_id.
    change (0 =? 0) with true. cbv iota zeta. fold (own_packet rnd).
    by rewrite (check_sendable (own_packet rnd) (own_sendable rnd)). }
  unfold own_message, st_lift, st_bind. by rewrite E.
Qed.

Definition test_callbacks (i : Z) : list SDBCMDCallback :=
  if i =? 0 then [mkCmdCallback MCS_MESSAGE_TEST callback_test] else [].

(** The message is answered by the callback of its sender. *)
Lemma own_answered (s : Sys Q) L m rnd : has_mod s 0 m -> 0 < sys_last s ->
  mod_name m = Some test_client_name -> L 0 = [] ->
  Answered s L test_callbacks
    (mkRequest 0 (own_packet rnd) (mcs_ok_packet (own_packet rnd)) (delivery 0 0)).
Proof.
  intros Hm Hl Hname HL. apply (AnsweredByClient _ _ _ 0 m 0 m); try done.
  - split; [done|]. eexists _, test_client_name. split; [reflexivity|]. split; [by left|].
    split; [by exists (str "@arg0")|]. split; [|by left]. split; [done|]. split; [done|].
    split; [|by exists test_client_name]. intros i mi Hi [Hi0 _]. lia.
  - apply own_sendable.
  - apply own_fits; [by right|done|done].
  - rewrite HL. constructor.
  - rewrite HL. constructor.
  - by apply (AnswersServed _ _ [] (mkCmdCallback MCS_MESSAGE_TEST callback_test) []).
  - apply ok_packet_sendable, own_id.
  - apply own_fits; [by left|done|done].
Qed.

Lemma in_network_ok {A} (m : ST (Net Q) A) n log a n' : m n = Ok (a, n') ->
  in_network m (mkSdbTest n log) = Ok (a, mkSdbTest n' log).
Proof. intros E. unfold in_network, st_zoom. cbn. by rewrite E. Qed.

Definition passed (name : string) : ABSTestResult * list Z := (PASS, str name).

Lemma add_pass name n log :
  add_result PASS name (mkSdbTest n log) = Ok (tt, mkSdbTest n (log ++ [passed name])).
Proof. reflexivity. Qed.

Lemma register_passes n log c xs : has_client n 0 c -> client_offline c xs [] ->
  exists c', client_offline c' xs (test_callbacks 0) /\
    test_register (mkSdbTest n log)
    = Ok (Some false, mkSdbTest (set_client 0 c' n) (log ++ [passed "Register callback"])).
Proof.
  intros Hc [Hp Hcb Ht Hfd].
  destruct (register_new_ok c [] MCS_MESSAGE_TEST callback_test Hcb ltac:(constructor))
    as (c' & E & Hcb' & Hc'). exists c'. split.
  - split; try done; rewrite Hc'; try done. destruct Hp as [Hn Hp]. split; [done|].
    exact (f_equal (upd_callbacks (callback_list c') (callback_list_pos c') false) Hp).
  - unfold test_register, call.
    by rewrite (st_obind_ok _ _ _ _ _ (in_network_ok _ _ _ _ _ (at_client_ok _ _ _ _ _ _ Hc E))).
Qed.

(** ** The network and the log. *)

Lemma test_event_ok pipe e n log n' : (forall i, e <> Callback i) -> net_event pipe e n = Ok (Some tt, n') ->
  test_event pipe e (mkSdbTest n log) = Ok (Some tt, mkSdbTest n' log).
Proof.
  intros He E. unfold test_event. erewrite st_bind_ok; [by apply in_network_ok|]. destruct e; try done. by destruct (He i).
Qed.

Lemma test_run_app pipe es es' t t' : test_run pipe es t = Ok (Some tt, t') ->
  test_run pipe (es ++ es') t = test_run pipe es' t'.
Proof.
  revert t. induction es as [|e es IH]; intros t; cbn [test_run app]; [by intros [= ->]|].
  unfold st_obind, st_bind. destruct (test_event pipe e t) as [[[[]|] t1]|]; [|done|done]. apply IH.
Qed.

(** What is logged between the events [i] and [j]: the callback is event 6. *)
Definition called (i j : nat) : TestLog :=
  if (i <=? 6)%nat && (6 <? j)%nat then [passed "Call callback"] else [].

(** Cases on the comparisons of natural numbers. *)
Ltac nat_cases := repeat match goal with
  | |- context [(?a <=? ?b)%nat] => destruct (Nat.leb_spec a b); try lia
  | |- context [(?a <? ?b)%nat] => destruct (Nat.ltb_spec a b); try lia
  end; try done.

Lemma part_run pipe st c6 p : trace pipe (delivery 0 0) st -> has_client (st 6%nat) 0 c6 ->
  cl_threads c6 = [mkPktCallback p callback_test] -> pkt_cmd p = MCS_MESSAGE_TEST ->
  forall i j log, (i <= j <= 13)%nat ->
  test_run pipe (part i j) (mkSdbTest (st i) log) = Ok (Some tt, mkSdbTest (st j) (log ++ called i j)).
Proof.
  intros Ht Hc6 Hth Hcmd i j log. induction j as [|j IH]; intros Hj.
  { assert (i = 0%nat) as -> by lia. change (called 0 0) with (@nil (ABSTestResult * list Z)). by rewrite app_nil_r. }
  destruct (decide (i = S j)) as [-> |Hne].
  { unfold part. rewrite drop_ge by (rewrite length_take; lia). replace (called (S j) (S j)) with (@nil (ABSTestResult * list Z)) by (unfold called; nat_cases). by rewrite app_nil_r. }
  destruct (lookup_lt_is_Some_2 (delivery 0 0) j) as [e He]; [cbn; lia|].
  assert (Epart : part i (S j) = part i j ++ [e]).
  { unfold part. rewrite (take_S_r _ _ _ He), drop_app_le; [done|]. rewrite length_take. cbn [delivery length]. lia. }
  rewrite Epart, (test_run_app _ _ _ _ _ (IH ltac:(lia))). cbn [test_run]. pose proof (Ht j e He) as Ee.
  destruct (decide (j = 6%nat)) as [-> |H6].
  - injection He as <-. replace (called i 6) with (@nil (ABSTestResult * list Z)) by (unfold called; nat_cases).
    replace (called i 7) with [passed "Call callback"] by (unfold called; nat_cases). rewrite app_nil_r.
    erewrite st_obind_ok; [reflexivity|]. unfold test_event. erewrite st_bind_ok; [by apply in_network_ok|].
    unfold log_callback. rewrite (st_bind_ok _ _ _ _ _ (in_network_ok _ _ _ _ _ (get_client_ok _ _ _ Hc6))).
    rewrite Hth. cbn [pktcb_pkt]. rewrite Hcmd. apply add_pass.
  - erewrite st_obind_ok by (apply test_event_ok; [|exact Ee]; intros k ->;
      clear -He H6; do 13 (destruct j as [|j]; [first [done|lia]|]); done).
    replace (called i (S j)) with (called i j) by (unfold called; nat_cases). done.
Qed.

(** The way of a message of the test to itself. *)
Lemma own_trace pipe L X n m rnd : net_idle pipe L X test_callbacks n ->
  has_mod (net_sys n) 0 m -> 0 < sys_last (net_sys n) -> mod_name m = Some test_client_name -> L 0 = [] ->
  let p := own_packet rnd in
  exists st c addr c1, has_client n 0 c /\ sdb_send_async p c = Ok ((0, addr), c1) /\ st 0%nat = set_client 0 c1 n /\
    kin (net_sys n) (net_sys (st 13%nat)) /\
    net_idle pipe L (<[0 := (addr, mkPending (pkt_id p) (Some (mcs_ok_packet p)) true) :: X 0]> X) test_callbacks (st 13%nat) /\
    (forall k, (k < 13)%nat -> exists ck, has_client (st k) 0 ck /\ sdb_check_async addr ck = Ok (0, ck)) /\
    forall i j log, (i <= j <= 13)%nat ->
      test_run pipe (part i j) (mkSdbTest (st i) log) = Ok (Some tt, mkSdbTest (st j) (log ++ called i j)).
Proof.
  intros Hn Hm Hl Hname HL p. pose proof (own_answered (net_sys n) L m rnd Hm Hl Hname HL) as Hans.
  assert (Hroute : routed (net_sys n) m p 0 m).
  { inversion Hans as [a ma b mb p' out Hma Hla Hr|]; subst.
    destruct Hr as (Hty & opt & name & Ho & Hor & Had & Hadr & Hde). pose proof Hadr as (Hmb & _).
    rewrite (has_mod_inj _ _ ma m Hma Hm) in *. rewrite (has_mod_inj _ _ mb m Hmb Hm) in *.
    split; [done|]. by exists opt, name. }
  destruct (delivery_trace pipe L X test_callbacks n 0 m p (mcs_ok_packet p) [] (mkCmdCallback MCS_MESSAGE_TEST callback_test) [])
    as (st & c & addr & c1 & Hc & Es & Hst & Ht & Hk & Hn' & Hw & c6 & Hc6 & Hth);
    try done; [apply own_fits; [by right|done|done]|apply own_sendable|].
  exists st, c, addr, c1. do 6 (split; [done|]). intros i j log. by apply (part_run pipe st c6 p).
Qed.

Lemma sync_passes pipe L X n log m rnd : net_idle pipe L X test_callbacks n ->
  has_mod (net_sys n) 0 m -> 0 < sys_last (net_sys n) -> mod_name m = Some test_client_name ->
  L 0 = [] -> exists n', net_idle pipe L X test_callbacks n' /\ kin (net_sys n) (net_sys n') /\
    test_sync pipe rnd false (mkSdbTest n log)
    = Ok (Some tt, mkSdbTest n' (log ++ (passed <$> ["Call callback"; "Send sync"]%string))).
Proof.
  intros Hn Hm Hl Hname HL.
  destruct (own_trace pipe L X n m rnd) as (st & c & addr & c1 & Hc & Es & Hst & Hk & Hn1 & _ & Hrun); try done.
  cbv zeta in *. set (p := own_packet rnd) in *. set (x := (addr, _)) in Hn1.
  destruct (ni_client _ _ _ _ _ Hn1 0) as (c2 & Hc2 & Hci2); [by rewrite (kin_last _ _ Hk)|].
  rewrite fn_lookup_insert in Hci2.
  destruct (answered_rest c2 x (X 0) (test_callbacks 0) Hci2) as [Hc2' Hci].
  pose proof (sync_ends (with_pending (X 0) c2) (X 0) (test_callbacks 0) addr p (mcs_ok_packet p)
    (proj1 (ci_pending _ _ _ Hci2)) Hci) as Eend. fold x in Eend. rewrite <- Hc2' in Eend.
  exists (set_client 0 (with_pending (X 0) c2) (st 13%nat)). split_and!; [|exact Hk|].
  - eapply idle_freed; try done. by rewrite (kin_last _ _ Hk).
  - unfold test_sync. rewrite (st_bind_ok _ _ _ _ _ (own_message_ok rnd _)). fold p.
    erewrite st_obind_ok.
    2: { unfold test_send_sync. rewrite (st_bind_ok _ _ _ _ _ (in_network_ok _ _ log _ _ (at_client_ok _ _ _ _ _ _ Hc Es))).
         change (negb (0 =? -1)) with true. cbv iota. rewrite <- Hst.
         rewrite (st_obind_ok _ _ _ _ _ (Hrun 0%nat 13%nat log ltac:(lia))).
         by rewrite (st_bind_ok _ _ _ _ _ (in_network_ok _ _ _ _ _ (at_client_ok _ _ _ _ _ _ Hc2 Eend))). }
    cbv beta iota. change (answer_result false (mcs_ok_packet p) "Send sync") with (add_result (Q := Q) PASS "Send sync").
    change (0 =? 0) with true. cbv iota.
    by rewrite (st_bind_ok _ _ _ _ _ (add_pass _ _ _)), <- app_assoc.
Qed.

(** The newest pending packet was answered. *)
Lemma wait_passes n log c x xs cbs r : has_client n 0 c -> client_idle c (x :: xs) cbs ->
  pp_valid x.2 = true -> pp_pkt x.2 = Some r -> pkt_type r = MCS_TYPE_OK ->
  in_network (at_client 0 (sdb_check_async x.1)) (mkSdbTest n log) = Ok (1, mkSdbTest n log) /\
  test_wait x.1 false (mkSdbTest n log) = Ok (Some tt, mkSdbTest n (log ++ [passed "Wait async"])).
Proof.
  intros Hc Hci Hv Hpp Hok.
  destruct (answered_packet c (x :: xs) cbs x false Hci ltac:(constructor) Hv) as [E1 E2].
  assert (E3 : pend_get x.1 c = Ok (mkPendElem x.2 (hd_addr xs NULL) NULL, c)).
  { apply pend_get_ok. destruct (ci_pending _ _ _ Hci) as [_ ->]. apply lookup_insert_eq. }
  pose proof (at_client_ok _ _ _ _ _ _ Hc E1) as F1. pose proof (at_client_ok _ _ _ _ _ _ Hc E2) as F2.
  pose proof (at_client_ok _ _ _ _ _ _ Hc E3) as F3. rewrite set_client_same in F1, F2, F3 by done.
  split; [by apply in_network_ok|].
  unfold test_wait. rewrite (st_obind_ok _ _ _ _ _ (in_network_ok _ _ _ _ _ F2)).
  change (negb (0 =? 0)) with false. cbv iota.
  rewrite (st_bind_ok _ _ _ _ _ (in_network_ok _ _ _ _ _ F3)). cbn [queue_pkt]. rewrite Hpp.
  unfold answer_result. rewrite Hok, Z.eqb_refl. cbn [negb].
  by rewrite (st_bind_ok _ _ _ _ _ (add_pass "Wait async" n _)).
Qed.

(** The log of the message nobody waits for: the callback is called before or after the
    main thread logs that it was sent. *)
Definition async_log (k0 : nat) : list string :=
  (if (6 <? k0)%nat then ["Call callback"; "Send async"] else ["Send async"; "Call callback"])%string ++
  ["Check async"; "Wait async"]%string.

Lemma async_passes pipe L X n log m rnd k0 k1 : (k0 <= k1 <= 13)%nat -> net_idle pipe L X test_callbacks n ->
  has_mod (net_sys n) 0 m -> 0 < sys_last (net_sys n) -> mod_name m = Some test_client_name ->
  L 0 = [] -> exists n' c, net_idle pipe L X test_callbacks n' /\ has_client n' 0 c /\
    test_async pipe k0 k1 rnd false (mkSdbTest n log)
    = Ok (Some tt, mkSdbTest n' (log ++ (passed <$> async_log k0))).
Proof.
  intros Hk01 Hn Hm Hl Hname HL.
  destruct (own_trace pipe L X n m rnd) as (st & c & addr & c1 & Hc & Es & Hst & Hk & Hn1 & Hw & Hrun); try done.
  cbv zeta in *. set (p := own_packet rnd) in *. set (x := (addr, _)) in Hn1.
  destruct (ni_client _ _ _ _ _ Hn1 0) as (c2 & Hc2 & Hci2); [by rewrite (kin_last _ _ Hk)|].
  rewrite fn_lookup_insert in Hci2.
  destruct (answered_rest c2 x (X 0) (test_callbacks 0) Hci2) as [Hc2' Hci].
  assert (Efree : sdb_pending_packet_free addr c2 = Ok (tt, with_pending (X 0) c2)).
  { unfold sdb_pending_packet_free. rewrite Hc2'.
    erewrite st_bind_ok by (apply pend_get_ok; apply lookup_insert_eq). cbn [queue_pkt pp_id snd x].
    by rewrite (delete_pending_ok _ [] x (X 0) _ (proj1 (ci_pending _ _ _ Hci2))). }
  exists (set_client 0 (with_pending (X 0) c2) (st 13%nat)), (with_pending (X 0) c2). split_and!.
  - by eapply (idle_freed pipe L X test_callbacks (st 13%nat) 0 c2 x); [rewrite (kin_last _ _ Hk)|..].
  - by eapply has_client_set.
  - assert (Echeck : forall log, test_check pipe k1 addr false (mkSdbTest (st k1) log) = Ok (Some tt,
      mkSdbTest (st 13%nat) (log ++ called k1 13 ++ (passed <$> ["Check async"; "Wait async"]%string)))).
    { clear log. intros log. destruct (wait_passes (st 13%nat) (log ++ called k1 13) c2 x (X 0) _ _ Hc2 Hci2 eq_refl eq_refl eq_refl)
        as [E1 _].
      destruct (wait_passes (st 13%nat) ((log ++ called k1 13) ++ [passed "Check async"]) c2 x (X 0) _ _ Hc2 Hci2 eq_refl eq_refl eq_refl)
        as [_ E2]. cbn [x fst] in E1, E2. unfold test_check.
      destruct (decide (k1 = 13%nat)) as [-> |Hne].
      - change (called 13 13) with (@nil (ABSTestResult * list Z)) in *. rewrite app_nil_r in E1, E2.
        rewrite (st_bind_ok _ _ _ _ _ E1). change (1 =? 0) with false. change (1 <? 0) with false. cbv iota.
        erewrite st_obind_ok by reflexivity. change (1 =? 1) with true. cbv iota.
        rewrite (st_bind_ok _ _ _ _ _ (add_pass _ _ _)), E2. by rewrite <- app_assoc.
      - destruct (Hw k1) as (ck & Hck & Ek); [lia|]. pose proof (at_client_ok _ _ _ _ _ _ Hck Ek) as Fk.
        rewrite set_client_same in Fk by done. rewrite (st_bind_ok _ _ _ _ _ (in_network_ok _ _ log _ _ Fk)).
        change (0 =? 0) with true. cbv iota. erewrite st_obind_ok.
        2: { rewrite (st_obind_ok _ _ _ _ _ (Hrun k1 13%nat log ltac:(lia))). rewrite (st_bind_ok _ _ _ _ _ E1). reflexivity. }
        change (1 =? 1) with true. cbv iota. rewrite (st_bind_ok _ _ _ _ _ (add_pass _ _ _)), E2. by rewrite <- !app_assoc. }
    unfold test_async. rewrite (st_bind_ok _ _ _ _ _ (own_message_ok rnd _)). fold p.
    rewrite (st_bind_ok _ _ _ _ _ (in_network_ok _ _ log _ _ (at_client_ok _ _ _ _ _ _ Hc Es))).
    change (negb (0 =? 0)) with false. cbv iota. rewrite <- Hst.
    rewrite (st_obind_ok _ _ _ _ _ (Hrun 0%nat k0 log ltac:(lia))), (st_bind_ok _ _ _ _ _ (add_pass _ _ _)).
    rewrite (st_obind_ok _ _ _ _ _ (Hrun k0 k1 _ ltac:(lia))), (st_obind_ok _ _ _ _ _ (Echeck _)).
    rewrite (st_bind_ok _ _ _ _ _ (in_network_ok _ _ _ _ _ (at_client_ok _ _ _ _ _ _ Hc2 Efree))).
    rewrite <- !app_assoc. unfold async_log, called.
    nat_cases.
Qed.

(** C28: the test of the client library passes.  Whatever the random identifiers,
    when the test is the first client of a daemon that waits, [sdb_test_init]
    returns, and all its checks are logged as passed: the callback is registered, the program
    connects, the message it sends itself and waits for is acknowledged by its callback,
    which logs that it was called, and so is the one it does not wait for.  The threads
    deliver that one in thirteen steps; wherever the steps stand when the main thread logs that it
    was sent ([k0]) and after the first second ([k1]), if they are over after two seconds the
    checks pass, at the second look if not at the first; the callback logs its second
    call before or after the main thread, as the steps stand. *)
Theorem lib_test_passes pipe L X n log c sock con_fd rnd0 rnd1 rnd2 k0 k1 :
  net_idle pipe L X test_callbacks n -> sys_last (net_sys n) = 0 ->
  (0 < length (sys_modules (net_sys n)))%nat ->
  has_client n 0 c -> client_offline c (X 0) [] ->
  0 <= sock -> 0 <= con_fd -> w_fds (sys_world (net_sys n)) !! con_fd = None ->
  (k0 <= k1 <= 13)%nat ->
  exists n', sdb_test_init pipe sock con_fd rnd0 rnd1 rnd2 k0 k1 (mkSdbTest n log)
    = Ok (Some tt, mkSdbTest n' (log ++ (passed <$>
        ["Register callback"; "Connect to SDB"; "Call callback"; "Send sync"]%string ++ async_log k0))).
Proof.
  intros Hn Hl0 Hlen Hc Hoff Hs Hcf Hnew Hk01.
  destruct (register_passes n log c (X 0) Hc Hoff) as (c1 & Hoff1 & E1).
  set (n1 := set_client 0 c1 n) in E1.
  assert (Hn1 : net_idle pipe L X test_callbacks n1).
  { split; [apply Hn|]. intros i Hi. cbn in Hi. lia. }
  destruct (client_joins pipe L X test_callbacks n1 c1 sock con_fd rnd0 test_client_name SDB_GROUP_APP)
    as (n2 & m2 & E2 & Hn2 & Hl2 & _ & _ & _ & Hm2 & Hname & _);
    cbn [n1 net_sys set_client] in *; rewrite ?Hl0; try done; [apply repo_handshake_entry|by eapply has_client_set|
      by split; repeat constructor|].
  rewrite Hl0 in *.
  destruct (sync_passes pipe _ X n2 (log ++ (passed <$> ["Register callback"; "Connect to SDB"]%string)) m2 rnd1
    Hn2 Hm2) as (n3 & Hn3 & Hk3 & E3); [lia|done|apply fn_lookup_insert|].
  destruct (kin_mod _ _ Hk3 0 m2) as (m3 & Hm3 & I); [lia|done|]. injection I as _ _ _ Hname3 _ _.
  destruct (async_passes pipe _ X n3
    (log ++ (passed <$> ["Register callback"; "Connect to SDB"; "Call callback"; "Send sync"]%string)) m3 rnd2 k0 k1 Hk01 Hn3 Hm3)
    as (n4 & c4 & _ & Hc4 & E4);
    [rewrite (kin_last _ _ Hk3); lia|congruence|apply fn_lookup_insert|].
  eexists. unfold sdb_test_init. rewrite (st_obind_ok _ _ _ _ _ E1).
  rewrite (st_obind_ok _ _ _ _ _ (in_network_ok _ _ _ _ _ E2)).
  change (negb (0 =? 0)) with false. cbv iota. rewrite (st_bind_ok _ _ _ _ _ (add_pass _ _ _)), <- app_assoc.
  rewrite (st_obind_ok _ _ _ _ _ E3), <- app_assoc, (st_obind_ok _ _ _ _ _ E4).
  erewrite st_bind_ok by (eapply in_network_ok, at_client_ok; [exact Hc4|reflexivity]).
  by rewrite <- !app_assoc.
Qed.

End Passes.

Section Demo.
#[local] Existing Instances repo_tables release_build quiet_environment.

(** The first client of the daemon is the test. *)
Definition test_network : Net SDBQueue := mkNet started [offline_a].

(** The callback runs before the main thread goes on, and the answer comes in the second second. *)
Example sdb_test_run :
  match sdb_test_init 9 5 6 1 2 3 8 10 (mkSdbTest test_network []) with
  | Ok (Some tt, t) => Some (sdb_log t)
  | _ => None
  end = Some ((fun name => (PASS, str name)) <$>
    ["Register callback"; "Connect to SDB"; "Call callback"; "Send sync"; "Call callback"; "Send async";
     "Check async"; "Wait async"]%string).
Proof. vm_compute. reflexivity. Qed.

Lemma test_network_idle : net_idle 9 (fun _ => []) (fun _ => []) test_callbacks test_network.
Proof. split; [apply started_idle|]. intros i Hi. cbn in Hi. lia. Qed.

Lemma offline_a_free : client_offline offline_a [] [].
Proof. split; try done; [apply fresh_pending|apply fresh_callbacks]. Qed.

Lemma lib_test_passes_witness :
  exists n', sdb_test_init 9 5 6 1 2 3 2 9 (mkSdbTest test_network []) = Ok (Some tt, mkSdbTest n'
    (passed <$> ["Register callback"; "Connect to SDB"; "Call callback"; "Send sync"; "Send async"; "Call callback";
                 "Check async"; "Wait async"]%string)).
Proof.
  apply (lib_test_passes 9 (fun _ => []) (fun _ => []) test_network [] offline_a 5 6 1 2 3 2 9
    test_network_idle eq_refl ltac:(apply Nat.ltb_lt; reflexivity) ltac:(done) offline_a_free
    ltac:(lia) ltac:(lia) eq_refl ltac:(lia)).
Defined.

End Demo.
