(* ===== verification/Native.v ===== *)
(** * Native: the Android native interface,
    [src/src/Android/PayloadSDK(native)/src/main/jni/libraries.c] and [wrapper.c].

    The Java side of an application connects to the daemon and sends packets through
    these functions, which use the MCS library directly, one packet at a time.  What the
    operating system returns for the socket is an argument.  Java arrays are lists of bytes,
    an object of class [SDBPacket] is its size and its data. *)

From S2P Require Import Prelude Hoare Abs McsDefs Mcs McsFacts McsProps.
From S2P Require Import Queue QueueFacts Qos Module ModuleFacts DaemonProps Client ClientFacts ClientProps.
From stdpp Require Import pretty.
#[local] Open Scope Z_scope.

Section Native.
Context `{MCSTables} `{Build}.

(** ** [libraries.c]. *)

(** [sprintf(name, "app%d", id)] into five bytes. *)
Definition app_name (id : Z) : outcome (list Z) :=
  let text := str (String.append "app" (pretty id)) in
  if zlen text + 1 <=? 5 then Ok text else UB.

(** The text of the handshake does not depend on the name. *)
Definition welcome : list Z := str "app0:app".

(** The last test of the two functions: an answer with another id passes. *)
Definition accepted (origin_id : Z) (pkt : MCSPacket) : outcome bool :=
  if negb (pkt_id pkt =? origin_id) then Ok true
  else if negb (pkt_type pkt =? MCS_TYPE_OK) then
    if pkt_type pkt =? MCS_TYPE_ERR then code ← mcs_err_code_from_command pkt; Ok (let _ := code in false)
    else Ok false
  else Ok true.

(** [fd] and [connected] are the results of [socket] and [connect]; it is not closed
    after an error. *)
Definition connectSDB (fd connected rnd id : Z) : ST World Z :=
  let! name := st_lift (app_name id) in
  if fd <? 0 then st_ret (-1)
  else if connected <? 0 then st_ret (-1)
  else
    let! pkt := st_lift (mcs_create_packet rnd MCS_MESSAGE_SDB_HANDSHAKE 0 None (strlen welcome + 1) (Some (welcome ++ [0]))) in
    match pkt with
    | None => st_ret (-1)
    | Some pkt =>
        let origin_id := pkt_id pkt in
        let! written := mcs_write_command pkt fd in
        if negb (written =? 0) then st_ret (-1)
        else
          let! answer := mcs_read_command fd fd in
          match answer with
          | None => st_ret (-1)
          | Some answer =>
              let! ok := st_lift (accepted origin_id answer) in
              st_ret (if ok : bool then fd else -1)
          end
    end.

(** The copy of the answer.  The copy of the destination has no NUL at its end. *)
Definition copy_packet (pkt : MCSPacket) : outcome MCSPacket :=
  dest ← match pkt_dest pkt with
         | Some d => d ← abs_malloccpy (Some d) (strlen d); Ok (Some d)
         | None => Ok None
         end;
  args ← (if negb (pkt_nargs pkt =? 0) then a ← abs_malloccpy (pkt_args pkt) (pkt_nargs pkt); Ok (Some a)
          else Ok (pkt_args pkt));
  data ← (if negb (pkt_data_size pkt =? 0) then d ← abs_malloccpy (pkt_data pkt) (pkt_data_size pkt); Ok (Some d)
          else Ok (pkt_data pkt));
  Ok (mkMCSPacket (pkt_id pkt) (pkt_type pkt) (pkt_cmd pkt) (pkt_nargs pkt) args dest (pkt_data_size pkt) data).

Definition sendSyncSDB (fd : Z) (pkt : option MCSPacket) : ST World (option MCSPacket) :=
  match pkt with
  | None => st_ret None
  | Some pkt =>
      let origin_id := pkt_id pkt in
      let! written := mcs_write_command pkt fd in
      if negb (written =? 0) then st_ret None
      else
        let! answer := mcs_read_command fd fd in
        match answer with
        | None => st_ret None
        | Some answer =>
            let! ok := st_lift (accepted origin_id answer) in
            if ok : bool then let! received := st_lift (copy_packet answer) in st_ret (Some received)
            else st_ret None
        end
  end.

(** ** [wrapper.c]. *)

(** The size and the data of the new [SDBPacket]; [None] is a null reference. *)
Definition sendSyncNative (fd rnd cmd : Z) (args data : list Z) : ST World (Z * option (list Z)) :=
  let! packet := st_lift (mcs_create_packet rnd cmd (zlen args) (Some args) (zlen data) (Some data)) in
  let! response := sendSyncSDB fd packet in
  match response with
  | Some response =>
      let! ret := st_lift (memcpy (pkt_data response) (pkt_data_size response)) in
      st_ret (pkt_data_size response, Some ret)
  | None => st_ret (0, None)
  end.

Definition connectSDBNative (fd connected rnd : Z) : ST World Z := connectSDB fd connected rnd 0.

(** ** Properties. *)

Lemma avail_emit fd bs fd' bs' w : avail fd bs w -> avail fd bs (emit fd' bs' w).
Proof.
  intros (f & evs & rest & Hf & Hin & Ha). destruct (decide (fd = fd')) as [-> |Hne].
  - eexists (mkFd (fd_in f) (fd_out f ++ bs') (fd_cap f)), evs, rest. cbn. rewrite lookup_alter_eq, Hf. by split_and!.
  - exists f, evs, rest. cbn. rewrite lookup_alter_ne by done. by split_and!.
Qed.

(** A packet is sent and its answer read. *)
Lemma exchange p r fd rest w : sendable p -> readable r -> 0 <= fd -> writable fd w -> avail fd (wire r ++ rest) w ->
  mcs_write_command p fd w = Ok (0, emit fd (wire p) w) /\
  mcs_read_command fd fd (emit fd (wire p) w) = Ok (Some r, consume fd (length (wire r)) (emit fd (wire p) w)).
Proof.
  intros Hp Hr Hfd Hw Ha. split; [by apply mcs_write_sendable|].
  by apply (mcs_read_parses fd fd r Hfd Hr rest), avail_emit.
Qed.

(** What counts as an answer: any packet with another id, or an acknowledgement. *)
Definition passes (id : Z) (r : MCSPacket) : bool := negb (pkt_id r =? id) || (pkt_type r =? MCS_TYPE_OK).

Lemma memcpy_buffer n b : buffer n b -> memcpy b n = Ok (McsFacts.block b).
Proof.
  intros Hb. unfold memcpy, buffer in *. destruct b as [l|]; [|by subst]. destruct Hb as [Hl _].
  destruct (n =? 0) eqn:E.
  - apply Z.eqb_eq in E. subst. destruct l; [done|]. rewrite zlen_cons in E. pose proof (zlen_nonneg l). lia.
  - rewrite (proj2 (Z.leb_le _ _)) by lia. cbn. rewrite take_ge; [done|]. unfold zlen in Hl. lia.
Qed.

Lemma accepted_passes id r : wf_packet r -> accepted id r = Ok (passes id r).
Proof.
  intros Hr. unfold accepted, passes. destruct (pkt_id r =? id); [|done]. cbn [negb orb].
  destruct (pkt_type r =? MCS_TYPE_OK); [done|]. cbn [negb]. destruct (pkt_type r =? MCS_TYPE_ERR); [|done].
  unfold mcs_err_code_from_command. destruct (pkt_data_size r =? 4) eqn:E; [|done]. apply Z.eqb_eq in E.
  rewrite <- E, memcpy_buffer by apply Hr. done.
Qed.

(** The copy has the same bytes. *)
Lemma copy_packet_data r : wf_packet r -> (forall d, pkt_dest r = Some d -> bytes_ok d) ->
  exists q, copy_packet r = Ok q /\ pkt_data_size q = pkt_data_size r /\
    memcpy (pkt_data q) (pkt_data_size q) = Ok (McsFacts.block (pkt_data r)).
Proof.
  intros Hr Hd. unfold copy_packet, abs_malloccpy.
  assert (exists d, match pkt_dest r with Some d => d ← memcpy (Some d) (strlen d); Ok (Some d) | None => Ok None end = Ok d)
    as [d ->].
  { destruct (pkt_dest r) as [d|]; [|by eexists]. unfold memcpy, strlen. destruct (zlen (cstr d) =? 0); [by eexists|].
    rewrite (proj2 (Z.leb_le _ _)); [by eexists|]. clear. induction d as [|b d IH]; [done|]. cbn [cstr].
    destruct (b =? 0); rewrite ?zlen_cons; [|lia]. change (zlen (@nil Z)) with 0. pose proof (zlen_nonneg d). lia. }
  cbn [mbind outcome_bind].
  assert (exists a, (if negb (pkt_nargs r =? 0) then a ← memcpy (pkt_args r) (pkt_nargs r); Ok (Some a) else Ok (pkt_args r)) = Ok a)
    as [a ->].
  { destruct (pkt_nargs r =? 0); [by eexists|]. cbn [negb]. rewrite memcpy_buffer by apply Hr. by eexists. }
  cbn [mbind outcome_bind]. destruct (pkt_data_size r =? 0) eqn:E; cbn [negb].
  - eexists. split; [done|]. cbn. split; [done|]. apply memcpy_buffer, Hr.
  - rewrite memcpy_buffer by apply Hr. eexists. split; [done|]. cbn. split; [done|].
    pose proof (wf_data r Hr) as Hb. destruct (pkt_data r) as [l|]; [by apply (memcpy_buffer _ (Some l))|]. cbn in Hb. lia.
Qed.

(** C31: a call from Java.  When the packet can be sent and an answer arrives, whatever it
    is, exactly the packet is written and exactly the answer is read.  Java gets the data of
    the answer if its id is another one, and otherwise an object without data: an empty one for an
    acknowledgement and a null reference for everything else, an answer with data
    included. *)
Theorem native_send_sync fd rnd cmd args data p r rest w :
  mcs_create_packet rnd cmd (zlen args) (Some args) (zlen data) (Some data) = Ok (Some p) -> sendable p ->
  readable r -> 0 <= fd -> writable fd w -> avail fd (wire r ++ rest) w ->
  sendSyncNative fd rnd cmd args data w
  = Ok (if negb (pkt_id r =? pkt_id p) then (pkt_data_size r, Some (McsFacts.block (pkt_data r)))
        else if pkt_type r =? MCS_TYPE_OK then (0, Some []) else (0, None),
        consume fd (length (wire r)) (emit fd (wire p) w)).
Proof.
  intros Hp Hs Hr Hfd Hw Ha. destruct (exchange p r fd rest w Hs Hr Hfd Hw Ha) as [E1 E2]. pose proof (proj1 Hr) as Hwf.
  unfold sendSyncNative. unfold st_bind at 1, st_lift at 1. rewrite Hp. unfold st_bind at 1, sendSyncSDB.
  rewrite (st_bind_ok _ _ _ _ _ E1). cbn [Z.eqb negb]. rewrite (st_bind_ok _ _ _ _ _ E2).
  unfold st_bind at 1, st_lift at 1. rewrite accepted_passes by done. unfold passes.
  destruct (copy_packet_data r Hwf) as (q & Eq & Hsz & Hd).
  { intros d Hd. destruct (proj2 Hr) as [(_ & _ & _ & _ & Hn & _)|(c & _ & _ & _ & Hm & _)]; [congruence|].
    unfold dest_matches in Hm. destruct (dest_is_arg _ _); [|congruence]. destruct Hm as (d' & Hd' & Hb & _). congruence. }
  destruct (pkt_id r =? pkt_id p); cbn [negb orb].
  - destruct (pkt_type r =? MCS_TYPE_OK) eqn:Et; [|done]. unfold st_bind at 1, st_lift at 1. rewrite Eq. cbn iota beta.
    unfold st_ret at 1. unfold st_bind, st_lift. rewrite Hd, Hsz. apply Z.eqb_eq in Et.
    assert (pkt_data_size r = 0 /\ pkt_data r = None) as [-> ->]; [|done].
    destruct (proj2 Hr) as [(_ & _ & _ & _ & _ & Hok & _)|(c & Hc & _)]; [by apply Hok|]. by rewrite Et in Hc.
  - unfold st_bind at 1, st_lift at 1. rewrite Eq. cbn iota beta. unfold st_ret at 1. unfold st_bind, st_lift. by rewrite Hd, Hsz.
Qed.

(** Connecting sends a handshake for the name [app0] and the group [app], and keeps the
    descriptor after an acknowledgement or an answer with another id. *)
Lemma native_connect fd rnd r rest w : handshake_entry -> readable r -> 0 <= fd -> writable fd w ->
  avail fd (wire r ++ rest) w ->
  connectSDBNative fd 0 rnd w
  = Ok (if passes (u32 rnd) r then fd else -1,
        consume fd (length (wire r)) (emit fd (wire (handshake_of_text rnd welcome)) w)).
Proof.
  intros He Hr Hfd Hw Ha. assert (Hb : bytes_ok welcome) by (vm_compute; by repeat constructor).
  pose proof (handshake_sendable_text rnd welcome He Hb ltac:(by vm_compute)) as Hs.
  destruct (exchange _ r fd rest w Hs Hr Hfd Hw Ha) as [E1 E2].
  unfold connectSDBNative, connectSDB. unfold st_bind at 1, st_lift at 1. change (app_name 0) with (Ok (str "app0")). cbn iota beta.
  rewrite (proj2 (Z.ltb_ge _ _) Hfd). change (0 <? 0) with false. cbn iota.
  unfold st_bind at 1, st_lift at 1. change (strlen welcome) with (zlen welcome).
  rewrite handshake_created by (done || by vm_compute). rewrite (st_bind_ok _ _ _ _ _ E1). cbn [Z.eqb negb].
  rewrite (st_bind_ok _ _ _ _ _ E2). unfold st_bind, st_lift. rewrite accepted_passes by apply Hr. done.
Qed.

End Native.

(** An id of two digits does not fit the name. *)
Example long_name : app_name 10 = UB /\ app_name 9 = Ok (str "app9").
Proof. split; vm_compute; reflexivity. Qed.

(** The daemon takes the handshake for the name [app0] and the group of applications. *)
Example welcome_parsed : parse_handshake (Some (welcome ++ [0])) = Ok (Some (str "app0", Some SDB_GROUP_APP)).
Proof. vm_compute. reflexivity. Qed.

(** ** A concrete instance. *)

Section Demo.
#[local] Existing Instance repo_tables.
#[local] Existing Instance release_build.

(** The command that starts the log, with id 7. *)
Definition qos_start : MCSPacket := mkMCSPacket 7 MCS_TYPE_MESSAGE 2 0 None None 0 None.

Lemma qos_start_sendable : sendable qos_start.
Proof.
  unfold sendable, readable. split_and!; [|right|done|done].
  - by split.
  - eexists. split_and!; done.
Qed.

Definition answer_world (r : MCSPacket) : World := mkWorld 0 {[3 := mkFd (wire_events (wire r)) [] None]}.

Lemma answer_avail r : avail 3 (wire r ++ []) (answer_world r).
Proof.
  exists (mkFd (wire_events (wire r)) [] None), (wire_events (wire r)), []. rewrite !app_nil_r.
  split_and!; [done|done|apply arrived_events].
Qed.

Lemma native_send_sync_witness :
  sendSyncNative 3 7 2 [] [] (answer_world (mcs_ok_packet_id 7))
  = Ok ((0, Some []), consume 3 5 (emit 3 (wire qos_start) (answer_world (mcs_ok_packet_id 7)))).
Proof.
  refine (native_send_sync 3 7 2 [] [] qos_start (mcs_ok_packet_id 7) [] (answer_world (mcs_ok_packet_id 7))
    _ qos_start_sendable (proj1 (ok_packet_sendable 7 _)) _ _ (answer_avail _)).
  - vm_compute. reflexivity.
  - lia.
  - lia.
  - by eexists.
Defined.

End Demo.
