(* ===== verification/DaemonTest.v ===== *)
(** * DaemonTest: the test of the daemon, [src/src/Architecture/SDB/Test/sdb.c].

    Two threads connect to the daemon as [app1] and [app2] without the client
    library: each sends its handshake, [app1] sends a [test] message that [app2]
    acknowledges, and each stops the log of its quality of service.  The macros of
    [sdb_private.h] leave the branch that starts the log out of the program.  What
    the daemon sends is what can be read from the socket. *)

From S2P Require Import Prelude Abs AbsTest McsDefs Mcs McsFacts McsTest.
From S2P Require Import Client ClientProps Network SdbTest Native.

Section Test.
Context `{MCSTables} `{Build}.

Definition test_name (id : Z) : list Z := str "app" ++ [u8 (id + 48)].

(** What [buffer] holds. *)
Definition test_label (id : Z) (what : string) : list Z := test_name id ++ str ": " ++ str what.

Definition welcome (id : Z) : list Z := test_name id ++ str ":app".

Definition log_result (res : ABSTestResult) (buffer : list Z) : ST TestState unit :=
  in_log (abs_test_add_result res (Some buffer)).

(** A step of the thread: a failure ends it. *)
Definition test_step (buffer : list Z) (m : ST TestState bool) (k : ST TestState unit) :
    ST TestState unit :=
  let! ok := m in
  if ok then do! log_result PASS buffer in k else log_result FAIL buffer.

(** The answer has the type [type]; [shown] is what is done with its data. *)
Definition expect_answer (fd type : Z) (shown : option (list Z) -> outcome unit) : ST TestState bool :=
  let! pkt := in_test (mcs_read_command fd fd) in
  match pkt with
  | None => st_ret false
  | Some pkt =>
      if negb (pkt_type pkt =? type) then
        if pkt_type pkt =? MCS_TYPE_ERR
        then do! st_lift (mcs_err_code_from_command pkt) in st_ret false
        else st_ret false
      else do! st_lift (shown (pkt_data pkt)) in st_ret true
  end.

Definition not_shown (data : option (list Z)) : outcome unit := Ok tt.

(** Printed with [%s]: reads up to the null character. *)
Definition shown_text (data : option (list Z)) : outcome unit :=
  match data with
  | Some d => if existsb (Z.eqb 0) d then Ok tt else UB
  | None => UB
  end.

(** Sending a packet that [mcs_create_packet] returned; it is read without a check. *)
Definition send_unchecked (pkt : option MCSPacket) (fd : Z) : ST TestState bool :=
  match pkt with
  | None => st_ub
  | Some pkt => let! ret := in_test (mcs_write_command pkt fd) in st_ret (ret =? 0)
  end.

Definition step_connect (fd conn : Z) : ST TestState bool :=
  if fd <? 0 then st_ret false else if conn <? 0 then st_ret false else st_ret true.

Definition step_handshake (fd rnd id : Z) : ST TestState bool :=
  let! pkt := st_lift (mcs_create_packet rnd MCS_MESSAGE_SDB_HANDSHAKE 0 None
                         (strlen (welcome id) + 1) (Some (welcome id ++ [0]))) in
  match pkt with
  | None => st_ret false
  | Some pkt =>
      let! ret := in_test (mcs_write_command pkt fd) in
      if negb (ret =? 0) then st_ret false else expect_answer fd MCS_TYPE_OK not_shown
  end.

Definition step_send_test (fd rnd : Z) : ST TestState bool :=
  let! pkt := st_lift (mcs_create_packet_with_dest rnd MCS_MESSAGE_TEST (Some (str "app2"))
                         0 None 0 None) in
  let! sent := send_unchecked pkt fd in
  if sent then expect_answer fd MCS_TYPE_OK not_shown else st_ret false.

Definition step_receive_test (fd : Z) : ST TestState bool :=
  let! pkt := in_test (mcs_read_command fd fd) in
  match pkt with
  | None => st_ret false
  | Some pkt =>
      if negb (mcs_command pkt =? MCS_MESSAGE_TEST)
      then do! in_test (mcs_write_command_and_free (mcs_err_packet pkt EUNDEF) fd) in st_ret false
      else do! in_test (mcs_write_command_and_free (mcs_ok_packet pkt) fd) in st_ret true
  end.

Definition step_stop (fd rnd : Z) : ST TestState bool :=
  let! pkt := st_lift (mcs_create_packet rnd MCS_MESSAGE_SDB_QOS_STOP 0 None 0 None) in
  let! sent := send_unchecked pkt fd in
  if sent then expect_answer fd MCS_TYPE_OK_DATA shown_text else st_ret false.

(** [fd] and [conn] are what [socket] and [connect] return. *)
Definition sdb_test_thread (id fd conn rnd0 rnd1 rnd2 : Z) : ST TestState unit :=
  test_step (test_label id "SDB Connection") (step_connect fd conn) (
  test_step (test_label id "Handshake") (step_handshake fd rnd0 id) (
  test_step (test_label id "Test packet")
    (if id =? 1 then step_send_test fd rnd1 else step_receive_test fd) (
  test_step (test_label id "Get QOS") (step_stop fd rnd2) (st_ret tt)))).

(** ** What a thread sends, and when it passes. *)

Lemma in_test_ok {A} (m : ST World A) w log a w' : m w = Ok (a, w') ->
  in_test m (mkTest w log) = Ok (a, mkTest w' log).
Proof. intros E. unfold in_test, st_zoom. cbn. by rewrite E. Qed.

Lemma test_step_pass buffer m k w log w' : m (mkTest w log) = Ok (true, mkTest w' log) ->
  test_step buffer m k (mkTest w log) = k (mkTest w' (log ++ [(PASS, buffer)])).
Proof. intros E. unfold test_step. by rewrite (st_bind_ok _ _ _ _ _ E). Qed.

Lemma expect_answer_ok fd type shown p w w' log : mcs_read_command fd fd w = Ok (Some p, w') ->
  pkt_type p = type -> shown (pkt_data p) = Ok tt ->
  expect_answer fd type shown (mkTest w log) = Ok (true, mkTest w' log).
Proof.
  intros E <- Hs. unfold expect_answer. rewrite (st_bind_ok _ _ _ _ _ (in_test_ok _ _ _ _ _ E)).
  rewrite Z.eqb_refl. unfold st_bind, st_lift. by rewrite Hs.
Qed.

(** From [w] to [w'] the bytes [bs] were sent through [fd], and [rest] is still to be read. *)
Definition flowed (fd : Z) (bs rest : list Z) (w w' : World) : Prop :=
  sent fd w' = sent fd w ++ bs /\ writable fd w' /\ avail fd rest w'.

Lemma sent_emit fd bs w : writable fd w -> sent fd (emit fd bs w) = sent fd w ++ bs.
Proof. intros (f & Hf & _). unfold sent, emit. cbn. by rewrite lookup_alter_eq, Hf. Qed.

Lemma sent_consume fd k n w : sent fd (consume k n w) = sent fd w.
Proof.
  unfold sent, consume. cbn. destruct (decide (k = fd)) as [-> |Hne].
  - rewrite lookup_alter_eq. by destruct (w_fds w !! fd).
  - by rewrite lookup_alter_ne.
Qed.

Lemma exchange_flow p r fd rest w : sendable p -> readable r -> 0 <= fd -> writable fd w ->
  avail fd (wire r ++ rest) w ->
  exists w', mcs_write_command p fd w = Ok (0, emit fd (wire p) w) /\
    mcs_read_command fd fd (emit fd (wire p) w) = Ok (Some r, w') /\ flowed fd (wire p) rest w w'.
Proof.
  intros Hp Hr Hfd Hw Ha. destruct (exchange p r fd rest w) as [E1 E2]; try done.
  eexists. split; [exact E1|]. split; [exact E2|]. unfold flowed. split_and!.
  - rewrite sent_consume. by apply sent_emit.
  - by apply consume_writable, emit_writable.
  - by apply consume_avail, avail_emit.
Qed.

End Test.

Section Passes.
#[local] Existing Instances repo_tables.
Context `{Build}.

Definition test_to (rnd : Z) (dest : list Z) : MCSPacket :=
  mkMCSPacket (u32 rnd) MCS_TYPE_MESSAGE MCS_MESSAGE_TEST 0 None (Some dest) 0 None.

Definition stop_packet (rnd : Z) : MCSPacket :=
  mkMCSPacket (u32 rnd) MCS_TYPE_MESSAGE MCS_MESSAGE_SDB_QOS_STOP 0 None None 0 None.

Lemma u32_id rnd : 0 <= u32 rnd < 2 ^ 32.
Proof. apply Z.mod_pos_bound. lia. Qed.

Lemma test_to_sendable rnd : sendable (test_to rnd (str "app2")).
Proof.
  pose proof (u32_id rnd). unfold sendable, readable. split_and!; [|right|done|].
  - split; cbn; done.
  - eexists. split_and!; try done. exists (str "app2"). split_and!; [done|bytes_lit|done].
  - intros d [= <-]. by repeat constructor.
Qed.

Lemma stop_sendable rnd : sendable (stop_packet rnd).
Proof.
  pose proof (u32_id rnd). unfold sendable, readable. split_and!; [|right|done|done].
  - split; cbn; done.
  - eexists. by split_and!.
Qed.

Lemma handshake_passes fd rnd id r rest w log : 0 <= id < 10 -> 0 <= fd -> writable fd w ->
  readable r -> pkt_type r = MCS_TYPE_OK -> avail fd (wire r ++ rest) w ->
  exists w', step_handshake fd rnd id (mkTest w log) = Ok (true, mkTest w' log) /\
    flowed fd (wire (handshake_of_text rnd (welcome id))) rest w w'.
Proof.
  intros Hid Hfd Hw Hr Ht Ha.
  assert (Hu : u8 (id + 48) = id + 48) by (apply u8_small; lia).
  assert (Hb : bytes_ok (welcome id)).
  { unfold welcome, test_name. rewrite Hu. repeat (apply Forall_app; split); [bytes_lit| |bytes_lit].
    constructor; [unfold byte_ok; lia|constructor]. }
  assert (Hl : strlen (welcome id) = zlen (welcome id)).
  { unfold strlen. f_equal. apply cstr_no_nul. unfold welcome, test_name. rewrite Hu.
    repeat (apply Forall_app; split); [by repeat constructor| |by repeat constructor].
    constructor; [lia|constructor]. }
  destruct (exchange_flow (handshake_of_text rnd (welcome id)) r fd rest w) as (w' & E1 & E2 & Hf);
    try done; [by apply handshake_sendable_text; [apply repo_handshake_entry|..]|].
  exists w'. split; [|done]. unfold step_handshake. rewrite Hl, handshake_created;
    [|apply repo_handshake_entry|done|done].
  erewrite st_bind_ok by reflexivity. cbv iota.
  rewrite (st_bind_ok _ _ _ _ _ (in_test_ok _ _ _ _ _ E1)). change (negb (0 =? 0)) with false. cbv iota.
  by apply (expect_answer_ok _ _ _ r).
Qed.

Lemma send_passes fd p type shown r rest w log : sendable p -> 0 <= fd -> writable fd w ->
  readable r -> pkt_type r = type -> shown (pkt_data r) = Ok tt -> avail fd (wire r ++ rest) w ->
  exists w', (let! sent := send_unchecked (Some p) fd in
      if sent then expect_answer fd type shown else st_ret false) (mkTest w log)
    = Ok (true, mkTest w' log) /\ flowed fd (wire p) rest w w'.
Proof.
  intros Hp Hfd Hw Hr Ht Hs Ha. destruct (exchange_flow p r fd rest w) as (w' & E1 & E2 & Hf); try done.
  exists w'. split; [|done].
  rewrite (st_bind_ok _ _ _ true (mkTest (emit fd (wire p) w) log)).
  2:{ unfold send_unchecked. by rewrite (st_bind_ok _ _ _ _ _ (in_test_ok _ _ _ _ _ E1)). }
  by apply (expect_answer_ok _ _ _ r).
Qed.

Lemma step_stop_eq fd rnd t : step_stop fd rnd t =
  (let! sent := send_unchecked (Some (stop_packet rnd)) fd in
   if sent then expect_answer fd MCS_TYPE_OK_DATA shown_text else st_ret false) t.
Proof.
  assert (E : mcs_create_packet rnd MCS_MESSAGE_SDB_QOS_STOP 0 None 0 None = Ok (Some (stop_packet rnd))).
  { apply (create_ok (u32 rnd) MCS_TYPE_MESSAGE MCS_MESSAGE_SDB_QOS_STOP None 0 None 0 None); try done.
    apply stop_sendable. }
  unfold step_stop, st_bind at 1, st_lift. by rewrite E.
Qed.

Lemma step_send_test_eq fd rnd t : step_send_test fd rnd t =
  (let! sent := send_unchecked (Some (test_to rnd (str "app2"))) fd in
   if sent then expect_answer fd MCS_TYPE_OK not_shown else st_ret false) t.
Proof.
  assert (E : mcs_create_packet_with_dest rnd MCS_MESSAGE_TEST (Some (str "app2")) 0 None 0 None
    = Ok (Some (test_to rnd (str "app2")))).
  { apply (create_ok (u32 rnd) MCS_TYPE_MESSAGE MCS_MESSAGE_TEST (Some (str "app2")) 0 None 0 None); try done.
    apply test_to_sendable. }
  unfold step_send_test, st_bind at 1, st_lift. by rewrite E.
Qed.

(** [app2] acknowledges the message, if [mcs_command] finds that it is one. *)
Lemma receive_passes fd q rest w log : 0 <= fd -> writable fd w -> readable q ->
  mcs_command q = MCS_MESSAGE_TEST -> avail fd (wire q ++ rest) w ->
  exists w', step_receive_test fd (mkTest w log) = Ok (true, mkTest w' log) /\
    flowed fd (wire (mcs_ok_packet q)) rest w w'.
Proof.
  intros Hfd Hw Hq Hc Ha. set (w1 := consume fd (length (wire q)) w).
  assert (Hw1 : writable fd w1) by by apply consume_writable.
  pose proof (mcs_read_parses fd fd q Hfd Hq rest w Ha) as E1. fold w1 in E1.
  pose proof (mcs_write_sendable (mcs_ok_packet q) fd w1
    (ok_packet_sendable (pkt_id q) (wf_id q (proj1 Hq))) Hw1) as E2.
  exists (emit fd (wire (mcs_ok_packet q)) w1). split.
  - unfold step_receive_test. rewrite (st_bind_ok _ _ _ _ _ (in_test_ok _ _ _ _ _ E1)), Hc.
    change (negb (MCS_MESSAGE_TEST =? MCS_MESSAGE_TEST)) with false. cbv iota.
    by rewrite (st_bind_ok _ _ _ _ _ (in_test_ok _ _ _ _ _ E2)).
  - unfold flowed. split_and!.
    + rewrite sent_emit by done. unfold w1. by rewrite sent_consume.
    + by apply emit_writable.
    + apply avail_emit. by apply consume_avail.
Qed.

Definition thread_passes (id : Z) : TestLog :=
  (fun what => (PASS, test_label id what))
  <$> ["SDB Connection"; "Handshake"; "Test packet"; "Get QOS"]%string.

(** What the thread [id] sends in its third step, and what it reads there. *)
Inductive third_step (rnd : Z) : Z -> MCSPacket -> MCSPacket -> Prop :=
| ThirdSends r : readable r -> pkt_type r = MCS_TYPE_OK ->
    third_step rnd 1 (test_to rnd (str "app2")) r
| ThirdReceives q : readable q -> mcs_command q = MCS_MESSAGE_TEST ->
    third_step rnd 2 (mcs_ok_packet q) q.

(** A thread that gets the answers it expects passes its four steps, and sends its
    handshake, the message or its acknowledgement, and the request to stop the log. *)
Lemma thread_passes_ok id fd conn rnd0 rnd1 rnd2 r0 out r1 r2 d rest w log :
  third_step rnd1 id out r1 -> 0 <= fd -> 0 <= conn -> writable fd w ->
  readable r0 -> pkt_type r0 = MCS_TYPE_OK ->
  readable r2 -> pkt_type r2 = MCS_TYPE_OK_DATA -> pkt_data r2 = Some d -> 0 ∈ d ->
  avail fd (wire r0 ++ wire r1 ++ wire r2 ++ rest) w ->
  exists w', sdb_test_thread id fd conn rnd0 rnd1 rnd2 (mkTest w log)
      = Ok (tt, mkTest w' (log ++ thread_passes id)) /\
    flowed fd (wire (handshake_of_text rnd0 (welcome id)) ++ wire out ++ wire (stop_packet rnd2)) rest w w'.
Proof.
  intros H3 Hfd Hconn Hw Hr0 Ht0 Hr2 Ht2 Hd Hz Ha.
  assert (Hid : 0 <= id < 10) by (destruct H3; lia).
  destruct (handshake_passes fd rnd0 id r0 _ w (log ++ [(PASS, test_label id "SDB Connection")]) Hid
    Hfd Hw Hr0 Ht0 Ha) as (w1 & E1 & Hs1 & Hw1 & Ha1).
  assert (H2 : forall log, exists w2, (if id =? 1 then step_send_test fd rnd1 else step_receive_test fd)
      (mkTest w1 log) = Ok (true, mkTest w2 log) /\ flowed fd (wire out) (wire r2 ++ rest) w1 w2).
  { intros log'. destruct H3 as [r Hr Ht|q Hq Hc].
    - change (1 =? 1) with true. cbv iota. rewrite step_send_test_eq.
      by apply (send_passes fd _ MCS_TYPE_OK not_shown r); [apply test_to_sendable|..].
    - by apply receive_passes. }
  destruct (H2 ((log ++ [(PASS, test_label id "SDB Connection")]) ++ [(PASS, test_label id "Handshake")]))
    as (w2 & E2 & Hs2 & Hw2 & Ha2).
  destruct (send_passes fd (stop_packet rnd2) MCS_TYPE_OK_DATA shown_text r2 rest w2
    (((log ++ [(PASS, test_label id "SDB Connection")]) ++ [(PASS, test_label id "Handshake")])
       ++ [(PASS, test_label id "Test packet")]) (stop_sendable rnd2) Hfd Hw2 Hr2 Ht2)
    as (w3 & E3 & Hs3 & Hw3 & Ha3); [|done|].
  { rewrite Hd. unfold shown_text. replace (existsb (Z.eqb 0) d) with true; [done|].
    symmetry. apply existsb_exists. exists 0. by split; [apply list_elem_of_In|]. }
  exists w3. split.
  - unfold sdb_test_thread. rewrite (test_step_pass _ _ _ w log w).
    2:{ unfold step_connect. by rewrite !(proj2 (Z.ltb_ge _ _)). }
    rewrite (test_step_pass _ _ _ _ _ _ E1), (test_step_pass _ _ _ _ _ _ E2).
    rewrite (test_step_pass _ _ _ _ _ w3) by by rewrite step_stop_eq.
    unfold st_ret, thread_passes. by rewrite <- !app_assoc.
  - unfold flowed. by rewrite Hs3, Hs2, Hs1, <- !app_assoc.
Qed.

End Passes.
