(* ===== verification/Sched.v ===== *)
(** * Sched: the task scheduler, [src/src/Architecture/Scheduler].

    Each satellite has a list of local solutions, sets of tasks with a figure of
    merit.  The scheduler ([shed.c]) enumerates the ways of choosing at most one
    local solution per satellite and keeps the combination with the largest
    reward.  The local solutions are generated at random ([shed_local.c]).

    The globals [ntasks] and [nsats], set once from the command line, are the
    parameters of the section; the other globals are [Globals].  Arrays are
    lists; a new array holds zeros where C leaves it unset.  [malloc] succeeds,
    except in [total_occurrences], which runs in a loop and handles a failure; every
    [malloc] and every [free] is counted in the number of blocks in use. *)

From S2P Require Import Prelude Float32.

(** ** Data, [shed_mat.h]. *)

Record LocalSolution := mkLocal { ls_id : Z; ls_F : float; ls_tasks : list Z }.

Record Satellite := mkSat {
  sat_id : Z;
  golden_index : Z;
  local_solutions : list LocalSolution
}.

(** The globals of [shed.c]. *)
Record Globals := mkGlobals {
  golden_index_max : Z;
  tic : float;
  best : float;  (** [max] *)
  duplicates : Z;
  heap : Z  (** the blocks of memory in use *)
}.

(** [rand]: the numbers it will return. *)
Class Rand := { rand : nat -> Z; rand_nonneg n : 0 <= rand n }.

Definition INT_MAX : Z := 2 ^ 31 - 1.
Definition LLONG_MAX : Z := 2 ^ 63 - 1.

Section Scheduler.
Context (ntasks nsats : nat).

(** ** Arrays, [shed_mat.c]. *)

Definition generate_array (length : nat) : list Z := replicate length 0.
Definition generate_array_float (length : nat) : list float := replicate length f_zero.
Definition generate_array_struct (length : nat) : list LocalSolution :=
  replicate length (mkLocal 0 f_zero []).
Definition generate_array_satellites (length : nat) : list Satellite :=
  replicate length (mkSat 0 0 []).

(** ** Rewards, [shed.c]. *)

(** [sats[k].local_solutions[c - 1]]. *)
Definition local_solution (sats : list Satellite) (k : nat) (c : Z) : outcome LocalSolution :=
  s ← arr_get sats k;
  if c - 1 <? 0 then UB else arr_get (local_solutions s) (Z.to_nat (c - 1)).

(** The inner loop over the tasks of a local solution. *)
Definition count_tasks (ls : LocalSolution) (sum : list Z) : outcome (list Z) :=
  for_ 0 ntasks (fun i sum =>
    t ← arr_get (ls_tasks ls) i;
    if t =? 1 then v ← arr_get sum i; arr_set sum i (v + 1) else Ok sum) sum.

(** The number of repetitions of each task. *)
Definition sum_occurrences (sats : list Satellite) (combination : list Z) : outcome (list Z) :=
  for_ 0 nsats (fun k sum =>
    c ← arr_get combination k;
    if c =? 0 then Ok sum
    else ls ← local_solution sats k c; count_tasks ls sum) (generate_array ntasks).

(** [n] and [nzeros]; an [int] that overflows is undefined. *)
Definition count_sum (sum : list Z) : outcome (Z * Z) :=
  for_ 0 ntasks (fun i acc =>
    v ← arr_get sum i;
    let '(n, nzeros) := acc in
    if v =? 0 then Ok (n, nzeros + 1)
    else if v =? 1 then Ok (n, nzeros)
    else if INT_MAX <? n + v then UB else Ok (n + v, nzeros))
    (0, 0).

Definition set_tic (x : float) : ST Globals unit :=
  st_modify (fun g => mkGlobals (golden_index_max g) x (best g) (duplicates g) (heap g)).

(** [malloc] and [free] of a block: one more, one less. *)
Definition use (n : Z) : ST Globals unit :=
  st_modify (fun g => mkGlobals (golden_index_max g) (tic g) (best g) (duplicates g) (heap g + n)).

(** [oom]: the array [sum] could not be allocated. *)
Definition total_occurrences (oom : bool) (sats : list Satellite) (combination : list Z) :
    ST Globals Z :=
  if oom then st_ret (-1)
  else
    do! use 1 in
    let! sum := st_lift (sum_occurrences sats combination) in
    let! (n, nzeros) := st_lift (count_sum sum) in
    if (Z.of_nat ntasks =? 0) || (INT_MAX <? (Z.of_nat ntasks - nzeros) * 10) then st_ub
    else
      do! set_tic (f_of_int ((Z.of_nat ntasks - nzeros) * 10 ÷ Z.of_nat ntasks)) in
      do! use (-1) in
      if n =? 0 then st_ret 1 else st_ret n.

Definition total_reward (sats : list Satellite) (combination : list Z) : ST Globals float :=
  let! sum_reward := st_lift (for_ 0 nsats (fun k sum_reward =>
    c ← arr_get combination k;
    if c =? 0 then Ok sum_reward
    else ls ← local_solution sats k c; Ok (f_add sum_reward (ls_F ls))) f_zero) in
  let! t := st_gets tic in
  st_ret (f_mul sum_reward t).

(** The loop of [check_solution] over [n] satellites from [k]. *)
Fixpoint check_loop (sats : list Satellite) (combination : list Z) (k n : nat) : ST Globals Z :=
  match n with
  | O => st_ret 1
  | S n' =>
      let! c := st_lift (arr_get combination k) in
      if c =? 0 then check_loop sats combination (S k) n'
      else
        let! ls := st_lift (local_solution sats k c) in
        if f_eq (ls_F ls) f_zero then
          do! st_modify (fun g => mkGlobals (golden_index_max g) (tic g) (best g) (duplicates g + 1) (heap g)) in
          st_ret 0
        else check_loop sats combination (S k) n'
  end.

Definition check_solution (sats : list Satellite) (combination : list Z) : ST Globals Z :=
  check_loop sats combination 0 nsats.

(** ** Combinations. *)

(** The [while] of [next_combination], for satellite [n - 1]. *)
Fixpoint carry_loop (sats : list Satellite) (combination : list Z) (n : nat) : outcome (list Z) :=
  match n with
  | O => Ok combination
  | S k =>
      v ← arr_get combination k;
      s ← arr_get sats k;
      if golden_index s <? v + 1
      then combination ← arr_set combination k 0; carry_loop sats combination k
      else arr_set combination k (v + 1)
  end.

Definition next_combination (sats : list Satellite) (combination : list Z) : outcome (list Z) :=
  carry_loop sats combination nsats.

(** A product that does not fit a [long long] is undefined. *)
Definition number_of_combinations (sats : list Satellite) : outcome Z :=
  s0 ← arr_get sats 0;
  for_ 1 (nsats - 1) (fun k combs =>
    s ← arr_get sats k;
    if LLONG_MAX <? combs * (golden_index s + 1) then UB else Ok (combs * (golden_index s + 1)))
    (golden_index s0 + 1).

Definition copy_solution (combination solution : list Z) : outcome (list Z) :=
  for_ 0 nsats (fun k solution => v ← arr_get combination k; arr_set solution k v) solution.

Definition get_golden_index_max (sats : list Satellite) : ST Globals unit :=
  let! g := st_get in
  let! m := st_lift (for_ 0 nsats (fun k m =>
    s ← arr_get sats k; Ok (if m <? golden_index s then golden_index s else m))
    (golden_index_max g)) in
  st_modify (fun g => mkGlobals m (tic g) (best g) (duplicates g) (heap g)).

(** The loop of [compare_solutions] over [n] tasks from [i]. *)
Fixpoint compare_loop (solution1 solution2 : list Z) (i n : nat) : outcome Z :=
  match n with
  | O => Ok 1
  | S n' =>
      x ← arr_get solution1 i;
      y ← arr_get solution2 i;
      if negb (x =? y) then Ok 0 else compare_loop solution1 solution2 (S i) n'
  end.

Definition compare_solutions (solution1 solution2 : list Z) : outcome Z :=
  compare_loop solution1 solution2 0 ntasks.

(** The solutions of satellite [sat] after the call; nobody calls it. *)
Definition delete_duplicates (solutions : list LocalSolution) (gi : Z) (sol : nat) :
    outcome (list LocalSolution) :=
  for_ (sol + 1) (Z.to_nat gi - (sol + 1)) (fun j solutions =>
    lj ← arr_get solutions j;
    if f_eq (ls_F lj) f_zero then Ok solutions
    else
      ls ← arr_get solutions sol;
      equals ← compare_solutions (ls_tasks ls) (ls_tasks lj);
      if negb (equals =? 0) then arr_set solutions j (mkLocal (ls_id lj) f_zero (ls_tasks lj))
      else Ok solutions) solutions.

(** ** The search. *)

(** The body of the loop of [solve]: the combination and the solution after it. *)
Definition solve_step (oom : bool) (sats : list Satellite) (combination solution : list Z) :
    ST Globals (list Z * list Z) :=
  let! combination := st_lift (next_combination sats combination) in
  let! valid := check_solution sats combination in
  if valid =? 0 then st_ret (combination, solution)
  else
    let! n := total_occurrences oom sats combination in
    let! r := total_reward sats combination in
    let num := f_div r (f_of_int n) in
    let! g := st_get in
    if f_lt (best g) num then
      do! st_modify (fun g => mkGlobals (golden_index_max g) (tic g) num (duplicates g) (heap g)) in
      let! solution := st_lift (copy_solution combination solution) in
      st_ret (combination, solution)
    else st_ret (combination, solution).

Fixpoint solve_loop (oom : nat -> bool) (sats : list Satellite) (i n : nat)
    (combination solution : list Z) : ST Globals (list Z * list Z) :=
  match n with
  | O => st_ret (combination, solution)
  | S n' =>
      let! (combination, solution) := solve_step (oom i) sats combination solution in
      solve_loop oom sats (S i) n' combination solution
  end.

(** The counter [i] is an [int]: with more combinations it overflows. *)
Definition solve (oom : nat -> bool) (sats : list Satellite) (combination solution : list Z) :
    ST Globals (Z * list Z) :=
  let! combs := st_lift (number_of_combinations sats) in
  do! get_golden_index_max sats in
  let! combination := st_lift (for_ 0 nsats (fun k c => arr_set c k 0) combination) in
  if INT_MAX <? combs then st_ub
  else
    let! (combination, solution) :=
      solve_loop oom sats 1 (Z.to_nat (combs - 1)) combination solution in
    st_ret (0, solution).

(** ** Random local solutions, [shed_local.c]. *)

Section Local.
Context `{Rand}.

(** The number of calls of [rand] so far and the blocks of memory in use. *)
Record Gen := mkGen { draws : nat; used : Z }.

Definition next_rand : ST Gen Z := fun g => Ok (rand (draws g), mkGen (S (draws g)) (used g)).

Definition set_used (n : Z) : ST Gen unit := st_modify (fun g => mkGen (draws g) n).
Definition malloc : ST Gen unit := st_modify (fun g => mkGen (draws g) (used g + 1)).
Definition free : ST Gen unit := st_modify (fun g => mkGen (draws g) (used g - 1)).

(** The [while] of [generate_tasks]; [a] of [n_ones] ones are there. *)
Fixpoint tasks_loop (fuel : nat) (n_ones a : Z) (tasks : list Z) : ST Gen (option (list Z)) :=
  if a <? n_ones then
    match fuel with
    | O => st_ret None
    | S fuel' =>
        let! r := next_rand in
        let i := Z.to_nat (r mod Z.of_nat ntasks) in
        let! v := st_lift (arr_get tasks i) in
        if v =? 1 then tasks_loop fuel' n_ones a tasks
        else let! tasks := st_lift (arr_set tasks i 1) in tasks_loop fuel' n_ones (a + 1) tasks
    end
  else st_ret (Some tasks).

(** [None]: the loop has not ended after [fuel] rounds. *)
Definition generate_tasks (fuel : nat) (tasks : list Z) : ST Gen (option (list Z)) :=
  if Z.of_nat ntasks =? 0 then st_ub
  else
    let! r := next_rand in
    let n_ones := r mod Z.of_nat ntasks + 1 in
    let! tasks := st_lift (for_ 0 ntasks (fun i tasks => arr_set tasks i 0) tasks) in
    tasks_loop fuel n_ones 0 tasks.

Definition generate_local_solution (fuel : nat) (id : Z) (ls : LocalSolution) (F : float) :
    ST Gen (option LocalSolution) :=
  let? tasks := generate_tasks fuel (ls_tasks ls) in
  st_ret (Some (mkLocal id F tasks)).

(** The figures of merit, each a random number of hundredths. *)
Fixpoint random_F (n : nat) : ST Gen (list float) :=
  match n with
  | O => st_ret []
  | S n' =>
      let! r := next_rand in
      let! F := random_F n' in
      st_ret (f_div (f_of_int (r mod 99 + 1)) (f_of_int 100) :: F)
  end.

(** The body of the inner loop of the sort. *)
Definition sort_step (d : nat) (F : list float) : outcome (list float) :=
  x ← arr_get F d;
  y ← arr_get F (d + 1);
  if f_lt x y then F ← arr_set F d y; arr_set F (d + 1) x else Ok F.

Definition sort_F (gi : nat) (F : list float) : outcome (list float) :=
  for_ 0 (gi - 1) (fun c F => for_ 0 (gi - c - 1) sort_step F) F.

(** The last loop of [generate_solutions], over [n] solutions from [i]. *)
Fixpoint fill_solutions (fuel : nat) (F : list float) (i n : nat) (ls : list LocalSolution) :
    ST Gen (option (list LocalSolution)) :=
  match n with
  | O => st_ret (Some ls)
  | S n' =>
      let! l := st_lift (arr_get ls i) in
      let! f := st_lift (arr_get F i) in
      let? l := generate_local_solution fuel (Z.of_nat i + 1) l f in
      let! ls := st_lift (arr_set ls i l) in
      fill_solutions fuel F (S i) n' ls
  end.

Definition generate_solutions (fuel : nat) (sat : Satellite) : ST Gen (option Satellite) :=
  let gi := Z.to_nat (golden_index sat) in
  do! malloc in
  let! F := random_F gi in
  let! F := st_lift (sort_F gi F) in
  let? ls := fill_solutions fuel F 0 gi (local_solutions sat) in
  do! free in
  st_ret (Some (mkSat (sat_id sat) (golden_index sat) ls)).

(** ** Initialisation, [shed.c]. *)

(** The tasks of [n] solutions from [j]. *)
Fixpoint allocate_tasks (j n : nat) (ls : list LocalSolution) : ST Gen (list LocalSolution) :=
  match n with
  | O => st_ret ls
  | S n' =>
      do! malloc in
      let! l := st_lift (arr_get ls j) in
      let! ls := st_lift (arr_set ls j (mkLocal (ls_id l) (ls_F l) (generate_array ntasks))) in
      allocate_tasks (S j) n' ls
  end.

(** The loop of [allocate_satellites] over [n] satellites from [k]. *)
Fixpoint allocate_loop (gim : Z) (k n : nat) (sats : list Satellite) : ST Gen (list Satellite) :=
  match n with
  | O => st_ret sats
  | S n' =>
      do! malloc in
      let! ls := allocate_tasks 0 (Z.to_nat gim) (generate_array_struct (Z.to_nat gim)) in
      let! sats := st_lift (arr_set sats k (mkSat (Z.of_nat k + 1) gim ls)) in
      allocate_loop gim (S k) n' sats
  end.

Definition allocate_satellites (gim : Z) (sats : list Satellite) : ST Gen (list Satellite) :=
  allocate_loop gim 0 nsats sats.

Fixpoint generate_all (fuel : nat) (k n : nat) (sats : list Satellite) :
    ST Gen (option (list Satellite)) :=
  match n with
  | O => st_ret (Some sats)
  | S n' =>
      let! s := st_lift (arr_get sats k) in
      let? s := generate_solutions fuel s in
      let! sats := st_lift (arr_set sats k s) in
      generate_all fuel (S k) n' sats
  end.

Definition init_satellites (fuel : nat) (gim : Z) : ST Gen (option (list Satellite)) :=
  do! malloc in
  let! sats := allocate_satellites gim (generate_array_satellites nsats) in
  generate_all fuel 0 nsats sats.

End Local.

End Scheduler.
