(* ===== verification/SchedFacts.v ===== *)
(** * SchedFacts: the scheduler's loops in terms of the chosen solutions.

    A combination chooses some local solutions; the counters and sums of the
    scheduler are functions of that list.  A combination is also a number in a
    mixed radix, and [next_combination] adds one to it. *)

From S2P Require Import Prelude Float32 Sched.

(** ** Specification. *)

Fixpoint sum_upto (f : nat -> Z) (n : nat) : Z :=
  match n with O => 0 | S k => sum_upto f k + f k end.

Section Spec.
Context (ntasks nsats : nat).

Definition wf_sat (s : Satellite) : Prop :=
  golden_index s = zlen (local_solutions s) /\
  Forall (fun l => length (ls_tasks l) = ntasks) (local_solutions s).

Definition wf_sats (sats : list Satellite) : Prop :=
  length sats = nsats /\ Forall wf_sat sats.

(** A combination gives each satellite the number of a local solution, or 0. *)
Definition valid_comb (sats : list Satellite) (c : list Z) : Prop :=
  Forall2 (fun s v => 0 <= v <= golden_index s) sats c.

Definition choice (sv : Satellite * Z) : option LocalSolution :=
  if sv.2 =? 0 then None else local_solutions sv.1 !! Z.to_nat (sv.2 - 1).

(** The local solutions a combination chooses. *)
Definition chosen (sats : list Satellite) (c : list Z) : list LocalSolution :=
  omap choice (zip sats c).

(** How many of them have task [i]. *)
Definition occurrences (ls : list LocalSolution) (i : nat) : Z :=
  zlen (filter (fun l => ls_tasks l !! i = Some 1) ls).

(** The occurrences of the tasks that occur more than once, and the number of
    tasks that do not occur. *)
Definition repeated (ls : list LocalSolution) : Z :=
  sum_upto (fun i => if occurrences ls i <=? 1 then 0 else occurrences ls i) ntasks.
Definition absent (ls : list LocalSolution) : Z :=
  sum_upto (fun i => if occurrences ls i =? 0 then 1 else 0) ntasks.

Definition coverage (ls : list LocalSolution) : float :=
  f_of_int ((Z.of_nat ntasks - absent ls) * 10 ÷ Z.of_nat ntasks).

(** The reward: the sum of the figures of merit, times the tenths of the tasks
    covered, divided by the occurrences of repeated tasks. *)
Definition score (sats : list Satellite) (c : list Z) : float :=
  let ls := chosen sats c in
  f_div (f_mul (foldl f_add f_zero (ls_F <$> ls)) (coverage ls))
    (f_of_int (if repeated ls =? 0 then 1 else repeated ls)).

(** A combination with a deleted solution, one with merit zero. *)
Definition has_deleted (sats : list Satellite) (c : list Z) : bool :=
  existsb (fun l => f_eq (ls_F l) f_zero) (chosen sats c).

(** A combination as a number. *)
Definition weight (sats : list Satellite) : Z :=
  foldl (fun w s => w * (golden_index s + 1)) 1 sats.
Definition rank (sats : list Satellite) (c : list Z) : Z :=
  foldl (fun r sv => r * (golden_index sv.1 + 1) + sv.2) 0 (zip sats c).

(** ** Choices. *)

Lemma valid_lookup sats c k s : valid_comb sats c -> sats !! k = Some s ->
  exists v, c !! k = Some v /\ 0 <= v <= golden_index s.
Proof. intros Hv Hs. destruct (Forall2_lookup_l _ _ _ _ _ Hv Hs) as (v & Hc & Hr). by exists v. Qed.

Lemma local_solution_ok sats k s v : sats !! k = Some s -> wf_sat s -> 0 < v <= golden_index s ->
  exists l, local_solution sats k v = Ok l /\ choice (s, v) = Some l /\ length (ls_tasks l) = ntasks.
Proof.
  intros Hs [Hg Hl] Hv. unfold zlen in Hg.
  destruct (lookup_lt_is_Some_2 (local_solutions s) (Z.to_nat (v - 1))) as [l El]; [lia|].
  exists l. unfold local_solution, choice. cbn [fst snd].
  rewrite (obind_ok _ _ _ (arr_get_ok _ _ _ Hs)).
  rewrite (proj2 (Z.ltb_ge _ _)) by lia. rewrite (proj2 (Z.eqb_neq v 0)) by lia.
  split_and!; [by apply arr_get_ok|done|]. by eapply (Forall_lookup_1 _ _ _ _ Hl El).
Qed.

Lemma zip_lookup (sats : list Satellite) (c : list Z) k s v : sats !! k = Some s -> c !! k = Some v ->
  zip sats c !! k = Some (s, v).
Proof. intros Hs Hv. rewrite lookup_zip_with, Hs. cbn. by rewrite Hv. Qed.

(** Every chosen solution has the right number of tasks. *)
Lemma chosen_tasks sats c : Forall wf_sat sats ->
  Forall (fun l => length (ls_tasks l) = ntasks) (chosen sats c).
Proof.
  intros Hwf. apply Forall_forall. intros l (sv & Hin & Hch)%list_elem_of_omap.
  destruct sv as [s v]. apply elem_of_zip_l in Hin.
  rewrite Forall_forall in Hwf. specialize (Hwf s Hin) as [_ Hl].
  unfold choice in Hch. cbn in Hch. destruct (v =? 0); [done|].
  by eapply (Forall_lookup_1 _ _ _ _ Hl Hch).
Qed.

(** A loop over the satellites that does something with each chosen solution. *)
Lemma chosen_loop {A} (I : A -> Prop) (step : LocalSolution -> A -> outcome A)
    (f : A -> LocalSolution -> A) sats c a0 :
  wf_sats sats -> valid_comb sats c -> I a0 ->
  (forall l a, length (ls_tasks l) = ntasks -> I a -> step l a = Ok (f a l) /\ I (f a l)) ->
  for_ 0 nsats (fun k a =>
    v ← arr_get c k;
    if v =? 0 then Ok a else ls ← local_solution sats k v; step ls a) a0
  = Ok (foldl f a0 (chosen sats c)) /\ I (foldl f a0 (chosen sats c)).
Proof.
  intros [Hlen Hwf] Hv H0 Hstep.
  destruct (for_inv (fun k a => a = foldl f a0 (omap choice (take k (zip sats c))) /\ I a)
    (fun k a => v ← arr_get c k;
       if v =? 0 then Ok a else ls ← local_solution sats k v; step ls a) 0 nsats a0)
    as (a & E & Ha & HI); [done| |].
  - intros k a Hk [-> HI]. destruct (lookup_lt_is_Some_2 sats k) as [s Hs]; [lia|].
    destruct (valid_lookup _ _ _ _ Hv Hs) as (v & Hc & Hr).
    rewrite (take_S_r _ _ (s, v)) by by apply zip_lookup.
    rewrite omap_app, foldl_app. cbn [omap list_omap].
    rewrite (obind_ok _ _ _ (arr_get_ok _ _ _ Hc)).
    destruct (v =? 0) eqn:E0; bool_prop.
    + subst v. eexists. split; [done|]. by split.
    + destruct (local_solution_ok sats k s v Hs) as (l & El & Ech & Hl);
        [by eapply (Forall_lookup_1 _ _ _ _ Hwf Hs)|lia|].
      rewrite (obind_ok _ _ _ El), Ech. destruct (Hstep l _ Hl HI) as [Es HI'].
      eexists. split; [exact Es|]. by split.
  - assert (Hz : take nsats (zip sats c) = zip sats c).
    { apply take_ge. rewrite length_zip_with. lia. }
    cbn [Nat.add] in Ha. rewrite Hz in Ha. unfold chosen. by rewrite E, <- Ha.
Qed.

(** ** Counting. *)

Lemma count_tasks_ok ls (sum : list Z) : length (ls_tasks ls) = ntasks -> length sum = ntasks ->
  count_tasks ntasks ls sum = Ok (zip_with (fun t v => if t =? 1 then v + 1 else v) (ls_tasks ls) sum).
Proof.
  intros Ht Hs. set (g := fun t v => if t =? 1 then v + 1 else v).
  destruct (for_inv (fun k s => s = zip_with g (take k (ls_tasks ls)) (take k sum) ++ drop k sum)
    (fun i sum => t ← arr_get (ls_tasks ls) i;
       if t =? 1 then v ← arr_get sum i; arr_set sum i (v + 1) else Ok sum) 0 ntasks sum)
    as (s & E & Hp); [done| |].
  - intros k s Hk ->. destruct (lookup_lt_is_Some_2 (ls_tasks ls) k) as [t Et]; [lia|].
    destruct (lookup_lt_is_Some_2 sum k) as [v Ev]; [lia|].
    rewrite (obind_ok _ _ _ (arr_get_ok _ _ _ Et)).
    set (pre := zip_with g (take k (ls_tasks ls)) (take k sum)).
    assert (Hpre : length pre = k) by (unfold pre; rewrite length_zip_with, !length_take; lia).
    rewrite (take_S_r (ls_tasks ls) k t), (take_S_r sum k v) by done.
    rewrite zip_with_app by (rewrite !length_take; lia). fold pre. cbn [zip_with].
    rewrite (drop_S sum v k) by done. rewrite <- app_assoc. cbn [app].
    unfold g at 1. destruct (t =? 1).
    + assert (Hl : (pre ++ v :: drop (S k) sum) !! k = Some v)
        by (rewrite lookup_app_r, Hpre, Nat.sub_diag by lia; done).
      rewrite (obind_ok _ _ _ (arr_get_ok _ _ _ Hl)). eexists. split; [|done].
      unfold arr_set. rewrite Hl. rewrite insert_app_r_alt, Hpre, Nat.sub_diag by lia. done.
    + by eexists.
  - unfold count_tasks. rewrite E. f_equal. rewrite Hp. cbn [Nat.add].
    rewrite !take_ge, drop_ge by lia. by rewrite app_nil_r.
Qed.

Lemma occurrences_snoc ls l i :
  occurrences (ls ++ [l]) i = occurrences ls i + (if decide (ls_tasks l !! i = Some 1) then 1 else 0).
Proof.
  unfold occurrences. rewrite filter_app, zlen_app. f_equal. cbn [filter list_filter].
  by case_decide.
Qed.

Lemma fold_counts ls : Forall (fun l => length (ls_tasks l) = ntasks) ls ->
  foldl (fun sum l => zip_with (fun t v => if t =? 1 then v + 1 else v) (ls_tasks l) sum)
    (generate_array ntasks) ls
  = occurrences ls <$> seq 0 ntasks.
Proof.
  induction ls as [|l ls IH] using rev_ind; intros Hl.
  - apply list_eq. intros i. cbn. unfold generate_array. rewrite list_lookup_fmap.
    destruct (decide (i < ntasks)%nat) as [Hi|Hi].
    + by rewrite lookup_replicate_2, lookup_seq_lt by done.
    + rewrite lookup_ge_None_2 by (rewrite length_replicate; lia). by rewrite lookup_seq_ge by lia.
  - apply Forall_app in Hl as [Hls Hl]. rewrite Forall_singleton in Hl.
    rewrite foldl_app. cbn [foldl]. rewrite IH by done. apply list_eq. intros i.
    rewrite lookup_zip_with, !list_lookup_fmap. destruct (decide (i < ntasks)%nat) as [Hi|Hi].
    + rewrite lookup_seq_lt by done. destruct (lookup_lt_is_Some_2 (ls_tasks l) i) as [t Et]; [lia|].
      rewrite Et. cbn. rewrite occurrences_snoc, Et. f_equal. case_decide as Hd.
      * injection Hd as ->. done.
      * rewrite (proj2 (Z.eqb_neq t 1)) by congruence. lia.
    + rewrite lookup_seq_ge by lia. rewrite lookup_ge_None_2 by lia. done.
Qed.

Lemma sum_occurrences_ok sats c : wf_sats sats -> valid_comb sats c ->
  sum_occurrences ntasks nsats sats c = Ok (occurrences (chosen sats c) <$> seq 0 ntasks).
Proof.
  intros Hwf Hv. rewrite <- fold_counts by (apply chosen_tasks, Hwf).
  apply (chosen_loop (fun s => length s = ntasks) (count_tasks ntasks)); try done.
  - apply length_replicate.
  - intros l a Hl Ha. split; [by apply count_tasks_ok|]. rewrite length_zip_with. lia.
Qed.

Lemma sum_upto_bound (f : nat -> Z) m n : (forall i, 0 <= f i <= m) ->
  0 <= sum_upto f n <= Z.of_nat n * m.
Proof. intros Hf. induction n as [|n IH]; cbn [sum_upto]; [lia|]. specialize (Hf n). lia. Qed.

Lemma count_sum_ok (h : nat -> Z) m : (forall i, 0 <= h i <= m) -> Z.of_nat ntasks * m <= INT_MAX ->
  count_sum ntasks (h <$> seq 0 ntasks)
  = Ok (sum_upto (fun i => if h i <=? 1 then 0 else h i) ntasks,
        sum_upto (fun i => if h i =? 0 then 1 else 0) ntasks).
Proof.
  intros Hh Hm. unfold count_sum.
  destruct (for_inv (fun k acc => acc = (sum_upto (fun i => if h i <=? 1 then 0 else h i) k,
      sum_upto (fun i => if h i =? 0 then 1 else 0) k))
    (fun i acc => v ← arr_get (h <$> seq 0 ntasks) i; let '(n, nzeros) := acc in
       if v =? 0 then Ok (n, nzeros + 1) else if v =? 1 then Ok (n, nzeros)
       else if INT_MAX <? n + v then UB else Ok (n + v, nzeros))
    0 ntasks (0, 0)) as (acc & E & Hacc); [done| |].
  - intros k acc Hk ->.
    assert (El : (h <$> seq 0 ntasks) !! k = Some (h k))
      by (rewrite list_lookup_fmap, lookup_seq_lt by lia; done).
    rewrite (obind_ok _ _ _ (arr_get_ok _ _ _ El)). cbn [sum_upto].
    set (n := sum_upto (fun i => if h i <=? 1 then 0 else h i) k).
    assert (Hn : 0 <= n <= Z.of_nat k * m).
    { apply sum_upto_bound. intros i. specialize (Hh i). destruct (h i <=? 1); lia. }
    specialize (Hh k). destruct (h k =? 0) eqn:E0; [|destruct (h k =? 1) eqn:E1]; bool_prop.
    + rewrite (proj2 (Z.leb_le _ _)) by lia. rewrite Z.add_0_r. by eexists.
    + rewrite (proj2 (Z.leb_le _ _)) by lia. rewrite !Z.add_0_r. by eexists.
    + rewrite (proj2 (Z.ltb_ge _ _)) by nia. rewrite (proj2 (Z.leb_gt _ _)) by lia.
      rewrite Z.add_0_r. by eexists.
  - by rewrite E, Hacc.
Qed.

Lemma occurrences_bound ls i : 0 <= occurrences ls i <= zlen ls.
Proof.
  split; [apply zlen_nonneg|]. unfold occurrences, zlen. pose proof (length_filter (fun l => ls_tasks l !! i = Some 1) ls). lia.
Qed.

Lemma length_omap_le {A B} (f : A -> option B) l : (length (omap f l) <= length l)%nat.
Proof. induction l as [|x l IH]; cbn; [lia|]. destruct (f x); cbn; lia. Qed.

Lemma chosen_bound sats c : (length (chosen sats c) <= length sats)%nat.
Proof.
  unfold chosen. pose proof (length_omap_le choice (zip sats c)) as Hl.
  rewrite length_zip_with in Hl. lia.
Qed.

(** ** The functions of the scheduler. *)

Implicit Types g : Globals.

Definition upd_tic (x : float) g : Globals :=
  mkGlobals (golden_index_max g) x (best g) (duplicates g) (heap g).

(** The counters of the tasks fit an [int]. *)
Definition sizes_ok : Prop :=
  (0 < ntasks)%nat /\ Z.of_nat ntasks * 10 <= INT_MAX /\ Z.of_nat ntasks * Z.of_nat nsats <= INT_MAX.

Lemma total_occurrences_ok sats c g : sizes_ok -> wf_sats sats -> valid_comb sats c ->
  let ls := chosen sats c in
  total_occurrences ntasks nsats false sats c g
  = Ok (if repeated ls =? 0 then 1 else repeated ls, upd_tic (coverage ls) g).
Proof.
  intros (Hn & H10 & Hns) Hwf Hv ls. unfold total_occurrences.
  erewrite st_bind_ok by done. unfold st_bind at 1, st_lift. rewrite sum_occurrences_ok by done. fold ls. unfold st_bind at 1.
  assert (Hb : forall i, 0 <= occurrences ls i <= Z.of_nat nsats).
  { intros i. pose proof (occurrences_bound ls i). pose proof (chosen_bound sats c) as Hc.
    rewrite (proj1 Hwf) in Hc. fold ls in Hc. unfold zlen in *. lia. }
  rewrite (count_sum_ok _ _ Hb Hns). fold (repeated ls) (absent ls).
  assert (Ha : 0 <= absent ls <= Z.of_nat ntasks * 1).
  { apply sum_upto_bound. intros i. destruct (_ =? 0); lia. }
  rewrite (proj2 (Z.eqb_neq (Z.of_nat ntasks) 0)) by lia. cbn [orb].
  rewrite (proj2 (Z.ltb_ge _ _)) by lia. do 2 erewrite st_bind_ok by done.
  unfold upd_tic. cbn [golden_index_max tic best duplicates heap]. replace (heap g + 1 + -1) with (heap g) by lia.
  by destruct (repeated ls =? 0).
Qed.

Lemma foldl_fmap_F (ls : list LocalSolution) a :
  foldl (fun r l => f_add r (ls_F l)) a ls = foldl f_add a (ls_F <$> ls).
Proof. revert a. induction ls as [|l ls IH]; intros a; cbn; [done|]. apply IH. Qed.

Lemma total_reward_ok sats c g : wf_sats sats -> valid_comb sats c ->
  total_reward nsats sats c g
  = Ok (f_mul (foldl f_add f_zero (ls_F <$> chosen sats c)) (tic g), g).
Proof.
  intros Hwf Hv. unfold total_reward, st_bind at 1, st_lift.
  destruct (chosen_loop (fun _ => True) (fun ls r => Ok (f_add r (ls_F ls)))
    (fun r ls => f_add r (ls_F ls)) sats c f_zero Hwf Hv I) as [-> _]; [done|].
  by rewrite foldl_fmap_F.
Qed.

Definition count_duplicate g : Globals :=
  mkGlobals (golden_index_max g) (tic g) (best g) (duplicates g + 1) (heap g).

Lemma check_solution_ok sats c g : wf_sats sats -> valid_comb sats c ->
  check_solution nsats sats c g
  = Ok (if has_deleted sats c then (0, count_duplicate g) else (1, g)).
Proof.
  intros [Hlen Hwf] Hv. unfold check_solution.
  assert (Hloop : forall n k, (k + n)%nat = nsats -> check_loop sats c k n g
    = Ok (if existsb (fun l => f_eq (ls_F l) f_zero) (omap choice (drop k (zip sats c)))
          then (0, count_duplicate g) else (1, g))).
  { induction n as [|n IH]; intros k Hk.
    - rewrite drop_ge; [done|]. rewrite length_zip_with. lia.
    - destruct (lookup_lt_is_Some_2 sats k) as [s Hs]; [lia|].
      destruct (valid_lookup _ _ _ _ Hv Hs) as (v & Hc & Hr).
      rewrite (drop_S _ (s, v) k) by by apply zip_lookup. cbn [check_loop].
      unfold st_bind at 1, st_lift. rewrite (arr_get_ok _ _ _ Hc). cbn [omap list_omap].
      destruct (v =? 0) eqn:E0; bool_prop.
      + subst v. cbn. apply IH. lia.
      + destruct (local_solution_ok sats k s v Hs) as (l & El & -> & _);
          [by eapply (Forall_lookup_1 _ _ _ _ Hwf Hs)|lia|].
        unfold st_bind at 1. rewrite El. cbn [existsb]. destruct (f_eq (ls_F l) f_zero); [done|].
        cbn [orb]. apply IH. lia. }
  by rewrite Hloop.
Qed.

Lemma copy_solution_ok (c sol : list Z) : length c = nsats -> length sol = nsats ->
  copy_solution nsats c sol = Ok c.
Proof.
  intros Hc Hs. unfold copy_solution.
  destruct (for_inv (fun k s => s = take k c ++ drop k sol)
    (fun k solution => v ← arr_get c k; arr_set solution k v) 0 nsats sol) as (s & E & Hp); [done| |].
  - intros k s Hk ->. destruct (lookup_lt_is_Some_2 c k) as [v Ev]; [lia|].
    rewrite (obind_ok _ _ _ (arr_get_ok _ _ _ Ev)). eexists.
    rewrite arr_set_ok by (rewrite length_app, length_take, length_drop; lia). split; [done|].
    rewrite insert_app_r_alt by (rewrite length_take; lia).
    rewrite length_take, Nat.min_l, Nat.sub_diag by lia. rewrite (take_S_r c k v) by done.
    destruct (lookup_lt_is_Some_2 sol k) as [w Ew]; [lia|].
    rewrite (drop_S sol w k) by done. by rewrite <- app_assoc.
  - rewrite E, Hp. cbn [Nat.add]. rewrite take_ge, drop_ge by lia. by rewrite app_nil_r.
Qed.

End Spec.
