(* ===== verification/SchedProps.v ===== *)
(** * SchedProps: the search is exhaustive and returns a best combination. *)

From S2P Require Import Prelude Float32 Sched SchedFacts.

(** ** Combinations as numbers. *)

Lemma weight_snoc sats s : weight (sats ++ [s]) = weight sats * (golden_index s + 1).
Proof. unfold weight. by rewrite foldl_app. Qed.

Lemma rank_snoc sats s c v : length sats = length c ->
  rank (sats ++ [s]) (c ++ [v]) = rank sats c * (golden_index s + 1) + v.
Proof. intros Hl. unfold rank. by rewrite zip_with_app, foldl_app. Qed.

Definition nonneg_index (s : Satellite) : Prop := 0 <= golden_index s.

Lemma weight_pos sats : Forall nonneg_index sats -> 0 < weight sats.
Proof.
  induction sats as [|s sats IH] using rev_ind; intros Hg; [done|].
  apply Forall_app in Hg as [Hg Hs]. rewrite Forall_singleton in Hs. unfold nonneg_index in Hs.
  rewrite weight_snoc. specialize (IH Hg). nia.
Qed.

Lemma valid_snoc_inv sats s c : valid_comb (sats ++ [s]) c ->
  exists c' v, c = c' ++ [v] /\ valid_comb sats c' /\ 0 <= v <= golden_index s.
Proof.
  intros (c' & r & Hv & Hr & ->)%Forall2_app_inv_l. inv Hr. inv H3. by exists c', y.
Qed.

Lemma valid_snoc sats s c v : valid_comb sats c -> 0 <= v <= golden_index s ->
  valid_comb (sats ++ [s]) (c ++ [v]).
Proof. intros Hc Hv. apply Forall2_app; [done|]. by constructor. Qed.

Lemma rank_range sats c : Forall nonneg_index sats -> valid_comb sats c -> 0 <= rank sats c < weight sats.
Proof.
  revert c. induction sats as [|s sats IH] using rev_ind; intros c Hg Hv.
  - by inv Hv.
  - apply Forall_app in Hg as [Hg Hs]. apply valid_snoc_inv in Hv as (c' & v & -> & Hc & Hv).
    rewrite rank_snoc by (by eapply Forall2_length). rewrite weight_snoc.
    specialize (IH c' Hg Hc). nia.
Qed.

(** Different combinations are different numbers. *)
Lemma rank_inj sats c d : valid_comb sats c -> valid_comb sats d -> rank sats c = rank sats d -> c = d.
Proof.
  revert c d. induction sats as [|s sats IH] using rev_ind; intros c d Hc Hd He.
  - inv Hc. by inv Hd.
  - apply valid_snoc_inv in Hc as (c' & v & -> & Hc & Hv).
    apply valid_snoc_inv in Hd as (d' & w & -> & Hd & Hw).
    rewrite !rank_snoc in He by (by eapply Forall2_length).
    assert (rank sats c' = rank sats d') by nia. assert (v = w) as <- by nia.
    by rewrite (IH c' d').
Qed.

(** The carry adds one to the number. *)
Lemma carry_ok pre tail spre stail : Forall nonneg_index spre -> valid_comb spre pre ->
  exists pre', carry_loop (spre ++ stail) (pre ++ tail) (length pre) = Ok (pre' ++ tail) /\
    valid_comb spre pre' /\ rank spre pre' = (rank spre pre + 1) mod weight spre.
Proof.
  revert spre tail stail. induction pre as [|v pre IH] using rev_ind; intros spre tail stail Hg Hv.
  - inv Hv. exists []. split; [done|]. split; [constructor|done].
  - destruct (nil_or_snoc spre) as [-> |(s & sp & ->)].
    { apply Forall2_length in Hv. rewrite length_app in Hv. cbn in Hv. lia. }
    apply valid_snoc_inv in Hv as (c' & w & Heq & Hc & Hw).
    apply app_inj_tail in Heq as [<- <-]. apply Forall_app in Hg as [Hg Hs].
    pose proof (Forall2_length _ _ _ Hc) as Hlen. rewrite length_app. cbn [length].
    rewrite Nat.add_1_r. cbn [carry_loop]. rewrite <- !app_assoc. cbn [app].
    assert (Ev : (pre ++ v :: tail) !! length pre = Some v)
      by (rewrite lookup_app_r, Nat.sub_diag by lia; done).
    assert (Es : (sp ++ s :: stail) !! length pre = Some s)
      by (rewrite lookup_app_r, Hlen, Nat.sub_diag by lia; done).
    rewrite (obind_ok _ _ _ (arr_get_ok _ _ _ Ev)), (obind_ok _ _ _ (arr_get_ok _ _ _ Es)).
    assert (Hset : forall x, arr_set (pre ++ v :: tail) (length pre) x = Ok (pre ++ x :: tail)).
    { intros x. unfold arr_set. rewrite Ev. by rewrite insert_app_r_alt, Nat.sub_diag by lia. }
    rewrite !rank_snoc by done. rewrite weight_snoc.
    pose proof (rank_range sp pre Hg Hc) as Hr. pose proof (weight_pos sp Hg).
    destruct (golden_index s <? v + 1) eqn:E; bool_prop.
    + assert (v = golden_index s) as -> by lia.
      rewrite (obind_ok _ _ _ (Hset 0)).
      destruct (IH sp (0 :: tail) (s :: stail) Hg Hc) as (pre' & El & Hv' & Hrk).
      exists (pre' ++ [0]). rewrite <- app_assoc. split; [exact El|].
      split; [apply valid_snoc; [done|lia]|]. rewrite rank_snoc by (by eapply Forall2_length).
      rewrite Hrk, Z.add_0_r, <- Zmult_mod_distr_r. f_equal. lia.
    + rewrite Hset. exists (pre ++ [v + 1]). rewrite <- app_assoc. split; [done|].
      split; [apply valid_snoc; [done|lia]|]. rewrite rank_snoc by done.
      rewrite Z.mod_small by nia. lia.
Qed.

Section Search.
Context (ntasks nsats : nat).

Lemma wf_nonneg sats : wf_sats ntasks nsats sats -> Forall nonneg_index sats.
Proof.
  intros [_ Hwf]. eapply Forall_impl; [exact Hwf|]. intros s [Hg _]. unfold nonneg_index.
  rewrite Hg. apply zlen_nonneg.
Qed.

Lemma next_combination_ok sats c : wf_sats ntasks nsats sats -> valid_comb sats c ->
  exists c', next_combination nsats sats c = Ok c' /\ valid_comb sats c' /\
    rank sats c' = (rank sats c + 1) mod weight sats.
Proof.
  intros Hwf Hv. destruct (carry_ok c [] sats [] (wf_nonneg _ Hwf) Hv) as (c' & E & Hc & Hr).
  rewrite !app_nil_r in E. exists c'. unfold next_combination.
  replace nsats with (length c) by (pose proof (proj1 Hwf); pose proof (Forall2_length _ _ _ Hv); lia).
  done.
Qed.

(** [next_combination], from the empty combination on. *)
Fixpoint nth_combination (sats : list Satellite) (i : nat) : outcome (list Z) :=
  match i with
  | O => Ok (generate_array nsats)
  | S i' => c ← nth_combination sats i'; next_combination nsats sats c
  end.

Lemma rank_zeros sats : rank sats (generate_array (length sats)) = 0.
Proof.
  induction sats as [|s sats IH] using rev_ind; [done|].
  rewrite length_app. cbn [length]. unfold generate_array in *. rewrite replicate_add. cbn [replicate].
  rewrite rank_snoc, IH by by rewrite length_replicate. done.
Qed.

Lemma valid_zeros sats : Forall nonneg_index sats -> valid_comb sats (generate_array (length sats)).
Proof. induction 1 as [|s sats Hs _ IH]; cbn; constructor; [done|exact IH]. Qed.

Lemma nth_combination_ok sats i : wf_sats ntasks nsats sats -> Z.of_nat i < weight sats ->
  exists c, nth_combination sats i = Ok c /\ valid_comb sats c /\ rank sats c = Z.of_nat i.
Proof.
  intros Hwf. pose proof (wf_nonneg _ Hwf) as Hg. induction i as [|i IH]; intros Hi.
  - exists (generate_array nsats). split; [done|]. rewrite <- (proj1 Hwf).
    split; [by apply valid_zeros|apply rank_zeros].
  - destruct IH as (c & E & Hv & Hr); [lia|]. cbn [nth_combination]. rewrite (obind_ok _ _ _ E).
    destruct (next_combination_ok sats c Hwf Hv) as (c' & E' & Hv' & Hr').
    exists c'. split; [done|]. split; [done|]. rewrite Hr', Hr, Z.mod_small by lia. lia.
Qed.

(** The enumeration is exhaustive and repeats nothing.  Starting from the
    combination that uses no satellite, every combination of local solutions is
    reached by [next_combination] after exactly one number of steps below the
    number of combinations. *)
Theorem enumeration_exhaustive sats c : wf_sats ntasks nsats sats -> valid_comb sats c ->
  exists i, Z.of_nat i < weight sats /\ nth_combination sats i = Ok c /\
    forall j, Z.of_nat j < weight sats -> nth_combination sats j = Ok c -> j = i.
Proof.
  intros Hwf Hv. pose proof (rank_range sats c (wf_nonneg _ Hwf) Hv) as Hr.
  assert (Hnth : forall j, Z.of_nat j < weight sats -> nth_combination sats j = Ok c ->
    Z.of_nat j = rank sats c).
  { intros j Hj E. destruct (nth_combination_ok sats j Hwf Hj) as (d & E' & _ & Hd). congruence. }
  exists (Z.to_nat (rank sats c)). split; [lia|]. split.
  - destruct (nth_combination_ok sats (Z.to_nat (rank sats c)) Hwf) as (d & E & Hd & Hrd); [lia|].
    rewrite E. f_equal. apply (rank_inj sats); [done|done|lia].
  - intros j Hj E. apply Hnth in E; lia.
Qed.

(** The number of combinations is the product over the satellites of the number of
    their solutions plus one, when that fits a [long long]. *)
Lemma number_of_combinations_ok sats : wf_sats ntasks nsats sats -> (0 < nsats)%nat ->
  weight sats <= LLONG_MAX ->
  number_of_combinations nsats sats = Ok (weight sats).
Proof.
  intros Hwf Hn Hmax. pose proof (wf_nonneg _ Hwf) as Hg. destruct Hwf as [Hlen _].
  unfold number_of_combinations. destruct (lookup_lt_is_Some_2 sats 0) as [s0 Hs0]; [lia|].
  rewrite (obind_ok _ _ _ (arr_get_ok _ _ _ Hs0)).
  assert (Hmono : forall l r, sats = l ++ r -> weight l <= weight sats).
  { intros l r Heq. rewrite Heq in *. clear Heq. apply Forall_app in Hg as [Hl Hr].
    pose proof (weight_pos l Hl). clear Hmax Hs0 Hlen.
    induction r as [|s r IH] using rev_ind; [by rewrite app_nil_r|].
    apply Forall_app in Hr as [Hr Hs]. rewrite Forall_singleton in Hs. unfold nonneg_index in Hs.
    rewrite app_assoc, weight_snoc. specialize (IH Hr). nia. }
  destruct (for_inv (fun k combs => combs = weight (take k sats)) (fun k combs =>
      s ← arr_get sats k;
      if LLONG_MAX <? combs * (golden_index s + 1) then UB else Ok (combs * (golden_index s + 1)))
    1 (nsats - 1) (golden_index s0 + 1)) as (combs & E & Hc);
    [| |rewrite E, Hc, take_ge by lia; done].
  - rewrite (take_S_r sats 0 s0) by done. rewrite weight_snoc.
    change (weight (take 0 sats)) with 1. lia.
  - intros k combs Hk ->. destruct (lookup_lt_is_Some_2 sats k) as [s Hs]; [lia|].
    rewrite (obind_ok _ _ _ (arr_get_ok _ _ _ Hs)).
    assert (Hw : weight (take (S k) sats) = weight (take k sats) * (golden_index s + 1))
      by (rewrite (take_S_r sats k s) by done; apply weight_snoc).
    rewrite <- Hw. pose proof (Hmono (take (S k) sats) (drop (S k) sats)
      ltac:(symmetry; apply take_drop)).
    rewrite (proj2 (Z.ltb_ge _ _)) by lia. by eexists.
Qed.

(** ** The search. *)

Implicit Types (g : Globals) (sats : list Satellite).

Abbreviation scoreOf := (score ntasks).

(** What one round does with the next combination. *)
Lemma solve_step_ok sats c sol g : sizes_ok ntasks nsats -> wf_sats ntasks nsats sats ->
  valid_comb sats c -> length sol = nsats ->
  exists c' g', valid_comb sats c' /\ rank sats c' = (rank sats c + 1) mod weight sats /\ heap g' = heap g /\
    if has_deleted sats c'
    then solve_step ntasks nsats false sats c sol g = Ok ((c', sol), g') /\ best g' = best g
    else if f_lt (best g) (scoreOf sats c')
    then solve_step ntasks nsats false sats c sol g = Ok ((c', c'), g') /\ best g' = scoreOf sats c'
    else solve_step ntasks nsats false sats c sol g = Ok ((c', sol), g') /\ best g' = best g.
Proof.
  intros Hn Hwf Hv Hsol. destruct (next_combination_ok sats c Hwf Hv) as (c' & E & Hc & Hr).
  assert (Hlen : length c' = nsats)
    by (pose proof (proj1 Hwf); pose proof (Forall2_length _ _ _ Hc); lia).
  set (g1 := upd_tic (coverage ntasks (chosen sats c')) g).
  assert (Hstep : solve_step ntasks nsats false sats c sol g =
    if has_deleted sats c' then Ok ((c', sol), count_duplicate g)
    else if f_lt (best g) (scoreOf sats c')
    then Ok ((c', c'), mkGlobals (golden_index_max g1) (tic g1) (scoreOf sats c') (duplicates g1) (heap g1))
    else Ok ((c', sol), g1)).
  { unfold solve_step. pose proof (check_solution_ok ntasks nsats sats c' g Hwf Hc) as Hchk.
    rewrite (st_bind_ok _ _ _ c' g) by (unfold st_lift; by rewrite E).
    destruct (has_deleted sats c'); rewrite (st_bind_ok _ _ _ _ _ Hchk); [done|].
    change (1 =? 0) with false. cbv iota.
    rewrite (st_bind_ok _ _ _ _ _ (total_occurrences_ok ntasks nsats sats c' g Hn Hwf Hc)).
    rewrite (st_bind_ok _ _ _ _ _ (total_reward_ok ntasks nsats sats c' _ Hwf Hc)). fold g1.
    unfold st_bind at 1, st_get. cbv beta iota zeta.
    change (f_div (f_mul (foldl f_add f_zero (ls_F <$> chosen sats c')) (tic g1))
      (f_of_int (if repeated ntasks (chosen sats c') =? 0 then 1
                 else repeated ntasks (chosen sats c')))) with (scoreOf sats c').
    change (best g1) with (best g).
    destruct (f_lt (best g) (scoreOf sats c')); [|done].
    erewrite st_bind_ok by done. unfold st_bind, st_lift. by rewrite copy_solution_ok. }
  exists c'. rewrite Hstep. destruct (has_deleted sats c'); [by exists (count_duplicate g)|].
  destruct (f_lt (best g) (scoreOf sats c')); [|by exists g1].
  by exists (mkGlobals (golden_index_max g1) (tic g1) (scoreOf sats c') (duplicates g1) (heap g1)).
Qed.

(** [c] is a combination that uses a satellite and no deleted solution. *)
Definition candidate sats (c : list Z) : Prop :=
  valid_comb sats c /\ 0 < rank sats c /\ has_deleted sats c = false.

(** The best of the combinations up to number [i], if one is better than [b0]. *)
Definition best_upto sats (b0 : float) (sol0 : list Z) (i : Z) (sol : list Z) (b : float) : Prop :=
  (forall c, candidate sats c -> rank sats c <= i -> f_lt b (scoreOf sats c) = false) /\
  (b = b0 /\ sol = sol0 \/
   candidate sats sol /\ rank sats sol <= i /\ scoreOf sats sol = b /\ f_lt b0 b = true).

Lemma best_upto_extend sats b0 sol0 i sol b c : best_upto sats b0 sol0 i sol b ->
  valid_comb sats c -> rank sats c = i + 1 -> 0 <= i ->
  if has_deleted sats c then best_upto sats b0 sol0 (i + 1) sol b
  else if f_lt b (scoreOf sats c) then best_upto sats b0 sol0 (i + 1) c (scoreOf sats c)
  else best_upto sats b0 sol0 (i + 1) sol b.
Proof.
  intros [Hmax Hsol] Hv Hr Hi.
  assert (Hcase : forall d, candidate sats d -> rank sats d <= i + 1 -> rank sats d <= i \/ d = c).
  { intros d [Hd _] Hrd. destruct (decide (rank sats d = i + 1)); [right|left; lia].
    apply (rank_inj sats); [done|done|lia]. }
  assert (Hkeep : b = b0 /\ sol = sol0 \/ candidate sats sol /\ rank sats sol <= i + 1 /\
    scoreOf sats sol = b /\ f_lt b0 b = true).
  { destruct Hsol as [?|(? & ? & ? & ?)]; [by left|right]. split_and!; try done. lia. }
  destruct (has_deleted sats c) eqn:Ed; [|destruct (f_lt b (scoreOf sats c)) eqn:El];
    (split; [intros d Hd Hrd; destruct (Hcase d Hd Hrd) as [Hle| ->]|]).
  - by apply Hmax.
  - destruct Hd as (_ & _ & Hd). congruence.
  - done.
  - apply not_true_iff_false. intros Hlt. specialize (Hmax d Hd Hle).
    rewrite (f_lt_trans _ _ _ El Hlt) in Hmax. done.
  - apply f_lt_irrefl.
  - right. split_and!; [by split_and!; [|lia|]|lia|done|].
    destruct Hsol as [[-> _]|(_ & _ & _ & Hb)]; [done|]. by eapply f_lt_trans.
  - by apply Hmax.
  - done.
  - done.
Qed.

Lemma solve_loop_ok sats n : sizes_ok ntasks nsats -> wf_sats ntasks nsats sats ->
  forall i c sol g b0 sol0, valid_comb sats c -> length sol = nsats ->
  rank sats c + Z.of_nat n < weight sats -> best_upto sats b0 sol0 (rank sats c) sol (best g) ->
  exists c' sol' g', solve_loop ntasks nsats (fun _ => false) sats i n c sol g = Ok ((c', sol'), g') /\ heap g' = heap g /\
    best_upto sats b0 sol0 (rank sats c + Z.of_nat n) sol' (best g').
Proof.
  intros Hnt Hwf. induction n as [|n IH]; intros i c sol g b0 sol0 Hv Hl Hw Hb.
  - exists c, sol, g. split_and!; [done|done|]. by rewrite Z.add_0_r.
  - destruct (solve_step_ok sats c sol g Hnt Hwf Hv Hl) as (c1 & g1 & Hv1 & Hr1 & Hh1 & Hstep).
    pose proof (rank_range sats c (wf_nonneg sats Hwf) Hv) as Hrc. rewrite Z.mod_small in Hr1 by lia.
    pose proof (best_upto_extend sats b0 sol0 _ sol (best g) c1 Hb Hv1 Hr1 (proj1 Hrc)) as Hext.
    assert (Hnext : exists sol1, solve_step ntasks nsats false sats c sol g = Ok ((c1, sol1), g1) /\
      length sol1 = nsats /\ best_upto sats b0 sol0 (rank sats c1) sol1 (best g1)).
    { assert (length c1 = nsats) by (pose proof (proj1 Hwf); pose proof (Forall2_length _ _ _ Hv1); lia).
      rewrite Hr1. destruct (has_deleted sats c1); [|destruct (f_lt _ _)];
        destruct Hstep as [E Hg]; rewrite Hg; eexists; split; (done || by split). }
    destruct Hnext as (sol1 & E & Hl1 & Hb1).
    destruct (IH (S i) c1 sol1 g1 b0 sol0 Hv1 Hl1) as (c2 & sol2 & g2 & E2 & Hh2 & Hb2); [lia|done|].
    exists c2, sol2, g2. split_and!.
    + cbn [solve_loop]. by rewrite (st_bind_ok _ _ _ _ _ E).
    + congruence.
    + by replace (rank sats c + Z.of_nat (S n)) with (rank sats c1 + Z.of_nat n) by lia.
Qed.

Lemma zero_array_ok (l : list Z) : length l = nsats ->
  for_ 0 nsats (fun k c => arr_set c k 0) l = Ok (generate_array nsats).
Proof.
  intros Hl. destruct (for_inv (fun k s => s = replicate k 0 ++ drop k l)
    (fun k c => arr_set c k 0) 0 nsats l) as (s & E & Hs); [done| |].
  - intros k s Hk ->. rewrite arr_set_ok by (rewrite length_app, length_replicate, length_drop; lia).
    eexists. split; [done|]. rewrite insert_app_r_alt by (rewrite length_replicate; lia).
    rewrite length_replicate, Nat.sub_diag. destruct (lookup_lt_is_Some_2 l k) as [x Hx]; [lia|].
    rewrite (drop_S l x k) by done. cbn [insert list_insert].
    replace (S k) with (k + 1)%nat by lia. rewrite replicate_add, <- app_assoc. cbn [replicate app].
    by rewrite Nat.add_1_r.
  - rewrite E, Hs. cbn [Nat.add]. rewrite drop_ge by lia. by rewrite app_nil_r.
Qed.

Lemma get_golden_ok sats g : length sats = nsats ->
  exists m, get_golden_index_max nsats sats g
    = Ok (tt, mkGlobals m (tic g) (best g) (duplicates g) (heap g)).
Proof.
  intros Hl. unfold get_golden_index_max, st_bind at 1, st_get. unfold st_bind, st_lift.
  destruct (for_inv (fun _ (_ : Z) => True) (fun k m =>
    s ← arr_get sats k; Ok (if m <? golden_index s then golden_index s else m))
    0 nsats (golden_index_max g)) as (m & E & _); [done| |].
  - intros k m Hk _. destruct (lookup_lt_is_Some_2 sats k) as [s Hs]; [lia|].
    rewrite (obind_ok _ _ _ (arr_get_ok _ _ _ Hs)). by eexists.
  - rewrite E. by exists m.
Qed.

(** The scheduler returns a best combination.  It always terminates when the
    number of combinations fits an [int]; no combination that uses a satellite and
    no deleted solution has a larger reward than the one recorded, and the solution
    is a combination with that reward, unless none is better than the initial
    value of the record, in which case it is left as it was.  As many blocks are in
    use as before. *)
Theorem solve_optimal sats combination solution g :
  sizes_ok ntasks nsats -> (0 < nsats)%nat -> wf_sats ntasks nsats sats -> weight sats <= INT_MAX ->
  length combination = nsats -> length solution = nsats ->
  exists solution' g', solve ntasks nsats (fun _ => false) sats combination solution g
      = Ok ((0, solution'), g') /\ heap g' = heap g /\
    (forall c, candidate sats c -> f_lt (best g') (scoreOf sats c) = false) /\
    (best g' = best g /\ solution' = solution \/
     candidate sats solution' /\ scoreOf sats solution' = best g' /\ f_lt (best g) (best g') = true).
Proof.
  intros Hnt Hns Hwf Hw Hc Hs. pose proof (weight_pos sats (wf_nonneg sats Hwf)) as Hpos.
  assert (Hnum : number_of_combinations nsats sats = Ok (weight sats))
    by (apply number_of_combinations_ok; [done|done|unfold INT_MAX, LLONG_MAX in *; lia]).
  destruct (get_golden_ok sats g (proj1 Hwf)) as (m & Em).
  set (g1 := mkGlobals m (tic g) (best g) (duplicates g) (heap g)) in *.
  assert (Hz : rank sats (generate_array nsats) = 0) by (rewrite <- (proj1 Hwf); apply rank_zeros).
  destruct (solve_loop_ok sats (Z.to_nat (weight sats - 1)) Hnt Hwf 1 (generate_array nsats) solution g1
    (best g) solution) as (c' & sol' & g' & E & Hh & Hmax & Hsol).
  - rewrite <- (proj1 Hwf). apply valid_zeros, (wf_nonneg sats Hwf).
  - done.
  - lia.
  - split; [|by left]. intros c (_ & Hr & _) ?. lia.
  - exists sol', g'. split_and!.
    + unfold solve, st_bind at 1, st_lift. rewrite Hnum.
      rewrite (st_bind_ok _ _ _ _ _ Em). unfold st_bind at 1. rewrite zero_array_ok by done.
      rewrite (proj2 (Z.ltb_ge _ _) Hw). by rewrite (st_bind_ok _ _ _ _ _ E).
    + exact Hh.
    + intros c Hcand. apply Hmax; [done|].
      pose proof (rank_range sats c (wf_nonneg sats Hwf) (proj1 Hcand)). lia.
    + destruct Hsol as [?|(? & _ & ? & ?)]; [by left|by right].
Qed.

End Search.

(** ** Witnesses: two satellites, three tasks. *)

Definition example_sats : list Satellite :=
  [mkSat 1 2 [mkLocal 1 (f_of_int 3) [1; 1; 0]; mkLocal 2 (f_of_int 2) [0; 0; 1]];
   mkSat 2 1 [mkLocal 1 (f_of_int 1) [1; 0; 1]]].

Lemma example_wf : wf_sats 3 2 example_sats.
Proof. repeat constructor. Qed.

Lemma example_sizes : sizes_ok 3 2.
Proof. unfold sizes_ok, INT_MAX. lia. Qed.

Lemma example_valid : valid_comb example_sats [2; 1].
Proof. repeat constructor; cbn; lia. Qed.

(** The combination of solution 2 of the first satellite with solution 1 of the
    second is the sixth of six. *)
Lemma enumeration_exhaustive_witness :
  (exists i, Z.of_nat i < weight example_sats /\ nth_combination 2 example_sats i = Ok [2; 1] /\
    forall j, Z.of_nat j < weight example_sats -> nth_combination 2 example_sats j = Ok [2; 1] -> j = i)
  /\ nth_combination 2 example_sats 5 = Ok [2; 1].
Proof.
  exact (conj (enumeration_exhaustive 3 2 example_sats [2; 1] example_wf example_valid) eq_refl).
Defined.

Definition example_globals : Globals := mkGlobals 2 f_zero f_zero 0 0.

Lemma solve_optimal_witness :
  (exists solution' g', solve 3 2 (fun _ => false) example_sats [0; 0] [0; 0] example_globals
      = Ok ((0, solution'), g') /\ heap g' = heap example_globals /\
    (forall c, candidate example_sats c -> f_lt (best g') (score 3 example_sats c) = false) /\
    (best g' = best example_globals /\ solution' = [0; 0] \/
     candidate example_sats solution' /\ score 3 example_sats solution' = best g' /\
     f_lt (best example_globals) (best g') = true)) /\
  match solve 3 2 (fun _ => false) example_sats [0; 0] [0; 0] example_globals with
  | Ok ((_, solution'), _) => solution' = [1; 1]
  | UB => False
  end.
Proof.
  refine (conj (solve_optimal 3 2 example_sats [0; 0] [0; 0] example_globals example_sizes _ example_wf
    _ eq_refl eq_refl) _).
  - lia.
  - vm_compute. discriminate.
  - vm_compute. reflexivity.
Defined.
