(* ===== verification/SchedLocal.v ===== *)
(** * SchedLocal: the random local solutions.

    The figures of merit are sorted in decreasing order, each solution gets a
    set of tasks that is not empty, and the satellites are ready for the search. *)

From S2P Require Import Prelude Float32 Sched SchedFacts.
From Stdlib Require Import SpecFloat.

(** ** The sort. *)

(** What one run of the inner loop makes of [x :: l]. *)
Fixpoint sift (x : float) (l : list float) : list float :=
  match l with
  | [] => [x]
  | y :: l' => if f_lt x y then y :: sift x l' else x :: sift y l'
  end.

Lemma sift_perm x l : sift x l ≡ₚ x :: l.
Proof.
  revert x. induction l as [|y l IH]; intros x; cbn; [done|].
  destruct (f_lt x y); rewrite IH; [apply Permutation_swap|done].
Qed.

Definition not_nan (x : float) : Prop := is_nan x = false.
Definition not_less (a b : float) : Prop := f_lt a b = false.

(** The last element is a smallest one. *)
Lemma sift_last x l : Forall not_nan (x :: l) ->
  exists r m, sift x l = r ++ [m] /\ Forall (fun a => not_less a m) r /\ not_less x m.
Proof.
  revert x. induction l as [|y l IH]; intros x Hn.
  - exists [], x. split; [done|]. split; [constructor|apply f_lt_irrefl].
  - inv Hn. inv H2. cbn. destruct (f_lt x y) eqn:E.
    + destruct (IH x) as (r & m & -> & Hr & Hm); [by constructor|].
      exists (y :: r), m. split; [done|]. split; [|done]. constructor; [|done].
      assert (Hyx : not_less y x).
      { apply not_true_iff_false. intros Hyx. pose proof (f_lt_trans _ _ _ E Hyx) as Hxx.
        by rewrite f_lt_irrefl in Hxx. }
      by apply (f_ge_trans y x m).
    + destruct (IH y) as (r & m & -> & Hr & Hm); [by constructor|].
      assert (Hxm : not_less x m) by by apply (f_ge_trans x y m).
      exists (x :: r), m. split; [done|]. split; [by constructor|done].
Qed.

Lemma sort_pass pre x l tail :
  for_ (length pre) (length l) sort_step (pre ++ x :: l ++ tail) = Ok (pre ++ sift x l ++ tail).
Proof.
  revert pre x. induction l as [|y l IH]; intros pre x; [done|]. cbn [length for_].
  assert (Hx : (pre ++ x :: (y :: l) ++ tail) !! length pre = Some x)
    by (rewrite lookup_app_r, Nat.sub_diag by lia; done).
  assert (Hy : forall z, (pre ++ z :: (y :: l) ++ tail) !! (length pre + 1)%nat = Some y)
    by (intros z; rewrite lookup_app_r by lia; by replace (length pre + 1 - length pre)%nat with 1%nat by lia).
  unfold sort_step at 1.
  rewrite (obind_ok _ _ _ (arr_get_ok _ _ _ Hx)), (obind_ok _ _ _ (arr_get_ok _ _ _ (Hy x))).
  cbn [sift]. destruct (f_lt x y).
  - assert (Hs : arr_set (pre ++ x :: (y :: l) ++ tail) (length pre) y = Ok (pre ++ y :: (y :: l) ++ tail)).
    { unfold arr_set. rewrite Hx. by rewrite insert_app_r_alt, Nat.sub_diag by lia. }
    rewrite (obind_ok _ _ _ Hs).
    assert (Hs2 : arr_set (pre ++ y :: (y :: l) ++ tail) (length pre + 1) x
      = Ok ((pre ++ [y]) ++ x :: l ++ tail)).
    { unfold arr_set. rewrite Hy, insert_app_r_alt by lia.
      replace (length pre + 1 - length pre)%nat with 1%nat by lia. by rewrite <- app_assoc. }
    rewrite Hs2. specialize (IH (pre ++ [y]) x). rewrite length_app, Nat.add_1_r in IH.
    rewrite IH. by rewrite <- app_assoc.
  - specialize (IH (pre ++ [x]) y). rewrite length_app, Nat.add_1_r, <- !app_assoc in IH.
    exact IH.
Qed.

(** After [c] passes, the last [c] elements are in place. *)
Definition sorted_tail (F0 : list float) (c : nat) (F : list float) : Prop :=
  exists A B, F = A ++ B /\ length B = c /\ F ≡ₚ F0 /\ StronglySorted not_less B /\
    forall a b, a ∈ A -> b ∈ B -> not_less a b.

Lemma sort_pass_tail F0 gi c F : Forall not_nan F0 -> length F0 = gi -> (c < gi)%nat ->
  sorted_tail F0 c F ->
  exists F', for_ 0 (gi - c - 1) sort_step F = Ok F' /\ sorted_tail F0 (S c) F'.
Proof.
  intros Hn Hl Hc (A & B & -> & HB & Hp & HS & Hcross).
  assert (HA : length A = (gi - c)%nat).
  { apply Permutation_length in Hp. rewrite length_app in Hp. lia. }
  destruct A as [|x l]; [cbn in HA; lia|]. cbn in HA.
  replace (gi - c - 1)%nat with (length l) by lia.
  pose proof (sort_pass [] x l B) as E. cbn [length app] in E.
  assert (HnA : Forall not_nan (x :: l)).
  { rewrite <- Hp in Hn. by apply Forall_app in Hn as [? _]. }
  destruct (sift_last x l HnA) as (r & m & Hs & Hr & _).
  pose proof (sift_perm x l) as Hsp. rewrite Hs in *.
  exists ((r ++ [m]) ++ B). split; [exact E|]. exists r, (m :: B). split_and!.
  - by rewrite <- app_assoc.
  - cbn. lia.
  - by rewrite Hsp.
  - constructor; [done|]. apply Forall_forall. intros b Hb. apply Hcross; [|done].
    rewrite <- Hsp, elem_of_app. right. constructor.
  - intros a b Ha [-> |Hb]%elem_of_cons.
    + by apply (proj1 (Forall_forall _ _) Hr).
    + apply Hcross; [|done]. rewrite <- Hsp, elem_of_app. by left.
Qed.

Lemma sort_F_ok F : Forall not_nan F ->
  exists F', sort_F (length F) F = Ok F' /\ F' ≡ₚ F /\ StronglySorted not_less F'.
Proof.
  intros Hn. unfold sort_F.
  destruct (for_inv (sorted_tail F) (fun c F0 => for_ 0 (length F - c - 1) sort_step F0)
    0 (length F - 1) F) as (F' & E & A & B & -> & HB & Hp & HS & Hcross).
  - exists F, []. split_and!; [by rewrite app_nil_r|done|done|constructor|].
    by intros a b _ ?%not_elem_of_nil.
  - intros c F0 Hc Ht. by apply sort_pass_tail; [| |lia|].
  - exists (A ++ B). split; [done|]. split; [done|].
    apply Permutation_length in Hp as Hlen. rewrite length_app in Hlen.
    destruct A as [|a [|a' A]]; [done| |cbn in *; lia].
    constructor; [done|]. apply Forall_forall. intros b Hb. apply Hcross; [constructor|done].
Qed.

(** ** Figures of merit. *)

Definition merit (k : Z) : float := f_div (f_of_int k) (f_of_int 100).

(** A figure of merit between one and ninety-nine hundredths. *)
Definition is_merit (x : float) : Prop := exists k, 1 <= k <= 99 /\ x = merit k.

Lemma merit_number x : is_merit x -> not_nan x /\ f_eq x f_zero = false.
Proof.
  intros (k & Hk & ->).
  assert (Hall : forallb (fun i => negb (is_nan (merit (Z.of_nat i)))
    && negb (f_eq (merit (Z.of_nat i)) f_zero)) (seq 1 99) = true) by (vm_compute; reflexivity).
  rewrite forallb_forall in Hall. specialize (Hall (Z.to_nat k)).
  rewrite Z2Nat.id in Hall by lia. apply andb_prop in Hall as [H1 H2].
  - by apply negb_true_iff in H1, H2.
  - apply in_seq. lia.
Qed.

Section Local.
Context (ntasks nsats : nat) `{Rand}.

Lemma random_F_ok n s : exists F, random_F n s = Ok (F, mkGen (draws s + n) (used s)) /\ length F = n /\ Forall is_merit F.
Proof.
  revert s. induction n as [|n IH]; intros s.
  - exists []. split_and!; [rewrite Nat.add_0_r; by destruct s|done|constructor].
  - destruct (IH (mkGen (S (draws s)) (used s))) as (F & E & Hl & HF). eexists. split_and!.
    + cbn [random_F]. erewrite st_bind_ok by done. rewrite (st_bind_ok _ _ _ _ _ E).
      cbn [draws used]. by rewrite Nat.add_succ_r.
    + cbn. by rewrite Hl.
    + constructor; [|done]. exists (rand (draws s) mod 99 + 1). split; [|done].
      pose proof (Z.mod_pos_bound (rand (draws s)) 99). lia.
Qed.

(** ** Tasks. *)

Definition is_bit (b : Z) : Prop := b = 0 \/ b = 1.
Definition ones (tasks : list Z) : Z := zlen (filter (fun b => b = 1) tasks).

(** Every task is drawn at least once in any [K] calls of [rand]. *)
Definition fair (K : nat) : Prop :=
  forall s i, (i < ntasks)%nat -> exists d, (d < K)%nat /\ rand (s + d) mod Z.of_nat ntasks = Z.of_nat i.

Lemma ones_insert tasks i : tasks !! i = Some 0 -> ones (<[i := 1]> tasks) = ones tasks + 1.
Proof.
  intros Hi. rewrite <- (take_drop_middle tasks i 0 Hi) at 2.
  rewrite insert_take_drop by by eapply lookup_lt_Some.
  unfold ones. rewrite !filter_app, !filter_cons. rewrite decide_True, decide_False by done.
  rewrite !zlen_app, zlen_cons. lia.
Qed.

Lemma zero_exists tasks : Forall is_bit tasks -> ones tasks < zlen tasks ->
  exists i, tasks !! i = Some 0.
Proof.
  induction 1 as [|b tasks Hb _ IH]; [done|]. unfold ones in *. rewrite filter_cons, zlen_cons.
  destruct Hb as [-> | ->]; [by exists 0%nat|]. rewrite decide_True by done. rewrite zlen_cons.
  intros Hlt. destruct IH as [i Hi]; [lia|]. by exists (S i).
Qed.

(** One more task is set within the calls it takes to draw task [i]. *)
Lemma tasks_progress tasks i n_ones a fuel : tasks !! i = Some 0 -> a < n_ones ->
  Forall is_bit tasks -> length tasks = ntasks ->
  forall d s, rand (draws s + d) mod Z.of_nat ntasks = Z.of_nat i ->
  exists j fuel' s', (fuel <= fuel')%nat /\ tasks !! j = Some 0 /\ used s' = used s /\
    tasks_loop ntasks (S d + fuel) n_ones a tasks s
    = tasks_loop ntasks fuel' n_ones (a + 1) (<[j := 1]> tasks) s'.
Proof.
  intros Hi Ha Hb Hl. pose proof (lookup_lt_Some _ _ _ Hi) as Hlt.
  assert (Hround : forall d s, tasks_loop ntasks (S d + fuel) n_ones a tasks s =
    (let i := Z.to_nat (rand (draws s) mod Z.of_nat ntasks) in
     let! v := st_lift (arr_get tasks i) in
     if v =? 1 then tasks_loop ntasks (d + fuel) n_ones a tasks
     else let! tasks := st_lift (arr_set tasks i 1) in
          tasks_loop ntasks (d + fuel) n_ones (a + 1) tasks) (mkGen (S (draws s)) (used s))).
  { intros d s. cbn [Nat.add tasks_loop]. by rewrite (proj2 (Z.ltb_lt _ _) Ha). }
  induction d as [|d IH]; intros s Hd; rewrite Hround; cbv zeta;
    set (j := Z.to_nat (rand (draws s) mod Z.of_nat ntasks)).
  - rewrite Nat.add_0_r in Hd. assert (Hj : j = i) by (unfold j; rewrite Hd; lia). rewrite Hj.
    unfold st_bind at 1, st_lift. rewrite (arr_get_ok _ _ _ Hi). change (0 =? 1) with false.
    unfold st_bind at 1. rewrite arr_set_ok by done. cbn [Nat.add]. by exists i, fuel, (mkGen (S (draws s)) (used s)).
  - assert (Hj : (j < ntasks)%nat).
    { unfold j. pose proof (Z.mod_pos_bound (rand (draws s)) (Z.of_nat ntasks)). lia. }
    destruct (lookup_lt_is_Some_2 tasks j) as [v Hv]; [lia|].
    unfold st_bind at 1, st_lift. rewrite (arr_get_ok _ _ _ Hv).
    destruct (v =? 1) eqn:E; bool_prop.
    + destruct (IH (mkGen (S (draws s)) (used s))) as (k & fuel' & s' & Hf & Hk & Hu & Ek);
        [cbn [draws]; by rewrite <- Nat.add_succ_comm in Hd|]. by exists k, fuel', s'.
    + assert (v = 0) as -> by (destruct (Forall_lookup_1 _ _ _ _ Hb Hv) as [?|?]; [done|lia]).
      unfold st_bind at 1. rewrite arr_set_ok by lia.
      exists j, (S d + fuel)%nat, (mkGen (S (draws s)) (used s)). split; [lia|]. by split_and!.
Qed.

Lemma tasks_loop_ok K n_ones : fair K -> n_ones <= Z.of_nat ntasks ->
  forall m tasks a fuel s, Forall is_bit tasks -> length tasks = ntasks -> ones tasks = a ->
  Z.of_nat m = n_ones - a -> (m * K <= fuel)%nat ->
  exists tasks' s', tasks_loop ntasks fuel n_ones a tasks s = Ok (Some tasks', s') /\ used s' = used s /\
    Forall is_bit tasks' /\ length tasks' = ntasks /\ ones tasks' = n_ones.
Proof.
  intros Hfair Hn. induction m as [|m IH]; intros tasks a fuel s Hb Hl Ho Hm Hf.
  - exists tasks, s. split; [|split_and!; [done|done|done|lia]].
    destruct fuel; cbn; by rewrite (proj2 (Z.ltb_ge _ _)) by lia.
  - destruct (zero_exists tasks Hb) as [i Hi]; [unfold zlen; lia|].
    destruct (Hfair (draws s) i) as (d & Hd & Hr); [rewrite <- Hl; by eapply lookup_lt_Some|].
    destruct (tasks_progress tasks i n_ones a (fuel - S d) Hi ltac:(lia) Hb Hl d s Hr)
      as (j & fuel' & s1 & Hf' & Hj & Hu & E).
    replace (S d + (fuel - S d))%nat with fuel in E by nia. rewrite E, <- Hu.
    apply IH; [|by rewrite length_insert|rewrite ones_insert by done; lia|lia|nia].
    apply Forall_insert; [done|by right].
Qed.

(** A set of tasks that is not empty. *)
Definition task_set (tasks : list Z) : Prop :=
  length tasks = ntasks /\ Forall is_bit tasks /\ 1 <= ones tasks.

Lemma ones_zeros n : ones (generate_array n) = 0.
Proof. unfold ones, generate_array. by induction n. Qed.

Lemma generate_tasks_ok K fuel tasks s : (0 < ntasks)%nat -> fair K -> (ntasks * K <= fuel)%nat ->
  length tasks = ntasks ->
  exists tasks' s', generate_tasks ntasks fuel tasks s = Ok (Some tasks', s') /\ used s' = used s /\ task_set tasks' /\
    ones tasks' = rand (draws s) mod Z.of_nat ntasks + 1.
Proof.
  intros Hn Hfair Hf Hl. unfold generate_tasks. rewrite (proj2 (Z.eqb_neq (Z.of_nat ntasks) 0)) by lia.
  erewrite st_bind_ok by done. cbv zeta.
  assert (Hz : for_ 0 ntasks (fun i tasks => arr_set tasks i 0) tasks = Ok (generate_array ntasks)).
  { destruct (for_inv (fun k t => length t = ntasks /\ take k t = replicate k 0)
      (fun i tasks => arr_set tasks i 0) 0 ntasks tasks) as (t & E & Ht & Hk); [done| |].
    - intros k t Hk [Ht Hp]. rewrite arr_set_ok by lia. eexists. split; [done|].
      rewrite length_insert. split; [done|].
      rewrite (take_S_r _ k 0) by (apply list_lookup_insert_eq; lia).
      rewrite take_insert_ge, Hp by lia. by rewrite replicate_S_end.
    - cbn [Nat.add] in Hk. rewrite take_ge in Hk by lia. by rewrite E, Hk. }
  unfold st_bind at 1, st_lift. rewrite Hz.
  pose proof (Z.mod_pos_bound (rand (draws s)) (Z.of_nat ntasks)) as Hr.
  assert (Hn_ones : rand (draws s) mod Z.of_nat ntasks + 1 <= Z.of_nat ntasks) by lia.
  destruct (tasks_loop_ok K (rand (draws s) mod Z.of_nat ntasks + 1) Hfair Hn_ones
    (Z.to_nat (rand (draws s) mod Z.of_nat ntasks + 1)) (generate_array ntasks) 0 fuel (mkGen (S (draws s)) (used s)))
    as (tasks' & s' & E & Hu & Hb & Hlt & Ho).
  - unfold generate_array. apply Forall_replicate. by left.
  - apply length_replicate.
  - apply ones_zeros.
  - lia.
  - assert (Z.to_nat (rand (draws s) mod Z.of_nat ntasks + 1) <= ntasks)%nat by lia. nia.
  - exists tasks', s'. split_and!; [done|done| |done]. split_and!; [done|done|lia].
Qed.

(** ** Local solutions. *)

(** What [generate_local_solution] makes of slot [i] with merit [F]. *)
Definition generated (i : nat) (F : float) (l : LocalSolution) : Prop :=
  ls_id l = Z.of_nat i + 1 /\ ls_F l = F /\ task_set (ls_tasks l).

Definition slots (ls : list LocalSolution) : Prop :=
  Forall (fun l => length (ls_tasks l) = ntasks) ls.

Definition allocated (gim : Z) (k : nat) (s : Satellite) : Prop :=
  sat_id s = Z.of_nat k + 1 /\ golden_index s = gim /\
  golden_index s = zlen (local_solutions s) /\ slots (local_solutions s).

(** A block more. *)
Lemma allocate_tasks_ok n : forall j ls s, (j + n = length ls)%nat ->
  (forall i l, (i < j)%nat -> ls !! i = Some l -> length (ls_tasks l) = ntasks) ->
  exists ls' s', allocate_tasks ntasks j n ls s = Ok (ls', s') /\ used s' = used s + Z.of_nat n /\
    length ls' = length ls /\ slots ls'.
Proof.
  induction n as [|n IH]; intros j ls s Hj Hd; cbn [allocate_tasks].
  - exists ls, s. split_and!; [done|lia|done|]. apply Forall_lookup. intros i l Hl. apply (Hd i l); [|done].
    apply lookup_lt_Some in Hl. lia.
  - destruct (lookup_lt_is_Some_2 ls j) as [l Hl]; [lia|]. erewrite st_bind_ok by done.
    unfold st_bind at 1, st_lift. rewrite (arr_get_ok _ _ _ Hl). unfold st_bind at 1. rewrite arr_set_ok by lia.
    destruct (IH (S j) (<[j := mkLocal (ls_id l) (ls_F l) (generate_array ntasks)]> ls) (mkGen (draws s) (used s + 1)))
      as (ls' & s' & E & Hu & Hlen & Hs).
    + rewrite length_insert. lia.
    + intros i l' Hi Hl'. destruct (decide (i = j)) as [-> |].
      * rewrite list_lookup_insert_eq in Hl' by lia. injection Hl' as <-. apply length_replicate.
      * rewrite list_lookup_insert_ne in Hl' by done. apply (Hd i); [lia|done].
    + exists ls', s'. rewrite length_insert in Hlen. cbn [used] in Hu. split_and!; [done|lia|done|done].
Qed.

(** A block for the solutions of each satellite and one for the tasks of each solution. *)
Lemma allocate_loop_ok gim n : 0 <= gim -> forall k sats s, (k + n = length sats)%nat ->
  (forall j t, (j < k)%nat -> sats !! j = Some t -> allocated gim j t) ->
  exists sats' s', allocate_loop ntasks gim k n sats s = Ok (sats', s') /\
    used s' = used s + Z.of_nat n * (gim + 1) /\ length sats' = length sats /\
    forall j t, sats' !! j = Some t -> allocated gim j t.
Proof.
  intros Hgim. induction n as [|n IH]; intros k sats s Hk Hd; cbn [allocate_loop].
  - exists sats, s. split_and!; [done|lia|done|]. intros j t Ht. apply Hd; [|done]. apply lookup_lt_Some in Ht. lia.
  - erewrite st_bind_ok by done.
    destruct (allocate_tasks_ok (Z.to_nat gim) 0 (generate_array_struct (Z.to_nat gim)) (mkGen (draws s) (used s + 1)))
      as (ls & s1 & E & Hu & Hl & Hs); [unfold generate_array_struct; by rewrite length_replicate|lia|].
    rewrite (st_bind_ok _ _ _ _ _ E). unfold st_bind at 1, st_lift. rewrite arr_set_ok by lia.
    unfold generate_array_struct in Hl. rewrite length_replicate in Hl.
    destruct (IH (S k) (<[k := mkSat (Z.of_nat k + 1) gim ls]> sats) s1) as (sats' & s' & E' & Hu' & Hl' & Hall).
    + rewrite length_insert. lia.
    + intros j t Hj Ht. destruct (decide (j = k)) as [-> |].
      * rewrite list_lookup_insert_eq in Ht by lia. injection Ht as <-. unfold allocated, zlen. cbn. split_and!; [done|done|lia|done].
      * rewrite list_lookup_insert_ne in Ht by done. apply Hd; [lia|done].
    + exists sats', s'. rewrite length_insert in Hl'. cbn [used] in Hu. split_and!; [done|lia|done|done].
Qed.

Context (K fuel : nat).
Hypothesis (Hntasks : (0 < ntasks)%nat) (Hfair : fair K) (Hfuel : (ntasks * K <= fuel)%nat).

Lemma generate_local_solution_ok i l F s : length (ls_tasks l) = ntasks ->
  exists l' s', generate_local_solution ntasks fuel (Z.of_nat i + 1) l F s = Ok (Some l', s') /\ used s' = used s /\
    generated i F l'.
Proof.
  intros Hl. destruct (generate_tasks_ok K fuel (ls_tasks l) s) as (t & s' & E & Hu & Ht & _); try done.
  unfold generate_local_solution. rewrite (st_obind_ok _ _ _ _ _ E). eexists _, s'. by split_and!.
Qed.

Lemma fill_solutions_ok F n : forall i ls s, (i + n = length ls)%nat -> length F = length ls ->
  slots ls -> (forall j l f, (j < i)%nat -> ls !! j = Some l -> F !! j = Some f -> generated j f l) ->
  exists ls' s', fill_solutions ntasks fuel F i n ls s = Ok (Some ls', s') /\ used s' = used s /\
    length ls' = length ls /\
    forall j l f, ls' !! j = Some l -> F !! j = Some f -> generated j f l.
Proof.
  induction n as [|n IH]; intros i ls s Hin HF Hs Hdone.
  - exists ls, s. split_and!; [done|done|done|]. intros j l f Hj. apply Hdone; [|done].
    apply lookup_lt_Some in Hj. lia.
  - destruct (lookup_lt_is_Some_2 ls i) as [l Hl]; [lia|].
    destruct (lookup_lt_is_Some_2 F i) as [f Hf]; [lia|].
    destruct (generate_local_solution_ok i l f s (Forall_lookup_1 _ _ _ _ Hs Hl)) as (l' & s1 & E & Hu & Hg).
    destruct (IH (S i) (<[i := l']> ls) s1) as (ls' & s2 & E2 & Hu2 & Hlen & Hall).
    + rewrite length_insert. lia.
    + by rewrite length_insert.
    + apply Forall_insert; [done|]. apply Hg.
    + intros j l0 f0 Hj Hl0 Hf0. destruct (decide (j = i)) as [-> |].
      * rewrite list_lookup_insert_eq in Hl0 by lia. by simplify_eq.
      * rewrite list_lookup_insert_ne in Hl0 by done. apply Hdone; [lia|done|done].
    + exists ls', s2. rewrite length_insert in Hlen. split_and!; [|congruence|done|done].
      cbn [fill_solutions]. unfold st_bind at 1, st_lift. rewrite (arr_get_ok _ _ _ Hl).
      unfold st_bind at 1. rewrite (arr_get_ok _ _ _ Hf). rewrite (st_obind_ok _ _ _ _ _ E).
      unfold st_bind at 1. by rewrite arr_set_ok by lia.
Qed.

(** A satellite that is ready: numbered solutions in decreasing order of merit,
    none of them deleted, each with a task. *)
Definition ready_solution (i : nat) (l : LocalSolution) : Prop :=
  ls_id l = Z.of_nat i + 1 /\ is_merit (ls_F l) /\ task_set (ls_tasks l).

Definition ready (sat : Satellite) : Prop :=
  golden_index sat = zlen (local_solutions sat) /\
  StronglySorted not_less (ls_F <$> local_solutions sat) /\
  forall i l, local_solutions sat !! i = Some l -> ready_solution i l.

Lemma generate_solutions_ok sat s : golden_index sat = zlen (local_solutions sat) ->
  slots (local_solutions sat) ->
  exists sat' s', generate_solutions ntasks fuel sat s = Ok (Some sat', s') /\ used s' = used s /\
    sat_id sat' = sat_id sat /\ golden_index sat' = golden_index sat /\ ready sat'.
Proof.
  intros Hg Hs. unfold zlen in Hg. unfold generate_solutions.
  set (gi := Z.to_nat (golden_index sat)). assert (Hgi : gi = length (local_solutions sat)) by lia.
  destruct (random_F_ok gi (mkGen (draws s) (used s + 1))) as (F & EF & HlF & HF).
  destruct (sort_F_ok F) as (F' & ES & HP & HSort).
  { eapply Forall_impl; [exact HF|]. by intros x [? _]%merit_number. }
  rewrite HlF in ES. apply Permutation_length in HP as HlF'.
  destruct (fill_solutions_ok F' gi 0 (local_solutions sat) (mkGen (draws s + gi) (used s + 1))) as (ls & s' & EL & Hu & Hl & Hall);
    [lia|lia|done|lia|].
  exists (mkSat (sat_id sat) (golden_index sat) ls), (mkGen (draws s') (used s' - 1)). split_and!.
  - erewrite st_bind_ok by done. rewrite (st_bind_ok _ _ _ _ _ EF). unfold st_bind at 1, st_lift. rewrite ES.
    by rewrite (st_obind_ok _ _ _ _ _ EL).
  - cbn in Hu |- *. lia.
  - done.
  - done.
  - unfold ready, zlen. cbn [golden_index local_solutions]. rewrite Hl. split_and!; [done| |].
    + assert (ls_F <$> ls = F') as ->; [|done]. apply list_eq_same_length with (length F'); [done| |].
      * rewrite length_fmap. lia.
      * intros i x y _ Hx Hy. rewrite list_lookup_fmap in Hx.
        destruct (ls !! i) as [l|] eqn:El; [|done]. cbn in Hx.
        destruct (Hall i l y El Hy) as (_ & HFl & _). congruence.
    + intros i l El. destruct (lookup_lt_is_Some_2 F' i) as [f Hf].
      { apply lookup_lt_Some in El. lia. }
      destruct (Hall i l f El Hf) as (Hid & HFl & Ht). split_and!; [done| |done].
      rewrite HFl. rewrite <- HP in HF. by apply (Forall_lookup_1 _ _ _ _ HF Hf).
Qed.

(** ** The satellites. *)

Definition generated_sat (gim : Z) (k : nat) (s : Satellite) : Prop :=
  sat_id s = Z.of_nat k + 1 /\ golden_index s = gim /\ ready s.

Lemma generate_all_ok gim n : forall k sats s, (k + n = length sats)%nat ->
  (forall j t, (k <= j)%nat -> sats !! j = Some t -> allocated gim j t) ->
  (forall j t, (j < k)%nat -> sats !! j = Some t -> generated_sat gim j t) ->
  exists sats' s', generate_all ntasks fuel k n sats s = Ok (Some sats', s') /\ used s' = used s /\
    length sats' = length sats /\ forall j t, sats' !! j = Some t -> generated_sat gim j t.
Proof.
  induction n as [|n IH]; intros k sats s Hk Ha Hg.
  - exists sats, s. split_and!; [done|done|done|]. intros j t Hj. apply Hg; [|done].
    apply lookup_lt_Some in Hj. lia.
  - destruct (lookup_lt_is_Some_2 sats k) as [t Ht]; [lia|].
    destruct (Ha k t) as (Hid & Hgi & Hz & Hs); [lia|done|].
    destruct (generate_solutions_ok t s Hz Hs) as (t' & s1 & E & Hu & Hid' & Hgi' & Hr).
    destruct (IH (S k) (<[k := t']> sats) s1) as (sats' & s2 & E2 & Hu2 & Hl & Hall).
    + rewrite length_insert. lia.
    + intros j t0 Hj. rewrite list_lookup_insert_ne by lia. apply Ha. lia.
    + intros j t0 Hj Ht0. destruct (decide (j = k)) as [-> |].
      * rewrite list_lookup_insert_eq in Ht0 by lia. simplify_eq. split_and!; [lia|lia|done].
      * rewrite list_lookup_insert_ne in Ht0 by done. apply Hg; [lia|done].
    + exists sats', s2. rewrite length_insert in Hl. split_and!; [|congruence|done|done].
      cbn [generate_all]. unfold st_bind at 1, st_lift. rewrite (arr_get_ok _ _ _ Ht).
      rewrite (st_obind_ok _ _ _ _ _ E). unfold st_bind at 1. by rewrite arr_set_ok by lia.
Qed.

Lemma ready_wf sat : ready sat -> wf_sat ntasks sat.
Proof.
  intros (Hz & _ & Hall). split; [done|]. apply Forall_lookup. intros i l Hl.
  by destruct (Hall i l Hl) as (_ & _ & Ht & _).
Qed.

End Local.

(** The sort of the figures of merit.  On an array of numbers the exchange
    sort ends with a permutation of the array in decreasing order, and never
    reads or writes outside it. *)
Theorem merit_sort F : Forall not_nan F ->
  exists F', sort_F (length F) F = Ok F' /\ F' ≡ₚ F /\ StronglySorted not_less F'.
Proof. apply sort_F_ok. Qed.

(** Initialisation.  When every task is drawn at least once in any [K] calls
    of [rand], the random generation ends: [K] rounds per task are enough for each
    solution.  The satellites are numbered from one and well formed for the search;
    the solutions of each are numbered, sorted by decreasing merit, have a merit
    between 0.01 and 0.99, so that none counts as deleted, and at least one task.  The
    blocks that stay in use are the array, the solutions of each satellite and the tasks of
    each solution. *)
Theorem init_satellites_ready (ntasks nsats K fuel : nat) `{Rand} gim s :
  (0 < ntasks)%nat -> fair ntasks K -> (ntasks * K <= fuel)%nat -> 0 <= gim ->
  exists sats s', init_satellites ntasks nsats fuel gim s = Ok (Some sats, s') /\
    used s' = used s + 1 + Z.of_nat nsats * (gim + 1) /\ wf_sats ntasks nsats sats /\
    forall k t, sats !! k = Some t -> generated_sat ntasks gim k t.
Proof.
  intros Hn Hfair Hfuel Hgim.
  destruct (allocate_loop_ok ntasks gim nsats Hgim 0 (generate_array_satellites nsats) (mkGen (draws s) (used s + 1)))
    as (sats & s1 & E & Hu & Hl & Ha); [unfold generate_array_satellites; by rewrite length_replicate|lia|].
  unfold generate_array_satellites in Hl. rewrite length_replicate in Hl.
  destruct (generate_all_ok ntasks K fuel Hn Hfair Hfuel gim nsats 0 sats s1)
    as (sats' & s' & E' & Hu' & Hl' & Hg); [lia|by intros; apply Ha|lia|].
  exists sats', s'. split_and!.
  - unfold init_satellites. erewrite st_bind_ok by done. by rewrite (st_bind_ok _ _ _ _ _ E).
  - rewrite Hu', Hu. done.
  - split; [lia|]. apply Forall_lookup. intros k t Ht. apply ready_wf. by apply (Hg k t Ht).
  - done.
Qed.

(** ** Witnesses. *)

Lemma merit_sort_witness :
  (exists F', sort_F 3 [merit 10; merit 70; merit 30] = Ok F' /\
    F' ≡ₚ [merit 10; merit 70; merit 30] /\ StronglySorted not_less F') /\
  sort_F 3 [merit 10; merit 70; merit 30] = Ok [merit 70; merit 30; merit 10].
Proof.
  refine (conj (merit_sort [merit 10; merit 70; merit 30] _) _).
  - repeat constructor.
  - vm_compute. reflexivity.
Defined.

(** A generator that counts. *)
#[local] Instance counting : Rand := { rand := Z.of_nat; rand_nonneg := Nat2Z.is_nonneg }.

Lemma counting_fair n : fair n n.
Proof.
  intros s i Hi. exists (Z.to_nat ((Z.of_nat i - Z.of_nat s) mod Z.of_nat n)).
  pose proof (Z.mod_pos_bound (Z.of_nat i - Z.of_nat s) (Z.of_nat n)) as Hb. split; [lia|]. cbn.
  rewrite Nat2Z.inj_add, Z2Nat.id by lia. rewrite Zplus_mod_idemp_r.
  replace (Z.of_nat s + (Z.of_nat i - Z.of_nat s)) with (Z.of_nat i) by lia.
  apply Z.mod_small. lia.
Qed.

Lemma init_satellites_ready_witness :
  exists sats s', init_satellites 3 2 9 2 (mkGen 0 0) = Ok (Some sats, s') /\ used s' = 7 /\
    wf_sats 3 2 sats /\ forall k t, sats !! k = Some t -> generated_sat 3 2 k t.
Proof.
  refine (init_satellites_ready 3 2 3 9 2 (mkGen 0 0) _ (counting_fair 3) _ _); lia.
Defined.
