(* ===== verification/SchedRand.v ===== *)
(** * SchedRand: a generator that draws every task.

    The scheduler draws tasks until it meets one that is not chosen yet, so it ends only
    with a generator that does not avoid a task for ever ([fair] of SchedLocal.v).  ISO C
    promises nothing of that kind, but the generator it prints as an example (C99,
    7.20.2.2) is fair for any number of tasks up to its 32768 numbers: it is a
    linear congruential generator, and such a generator with an odd increment and a multiplier that is one more than
    a multiple of four passes through all its states. *)

From S2P Require Import Prelude Sched SchedLocal.
From stdpp Require Import numbers.
#[local] Open Scope Z_scope.

(** ** Linear congruential generators modulo a power of two. *)
Section Congruential.
Context (a c : Z) (Ha : a mod 4 = 1) (Hc : Z.odd c = true).

(** The states from [x] on, not reduced. *)
Fixpoint orbit (n : nat) (x : Z) : Z :=
  match n with O => x | S n' => orbit n' (a * x + c) end.

Lemma orbit_add n m x : orbit (n + m) x = orbit m (orbit n x).
Proof. revert x. induction n as [|n IH]; intros x; [done|]. apply IH. Qed.

(** Two orbits move apart by powers of the multiplier. *)
Lemma orbit_diff n x y : orbit n x - orbit n y = a ^ Z.of_nat n * (x - y).
Proof.
  revert x y. induction n as [|n IH]; intros x y; cbn [orbit]; [cbn; lia|].
  rewrite IH, Nat2Z.inj_succ, Z.pow_succ_r by lia. lia.
Qed.

Lemma pow_mod_4 n : 0 <= n -> a ^ n mod 4 = 1.
Proof.
  intros Hn. revert n Hn. apply natlike_ind; [done|]. intros n Hn IH.
  by rewrite Z.pow_succ_r, Z.mul_mod, Ha, IH by lia.
Qed.

(** After 2^e steps exactly e bits are as before. *)
Lemma orbit_period e x : exists k, Z.odd k = true /\
  orbit (Nat.pow 2 e) x - x = 2 ^ Z.of_nat e * k.
Proof.
  revert x. induction e as [|e IH]; intros x.
  - exists ((a - 1) * x + c). split; [|cbn; lia].
    rewrite Z.odd_add, Z.odd_mul, Hc. pose proof (Z.div_mod a 4).
    replace (a - 1) with (2 * (2 * (a / 4))) by lia. by rewrite Z.odd_mul.
  - destruct (IH x) as (k & Hk & E). set (n := Nat.pow 2 e) in *.
    set (q := a ^ Z.of_nat n / 4).
    assert (Hq : a ^ Z.of_nat n = 4 * q + 1)
      by (pose proof (Z.div_mod (a ^ Z.of_nat n) 4); rewrite pow_mod_4 in *; lia).
    exists ((2 * q + 1) * k). split; [by rewrite Z.odd_mul, Hk, Z.odd_add, Z.odd_mul|].
    replace (Nat.pow 2 (S e)) with (n + n)%nat by (cbn; lia). rewrite orbit_add.
    pose proof (orbit_diff n (orbit n x) x) as Ed. rewrite E, Hq in Ed.
    rewrite Nat2Z.inj_succ, Z.pow_succ_r by lia. lia.
Qed.

(** Every residue is met within one period. *)
Lemma orbit_full e x y : exists d, (d < Nat.pow 2 e)%nat /\ (2 ^ Z.of_nat e | orbit d x - y).
Proof.
  assert (Hhalf : forall k, Z.odd k = false -> k = 2 * Z.div2 k)
    by (intros k Hk; pose proof (Z.div2_odd k) as E; rewrite Hk in E; cbn [Z.b2z] in E; lia).
  revert x y. induction e as [|e IH]; intros x y; [exists 0%nat; split; [cbn; lia|apply Z.divide_1_l]|].
  destruct (IH x y) as (d & Hd & [k E]). destruct (Z.odd k) eqn:Hk.
  - destruct (orbit_period e (orbit d x)) as (k' & Hk' & E'). exists (d + Nat.pow 2 e)%nat. split; [cbn; lia|].
    rewrite orbit_add. exists (Z.div2 (k + k')).
    pose proof (Hhalf (k + k') ltac:(by rewrite Z.odd_add, Hk, Hk')).
    rewrite Nat2Z.inj_succ, Z.pow_succ_r by lia. nia.
  - exists d. split; [cbn; lia|]. exists (Z.div2 k). pose proof (Hhalf k Hk).
    rewrite Nat2Z.inj_succ, Z.pow_succ_r by lia. nia.
Qed.

End Congruential.

(** ** The generator of the C standard, seeded with 1. *)

Definition c_step (next : Z) : Z := (1103515245 * next + 12345) mod 2 ^ 32.

Definition c_state (n : nat) : Z := Nat.iter n c_step 1.

#[local] Instance c_rand : Rand.
Proof.
  refine {| rand n := c_state n / 65536 mod 32768 |}. intros n. by apply Z.mod_pos_bound.
Defined.

Lemma c_state_orbit n d : c_state (n + d) mod 2 ^ 32 = orbit 1103515245 12345 d (c_state n) mod 2 ^ 32.
Proof.
  rewrite Nat.add_comm. revert n. induction d as [|d IH]; intros n; [done|]. cbn [orbit].
  replace (S d + n)%nat with (d + S n)%nat by lia. rewrite IH.
  change (c_state (S n)) with (c_step (c_state n)). unfold c_step.
  set (x := 1103515245 * c_state n + 12345). set (M := 2 ^ 32).
  pose proof (orbit_diff 1103515245 12345 d (x mod M) x) as E. pose proof (Z.div_mod x M).
  replace (orbit _ _ d (x mod M)) with (orbit 1103515245 12345 d x + - (1103515245 ^ Z.of_nat d * (x / M)) * M)
    by (unfold M in *; nia).
  apply Z_mod_plus_full.
Qed.

Lemma c_state_range n : 0 <= c_state n < 2 ^ 32.
Proof. destruct n; [done|]. by apply Z.mod_pos_bound. Qed.

Definition c_period : nat := Nat.pow 2 32.

(** Any 2^32 successive numbers draw every task. *)
Lemma c_rand_fair (ntasks : nat) : Z.of_nat ntasks <= 32768 -> fair ntasks c_period.
Proof.
  intros Hn s i Hi.
  destruct (orbit_full 1103515245 12345 eq_refl eq_refl 32 (c_state s) (Z.of_nat i * 65536)) as (d & Hd & Hdiv).
  exists d. split; [exact Hd|]. cbn [rand c_rand].
  assert (E : c_state (s + d) = Z.of_nat i * 65536).
  { rewrite <- (Z.mod_small (c_state (s + d)) (2 ^ 32)), c_state_orbit by apply c_state_range.
    destruct Hdiv as [k E]. change (Z.of_nat 32) with 32 in E.
    replace (orbit _ _ _ _) with (Z.of_nat i * 65536 + k * 2 ^ 32) by lia.
    rewrite Z_mod_plus_full. apply Z.mod_small. lia. }
  rewrite E, Z.div_mul by done. rewrite (Z.mod_small _ 32768) by lia. apply Z.mod_small. lia.
Qed.
