(* ===== verification/Json.v ===== *)
(** * Json: the JSON library, [src/src/Architecture/MCS/cJSON.c].

    The parser and the printer.  A pointer into a text is the rest of the block it
    points into: reading or stepping past the end of the block is undefined, and
    NULL is [None].  Blocks of memory are counted: [live] is the number of blocks
    that were allocated and not released, and [malloc_ok] says which allocations
    succeed.  A node is a value that is passed on and returned; the links [next] and
    [prev] are its place in the list of its parent.  Lengths fit an [int]. *)

From S2P Require Import Prelude.
From S2P Require Import Float64.
From stdpp Require Import pretty.
From Stdlib Require Import Ascii.
#[local] Open Scope Z_scope.

(** ** Nodes, [cJSON.h]. *)

Definition cJSON_False : Z := 0.
Definition cJSON_True : Z := 1.
Definition cJSON_NULL : Z := 2.
Definition cJSON_Number : Z := 3.
Definition cJSON_String : Z := 4.
Definition cJSON_Array : Z := 5.
Definition cJSON_Object : Z := 6.
Definition cJSON_IsReference : Z := 256.

#[local] Unset Elimination Schemes.
Inductive cJSON : Type := mkJSON {
  child : list cJSON;
  json_type : Z;               (** [type] *)
  valuestring : option string;
  valueint : Z;
  valuedouble : double;
  json_string : option string  (** [string], the name of a member *)
}.
#[local] Set Elimination Schemes.

Definition set_child (l : list cJSON) (c : cJSON) : cJSON :=
  mkJSON l (json_type c) (valuestring c) (valueint c) (valuedouble c) (json_string c).
Definition set_type (t : Z) (c : cJSON) : cJSON :=
  mkJSON (child c) t (valuestring c) (valueint c) (valuedouble c) (json_string c).
Definition set_valuestring (s : option string) (c : cJSON) : cJSON :=
  mkJSON (child c) (json_type c) s (valueint c) (valuedouble c) (json_string c).
Definition set_valueint (n : Z) (c : cJSON) : cJSON :=
  mkJSON (child c) (json_type c) (valuestring c) n (valuedouble c) (json_string c).
Definition set_valuedouble (d : double) (c : cJSON) : cJSON :=
  mkJSON (child c) (json_type c) (valuestring c) (valueint c) d (json_string c).
Definition set_string (s : option string) (c : cJSON) : cJSON :=
  mkJSON (child c) (json_type c) (valuestring c) (valueint c) (valuedouble c) s.

(** ** Memory and the error pointer. *)

Record Json := mkJson {
  ep : option string;   (** where parsing failed *)
  live : Z;             (** blocks in use *)
  allocs : nat          (** calls of [malloc] so far *)
}.

Definition set_ep (p : option string) : ST Json unit :=
  st_modify (fun s => mkJson p (live s) (allocs s)).

(** The power function of the mathematical library. *)
Class Libm := {
  pow : double -> double -> double;
  pow_zero x s : pow x (SpecFloat.S754_zero s) = d_of_int 1
}.

(** ** Characters. *)

Definition code (a : ascii) : Z := Z.of_N (N_of_ascii a).
Definition char (n : Z) : ascii := ascii_of_N (Z.to_N n).

Definition NUL : ascii := char 0.
Definition quote : ascii := char 34.
Definition backslash : ascii := char 92.

Definition char_in (lo hi : Z) (a : ascii) : bool := (lo <=? code a) && (code a <=? hi).
Definition isdigit (a : ascii) : bool := char_in 48 57 a.
Definition isc (a : ascii) (n : Z) : bool := code a =? n.

(** [*p]. *)
Definition peek (p : string) : outcome ascii :=
  match p with String a _ => Ok a | EmptyString => UB end.

(** [p + n]. *)
Fixpoint adv (n : nat) (p : string) : outcome string :=
  match n, p with
  | O, _ => Ok p
  | S n, String _ p => adv n p
  | S _, EmptyString => UB
  end.

(** [!strncmp(p, lit, strlen(lit))]: compares up to the first difference. *)
Fixpoint has_prefix (lit p : string) : outcome bool :=
  match lit with
  | EmptyString => Ok true
  | String a lit =>
      b ← peek p;
      if Ascii.eqb a b then p ← adv 1 p; has_prefix lit p else Ok false
  end.

(** The characters up to the first NUL. *)
Fixpoint c_string (s : string) : string :=
  match s with
  | EmptyString => EmptyString
  | String a s => if isc a 0 then EmptyString else String a (c_string s)
  end.

(** [skip]: to the next character above 32 or NUL. *)
Fixpoint skip (p : string) : outcome string :=
  match p with
  | EmptyString => UB
  | String a p' => if char_in 1 32 a then skip p' else Ok p
  end.

Definition skip_ptr (p : option string) : outcome (option string) :=
  match p with None => Ok None | Some p => q ← skip p; Ok (Some q) end.

(** ** Numbers. *)

(** The digits before the point: [n = n * 10.0 + digit] for each. *)
Fixpoint number_digits (n : double) (p : string) : outcome (double * string) :=
  match p with
  | EmptyString => UB
  | String a p' =>
      if isdigit a then number_digits (d_add (d_mul n (d_of_int 10)) (d_of_int (code a - 48))) p'
      else Ok (n, p)
  end.

(** The same with [scale--]. *)
Fixpoint number_fraction (n scale : double) (p : string) : outcome (double * double * string) :=
  match p with
  | EmptyString => UB
  | String a p' =>
      if isdigit a
      then number_fraction (d_add (d_mul n (d_of_int 10)) (d_of_int (code a - 48)))
             (d_sub scale (d_of_int 1)) p'
      else Ok (n, scale, p)
  end.

(** The digits of the exponent, an [int]. *)
Fixpoint number_exponent (subscale : Z) (p : string) : outcome (Z * string) :=
  match p with
  | EmptyString => UB
  | String a p' =>
      if isdigit a then
        let v := subscale * 10 + (code a - 48) in
        if v <? 2 ^ 31 then number_exponent v p' else UB
      else Ok (subscale, p)
  end.

Section Numbers.
Context `{Libm}.

Definition parse_number (item : cJSON) (num : string) : outcome (cJSON * string) :=
  a ← peek num;
  '(sign, num) ← (if isc a 45 then p ← adv 1 num; Ok (d_of_int (-1), p) else Ok (d_of_int 1, num));
  a ← peek num;
  num ← (if isc a 48 then adv 1 num else Ok num);
  a ← peek num;
  '(n, num) ← (if char_in 49 57 a then number_digits d_zero num else Ok (d_zero, num));
  a ← peek num;
  frac ← (if isc a 46 then p ← adv 1 num; b ← peek p; Ok (isdigit b) else Ok false);
  '(n, scale, num) ← (if frac : bool then p ← adv 1 num; number_fraction n d_zero p
                       else Ok (n, d_zero, num));
  a ← peek num;
  '(subscale, signsubscale, num) ←
    (if isc a 101 || isc a 69 then
       p ← adv 1 num;
       b ← peek p;
       '(sg, p) ← (if isc b 43 then q ← adv 1 p; Ok (1, q)
                    else if isc b 45 then q ← adv 1 p; Ok (-1, q) else Ok (1, p));
       '(e, p) ← number_exponent 0 p;
       Ok (e, sg, p)
     else Ok (0, 1, num));
  let n := d_mul (d_mul sign n) (pow (d_of_int 10) (d_add scale (d_of_int (subscale * signsubscale)))) in
  i ← int_of_double n;
  Ok (set_type cJSON_Number (set_valueint i (set_valuedouble n item)), num).

End Numbers.

(** ** Strings. *)

Definition hex_digit (a : ascii) : option Z :=
  if char_in 48 57 a then Some (code a - 48)
  else if char_in 65 70 a then Some (10 + code a - 65)
  else if char_in 97 102 a then Some (10 + code a - 97)
  else None.

(** Four digits, 0 when one of them is not a digit. *)
Fixpoint hex_loop (n : nat) (h : Z) (p : string) : outcome Z :=
  match n with
  | O => Ok h
  | S n =>
      a ← peek p;
      match hex_digit a with
      | None => Ok 0
      | Some d => p ← adv 1 p; hex_loop n (Z.shiftl h 4 + d) p
      end
  end.

Definition parse_hex4 (p : string) : outcome Z := hex_loop 4 0 p.

Definition firstByteMark : list Z := [0x00; 0x00; 0xC0; 0xE0; 0xF0; 0xF8; 0xFC].

Definition utf8_length (uc : Z) : nat :=
  if uc <? 0x80 then 1%nat else if uc <? 0x800 then 2%nat else if uc <? 0x10000 then 3%nat else 4%nat.

(** The [switch] that writes the bytes of a character from the last one back: [n]
    bytes are left to write, the bytes behind them are [tail]. *)
Fixpoint utf8_bytes (n len : nat) (uc : Z) (tail : string) : string :=
  match n with
  | O => tail
  | S O => String (char (u8 (Z.lor uc (nth len firstByteMark 0)))) tail
  | S n => utf8_bytes n len (Z.shiftr uc 6) (String (char (u8 (Z.land (Z.lor uc 0x80) 0xBF))) tail)
  end.

Definition utf8 (uc : Z) : string := utf8_bytes (utf8_length uc) (utf8_length uc) uc EmptyString.

(** The length pass: an escape counts as one character, whatever it stands for. *)
Fixpoint string_length (p : string) : outcome nat :=
  match p with
  | EmptyString => UB
  | String a p' =>
      if isc a 34 || isc a 0 then Ok O
      else if isc a 92 then
        match p' with
        | EmptyString => UB
        | String _ p'' => n ← string_length p''; Ok (S n)
        end
      else n ← string_length p'; Ok (S n)
  end.

(** Writing [s] at the end of the block [out] of [cap] bytes. *)
Definition write_block (cap : nat) (out s : string) : outcome string :=
  if (String.length out + String.length s <=? cap)%nat then Ok (String.append out s) else UB.

(** The character after [\u]: what is written and where parsing goes on, at the last
    character used. *)
Definition parse_unicode (ptr : string) : outcome (string * string) :=
  p1 ← adv 1 ptr;
  uc ← parse_hex4 p1;
  ptr ← adv 4 ptr;
  if ((0xDC00 <=? uc) && (uc <=? 0xDFFF)) || (uc =? 0) then Ok (EmptyString, ptr)
  else if (0xD800 <=? uc) && (uc <=? 0xDBFF) then
    p1 ← adv 1 ptr;
    a ← peek p1;
    if negb (isc a 92) then Ok (EmptyString, ptr)
    else
      p2 ← adv 2 ptr;
      b ← peek p2;
      if negb (isc b 117) then Ok (EmptyString, ptr)
      else
        p3 ← adv 3 ptr;
        uc2 ← parse_hex4 p3;
        ptr ← adv 6 ptr;
        if (uc2 <? 0xDC00) || (0xDFFF <? uc2) then Ok (EmptyString, ptr)
        else Ok (utf8 (0x10000 + Z.lor (Z.shiftl (Z.land uc 0x3FF) 10) (Z.land uc2 0x3FF)), ptr)
  else Ok (utf8 uc, ptr).

(** The escape at [ptr], behind the backslash. *)
Definition parse_escape (ptr : string) : outcome (string * string) :=
  a ← peek ptr;
  if isc a 98 then Ok (String (char 8) EmptyString, ptr)
  else if isc a 102 then Ok (String (char 12) EmptyString, ptr)
  else if isc a 110 then Ok (String (char 10) EmptyString, ptr)
  else if isc a 114 then Ok (String (char 13) EmptyString, ptr)
  else if isc a 116 then Ok (String (char 9) EmptyString, ptr)
  else if isc a 117 then parse_unicode ptr
  else Ok (String a EmptyString, ptr).

(** The copying pass. *)
Fixpoint string_copy (fuel cap : nat) (out ptr : string) : outcome (string * string) :=
  match fuel with
  | O => UB
  | S fuel =>
      a ← peek ptr;
      if isc a 34 || isc a 0 then Ok (out, ptr)
      else if negb (isc a 92) then
        out ← write_block cap out (String a EmptyString);
        ptr ← adv 1 ptr;
        string_copy fuel cap out ptr
      else
        ptr ← adv 1 ptr;
        '(s, ptr) ← parse_escape ptr;
        out ← write_block cap out s;
        ptr ← adv 1 ptr;
        string_copy fuel cap out ptr
  end.

(** The content of the string literal behind its opening quote, and the
    rest behind it: the block is [cap] bytes long and is terminated with NUL. *)
Definition string_content (cap : nat) (ptr : string) : outcome (string * string) :=
  '(out, ptr) ← string_copy (S (String.length ptr)) cap EmptyString ptr;
  _ ← write_block cap out (String NUL EmptyString);
  a ← peek ptr;
  ptr ← (if isc a 34 then adv 1 ptr else Ok ptr);
  Ok (c_string out, ptr).

(** ** Values. *)

Section Parser.
Context `{Libm} (malloc_ok : nat -> bool).

Definition cJSON_malloc : ST Json bool :=
  fun s => let ok := malloc_ok (allocs s) in
    Ok (ok, mkJson (ep s) (live s + (if ok then 1 else 0)) (S (allocs s))).

Definition cJSON_free : ST Json unit :=
  st_modify (fun s => mkJson (ep s) (live s - 1) (allocs s)).

Definition empty_item : cJSON := mkJSON [] 0 None 0 d_zero None.

Definition cJSON_New_Item : ST Json (option cJSON) :=
  let! ok := cJSON_malloc in st_ret (if ok then Some empty_item else None).

(** [cJSON_Delete] of a node and of a chain of nodes. *)
Fixpoint delete_item (c : cJSON) : ST Json unit :=
  let is_reference := negb (Z.land (json_type c) cJSON_IsReference =? 0) in
  do! (if is_reference then st_ret tt
       else (fix chain (l : list cJSON) : ST Json unit :=
               match l with [] => st_ret tt | x :: l => do! delete_item x in chain l end) (child c)) in
  do! (match valuestring c with
       | Some _ => if is_reference then st_ret tt else cJSON_free
       | None => st_ret tt
       end) in
  do! (match json_string c with Some _ => cJSON_free | None => st_ret tt end) in
  cJSON_free.

Fixpoint cJSON_Delete (l : list cJSON) : ST Json unit :=
  match l with [] => st_ret tt | x :: l => do! delete_item x in cJSON_Delete l end.

(** The node as it is left and the pointer that is returned. *)
Definition parse_string (item : cJSON) (str : string) : ST Json (cJSON * option string) :=
  let! a := st_lift (peek str) in
  if negb (isc a 34) then do! set_ep (Some str) in st_ret (item, None)
  else
    let! ptr := st_lift (adv 1 str) in
    let! len := st_lift (string_length ptr) in
    let! ok := cJSON_malloc in
    if negb ok then st_ret (item, None)
    else
      let! (out, ptr) := st_lift (string_content (len + 1) ptr) in
      st_ret (set_type cJSON_String (set_valuestring (Some out) item), Some ptr).

Section Values.
Variable parse_value : cJSON -> option string -> ST Json (cJSON * option string).

(** [skip(parse_value(child, skip(value)))]. *)
Definition parse_element (child : cJSON) (value : string) : ST Json (cJSON * option string) :=
  let! value := st_lift (skip value) in
  let! (child, value) := parse_value child (Some value) in
  let! value := st_lift (skip_ptr value) in
  st_ret (child, value).

(** A name, a colon and a value. *)
Definition parse_member (child : cJSON) (value : string) : ST Json (cJSON * option string) :=
  let! value := st_lift (skip value) in
  let! (child, value) := parse_string child value in
  let! value := st_lift (skip_ptr value) in
  match value with
  | None => st_ret (child, None)
  | Some value =>
      let child := set_valuestring None (set_string (valuestring child) child) in
      let! a := st_lift (peek value) in
      if negb (isc a 58) then do! set_ep (Some value) in st_ret (child, None)
      else let! value := st_lift (adv 1 value) in parse_element child value
  end.

Section List.
Variable parse_one : cJSON -> string -> ST Json (cJSON * option string).
Variable close : Z.

(** The loop over the commas and what follows it.  The children of [item]
    are [siblings], in order, and [last], whose value was just read. *)
Fixpoint list_loop (fuel : nat) (item : cJSON) (siblings : list cJSON) (last : cJSON)
    (value : string) : ST Json (cJSON * option string) :=
  match fuel with
  | O => st_ub
  | S fuel =>
      let! a := st_lift (peek value) in
      if isc a 44 then
        let! new_item := cJSON_New_Item in
        match new_item with
        | None => st_ret (set_child (siblings ++ [last]) item, None)
        | Some new_item =>
            let! value := st_lift (adv 1 value) in
            let! (new_item, value) := parse_one new_item value in
            match value with
            | None => st_ret (set_child (siblings ++ [last; new_item]) item, None)
            | Some value => list_loop fuel item (siblings ++ [last]) new_item value
            end
        end
      else if isc a close then
        let! rest := st_lift (adv 1 value) in
        st_ret (set_child (siblings ++ [last]) item, Some rest)
      else do! set_ep (Some value) in st_ret (set_child (siblings ++ [last]) item, None)
  end.

(** The body of [parse_array] and [parse_object] behind the opening bracket. *)
Definition parse_list (fuel : nat) (item : cJSON) (value : string) : ST Json (cJSON * option string) :=
  let! value := st_lift (skip value) in
  let! a := st_lift (peek value) in
  if isc a close then let! rest := st_lift (adv 1 value) in st_ret (item, Some rest)
  else
    let! c := cJSON_New_Item in
    match c with
    | None => st_ret (item, None)
    | Some c =>
        let! (c, value) := parse_one c value in
        match value with
        | None => st_ret (set_child [c] item, None)
        | Some value => list_loop fuel item [] c value
        end
    end.

End List.

Definition parse_array (fuel : nat) (item : cJSON) (value : string) : ST Json (cJSON * option string) :=
  let! a := st_lift (peek value) in
  if negb (isc a 91) then do! set_ep (Some value) in st_ret (item, None)
  else let! value := st_lift (adv 1 value) in
       parse_list parse_element 93 fuel (set_type cJSON_Array item) value.

Definition parse_object (fuel : nat) (item : cJSON) (value : string) : ST Json (cJSON * option string) :=
  let! a := st_lift (peek value) in
  if negb (isc a 123) then do! set_ep (Some value) in st_ret (item, None)
  else let! value := st_lift (adv 1 value) in
       parse_list parse_member 125 fuel (set_type cJSON_Object item) value.

End Values.

(** [fuel] bounds the depth of the recursion and the turns of the loops. *)
Fixpoint parse_value (fuel : nat) (item : cJSON) (value : option string) : ST Json (cJSON * option string) :=
  match fuel, value with
  | O, _ => st_ub
  | S _, None => st_ret (item, None)
  | S fuel, Some value =>
      let! is_null := st_lift (has_prefix "null" value) in
      if is_null : bool then
        let! rest := st_lift (adv 4 value) in st_ret (set_type cJSON_NULL item, Some rest)
      else
      let! is_false := st_lift (has_prefix "false" value) in
      if is_false : bool then
        let! rest := st_lift (adv 5 value) in st_ret (set_type cJSON_False item, Some rest)
      else
      let! is_true := st_lift (has_prefix "true" value) in
      if is_true : bool then
        let! rest := st_lift (adv 4 value) in
        st_ret (set_valueint 1 (set_type cJSON_True item), Some rest)
      else
      let! a := st_lift (peek value) in
      if isc a 34 then parse_string item value
      else if isc a 45 || isdigit a then
        let! (item, rest) := st_lift (parse_number item value) in st_ret (item, Some rest)
      else if isc a 91 then parse_array (parse_value fuel) fuel item value
      else if isc a 123 then parse_object (parse_value fuel) fuel item value
      else do! set_ep (Some value) in st_ret (item, None)
  end.

(** The tree, and the end of the text that was read. *)
Definition cJSON_ParseWithOpts (value : option string) (require_null_terminated : bool) :
    ST Json (option cJSON * option string) :=
  let! c := cJSON_New_Item in
  do! set_ep None in
  match c with
  | None => st_ret (None, None)
  | Some c =>
      let! value := st_lift (skip_ptr value) in
      let! (c, end_) := parse_value (S (String.length (default EmptyString value))) c value in
      match end_ with
      | None => do! cJSON_Delete [c] in st_ret (None, None)
      | Some end_ =>
          if require_null_terminated then
            let! end_ := st_lift (skip end_) in
            let! a := st_lift (peek end_) in
            if negb (isc a 0) then
              do! cJSON_Delete [c] in do! set_ep (Some end_) in st_ret (None, None)
            else st_ret (Some c, Some end_)
          else st_ret (Some c, Some end_)
      end
  end.

Definition cJSON_Parse (value : option string) : ST Json (option cJSON) :=
  let! (c, _) := cJSON_ParseWithOpts value false in st_ret c.

End Parser.
