(* ===== verification/JsonPrint.v ===== *)
(** * JsonPrint: the printer and the operations on trees of [cJSON.c].

    Every text is written into a block of the size that was computed for it; writing
    past its end is undefined.  A tree that is printed is not changed. *)

From S2P Require Import Prelude.
From S2P Require Import Float64 Json.
From stdpp Require Import pretty.
From Stdlib Require Import SpecFloat Ascii.
#[local] Open Scope Z_scope.

(** ** Blocks being written. *)

(** [*ptr++ = a]. *)
Definition put (cap : nat) (a : ascii) (out : string) : outcome string :=
  write_block cap out (String a EmptyString).

(** [*ptr = 0]. *)
Definition put_nul (cap : nat) (out : string) : outcome string :=
  _ ← put cap NUL out; Ok out.

(** [strcpy(ptr, s); ptr += strlen(s)], also [sprintf]. *)
Definition put_str (cap : nat) (s out : string) : outcome string :=
  out ← write_block cap out s; put_nul cap out.

(** [for (i = 0; i < n; i++) *ptr++ = a]. *)
Fixpoint put_n (n cap : nat) (a : ascii) (out : string) : outcome string :=
  match n with O => Ok out | S n => out ← put cap a out; put_n n cap a out end.

Definition INT_MAX : Z := 2 ^ 31 - 1.
Definition INT_MIN : Z := - 2 ^ 31.

(** [DBL_EPSILON], [1.0e60], [1.0e-6], [1.0e9]. *)
Definition DBL_EPSILON : double := S754_finite false (2 ^ 52) (-104).
Definition d_1e60 : double := binary_normalize 53 1024 (10 ^ 60) 0 false.
Definition d_1e_6 : double := d_div (d_of_int 1) (d_of_int (10 ^ 6)).
Definition d_1e9 : double := d_of_int (10 ^ 9).

(** ** Strings. *)

(** [strchr] of the characters that have a short escape; also true of NUL. *)
Definition has_short_escape (a : ascii) : bool :=
  isc a 34 || isc a 92 || isc a 8 || isc a 12 || isc a 10 || isc a 13 || isc a 9 || isc a 0.

(** The length of the escaped text. *)
Fixpoint escaped_length (s : string) : nat :=
  match s with
  | EmptyString => O
  | String a s =>
      if isc a 0 then O
      else ((if has_short_escape a then 2 else if (code a <? 32)%Z then 6 else 1) + escaped_length s)%nat
  end.

Definition hex_char (n : Z) : ascii := if n <? 10 then char (48 + n) else char (87 + n).

(** [u%04x]. *)
Definition unicode_escape (n : Z) : string :=
  String "u" (String (hex_char (n / 4096 mod 16)) (String (hex_char (n / 256 mod 16))
    (String (hex_char (n / 16 mod 16)) (String (hex_char (n mod 16)) EmptyString)))).

(** What follows the backslash. *)
Definition escape_text (a : ascii) : string :=
  if isc a 92 then String backslash EmptyString
  else if isc a 34 then String quote EmptyString
  else if isc a 8 then "b"
  else if isc a 12 then "f"
  else if isc a 10 then "n"
  else if isc a 13 then "r"
  else if isc a 9 then "t"
  else unicode_escape (code a).

Fixpoint escape_loop (cap : nat) (s out : string) : outcome string :=
  match s with
  | EmptyString => Ok out
  | String a s =>
      if isc a 0 then Ok out
      else if (31 <? code a) && negb (isc a 34) && negb (isc a 92) then
        out ← put cap a out; escape_loop cap s out
      else
        out ← put cap backslash out;
        out ← (if has_short_escape a then write_block cap out (escape_text a)
               else put_str cap (escape_text a) out);
        escape_loop cap s out
  end.

Section Print.
Context (malloc_ok : nat -> bool).

Abbreviation malloc := (cJSON_malloc malloc_ok).

Definition cJSON_strdup (s : string) : ST Json (option string) :=
  let! ok := malloc in st_ret (if ok then Some (c_string s) else None).

Definition print_string_ptr (s : option string) : ST Json (option string) :=
  match s with
  | None => cJSON_strdup ""
  | Some s =>
      let cap := (escaped_length s + 3)%nat in
      let! ok := malloc in
      if negb ok then st_ret None
      else
        let! out := st_lift (put cap quote EmptyString) in
        let! out := st_lift (escape_loop cap s out) in
        let! out := st_lift (put cap quote out) in
        let! out := st_lift (put_nul cap out) in
        st_ret (Some out)
  end.

Definition print_string (item : cJSON) : ST Json (option string) := print_string_ptr (valuestring item).

(** ** Numbers. *)

(** The value is an [int] up to [DBL_EPSILON]. *)
Definition is_int (item : cJSON) : bool :=
  let d := valuedouble item in
  d_le (fabs (d_sub (d_of_int (valueint item)) d)) DBL_EPSILON && d_le d (d_of_int INT_MAX)
    && d_le (d_of_int INT_MIN) d.

Definition double_text (d : double) : string :=
  if d_le (fabs (d_sub (d_floor d) d)) DBL_EPSILON && d_lt (fabs d) d_1e60 then format_f 0 d
  else if d_lt (fabs d) d_1e_6 || d_lt d_1e9 (fabs d) then format_e 6 d
  else format_f 6 d.

Definition print_number (item : cJSON) : ST Json (option string) :=
  let '(cap, text) := if is_int item then (21%nat, pretty (valueint item) : string)
                      else (64%nat, double_text (valuedouble item)) in
  let! ok := malloc in
  if ok : bool then let! out := st_lift (put_str cap text EmptyString) in st_ret (Some out)
  else st_ret None.

(** ** Arrays and objects. *)

(** [free] of the entries that were printed. *)
Fixpoint free_entries (l : list (option string)) : ST Json unit :=
  match l with
  | [] => st_ret tt
  | e :: l => do! (match e with Some _ => cJSON_free | None => st_ret tt end) in free_entries l
  end.

Definition text_length (o : option string) : nat := String.length (default EmptyString o).

Section Values.
Variable print_value : cJSON -> ST Json (option string).

(** [while (child && !fail)] of [print_array]: the entries. *)
Fixpoint array_entries (l : list cJSON) : ST Json (list (option string)) :=
  match l with
  | [] => st_ret []
  | c :: l =>
      let! ret := print_value c in
      match ret with
      | None => st_ret [None]
      | Some _ => let! rest := array_entries l in st_ret (ret :: rest)
      end
  end.

(** [while (child)] of [print_object]: the names and the entries. *)
Fixpoint object_entries (l : list cJSON) : ST Json (list (option string * option string)) :=
  match l with
  | [] => st_ret []
  | c :: l =>
      let! name := print_string_ptr (json_string c) in
      let! ret := print_value c in
      let! rest := object_entries l in
      st_ret ((name, ret) :: rest)
  end.

End Values.

(** The loop that composes the output of an array; each entry is released. *)
Fixpoint array_text (cap : nat) (fmt : bool) (l : list string) (out : string) : ST Json string :=
  match l with
  | [] => st_ret out
  | e :: l =>
      let! out := st_lift (put_str cap e out) in
      let! out := match l with
                  | [] => st_ret out
                  | _ =>
                      let! out := st_lift (put cap "," out) in
                      let! out := st_lift (if fmt then put cap " " out else Ok out) in
                      st_lift (put_nul cap out)
                  end in
      do! cJSON_free in
      array_text cap fmt l out
  end.

(** The same for an object. *)
Fixpoint object_text (cap depth : nat) (fmt : bool) (l : list (string * string)) (out : string) :
    ST Json string :=
  match l with
  | [] => st_ret out
  | (name, e) :: l =>
      let! out := st_lift (if fmt then put_n depth cap (char 9) out else Ok out) in
      let! out := st_lift (put_str cap name out) in
      let! out := st_lift (put cap ":" out) in
      let! out := st_lift (if fmt then put cap (char 9) out else Ok out) in
      let! out := st_lift (put_str cap e out) in
      let! out := st_lift (match l with [] => Ok out | _ => put cap "," out end) in
      let! out := st_lift (if fmt then put cap (char 10) out else Ok out) in
      let! out := st_lift (put_nul cap out) in
      do! cJSON_free in
      do! cJSON_free in
      object_text cap depth fmt l out
  end.

(** The names and entries, if all of them were printed. *)
Definition all_some {A} (l : list (option A)) : option (list A) := mapM id l.

Definition both (p : option string * option string) : option (string * string) :=
  match p with (Some a, Some b) => Some (a, b) | _ => None end.

Definition array_length (fmt : bool) (l : list (option string)) : nat :=
  (5 + sum_list ((fun e => text_length e + 2 + if fmt then 1 else 0) <$> l))%nat.

Definition object_length (depth : nat) (fmt : bool) (l : list (option string * option string)) : nat :=
  (7 + (if fmt then depth else 0) +
   sum_list ((fun e => text_length e.2 + text_length e.1 + 2 + if fmt then 2 + depth else 0) <$> l))%nat.

Definition print_array (print_value : cJSON -> ST Json (option string)) (item : cJSON) (fmt : bool) :
    ST Json (option string) :=
  match child item with
  | [] =>
      let! ok := malloc in
      if ok : bool then let! out := st_lift (put_str 3 "[]" EmptyString) in st_ret (Some out)
      else st_ret None
  | children =>
      let! ok := malloc in   (* entries *)
      if negb ok then st_ret None
      else
        let! entries := array_entries print_value children in
        match all_some entries with
        | None => do! free_entries entries in do! cJSON_free in st_ret None
        | Some texts =>
            let cap := array_length fmt entries in
            let! ok := malloc in
            if negb ok then do! free_entries entries in do! cJSON_free in st_ret None
            else
              let! out := st_lift (put cap "[" EmptyString) in
              let! out := st_lift (put_nul cap out) in
              let! out := array_text cap fmt texts out in
              do! cJSON_free in
              let! out := st_lift (put cap "]" out) in
              let! out := st_lift (put_nul cap out) in
              st_ret (Some out)
        end
  end.

Definition print_object (print_value : cJSON -> ST Json (option string)) (item : cJSON) (depth : nat)
    (fmt : bool) : ST Json (option string) :=
  match child item with
  | [] =>
      let cap := if fmt then (depth + 4)%nat else 3%nat in
      let! ok := malloc in
      if negb ok then st_ret None
      else
        let! out := st_lift (put cap "{" EmptyString) in
        let! out := st_lift (if fmt then out ← put cap (char 10) out; put_n (depth - 1) cap (char 9) out
                             else Ok out) in
        let! out := st_lift (put cap "}" out) in
        let! out := st_lift (put_nul cap out) in
        st_ret (Some out)
  | children =>
      let! ok := malloc in   (* entries *)
      if negb ok then st_ret None
      else
      let! ok := malloc in   (* names *)
      if negb ok then do! cJSON_free in st_ret None
      else
        let depth := S depth in
        let! entries := object_entries print_value children in
        let fail := do! free_entries (entries.*1) in do! free_entries (entries.*2) in
                    do! cJSON_free in do! cJSON_free in st_ret None in
        match all_some (both <$> entries) with
        | None => fail
        | Some texts =>
            let cap := object_length depth fmt entries in
            let! ok := malloc in
            if negb ok then fail
            else
              let! out := st_lift (put cap "{" EmptyString) in
              let! out := st_lift (if fmt then put cap (char 10) out else Ok out) in
              let! out := st_lift (put_nul cap out) in
              let! out := object_text cap depth fmt texts out in
              do! cJSON_free in
              do! cJSON_free in
              let! out := st_lift (if fmt then put_n (depth - 1) cap (char 9) out else Ok out) in
              let! out := st_lift (put cap "}" out) in
              let! out := st_lift (put_nul cap out) in
              st_ret (Some out)
        end
  end.

Fixpoint print_value (item : cJSON) (depth : nat) (fmt : bool) : ST Json (option string) :=
  let t := Z.land (json_type item) 255 in
  if t =? cJSON_NULL then cJSON_strdup "null"
  else if t =? cJSON_False then cJSON_strdup "false"
  else if t =? cJSON_True then cJSON_strdup "true"
  else if t =? cJSON_Number then print_number item
  else if t =? cJSON_String then print_string item
  else if t =? cJSON_Array then print_array (fun c => print_value c (S depth) fmt) item fmt
  else if t =? cJSON_Object then print_object (fun c => print_value c (S depth) fmt) item depth fmt
  else st_ret None.

Definition cJSON_Print (item : cJSON) : ST Json (option string) := print_value item 0 true.
Definition cJSON_PrintUnformatted (item : cJSON) : ST Json (option string) := print_value item 0 false.

End Print.
