(* ===== verification/JsonSpec.v ===== *)
(** * JsonSpec: JSON values and texts.

    What the library is meant to do: [json] is a value, [node] its representation as
    a tree of [cJSON] nodes, [text] the grammar (with blanks, escapes, UTF-16 pairs,
    integers and decimals with a fraction and an exponent), [render] the two ways in which a value is printed. *)

From S2P Require Import Prelude.
From S2P Require Import Float64 Json JsonPrint.
From stdpp Require Import pretty.
From Stdlib Require Import Ascii.
#[local] Open Scope Z_scope.

(** ** Values. *)

#[local] Unset Elimination Schemes.
Inductive json : Type :=
| JNull
| JBool (b : bool)
| JNum (z : Z)
| JReal (v : double)
| JStr (s : string)
| JArr (l : list json)
| JObj (l : list (string * json)).
#[local] Set Elimination Schemes.

(** Induction with the hypothesis for every element and member. *)
Definition json_ind (P : json -> Prop) (Hnull : P JNull) (Hbool : forall b, P (JBool b))
    (Hnum : forall z, P (JNum z)) (Hreal : forall v, P (JReal v)) (Hstr : forall s, P (JStr s))
    (Harr : forall l, Forall P l -> P (JArr l)) (Hobj : forall l, Forall (fun m => P m.2) l -> P (JObj l)) :
    forall j, P j :=
  fix go j := match j with
    | JNull => Hnull
    | JBool b => Hbool b
    | JNum z => Hnum z
    | JReal v => Hreal v
    | JStr s => Hstr s
    | JArr l => Harr l ((fix all l : Forall P l :=
        match l with [] => Forall_nil_2 _ | x :: l => Forall_cons_2 _ _ _ (go x) (all l) end) l)
    | JObj l => Hobj l ((fix all l : Forall (fun m => P m.2) l :=
        match l with [] => Forall_nil_2 _ | m :: l => Forall_cons_2 _ _ _ (go m.2) (all l) end) l)
    end.

(** The node of a value; [name] is its name as a member. *)
Fixpoint node (name : option string) (j : json) : cJSON :=
  match j with
  | JNull => mkJSON [] cJSON_NULL None 0 d_zero name
  | JBool b => mkJSON [] (if b then cJSON_True else cJSON_False) None (if b then 1 else 0) d_zero name
  | JNum z => mkJSON [] cJSON_Number None z (d_of_int z) name
  | JReal v => mkJSON [] cJSON_Number None (default 0 (d_trunc v)) v name
  | JStr s => mkJSON [] cJSON_String (Some s) 0 d_zero name
  | JArr l => mkJSON (node None <$> l) cJSON_Array None 0 d_zero name
  | JObj l => mkJSON ((fun m => node (Some m.1) m.2) <$> l) cJSON_Object None 0 d_zero name
  end.

(** ** Characters and C strings. *)

Fixpoint all_chars (P : ascii -> bool) (s : string) : bool :=
  match s with EmptyString => true | String a s => P a && all_chars P s end.

(** No NUL inside. *)
Definition no_nul (s : string) : Prop := all_chars (fun a => negb (isc a 0)) s = true.

Definition blank (s : string) : Prop := all_chars (char_in 1 32) s = true.

(** Numbers are [int]s, strings are C strings: the values that are printed exactly. *)
Fixpoint wf_json (j : json) : Prop :=
  match j with
  | JNum z => - 2 ^ 31 <= z < 2 ^ 31
  | JReal _ => False
  | JStr s => no_nul s
  | JArr l => foldr (fun x P => wf_json x /\ P) True l
  | JObj l => foldr (fun m P => (no_nul m.1 /\ wf_json m.2) /\ P) True l
  | _ => True
  end.

(** ** The grammar. *)

Definition plain (a : ascii) : bool := negb (isc a 0) && negb (isc a 34) && negb (isc a 92).

Definition short_escape (e : ascii) : option ascii :=
  if isc e 34 || isc e 92 || isc e 47 then Some e
  else if isc e 98 then Some (char 8)
  else if isc e 102 then Some (char 12)
  else if isc e 110 then Some (char 10)
  else if isc e 114 then Some (char 13)
  else if isc e 116 then Some (char 9)
  else None.

(** Four hexadecimal digits. *)
Definition hex4 (h : string) (uc : Z) : Prop :=
  exists a b c d x y z w, h = String a (String b (String c (String d EmptyString))) /\
    hex_digit a = Some x /\ hex_digit b = Some y /\ hex_digit c = Some z /\ hex_digit d = Some w /\
    uc = 4096 * x + 256 * y + 16 * z + w.

(** The content of a string literal and what it stands for. *)
Inductive lit : string -> string -> Prop :=
| lit_nil : lit EmptyString EmptyString
| lit_char a s t : plain a = true -> lit s t -> lit (String a s) (String a t)
| lit_escape e a s t : short_escape e = Some a -> lit s t ->
    lit (String a s) (String backslash (String e t))
| lit_unicode h uc s t : hex4 h uc -> 0 < uc -> ~ (0xD800 <= uc <= 0xDFFF) -> lit s t ->
    lit (utf8 uc +:+ s) (String backslash (String "u" (h +:+ t)))
| lit_pair h hi h' lo s t : hex4 h hi -> hex4 h' lo ->
    0xD800 <= hi <= 0xDBFF -> 0xDC00 <= lo <= 0xDFFF -> lit s t ->
    lit (utf8 (0x10000 + (hi - 0xD800) * 0x400 + (lo - 0xDC00)) +:+ s)
      (String backslash (String "u" (h +:+ String backslash (String "u" (h' +:+ t))))).

Definition quoted (t : string) : string := String quote (t +:+ String quote EmptyString).

(** The number of a sequence of digits. *)
Fixpoint digits_value (n : Z) (t : string) : Z :=
  match t with EmptyString => n | String a t => digits_value (10 * n + (code a - 48)) t end.

(** Digits without a leading zero. *)
Definition digits (t : string) : Prop :=
  all_chars isdigit t = true /\
  match t with EmptyString => False | String a t => isc a 48 = true -> t = EmptyString end.

(** An integer, with its sign if it is negative. *)
Definition number (z : Z) (t : string) : Prop :=
  - 2 ^ 31 <= z < 2 ^ 31 /\
  (digits t /\ z = digits_value 0 t \/
   exists t', t = String "-" t' /\ digits t' /\ z < 0 /\ z = - digits_value 0 t').

(** ** Decimals. *)

Section Grammar.
Context `{Libm}.

(** A point and the digits behind it, or nothing. *)
Definition fraction (f t : string) : Prop :=
  f = EmptyString /\ t = EmptyString \/
  all_chars isdigit f = true /\ f <> EmptyString /\ t = String "." f.

(** The letter, a sign and digits, or nothing. *)
Definition exponent (e : Z) (t : string) : Prop :=
  e = 0 /\ t = EmptyString \/
  exists c d, (c = "e"%char \/ c = "E"%char) /\ all_chars isdigit d = true /\ d <> EmptyString /\
    digits_value 0 d < 2 ^ 31 /\
    (e = digits_value 0 d /\ (t = String c d \/ t = String c (String "+" d)) \/
     e = - digits_value 0 d /\ t = String c (String "-" d)).

(** The number of the digits [i], the digits [f] behind the point and the exponent [e]. *)
Definition decimal_value (neg : bool) (i f : string) (e : Z) : double :=
  d_mul (d_mul (d_of_int (if neg then -1 else 1)) (d_of_int (digits_value 0 (i +:+ f))))
    (pow (d_of_int 10) (d_of_int (e - Z.of_nat (String.length f)))).

(** A decimal whose digits are a number of at most 52 bits and whose integer part is an [int]. *)
Definition decimal (v : double) (t : string) : Prop :=
  exists (neg : bool) i f tf e te,
    t = (if neg then "-"%string else EmptyString) +:+ i +:+ tf +:+ te /\
    digits i /\ fraction f tf /\ exponent e te /\
    digits_value 0 (i +:+ f) < 2 ^ 52 /\ Z.of_nat (String.length f) < 2 ^ 31 /\
    v = decimal_value neg i f e /\ exists z, int_of_double v = Ok z.

(** ** Texts. *)

Inductive text : json -> string -> Prop :=
| text_null : text JNull "null"
| text_true : text (JBool true) "true"
| text_false : text (JBool false) "false"
| text_number z t : number z t -> text (JNum z) t
| text_decimal v t : decimal v t -> text (JReal v) t
| text_string s t : lit s t -> text (JStr s) (quoted t)
| text_no_elements w : blank w -> text (JArr []) (String "[" (w +:+ "]"))
| text_array l t : elements l t -> text (JArr l) (String "[" (t +:+ "]"))
| text_no_members w : blank w -> text (JObj []) (String "{" (w +:+ "}"))
| text_object l t : members l t -> text (JObj l) (String "{" (t +:+ "}"))
with elements : list json -> string -> Prop :=
| elements_last j t w w' : blank w -> blank w' -> text j t -> elements [j] (w +:+ t +:+ w')
| elements_more j l t t' w w' : blank w -> blank w' -> text j t -> elements l t' ->
    elements (j :: l) (w +:+ t +:+ w' +:+ String "," t')
with members : list (string * json) -> string -> Prop :=
| members_last m t : member m t -> members [m] t
| members_more m l t t' : member m t -> members l t' -> members (m :: l) (t +:+ String "," t')
with member : string * json -> string -> Prop :=
| member_intro k j tk t w w' w'' w''' : blank w -> blank w' -> blank w'' -> blank w''' ->
    lit k tk -> text j t ->
    member (k, j) (w +:+ quoted tk +:+ w' +:+ String ":" (w'' +:+ t +:+ w''')).

Scheme text_mut := Minimality for text Sort Prop
  with elements_mut := Minimality for elements Sort Prop
  with members_mut := Minimality for members Sort Prop
  with member_mut := Minimality for member Sort Prop.

End Grammar.

(** ** Printing. *)

Fixpoint escape (s : string) : string :=
  match s with
  | EmptyString => EmptyString
  | String a s =>
      if (31 <? code a) && negb (isc a 34) && negb (isc a 92) then String a (escape s)
      else String backslash (escape_text a +:+ escape s)
  end.

Definition tabs (n : nat) : string := Nat.iter n (String (char 9)) EmptyString.

(** The texts of the elements, separated. *)
Fixpoint join_texts (sep : string) (l : list string) : string :=
  match l with
  | [] => EmptyString
  | [t] => t
  | t :: l => t +:+ sep +:+ join_texts sep l
  end.

(** The lines of an object. *)
Definition member_text (depth : nat) (fmt : bool) (name t : string) : string :=
  (if fmt then tabs depth else EmptyString) +:+ quoted (escape name) +:+
  String ":" ((if fmt then String (char 9) EmptyString else EmptyString) +:+ t).

Definition object_lines (depth : nat) (fmt : bool) (l : list string) : string :=
  let nl := if fmt then String (char 10) EmptyString else EmptyString in
  String "{" (nl +:+
    (match l with [] => EmptyString | _ => join_texts (String "," nl) l +:+ nl end) +:+
    (if fmt then tabs depth else EmptyString) +:+ "}").

(** Values that are printed exactly ([wf_json]).
    With [fmt] elements are followed by a blank and members are on lines of their own;
    an empty object inside others is indented one less than it should. *)
Fixpoint render (depth : nat) (fmt : bool) (j : json) : string :=
  match j with
  | JNull => "null"
  | JBool b => if b then "true" else "false"
  | JNum z => pretty z
  | JReal _ => EmptyString
  | JStr s => quoted (escape s)
  | JArr l => String "[" (join_texts (if fmt then ", " else ",") (render (S depth) fmt <$> l) +:+ "]")
  | JObj [] => object_lines (depth - 1) fmt []
  | JObj l => object_lines depth fmt
      ((fun m => member_text (S depth) fmt m.1 (render (S depth) fmt m.2)) <$> l)
  end.
