(* ===== verification/JsonFacts.v ===== *)
(** * JsonFacts: lemmas about the parser.

    Characters, blanks, string literals and numbers: what the functions of [Json] do
    on a text of the grammar that is followed by any rest. *)

From S2P Require Import Prelude.
From S2P Require Import Float64 Json JsonPrint JsonSpec.
From stdpp Require Import pretty.
From Stdlib Require Import Ascii.
#[local] Open Scope Z_scope.

(** ** Characters. *)

Lemma code_range a : 0 <= code a < 256.
Proof.
  unfold code. pose proof (N_ascii_bounded a). lia.
Qed.

Lemma isc_true a n : isc a n = true <-> code a = n.
Proof. apply Z.eqb_eq. Qed.

Lemma code_inj a b : code a = code b -> a = b.
Proof.
  unfold code. intros E. rewrite <- (ascii_N_embedding a), <- (ascii_N_embedding b). f_equal. lia.
Qed.

Lemma code_char n : 0 <= n < 256 -> code (char n) = n.
Proof. intros Hn. unfold code, char. rewrite N_ascii_embedding; lia. Qed.

Lemma is_char a n : isc a n = true -> a = char n.
Proof.
  intros E%isc_true. apply code_inj. pose proof (code_range a). by rewrite code_char by lia.
Qed.

(** Turn tests of characters into propositions about codes. *)
Ltac char_prop := unfold isdigit, plain, char_in, isc in *; bool_prop.

(** ** Texts. *)

Lemma append_cons a s t : String a s +:+ t = String a (s +:+ t).
Proof. done. Qed.

Lemma append_empty s : EmptyString +:+ s = s.
Proof. done. Qed.

Lemma adv_append s p : adv (String.length s) (s +:+ p) = Ok p.
Proof. induction s as [|a s IH]; [by destruct p|]. apply IH. Qed.

Lemma skip_blank w p : blank w -> skip (w +:+ p) = skip p.
Proof.
  unfold blank. induction w as [|a w IH]; intros Hw; [done|]. cbn in Hw. apply andb_true_iff in Hw as [Ha Hw].
  rewrite append_cons. cbn [skip]. rewrite Ha. by apply IH.
Qed.

(** A text that starts with a character above 32. *)
Definition starts (p : string) : Prop := exists a q, p = String a q /\ 32 < code a.

Lemma skip_starts p : starts p -> skip p = Ok p.
Proof.
  intros (a & q & -> & Ha). cbn. replace (char_in 1 32 a) with false; [done|].
  symmetry. unfold char_in. apply andb_false_iff. right. apply Z.leb_gt. lia.
Qed.

Lemma starts_append p q : starts p -> starts (p +:+ q).
Proof. intros (a & p' & -> & Ha). by exists a, (p' +:+ q). Qed.

Lemma all_chars_append P s t : all_chars P (s +:+ t) = all_chars P s && all_chars P t.
Proof.
  induction s as [|a s IH]; [done|]. rewrite append_cons. cbn [all_chars]. by rewrite IH, andb_assoc.
Qed.

Lemma c_string_no_nul s : no_nul s -> c_string s = s.
Proof.
  unfold no_nul. induction s as [|a s IH]; intros Hs; [done|]. cbn in Hs |- *.
  apply andb_true_iff in Hs as [Ha Hs]. apply negb_true_iff in Ha. rewrite Ha. f_equal. by apply IH.
Qed.

(** ** Hexadecimal digits and UTF-8. *)

Lemma hex_digit_range a x : hex_digit a = Some x ->
  0 <= x < 16 /\ isc a 34 = false /\ isc a 0 = false /\ isc a 92 = false.
Proof.
  unfold hex_digit. pose proof (code_range a).
  repeat case_match; intros [= <-]; char_prop; split_and!; try apply Z.eqb_neq; lia.
Qed.

Lemma hex_loop_step n h a x p : hex_digit a = Some x ->
  hex_loop (S n) h (String a p) = hex_loop n (Z.shiftl h 4 + x) p.
Proof. intros E. cbn [hex_loop peek mbind outcome_bind]. by rewrite E. Qed.

Lemma parse_hex4_spec h uc p : hex4 h uc -> parse_hex4 (h +:+ p) = Ok uc.
Proof.
  intros (a & b & c & d & x & y & z & w & -> & Ha & Hb & Hc & Hd & ->).
  unfold parse_hex4. rewrite !append_cons.
  rewrite (hex_loop_step _ _ _ _ _ Ha), (hex_loop_step _ _ _ _ _ Hb), (hex_loop_step _ _ _ _ _ Hc),
    (hex_loop_step _ _ _ _ _ Hd). cbn [hex_loop]. f_equal. rewrite !Z.shiftl_mul_pow2 by lia. lia.
Qed.

Lemma hex4_length h uc : hex4 h uc -> String.length h = 4%nat.
Proof. by intros (a & b & c & d & x & y & z & w & -> & _). Qed.

Lemma hex4_range h uc : hex4 h uc -> 0 <= uc < 65536.
Proof.
  intros (a & b & c & d & x & y & z & w & -> & Ha & Hb & Hc & Hd & ->).
  apply hex_digit_range in Ha, Hb, Hc, Hd. lia.
Qed.

Lemma utf8_length_bounds uc : (1 <= String.length (utf8 uc) <= 4)%nat.
Proof. unfold utf8, utf8_length. repeat case_match; cbn; lia. Qed.

(** A byte with its highest bit set is not NUL. *)
Lemma high_byte z : Z.testbit z 7 = true -> isc (char (u8 z)) 0 = false.
Proof.
  intros Hz. apply not_true_iff_false. rewrite isc_true, code_char by apply u8_range.
  intros E. rewrite <- (Z.mod_pow2_bits_low z 8 7) in Hz by lia. fold (u8 z) in Hz. by rewrite E in Hz.
Qed.

Lemma utf8_no_nul uc : 0 < uc -> no_nul (utf8 uc).
Proof.
  intros Huc. unfold no_nul, utf8, utf8_length.
  assert (Hc : forall x, isc (char (u8 (Z.land (Z.lor x 0x80) 0xBF))) 0 = false)
    by (intros x; apply high_byte; rewrite Z.land_spec, Z.lor_spec, orb_true_r; done).
  assert (Hf : forall x m, Z.testbit m 7 = true -> isc (char (u8 (Z.lor x m))) 0 = false)
    by (intros x m Hm; apply high_byte; rewrite Z.lor_spec, Hm; apply orb_true_r).
  destruct (uc <? 0x80) eqn:E; bool_prop.
  - cbn [utf8_bytes all_chars nth firstByteMark]. rewrite Z.lor_0_r, u8_small by lia.
    replace (isc (char uc) 0) with false; [done|]. symmetry. apply not_true_iff_false.
    rewrite isc_true, code_char by lia. lia.
  - repeat case_match; cbn [utf8_bytes all_chars nth firstByteMark]; rewrite !Hc, Hf by done; done.
Qed.

(** ** String literals. *)

Lemma write_block_ok cap out s : (String.length out + String.length s <= cap)%nat ->
  write_block cap out s = Ok (out +:+ s).
Proof. intros Hl. unfold write_block. by rewrite (proj2 (Nat.leb_le _ _) Hl). Qed.

Lemma plain_tests a : plain a = true -> isc a 34 || isc a 0 = false /\ isc a 92 = false.
Proof. unfold plain. by destruct (isc a 0), (isc a 34), (isc a 92). Qed.

Lemma hex_plain a x : hex_digit a = Some x -> plain a = true.
Proof. intros (_ & H1 & H2 & H3)%hex_digit_range. unfold plain. by rewrite H1, H2, H3. Qed.

Lemma string_length_plain a p n : plain a = true -> string_length p = Ok n ->
  string_length (String a p) = Ok (S n).
Proof. intros [H1 H2]%plain_tests Hn. cbn [string_length]. by rewrite H1, H2, (obind_ok _ _ _ Hn). Qed.

Lemma string_length_escape a p n : string_length p = Ok n ->
  string_length (String backslash (String a p)) = Ok (S n).
Proof. intros Hn. cbn [string_length]. by rewrite (obind_ok _ _ _ Hn). Qed.

Lemma string_length_hex h uc p n : hex4 h uc -> string_length p = Ok n ->
  string_length (h +:+ p) = Ok (4 + n)%nat.
Proof.
  intros (a & b & c & d & x & y & z & w & -> & Ha & Hb & Hc & Hd & _) Hn. rewrite !append_cons, append_empty.
  cbn [Nat.add]. repeat (apply string_length_plain; [by eapply hex_plain|]). done.
Qed.

(** One turn of the copying pass: a character, or an escape. *)
Lemma copy_plain fuel cap out a p : plain a = true -> (String.length out < cap)%nat ->
  string_copy (S fuel) cap out (String a p) = string_copy fuel cap (out +:+ String a EmptyString) p.
Proof.
  intros [H1 H2]%plain_tests Hl. cbn [string_copy peek mbind outcome_bind]. rewrite H1, H2. cbn [negb].
  rewrite write_block_ok by (cbn; lia). done.
Qed.

Lemma copy_escape fuel cap out p s q a q' : parse_escape p = Ok (s, q) -> q = String a q' ->
  (String.length out + String.length s <= cap)%nat ->
  string_copy (S fuel) cap out (String backslash p) = string_copy fuel cap (out +:+ s) q'.
Proof.
  intros Hp -> Hl. change (string_copy (S fuel) cap out (String backslash p)) with
    ('(s, ptr) ← parse_escape p; out ← write_block cap out s; ptr ← adv 1 ptr;
     string_copy fuel cap out ptr).
  rewrite (obind_ok _ _ _ Hp). cbn [fst snd]. rewrite write_block_ok by done. done.
Qed.

Lemma parse_escape_short e a p : short_escape e = Some a ->
  parse_escape (String e p) = Ok (String a EmptyString, String e p).
Proof.
  unfold short_escape, parse_escape. cbn [peek mbind outcome_bind].
  destruct (isc e 34 || isc e 92 || isc e 47) eqn:E; [|repeat case_match; by intros [= <-]].
  intros [= <-]. char_prop. apply orb_true_iff in E as [[E|E]%orb_true_iff|E]; bool_prop; rewrite E; done.
Qed.

(** The last character of a non-empty text, with what follows it. *)
Lemma adv_last s p : (0 < String.length s)%nat ->
  exists a, adv (String.length s - 1) (s +:+ p) = Ok (String a p).
Proof.
  induction s as [|a s IH]; intros Hl; [cbn in Hl; lia|]. destruct s as [|b s]; [by exists a|].
  cbn [String.length] in *. replace (S (S (String.length s)) - 1)%nat with (S (S (String.length s) - 1)) by lia.
  apply IH. lia.
Qed.

Lemma parse_escape_unicode p : parse_escape (String "u" p) = parse_unicode (String "u" p).
Proof. done. Qed.

Lemma adv_hex a h uc p : hex4 h uc -> exists b, adv 4 (String a (h +:+ p)) = Ok (String b p).
Proof. intros (b & c & d & e & x & y & z & w & -> & _). by exists e. Qed.

Lemma parse_unicode_single h uc p : hex4 h uc -> 0 < uc -> ~ (0xD800 <= uc <= 0xDFFF) ->
  exists b, parse_unicode (String "u" (h +:+ p)) = Ok (utf8 uc, String b p).
Proof.
  intros Hh Hpos Hs. destruct (adv_hex "u" h uc p Hh) as [b Hb]. exists b. unfold parse_unicode.
  rewrite (obind_ok _ _ (h +:+ p)) by done. rewrite (obind_ok _ _ _ (parse_hex4_spec h uc p Hh)).
  rewrite (obind_ok _ _ _ Hb).
  replace ((0xDC00 <=? uc) && (uc <=? 0xDFFF)) with false by (symmetry; apply andb_false_iff; lia).
  replace ((0xD800 <=? uc) && (uc <=? 0xDBFF)) with false by (symmetry; apply andb_false_iff; lia).
  by replace (uc =? 0) with false by lia.
Qed.

(** The bits of a surrogate pair. *)
Lemma surrogate_bits hi lo : 0xD800 <= hi <= 0xDBFF -> 0xDC00 <= lo <= 0xDFFF ->
  0x10000 + Z.lor (Z.shiftl (Z.land hi 0x3FF) 10) (Z.land lo 0x3FF)
  = 0x10000 + (hi - 0xD800) * 0x400 + (lo - 0xDC00).
Proof.
  intros Hhi Hlo. change 0x3FF with (Z.ones 10). rewrite !Z.land_ones by lia.
  replace (hi mod 2 ^ 10) with (hi - 0xD800) by (apply (Z.mod_unique_pos _ _ 54); lia).
  replace (lo mod 2 ^ 10) with (lo - 0xDC00) by (apply (Z.mod_unique_pos _ _ 55); lia).
  assert (Hc : Z.land (Z.shiftl (hi - 0xD800) 10) (lo - 0xDC00) = 0).
  { apply Z.bits_inj'. intros n Hn. rewrite Z.land_spec, Z.bits_0. destruct (Z.ltb_spec n 10).
    - by rewrite Z.shiftl_spec_low.
    - rewrite <- (Z.mod_small (lo - 0xDC00) (2 ^ 10)) by lia.
      rewrite Z.mod_pow2_bits_high by lia. apply andb_false_r. }
  rewrite <- Z.lxor_lor, <- Z.add_nocarry_lxor, Z.shiftl_mul_pow2 by (done || lia). lia.
Qed.

Lemma adv_hex_pair b h lo p : hex4 h lo ->
  exists a, adv 6 (String b (String backslash (String "u" (h +:+ p)))) = Ok (String a p).
Proof. intros (c & d & e & f & x & y & z & w & -> & _). by exists f. Qed.

Lemma parse_unicode_pair h hi h' lo p : hex4 h hi -> hex4 h' lo ->
  0xD800 <= hi <= 0xDBFF -> 0xDC00 <= lo <= 0xDFFF ->
  exists b, parse_unicode (String "u" (h +:+ String backslash (String "u" (h' +:+ p))))
    = Ok (utf8 (0x10000 + (hi - 0xD800) * 0x400 + (lo - 0xDC00)), String b p).
Proof.
  intros Hh Hh' Hhi Hlo. set (q := String backslash (String "u" (h' +:+ p))).
  destruct (adv_hex "u" h hi q Hh) as [b Hb]. destruct (adv_hex_pair b h' lo p Hh') as [c Hc].
  exists c. unfold parse_unicode.
  rewrite (obind_ok _ _ (h +:+ q)) by done. rewrite (obind_ok _ _ _ (parse_hex4_spec h hi q Hh)).
  rewrite (obind_ok _ _ _ Hb).
  replace ((0xDC00 <=? hi) && (hi <=? 0xDFFF)) with false by (symmetry; apply andb_false_iff; lia).
  replace ((0xD800 <=? hi) && (hi <=? 0xDBFF)) with true by (symmetry; apply andb_true_iff; lia).
  replace (hi =? 0) with false by lia.
  rewrite (obind_ok _ _ q), (obind_ok _ _ backslash), (obind_ok _ _ (String "u" (h' +:+ p))),
    (obind_ok _ _ "u"%char) by done.
  change (negb (isc backslash 92)) with false. change (negb (isc "u" 117)) with false. cbn [orb].
  rewrite (obind_ok _ _ (h' +:+ p)), (obind_ok _ _ _ (parse_hex4_spec h' lo p Hh')) by done.
  rewrite (obind_ok _ _ _ Hc).
  replace ((lo <? 0xDC00) || (0xDFFF <? lo)) with false by (symmetry; apply orb_false_iff; lia).
  by rewrite surrogate_bits.
Qed.

(** Both passes over a literal: the block is large enough for what is written. *)
Lemma lit_scan s t r : lit s t -> exists n,
  string_length (t +:+ String quote r) = Ok n /\ (String.length s <= n)%nat /\
  forall fuel cap out, (String.length t < fuel)%nat -> (String.length out + n <= cap)%nat ->
    string_copy fuel cap out (t +:+ String quote r) = Ok (out +:+ s, String quote r).
Proof.
  induction 1 as [|a s t Ha _ IH|e a s t He _ IH|h uc s t Hh Hpos Hs _ IH|h hi h' lo s t Hh Hh' Hhi Hlo _ IH].
  - exists O. split_and!; [done|done|]. intros [|fuel] cap out Hf _; [lia|]. by rewrite append_nil_r.
  - destruct IH as (n & Hn & Hl & IH). exists (S n). rewrite append_cons. split_and!.
    + by apply string_length_plain.
    + cbn; lia.
    + intros [|fuel] cap out Hf Hc; cbn [String.length] in Hf; [lia|].
      rewrite copy_plain by (done || lia). rewrite IH; [by rewrite append_assoc|lia|].
      rewrite length_append. cbn. lia.
  - destruct IH as (n & Hn & Hl & IH). exists (S n). rewrite !append_cons. split_and!.
    + by apply string_length_escape.
    + cbn; lia.
    + intros [|fuel] cap out Hf Hc; cbn [String.length] in Hf; [lia|].
      rewrite (copy_escape _ _ _ _ _ _ e (t +:+ String quote r) (parse_escape_short e a _ He)) by (done || cbn; lia).
      rewrite IH; [by rewrite append_assoc|lia|]. rewrite length_append. cbn. lia.
  - destruct IH as (n & Hn & Hl & IH). exists (5 + n)%nat. rewrite !append_cons, append_assoc.
    pose proof (utf8_length_bounds uc). pose proof (hex4_length h uc Hh). split_and!.
    + by apply string_length_escape, (string_length_hex h uc).
    + rewrite length_append. lia.
    + intros [|fuel] cap out Hf Hc; cbn [String.length] in Hf; [lia|].
      destruct (parse_unicode_single h uc (t +:+ String quote r) Hh Hpos Hs) as [b Hb].
      rewrite <- parse_escape_unicode in Hb.
      rewrite (copy_escape _ _ _ _ _ _ b (t +:+ String quote r) Hb) by (done || lia).
      rewrite length_append in Hf. rewrite IH; [by rewrite append_assoc|lia|]. rewrite length_append. lia.
  - destruct IH as (n & Hn & Hl & IH). exists (10 + n)%nat. rewrite !append_cons, append_assoc.
    rewrite !append_cons, append_assoc.
    set (uc := 0x10000 + (hi - 0xD800) * 0x400 + (lo - 0xDC00)).
    pose proof (utf8_length_bounds uc). pose proof (hex4_length h hi Hh). pose proof (hex4_length h' lo Hh').
    split_and!.
    + apply string_length_escape, (string_length_hex h hi _ (5 + n)); [done|].
      by apply string_length_escape, (string_length_hex h' lo).
    + rewrite length_append. lia.
    + intros [|fuel] cap out Hf Hc; cbn [String.length] in Hf; [lia|].
      destruct (parse_unicode_pair h hi h' lo (t +:+ String quote r) Hh Hh' Hhi Hlo) as [b Hb].
      rewrite <- parse_escape_unicode in Hb. fold uc in Hb.
      rewrite (copy_escape _ _ _ _ _ _ b (t +:+ String quote r) Hb) by (done || lia).
      rewrite length_append in Hf. cbn [String.length] in Hf. rewrite length_append in Hf.
      rewrite IH; [by rewrite append_assoc|lia|]. rewrite length_append. lia.
Qed.

Lemma lit_no_nul s t : lit s t -> no_nul s.
Proof.
  unfold no_nul. induction 1 as [|a s t Ha _ IH|e a s t He _ IH|h uc s t Hh Hpos Hs _ IH|h hi h' lo s t Hh Hh' Hhi Hlo _ IH];
    cbn [all_chars]; rewrite ?all_chars_append, ?IH; [done| | | |].
  - unfold plain in Ha. by destruct (isc a 0).
  - unfold short_escape in He. destruct (isc e 34 || isc e 92 || isc e 47) eqn:E.
    + injection He as <-. destruct (isc e 0) eqn:E0; [|done]. apply is_char in E0. by subst.
    + repeat case_match; by simplify_eq.
  - rewrite andb_true_r. by apply utf8_no_nul.
  - rewrite andb_true_r. apply utf8_no_nul. lia.
Qed.

Lemma string_content_lit s t r n cap : lit s t -> string_length (t +:+ String quote r) = Ok n ->
  (n < cap)%nat -> string_content cap (t +:+ String quote r) = Ok (s, r).
Proof.
  intros Hlit Hn Hc. destruct (lit_scan s t r Hlit) as (n' & Hn' & Hl & Hcopy).
  rewrite Hn in Hn'. injection Hn' as <-. unfold string_content. rewrite Hcopy.
  - cbn [mbind outcome_bind]. rewrite append_empty, write_block_ok by (cbn; lia).
    cbn [peek mbind outcome_bind]. change (isc quote 34) with true. cbn [adv mbind outcome_bind].
    by rewrite (c_string_no_nul s (lit_no_nul s t Hlit)).
  - rewrite length_append. cbn. lia.
  - cbn. lia.
Qed.

(** ** Numbers. *)

(** A character that cannot continue a number. *)
Definition stops (r : string) : Prop :=
  exists a q, r = String a q /\ isdigit a = false /\ isc a 46 = false /\ isc a 101 = false /\ isc a 69 = false.

Lemma digits_value_le n t : all_chars isdigit t = true -> 0 <= n -> n <= digits_value n t.
Proof.
  revert n. induction t as [|a t IH]; intros n Ht Hn; [done|]. cbn in *. apply andb_true_iff in Ht as [Ha Ht].
  char_prop. specialize (IH (10 * n + (code a - 48)) Ht). lia.
Qed.

(** A character that is not a digit. *)
Definition no_digit (r : string) : Prop := exists a q, r = String a q /\ isdigit a = false.

Lemma stops_no_digit r : stops r -> no_digit r.
Proof. intros (a & q & -> & Ha & _). by exists a, q. Qed.

Lemma digits_value_app n t u : digits_value n (t +:+ u) = digits_value (digits_value n t) u.
Proof. revert n. induction t as [|a t IH]; intros n; [done|]. rewrite append_cons. cbn [digits_value]. apply IH. Qed.

(** One more digit of an integer of at most 52 bits. *)
Lemma digit_step n a t : isdigit a = true -> all_chars isdigit t = true -> 0 <= n ->
  digits_value n (String a t) < 2 ^ 52 -> 0 <= 10 * n + (code a - 48) /\
  d_add (d_mul (d_of_int n) (d_of_int 10)) (d_of_int (code a - 48)) = d_of_int (10 * n + (code a - 48)).
Proof.
  intros Ha Ht Hn Hv. assert (48 <= code a <= 57) by (char_prop; lia). cbn [digits_value] in Hv.
  pose proof (digits_value_le (10 * n + (code a - 48)) t Ht). split; [lia|].
  rewrite d_mul_int, d_add_int by lia. f_equal. lia.
Qed.

Lemma number_digits_spec n t r : all_chars isdigit t = true -> no_digit r -> 0 <= n ->
  digits_value n t < 2 ^ 52 -> number_digits (d_of_int n) (t +:+ r) = Ok (d_of_int (digits_value n t), r).
Proof.
  revert n. induction t as [|a t IH]; intros n Ht Hr Hn Hv.
  - destruct Hr as (b & q & -> & Hb). rewrite append_empty. cbn [number_digits]. by rewrite Hb.
  - cbn [all_chars] in Ht. apply andb_true_iff in Ht as [Ha Ht]. rewrite append_cons. cbn [number_digits].
    rewrite Ha. destruct (digit_step n a t Ha Ht Hn Hv) as [Hn' ->]. by apply IH.
Qed.

(** The digits behind the point count the scale down. *)
Lemma number_fraction_spec n k t r : all_chars isdigit t = true -> no_digit r -> 0 <= n ->
  digits_value n t < 2 ^ 52 -> 0 <= k -> k + Z.of_nat (String.length t) < 2 ^ 52 ->
  number_fraction (d_of_int n) (d_of_int (- k)) (t +:+ r)
  = Ok (d_of_int (digits_value n t), d_of_int (- (k + Z.of_nat (String.length t))), r).
Proof.
  revert n k. induction t as [|a t IH]; intros n k Ht Hr Hn Hv Hk Hl.
  - destruct Hr as (b & q & -> & Hb). rewrite append_empty. cbn [number_fraction]. rewrite Hb. by rewrite Z.add_0_r.
  - cbn [all_chars] in Ht. apply andb_true_iff in Ht as [Ha Ht]. rewrite append_cons. cbn [number_fraction].
    rewrite Ha. destruct (digit_step n a t Ha Ht Hn Hv) as [Hn' ->]. cbn [String.length] in *.
    rewrite d_sub_int by lia. replace (- k - 1) with (- (k + 1)) by lia. rewrite IH by (done || lia).
    do 2 f_equal. f_equal. f_equal. lia.
Qed.

Lemma number_exponent_spec n t r : all_chars isdigit t = true -> no_digit r -> 0 <= n ->
  digits_value n t < 2 ^ 31 -> number_exponent n (t +:+ r) = Ok (digits_value n t, r).
Proof.
  revert n. induction t as [|a t IH]; intros n Ht Hr Hn Hv.
  - destruct Hr as (b & q & -> & Hb). rewrite append_empty. cbn [number_exponent]. by rewrite Hb.
  - cbn [all_chars digits_value] in *. apply andb_true_iff in Ht as [Ha Ht]. rewrite append_cons.
    cbn [number_exponent]. rewrite Ha. assert (48 <= code a <= 57) by (char_prop; lia).
    pose proof (digits_value_le (10 * n + (code a - 48)) t Ht). rewrite (Z.mul_comm n 10), (proj2 (Z.ltb_lt _ _)) by lia.
    apply IH; [done|done|lia|done].
Qed.

(** The digits before the point: a zero is skipped, other digits are read. *)
Lemma digits_read t r : digits t -> no_digit r -> digits_value 0 t < 2 ^ 52 ->
  exists a num b, peek (t +:+ r) = Ok a /\ isdigit a = true /\
    (if isc a 48 then adv 1 (t +:+ r) else Ok (t +:+ r)) = Ok num /\ peek num = Ok b /\
    (if char_in 49 57 b then number_digits d_zero num else Ok (d_zero, num))
      = Ok (d_of_int (digits_value 0 t), r).
Proof.
  intros [Ht Hz] Hr Hv. destruct t as [|a t]; [done|].
  assert (Ha : isdigit a = true) by (by cbn in Ht; apply andb_true_iff in Ht as [? _]).
  destruct (isc a 48) eqn:E.
  - specialize (Hz eq_refl). subst t. destruct Hr as (b & q & -> & Hb). exists a, (String b q), b.
    split_and!; [done|done|by rewrite E|done|].
    replace (char_in 49 57 b) with false by (symmetry; char_prop; apply andb_false_iff;
      apply andb_false_iff in Hb; lia).
    apply isc_true in E. cbn [digits_value]. by rewrite E.
  - exists a, (String a t +:+ r), a. rewrite append_cons. split_and!; [done|done|by rewrite E|done|].
    replace (char_in 49 57 a) with true by (symmetry; char_prop; apply andb_true_iff; lia).
    rewrite <- append_cons. by apply (number_digits_spec 0).
Qed.

(** The part behind the point. *)
Lemma fraction_read n f tf r : fraction f tf -> no_digit r -> (tf = EmptyString -> exists a, peek r = Ok a /\ isc a 46 = false) ->
  0 <= n -> digits_value n f < 2 ^ 52 -> Z.of_nat (String.length f) < 2 ^ 31 ->
  exists (a : ascii) (b : bool), peek (tf +:+ r) = Ok a /\
    (if isc a 46 then p ← adv 1 (tf +:+ r); b ← peek p; Ok (isdigit b) else Ok false) = Ok b /\
    (if b then p ← adv 1 (tf +:+ r); number_fraction (d_of_int n) d_zero p else Ok (d_of_int n, d_zero, tf +:+ r))
      = Ok (d_of_int (digits_value n f), d_of_int (- Z.of_nat (String.length f)), r).
Proof.
  intros [[-> ->]|(Hf & Hne & ->)] Hr Hp Hn Hv Hl.
  - destruct (Hp eq_refl) as (a & Ha & H46). exists a, false. rewrite append_empty, H46. by split_and!.
  - exists "."%char, true. rewrite append_cons. split_and!; [done| |].
    + change (isc "." 46) with true. destruct f as [|b f]; [done|]. rewrite append_cons. cbn in Hf |- *.
      by apply andb_true_iff in Hf as [-> _].
    + cbn [adv mbind outcome_bind]. rewrite (number_fraction_spec n 0) by (done || lia). done.
Qed.

(** The exponent. *)
Lemma exponent_read e te r : exponent e te -> stops r ->
  exists (a : ascii) k sg, peek (te +:+ r) = Ok a /\ k * sg = e /\ Z.abs e < 2 ^ 31 /\
    (if isc a 101 || isc a 69 then
       p ← adv 1 (te +:+ r);
       b ← peek p;
       '(sg, p) ← (if isc b 43 then q ← adv 1 p; Ok (1, q)
                    else if isc b 45 then q ← adv 1 p; Ok (-1, q) else Ok (1, p));
       '(e, p) ← number_exponent 0 p;
       Ok (e, sg, p)
     else Ok (0, 1, te +:+ r)) = Ok (k, sg, r).
Proof.
  intros [[-> ->]|(c & d & Hc & Hd & Hne & Hv & Hte)] Hr.
  - destruct Hr as (a & q & -> & _ & _ & H1 & H2). exists a, 0, 1. rewrite append_empty, H1, H2. by split_and!.
  - pose proof (digits_value_le 0 d Hd) as Hpos.
    pose proof (number_exponent_spec 0 d r Hd (stops_no_digit r Hr) ltac:(lia) Hv) as En.
    assert (exists b q, d +:+ r = String b q /\ isc b 43 = false /\ isc b 45 = false) as (b & q & Eb & H43 & H45).
    { destruct d as [|b d]; [done|]. cbn in Hd. apply andb_true_iff in Hd as [Hb _]. exists b, (d +:+ r).
      split_and!; [done|char_prop; lia|char_prop; lia]. }
    assert (isc c 101 || isc c 69 = true) as Ec by (by destruct Hc as [-> | ->]).
    exists c, (digits_value 0 d), (if decide (te = String c (String "-" d)) then -1 else 1).
    assert (String c d <> String c (String "-" d)) as Hx1.
    { intros [= E]. rewrite E in Eb. rewrite append_cons in Eb. injection Eb as <- _. done. }
    destruct Hte as [[-> [-> | ->]]|[-> ->]]; rewrite !append_cons; case_decide as Hdec; simplify_eq; try (by destruct Hx1);
      (split_and!; [done|lia|lia|]); rewrite Ec; cbn [adv mbind outcome_bind]; [rewrite Eb| |]; cbn [peek mbind outcome_bind].
    + rewrite H43, H45. cbn [mbind outcome_bind]. by rewrite <- Eb, En.
    + change (isc "+" 43) with true. cbn [mbind outcome_bind adv]. by rewrite En.
    + change (isc "-" 43) with false. change (isc "-" 45) with true. cbn [mbind outcome_bind adv]. by rewrite En.
Qed.

Section Numbers.
Context `{Libm}.

(** The sign in front of digits. *)
Lemma sign_read (neg : bool) i r : digits i ->
  exists a, peek ((if neg then "-"%string else EmptyString) +:+ i +:+ r) = Ok a /\
    (if isc a 45 then p ← adv 1 ((if neg then "-"%string else EmptyString) +:+ i +:+ r); Ok (d_of_int (-1), p)
     else Ok (d_of_int 1, (if neg then "-"%string else EmptyString) +:+ i +:+ r))
    = Ok (d_of_int (if neg then -1 else 1), i +:+ r).
Proof.
  intros [Hi Hne]. destruct neg; [by exists "-"%char|]. destruct i as [|a i]; [done|]. exists a. split; [done|].
  cbn in Hi. apply andb_true_iff in Hi as [Ha _]. by replace (isc a 45) with false by (symmetry; char_prop; lia).
Qed.

(** What follows the digits is not one. *)
Lemma fraction_no_digit f tf r : fraction f tf -> no_digit r -> no_digit (tf +:+ r).
Proof. intros [[_ ->]|(_ & _ & ->)] Hr; [done|]. by exists "."%char, (f +:+ r). Qed.

Lemma exponent_opens e te r : exponent e te -> stops r ->
  no_digit (te +:+ r) /\ exists a, peek (te +:+ r) = Ok a /\ isc a 46 = false.
Proof.
  intros [[_ ->]|(c & d & Hc & _ & _ & _ & Hte)] Hr.
  - split; [by apply stops_no_digit|]. destruct Hr as (a & q & -> & _ & Ha & _). by exists a.
  - assert (exists q, te = String c q) as [q ->] by (destruct Hte as [[_ [-> | ->]]|[_ ->]]; eauto).
    split; [exists c, (q +:+ r)|exists c]; by destruct Hc as [-> | ->].
Qed.

Lemma parse_decimal_spec item v t r : decimal v t -> stops r ->
  parse_number item (t +:+ r)
  = Ok (set_type cJSON_Number (set_valueint (default 0 (d_trunc v)) (set_valuedouble v item)), r).
Proof.
  intros (neg & i & f & tf & e & te & -> & Hi & Hf & He & Hv & Hl & -> & z & Hz) Hr. rewrite !append_assoc.
  destruct (exponent_opens e te r He Hr) as [Hne Hpt]. rewrite digits_value_app in Hv.
  assert (Hpos : 0 <= digits_value 0 i) by (apply digits_value_le; [apply Hi|lia]).
  assert (Hle : digits_value 0 i <= digits_value (digits_value 0 i) f).
  { destruct Hf as [[-> _]|(Hf & _)]; [done|]. by apply digits_value_le. }
  destruct (sign_read neg i (tf +:+ te +:+ r) Hi) as (a & Ha & Esign).
  destruct (digits_read i (tf +:+ te +:+ r) Hi) as (a1 & num & b1 & Ha1 & _ & Hnum & Hb1 & Edig);
    [by eapply fraction_no_digit|lia|].
  destruct (fraction_read (digits_value 0 i) f tf (te +:+ r) Hf Hne) as (a2 & b2 & Ha2 & Hb2 & Efrac); [done|lia|done|done|].
  destruct (exponent_read e te r He Hr) as (a3 & k & sg & Ha3 & Hk & Habs & Eexp).
  unfold parse_number. rewrite (obind_ok _ _ _ Ha), (obind_ok _ _ _ Esign), (obind_ok _ _ _ Ha1), (obind_ok _ _ _ Hnum),
    (obind_ok _ _ _ Hb1), (obind_ok _ _ _ Edig), (obind_ok _ _ _ Ha2), (obind_ok _ _ _ Hb2), (obind_ok _ _ _ Efrac),
    (obind_ok _ _ _ Ha3), (obind_ok _ _ _ Eexp), Hk. cbv zeta. rewrite d_add_int by lia.
  replace (- Z.of_nat (String.length f) + e) with (e - Z.of_nat (String.length f)) by lia.
  rewrite <- digits_value_app. fold (decimal_value neg i f e). rewrite (obind_ok _ _ _ Hz). do 3 f_equal.
  unfold int_of_double in Hz. destruct (d_trunc _) as [w|]; [|done]. by destruct (_ && _); simplify_eq.
Qed.

(** An integer is a decimal without fraction and exponent. *)
Lemma number_decimal z t : number z t -> decimal (d_of_int z) t.
Proof.
  intros [Hz Ht].
  assert (exists (neg : bool) i, t = (if neg then "-"%string else EmptyString) +:+ i /\ digits i /\
    z = (if neg then -1 else 1) * digits_value 0 i /\ (neg = true -> z < 0)) as (neg & i & -> & Hi & Ev & Hneg).
  { destruct Ht as [[Hd ->]|(t' & -> & Hd & Hneg & ->)]; [exists false, t|exists true, t']; split_and!; done || lia. }
  assert (Hpos : 0 <= digits_value 0 i) by (apply digits_value_le; [apply Hi|lia]).
  exists neg, i, EmptyString, EmptyString, 0, EmptyString. rewrite !append_nil_r. split_and!; [done|done|by left|by left| |done| |].
  - destruct neg; lia.
  - unfold decimal_value. rewrite append_nil_r. change (d_of_int (0 - _)) with (SpecFloat.S754_zero false).
    rewrite pow_zero. rewrite d_mul_int by (destruct neg; lia). rewrite <- Ev, (d_mul_int z 1) by (destruct neg; lia).
    by rewrite Z.mul_1_r.
  - exists z. by apply int_of_double_int.
Qed.

Lemma parse_number_spec item z t r : number z t -> stops r ->
  parse_number item (t +:+ r) = Ok (set_type cJSON_Number (set_valueint z (set_valuedouble (d_of_int z) item)), r).
Proof.
  intros Hz Hr. rewrite (parse_decimal_spec item (d_of_int z)) by (done || by apply number_decimal).
  destruct Hz as [Hz _]. by rewrite d_trunc_int by lia.
Qed.

End Numbers.
