(* ===== verification/JsonParse.v ===== *)
(** * JsonParse: the parser reads every text of the grammar. *)

From S2P Require Import Prelude.
From S2P Require Import Float64 Json JsonPrint JsonSpec JsonFacts.
From stdpp Require Import pretty.
From Stdlib Require Import Ascii.
#[local] Open Scope Z_scope.

(** [n] blocks more. *)
Definition grow (n : nat) (s : Json) : Json := mkJson (ep s) (live s + Z.of_nat n) (allocs s + n).

Lemma grow_add m n s : grow m (grow n s) = grow (n + m) s.
Proof. unfold grow. cbn. f_equal; lia. Qed.

Lemma grow_0 s : grow 0 s = s.
Proof. unfold grow. destruct s. cbn. f_equal; lia. Qed.

(** The blocks of a value besides its node. *)
Fixpoint blocks (j : json) : nat :=
  match j with
  | JStr _ => 1
  | JArr l => sum_list ((fun x => S (blocks x)) <$> l)
  | JObj l => sum_list ((fun m => S (S (blocks m.2))) <$> l)
  | _ => 0
  end.

(** A sequence separated by commas. *)
Inductive seq {A} (one : A -> string -> Prop) : list A -> string -> Prop :=
| seq_last x t : one x t -> seq one [x] t
| seq_more x l t t' : one x t -> seq one l t' -> seq one (x :: l) (t +:+ String "," t').

Section Parser.
Context `{Libm} (malloc_ok : nat -> bool).
Hypothesis memory : forall n, malloc_ok n = true.

Lemma malloc_grow s : cJSON_malloc malloc_ok s = Ok (true, grow 1 s).
Proof using memory. unfold cJSON_malloc, grow. rewrite memory. do 2 f_equal. f_equal. lia. Qed.

Lemma new_item_grow s : cJSON_New_Item malloc_ok s = Ok (Some empty_item, grow 1 s).
Proof using memory. unfold cJSON_New_Item. by rewrite (st_bind_ok _ _ _ _ _ (malloc_grow s)). Qed.

(** ** Sequences. *)

Section Sequence.
Context {A : Type} (one : A -> string -> Prop) (node_of : A -> cJSON) (cost : A -> nat).
Context (parse_one : cJSON -> string -> ST Json (cJSON * option string)) (close : ascii) (bound : nat).
Hypothesis close_not_comma : close <> ","%char.

(** What stands after an element. *)
Definition separator (d : ascii) : Prop := d = ","%char \/ d = close.

Hypothesis parse_one_ok : forall x u d r s, one x u -> separator d ->
  (String.length (u +:+ String d r) < bound)%nat ->
  parse_one empty_item (u +:+ String d r) s = Ok ((node_of x, Some (String d r)), grow (cost x) s).

Hypothesis one_starts : forall x u, one x u -> exists a v, one x (String a v) /\ a <> close /\
  (String.length (String a v) <= String.length u)%nat /\ forall p, skip (u +:+ p) = Ok (String a v +:+ p).

Abbreviation loop := (list_loop malloc_ok parse_one (code close)).

Lemma close_tests : isc close 44 = false /\ isc close (code close) = true.
Proof using close_not_comma.
  split; [|by apply isc_true]. apply not_true_iff_false. intros E%is_char. by apply close_not_comma.
Qed.

Lemma loop_close fuel item sib last r s :
  loop (S fuel) item sib last (String close r) s = Ok ((set_child (sib ++ [last]) item, Some r), s).
Proof using close_not_comma.
  destruct close_tests as [H1 H2]. cbn [list_loop peek]. unfold st_bind, st_lift. by rewrite H1, H2.
Qed.

Lemma loop_comma fuel item sib last x u d r s : one x u -> separator d ->
  (String.length (u +:+ String d r) < bound)%nat ->
  loop (S fuel) item sib last (String "," (u +:+ String d r)) s
  = loop fuel item (sib ++ [last]) (node_of x) (String d r) (grow (1 + cost x) s).
Proof using memory parse_one_ok.
  intros Hu Hd Hl. cbn [list_loop peek]. unfold st_bind at 1, st_lift at 1. change (isc "," 44) with true. cbn iota.
  rewrite (st_bind_ok _ _ _ _ _ (new_item_grow s)). unfold st_bind at 1, st_lift at 1.
  cbn [adv]. erewrite st_bind_ok by (by apply parse_one_ok). cbn iota beta. by rewrite grow_add.
Qed.

Lemma seq_loop l t r : seq one l t -> forall fuel item sib last s,
  (S (S (String.length (t +:+ String close r))) <= fuel)%nat ->
  (String.length (t +:+ String close r) < bound)%nat ->
  loop fuel item sib last (String "," (t +:+ String close r)) s
  = Ok ((set_child (sib ++ last :: (node_of <$> l)) item, Some r),
        grow (sum_list ((fun x => S (cost x)) <$> l)) s).
Proof using memory parse_one_ok close_not_comma.
  induction 1 as [x t Hx|x l t t' Hx _ IH]; intros [|fuel] item sib last s Hf Hb; try lia.
  - rewrite (loop_comma _ _ _ _ x) by (done || by right). destruct fuel as [|fuel]; [lia|].
    rewrite loop_close, <- app_assoc. cbn [fmap list_fmap sum_list foldr]. by rewrite Nat.add_0_r.
  - rewrite append_assoc, append_cons in *. rewrite (loop_comma _ _ _ _ x) by (done || by left).
    rewrite length_append in Hf, Hb. cbn [String.length] in Hf, Hb.
    rewrite IH by lia. rewrite <- app_assoc, grow_add. done.
Qed.

Lemma seq_list fuel item l t r s : seq one l t -> (S (String.length (t +:+ String close r)) <= fuel)%nat ->
  (String.length (t +:+ String close r) < bound)%nat ->
  parse_list malloc_ok parse_one (code close) fuel item (t +:+ String close r) s
  = Ok ((set_child (node_of <$> l) item, Some r), grow (sum_list ((fun x => S (cost x)) <$> l)) s).
Proof using memory parse_one_ok one_starts close_not_comma.
  intros Hs Hf Hb. assert (exists x u d q l', one x u /\ l = x :: l' /\ separator d /\
    t +:+ String close r = u +:+ String d q /\
    forall item' s' F, (String.length (String d q) < F)%nat -> loop F item' [] (node_of x) (String d q) s'
      = Ok ((set_child (node_of <$> l) item', Some r), grow (sum_list ((fun x => S (cost x)) <$> l')) s'))
    as (x & u & d & q & l' & Hx & El & Hd & Et & Hloop).
  { destruct Hs as [x t Hx|x l' t t' Hx Hs].
    - exists x, t, close, r, []. split_and!; [done|done|by right|done|]. intros item' s' F HF.
      destruct F as [|F]; [lia|]. rewrite loop_close. cbn [fmap list_fmap sum_list foldr]. by rewrite grow_0.
    - exists x, t, ","%char, (t' +:+ String close r), l'. rewrite append_assoc, append_cons in *.
      split_and!; [done|done|by left|done|]. intros item' s' F HF. rewrite length_append in Hb.
      cbn [String.length] in HF, Hb. rewrite (seq_loop l' t') by (done || lia). done. }
  rewrite Et in *. destruct (one_starts x u Hx) as (a & v & Hv & Ha & Hlen & Hskip).
  unfold parse_list. unfold st_bind at 1, st_lift at 1. rewrite Hskip, append_cons.
  cbn [peek]. unfold st_bind at 1, st_lift at 1.
  replace (isc a (code close)) with false.
  2: { symmetry. apply not_true_iff_false. intros E%isc_true%code_inj. done. }
  rewrite (st_bind_ok _ _ _ _ _ (new_item_grow s)). rewrite <- append_cons.
  rewrite length_append in Hb, Hf. cbn [String.length] in *.
  erewrite st_bind_ok by (apply parse_one_ok; [done|done|rewrite length_append; cbn [String.length]; lia]).
  cbn beta iota. rewrite Hloop by (cbn [String.length]; lia). rewrite !grow_add, El. cbn [fmap list_fmap sum_list foldr].
  done.
Qed.

End Sequence.

(** ** Values. *)

(** The pointer behind a value; after a number it must not go on. *)
Definition follows (j : json) (r : string) : Prop :=
  match j with JNum _ | JReal _ => stops r | _ => True end.

Definition parses (j : json) (t : string) : Prop := forall fuel ty name r s,
  (String.length (t +:+ r) < fuel)%nat -> follows j r ->
  parse_value malloc_ok fuel (mkJSON [] ty None 0 d_zero name) (Some (t +:+ r)) s
  = Ok ((node name j, Some r), grow (blocks j) s).

(** The texts of values begin with a character above blanks that closes nothing. *)
Definition opens (t : string) : Prop :=
  exists a q, t = String a q /\ 32 < code a /\ a <> "]"%char /\ a <> "}"%char.

(** A number begins with a sign or a digit. *)
Lemma decimal_starts v t : decimal v t -> exists a q, t = String a q /\ isc a 45 || isdigit a = true.
Proof.
  intros (neg & i & f & tf & e & te & -> & [Hi Hne] & _). destruct neg; [by eexists _, _|].
  destruct i as [|a i]; [done|]. exists a, (i +:+ tf +:+ te). cbn in Hi. apply andb_true_iff in Hi as [-> _].
  by rewrite orb_true_r.
Qed.

Lemma sign_or_digit a : isc a 45 || isdigit a = true ->
  32 < code a /\ isc a 34 = false /\ a <> "]"%char /\ a <> "}"%char /\ a <> "n"%char /\ a <> "f"%char /\ a <> "t"%char.
Proof.
  intros Ha. split_and!; try (by intros ->); unfold isdigit, char_in, isc in *; lia.
Qed.

Lemma decimal_opens v t : decimal v t -> opens t.
Proof. intros (a & q & -> & Ha)%decimal_starts. destruct (sign_or_digit a Ha) as (? & _ & ? & ? & _). by exists a, q. Qed.

Lemma text_opens j t : text j t -> opens t.
Proof.
  intros []; try (by eexists _, _; split_and!); [by eapply decimal_opens, number_decimal|by eapply decimal_opens].
Qed.

Lemma opens_skip t p : opens t -> skip (t +:+ p) = Ok (t +:+ p).
Proof. intros (a & q & -> & Ha & _). apply skip_starts. by exists a, (q +:+ p). Qed.

(** The four tests that come first: the literals fail on any other first character. *)
Lemma no_literal a q : a <> "n"%char -> a <> "f"%char -> a <> "t"%char ->
  has_prefix "null" (String a q) = Ok false /\ has_prefix "false" (String a q) = Ok false /\
  has_prefix "true" (String a q) = Ok false.
Proof.
  intros Hn Hf Ht. cbn [has_prefix peek mbind outcome_bind].
  rewrite (proj2 (Ascii.eqb_neq "n" a)), (proj2 (Ascii.eqb_neq "f" a)), (proj2 (Ascii.eqb_neq "t" a)) by congruence.
  done.
Qed.

Lemma parse_value_other fuel item a q s : a <> "n"%char -> a <> "f"%char -> a <> "t"%char ->
  parse_value malloc_ok (S fuel) item (Some (String a q)) s =
  (if isc a 34 then parse_string malloc_ok item (String a q)
   else if isc a 45 || isdigit a then
     let! (item, rest) := st_lift (parse_number item (String a q)) in st_ret (item, Some rest)
   else if isc a 91 then parse_array malloc_ok (parse_value malloc_ok fuel) fuel item (String a q)
   else if isc a 123 then parse_object malloc_ok (parse_value malloc_ok fuel) fuel item (String a q)
   else do! set_ep (Some (String a q)) in st_ret (item, None)) s.
Proof.
  intros Hn Hf Ht. destruct (no_literal a q Hn Hf Ht) as (E1 & E2 & E3).
  cbn [parse_value]. rewrite E1, E2, E3. done.
Qed.

Lemma parse_string_lit item s t r m : lit s t ->
  parse_string malloc_ok item (quoted t +:+ r) m
  = Ok ((set_type cJSON_String (set_valuestring (Some s) item), Some r), grow 1 m).
Proof using memory.
  intros Hlit. unfold quoted. rewrite append_cons, append_assoc, append_cons, append_empty.
  destruct (lit_scan s t r Hlit) as (n & Hn & _). unfold parse_string.
  cbn [peek adv]. unfold st_bind at 1, st_lift at 1. change (negb (isc quote 34)) with false. cbn iota.
  unfold st_bind at 1, st_lift at 1. rewrite Hn. unfold st_bind at 1, st_lift at 1.
  rewrite (st_bind_ok _ _ _ _ _ (malloc_grow m)). cbn [negb].
  unfold st_bind, st_lift. rewrite (string_content_lit s t r n) by (done || lia). done.
Qed.

Lemma string_parses s t : lit s t -> parses (JStr s) (quoted t).
Proof using memory.
  intros Hlit [|fuel] ty name r m Hf _; [lia|]. unfold quoted at 1. rewrite append_cons.
  rewrite parse_value_other by done. change (isc quote 34) with true. cbn iota.
  rewrite <- append_cons. fold (quoted t). by rewrite parse_string_lit with (s := s).
Qed.

Lemma decimal_parses v t : decimal v t -> parses (JReal v) t.
Proof.
  intros Hv [|fuel] ty name r m Hf Hr; [lia|]. destruct (decimal_starts v t Hv) as (a & q & Et & Ha).
  pose proof (parse_decimal_spec (mkJSON [] ty None 0 d_zero name) v t r Hv Hr) as E.
  destruct (sign_or_digit a Ha) as (_ & H34 & _ & _ & Hn & Hfa & Ht).
  rewrite Et, append_cons in *. rewrite parse_value_other, Ha, H34 by done.
  unfold st_bind, st_lift. rewrite E. cbn [blocks]. by rewrite grow_0.
Qed.

Lemma number_parses z t : number z t -> parses (JNum z) t.
Proof.
  intros Hz fuel ty name r m Hf Hr. rewrite (decimal_parses (d_of_int z) t (number_decimal z t Hz)) by done.
  destruct Hz as [Hz _]. cbn [node]. by rewrite d_trunc_int by lia.
Qed.

(** An element or a member with its blanks. *)
Definition parsed_element (j : json) (u : string) : Prop :=
  exists w t w', u = w +:+ t +:+ w' /\ blank w /\ blank w' /\ text j t /\ parses j t.

Definition parsed_member (m : string * json) (u : string) : Prop :=
  exists w tk w' v, u = w +:+ quoted tk +:+ w' +:+ String ":" v /\ blank w /\ blank w' /\ lit m.1 tk /\
    parsed_element m.2 v.

(** The character after an element. *)
Definition after (d : ascii) : Prop := 32 < code d /\ stops (String d EmptyString).

Lemma blank_stops w d r : blank w -> after d -> stops (w +:+ String d r).
Proof.
  intros Hw [Hd (a & q & [= <- <-] & H1 & H2 & H3 & H4)]. destruct w as [|b w].
  - by exists d, r.
  - cbn in Hw. apply andb_true_iff in Hw as [Hb _]. exists b, (w +:+ String d r).
    char_prop. split_and!; [done|apply andb_false_iff; lia|lia|lia|lia].
Qed.

Lemma stops_follows j r : stops r -> follows j r.
Proof. by destruct j. Qed.

Lemma element_ok j u d r fuel name ty s : parsed_element j u -> after d ->
  (String.length (u +:+ String d r) < fuel)%nat ->
  parse_element (parse_value malloc_ok fuel) (mkJSON [] ty None 0 d_zero name) (u +:+ String d r) s
  = Ok ((node name j, Some (String d r)), grow (blocks j) s).
Proof.
  intros (w & t & w' & -> & Hw & Hw' & Ht & Hp) Hd Hf. rewrite !append_assoc in *.
  unfold parse_element. unfold st_bind at 1, st_lift at 1. rewrite skip_blank by done.
  rewrite opens_skip by (by eapply text_opens). rewrite length_append in Hf.
  erewrite st_bind_ok by (apply Hp; [lia|by apply stops_follows, blank_stops]).
  cbn beta iota. unfold st_bind, st_lift. cbn [skip_ptr]. rewrite skip_blank by done.
  rewrite skip_starts by (exists d, r; split; [done|apply Hd]). done.
Qed.

Lemma member_ok m u d r fuel s : parsed_member m u -> after d ->
  (String.length (u +:+ String d r) < fuel)%nat ->
  parse_member malloc_ok (parse_value malloc_ok fuel) empty_item (u +:+ String d r) s
  = Ok ((node (Some m.1) m.2, Some (String d r)), grow (S (blocks m.2)) s).
Proof using memory.
  intros (w & tk & w' & v & -> & Hw & Hw' & Hk & Hv) Hd Hf. rewrite !append_assoc, !append_cons in *.
  unfold parse_member. unfold st_bind at 1, st_lift at 1. rewrite skip_blank by done.
  rewrite skip_starts by (by eexists _, _).
  erewrite st_bind_ok by (by apply parse_string_lit). cbn beta iota.
  unfold st_bind at 1, st_lift at 1. cbn [skip_ptr]. rewrite skip_blank by done.
  rewrite skip_starts by (by eexists _, _). cbn [mbind outcome_bind].
  unfold st_bind at 1, st_lift at 1. cbn [peek]. change (negb (isc ":" 58)) with false. cbn iota.
  unfold st_bind at 1, st_lift at 1. cbn [adv].
  rewrite length_append in Hf. unfold quoted in Hf. rewrite !length_append in Hf. cbn [String.length] in Hf.
  rewrite !length_append in Hf. cbn [String.length] in Hf.
  unfold set_valuestring, set_string, set_type, empty_item. cbn [child json_type valueint valuedouble json_string valuestring].
  rewrite (element_ok m.2 v) by (done || rewrite length_append; cbn [String.length]; lia). by rewrite grow_add.
Qed.

Lemma element_starts j u : parsed_element j u -> exists a v, parsed_element j (String a v) /\ a <> "]"%char /\
  (String.length (String a v) <= String.length u)%nat /\ forall p, skip (u +:+ p) = Ok (String a v +:+ p).
Proof.
  intros (w & t & w' & -> & Hw & Hw' & Ht & Hp). destruct (text_opens j t Ht) as (a & q & -> & Ha & Hc & _).
  exists a, (q +:+ w'). split_and!; [by exists EmptyString, (String a q), w'|done|rewrite length_append; cbn [String.length]; rewrite append_cons; cbn [String.length]; lia|].
  intros p. rewrite !append_assoc, skip_blank, !append_cons by done. rewrite append_assoc.
  apply skip_starts. by eexists _, _.
Qed.

Lemma member_starts m u : parsed_member m u -> exists a v, parsed_member m (String a v) /\ a <> "}"%char /\
  (String.length (String a v) <= String.length u)%nat /\ forall p, skip (u +:+ p) = Ok (String a v +:+ p).
Proof.
  intros (w & tk & w' & v & -> & Hw & Hw' & Hk & Hv).
  exists quote, ((tk +:+ String quote EmptyString) +:+ w' +:+ String ":" v). rewrite <- append_cons. fold (quoted tk).
  split_and!; [by exists EmptyString, tk, w', v|done|rewrite (length_append w); lia|].
  intros p. rewrite append_assoc, skip_blank by done. apply skip_starts. by eexists _, _.
Qed.

Lemma after_separator close d : close = "]"%char \/ close = "}"%char -> separator close d -> after d.
Proof.
  intros Hc Hd. assert (d = ","%char \/ d = "]"%char \/ d = "}"%char) as Hd'.
  { destruct Hd as [-> | ->], Hc as [-> | ->]; auto. }
  clear Hd Hc. split; [by destruct Hd' as [-> |[-> | ->]]|].
  exists d, EmptyString. by destruct Hd' as [-> |[-> | ->]].
Qed.

(** The body of a list is empty or a sequence. *)
Lemma empty_list one close fuel item w r s : blank w -> 32 < code close ->
  parse_list malloc_ok one (code close) fuel item (w +:+ String close r) s = Ok ((item, Some r), s).
Proof.
  intros Hw Hc. unfold parse_list. unfold st_bind at 1, st_lift at 1. rewrite skip_blank by done.
  rewrite skip_starts by (by eexists _, _). unfold st_bind at 1, st_lift at 1. cbn [peek].
  rewrite (proj2 (isc_true close (code close))) by done. done.
Qed.

Lemma array_opens fuel ty name v s :
  parse_value malloc_ok (S fuel) (mkJSON [] ty None 0 d_zero name) (Some (String "[" v)) s
  = parse_list malloc_ok (parse_element (parse_value malloc_ok fuel)) 93 fuel
      (mkJSON [] cJSON_Array None 0 d_zero name) v s.
Proof. by rewrite parse_value_other. Qed.

Lemma object_opens fuel ty name v s :
  parse_value malloc_ok (S fuel) (mkJSON [] ty None 0 d_zero name) (Some (String "{" v)) s
  = parse_list malloc_ok (parse_member malloc_ok (parse_value malloc_ok fuel)) 125 fuel
      (mkJSON [] cJSON_Object None 0 d_zero name) v s.
Proof. by rewrite parse_value_other. Qed.

Lemma array_parses l t : seq parsed_element l t -> parses (JArr l) (String "[" (t +:+ "]")).
Proof using memory.
  intros Hl [|fuel] ty name r s Hf _; [lia|]. rewrite append_cons, append_assoc, append_cons, append_empty in *.
  cbn [String.length] in Hf. rewrite array_opens.
  rewrite (seq_list parsed_element (node None) blocks _ "]" fuel) with (l := l); try done; try lia.
  - intros x u d q s' Hu Hd Hb. apply element_ok; [done|by eapply after_separator; [left|]|done].
  - apply element_starts.
Qed.

Lemma object_parses l t : seq parsed_member l t -> parses (JObj l) (String "{" (t +:+ "}")).
Proof using memory.
  intros Hl [|fuel] ty name r s Hf _; [lia|]. rewrite append_cons, append_assoc, append_cons, append_empty in *.
  cbn [String.length] in Hf. rewrite object_opens.
  rewrite (seq_list parsed_member (fun m => node (Some m.1) m.2) (fun m => S (blocks m.2)) _ "}" fuel)
    with (l := l); try done; try lia.
  - intros x u d q s' Hu Hd Hb. apply member_ok; [done|by eapply after_separator; [right|]|done].
  - apply member_starts.
Qed.

Lemma literal_parses j t : text j t -> j = JNull \/ (exists b, j = JBool b) -> parses j t.
Proof.
  intros Ht Hj [|fuel] ty name r s Hf _; [lia|].
  destruct Ht; destruct Hj as [Hj|[b Hj]]; try done; simplify_eq;
    change (blocks _) with 0%nat; rewrite grow_0; done.
Qed.

(** Every text of the grammar is parsed, whatever follows it. *)
Lemma text_parses j t : text j t -> parses j t.
Proof using memory.
  revert j t. apply (text_mut parses (seq parsed_element) (seq parsed_member) parsed_member).
  - apply literal_parses; [constructor|by left].
  - apply literal_parses; [constructor|by right; eexists].
  - apply literal_parses; [constructor|by right; eexists].
  - intros z t. apply number_parses.
  - intros v t. apply decimal_parses.
  - intros s t. apply string_parses.
  - intros w Hw [|fuel] ty name r s Hf _; [lia|]. rewrite append_cons, append_assoc, append_cons, append_empty.
    rewrite array_opens, (empty_list _ "]"%char) by done. cbn [blocks fmap list_fmap sum_list foldr]. by rewrite grow_0.
  - intros l t _. apply array_parses.
  - intros w Hw [|fuel] ty name r s Hf _; [lia|]. rewrite append_cons, append_assoc, append_cons, append_empty.
    rewrite object_opens, (empty_list _ "}"%char) by done. cbn [blocks fmap list_fmap sum_list foldr]. by rewrite grow_0.
  - intros l t _. apply object_parses.
  - intros j t w w' Hw Hw' Ht Hp. apply seq_last. by exists w, t, w'.
  - intros j l t t' w w' Hw Hw' Ht Hp _ Hl. rewrite <- !append_assoc. apply seq_more; [|done].
    rewrite append_assoc. by exists w, t, w'.
  - intros m t _ Hm. by apply seq_last.
  - intros m l t t' _ Hm _ Hl. by apply seq_more.
  - intros k j tk t w w' w'' w''' Hw Hw' Hw'' Hw''' Hk Ht Hp.
    exists w, tk, w', (w'' +:+ t +:+ w'''). split_and!; [done..|]. by exists w'', t, w'''.
Qed.

(** [cJSON_ParseWithOpts] on a text of the grammar with blanks in front. *)
Lemma cJSON_Parse_text j t w r s : text j t -> blank w -> follows j r ->
  cJSON_Parse malloc_ok (Some (w +:+ t +:+ r)) s
  = Ok (Some (node None j), mkJson None (live s + 1 + Z.of_nat (blocks j)) (allocs s + 1 + blocks j)).
Proof using memory.
  intros Ht Hw Hr. unfold cJSON_Parse, cJSON_ParseWithOpts.
  rewrite (st_bind_ok _ _ _ (Some (node None j), Some r) (mkJson None (live s + 1 + Z.of_nat (blocks j)) (allocs s + 1 + blocks j))); [done|].
  rewrite (st_bind_ok _ _ _ _ _ (new_item_grow s)). unfold st_bind at 1, set_ep at 1, st_modify.
  unfold st_bind at 1, st_lift at 1. cbn [skip_ptr]. rewrite skip_blank by done.
  rewrite opens_skip by (by eapply text_opens). cbn [mbind outcome_bind default].
  erewrite st_bind_ok by (apply (text_parses j t Ht); [apply Nat.lt_succ_diag_r|done]). done.
Qed.

End Parser.
