(* ===== verification/JsonRender.v ===== *)
(** * JsonRender: the printed text of a value is a text of the grammar, and the printer
    writes it inside the blocks it allocates. *)

From S2P Require Import Prelude.
From S2P Require Import Float64 Json JsonPrint JsonSpec JsonFacts JsonParse.
From stdpp Require Import pretty.
From Stdlib Require Import SpecFloat Ascii.
#[local] Open Scope Z_scope.

(** ** Decimal numbers. *)

Lemma digits_value_snoc n t a : digits_value n (t +:+ String a EmptyString) = 10 * digits_value n t + (code a - 48).
Proof.
  revert n. induction t as [|b t IH]; intros n; [done|]. rewrite append_cons. cbn [digits_value]. apply IH.
Qed.

Lemma pretty_char_code x : (x < 10)%N -> code (pretty_N_char x) = 48 + Z.of_N x.
Proof.
  intros Hx. assert (x = 0 \/ x = 1 \/ x = 2 \/ x = 3 \/ x = 4 \/ x = 5 \/ x = 6 \/ x = 7 \/ x = 8 \/ x = 9)%N
    as Hc by lia.
  by repeat (destruct Hc as [-> |Hc]; [done|]); subst.
Qed.

(** The digits [pretty] puts in front of a text. *)
Lemma pretty_go x s : (0 < x)%N -> exists a t, pretty_N_go x s = String a t +:+ s /\
  all_chars isdigit (String a t) = true /\ isc a 48 = false /\ digits_value 0 (String a t) = Z.of_N x /\
  forall k, Z.of_N x < 10 ^ Z.of_nat k -> (String.length (String a t) <= k)%nat.
Proof.
  revert s. induction (N.lt_wf_0 x) as [x _ IH]; intros s Hx. rewrite pretty_N_go_step by done.
  assert (exists q m, x = (10 * q + m)%N /\ (m < 10)%N /\ (x / 10 = q)%N /\ (x mod 10 = m)%N) as (q & m & Ex & Hm & -> & ->).
  { exists (x / 10)%N, (x mod 10)%N. split_and!; [by apply N.div_mod|by apply N.mod_lt|done|done]. }
  set (c := pretty_N_char m). pose proof (pretty_char_code _ Hm) as Hc. fold c in Hc.
  assert (Hdig : isdigit c = true) by (unfold isdigit, char_in; rewrite Hc; apply andb_true_iff; lia).
  destruct (decide (x < 10)%N) as [Hs|Hs].
  - assert (q = 0%N) as -> by lia. rewrite pretty_N_go_0. exists c, EmptyString.
    split_and!; [done|by cbn [all_chars]; rewrite Hdig|unfold isc; lia|cbn [digits_value]; lia|].
    intros [|k] Hk; cbn in *; lia.
  - destruct (IH q) with (s := String c s) as (a & t & E & Hall & Ha & Hv & Hlen); [lia|lia|].
    exists a, (t +:+ String c EmptyString). rewrite E.
    change (String a (t +:+ String c EmptyString)) with (String a t +:+ String c EmptyString).
    rewrite append_assoc. split_and!; [done| |done| |].
    + rewrite all_chars_append, Hall. cbn [all_chars]. by rewrite Hdig.
    + rewrite digits_value_snoc, Hv. lia.
    + intros [|k] Hk; [cbn in Hk; lia|]. rewrite length_append.
      rewrite Nat2Z.inj_succ, Z.pow_succ_r in Hk by lia.
      specialize (Hlen k). cbn [String.length] in *. enough (S (String.length t) <= k)%nat by lia. apply Hlen. lia.
Qed.

Lemma pretty_pos p : exists t, pretty (Z.pos p) = t /\ digits t /\ digits_value 0 t = Z.pos p /\
  forall k, Z.pos p < 10 ^ Z.of_nat k -> (String.length t <= k)%nat.
Proof.
  destruct (pretty_go (N.pos p) EmptyString) as (a & t & E & Hall & Ha & Hv & Hlen); [lia|].
  exists (String a t). rewrite append_nil_r in E. split_and!; [exact E|split; [done|congruence]|done|done].
Qed.

Lemma pretty_number z : - 2 ^ 31 <= z < 2 ^ 31 -> number z (pretty z).
Proof.
  intros Hz. split; [done|]. destruct z as [|p|p].
  - left. by split; [split|].
  - destruct (pretty_pos p) as (t & -> & Hd & Hv & _). left. by split.
  - destruct (pretty_pos p) as (t & E & Hd & Hv & _). right. exists t. split_and!; [|done|lia|lia].
    change (pretty (Z.neg p)) with (String "-" (pretty (Z.pos p))). by rewrite E.
Qed.

Lemma pretty_length z k : Z.abs z < 10 ^ Z.of_nat k -> (0 < k)%nat -> (String.length (pretty z) <= S k)%nat.
Proof.
  intros Hz Hk. destruct z as [|p|p]; [cbn; lia| |].
  - destruct (pretty_pos p) as (t & -> & _ & _ & Hl). specialize (Hl k Hz). lia.
  - destruct (pretty_pos p) as (t & E & _ & _ & Hl). change (pretty (Z.neg p)) with (String "-" (pretty (Z.pos p))).
    rewrite E. specialize (Hl k Hz). cbn. lia.
Qed.

(** ** Escapes. *)

Lemma hex_char_digit n : 0 <= n < 16 -> hex_digit (hex_char n) = Some n.
Proof.
  intros Hn. unfold hex_char, hex_digit, char_in.
  destruct (n <? 10) eqn:E; bool_prop; rewrite code_char by lia.
  - replace ((48 <=? 48 + n) && (48 + n <=? 57)) with true by (symmetry; apply andb_true_iff; lia). f_equal. lia.
  - replace ((48 <=? 87 + n) && (87 + n <=? 57)) with false by (symmetry; apply andb_false_iff; lia).
    replace ((65 <=? 87 + n) && (87 + n <=? 70)) with false by (symmetry; apply andb_false_iff; lia).
    replace ((97 <=? 87 + n) && (87 + n <=? 102)) with true by (symmetry; apply andb_true_iff; lia). f_equal. lia.
Qed.

Lemma utf8_ascii n : 0 < n < 128 -> utf8 n = String (char n) EmptyString.
Proof.
  intros Hn. unfold utf8, utf8_length. replace (n <? 0x80) with true by lia.
  cbn [utf8_bytes nth firstByteMark]. by rewrite Z.lor_0_r, u8_small by lia.
Qed.

Lemma char_code a : char (code a) = a.
Proof. apply code_inj. apply code_char, code_range. Qed.

Lemma unicode_escape_lit a s t : 0 < code a < 128 -> lit s t ->
  lit (String a s) (String backslash (unicode_escape (code a) +:+ t)).
Proof.
  intros Ha Ht. set (n := code a) in *. pose proof (Z.mod_pos_bound n 16). pose proof (Z.div_mod n 16).
  assert (n / 4096 mod 16 = 0) as E1 by (by rewrite (Z.div_small n 4096) by lia).
  assert (n / 256 mod 16 = 0) as E2 by (by rewrite (Z.div_small n 256) by lia).
  assert (n / 16 mod 16 = n / 16) as E3 by (apply Z.mod_small; split; [apply Z.div_pos|apply Z.div_lt_upper_bound]; lia).
  assert (0 <= n / 16 < 8) by (split; [apply Z.div_pos|apply Z.div_lt_upper_bound]; lia).
  pose proof (lit_unicode (String (hex_char (n / 4096 mod 16)) (String (hex_char (n / 256 mod 16))
    (String (hex_char (n / 16 mod 16)) (String (hex_char (n mod 16)) EmptyString)))) n s t) as Hl.
  rewrite utf8_ascii in Hl by lia. replace (char n) with a in Hl by (symmetry; apply char_code). apply Hl; [|lia|lia|done].
  rewrite E1, E2, E3. exists (hex_char 0), (hex_char 0), (hex_char (n / 16)), (hex_char (n mod 16)), 0, 0, (n / 16), (n mod 16).
  split_and!; [done|done|done|by apply hex_char_digit; lia|by apply hex_char_digit; lia|lia].
Qed.

Lemma escape_lit s : no_nul s -> lit s (escape s).
Proof.
  unfold no_nul. induction s as [|a s IH]; intros Hs; [constructor|]. cbn [all_chars] in Hs.
  apply andb_true_iff in Hs as [Ha Hs]. specialize (IH Hs). cbn [escape].
  destruct ((31 <? code a) && negb (isc a 34) && negb (isc a 92)) eqn:E.
  { apply lit_char; [|done]. unfold plain. apply andb_true_iff in E as [[_ E1]%andb_true_iff E2]. by rewrite Ha, E1, E2. }
  unfold escape_text.
  destruct (isc a 92) eqn:E1; [apply is_char in E1 as ->; by apply (lit_escape backslash)|].
  destruct (isc a 34) eqn:E2; [apply is_char in E2 as ->; by apply (lit_escape quote)|].
  destruct (isc a 8) eqn:E3; [apply is_char in E3 as ->; by apply (lit_escape "b")|].
  destruct (isc a 12) eqn:E4; [apply is_char in E4 as ->; by apply (lit_escape "f")|].
  destruct (isc a 10) eqn:E5; [apply is_char in E5 as ->; by apply (lit_escape "n")|].
  destruct (isc a 13) eqn:E6; [apply is_char in E6 as ->; by apply (lit_escape "r")|].
  destruct (isc a 9) eqn:E7; [apply is_char in E7 as ->; by apply (lit_escape "t")|].
  apply unicode_escape_lit; [|done]. rewrite !andb_true_r in E. pose proof (code_range a).
  apply negb_true_iff in Ha. unfold isc in Ha. bool_prop. lia.
Qed.

(** ** The printed text of a value. *)

Lemma wf_array l : wf_json (JArr l) <-> Forall wf_json l.
Proof.
  cbn [wf_json]. induction l as [|x l IH]; [by split|]. cbn [foldr]. by rewrite Forall_cons, IH.
Qed.

Lemma wf_object l : wf_json (JObj l) <-> Forall (fun m => no_nul m.1 /\ wf_json m.2) l.
Proof.
  cbn [wf_json]. induction l as [|x l IH]; [by split|]. cbn [foldr]. by rewrite Forall_cons, IH.
Qed.

Lemma blank_tabs n : blank (tabs n).
Proof. unfold blank, tabs. induction n as [|n IH]; [done|]. exact IH. Qed.

Lemma blank_append v w : blank v -> blank w -> blank (v +:+ w).
Proof. unfold blank. intros Hv Hw. by rewrite all_chars_append, Hv, Hw. Qed.

Lemma join_single sep t : join_texts sep [t] = t.
Proof. done. Qed.

Lemma join_cons sep t u l : join_texts sep (t :: u :: l) = t +:+ sep +:+ join_texts sep (u :: l).
Proof. done. Qed.

(** Elements separated by a comma and blanks, with blanks around the list. *)
Section Texts.
Context `{M : Libm}.

Lemma join_elements sep w w' l : blank sep -> blank w -> blank w' -> l <> [] ->
  (forall j t, (j, t) ∈ l -> text j t) ->
  JsonSpec.elements (l.*1) (w +:+ join_texts (String "," sep) (l.*2) +:+ w').
Proof.
  intros Hsep Hw Hw' Hne Hl. revert w Hw. induction l as [|[j t] l IH]; intros w Hw; [done|].
  assert (Ht : text j t) by (apply Hl; left). destruct l as [|m l].
  - by apply elements_last.
  - rewrite !fmap_cons in *. rewrite join_cons, !append_assoc, append_cons.
    apply (elements_more j _ t _ w EmptyString); [done|done|done|]. apply IH; [done| |done].
    intros j' t' Hin. apply Hl. by right.
Qed.

Lemma join_members sep w w' l : blank sep -> blank w -> blank w' -> l <> [] ->
  (forall m t, (m, t) ∈ l -> forall v v', blank v -> blank v' -> member m (v +:+ t +:+ v')) ->
  members (l.*1) (w +:+ join_texts (String "," sep) (l.*2) +:+ w').
Proof.
  intros Hsep Hw Hw' Hne Hl. revert w Hw. induction l as [|[m t] l IH]; intros w Hw; [done|].
  assert (Ht : forall v v', blank v -> blank v' -> member m (v +:+ t +:+ v')) by (apply Hl; left). destruct l as [|x l].
  - by apply members_last, Ht.
  - rewrite !fmap_cons in *. rewrite join_cons, !append_assoc, append_cons, <- append_assoc.
    cbn [fst snd]. apply members_more.
    + rewrite <- (append_nil_r t). by apply Ht.
    + apply IH; [done| |done]. intros m' t' Hin. apply Hl. by right.
Qed.

Lemma member_text_member depth fmt k j t v v' : no_nul k -> text j t -> blank v -> blank v' ->
  member (k, j) (v +:+ member_text depth fmt k t +:+ v').
Proof.
  intros Hk Ht Hv Hv'. unfold member_text.
  set (ind := if fmt then tabs depth else EmptyString). set (sp := if fmt then _ else EmptyString : string).
  assert (blank ind) by (subst ind; destruct fmt; [apply blank_tabs|done]).
  assert (blank sp) by (subst sp; by destruct fmt).
  rewrite !append_assoc, append_cons, append_assoc, <- append_assoc.
  apply (member_intro k j (escape k) t (v +:+ ind) EmptyString sp v'); try done; [by apply blank_append|by apply escape_lit].
Qed.

Lemma render_array depth fmt l : Forall (fun j => forall depth fmt, wf_json j -> text j (render depth fmt j)) l ->
  wf_json (JArr l) -> text (JArr l) (render depth fmt (JArr l)).
Proof.
  intros Hl Hwf. destruct l as [|j l]; [by apply (text_no_elements EmptyString)|].
  set (l' := j :: l) in *. cbn [render]. apply text_array.
  pose proof (join_elements (if fmt then " "%string else EmptyString) EmptyString EmptyString
    ((fun j => (j, render (S depth) fmt j)) <$> l')) as H. rewrite append_nil_r, append_empty in H.
  rewrite <- !list_fmap_compose in H. unfold compose in H. cbn [fst snd] in H. rewrite list_fmap_id in H.
  replace (if fmt then ", "%string else ",") with (String "," (if fmt then " " else EmptyString)) by by destruct fmt.
  apply H; [by destruct fmt|done|done|done|].
  intros j' t (x & [= -> ->] & Hx)%list_elem_of_fmap. rewrite wf_array, Forall_forall in *. by apply Hl, Hwf.
Qed.

Lemma object_lines_members depth fmt l : l <> [] -> object_lines depth fmt l =
  let nl := if fmt then String (char 10) EmptyString else EmptyString in
  String "{" ((nl +:+ join_texts (String "," nl) l +:+ nl +:+ (if fmt then tabs depth else EmptyString)) +:+ "}").
Proof.
  intros Hl. unfold object_lines. destruct l as [|t l]; [done|]. cbv zeta. by rewrite !append_assoc.
Qed.

Lemma render_object depth fmt l : Forall (fun m => forall depth fmt, wf_json m.2 -> text m.2 (render depth fmt m.2)) l ->
  wf_json (JObj l) -> text (JObj l) (render depth fmt (JObj l)).
Proof.
  intros Hl Hwf. set (nl := if fmt then String (char 10) EmptyString else EmptyString).
  assert (Hnl : blank nl) by (subst nl; by destruct fmt).
  assert (Ht : forall d, blank (if fmt then tabs d else EmptyString)) by (intros d; destruct fmt; [apply blank_tabs|done]).
  destruct l as [|m l].
  - cbn [render]. unfold object_lines. fold nl. rewrite append_empty, <- append_assoc. apply text_no_members.
    by apply blank_append.
  - set (l' := m :: l) in *. change (render depth fmt (JObj l')) with (object_lines depth fmt
      ((fun m => member_text (S depth) fmt m.1 (render (S depth) fmt m.2)) <$> l')).
    rewrite object_lines_members by done. cbv zeta. fold nl. apply text_object.
    pose proof (join_members nl nl (nl +:+ (if fmt then tabs depth else EmptyString))
      ((fun m => (m, member_text (S depth) fmt m.1 (render (S depth) fmt m.2))) <$> l')) as H.
    rewrite <- !list_fmap_compose in H. unfold compose in H. cbn [fst snd] in H. rewrite list_fmap_id in H.
    apply H; [done|done|by apply blank_append|done|].
    intros [k j] t (x & [= <- ->] & Hx)%list_elem_of_fmap v v' Hv Hv'. rewrite wf_object, Forall_forall in *.
    destruct (Hwf _ Hx) as [Hk Hj]. apply member_text_member; try done. by apply (Hl _ Hx).
Qed.

(** Printing stays in the grammar. *)
Lemma render_text depth fmt j : wf_json j -> text j (render depth fmt j).
Proof.
  revert depth fmt. induction j as [|b|z|v|s|l IH|l IH] using json_ind; intros depth fmt Hwf.
  - constructor.
  - destruct b; constructor.
  - by apply text_number, pretty_number.
  - done.
  - by apply text_string, escape_lit.
  - by apply render_array.
  - by apply render_object.
Qed.

End Texts.
