(* ===== verification/JsonWrite.v ===== *)
(** * JsonWrite: what the printer does.

    The printer writes [render] inside the blocks whose sizes it computes, releases
    everything but the text, and returns NULL only when an allocation fails. *)

From S2P Require Import Prelude Hoare.
From S2P Require Import Float64 Json JsonPrint JsonSpec JsonFacts JsonParse JsonRender.
From stdpp Require Import pretty.
From Stdlib Require Import SpecFloat Ascii.
#[local] Open Scope Z_scope.

(** Lengths of texts that are put together. *)
Ltac sizes := rewrite ?length_append; cbn [String.length] in *; rewrite ?length_append in *; lia.

(** ** Blocks. *)

Lemma put_ok cap a out : (String.length out < cap)%nat -> put cap a out = Ok (out +:+ String a EmptyString).
Proof. intros Hl. apply write_block_ok. cbn. lia. Qed.

Lemma put_nul_ok cap out : (String.length out < cap)%nat -> put_nul cap out = Ok out.
Proof. intros Hl. unfold put_nul. by rewrite put_ok. Qed.

Lemma put_str_ok cap s out : (String.length out + String.length s < cap)%nat -> put_str cap s out = Ok (out +:+ s).
Proof.
  intros Hl. unfold put_str. rewrite write_block_ok by lia. cbn [mbind outcome_bind]. apply put_nul_ok.
  rewrite length_append. lia.
Qed.

Lemma length_tabs n : String.length (tabs n) = n.
Proof. induction n as [|n IH]; [done|]. cbn. by f_equal. Qed.

Lemma put_tabs n cap out : (String.length out + n <= cap)%nat -> put_n n cap (char 9) out = Ok (out +:+ tabs n).
Proof.
  revert out. induction n as [|n IH]; intros out Hl; [by rewrite append_nil_r|]. cbn [put_n].
  rewrite put_ok by lia. cbn [mbind outcome_bind]. rewrite IH by (rewrite length_append; cbn; lia).
  by rewrite append_assoc.
Qed.

(** ** Escapes. *)

Lemma escape_text_length a : isc a 0 = false -> (31 <? code a) && negb (isc a 34) && negb (isc a 92) = false ->
  S (String.length (escape_text a)) = (if has_short_escape a then 2 else if (code a <? 32)%Z then 6 else 1)%nat.
Proof.
  intros H0 Hp. unfold escape_text, has_short_escape. rewrite H0.
  destruct (isc a 92) eqn:E1; [by rewrite orb_true_r|].
  destruct (isc a 34) eqn:E2; [done|]. destruct (isc a 8); [done|]. destruct (isc a 12); [done|].
  destruct (isc a 10); [done|]. destruct (isc a 13); [done|]. destruct (isc a 9); [done|]. cbn [orb].
  rewrite !andb_true_r in Hp. apply Z.ltb_ge in Hp. by replace (code a <? 32) with true by lia.
Qed.

Lemma escaped_length_escape s : no_nul s -> escaped_length s = String.length (escape s).
Proof.
  unfold no_nul. induction s as [|a s IH]; intros Hs; [done|]. cbn [all_chars] in Hs.
  apply andb_true_iff in Hs as [Ha%negb_true_iff Hs]. cbn [escaped_length escape]. rewrite Ha, IH by done.
  destruct ((31 <? code a) && negb (isc a 34) && negb (isc a 92)) eqn:E.
  - cbn [String.length]. apply andb_true_iff in E as [[E1%Z.ltb_lt E2%negb_true_iff]%andb_true_iff E3%negb_true_iff].
    replace (has_short_escape a) with false by (unfold has_short_escape; rewrite E2, E3, Ha; unfold isc; lia).
    by replace (code a <? 32) with false by lia.
  - rewrite <- escape_text_length by done. cbn [String.length]. by rewrite length_append.
Qed.

Lemma escape_loop_ok cap s out : no_nul s -> (String.length out + String.length (escape s) < cap)%nat ->
  escape_loop cap s out = Ok (out +:+ escape s).
Proof.
  unfold no_nul. revert out. induction s as [|a s IH]; intros out Hs Hl; [by rewrite append_nil_r|].
  cbn [all_chars] in Hs. apply andb_true_iff in Hs as [Ha%negb_true_iff Hs]. cbn [escape_loop]. cbn [escape] in *.
  rewrite Ha. destruct ((31 <? code a) && negb (isc a 34) && negb (isc a 92)) eqn:E.
  - cbn [String.length] in Hl. rewrite put_ok by lia. cbn [mbind outcome_bind].
    rewrite IH by (done || rewrite length_append; cbn; lia). by rewrite append_assoc.
  - cbn [String.length] in Hl. rewrite length_append in Hl. rewrite put_ok by lia. cbn [mbind outcome_bind].
    assert ((if has_short_escape a then write_block cap (out +:+ String backslash EmptyString) (escape_text a)
       else put_str cap (escape_text a) (out +:+ String backslash EmptyString))
      = Ok (out +:+ String backslash (escape_text a))) as ->.
    { destruct (has_short_escape a); [rewrite write_block_ok|rewrite put_str_ok];
        by rewrite ?append_assoc, ?length_append; cbn [String.length]; try lia. }
    cbn [mbind outcome_bind]. rewrite IH by (done || rewrite length_append; cbn [String.length]; lia).
    by rewrite append_assoc, append_cons.
Qed.

(** ** Printing in the presence of failing allocations. *)

Section Print.
Context (malloc_ok : nat -> bool).

(** Some allocation between the two states failed. *)
Definition out_of_memory (s s' : Json) : Prop := exists n, (allocs s <= n < allocs s')%nat /\ malloc_ok n = false.

(** [d] blocks more (or less), nothing else changed. *)
Definition delta (d : Z) (s s' : Json) : Prop :=
  ep s' = ep s /\ (allocs s <= allocs s')%nat /\ live s' = live s + d.

(** A text in a new block, or no text because memory ran out. *)
Definition printed (t : string) (s : Json) (o : option string) (s' : Json) : Prop :=
  o = Some t /\ delta 1 s s' \/ o = None /\ delta 0 s s' /\ out_of_memory s s'.

Definition prints (m : ST Json (option string)) (t : string) : Prop := forall s, runs m s (printed t s).

Lemma delta_trans d e s s' s'' : delta d s s' -> delta e s' s'' -> delta (d + e) s s''.
Proof. intros (E1 & A1 & L1) (E2 & A2 & L2). unfold delta. rewrite E2, E1, L2, L1. split_and!; [done|lia|lia]. Qed.

Lemma delta_eq d e s s' : d = e -> delta d s s' -> delta e s s'.
Proof. by intros ->. Qed.

Lemma delta_refl s : delta 0 s s.
Proof. split_and!; [done|lia|lia]. Qed.

Lemma oom_l d s s' s'' : delta d s s' -> out_of_memory s' s'' -> out_of_memory s s''.
Proof. intros (_ & Hs & _) (n & Hn & Hf). exists n. split; [lia|done]. Qed.

Lemma oom_r d s s' s'' : delta d s' s'' -> out_of_memory s s' -> out_of_memory s s''.
Proof. intros (_ & Hs & _) (n & Hn & Hf). exists n. split; [lia|done]. Qed.

(** An allocation gives a block or fails. *)
Lemma runs_malloc (s : Json) : runs (cJSON_malloc malloc_ok) s (fun ok s' =>
  if ok : bool then delta 1 s s' else delta 0 s s' /\ out_of_memory s s').
Proof.
  unfold runs, cJSON_malloc. eexists _, _. split; [done|]. destruct (malloc_ok (allocs s)) eqn:E.
  - split_and!; [done|cbn; lia|done].
  - split; [split_and!; [done|cbn; lia|done]|]. exists (allocs s). split; [cbn; lia|done].
Qed.

Lemma runs_free s : runs cJSON_free s (fun _ s' => delta (-1) s s').
Proof. unfold runs, cJSON_free, st_modify. eexists _, _. split; [done|]. split_and!; [done|done|cbn; lia]. Qed.

Lemma strdup_prints t : no_nul t -> prints (cJSON_strdup malloc_ok t) t.
Proof.
  intros Ht s. unfold cJSON_strdup. eapply runs_bind; [apply runs_malloc|]. intros [|] s' Hs'; apply runs_ret.
  - left. by rewrite c_string_no_nul.
  - by right.
Qed.

(** Allocate a block and fill it. *)
Lemma malloc_prints (k : ST Json (option string)) t :
  (forall s, runs k s (fun o s' => o = Some t /\ delta 0 s s')) ->
  prints (let! ok := cJSON_malloc malloc_ok in if negb ok then st_ret None else k) t.
Proof.
  intros Hk s. eapply runs_bind; [apply runs_malloc|]. intros [|] s1 H1; cbn [negb].
  - eapply runs_weaken; [apply Hk|]. intros o s2 [-> H2]. left. split; [done|]. exact (delta_trans 1 0 s s1 s2 H1 H2).
  - apply runs_ret. by right.
Qed.

Lemma string_ptr_prints t : no_nul t -> prints (print_string_ptr malloc_ok (Some t)) (quoted (escape t)).
Proof.
  intros Ht. unfold print_string_ptr. apply malloc_prints. intros s. rewrite escaped_length_escape by done.
  eapply runs_step; [apply put_ok; sizes|].
  eapply runs_step; [apply escape_loop_ok; [done|sizes]|].
  eapply runs_step; [apply put_ok; sizes|].
  eapply runs_step; [apply put_nul_ok; sizes|].
  apply runs_ret. split; [|apply delta_refl]. by rewrite append_assoc.
Qed.

Lemma number_prints name z : - 2 ^ 31 <= z < 2 ^ 31 -> prints (print_number malloc_ok (node name (JNum z))) (pretty z).
Proof.
  intros Hz. unfold print_number.
  assert (is_int (node name (JNum z)) = true) as ->.
  { unfold is_int. cbn [node valuedouble valueint]. rewrite d_sub_int_diag by lia. unfold INT_MAX, INT_MIN.
    rewrite !d_le_int by lia. done. }
  cbn [node valueint]. intros s. eapply runs_bind; [apply runs_malloc|]. intros [|] s1 H1.
  - eapply runs_step; [apply put_str_ok; pose proof (pretty_length z 10); sizes|].
    apply runs_ret. by left.
  - apply runs_ret. by right.
Qed.

(** ** Arrays. *)

(** The entries that are not NULL. *)
Definition count (es : list (option string)) : Z := zlen (omap id es).

Lemma count_cons e es : count (e :: es) = (if e is Some _ then 1 else 0) + count es.
Proof. unfold count. destruct e; cbn [omap list_omap id]; [by rewrite zlen_cons|done]. Qed.

Lemma count_some ts : count (Some <$> ts) = zlen ts.
Proof. induction ts as [|t ts IH]; [done|]. cbn [fmap list_fmap]. rewrite count_cons, IH, zlen_cons. done. Qed.

Lemma all_some_some {A} (ts : list A) : all_some (Some <$> ts) = Some ts.
Proof. apply mapM_Some. induction ts; constructor; auto. Qed.

Lemma all_some_cons {A} (e : option A) es :
  all_some (e :: es) = match e, all_some es with Some x, Some l => Some (x :: l) | _, _ => None end.
Proof. destruct e; [|done]. unfold all_some. cbn. by destruct (mapM id es). Qed.

Lemma runs_free_entries es s : runs (free_entries es) s (fun _ => delta (- count es) s).
Proof.
  revert s. induction es as [|e es IH]; intros s; [apply runs_ret, delta_refl|]. cbn [free_entries].
  eapply (runs_bind _ _ _ (fun _ => delta (- if e is Some _ then 1 else 0) s)).
  - destruct e; [apply runs_free|apply runs_ret, delta_refl].
  - intros [] s1 H1. eapply runs_weaken; [apply IH|]. intros [] s2 H2.
    eapply delta_eq; [|exact (delta_trans _ _ _ _ _ H1 H2)]. rewrite count_cons. destruct e; lia.
Qed.

Section Array.
Context (print_value : cJSON -> ST Json (option string)).

Lemma runs_array_entries l ts s : Forall2 (fun c t => prints (print_value c) t) l ts ->
  runs (array_entries print_value l) s (fun es s' =>
    es = Some <$> ts /\ delta (zlen ts) s s' \/
    all_some es = None /\ delta (count es) s s' /\ out_of_memory s s').
Proof.
  intros Hl. revert s. induction Hl as [|c t l ts Hc Hl IH]; intros s.
  { apply runs_ret. left. split; [done|apply delta_refl]. }
  cbn [array_entries]. eapply runs_bind; [apply Hc|]. intros o s1 [[-> H1]|(-> & H1 & Ho)].
  - eapply runs_bind; [apply IH|]. intros es s2 [[-> H2]|(He & H2 & Ho)]; apply runs_ret.
    + left. split; [done|]. rewrite zlen_cons. by eapply delta_trans.
    + right. split_and!; [by rewrite all_some_cons, He|rewrite count_cons; by eapply delta_trans|by eapply oom_l].
  - apply runs_ret. by right.
Qed.

End Array.

Definition entry_size (fmt : bool) (t : string) : nat := (String.length t + 2 + if fmt then 1 else 0)%nat.

Lemma runs_array_text cap fmt ts out s :
  (String.length out + sum_list (entry_size fmt <$> ts) + 3 <= cap)%nat ->
  runs (array_text cap fmt ts out) s (fun out' s' =>
    out' = out +:+ join_texts (if fmt then ", " else ",") ts /\ (String.length out' + 3 <= cap)%nat /\
    delta (- zlen ts) s s').
Proof.
  revert out s. induction ts as [|t ts IH]; intros out s Hc.
  { apply runs_ret. cbn [join_texts]. rewrite append_nil_r. split_and!; [done|cbn in Hc; lia|apply delta_refl]. }
  cbn [fmap list_fmap sum_list foldr id] in Hc. unfold entry_size at 1 in Hc. cbn [array_text].
  eapply runs_step; [apply put_str_ok; lia|].
  set (sep := if fmt then ", "%string else ",").
  eapply (runs_bind _ _ _ (fun out' s' => s' = s /\ out' = out +:+ t +:+ match ts with [] => EmptyString | _ => sep end)).
  - destruct ts as [|u ts]; [apply runs_ret; by rewrite append_nil_r|]. cbn [fmap list_fmap sum_list foldr id] in Hc.
    unfold entry_size at 1 in Hc. eapply runs_step; [apply put_ok; sizes|].
    eapply (runs_step _ _ (out +:+ t +:+ sep)).
    { subst sep. destruct fmt; [rewrite put_ok by sizes|]; by rewrite ?append_assoc. }
    eapply runs_lift; [apply put_nul_ok; subst sep; destruct fmt; sizes|done].
  - intros out' s' [-> ->]. eapply runs_bind; [apply runs_free|]. intros [] s1 H1.
    eapply runs_weaken; [apply IH|].
    + destruct ts; subst sep; destruct fmt; sizes.
    + intros out' s2 (-> & Hl & H2). split_and!; [|done|rewrite zlen_cons; eapply delta_eq; [|exact (delta_trans _ _ _ _ _ H1 H2)]; lia].
      destruct ts; cbn [join_texts]; by rewrite ?append_assoc, ?append_nil_r.
Qed.

Lemma array_length_sum fmt ts : array_length fmt (Some <$> ts) = (5 + sum_list (entry_size fmt <$> ts))%nat.
Proof. unfold array_length. rewrite <- list_fmap_compose. done. Qed.

(** Release the entries and fail. *)
Lemma runs_fail es s0 s : delta (count es + 1) s0 s -> out_of_memory s0 s -> forall t,
  runs (do! free_entries es in do! cJSON_free in st_ret None) s (printed t s0).
Proof.
  intros Hs Ho t. eapply runs_bind; [apply runs_free_entries|]. intros [] s1 H1.
  eapply runs_bind; [apply runs_free|]. intros [] s2 H2. apply runs_ret. right. split; [done|].
  pose proof (delta_trans _ _ _ _ _ H1 H2) as H3. split; [|by eapply oom_r].
  eapply delta_eq; [|exact (delta_trans _ _ _ _ _ Hs H3)]. lia.
Qed.

Lemma array_prints (pv : cJSON -> ST Json (option string)) item fmt ts :
  Forall2 (fun c t => prints (pv c) t) (child item) ts ->
  prints (print_array malloc_ok pv item fmt) (String "[" (join_texts (if fmt then ", " else ",") ts +:+ "]")).
Proof.
  intros Hl s. unfold print_array. destruct (child item) as [|c l].
  { inversion Hl; subst. eapply runs_bind; [apply runs_malloc|]. intros [|] s1 H1; [|apply runs_ret; by right].
    eapply runs_step; [by apply put_str_ok; cbn; lia|]. apply runs_ret. by left. }
  eapply runs_bind; [apply runs_malloc|]. intros [|] s1 H1; cbn [negb]; [|apply runs_ret; by right].
  eapply runs_bind; [by eapply runs_array_entries|]. intros es s2 [[-> H2]|(He & H2 & Ho)].
  2: { rewrite He. eapply runs_fail; [|by eapply oom_l]. eapply delta_eq; [|by eapply delta_trans]. lia. }
  rewrite all_some_some. cbv zeta. rewrite array_length_sum. pose proof (delta_trans _ _ _ _ _ H1 H2) as H12.
  eapply runs_bind; [apply runs_malloc|]. intros [|] s3 H3; cbn [negb].
  2: { destruct H3 as [H3 Ho]. eapply runs_fail; [|by eapply oom_l]. rewrite count_some.
       eapply delta_eq; [|by eapply delta_trans]. lia. }
  eapply runs_step; [apply put_ok; sizes|]. eapply runs_step; [apply put_nul_ok; sizes|].
  eapply runs_bind; [apply runs_array_text; sizes|]. intros out s4 (-> & Hlen & H4).
  eapply runs_bind; [apply runs_free|]. intros [] s5 H5.
  eapply runs_step; [apply put_ok; lia|]. eapply runs_step; [apply put_nul_ok; sizes|].
  apply runs_ret. left. split; [by rewrite append_assoc|].
  pose proof (delta_trans _ _ _ _ _ H12 H3) as H13. pose proof (delta_trans _ _ _ _ _ H4 H5) as H45.
  eapply delta_eq; [|exact (delta_trans _ _ _ _ _ H13 H45)]. lia.
Qed.

(** ** Objects. *)

Definition pair_some (m : string * string) : option string * option string := (Some m.1, Some m.2).

Section Object.
Context (print_value : cJSON -> ST Json (option string)).

(** What [print_object] needs of a child: its name and its value are printed. *)
Definition member_prints (c : cJSON) (m : string * string) : Prop :=
  prints (print_string_ptr malloc_ok (json_string c)) m.1 /\ prints (print_value c) m.2.

Definition counts (es : list (option string * option string)) : Z := count (es.*1) + count (es.*2).

Lemma counts_cons n e es : counts ((n, e) :: es)
  = ((if n is Some _ then 1 else 0) + (if e is Some _ then 1 else 0)) + counts es.
Proof. unfold counts. cbn [fmap list_fmap fst snd]. rewrite !count_cons. lia. Qed.

(** A text that may be missing, in its block. *)
Lemma printed_delta t s o s' : printed t s o s' ->
  delta (if o is Some _ then 1 else 0) s s' /\ (o = Some t \/ o = None /\ out_of_memory s s').
Proof. intros [[-> Hd]|(-> & Hd & Ho)]; split; auto. Qed.

Lemma runs_object_entries l ms s : Forall2 member_prints l ms ->
  runs (object_entries malloc_ok print_value l) s (fun es s' =>
    delta (counts es) s s' /\
    (es = pair_some <$> ms \/ all_some (both <$> es) = None /\ out_of_memory s s')).
Proof.
  intros Hl. revert s. induction Hl as [|c m l ms [Hn Hv] Hl IH]; intros s.
  { apply runs_ret. split; [apply delta_refl|by left]. }
  cbn [object_entries]. eapply runs_bind; [apply Hn|]. intros n s1 [H1 Hn1]%printed_delta.
  eapply runs_bind; [apply Hv|]. intros e s2 [H2 He2]%printed_delta.
  eapply runs_bind; [apply IH|]. intros es s3 [H3 Hes]. apply runs_ret.
  pose proof (delta_trans _ _ _ _ _ H1 H2) as H12. split.
  - rewrite counts_cons. exact (delta_trans _ _ _ _ _ H12 H3).
  - cbn [fmap list_fmap]. rewrite all_some_cons.
    destruct Hn1 as [-> |[-> Ho]]; [|right; split; [done|exact (oom_r _ _ _ _ (delta_trans _ _ _ _ _ H2 H3) Ho)]].
    destruct He2 as [-> |[-> Ho]]; [|right; split; [done|exact (oom_l _ _ _ _ H1 (oom_r _ _ _ _ H3 Ho))]].
    destruct Hes as [-> |[He Ho]]; [by left|]. right. split; [|exact (oom_l _ _ _ _ H12 Ho)].
    change (list_fmap _ _ both es) with (both <$> es). by rewrite He.
Qed.

End Object.

Definition line (depth : nat) (fmt : bool) (m : string * string) : string :=
  (if fmt then tabs depth else EmptyString) +:+ m.1 +:+
  String ":" ((if fmt then String (char 9) EmptyString else EmptyString) +:+ m.2).

Definition member_size (depth : nat) (fmt : bool) (m : string * string) : nat :=
  (String.length m.2 + String.length m.1 + 2 + if fmt then 2 + depth else 0)%nat.

Lemma runs_object_text cap depth fmt ms out s :
  (String.length out + sum_list (member_size depth fmt <$> ms) + (if fmt then depth else 0) + 5 <= cap)%nat ->
  runs (object_text cap depth fmt ms out) s (fun out' s' =>
    (let nl := if fmt then String (char 10) EmptyString else EmptyString in
     out' = out +:+ match ms with [] => EmptyString | _ => join_texts (String "," nl) (line depth fmt <$> ms) +:+ nl end) /\
    (String.length out' + (if fmt then depth else 0) + 5 <= cap)%nat /\ delta (- (2 * zlen ms)) s s').
Proof.
  cbv zeta. set (nl := if fmt then String (char 10) EmptyString else EmptyString).
  revert out s. induction ms as [|[n e] ms IH]; intros out s Hc.
  { apply runs_ret. rewrite append_nil_r. split_and!; [done|cbn in Hc; lia|apply delta_refl]. }
  cbn [fmap list_fmap sum_list foldr id] in Hc. unfold member_size at 1 in Hc. cbn [fst snd] in Hc. cbn [object_text].
  set (ind := if fmt then tabs depth else EmptyString).
  assert (Hind : (String.length ind <= if fmt then depth else 0)%nat).
  { subst ind. destruct fmt; [rewrite length_tabs|cbn]; lia. }
  eapply (runs_step _ _ (out +:+ ind)).
  { subst ind. destruct fmt; [apply put_tabs; lia|by rewrite append_nil_r]. }
  eapply runs_step; [apply put_str_ok; sizes|]. eapply runs_step; [apply put_ok; sizes|].
  set (sp := if fmt then String (char 9) EmptyString else EmptyString).
  eapply (runs_step _ _ ((((out +:+ ind) +:+ n) +:+ ":") +:+ sp)).
  { subst sp. destruct fmt; [apply put_ok; sizes|by rewrite !append_nil_r]. }
  assert (Hsp : (String.length sp <= if fmt then 1 else 0)%nat) by (subst sp; destruct fmt; cbn; lia).
  eapply runs_step; [apply put_str_ok; destruct fmt; sizes|].
  set (comma := match ms with [] => EmptyString | _ => ","%string end).
  assert (Hcomma : (String.length comma <= 1)%nat) by (subst comma; destruct ms; cbn; lia).
  eapply (runs_step _ _ (((((((out +:+ ind) +:+ n) +:+ ":") +:+ sp)) +:+ e) +:+ comma)).
  { subst comma. destruct ms; [by rewrite !append_nil_r|apply put_ok; destruct fmt; sizes]. }
  assert (Hnl : (String.length nl <= if fmt then 1 else 0)%nat) by (subst nl; destruct fmt; cbn; lia).
  eapply (runs_step _ _ ((((((((out +:+ ind) +:+ n) +:+ ":") +:+ sp)) +:+ e) +:+ comma) +:+ nl)).
  { subst nl. destruct fmt; [apply put_ok; sizes|by rewrite !append_nil_r]. }
  eapply runs_step; [apply put_nul_ok; destruct fmt; sizes|].
  eapply runs_bind; [apply runs_free|]. intros [] s1 H1. eapply runs_bind; [apply runs_free|]. intros [] s2 H2.
  eapply runs_weaken; [apply IH; destruct fmt; sizes|]. intros out' s3 (-> & Hl & H3).
  split_and!; [|done|].
  - unfold line. cbn [fmap list_fmap fst snd]. fold ind. fold sp. subst comma.
    destruct ms as [|m ms]; cbn [fmap list_fmap];
      rewrite ?join_cons, ?join_single; do 3 rewrite ?append_assoc, ?append_cons, ?append_empty, ?append_nil_r; done.
  - pose proof (delta_trans _ _ _ _ _ H1 H2) as H12. rewrite zlen_cons.
    eapply delta_eq; [|exact (delta_trans _ _ _ _ _ H12 H3)]. lia.
Qed.

Lemma object_length_sum depth fmt ms : object_length depth fmt (pair_some <$> ms)
  = (7 + (if fmt then depth else 0) + sum_list (member_size depth fmt <$> ms))%nat.
Proof. unfold object_length. rewrite <- list_fmap_compose. done. Qed.

Lemma counts_some ms : counts (pair_some <$> ms) = 2 * zlen ms.
Proof.
  induction ms as [|m ms IH]; [done|]. rewrite fmap_cons, zlen_cons. unfold pair_some at 1.
  rewrite counts_cons, IH. lia.
Qed.

Lemma all_both ms : all_some (both <$> (pair_some <$> ms)) = Some ms.
Proof.
  rewrite <- list_fmap_compose. unfold compose, pair_some. cbn [both].
  rewrite (list_fmap_ext _ Some) by (by intros _ [] _). apply all_some_some.
Qed.

(** Release the names, the entries and both arrays, and fail. *)
Lemma runs_object_fail es s0 s : delta (counts es + 2) s0 s -> out_of_memory s0 s -> forall t,
  runs (do! free_entries (es.*1) in do! free_entries (es.*2) in do! cJSON_free in do! cJSON_free in st_ret None) s
    (printed t s0).
Proof.
  intros Hs Ho t. eapply runs_bind; [apply runs_free_entries|]. intros [] s1 H1.
  pose proof (delta_trans _ _ _ _ _ Hs H1) as Hs1. pose proof (oom_r _ _ _ _ H1 Ho) as Ho1.
  eapply runs_bind; [apply runs_free_entries|]. intros [] s2 H2.
  eapply runs_bind; [apply runs_free|]. intros [] s3 H3. eapply runs_bind; [apply runs_free|]. intros [] s4 H4.
  apply runs_ret. right. split; [done|].
  pose proof (delta_trans _ _ _ _ _ H2 (delta_trans _ _ _ _ _ H3 H4)) as H24. split; [|by eapply oom_r].
  eapply delta_eq; [|exact (delta_trans _ _ _ _ _ Hs1 H24)]. unfold counts. lia.
Qed.

Lemma object_prints (pv : cJSON -> ST Json (option string)) item depth fmt ms :
  Forall2 (member_prints pv) (child item) ms ->
  prints (print_object malloc_ok pv item depth fmt)
    (object_lines (match ms with [] => depth - 1 | _ => depth end) fmt (line (S depth) fmt <$> ms)).
Proof.
  intros Hl s. unfold print_object. destruct (child item) as [|c l].
  { inversion Hl; subst. cbn [fmap list_fmap]. revert s. apply malloc_prints. intros s. set (cap := if fmt then _ else _).
    assert (Hcap : cap = if fmt then (depth + 4)%nat else 3%nat) by done. clearbody cap.
    eapply runs_step; [apply put_ok; destruct fmt; sizes|].
    eapply (runs_step _ _ (String "{" (if fmt then String (char 10) (tabs (depth - 1)) else EmptyString))).
    { destruct fmt; [|done]. rewrite put_ok by sizes. cbn [mbind outcome_bind]. rewrite put_tabs by sizes. done. }
    pose proof (length_tabs (depth - 1)).
    eapply runs_step; [apply put_ok; destruct fmt; sizes|].
    eapply runs_step; [apply put_nul_ok; destruct fmt; sizes|].
    apply runs_ret. split; [|apply delta_refl]. unfold object_lines. by destruct fmt. }
  eapply runs_bind; [apply runs_malloc|]. intros [|] s1 H1; cbn [negb]; [|apply runs_ret; by right].
  eapply runs_bind; [apply runs_malloc|]. intros [|] s2 H2; cbn [negb].
  2: { destruct H2 as [H2 Ho]. eapply runs_bind; [apply runs_free|]. intros [] s3 H3. apply runs_ret. right.
       split; [done|]. pose proof (delta_trans _ _ _ _ _ H1 (delta_trans _ _ _ _ _ H2 H3)) as H13.
       split; [exact H13|exact (oom_r _ _ _ _ H3 (oom_l _ _ _ _ H1 Ho))]. }
  pose proof (delta_trans _ _ _ _ _ H1 H2) as H12. cbv zeta.
  eapply runs_bind; [by eapply runs_object_entries|]. intros es s3 [H3 [-> |[He Ho]]].
  2: { rewrite He. eapply runs_object_fail; [|by eapply oom_l].
       eapply delta_eq; [|exact (delta_trans _ _ _ _ _ H12 H3)]. lia. }
  rewrite all_both, object_length_sum. pose proof (delta_trans _ _ _ _ _ H12 H3) as H13.
  eapply runs_bind; [apply runs_malloc|]. intros [|] s4 H4; cbn [negb].
  2: { destruct H4 as [H4 Ho]. eapply runs_object_fail; [|by eapply oom_l].
       eapply delta_eq; [|exact (delta_trans _ _ _ _ _ H13 H4)]. lia. }
  set (nl := if fmt then String (char 10) EmptyString else EmptyString).
  eapply runs_step; [apply put_ok; sizes|]. eapply (runs_step _ _ (String "{" nl)).
  { subst nl. destruct fmt; [rewrite put_ok by sizes|]; done. }
  assert (Hnl : (String.length nl <= 1)%nat) by (subst nl; destruct fmt; cbn; lia).
  eapply runs_step; [apply put_nul_ok; sizes|].
  eapply runs_bind; [apply runs_object_text; sizes|]. intros out s5 (-> & Hlen & H5).
  eapply runs_bind; [apply runs_free|]. intros [] s6 H6. eapply runs_bind; [apply runs_free|]. intros [] s7 H7.
  fold nl in Hlen |- *. set (body := match ms with [] => EmptyString | _ => _ end) in *.
  set (ind := if fmt then tabs depth else EmptyString).
  assert (Hind : (String.length ind <= if fmt then depth else 0)%nat).
  { subst ind. destruct fmt; [rewrite length_tabs|cbn]; lia. }
  eapply (runs_step _ _ ((String "{" nl +:+ body) +:+ ind)).
  { subst ind. destruct fmt; [|by rewrite append_nil_r]. replace (S depth - 1)%nat with depth by lia. apply put_tabs. lia. }
  eapply runs_step; [apply put_ok; destruct fmt; sizes|].
  eapply runs_step; [apply put_nul_ok; destruct fmt; sizes|].
  apply runs_ret. left. split.
  - unfold object_lines. fold nl. inversion Hl; subst ms. cbn [fmap list_fmap] in *. fold ind. subst body.
    by rewrite !append_assoc, !append_cons.
  - pose proof (delta_trans _ _ _ _ _ H13 H4) as H14. pose proof (delta_trans _ _ _ _ _ H5 (delta_trans _ _ _ _ _ H6 H7)) as H57.
    rewrite counts_some in H14. eapply delta_eq; [|exact (delta_trans _ _ _ _ _ H14 H57)]. lia.
Qed.

(** ** Trees. *)

Lemma literal_prints item t : no_nul t ->
  (forall depth fmt, print_value malloc_ok item depth fmt = cJSON_strdup malloc_ok t) ->
  forall depth fmt, prints (print_value malloc_ok item depth fmt) t.
Proof. intros Ht E depth fmt. rewrite E. by apply strdup_prints. Qed.

Lemma node_prints j name depth fmt : wf_json j -> prints (print_value malloc_ok (node name j) depth fmt) (render depth fmt j).
Proof.
  revert name depth fmt. induction j as [|b|z|v|s|l IH|l IH] using json_ind; intros name depth fmt Hwf.
  - by apply strdup_prints.
  - destruct b; by apply strdup_prints.
  - by apply number_prints.
  - done.
  - by apply string_ptr_prints.
  - change (render depth fmt (JArr l)) with
      (String "[" (join_texts (if fmt then ", " else ",") (render (S depth) fmt <$> l) +:+ "]")).
    apply (array_prints (fun c => print_value malloc_ok c (S depth) fmt) (node name (JArr l))).
    cbn [node child]. rewrite wf_array in Hwf. clear -IH Hwf.
    induction l as [|j l IHl]; [constructor|]. rewrite Forall_cons in IH, Hwf. destruct IH as [Hj IH], Hwf as [Hwj Hwf].
    constructor; [by apply Hj|by apply IHl].
  - assert (render depth fmt (JObj l) = object_lines (match l with [] => depth - 1 | _ => depth end) fmt
      (line (S depth) fmt <$> ((fun m => (quoted (escape m.1), render (S depth) fmt m.2)) <$> l))) as ->.
    { rewrite <- list_fmap_compose. by destruct l. }
    replace (match l with [] => depth - 1 | _ => depth end)%nat with
      (match (fun m => (quoted (escape m.1), render (S depth) fmt m.2)) <$> l with [] => depth - 1 | _ => depth end)%nat
      by (by destruct l).
    apply (object_prints (fun c => print_value malloc_ok c (S depth) fmt) (node name (JObj l))).
    cbn [node child]. rewrite wf_object in Hwf. clear -IH Hwf.
    induction l as [|m l IHl]; [constructor|]. rewrite Forall_cons in IH, Hwf. destruct IH as [Hj IH], Hwf as [[Hn Hwj] Hwf].
    constructor; [|by apply IHl]. split; [|by apply Hj]. cbn [fst snd].
    assert (json_string (node (Some m.1) m.2) = Some m.1) as -> by (by destruct (m.2)). by apply string_ptr_prints.
Qed.

End Print.
