(* ===== verification/JsonTame.v ===== *)
(** * JsonTame: the texts on which the JSON parser is defined.

    The parser does arithmetic that C leaves undefined: the exponent of a number is
    collected in an [int] and the number is converted to one.  [number_fits] says that the
    number at the start of a text stays in range; a text is [tame] when every number in
    the place of a value does and no escape in a string literal is cut short (a backslash is followed by a
    character, [u] after it by four hexadecimal digits).  Nothing else is asked: a tame
    text need not be JSON. *)

From S2P Require Import Prelude.
From S2P Require Import Float64 Json JsonPrint JsonSpec JsonFacts.
From Stdlib Require Import Ascii.
#[local] Open Scope Z_scope.

(** ** The parts of a number. *)

(** The first character of a terminated text. *)
Definition first_char (p : string) : ascii := match p with EmptyString => NUL | String a _ => a end.

Definition behind (t : string) : string := match t with EmptyString => EmptyString | String _ t => t end.

(** The digits at the start and what follows them. *)
Fixpoint digits_of (t : string) : string :=
  match t with
  | EmptyString => EmptyString
  | String a t => if isdigit a then String a (digits_of t) else EmptyString
  end.

Fixpoint after_digits (t : string) : string :=
  match t with
  | EmptyString => EmptyString
  | String a t' => if isdigit a then after_digits t' else t
  end.

Definition scan_sign (t : string) : bool * string :=
  if isc (first_char t) 45 then (true, behind t) else (false, t).

(** One zero is skipped; the digits start with another one. *)
Definition scan_integer (t : string) : string * string :=
  let t := if isc (first_char t) 48 then behind t else t in
  if char_in 49 57 (first_char t) then (digits_of t, after_digits t) else (EmptyString, t).

Definition scan_fraction (t : string) : string * string :=
  if isc (first_char t) 46 && isdigit (first_char (behind t))
  then (digits_of (behind t), after_digits (behind t)) else (EmptyString, t).

(** The digits of the exponent, its sign and what follows. *)
Definition scan_exponent (t : string) : string * bool * string :=
  if isc (first_char t) 101 || isc (first_char t) 69 then
    let t := behind t in
    let neg := isc (first_char t) 45 in
    let t := if isc (first_char t) 43 || neg then behind t else t in
    (digits_of t, neg, after_digits t)
  else (EmptyString, false, t).

(** The sum of the digits as doubles, and one less for each. *)
Fixpoint d_digits (n : double) (t : string) : double :=
  match t with
  | EmptyString => n
  | String a t => d_digits (d_add (d_mul n (d_of_int 10)) (d_of_int (code a - 48))) t
  end.

Fixpoint d_scale (n : double) (t : string) : double :=
  match t with EmptyString => n | String _ t => d_scale (d_sub n (d_of_int 1)) t end.

Section Tame.
Context `{M : Libm}.

Definition scanned_value (neg : bool) (i f d : string) (eneg : bool) : double :=
  d_mul (d_mul (d_of_int (if neg then -1 else 1)) (d_digits (d_digits d_zero i) f))
    (pow (d_of_int 10) (d_add (d_scale d_zero f) (d_of_int (digits_value 0 d * (if eneg then -1 else 1))))).

(** The exponent is an [int] and so is the integer part of the number. *)
Definition number_fits (t : string) : bool :=
  let '(neg, t) := scan_sign t in
  let '(i, t) := scan_integer t in
  let '(f, t) := scan_fraction t in
  let '(d, eneg, _) := scan_exponent t in
  (digits_value 0 d <? 2 ^ 31) &&
  match int_of_double (scanned_value neg i f d eneg) with Ok _ => true | _ => false end.

(** ** Tame texts. *)

Definition is_hex (a : ascii) : bool := match hex_digit a with Some _ => true | None => false end.

Definition four_hex (t : string) : bool :=
  match t with
  | String a (String b (String c (String d _))) => is_hex a && is_hex b && is_hex c && is_hex d
  | _ => false
  end.

(** Where a character stands: where a value may start (at the beginning, behind a
    bracket, a comma or a colon), elsewhere outside strings, or inside a string. *)
Inductive place := Value | Token | Inside.

Definition next_place (w : place) (a : ascii) : place :=
  if isc a 34 then Inside
  else if isc a 91 || isc a 123 || isc a 44 || isc a 58 then Value
  else if char_in 1 32 a then w else Token.

Fixpoint tame_at (w : place) (t : string) : bool :=
  match t with
  | EmptyString => true
  | String a t' =>
      negb (isc a 0) &&
      match w with
      | Inside =>
          if isc a 34 then tame_at Token t'
          else if isc a 92 then
            match t' with
            | EmptyString => false
            | String b t'' => negb (isc b 0) && (if isc b 117 then four_hex t'' else true) && tame_at Inside t''
            end
          else tame_at Inside t'
      | Value => (if isc a 45 || isdigit a then number_fits t else true) && tame_at (next_place w a) t'
      | Token => tame_at (next_place w a) t'
      end
  end.

Definition tame (t : string) : bool := tame_at Value t.

Lemma value_token t : tame_at Value t = true -> tame_at Token t = true.
Proof using M.
  induction t as [|a t IH]; [done|]. cbn [tame_at]. intros [-> [_ Ht]%andb_true_iff]%andb_true_iff. cbn [andb].
  unfold next_place in *. destruct (isc a 34); [done|]. destruct (_ || isc a 58); [done|]. destruct (char_in 1 32 a); auto.
Qed.

Lemma token_drop a t : isc a 34 = false -> tame_at Token (String a t) = true -> tame_at Token t = true.
Proof using M.
  intros Ha. cbn [tame_at]. intros [_ Ht]%andb_true_iff. unfold next_place in Ht. rewrite Ha in Ht.
  destruct (_ || isc a 58); [by apply value_token|]. by destruct (char_in 1 32 a).
Qed.

(** Behind what opens a value. *)
Lemma opener_value a t : isc a 91 || isc a 123 || isc a 44 || isc a 58 = true -> isc a 34 = false ->
  tame_at Token (String a t) = true -> tame_at Value t = true.
Proof using M.
  intros Ho Ha. cbn [tame_at]. intros [_ Ht]%andb_true_iff. unfold next_place in Ht. by rewrite Ha, Ho in Ht.
Qed.

Lemma value_blank a t : char_in 1 32 a = true -> tame_at Value (String a t) = true -> tame_at Value t = true.
Proof using M.
  intros Ha. cbn [tame_at]. intros [_ [_ Ht]%andb_true_iff]%andb_true_iff. unfold next_place in Ht. rewrite Ha in Ht.
  replace (isc a 34) with false in Ht by (symmetry; char_prop; lia). by destruct (_ || isc a 58).
Qed.

Lemma value_number t : isc (first_char t) 45 || isdigit (first_char t) = true -> tame_at Value t = true ->
  number_fits t = true.
Proof using M.
  destruct t as [|a t]; [done|]. cbn [first_char tame_at]. intros ->. by intros [_ [? _]%andb_true_iff]%andb_true_iff.
Qed.

Lemma inside_plain a t : plain a = true -> tame_at Inside (String a t) = true -> tame_at Inside t = true.
Proof using M.
  unfold plain. intros [[_ H1%negb_true_iff]%andb_true_iff H2%negb_true_iff]%andb_true_iff. cbn [tame_at].
  rewrite H1, H2. by intros [_ ?]%andb_true_iff.
Qed.

Lemma inside_hex h uc t : hex4 h uc -> tame_at Inside (h +:+ t) = true -> tame_at Inside t = true.
Proof using M.
  intros (a & b & c & d & x & y & z & w & -> & Ha & Hb & Hc & Hd & _). rewrite !append_cons, append_empty.
  intros H. apply inside_plain, inside_plain, inside_plain, inside_plain in H; [done|by eapply hex_plain..].
Qed.

(** ** Suffixes. *)

Definition str_suffix (p q : string) : Prop := exists r, q = r +:+ p.

Lemma suffix_refl p : str_suffix p p.
Proof. by exists EmptyString. Qed.

Lemma suffix_cons p q a : str_suffix p q -> str_suffix p (String a q).
Proof. intros [r ->]. by exists (String a r). Qed.

Lemma suffix_trans p q r : str_suffix p q -> str_suffix q r -> str_suffix p r.
Proof. intros [u ->] [v ->]. exists (v +:+ u). by rewrite append_assoc. Qed.

Lemma suffix_append p q : str_suffix q (p +:+ q).
Proof. by exists p. Qed.

Lemma suffix_length p q : str_suffix p q -> (String.length p <= String.length q)%nat.
Proof. intros [r ->]. rewrite length_append. lia. Qed.

(** A later point of the text, outside strings like the first. *)
Definition later (q p : string) : Prop := str_suffix q p /\ (tame_at Token p = true -> tame_at Token q = true).

Lemma later_refl p : later p p.
Proof. split; [apply suffix_refl|done]. Qed.

Lemma later_trans p q r : later p q -> later q r -> later p r.
Proof. intros [H1 T1] [H2 T2]. split; [by eapply suffix_trans|auto]. Qed.

Lemma later_suffix q p : later q p -> str_suffix q p.
Proof. by intros [? _]. Qed.

Lemma later_length q p : later q p -> (String.length q <= String.length p)%nat.
Proof. intros [Hs _]. by apply suffix_length. Qed.

Lemma later_cons a q p : isc a 34 = false -> later q p -> later q (String a p).
Proof using M. intros Ha [Hs Ht]. split; [by apply suffix_cons|]. intros H. by apply Ht, (token_drop a). Qed.

Lemma later_free r q : all_chars (fun a => negb (isc a 34)) r = true -> later q (r +:+ q).
Proof using M.
  induction r as [|a r IH]; [intros _; apply later_refl|]. cbn [all_chars]. intros [Ha%negb_true_iff Hr]%andb_true_iff.
  rewrite append_cons. by apply later_cons; [|apply IH].
Qed.

Lemma later_behind a t : isc (first_char t) a = true -> a <> 34 -> later (behind t) t.
Proof using M.
  destruct t as [|b t]; [intros; apply later_refl|]. cbn [first_char behind]. intros Hb Ha. apply later_cons; [|apply later_refl].
  char_prop. lia.
Qed.

Lemma later_digits t : later (after_digits t) t.
Proof using M.
  induction t as [|a t IH]; [apply later_refl|]. cbn [after_digits]. destruct (isdigit a) eqn:E; [|apply later_refl].
  apply later_cons; [char_prop; lia|done].
Qed.

(** ** Terminated texts. *)

Section Ended.
Context (post : string).

(** The text [p], terminated; what lies behind the NUL is never read. *)
Definition ended (p : string) : string := p +:+ String NUL post.

Lemma ended_cons a p : ended (String a p) = String a (ended p).
Proof. done. Qed.

Lemma ended_append p q : ended (p +:+ q) = p +:+ ended q.
Proof. unfold ended. by rewrite append_assoc. Qed.

Lemma peek_ended p : peek (ended p) = Ok (first_char p).
Proof. by destruct p. Qed.

Lemma adv_ended c p : isc (first_char p) c = true -> c <> 0 -> adv 1 (ended p) = Ok (ended (behind p)).
Proof. destruct p as [|a p]; [|done]. intros Hc%isc_true ?. by destruct Hc. Qed.

Lemma skip_ended p : exists q, skip (ended p) = Ok (ended q) /\ later q p /\ (tame_at Value p = true -> tame_at Value q = true).
Proof using M.
  induction p as [|a p (q & E & Hq & Hv)]; [exists EmptyString; split_and!; [done|apply later_refl|done]|].
  rewrite ended_cons. cbn [skip]. destruct (char_in 1 32 a) eqn:Ea.
  - exists q. split_and!; [done|apply later_cons; [char_prop; lia|done]|]. intros H. by apply Hv, (value_blank a).
  - exists (String a p). split_and!; [done|apply later_refl|done].
Qed.

(** ** Numbers. *)

Lemma number_digits_ended n t : number_digits n (ended t) = Ok (d_digits n (digits_of t), ended (after_digits t)).
Proof.
  revert n. induction t as [|a t IH]; intros n; [done|]. rewrite ended_cons. cbn [number_digits digits_of after_digits].
  destruct (isdigit a); [cbn [d_digits]; apply IH|done].
Qed.

Lemma number_fraction_ended n k t : number_fraction n k (ended t)
  = Ok (d_digits n (digits_of t), d_scale k (digits_of t), ended (after_digits t)).
Proof.
  revert n k. induction t as [|a t IH]; intros n k; [done|]. rewrite ended_cons.
  cbn [number_fraction digits_of after_digits]. destruct (isdigit a); [cbn [d_digits d_scale]; apply IH|done].
Qed.

Lemma digits_of_digits t : all_chars isdigit (digits_of t) = true.
Proof. induction t as [|a t IH]; [done|]. cbn [digits_of]. destruct (isdigit a) eqn:E; [|done]. cbn [all_chars]. by rewrite E. Qed.

Lemma number_exponent_ended n t : 0 <= n -> digits_value n (digits_of t) < 2 ^ 31 ->
  number_exponent n (ended t) = Ok (digits_value n (digits_of t), ended (after_digits t)).
Proof.
  revert n. induction t as [|a t IH]; intros n Hn; [done|]. rewrite ended_cons.
  cbn [number_exponent digits_of after_digits]. destruct (isdigit a) eqn:E; [|done]. cbn [digits_value]. intros Hv.
  assert (48 <= code a <= 57) by (char_prop; lia).
  pose proof (digits_value_le (10 * n + (code a - 48)) (digits_of t) (digits_of_digits t)).
  rewrite (Z.mul_comm n 10), (proj2 (Z.ltb_lt _ _)) by lia. apply IH; [lia|done].
Qed.

Lemma scan_sign_ended t :
  (if isc (first_char t) 45 then p ← adv 1 (ended t); Ok (d_of_int (-1), p) else Ok (d_of_int 1, ended t))
  = Ok (d_of_int (if (scan_sign t).1 then -1 else 1), ended (scan_sign t).2) /\ later (scan_sign t).2 t /\
  (isdigit (first_char t) = false -> isc (first_char t) 45 = true -> (String.length (scan_sign t).2 < String.length t)%nat) /\
  (isdigit (first_char t) = true -> (scan_sign t).2 = t).
Proof using M.
  unfold scan_sign. destruct (isc (first_char t) 45) eqn:E; cbn [fst snd].
  - rewrite (adv_ended 45) by done. split_and!; [done|by eapply later_behind| |intros; char_prop; lia].
    destruct t as [|a t]; [done|]. cbn. lia.
  - split_and!; [done|apply later_refl|done|done].
Qed.

Lemma scan_integer_ended t : exists num,
  (if isc (first_char t) 48 then adv 1 (ended t) else Ok (ended t)) = Ok (ended num) /\
  (if char_in 49 57 (first_char num) then number_digits d_zero (ended num) else Ok (d_zero, ended num))
    = Ok (d_digits d_zero (scan_integer t).1, ended (scan_integer t).2) /\ later (scan_integer t).2 t /\
  (isdigit (first_char t) = true -> (String.length (scan_integer t).2 < String.length t)%nat).
Proof using M.
  unfold scan_integer. set (num := if isc (first_char t) 48 then behind t else t). exists num.
  assert (Hn : later num t) by (subst num; destruct (isc _ _) eqn:E; [by eapply later_behind|apply later_refl]).
  pose proof (later_digits num) as Hd. split_and!.
  - subst num. destruct (isc _ _) eqn:E; [|done]. by rewrite (adv_ended 48).
  - destruct (char_in 49 57 (first_char num)); [apply number_digits_ended|done].
  - destruct (char_in 49 57 (first_char num)); [by eapply later_trans|done].
  - intros Ht. destruct t as [|a t]; [done|]. subst num. cbn [first_char behind] in *.
    destruct (isc a 48) eqn:E48.
    + pose proof (later_length _ _ Hd). destruct (char_in _ _ _); cbn; lia.
    + assert (char_in 49 57 a = true) as Hc by (char_prop; apply andb_true_iff; lia). cbn [first_char]. rewrite Hc.
      cbn [snd after_digits]. rewrite Ht. pose proof (later_length _ _ (later_digits t)). cbn. lia.
Qed.

Lemma scan_fraction_ended n t : exists (b : bool),
  (if isc (first_char t) 46 then p ← adv 1 (ended t); b ← peek p; Ok (isdigit b) else Ok false) = Ok b /\
  (if b then p ← adv 1 (ended t); number_fraction n d_zero p else Ok (n, d_zero, ended t))
    = Ok (d_digits n (scan_fraction t).1, d_scale d_zero (scan_fraction t).1, ended (scan_fraction t).2) /\
  later (scan_fraction t).2 t.
Proof using M.
  unfold scan_fraction. destruct (isc (first_char t) 46) eqn:E; cbn [andb]; [|exists false; split_and!; [done|done|apply later_refl]].
  exists (isdigit (first_char (behind t))). rewrite (adv_ended 46) by done. cbn [mbind outcome_bind]. rewrite peek_ended.
  split_and!; [done| |].
  - destruct (isdigit _); [apply number_fraction_ended|done].
  - destruct (isdigit _); [|apply later_refl]. eapply later_trans; [apply later_digits|by eapply later_behind].
Qed.

Lemma scan_exponent_ended t : digits_value 0 (scan_exponent t).1.1 < 2 ^ 31 ->
  exists k sg, k * sg = digits_value 0 (scan_exponent t).1.1 * (if (scan_exponent t).1.2 then -1 else 1) /\
  (if isc (first_char t) 101 || isc (first_char t) 69 then
     p ← adv 1 (ended t);
     b ← peek p;
     '(sg, p) ← (if isc b 43 then q ← adv 1 p; Ok (1, q)
                  else if isc b 45 then q ← adv 1 p; Ok (-1, q) else Ok (1, p));
     '(e, p) ← number_exponent 0 p;
     Ok (e, sg, p)
   else Ok (0, 1, ended t)) = Ok (k, sg, ended (scan_exponent t).2) /\ later (scan_exponent t).2 t.
Proof using M.
  unfold scan_exponent. destruct (isc (first_char t) 101 || isc (first_char t) 69) eqn:E.
  2: { intros _. exists 0, 1. split_and!; [done|done|apply later_refl]. }
  assert (later (behind t) t) as Hb by (apply orb_true_iff in E as [E|E]; by eapply later_behind).
  assert (adv 1 (ended t) = Ok (ended (behind t))) as ->
    by (apply orb_true_iff in E as [E|E]; by eapply adv_ended).
  cbn [mbind outcome_bind fst snd]. rewrite peek_ended. cbn [mbind outcome_bind]. set (u := behind t) in *.
  assert (isc (first_char u) 45 = true -> isc (first_char u) 43 = false) as Hx by (intros; char_prop; lia).
  assert (forall c, isc (first_char u) c = true -> c <> 34 -> later (after_digits (behind u)) t) as Hs.
  { intros c Hc Hne. eapply later_trans; [apply later_digits|]. eapply later_trans; [by eapply later_behind|done]. }
  destruct (isc (first_char u) 43) eqn:E43; [|destruct (isc (first_char u) 45) eqn:E45]; cbn [orb]; intros Hv.
  - rewrite (adv_ended 43) by done. cbn [mbind outcome_bind]. rewrite number_exponent_ended by (done || lia).
    destruct (isc (first_char u) 45); [by specialize (Hx eq_refl)|]. eexists _, _. split_and!; [done|done|by eapply Hs].
  - rewrite (adv_ended 45) by done. cbn [mbind outcome_bind]. rewrite number_exponent_ended by (done || lia).
    eexists _, _. split_and!; [done|done|by eapply Hs].
  - cbn [mbind outcome_bind]. rewrite number_exponent_ended by (done || lia).
    eexists _, _. split_and!; [done|done|]. eapply later_trans; [apply later_digits|done].
Qed.

(** A number that fits is read, wherever it ends. *)
Lemma parse_number_safe item p : number_fits p = true -> isc (first_char p) 45 || isdigit (first_char p) = true ->
  exists n i q, parse_number item (ended p) = Ok (set_type cJSON_Number (set_valueint i (set_valuedouble n item)), ended q) /\
    later q p /\ (String.length q < String.length p)%nat.
Proof using M.
  unfold number_fits. destruct (scan_sign_ended p) as (E1 & L1 & S1 & S1').
  destruct (scan_sign p) as [neg p1]. cbn [fst snd] in *.
  destruct (scan_integer_ended p1) as (num & E2 & E3 & L2 & S2). destruct (scan_integer p1) as [i p2]. cbn [fst snd] in *.
  destruct (scan_fraction_ended (d_digits d_zero i) p2) as (b & E4 & E5 & L3). destruct (scan_fraction p2) as [f p3]. cbn [fst snd] in *.
  pose proof (scan_exponent_ended p3) as H6. destruct (scan_exponent p3) as [[d eneg] q]. cbn [fst snd] in H6.
  intros [Hd%Z.ltb_lt Hv]%andb_true_iff Hp. destruct (H6 Hd) as (k & sg & Ek & E6 & L4).
  destruct (int_of_double _) as [z|] eqn:Ez; [|done].
  exists (scanned_value neg i f d eneg), z, q. split_and!.
  - unfold parse_number. rewrite (obind_ok _ _ _ (peek_ended p)), (obind_ok _ _ _ E1), (obind_ok _ _ _ (peek_ended p1)),
      (obind_ok _ _ _ E2), (obind_ok _ _ _ (peek_ended num)), (obind_ok _ _ _ E3), (obind_ok _ _ _ (peek_ended p2)),
      (obind_ok _ _ _ E4), (obind_ok _ _ _ E5), (obind_ok _ _ _ (peek_ended p3)), (obind_ok _ _ _ E6), Ek.
    cbv zeta. fold (scanned_value neg i f d eneg). by rewrite (obind_ok _ _ _ Ez).
  - eapply later_trans; [exact L4|]. eapply later_trans; [exact L3|]. by eapply later_trans.
  - apply later_length in L1, L2, L3, L4. destruct (isdigit (first_char p)) eqn:Edig.
    + rewrite (S1' eq_refl) in *. specialize (S2 Edig). lia.
    + rewrite orb_false_r in Hp. specialize (S1 eq_refl Hp). lia.
Qed.

End Ended.
End Tame.
