(* ===== verification/JsonSafe.v ===== *)
(** * JsonSafe: the parser on texts that need not be JSON.

    On every tame C string ([JsonTame.tame]: no number outside the range of [int], no
    escape that is cut short), whatever else it contains and whatever allocations
    fail, the parser stays inside the text and inside its blocks, ends, and on failure
    releases every block it allocated. *)

From S2P Require Import Prelude Hoare.
From S2P Require Import Float64 Json JsonPrint JsonSpec JsonFacts JsonParse JsonWrite JsonTame.
From Stdlib Require Import SpecFloat Ascii.
#[local] Open Scope Z_scope.

#[local] Hint Resolve suffix_refl suffix_cons later_refl later_suffix : core.

(** ** Reading. *)

Section Safe.
Context `{M : Libm} (post : string).

Abbreviation ended := (ended post).

Lemma has_prefix_ended lit p : no_nul lit -> exists b, has_prefix lit (ended p) = Ok b /\
  (b = true -> exists q, p = lit +:+ q).
Proof.
  unfold no_nul. revert p. induction lit as [|a lit IH]; intros p Hlit.
  { exists true. split; [by cbn|]. intros _. by exists p. }
  cbn [all_chars] in Hlit. apply andb_true_iff in Hlit as [Ha Hlit]. cbn [has_prefix]. rewrite peek_ended.
  cbn [mbind outcome_bind]. destruct (Ascii.eqb_spec a (first_char p)) as [E|E]; [|by exists false].
  destruct p as [|b p]; [cbn in E; by subst a|]. cbn in E. subst b.
  destruct (IH p Hlit) as (b & Eb & Hb). exists b. rewrite ended_cons. cbn [adv mbind outcome_bind].
  split; [done|]. intros Ht. destruct (Hb Ht) as [q ->]. by exists q.
Qed.

(** ** Strings. *)

Lemma four_hex_spec t : four_hex t = true -> exists h uc q, t = h +:+ q /\ hex4 h uc.
Proof.
  unfold four_hex, is_hex. destruct t as [|a [|b [|c [|d q]]]]; try done.
  destruct (hex_digit a) as [x|] eqn:Ea; [|done]. destruct (hex_digit b) as [y|] eqn:Eb; [|done].
  destruct (hex_digit c) as [z|] eqn:Ec; [|done]. destruct (hex_digit d) as [w|] eqn:Ed; [|done].
  intros _. exists (String a (String b (String c (String d EmptyString)))), (4096 * x + 256 * y + 16 * z + w), q.
  split; [done|]. exists a, b, c, d, x, y, z, w. split_and!; done.
Qed.

(** The cases of an escape in a tame text. *)
Lemma tame_escape p : tame_at Inside (String backslash p) = true ->
  exists b q, p = String b q /\ tame_at Inside q = true /\
    (isc b 117 = false \/ b = "u"%char /\ exists h uc q', q = h +:+ q' /\ hex4 h uc).
Proof using M.
  cbn [tame_at]. change (isc backslash 34) with false. change (isc backslash 92) with true.
  intros [_ Ha]%andb_true_iff. destruct p as [|b q]; [done|]. exists b, q.
  apply andb_true_iff in Ha as [[_ Ha]%andb_true_iff Hq]. split_and!; [done|done|].
  destruct (isc b 117) eqn:E; [|by left]. right. split; [by apply is_char in E|]. by apply four_hex_spec.
Qed.

Lemma parse_escape_other b q : isc b 117 = false ->
  exists a, parse_escape (String b q) = Ok (String a EmptyString, String b q).
Proof. intros Hb. unfold parse_escape. cbn [peek mbind outcome_bind]. rewrite Hb. repeat case_match; eauto. Qed.

(** A [\u] escape in a tame text: at most four bytes, and one or two escapes are used. *)
Lemma parse_unicode_safe h uc p : hex4 h uc -> tame_at Inside p = true ->
  exists s b q, parse_unicode (String "u" (h +:+ ended p)) = Ok (s, String b (ended q)) /\
    (String.length s <= 4)%nat /\
    (q = p \/ exists h' uc', hex4 h' uc' /\ p = String backslash (String "u" (h' +:+ q))).
Proof.
  intros Hh Hp. destruct (adv_hex "u" h uc (ended p) Hh) as [b Hb]. unfold parse_unicode.
  rewrite (obind_ok _ _ (h +:+ ended p)) by done. rewrite (obind_ok _ _ _ (parse_hex4_spec h uc (ended p) Hh)).
  rewrite (obind_ok _ _ _ Hb). pose proof (utf8_length_bounds uc).
  destruct (((0xDC00 <=? uc) && (uc <=? 0xDFFF)) || (uc =? 0)); [exists EmptyString, b, p; cbn; auto with lia|].
  destruct ((0xD800 <=? uc) && (uc <=? 0xDBFF)); [|exists (utf8 uc), b, p; split_and!; [done|lia|by left]].
  rewrite (obind_ok _ _ (ended p)) by done. rewrite (obind_ok _ _ _ (peek_ended post p)).
  destruct (isc (first_char p) 92) eqn:E; cbn [negb]; [|exists EmptyString, b, p; cbn; auto with lia].
  destruct p as [|a p]; [done|]. cbn [first_char] in E. apply is_char in E. subst a.
  destruct (tame_escape p Hp) as (c & q & -> & _ & Hc). rewrite !ended_cons. cbn [adv mbind outcome_bind peek].
  destruct Hc as [Hc|(-> & h' & uc' & q' & -> & Hh')].
  { rewrite Hc. cbn [negb]. exists EmptyString, b, (String backslash (String c q)). cbn; auto with lia. }
  change (negb (isc "u" 117)) with false. cbn iota.
  rewrite (ended_append post h' q').
  rewrite (obind_ok _ _ _ (parse_hex4_spec h' uc' (ended q') Hh')).
  destruct (adv_hex_pair b h' uc' (ended q') Hh') as [d Hd]. rewrite (obind_ok _ _ _ Hd).
  case_match; eexists _, d, q'; (split; [done|]); (split; [|by right; eauto]).
  - cbn; lia.
  - match goal with |- (String.length (utf8 ?n) <= _)%nat => pose proof (utf8_length_bounds n); lia end.
Qed.

(** The end of a literal. *)
Definition at_end (q : string) : Prop :=
  tame_at Inside q = true /\ isc (first_char q) 34 || isc (first_char q) 0 = true.

(** Where both passes over a tame text end: at a quote or at the end, within the
    length that was counted. *)
Definition passes (p : string) : Prop := exists n, string_length (ended p) = Ok n /\
  forall fuel cap out, (String.length p < fuel)%nat -> (String.length out + n <= cap)%nat ->
    exists out' q, string_copy fuel cap out (ended p) = Ok (out', ended q) /\ str_suffix q p /\ at_end q /\
      (String.length out' <= String.length out + n)%nat.

Lemma passes_stop p : tame_at Inside p = true -> isc (first_char p) 34 || isc (first_char p) 0 = true -> passes p.
Proof.
  intros Hp Hh. assert (exists a q, ended p = String a q /\ isc a 34 || isc a 0 = true) as (a & q & E & Ha)
    by (destruct p; eauto). exists O. rewrite E. split; [cbn [string_length]; by rewrite Ha|].
  intros [|fuel] cap out Hf Hc; [lia|]. exists out, p. split_and!; [|auto|done|lia].
  cbn [string_copy peek mbind outcome_bind]. by rewrite Ha, E.
Qed.

Lemma passes_plain a p : plain a = true -> passes p -> passes (String a p).
Proof.
  intros Ha (n & Hn & Hcopy). exists (S n). rewrite ended_cons. split; [by apply string_length_plain|].
  intros [|fuel] cap out Hf Hc; cbn [String.length] in Hf; [lia|]. rewrite copy_plain by (done || lia).
  destruct (Hcopy fuel cap (out +:+ String a EmptyString)) as (out' & q & E & Hq & Hi & Hl);
    [lia|rewrite length_append; cbn; lia|].
  exists out', q. rewrite length_append in Hl. cbn [String.length] in Hl. split_and!; [done|auto|done|lia].
Qed.

(** An escape that counts [m] characters, writes no more, and goes on at [q]. *)
Lemma passes_escape p q m s b : passes q -> str_suffix q p ->
  (forall n, string_length (ended q) = Ok n -> string_length (String backslash (ended p)) = Ok (m + n)%nat) ->
  parse_escape (ended p) = Ok (s, String b (ended q)) -> (String.length s <= m)%nat ->
  passes (String backslash p).
Proof.
  intros (n & Hn & Hcopy) Hq Hlen Hesc Hs. exists (m + n)%nat. rewrite ended_cons. split; [auto|].
  intros [|fuel] cap out Hf Hc; cbn [String.length] in Hf; [lia|].
  rewrite (copy_escape _ _ _ _ _ _ b (ended q) Hesc) by (done || lia).
  pose proof (suffix_length q p Hq).
  destruct (Hcopy fuel cap (out +:+ s)) as (out' & r & E & Hr & Hi & Hl); [lia|rewrite length_append; lia|].
  exists out', r. rewrite length_append in Hl. split_and!; [done|by apply suffix_cons, (suffix_trans _ q)|done|lia].
Qed.

Lemma string_passes p : tame_at Inside p = true -> passes p.
Proof.
  remember (String.length p) as k eqn:Hk. assert (String.length p <= k)%nat as Hle by lia. clear Hk. revert p Hle.
  induction k as [k IH] using lt_wf_ind. intros p Hle Hp.
  destruct p as [|a p]; [by apply passes_stop|]. cbn [String.length] in Hle.
  destruct (isc a 34) eqn:E1; [apply passes_stop; [done|]; cbn [first_char]; by rewrite E1|].
  destruct (isc a 92) eqn:E2.
  2: { assert (isc a 0 = false) as Ha0 by (cbn [tame_at] in Hp; by apply andb_true_iff in Hp as [?%negb_true_iff _]).
       assert (plain a = true) as Hpl by (unfold plain; by rewrite Ha0, E1, E2).
       apply passes_plain; [done|]. apply (IH (String.length p)); [lia|lia|by apply (inside_plain a)]. }
  apply is_char in E2. subst a. destruct (tame_escape p Hp) as (b & q & -> & Hq & Hb). cbn [String.length] in Hle.
  destruct Hb as [Hb|(-> & h & uc & q' & -> & Hh)].
  - destruct (parse_escape_other b (ended q) Hb) as [c Hc].
    apply (passes_escape (String b q) q 1 (String c EmptyString) b); [by apply (IH (String.length q)); [lia|lia|]|auto| |exact Hc|cbn; lia].
    intros n Hn. rewrite ended_cons. by apply string_length_escape.
  - rewrite length_append in Hle. pose proof (hex4_length h uc Hh).
    assert (Hq' : tame_at Inside q' = true) by (by eapply inside_hex).
    destruct (parse_unicode_safe h uc q' Hh Hq') as (w & b & r & E & Hw & Hr).
    assert (Hpr : passes r).
    { destruct Hr as [-> |(h' & uc' & Hh' & ->)]; [by apply (IH (String.length q')); [lia|lia|]|].
      cbn [String.length] in Hle. rewrite length_append in Hle. apply (IH (String.length r)); [lia|lia|].
      destruct (tame_escape _ Hq') as (b' & q & [= <- <-] & Hi & _). by eapply inside_hex. }
    assert (Hsr : str_suffix r q') by (destruct Hr as [-> |(h' & uc' & _ & ->)]; auto using suffix_append).
    destruct Hr as [-> |(h' & uc' & Hh' & ->)].
    + apply (passes_escape (String "u" (h +:+ q')) q' 5 w b); [done| | |by rewrite ended_cons, ended_append|lia].
      * apply suffix_cons. by apply suffix_append.
      * intros n Hn. rewrite ended_cons, ended_append. by apply string_length_escape, (string_length_hex h uc).
    + set (q' := String backslash (String "u" (h' +:+ r))) in *.
      apply (passes_escape (String "u" (h +:+ q')) r 10 w b); [done| | |by rewrite ended_cons, ended_append|lia].
      * apply suffix_cons, (suffix_trans _ q'); [done|apply suffix_append].
      * intros n Hn. rewrite ended_cons, ended_append. apply string_length_escape, (string_length_hex h uc _ (5 + n)); [done|].
        subst q'. rewrite !ended_cons, ended_append. by apply string_length_escape, (string_length_hex h' uc').
Qed.

Lemma string_content_safe p n : tame_at Inside p = true -> string_length (ended p) = Ok n ->
  exists out q, string_content (n + 1) (ended p) = Ok (out, ended q) /\ str_suffix q p /\ tame_at Token q = true.
Proof.
  intros Hp Hn. destruct (string_passes p Hp) as (n' & Hn' & Hcopy). rewrite Hn in Hn'. injection Hn' as <-.
  destruct (Hcopy (S (String.length (ended p))) (n + 1)%nat EmptyString) as (out & q & E & Hq & Hi & Hl).
  { unfold JsonTame.ended. rewrite length_append. lia. }
  { cbn. lia. }
  unfold string_content. rewrite (obind_ok _ _ _ E). rewrite write_block_ok by (cbn in *; lia).
  cbn [mbind outcome_bind]. rewrite peek_ended. cbn [mbind outcome_bind].
  destruct q as [|a q]; [by exists (c_string out), EmptyString|]. destruct Hi as [Hi He]. cbn [first_char] in *.
  cbn [tame_at] in Hi. apply andb_true_iff in Hi as [Ha%negb_true_iff Hi]. rewrite Ha, orb_false_r in He. rewrite He in *.
  exists (c_string out), q. split_and!; [done|eapply suffix_trans; [|exact Hq]; auto|done].
Qed.

End Safe.

(** ** Blocks of a tree. *)

Section TreeInd.
Context (P : cJSON -> Prop).
Hypothesis node_case : forall c, Forall P (child c) -> P c.

Fixpoint tree_ind (c : cJSON) : P c :=
  node_case c ((fix all (l : list cJSON) : Forall P l :=
    match l with [] => Forall_nil_2 _ | x :: l => Forall_cons_2 _ _ _ (tree_ind x) (all l) end) (child c)).
End TreeInd.

Definition text_blocks (o : option string) : Z := if o is Some _ then 1 else 0.

(** The blocks of a node besides the node itself. *)
Fixpoint own (c : cJSON) : Z :=
  text_blocks (valuestring c) + text_blocks (json_string c) + foldr (fun x n => 1 + own x + n) 0 (child c).

(** No node is a reference. *)
Fixpoint clean (c : cJSON) : Prop :=
  Z.land (json_type c) cJSON_IsReference = 0 /\ foldr (fun x P => clean x /\ P) True (child c).

Definition chain (l : list cJSON) : Z := foldr (fun x n => 1 + own x + n) 0 l.
Definition clean_chain (l : list cJSON) : Prop := foldr (fun x P => clean x /\ P) True l.

Lemma own_eq c : own c = text_blocks (valuestring c) + text_blocks (json_string c) + chain (child c).
Proof. by destruct c. Qed.

Lemma clean_eq c : clean c <-> Z.land (json_type c) cJSON_IsReference = 0 /\ clean_chain (child c).
Proof. by destruct c. Qed.

Lemma chain_app l l' : chain (l ++ l') = chain l + chain l'.
Proof. induction l as [|x l IH]; [done|]. cbn [chain foldr app] in *. fold (chain (l ++ l')) (chain l). lia. Qed.

Lemma clean_chain_app l l' : clean_chain (l ++ l') <-> clean_chain l /\ clean_chain l'.
Proof. induction l as [|x l IH]; cbn [app clean_chain foldr]; [tauto|]. fold (clean_chain (l ++ l')) (clean_chain l). tauto. Qed.

(** [cJSON_Delete] releases exactly the blocks of the tree. *)
Definition released (n : Z) (s s' : Json) : Prop := ep s' = ep s /\ live s' = live s - n.

Lemma released_trans m n s s' s'' : released m s s' -> released n s' s'' -> released (m + n) s s''.
Proof. intros [E1 L1] [E2 L2]. unfold released. rewrite E2, E1, L2, L1. split; [done|lia]. Qed.

Lemma free_released s : runs cJSON_free s (fun _ => released 1 s).
Proof. by eexists _, _. Qed.

Lemma skip_released (b : bool) s : runs (if b then cJSON_free else st_ret tt) s (fun _ => released (if b then 1 else 0) s).
Proof. destruct b; [apply free_released|]. apply runs_ret. split; [done|lia]. Qed.

Lemma delete_chain l s : Forall (fun c => forall s, clean c -> runs (delete_item c) s (fun _ => released (1 + own c) s)) l ->
  clean_chain l -> runs (cJSON_Delete l) s (fun _ => released (chain l) s).
Proof.
  intros Hl. revert s. induction Hl as [|c l Hc Hl IH]; intros s Hcl.
  { apply runs_ret. split; [done|cbn; lia]. }
  cbn [clean_chain foldr] in Hcl. destruct Hcl as [Hcc Hcl]. cbn [cJSON_Delete].
  eapply runs_bind; [by apply Hc|]. intros [] s1 H1. eapply runs_weaken; [by apply IH|]. intros [] s2 H2.
  exact (released_trans _ _ _ _ _ H1 H2).
Qed.

Lemma delete_item_released c s : clean c -> runs (delete_item c) s (fun _ => released (1 + own c) s).
Proof.
  revert s. induction c as [c IH] using tree_ind. intros s Hc.
  destruct (proj1 (clean_eq c) Hc) as [Hr Hcl]. rewrite own_eq.
  assert (E : delete_item c = (do! cJSON_Delete (child c) in
    do! (if text_blocks (valuestring c) =? 1 then cJSON_free else st_ret tt) in
    do! (if text_blocks (json_string c) =? 1 then cJSON_free else st_ret tt) in cJSON_free)).
  { destruct c as [l t vs vi vd js]. cbn [delete_item child json_type valuestring json_string] in *. rewrite Hr. cbn [Z.eqb negb].
    by destruct vs, js. }
  rewrite E. eapply runs_bind; [by apply delete_chain|]. intros [] s1 H1.
  eapply runs_bind; [apply skip_released|]. intros [] s2 H2. eapply runs_bind; [apply skip_released|]. intros [] s3 H3.
  eapply runs_weaken; [apply free_released|]. intros [] s4 H4.
  pose proof (released_trans _ _ _ _ _ (released_trans _ _ _ _ _ H1 H2) (released_trans _ _ _ _ _ H3 H4)) as [He Hl].
  split; [done|]. rewrite Hl. unfold text_blocks. destruct (valuestring c), (json_string c); cbn; lia.
Qed.

(** ** Values. *)

Section Values.
Context `{M : Libm} (malloc_ok : nat -> bool) (post : string).

Abbreviation ended := (ended post).
Abbreviation oom := (out_of_memory malloc_ok).

(** What a function of the parser does with the text [p] and the node [item]: every block
    it allocates is in the node it leaves; it returns a pointer further on in the
    text, or fails with the error pointer in the text or out of memory. *)
Definition step_ok (p : string) (item : cJSON) (s : Json) (res : cJSON * option string) (s' : Json) : Prop :=
  live s' = live s + (own res.1 - own item) /\ (clean item -> clean res.1) /\ (allocs s <= allocs s')%nat /\
  match res.2 with
  | Some r => (exists q, r = ended q /\ later q p /\ (String.length q < String.length p)%nat) /\ ep s' = ep s
  | None => (exists q, str_suffix q p /\ ep s' = Some (ended q)) \/ oom s s'
  end.

(** A node that holds no value yet. *)
Definition blank_item (item : cJSON) : Prop := child item = [] /\ valuestring item = None.

Lemma runs_error p q item s : str_suffix q p ->
  runs (do! set_ep (Some (ended q)) in st_ret (item, None)) s (step_ok p item s).
Proof.
  intros Hq. eexists _, _. split; [done|]. split_and!; [cbn; lia|done|cbn; lia|]. left. by exists q.
Qed.

Lemma oom_step p item s s' : delta 0 s s' -> oom s s' -> step_ok p item s (item, None) s'.
Proof. intros (E & A & L) Ho. split_and!; [cbn; lia|done|done|by right]. Qed.

Lemma parse_string_safe p item s : tame_at Token p = true -> valuestring item = None ->
  runs (parse_string malloc_ok item (ended p)) s (fun res s' => step_ok p item s res s' /\
    child res.1 = child item /\ json_string res.1 = json_string item).
Proof.
  intros Hp Hv. unfold parse_string. eapply runs_step; [apply peek_ended|].
  destruct (isc (first_char p) 34) eqn:Eq; cbn [negb].
  2: { destruct (runs_error p p item s (suffix_refl p)) as (a & s' & E & Hs). exists a, s'. split; [done|].
       split; [done|]. by injection E as <- _. }
  destruct p as [|a p]; [done|]. rewrite ended_cons. eapply runs_step; [done|].
  assert (Hp' : tame_at Inside p = true).
  { cbn [tame_at] in Hp. apply andb_true_iff in Hp as [_ Hp]. unfold next_place in Hp. cbn [first_char] in Eq. by rewrite Eq in Hp. }
  destruct (string_passes post p Hp') as (n & Hn & _).
  eapply runs_step; [exact Hn|]. eapply runs_bind; [apply runs_malloc|]. intros [|] s1 H1; cbn [negb].
  2: { destruct H1 as [H1 Ho]. apply runs_ret. split; [by apply oom_step|done]. }
  destruct (string_content_safe post p n Hp' Hn) as (out & q & E & Hq & Htq).
  eapply runs_step; [exact E|]. apply runs_ret. destruct H1 as (E1 & A1 & L1). pose proof (suffix_length q p Hq).
  split; [|done]. split_and!.
  - rewrite !own_eq. cbn [fst valuestring json_string child set_type set_valuestring]. rewrite Hv. cbn [text_blocks]. lia.
  - rewrite !clean_eq. by intros [_ Hc].
  - done.
  - split; [|done]. exists q. split_and!; [done|split; [auto|done]|cbn; lia].
Qed.

Section List.
Context (bound : nat) (pv : cJSON -> option string -> ST Json (cJSON * option string)).

Hypothesis pv_safe : forall p item s, tame p = true -> blank_item item -> (String.length p < bound)%nat ->
  runs (pv item (Some (ended p))) s (step_ok p item s).

(** A step from a later point of the text. *)
Lemma step_later p q item s res s' : later q p -> step_ok q item s res s' -> step_ok p item s res s'.
Proof.
  intros Hq (L & C & A & R). split_and!; [done|done|done|]. pose proof (later_length _ _ Hq). destruct (res.2) as [r|].
  - destruct R as [(u & -> & Hu & Hl) He]. split; [|done]. exists u. split_and!; [done|by eapply later_trans|lia].
  - destruct R as [(u & Hu & He)|Ho]; [left|by right]. exists u. split; [eapply suffix_trans; eauto|done].
Qed.

(** Blanks behind a value. *)
Lemma skip_after p item s (m : ST Json (cJSON * option string)) : runs m s (step_ok p item s) ->
  runs (let! (c, value) := m in let! value := st_lift (skip_ptr value) in st_ret (c, value)) s (step_ok p item s).
Proof.
  intros Hm. eapply runs_bind; [exact Hm|]. intros [c o] s1 (L & C & A & R). destruct o as [r|]; cbn [fst snd] in *.
  - destruct R as [(q & -> & Hq & Hl) He]. destruct (skip_ended post q) as (u & Eu & Hu & _).
    eapply (runs_step _ _ (Some (ended u))); [cbn [skip_ptr]; by rewrite Eu|]. apply runs_ret.
    pose proof (later_length _ _ Hu). split_and!; [done|done|done|]. split; [|done]. exists u.
    split_and!; [done|by eapply later_trans|lia].
  - eapply (runs_step _ _ None); [done|]. by apply runs_ret.
Qed.

Lemma parse_element_safe p item s : tame p = true -> blank_item item -> (String.length p < bound)%nat ->
  runs (parse_element pv item (ended p)) s (step_ok p item s).
Proof using pv_safe.
  intros Hp Hi Hl. unfold parse_element. destruct (skip_ended post p) as (q & Eq & Hq & Hvq).
  eapply runs_step; [exact Eq|]. pose proof (later_length _ _ Hq).
  eapply runs_weaken; [apply skip_after, pv_safe; [by apply Hvq|done|lia]|].
  intros res s'. by apply step_later.
Qed.

Lemma parse_member_safe p item s : tame p = true -> blank_item item -> json_string item = None ->
  (String.length p < bound)%nat -> runs (parse_member malloc_ok pv item (ended p)) s (step_ok p item s).
Proof using pv_safe.
  intros Hp [Hch Hv] Hj Hl. unfold parse_member. destruct (skip_ended post p) as (q & Eq & Hq & _).
  eapply runs_step; [exact Eq|]. pose proof (later_length _ _ Hq). apply value_token in Hp.
  eapply runs_bind; [apply parse_string_safe; [by apply Hq|done]|].
  intros [c o] s1 (Hc & Hcc & Hcj). apply (step_later p q) in Hc; [|done]. destruct Hc as (L & C & A & R).
  cbn [fst snd] in *. rewrite Hch in Hcc. rewrite Hj in Hcj. destruct o as [r|].
  2: { eapply (runs_step _ _ None); [done|]. by apply runs_ret. }
  destruct R as [(u & -> & Hu & Hlu) He]. destruct (skip_ended post u) as (v & Ev & Hvu & _).
  eapply (runs_step _ _ (Some (ended v))); [cbn [skip_ptr]; by rewrite Ev|]. cbv zeta.
  pose proof (later_length _ _ Hvu). set (c' := set_valuestring None _).
  assert (Hown : own c' = own c) by (rewrite !own_eq; subst c'; cbn; rewrite Hcj, Hcc; cbn; lia).
  assert (Hcl : clean c -> clean c') by (rewrite !clean_eq; done).
  assert (Hsv : later v p) by (by eapply later_trans).
  eapply runs_step; [apply peek_ended|]. destruct (isc (first_char v) 58) eqn:E58; cbn [negb].
  - destruct v as [|a v]; [done|]. rewrite ended_cons. eapply runs_step; [done|].
    cbn [first_char String.length] in *. assert (Hn34 : isc a 34 = false) by (char_prop; lia).
    assert (Hv' : later v p) by (eapply later_trans; [|exact Hsv]; apply later_cons; auto).
    eapply runs_weaken; [apply parse_element_safe; [|done|lia]|].
    { apply (opener_value a); [by rewrite E58, orb_true_r|done|by apply Hsv]. }
    intros res s2 (L2 & C2 & A2 & R2)%(step_later p v); [|done]. split_and!; [lia|auto|lia|].
    destruct (res.2); [by rewrite <- He|]. destruct R2 as [R2|(n & Hn & Hf)]; [by left|right]. exists n. split; [lia|done].
  - destruct (runs_error p v c' s1 (later_suffix _ _ Hsv)) as (a & s2 & E & (L2 & C2 & A2 & R2)). exists a, s2. split; [done|].
    injection E as <- <-. split_and!; [cbn in *; lia|auto|cbn in *; lia|]. destruct R2 as [R2|(n & Hn & _)]; [by left|cbn in Hn; lia].
Qed.

(** ** Lists. *)

Context (parse_one : cJSON -> string -> ST Json (cJSON * option string)) (close : Z).

Hypothesis one_safe : forall p s, tame p = true -> (String.length p < bound)%nat ->
  runs (parse_one empty_item (ended p)) s (step_ok p empty_item s).

Hypothesis close_char : close <> 0 /\ close <> 34.

Lemma close_later a p q : isc a close = true -> later q p -> later q (String a p).
Proof using close_char. intros Ha. apply later_cons. char_prop. lia. Qed.

Lemma own_children l item : child item = [] -> own (set_child l item) = own item + chain l.
Proof. intros Hi. rewrite !own_eq. cbn [set_child child valuestring json_string]. rewrite Hi. cbn. lia. Qed.

Lemma clean_children l item : clean item -> clean_chain l -> clean (set_child l item).
Proof. rewrite !clean_eq. cbn [set_child child json_type]. tauto. Qed.

Lemma chain_snoc l c : chain (l ++ [c]) = chain l + 1 + own c.
Proof. rewrite chain_app. cbn. lia. Qed.

(** What the loop adds to the blocks in use: those of the children it parses. *)
Definition list_ok (p : string) (item : cJSON) (n : Z) (s : Json) (res : cJSON * option string) (s' : Json) : Prop :=
  live s' = live s + (own res.1 - own item - n) /\ (clean item -> clean res.1) /\ (allocs s <= allocs s')%nat /\
  match res.2 with
  | Some r => (exists q, r = ended q /\ later q p /\ (String.length q < String.length p)%nat) /\ ep s' = ep s
  | None => (exists q, str_suffix q p /\ ep s' = Some (ended q)) \/ oom s s'
  end.

Lemma runs_new_item s : runs (cJSON_New_Item malloc_ok) s (fun o s' =>
  if o is Some c then c = empty_item /\ delta 1 s s' else delta 0 s s' /\ oom s s').
Proof. unfold cJSON_New_Item. eapply runs_bind; [apply runs_malloc|]. intros [|] s1 H1; by apply runs_ret. Qed.

Lemma list_loop_safe fuel : forall p item sib last s, child item = [] -> tame_at Token p = true ->
  (String.length p < fuel)%nat -> (String.length p <= bound)%nat -> clean_chain (sib ++ [last]) ->
  runs (list_loop malloc_ok parse_one close fuel item sib last (ended p)) s
    (list_ok p item (chain (sib ++ [last])) s).
Proof using one_safe close_char.
  induction fuel as [|fuel IH]; intros p item sib last s Hi Hp Hf Hb Hcl; [lia|]. cbn [list_loop].
  eapply runs_step; [apply peek_ended|]. destruct (isc (first_char p) 44) eqn:E44.
  - destruct p as [|a p]; [done|]. cbn [first_char String.length] in *. assert (Hn34 : isc a 34 = false) by (char_prop; lia).
    assert (Hp' : tame p = true) by (apply (opener_value a); [by rewrite E44, !orb_true_r|done|done]).
    eapply runs_bind; [apply runs_new_item|]. intros [c|] s1 H1.
    2: { destruct H1 as [(E & A & L) Ho]. apply runs_ret. split_and!; cbn [fst snd];
           [rewrite own_children by done; lia|intros Hc; by apply clean_children|done|by right]. }
    destruct H1 as [-> (E & A & L)]. rewrite ended_cons. eapply runs_step; [done|].
    eapply runs_bind; [apply one_safe; [done|lia]|]. intros [c o] s2 (L2 & C2 & A2 & R2). cbn [fst snd] in *.
    assert (Hclc : clean c) by (apply C2; by vm_compute). assert (own empty_item = 0) as E0 by done.
    destruct o as [r|].
    + destruct R2 as [(q & -> & Hq & Hlq) He]. eapply runs_weaken; [apply IH; [done|by apply Hq, value_token|lia|lia|]|].
      { rewrite clean_chain_app. by split_and!. }
      intros res s3 (L3 & C3 & A3 & R3). rewrite chain_snoc in L3. split_and!; [lia|done|lia|]. destruct (res.2) as [r|].
      * destruct R3 as [(u & -> & Hu & Hlu) He3]. split; [|congruence]. exists u.
        split_and!; [done|apply later_cons; [done|]; by eapply later_trans|cbn; lia].
      * destruct R3 as [(u & Hu & He3)|(n & Hn & Hn')]; [left|right; exists n; split; [lia|done]].
        exists u. split; [apply suffix_cons; eapply suffix_trans; eauto|done].
    + apply runs_ret. rewrite (app_assoc sib [last] [c] : sib ++ [last; c] = _). split_and!; cbn [fst snd].
      * rewrite own_children, chain_snoc by done. lia.
      * intros Hc. apply clean_children; [done|]. rewrite clean_chain_app. by split_and!.
      * lia.
      * destruct R2 as [(u & Hu & He3)|(n & Hn & Hn')]; [left; exists u; auto|right; exists n; split; [lia|done]].
  - assert (L0 : live s = live s + (own (set_child (sib ++ [last]) item) - own item - chain (sib ++ [last])))
      by (rewrite own_children by done; lia).
    destruct (isc (first_char p) close) eqn:Ec.
    + destruct p as [|a p]; [apply isc_true in Ec; change (code (first_char EmptyString)) with 0 in Ec; lia|]. rewrite ended_cons. eapply runs_step; [done|].
      apply runs_ret. split_and!; [done|intros Hc; by apply clean_children|lia|]. cbn [snd]. split; [|done].
      exists p. split_and!; [done|by apply (close_later a)|cbn; lia].
    + destruct (runs_error p p (set_child (sib ++ [last]) item) s (suffix_refl p)) as (a & s2 & E & (L2 & C2 & A2 & R2)).
      exists a, s2. split; [done|]. injection E as <- <-. split_and!; [done|intros Hc; by apply clean_children|done|done].
Qed.

Lemma parse_list_safe fuel b p item s : isc b 34 = false -> child item = [] -> tame p = true -> (String.length p < fuel)%nat ->
  (String.length p < bound)%nat ->
  runs (parse_list malloc_ok parse_one close fuel item (ended p)) s (step_ok (String b p) item s).
Proof using one_safe close_char.
  intros Hb34 Hi Hp Hf Hb. unfold parse_list. destruct (skip_ended post p) as (q & Eq & Hq & Hvq).
  eapply runs_step; [exact Eq|]. eapply runs_step; [apply peek_ended|]. pose proof (later_length _ _ Hq).
  assert (Hsq : later q (String b p)) by (by apply later_cons). specialize (Hvq Hp).
  destruct (isc (first_char q) close) eqn:Ec.
  { destruct q as [|a q]; [apply isc_true in Ec; change (code (first_char EmptyString)) with 0 in Ec; lia|]. rewrite ended_cons. eapply runs_step; [done|].
    apply runs_ret. split_and!; [cbn; lia|done|done|]. split; [|done]. exists q. cbn [String.length] in *.
    split_and!; [done|eapply later_trans; [|exact Hsq]; by apply (close_later a)|lia]. }
  eapply runs_bind; [apply runs_new_item|]. intros [c|] s1 H1.
  2: { destruct H1 as [H1 Ho]. apply runs_ret. by apply oom_step. }
  destruct H1 as [-> (E & A & L)]. eapply runs_bind; [apply one_safe; [done|lia]|].
  intros [c o] s2 (L2 & C2 & A2 & R2). cbn [fst snd] in *.
  assert (Hclc : clean c) by (apply C2; by vm_compute). assert (own empty_item = 0) as E0 by done.
  destruct o as [r|].
  - destruct R2 as [(u & -> & Hu & Hlu) He].
    eapply runs_weaken; [apply list_loop_safe; [done|by apply Hu, value_token|lia|lia|by split]|].
    intros res s3 (L3 & C3 & A3 & R3). cbn [app chain foldr] in L3. split_and!; [lia|done|lia|].
    assert (Hsu : later u (String b p)) by (by eapply later_trans). destruct (res.2) as [r|].
    + destruct R3 as [(v & -> & Hv & Hlv) He3]. split; [|congruence]. exists v.
      split_and!; [done|by eapply later_trans|cbn; lia].
    + destruct R3 as [(v & Hv & He3)|(n & Hn & Hn')]; [left; exists v; split; [eapply suffix_trans; eauto|done]|].
      right. exists n. split; [lia|done].
  - apply runs_ret. split_and!; cbn [fst snd].
    + rewrite own_children by done. cbn [chain foldr]. lia.
    + intros Hc. apply clean_children; [done|by split].
    + lia.
    + destruct R2 as [(v & Hv & He3)|(n & Hn & Hn')]; [left; exists v; split; [exact (suffix_trans v q _ Hv (later_suffix _ _ Hsq))|done]|].
      right. exists n. split; [lia|done].
Qed.

End List.

Lemma retyped item t : own (set_type t item) = own item.
Proof. by rewrite !own_eq. Qed.

Lemma retyped_clean item t : Z.land t cJSON_IsReference = 0 -> clean item -> clean (set_type t item).
Proof. rewrite !clean_eq. by intros Ht [_ Hc]. Qed.

(** The node was given its type first. *)
Lemma step_retyped p item t s res s' : Z.land t cJSON_IsReference = 0 ->
  step_ok p (set_type t item) s res s' -> step_ok p item s res s'.
Proof.
  intros Ht (L & C & A & R). rewrite retyped in L. split_and!; [done| |done|done]. intros Hc. by apply C, retyped_clean.
Qed.

(** A literal or a number. *)
Lemma step_value p q item item' s : own item' = own item -> (clean item -> clean item') -> later q p ->
  (String.length q < String.length p)%nat -> step_ok p item s (item', Some (ended q)) s.
Proof. intros Ho Hc Hq Hl. split_and!; [cbn; lia|done|lia|]. split; [|done]. by exists q. Qed.

Lemma literal_safe lit item item' q s : lit <> EmptyString -> all_chars (fun a => negb (isc a 34)) lit = true -> own item' = own item -> (clean item -> clean item') ->
  runs (let! rest := st_lift (adv (String.length lit) (ended (lit +:+ q))) in st_ret (item', Some rest)) s
    (step_ok (lit +:+ q) item s).
Proof.
  intros Hne Hu Ho Hc. eapply runs_step; [rewrite ended_append; apply adv_append|]. apply runs_ret.
  apply step_value; [done|done|by apply later_free|]. rewrite length_append. destruct lit; [done|cbn; lia].
Qed.

Lemma element_list_safe fuel b p item t s pv : isc b 34 = false ->
  (forall p item s, tame p = true -> blank_item item -> (String.length p < fuel)%nat ->
     runs (pv item (Some (ended p))) s (step_ok p item s)) ->
  Z.land t cJSON_IsReference = 0 -> blank_item item -> tame p = true -> (String.length p < fuel)%nat ->
  runs (parse_list malloc_ok (parse_element pv) 93 fuel (set_type t item) (ended p)) s (step_ok (String b p) item s) /\
  runs (parse_list malloc_ok (parse_member malloc_ok pv) 125 fuel (set_type t item) (ended p)) s (step_ok (String b p) item s).
Proof.
  intros Hb Hpv Ht [Hi _] Hp Hl. split; (eapply runs_weaken; [|by intros res s'; apply step_retyped]).
  - apply (parse_list_safe fuel); try done. intros p' s' Hp' Hl'. by apply (parse_element_safe fuel).
  - apply (parse_list_safe fuel); try done. intros p' s' Hp' Hl'. by apply (parse_member_safe fuel).
Qed.

(** ** The parser. *)

Lemma parse_value_safe fuel : forall p item s, tame p = true -> blank_item item -> (String.length p < fuel)%nat ->
  runs (parse_value malloc_ok fuel item (Some (ended p))) s (step_ok p item s).
Proof.
  induction fuel as [|fuel IH]; intros p item s Hp Hi Hl; [lia|]. cbn [parse_value].
  destruct (has_prefix_ended post "null" p) as (b & E & Hb); [done|]. eapply runs_step; [exact E|].
  destruct b; [destruct (Hb eq_refl) as [q ->]; apply (literal_safe "null"); [done|done|apply retyped|by apply retyped_clean]|]. clear E Hb.
  destruct (has_prefix_ended post "false" p) as (b & E & Hb); [done|]. eapply runs_step; [exact E|].
  destruct b; [destruct (Hb eq_refl) as [q ->]; apply (literal_safe "false"); [done|done|apply retyped|by apply retyped_clean]|]. clear E Hb.
  destruct (has_prefix_ended post "true" p) as (b & E & Hb); [done|]. eapply runs_step; [exact E|].
  destruct b; [destruct (Hb eq_refl) as [q ->]; apply (literal_safe "true"); [done|done|by rewrite !own_eq|by rewrite !clean_eq; intros [_ ?]]|]. clear E Hb.
  eapply runs_step; [apply peek_ended|].
  destruct (isc (first_char p) 34) eqn:E34.
  { eapply runs_weaken; [apply parse_string_safe; [by apply value_token|apply Hi]|]. by intros res s' [Hs _]. }
  destruct (isc (first_char p) 45 || isdigit (first_char p)) eqn:Ed.
  { destruct (parse_number_safe post item p (value_number p Ed Hp) Ed) as (n & i & q & E & Hq & Hlq). eapply runs_step; [exact E|].
    apply runs_ret. apply step_value; [by rewrite !own_eq|by rewrite !clean_eq; intros [_ ?]|done|done]. }
  destruct (isc (first_char p) 91) eqn:E91; [|destruct (isc (first_char p) 123) eqn:E123; [|by apply runs_error]].
  - destruct p as [|a p]; [done|]. cbn [first_char String.length] in *.
    assert (Hp' : tame p = true) by (apply (opener_value a); [by rewrite E91|done|by apply value_token]).
    unfold parse_array. eapply runs_step; [apply peek_ended|]. cbn [first_char]. rewrite E91. cbn [negb]. rewrite ended_cons.
    eapply runs_step; [done|]. apply element_list_safe; [done|apply IH|done|done|done|lia].
  - destruct p as [|a p]; [done|]. cbn [first_char String.length] in *.
    assert (Hp' : tame p = true) by (apply (opener_value a); [by rewrite E123, orb_true_r|done|by apply value_token]).
    unfold parse_object. eapply runs_step; [apply peek_ended|]. cbn [first_char]. rewrite E123. cbn [negb]. rewrite ended_cons.
    eapply runs_step; [done|]. apply element_list_safe; [done|apply IH|done|done|done|lia].
Qed.

End Values.
