(* ===== verification/JsonProps.v ===== *)
(** * JsonProps: the JSON library reads what it writes, reads every JSON text, and where it
    does not stay inside its memory. *)

From S2P Require Import Prelude Hoare.
From S2P Require Import Float64 Json JsonPrint JsonSpec JsonFacts JsonParse JsonRender JsonWrite JsonTame JsonSafe.
From stdpp Require Import pretty.
From Stdlib Require Import SpecFloat Ascii.
#[local] Open Scope Z_scope.

(** A power function for concrete instances: repeated multiplication and division. *)
Definition int_pow (x y : double) : double :=
  match d_trunc y with
  | Some 0 => d_of_int 1
  | Some (Z.pos n) => Pos.iter (d_mul x) (d_of_int 1) n
  | Some (Z.neg n) => d_div (d_of_int 1) (Pos.iter (d_mul x) (d_of_int 1) n)
  | None => S754_nan
  end.

Lemma int_pow_zero x s : int_pow x (S754_zero s) = d_of_int 1.
Proof. done. Qed.

Definition demo_libm : Libm := Build_Libm int_pow int_pow_zero.

(** No memory in use, nothing allocated. *)
Definition json_fresh : Json := mkJson None 0 0.

(** C16: JSON texts are read.  While memory lasts, a text of the grammar [text], with
    blanks in front and any characters behind it (after a number: one that does not continue
    it), is parsed to the tree of its value; the blocks in use grow by those of the
    tree and the error pointer is NULL.  The grammar is that of JSON with all its
    escapes but [\u0000] and unpaired surrogates (which the parser drops), and with
    integers, fractions and exponents: the digits of a number, the point left out, make an integer
    below 2^52, its exponent is below 2^31 and its integer part is an [int]; its value is
    sign * digits * pow(10, exponent - digits behind the point). *)
Theorem json_text_parsed `{Libm} malloc_ok j t w r s : (forall n, malloc_ok n = true) ->
  text j t -> blank w -> follows j r ->
  cJSON_Parse malloc_ok (Some (w +:+ t +:+ r)) s
  = Ok (Some (node None j), mkJson None (live s + 1 + Z.of_nat (blocks j)) (allocs s + 1 + blocks j)).
Proof. intros Hm. by apply cJSON_Parse_text. Qed.

(** C6: what is printed is read back.  While memory lasts, for every value whose numbers are
    32-bit integers and whose strings contain no NUL, both printers return its text, which is a text of the
    grammar, and parsing that text, terminated with NUL, returns the same tree. *)
Theorem json_roundtrip `{Libm} malloc_ok j (fmt : bool) s s' : (forall n, malloc_ok n = true) -> wf_json j ->
  exists s1, print_value malloc_ok (node None j) 0 fmt s = Ok (Some (render 0 fmt j), s1) /\
    text j (render 0 fmt j) /\
    exists s2, cJSON_Parse malloc_ok (Some (render 0 fmt j +:+ String NUL EmptyString)) s'
      = Ok (Some (node None j), s2).
Proof.
  intros Hm Hj. destruct (node_prints malloc_ok j None 0 fmt Hj s) as (o & s1 & E & Ho).
  exists s1. pose proof (render_text 0 fmt j Hj) as Ht. split_and!; [|done|].
  - rewrite E. destruct Ho as [[-> _]|(_ & _ & n & _ & Hf)]; [done|congruence].
  - eexists. rewrite <- (append_empty (render 0 fmt j +:+ _)). apply cJSON_Parse_text; [done|done|done|].
    destruct j; try done. by eexists _, _.
Qed.

(** C24: printing in bounded memory.  Whatever allocations fail, printing a tree of a
    well-formed value (its numbers are 32-bit integers) never writes past a block, whose
    sizes it computes in advance; it returns the text in one block more than before, or
    fails because an allocation failed, and then leaves no block behind. *)
Theorem json_print_memory malloc_ok j name depth (fmt : bool) s : wf_json j ->
  exists o s', print_value malloc_ok (node name j) depth fmt s = Ok (o, s') /\ ep s' = ep s /\
    (o = Some (render depth fmt j) /\ live s' = live s + 1 \/
     o = None /\ live s' = live s /\ exists n, (allocs s <= n < allocs s')%nat /\ malloc_ok n = false).
Proof.
  intros Hj. destruct (node_prints malloc_ok j name depth fmt Hj s) as (o & s' & E & Ho). exists o, s'.
  split; [done|]. destruct Ho as [[-> (Ep & _ & L)]|(-> & (Ep & _ & L) & Hf)]; (split; [done|]); [by left|].
  right. split_and!; [done|lia|done].
Qed.

(** C11: the parser is total.  On every terminated [tame] text, be it JSON or not, and
    whatever allocations fail (a text is tame when no escape in a string is cut short and, where a value
    may start, no number has an exponent of 2^31 or more or an integer part that is
    not an [int]: there the arithmetic of C is undefined), the parser ends without reading behind the NUL and
    without writing past a block.  It returns a tree, whose blocks are all it has
    allocated, and the end of what it read; or it fails, leaving no block behind, with the
    error pointer in the text unless an allocation failed. *)
Theorem json_parse_total `{Libm} malloc_ok post p (require : bool) s : tame p = true ->
  exists c e s', cJSON_ParseWithOpts malloc_ok (Some (ended post p)) require s = Ok ((c, e), s') /\
    match c with
    | Some c => live s' = live s + 1 + own c /\ ep s' = None /\ exists q, e = Some (ended post q) /\ str_suffix q p
    | None => live s' = live s /\
        ((exists q, ep s' = Some (ended post q) /\ str_suffix q p) \/ exists n, (allocs s <= n)%nat /\ malloc_ok n = false)
    end.
Proof.
  intros Hp. enough (runs (cJSON_ParseWithOpts malloc_ok (Some (ended post p)) require) s (fun ce s' =>
    match ce.1 with
    | Some c => live s' = live s + 1 + own c /\ ep s' = None /\ exists q, ce.2 = Some (ended post q) /\ str_suffix q p
    | None => live s' = live s /\
        ((exists q, ep s' = Some (ended post q) /\ str_suffix q p) \/ exists n, (allocs s <= n)%nat /\ malloc_ok n = false)
    end)) as ([c e] & s' & E & Hr) by (by exists c, e, s').
  unfold cJSON_ParseWithOpts. eapply runs_bind; [apply runs_new_item|]. intros o s1 Ho.
  eapply (runs_bind _ _ _ (fun _ s2 => ep s2 = None /\ live s2 = live s1 /\ allocs s2 = allocs s1)); [by eexists _, _|].
  intros [] s2 (Ep2 & L2 & A2). destruct o as [c|].
  2: { destruct Ho as [(_ & _ & L) (n & Hn & Hf)]. apply runs_ret. split; [lia|]. right. exists n. split; [lia|done]. }
  destruct Ho as [-> (_ & A1 & L1)]. destruct (skip_ended post p) as (q & Eq & Hq & Htq). specialize (Htq Hp).
  eapply (runs_step _ _ (Some (ended post q))); [cbn [skip_ptr]; by rewrite Eq|].
  eapply runs_bind; [apply parse_value_safe; [done|done|unfold ended; cbn; rewrite length_append; lia]|].
  intros [c o] s3 (L3 & C3 & A3 & R3). cbn [fst snd] in *. assert (Hc : clean c) by (apply C3; by vm_compute).
  change (own empty_item) with 0 in L3. destruct o as [r|].
  - destruct R3 as [(u & -> & Hu & _) Ep3]. destruct require.
    + destruct (skip_ended post u) as (v & Ev & Hv & _). eapply runs_step; [exact Ev|]. eapply runs_step; [apply peek_ended|].
      assert (Hvp : str_suffix v p) by (eapply later_suffix, later_trans; [exact Hv|by eapply later_trans]).
      destruct (isc (first_char v) 0); cbn [negb].
      * apply runs_ret. cbn [fst snd]. split_and!; [lia|congruence|by exists v].
      * eapply (runs_bind _ _ _ (fun _ => released (1 + own c) s3)).
        { cbn [cJSON_Delete]. eapply runs_bind; [by apply delete_item_released|]. intros [] s4 H4. by apply runs_ret. }
        intros [] s4 [Ep4 L4]. eexists _, _. split; [done|]. cbn. split; [lia|]. left. by exists v.
    + apply runs_ret. cbn [fst snd]. split_and!; [lia|congruence|]. exists u. split; [done|]. by eapply later_suffix, later_trans.
  - eapply (runs_bind _ _ _ (fun _ => released (1 + own c) s3)).
    { cbn [cJSON_Delete]. eapply runs_bind; [by apply delete_item_released|]. intros [] s4 H4. by apply runs_ret. }
    intros [] s4 [Ep4 L4]. apply runs_ret. cbn [fst snd]. split; [lia|].
    destruct R3 as [(u & Hu & Ep3)|(n & Hn & Hf)]; [left|right; exists n; split; [lia|done]].
    exists u. split; [congruence|]. by eapply suffix_trans, later_suffix.
Qed.

Lemma string_length_plain_text t p n : all_chars plain t = true -> string_length p = Ok n ->
  string_length (t +:+ p) = Ok (String.length t + n)%nat.
Proof.
  intros Ht Hn. induction t as [|a t IH]; [done|]. cbn [all_chars] in Ht. apply andb_true_iff in Ht as [Ha Ht].
  rewrite append_cons. apply string_length_plain; [done|by apply IH].
Qed.

Lemma copy_plain_text t p fuel cap out : all_chars plain t = true ->
  string_copy (String.length t + fuel) cap out (t +:+ p) =
  if (String.length out + String.length t <=? cap)%nat then string_copy fuel cap (out +:+ t) p
  else if (String.length t =? 0)%nat then string_copy fuel cap out p else UB.
Proof.
  revert out. induction t as [|a t IH]; intros out Ht.
  { cbn. rewrite append_nil_r. by case_match. }
  cbn [all_chars] in Ht. apply andb_true_iff in Ht as [Ha Ht]. rewrite append_cons. cbn [String.length Nat.add Nat.eqb].
  destruct (decide (String.length out < cap)%nat) as [Hl|Hl].
  - rewrite copy_plain, IH by done. rewrite length_append, append_assoc. cbn [String.length].
    replace (String.length out + 1 + String.length t)%nat with (String.length out + S (String.length t))%nat by lia.
    destruct (String.length out + S (String.length t) <=? cap)%nat eqn:E; [done|]. apply Nat.leb_gt in E.
    destruct (String.length t =? 0)%nat eqn:E0; [|done]. apply Nat.eqb_eq in E0. lia.
  - destruct (plain_tests a Ha) as [H1 H2]. cbn [string_copy peek mbind outcome_bind]. rewrite H1, H2. cbn [negb].
    assert (write_block cap out (String a EmptyString) = UB) as ->.
    { unfold write_block. rewrite (proj2 (Nat.leb_gt _ _)); [done|]. cbn [String.length]. lia. }
    cbn [mbind outcome_bind]. destruct (String.length out + S (String.length t) <=? cap)%nat eqn:E; [|done].
    apply Nat.leb_le in E. lia.
Qed.

(** A short escape overflows the block.  When the quote that ends a string stands
    where the digits of a [\u] escape should be, the length of the string is counted
    up to that quote but copying goes on behind it: two plain characters after the three
    that are skipped are enough to write past the end of the block. *)
Lemma json_escape_overflow malloc_ok t a b c w r item s : malloc_ok (allocs s) = true ->
  all_chars plain t = true -> all_chars plain w = true -> (2 <= String.length w)%nat ->
  parse_string malloc_ok item (String quote (t +:+ String backslash (String "u" (String quote
    (String a (String b (String c (w +:+ String quote r)))))))) s = UB.
Proof.
  intros Hm Ht Hw Hl. set (p := String backslash _). unfold parse_string. cbn [peek adv].
  unfold st_bind at 1, st_lift at 1. change (negb (isc quote 34)) with false. cbn iota.
  unfold st_bind at 1, st_lift at 1. assert (string_length p = Ok 1%nat) as Hp by done.
  rewrite (string_length_plain_text t p 1 Ht Hp). unfold st_bind at 1, st_lift at 1.
  unfold st_bind at 1, cJSON_malloc. rewrite Hm. cbn [negb]. unfold st_bind, st_lift.
  enough (string_content (String.length t + 1 + 1) (t +:+ p) = UB) as -> by done.
  unfold string_content.
  set (k := (String.length w + S (String.length r + 6))%nat).
  replace (S (String.length (t +:+ p))) with (String.length t + S k)%nat.
  2: { rewrite length_append. subst p k. cbn [String.length]. rewrite length_append. cbn [String.length]. lia. }
  rewrite copy_plain_text by done. rewrite (proj2 (Nat.leb_le _ _)) by (cbn; lia). rewrite append_empty.
  subst p. rewrite (copy_escape k _ t _ EmptyString (String c (w +:+ String quote r)) c (w +:+ String quote r)) by (done || cbn; lia).
  subst k. rewrite copy_plain_text, append_nil_r by done.
  destruct (String.length t + String.length w <=? String.length t + 1 + 1)%nat eqn:E.
  - apply Nat.leb_le in E. cbn [string_copy peek mbind outcome_bind]. change (isc quote 34 || isc quote 0) with true.
    cbn [mbind outcome_bind]. unfold write_block. rewrite length_append.
    rewrite (proj2 (Nat.leb_gt _ _)) by (cbn; lia). done.
  - by rewrite (proj2 (Nat.eqb_neq _ _)) by lia.
Qed.

(** ** Concrete instances. *)

(** A value with every kind of part, and every allocation succeeding. *)
Definition demo_json : json := JObj [("a"%string, JArr [JNum (-12); JStr (String quote "b"); JNull]); ("c"%string, JBool true)].
Definition plenty : nat -> bool := fun _ => true.

Lemma demo_wf : wf_json demo_json.
Proof. repeat split; done. Qed.

(** Numbers with a fraction and with exponents. *)
Definition demo_reals : json :=
  JArr [JReal (@decimal_value demo_libm false "0" "25" 0); JReal (@decimal_value demo_libm true "12" "5" 2);
        JReal (@decimal_value demo_libm false "40" "" (-1)); JNum 7].

Lemma demo_reals_text : @text demo_libm demo_reals "[0.25, -12.5e2,40E-1 , 7]".
Proof.
  apply (@text_array demo_libm _ "0.25, -12.5e2,40E-1 , 7").
  apply (@elements_more demo_libm _ _ "0.25" " -12.5e2,40E-1 , 7" EmptyString EmptyString); [done|done| |].
  { apply text_decimal. exists false, "0"%string, "25"%string, ".25"%string, 0, EmptyString.
    split_and!; [done|done|by right|by left|done|done|done|by exists 0]. }
  apply (@elements_more demo_libm _ _ "-12.5e2" "40E-1 , 7" " " EmptyString); [done|done| |].
  { apply text_decimal. exists true, "12"%string, "5"%string, ".5"%string, 2, "e2"%string.
    split_and!; [done|done|by right| |done|done|done|by exists (-1250)].
    right. exists "e"%char, "2"%string. split_and!; [by left|done|done|done|]. left. split; [done|by left]. }
  apply (@elements_more demo_libm _ _ "40E-1" " 7" EmptyString " "); [done|done| |].
  { apply text_decimal. exists false, "40"%string, EmptyString, EmptyString, (-1), "E-1"%string.
    split_and!; [done|done|by left| |done|done|done|by exists 4].
    right. exists "E"%char, "1"%string. split_and!; [by right|done|done|done|by right]. }
  apply (@elements_last demo_libm _ "7" " " EmptyString); [done|done|]. apply text_number. split; [done|]. by left.
Qed.

Lemma json_text_parsed_witness :
  @cJSON_Parse demo_libm plenty (Some (" "%string +:+ "[0.25, -12.5e2,40E-1 , 7]"%string +:+ "x"%string)) json_fresh
  = Ok (Some (node None demo_reals), mkJson None 5 5).
Proof.
  exact (@json_text_parsed demo_libm plenty demo_reals _ " " "x" json_fresh (fun _ => eq_refl) demo_reals_text eq_refl I).
Defined.

Lemma json_roundtrip_witness :
  exists s1, print_value plenty (node None demo_json) 0 false json_fresh = Ok (Some (render 0 false demo_json), s1) /\
    @text demo_libm demo_json (render 0 false demo_json) /\
    exists s2, @cJSON_Parse demo_libm plenty (Some (render 0 false demo_json +:+ String NUL EmptyString)) s1
      = Ok (Some (node None demo_json), s2).
Proof.
  destruct (@json_roundtrip demo_libm plenty demo_json false json_fresh json_fresh (fun _ => eq_refl) demo_wf)
    as (s1 & E & Ht & _). exists s1. split; [exact E|]. split; [exact Ht|].
  destruct (@json_roundtrip demo_libm plenty demo_json false json_fresh s1 (fun _ => eq_refl) demo_wf)
    as (_ & _ & _ & Hp). exact Hp.
Defined.

(** The third allocation fails. *)
Definition short_memory (n : nat) : bool := negb (n =? 2)%nat.

Lemma json_print_memory_witness :
  exists o s', print_value short_memory (node None demo_json) 0 true json_fresh = Ok (o, s') /\ ep s' = None /\
    (o = Some (render 0 true demo_json) /\ live s' = 1 \/
     o = None /\ live s' = 0 /\ exists n, (0 <= n < allocs s')%nat /\ short_memory n = false).
Proof. exact (json_print_memory short_memory demo_json None 0 true json_fresh demo_wf). Defined.

(** A number with fraction and exponent, digits inside a string, and no end. *)
Definition demo_broken : string := "[-1.5e3, "%string +:+ quoted "99999999999.5e" +:+ ", {"%string.

Lemma json_parse_total_witness :
  exists c e s', @cJSON_ParseWithOpts demo_libm plenty (Some (ended EmptyString demo_broken)) true json_fresh = Ok ((c, e), s') /\
    match c with
    | Some c => live s' = 1 + own c /\ ep s' = None /\
        exists q, e = Some (ended EmptyString q) /\ str_suffix q demo_broken
    | None => live s' = 0 /\
        ((exists q, ep s' = Some (ended EmptyString q) /\ str_suffix q demo_broken) \/
         exists n, (0 <= n)%nat /\ plenty n = false)
    end.
Proof. exact (@json_parse_total demo_libm plenty EmptyString demo_broken true json_fresh eq_refl). Defined.

Lemma json_escape_overflow_witness :
  parse_string plenty empty_item (String quote ("a"%string +:+ String backslash (String "u" (String quote
    (String "]" (String " " (String " " ("xy"%string +:+ String quote EmptyString)))))))) json_fresh = UB.
Proof.
  exact (json_escape_overflow plenty "a" "]" " " " " "xy" EmptyString empty_item json_fresh eq_refl eq_refl eq_refl
    (le_n 2)).
Defined.
