(* ===== verification/JsonTree.v ===== *)
(** * JsonTree: the rest of the JSON library, [src/src/Architecture/MCS/cJSON.c].

    Looking up, adding, detaching and replacing items, creating and duplicating trees,
    and removing blanks from a text.  An operation that changes a node returns it; an
    item that is added becomes part of the node, which is then its only owner.  A
    reference is a node of its own that shows the children and the string of the item
    as they were when the reference was made. *)

From S2P Require Import Prelude.
From S2P Require Import Float32 Float64 Json JsonPrint.
From stdpp Require Import pretty.
From Stdlib Require Import SpecFloat Ascii.
#[local] Open Scope Z_scope.

(** ** Names. *)

Definition tolower (n : Z) : Z := if (65 <=? n) && (n <=? 90) then n + 32 else n.

(** [*s]: the end of a string is its NUL. *)
Definition head_code (s : string) : Z := match s with String a _ => code a | EmptyString => 0 end.
Definition tail (s : string) : string := match s with String _ s => s | EmptyString => EmptyString end.

Fixpoint casecmp_loop (s1 s2 : string) : Z :=
  if tolower (head_code s1) =? tolower (head_code s2) then
    match s1 with
    | String a s1 => if isc a 0 then 0 else casecmp_loop s1 (tail s2)
    | EmptyString => 0
    end
  else tolower (head_code s1) - tolower (head_code s2).

Definition cJSON_strcasecmp (s1 s2 : option string) : Z :=
  match s1, s2 with
  | None, None => 0
  | None, Some _ => 1
  | Some _, None => 1
  | Some s1, Some s2 => casecmp_loop s1 s2
  end.

(** ** Looking up. *)

Fixpoint size_loop (c : list cJSON) (i : Z) : Z :=
  match c with [] => i | _ :: c => size_loop c (i + 1) end.

Definition cJSON_GetArraySize (array : cJSON) : Z := size_loop (child array) 0.

(** The rest of the chain from the item on. *)
Fixpoint item_loop (c : list cJSON) (item : Z) : option cJSON :=
  match c with
  | [] => None
  | x :: c => if 0 <? item then item_loop c (item - 1) else Some x
  end.

Definition cJSON_GetArrayItem (array : cJSON) (item : Z) : option cJSON := item_loop (child array) item.

(** The number of the first member with the name, and the member. *)
Fixpoint member_loop (c : list cJSON) (string : option string) (i : Z) : option (Z * cJSON) :=
  match c with
  | [] => None
  | x :: c => if negb (cJSON_strcasecmp (json_string x) string =? 0) then member_loop c string (i + 1) else Some (i, x)
  end.

Definition cJSON_GetObjectItem (object : cJSON) (string : option string) : option cJSON :=
  snd <$> member_loop (child object) string 0.

(** ** Changing. *)

Section Tree.
Context (malloc_ok : nat -> bool).

Abbreviation New_Item := (cJSON_New_Item malloc_ok).
Abbreviation strdup := (cJSON_strdup malloc_ok).

Definition create_reference (item : option cJSON) : ST Json (option cJSON) :=
  let! ref := New_Item in
  match ref with
  | None => st_ret None
  | Some _ =>
      match item with
      | None => st_ub
      | Some item =>
          st_ret (Some (set_type (Z.lor (json_type item) cJSON_IsReference) (set_string None item)))
      end
  end.

Definition cJSON_AddItemToArray (array : cJSON) (item : option cJSON) : cJSON :=
  match item with None => array | Some item => set_child (child array ++ [item]) array end.

Definition free_string (item : cJSON) : ST Json unit :=
  match json_string item with Some _ => cJSON_free | None => st_ret tt end.

Definition cJSON_AddItemToObject (object : cJSON) (string : string) (item : option cJSON) : ST Json cJSON :=
  match item with
  | None => st_ret object
  | Some item =>
      do! free_string item in
      let! copy := strdup string in
      st_ret (cJSON_AddItemToArray object (Some (set_string copy item)))
  end.

Definition cJSON_AddItemReferenceToArray (array : cJSON) (item : option cJSON) : ST Json cJSON :=
  let! ref := create_reference item in st_ret (cJSON_AddItemToArray array ref).

Definition cJSON_AddItemReferenceToObject (object : cJSON) (string : string) (item : option cJSON) : ST Json cJSON :=
  let! ref := create_reference item in cJSON_AddItemToObject object string ref.

(** The chain without the item, and the item. *)
Fixpoint detach_loop (c : list cJSON) (which : Z) : list cJSON * option cJSON :=
  match c with
  | [] => ([], None)
  | x :: c =>
      if 0 <? which then let '(c, item) := detach_loop c (which - 1) in (x :: c, item)
      else (c, Some x)
  end.

Definition cJSON_DetachItemFromArray (array : cJSON) (which : Z) : cJSON * option cJSON :=
  let '(c, item) := detach_loop (child array) which in (set_child c array, item).

Definition delete_option (item : option cJSON) : ST Json unit :=
  cJSON_Delete (match item with Some c => [c] | None => [] end).

Definition cJSON_DeleteItemFromArray (array : cJSON) (which : Z) : ST Json cJSON :=
  let '(array, item) := cJSON_DetachItemFromArray array which in
  do! delete_option item in st_ret array.

Definition cJSON_DetachItemFromObject (object : cJSON) (string : option string) : cJSON * option cJSON :=
  match member_loop (child object) string 0 with
  | Some (i, _) => cJSON_DetachItemFromArray object i
  | None => (object, None)
  end.

Definition cJSON_DeleteItemFromObject (object : cJSON) (string : option string) : ST Json cJSON :=
  let '(object, item) := cJSON_DetachItemFromObject object string in
  do! delete_option item in st_ret object.

(** The chain with the new item in the place of the old one, and the old one. *)
Fixpoint replace_loop (c : list cJSON) (which : Z) (newitem : cJSON) : list cJSON * option cJSON :=
  match c with
  | [] => ([], None)
  | x :: c =>
      if 0 <? which then let '(c, item) := replace_loop c (which - 1) newitem in (x :: c, item)
      else (newitem :: c, Some x)
  end.

Definition cJSON_ReplaceItemInArray (array : cJSON) (which : Z) (newitem : cJSON) : ST Json cJSON :=
  let '(c, item) := replace_loop (child array) which newitem in
  do! delete_option item in st_ret (set_child c array).

Definition cJSON_ReplaceItemInObject (object : cJSON) (string : string) (newitem : cJSON) : ST Json cJSON :=
  match member_loop (child object) (Some string) 0 with
  | Some (i, _) =>
      let! copy := strdup string in
      cJSON_ReplaceItemInArray object i (set_string copy newitem)
  | None => st_ret object
  end.

(** ** Creating. *)

Definition create (f : cJSON -> cJSON) : ST Json (option cJSON) :=
  let! item := New_Item in st_ret (f <$> item).

Definition cJSON_CreateNull : ST Json (option cJSON) := create (set_type cJSON_NULL).
Definition cJSON_CreateTrue : ST Json (option cJSON) := create (set_type cJSON_True).
Definition cJSON_CreateFalse : ST Json (option cJSON) := create (set_type cJSON_False).
Definition cJSON_CreateBool (b : Z) : ST Json (option cJSON) :=
  create (set_type (if negb (b =? 0) then cJSON_True else cJSON_False)).
Definition cJSON_CreateArray : ST Json (option cJSON) := create (set_type cJSON_Array).
Definition cJSON_CreateObject : ST Json (option cJSON) := create (set_type cJSON_Object).

Definition cJSON_CreateNumber (num : double) : ST Json (option cJSON) :=
  let! item := New_Item in
  match item with
  | None => st_ret None
  | Some item =>
      let! n := st_lift (int_of_double num) in
      st_ret (Some (set_valueint n (set_valuedouble num (set_type cJSON_Number item))))
  end.

Definition cJSON_CreateString (string : string) : ST Json (option cJSON) :=
  let! item := New_Item in
  match item with
  | None => st_ret None
  | Some item => let! copy := strdup string in st_ret (Some (set_valuestring copy (set_type cJSON_String item)))
  end.

(** The loop of the four functions below, from the second element on: [p] is not NULL
    when the previous element was created.  [None] is a value that cannot be read. *)
Fixpoint array_rest {A} (create : A -> ST Json (option cJSON)) (fuel : nat) (count i : Z)
    (numbers : list A) (chain : list cJSON) (p : bool) : ST Json (list cJSON) :=
  match fuel with
  | O => st_ub
  | S fuel =>
      if negb (i <? count) then st_ret chain
      else match numbers with
      | [] => st_ub
      | x :: numbers =>
          let! n := create x in
          if i =? 0 then
            array_rest create fuel count (i + 1) numbers (match n with Some n => [n] | None => [] end)
              (match n with Some _ => true | None => false end)
          else match p, n with
          | true, Some n => array_rest create fuel count (i + 1) numbers (chain ++ [n]) true
          | _, _ => st_ub
          end
      end
  end.

Definition create_array {A} (create : A -> ST Json (option cJSON)) (numbers : list A) (count : Z) :
    ST Json (option cJSON) :=
  let! a := cJSON_CreateArray in
  match a with
  | None => st_ret None
  | Some a =>
      let! l := array_rest create (S (length numbers)) count 0 numbers [] false in
      st_ret (Some (set_child l a))
  end.

(** [(double)x] of a [float]. *)
Definition d_of_float (x : float) : double :=
  match x with
  | S754_finite s m e => binary_normalize 53 1024 (if s then Z.neg m else Z.pos m) e s
  | _ => x
  end.

Definition cJSON_CreateIntArray : list Z -> Z -> ST Json (option cJSON) :=
  create_array (fun n => cJSON_CreateNumber (d_of_int n)).
Definition cJSON_CreateFloatArray : list float -> Z -> ST Json (option cJSON) :=
  create_array (fun x => cJSON_CreateNumber (d_of_float x)).
Definition cJSON_CreateDoubleArray : list double -> Z -> ST Json (option cJSON) :=
  create_array cJSON_CreateNumber.
Definition cJSON_CreateStringArray : list string -> Z -> ST Json (option cJSON) :=
  create_array cJSON_CreateString.

(** ** Duplicating. *)

(** A string is copied if there is one; [None]: the copy failed. *)
Definition copy_string (s : option string) : ST Json (option (option string)) :=
  match s with
  | None => st_ret (Some None)
  | Some s => let! copy := strdup s in st_ret (Some <$> copy)
  end.

(** The loop over the children; [duplicate] is the recursive call. *)
Fixpoint duplicate_chain (duplicate : cJSON -> ST Json (option cJSON)) (cptr : list cJSON) (newitem : cJSON) :
    ST Json (option cJSON) :=
  match cptr with
  | [] => st_ret (Some newitem)
  | c :: cptr =>
      let! newchild := duplicate c in
      match newchild with
      | None => do! cJSON_Delete [newitem] in st_ret None
      | Some newchild => duplicate_chain duplicate cptr (set_child (child newitem ++ [newchild]) newitem)
      end
  end.

Fixpoint duplicate_item (item : cJSON) (recurse : bool) : ST Json (option cJSON) :=
  let! newitem := New_Item in
  match newitem with
  | None => st_ret None
  | Some newitem =>
      let newitem := set_valuedouble (valuedouble item) (set_valueint (valueint item)
        (set_type (Z.land (json_type item) (Z.lnot cJSON_IsReference)) newitem)) in
      let! copy := copy_string (valuestring item) in
      match copy with
      | None => do! cJSON_Delete [newitem] in st_ret None
      | Some copy =>
          let newitem := set_valuestring copy newitem in
          let! copy := copy_string (json_string item) in
          match copy with
          | None => do! cJSON_Delete [newitem] in st_ret None
          | Some copy =>
              let newitem := set_string copy newitem in
              if negb recurse then st_ret (Some newitem)
              else duplicate_chain (fun c => duplicate_item c true) (child item) newitem
          end
      end
  end.

Definition cJSON_Duplicate (item : option cJSON) (recurse : bool) : ST Json (option cJSON) :=
  match item with None => st_ret None | Some item => duplicate_item item recurse end.

End Tree.

(** ** Removing blanks, [cJSON_Minify].

    The text is rewritten in place; [into] never overtakes [json], so that what is
    read has not been written.  The result is what is in front of [into] at the end. *)

(** To the end of the line. *)
Fixpoint line_comment (json : string) : outcome string :=
  match json with
  | EmptyString => UB
  | String a json' => if isc a 0 || isc a 10 then Ok json else line_comment json'
  end.

(** Behind the end of the comment, or two characters behind the NUL. *)
Fixpoint block_comment (json : string) : outcome string :=
  match json with
  | EmptyString => UB
  | String a json' =>
      ends ← (if isc a 0 then Ok true
              else if isc a 42 then b ← peek json'; Ok (isc b 47) else Ok false);
      if ends : bool then adv 2 json else block_comment json'
  end.

(** A string literal after its first quote: the characters that are copied, with the one
    that ends it, and what is left. *)
Fixpoint copy_literal (json into : string) : outcome (string * string) :=
  match json with
  | EmptyString => UB
  | String a json' =>
      if isc a 0 || isc a 34 then Ok (json', into +:+ String a EmptyString)
      else if isc a 92 then
        match json' with
        | EmptyString => UB
        | String b json'' => copy_literal json'' (into +:+ String a (String b EmptyString))
        end
      else copy_literal json' (into +:+ String a EmptyString)
  end.

Definition is_blank (a : ascii) : bool := isc a 32 || isc a 9 || isc a 13 || isc a 10.

Fixpoint minify_loop (fuel : nat) (json into : string) : outcome string :=
  match fuel with
  | O => UB
  | S fuel =>
      a ← peek json;
      if isc a 0 then Ok into
      else
        json1 ← adv 1 json;
        if is_blank a then minify_loop fuel json1 into
        else
          next ← (if isc a 47 then b ← peek json1; Ok (code b) else Ok 0);
          if isc a 47 && (next =? 47) then json ← line_comment json; minify_loop fuel json into
          else if isc a 47 && (next =? 42) then json ← block_comment json; minify_loop fuel json into
          else if isc a 34 then
            r ← copy_literal json1 (into +:+ String a EmptyString); minify_loop fuel r.1 r.2
          else minify_loop fuel json1 (into +:+ String a EmptyString)
  end.

Definition cJSON_Minify (json : string) : outcome string := minify_loop (S (String.length json)) json EmptyString.
