(* ===== verification/JsonTreeProps.v ===== *)
(** * JsonTreeProps: duplicating and changing trees, and removing blanks. *)

From S2P Require Import Prelude Hoare.
From S2P Require Import Float32 Float64 Json JsonPrint JsonSpec JsonFacts JsonParse JsonRender JsonWrite JsonSafe JsonProps JsonTree.
From stdpp Require Import pretty.
From Stdlib Require Import SpecFloat Ascii.
#[local] Open Scope Z_scope.

(** ** Duplicating. *)

(** The copy of a tree: nothing in it is a reference. *)
Fixpoint unshared (c : cJSON) : cJSON :=
  mkJSON (unshared <$> child c) (Z.land (json_type c) (Z.lnot cJSON_IsReference)) (c_string <$> valuestring c)
    (valueint c) (valuedouble c) (c_string <$> json_string c).

Lemma unshared_eq c : unshared c = mkJSON (unshared <$> child c) (Z.land (json_type c) (Z.lnot cJSON_IsReference))
  (c_string <$> valuestring c) (valueint c) (valuedouble c) (c_string <$> json_string c).
Proof. by destruct c. Qed.

Lemma no_reference t : Z.land (Z.land t (Z.lnot cJSON_IsReference)) cJSON_IsReference = 0.
Proof. by rewrite <- Z.land_assoc, Z.land_comm. Qed.

Lemma unshared_clean c : clean (unshared c).
Proof.
  induction c as [c IH] using tree_ind. rewrite unshared_eq. apply clean_eq. split; [apply no_reference|].
  cbn [child]. induction IH as [|x l Hx _ IH]; [done|]. by split.
Qed.

Section Duplicate.
Context (malloc_ok : nat -> bool).

(** From [s] on an allocation failed. *)
Definition failed (s : Json) : Prop := exists n, (allocs s <= n)%nat /\ malloc_ok n = false.

(** The tree [c] in blocks of its own, or nothing. *)
Definition copied (c : cJSON) (s : Json) (o : option cJSON) (s' : Json) : Prop :=
  ep s' = ep s /\
  (o = Some c /\ live s' = live s + 1 + own c /\ (allocs s <= allocs s')%nat \/
   o = None /\ live s' = live s /\ failed s).

(** While [newitem] is being built. *)
Definition building (newitem : cJSON) (s0 s : Json) : Prop :=
  ep s = ep s0 /\ (allocs s0 <= allocs s)%nat /\ live s = live s0 + 1 + own newitem /\ clean newitem.

Lemma abandoned c newitem s0 s : ep s = ep s0 -> live s = live s0 + 1 + own newitem -> clean newitem -> failed s0 ->
  runs (do! cJSON_Delete [newitem] in st_ret None) s (copied c s0).
Proof.
  intros E L Hc Hf. eapply runs_bind; [by apply delete_chain; [by constructor; [intros; by apply delete_item_released|]|split]|].
  intros [] s1 [E1 L1]. apply runs_ret. split; [congruence|]. right. split_and!; [done| |done].
  rewrite L1. cbn [chain foldr]. lia.
Qed.

Lemma failed_later s0 s s' : (allocs s0 <= allocs s)%nat -> out_of_memory malloc_ok s s' -> failed s0.
Proof. intros Ha (n & Hn & Hf). exists n. split; [lia|done]. Qed.

Lemma failed_mono s0 s : (allocs s0 <= allocs s)%nat -> failed s -> failed s0.
Proof. intros Ha (n & Hn & Hf). exists n. split; [lia|done]. Qed.

Lemma strdup_copied t s : runs (cJSON_strdup malloc_ok t) s (fun o s' =>
  if o is Some u then u = c_string t /\ delta 1 s s' else delta 0 s s' /\ out_of_memory malloc_ok s s').
Proof. unfold cJSON_strdup. eapply runs_bind; [apply runs_malloc|]. intros [|] s1 H1; by apply runs_ret. Qed.

Lemma copy_string_copied t s : runs (copy_string malloc_ok t) s (fun o s' =>
  if o is Some u then u = c_string <$> t /\ delta (text_blocks t) s s' else delta 0 s s' /\ out_of_memory malloc_ok s s').
Proof.
  destruct t as [t|]; cbn [copy_string text_blocks]; [|apply runs_ret; split; [done|apply delta_refl]].
  eapply runs_bind; [apply strdup_copied|]. intros [u|] s1 H1; apply runs_ret; cbn [fmap option_fmap option_map].
  - destruct H1 as [-> H1]. by split.
  - done.
Qed.

Lemma duplicate_chain_copied l : Forall (fun c => forall s, runs (duplicate_item malloc_ok c true) s (copied (unshared c) s)) l ->
  forall newitem s0 s, building newitem s0 s ->
  runs (duplicate_chain (fun c => duplicate_item malloc_ok c true) l newitem) s
    (copied (set_child (child newitem ++ (unshared <$> l)) newitem) s0).
Proof.
  intros Hl. induction Hl as [|c l Hc _ IH]; intros newitem s0 s Hb.
  - apply runs_ret. destruct Hb as (E & A & L & Hn). split; [done|]. left. rewrite app_nil_r. destruct newitem. split_and!; done.
  - cbn [duplicate_chain]. eapply runs_bind; [apply Hc|]. intros o s1 [E1 [(-> & L1 & A1)|(-> & L1 & Hf)]].
    + rewrite fmap_cons. destruct Hb as (E & A & L & Hn).
      eapply runs_weaken; [apply (IH _ s0)|].
      * split_and!; [congruence|lia| |].
        -- rewrite (own_eq newitem) in L. rewrite own_eq. cbn [set_child child valuestring json_string]. rewrite chain_app. cbn [chain foldr]. lia.
        -- apply clean_eq. cbn [set_child child json_type]. apply clean_eq in Hn as [Hr Hcl]. split; [done|].
           apply clean_chain_app. split; [done|]. split; [apply unshared_clean|done].
      * intros o s2 H2. cbn [set_child child] in H2. rewrite <- app_assoc in H2. exact H2.
    + destruct Hb as (E & A & L & Hn). apply abandoned; [congruence|lia|done|by eapply failed_mono].
Qed.

Lemma duplicate_item_copied c recurse s :
  runs (duplicate_item malloc_ok c recurse) s
    (copied (if recurse then unshared c else set_child [] (unshared c)) s).
Proof.
  revert recurse s. induction c as [c IH] using tree_ind. intros recurse s. rewrite unshared_eq.
  destruct c as [l t vs vi vd js]. cbn [duplicate_item child json_type valuestring valueint valuedouble json_string] in *.
  eapply runs_bind; [apply runs_new_item|]. intros [c|] s1 H1.
  2: { destruct H1 as [(E1 & A1 & L1) Ho]. apply runs_ret. split; [done|]. right. split_and!; [done|lia|].
       by apply (failed_later s s s1). }
  destruct H1 as [-> (E1 & A1 & L1)]. cbv zeta. eapply runs_bind; [apply copy_string_copied|]. intros [u|] s2 H2.
  2: { destruct H2 as [(E2 & A2 & L2) Ho]. apply abandoned; [congruence|cbn; lia| |by eapply (failed_later _ s1); [lia|]].
       apply clean_eq. split; [apply no_reference|done]. }
  destruct H2 as [-> (E2 & A2 & L2)]. eapply runs_bind; [apply copy_string_copied|]. intros [u|] s3 H3.
  2: { destruct H3 as [(E3 & A3 & L3) Ho]. apply abandoned; [congruence| | |by eapply (failed_later _ s2); [lia|]].
       - rewrite own_eq. cbn. destruct vs; cbn [text_blocks] in L2; cbn; lia.
       - apply clean_eq. split; [apply no_reference|done]. }
  destruct H3 as [-> (E3 & A3 & L3)]. set (newitem := set_string _ _).
  assert (Hb : building newitem s s3).
  { split_and!; [congruence|lia| |apply clean_eq; split; [apply no_reference|done]].
    rewrite own_eq. cbn. destruct vs, js; cbn [text_blocks] in *; cbn; lia. }
  destruct recurse; cbn [negb].
  - eapply runs_weaken; [eapply duplicate_chain_copied; [|exact Hb]|done].
    eapply Forall_impl; [exact IH|]. intros x Hx s'. apply (Hx true).
  - apply runs_ret. destruct Hb as (E4 & A4 & L4 & _). split; [done|]. left. by split_and!.
Qed.

End Duplicate.

(** C39: duplicating.  The copy of a tree is the tree itself with every node in
    memory of its own: references in it become items of their own.  Whatever allocations
    fail, there is a copy, whose blocks are all that was allocated, or none and no block is
    left behind; without [recurse] the children are not copied. *)
Theorem json_duplicate malloc_ok c (recurse : bool) s :
  exists o s', cJSON_Duplicate malloc_ok (Some c) recurse s = Ok (o, s') /\ ep s' = ep s /\
    (o = Some (if recurse then unshared c else set_child [] (unshared c)) /\
       live s' = live s + 1 + own (if recurse then unshared c else set_child [] (unshared c)) \/
     o = None /\ live s' = live s /\ exists n, (allocs s <= n)%nat /\ malloc_ok n = false).
Proof.
  destruct (duplicate_item_copied malloc_ok c recurse s) as (o & s' & E & Ep & H). exists o, s'.
  split; [exact E|]. split; [done|]. destruct H as [(-> & L & _)|H]; [by left|by right].
Qed.

(** ** Removing blanks. *)

(** The text without the spaces, tabs and ends of lines outside its string literals. *)
Definition space (a : ascii) : bool := isc a 32 || isc a 9 || isc a 10 || isc a 13.

Fixpoint squeeze (inside : bool) (t : string) : string :=
  match t with
  | EmptyString => EmptyString
  | String a t =>
      if inside then
        String a (if isc a 34 then squeeze false t
                  else if isc a 92 then
                    match t with EmptyString => EmptyString | String b t => String b (squeeze true t) end
                  else squeeze true t)
      else if space a then squeeze false t
      else String a (squeeze (isc a 34) t)
  end.

Lemma is_blank_space a : is_blank a = space a.
Proof. unfold is_blank, space, isc. lia. Qed.

(** Reading [t] has the effect of copying [u], which is [t] squeezed. *)
Definition reduces (t u : string) : Prop :=
  (forall fuel r into, (String.length t + String.length r < fuel)%nat ->
     exists fuel', (String.length r < fuel')%nat /\ minify_loop fuel (t +:+ r) into = minify_loop fuel' r (into +:+ u)) /\
  forall r, squeeze false (t +:+ r) = u +:+ squeeze false r.

Lemma reduces_app t u t' u' : reduces t u -> reduces t' u' -> reduces (t +:+ t') (u +:+ u').
Proof.
  intros [H S] [H' S']. split; [intros fuel r into Hf|intros r; by rewrite !append_assoc, S, S'].
  rewrite length_append in Hf. rewrite append_assoc.
  destruct (H fuel (t' +:+ r) into) as (f & Hl & ->); [rewrite length_append; lia|]. rewrite length_append in Hl.
  destruct (H' f r (into +:+ u)) as (f' & Hl' & ->); [lia|]. exists f'. by rewrite append_assoc.
Qed.

Lemma reduces_nil : reduces EmptyString EmptyString.
Proof. split; [|done]. intros fuel r into Hf. exists fuel. rewrite append_nil_r. split; [cbn in Hf; lia|done]. Qed.

Lemma reduces_cons a t u' u : reduces (String a EmptyString) u' -> reduces t u -> reduces (String a t) (u' +:+ u).
Proof. intros Ha Ht. change (String a t) with (String a EmptyString +:+ t). by apply reduces_app. Qed.

Lemma reduces_squeeze t u : reduces t u -> u = squeeze false t.
Proof. intros [_ S]. specialize (S EmptyString). by rewrite !append_nil_r in S. Qed.

(** A character that is neither a blank nor the start of a comment or of a string. *)
Definition ordinary (a : ascii) : bool := (32 <? code a) && negb (isc a 34) && negb (isc a 47).

(** Read the next character. *)
Ltac minify_read := rewrite append_cons, append_empty; cbn [minify_loop peek adv mbind outcome_bind].

Lemma reduces_blank a : is_blank a = true -> reduces (String a EmptyString) EmptyString.
Proof.
  intros Ha. split; [|intros r; rewrite append_cons, append_empty; cbn [squeeze]; by rewrite <- is_blank_space, Ha].
  intros fuel r into Hf. destruct fuel as [|fuel]; [lia|]. exists fuel. cbn [String.length] in Hf. split; [lia|].
  rewrite append_nil_r. minify_read. rewrite Ha.
  destruct (isc a 0) eqn:E; [|done]. apply is_char in E as ->. done.
Qed.

Lemma reduces_ordinary a : ordinary a = true -> reduces (String a EmptyString) (String a EmptyString).
Proof.
  intros Ha. unfold ordinary in Ha. apply andb_true_iff in Ha as [[H1 H2%negb_true_iff]%andb_true_iff H3%negb_true_iff].
  apply Z.ltb_lt in H1. assert (is_blank a = false) as Hb by (unfold is_blank, isc; lia).
  split; [|intros r; rewrite append_cons, append_empty; cbn [squeeze]; by rewrite <- is_blank_space, Hb, H2].
  intros fuel r into Hf. destruct fuel as [|fuel]; [lia|]. exists fuel. cbn [String.length] in Hf. split; [lia|].
  minify_read. assert (isc a 0 = false) as -> by (unfold isc; lia). rewrite Hb, H3, H2. done.
Qed.

(** What is left of blanks. *)
Fixpoint strip (w : string) : string :=
  match w with EmptyString => EmptyString | String a w => if is_blank a then strip w else String a (strip w) end.

Lemma strip_blank w : blank w -> blank (strip w).
Proof.
  unfold blank. induction w as [|a w IH]; [done|]. cbn [all_chars strip]. intros [Ha Hw]%andb_true_iff.
  destruct (is_blank a); [auto|]. cbn [all_chars]. by rewrite Ha, IH.
Qed.

Lemma reduces_control a : char_in 1 32 a = true -> is_blank a = false -> reduces (String a EmptyString) (String a EmptyString).
Proof.
  intros Ha Hb. unfold char_in in Ha. assert (isc a 34 = false) as H34 by (unfold isc; lia).
  split; [|intros r; rewrite append_cons, append_empty; cbn [squeeze]; by rewrite <- is_blank_space, Hb, H34].
  intros fuel r into Hf. destruct fuel as [|fuel]; [lia|]. exists fuel. cbn [String.length] in Hf. split; [lia|].
  minify_read. assert (isc a 0 = false) as -> by (unfold isc; lia). rewrite Hb.
  assert (isc a 47 = false) as -> by (unfold isc; lia). by rewrite H34.
Qed.

Lemma reduces_blanks w : blank w -> reduces w (strip w).
Proof.
  unfold blank. induction w as [|a w IH]; [intros _; apply reduces_nil|]. cbn [all_chars strip].
  intros [Ha Hw]%andb_true_iff. destruct (is_blank a) eqn:E.
  - rewrite <- (append_empty (strip w)). apply reduces_cons; [by apply reduces_blank|auto].
  - apply (reduces_cons a w (String a EmptyString) (strip w)); [by apply reduces_control|auto].
Qed.

Lemma reduces_ordinaries t : all_chars ordinary t = true -> reduces t t.
Proof.
  induction t as [|a t IH]; [intros _; apply reduces_nil|]. cbn [all_chars]. intros [Ha Ht]%andb_true_iff.
  apply (reduces_cons a t (String a EmptyString) t); [by apply reduces_ordinary|auto].
Qed.

(** Literals are copied. *)
Lemma copy_plain_char a p into : plain a = true ->
  copy_literal (String a p) into = copy_literal p (into +:+ String a EmptyString).
Proof. intros Ha. destruct (plain_tests a Ha) as [H1 H2]. cbn [copy_literal]. rewrite orb_comm in H1. by rewrite H1, H2. Qed.

Lemma copy_escape_pair b p into :
  copy_literal (String backslash (String b p)) into = copy_literal p (into +:+ String backslash (String b EmptyString)).
Proof. done. Qed.

Lemma copy_hex h uc p into : hex4 h uc -> copy_literal (h +:+ p) into = copy_literal p (into +:+ h).
Proof.
  intros (a & b & c & d & x & y & z & w & -> & Ha & Hb & Hc & Hd & _). rewrite !append_cons, append_empty.
  rewrite !copy_plain_char by (by eapply hex_plain). by rewrite !append_assoc.
Qed.

Lemma copy_lit s t r into : lit s t ->
  copy_literal (t +:+ String quote r) into = Ok (r, into +:+ t +:+ String quote EmptyString).
Proof.
  intros Hl. revert into. induction Hl as [|a s t Ha _ IH|e a s t He _ IH|h uc s t Hh _ _ _ IH|h hi h' lo s t Hh Hh' _ _ _ IH];
    intros into.
  - done.
  - rewrite append_cons, copy_plain_char, IH by done. by rewrite append_assoc.
  - rewrite !append_cons, copy_escape_pair, IH. by rewrite append_assoc.
  - rewrite !append_cons, copy_escape_pair, append_assoc, (copy_hex h uc) by done. rewrite IH. by repeat rewrite ?append_assoc, ?append_cons.
  - rewrite !append_cons, copy_escape_pair, append_assoc, (copy_hex h hi), append_cons, append_cons by done.
    rewrite copy_escape_pair, append_assoc, (copy_hex h' lo) by done. rewrite IH. by repeat rewrite ?append_assoc, ?append_cons.
Qed.

(** So are they by [squeeze]. *)
Lemma squeeze_plain a t : plain a = true -> squeeze true (String a t) = String a (squeeze true t).
Proof. unfold plain. intros [[_ H1%negb_true_iff]%andb_true_iff H2%negb_true_iff]%andb_true_iff. cbn [squeeze]. by rewrite H1, H2. Qed.

Lemma squeeze_hex h uc t : hex4 h uc -> squeeze true (h +:+ t) = h +:+ squeeze true t.
Proof.
  intros (a & b & c & d & x & y & z & w & -> & Ha & Hb & Hc & Hd & _). rewrite !append_cons, !append_empty.
  by rewrite !squeeze_plain by (by eapply hex_plain).
Qed.

Lemma squeeze_escape b t : squeeze true (String backslash (String b t)) = String backslash (String b (squeeze true t)).
Proof. done. Qed.

Lemma squeeze_lit s t r : lit s t -> squeeze true (t +:+ String quote r) = t +:+ String quote (squeeze false r).
Proof.
  intros Hl. induction Hl as [|a s t Ha _ IH|e a s t He _ IH|h uc s t Hh _ _ _ IH|h hi h' lo s t Hh Hh' _ _ _ IH].
  - done.
  - by rewrite !append_cons, squeeze_plain, IH.
  - by rewrite !append_cons, squeeze_escape, IH.
  - by rewrite !append_cons, squeeze_escape, !append_assoc, (squeeze_hex h uc), IH.
  - rewrite !append_cons, squeeze_escape, !append_assoc, (squeeze_hex h hi), !append_cons, squeeze_escape by done.
    by rewrite !append_assoc, (squeeze_hex h' lo), IH.
Qed.

Lemma reduces_quoted s t : lit s t -> reduces (quoted t) (quoted t).
Proof.
  intros Hl. split.
  2: { intros r. unfold quoted. rewrite !append_cons, !append_assoc. cbn [squeeze]. change (space quote) with false.
       change (isc quote 34) with true. cbn iota. by rewrite append_cons, append_empty, (squeeze_lit s t r Hl). }
  intros fuel r into Hf. destruct fuel as [|fuel]; [lia|]. exists fuel. split; [cbn in Hf; lia|].
  unfold quoted. rewrite append_cons, append_assoc. cbn [minify_loop peek adv mbind outcome_bind].
  change (isc quote 0) with false. change (is_blank quote) with false. change (isc quote 47) with false.
  change (isc quote 34) with true. cbn iota. cbn [andb mbind outcome_bind].
  rewrite append_cons, append_empty, (copy_lit s t r _ Hl). cbn [fst snd]. by rewrite !append_assoc.
Qed.

(** A text of the same kind, not longer, takes its place. *)
Definition shrinks (P : string -> Prop) (t : string) : Prop :=
  exists u, reduces t u /\ (String.length u <= String.length t)%nat /\ P u.

Lemma shrinks_same (P : string -> Prop) t : reduces t t -> P t -> shrinks P t.
Proof. intros Hr Hp. by exists t. Qed.

Lemma shrinks_blank w : blank w -> shrinks blank w.
Proof.
  intros Hw. exists (strip w). split_and!; [by apply reduces_blanks| |by apply strip_blank]. clear Hw.
  induction w as [|a w IH]; [done|]. cbn [strip String.length]. destruct (is_blank a); cbn [String.length]; lia.
Qed.

Lemma shrinks_app (P Q R : string -> Prop) t t' : shrinks P t -> shrinks Q t' ->
  (forall u u', P u -> Q u' -> R (u +:+ u')) -> shrinks R (t +:+ t').
Proof.
  intros (u & Hr & Hl & Hp) (u' & Hr' & Hl' & Hq) HR. exists (u +:+ u').
  split_and!; [by apply reduces_app|rewrite !length_append; lia|by apply HR].
Qed.

Lemma shrinks_cons (P Q : string -> Prop) a t : ordinary a = true -> shrinks P t ->
  (forall u, P u -> Q (String a u)) -> shrinks Q (String a t).
Proof.
  intros Ha (u & Hr & Hl & Hp) HQ. exists (String a u). split_and!; [|cbn [String.length]; lia|by apply HQ].
  change (String a u) with (String a EmptyString +:+ u). apply reduces_cons; [by apply reduces_ordinary|done].
Qed.

(** A bracket at the end. *)
Lemma shrinks_close (P Q : string -> Prop) a t : ordinary a = true -> shrinks P t ->
  (forall u, P u -> Q (u +:+ String a EmptyString)) -> shrinks Q (t +:+ String a EmptyString).
Proof.
  intros Ha Ht HQ. eapply (shrinks_app _ (eq (String a EmptyString))); [exact Ht| |intros u u' Hu <-; auto].
  apply shrinks_same; [by apply reduces_ordinary|done].
Qed.

Lemma digits_ordinary t : all_chars isdigit t = true -> all_chars ordinary t = true.
Proof.
  induction t as [|a t IH]; [done|]. cbn [all_chars]. intros [Ha Ht]%andb_true_iff. rewrite IH, andb_true_r by done.
  unfold isdigit, char_in in Ha. unfold ordinary, isc. lia.
Qed.

Section Minify.
Context `{M : Libm}.

Lemma decimal_ordinary v t : decimal v t -> all_chars ordinary t = true.
Proof.
  intros (neg & i & f & tf & e & te & -> & [Hi _] & Hf & He & _). rewrite !all_chars_append.
  apply andb_true_iff. split; [by destruct neg|]. apply andb_true_iff. split; [by apply digits_ordinary|].
  apply andb_true_iff. split.
  - destruct Hf as [[_ ->]|(Hf & _ & ->)]; [done|]. cbn [all_chars]. by apply digits_ordinary.
  - destruct He as [[_ ->]|(c & d & Hc & Hd & _ & _ & Hte)]; [done|]. apply digits_ordinary in Hd.
    destruct Hte as [[_ [-> | ->]]|[_ ->]]; destruct Hc as [-> | ->]; cbn [all_chars]; by rewrite Hd.
Qed.

Lemma text_shrinks j t : text j t -> shrinks (text j) t.
Proof.
  revert j t. apply (text_mut (fun j t => shrinks (text j) t) (fun l t => shrinks (JsonSpec.elements l) t)
    (fun l t => shrinks (members l) t) (fun m t => shrinks (member m) t)).
  - by apply shrinks_same; [apply reduces_ordinaries|constructor].
  - by apply shrinks_same; [apply reduces_ordinaries|constructor].
  - by apply shrinks_same; [apply reduces_ordinaries|constructor].
  - intros z t Hz. apply shrinks_same; [by eapply reduces_ordinaries, decimal_ordinary, number_decimal|by constructor].
  - intros v t Hv. apply shrinks_same; [by eapply reduces_ordinaries, decimal_ordinary|by constructor].
  - intros s t Hs. apply shrinks_same; [by eapply reduces_quoted|by constructor].
  - intros w Hw. eapply (shrinks_cons _ _ "["); [done| |intros u; exact id].
    eapply shrinks_close; [done|by apply shrinks_blank|]. by apply text_no_elements.
  - intros l t _ Ht. eapply (shrinks_cons _ _ "["); [done| |intros u; exact id].
    eapply shrinks_close; [done|exact Ht|]. by apply text_array.
  - intros w Hw. eapply (shrinks_cons _ _ "{"); [done| |intros u; exact id].
    eapply shrinks_close; [done|by apply shrinks_blank|]. by apply text_no_members.
  - intros l t _ Ht. eapply (shrinks_cons _ _ "{"); [done| |intros u; exact id].
    eapply shrinks_close; [done|exact Ht|]. by apply text_object.
  - intros j t w w' Hw Hw' _ Ht. eapply shrinks_app; [by apply shrinks_blank| |intros u u' Hu Hu'; exact (Hu' u Hu)].
    eapply shrinks_app; [exact Ht|by apply shrinks_blank|]. intros u u' Hu Hu' v Hv. by apply elements_last.
  - intros j l t t' w w' Hw Hw' _ Ht _ Hl.
    eapply shrinks_app; [by apply shrinks_blank| |intros u u' Hu Hu'; exact (Hu' u Hu)].
    eapply shrinks_app; [exact Ht| |intros u u' Hu Hu' v Hv; exact (Hu' u Hu v Hv)].
    eapply shrinks_app; [by apply shrinks_blank| |intros u u' Hu Hu' v Hv v' Hv'; exact (Hu' u Hu v Hv v' Hv')].
    eapply shrinks_cons; [done|exact Hl|]. intros u Hu v Hv v' Hv' v'' Hv''. by apply elements_more.
  - intros m t _ Hm. destruct Hm as (u & Hr & Hl & Hm). exists u. split_and!; [done|done|by apply members_last].
  - intros m l t t' _ Hm _ Hl. eapply shrinks_app; [exact Hm| |intros u u' Hu Hu'; exact (Hu' u Hu)].
    eapply shrinks_cons; [done|exact Hl|]. intros u Hu v Hv. by apply members_more.
  - intros k j tk t w w' w'' w''' Hw Hw' Hw'' Hw''' Hk _ Ht.
    eapply shrinks_app; [by apply shrinks_blank| |intros u u' Hu Hu'; exact (Hu' u Hu)].
    eapply (shrinks_app (eq (quoted tk))); [by apply shrinks_same; [eapply reduces_quoted|]| |intros u u' <- Hu' v Hv; exact (Hu' v Hv)].
    eapply shrinks_app; [by apply shrinks_blank| |intros u u' Hu Hu' v Hv; exact (Hu' u Hu v Hv)].
    eapply shrinks_cons; [done| |intros u Hu; exact Hu].
    eapply shrinks_app; [by apply shrinks_blank| |intros u u' Hu Hu'; exact (Hu' u Hu)].
    eapply shrinks_app; [exact Ht|by apply shrinks_blank|].
    intros u u' Hu Hu' v Hv v' Hv' v'' Hv''. by apply member_intro.
Qed.

End Minify.

(** C40: removing blanks.  From every JSON text (the grammar of [text], with decimals,
    without comments), with blanks in front, the function makes exactly the text without
    the spaces, tabs and ends of lines outside its string literals; while memory lasts that text is
    parsed to the same tree. *)
Theorem json_minify `{Libm} malloc_ok j t w post s : (forall n, malloc_ok n = true) -> text j t -> blank w ->
  exists s', cJSON_Minify (w +:+ t +:+ String NUL post) = Ok (squeeze false (w +:+ t)) /\
    cJSON_Parse malloc_ok (Some (squeeze false (w +:+ t) +:+ String NUL EmptyString)) s = Ok (Some (node None j), s').
Proof.
  intros Hm Ht Hw. destruct (text_shrinks j t Ht) as (u & Hr & Hl & Hu).
  destruct (shrinks_blank w Hw) as (v & Hr' & Hl' & Hv). pose proof (reduces_app _ _ _ _ Hr' Hr) as Hred.
  rewrite <- (reduces_squeeze _ _ Hred). destruct Hred as [Hred _].
  destruct (Hred (S (String.length (w +:+ t +:+ String NUL post))) (String NUL post) EmptyString)
    as (f & Hf & E). { rewrite !length_append. lia. }
  eexists. split.
  - unfold cJSON_Minify. rewrite append_assoc in E. rewrite E. by destruct f; [lia|].
  - rewrite append_assoc. apply cJSON_Parse_text; [done|done|done|]. destruct j; try done; by eexists _, _.
Qed.

(** ** Objects as maps. *)

(** The members of an object in order, with their names; the values have none of their own. *)
Abbreviation fields := (list (string * cJSON)).

Definition named (m : string * cJSON) : cJSON := set_string (Some m.1) m.2.
Definition object_of (l : fields) : cJSON := mkJSON (named <$> l) cJSON_Object None 0 d_zero None.

(** Names are equal up to the case of letters. *)
Fixpoint lower (s : string) : list Z :=
  match s with EmptyString => [] | String a s => tolower (code a) :: lower s end.

Definition same_name (k : string) (m : string * cJSON) : Prop := lower m.1 = lower k.
#[local] Instance same_name_dec k m : Decision (same_name k m) := ltac:(unfold same_name; apply _).

Definition field (l : fields) (k : string) : option (nat * (string * cJSON)) := list_find (same_name k) l.

Inductive edit :=
| Add (k : string) (c : cJSON)
| Remove (k : string)
| Replace (k : string) (c : cJSON).

Definition edited (l : fields) (e : edit) : fields :=
  match e with
  | Add k c => l ++ [(k, c)]
  | Remove k => match field l k with Some (i, _) => delete i l | None => l end
  | Replace k c => match field l k with Some (i, _) => <[i := (k, c)]> l | None => l end
  end.

(** The item that an edit takes over. *)
Definition taken (l : fields) (e : edit) : option cJSON :=
  match e with
  | Add _ c => Some c
  | Remove _ => None
  | Replace k c => (fun _ => c) <$> field l k
  end.

Definition edit_object (malloc_ok : nat -> bool) (o : cJSON) (e : edit) : ST Json cJSON :=
  match e with
  | Add k c => cJSON_AddItemToObject malloc_ok o k (Some c)
  | Remove k => cJSON_DeleteItemFromObject o (Some k)
  | Replace k c => cJSON_ReplaceItemInObject malloc_ok o k c
  end.

Fixpoint edit_all (malloc_ok : nat -> bool) (o : cJSON) (es : list edit) : ST Json cJSON :=
  match es with [] => st_ret o | e :: es => let! o := edit_object malloc_ok o e in edit_all malloc_ok o es end.

(** A value that can become a member. *)
Definition loose (c : cJSON) : Prop := clean c /\ json_string c = None.
Definition good_field (m : string * cJSON) : Prop := no_nul m.1 /\ loose m.2.
Definition good_edit (e : edit) : Prop :=
  match e with Add k c => no_nul k /\ loose c | Remove k => no_nul k | Replace k c => no_nul k /\ loose c end.

Lemma tolower_zero n : 0 <= n -> tolower n = 0 <-> n = 0.
Proof. intros Hn. unfold tolower. destruct ((65 <=? n) && (n <=? 90)) eqn:E; lia. Qed.

Lemma no_nul_cons a s : no_nul (String a s) <-> code a <> 0 /\ no_nul s.
Proof. unfold no_nul. cbn [all_chars]. rewrite andb_true_iff. unfold isc. split; intros [? ?]; (split; [lia|done]). Qed.

Lemma casecmp_lower s t : no_nul s -> no_nul t -> casecmp_loop s t = 0 <-> lower s = lower t.
Proof.
  revert t. induction s as [|a s IH]; intros t Hs Ht.
  - destruct t as [|b t]; [done|]. apply no_nul_cons in Ht as [Hb _]. pose proof (code_range b).
    cbn [casecmp_loop head_code lower]. pose proof (tolower_zero (code b)). change (tolower 0) with 0.
    destruct (0 =? tolower (code b)) eqn:E; [lia|]. split; [lia|done].
  - apply no_nul_cons in Hs as [Ha Hs]. pose proof (code_range a) as Hra. pose proof (tolower_zero (code a)).
    cbn [casecmp_loop lower]. change (head_code (String a s)) with (code a).
    assert (isc a 0 = false) as -> by (unfold isc; lia). destruct t as [|b t].
    + change (tolower (head_code EmptyString)) with 0. destruct (tolower (code a) =? 0) eqn:E; [lia|]. split; [lia|done].
    + apply no_nul_cons in Ht as [Hb Ht]. cbn [head_code tail lower].
      destruct (tolower (code a) =? tolower (code b)) eqn:E.
      * apply Z.eqb_eq in E. rewrite E, IH by done. split; [by intros ->|by intros [= ->]].
      * apply Z.eqb_neq in E. split; [lia|]. intros [=]. done.
Qed.

Lemma member_loop_field l k n : Forall good_field l -> no_nul k ->
  member_loop (named <$> l) (Some k) n = (fun r => (n + Z.of_nat r.1, named r.2)) <$> field l k.
Proof.
  intros Hl Hk. revert n. induction Hl as [|m l [Hm _] _ IH]; intros n; [done|].
  rewrite fmap_cons. cbn [member_loop json_string named set_string cJSON_strcasecmp]. unfold field. cbn [list_find].
  pose proof (casecmp_lower m.1 k Hm Hk) as Hc. case_decide as Hd; unfold same_name in Hd.
  - rewrite (proj2 (Z.eqb_eq _ _)) by tauto. cbn. by rewrite Z.add_0_r.
  - rewrite (proj2 (Z.eqb_neq _ _)) by tauto. cbn [negb]. rewrite IH. unfold field.
    destruct (list_find (same_name k) l) as [[i x]|]; [|done]. cbn. do 2 f_equal. lia.
Qed.

Lemma detach_loop_delete (l : list cJSON) i x : l !! i = Some x -> detach_loop l (Z.of_nat i) = (delete i l, Some x).
Proof.
  revert l. induction i as [|i IH]; intros [|y l] Hi; try done.
  - by injection Hi as ->.
  - cbn [detach_loop]. rewrite (proj2 (Z.ltb_lt _ _)) by lia. replace (Z.of_nat (S i) - 1) with (Z.of_nat i) by lia.
    by rewrite (IH l Hi).
Qed.

Lemma replace_loop_insert (l : list cJSON) i x y : l !! i = Some x ->
  replace_loop l (Z.of_nat i) y = (<[i := y]> l, Some x).
Proof.
  revert l. induction i as [|i IH]; intros [|z l] Hi; try done.
  - by injection Hi as ->.
  - cbn [replace_loop]. rewrite (proj2 (Z.ltb_lt _ _)) by lia. replace (Z.of_nat (S i) - 1) with (Z.of_nat i) by lia.
    by rewrite (IH l Hi).
Qed.

Definition weight (o : option cJSON) : Z := match o with Some c => 1 + own c | None => 0 end.

Lemma own_object l : own (object_of l) = chain (named <$> l).
Proof. rewrite own_eq. done. Qed.

Lemma own_named k c : loose c -> own (named (k, c)) = own c + 1.
Proof. intros [_ Hn]. rewrite !own_eq. cbn [named set_string fst snd valuestring json_string child]. rewrite Hn. cbn. lia. Qed.

Lemma clean_named k c : loose c -> clean (named (k, c)).
Proof. intros [Hc _]. rewrite clean_eq in *. exact Hc. Qed.

Lemma chain_take_drop l i x : l !! i = Some x -> chain l = chain (take i l) + (1 + own x) + chain (drop (S i) l).
Proof. intros Hi. rewrite <- (take_drop_middle l i x Hi) at 1. rewrite chain_app. cbn [chain foldr]. unfold chain. lia. Qed.

Lemma chain_delete l i x : l !! i = Some x -> chain (delete i l) = chain l - (1 + own x).
Proof. intros Hi. rewrite delete_take_drop, chain_app, (chain_take_drop l i x Hi). lia. Qed.

Lemma chain_insert l i x y : l !! i = Some x -> chain (<[i := y]> l) = chain l - (1 + own x) + (1 + own y).
Proof.
  intros Hi. pose proof (lookup_lt_Some _ _ _ Hi) as Hlt.
  rewrite (chain_take_drop (<[i := y]> l) i y), (chain_take_drop l i x Hi) by (by rewrite list_lookup_insert_eq).
  rewrite take_insert_ge, drop_insert_lt by lia. lia.
Qed.

(** What one edit does: the members are those of the edited list, and every block is still
    accounted for, by the object or by whoever held it. *)
Definition accounted (l : fields) (o : option cJSON) (l' : fields) (s s' : Json) : Prop :=
  live s' - own (object_of l') = live s - own (object_of l) - weight o.

Section Edits.
Context (malloc_ok : nat -> bool) (memory : forall n, malloc_ok n = true).

Lemma strdup_ok k s : no_nul k ->
  cJSON_strdup malloc_ok k s = Ok (Some k, mkJson (ep s) (live s + 1) (S (allocs s))).
Proof using memory.
  intros Hk. unfold cJSON_strdup, cJSON_malloc, st_bind, st_ret. rewrite memory. by rewrite c_string_no_nul.
Qed.

Lemma delete_option_released c s : clean c -> runs (delete_option (Some c)) s (fun _ => released (1 + own c) s).
Proof.
  intros Hc. eapply runs_weaken; [apply delete_chain; [by constructor; [intros; by apply delete_item_released|]|by split]|].
  intros [] s' Hr. cbn [chain foldr] in Hr. by rewrite Z.add_0_r in Hr.
Qed.

Lemma field_good l k i m : Forall good_field l -> field l k = Some (i, m) ->
  (named <$> l) !! i = Some (named m) /\ good_field m.
Proof.
  intros Hl (Hi & _ & _)%list_find_Some. rewrite list_lookup_fmap, Hi. split; [done|].
  rewrite Forall_lookup in Hl. by eapply Hl.
Qed.

Lemma edit_ok l e s : Forall good_field l -> good_edit e ->
  runs (edit_object malloc_ok (object_of l) e) s (fun o s' =>
    o = object_of (edited l e) /\ accounted l (taken l e) (edited l e) s s').
Proof using memory.
  intros Hl He. unfold accounted. rewrite !own_object. destruct e as [k c|k|k c]; cbn [edit_object edited taken good_edit] in *.
  - destruct He as [Hk Hc]. unfold cJSON_AddItemToObject, free_string. rewrite (proj2 Hc).
    unfold runs, st_bind, st_ret. rewrite strdup_ok by done. eexists _, _. split; [done|]. split.
    + unfold cJSON_AddItemToArray, object_of, set_child. cbn. by rewrite fmap_app.
    + rewrite fmap_app, chain_app. cbn [fmap list_fmap chain foldr live weight]. rewrite own_named by done. lia.
  - unfold cJSON_DeleteItemFromObject, cJSON_DetachItemFromObject. cbn [child object_of].
    rewrite member_loop_field by done. destruct (field l k) as [[i m]|] eqn:E; cbn [fmap option_fmap option_map fst snd].
    2: { eexists _, _. split; [done|]. split; [done|]. cbn [weight]. lia. }
    destruct (field_good l k i m Hl E) as [Hi Hm]. unfold cJSON_DetachItemFromArray. cbn [child object_of].
    rewrite Z.add_0_l, (detach_loop_delete _ _ _ Hi). rewrite list_fmap_delete. destruct m as [k' c].
    eapply runs_bind; [by apply delete_option_released, clean_named, Hm|]. intros [] s1 [_ L1]. apply runs_ret.
    split; [unfold object_of; by rewrite list_fmap_delete|]. rewrite (chain_delete _ _ _ Hi), L1. cbn [weight]. lia.
  - destruct He as [Hk Hc]. unfold cJSON_ReplaceItemInObject. cbn [child object_of]. rewrite member_loop_field by done.
    destruct (field l k) as [[i m]|] eqn:E; cbn [fmap option_fmap option_map fst snd].
    2: { eexists _, _. split; [done|]. split; [done|]. cbn [weight]. lia. }
    destruct (field_good l k i m Hl E) as [Hi Hm]. eapply (runs_bind _ _ _ (fun o s1 => o = Some k /\ live s1 = live s + 1)).
    { eexists _, _. split; [by apply strdup_ok|done]. }
    intros o s1 [-> L1]. unfold cJSON_ReplaceItemInArray. cbn [child object_of].
    rewrite Z.add_0_l, (replace_loop_insert _ _ _ _ Hi). change (set_string (Some k) c) with (named (k, c)).
    destruct m as [k' c']. eapply runs_bind; [by apply delete_option_released, clean_named, Hm|]. intros [] s2 [_ L2].
    apply runs_ret. rewrite list_fmap_insert. split; [unfold object_of; by rewrite list_fmap_insert|].
    rewrite (chain_insert _ _ _ _ Hi), L2, L1, (own_named k c) by done. cbn [weight]. lia.
Qed.

End Edits.

(** The blocks of the items that a sequence of edits takes over. *)
Fixpoint given (l : fields) (es : list edit) : Z :=
  match es with [] => 0 | e :: es => weight (taken l e) + given (edited l e) es end.

Lemma edited_good l e : Forall good_field l -> good_edit e -> Forall good_field (edited l e).
Proof.
  intros Hl He. destruct e as [k c|k|k c]; cbn [edited good_edit] in *.
  - apply Forall_app. split; [done|]. by constructor.
  - destruct (field l k) as [[i m]|]; [by apply Forall_delete|done].
  - destruct (field l k) as [[i m]|]; [by apply Forall_insert|done].
Qed.

Lemma edit_all_ok malloc_ok l es s : (forall n, malloc_ok n = true) -> Forall good_field l -> Forall good_edit es ->
  runs (edit_all malloc_ok (object_of l) es) s (fun o s' =>
    o = object_of (foldl edited l es) /\
    live s' - own (object_of (foldl edited l es)) = live s - own (object_of l) - given l es).
Proof.
  intros Hm Hl Hes. revert l Hl s. induction Hes as [|e es He Hes IH]; intros l Hl s.
  - apply runs_ret. split; [done|]. cbn. lia.
  - cbn [edit_all foldl given]. eapply runs_bind; [by apply edit_ok|]. intros o s1 [-> H1].
    eapply runs_weaken; [apply IH; by apply edited_good|]. intros o s2 [-> H2]. split; [done|].
    unfold accounted in H1. lia.
Qed.

(** C21: objects are maps, for items that come without a name and are no references.  While
    memory lasts, any sequence of additions, deletions and replacements of members by name
    does to an object what it does to a list of named values, where names are the same up to
    the case of letters: an addition appends, deletions and replacements change the first
    member of the name, if there is one.  Looking up a name finds the first member of that
    name.  No memory is lost then: the blocks in use change by those of the object, except
    those that came with the items.  (A replacement by an item that has a name already loses
    the block of that name, see [replaced_name_lost].) *)
Theorem json_object_refines malloc_ok l es s : (forall n, malloc_ok n = true) ->
  Forall good_field l -> Forall good_edit es ->
  exists s', edit_all malloc_ok (object_of l) es s = Ok (object_of (foldl edited l es), s') /\
    live s' - own (object_of (foldl edited l es)) = live s - own (object_of l) - given l es /\
    forall k, no_nul k ->
      cJSON_GetObjectItem (object_of (foldl edited l es)) (Some k)
      = (fun r => named r.2) <$> field (foldl edited l es) k.
Proof.
  intros Hm Hl Hes. destruct (edit_all_ok malloc_ok l es s Hm Hl Hes) as (o & s' & E & -> & L). exists s'.
  split_and!; [done|done|]. intros k Hk. unfold cJSON_GetObjectItem. cbn [child object_of].
  rewrite member_loop_field; [by destruct (field _ k) as [[? ?]|]| |done].
  clear -Hl Hes. revert l Hl. induction Hes as [|e es He _ IH]; intros l Hl; [done|]. cbn [foldl]. by apply IH, edited_good.
Qed.

(** ** Concrete instances. *)

Definition demo_edits : list edit :=
  [Add "a" (node None (JNum 1)); Add "A" (node None (JStr "x")); Replace "A" (node None JNull); Remove "b"; Remove "a"].

Lemma json_object_refines_witness :
  exists s', edit_all plenty (object_of []) demo_edits (mkJson None 4 4)
    = Ok (object_of [("A"%string, node None (JStr "x"))], s') /\ live s' - 3 = 4 - 0 - 4 /\
    forall k, no_nul k -> cJSON_GetObjectItem (object_of [("A"%string, node None (JStr "x"))]) (Some k)
      = (fun r => named r.2) <$> field [("A"%string, node None (JStr "x"))] k.
Proof.
  exact (json_object_refines plenty [] demo_edits (mkJson None 4 4) (fun _ => eq_refl) (Forall_nil_2 _)
    ltac:(repeat constructor)).
Defined.

Lemma json_minify_witness :
  exists s', cJSON_Minify (" "%string +:+ "[0.25, -12.5e2,40E-1 , 7]"%string +:+ String NUL EmptyString)
      = Ok "[0.25,-12.5e2,40E-1,7]"%string /\
    @cJSON_Parse demo_libm plenty (Some ("[0.25,-12.5e2,40E-1,7]"%string +:+ String NUL EmptyString)) json_fresh
      = Ok (Some (node None demo_reals), s').
Proof.
  exact (@json_minify demo_libm plenty demo_reals _ " " EmptyString json_fresh (fun _ => eq_refl) demo_reals_text eq_refl).
Defined.

(** The formatted text without its blanks is the unformatted one. *)
Example minify_printed : cJSON_Minify (render 0 true demo_json +:+ String NUL EmptyString) = Ok (render 0 false demo_json).
Proof. vm_compute. reflexivity. Qed.

(** A literal or a comment that is not closed takes the function past the end of the text. *)
Example minify_unterminated :
  cJSON_Minify (String quote (String "a" (String NUL EmptyString))) = UB /\
  cJSON_Minify ("/*"%string +:+ String NUL EmptyString) = UB.
Proof. split; vm_compute; reflexivity. Qed.

(** An array of numbers whose second element cannot be allocated. *)
Example int_array_without_memory :
  cJSON_CreateIntArray short_memory [1; 2] 2 json_fresh = UB /\
  exists s, cJSON_CreateIntArray plenty [1; 2] 2 json_fresh = Ok (Some (node None (JArr [JNum 1; JNum 2])), s).
Proof. split; [|eexists]; vm_compute; reflexivity. Qed.

(** A replacement that already has a name: its old name is never released. *)
Example replaced_name_lost : exists o s,
  cJSON_ReplaceItemInObject plenty (object_of [("a"%string, node None JNull)]) "a" (node (Some "b"%string) JNull)
    (mkJson None 5 5) = Ok (o, s) /\ live s = 4 /\ 1 + own o = 3.
Proof. eexists _, _. split; [vm_compute; reflexivity|done]. Qed.
