(* ===== verification/SatTracker.v ===== *)
(** * SatTracker: the tracking algorithm, [src/src/Architecture/SatTracker/AlgorithmPC].

    Two pictures are searched for the satellite with a detector of OpenCV; the two circles
    that are found give its velocity.  Pictures, the detector, the drawing of circles, the
    intersection of rectangles, [hypotf] and [atof] are parameters. *)

From S2P Require Import Prelude Float32 Float64 Json JsonPrint JsonTree.
From stdpp Require Import pretty.
From Stdlib Require Import SpecFloat Ascii.
#[local] Open Scope Z_scope.

(** ** Data. *)

Record Rect := mkRect { rx : Z; ry : Z; width : Z; height : Z }.

#[export] Instance rect_eq_dec : EqDecision Rect.
Proof. solve_decision. Defined.

Record CircleData := mkCircle { center : Z * Z; radius : double }.

Record Velocity := mkVelocity { velX : float; velY : float; velZ : float }.

(** A detector: what [configureHOGDetector] sets. *)
Record HOGDescriptor := mkHog { winSize : Z * Z; svmDetector : list float }.

(** The libraries. *)
Class Vision := {
  Mat : Type;
  detectMultiScale : HOGDescriptor -> Mat -> double -> Z * Z -> Z * Z -> list Rect;
  circle : Mat -> Z * Z -> double -> Mat;         (** in the colour of the program *)
  intersection : Rect -> Rect -> Rect;           (** [&] of rectangles *)
  hypotf : float -> float -> float;
  atof : string -> double
}.

(** [(float)x] of a [double]. *)
Definition f_of_double (x : double) : float :=
  match x with
  | S754_finite s m e => binary_normalize 24 128 (if s then Z.neg m else Z.pos m) e s
  | _ => x
  end.

(** ** The descriptor, [sat_detector.cpp]. *)

Definition space : ascii := ascii_of_nat 32.

(** [line.find(" ")] with what is in front and behind. *)
Fixpoint find_space (line : string) : option (string * string) :=
  match line with
  | EmptyString => None
  | String a rest =>
      if Ascii.eqb a space then Some (EmptyString, rest)
      else match find_space rest with Some (t, r) => Some (String a t, r) | None => None end
  end.

(** The inner loop; the part after the last separator is not used. *)
Fixpoint line_tokens (fuel : nat) (line : string) : list string :=
  match fuel with
  | O => []
  | S fuel => match find_space line with Some (token, rest) => token :: line_tokens fuel rest | None => [] end
  end.

Section Tracker.
Context `{Vision}.

Definition getDescriptorVectorFromFile (lines : option (list string)) : list float :=
  match lines with
  | None => []
  | Some lines => mjoin ((fun line => (fun t => f_of_double (atof t)) <$> line_tokens (S (String.length line)) line) <$> lines)
  end.

(** ** Detections. *)

(** The division of [int]s comes before [round]. *)
Definition rectangleToCircle (r : Rect) : CircleData :=
  let a := Z.quot (width r) 2 in
  let b := Z.quot (height r) 2 in
  mkCircle (rx r + a, ry r + b) (d_of_float (hypotf (f_of_int a) (f_of_int b))).

(** The loop over [j]: no other rectangle contains [r]. *)
Fixpoint uncontained (found : list Rect) (i : nat) (r : Rect) (j : nat) : bool :=
  match found with
  | [] => true
  | f :: found =>
      if negb (j =? i)%nat && bool_decide (intersection r f = r) then false else uncontained found i r (S j)
  end.

Fixpoint filter_loop (all rest : list Rect) (i : nat) : list Rect :=
  match rest with
  | [] => []
  | r :: rest => if uncontained all i r 0 then r :: filter_loop all rest (S i) else filter_loop all rest (S i)
  end.

(** The second loop: [cercle] is overwritten by every rectangle that is drawn. *)
Fixpoint draw_loop (rest : list Rect) (imageData : Mat) (cercle : CircleData) : Mat * CircleData :=
  match rest with
  | [] => (imageData, cercle)
  | r :: rest =>
      let cercle := rectangleToCircle r in
      draw_loop rest (circle imageData (center cercle) (radius cercle)) cercle
  end.

Definition showDetections (found : list Rect) (imageData : Mat) (cercle : CircleData) : Mat * CircleData :=
  draw_loop (filter_loop found found 0) imageData cercle.

Definition configureHOGDetector (descriptorVectorFile : option (list string)) : HOGDescriptor :=
  mkHog (80, 80) (getDescriptorVectorFromFile descriptorVectorFile).

Definition detectSat (hog : HOGDescriptor) (hitThreshold : double) (imageData : Mat) (cercle : CircleData) : Mat * CircleData :=
  showDetections (detectMultiScale hog imageData hitThreshold (2, 2) (4, 4)) imageData cercle.

(** ** Velocity, [sat_velocity.cpp]. *)

Definition FOCAL_LENGTH : double := d_div (d_of_int 304) (d_of_int 10).
Definition H_SAT : Z := 100.
Definition MAX_COLS : Z := 120.
Definition PX_TO_MM : double := d_div FOCAL_LENGTH (d_of_int MAX_COLS).

Definition velocity_along (ini fi : Z) (sample_time : float) : float :=
  f_of_double (d_mul (d_of_float (f_div (f_of_int (fi - ini)) sample_time)) PX_TO_MM).

Definition velocityXYZ (ini fi : CircleData) (sample_time : float) : Velocity :=
  mkVelocity (velocity_along (center ini).1 (center fi).1 sample_time)
    (velocity_along (center ini).2 (center fi).2 sample_time)
    (f_of_double (d_div (d_mul (d_mul (d_sub (d_of_int 1) (d_div (radius ini) (radius fi))) (d_of_int H_SAT)) FOCAL_LENGTH)
                    (d_mul (d_mul (radius ini) (d_of_float sample_time)) PX_TO_MM))).

Definition printVelocity (v : Velocity) : list string :=
  [String.append "Velocity in X: " (String.append (format_f 2 (d_of_float (velX v))) " m/s");
   String.append "Velocity in Y: " (String.append (format_f 2 (d_of_float (velY v))) " m/s");
   String.append "Velocity in Z: " (String.append (format_f 2 (d_of_float (velZ v))) " m/s")].

(** [0.1f]. *)
Definition hitThreshold : double := d_of_float (f_div (f_of_int 1) (f_of_int 10)).

(** [main] on the two pictures that [readSamplesFromFile] reads: the pictures that are
    written and the lines that are printed.  The two circles start with the indeterminate values
    that are given. *)
Definition tracker_main (descriptors : option (list string)) (image_initial image_final : Mat)
    (cercle_initial cercle_final : CircleData) : Mat * Mat * list string :=
  let hog := configureHOGDetector descriptors in
  let (image_initial, cercle_initial) := detectSat hog hitThreshold image_initial cercle_initial in
  let (image_final, cercle_final) := detectSat hog hitThreshold image_final cercle_final in
  (image_initial, image_final, printVelocity (velocityXYZ cercle_initial cercle_final (f_of_int 2))).

(** ** Properties. *)

Lemma uncontained_spec l i r j : uncontained l i r j = true <->
  forall k f, l !! k = Some f -> (j + k)%nat <> i -> intersection r f <> r.
Proof.
  revert j. induction l as [|f l IH]; intros j; [split; [intros _ k f Hf; done|done]|]. cbn [uncontained].
  destruct (negb (j =? i)%nat && bool_decide (intersection r f = r)) eqn:E.
  - split; [done|]. intros Hall. apply andb_true_iff in E as [E1%negb_true_iff%Nat.eqb_neq E2%bool_decide_eq_true].
    by destruct (Hall 0%nat f eq_refl); [lia|].
  - rewrite IH. split.
    + intros Hall [|k] g Hg Hne; [|by apply (Hall k); [|lia]]. injection Hg as <-. intros Hi.
      rewrite (proj2 (Nat.eqb_neq j i)), bool_decide_true in E by (done || lia). done.
    + intros Hall k g Hg Hne. apply (Hall (S k) g Hg). lia.
Qed.

Lemma filter_loop_sublist all rest i : sublist (filter_loop all rest i) rest.
Proof.
  revert i. induction rest as [|x rest IH]; intros i; cbn [filter_loop]; [constructor|].
  destruct (uncontained all i x 0); by constructor.
Qed.

Lemma filter_loop_elem all rest i r : r ∈ filter_loop all rest i <->
  exists k, rest !! k = Some r /\ uncontained all (i + k) r 0 = true.
Proof.
  revert i. induction rest as [|x rest IH]; intros i; cbn [filter_loop].
  { split; [by intros ?%not_elem_of_nil|by intros (k & ? & _)]. }
  assert (Hs : (exists k, (x :: rest) !! k = Some r /\ uncontained all (i + k) r 0 = true) <->
    x = r /\ uncontained all i r 0 = true \/ exists k, rest !! k = Some r /\ uncontained all (S i + k) r 0 = true).
  { split.
    - intros ([|k] & Hk & Hu); [injection Hk as ->; rewrite Nat.add_0_r in Hu; by left|]. right. exists k.
      replace (S i + k)%nat with (i + S k)%nat by lia. done.
    - intros [[-> Hu]|(k & Hk & Hu)]; [exists 0%nat; by rewrite Nat.add_0_r|]. exists (S k).
      replace (i + S k)%nat with (S i + k)%nat by lia. done. }
  rewrite Hs. destruct (uncontained all i x 0) eqn:E.
  - rewrite elem_of_cons, IH. split; (intros [Hr|Hr]; [left|by right]); [by subst r|by destruct Hr].
  - rewrite IH. split; [by right|]. intros [[-> Hu]|Hr]; [congruence|done].
Qed.

Lemma draw_loop_spec rest imageData cercle : draw_loop rest imageData cercle =
  (foldl (fun m r => circle m (center (rectangleToCircle r)) (radius (rectangleToCircle r))) imageData rest,
   default cercle (rectangleToCircle <$> last rest)).
Proof.
  revert imageData cercle. induction rest as [|r rest IH]; intros imageData cercle; [done|].
  cbn [draw_loop foldl]. rewrite IH. f_equal. rewrite last_cons. by destruct (last rest).
Qed.

(** The detections.  Of the rectangles that the detector finds the program keeps exactly
    those that no other one contains (of two equal ones neither); it draws the circle of each, in
    the order of the detector, and leaves the circle of the last one, or the former circle when
    none is kept. *)
Theorem detections_kept hog imageData cercle :
  let found := detectMultiScale hog imageData hitThreshold (2, 2) (4, 4) in
  let draw m r := circle m (center (rectangleToCircle r)) (radius (rectangleToCircle r)) in
  exists kept, sublist kept found /\
    (forall r, r ∈ kept <->
       exists i, found !! i = Some r /\ forall k f, found !! k = Some f -> k <> i -> intersection r f <> r) /\
    detectSat hog hitThreshold imageData cercle =
      (foldl draw imageData kept, default cercle (rectangleToCircle <$> last kept)).
Proof.
  intros found draw. exists (filter_loop found found 0). split_and!.
  - apply filter_loop_sublist.
  - intros r. rewrite filter_loop_elem. setoid_rewrite uncontained_spec. cbn [Nat.add]. done.
  - apply draw_loop_spec.
Qed.

End Tracker.

(** The last number of a line is not read unless a separator follows it. *)
Example last_token_lost : line_tokens 8 "1 2 3" = ["1"; "2"]%string /\ line_tokens 8 "1 2 3 " = ["1"; "2"; "3"]%string.
Proof. split; vm_compute; reflexivity. Qed.

(** A pixel in two milliseconds: 0.13 millimetres per millisecond. *)
Example one_pixel : format_f 2 (d_of_float (velocity_along 10 11 (f_of_int 2))) = "0.13"%string.
Proof. vm_compute. reflexivity. Qed.
