(* ===== verification/SchedMain.v ===== *)
(** * SchedMain: the scheduler from its arguments to its solution, [main] of
    [src/src/Architecture/Scheduler/shed.c].

    The program takes the numbers of tasks, of solutions per satellite and of
    satellites, generates the satellites at random and searches the best combination.
    Seeding the generator and measuring the time change nothing that is
    modelled.  Every [malloc] and every [free] is counted in the number of blocks in
    use; a block that is not there must not be released. *)

From S2P Require Import Prelude Float64 Json JsonSpec JsonFacts JsonRender.
From S2P Require Import Float32 Sched SchedFacts SchedProps SchedLocal SchedRand.
From stdpp Require Import pretty.
From Stdlib Require Import Ascii.
#[local] Open Scope Z_scope.

(** ** Arguments. *)

Definition is_space (a : ascii) : bool :=
  let n := Z.of_N (N_of_ascii a) in (n =? 32) || ((9 <=? n) && (n <=? 13)).

Definition digit_of (a : ascii) : option Z :=
  let n := Z.of_N (N_of_ascii a) in if (48 <=? n) && (n <=? 57) then Some (n - 48) else None.

Fixpoint atoi_digits (n : Z) (s : string) : Z :=
  match s with
  | EmptyString => n
  | String a s => match digit_of a with Some d => atoi_digits (10 * n + d) s | None => n end
  end.

Fixpoint skip_spaces (s : string) : string :=
  match s with
  | String a s' => if is_space a then skip_spaces s' else s
  | EmptyString => s
  end.

(** A number that is not an [int] is undefined. *)
Definition atoi (s : string) : outcome Z :=
  let s := skip_spaces s in
  let n := match s with
    | String "-" s => - atoi_digits 0 s
    | String "+" s => atoi_digits 0 s
    | _ => atoi_digits 0 s
    end in
  if (- 2 ^ 31 <=? n) && (n <=? INT_MAX) then Ok n else UB.

(** The three sizes; [None]: the message about the usage is printed. *)
Definition arguments (argv : list string) : outcome (option (Z * Z * Z)) :=
  match argv with
  | [_; tasks; solutions; satellites] =>
      ntasks ← atoi tasks; gim ← atoi solutions; nsats ← atoi satellites; Ok (Some (ntasks, gim, nsats))
  | _ => Ok None
  end.

(** ** [main]. *)

Section Main.
Context `{Rand} (fuel : nat).

(** [free] of the tasks of [n] solutions from [j]. *)
Fixpoint free_tasks (j n : nat) (ls : list LocalSolution) : ST Gen unit :=
  match n with
  | O => st_ret tt
  | S n' => let! _ := st_lift (arr_get ls j) in do! free in free_tasks (S j) n' ls
  end.

(** The loop of [free_satellites] over [n] satellites from [k]. *)
Fixpoint free_loop (k n : nat) (sats : list Satellite) : ST Gen unit :=
  match n with
  | O => st_ret tt
  | S n' =>
      let! sat := st_lift (arr_get sats k) in
      do! free_tasks 0 (Z.to_nat (golden_index sat)) (local_solutions sat) in
      do! free in
      free_loop (S k) n' sats
  end.

Definition free_satellites (nsats : nat) (sats : list Satellite) : ST Gen unit :=
  do! free_loop 0 nsats sats in free.

(** [main] for sizes that are not negative, from the allocation of the arrays on: the
    satellites, the solution and the largest reward; [None] when the generation has not
    ended after [fuel] rounds.  [max], [tic] and [duplicates] are zero at the start; the search
    starts with the blocks in use then and leaves those in use after it. *)
Definition search (ntasks nsats : nat) (gim : Z) : ST Gen (option (list Satellite * list Z * float)) :=
  do! malloc in
  let combination := generate_array nsats in
  do! malloc in
  let solution := generate_array nsats in
  let? sats := init_satellites ntasks nsats fuel gim in
  let! n := st_gets used in
  let! r := st_lift (solve ntasks nsats (fun _ => false) sats combination solution
                       (mkGlobals gim f_zero f_zero 0 n)) in
  do! set_used (heap r.2) in
  do! free_satellites nsats sats in
  do! free in
  do! free in
  st_ret (Some (sats, r.1.2, best r.2)).

(** What [main] leaves when it returns. *)
Inductive Report :=
| Usage                                                        (** it returns 1 *)
| Searched (sats : list Satellite) (solution : list Z) (max : float)  (** it returns 0 *)
| Endless                                                      (** not within [fuel] rounds *)
| Negative.                                                    (** a negative size: not modelled *)

Definition sched_main (argv : list string) : ST Gen Report :=
  let! args := st_lift (arguments argv) in
  match args with
  | None => st_ret Usage
  | Some (ntasks, gim, nsats) =>
      if (ntasks <? 0) || (gim <? 0) || (nsats <? 0) then st_ret Negative
      else
      let! r := search (Z.to_nat ntasks) (Z.to_nat nsats) gim in
      st_ret (match r with Some (sats, solution, m) => Searched sats solution m | None => Endless end)
  end.

End Main.

(** ** Arguments are read as they are written. *)

Lemma digit_of_isdigit a : isdigit a = true -> digit_of a = Some (code a - 48) /\ is_space a = false.
Proof.
  unfold isdigit, char_in, digit_of, is_space. fold (code a). intros [H1 H2]%andb_true_iff.
  rewrite H1, H2. split; [done|]. lia.
Qed.

Lemma atoi_digits_value n t : all_chars isdigit t = true -> atoi_digits n t = digits_value n t.
Proof.
  revert n. induction t as [|a t IH]; intros n; [done|]. cbn [all_chars atoi_digits digits_value].
  intros [Ha Ht]%andb_true_iff. rewrite (proj1 (digit_of_isdigit a Ha)). by apply IH.
Qed.

Lemma atoi_pretty z : 0 <= z <= Sched.INT_MAX -> atoi (pretty z) = Ok z.
Proof.
  intros Hz. unfold Sched.INT_MAX in Hz. destruct (pretty_number z) as [_ [[[Hd Hne] Hv]|(t' & _ & _ & ? & _)]]; [lia| |lia].
  unfold atoi. destruct (pretty z) as [|a t] eqn:E; [done|]. cbn [all_chars] in Hd.
  apply andb_true_iff in Hd as [Ha Ht]. destruct (digit_of_isdigit a Ha) as [Ed Es]. cbn [skip_spaces]. rewrite Es.
  assert (a <> "-"%char /\ a <> "+"%char) as [H1 H2] by (split; intros ->; done).
  assert ((match String a t with String "-" s => - atoi_digits 0 s | String "+" s => atoi_digits 0 s | _ => atoi_digits 0 (String a t) end)
    = atoi_digits 0 (String a t)) as ->.
  { clear -H1 H2. destruct a as [[] [] [] [] [] [] [] []]; congruence. }
  rewrite (atoi_digits_value 0 (String a t)) by (cbn [all_chars]; by rewrite Ha, Ht). rewrite <- Hv.
  unfold Sched.INT_MAX. rewrite (proj2 (Z.leb_le _ _)), (proj2 (Z.leb_le _ _)) by lia. done.
Qed.

(** ** The search on generated satellites. *)

Lemma weight_generated sats gim : (forall s, s ∈ sats -> golden_index s = gim) ->
  forall w, foldl (fun w s => w * (golden_index s + 1)) w sats = w * (gim + 1) ^ zlen sats.
Proof.
  induction sats as [|s sats IH]; intros Hs w; [cbn [foldl]; change (zlen (@nil Satellite)) with 0; rewrite Z.pow_0_r; lia|]. cbn [foldl]. rewrite IH by set_solver.
  rewrite (Hs s) by set_solver. rewrite zlen_cons, Z.add_comm, Z.pow_add_r by (pose proof (zlen_nonneg sats); lia). lia.
Qed.

Lemma generated_not_deleted ntasks gim sats c :
  (forall k t, sats !! k = Some t -> generated_sat ntasks gim k t) -> has_deleted sats c = false.
Proof.
  intros Hg. unfold has_deleted. apply not_true_iff_false. intros (l & Hl & Hf)%existsb_exists.
  apply list_elem_of_In in Hl. unfold chosen in Hl. apply list_elem_of_omap in Hl as ([s v] & Hin & Hc).
  apply elem_of_zip_l in Hin. apply list_elem_of_lookup in Hin as [k Hk].
  destruct (Hg k s Hk) as (_ & _ & _ & _ & Hr). unfold choice in Hc. cbn [fst snd] in Hc.
  destruct (v =? 0); [done|]. destruct (Hr _ _ Hc) as (_ & Hm & _). by rewrite (proj2 (merit_number _ Hm)) in Hf.
Qed.

Lemma free_tasks_ok ls n : forall j s, (j + n = length ls)%nat ->
  exists s', free_tasks j n ls s = Ok (tt, s') /\ used s' = used s - Z.of_nat n.
Proof.
  induction n as [|n IH]; intros j s Hj; cbn [free_tasks].
  - exists s. split; [done|lia].
  - destruct (lookup_lt_is_Some_2 ls j) as [l Hl]; [lia|]. unfold st_bind at 1, st_lift. rewrite (arr_get_ok _ _ _ Hl).
    erewrite st_bind_ok by done. destruct (IH (S j) (mkGen (draws s) (used s - 1))) as (s' & E & Hu); [lia|].
    exists s'. split; [done|]. cbn [used] in Hu. lia.
Qed.

Lemma free_loop_ok sats gim n :
  (forall k t, sats !! k = Some t -> golden_index t = gim /\ zlen (local_solutions t) = golden_index t) ->
  forall k s, (k + n = length sats)%nat ->
  exists s', free_loop k n sats s = Ok (tt, s') /\ used s' = used s - Z.of_nat n * (gim + 1).
Proof.
  intros Hs. induction n as [|n IH]; intros k s Hk; cbn [free_loop].
  - exists s. split; [done|lia].
  - destruct (lookup_lt_is_Some_2 sats k) as [t Ht]; [lia|]. destruct (Hs k t Ht) as [Hg Hz]. unfold zlen in Hz.
    unfold st_bind at 1, st_lift. rewrite (arr_get_ok _ _ _ Ht).
    destruct (free_tasks_ok (local_solutions t) (Z.to_nat (golden_index t)) 0 s) as (s1 & E & Hu); [lia|].
    rewrite (st_bind_ok _ _ _ _ _ E). erewrite st_bind_ok by done.
    destruct (IH (S k) (mkGen (draws s1) (used s1 - 1))) as (s' & E' & Hu'); [lia|].
    exists s'. split; [done|]. cbn [used] in Hu'. lia.
Qed.

(** C14: the scheduler from its arguments on.  Called with the numbers of tasks, of solutions
    and of satellites, such that the combinations can be counted in an [int], ten times the
    tasks and tasks times satellites too ([sizes_ok]), there is a satellite and a task, and
    with a generator [rand] of which any [K] successive numbers draw every task ([fair]; the
    generator printed in the C standard is, [c_rand_fair]), [main] ends.  The satellites it
    generates are well formed, have that many solutions each, sorted by merit, and no
    combination that uses one of them has a larger reward than the recorded one, which is
    the reward of the solution, unless all rewards are zero.  As many blocks of memory are
    in use at the end as at the start: every block that is allocated on the way (the figures
    of merit while the solutions are generated and the sums of each combination included) is
    released.  Allocations do not fail. *)
Theorem sched_main_optimal `{Rand} (K fuel : nat) (prog : string) (ntasks nsats : nat) gim s :
  sizes_ok ntasks nsats -> (0 < nsats)%nat -> 0 <= gim -> (gim + 1) ^ Z.of_nat nsats <= Sched.INT_MAX ->
  fair ntasks K -> (ntasks * K <= fuel)%nat ->
  exists sats solution m s',
    sched_main fuel [prog; pretty (Z.of_nat ntasks); pretty gim; pretty (Z.of_nat nsats)] s
      = Ok (Searched sats solution m, s') /\ used s' = used s /\
    length sats = nsats /\ (forall k t, sats !! k = Some t -> generated_sat ntasks gim k t) /\
    (forall c, valid_comb sats c -> 0 < rank sats c -> f_lt m (score ntasks sats c) = false) /\
    (m = f_zero /\ solution = generate_array nsats \/
     valid_comb sats solution /\ 0 < rank sats solution /\ score ntasks sats solution = m /\ f_lt f_zero m = true).
Proof.
  intros Hn Hs Hg Hw Hf Hfu. destruct Hn as (Hn1 & Hn2 & Hn3).
  destruct (init_satellites_ready ntasks nsats K fuel gim (mkGen (draws s) (used s + 1 + 1)) Hn1 Hf Hfu Hg)
    as (sats & s1 & E & Hu & Hwf & Hgen). cbn [used] in Hu.
  assert (Hwt : weight sats = (gim + 1) ^ Z.of_nat nsats).
  { unfold weight. rewrite (weight_generated sats gim), (Z.mul_1_l _); [unfold zlen; by rewrite (proj1 Hwf)|].
    intros t [k Hk]%list_elem_of_lookup. by destruct (Hgen k t Hk) as (_ & ? & _). }
  destruct (solve_optimal ntasks nsats sats (generate_array nsats) (generate_array nsats) (mkGlobals gim f_zero f_zero 0 (used s1)))
    as (sol & g' & E' & Hh & Hmax & Hsol); [by split_and!|done|done|lia|unfold generate_array; by rewrite length_replicate|unfold generate_array; by rewrite length_replicate|].
  cbn [heap] in Hh.
  destruct (free_loop_ok sats gim nsats) with (k := 0%nat) (s := mkGen (draws s1) (heap g')) as (s2 & Hfree & Hu2).
  { intros k t Hk. destruct (Hgen k t Hk) as (_ & Hgi & _). split; [done|].
    by apply (Forall_lookup_1 _ _ _ _ (proj2 Hwf)) in Hk as []. }
  { by rewrite (proj1 Hwf). }
  assert (Hle : gim <= Sched.INT_MAX).
  { enough (gim + 1 <= (gim + 1) ^ Z.of_nat nsats) by lia. rewrite <- (Z.pow_1_r (gim + 1)) at 1. apply Z.pow_le_mono_r; lia. }
  assert (Hns : Z.of_nat nsats <= Sched.INT_MAX) by nia.
  assert (Es : search fuel ntasks nsats gim s = Ok (Some (sats, sol, best g'), mkGen (draws s2) (used s2 - 1 - 1 - 1))).
  { unfold search. do 2 (erewrite st_bind_ok by reflexivity).
    rewrite (st_obind_ok _ _ _ _ _ E). erewrite st_bind_ok by reflexivity.
    unfold st_bind at 1, st_lift. rewrite E'. cbn [fst snd]. erewrite st_bind_ok by reflexivity.
    unfold free_satellites. rewrite <- st_bind_assoc, (st_bind_ok _ _ _ _ _ Hfree). reflexivity. }
  exists sats, sol, (best g'), (mkGen (draws s2) (used s2 - 1 - 1 - 1)). split_and!.
  - unfold sched_main, arguments. rewrite !atoi_pretty by lia. cbn [mbind outcome_bind]. unfold st_bind at 1, st_lift at 1.
    rewrite !(proj2 (Z.ltb_ge _ _)) by lia. cbn [orb]. rewrite !Nat2Z.id.
    by rewrite (st_bind_ok _ _ _ _ _ Es).
  - cbn [used] in *. lia.
  - exact (proj1 Hwf).
  - exact Hgen.
  - intros c Hv Hr. apply Hmax. split_and!; [done|done|]. by eapply generated_not_deleted.
  - destruct Hsol as [[-> ->]|((Hv & Hr & _) & Hsc & Hlt)]; [by left|by right].
Qed.

(** Any other number of arguments: the usage. *)
Lemma sched_main_usage `{Rand} fuel argv s : length argv <> 4%nat -> sched_main fuel argv s = Ok (Usage, s).
Proof. intros Hl. unfold sched_main, st_bind. by destruct argv as [|? [|? [|? [|? [|? ?]]]]]. Qed.

(** With the generator of the C standard. *)
Lemma sched_main_optimal_witness : exists sats solution m s',
  @sched_main c_rand (3 * c_period) ["shed"; pretty 3; pretty 2; pretty 2]%string (mkGen 0 0) = Ok (Searched sats solution m, s') /\ used s' = 0 /\
  length sats = 2%nat /\ (forall k t, sats !! k = Some t -> generated_sat 3 2 k t) /\
  (forall c, valid_comb sats c -> 0 < rank sats c -> f_lt m (score 3 sats c) = false) /\
  (m = f_zero /\ solution = generate_array 2 \/
   valid_comb sats solution /\ 0 < rank sats solution /\ score 3 sats solution = m /\ f_lt f_zero m = true).
Proof.
  refine (@sched_main_optimal c_rand c_period (3 * c_period) "shed" 3 2 2 (mkGen 0 0) _ _ _ _ (c_rand_fair 3 _) (le_n _));
    [|lia|lia|by vm_compute|lia].
  unfold sizes_ok, Sched.INT_MAX. lia.
Defined.
