(* ===== verification/SchedMat.v ===== *)
(** * SchedMat: matrices and printing, the rest of [src/src/Architecture/Scheduler/shed_mat.c].

    The program declares these functions and calls none of them.  A matrix is a block of
    pointers to blocks of cells; a pointer or a cell that was never written is [None] and
    must not be used.  [live] counts the blocks in use; [malloc_ok] says which allocations
    succeed. *)

From S2P Require Import Prelude Hoare Float32 Float64 JsonTree Sched.
From stdpp Require Import pretty.
#[local] Open Scope Z_scope.

Record Mem := mkMem { live : Z; calls : nat }.

(** ** Matrices. *)

Section Matrices.
Context (malloc_ok : nat -> bool).

Definition mem_malloc : ST Mem bool := fun m =>
  let ok := malloc_ok (calls m) in Ok (ok, mkMem (live m + if ok then 1 else 0) (S (calls m))).

Definition mem_free : ST Mem unit := st_modify (fun m => mkMem (live m - 1) (calls m)).

(** The rows that are left to allocate: the result and the pointers, unset from the
    first failure on. *)
Fixpoint rows_loop {A} (row : A) (n : nat) : ST Mem (Z * list (option A)) :=
  match n with
  | O => st_ret (0, [])
  | S n =>
      let! ok := mem_malloc in
      if negb ok then st_ret (-1, replicate (S n) None)
      else let! (ret, l) := rows_loop row n in st_ret (ret, Some row :: l)
  end.

(** A block of pointers and the blocks they point to; NULL is [None]. *)
Definition generate_rows {A} (row : A) (n : nat) : ST Mem (Z * option (list (option A))) :=
  let! ok := mem_malloc in
  if negb ok then st_ret (-1, None)
  else let! (ret, l) := rows_loop row n in st_ret (ret, Some l).

Definition generate_2D_matrix_float (rows cols : nat) : ST Mem (Z * option (list (option (list (option float))))) :=
  generate_rows (replicate cols None) rows.

Definition generate_2D_matrix_int (rows cols : nat) : ST Mem (Z * option (list (option (list (option Z))))) :=
  generate_rows (replicate cols None) rows.

(** The second loop of [generate_3D_matrix]: the rows of one page after the other. *)
Fixpoint pages_loop {A} (row : A) (rows n : nat) : ST Mem (Z * list (option (list (option A)))) :=
  match n with
  | O => st_ret (0, [])
  | S n =>
      let! (ret, page) := rows_loop row rows in
      if negb (ret =? 0) then st_ret (ret, Some page :: replicate n (Some (replicate rows None)))
      else let! (ret, l) := pages_loop row rows n in st_ret (ret, Some page :: l)
  end.

Definition generate_3D_matrix (rows cols pages : nat) :
    ST Mem (Z * option (list (option (list (option (list (option Z))))))) :=
  let! (ret, matrix) := generate_rows (replicate rows (@None (list (option Z)))) pages in
  match matrix with
  | None => st_ret (ret, None)
  | Some l =>
      if negb (ret =? 0) then st_ret (ret, Some l)
      else let! (ret, l) := pages_loop (replicate cols None) rows pages in st_ret (ret, Some l)
  end.

(** [free(matrix[j])] for [j < n]. *)
Fixpoint free_rows {A} (n : nat) (matrix : list (option A)) : ST Mem unit :=
  match n, matrix with
  | O, _ => st_ret tt
  | S n, Some _ :: matrix => do! mem_free in free_rows n matrix
  | S _, _ => st_ub
  end.

Definition free_2D_matrix {A} (rows : nat) (matrix : list (option A)) : ST Mem unit :=
  do! free_rows rows matrix in mem_free.

Fixpoint free_pages {A} (pages rows : nat) (matrix : list (option (list (option A)))) : ST Mem unit :=
  match pages, matrix with
  | O, _ => st_ret tt
  | S pages, Some page :: matrix => do! free_rows rows page in free_pages pages rows matrix
  | S _, _ => st_ub
  end.

Definition free_3D_matrix {A} (pages rows : nat) (matrix : list (option (list (option A)))) : ST Mem unit :=
  do! free_pages pages rows matrix in
  do! free_rows pages matrix in
  mem_free.

(** ** What is allocated is released. *)

(** The pointers that are set. *)
Definition set_rows {A} (l : list (option A)) : nat := length (omap id l).

Lemma set_rows_cons {A} (x : A) l : set_rows (Some x :: l) = S (set_rows l).
Proof. done. Qed.

Lemma set_rows_none {A} n : set_rows (replicate n (@None A)) = 0%nat.
Proof. by induction n. Qed.

(** An allocation fails between two states. *)
Definition refused (m m' : Mem) : Prop := exists n, (calls m <= n < calls m')%nat /\ malloc_ok n = false.

Lemma refused_l m1 m2 m3 : refused m1 m2 -> (calls m2 <= calls m3)%nat -> refused m1 m3.
Proof. intros (n & Hn & E) H. exists n. split; [lia|done]. Qed.

Lemma refused_r m1 m2 m3 : refused m2 m3 -> (calls m1 <= calls m2)%nat -> refused m1 m3.
Proof. intros (n & Hn & E) H. exists n. split; [lia|done]. Qed.

Lemma mem_malloc_run m : exists ok : bool, mem_malloc m = Ok (ok, mkMem (live m + if ok then 1 else 0) (S (calls m))) /\
  (ok = false -> refused m (mkMem (live m) (S (calls m)))).
Proof. eexists. split; [reflexivity|]. intros E. exists (calls m). cbn. split; [lia|done]. Qed.

Lemma rows_loop_run {A} (row : A) n m : exists ret l m', rows_loop row n m = Ok ((ret, l), m') /\
  (calls m <= calls m')%nat /\
  (ret = 0 /\ l = replicate n (Some row) /\ live m' = live m + Z.of_nat n \/
   ret = -1 /\ refused m m' /\ live m' = live m + Z.of_nat (set_rows l)).
Proof.
  revert m. induction n as [|n IH]; intros m; cbn [rows_loop].
  { do 3 eexists. split; [reflexivity|]. split; [done|]. left. split_and!; [done|done|lia]. }
  destruct (mem_malloc_run m) as (ok & E & Hf). rewrite (st_bind_ok _ _ _ _ _ E). destruct ok; cbn [negb].
  - destruct (IH (mkMem (live m + 1) (S (calls m)))) as (ret & l & m' & E' & Hc & Hr). cbn in Hc.
    rewrite (st_bind_ok _ _ _ _ _ E'). do 3 eexists. split; [reflexivity|]. split; [lia|].
    destruct Hr as [(-> & -> & Hl)|(-> & Hr & Hl)]; cbn [live] in Hl.
    + left. split_and!; [done|done|lia].
    + right. split_and!; [done|eapply refused_r; [done|cbn; lia]|]. rewrite set_rows_cons. lia.
  - do 3 eexists. split; [reflexivity|]. cbn [calls live]. split; [lia|]. right. split_and!; [done| |].
    + destruct (Hf eq_refl) as (k & Hk & Ek). by exists k.
    + rewrite set_rows_none. lia.
Qed.

Lemma free_rows_run {A} (row : A) n m : free_rows n (replicate n (Some row)) m = Ok (tt, mkMem (live m - Z.of_nat n) (calls m)).
Proof.
  revert m. induction n as [|n IH]; intros m; cbn [free_rows replicate].
  - unfold st_ret. destruct m. do 3 f_equal. cbn. lia.
  - unfold st_bind, mem_free, st_modify. rewrite IH. cbn. do 3 f_equal. lia.
Qed.

Lemma generate_rows_run {A} (row : A) n m : exists ret o m', generate_rows row n m = Ok ((ret, o), m') /\
  (calls m <= calls m')%nat /\
  (ret = 0 /\ o = Some (replicate n (Some row)) /\ live m' = live m + 1 + Z.of_nat n \/
   ret = -1 /\ refused m m' /\ live m' = live m + match o with Some l => 1 + Z.of_nat (set_rows l) | None => 0 end).
Proof.
  unfold generate_rows. destruct (mem_malloc_run m) as (ok & E & Hf). rewrite (st_bind_ok _ _ _ _ _ E). destruct ok; cbn [negb].
  - destruct (rows_loop_run row n (mkMem (live m + 1) (S (calls m)))) as (ret & l & m' & E' & Hc & Hr). cbn in Hc, Hr.
    rewrite (st_bind_ok _ _ _ _ _ E'). do 3 eexists. split; [reflexivity|]. split; [lia|].
    destruct Hr as [(-> & -> & Hl)|(-> & Hr & Hl)]; [left; split_and!; [done|done|lia]|].
    right. split_and!; [done|eapply refused_r; [done|cbn; lia]|lia].
  - do 3 eexists. split; [reflexivity|]. cbn. split; [lia|]. right. split_and!; [done| |lia].
    destruct (Hf eq_refl) as (k & Hk & Ek). by exists k.
Qed.

(** Two dimensions.  The matrix is generated and releasing it gives every block back; or an
    allocation failed, and what had been allocated stays in use. *)
Theorem matrix_2D_released {A} rows cols m :
  exists ret o m', generate_rows (replicate cols (@None A)) rows m = Ok ((ret, o), m') /\
    (ret = 0 /\ (exists l m2, o = Some l /\ free_2D_matrix rows l m' = Ok (tt, m2) /\ live m2 = live m) \/
     ret = -1 /\ refused m m' /\
       live m' = live m + match o with Some l => 1 + Z.of_nat (set_rows l) | None => 0 end).
Proof.
  destruct (generate_rows_run (replicate cols (@None A)) rows m) as (ret & o & m' & E & Hc & Hr).
  exists ret, o, m'. split; [done|]. destruct Hr as [(-> & -> & Hl)|Hr]; [left|by right]. split; [done|].
  do 2 eexists. split; [done|]. unfold free_2D_matrix. rewrite (st_bind_ok _ _ _ _ _ (free_rows_run _ _ _)).
  split; [reflexivity|]. cbn. lia.
Qed.

(** Three dimensions. *)
Lemma pages_loop_run {A} (row : A) rows n m : exists ret l m', pages_loop row rows n m = Ok ((ret, l), m') /\
  (calls m <= calls m')%nat /\
  (ret = 0 /\ l = replicate n (Some (replicate rows (Some row))) /\ live m' = live m + Z.of_nat (n * rows) \/
   ret = -1 /\ refused m m' /\ live m <= live m').
Proof.
  revert m. induction n as [|n IH]; intros m; cbn [pages_loop].
  { do 3 eexists. split; [reflexivity|]. split; [done|]. left. split_and!; [done|done|lia]. }
  destruct (rows_loop_run row rows m) as (ret & page & m1 & E & Hc & Hr). rewrite (st_bind_ok _ _ _ _ _ E).
  destruct Hr as [(-> & -> & Hl)|(-> & Hr & Hl)].
  - destruct (IH m1) as (ret & l & m2 & E2 & Hc2 & Hr2). change (0 =? 0) with true. cbn [negb].
    rewrite (st_bind_ok _ _ _ _ _ E2). do 3 eexists. split; [reflexivity|]. split; [lia|].
    destruct Hr2 as [(-> & -> & Hl2)|(-> & Hr2 & Hl2)]; [left; split_and!; [done|done|lia]|].
    right. split_and!; [done|by eapply refused_r|lia].
  - change (-1 =? 0) with false. cbn [negb]. do 3 eexists. split; [reflexivity|]. split; [done|]. right. split_and!; [done|done|lia].
Qed.

Lemma free_pages_run {A} (row : A) rows n m :
  free_pages n rows (replicate n (Some (replicate rows (Some row)))) m = Ok (tt, mkMem (live m - Z.of_nat (n * rows)) (calls m)).
Proof.
  revert m. induction n as [|n IH]; intros m; cbn [free_pages replicate].
  - unfold st_ret. destruct m. do 3 f_equal. cbn. lia.
  - rewrite (st_bind_ok _ _ _ _ _ (free_rows_run _ _ _)), IH. cbn. do 3 f_equal. lia.
Qed.

Theorem matrix_3D_released rows cols pages m :
  exists ret o m', generate_3D_matrix rows cols pages m = Ok ((ret, o), m') /\
    (ret = 0 /\ (exists l m2, o = Some l /\ free_3D_matrix pages rows l m' = Ok (tt, m2) /\ live m2 = live m) \/
     ret = -1 /\ refused m m' /\ live m <= live m').
Proof.
  unfold generate_3D_matrix.
  destruct (generate_rows_run (replicate rows (@None (list (option Z)))) pages m) as (ret & o & m1 & E & Hc & Hr).
  rewrite (st_bind_ok _ _ _ _ _ E). destruct Hr as [(-> & -> & Hl)|(-> & Hr & Hl)].
  - change (0 =? 0) with true. cbn [negb].
    destruct (pages_loop_run (replicate cols (@None Z)) rows pages m1) as (ret & l & m2 & E2 & Hc2 & Hr2).
    rewrite (st_bind_ok _ _ _ _ _ E2). do 3 eexists. split; [reflexivity|].
    destruct Hr2 as [(-> & -> & Hl2)|(-> & Hr2 & Hl2)]; [left|right; split_and!; [done|by eapply refused_r|lia]].
    split; [done|]. do 2 eexists. split; [done|]. unfold free_3D_matrix.
    rewrite (st_bind_ok _ _ _ _ _ (free_pages_run _ _ _ _)), (st_bind_ok _ _ _ _ _ (free_rows_run _ _ _)).
    split; [reflexivity|]. cbn. lia.
  - change (-1 =? 0) with false. cbn [negb].
    destruct o as [l|]; do 3 eexists; (split; [reflexivity|]); right; split_and!; done || lia.
Qed.

End Matrices.

(** ** Printing: the text that is written. *)

Definition newline : string := String (Ascii.ascii_of_nat 10) EmptyString.

(** [for (i = 0; i < n; i++)]: the texts of the elements, one after the other.  Elements that
    do not exist, or were never written, must not be read. *)
Fixpoint print_loop {A} (item : A -> outcome string) (n : nat) (l : list A) : outcome string :=
  match n, l with
  | O, _ => Ok EmptyString
  | S n, x :: l => s ← item x; rest ← print_loop item n l; Ok (String.append s rest)
  | S _, [] => UB
  end.

(** A cell or a pointer that was written. *)
Definition written {A B} (f : A -> outcome B) (o : option A) : outcome B :=
  match o with Some a => f a | None => UB end.

Definition int_text (z : Z) : outcome string := Ok (String.append (pretty z) " ").
Definition float_text (digits : nat) (x : float) : outcome string :=
  Ok (String.append (format_f digits (d_of_float x)) " ").

(** [printf("%s: ", label)] and what follows on the line. *)
Definition print_array (label : string) (array : list (option Z)) (length : nat) : outcome string :=
  s ← print_loop (written int_text) length array;
  Ok (String.append label (String.append ": " (String.append s newline))).

Definition print_array_float (label : string) (array : list (option float)) (length : nat) : outcome string :=
  s ← print_loop (written (float_text 2)) length array;
  Ok (String.append label (String.append ": " (String.append s newline))).

(** A line of a matrix. *)
Definition print_row {A} (item : A -> outcome string) (cols : nat) (row : list (option A)) : outcome string :=
  s ← print_loop (written item) cols row; Ok (String.append s newline).

Definition print_2D {A} (item : A -> outcome string) (label : string) (array : list (option (list (option A)))) (rows cols : nat) :
    outcome string :=
  s ← print_loop (written (print_row item cols)) rows array;
  Ok (String.append label (String.append ":" (String.append newline (String.append s newline)))).

Definition print_2D_array_int : string -> list (option (list (option Z))) -> nat -> nat -> outcome string := print_2D int_text.
Definition print_2D_array_float : string -> list (option (list (option float))) -> nat -> nat -> outcome string :=
  print_2D (float_text 1).

Definition print_3D_array (label : string) (array : list (option (list (option (list (option Z)))))) (pages rows cols : nat) :
    outcome string :=
  s ← print_loop (written (fun page => s ← print_loop (written (print_row int_text cols)) rows page; Ok (String.append s newline)))
        pages array;
  Ok (String.append label (String.append ":" (String.append newline (String.append s newline)))).

(** The figures of merit: a satellite with fewer solutions gets zeros. *)
Definition print_F_row (gim : nat) (sat : Satellite) : outcome string :=
  let n := Nat.min gim (Z.to_nat (golden_index sat)) in
  s ← print_loop (fun ls => float_text 2 (ls_F ls)) n (local_solutions sat);
  Ok (String.append s (String.append (String.concat EmptyString (replicate (gim - n) "0 "%string)) newline)).

Definition print_F_matrix (nsats gim : nat) (sats : list Satellite) : outcome string :=
  s ← print_loop (print_F_row gim) nsats sats; Ok (String.append s newline).

Definition print_t_row (ntasks : nat) (ls : LocalSolution) : outcome string :=
  s ← print_loop int_text ntasks (ls_tasks ls); Ok (String.append s newline).

Definition print_t_matrix (nsats ntasks : nat) (sats : list Satellite) : outcome string :=
  s ← print_loop (fun sat =>
        s ← print_loop (print_t_row ntasks) (Z.to_nat (golden_index sat)) (local_solutions sat);
        Ok (String.append s newline)) nsats sats;
  Ok (String.append s newline).

Definition is_Ok {A} (o : outcome A) : Prop := exists a, o = Ok a.

(** Printing is defined exactly when every element is there and can be printed. *)
Lemma print_loop_defined {A} (item : A -> outcome string) n l :
  is_Ok (print_loop item n l) <-> (n <= length l)%nat /\ Forall (fun x => is_Ok (item x)) (take n l).
Proof.
  revert l. induction n as [|n IH]; intros l.
  { cbn. split; [by split; [lia|constructor]|by eexists]. }
  destruct l as [|x l]; cbn [print_loop take length].
  { split; [by intros [? ?]|intros [? _]; lia]. }
  rewrite Forall_cons. pose proof (IH l) as IHl. destruct (item x) as [s|] eqn:E; cbn [mbind outcome_bind].
  - destruct (print_loop item n l) as [r|]; cbn [mbind outcome_bind].
    + destruct (proj1 IHl) as [H1 H2]; [by eexists|]. split; [|by eexists]. intros _. split; [lia|]. split; [by eexists|done].
    + split; [by intros [? ?]|]. intros (H1 & _ & H2). destruct (proj2 IHl) as [? ?]; [|done]. split; [lia|done].
  - split; [by intros [? ?]|by intros (_ & [? ?] & _)].
Qed.

Example two_satellites :
  print_F_matrix 2 2 [mkSat 0 1 [mkLocal 0 (f_of_int 3) [1]]; mkSat 1 2 [mkLocal 0 (f_of_int 2) [0]; mkLocal 1 (f_of_int 1) [1]]]
  = Ok (String.append "3.00 0 " (String.append newline (String.append "2.00 1.00 " (String.append newline newline)))).
Proof. vm_compute. reflexivity. Qed.
