(* ===== verification/CommsTest.v ===== *)
(** * CommsTest: the timing of the transceiver test, [src/src/Arduino/comms_test/comms_test.ino].

    The test sets a flag when an operation of the transceiver is over; the interrupt
    of the timer counts its own calls and reports the time since the last flag.  An [int]
    of the board has 16 bits.  [loop], which writes to a packet it has released, is
    not modelled. *)

From S2P Require Import Prelude.

Definition TIMER_INTERVAL : Z := 50.

Definition INT16_MAX : Z := 32767.

(** The value of an [int] expression. *)
Definition int16 (z : Z) : outcome Z :=
  if (- INT16_MAX - 1 <=? z) && (z <=? INT16_MAX) then Ok z else UB.

Inductive Timed := Configuration | ChangeX | Transmit.

(** The flags and times of the three operations; [tm_serial] is what was reported. *)
Record Timing := mkTiming {
  timer : Z;
  config_done : bool; config_time : Z;
  changex_done : bool; changex_time : Z;
  transmit_done : bool; transmit_time : Z;
  tm_serial : list (Timed * Z)
}.

(** [timer * TIMER_INTERVAL / 1000]. *)
Definition elapsed (timer : Z) : outcome Z :=
  match int16 (timer * TIMER_INTERVAL) with Ok us => Ok (us ÷ 1000) | UB => UB end.

Definition events_routine : ST Timing unit :=
  let! t := st_get in
  let! t :=
    (if config_done t then
       let! ms := st_lift (elapsed (timer t)) in
       st_ret (mkTiming 0 false ms (changex_done t) (changex_time t) (transmit_done t) (transmit_time t)
                 (tm_serial t ++ [(Configuration, ms)]))
     else if changex_done t then
       let! ms := st_lift (elapsed (timer t)) in
       st_ret (mkTiming 0 false (config_time t) false ms (transmit_done t) (transmit_time t)
                 (tm_serial t ++ [(ChangeX, ms)]))
     else if transmit_done t then
       let! ms := st_lift (elapsed (timer t)) in
       st_ret (mkTiming 0 false (config_time t) false (changex_time t) false ms
                 (tm_serial t ++ [(Transmit, ms)]))
     else st_ret t) in
  let! n := st_lift (int16 (timer t + 1)) in
  st_put (mkTiming n (config_done t) (config_time t) (changex_done t) (changex_time t)
            (transmit_done t) (transmit_time t) (tm_serial t)).

(** Further calls of the interrupt. *)
Fixpoint interrupts (n : nat) : ST Timing unit :=
  match n with
  | O => st_ret tt
  | S n' => do! events_routine in interrupts n'
  end.

(** ** How long a time it can measure. *)

#[export] Instance timed_eq_dec : EqDecision Timed.
Proof. solve_decision. Defined.

(** The program sets the flag of [o]. *)
Definition finished (o : Timed) (t : Timing) : Timing :=
  mkTiming (timer t)
    (bool_decide (o = Configuration) || config_done t) (config_time t)
    (bool_decide (o = ChangeX) || changex_done t) (changex_time t)
    (bool_decide (o = Transmit) || transmit_done t) (transmit_time t) (tm_serial t).

Definition no_flags (t : Timing) : Prop :=
  config_done t = false /\ changex_done t = false /\ transmit_done t = false.

Lemma int16_ok z : 0 <= z <= INT16_MAX -> int16 z = Ok z.
Proof. unfold int16, INT16_MAX. intros Hz. by rewrite !(proj2 (Z.leb_le _ _)) by lia. Qed.

Lemma int16_over z : INT16_MAX < z -> int16 z = UB.
Proof. unfold int16. intros Hz. by rewrite (proj2 (Z.leb_gt _ _) Hz), andb_false_r. Qed.

Lemma elapsed_ok n : 0 <= n <= 655 -> elapsed n = Ok (n / 20).
Proof.
  intros Hn. unfold elapsed, TIMER_INTERVAL. rewrite int16_ok by (unfold INT16_MAX; lia).
  rewrite Z.quot_div_nonneg by lia. f_equal. change 1000 with (20 * 50). apply Z.div_mul_cancel_r; lia.
Qed.

Lemma elapsed_over n : 655 < n -> elapsed n = UB.
Proof. intros Hn. unfold elapsed, TIMER_INTERVAL. by rewrite int16_over by (unfold INT16_MAX; lia). Qed.

(** Without a flag the interrupt only counts. *)
Lemma interrupts_count n : forall t, no_flags t -> 0 <= timer t -> timer t + Z.of_nat n <= INT16_MAX ->
  exists t', interrupts n t = Ok (tt, t') /\ no_flags t' /\ timer t' = timer t + Z.of_nat n /\
    tm_serial t' = tm_serial t.
Proof.
  induction n as [|n IH]; intros t (Hc & Hx & Ht) H0 Hn.
  - exists t. split_and!; try done. lia.
  - cbn [interrupts].
    set (t1 := mkTiming (timer t + 1) false (config_time t) false (changex_time t) false (transmit_time t) (tm_serial t)).
    rewrite (st_bind_ok _ _ _ tt t1).
    2:{ unfold events_routine, st_bind, st_get, st_ret, st_lift, st_put. rewrite Hc, Hx, Ht.
        by rewrite int16_ok, Hc, Hx, Ht by lia. }
    destruct (IH t1) as (t' & E & Hf & Hk & Hs); [done|cbn; lia|cbn; lia|].
    exists t'. cbn in *. split_and!; try done; [apply Hf..|lia].
Qed.

(** An operation that ends [n] interrupts after the last one is reported with its
    time in ms, [n * 50 / 1000], when that is at most 32; after 656 interrupts, 32.8 ms, the product
    no longer fits an [int]. *)
Lemma operation_timed o n t : no_flags t -> timer t = 0 ->
  (Z.of_nat n <= 655 -> exists t', (do! interrupts n in do! st_modify (finished o) in events_routine) t = Ok (tt, t') /\
     no_flags t' /\ timer t' = 1 /\ tm_serial t' = tm_serial t ++ [(o, Z.of_nat n / 20)]) /\
  (655 < Z.of_nat n <= INT16_MAX ->
     (do! interrupts n in do! st_modify (finished o) in events_routine) t = UB).
Proof.
  intros Hf H0. assert (Hcount : Z.of_nat n <= INT16_MAX -> exists t1, interrupts n t = Ok (tt, t1) /\
    no_flags t1 /\ timer t1 = Z.of_nat n /\ tm_serial t1 = tm_serial t).
  { intros Hn. rewrite <- (Z.add_0_l (Z.of_nat n)), <- H0. apply interrupts_count; [done|lia|lia]. }
  split; intros Hn; destruct Hcount as (t1 & E & (Hc & Hx & Ht) & Hk & Hs); try (unfold INT16_MAX in *; lia);
    rewrite (st_bind_ok _ _ _ _ _ E), (st_bind_ok _ _ _ tt (finished o t1)) by done;
    unfold events_routine, st_bind, st_get, st_ret, st_lift, st_put;
    (destruct o; cbn [finished timer config_done changex_done transmit_done bool_decide decide
       timed_eq_dec orb]; rewrite ?Hc, ?Hx, ?Ht, Hk; cbn [orb]).
  1-3: rewrite elapsed_ok by lia; eexists; split; [reflexivity|]; unfold no_flags; cbn; by rewrite ?Hc, ?Hx, ?Ht, Hs.
  all: by rewrite elapsed_over by lia.
Qed.
