(* ===== verification/Charger.v ===== *)
(** * Charger: switching the charging of the battery, [src/src/Architecture/HWmods/TestBCD/bcd.c].

    The program prints the state of the battery, waits, and writes 1 or 0 to the
    file of the switch. *)

From S2P Require Import Prelude SchedMain.
From stdpp Require Import strings.
From Stdlib Require Import Ascii.
#[local] Open Scope Z_scope.

(** The token [fscanf] reads with [%s]. *)
Fixpoint take_token (s : string) : string :=
  match s with
  | String a s' => if is_space a then EmptyString else String a (take_token s')
  | EmptyString => EmptyString
  end.

(** [char text[100]]: without a token it is read unset, and a long one overruns it. *)
Definition bcd_state (info : option string) : outcome string :=
  match info with
  | None => UB  (* [fscanf] of NULL *)
  | Some content =>
      let text := take_token (skip_spaces content) in
      if (String.length text =? 0)%nat || (99 <? String.length text)%nat then UB else Ok text
  end.

(** The first character of an argument; a missing argument is NULL. *)
Definition first_char (arg : option string) : outcome Z :=
  match arg with
  | None => UB
  | Some EmptyString => Ok 0
  | Some (String a _) => Ok (Z.of_N (N_of_ascii a))
  end.

(** The value of a [char]. *)
Definition char_value (char_signed : bool) (c : Z) : Z := if char_signed && (128 <=? c) then c - 256 else c.

(** The seconds of the delay: [sleep] takes an [unsigned int]. *)
Definition bcd_delay (char_signed : bool) (argv : list string) : outcome Z :=
  if (1 <? length argv)%nat then
    match first_char (argv !! 2%nat) with
    | UB => UB
    | Ok c =>
        if 0 <? char_value char_signed c
        then match argv !! 2%nat with
             | Some arg => match atoi arg with Ok n => Ok (n mod 2 ^ 32) | UB => UB end
             | None => UB
             end
        else Ok 60
    end
  else Ok 60.

Record Charged := mkCharged { ch_printed : string; ch_delay : Z; ch_written : string; ch_exit : Z }.

(** [main]: [info] is the content of the file of the state, [opens] whether the file of the
    switch opens, [fprintf_ok] whether it can be written. *)
Definition bcd_main (char_signed : bool) (info : option string) (opens fprintf_ok : bool)
    (argv : list string) : outcome Charged :=
  match bcd_state info with
  | UB => UB
  | Ok text =>
      match bcd_delay char_signed argv with
      | UB => UB
      | Ok delay =>
          match first_char (argv !! 1%nat) with
          | UB => UB
          | Ok c =>
              if negb opens then UB  (* [fprintf] or [fclose] of NULL *)
              else
                let write (s : string) :=
                  if fprintf_ok then Ok (mkCharged text delay s 0) else Ok (mkCharged text delay "" (-1)) in
                if c =? 49 then write "1"%string
                else if c =? 48 then write "0"%string
                else Ok (mkCharged text delay "" 0)
          end
      end
  end.

(** Both arguments are needed, although the code provides for one that is missing. *)
Lemma bcd_needs_arguments char_signed info opens fprintf_ok argv :
  (length argv < 3)%nat -> bcd_main char_signed info opens fprintf_ok argv = UB.
Proof.
  intros Hl. unfold bcd_main, bcd_delay. destruct (bcd_state info); [|done].
  destruct argv as [|x [|y [|z argv]]]; cbn in *; [done|done|done|lia].
Qed.

(** With them the program waits as long as it is told to and writes its first argument. *)
Lemma bcd_switches char_signed info text prog on delay n argv :
  bcd_state info = Ok text -> atoi delay = Ok n ->
  0 <= n -> (exists d, first_char (Some delay) = Ok d /\ 0 < d < 128) ->
  on = "1"%string \/ on = "0"%string ->
  bcd_main char_signed info true true (prog :: on :: delay :: argv) = Ok (mkCharged text n on 0).
Proof.
  intros Hs Hn H0 (d & Hd & Hd0) Hon. unfold bcd_main, bcd_delay.
  change ((prog :: on :: delay :: argv) !! 2%nat) with (Some delay).
  change ((prog :: on :: delay :: argv) !! 1%nat) with (Some on). rewrite Hs, Hd, Hn. cbn [length Nat.ltb Nat.leb].
  replace (char_value char_signed d) with d.
  2:{ unfold char_value. rewrite (proj2 (Z.leb_gt _ _)) by lia. by rewrite andb_false_r. }
  rewrite (proj2 (Z.ltb_lt _ _)) by lia. rewrite Z.mod_small.
  - by destruct Hon as [-> | ->].
  - unfold atoi in Hn. destruct (_ && _) eqn:E in Hn; [|done]. injection Hn as <-.
    apply andb_true_iff in E as [_ E%Z.leb_le]. unfold Sched.INT_MAX in E. lia.
Qed.

Example bcd_on : bcd_main false (Some "POWER_SUPPLY_NAME=battery") true true ["bcd"; "1"; "5"]
  = Ok (mkCharged "POWER_SUPPLY_NAME=battery" 5 "1" 0).
Proof. reflexivity. Qed.

(** A negative delay waits more than a century. *)
Example bcd_negative : bcd_delay false ["bcd"; "1"; "-1"] = Ok 4294967295.
Proof. reflexivity. Qed.
