(* ===== verification/Mcsg.v ===== *)
(** * Mcsg: the command table generator, [src/src/Architecture/MCS/mcsg.c].

    The build runs [mcsg] to turn the command list [mcsg.json] into [auto_mcs.h],
    the tables the MCS library is compiled with, and [auto_mcs.java].  The parsed
    file is a tree of [cJSON] nodes ([Json]); the program walks its links, and a step
    through a NULL pointer is undefined.  A file being written is the text written
    so far.  The generator's own [malloc] succeeds. *)

From S2P Require Import Prelude.
From S2P Require Import Abs McsDefs Mcs Json.
From stdpp Require Import pretty.
From Stdlib Require Import Ascii.

(** ** Nodes. *)

(** A pointer to a node: the siblings before it, nearest first, and those from it
    on; NULL when there are none. *)
Record cursor := mkCursor { before : list cJSON; from_here : list cJSON }.

Definition first (l : list cJSON) : cursor := mkCursor [] l.

Definition deref (c : cursor) : outcome cJSON :=
  match from_here c with x :: _ => Ok x | [] => UB end.

Definition next (c : cursor) : outcome cursor :=
  match from_here c with x :: l => Ok (mkCursor (x :: before c) l) | [] => UB end.

Definition prev (c : cursor) : outcome cursor :=
  match from_here c with
  | [] => UB
  | l => match before c with y :: b => Ok (mkCursor b (y :: l)) | [] => Ok (mkCursor [] []) end
  end.

Definition go_child (c : cursor) : outcome cursor := x ← deref c; Ok (first (child x)).
Definition get_int (c : cursor) : outcome Z := x ← deref c; Ok (valueint x).

(** A string that is printed or compared must not be NULL. *)
Definition nonnull (s : option string) : outcome string :=
  match s with Some s => Ok s | None => UB end.
Definition get_string (c : cursor) : outcome string := x ← deref c; nonnull (valuestring x).
Definition get_name (c : cursor) : outcome string := x ← deref c; nonnull (json_string x).

(** ** Output. *)

Definition newline : ascii := ascii_of_nat 10.
Definition dquote : ascii := ascii_of_nat 34.

(** Literal text: a bar stands for a new line and a quote for a double quote. *)
Fixpoint txt (s : string) : string :=
  match s with
  | EmptyString => EmptyString
  | String a s =>
      String (if Ascii.eqb a "|" then newline else if Ascii.eqb a "'" then dquote else a) (txt s)
  end.

Definition cat : list string -> string := foldr String.append EmptyString.

Definition fprintf (s : string) : ST string unit := st_modify (fun out => String.append out s).

Section Print.
#[local] Open Scope string_scope.
#[local] Open Scope list_scope.
#[local] Open Scope Z_scope.

Definition toupper (a : ascii) : ascii :=
  let n := nat_of_ascii a in
  if (97 <=? n)%nat && (n <=? 122)%nat then ascii_of_nat (n - 32) else a.

Fixpoint str_to_upper (s : string) : string :=
  match s with
  | EmptyString => EmptyString
  | String a s => String (toupper a) (str_to_upper s)
  end.

(** ** Commands. *)

Definition MCSG_INT_SIZE : Z := 4.
Definition MCSG_FLOAT_SIZE : Z := 8.
Definition MCSG_STRING_SIZE : Z := -1.
Definition MCSG_TYPE_MESSAGE_DEC : Z := 0.
Definition MCSG_TYPE_STATE_DEC : Z := 65536.
Definition MCSG_TYPE_PAYLOAD_DEC : Z := 131072.

(** The fifth member; any other word is the type of a message. *)
Definition mcsg_type_identifier (json : cJSON) : outcome Z :=
  c ← next (first (child json));
  c ← next c; c ← next c; c ← next c;
  t ← get_string c;
  Ok (if bool_decide (t = "message") then MCS_TYPE_MESSAGE
      else if bool_decide (t = "state") then MCS_TYPE_STATE
      else if bool_decide (t = "payload") then MCS_TYPE_PAYLOAD
      else 0).

Abbreviation step f c := (st_lift (f c)).

(** The lines the three translators begin with; they go on at the member [config]. *)
Definition print_common (json : cJSON) : ST string cursor :=
  let c := first (child json) in
  let! name := step get_string c in
  do! fprintf (cat [txt "    {|    .cmd = {|        .name = '"; name; txt "',|"]) in
  let! c := step next c in
  let! desc := step get_string c in
  do! fprintf (cat ["        /*"; desc; txt "*/|"]) in
  let! c := step next c in
  let! nargs := step get_int c in
  do! fprintf (cat ["        .nargs = "; pretty nargs; txt ",|"]) in
  let! c := step next c in
  let! raw := step get_int c in
  do! (if negb (raw =? 0) then fprintf (txt "        .raw_data = true,|")
       else fprintf (txt "        .raw_data = false,|")) in
  let! c := step next c in
  let! c := step next c in
  step go_child c.

(** The [while] over the origin groups: the group printed is the one before the step. *)
Fixpoint origin_loop (subitem : cJSON) (rest : list cJSON) : ST string unit :=
  match rest with
  | [] => st_ret tt
  | x :: rest =>
      let! name := st_lift (nonnull (valuestring subitem)) in
      do! fprintf (cat [", SDB_GROUP_"; str_to_upper name]) in
      origin_loop x rest
  end.

(** The [while] over the destination groups. *)
Fixpoint dest_loop (rest : list cJSON) : ST string unit :=
  match rest with
  | [] => st_ret tt
  | x :: rest =>
      let! name := st_lift (nonnull (valuestring x)) in
      do! fprintf (cat [", SDB_GROUP_"; str_to_upper name]) in
      dest_loop rest
  end.

(** The groups of an array: the first one, then what [loop] prints. *)
Definition print_groups (loop : cJSON -> list cJSON -> ST string unit) (json : cJSON) : ST string unit :=
  match child json with
  | [] => st_ret tt
  | subitem :: rest =>
      let! name := st_lift (nonnull (valuestring subitem)) in
      do! fprintf (cat ["SDB_GROUP_"; str_to_upper name]) in
      loop subitem rest
  end.

Definition mcsg_message_translator (json : cJSON) : ST string unit :=
  let! c := print_common json in
  let! subitem := step next c in
  let! subitem := step next subitem in
  let! subitem := step next subitem in
  let! size := step get_int subitem in
  do! fprintf (cat ["        .response_size = "; pretty size; txt ",|"]) in
  do! fprintf (txt "    },|") in
  let! json := step deref c in
  do! match valuestring json with
      | None => fprintf (txt "    .destination = NULL,|")
      | Some s => fprintf (cat [txt "    .destination = '"; s; txt "',|"])
      end in
  let! c := step next c in
  do! fprintf "    .origin_groups = {" in
  let! json := step deref c in
  do! print_groups origin_loop json in
  do! fprintf (txt "},|") in
  let! c := step next c in
  do! fprintf "    .destination_groups = {" in
  let! json := step deref c in
  do! print_groups (fun _ => dest_loop) json in
  do! fprintf (txt "},|") in
  fprintf (txt "    },|").

Definition print_expire (json : cJSON) : ST string unit :=
  let subitem := first (child json) in
  let! group := step get_name subitem in
  let! expire := step get_int subitem in
  fprintf (cat ["            { .group = SDB_GROUP_"; str_to_upper group; ", .max_expire = ";
    pretty expire; txt " },|"]).

Fixpoint expire_loop (l : list cJSON) : ST string unit :=
  match l with
  | [] => st_ret tt
  | x :: l => do! print_expire x in expire_loop l
  end.

(** The product of two [int]s, undefined when it is not one. *)
Definition int_mul (a b : Z) : outcome Z :=
  if (- 2 ^ 31 <=? a * b) && (a * b <? 2 ^ 31) then Ok (a * b) else UB.

Definition mcsg_state_translator (json : cJSON) : ST string unit :=
  let! c := print_common json in
  let! c := step next c in
  let! subitem := step next c in
  let! return_type := step get_string subitem in
  let! dimensions := step get_int c in
  let! size := st_lift (int_mul dimensions
    (if bool_decide (return_type = "int") then MCSG_INT_SIZE
     else if bool_decide (return_type = "float") then MCSG_FLOAT_SIZE else MCSG_STRING_SIZE)) in
  do! fprintf (cat ["        .response_size = "; pretty size; txt ",|"]) in
  let! c := step prev c in
  let! request := step get_string c in
  do! fprintf (cat [txt "    },|    .request = "; request; txt ",|"]) in
  let! c := step next c in
  let! dimensions := step get_int c in
  do! fprintf (cat ["    .dimensions = "; pretty dimensions; txt ",|"]) in
  let! c := step next c in
  let! c := step next c in
  let! unit_name := step get_string c in
  do! fprintf (cat ["    /*Unit: "; unit_name; txt "*/|"]) in
  let! c := step next c in
  let! v := step get_int c in
  do! (if (v =? 0) then fprintf (txt "    /*Dimension_name: NULL*/|")
       else let! s := step get_string c in
            fprintf (cat ["    /*Dimension_name: "; s; txt "*/|"])) in
  let! c := step next c in
  let! json := step deref c in
  do! match child json with
      | [] => fprintf (txt "    .expire_group = NULL,|")
      | x :: l =>
          do! fprintf (txt "    .expire_group = {|") in
          do! print_expire x in
          do! expire_loop l in
          fprintf (txt "        },|")
      end in
  fprintf (txt "    },|").

Definition mcsg_payload_translator (json : cJSON) : ST string unit :=
  let! c := print_common json in
  let! subitem := step next c in
  let! subitem := step next subitem in
  let! subitem := step next subitem in
  let! subitem := step next subitem in
  let! size := step get_int subitem in
  do! fprintf (cat ["        .response_size = "; pretty size; txt ",|"]) in
  do! fprintf (txt "    },|") in
  let! command := step get_int c in
  do! fprintf (cat ["    .command = "; pretty command; txt ",|"]) in
  let! c := step next c in
  let! parameters := step get_int c in
  do! fprintf (cat ["    .parameters = "; pretty parameters; txt ",|"]) in
  let! c := step next c in
  let! arguments := step get_string c in
  do! fprintf (cat [txt "    .arguments = '"; arguments; txt "',|"]) in
  let! c := step next c in
  let! v := step get_int c in
  do! (if (v =? 0) then fprintf (txt "    .data = NULL,|")
       else let! s := step get_string c in
            fprintf (cat [txt "    .data = '"; s; txt "',|"])) in
  fprintf (txt "    },|").

(** ** The reader. *)

Record MCSGEnumList := mkEnum { enum_name : string; enum_value : Z }.

(** The linked lists, each appended to through a pointer to its last cell. *)
Record MCSGCommandList := mkCommandList {
  messages : list cJSON;
  states : list cJSON;
  payloads : list cJSON;
  enums : list MCSGEnumList
}.

(** The [do ... while] over the commands.  The three counters are the arguments.
    An unknown type would free [command_name] a second time. *)
Fixpoint reader_loop (cmds : list cJSON) (count_message count_state count_payload : Z)
    (l : MCSGCommandList) : outcome MCSGCommandList :=
  match cmds with
  | [] => Ok l
  | json :: cmds =>
      type_id ← mcsg_type_identifier json;
      if (type_id =? MCS_TYPE_MESSAGE) then
        name ← get_string (first (child json));
        reader_loop cmds (count_message + 1) count_state count_payload
          (mkCommandList (messages l ++ [json]) (states l) (payloads l)
            (enums l ++ [mkEnum (String.append "MCS_MESSAGE_" (str_to_upper name))
                           (MCSG_TYPE_MESSAGE_DEC + count_message)]))
      else if (type_id =? MCS_TYPE_STATE) then
        name ← get_string (first (child json));
        reader_loop cmds count_message (count_state + 1) count_payload
          (mkCommandList (messages l) (states l ++ [json]) (payloads l)
            (enums l ++ [mkEnum (String.append "MCS_STATE_" (str_to_upper name))
                           (MCSG_TYPE_STATE_DEC + count_state)]))
      else if (type_id =? MCS_TYPE_PAYLOAD) then
        name ← get_string (first (child json));
        reader_loop cmds count_message count_state (count_payload + 1)
          (mkCommandList (messages l) (states l) (payloads l ++ [json])
            (enums l ++ [mkEnum (String.append "MCS_PAYLOAD_" (str_to_upper name))
                           (MCSG_TYPE_PAYLOAD_DEC + count_payload)]))
      else UB
  end.

(** The commands are the members of the first member of the file. *)
Definition mcsg_commands_reader (json : cJSON) : outcome MCSGCommandList :=
  c ← go_child (first (child json));
  match from_here c with
  | [] => UB
  | cmds => reader_loop cmds 0 0 0 (mkCommandList [] [] [] [])
  end.

(** ** The two files. *)

Definition mcsg_enum_translator (e : MCSGEnumList) : ST string unit :=
  fprintf (cat ["    "; enum_name e; " = "; pretty (enum_value e); txt ",|"]).

(** The loops of [mcsg_commands_translator] over the list after its first cell. *)
Fixpoint translate_rest {A} (translator : A -> ST string unit) (l : list A) (size : Z) :
    ST string Z :=
  match l with
  | [] => st_ret size
  | x :: l => do! translator x in translate_rest translator l (size + 1)
  end.

(** The first cell is used without a test; the result is the number of cells. *)
Definition translate_list {A} (translator : A -> ST string unit) (l : list A) : ST string Z :=
  match l with
  | [] => st_ub
  | x :: l => do! translator x in translate_rest translator l 1
  end.

Definition mcsg_commands_translator (l : MCSGCommandList) : ST string unit :=
  do! fprintf (cat [txt "/* AUTOGENERATED. DO NOT MODIFY */||";
    txt "#ifndef __AUTO_MCS_H|#define __AUTO_MCS_H||";
    txt "#ifndef __MCS_H|#error 'This header should not be included ";
    txt "directly. Include mcs.h'|#endif||"]) in
  do! fprintf (txt "typedef enum MCSCommand {|") in
  do! translate_list mcsg_enum_translator (enums l) in
  do! fprintf (txt "} MCSCommand;||") in
  do! fprintf (txt "static const struct MCSCommandOptionsMessage mcs_command_message_list[] =|{|") in
  let! size := translate_list mcsg_message_translator (messages l) in
  do! fprintf (cat [txt "};||#define MCS_COMMAND_MESSAGE_LIST_SIZE "; pretty size; txt "||"]) in
  do! fprintf (txt "static const struct MCSCommandOptionsState mcs_command_state_list[] =|{|") in
  let! size := translate_list mcsg_state_translator (states l) in
  do! fprintf (cat [txt "};||#define MCS_COMMAND_STATE_LIST_SIZE "; pretty size; txt "||"]) in
  do! fprintf (txt "static const struct MCSCommandOptionsPayload mcs_command_payload_list[] =|{|") in
  let! size := translate_list mcsg_payload_translator (payloads l) in
  fprintf (cat [txt "};||#define MCS_COMMAND_PAYLOAD_LIST_SIZE "; pretty size; txt "||#endif"]).

(** The characters of a name after its second underscore. *)
Fixpoint print_suffix (name : string) (understroke : nat) : ST string unit :=
  match name with
  | EmptyString => st_ret tt
  | String a name =>
      do! (if (2 <=? understroke)%nat then fprintf (String a EmptyString) else st_ret tt) in
      print_suffix name (if Ascii.eqb a "_" then S understroke else understroke)
  end.

Fixpoint java_loop (l : list MCSGEnumList) : ST string unit :=
  match l with
  | [] => st_ret tt
  | e :: l =>
      do! fprintf "        " in
      do! print_suffix (enum_name e) 0 in
      do! fprintf (cat [" ("; pretty (enum_value e); ")"]) in
      do! fprintf (match l with [] => txt ";|" | _ => txt ",|" end) in
      java_loop l
  end.

Definition java_footer : string :=
  cat [txt "|        private int cmd;||        private CMD (int cmd)|";
       txt "        {|            this.cmd = cmd;|        }||";
       txt "        public int getCmd ()|        {|            return cmd;|";
       txt "        }|    }||    private CMD cmd;|    private byte [] args;|";
       txt "    private byte [] data;||    public SDBPacket (CMD cmd, byte [] ";
       txt "args, byte [] data)|    {|        //...|    }||}"].

Definition mcsg_java_translator (l : list MCSGEnumList) : ST string unit :=
  do! fprintf (txt "public class SDBPacket {||    public enum CMD {||") in
  do! match l with [] => st_ub | _ => java_loop l end in
  fprintf java_footer.

(** [main] once the file is parsed: the texts of [auto_mcs.h] and [auto_mcs.java]. *)
Definition mcsg_files (json : cJSON) : outcome (string * string) :=
  l ← mcsg_commands_reader json;
  h ← mcsg_commands_translator l EmptyString;
  j ← mcsg_java_translator (enums l) EmptyString;
  Ok (h.2, j.2).

End Print.
