(* ===== verification/McsgProps.v ===== *)
(** * McsgProps: what the generator writes.

    A command list is given as a list of declarations, [Decl]; [json_of_file] is
    the tree the parser makes of its JSON text.  The theorems give the generated
    header and Java file as functions of the declarations and relate the generated
    codes to the packets the MCS library builds from them. *)

From S2P Require Import Prelude.
From S2P Require Import Abs McsDefs Mcs McsFacts Float64 Json Mcsg.
From stdpp Require Import pretty.
From Stdlib Require Import Ascii.
#[local] Open Scope Z_scope.

(** ** Declarations. *)

Record Common := mkCommonDecl {
  c_name : string;
  c_description : string;
  c_nargs : Z;
  c_raw_data : bool
}.

Record MessageDecl := mkMessageDecl {
  m_destination : option string;
  m_origin_groups : list string;
  m_destination_groups : list string;
  m_response_size : Z
}.

Record StateDecl := mkStateDecl {
  s_update_function : string;
  s_dimensions : Z;
  s_return_type : string;
  s_unit : string;
  s_dimension_name : option string;
  s_expire_group : list (string * Z)
}.

Record PayloadDecl := mkPayloadDecl {
  p_command : string;
  p_parameters : string;
  p_arguments : string;
  p_data : option string;
  p_response_size : Z
}.

Inductive Config :=
| Message (m : MessageDecl)
| State (s : StateDecl)
| Payload (p : PayloadDecl).

Record Decl := mkDecl { d_common : Common; d_config : Config }.

(** The type of a command. *)
Definition kind (d : Decl) : Z :=
  match d_config d with
  | Message _ => MCS_TYPE_MESSAGE | State _ => MCS_TYPE_STATE | Payload _ => MCS_TYPE_PAYLOAD
  end.

Section Spec.
#[local] Open Scope string_scope.
#[local] Open Scope list_scope.
#[local] Open Scope Z_scope.

(** ** The parsed file. *)

(** The nodes the parser makes of a string, a number, a boolean, a string or null, an
    array and an object, with their names; and of an object and a string in an array. *)
Definition str_node (key s : string) : cJSON := mkJSON [] cJSON_String (Some s) 0 d_zero (Some key).
Definition int_node (key : string) (n : Z) : cJSON := mkJSON [] cJSON_Number None n (d_of_int n) (Some key).
Definition bool_node (key : string) (b : bool) : cJSON :=
  mkJSON [] (if b then cJSON_True else cJSON_False) None (if b then 1 else 0) d_zero (Some key).
Definition opt_node (key : string) (s : option string) : cJSON :=
  mkJSON [] (if s is Some _ then cJSON_String else cJSON_NULL) s 0 d_zero (Some key).
Definition arr_node (key : string) (l : list cJSON) : cJSON := mkJSON l cJSON_Array None 0 d_zero (Some key).
Definition obj_node (key : string) (l : list cJSON) : cJSON := mkJSON l cJSON_Object None 0 d_zero (Some key).
Definition item (l : list cJSON) : cJSON := mkJSON l cJSON_Object None 0 d_zero None.
Definition str_item (s : string) : cJSON := mkJSON [] cJSON_String (Some s) 0 d_zero None.

Definition json_of_config (c : Config) : string * list cJSON :=
  match c with
  | Message m => ("message",
      [opt_node "destination" (m_destination m);
       arr_node "origin_groups" (str_item <$> m_origin_groups m);
       arr_node "destination_groups" (str_item <$> m_destination_groups m);
       int_node "response_size" (m_response_size m)])
  | State s => ("state",
      [str_node "update_function" (s_update_function s);
       int_node "dimensions" (s_dimensions s);
       str_node "return_type" (s_return_type s);
       str_node "unit" (s_unit s);
       opt_node "dimension_name" (s_dimension_name s);
       arr_node "expire_group" ((fun e => item [int_node e.1 e.2]) <$> s_expire_group s)])
  | Payload p => ("payload",
      [str_node "command" (p_command p);
       str_node "parameters" (p_parameters p);
       str_node "arguments" (p_arguments p);
       opt_node "data" (p_data p);
       int_node "response_size" (p_response_size p)])
  end.

Definition json_of (d : Decl) : cJSON :=
  let c := d_common d in
  item [str_node "name" (c_name c); str_node "description" (c_description c);
        int_node "nargs" (c_nargs c); bool_node "raw_data" (c_raw_data c);
        str_node "type" (json_of_config (d_config d)).1;
        obj_node "config" (json_of_config (d_config d)).2].

Definition json_of_file (ds : list Decl) : cJSON := item [arr_node "command_list" (json_of <$> ds)].

(** ** The text. *)

Definition common_text (c : Common) : string :=
  cat [cat [txt "    {|    .cmd = {|        .name = '"; c_name c; txt "',|"];
       cat ["        /*"; c_description c; txt "*/|"];
       cat ["        .nargs = "; pretty (c_nargs c); txt ",|"];
       txt (if c_raw_data c then "        .raw_data = true,|" else "        .raw_data = false,|")].

Definition group_const (g : string) : string := cat ["SDB_GROUP_"; str_to_upper g].

(** A list of groups, separated by commas. *)
Definition groups_text (gs : list string) : string :=
  match gs with
  | [] => EmptyString
  | g :: gs => cat (group_const g :: ((fun g => cat [", SDB_GROUP_"; str_to_upper g]) <$> gs))
  end.

(** The origin groups as they are printed: the first one twice, the last one not
    at all, if there is more than one. *)
Definition shifted (gs : list string) : list string :=
  match gs with [] => [] | g :: rest => g :: take (length rest) (g :: rest) end.

Definition message_text (c : Common) (m : MessageDecl) : string :=
  cat [common_text c;
       cat ["        .response_size = "; pretty (m_response_size m); txt ",|"];
       txt "    },|";
       match m_destination m with
       | None => txt "    .destination = NULL,|"
       | Some s => cat [txt "    .destination = '"; s; txt "',|"]
       end;
       "    .origin_groups = {"; groups_text (shifted (m_origin_groups m)); txt "},|";
       "    .destination_groups = {"; groups_text (m_destination_groups m); txt "},|";
       txt "    },|"].

Definition size_of_type (t : string) : Z :=
  if bool_decide (t = "int") then 4 else if bool_decide (t = "float") then 8 else -1.

Definition expire_text (e : string * Z) : string :=
  cat ["            { .group = SDB_GROUP_"; str_to_upper e.1; ", .max_expire = "; pretty e.2; txt " },|"].

Definition state_text (c : Common) (s : StateDecl) : string :=
  cat [common_text c;
       cat ["        .response_size = "; pretty (s_dimensions s * size_of_type (s_return_type s)); txt ",|"];
       cat [txt "    },|    .request = "; s_update_function s; txt ",|"];
       cat ["    .dimensions = "; pretty (s_dimensions s); txt ",|"];
       cat ["    /*Unit: "; s_unit s; txt "*/|"];
       txt "    /*Dimension_name: NULL*/|";
       match s_expire_group s with
       | [] => txt "    .expire_group = NULL,|"
       | es => cat [txt "    .expire_group = {|"; cat (expire_text <$> es); txt "        },|"]
       end;
       txt "    },|"].

(** The command and the parameters are strings, printed as the number zero, and
    the data as NULL. *)
Definition payload_text (c : Common) (p : PayloadDecl) : string :=
  cat [common_text c;
       cat ["        .response_size = "; pretty (p_response_size p); txt ",|"];
       txt "    },|";
       txt "    .command = 0,|";
       txt "    .parameters = 0,|";
       cat [txt "    .arguments = '"; p_arguments p; txt "',|"];
       txt "    .data = NULL,|";
       txt "    },|"].

Definition decl_text (d : Decl) : string :=
  match d_config d with
  | Message m => message_text (d_common d) m
  | State s => state_text (d_common d) s
  | Payload p => payload_text (d_common d) p
  end.

(** ** Codes. *)

(** The commands of one type. *)
Definition of_kind (t : Z) (ds : list Decl) : list Decl := filter (fun d => kind d = t) ds.

Definition prefix (t : Z) : string :=
  if t =? MCS_TYPE_MESSAGE then "MCS_MESSAGE_"
  else if t =? MCS_TYPE_STATE then "MCS_STATE_" else "MCS_PAYLOAD_".

Definition upper_name (d : Decl) : string := str_to_upper (c_name (d_common d)).

(** A command's number is the number of commands of its type before it. *)
Definition number (ds : list Decl) (i : nat) (d : Decl) : Z := zlen (of_kind (kind d) (take i ds)).

Definition enum_of (ds : list Decl) (i : nat) (d : Decl) : MCSGEnumList :=
  mkEnum (String.append (prefix (kind d)) (upper_name d)) (kind d * 65536 + number ds i d).

Definition enums_of (ds : list Decl) : list MCSGEnumList := imap (enum_of ds) ds.

Definition commands_of (ds : list Decl) : MCSGCommandList :=
  mkCommandList (json_of <$> of_kind MCS_TYPE_MESSAGE ds) (json_of <$> of_kind MCS_TYPE_STATE ds)
    (json_of <$> of_kind MCS_TYPE_PAYLOAD ds) (enums_of ds).

(** ** The two files. *)

Definition enum_text (e : MCSGEnumList) : string :=
  cat ["    "; enum_name e; " = "; pretty (enum_value e); txt ",|"].

Definition table_text (t : Z) (ds : list Decl) : string := cat (decl_text <$> of_kind t ds).
Definition table_size (t : Z) (ds : list Decl) : string := pretty (zlen (of_kind t ds)).

Definition header_text (ds : list Decl) : string :=
  cat [cat [txt "/* AUTOGENERATED. DO NOT MODIFY */||";
            txt "#ifndef __AUTO_MCS_H|#define __AUTO_MCS_H||";
            txt "#ifndef __MCS_H|#error 'This header should not be included ";
            txt "directly. Include mcs.h'|#endif||"];
       txt "typedef enum MCSCommand {|"; cat (enum_text <$> enums_of ds); txt "} MCSCommand;||";
       txt "static const struct MCSCommandOptionsMessage mcs_command_message_list[] =|{|";
       table_text MCS_TYPE_MESSAGE ds;
       cat [txt "};||#define MCS_COMMAND_MESSAGE_LIST_SIZE "; table_size MCS_TYPE_MESSAGE ds; txt "||"];
       txt "static const struct MCSCommandOptionsState mcs_command_state_list[] =|{|";
       table_text MCS_TYPE_STATE ds;
       cat [txt "};||#define MCS_COMMAND_STATE_LIST_SIZE "; table_size MCS_TYPE_STATE ds; txt "||"];
       txt "static const struct MCSCommandOptionsPayload mcs_command_payload_list[] =|{|";
       table_text MCS_TYPE_PAYLOAD ds;
       cat [txt "};||#define MCS_COMMAND_PAYLOAD_LIST_SIZE "; table_size MCS_TYPE_PAYLOAD ds; txt "||#endif"]].

(** In Java a command has its name without the prefix; the last one ends the list. *)
Fixpoint java_lines (l : list (string * Z)) : string :=
  match l with
  | [] => EmptyString
  | (name, code) :: l =>
      cat ["        "; name; cat [" ("; pretty code; ")"];
           txt (match l with [] => ";|" | _ => ",|" end); java_lines l]
  end.

Definition java_text (ds : list Decl) : string :=
  cat [txt "public class SDBPacket {||    public enum CMD {||";
       java_lines (imap (fun i d => (upper_name d, enum_value (enum_of ds i d))) ds); java_footer].

End Spec.

(** ** A program that writes [s] and returns [a]. *)

Definition emits {A} (m : ST string A) (a : A) (s : string) : Prop :=
  forall out, m out = Ok (a, String.append out s).

Lemma cat_app l1 l2 : cat (l1 ++ l2) = String.append (cat l1) (cat l2).
Proof. induction l1 as [|s l1 IH]; [done|]. cbn. by rewrite IH, append_assoc. Qed.

Lemma cat_nested s l1 l2 : cat (cat (s :: l1) :: l2) = cat (s :: cat l1 :: l2).
Proof. cbn [cat foldr]. apply append_assoc. Qed.

Lemma emits_fprintf s : emits (fprintf s) tt s.
Proof. by intros out. Qed.

Lemma emits_ret {A} (a : A) : emits (st_ret a) a EmptyString.
Proof. intros out. by rewrite append_nil_r. Qed.

Lemma emits_bind {A B} (m : ST string A) (k : A -> ST string B) a b s l :
  emits m a s -> emits (k a) b (cat l) -> emits (st_bind m k) b (cat (s :: l)).
Proof. intros Hm Hk out. unfold st_bind. rewrite Hm, Hk. cbn [cat foldr]. by rewrite append_assoc. Qed.

Lemma emits_lift {A B} (m : outcome A) (k : A -> ST string B) a b s :
  m = Ok a -> emits (k a) b s -> emits (st_bind (st_lift m) k) b s.
Proof. intros -> Hk out. apply Hk. Qed.

Lemma emits_last {A} (m : ST string A) a s : emits m a s -> emits m a (cat [s]).
Proof. intros Hm out. rewrite Hm. cbn. by rewrite append_nil_r. Qed.

Lemma emits_step {A B} (m : ST string A) (k : A -> ST string B) a b s :
  emits m a EmptyString -> emits (k a) b s -> emits (st_bind m k) b s.
Proof. intros Hm Hk out. unfold st_bind. rewrite Hm, Hk. by rewrite append_nil_r. Qed.

(** Follow a program along the pieces of its text. *)
Ltac emit :=
  repeat first [eapply emits_lift; [reflexivity|]
    | eapply emits_bind; [solve [apply emits_fprintf | eassumption]|]
    | apply emits_last; solve [apply emits_fprintf | eassumption]
    | progress (cbv beta zeta)].

Lemma print_common_emits d :
  emits (print_common (json_of d)) (first (json_of_config (d_config d)).2) (common_text (d_common d)).
Proof.
  unfold print_common, common_text. emit.
  eapply emits_bind; [by destruct (c_raw_data (d_common d)); apply emits_fprintf|].
  eapply emits_lift; [reflexivity|]. eapply emits_lift; [reflexivity|]. intros out.
  by rewrite append_nil_r.
Qed.

Lemma origin_loop_emits g gs : emits (origin_loop (str_item g) (str_item <$> gs)) tt
  (cat ((fun g => cat [txt ", SDB_GROUP_"; str_to_upper g]) <$> take (length gs) (g :: gs))).
Proof.
  revert g. induction gs as [|h gs IH]; intros g; [apply emits_ret|].
  cbn [fmap list_fmap origin_loop length take]. emit. apply IH.
Qed.

Lemma dest_loop_emits gs : emits (dest_loop (str_item <$> gs)) tt
  (cat ((fun g => cat [txt ", SDB_GROUP_"; str_to_upper g]) <$> gs)).
Proof.
  induction gs as [|h gs IH]; [apply emits_ret|]. cbn [fmap list_fmap dest_loop]. emit. apply IH.
Qed.

Lemma origin_groups_emits key gs :
  emits (print_groups origin_loop (arr_node key (str_item <$> gs))) tt (groups_text (shifted gs)).
Proof.
  destruct gs as [|g gs]; [apply emits_ret|]. unfold print_groups, groups_text, shifted.
  cbn [child arr_node fmap list_fmap]. emit. apply origin_loop_emits.
Qed.

Lemma dest_groups_emits key gs :
  emits (print_groups (fun _ => dest_loop) (arr_node key (str_item <$> gs))) tt (groups_text gs).
Proof.
  destruct gs as [|g gs]; [apply emits_ret|]. unfold print_groups, groups_text.
  cbn [child arr_node fmap list_fmap]. emit. apply dest_loop_emits.
Qed.

Lemma message_emits c m :
  emits (mcsg_message_translator (json_of (mkDecl c (Message m)))) tt (message_text c m).
Proof.
  unfold mcsg_message_translator, message_text.
  eapply emits_bind; [apply (print_common_emits (mkDecl c (Message m)))|]. cbn [d_config json_of_config snd].
  emit. eapply emits_bind; [by destruct (m_destination m); apply emits_fprintf|].
  emit. eapply emits_bind; [apply origin_groups_emits|].
  emit. eapply emits_bind; [apply dest_groups_emits|]. emit.
Qed.

Lemma print_expire_emits e : emits (print_expire (item [int_node e.1 e.2])) tt (expire_text e).
Proof. unfold print_expire. emit. apply emits_fprintf. Qed.

Lemma expire_loop_emits es : emits (expire_loop ((fun e => item [int_node e.1 e.2]) <$> es)) tt
  (cat (expire_text <$> es)).
Proof.
  induction es as [|e es IH]; [apply emits_ret|]. cbn [fmap list_fmap expire_loop].
  eapply emits_bind; [apply print_expire_emits|]. apply IH.
Qed.

(** The response size of a state is an [int]. *)
Definition size_fits (d : Decl) : Prop :=
  match d_config d with
  | State s => - 2 ^ 31 <= s_dimensions s * size_of_type (s_return_type s) < 2 ^ 31
  | _ => True
  end.

#[export] Instance size_fits_dec d : Decision (size_fits d).
Proof. unfold size_fits. destruct (d_config d); apply _. Defined.

Lemma int_mul_spec a b : int_mul a b = if decide (- 2 ^ 31 <= a * b < 2 ^ 31) then Ok (a * b) else UB.
Proof. unfold int_mul. case_decide as H; destruct (_ && _) eqn:E; done || lia. Qed.

Lemma state_emits c s : size_fits (mkDecl c (State s)) ->
  emits (mcsg_state_translator (json_of (mkDecl c (State s)))) tt (state_text c s).
Proof.
  intros Hfit. unfold mcsg_state_translator, state_text.
  eapply emits_bind; [apply (print_common_emits (mkDecl c (State s)))|]. cbn [d_config json_of_config snd].
  do 4 (eapply emits_lift; [reflexivity|]). eapply emits_lift; [exact (eq_trans (int_mul_spec _ _) (decide_True _ _ Hfit))|].
  emit. eapply emits_bind; [|emit].
  destruct (s_expire_group s) as [|e es]; [apply emits_fprintf|]. cbn [fmap list_fmap child arr_node].
  eapply emits_bind; [apply emits_fprintf|]. rewrite cat_nested.
  eapply emits_bind; [apply print_expire_emits|].
  eapply emits_bind; [apply expire_loop_emits|]. emit.
Qed.

Lemma payload_emits c p :
  emits (mcsg_payload_translator (json_of (mkDecl c (Payload p)))) tt (payload_text c p).
Proof.
  unfold mcsg_payload_translator, payload_text.
  eapply emits_bind; [apply (print_common_emits (mkDecl c (Payload p)))|]. cbn [d_config json_of_config snd].
  emit.
Qed.

Definition translator_of (t : Z) : cJSON -> ST string unit :=
  if t =? MCS_TYPE_MESSAGE then mcsg_message_translator
  else if t =? MCS_TYPE_STATE then mcsg_state_translator else mcsg_payload_translator.

Lemma decl_emits d : size_fits d -> emits (translator_of (kind d) (json_of d)) tt (decl_text d).
Proof.
  intros Hd. destruct d as [c [m|s|p]]; [apply message_emits|by apply state_emits|apply payload_emits].
Qed.

Lemma emits_ub {A B} (m : ST string A) (k : A -> ST string B) a s :
  emits m a s -> (forall out, k a out = UB) -> forall out, st_bind m k out = UB.
Proof. intros Hm Hk out. unfold st_bind. by rewrite Hm. Qed.

Lemma ub_first {A B} (m : ST string A) (k : A -> ST string B) :
  (forall out, m out = UB) -> forall out, st_bind m k out = UB.
Proof. intros Hm out. unfold st_bind. by rewrite Hm. Qed.

Lemma state_crash d : ~ size_fits d -> forall out, mcsg_state_translator (json_of d) out = UB.
Proof.
  destruct d as [c [m|s|p]]; intros Hfit; [by destruct Hfit| |by destruct Hfit].
  unfold mcsg_state_translator. eapply emits_ub; [apply (print_common_emits (mkDecl c (State s)))|].
  cbn [d_config json_of_config snd].
  do 4 (eapply (emits_ub _ _ _ EmptyString); [intros out; rewrite append_nil_r; reflexivity|]).
  apply ub_first. intros out.
  change (st_lift (int_mul (s_dimensions s) (size_of_type (s_return_type s))) out = UB).
  unfold st_lift. by rewrite (eq_trans (int_mul_spec _ _) (decide_False _ _ Hfit)).
Qed.

(** ** The loops over the lists. *)

Section Lists.
Context {A B : Type} (tr : A -> ST string unit) (f : B -> A) (text : B -> string).

Lemma translate_rest_emits l n : Forall (fun x => emits (tr (f x)) tt (text x)) l ->
  emits (translate_rest tr (f <$> l) n) (n + zlen l) (cat (text <$> l)).
Proof.
  intros Hl. revert n. induction Hl as [|x l Hx _ IH]; intros n.
  - change (zlen (@nil B)) with 0. rewrite Z.add_0_r. apply emits_ret.
  - rewrite !fmap_cons. cbn [translate_rest]. eapply emits_bind; [exact Hx|].
    rewrite zlen_cons. replace (n + (1 + zlen l)) with (n + 1 + zlen l) by lia. apply IH.
Qed.

Lemma translate_list_emits l : Forall (fun x => emits (tr (f x)) tt (text x)) l -> l <> [] ->
  emits (translate_list tr (f <$> l)) (zlen l) (cat (text <$> l)).
Proof.
  intros [|x l' Hx Hl] Hne; [done|]. rewrite !fmap_cons. cbn [translate_list].
  eapply emits_bind; [exact Hx|]. rewrite zlen_cons. by apply translate_rest_emits.
Qed.

Lemma translate_rest_ub l n : (exists x, x ∈ l /\ (forall out, tr (f x) out = UB)) ->
  Forall (fun x => (forall out, tr (f x) out = UB) \/ emits (tr (f x)) tt (text x)) l ->
  forall out, translate_rest tr (f <$> l) n out = UB.
Proof.
  intros Hx Hl. revert n Hx. induction Hl as [|y l Hy _ IH]; intros n (x & Hin & Hx); [by apply not_elem_of_nil in Hin|].
  rewrite fmap_cons. cbn [translate_rest]. destruct Hy as [Hy|Hy]; [by apply ub_first|].
  eapply emits_ub; [exact Hy|]. apply IH. apply elem_of_cons in Hin as [-> |Hin]; [|by exists x].
  specialize (Hx EmptyString). by rewrite Hy in Hx.
Qed.

Lemma translate_list_ub l : (exists x, x ∈ l /\ (forall out, tr (f x) out = UB)) ->
  Forall (fun x => (forall out, tr (f x) out = UB) \/ emits (tr (f x)) tt (text x)) l ->
  forall out, translate_list tr (f <$> l) out = UB.
Proof. destruct l as [|y l]; [by intros (x & Hin%not_elem_of_nil & _)|]. intros Hx Hl. exact (translate_rest_ub (y :: l) 0 Hx Hl). Qed.

End Lists.

Lemma table_emits t ds : Forall size_fits ds -> of_kind t ds <> [] ->
  emits (translate_list (translator_of t) (json_of <$> of_kind t ds)) (zlen (of_kind t ds)) (table_text t ds).
Proof.
  intros Hfit. apply translate_list_emits. apply Forall_forall.
  intros d [<- Hd]%list_elem_of_filter. apply decl_emits. by eapply Forall_forall.
Qed.

Lemma message_table_emits ds : of_kind MCS_TYPE_MESSAGE ds <> [] ->
  emits (translate_list (translator_of MCS_TYPE_MESSAGE) (json_of <$> of_kind MCS_TYPE_MESSAGE ds))
    (zlen (of_kind MCS_TYPE_MESSAGE ds)) (table_text MCS_TYPE_MESSAGE ds).
Proof.
  apply translate_list_emits. apply Forall_forall. intros d [Hk _]%list_elem_of_filter.
  destruct d as [c [m|s|p]]; [apply message_emits|done|done].
Qed.

(** A state whose size is too large stops the generator. *)
Lemma state_table_crash ds : ~ Forall size_fits ds -> forall out,
  translate_list (translator_of MCS_TYPE_STATE) (json_of <$> of_kind MCS_TYPE_STATE ds) out = UB.
Proof.
  intros Hfit. apply (translate_list_ub _ _ decl_text).
  - apply not_Forall_Exists, Exists_exists in Hfit as (d & Hd & Hnf); [|apply _]. exists d. split; [|by apply state_crash].
    apply list_elem_of_filter. split; [|done]. by destruct d as [c [m|s|p]]; [destruct Hnf| |destruct Hnf].
  - apply Forall_forall. intros d [Hk Hd]%list_elem_of_filter.
    destruct (decide (size_fits d)) as [Hf|Hf]; [right; rewrite <- Hk; by apply decl_emits|left; by apply state_crash].
Qed.

Lemma enum_emits ds : ds <> [] ->
  emits (translate_list mcsg_enum_translator (enums_of ds)) (zlen ds) (cat (enum_text <$> enums_of ds)).
Proof.
  intros Hne. assert (zlen ds = zlen (enums_of ds)) as -> by (unfold zlen, enums_of; by rewrite length_imap).
  rewrite <- (list_fmap_id (enums_of ds)) at 1. apply translate_list_emits.
  - apply Forall_forall. intros e _. apply emits_fprintf.
  - by destruct ds.
Qed.

(** A file with a command of each type. *)
Definition all_kinds (ds : list Decl) : Prop :=
  of_kind MCS_TYPE_MESSAGE ds <> [] /\ of_kind MCS_TYPE_STATE ds <> [] /\ of_kind MCS_TYPE_PAYLOAD ds <> [].

#[export] Instance all_kinds_dec ds : Decision (all_kinds ds).
Proof.
  assert (forall l : list Decl, Decision (l <> [])) by (intros [|]; [by right; intros H|by left]).
  apply _.
Defined.

(** The command lists for which there are files: the sizes are [int]s too. *)
Definition generable (ds : list Decl) : Prop := all_kinds ds /\ Forall size_fits ds.

#[export] Instance generable_dec ds : Decision (generable ds).
Proof. apply _. Defined.

Lemma of_kind_ne t ds : of_kind t ds <> [] -> ds <> [].
Proof. by intros H ->. Qed.

Lemma header_emits ds : generable ds ->
  emits (mcsg_commands_translator (commands_of ds)) tt (header_text ds).
Proof.
  intros [(Hm & Hs & Hp) Hf]. pose proof (of_kind_ne _ _ Hm) as Hne.
  unfold mcsg_commands_translator, header_text. cbn [enums messages states payloads commands_of]. emit.
  eapply emits_bind; [by apply enum_emits|]. emit.
  eapply emits_bind; [apply (table_emits MCS_TYPE_MESSAGE ds Hf Hm)|]. emit.
  eapply emits_bind; [apply (table_emits MCS_TYPE_STATE ds Hf Hs)|]. emit.
  eapply emits_bind; [apply (table_emits MCS_TYPE_PAYLOAD ds Hf Hp)|]. emit.
Qed.

(** ** The Java file. *)

Lemma print_suffix_all s n : (2 <= n)%nat -> emits (print_suffix s n) tt s.
Proof.
  revert n. induction s as [|a s IH]; intros n Hn; [apply emits_ret|].
  cbn [print_suffix]. rewrite (proj2 (Nat.leb_le 2 n) Hn).
  intros out. unfold st_bind, fprintf, st_modify. rewrite IH by (case_match; lia).
  by rewrite append_assoc.
Qed.

(** The prefix has two underscores. *)
Lemma print_suffix_prefix t s : emits (print_suffix (String.append (prefix t) s) 0) tt s.
Proof.
  assert (H : emits (print_suffix s 2) tt s) by by apply print_suffix_all.
  unfold prefix. repeat case_match; intros out; apply (H out).
Qed.

Lemma java_loop_emits ds l k :
  emits (java_loop (imap (fun i d => enum_of ds (k + i) d) l)) tt
    (java_lines (imap (fun i d => (upper_name d, enum_value (enum_of ds (k + i) d))) l)).
Proof.
  revert k. induction l as [|d l IH]; intros k; [apply emits_ret|].
  rewrite !imap_cons. cbn [java_loop java_lines]. emit.
  eapply emits_bind; [apply print_suffix_prefix|]. emit.
  eapply emits_bind; [by destruct l; apply emits_fprintf|]. apply emits_last.
  specialize (IH (S k)). unfold compose.
  assert (Hi : forall {C} (g : nat -> Decl -> C), imap (fun i d => g (k + S i)%nat d) l
    = imap (fun i d => g (S k + i)%nat d) l).
  { intros C g. apply imap_ext. intros i x _. by rewrite Nat.add_succ_r. }
  rewrite (Hi _ (enum_of ds)). by rewrite (Hi _ (fun i d => (upper_name d, enum_value (enum_of ds i d)))).
Qed.

Lemma java_emits ds : ds <> [] -> emits (mcsg_java_translator (enums_of ds)) tt (java_text ds).
Proof.
  intros Hne. unfold mcsg_java_translator, java_text. emit.
  eapply emits_bind; [|emit]. pose proof (java_loop_emits ds ds 0) as H.
  by destruct ds.
Qed.

(** ** The reader. *)

Lemma type_identifier_ok d : mcsg_type_identifier (json_of d) = Ok (kind d).
Proof. by destruct d as [c [m|s|p]]. Qed.

Lemma of_kind_snoc t ds d : of_kind t (ds ++ [d]) = of_kind t ds ++ (if decide (kind d = t) then [d] else []).
Proof. unfold of_kind. rewrite filter_app. by rewrite filter_cons. Qed.

Lemma enums_of_snoc ds d : enums_of (ds ++ [d]) = enums_of ds ++ [enum_of ds (length ds) d].
Proof.
  unfold enums_of. rewrite imap_app. f_equal.
  - apply imap_ext. intros i x Hx. unfold enum_of, number.
    rewrite take_app_le by (apply lookup_lt_Some in Hx; lia). done.
  - cbn. unfold enum_of, number. rewrite Nat.add_0_r. by rewrite take_app_length, take_ge by lia.
Qed.

(** The lists and counters after a step are those of the declarations read. *)
Lemma reader_loop_ok l ds :
  reader_loop (json_of <$> l) (zlen (of_kind MCS_TYPE_MESSAGE ds)) (zlen (of_kind MCS_TYPE_STATE ds))
    (zlen (of_kind MCS_TYPE_PAYLOAD ds)) (commands_of ds)
  = Ok (commands_of (ds ++ l)).
Proof.
  revert ds. induction l as [|d l IH]; intros ds; [by rewrite app_nil_r|].
  rewrite fmap_cons. cbn [reader_loop]. rewrite (obind_ok _ _ _ (type_identifier_ok d)).
  specialize (IH (ds ++ [d])). rewrite <- app_assoc in IH. cbn [app] in IH. rewrite <- IH. clear IH.
  unfold commands_of. rewrite enums_of_snoc, !of_kind_snoc, !fmap_app, !zlen_app.
  unfold enum_of, number. rewrite take_ge by done.
  destruct d as [c [m|s|p]]; cbn [kind d_config] in *; unfold get_string;
    cbn -[String.append of_kind reader_loop]; by rewrite ?app_nil_r, ?Z.add_0_r.
Qed.

Lemma reader_ok ds : ds <> [] -> mcsg_commands_reader (json_of_file ds) = Ok (commands_of ds).
Proof.
  intros Hne. pose proof (reader_loop_ok ds []) as H. cbn [app] in H. rewrite <- H.
  by destruct ds.
Qed.

Lemma header_crash ds : ds <> [] -> ~ generable ds ->
  forall out, mcsg_commands_translator (commands_of ds) out = UB.
Proof.
  intros Hne Hall. unfold mcsg_commands_translator. cbn [enums messages states payloads commands_of].
  do 2 (eapply emits_ub; [apply emits_fprintf|]). eapply emits_ub; [by apply enum_emits|].
  do 2 (eapply emits_ub; [apply emits_fprintf|]).
  destruct (decide (of_kind MCS_TYPE_MESSAGE ds = [])) as [-> |Hm]; [done|].
  eapply emits_ub; [by apply message_table_emits|].
  do 2 (eapply emits_ub; [apply emits_fprintf|]).
  destruct (decide (of_kind MCS_TYPE_STATE ds = [])) as [-> |Hs]; [done|].
  destruct (decide (Forall size_fits ds)) as [Hf|Hf]; [|apply ub_first; by apply state_table_crash].
  eapply emits_ub; [by apply (table_emits MCS_TYPE_STATE)|].
  do 2 (eapply emits_ub; [apply emits_fprintf|]).
  destruct (decide (of_kind MCS_TYPE_PAYLOAD ds = [])) as [-> |Hp]; [done|].
  by destruct Hall.
Qed.

(** The generated files.  For a command list with a command of each type, whose response
    sizes are [int]s, the generator writes the header and the Java file that the
    declarations describe; without a command of some type it follows a NULL pointer. *)
Lemma mcsg_files_ok ds :
  mcsg_files (json_of_file ds) = if decide (generable ds) then Ok (header_text ds, java_text ds) else UB.
Proof.
  destruct (decide (ds = [])) as [-> |Hne]; [by case_decide as H; [destruct H as [[]]|]|].
  unfold mcsg_files. rewrite (obind_ok _ _ _ (reader_ok ds Hne)). case_decide as Hall.
  - rewrite (obind_ok _ _ _ (header_emits ds Hall EmptyString)).
    by rewrite (obind_ok _ _ _ (java_emits ds Hne EmptyString)).
  - by rewrite (header_crash ds Hne Hall EmptyString).
Qed.

(** ** Codes and packets. *)

Lemma kind_range d : 0 <= kind d < 3.
Proof. by destruct d as [c [m|s|p]]. Qed.

(** The command of number [k] of its type is entry [k] of its list. *)
Lemma number_lookup ds i d : ds !! i = Some d ->
  0 <= number ds i d < zlen (of_kind (kind d) ds) /\
  of_kind (kind d) ds !! Z.to_nat (number ds i d) = Some d.
Proof.
  intros Hi. unfold number. set (a := of_kind (kind d) (take i ds)).
  set (b := of_kind (kind d) (drop (S i) ds)).
  assert (of_kind (kind d) ds = a ++ d :: b) as ->.
  { rewrite <- (take_drop_middle ds i d Hi) at 1. unfold of_kind.
    by rewrite filter_app, filter_cons, decide_True by done. }
  rewrite zlen_app, zlen_cons. pose proof (zlen_nonneg a). pose proof (zlen_nonneg b).
  split; [lia|]. unfold zlen. rewrite Nat2Z.id, lookup_app_r by lia. by rewrite Nat.sub_diag.
Qed.

Lemma create_code `{MCSTables, Build} rnd t k nargs args size data pkt : 0 <= t < 16 -> 0 <= k < 65536 ->
  mcs_create_packet rnd (t * 65536 + k) nargs args size data = Ok (Some pkt) ->
  pkt_type pkt = t /\ pkt_cmd pkt = k.
Proof.
  intros Ht Hk. unfold mcs_create_packet. destruct (command_number t k Ht Hk) as [-> ->].
  unfold mcs_create. destruct (copy_arg nargs args), (copy_arg size data); [|done..].
  case_match; [|done]. intros [= <-]. done.
Qed.

(** The list of the commands of type [t]. *)
Definition list_of (t : Z) (l : MCSGCommandList) : list cJSON :=
  if t =? MCS_TYPE_MESSAGE then messages l
  else if t =? MCS_TYPE_STATE then states l else payloads l.

(** C32: the codes are right.  The enumeration has one constant per command, in the
    order of the file, with its name and prefix; a packet the library creates with
    the constant has the type of the command and, as command number, the index of
    the command in the table of that type, as long as no table has more than 65536
    entries. *)
Theorem mcsg_codes `{MCSTables, Build} ds i d :
  ds !! i = Some d -> zlen (of_kind (kind d) ds) <= 65536 ->
  exists l e k, mcsg_commands_reader (json_of_file ds) = Ok l /\ zlen (enums l) = zlen ds /\
    enums l !! i = Some e /\ enum_name e = String.append (prefix (kind d)) (upper_name d) /\
    list_of (kind d) l !! k = Some (json_of d) /\
    forall rnd nargs args size data pkt,
      mcs_create_packet rnd (enum_value e) nargs args size data = Ok (Some pkt) ->
      pkt_type pkt = kind d /\ pkt_cmd pkt = Z.of_nat k.
Proof.
  intros Hi Hmax. destruct (number_lookup ds i d Hi) as [Hr Hk]. pose proof (kind_range d).
  exists (commands_of ds), (enum_of ds i d), (Z.to_nat (number ds i d)). split_and!.
  - apply reader_ok. by intros ->.
  - unfold zlen. cbn [enums commands_of]. unfold enums_of. by rewrite length_imap.
  - cbn [enums commands_of]. unfold enums_of. rewrite list_lookup_imap, Hi. done.
  - done.
  - assert (Hl : list_of (kind d) (commands_of ds) = json_of <$> of_kind (kind d) ds)
      by (by destruct d as [c [m|s|p]]).
    rewrite Hl, list_lookup_fmap, Hk. done.
  - intros rnd nargs args size data pkt Hc. rewrite Z2Nat.id by lia.
    apply (create_code rnd (kind d) (number ds i d) nargs args size data); [lia|lia|exact Hc].
Qed.

(** No two commands share a code, as long as no table has more than 65536
    entries. *)
Theorem mcsg_codes_distinct ds l :
  (forall t, zlen (of_kind t ds) <= 65536) -> mcsg_commands_reader (json_of_file ds) = Ok l ->
  NoDup (enum_value <$> enums l).
Proof.
  intros Hmax Hl. destruct (decide (ds = [])) as [-> |Hne]; [done|].
  rewrite reader_ok in Hl by done. injection Hl as <-. cbn [enums commands_of].
  clear Hne. induction ds as [|d ds IH] using rev_ind; [constructor|].
  assert (Hle : forall t, zlen (of_kind t ds) <= 65536).
  { intros t. specialize (Hmax t). rewrite of_kind_snoc, zlen_app in Hmax.
    pose proof (zlen_nonneg (if decide (kind d = t) then [d] else [])). lia. }
  rewrite enums_of_snoc, fmap_app. apply NoDup_app. split_and!; [by apply IH| |apply NoDup_singleton].
  intros v (e & -> & He)%list_elem_of_fmap Hv%list_elem_of_singleton.
  apply list_elem_of_lookup in He as [j Hj]. unfold enums_of in Hj. rewrite list_lookup_imap in Hj.
  destruct (ds !! j) as [x|] eqn:Ex; [|done]. injection Hj as <-.
  destruct (number_lookup ds j x Ex) as [Hn _]. pose proof (Hle (kind x)). pose proof (kind_range x).
  pose proof (kind_range d). cbn [enum_value enum_of] in Hv.
  assert (Hnd : number ds (length ds) d = zlen (of_kind (kind d) ds)) by (unfold number; by rewrite take_ge).
  specialize (Hmax (kind d)). rewrite of_kind_snoc, decide_True, zlen_app, zlen_cons in Hmax by done.
  change (zlen (@nil Decl)) with 0 in Hmax. pose proof (zlen_nonneg (of_kind (kind d) ds)).
  rewrite Hnd in Hv. assert (kind x = kind d) as Hk by lia. rewrite Hk in *. lia.
Qed.

(** With two or more origin groups the last one is not in the header: its members
    are not allowed to send the command. *)
Lemma mcsg_last_origin_lost g gs h : h ∉ g :: gs -> h ∉ shifted (g :: gs ++ [h]).
Proof.
  intros Hh. unfold shifted. rewrite length_app, Nat.add_1_r. cbn [take].
  rewrite take_app_le, take_ge by lia. rewrite !not_elem_of_cons in *. by destruct Hh.
Qed.

(** ** The command list of the repository, [mcsg.json]. *)

Section Repository.
#[local] Open Scope string_scope.
#[local] Open Scope list_scope.
#[local] Open Scope Z_scope.

Definition repo_message_decl (name desc : string) (raw : bool) (m : MessageDecl) : Decl :=
  mkDecl (mkCommonDecl name desc 0 raw) (Message m).

Definition arduino_decl : Decl :=
  mkDecl (mkCommonDecl "arduino_get_pin" "Get the value of the given pin in the Arduino board" 1 false)
    (Payload (mkPayloadDecl "001" "0110" "@arg0" None 1)).

Definition repo_decls : list Decl :=
  [repo_message_decl "test" "Send a test message" false
     (mkMessageDecl (Some "@arg0") ["any"] ["any"] 0);
   repo_message_decl "sdb_handshake" "Establish connection with the SDB" true
     (mkMessageDecl None ["any"] [] 0);
   repo_message_decl "sdb_qos_start" "Start logging QOS stats for the current module" false
     (mkMessageDecl None ["any"] [] 0);
   repo_message_decl "sdb_qos_dump" "Dump QOS stats for the current module" false
     (mkMessageDecl None ["any"] [] (-1));
   repo_message_decl "sdb_qos_stop" "Stop logging QOS stats for the current module and dump" false
     (mkMessageDecl None ["any"] [] (-1));
   repo_message_decl "procman_start" "Start the Process Manager" false
     (mkMessageDecl (Some "procman") ["syscore"] [] 0);
   mkDecl (mkCommonDecl "temperature_arduino"
       "Get temperature from the embedded sensor in the Arduino board" 1 false)
     (State (mkStateDecl "get_sensor_value_arduino" 1 "float" "K" None [("app", 15)]));
   arduino_decl].

(** The tables the other files use as an instance list these commands. *)
Lemma repo_tables_commands :
  (cmd_name ∘ msg_cmd) <$> @mcs_command_message_list repo_tables
    = (str ∘ c_name ∘ d_common) <$> of_kind MCS_TYPE_MESSAGE repo_decls /\
  (cmd_name ∘ state_cmd) <$> @mcs_command_state_list repo_tables
    = (str ∘ c_name ∘ d_common) <$> of_kind MCS_TYPE_STATE repo_decls /\
  (cmd_name ∘ payload_cmd) <$> @mcs_command_payload_list repo_tables
    = (str ∘ c_name ∘ d_common) <$> of_kind MCS_TYPE_PAYLOAD repo_decls.
Proof. split_and!; reflexivity. Qed.

(** The Java file of the repository's list. *)
Example repo_java :
  java_lines (imap (fun i d => (upper_name d, enum_value (enum_of repo_decls i d))) repo_decls)
  = txt (cat ["        TEST (0),|"; "        SDB_HANDSHAKE (1),|"; "        SDB_QOS_START (2),|";
              "        SDB_QOS_DUMP (3),|"; "        SDB_QOS_STOP (4),|"; "        PROCMAN_START (5),|";
              "        TEMPERATURE_ARDUINO (65536),|"; "        ARDUINO_GET_PIN (131072);|"]).
Proof. vm_compute. reflexivity. Qed.

Lemma repo_bounds t : zlen (of_kind t repo_decls) <= 65536.
Proof.
  unfold of_kind, zlen. pose proof (length_filter (fun d => kind d = t) repo_decls) as Hl.
  change (length repo_decls) with 8%nat in Hl. lia.
Qed.

Lemma mcsg_codes_distinct_witness : NoDup (enum_value <$> enums_of repo_decls).
Proof.
  exact (mcsg_codes_distinct repo_decls (commands_of repo_decls) repo_bounds eq_refl).
Defined.

Lemma mcsg_codes_witness :
  exists l e k, mcsg_commands_reader (json_of_file repo_decls) = Ok l /\ zlen (enums l) = zlen repo_decls /\
    enums l !! 7%nat = Some e /\ enum_name e = "MCS_PAYLOAD_ARDUINO_GET_PIN" /\
    list_of MCS_TYPE_PAYLOAD l !! k = Some (json_of arduino_decl) /\
    forall rnd nargs args size data pkt,
      @mcs_create_packet repo_tables release_build rnd (enum_value e) nargs args size data = Ok (Some pkt) ->
      pkt_type pkt = MCS_TYPE_PAYLOAD /\ pkt_cmd pkt = Z.of_nat k.
Proof.
  exact (@mcsg_codes repo_tables release_build repo_decls 7 arduino_decl eq_refl (repo_bounds MCS_TYPE_PAYLOAD)).
Defined.

End Repository.
