(* ===== verification/McsgFile.v ===== *)
(** * McsgFile: the generator from file to file.

    [main] of [mcsg.c] reads [mcsg.json] into a block of one byte more than the file,
    parses it with the JSON library and writes the two files.  The last byte of the
    block is never set: it is an argument, [garbage]. *)

From S2P Require Import Prelude Hoare.
From S2P Require Import Abs McsDefs Mcs McsFacts Float64 Json JsonPrint JsonSpec JsonFacts JsonParse JsonRender JsonWrite JsonSafe JsonProps.
From S2P Require Import Mcsg McsgProps.
From stdpp Require Import pretty.
From Stdlib Require Import Ascii.
#[local] Open Scope Z_scope.

(** ** The program. *)

(** The characters [printf] reads for [%s]. *)
Fixpoint read_string (p : string) : outcome string :=
  match p with
  | EmptyString => UB
  | String a p => if isc a 0 then Ok EmptyString else s ← read_string p; Ok (String a s)
  end.

(** What [main] leaves: the message about a failed parse, or the two files. *)
Inductive mcsg_result :=
| Parse_error (near : string)
| Written (header java : string).

Definition mcsg_main `{Libm} (malloc_ok : nat -> bool) (file : string) (garbage : ascii) :
    ST Json mcsg_result :=
  let data := String.append file (String garbage EmptyString) in
  let! json := cJSON_Parse malloc_ok (Some data) in
  let! result := match json with
    | None =>
        let! p := st_gets ep in
        let! near := st_lift (match p with Some p => read_string p | None => UB end) in
        st_ret (Parse_error near)
    | Some json =>
        let! files := st_lift (mcsg_files json) in
        st_ret (Written files.1 files.2)
    end in
  do! cJSON_Delete (match json with Some c => [c] | None => [] end) in
  st_ret result.

(** ** The JSON value of a list of declarations. *)

Section Value.
#[local] Open Scope string_scope.
#[local] Open Scope list_scope.
#[local] Open Scope Z_scope.

Definition opt_value (s : option string) : json := match s with Some s => JStr s | None => JNull end.

Definition config_value (c : Config) : string * list (string * json) :=
  match c with
  | Message m => ("message",
      [("destination", opt_value (m_destination m));
       ("origin_groups", JArr (JStr <$> m_origin_groups m));
       ("destination_groups", JArr (JStr <$> m_destination_groups m));
       ("response_size", JNum (m_response_size m))])
  | State s => ("state",
      [("update_function", JStr (s_update_function s));
       ("dimensions", JNum (s_dimensions s));
       ("return_type", JStr (s_return_type s));
       ("unit", JStr (s_unit s));
       ("dimension_name", opt_value (s_dimension_name s));
       ("expire_group", JArr ((fun e => JObj [(e.1, JNum e.2)]) <$> s_expire_group s))])
  | Payload p => ("payload",
      [("command", JStr (p_command p));
       ("parameters", JStr (p_parameters p));
       ("arguments", JStr (p_arguments p));
       ("data", opt_value (p_data p));
       ("response_size", JNum (p_response_size p))])
  end.

Definition decl_value (d : Decl) : json :=
  let c := d_common d in
  JObj [("name", JStr (c_name c)); ("description", JStr (c_description c)); ("nargs", JNum (c_nargs c));
        ("raw_data", JBool (c_raw_data c)); ("type", JStr (config_value (d_config d)).1);
        ("config", JObj (config_value (d_config d)).2)].

Definition file_value (ds : list Decl) : json := JObj [("command_list", JArr (decl_value <$> ds))].

End Value.

Lemma opt_value_node key s : JsonSpec.node (Some key) (opt_value s) = opt_node key s.
Proof. by destruct s. Qed.

Lemma groups_node (gs : list string) : JsonSpec.node None <$> (JStr <$> gs) = str_item <$> gs.
Proof. by rewrite <- list_fmap_compose. Qed.

Lemma expire_node (es : list (string * Z)) :
  JsonSpec.node None <$> ((fun e => JObj [(e.1, JNum e.2)]) <$> es) = (fun e => item [int_node e.1 e.2]) <$> es.
Proof. by rewrite <- list_fmap_compose. Qed.

Lemma decl_value_node d : JsonSpec.node None (decl_value d) = json_of d.
Proof.
  destruct d as [c [m|st|p]]; unfold decl_value, json_of;
    cbn [JsonSpec.node fmap list_fmap d_common d_config config_value json_of_config fst snd];
    rewrite ?opt_value_node.
  - rewrite <- !groups_node. done.
  - rewrite <- expire_node. done.
  - done.
Qed.

Lemma file_value_node ds : JsonSpec.node None (file_value ds) = json_of_file ds.
Proof.
  unfold file_value, json_of_file, item, arr_node. cbn [JsonSpec.node fmap list_fmap fst snd].
  do 3 f_equal. rewrite <- list_fmap_compose. apply list_fmap_ext. intros i d _. apply decl_value_node.
Qed.

(** ** Releasing a parsed tree. *)

Lemma node_own j name : own (JsonSpec.node name j) = text_blocks name + Z.of_nat (blocks j).
Proof.
  revert name. induction j as [|b|z|v|s|l IH|l IH] using json_ind; intros name;
    rewrite own_eq; cbn [JsonSpec.node valuestring json_string child blocks]; try (cbn [text_blocks chain foldr]; lia).
  - enough (chain (JsonSpec.node None <$> l) = Z.of_nat (sum_list ((fun x => S (blocks x)) <$> l))) by (cbn [text_blocks]; lia).
    induction IH as [|x l Hx _ IH]; [done|]. rewrite !fmap_cons. cbn [chain foldr sum_list]. fold (chain (JsonSpec.node None <$> l)).
    rewrite IH, Hx. cbn [text_blocks]. unfold id. lia.
  - set (f := fun m : string * json => JsonSpec.node (Some m.1) m.2).
    enough (chain (f <$> l) = Z.of_nat (sum_list ((fun m => S (S (blocks m.2))) <$> l))) by (cbn [text_blocks]; lia).
    induction IH as [|x l Hx _ IH]; [done|]. rewrite !fmap_cons. cbn [chain foldr sum_list]. fold (chain (f <$> l)).
    rewrite IH. unfold f. rewrite Hx. cbn [text_blocks]. unfold id. lia.
Qed.

Lemma node_clean j name : clean (JsonSpec.node name j).
Proof.
  revert name. induction j as [|b|z|v|s|l IH|l IH] using json_ind; intros name; try done.
  - by destruct b.
  - apply clean_eq. split; [done|]. cbn [JsonSpec.node child]. induction IH as [|x l Hx _ IH]; [done|].
    by split.
  - apply clean_eq. split; [done|]. cbn [JsonSpec.node child]. induction IH as [|x l Hx _ IH]; [done|].
    by split.
Qed.

(** ** From file to file. *)

Lemma append_assoc3 a b c d : String.append (a +:+ b +:+ c) d = a +:+ b +:+ (c +:+ d).
Proof. by rewrite !append_assoc. Qed.

(** C15: the generated files.  When the file holds a JSON text of a command list with a
    command of each type, in whatever layout and followed by whatever characters, the
    response size of every state (dimensions times the size of its type) is an [int] and memory lasts, the
    generator writes the header and the Java file that the declarations describe and gives
    back all memory of the tree: the codes in the order of the file, a table per type in
    the order of the file and the number of its entries.  Two of the fields are not what
    is declared: the origin groups are those of [shifted], and the command, parameters and
    data of a payload are written as zero and NULL.  Without a command of some type the
    generator follows a NULL pointer, and a larger size overflows: both are undefined. *)
Theorem mcsg_generates `{Libm} malloc_ok ds t w r garbage s : (forall n, malloc_ok n = true) ->
  text (file_value ds) t -> blank w ->
  if decide (generable ds)
  then exists s', mcsg_main malloc_ok (w +:+ t +:+ r) garbage s = Ok (Written (header_text ds) (java_text ds), s') /\
         live s' = live s
  else mcsg_main malloc_ok (w +:+ t +:+ r) garbage s = UB.
Proof.
  intros Hm Ht Hw. unfold mcsg_main. rewrite append_assoc3.
  rewrite (st_bind_ok _ _ _ _ _ (cJSON_Parse_text malloc_ok Hm (file_value ds) t w (r +:+ _) s Ht Hw I)).
  rewrite file_value_node. unfold st_bind at 2, st_lift. rewrite mcsg_files_ok. case_decide; [|done].
  set (s1 := mkJson _ _ _). enough (runs (cJSON_Delete [json_of_file ds]) s1 (fun _ s' => live s' = live s)) as Hr.
  { destruct Hr as ([] & s' & E & L). exists s'. split; [|done]. cbv beta zeta. unfold st_bind, st_ret.
    cbn [fst snd]. by rewrite E. }
  rewrite <- file_value_node. cbn [cJSON_Delete]. eapply runs_bind; [apply delete_item_released, node_clean|].
  intros [] s2 [_ L2]. apply runs_ret. rewrite L2, node_own. unfold s1. cbn [live text_blocks]. lia.
Qed.

(** ** The command list of the repository. *)

(** The file [mcsg.json]. *)
Definition repo_json : string := txt "{
'command_list' : [
	{
	'name' : 'test',
	'description' : 'Send a test message',
	'nargs' : 0,
	'raw_data' : false,
	'type' : 'message',
	'config' : {
		'destination' : '@arg0',
		'origin_groups' : ['any'],
		'destination_groups' : ['any'],
		'response_size' : 0
		}
	},
	{
	'name' : 'sdb_handshake',
	'description' : 'Establish connection with the SDB',
	'nargs' : 0,
	'raw_data' : true,
	'type' : 'message',
	'config' : {
		'destination' : null,
		'origin_groups' : ['any'],
		'destination_groups' : [],
		'response_size' : 0
		}
	},
	{
	'name' : 'sdb_qos_start',
	'description' : 'Start logging QOS stats for the current module',
	'nargs' : 0,
	'raw_data' : false,
	'type' : 'message',
	'config' : {
		'destination' : null,
		'origin_groups' : ['any'],
		'destination_groups' : [],
		'response_size' : 0
		}
	},
	{
	'name' : 'sdb_qos_dump',
	'description' : 'Dump QOS stats for the current module',
	'nargs' : 0,
	'raw_data' : false,
	'type' : 'message',
	'config' : {
		'destination' : null,
		'origin_groups' : ['any'],
		'destination_groups' : [],
		'response_size' : -1
		}
	},
	{
	'name' : 'sdb_qos_stop',
	'description' : 'Stop logging QOS stats for the current module and dump',
	'nargs' : 0,
	'raw_data' : false,
	'type' : 'message',
	'config' : {
		'destination' : null,
		'origin_groups' : ['any'],
		'destination_groups' : [],
		'response_size' : -1
		}
	},
	{
	'name' : 'procman_start',
	'description' : 'Start the Process Manager',
	'nargs' : 0,
	'raw_data' : false,
	'type' : 'message',
	'config' : {
		'destination' : 'procman',
		'origin_groups' : ['syscore'],
		'destination_groups' : [],
		'response_size' : 0
		}
	},
	{
	'name' : 'temperature_arduino',
	'description' : 'Get temperature from the embedded sensor in the Arduino board',
	'nargs' : 1,
	'raw_data' : false,
	'type' : 'state',
	'config' : {
		'update_function' : 'get_sensor_value_arduino',
		'dimensions' : 1,
		'return_type' : 'float',
		'unit' : 'K',
		'dimension_name' : null,
		'expire_group' : [{'app' : 15}]
		}
	},
	{
	'name' : 'arduino_get_pin',
	'description' : 'Get the value of the given pin in the Arduino board',
	'nargs' : 1,
	'raw_data' : false,
	'type' : 'payload',
	'config' : {
		'command' : '001',
		'parameters' : '0110',
		'arguments' : '@arg0',
		'data' : null,
		'response_size' : 1
		}
	}
]
}
".

Lemma repo_value_wf : wf_json (file_value repo_decls).
Proof. repeat split; done. Qed.

Lemma mcsg_generates_witness :
  exists s', @mcsg_main demo_libm (fun _ => true) (EmptyString +:+ render 0 true (file_value repo_decls) +:+ EmptyString) "x" json_fresh
    = Ok (Written (header_text repo_decls) (java_text repo_decls), s') /\ live s' = 0.
Proof.
  exact (@mcsg_generates demo_libm (fun _ => true) repo_decls _ EmptyString EmptyString "x"%char json_fresh (fun _ => eq_refl)
    (render_text 0 true _ repo_value_wf) eq_refl).
Defined.

Definition outcome_of {S A} (o : outcome (A * S)) : outcome A := r ← o; Ok r.1.

(** The file as it is in the repository gives the same two files. *)
Example repo_file : outcome_of (@mcsg_main demo_libm (fun _ => true) repo_json "x" json_fresh)
  = Ok (Written (header_text repo_decls) (java_text repo_decls)).
Proof. vm_compute. reflexivity. Qed.

(** A file that is not JSON: the error message ends where the unset byte happens to be NUL. *)
Example bad_file (garbage : ascii) :
  outcome_of (@mcsg_main demo_libm (fun _ => true) "[" garbage json_fresh)
  = if isc garbage 0 then Ok (Parse_error EmptyString) else UB.
Proof. destruct garbage as [[] [] [] [] [] [] [] []]; vm_compute; reflexivity. Qed.

(** A state of 2^29 integers: the size overflows an [int]. *)
Definition big_state : Decl :=
  mkDecl (mkCommonDecl "big" "Too large" 0 false) (State (mkStateDecl "get" (2 ^ 29) "int" "K" None [])).

Example big_state_overflow :
  outcome_of (@mcsg_main demo_libm (fun _ => true) (render 0 true (file_value (big_state :: repo_decls))) "x" json_fresh) = UB.
Proof. vm_compute. reflexivity. Qed.
