(* ===== verification/JUnzip.v ===== *)
(** * JUnzip: the archive reader, [src/src/Architecture/Libraries/app_ctrl/JUnzip/junzip.c].

    A file is its bytes and a position; reading past its end gives fewer bytes and only a
    negative position cannot be sought.  zlib is a parameter ([Zlib]); what it promises is the
    class [Inflates]. *)

From S2P Require Import Prelude.

(** ** Structures, [junzip.h]. *)

Definition JZ_BUFFER_SIZE : Z := 65536.
Definition JZ_LOCAL_SIGNATURE : Z := 0x04034B50.
Definition JZ_GLOBAL_SIGNATURE : Z := 0x02014B50.
Definition JZ_END_SIGNATURE : Z := 0x06054B50.

Record JZFileHeader := mkHeader {
  compressionMethod : Z;
  lastModFileTime : Z;
  lastModFileDate : Z;
  crc32 : Z;
  compressedSize : Z;
  uncompressedSize : Z;
  offset : Z
}.

Record JZEndRecord := mkEnd {
  diskNumber : Z;
  centralDirectoryDiskNumber : Z;
  numEntriesThisDisk : Z;
  numEntries : Z;
  centralDirectorySize : Z;
  centralDirectoryOffset : Z;
  zipCommentLength : Z
}.

(** The results of zlib. *)
Definition Z_OK : Z := 0.
Definition Z_STREAM_END : Z := 1.
Definition Z_NEED_DICT : Z := 2.
Definition Z_ERRNO : Z := -1.
Definition Z_STREAM_ERROR : Z := -2.
Definition Z_DATA_ERROR : Z := -3.
Definition Z_MEM_ERROR : Z := -4.
Definition Z_BUF_ERROR : Z := -5.

(** The field of [n] bytes at [off] of a packed structure. *)
Definition field (bs : list Z) (off n : nat) : Z := of_le (take n (drop off bs)).

(** ** Files. *)

Record FILE := mkFILE { contents : list Z; fpos : Z }.

(** What is left to read. *)
Definition unread (f : FILE) : list Z := drop (Z.to_nat (fpos f)) (contents f).

(** At most [n] bytes. *)
Definition fread (n : Z) : ST FILE (list Z) := fun f =>
  let bs := take (Z.to_nat n) (unread f) in Ok (bs, mkFILE (contents f) (fpos f + zlen bs)).

Definition fseek (target : Z) : ST FILE Z := fun f =>
  if target <? 0 then Ok (-1, f) else Ok (0, mkFILE (contents f) target).

Definition fseek_cur (n : Z) : ST FILE Z := fun f => fseek (fpos f + n) f.

(** ** The local header of an entry. *)

Definition LOCAL_HEADER_SIZE : Z := 30.

(** The header and what is written to [filename]; [None] for [Z_ERRNO]. *)
Definition jzReadLocalFileHeader (len : Z) : ST FILE (option (JZFileHeader * list Z)) :=
  let! h := fread LOCAL_HEADER_SIZE in
  if zlen h <? LOCAL_HEADER_SIZE then st_ret None
  else if negb (field h 0 4 =? JZ_LOCAL_SIGNATURE) then st_ret None
  else
    let fileNameLength := field h 26 2 in
    let extraFieldLength := field h 28 2 in
    let? filename :=
      (if negb (len =? 0) then
         if len <=? fileNameLength then st_ret None
         else
           let! name := fread fileNameLength in
           if zlen name <? fileNameLength then st_ret None else st_ret (Some (name ++ [0]))
       else
         let! r := fseek_cur fileNameLength in
         if negb (r =? 0) then st_ret None else st_ret (Some [])) in
    let! r := (if negb (extraFieldLength =? 0) then fseek_cur extraFieldLength else st_ret 0) in
    if negb (r =? 0) then st_ret None
    else if (field h 8 2 =? 0) && negb (field h 18 4 =? field h 22 4) then st_ret None
    else st_ret (Some (mkHeader (field h 8 2) (field h 10 2) (field h 12 2) (field h 14 4) (field h 18 4) (field h 22 4) 0, filename)).

(** ** The data of an entry. *)

(** zlib: [inflateInit2] for raw data, and [inflate] on the bytes of [next_in] with
    [avail_out] bytes of room: the result, the bytes written and [avail_in] afterwards. *)
Class Zlib := {
  ZStream : Type;
  inflateInit2 : Z * ZStream;
  inflate : ZStream -> list Z -> Z -> Z * list Z * Z * ZStream
}.

Section Data.
Context `{Zlib}.

(** The size of the next chunk: the comparison converts [compressedLeft] to an unsigned type,
    where a negative value is a large one. *)
Definition chunk_size (compressedLeft : Z) : Z :=
  if (JZ_BUFFER_SIZE <? compressedLeft) || (compressedLeft <? 0) then JZ_BUFFER_SIZE else compressedLeft.

(** The loop over the chunks of the file: every turn reads a byte at least, or returns.  What is
    written to the buffer is returned with the result. *)
Fixpoint inflate_loop (fuel : nat) (ret : Z) (strm : ZStream) (compressedLeft uncompressedLeft : Z)
    (bytes : list Z) : ST FILE (Z * list Z) :=
  match fuel with
  | O => st_ub
  | S fuel =>
      if negb (compressedLeft =? 0) && negb (uncompressedLeft =? 0) && negb (ret =? Z_STREAM_END) then
        let! chunk := fread (chunk_size compressedLeft) in
        if zlen chunk =? 0 then st_ret (Z_ERRNO, bytes)
        else
          let compressedLeft := compressedLeft - zlen chunk in
          let '(ret, out, avail_in, strm) := inflate strm chunk uncompressedLeft in
          if ret =? Z_STREAM_ERROR then st_ret (ret, bytes ++ out)
          else if ret =? Z_NEED_DICT then st_ret (Z_DATA_ERROR, bytes ++ out)
          else if (ret =? Z_DATA_ERROR) || (ret =? Z_MEM_ERROR) then st_ret (ret, bytes ++ out)
          else inflate_loop fuel ret strm (compressedLeft - avail_in) (uncompressedLeft - zlen out) (bytes ++ out)
      else st_ret (Z_OK, bytes)
  end.

Definition jzReadData (header : JZFileHeader) : ST FILE (Z * list Z) :=
  if compressionMethod header =? 0 then
    let! data := fread (uncompressedSize header) in
    st_ret (if zlen data <? uncompressedSize header then Z_ERRNO else Z_OK, data)
  else if compressionMethod header =? 8 then
    let '(ret, strm) := inflateInit2 in
    if negb (ret =? Z_OK) then st_ret (ret, [])
    else inflate_loop (S (Z.to_nat (compressedSize header))) ret strm (compressedSize header) (uncompressedSize header) []
  else st_ret (Z_ERRNO, []).

End Data.

(** ** The end record and the central directory. *)

Definition END_RECORD_SIZE : Z := 22.
Definition GLOBAL_HEADER_SIZE : Z := 46.

(** [for (i = n; i >= 0; i--)]: the place of the signature. *)
Fixpoint find_end (buffer : list Z) (n : nat) : option nat :=
  if field buffer n 4 =? JZ_END_SIGNATURE then Some n
  else match n with O => None | S n => find_end buffer n end.

Definition end_record_of (b : list Z) : JZEndRecord :=
  mkEnd (field b 4 2) (field b 6 2) (field b 8 2) (field b 10 2) (field b 12 4) (field b 16 4) (field b 20 2).

Definition jzReadEndRecord : ST FILE (option JZEndRecord) :=
  let! fileSize := st_gets (fun f => zlen (contents f)) in
  do! fseek fileSize in
  if fileSize <=? END_RECORD_SIZE then st_ret None
  else
    let readBytes := if fileSize <? JZ_BUFFER_SIZE then fileSize else JZ_BUFFER_SIZE in
    let! r := fseek (fileSize - readBytes) in
    if negb (r =? 0) then st_ret None
    else
      let! buffer := fread readBytes in
      if zlen buffer <? readBytes then st_ret None
      else match find_end buffer (Z.to_nat (readBytes - END_RECORD_SIZE)) with
      | None => st_ret None
      | Some i =>
          let er := end_record_of (drop i buffer) in
          st_ret (if negb (diskNumber er =? 0) || negb (centralDirectoryDiskNumber er =? 0)
                     || negb (numEntries er =? numEntriesThisDisk er) then None else Some er)
      end.

Section Directory.
(** The callback and what it works on. *)
Context {A : Type} (callback : Z -> JZFileHeader -> list Z -> ST (FILE * A) Z).

Definition in_file {B} : ST FILE B -> ST (FILE * A) B := st_zoom fst (fun f s => (f, s.2)).

(** A header, its name and the extra fields; [None] for [Z_ERRNO]. *)
Definition read_global_header : ST FILE (option (JZFileHeader * list Z)) :=
  let! h := fread GLOBAL_HEADER_SIZE in
  if zlen h <? GLOBAL_HEADER_SIZE then st_ret None
  else if negb (field h 0 4 =? JZ_GLOBAL_SIGNATURE) then st_ret None
  else if JZ_BUFFER_SIZE <=? field h 28 2 + 1 then st_ret None
  else
    let! name := fread (field h 28 2) in
    if zlen name <? field h 28 2 then st_ret None
    else
      let! r1 := fseek_cur (field h 30 2) in
      if negb (r1 =? 0) then st_ret None
      else
        let! r2 := fseek_cur (field h 32 2) in
        if negb (r2 =? 0) then st_ret None
        else st_ret (Some (mkHeader (field h 10 2) (field h 12 2) (field h 14 2) (field h 16 4) (field h 20 4) (field h 24 4)
                             (field h 42 4), name ++ [0])).

Fixpoint directory_loop (n : nat) (i : Z) : ST (FILE * A) Z :=
  match n with
  | O => st_ret Z_OK
  | S n =>
      let! entry := in_file read_global_header in
      match entry with
      | None => st_ret Z_ERRNO
      | Some (header, filename) =>
          let! r := callback i header filename in
          if r =? 0 then st_ret Z_OK else directory_loop n (i + 1)
      end
  end.

Definition jzReadCentralDirectory (endRecord : JZEndRecord) : ST (FILE * A) Z :=
  let! r := in_file (fseek (centralDirectoryOffset endRecord)) in
  if negb (r =? 0) then st_ret Z_ERRNO
  else directory_loop (Z.to_nat (numEntries endRecord)) 0.

End Directory.

(** ** Reading. *)

(** The position is that of the bytes [l]. *)
Definition reads_at (f : FILE) (l : list Z) : Prop := 0 <= fpos f /\ unread f = l.

Definition skipped (n : Z) (f : FILE) : FILE := mkFILE (contents f) (fpos f + n).

Lemma reads_at_skipped f a b : reads_at f (a ++ b) -> reads_at (skipped (zlen a) f) b.
Proof.
  intros [Hp Hu]. pose proof (zlen_nonneg a). split; [cbn; lia|]. unfold unread, skipped in *. cbn.
  rewrite Z2Nat.inj_add by lia. rewrite <- drop_drop, Hu. unfold zlen. by rewrite Nat2Z.id, drop_app_length.
Qed.

Lemma fread_at f a b : reads_at f (a ++ b) -> fread (zlen a) f = Ok (a, skipped (zlen a) f).
Proof.
  intros [_ Hu]. unfold fread. rewrite Hu. change (Z.to_nat (zlen a)) with (Z.to_nat (Z.of_nat (length a))).
  by rewrite Nat2Z.id, take_app_length.
Qed.

Lemma fread_le f n l : reads_at f l -> 0 <= n <= zlen l ->
  fread n f = Ok (take (Z.to_nat n) l, skipped n f) /\ zlen (take (Z.to_nat n) l) = n /\
  reads_at (skipped n f) (drop (Z.to_nat n) l).
Proof.
  intros Hl Hn. assert (Hlen : zlen (take (Z.to_nat n) l) = n).
  { unfold zlen in *. rewrite length_take. lia. }
  rewrite <- (take_drop (Z.to_nat n) l) in Hl. pose proof (fread_at _ _ _ Hl) as E. pose proof (reads_at_skipped _ _ _ Hl) as R.
  rewrite Hlen in E, R. done.
Qed.

Lemma fseek_cur_0 f : 0 <= fpos f -> fseek_cur 0 f = Ok (0, f).
Proof. intros Hp. unfold fseek_cur, fseek. rewrite Z.add_0_r, (proj2 (Z.ltb_ge _ _) Hp). by destruct f. Qed.

(** ** Decompression. *)

(** What zlib promises: a stream that encodes [data] gives it piece by piece. *)
Class Inflates `{Zlib} := {
  decodes : ZStream -> list Z -> list Z -> Prop;
  inflate_ready : inflateInit2.1 = Z_OK;
  decodes_nil s data : decodes s [] data -> data = [];
  inflate_step s a b data room : decodes s (a ++ b) data -> a <> [] -> zlen data <= room ->
    exists ret d1 d2 left s', data = d1 ++ d2 /\ inflate s a room = (ret, d1, left, s') /\
      ret ∈ [Z_OK; Z_STREAM_END; Z_BUF_ERROR] /\
      (d2 = [] \/ ret <> Z_STREAM_END /\ left = 0 /\ decodes s' b d2)
}.

Section Inflate.
Context `{Inflates}.

Lemma inflate_done fuel ret strm c bytes f : inflate_loop (S fuel) ret strm c 0 bytes f = Ok ((Z_OK, bytes), f).
Proof. cbn [inflate_loop]. by rewrite andb_false_r. Qed.

Lemma inflate_loop_ok fuel ret s comp data rest bytes f : decodes s comp data -> reads_at f (comp ++ rest) ->
  ret <> Z_STREAM_END -> zlen comp < Z.of_nat fuel ->
  exists f', inflate_loop fuel ret s (zlen comp) (zlen data) bytes f = Ok ((Z_OK, bytes ++ data), f').
Proof.
  revert ret s comp data bytes f. induction fuel as [|fuel IH]; intros ret s comp data bytes f Hd Hf Hr Hfuel.
  { pose proof (zlen_nonneg comp). lia. }
  destruct (decide (data = [])) as [-> |Hdata]; [exists f; by rewrite app_nil_r, inflate_done|].
  destruct (decide (comp = [])) as [-> |Hcomp]; [by apply decodes_nil in Hd|].
  assert (Hc : 0 < zlen comp) by (destruct comp; [done|rewrite zlen_cons; pose proof (zlen_nonneg comp); lia]).
  cbn [inflate_loop]. rewrite (proj2 (Z.eqb_neq (zlen comp) 0)) by lia.
  assert (zlen data <> 0) as Hd0 by (intros E; by apply zlen_0 in E).
  rewrite (proj2 (Z.eqb_neq _ _) Hd0), (proj2 (Z.eqb_neq _ _) Hr). cbn [negb andb].
  set (n := chunk_size (zlen comp)).
  assert (Hn : 0 < n <= zlen comp).
  { unfold n, chunk_size, JZ_BUFFER_SIZE. rewrite (proj2 (Z.ltb_ge (zlen comp) 0)), orb_false_r by lia.
    destruct (65536 <? zlen comp) eqn:E; [apply Z.ltb_lt in E|]; lia. }
  assert (Hf' := Hf). rewrite <- (take_drop (Z.to_nat n) comp), <- app_assoc in Hf'.
  assert (Hlen : zlen (take (Z.to_nat n) comp) = n) by (unfold zlen in *; rewrite length_take; lia).
  pose proof (fread_at _ _ _ Hf') as E. pose proof (reads_at_skipped _ _ _ Hf') as R. rewrite Hlen in E, R.
  rewrite (st_bind_ok _ _ _ _ _ E), Hlen, (proj2 (Z.eqb_neq n 0)) by lia.
  rewrite <- (take_drop (Z.to_nat n) comp) in Hd.
  destruct (inflate_step s _ _ data (zlen data) Hd) as (ret' & d1 & d2 & left & s' & -> & Ei & Hret & Hnext);
    [intros E0; rewrite E0 in Hlen; rewrite zlen_nil in Hlen; lia|done|].
  rewrite Ei. cbn beta iota.
  assert (Hb : (ret' =? Z_STREAM_ERROR) = false /\ (ret' =? Z_NEED_DICT) = false /\ (ret' =? Z_DATA_ERROR) = false /\
    (ret' =? Z_MEM_ERROR) = false)
    by (rewrite !elem_of_cons in Hret; destruct Hret as [-> |[-> |[-> |Hn']]]; [done..|by apply not_elem_of_nil in Hn']).
  destruct Hb as (-> & -> & -> & ->). cbn [orb]. rewrite zlen_app. replace (zlen d1 + zlen d2 - zlen d1) with (zlen d2) by lia.
  destruct Hnext as [-> |(Hr' & -> & Hd')].
  - destruct fuel as [|fuel]; [lia|]. eexists. rewrite app_nil_r. apply inflate_done.
  - assert (zlen comp - n - 0 = zlen (drop (Z.to_nat n) comp)) as ->.
    { unfold zlen in *. rewrite length_drop. lia. }
    destruct (IH ret' s' (drop (Z.to_nat n) comp) d2 (bytes ++ d1) (skipped n f)) as [f' E2]; [done|done|done| |].
    { unfold zlen in *. rewrite length_drop. lia. }
    exists f'. by rewrite E2, <- app_assoc.
Qed.

(** How the data of an entry is stored. *)
Definition packed (method : Z) (comp data : list Z) : Prop :=
  method = 0 /\ comp = data \/ method = 8 /\ decodes inflateInit2.2 comp data.

Lemma jzReadData_ok h comp data rest f : packed (compressionMethod h) comp data ->
  compressedSize h = zlen comp -> uncompressedSize h = zlen data -> reads_at f (comp ++ rest) ->
  exists f', jzReadData h f = Ok ((Z_OK, data), f').
Proof.
  intros Hp Hc Hu Hf. unfold jzReadData. rewrite Hc, Hu. destruct Hp as [[-> ->]|[-> Hd]].
  - change (0 =? 0) with true. cbn iota. rewrite (st_bind_ok _ _ _ _ _ (fread_at _ _ _ Hf)), Z.ltb_irrefl. by eexists.
  - change (8 =? 0) with false. change (8 =? 8) with true. cbn iota. pose proof inflate_ready as Hr. destruct inflateInit2 as [ret strm]. cbn [fst snd] in Hr, Hd. subst ret.
    change (Z_OK =? Z_OK) with true. cbn [negb]. apply (inflate_loop_ok _ _ _ comp data rest [] f); [done|done|done|lia].
Qed.

End Inflate.

(** ** The entries of an archive. *)

Definition u16_ok (z : Z) : Prop := 0 <= z < 2 ^ 16.
Definition u32_ok (z : Z) : Prop := 0 <= z < 2 ^ 32.

(** A structure is the list of its fields, each with its width. *)
Definition layout (fs : list (nat * Z)) : list Z := mjoin ((fun f => le_bytes f.1 f.2) <$> fs).

Definition w2 (z : Z) : nat * Z := (2%nat, z).
Definition w4 (z : Z) : nat * Z := (4%nat, z).

Definition fits (f : nat * Z) : Prop := 0 <= f.2 < 256 ^ Z.of_nat f.1.

Lemma layout_length fs : length (layout fs) = sum_list fs.*1.
Proof. induction fs as [|[n v] fs IH]; [done|]. cbn. rewrite length_app, le_bytes_length. by rewrite <- IH. Qed.

Lemma field_layout fs i n v rest : fs !! i = Some (n, v) -> fits (n, v) ->
  field (layout fs ++ rest) (sum_list (take i fs).*1) n = v.
Proof.
  intros Hi Hv. assert (layout fs ++ rest = layout (take i fs) ++ le_bytes n v ++ layout (drop (S i) fs) ++ rest) as ->.
  { rewrite <- (take_drop_middle fs i _ Hi) at 1. unfold layout. rewrite fmap_app, join_app, fmap_cons. cbn [mjoin list_join fst snd].
    by rewrite <- !app_assoc. }
  unfold field. rewrite <- layout_length, drop_app_length, take_app_le, take_ge by (rewrite le_bytes_length; lia).
  by apply of_le_bytes_small.
Qed.

Lemma field_struct fs i n v : fs !! i = Some (n, v) -> fits (n, v) -> field (layout fs) (sum_list (take i fs).*1) n = v.
Proof. rewrite <- (app_nil_r (layout fs)). apply field_layout. Qed.

Lemma fseek_cur_at f a b : reads_at f (a ++ b) -> fseek_cur (zlen a) f = Ok (0, skipped (zlen a) f).
Proof.
  intros [Hp _]. pose proof (zlen_nonneg a). unfold fseek_cur, fseek. rewrite (proj2 (Z.ltb_ge _ _)) by lia. done.
Qed.

(** An entry as an archiver writes it: [comp] are the bytes of the data, [size] is their number
    when they are unpacked. *)
Definition local_fields (method size : Z) (name comp : list Z) : list (nat * Z) :=
  [w4 JZ_LOCAL_SIGNATURE; w2 20; w2 0; w2 method; w2 0; w2 0; w4 0; w4 (zlen comp); w4 size;
   w2 (zlen name); w2 0].

Definition local_entry (method size : Z) (name comp : list Z) : list Z :=
  layout (local_fields method size name comp) ++ name ++ comp.

Lemma local_header len method size name comp rest f :
  zlen name < len -> u16_ok (zlen name) -> u16_ok method -> u32_ok (zlen comp) -> u32_ok size ->
  (method = 0 -> zlen comp = size) -> reads_at f (local_entry method size name comp ++ rest) ->
  exists f', jzReadLocalFileHeader len f = Ok (Some (mkHeader method 0 0 0 (zlen comp) size 0, name ++ [0]), f') /\
    reads_at f' (comp ++ rest).
Proof.
  intros Hlen Hn Hm Hc Hs Hstored Hf. unfold local_entry in Hf. rewrite <- !app_assoc in Hf.
  set (fs := local_fields method size name comp) in *. pose proof (zlen_nonneg name).
  assert (Hl : zlen (layout fs) = 30) by (unfold zlen; by rewrite layout_length).
  pose proof (fread_at _ _ _ Hf) as E1. pose proof (reads_at_skipped _ _ _ Hf) as R1. rewrite Hl in E1, R1.
  unfold jzReadLocalFileHeader. rewrite (st_bind_ok _ _ _ _ _ E1), Hl. change (30 <? LOCAL_HEADER_SIZE) with false. cbn iota.
  assert (H0 : field (layout fs) 0 4 = JZ_LOCAL_SIGNATURE) by exact (field_struct fs 0 _ _ eq_refl ltac:(done)).
  assert (H8 : field (layout fs) 8 2 = method) by exact (field_struct fs 3 _ _ eq_refl Hm).
  assert (H10 : field (layout fs) 10 2 = 0) by exact (field_struct fs 4 _ _ eq_refl ltac:(done)).
  assert (H12 : field (layout fs) 12 2 = 0) by exact (field_struct fs 5 _ _ eq_refl ltac:(done)).
  assert (H14 : field (layout fs) 14 4 = 0) by exact (field_struct fs 6 _ _ eq_refl ltac:(done)).
  assert (H18 : field (layout fs) 18 4 = zlen comp) by exact (field_struct fs 7 _ _ eq_refl Hc).
  assert (H22 : field (layout fs) 22 4 = size) by exact (field_struct fs 8 _ _ eq_refl Hs).
  assert (H26 : field (layout fs) 26 2 = zlen name) by exact (field_struct fs 9 _ _ eq_refl Hn).
  assert (H28 : field (layout fs) 28 2 = 0) by exact (field_struct fs 10 _ _ eq_refl ltac:(done)).
  rewrite H0, H8, H10, H12, H14, H18, H22, H26, H28, Z.eqb_refl. clear -Hlen Hstored R1 H. cbn [negb].
  rewrite (proj2 (Z.eqb_neq len 0)), (proj2 (Z.leb_gt _ _) Hlen) by lia. cbn [negb].
  unfold st_obind. unfold st_bind at 1. rewrite (st_bind_ok _ _ _ _ _ (fread_at _ _ _ R1)), Z.ltb_irrefl.
  unfold st_ret at 1. unfold st_bind at 1. change (0 =? 0) with true. cbn [negb]. unfold st_ret at 1.
  change (0 =? 0) with true. cbn [negb].
  assert ((method =? 0) && negb (zlen comp =? size) = false) as ->.
  { destruct (method =? 0) eqn:E; [|done]. apply Z.eqb_eq in E. by rewrite (Hstored E), Z.eqb_refl. }
  eexists. split; [reflexivity|]. by apply reads_at_skipped.
Qed.

(** ** The directory. *)

Record CEntry := mkEntry { ce_header : JZFileHeader; ce_name : list Z; ce_extra : list Z; ce_comment : list Z }.

Definition central_fields (e : CEntry) : list (nat * Z) :=
  let h := ce_header e in
  [w4 JZ_GLOBAL_SIGNATURE; w2 20; w2 20; w2 0; w2 (compressionMethod h); w2 (lastModFileTime h);
   w2 (lastModFileDate h); w4 (crc32 h); w4 (compressedSize h); w4 (uncompressedSize h); w2 (zlen (ce_name e));
   w2 (zlen (ce_extra e)); w2 (zlen (ce_comment e)); w2 0; w2 0; w4 0; w4 (offset h)].

Definition central_entry (e : CEntry) : list Z :=
  layout (central_fields e) ++ ce_name e ++ ce_extra e ++ ce_comment e.

(** Every field fits, and a name is shorter than the buffer. *)
Definition entry_ok (e : CEntry) : Prop := Forall fits (central_fields e) /\ zlen (ce_name e) + 1 < JZ_BUFFER_SIZE.

Lemma central_field e i n v : entry_ok e -> central_fields e !! i = Some (n, v) ->
  field (layout (central_fields e)) (sum_list (take i (central_fields e)).*1) n = v.
Proof. intros [Hf _] Hi. apply field_struct; [done|]. by eapply Forall_lookup_1 in Hi. Qed.

Lemma read_global_ok e rest f : entry_ok e -> reads_at f (central_entry e ++ rest) ->
  exists f', read_global_header f = Ok (Some (ce_header e, ce_name e ++ [0]), f') /\ reads_at f' rest.
Proof.
  intros He Hf. unfold central_entry in Hf. rewrite <- !app_assoc in Hf.
  assert (Hl : zlen (layout (central_fields e)) = 46) by (unfold zlen; by rewrite layout_length).
  pose proof (fread_at _ _ _ Hf) as E1. pose proof (reads_at_skipped _ _ _ Hf) as R1. rewrite Hl in E1, R1.
  unfold read_global_header. rewrite (st_bind_ok _ _ _ _ _ E1), Hl. change (46 <? GLOBAL_HEADER_SIZE) with false. cbn iota.
  pose proof (central_field e 0 _ _ He eq_refl : field _ 0 4 = _) as ->. rewrite Z.eqb_refl. cbn [negb].
  pose proof (central_field e 4 _ _ He eq_refl : field _ 10 2 = _) as ->.
  pose proof (central_field e 5 _ _ He eq_refl : field _ 12 2 = _) as ->.
  pose proof (central_field e 6 _ _ He eq_refl : field _ 14 2 = _) as ->.
  pose proof (central_field e 7 _ _ He eq_refl : field _ 16 4 = _) as ->.
  pose proof (central_field e 8 _ _ He eq_refl : field _ 20 4 = _) as ->.
  pose proof (central_field e 9 _ _ He eq_refl : field _ 24 4 = _) as ->.
  pose proof (central_field e 10 _ _ He eq_refl : field _ 28 2 = _) as ->.
  pose proof (central_field e 11 _ _ He eq_refl : field _ 30 2 = _) as ->.
  pose proof (central_field e 12 _ _ He eq_refl : field _ 32 2 = _) as ->.
  pose proof (central_field e 16 _ _ He eq_refl : field _ 42 4 = _) as ->.
  rewrite (proj2 (Z.leb_gt _ _) (proj2 He)). clear -R1.
  rewrite (st_bind_ok _ _ _ _ _ (fread_at _ _ _ R1)), Z.ltb_irrefl. apply reads_at_skipped in R1.
  rewrite (st_bind_ok _ _ _ _ _ (fseek_cur_at _ _ _ R1)). apply reads_at_skipped in R1. change (0 =? 0) with true. cbn [negb].
  rewrite (st_bind_ok _ _ _ _ _ (fseek_cur_at _ _ _ R1)). apply reads_at_skipped in R1. change (0 =? 0) with true. cbn [negb].
  eexists. split; [by destruct (ce_header e)|done].
Qed.

(** A callback that leaves the file alone, and what a directory should do with it: call it on
    the entries in turn until it returns 0. *)
Section Listing.
Context {A : Type} (cb : Z -> JZFileHeader -> list Z -> A -> Z * A).

Definition quiet (i : Z) (h : JZFileHeader) (name : list Z) : ST (FILE * A) Z :=
  fun s => let (r, a) := cb i h name s.2 in Ok (r, (s.1, a)).

Fixpoint listed (i : Z) (es : list CEntry) (a : A) : A :=
  match es with
  | [] => a
  | e :: es => let (r, a) := cb i (ce_header e) (ce_name e ++ [0]) a in if r =? 0 then a else listed (i + 1) es a
  end.

Lemma directory_loop_ok es i f a rest : Forall entry_ok es -> reads_at f (mjoin (central_entry <$> es) ++ rest) ->
  exists f', directory_loop quiet (length es) i (f, a) = Ok (Z_OK, (f', listed i es a)).
Proof.
  revert i f a. induction es as [|e es IH]; intros i f a Hes Hf; [by exists f|].
  apply Forall_cons in Hes as [He Hes]. cbn [length directory_loop listed].
  cbn [fmap list_fmap mjoin list_join] in Hf. rewrite <- app_assoc in Hf.
  destruct (read_global_ok e _ f He Hf) as (f1 & E & R).
  assert (E' : in_file read_global_header (f, a) = Ok (Some (ce_header e, ce_name e ++ [0]), (f1, a)))
    by (unfold in_file, st_zoom; cbn [fst snd]; by rewrite E).
  rewrite (st_bind_ok _ _ _ _ _ E'). unfold quiet at 1, st_bind. cbn [fst snd].
  destruct (cb i (ce_header e) (ce_name e ++ [0]) a) as [r a1]. destruct (r =? 0); [by exists f1|]. by apply IH.
Qed.

End Listing.

(** The end of an archive with [n] entries, whose directory of [size] bytes starts at [start]. *)
Definition end_fields (n size start : Z) (comment : list Z) : list (nat * Z) :=
  [w4 JZ_END_SIGNATURE; w2 0; w2 0; w2 n; w2 n; w4 size; w4 start; w2 (zlen comment)].

Definition directory (es : list CEntry) : list Z := mjoin (central_entry <$> es).

Definition ending (body : list Z) (es : list CEntry) (comment : list Z) : list Z :=
  layout (end_fields (Z.of_nat (length es)) (zlen (directory es)) (zlen body) comment) ++ comment.

Definition archive (body : list Z) (es : list CEntry) (comment : list Z) : list Z :=
  body ++ directory es ++ ending body es comment.

Lemma find_end_found buffer n i : (i <= n)%nat -> field buffer i 4 = JZ_END_SIGNATURE ->
  (forall k, (i < k <= n)%nat -> field buffer k 4 <> JZ_END_SIGNATURE) -> find_end buffer n = Some i.
Proof.
  induction n as [|n IH]; intros Hi Hs Hk; cbn [find_end].
  - assert (i = 0%nat) as -> by lia. by rewrite Hs, Z.eqb_refl.
  - destruct (decide (i = S n)) as [-> |Hne]; [by rewrite Hs, Z.eqb_refl|].
    rewrite (proj2 (Z.eqb_neq _ _) (Hk (S n) ltac:(lia))). apply IH; [lia|done|]. intros k Hk'. apply Hk. lia.
Qed.

Lemma field_front a b k n : field (a ++ b) (length a + k) n = field b k n.
Proof. unfold field. by rewrite <- drop_drop, drop_app_length. Qed.

(** The last bytes of a file. *)
Lemma read_tail front tail :
  fread (zlen tail) (mkFILE (front ++ tail) (zlen front)) = Ok (tail, mkFILE (front ++ tail) (zlen front + zlen tail)).
Proof.
  apply (fread_at (mkFILE (front ++ tail) (zlen front)) tail []). split; [apply zlen_nonneg|]. unfold unread. cbn [contents fpos]. unfold zlen.
  by rewrite Nat2Z.id, drop_app_length, app_nil_r.
Qed.

(** The signature does not occur in the ending again where a record could be. *)
Definition no_later (l : list Z) : Prop :=
  forall k, (0 < k)%nat -> (k + 22 <= length l)%nat -> field l k 4 <> JZ_END_SIGNATURE.

Lemma jzReadEndRecord_ok body es comment pos :
  let n := Z.of_nat (length es) in
  let l := ending body es comment in
  let er := mkEnd 0 0 n n (zlen (directory es)) (zlen body) (zlen comment) in
  u16_ok n -> u32_ok (zlen (directory es)) -> u32_ok (zlen body) -> zlen l <= JZ_BUFFER_SIZE -> no_later l ->
  0 < zlen body + zlen (directory es) + zlen comment ->
  exists p, jzReadEndRecord (mkFILE (archive body es comment) pos) = Ok (Some er, mkFILE (archive body es comment) p).
Proof.
  intros n l er Hn Hd Hb Hl Hno Hpos. set (fs := end_fields n (zlen (directory es)) (zlen body) comment).
  assert (Hfs : length (layout fs) = 22%nat) by by rewrite layout_length.
  assert (Hz : zlen (layout fs) = 22) by (unfold zlen; by rewrite Hfs).
  assert (Hll : zlen l = 22 + zlen comment) by (change l with (layout fs ++ comment); rewrite zlen_app; lia).
  set (file := archive body es comment).
  assert (Hsz : zlen file = zlen body + zlen (directory es) + zlen l)
    by (unfold file, archive; rewrite !zlen_app; fold l; lia).
  pose proof (zlen_nonneg body). pose proof (zlen_nonneg (directory es)). pose proof (zlen_nonneg comment).
  assert (Hc : u16_ok (zlen comment)) by (unfold u16_ok, JZ_BUFFER_SIZE in *; lia).
  set (readBytes := if zlen file <? JZ_BUFFER_SIZE then zlen file else JZ_BUFFER_SIZE).
  assert (Hr : zlen l <= readBytes <= zlen file).
  { unfold readBytes. destruct (zlen file <? JZ_BUFFER_SIZE) eqn:E; [|apply Z.ltb_ge in E]; lia. }
  set (front := take (Z.to_nat (zlen file - readBytes)) file). set (tail := drop (Z.to_nat (zlen file - readBytes)) file).
  assert (Hft : file = front ++ tail) by (symmetry; apply take_drop).
  assert (Hfront : zlen front = zlen file - readBytes) by (unfold front, zlen in *; rewrite length_take; lia).
  assert (Htail : zlen tail = readBytes) by (pose proof (f_equal zlen Hft) as E; rewrite zlen_app in E; lia).
  assert (exists mid, tail = mid ++ l) as [mid Hmid].
  { assert (Hcut : (Z.to_nat (zlen file - readBytes) <= length (body ++ directory es))%nat)
      by (rewrite length_app; unfold zlen in Hr, Hsz |- *; lia).
    exists (drop (Z.to_nat (zlen file - readBytes)) (body ++ directory es)).
    assert (Hfile : file = (body ++ directory es) ++ l) by apply app_assoc. unfold tail. rewrite Hfile at 2. by apply drop_app_le. }
  assert (Hfind : find_end tail (Z.to_nat (readBytes - END_RECORD_SIZE)) = Some (length mid)).
  { assert (Hmt : zlen tail = zlen mid + zlen l) by (by rewrite Hmid, zlen_app). unfold zlen in *.
    apply find_end_found; [unfold END_RECORD_SIZE; lia| |].
    - rewrite Hmid. pose proof (field_front mid l 0 4) as E. rewrite Nat.add_0_r in E. rewrite E.
      exact (field_layout fs 0 _ _ comment eq_refl ltac:(done)).
    - intros k Hk. unfold END_RECORD_SIZE in Hk. rewrite Hmid. replace k with (length mid + (k - length mid))%nat by lia.
      rewrite field_front. apply Hno; lia. }
  exists (zlen front + zlen tail). unfold jzReadEndRecord. fold file. unfold st_gets, st_bind at 1. cbn [contents].
  unfold st_bind at 1, fseek at 1. rewrite (proj2 (Z.ltb_ge (zlen file) 0)) by lia. cbn [contents].
  rewrite (proj2 (Z.leb_gt (zlen file) _)) by (unfold END_RECORD_SIZE; lia). fold readBytes.
  unfold st_bind at 1, fseek at 1. rewrite (proj2 (Z.ltb_ge (zlen file - readBytes) 0)) by lia. cbn [contents].
  change (0 =? 0) with true. cbn [negb]. rewrite <- Hfront, Hft, <- Htail.
  rewrite (st_bind_ok _ _ _ _ _ (read_tail front tail)), Z.ltb_irrefl, Htail, Hfind.
  assert (end_record_of (drop (length mid) tail) = er) as ->; [|unfold er; cbn [diskNumber centralDirectoryDiskNumber numEntries
    numEntriesThisDisk]; by rewrite !Z.eqb_refl].
  rewrite Hmid, drop_app_length. unfold end_record_of, er, l, ending. fold n fs.
  f_equal; [exact (field_layout fs 3 _ _ comment eq_refl Hn)|exact (field_layout fs 4 _ _ comment eq_refl Hn)
    |exact (field_layout fs 5 _ _ comment eq_refl Hd)|exact (field_layout fs 6 _ _ comment eq_refl Hb)
    |exact (field_layout fs 7 _ _ comment eq_refl Hc)].
Qed.

(** The listing of an archive.  For an archive as archivers write it, with a comment in which no end
    record seems to start and more than the bare end record in it, the end record is found
    and reading the directory calls the callback on the entries in order, until it returns 0. *)
Theorem archive_listed {A} (cb : Z -> JZFileHeader -> list Z -> A -> Z * A) body es comment pos a :
  Forall entry_ok es -> u16_ok (Z.of_nat (length es)) -> u32_ok (zlen (directory es)) -> u32_ok (zlen body) ->
  zlen (ending body es comment) <= JZ_BUFFER_SIZE -> no_later (ending body es comment) ->
  0 < zlen body + zlen (directory es) + zlen comment ->
  exists er f f', jzReadEndRecord (mkFILE (archive body es comment) pos) = Ok (Some er, f) /\
    jzReadCentralDirectory (quiet cb) er (f, a) = Ok (Z_OK, (f', listed cb 0 es a)).
Proof.
  intros He Hn Hd Hb Hl Hno Hpos. destruct (jzReadEndRecord_ok body es comment pos Hn Hd Hb Hl Hno Hpos) as [p E].
  do 2 eexists. pose proof (zlen_nonneg body) as Hb0.
  destruct (directory_loop_ok cb es 0 (mkFILE (archive body es comment) (zlen body)) a (ending body es comment) He) as [f' E'].
  { split; [done|]. unfold unread, archive. cbn [contents fpos]. unfold zlen. by rewrite Nat2Z.id, drop_app_length. }
  exists f'. split; [exact E|]. unfold jzReadCentralDirectory. cbn [centralDirectoryOffset numEntries].
  unfold st_bind at 1, in_file, st_zoom, fseek. cbn [fst snd contents]. rewrite (proj2 (Z.ltb_ge _ _) Hb0).
  change (0 =? 0) with true. cbn [negb fst snd]. rewrite Nat2Z.id. exact E'.
Qed.

(** ** A decompressor that copies. *)

#[local] Instance copying_zlib : Zlib := {
  ZStream := unit;
  inflateInit2 := (Z_OK, tt);
  inflate _ a room := (Z_OK, take (Z.to_nat room) a, zlen a - zlen (take (Z.to_nat room) a), tt)
}.

#[local] Instance copying_inflates : Inflates.
Proof.
  refine {| decodes _ comp data := comp = data |}; [done|by intros _ data <-|].
  intros [] a b data room <- Ha Hr. exists Z_OK, a, b, 0, tt. split_and!; [done| |by left|by right].
  unfold inflate, copying_zlib. rewrite take_ge; [by rewrite Z.sub_diag|]. rewrite zlen_app in Hr.
  pose proof (zlen_nonneg b). unfold zlen in *. lia.
Defined.

(** An archive with one deflated entry is listed, and its data is read. *)
Example listed_one :
  let e := mkEntry (mkHeader 8 0 0 0 3 3 0) (str "a") [] [] in
  let zip := archive (local_entry 8 3 (str "a") [1; 2; 3]) [e] (str "hello") in
  exists f f' f'', jzReadEndRecord (mkFILE zip 0) = Ok (Some (mkEnd 0 0 1 1 47 34 5), f) /\
    jzReadCentralDirectory (quiet (fun i h n a => (1, a ++ [(i, n)]))) (mkEnd 0 0 1 1 47 34 5) (f, [])
      = Ok (Z_OK, (f', [(0, [97; 0])])) /\
    (let! h := jzReadLocalFileHeader 1024 in
     match h with Some (h, _) => jzReadData h | None => st_ret (Z_ERRNO, []) end) (mkFILE zip 0)
      = Ok ((Z_OK, [1; 2; 3]), f'').
Proof. do 3 eexists. split_and!; vm_compute; reflexivity. Qed.

(** The empty archive, a bare end record, is refused. *)
Example empty_archive : exists f, jzReadEndRecord (mkFILE (archive [] [] []) 0) = Ok (None, f).
Proof. eexists. vm_compute. reflexivity. Qed.
