(* ===== verification/AppXml.v ===== *)
(** * AppXml: the manifest of an application.

    [src/src/Architecture/Libraries/app_ctrl/app_ctrl_assets.c]: finding the manifest in
    an APK file ([getManifestFromAPK], over the archive reader of [JUnzip]), turning its
    binary XML into text ([decompressXML]) and collecting the permissions
    ([getPermissionsFromManifest]).

    Numbers are [int]s: an overflow is undefined, as is a read outside a block.  The bytes of a block from [malloc] that was never written are a
    parameter too ([fresh]). *)

From S2P Require Import Prelude JUnzip.

(** An [int] result. *)
Definition int (z : Z) : outcome Z := if (- 2 ^ 31 <=? z) && (z <? 2 ^ 31) then Ok z else UB.

(** [xml[i]]. *)
Definition byte_at (xml : list Z) (i : Z) : outcome Z :=
  if i <? 0 then UB else arr_get xml (Z.to_nat i).

(** A string argument: the bytes of a block up to its NUL, which must exist. *)
Definition c_string (block : list Z) : outcome (list Z) :=
  if bool_decide (0 ∈ block) then Ok (cstr block) else UB.

(** ** The archive. *)

Section Archive.
Context `{Zlib}.

Definition MANIFEST : list Z := str "AndroidManifest.xml" ++ [0].

(** The loop over the headers: every turn consumes a header, so the length of the
    file bounds the number of turns. *)
Fixpoint find_manifest (fuel : nat) : ST FILE (option JZFileHeader) :=
  match fuel with
  | O => st_ub
  | S fuel =>
      let? hf := jzReadLocalFileHeader 1024 in
      if streq hf.2 MANIFEST then st_ret (Some hf.1) else find_manifest fuel
  end.

(** The data and its size, which is returned as an [int]; 0 and no data for an error. *)
Definition getManifestFromAPK (apk : option (list Z)) : outcome (list Z * Z) :=
  match apk with
  | None => Ok ([], 0)
  | Some f =>
      r ← (let? header := find_manifest (S (length f)) in
           let! (ret, data) := jzReadData header in
           st_ret (if negb (ret =? Z_OK) then None else Some (data, s32 (uncompressedSize header)))) (mkFILE f 0);
      Ok (default ([], 0) r.1)
  end.

End Archive.

(** ** Binary XML. *)

Definition LEW (arr : list Z) (cb off : Z) : outcome Z :=
  off3 ← int (off + 3);
  if off3 <? cb then
    b3 ← byte_at arr off3; b2 ← byte_at arr (off + 2); b1 ← byte_at arr (off + 1); b0 ← byte_at arr off;
    Ok (s32 (Z.lor (Z.lor (Z.lor (Z.shiftl b3 24) (Z.shiftl b2 16)) (Z.shiftl b1 8)) b0))
  else Ok 0.

(** The characters from index [i]: [n] are left. *)
Fixpoint xml_chars (xml : list Z) (cb strOff : Z) (i : Z) (n : nat) : outcome (list Z) :=
  match n with
  | O => Ok []
  | S n' =>
      pos ← int (strOff + 2 + i * 2);
      if cb <? pos then Ok [0]
      else c ← byte_at xml pos; cs ← xml_chars xml cb strOff (i + 1) n'; Ok (c :: cs)
  end.

Definition compXmlString (xml : list Z) (cb sitOff stOff strInd : Z) : outcome (list Z) :=
  ind4 ← int (strInd * 4); ind ← int (sitOff + ind4);
  rel ← LEW xml cb ind; strOff ← int (stOff + rel); strOff1 ← int (strOff + 1);
  hi ← byte_at xml strOff1; lo ← byte_at xml strOff;
  let strLen := Z.lor (Z.shiftl hi 8) lo in
  strOff2 ← int (strOff + 2);
  if (strInd <? 0) || (cb <? strOff2) then Ok []
  else cs ← xml_chars xml cb strOff 0 (Z.to_nat strLen); Ok (cstr cs).

Definition MAX_XML_SIZE : Z := 1000.

Definition endDocTag : Z := 0x00100101.
Definition startTag : Z := 0x00100102.
Definition endTag : Z := 0x00100103.

Definition sitOff : Z := 0x24.

(** [QUOTE] is the character that delimits values. *)
Definition QUOTE : Z := 34.

(** The attributes of a tag: the text and the offset after them. *)
Fixpoint xml_attrs (xml : list Z) (cb stOff : Z) (n : nat) (off : Z) (concat : list Z) :
    outcome (list Z * Z) :=
  match n with
  | O => Ok (concat, off)
  | S n' =>
      attrNameNsSi ← LEW xml cb off; attrNameSi ← LEW xml cb (off + 4);
      attrValueSi ← LEW xml cb (off + 8); attrFlags ← LEW xml cb (off + 12);
      attrResId ← LEW xml cb (off + 16); off' ← int (off + 20);
      attrName ← compXmlString xml cb sitOff stOff attrNameSi;
      attrValue ← (if attrValueSi =? -1 then Ok (str "0x00000000")
                   else compXmlString xml cb sitOff stOff attrValueSi);
      xml_attrs xml cb stOff n' off' (concat ++ str " " ++ attrName ++ str "=" ++ [QUOTE] ++ attrValue ++ [QUOTE])
  end.

Definition NEWLINE : list Z := [10].

(** What a loop has come to after the turns it was given. *)
Inductive turns (A : Type) : Type :=
| Done (a : A)
| Unfinished.
Arguments Done {A} _.
Arguments Unfinished {A}.

(** The loop over the tags; [result] is the block the text so far is in. *)
Fixpoint xml_tags (xml : list Z) (cb stOff : Z) (fuel : nat) (off : Z) (result : list Z) :
    outcome (turns (list Z)) :=
  match fuel with
  | O => Ok Unfinished
  | S fuel' =>
      if off <? cb then
        tag0 ← LEW xml cb off; lineNo ← LEW xml cb (off + 8);
        nameSi ← LEW xml cb (off + 20); nameNsSi ← LEW xml cb (off + 16);
        if tag0 =? startTag then
          tag6 ← LEW xml cb (off + 24); numbAttrs ← LEW xml cb (off + 28);
          off1 ← int (off + 36);
          name ← compXmlString xml cb sitOff stOff nameSi;
          '(concat, off2) ← xml_attrs xml cb stOff (Z.to_nat numbAttrs) off1 [];
          old ← c_string result;
          xml_tags xml cb stOff fuel' off2 (old ++ str "<" ++ name ++ concat ++ str ">" ++ NEWLINE ++ [0])
        else if tag0 =? endTag then
          off1 ← int (off + 24);
          name ← compXmlString xml cb sitOff stOff nameSi;
          old ← c_string result;
          xml_tags xml cb stOff fuel' off1 (old ++ str "</" ++ name ++ str ">" ++ NEWLINE ++ [0])
        else if tag0 =? endDocTag then Ok (Done result)
        else Ok (Done result)
      else Ok (Done result)
  end.

(** The first start tag from [i] on, by steps of one word. *)
Fixpoint find_start (xml : list Z) (cb : Z) (fuel : nat) (i : Z) : outcome (turns (option Z)) :=
  match fuel with
  | O => Ok Unfinished
  | S fuel' =>
      if i <? cb - 4 then
        w ← LEW xml cb i;
        if w =? startTag then Ok (Done (Some i)) else find_start xml cb fuel' (i + 4)
      else Ok (Done None)
  end.

(** The offsets grow by at least 4 in every turn of the two loops. *)
Definition xml_fuel (cb off : Z) : nat := S (Z.to_nat (cb - off)).

(** [fresh]: the memory in which [result] is allocated. *)
Definition decompressXML (fresh xml : list Z) (cb : Z) : outcome (turns (list Z)) :=
  numbStrings ← LEW xml cb 16; len ← int (numbStrings * 4); stOff ← int (sitOff + len);
  xmlTagOff ← LEW xml cb 12; _ ← int (cb - 4);
  first ← find_start xml cb (xml_fuel cb xmlTagOff) xmlTagOff;
  match first with
  | Unfinished => Ok Unfinished
  | Done first =>
      let off := default xmlTagOff first in
      xml_tags xml cb stOff (xml_fuel cb off) off (take (Z.to_nat MAX_XML_SIZE) fresh)
  end.

(** ** The permissions. *)

(** The literal part of the pattern; what follows it is a group of one or more
    characters other than a quote. *)
Definition PATTERN : list Z := str "<permission label=" ++ [QUOTE].

Fixpoint until_quote (s : list Z) : list Z :=
  match s with
  | [] => []
  | c :: s' => if c =? QUOTE then [] else c :: until_quote s'
  end.

Fixpoint after_prefix (p s : list Z) : option (list Z) :=
  match p, s with
  | [], _ => Some s
  | x :: p', c :: s' => if c =? x then after_prefix p' s' else None
  | _ :: _, [] => None
  end.

(** [regexec]: the group of the leftmost match and the text after the match. *)
Fixpoint regexec (s : list Z) : option (list Z * list Z) :=
  match (rest ← after_prefix PATTERN s; Some (until_quote rest, rest)) with
  | Some ((c :: g) as group, rest) => Some (group, drop (length group) rest)
  | _ => match s with [] => None | _ :: s' => regexec s' end
  end.

Definition maxMatches : nat := 5.

Fixpoint matches (m : nat) (cursor : list Z) : list (list Z) :=
  match m with
  | O => []
  | S m' => match regexec cursor with
            | Some (group, rest) => group :: matches m' rest
            | None => []
            end
  end.

Definition getPermissionsFromManifest (fresh data : list Z) (size : Z) : outcome (list (list Z)) :=
  block ← decompressXML fresh data size;
  match block with
  | Unfinished => UB  (* does not happen: [manifest_reader_ends] *)
  | Done block =>
      source ← c_string block;
      Ok (matches maxMatches source)
  end.
