(* ===== verification/AppXmlFacts.v ===== *)
(** * AppXmlFacts: reading binary XML back.

    [encode] lays out a document the way the format has it: a header, the table of the
    offsets of the strings, the strings, some words that are skipped, and the tags.
    [decompress_encoded] says what [decompressXML] makes of it. *)

From S2P Require Import Prelude AppXml.

(** ** Words. *)

Definition words (ws : list Z) : list Z := mjoin (le_bytes 4 <$> ws).

Lemma words_cons w ws : words (w :: ws) = le_bytes 4 w ++ words ws.
Proof. done. Qed.

Lemma words_length ws : zlen (words ws) = 4 * zlen ws.
Proof.
  induction ws as [|w ws IH]; [done|]. rewrite words_cons, zlen_app, IH, le_bytes_zlen, zlen_cons. lia.
Qed.

Lemma words_app ws ws' : words (ws ++ ws') = words ws ++ words ws'.
Proof. unfold words. by rewrite fmap_app, join_app. Qed.

Lemma byte_at_app pre x post i : i = zlen pre -> byte_at (pre ++ x :: post) i = Ok x.
Proof.
  intros ->. unfold byte_at. pose proof (zlen_nonneg pre). rewrite (proj2 (Z.ltb_ge _ _)) by lia.
  apply arr_get_ok. unfold zlen. by rewrite Nat2Z.id, list_lookup_middle.
Qed.

Lemma int_ok z : - 2 ^ 31 <= z < 2 ^ 31 -> int z = Ok z.
Proof. intros Hz. unfold int. by rewrite (proj2 (Z.leb_le _ _)), (proj2 (Z.ltb_lt _ _)) by lia. Qed.

Lemma word_bytes a b c d : byte_ok a -> byte_ok b -> byte_ok c -> byte_ok d ->
  Z.lor (Z.lor (Z.lor (Z.shiftl d 24) (Z.shiftl c 16)) (Z.shiftl b 8)) a = of_le [a; b; c; d].
Proof.
  unfold byte_ok. intros Ha Hb Hc Hd. rewrite <- (Z.lor_assoc _ (Z.shiftl b 8) a), (lor_bytes b a 8) by lia.
  rewrite <- (Z.lor_assoc _ (Z.shiftl c 16)), (lor_bytes c) by lia. rewrite (lor_bytes d) by lia. cbn [of_le]. lia.
Qed.

Lemma LEW_at pre w post cb off : off = zlen pre -> off + 4 <= cb < 2 ^ 31 ->
  LEW (pre ++ le_bytes 4 w ++ post) cb off = Ok (s32 w).
Proof.
  intros Hoff Hcb. pose proof (zlen_nonneg pre). unfold LEW. rewrite int_ok by lia. cbn [mbind outcome_bind].
  rewrite (proj2 (Z.ltb_lt _ _)) by lia. pose proof (le_bytes_ok 4 w) as Hok.
  pose proof (of_le_bytes 4 w) as Hw. destruct (le_bytes 4 w) as [|a [|b [|c [|d [|? ?]]]]] eqn:E; try done.
  repeat (apply Forall_cons in Hok as [? Hok]).
  assert (E3 : byte_at (pre ++ [a; b; c; d] ++ post) (off + 3) = Ok d).
  { change (pre ++ [a; b; c; d] ++ post) with (pre ++ [a; b; c] ++ d :: post). rewrite app_assoc.
    apply byte_at_app. autorewrite with bytes. lia. }
  assert (E2 : byte_at (pre ++ [a; b; c; d] ++ post) (off + 2) = Ok c).
  { change (pre ++ [a; b; c; d] ++ post) with (pre ++ [a; b] ++ c :: d :: post). rewrite app_assoc.
    apply byte_at_app. autorewrite with bytes. lia. }
  assert (E1 : byte_at (pre ++ [a; b; c; d] ++ post) (off + 1) = Ok b).
  { change (pre ++ [a; b; c; d] ++ post) with (pre ++ [a] ++ b :: c :: d :: post). rewrite app_assoc.
    apply byte_at_app. autorewrite with bytes. lia. }
  assert (E0 : byte_at (pre ++ [a; b; c; d] ++ post) off = Ok a) by (by apply byte_at_app).
  rewrite E3, E2, E1, E0. cbn [mbind outcome_bind]. f_equal. rewrite word_bytes by done. rewrite Hw.
  change (256 ^ Z.of_nat 4) with (2 ^ 32). apply s32_u32.
Qed.

(** Word [k] of a block of words. *)
Lemma LEW_word pre ws post cb k w off : ws !! k = Some w -> off = zlen pre + 4 * Z.of_nat k ->
  zlen pre + 4 * zlen ws <= cb < 2 ^ 31 -> LEW (pre ++ words ws ++ post) cb off = Ok (s32 w).
Proof.
  intros Hk Hoff Hcb. pose proof (lookup_lt_Some _ _ _ Hk) as Hlt.
  rewrite <- (take_drop_middle ws k w Hk), words_app.
  replace (pre ++ (words (take k ws) ++ words (w :: drop (S k) ws)) ++ post)
    with ((pre ++ words (take k ws)) ++ le_bytes 4 w ++ (words (drop (S k) ws) ++ post)).
  2:{ rewrite words_cons. by rewrite <- !app_assoc. }
  apply LEW_at.
  - rewrite zlen_app, words_length. unfold zlen in *. rewrite length_take. lia.
  - unfold zlen in *. lia.
Qed.

(** ** Documents. *)

(** Names and values are indices of the pool; a missing value is shown as 0x00000000. *)
Record Attr := mkAttr { at_name : nat; at_value : option nat }.

Inductive Tag := Open (name : nat) (attrs : list Attr) | Close (name : nat).

Record Doc := mkDoc { d_pool : list (list Z); d_gap : list Z; d_tags : list Tag }.

Definition enc_char (c : Z) : list Z := [c; 0].
Definition enc_string (s : list Z) : list Z := le_bytes 2 (zlen s) ++ mjoin (enc_char <$> s) ++ [0; 0].
Definition pool_data (pool : list (list Z)) : list Z := mjoin (enc_string <$> pool).

Fixpoint pool_offsets (base : Z) (pool : list (list Z)) : list Z :=
  match pool with
  | [] => []
  | s :: pool' => base :: pool_offsets (base + zlen (enc_string s)) pool'
  end.

Definition attr_words (a : Attr) : list Z :=
  [0; Z.of_nat (at_name a); match at_value a with Some v => Z.of_nat v | None => -1 end; 0; 0].

Definition tag_words (t : Tag) : list Z :=
  match t with
  | Open n attrs => [startTag; 0; 0; 0; 0; Z.of_nat n; 0; zlen attrs; 0] ++ mjoin (attr_words <$> attrs)
  | Close n => [endTag; 0; 0; 0; 0; Z.of_nat n]
  end.

Definition body_words (d : Doc) : list Z := d_gap d ++ mjoin (tag_words <$> d_tags d) ++ [endDocTag].

Definition strings_start (d : Doc) : Z := 36 + 4 * zlen (d_pool d).

Definition header_words (d : Doc) : list Z :=
  [0; 0; 0; strings_start d + zlen (pool_data (d_pool d)); zlen (d_pool d); 0; 0; 0; 0]
  ++ pool_offsets 0 (d_pool d).

Definition encode (d : Doc) : list Z :=
  words (header_words d) ++ pool_data (d_pool d) ++ words (body_words d).

(** The text of a document. *)
Definition pool_string (pool : list (list Z)) (i : nat) : list Z := default [] (pool !! i).

Definition text_attr (pool : list (list Z)) (a : Attr) : list Z :=
  str " " ++ pool_string pool (at_name a) ++ str "=" ++ [QUOTE] ++
  match at_value a with Some v => pool_string pool v | None => str "0x00000000" end ++ [QUOTE].

Definition text_tag (pool : list (list Z)) (t : Tag) : list Z :=
  match t with
  | Open n attrs => str "<" ++ pool_string pool n ++ mjoin (text_attr pool <$> attrs) ++ str ">" ++ NEWLINE
  | Close n => str "</" ++ pool_string pool n ++ str ">" ++ NEWLINE
  end.

Definition text (d : Doc) : list Z := mjoin (text_tag (d_pool d) <$> d_tags d).

(** The indices exist. *)
Definition attr_ok (pool : list (list Z)) (a : Attr) : Prop :=
  (at_name a < length pool)%nat /\ forall v, at_value a = Some v -> (v < length pool)%nat.

Definition tag_ok (pool : list (list Z)) (t : Tag) : Prop :=
  match t with
  | Open n attrs => (n < length pool)%nat /\ Forall (attr_ok pool) attrs
  | Close n => (n < length pool)%nat
  end.

Definition char_ok (c : Z) : Prop := 0 < c < 256.

Record doc_ok (d : Doc) : Prop := {
  do_size : zlen (encode d) + 64 < 2 ^ 31;
  do_pool : Forall (fun s => Forall char_ok s /\ zlen s < 65536) (d_pool d);
  do_gap : Forall (fun w => s32 w <> startTag) (d_gap d);
  do_tags : Forall (tag_ok (d_pool d)) (d_tags d);
  do_first : exists n attrs rest, d_tags d = Open n attrs :: rest
}.

(** ** Strings. *)

Lemma enc_chars_length cs : zlen (mjoin (enc_char <$> cs)) = 2 * zlen cs.
Proof.
  induction cs as [|c cs IH]; [done|]. change (mjoin (enc_char <$> c :: cs)) with (c :: 0 :: mjoin (enc_char <$> cs)).
  rewrite !zlen_cons, IH. lia.
Qed.

Lemma xml_chars_ok pre cs rest cb strOff k : zlen pre = strOff + 2 + k * 2 ->
  zlen pre + 2 * zlen cs <= cb < 2 ^ 31 ->
  xml_chars (pre ++ mjoin (enc_char <$> cs) ++ rest) cb strOff k (length cs) = Ok cs.
Proof.
  revert pre k. induction cs as [|c cs IH]; intros pre k Hpre Hcb; [done|]. cbn [length xml_chars].
  rewrite zlen_cons in Hcb. pose proof (zlen_nonneg cs). pose proof (zlen_nonneg pre).
  rewrite int_ok by lia. cbn [mbind outcome_bind]. rewrite (proj2 (Z.ltb_ge _ _)) by lia.
  change (mjoin (enc_char <$> c :: cs)) with (c :: 0 :: mjoin (enc_char <$> cs)). cbn [app].
  rewrite byte_at_app by lia. cbn [mbind outcome_bind].
  replace (pre ++ c :: 0 :: mjoin (enc_char <$> cs) ++ rest)
    with ((pre ++ [c; 0]) ++ mjoin (enc_char <$> cs) ++ rest) by (by rewrite <- app_assoc).
  rewrite IH; [done| |]; rewrite zlen_app, !zlen_cons, zlen_nil; lia.
Qed.

Lemma pool_offsets_lookup base pool i s : pool !! i = Some s ->
  pool_offsets base pool !! i = Some (base + zlen (pool_data (take i pool))).
Proof.
  revert base i. induction pool as [|s0 pool IH]; intros base [|i] Hi; try done.
  - cbn. by rewrite Z.add_0_r.
  - cbn [pool_offsets lookup list_lookup take]. rewrite (IH _ i Hi).
    change (pool_data (s0 :: take i pool)) with (enc_string s0 ++ pool_data (take i pool)).
    rewrite zlen_app. f_equal. lia.
Qed.

Lemma pool_offsets_length base pool : length (pool_offsets base pool) = length pool.
Proof. revert base. induction pool as [|s pool IH]; intros base; [done|]. cbn. by rewrite IH. Qed.

Lemma pool_data_split pool i s : pool !! i = Some s ->
  pool_data pool = pool_data (take i pool) ++ enc_string s ++ pool_data (drop (S i) pool).
Proof.
  intros Hi. rewrite <- (take_drop_middle pool i s Hi) at 1. unfold pool_data.
  by rewrite fmap_app, join_app.
Qed.

Lemma header_words_length d : zlen (words (header_words d)) = strings_start d.
Proof.
  rewrite words_length. unfold header_words, strings_start. rewrite zlen_app, !zlen_cons, zlen_nil.
  unfold zlen at 1. rewrite pool_offsets_length. fold (zlen (d_pool d)). lia.
Qed.

Section Reader.
Context (d : Doc) (Hd : doc_ok d).
Abbreviation xml := (encode d).
Abbreviation cb := (zlen (encode d)).
Abbreviation pool := (d_pool d).

Lemma encode_length : cb = strings_start d + zlen (pool_data pool) + 4 * zlen (body_words d).
Proof. unfold encode. rewrite !zlen_app, header_words_length, words_length. lia. Qed.

Lemma header_word k w : header_words d !! k = Some w -> LEW xml cb (4 * Z.of_nat k) = Ok (s32 w).
Proof.
  intros Hk. pose proof (do_size _ Hd). unfold encode at 1.
  change (words (header_words d) ++ pool_data pool ++ words (body_words d))
    with ([] ++ words (header_words d) ++ (pool_data pool ++ words (body_words d))).
  eapply LEW_word; [exact Hk|done|]. rewrite encode_length in *. pose proof (zlen_nonneg (pool_data pool)).
  pose proof (zlen_nonneg (body_words d)). rewrite <- words_length, header_words_length, zlen_nil. lia.
Qed.

Lemma pool_small : 4 * zlen pool < 2 ^ 31.
Proof.
  pose proof (do_size _ Hd). rewrite encode_length in *. unfold strings_start in *.
  pose proof (zlen_nonneg (pool_data pool)). pose proof (zlen_nonneg (body_words d)). lia.
Qed.

Lemma read_string i s : pool !! i = Some s ->
  compXmlString xml cb sitOff (strings_start d) (Z.of_nat i) = Ok s.
Proof.
  intros Hi. pose proof (do_size _ Hd) as Hsz. pose proof pool_small.
  pose proof (lookup_lt_Some _ _ _ Hi) as Hlt.
  destruct (Forall_lookup_1 _ _ _ _ (do_pool _ Hd) Hi) as [Hchars Hlen].
  set (rel := zlen (pool_data (take i pool))). set (P := words (header_words d) ++ pool_data (take i pool)).
  set (R := pool_data (drop (S i) pool) ++ words (body_words d)).
  assert (HP : zlen P = strings_start d + rel) by (unfold P; by rewrite zlen_app, header_words_length).
  assert (Hxml : xml = P ++ enc_string s ++ R).
  { unfold encode, P, R. rewrite (pool_data_split pool i s Hi). by rewrite <- !app_assoc. }
  assert (Henc : zlen (enc_string s) = 4 + 2 * zlen s).
  { unfold enc_string. rewrite !zlen_app, le_bytes_zlen, enc_chars_length, !zlen_cons, zlen_nil. lia. }
  assert (Hcb : zlen P + 4 + 2 * zlen s <= cb).
  { rewrite Hxml, !zlen_app, Henc. pose proof (zlen_nonneg R). lia. }
  pose proof (zlen_nonneg s) as Hs0. assert (Hrel : 0 <= rel) by apply zlen_nonneg.
  assert (Hi' : 0 <= Z.of_nat i < zlen pool) by (unfold zlen; lia).
  assert (Hlew : LEW xml cb (36 + Z.of_nat i * 4) = Ok rel).
  { replace (36 + Z.of_nat i * 4) with (4 * Z.of_nat (9 + i)) by lia. rewrite (header_word (9 + i) rel).
    - f_equal. apply s32_small. unfold strings_start in *. lia.
    - unfold header_words. rewrite lookup_app_r by (cbn; lia). cbn [length].
      replace (9 + i - 9)%nat with i by lia. exact (pool_offsets_lookup 0 pool i s Hi). }
  unfold compXmlString, sitOff. unfold strings_start in *. rewrite (int_ok (Z.of_nat i * 4)) by lia.
  cbn [mbind outcome_bind]. rewrite int_ok by lia. cbn [mbind outcome_bind]. rewrite Hlew. cbn [mbind outcome_bind].
  rewrite (int_ok (_ + rel)) by lia. cbn [mbind outcome_bind]. rewrite <- HP.
  rewrite (int_ok (zlen P + 1)) by lia. cbn [mbind outcome_bind].
  assert (Hlo : byte_at xml (zlen P) = Ok (zlen s mod 256)) by (rewrite Hxml; by apply byte_at_app).
  assert (Hhi : byte_at xml (zlen P + 1) = Ok (zlen s / 256 mod 256)).
  { rewrite Hxml. replace (P ++ enc_string s ++ R) with
      ((P ++ [zlen s mod 256]) ++ (zlen s / 256 mod 256) :: mjoin (enc_char <$> s) ++ [0; 0] ++ R)
      by (unfold enc_string; cbn; by rewrite <- !app_assoc).
    apply byte_at_app. by rewrite zlen_app. }
  rewrite Hhi, Hlo. cbn [mbind outcome_bind]. rewrite (int_ok (zlen P + 2)) by lia. cbn [mbind outcome_bind].
  rewrite (proj2 (Z.ltb_ge (Z.of_nat i) 0)), (proj2 (Z.ltb_ge cb _)) by lia. cbn [orb].
  rewrite lor_bytes by (try lia; apply Z.mod_pos_bound; lia).
  assert (Hdiv : zlen s / 256 mod 256 = zlen s / 256) by (apply Z.mod_small; split; [apply Z.div_pos|apply Z.div_lt_upper_bound]; lia).
  rewrite Hdiv. replace (zlen s / 256 * 2 ^ 8 + zlen s mod 256) with (zlen s)
    by (rewrite (Z.div_mod (zlen s) 256) at 1 by lia; lia).
  replace (Z.to_nat (zlen s)) with (length s) by (unfold zlen; lia).
  assert (Hch : xml_chars xml cb (zlen P) 0 (length s) = Ok s).
  { rewrite Hxml at 1. replace (P ++ enc_string s ++ R) with
      ((P ++ le_bytes 2 (zlen s)) ++ mjoin (enc_char <$> s) ++ [0; 0] ++ R)
      by (unfold enc_string; by rewrite <- !app_assoc).
    apply xml_chars_ok; rewrite zlen_app, le_bytes_zlen; lia. }
  rewrite Hch. cbn [mbind outcome_bind]. f_equal. apply cstr_no_nul.
  eapply Forall_impl; [exact Hchars|]. unfold char_ok. lia.
Qed.

(** ** Tags. *)

Definition body_start : Z := strings_start d + zlen (pool_data pool).

(** A word of the body, counted from word [k]. *)
Lemma body_word k l more j w off : drop k (body_words d) = l ++ more -> l !! j = Some w ->
  off = body_start + 4 * Z.of_nat k + 4 * Z.of_nat j -> LEW xml cb off = Ok (s32 w).
Proof.
  intros Hk Hj Hoff. pose proof (do_size _ Hd). unfold encode at 1.
  replace (words (header_words d) ++ pool_data pool ++ words (body_words d))
    with ((words (header_words d) ++ pool_data pool) ++ words (body_words d) ++ [])
    by (by rewrite app_nil_r, <- app_assoc).
  apply (LEW_word _ _ _ _ (k + j) w).
  - rewrite <- lookup_drop, Hk. by apply lookup_app_l_Some.
  - rewrite zlen_app, header_words_length. unfold body_start in Hoff. lia.
  - rewrite zlen_app, header_words_length, encode_length in *. lia.
Qed.

Lemma body_bound k l more : drop k (body_words d) = l ++ more ->
  body_start + 4 * Z.of_nat k + 4 * zlen l <= cb \/ l = [].
Proof.
  intros Hk. assert (Hl : length (drop k (body_words d)) = (length l + length more)%nat) by (by rewrite Hk, length_app).
  rewrite length_drop in Hl. rewrite encode_length. unfold body_start. destruct l as [|x l]; [by right|].
  left. unfold zlen in *. cbn [length] in *. lia.
Qed.

Lemma index_small i : (i < length pool)%nat -> s32 (Z.of_nat i) = Z.of_nat i.
Proof. intros Hi. pose proof pool_small. apply s32_small. unfold zlen in *. lia. Qed.

Lemma string_at i : (i < length pool)%nat ->
  compXmlString xml cb sitOff (strings_start d) (Z.of_nat i) = Ok (pool_string pool i).
Proof.
  intros Hi. destruct (lookup_lt_is_Some_2 pool i Hi) as [s Hs]. rewrite (read_string i s Hs).
  unfold pool_string. by rewrite Hs.
Qed.

Lemma read_attrs attrs k more acc : Forall (attr_ok pool) attrs ->
  drop k (body_words d) = mjoin (attr_words <$> attrs) ++ more ->
  xml_attrs xml cb (strings_start d) (length attrs) (body_start + 4 * Z.of_nat k) acc =
  Ok (acc ++ mjoin (text_attr pool <$> attrs), body_start + 4 * Z.of_nat k + 20 * zlen attrs).
Proof.
  revert k acc. induction attrs as [|a attrs IH]; intros k acc Hok Hk.
  - cbn [length xml_attrs fmap list_fmap mjoin list_join]. rewrite app_nil_r. do 2 f_equal. unfold zlen. cbn. lia.
  - apply Forall_cons in Hok as [[Hn Hv] Hok]. pose proof (do_size _ Hd).
    change (mjoin (attr_words <$> a :: attrs)) with (attr_words a ++ mjoin (attr_words <$> attrs)) in Hk.
    rewrite <- app_assoc in Hk. pose proof (zlen_nonneg pool) as Hp0. pose proof (zlen_nonneg (pool_data pool)) as Hd0.
    assert (Hb : body_start + 4 * Z.of_nat k + 20 <= cb).
    { destruct (body_bound k _ _ Hk) as [Hb|Hb]; [|done]. exact Hb. }
    assert (Hw : forall j w off, attr_words a !! j = Some w ->
      off = body_start + 4 * Z.of_nat k + 4 * Z.of_nat j -> LEW xml cb off = Ok (s32 w))
      by (intros j w off; by apply (body_word k _ _ j w off Hk)).
    cbn [length xml_attrs].
    set (B := body_start + 4 * Z.of_nat k) in *.
    rewrite (Hw 0%nat _ B eq_refl), (Hw 1%nat _ (B + 4) eq_refl), (Hw 2%nat _ (B + 8) eq_refl),
      (Hw 3%nat _ (B + 12) eq_refl), (Hw 4%nat _ (B + 16) eq_refl) by lia.
    assert (HB : 0 <= B) by (unfold B, body_start, strings_start; lia).
    rewrite (int_ok (B + 20)) by lia. cbn [mbind outcome_bind].
    rewrite index_small, string_at by done. cbn [mbind outcome_bind].
    assert (Eval : (if s32 match at_value a with Some v => Z.of_nat v | None => -1 end =? -1
      then Ok (str "0x00000000")
      else compXmlString xml cb sitOff (strings_start d) (s32 match at_value a with Some v => Z.of_nat v | None => -1 end))
      = Ok match at_value a with Some v => pool_string pool v | None => str "0x00000000" end).
    { destruct (at_value a) as [v|]; [|done]. specialize (Hv v eq_refl). rewrite index_small by done.
      rewrite (proj2 (Z.eqb_neq _ _)) by lia. by apply string_at. }
    rewrite Eval. cbn [mbind outcome_bind].
    replace (B + 20) with (body_start + 4 * Z.of_nat (k + 5)) by (unfold B; lia).
    rewrite IH; [|done|].
    + unfold B. f_equal. f_equal; [|rewrite zlen_cons; lia].
      change (mjoin (text_attr pool <$> a :: attrs)) with (text_attr pool a ++ mjoin (text_attr pool <$> attrs)).
      unfold text_attr. by rewrite <- !app_assoc.
    + rewrite <- drop_drop, Hk. done.
Qed.

(** The characters of the text. *)
Abbreviation nonzero := (Forall (fun c => c <> 0)).

Lemma c_string_nul l : nonzero l -> c_string (l ++ [0]) = Ok l.
Proof.
  intros Hl. unfold c_string. rewrite bool_decide_eq_true_2 by (apply elem_of_app; right; by constructor).
  f_equal. induction Hl as [|c l Hc Hl IH]; [done|]. cbn. by rewrite (proj2 (Z.eqb_neq _ _)), IH.
Qed.

Lemma pool_string_nonzero i : nonzero (pool_string pool i).
Proof.
  unfold pool_string. destruct (pool !! i) as [s|] eqn:E; [|done].
  destruct (Forall_lookup_1 _ _ _ _ (do_pool _ Hd) E) as [Hs _]. cbn.
  eapply Forall_impl; [exact Hs|]. unfold char_ok. lia.
Qed.

Lemma text_attr_nonzero a : nonzero (text_attr pool a).
Proof.
  unfold text_attr, QUOTE. repeat (apply Forall_app; split); try apply pool_string_nonzero; try (by repeat constructor).
  destruct (at_value a); [apply pool_string_nonzero|]. by repeat constructor.
Qed.

Lemma text_tag_nonzero t : nonzero (text_tag pool t).
Proof.
  unfold text_tag, NEWLINE. destruct t as [n attrs|n]; repeat (apply Forall_app; split);
    try apply pool_string_nonzero; try (by repeat constructor).
  induction attrs as [|a attrs IH]; [done|]. apply Forall_app. split; [apply text_attr_nonzero|done].
Qed.

(** The words of the next tag. *)
Lemma next_tag k l more : drop k (body_words d) = l ++ more -> drop (k + length l) (body_words d) = more.
Proof. intros Hk. rewrite <- drop_drop, Hk. apply drop_app_length. Qed.

Lemma attr_words_length attrs : zlen (mjoin (attr_words <$> attrs)) = 5 * zlen attrs.
Proof.
  induction attrs as [|a attrs IH]; [done|].
  change (mjoin (attr_words <$> a :: attrs)) with (attr_words a ++ mjoin (attr_words <$> attrs)).
  rewrite zlen_app, IH, zlen_cons. change (zlen (attr_words a)) with 5. lia.
Qed.

Lemma body_start_pos : 0 <= body_start.
Proof.
  unfold body_start, strings_start. pose proof (zlen_nonneg pool). pose proof (zlen_nonneg (pool_data pool)). lia.
Qed.

(** One turn of the loop over the tags. *)
Lemma read_tag t k more fuel block old : tag_ok pool t ->
  drop k (body_words d) = tag_words t ++ more -> c_string block = Ok old ->
  xml_tags xml cb (strings_start d) (S fuel) (body_start + 4 * Z.of_nat k) block =
  xml_tags xml cb (strings_start d) fuel (body_start + 4 * Z.of_nat (k + length (tag_words t)))
    (old ++ text_tag pool t ++ [0]).
Proof.
  intros Ht Hk Hold. pose proof (do_size _ Hd) as Hsz. pose proof body_start_pos as Hp.
  destruct (body_bound k _ _ Hk) as [Hb|Hb]; [|by destruct t].
  assert (Hw : forall j w off, tag_words t !! j = Some w ->
    off = body_start + 4 * Z.of_nat k + 4 * Z.of_nat j -> LEW xml cb off = Ok (s32 w))
    by (intros j w off; by apply (body_word k _ _ j w off Hk)).
  cbn [xml_tags]. set (B := body_start + 4 * Z.of_nat k) in *.
  assert (HB : 0 <= B) by (unfold B; lia). destruct t as [n attrs|n]; cbn [tag_words] in *.
  - destruct Ht as [Hn Hattrs]. rewrite zlen_app, attr_words_length in Hb.
    pose proof (zlen_nonneg attrs) as Ha0. change (zlen [_; _; _; _; _; _; _; _; _]) with 9 in Hb.
    rewrite (proj2 (Z.ltb_lt B cb)) by lia.
    rewrite (Hw 0%nat _ B eq_refl), (Hw 2%nat _ (B + 8) eq_refl), (Hw 5%nat _ (B + 20) eq_refl),
      (Hw 4%nat _ (B + 16) eq_refl), (Hw 6%nat _ (B + 24) eq_refl), (Hw 7%nat _ (B + 28) eq_refl) by lia.
    rewrite (int_ok (B + 36)) by lia. cbn [mbind outcome_bind].
    change (s32 startTag =? startTag) with true. cbn iota.
    rewrite index_small, string_at by done. cbn [mbind outcome_bind].
    rewrite (s32_small (zlen attrs)) by lia. replace (Z.to_nat (zlen attrs)) with (length attrs) by (unfold zlen; lia).
    assert (Hk9 : drop (k + 9) (body_words d) = mjoin (attr_words <$> attrs) ++ more).
    { rewrite <- drop_drop, Hk. done. }
    replace (B + 36) with (body_start + 4 * Z.of_nat (k + 9)) by (unfold B; lia).
    rewrite (read_attrs attrs (k + 9) more [] Hattrs Hk9). cbn [mbind outcome_bind]. rewrite Hold. cbn [mbind outcome_bind].
    f_equal.
    + rewrite length_app. pose proof (attr_words_length attrs). unfold zlen in *. cbn [length]. lia.
    + unfold text_tag. by rewrite <- !app_assoc.
  - change (zlen [_; _; _; _; _; _]) with 6 in Hb. rewrite (proj2 (Z.ltb_lt B cb)) by lia.
    rewrite (Hw 0%nat _ B eq_refl), (Hw 2%nat _ (B + 8) eq_refl), (Hw 5%nat _ (B + 20) eq_refl),
      (Hw 4%nat _ (B + 16) eq_refl) by lia. cbn [mbind outcome_bind].
    change (s32 endTag =? startTag) with false. change (s32 endTag =? endTag) with true. cbn iota.
    rewrite (int_ok (B + 24)) by lia. cbn [mbind outcome_bind].
    rewrite index_small, string_at by done. cbn [mbind outcome_bind]. rewrite Hold. cbn [mbind outcome_bind].
    f_equal; [|unfold text_tag; by rewrite <- !app_assoc]. cbn [length]. unfold B. lia.
Qed.

Lemma read_tags tags k fuel block old : Forall (tag_ok pool) tags ->
  drop k (body_words d) = mjoin (tag_words <$> tags) ++ [endDocTag] -> (length tags < fuel)%nat ->
  c_string block = Ok old -> nonzero old ->
  exists block', xml_tags xml cb (strings_start d) fuel (body_start + 4 * Z.of_nat k) block = Ok (Done block') /\
    c_string block' = Ok (old ++ mjoin (text_tag pool <$> tags)).
Proof.
  revert k fuel block old. induction tags as [|t tags IH]; intros k fuel block old Hok Hk Hf Hold Hnz.
  - destruct fuel as [|fuel]; [cbn in Hf; lia|]. exists block. split; [|cbn; by rewrite app_nil_r].
    pose proof (do_size _ Hd) as Hsz. pose proof body_start_pos as Hp.
    destruct (body_bound k [endDocTag] []) as [Hb|Hb]; [done| |done]. change (zlen [_]) with 1 in Hb.
    cbn [xml_tags]. set (B := body_start + 4 * Z.of_nat k) in *. assert (HB : 0 <= B) by (unfold B; lia).
    rewrite (proj2 (Z.ltb_lt B cb)) by lia.
    assert (Ew : LEW xml cb B = Ok (s32 endDocTag)).
    { apply (body_word k [endDocTag] [] 0); [done|done|unfold B; lia]. }
    assert (Ebeyond : forall x, B + x + 3 < 2 ^ 31 -> 1 <= x -> LEW xml cb (B + x) = Ok 0).
    { intros x Hx Hx1. unfold LEW. rewrite int_ok by lia. cbn [mbind outcome_bind].
      rewrite (proj2 (Z.ltb_ge _ _)); [done|].
      assert (Hlen : cb = B + 4).
      { rewrite encode_length. unfold B, body_start.
        assert (Hl : length (drop k (body_words d)) = 1%nat) by (by rewrite Hk). rewrite length_drop in Hl.
        unfold zlen. lia. }
      lia. }
    rewrite Ew, !Ebeyond by lia. done.
  - destruct fuel as [|fuel]; [cbn in Hf; lia|]. apply Forall_cons in Hok as [Ht Hok].
    change (mjoin (tag_words <$> t :: tags)) with (tag_words t ++ mjoin (tag_words <$> tags)) in Hk.
    rewrite <- app_assoc in Hk. rewrite (read_tag t k _ fuel block old Ht Hk Hold).
    destruct (IH (k + length (tag_words t))%nat fuel (old ++ text_tag pool t ++ [0]) (old ++ text_tag pool t))
      as (block' & E & Hs); [done|by apply next_tag|cbn in Hf; lia| | |].
    + rewrite app_assoc. apply c_string_nul, Forall_app. split; [done|apply text_tag_nonzero].
    + apply Forall_app. split; [done|apply text_tag_nonzero].
    + exists block'. split; [done|]. rewrite Hs. cbn. by rewrite <- app_assoc.
Qed.

(** ** The whole document. *)

Lemma find_gap gap k rest fuel : Forall (fun w => s32 w <> startTag) gap -> rest <> [] ->
  drop k (body_words d) = gap ++ startTag :: rest -> (length gap < fuel)%nat ->
  find_start xml cb fuel (body_start + 4 * Z.of_nat k)
  = Ok (Done (Some (body_start + 4 * Z.of_nat (k + length gap)))).
Proof.
  intros Hgap Hrest. revert k fuel. pose proof (do_size _ Hd). pose proof body_start_pos.
  assert (Hbound : forall k l, drop k (body_words d) = l ++ startTag :: rest ->
    body_start + 4 * Z.of_nat k + 4 * zlen l + 8 <= cb).
  { intros k l Hk. destruct rest as [|w rest]; [done|].
    destruct (body_bound k (l ++ startTag :: w :: rest) []) as [Hb|Hb]; [by rewrite app_nil_r|
      |by apply app_nil in Hb as [_ ?]].
    autorewrite with bytes in Hb. pose proof (zlen_nonneg rest). lia. }
  induction Hgap as [|w gap Hw Hgap IH]; intros k [|fuel] Hk Hf; try (cbn in Hf; lia); cbn [find_start].
  - specialize (Hbound k [] Hk). change (zlen []) with 0 in Hbound. rewrite (proj2 (Z.ltb_lt _ _)) by lia.
    rewrite (body_word k [startTag] rest 0 startTag) by (done || lia). cbn [mbind outcome_bind].
    change (s32 startTag =? startTag) with true. cbn iota. do 3 f_equal. cbn [length]. lia.
  - pose proof (Hbound k (w :: gap) Hk) as Hb. rewrite zlen_cons in Hb. pose proof (zlen_nonneg gap).
    rewrite (proj2 (Z.ltb_lt _ _)) by lia.
    rewrite (body_word k [w] (gap ++ startTag :: rest) 0 w) by (done || lia). cbn [mbind outcome_bind].
    rewrite (proj2 (Z.eqb_neq _ _) Hw).
    replace (body_start + 4 * Z.of_nat k + 4) with (body_start + 4 * Z.of_nat (k + 1)) by lia.
    rewrite (IH (k + 1)%nat fuel); [|by rewrite <- drop_drop, Hk|cbn in Hf; lia].
    do 3 f_equal. cbn [length]. lia.
Qed.

Lemma tag_words_length ts : zlen ts <= zlen (mjoin (tag_words <$> ts)).
Proof.
  induction ts as [|t ts IH]; [done|].
  change (mjoin (tag_words <$> t :: ts)) with (tag_words t ++ mjoin (tag_words <$> ts)).
  rewrite zlen_app, zlen_cons. assert (1 <= zlen (tag_words t)); [|lia].
  destruct t as [n attrs|n]; [|done]. cbn [tag_words]. rewrite zlen_app, attr_words_length.
  pose proof (zlen_nonneg attrs). change (zlen [_; _; _; _; _; _; _; _; _]) with 9. lia.
Qed.

Lemma decompress_encoded fresh old : c_string (take (Z.to_nat MAX_XML_SIZE) fresh) = Ok old ->
  exists block, decompressXML fresh xml cb = Ok (Done block) /\ c_string block = Ok (old ++ text d).
Proof.
  intros Hold. pose proof (do_size _ Hd) as Hsz. pose proof body_start_pos as Hp. pose proof pool_small as Hps.
  pose proof (zlen_nonneg pool) as Hp0. pose proof encode_length as Hlen. fold body_start in Hlen.
  destruct (do_first _ Hd) as (n & attrs & rest & Htags).
  assert (Hbody : body_words d = d_gap d ++ startTag :: (drop 1 (tag_words (Open n attrs)) ++
    mjoin (tag_words <$> rest) ++ [endDocTag])).
  { unfold body_words. rewrite Htags.
    change (mjoin (tag_words <$> Open n attrs :: rest)) with (tag_words (Open n attrs) ++ mjoin (tag_words <$> rest)).
    by rewrite <- app_assoc. }
  assert (Hwords : zlen (d_gap d) + 1 + zlen (d_tags d) <= zlen (body_words d)).
  { unfold body_words. rewrite !zlen_app. change (zlen [endDocTag]) with 1.
    pose proof (tag_words_length (d_tags d)). lia. }
  assert (Hgl : (length (d_gap d) < xml_fuel cb body_start)%nat) by (unfold xml_fuel, zlen in *; lia).
  assert (Hfs : find_start xml cb (xml_fuel cb body_start) body_start
    = Ok (Done (Some (body_start + 4 * Z.of_nat (length (d_gap d)))))).
  { replace body_start with (body_start + 4 * Z.of_nat 0) at 2 by lia.
    eapply (find_gap (d_gap d) 0); [apply Hd| |by rewrite drop_0|done]. done. }
  assert (Hst : 36 + zlen pool * 4 <= body_start < 2 ^ 31).
  { pose proof (zlen_nonneg (body_words d)). pose proof (zlen_nonneg (pool_data pool)).
    unfold body_start, strings_start in *. lia. }
  pose proof (zlen_nonneg xml) as Hcb0. unfold decompressXML, sitOff.
  rewrite (header_word 4 _ eq_refl : LEW xml cb 16 = _), (header_word 3 _ eq_refl : LEW xml cb 12 = _).
  rewrite (s32_small (zlen pool)) by lia. cbn [mbind outcome_bind]. rewrite (int_ok (zlen pool * 4)) by lia.
  cbn [mbind outcome_bind]. rewrite (int_ok (0x24 + _)) by lia. cbn [mbind outcome_bind].
  fold body_start. rewrite (s32_small body_start) by lia. rewrite (int_ok (cb - 4)) by lia. cbn [mbind outcome_bind].
  rewrite Hfs. cbn [mbind outcome_bind default].
  replace (0x24 + zlen pool * 4) with (strings_start d) by (unfold strings_start; lia).
  assert (Htl : (length (d_tags d) < xml_fuel cb (body_start + 4 * Z.of_nat (length (d_gap d))))%nat)
    by (unfold xml_fuel, zlen in *; lia).
  apply (read_tags (d_tags d)); [apply (do_tags _ Hd)| |exact Htl|done|].
  - unfold body_words. apply drop_app_length.
  - unfold c_string in Hold. destruct (bool_decide _); [|done]. injection Hold as <-. apply cstr_nonzero.
Qed.

End Reader.

(** ** The loops end. *)

Lemma obind_inv {A B} (m : outcome A) (f : A -> outcome B) r : (m ≫= f) = Ok r -> exists a, m = Ok a /\ f a = Ok r.
Proof. destruct m as [a|]; [|done]. by exists a. Qed.

Lemma int_inv z r : int z = Ok r -> r = z.
Proof. unfold int. case_goal; [|done]. by intros [= <-]. Qed.

Lemma xml_attrs_grow xml cb stOff n off acc r off' : xml_attrs xml cb stOff n off acc = Ok (r, off') -> off <= off'.
Proof.
  revert off acc. induction n as [|n IH]; intros off acc; cbn [xml_attrs]; [intros [= _ <-]; lia|].
  intros E. do 5 apply obind_inv in E as (? & _ & E). apply obind_inv in E as (o & Eo & E).
  do 2 apply obind_inv in E as (? & _ & E). apply IH in E. apply int_inv in Eo. lia.
Qed.

(** Both sides of an equation take the same step. *)
Ltac same_step :=
  match goal with
  | |- (?m ≫= _) = _ => destruct m eqn:?; cbn [mbind outcome_bind]; [|done]
  end.

Lemma xml_tags_ends xml cb stOff fuel off block : (Z.to_nat (cb - off) < fuel)%nat ->
  xml_tags xml cb stOff fuel off block <> Ok Unfinished.
Proof.
  revert off block. induction fuel as [|fuel IH]; intros off block Hf; [lia|]. cbn [xml_tags].
  destruct (off <? cb) eqn:E; [|done]. bool_prop. intros Hu.
  do 4 apply obind_inv in Hu as (? & _ & Hu). destruct (_ =? startTag).
  - do 2 apply obind_inv in Hu as (? & _ & Hu). apply obind_inv in Hu as (o & Eo%int_inv & Hu).
    apply obind_inv in Hu as (? & _ & Hu). apply obind_inv in Hu as ([concat off2] & Ea%xml_attrs_grow & Hu).
    apply obind_inv in Hu as (? & _ & Hu). revert Hu. apply IH. lia.
  - destruct (_ =? endTag); [|by case_hyp Hu].
    apply obind_inv in Hu as (o & Eo%int_inv & Hu). do 2 apply obind_inv in Hu as (? & _ & Hu).
    revert Hu. apply IH. lia.
Qed.

Lemma find_start_ends xml cb fuel off : (Z.to_nat (cb - off) < fuel)%nat ->
  find_start xml cb fuel off <> Ok Unfinished.
Proof.
  revert off. induction fuel as [|fuel IH]; intros off Hf; [lia|]. cbn [find_start].
  destruct (off <? cb - 4) eqn:E; [|done]. bool_prop. intros (? & _ & Hu)%obind_inv.
  destruct (_ =? startTag); [done|]. revert Hu. apply IH. lia.
Qed.

Lemma manifest_reader_ends fresh xml cb : decompressXML fresh xml cb <> Ok Unfinished.
Proof.
  unfold decompressXML. intros Hu. do 5 apply obind_inv in Hu as (? & _ & Hu).
  apply obind_inv in Hu as ([first|] & Ef & Hu).
  - revert Hu. apply xml_tags_ends. unfold xml_fuel. lia.
  - revert Ef. apply find_start_ends. unfold xml_fuel. lia.
Qed.
