(* ===== verification/AppCtrl.v ===== *)
(** * AppCtrl: the application control.

    [src/src/Architecture/Libraries/app_ctrl/app_ctrl.c] and the functions of
    [app_ctrl_assets.c] on the table of permissions.  The database is a parameter
    ([Sqlite]): the statements are a type, and preparing, binding and stepping a
    statement give the result code of the library.  Commands run by [system] are
    recorded. *)

From S2P Require Import Prelude JUnzip AppXml.

Record Row := mkRow {
  row_permission : list Z;
  row_application : list Z;
  row_init_time : Z;
  row_expiring_time : Z
}.

(** The statements of the program. *)
Inductive Stmt :=
| InsertRow (r : Row)
| DeletePermission (name : list Z)
| SelectPermission (name : list Z)
| DeleteApplication (name : list Z).

Definition SQLITE_OK : Z := 0.
Definition SQLITE_ROW : Z := 100.
Definition SQLITE_DONE : Z := 101.

Class Sqlite (D : Type) := {
  sqlite3_create : D -> Z * D;
  sqlite3_prepare : Stmt -> D -> Z;
  sqlite3_bind : Stmt -> D -> Z;
  sqlite3_step : Stmt -> D -> Z * D
}.

Record Ctl (D : Type) := mkCtl { ctl_db : D; ctl_commands : list (list Z) }.
Arguments mkCtl {D}.
Arguments ctl_db {D}.
Arguments ctl_commands {D}.

Section AppCtrl.
Context {D : Type} `{Sqlite D}.

Definition set_db (d : D) (c : Ctl D) : Ctl D := mkCtl d (ctl_commands c).

(** An operation on the database. *)
Definition on_db {A} (f : D -> A * D) : ST (Ctl D) A :=
  fun c => let (a, d) := f (ctl_db c) in Ok (a, set_db d c).

(** ** The table. *)

Definition createPermissionsTable (db : D) : Z * D :=
  let (rc, db') := sqlite3_create db in
  (if rc =? SQLITE_OK then 0 else -1, db').

(** The row that is inserted, whatever the permission. *)
Definition inserted_row : Row := mkRow (str "digital_write") (str "app-release.apk") 1 1.

(** Stepping a statement that could not be prepared is an error. *)
Definition addPermissionDb (permissionName : list Z) (db : D) : Z * D :=
  if negb (sqlite3_prepare (InsertRow inserted_row) db =? SQLITE_OK) then (-1, db)
  else
    let (rc, db') := sqlite3_step (InsertRow inserted_row) db in
    (if rc =? SQLITE_DONE then 0 else -1, db').

(** Prepare, bind and step; [done] and [row] are returned for the two codes. *)
Definition run_stmt (s : Stmt) (done row : Z) (db : D) : Z * D :=
  if negb (sqlite3_prepare s db =? SQLITE_OK) then (-1, db)
  else if negb (sqlite3_bind s db =? SQLITE_OK) then (-1, db)
  else
    let (rc, db') := sqlite3_step s db in
    (if negb (rc =? SQLITE_ROW) && negb (rc =? SQLITE_DONE) then -1
     else if rc =? SQLITE_DONE then done else row, db').

Definition deletePermissionDb (permissionName : list Z) : D -> Z * D :=
  run_stmt (DeletePermission permissionName) 1 0.

(** 1: no match, 0: found. *)
Definition findPermissionDb (permissionName : list Z) : D -> Z * D :=
  run_stmt (SelectPermission permissionName) 1 0.

Definition deleteApplicationPermissionsdB (appName : list Z) : D -> Z * D :=
  run_stmt (DeleteApplication appName) 1 0.

(** ** The operations. *)

Definition pakage : list Z := str "com.example.arnauprat.test20/com.example.arnauprat.test20.MainActivity".

(** [sprintf] into a buffer of 1000 bytes, then [system]. *)
Definition run_command (cmd arg : list Z) : ST (Ctl D) unit :=
  if zlen (cmd ++ arg) <? 1000
  then st_modify (fun c => mkCtl (ctl_db c) (ctl_commands c ++ [cmd ++ arg]))
  else st_ub.

Definition init_appctrl : ST (Ctl D) Z := on_db createPermissionsTable.

Definition app_install (filename : list Z) : ST (Ctl D) Z :=
  do! run_command (str "am install ") filename in st_ret 0.

Definition app_uninstall (filename : list Z) : ST (Ctl D) Z :=
  do! run_command (str "pm uninstall ") filename in st_ret 0.

(** The first loop of [app_launch]: is one of the permissions in the table? *)
Fixpoint permission_in_use (names : list (list Z)) : ST (Ctl D) bool :=
  match names with
  | [] => st_ret false
  | name :: names' =>
      let! r := on_db (findPermissionDb name) in
      if r =? 0 then st_ret true else permission_in_use names'
  end.

(** The second loop. *)
Fixpoint add_permissions (names : list (list Z)) : ST (Ctl D) unit :=
  match names with
  | [] => st_ret tt
  | name :: names' => do! on_db (addPermissionDb name) in add_permissions names'
  end.

(** The files, zlib, and the contents of the block [decompressXML] allocates. *)
Context (open_apk : list Z -> option (list Z)).
Context `{Zlib}.

Definition app_permissions (fresh filename : list Z) : outcome (list (list Z)) :=
  '(data, size) ← getManifestFromAPK (open_apk filename);
  getPermissionsFromManifest fresh data size.

Definition app_launch (fresh filename : list Z) : ST (Ctl D) Z :=
  let! names := st_lift (app_permissions fresh filename) in
  let! used := permission_in_use names in
  if used then st_ret (-1)
  else
    do! add_permissions names in
    do! run_command (str "am start -n ") pakage in
    st_ret 0.

Definition app_exit (fresh filename : list Z) : ST (Ctl D) Z :=
  do! st_lift (app_permissions fresh filename) in
  do! on_db (deleteApplicationPermissionsdB filename) in
  do! run_command (str "am kill -n ") pakage in
  st_ret 0.

(** [main]: the results it prints. *)
Definition main (fresh1 fresh2 fresh3 fresh4 : list Z) : ST (Ctl D) (Z * Z * Z) :=
  let appName := str "app-release.apk" in
  do! init_appctrl in
  let! res1 := app_launch fresh1 appName in
  let! res2 := app_launch fresh2 appName in
  do! app_exit fresh3 appName in
  let! res3 := app_launch fresh4 appName in
  st_ret (res1, res2, res3).

End AppCtrl.
