(* ===== verification/AppProps.v ===== *)
(** * AppProps: manifests, permissions and the life of an application. *)

From S2P Require Import Prelude JUnzip AppXml AppXmlFacts AppCtrl.

(** ** The permissions of a document. *)

(** The two occurrences of a separator are the first ones. *)
Lemma split_first {A} `{EqDecision A} (c : A) l1 l2 r1 r2 : c ∉ l1 -> c ∉ l2 ->
  l1 ++ c :: r1 = l2 ++ c :: r2 -> l1 = l2 /\ r1 = r2.
Proof.
  revert l2. induction l1 as [|x l1 IH]; intros [|y l2] H1 H2; cbn; intros E.
  - by injection E as ->.
  - injection E as -> E. destruct H2. by constructor.
  - injection E as -> E. destruct H1. by constructor.
  - injection E as -> E. destruct (IH l2) as [-> ->]; [| |done|done]; intros Hin; [apply H1|apply H2]; by constructor.
Qed.

Lemma after_prefix_app p s : after_prefix p (p ++ s) = Some s.
Proof. induction p as [|x p IH]; [done|]. cbn. by rewrite Z.eqb_refl. Qed.

Lemma after_prefix_inv p s r : after_prefix p s = Some r -> s = p ++ r.
Proof.
  revert s. induction p as [|x p IH]; intros s; cbn; [by intros [= ->]|].
  destruct s as [|c s]; [done|]. destruct (c =? x) eqn:E; [|done]. bool_prop. intros Hs. by rewrite E, (IH s).
Qed.

Lemma until_quote_app v r : QUOTE ∉ v -> until_quote (v ++ QUOTE :: r) = v.
Proof.
  induction v as [|c v IH]; [done|]. intros Hq. cbn. destruct (c =? QUOTE) eqn:E; bool_prop.
  - destruct Hq. subst. by constructor.
  - f_equal. apply IH. intros Hin. apply Hq. by constructor.
Qed.

Definition LESS : Z := 60.

Lemma regexec_step s c : regexec (c :: s) =
  match (rest ← after_prefix PATTERN (c :: s); Some (until_quote rest, rest)) with
  | Some ((x :: g) as group, rest) => Some (group, drop (length group) rest)
  | _ => regexec s
  end.
Proof. done. Qed.

(** Text without the first character of the pattern is skipped. *)
Lemma regexec_skip s t : LESS ∉ s -> regexec (s ++ t) = regexec t.
Proof.
  induction s as [|c s IH]; [done|]. intros Hs. cbn [app]. rewrite regexec_step.
  assert (Hc : c <> LESS) by (intros ->; apply Hs; by constructor).
  change PATTERN with (LESS :: drop 1 PATTERN). cbn [after_prefix]. rewrite (proj2 (Z.eqb_neq _ _) Hc).
  cbn. apply IH. intros Hin. apply Hs. by constructor.
Qed.

Lemma regexec_nil : regexec [] = None.
Proof. done. Qed.

(** ** Tags. *)

Abbreviation free c l := (Forall (fun x => x <> c) l).

Lemma free_notin c (l : list Z) : free c l -> c ∉ l.
Proof. intros Hl Hin. by eapply Forall_forall in Hl. Qed.

Definition value_text (pool : list (list Z)) (a : Attr) : list Z :=
  match at_value a with Some v => pool_string pool v | None => str "0x00000000" end.

(** The label of a permission tag. *)
Definition label_of (pool : list (list Z)) (t : Tag) : option (list Z) :=
  match t with
  | Open n (a :: _) =>
      if bool_decide (pool_string pool n = str "permission" /\ pool_string pool (at_name a) = str "label"
                      /\ value_text pool a <> [])
      then Some (value_text pool a) else None
  | _ => None
  end.

(** Strings without the delimiters, tag names without spaces. *)
Record clean (d : Doc) : Prop := {
  cl_quote : Forall (fun s => free QUOTE s) (d_pool d);
  cl_less : Forall (fun s => free LESS s) (d_pool d);
  cl_name n attrs : Open n attrs ∈ d_tags d -> free 32 (pool_string (d_pool d) n)
}.

Section Tags.
Context (pool : list (list Z)).
Context (Hq : Forall (fun s => free QUOTE s) pool) (Hl : Forall (fun s => free LESS s) pool).

Lemma pool_free c i : Forall (fun s => free c s) pool -> free c (pool_string pool i).
Proof.
  intros Hc. unfold pool_string. destruct (pool !! i) as [s|] eqn:E; [|done]. by eapply Forall_lookup_1 in Hc.
Qed.

Lemma value_free c a : Forall (fun s => free c s) pool -> free c (str "0x00000000") -> free c (value_text pool a).
Proof. intros Hc H0. unfold value_text. destruct (at_value a); [by apply pool_free|done]. Qed.

Lemma value_quote a : free QUOTE (value_text pool a).
Proof. apply value_free; [done|]. by repeat constructor. Qed.

Lemma attr_less a : free LESS (text_attr pool a).
Proof.
  unfold text_attr. fold (value_text pool a). repeat (apply Forall_app; split);
    try (by apply pool_free); try (by repeat constructor). apply value_free; [done|by repeat constructor].
Qed.

Lemma attrs_less attrs : free LESS (mjoin (text_attr pool <$> attrs)).
Proof. induction attrs as [|a attrs IH]; [done|]. apply Forall_app. split; [apply attr_less|done]. Qed.

(** A tag at whose start nothing matches is skipped. *)
Lemma no_match body t : free LESS body ->
  (forall r, LESS :: body ++ t = PATTERN ++ r -> until_quote r = []) ->
  regexec ((LESS :: body) ++ t) = regexec t.
Proof.
  intros Hb Hno. cbn [app]. rewrite regexec_step.
  destruct (after_prefix PATTERN (LESS :: body ++ t)) as [r|] eqn:E.
  - apply after_prefix_inv in E. cbn [mbind option_bind]. rewrite (Hno r E). by apply regexec_skip, free_notin.
  - cbn [mbind option_bind]. by apply regexec_skip, free_notin.
Qed.

Lemma open_no_match n attrs t : free 32 (pool_string pool n) -> label_of pool (Open n attrs) = None ->
  regexec (text_tag pool (Open n attrs) ++ t) = regexec t.
Proof.
  intros Hn Hlab. apply (no_match (pool_string pool n ++ mjoin (text_attr pool <$> attrs) ++ str ">" ++ NEWLINE)).
  { repeat (apply Forall_app; split); try (by apply pool_free); try apply attrs_less; by repeat constructor. }
  intros r E. change (PATTERN ++ r) with (LESS :: str "permission" ++ 32 :: str "label=" ++ QUOTE :: r) in E.
  injection E as E. rewrite <- app_assoc in E.
  destruct attrs as [|a attrs].
  - exfalso. change (pool_string pool n ++ 62 :: 10 :: t = str "permission" ++ 32 :: str "label=" ++ QUOTE :: r) in E.
    assert (H32 : (pool_string pool n ++ 62 :: 10 :: t) !! 10%nat = Some 32) by (by rewrite E).
    assert (H62 : (str "permission" ++ 32 :: str "label=" ++ QUOTE :: r) !! length (pool_string pool n) = Some 62).
    { rewrite <- E. by rewrite list_lookup_middle. }
    destruct (Nat.lt_trichotomy (length (pool_string pool n)) 10) as [Hlt|[Heq|Hgt]].
    + assert (Hc : Forall (fun k => str "permission" !! k <> Some 62) (seq 0 10)) by (vm_compute; repeat constructor; discriminate).
      rewrite lookup_app_l in H62 by done. eapply Forall_forall in Hc; [by apply Hc in H62|].
      apply elem_of_seq. lia.
    + rewrite Heq in H62. vm_compute in H62. discriminate.
    + rewrite lookup_app_l in H32 by lia. by eapply Forall_lookup_1 in Hn.
  - change (mjoin (text_attr pool <$> a :: attrs)) with (text_attr pool a ++ mjoin (text_attr pool <$> attrs)) in E.
    unfold text_attr at 1 in E. fold (value_text pool a) in E. rewrite <- !app_assoc in E.
    set (more := mjoin (text_attr pool <$> attrs) ++ str ">" ++ NEWLINE ++ t) in E.
    destruct (split_first 32 (pool_string pool n) (str "permission")
      (pool_string pool (at_name a) ++ str "=" ++ QUOTE :: value_text pool a ++ QUOTE :: more)
      (str "label=" ++ QUOTE :: r)) as [En Er];
      [by apply free_notin|apply free_notin; by repeat constructor|exact E|].
    rewrite app_assoc in Er. apply split_first in Er as [Ea Er];
      [|apply free_notin, Forall_app; split; [by apply pool_free|by repeat constructor]
       |apply free_notin; by repeat constructor].
    assert (Ea' : pool_string pool (at_name a) = str "label").
    { change (str "label=") with (str "label" ++ str "=") in Ea. by apply app_inv_tail in Ea. }
    rewrite <- Er, until_quote_app by (apply free_notin, value_quote).
    cbn in Hlab. destruct (bool_decide _) eqn:Eb; [done|]. apply bool_decide_eq_false in Eb.
    destruct (value_text pool a) as [|x v]; [done|]. destruct Eb. by split_and!.
Qed.

Lemma close_no_match n t : regexec (text_tag pool (Close n) ++ t) = regexec t.
Proof.
  apply (no_match (47 :: pool_string pool n ++ str ">" ++ NEWLINE)); [|done].
  constructor; [done|]. repeat (apply Forall_app; split); [by apply pool_free| |]; by repeat constructor.
Qed.

Lemma open_match n attrs t v : label_of pool (Open n attrs) = Some v ->
  exists rest, regexec (text_tag pool (Open n attrs) ++ t) = Some (v, rest ++ t) /\ free LESS rest.
Proof.
  intros Hlab. destruct attrs as [|a attrs]; [done|]. cbn in Hlab.
  destruct (bool_decide _) eqn:Eb; [|done]. apply bool_decide_eq_true in Eb as (En & Ea & Hv). injection Hlab as <-.
  exists (QUOTE :: mjoin (text_attr pool <$> attrs) ++ str ">" ++ NEWLINE).
  assert (Et : text_tag pool (Open n (a :: attrs)) ++ t = PATTERN ++ value_text pool a ++
    QUOTE :: (mjoin (text_attr pool <$> attrs) ++ str ">" ++ NEWLINE) ++ t).
  { unfold text_tag. rewrite En.
    change (mjoin (text_attr pool <$> a :: attrs)) with (text_attr pool a ++ mjoin (text_attr pool <$> attrs)).
    unfold text_attr at 1. rewrite Ea. fold (value_text pool a). by rewrite <- !app_assoc. }
  split.
  - rewrite Et. change PATTERN with (LESS :: drop 1 PATTERN). cbn [app]. rewrite regexec_step.
    rewrite app_comm_cons. change (LESS :: drop 1 PATTERN) with PATTERN. rewrite after_prefix_app.
    cbn [mbind option_bind]. rewrite until_quote_app by (apply free_notin, value_quote).
    destruct (value_text pool a) as [|x w] eqn:Ev; [done|]. do 2 f_equal. apply drop_app_length.
  - constructor; [done|]. repeat (apply Forall_app; split); [apply attrs_less| |]; by repeat constructor.
Qed.

Lemma matches_skip m s t : free LESS s -> matches m (s ++ t) = matches m t.
Proof. intros Hs. destruct m as [|m]; [done|]. cbn [matches]. by rewrite regexec_skip by (by apply free_notin). Qed.

Lemma matches_tags m tags : (forall n attrs, Open n attrs ∈ tags -> free 32 (pool_string pool n)) ->
  matches m (mjoin (text_tag pool <$> tags)) = take m (omap (label_of pool) tags).
Proof.
  revert m. induction tags as [|t tags IH]; intros m Hn; [destruct m; done|].
  assert (Hn' : forall n attrs, Open n attrs ∈ tags -> free 32 (pool_string pool n))
    by (intros n attrs Hin; eapply Hn; by apply list_elem_of_further).
  change (mjoin (text_tag pool <$> t :: tags)) with (text_tag pool t ++ mjoin (text_tag pool <$> tags)).
  cbn [omap list_omap]. destruct m as [|m]; [done|]. destruct (label_of pool t) as [v|] eqn:El.
  - destruct t as [n attrs|n]; [|done].
    destruct (open_match n attrs (mjoin (text_tag pool <$> tags)) v El) as (rest & E & Hr).
    cbn [matches]. rewrite E. cbn [take]. f_equal. rewrite matches_skip by done. by apply IH.
  - assert (Es : regexec (text_tag pool t ++ mjoin (text_tag pool <$> tags)) = regexec (mjoin (text_tag pool <$> tags))).
    { destruct t as [n attrs|n]; [|apply close_no_match]. apply open_no_match; [|done]. eapply Hn. by constructor. }
    rewrite <- (IH (S m) Hn'). cbn [matches]. by rewrite Es.
Qed.

End Tags.

(** The memory happens to hold a string without a tag. *)
Definition no_tag (fresh : list Z) : Prop :=
  exists old, c_string (take (Z.to_nat MAX_XML_SIZE) fresh) = Ok old /\ free LESS old.

(** The permissions of an application are read from its manifest: the labels of its
    first five permission tags, in order, as long as the memory the text is
    collected in happens to start with a string that does not contain a tag. *)
Lemma permissions_extracted d fresh : doc_ok d -> clean d -> no_tag fresh ->
  getPermissionsFromManifest fresh (encode d) (zlen (encode d)) =
  Ok (take 5 (omap (label_of (d_pool d)) (d_tags d))).
Proof.
  intros Hd Hc (old & Hs & Hl). destruct (decompress_encoded d Hd fresh _ Hs) as (block & E & Eb). unfold getPermissionsFromManifest.
  rewrite E. cbn [mbind outcome_bind]. rewrite Eb. cbn [mbind outcome_bind].
  rewrite matches_skip by done. f_equal. destruct Hc as [Hq Hlt Hn]. by apply matches_tags.
Qed.

(** C38: the reader of manifests ends on any input: it returns a text, or it is
    undefined, but it never runs out of the turns it is given, which are bounded by the size of the
    manifest.  Neither do its two loops, the search for the first tag and the one over the
    tags, from any offset and with any further number of turns. *)
Theorem manifest_reader_terminates fresh xml cb :
  decompressXML fresh xml cb <> Ok Unfinished /\
  forall stOff off block k,
    find_start xml cb (xml_fuel cb off + k) off <> Ok Unfinished /\
    xml_tags xml cb stOff (xml_fuel cb off + k) off block <> Ok Unfinished.
Proof.
  split; [apply manifest_reader_ends|]. intros stOff off block k.
  split; [apply find_start_ends|apply xml_tags_ends]; unfold xml_fuel; lia.
Qed.

(** ** The archive. *)

Lemma cstr_snoc name : cstr (name ++ [0]) = cstr name.
Proof. induction name as [|c l IH]; [done|]. cbn. by rewrite IH. Qed.

(** An entry whose sizes fit their fields; [data] is what is packed in it. *)
Definition entry_fits (method : Z) (name comp data : list Z) : Prop :=
  zlen name < 1024 /\ u16_ok method /\ u32_ok (zlen comp) /\ zlen data < 2 ^ 31 /\ (method = 0 -> zlen comp = zlen data).

Lemma entry_header method name comp data rest : entry_fits method name comp data ->
  exists f', jzReadLocalFileHeader 1024 (mkFILE (local_entry method (zlen data) name comp ++ rest) 0)
    = Ok (Some (mkHeader method 0 0 0 (zlen comp) (zlen data) 0, name ++ [0]), f') /\ reads_at f' (comp ++ rest).
Proof.
  intros (Hn & Hm & Hc & Hd & Hs). pose proof (zlen_nonneg name). pose proof (zlen_nonneg data).
  apply local_header; unfold u16_ok, u32_ok in *; [lia|lia|lia|lia|lia|done|]. by split.
Qed.

Lemma manifest_found `{Inflates} method name comp data rest : entry_fits method name comp data ->
  packed method comp data -> cstr name = str "AndroidManifest.xml" ->
  getManifestFromAPK (Some (local_entry method (zlen data) name comp ++ rest)) = Ok (data, zlen data).
Proof.
  intros He Hp E. destruct (entry_header _ _ _ _ rest He) as (f & Ef & Rf). pose proof (zlen_nonneg data).
  destruct (jzReadData_ok (mkHeader method 0 0 0 (zlen comp) (zlen data) 0) comp data rest f Hp eq_refl eq_refl Rf) as [f' Ed].
  unfold getManifestFromAPK, find_manifest. unfold st_obind, st_bind. rewrite Ef. cbn [fst snd]. unfold streq. rewrite cstr_snoc.
  rewrite bool_decide_eq_true_2 by done. unfold st_ret. rewrite Ed. cbn. destruct He as (_ & _ & _ & Hd & _).
  by rewrite s32_small by lia.
Qed.

(** Where the manifest is found.  In an archive whose first entry is a stored or deflated
    manifest the reader returns it, whatever follows; when the first entry is another file
    the reader takes the data of that file for the next header and fails, although the
    manifest may come later. *)
Theorem manifest_first_entry `{Inflates} method name comp data rest :
  entry_fits method name comp data -> packed method comp data ->
  (cstr name = str "AndroidManifest.xml" ->
   getManifestFromAPK (Some (local_entry method (zlen data) name comp ++ rest)) = Ok (data, zlen data)) /\
  (cstr name <> str "AndroidManifest.xml" -> field (comp ++ rest) 0 4 <> JZ_LOCAL_SIGNATURE ->
   getManifestFromAPK (Some (local_entry method (zlen data) name comp ++ rest)) = Ok ([], 0)).
Proof.
  intros He Hp. split; [by apply manifest_found|]. intros E Hf.
  destruct (entry_header _ _ _ _ rest He) as (f & Ef & [_ Rf]). set (apk := local_entry _ _ _ _ ++ rest) in *.
  assert (Hfuel : exists k, length apk = S k) by (unfold apk, local_entry; rewrite !length_app, layout_length; by eexists).
  destruct Hfuel as [k Hk]. unfold getManifestFromAPK. rewrite Hk. cbn [find_manifest]. unfold st_obind, st_bind. rewrite Ef. cbn [fst snd].
  unfold streq. rewrite cstr_snoc, bool_decide_eq_false_2 by done.
  unfold jzReadLocalFileHeader. unfold st_bind, fread. rewrite Rf. change (Z.to_nat LOCAL_HEADER_SIZE) with 30%nat.
  destruct (zlen (take 30 (comp ++ rest)) <? LOCAL_HEADER_SIZE); [done|].
  assert (Hf' : field (take 30 (comp ++ rest)) 0 4 = field (comp ++ rest) 0 4) by (unfold field; by rewrite !drop_0, take_take).
  rewrite Hf', (proj2 (Z.eqb_neq _ _) Hf). done.
Qed.

(** ** The table of permissions. *)

(** A database that works: [db_rows] is the table, if it exists. *)
Class SqliteTable (D : Type) `{Sqlite D} := {
  db_rows : D -> option (list Row);
  sq_create d : match db_rows d with
                | None => (sqlite3_create d).1 = SQLITE_OK /\ db_rows (sqlite3_create d).2 = Some []
                | Some rows => (sqlite3_create d).1 <> SQLITE_OK /\ db_rows (sqlite3_create d).2 = Some rows
                end;
  sq_prepare s d rows : db_rows d = Some rows -> sqlite3_prepare s d = SQLITE_OK /\ sqlite3_bind s d = SQLITE_OK;
  sq_insert r d rows : db_rows d = Some rows ->
    (sqlite3_step (InsertRow r) d).1 = SQLITE_DONE /\ db_rows (sqlite3_step (InsertRow r) d).2 = Some (rows ++ [r]);
  sq_select name d rows : db_rows d = Some rows ->
    (sqlite3_step (SelectPermission name) d).1
      = (if bool_decide (name ∈ row_permission <$> rows) then SQLITE_ROW else SQLITE_DONE) /\
    db_rows (sqlite3_step (SelectPermission name) d).2 = Some rows;
  sq_delete_application name d rows : db_rows d = Some rows ->
    (sqlite3_step (DeleteApplication name) d).1 = SQLITE_DONE /\
    db_rows (sqlite3_step (DeleteApplication name) d).2
      = Some (filter (fun r => row_application r <> name) rows)
}.

Section Control.
Context {D : Type} `{SqliteTable D}.
Implicit Types (c : Ctl D).

Definition table c : option (list Row) := db_rows (ctl_db c).

Lemma find_step name c rows : table c = Some rows -> exists c',
  on_db (findPermissionDb name) c = Ok (if bool_decide (name ∈ row_permission <$> rows) then 0 else 1, c') /\
  table c' = Some rows /\ ctl_commands c' = ctl_commands c.
Proof.
  intros Ht. unfold on_db, findPermissionDb, run_stmt. destruct (sq_prepare (SelectPermission name) _ _ Ht) as [-> ->].
  cbn [Z.eqb negb SQLITE_OK]. destruct (sq_select name _ _ Ht) as [Er Ed].
  destruct (sqlite3_step (SelectPermission name) (ctl_db c)) as [rc d]. cbn in Er, Ed. rewrite Er.
  exists (set_db d c). split_and!; [|done|done]. by destruct (bool_decide _).
Qed.

Lemma add_step name c rows : table c = Some rows -> exists c',
  on_db (addPermissionDb name) c = Ok (0, c') /\ table c' = Some (rows ++ [inserted_row]) /\
  ctl_commands c' = ctl_commands c.
Proof.
  intros Ht. unfold on_db, addPermissionDb. destruct (sq_prepare (InsertRow inserted_row) _ _ Ht) as [-> _].
  cbn [Z.eqb negb SQLITE_OK]. destruct (sq_insert inserted_row _ _ Ht) as [Er Ed].
  destruct (sqlite3_step (InsertRow inserted_row) (ctl_db c)) as [rc d]. cbn in Er, Ed. rewrite Er.
  by exists (set_db d c).
Qed.

Lemma delete_step name c rows : table c = Some rows -> exists c',
  on_db (deleteApplicationPermissionsdB name) c = Ok (1, c') /\
  table c' = Some (filter (fun r => row_application r <> name) rows) /\ ctl_commands c' = ctl_commands c.
Proof.
  intros Ht. unfold on_db, deleteApplicationPermissionsdB, run_stmt.
  destruct (sq_prepare (DeleteApplication name) _ _ Ht) as [-> ->].
  cbn [Z.eqb negb SQLITE_OK]. destruct (sq_delete_application name _ _ Ht) as [Er Ed].
  destruct (sqlite3_step (DeleteApplication name) (ctl_db c)) as [rc d]. cbn in Er, Ed. rewrite Er.
  by exists (set_db d c).
Qed.

Lemma in_use_spec names c rows : table c = Some rows -> exists c',
  permission_in_use names c = Ok (bool_decide (Exists (fun n => n ∈ row_permission <$> rows) names), c') /\
  table c' = Some rows /\ ctl_commands c' = ctl_commands c.
Proof.
  revert c. induction names as [|n names IH]; intros c Ht; cbn [permission_in_use].
  - exists c. split_and!; [|done|done]. rewrite bool_decide_eq_false_2; [done|]. intros Hx; by apply Exists_nil in Hx.
  - destruct (find_step n c rows Ht) as (c1 & E1 & Ht1 & Hc1). rewrite (st_bind_ok _ _ _ _ _ E1).
    case_bool_decide as Hn.
    + exists c1. rewrite bool_decide_eq_true_2 by (by constructor). done.
    + destruct (IH c1 Ht1) as (c' & E & Ht' & Hc'). exists c'. cbn [Z.eqb]. rewrite E.
      split_and!; [|done|congruence]. do 2 f_equal. apply bool_decide_ext. rewrite Exists_cons. tauto.
Qed.

Lemma add_permissions_spec names c rows : table c = Some rows -> exists c',
  add_permissions names c = Ok (tt, c') /\ table c' = Some (rows ++ replicate (length names) inserted_row) /\
  ctl_commands c' = ctl_commands c.
Proof.
  revert c rows. induction names as [|n names IH]; intros c rows Ht; cbn [add_permissions].
  - exists c. by rewrite app_nil_r.
  - destruct (add_step n c rows Ht) as (c1 & E1 & Ht1 & Hc1). rewrite (st_bind_ok _ _ _ _ _ E1).
    destruct (IH c1 _ Ht1) as (c' & E & Ht' & Hc'). exists c'. rewrite E.
    split_and!; [done| |congruence]. rewrite Ht'. by rewrite <- app_assoc.
Qed.

Definition start_command : list Z := str "am start -n " ++ pakage.
Definition kill_command : list Z := str "am kill -n " ++ pakage.

Section Apps.
Context (open_apk : list Z -> option (list Z)) `{Zlib}.
Context (names : list (list Z)).

(** What a launch does to the table and the commands. *)
Lemma launch_spec fresh filename c rows : table c = Some rows ->
  app_permissions open_apk fresh filename = Ok names -> exists c',
  let refused := bool_decide (Exists (fun n => n ∈ row_permission <$> rows) names) in
  app_launch open_apk fresh filename c = Ok (if refused then -1 else 0, c') /\
  table c' = Some (if refused then rows else rows ++ replicate (length names) inserted_row) /\
  ctl_commands c' = ctl_commands c ++ (if refused then [] else [start_command]).
Proof.
  intros Ht Hn. unfold app_launch.
  assert (El : st_lift (app_permissions open_apk fresh filename) c = Ok (names, c))
    by (unfold st_lift; by rewrite Hn).
  rewrite (st_bind_ok _ _ _ _ _ El). destruct (in_use_spec names c rows Ht) as (c1 & E1 & Ht1 & Hc1).
  rewrite (st_bind_ok _ _ _ _ _ E1). destruct (bool_decide _).
  - exists c1. by rewrite app_nil_r.
  - destruct (add_permissions_spec names c1 rows Ht1) as (c2 & E2 & Ht2 & Hc2).
    rewrite (st_bind_ok _ _ _ _ _ E2). eexists. split; [reflexivity|]. split; [done|]. cbn. by rewrite Hc2, Hc1.
Qed.

Lemma exit_spec fresh filename c rows : table c = Some rows ->
  app_permissions open_apk fresh filename = Ok names -> exists c',
  app_exit open_apk fresh filename c = Ok (0, c') /\
  table c' = Some (filter (fun r => row_application r <> filename) rows) /\
  ctl_commands c' = ctl_commands c ++ [kill_command].
Proof.
  intros Ht Hn. unfold app_exit.
  assert (El : st_lift (app_permissions open_apk fresh filename) c = Ok (names, c))
    by (unfold st_lift; by rewrite Hn).
  rewrite (st_bind_ok _ _ _ _ _ El). destruct (delete_step filename c rows Ht) as (c1 & E1 & Ht1 & Hc1).
  rewrite (st_bind_ok _ _ _ _ _ E1). eexists. split; [reflexivity|]. split; [done|]. cbn. by rewrite Hc1.
Qed.

End Apps.

(** C17: launching an application.  Let the manifest, any document in the binary format,
    stored or deflated, be the first entry of the archive of an application, and let the
    database work.  The launch is refused, and changes nothing, exactly when one of the
    first five permissions of the manifest is in the table: a sixth and later ones are not
    looked at, whether they are in the table or not.  Otherwise the application is started
    and one row is added per permission, of these five.  The row is always the same, so the
    table does not say which permission is in use.  The text of the manifest is appended to
    memory that is not initialised and searched for tags, so it is assumed that this memory
    happens to start with a string without a tag ([no_tag]) and that the strings of the
    document contain none ([clean]). *)
Theorem app_launch_manifest `{Inflates} open_apk method comp d rest fresh filename c rows :
  doc_ok d -> clean d -> no_tag fresh ->
  u32_ok (zlen comp) -> packed method comp (encode d) ->
  open_apk filename = Some (local_entry method (zlen (encode d)) (str "AndroidManifest.xml") comp ++ rest) ->
  table c = Some rows ->
  exists c', let names := take 5 (omap (label_of (d_pool d)) (d_tags d)) in
  let refused := bool_decide (Exists (fun n => n ∈ row_permission <$> rows) names) in
  app_launch open_apk fresh filename c = Ok (if refused then -1 else 0, c') /\
  table c' = Some (if refused then rows else rows ++ replicate (length names) inserted_row) /\
  ctl_commands c' = ctl_commands c ++ (if refused then [] else [start_command]).
Proof.
  intros Hd Hc Hf Hu Hp Ho Ht. apply launch_spec; [done|]. unfold app_permissions. rewrite Ho.
  rewrite (manifest_found method _ comp (encode d)); [by apply permissions_extracted| |done|done].
  pose proof (do_size _ Hd). unfold entry_fits, u16_ok. destruct Hp as [[-> ->]|[-> _]]; split_and!; done || lia.
Qed.

(** The permission that is really recorded. *)
Definition recorded : list Z := str "digital_write".

Lemma recorded_rows rows k names : rows = replicate k inserted_row ->
  bool_decide (Exists (fun n => n ∈ row_permission <$> rows) names) = bool_decide (recorded ∈ names /\ k <> 0%nat).
Proof.
  intros ->. apply bool_decide_ext. rewrite Exists_exists, fmap_replicate. split.
  - intros (n & Hn & Hin). apply elem_of_replicate in Hin as [-> Hk]. done.
  - intros [Hn Hk]. exists recorded. split; [done|]. by apply elem_of_replicate.
Qed.

(** The test program of the application control.  It starts the same application twice,
    stops it and starts it again.  If the application asks for [digital_write] the second
    start is refused and the third succeeds, as intended; an application that asks
    for any other permissions is started every time, so the control does not
    protect them. *)
Theorem app_ctrl_session `{Zlib} open_apk names f1 f2 f3 f4 c :
  table c = None ->
  (forall f, f ∈ [f1; f2; f3; f4] ->
     app_permissions open_apk f (str "app-release.apk") = Ok names) ->
  exists c', main open_apk f1 f2 f3 f4 c =
    Ok (if bool_decide (recorded ∈ names) then (0, -1, 0) else (0, 0, 0), c').
Proof.
  intros Ht Hn. unfold main, init_appctrl.
  assert (Hi : exists c0, on_db createPermissionsTable c = Ok (0, c0) /\ table c0 = Some []).
  { pose proof (sq_create (ctl_db c)) as Hs. fold (table c) in Hs. rewrite Ht in Hs. unfold on_db, createPermissionsTable.
    destruct (sqlite3_create (ctl_db c)) as [rc d]. cbn in Hs. destruct Hs as [-> Hd]. by exists (set_db d c). }
  destruct Hi as (c0 & E0 & T0). rewrite (st_bind_ok _ _ _ _ _ E0).
  pose proof (fun f rows c1 Hc Hf =>
    launch_spec open_apk names f (str "app-release.apk") c1 rows Hc (Hn f Hf)) as Hl.
  destruct (Hl f1 [] c0 T0) as (c1 & E1 & T1 & _); [by constructor|].
  cbv zeta in E1, T1. rewrite (recorded_rows [] 0 names eq_refl) in E1, T1.
  rewrite bool_decide_eq_false_2 in E1, T1 by (by intros [_ ?]). rewrite (st_bind_ok _ _ _ _ _ E1).
  change (table c1 = Some (replicate (length names) inserted_row)) in T1.
  destruct (Hl f2 _ c1 T1) as (c2 & E2 & T2 & _); [by repeat constructor|].
  cbv zeta in E2, T2. rewrite (recorded_rows _ (length names) names eq_refl) in E2, T2. rewrite (st_bind_ok _ _ _ _ _ E2).
  assert (T2' : exists k, table c2 = Some (replicate k inserted_row)).
  { rewrite T2. case_bool_decide; [by eexists|]. rewrite <- replicate_add. by eexists. }
  destruct T2' as [k T2'].
  destruct (exit_spec open_apk names f3 (str "app-release.apk") c2 _ T2') as (c3 & E3 & T3 & _);
    [apply Hn; by repeat constructor|]. rewrite (st_bind_ok _ _ _ _ _ E3).
  assert (Hfil : filter (fun r => row_application r <> str "app-release.apk") (replicate k inserted_row) = []).
  { clear. induction k as [|k IH]; [done|]. cbn [replicate].
    rewrite filter_cons_False; [done|]. intros Hne. by apply Hne. }
  rewrite Hfil in T3. destruct (Hl f4 _ c3 T3) as (c4 & E4 & T4 & _); [by repeat constructor|].
  cbv zeta in E4. rewrite (recorded_rows [] 0 names eq_refl) in E4.
  rewrite bool_decide_eq_false_2 in E4 by (by intros [_ ?]). rewrite (st_bind_ok _ _ _ _ _ E4).
  exists c4. unfold st_ret.
  assert (Heq : bool_decide (recorded ∈ names /\ length names <> 0%nat) = bool_decide (recorded ∈ names)).
  { apply bool_decide_ext. split; [by intros [? _]|]. intros Hr. split; [done|].
    by destruct names; [apply not_elem_of_nil in Hr|]. }
  rewrite Heq. by destruct (bool_decide (recorded ∈ names)).
Qed.

End Control.
