(* ===== verification/AppDemo.v ===== *)
(** * AppDemo: a manifest and a database to try the theorems on. *)

From S2P Require Import Prelude JUnzip AppXml AppXmlFacts AppCtrl AppProps.

Section Demo.

(** The database is the table itself. *)
#[local] Instance demo_sqlite : Sqlite (option (list Row)) := {
  sqlite3_create d := match d with None => (SQLITE_OK, Some []) | Some rows => (1, Some rows) end;
  sqlite3_prepare _ d := match d with None => 1 | Some _ => SQLITE_OK end;
  sqlite3_bind _ _ := SQLITE_OK;
  sqlite3_step s d :=
    match d with
    | None => (1, None)
    | Some rows =>
        match s with
        | InsertRow r => (SQLITE_DONE, Some (rows ++ [r]))
        | DeletePermission n => (SQLITE_DONE, Some (filter (fun r => row_permission r <> n) rows))
        | SelectPermission n =>
            (if bool_decide (n ∈ row_permission <$> rows) then SQLITE_ROW else SQLITE_DONE, Some rows)
        | DeleteApplication n => (SQLITE_DONE, Some (filter (fun r => row_application r <> n) rows))
        end
    end
}.

#[local] Instance demo_sqlite_table : SqliteTable (option (list Row)).
Proof.
  refine {| db_rows d := d |}.
  - by intros [rows|].
  - by intros s d rows ->.
  - by intros r d rows ->.
  - by intros name d rows ->.
  - by intros name d rows ->.
Defined.

(** A manifest that asks for one permission. *)
Definition demo_doc : Doc :=
  mkDoc [str "permission"; str "label"; str "digital_write"; str "manifest"] [7; 8]
    [Open 3 []; Open 0 [mkAttr 1 (Some 2%nat)]; Close 0; Close 3].

Ltac chars := repeat constructor; intros E; vm_compute in E; discriminate.

Lemma demo_doc_ok : doc_ok demo_doc.
Proof.
  split.
  - vm_compute. reflexivity.
  - repeat (constructor; [|]); try (split; [repeat constructor|]; reflexivity); constructor.
  - chars.
  - cbn [d_tags demo_doc]. repeat (apply Forall_cons; split); [| |cbn; lia|cbn; lia|constructor].
    + split; [cbn; lia|constructor].
    + split; [cbn; lia|]. apply Forall_cons. split; [|constructor]. split; [cbn; lia|].
      intros v [= <-]. cbn. lia.
  - by eexists _, _, _.
Qed.

Lemma demo_doc_clean : clean demo_doc.
Proof.
  split; [chars|chars|]. intros n attrs Hin.
  assert (Hn : n = 0%nat \/ n = 3%nat).
  { cbn [d_tags demo_doc] in Hin.
    repeat (apply elem_of_cons in Hin as [Hin|Hin]; [first [discriminate | injection Hin as -> ->; by auto]|]).
    by apply not_elem_of_nil in Hin. }
  destruct Hn as [-> | ->]; chars.
Qed.

Definition demo_fresh : list Z := replicate 1000 0.

Definition demo_apk (filename : list Z) : option (list Z) :=
  Some (local_entry 8 (zlen (encode demo_doc)) (str "AndroidManifest.xml") (encode demo_doc) ++ [1; 2; 3]).

#[local] Existing Instance copying_zlib.
#[local] Existing Instance copying_inflates.

(** The permission is free: the application starts. *)
Lemma app_launch_manifest_witness : exists c',
  app_launch demo_apk demo_fresh (str "app-release.apk") (mkCtl (Some []) []) = Ok (0, c') /\
  table c' = Some [inserted_row] /\ ctl_commands c' = [start_command].
Proof.
  refine (app_launch_manifest demo_apk 8 (encode demo_doc) demo_doc [1; 2; 3] demo_fresh (str "app-release.apk")
    (mkCtl (Some []) []) [] demo_doc_ok demo_doc_clean
    (ex_intro _ [] (conj eq_refl (Forall_nil_2 _))) _ (or_intror (conj eq_refl eq_refl)) eq_refl eq_refl).
  split; [apply zlen_nonneg|vm_compute; reflexivity].
Defined.

Lemma app_ctrl_session_witness : exists c',
  main demo_apk demo_fresh demo_fresh demo_fresh demo_fresh (mkCtl None []) = Ok ((0, -1, 0), c').
Proof.
  refine (app_ctrl_session demo_apk [str "digital_write"] demo_fresh demo_fresh demo_fresh demo_fresh
    (mkCtl None []) eq_refl _).
  intros f Hf. assert (f = demo_fresh) as ->.
  { repeat (apply elem_of_cons in Hf as [-> |Hf]; [done|]). by apply not_elem_of_nil in Hf. }
  vm_compute. reflexivity.
Defined.

Lemma manifest_first_entry_witness :
  getManifestFromAPK (Some (local_entry 0 4 (str "classes.dex") [9; 9; 9; 9]
    ++ local_entry 0 2 (str "AndroidManifest.xml") [1; 2])) = Ok ([], 0).
Proof.
  refine (proj2 (manifest_first_entry 0 (str "classes.dex") [9; 9; 9; 9] [9; 9; 9; 9] _ _ (or_introl (conj eq_refl eq_refl))) _ _).
  - unfold entry_fits, u16_ok, u32_ok. split_and!; vm_compute; done.
  - vm_compute. discriminate.
  - vm_compute. discriminate.
Defined.

End Demo.
